(* ===== verification/_CoqProject ===== *)
-Q . S2P
Prelude.v
DeviceIds.v
Links.v
Interfaces.v
MemMap.v
Pmm.v
MemUtil.v
Kheap.v
Paging.v
Vmm.v
Boot.v
ListDs.v
Path.v
Vnode.v
Initrd.v
Bytes.v
Ports.v
Module.v
Elf.v
ExecStack.v
Sched.v
Process.v
Bcache.v
Time.v
Term.v
Kprintf.v
Klog.v
Panic.v
Input.v
Irq.v
Gpt.v
Ide.v
Ahci.v
Fat.v
FatFs.v
FatMount.v
Device.v
Pci.v
Devfs.v
Rtc.v
Keyboard.v
I8042.v
Pit.v
Serial.v
Power.v
Readline.v
Kcon.v
Programs.v
Cpu.v
Smp.v
AcpiOs.v
AcpiDev.v
UacpiLib.v
UacpiShare.v
UacpiIo.v
UacpiMutex.v
UacpiStr.v
UacpiNs.v
UacpiReg.v
UacpiSleep.v
UacpiOsi.v
IoApic.v
Apic.v
Syscall.v
DiskRead.v
