(* ===== verification/Prelude.v ===== *)
(** * GarnOS kernel: a verification library (root file)

    GarnOS is a 64-bit hobby operating system in C: a kernel with physical and virtual
    memory management, a heap, a file layer, processes, a terminal, and a device layer with
    loadable drivers; a few user programs come with it.  This library models its own code
    (under [src/kernel], [src/modules], [src/programs] and [src/include/garn]) as Rocq
    functions and proves how it behaves.

    ** How the code is modelled

    C functions become functions that take and return the state they work on, with the
    names of the source.  The result is an [outcome] (this file): a value, or one of the
    ways the code can stop, which are a call of [panic], a lock nobody will release, an
    access it must not make, and a loop bound that was too small.  [Returns] is total
    correctness, [Safe] allows the panic of an allocator that has run out of memory.
    Integers are [Z], with the conversion to the width of the C type ([u8], [u32], [i64]
    ...) written where the code can leave it.  Memory is a function from addresses to
    bytes ([mem] in MemUtil; loads and stores of words in Bytes); structures that are only
    reached through pointers are maps from addresses to records.  Linked lists are linked
    through memory as in the code (Links, ListDs).  The kernel has one heap: a component
    that allocates works on a state with the heap in it, through the class [KernelHeap].

    Loops that are not structural have a bound ([fuel]).  The theorems ask for a bound above
    the length of the list, the string or the chain that is walked, which shows that the
    loop ends; loops with a fixed number of rounds need none.

    What is not code of the kernel is an argument: the answers of the boot loader and of
    ACPI tables, drives and other hardware, the functions of drivers, values of
    uninitialised variables.  Log messages and their time stamps are left out where the
    result of the code does not depend on them.  Code runs on one processor: a lock that is
    taken twice is a [Deadlock].  The exception is the start of the other processors (Smp),
    where all of them take steps in any order.

    Drivers work on an interface to the hardware: the class [PortIO] (Ports) for ports, and
    classes of their own for memory that a device reaches.  What the device does is stated
    as laws of that interface, after its documentation, and an executable device is given
    as an instance, so that the laws can hold.

    ** The files

    - Prelude: outcomes, locks, machine integers, loops; the tactics and lemmas shared by
      all.  Links: lists linked through memory.  Interfaces: what one component promises to
      another, as the classes [PageAllocator], [KernelHeap] and their laws.  Bytes: words in
      byte memory.  DeviceIds: the numbers of device classes and of the PCI registers.
    - MemMap, Pmm ([mem/memmap], [mem/pmm]): the memory map and the page bitmap.  Allocation
      and freeing change exactly the pages asked for, and from [pmm_init] on the counters
      agree with the bitmap up to a constant of the memory map.
    - Kheap ([mem/kheap]): the heap refines a set of live areas that never overlap, over any
      page allocator that keeps its laws; it is the instance of [KernelHeap].
    - MemUtil ([mem/memutil]): [memmove] and the string functions.
    - Paging, Vmm ([arch/x86_64/mm.c], [mem/vmm]): page tables as the processor walks them;
      mapping and unmapping change one translation, [mmap] maps exactly the first run of free
      pages and returns it, and an address space refines a map from pages to frames.
    - Boot ([sys/bootloader.c], [kernel.c]): the three steps that bring up the memory; the
      kernel's address space is given page by page and the heap's invariant is established.
    - ListDs, Path, Vnode, Initrd ([ds/list.c], [sys/fal]): lists, path names, the file layer
      and its system calls, the ram disk; looking up a path finds the archive entry it names.
    - Module, Elf, ExecStack ([module], [sys/ksym.c], [exec/elf.c]): symbols, relocation and
      loading of modules, drivers and programs; the program's image, for segments that share
      no page, and its stack.
    - Sched, Process ([process]): the scheduler's ring, in which every ready thread gets its turn
      within as many ticks as there are threads, and processes.
    - Bcache, Gpt ([sys/dal/stor]): the block cache, drives and partition tables, with the
      class [HasStorage] for states that contain them.
    - Fat, FatFs, FatMount ([modules/fat]): long and short names, the clusters of a file, and
      mounting; a system volume becomes the root in the state that reading a file asks for.
    - Ports, Ide, Ahci ([arch/x86_64/ports.c], [modules/ide], [modules/ahci]): the disk
      drivers.  Each discharges [serves], the interface through which the block cache,
      partition tables and file systems reach a drive.
    - Device, Pci, Devfs ([sys/dal/dev], [hw/pci]): the device and driver managers, the PCI
      scan, and the device file system.  A device gets the first driver that serves it.
    - AcpiOs, AcpiDev ([acpi], [sys/dal/dev/acpidev.c]): what the kernel offers to uACPI, and
      the devices found through it.
    - UacpiLib, UacpiStr, UacpiShare, UacpiIo, UacpiMutex, UacpiNs, UacpiReg, UacpiSleep,
      UacpiOsi ([acpi/uacpi]): the parts of uACPI that stand on their own.  Strings and bits;
      formatted output, which stays within its buffer, and numbers, which are read back;
      reference counts; the fields of buffers and of the fixed registers, which read back
      what was written and leave the other bits alone; the global lock, which the kernel and
      the firmware never have at the same time; the name space, whose path names lead back
      to their nodes and whose walk without a stack visits the tree in preorder; the writes
      that put the machine to sleep or turn it off; and the interfaces of [_OSI], which
      refine a set of names.
    - Time, Rtc, Pit, Irq ([sys/time.c], [modules/rtc], [modules/pit], [cpu/irq.c],
      [sys/timer.c]): calendar dates, the clock chip, the interval timer with bounds on its
      rate, and interrupt handlers.
    - Cpu, Smp, Apic, IoApic ([arch/x86_64], [cpu/smp]): the descriptor tables of every
      processor, the start of the other processors, which ends and waits for all of them,
      and the interrupt controllers.
    - Term, Kprintf, Serial, Readline ([sys/term], [display], [klibc/kstdio], [hw/serial]):
      the terminal refines a screen of glyphs, in the framebuffer and in its copy; formatted output prints numerals; the serial
      port; line input refines a simple editor.
    - Klog, Panic ([sys/panic.c], [ubsan]): what the log and the panic screen print, on a
      terminal with its lock free, and what happens when the lock is taken.
    - Input, Keyboard, I8042 ([sys/term/input.c], [modules/i8042]): the queue of typed
      characters, the keyboard that fills it and the set-up of its controller.
    - Power, Kcon ([sys/power.c], [sys/dal/checksysfs.c], [consoledemo]): shutting down, the
      check for the system volume, and the console of the kernel.
    - Programs ([src/programs]): the shell, ls, echo, fib and gname.
    - Syscall ([sys/syscall.c], [sys/uname.c], [arch/x86_64/interrupts]): the dispatch of system
      calls and exceptions; a read goes from the dispatcher through the file layer to the ram
      disk.  DiskRead composes it with FatFs and Ahci: a read of a file of a FAT volume on a
      SATA disk returns the bytes of the disk.

    ** Modelling notes

    The memory of a process is kept by page table, and what a process sees is its own part
    and the shared kernel half.  Loading a program follows the translations: a page with a
    new frame has new contents, and a store to a page without one faults.  The other stores
    to user memory take the pages to be mapped, which [syscall_read_sata_file] asks for.  The page table register is in the state of the processor of
    Sched and in that of Vmm; the functions that switch it set both.  Buffers of the block
    cache are named by their index plus one, so that 0 is NULL.  Numbers printed as C
    strings are lists of character codes ([chars]).

    Many theorems without a number state what the code does where it differs from what it
    means to do: a lock that stays taken, an index that is not checked, a result that is not
    returned.  They are proved of the same definitions.

    ** Not modelled

    uACPI beyond the files named above (the interpreter, objects, tables, operation regions,
    resources and events), which is third-party code kept in the tree; the bitmaps of the
    font, which are data; assembly, except for its effect on the registers and descriptor
    tables of Cpu; the order of initialisation in [kernel.c] and [dal.c] outside of Boot; the
    example module; the programs init and clear, which only start the shell and clear the
    screen. *)

From Stdlib Require Export ZArith Lia Ascii String Bool.
From stdpp Require Export base gmap list strings.

#[local] Open Scope Z_scope.

(** ** Outcomes of kernel code

    A piece of kernel code either returns a value or stops in one of the ways
    the C code can stop:
    - [Panic] : [panic()] was called; it halts the machine and never returns;
    - [Deadlock] : [acquireLock] spins on a lock nobody is going to release;
    - [Fault] : the code touches memory it must not touch (a NULL pointer, an
      index outside an array);
    - [OutOfFuel] : the loop bound given to the model was too small.  Theorems
      about a loop show that this never happens with the stated bound. *)
Inductive outcome (A : Type) : Type :=
| Ret (a : A)
| Panic (msg : string)
| Deadlock
| Fault
| OutOfFuel.

Arguments Ret {_} _.
Arguments Panic {_} _.
Arguments Deadlock {_}.
Arguments Fault {_}.
Arguments OutOfFuel {_}.

#[global] Instance outcome_ret : MRet outcome := @Ret.
#[global] Instance outcome_bind : MBind outcome := fun A B f m =>
  match m with
  | Ret a => f a
  | Panic s => Panic s
  | Deadlock => Deadlock
  | Fault => Fault
  | OutOfFuel => OutOfFuel
  end.

(** [Returns m P]: the code returns, and its value satisfies [P] (total
    correctness). *)
Definition Returns {A} (m : outcome A) (P : A -> Prop) : Prop :=
  exists a, m = Ret a /\ P a.

Lemma Returns_ret {A} (a : A) (P : A -> Prop) : P a -> Returns (Ret a) P.
Proof. intros H. exists a. auto. Qed.

Lemma Returns_bind {A B} (m : outcome A) (f : A -> outcome B) P Q :
  Returns m P -> (forall a, P a -> Returns (f a) Q) -> Returns (m ≫= f) Q.
Proof. intros (a & -> & Ha) H. exact (H a Ha). Qed.

Lemma Returns_mono {A} (m : outcome A) (P Q : A -> Prop) :
  Returns m P -> (forall a, P a -> Q a) -> Returns m Q.
Proof. intros (a & E & Ha) H. exists a. auto. Qed.

Lemma bind_Ret {A B} (m : outcome A) (f : A -> outcome B) b :
  m ≫= f = Ret b -> exists a, m = Ret a /\ f a = Ret b.
Proof. destruct m; simpl; intros H; try discriminate. eauto. Qed.

(** [Safe m P]: the code returns with [P], or stops in [panic()]; it neither hangs
    nor touches memory it must not touch. *)
Definition Safe {A} (m : outcome A) (P : A -> Prop) : Prop :=
  match m with Ret a => P a | Panic _ => True | _ => False end.

Lemma Safe_bind {A B} (m : outcome A) (f : A -> outcome B) P Q :
  Safe m P -> (forall a, P a -> Safe (f a) Q) -> Safe (m ≫= f) Q.
Proof. destruct m; simpl; auto; contradiction. Qed.

Lemma Safe_mono {A} (m : outcome A) (P Q : A -> Prop) :
  Safe m P -> (forall a, P a -> Q a) -> Safe m Q.
Proof. destruct m; simpl; auto. Qed.

Lemma Safe_Ret {A} (m : outcome A) (P : A -> Prop) a : Safe m P -> m = Ret a -> P a.
Proof. intros H ->. exact H. Qed.

(** Take a successful run apart: every [m ≫= f = Ret _] hypothesis becomes the
    equations of its parts. *)
Ltac inv_ret :=
  repeat match goal with
  | H : (_ ≫= _) = Ret _ |- _ =>
      let a := fresh "a" in let E := fresh "E" in
      apply bind_Ret in H; destruct H as (a & E & H)
  | H : Ret _ = Ret _ |- _ => injection H; clear H; intros; subst
  | H : mret _ = Ret _ |- _ => injection H; clear H; intros; subst
  | H : Panic _ = Ret _ |- _ => discriminate H
  | H : Deadlock = Ret _ |- _ => discriminate H
  | H : Fault = Ret _ |- _ => discriminate H
  | H : OutOfFuel = Ret _ |- _ => discriminate H
  | x : (_ * _)%type |- _ => destruct x
  end.

(** ** Spin locks ([include/garn/spinlock.h], [arch/x86_64/spinlock.asm])

    A lock is its bit 0.  [acquireLock] spins until the bit is clear and sets
    it; on one processor, with nobody left to clear it, spinning never ends. *)
Definition spinlock_t : Type := bool.

Definition acquireLock (l : spinlock_t) : outcome spinlock_t :=
  if l then Deadlock else Ret true.

Definition releaseLock (l : spinlock_t) : spinlock_t := false.

(** ** Machine integers *)

(** [wrap w x]: conversion to a [w]-bit unsigned type. *)
Definition wrap (w x : Z) : Z := x mod 2 ^ w.

(** [swrap w x]: conversion to a [w]-bit two's complement type. *)
Definition swrap (w x : Z) : Z := (x + 2 ^ (w - 1)) mod 2 ^ w - 2 ^ (w - 1).

Abbreviation u8 := (wrap 8).
Abbreviation u16 := (wrap 16).
Abbreviation u32 := (wrap 32).
Abbreviation u64 := (wrap 64).
Abbreviation i8 := (swrap 8).
Abbreviation i32 := (swrap 32).
Abbreviation i64 := (swrap 64).

Lemma wrap_small w x : 0 <= x < 2 ^ w -> wrap w x = x.
Proof. intros H. unfold wrap. now apply Z.mod_small. Qed.

Lemma wrap_range w x : 0 <= w -> 0 <= wrap w x < 2 ^ w.
Proof. intros H. unfold wrap. apply Z.mod_pos_bound. now apply Z.pow_pos_nonneg. Qed.

Lemma swrap_small w x : 0 < w -> - 2 ^ (w - 1) <= x < 2 ^ (w - 1) -> swrap w x = x.
Proof.
  intros Hw H. unfold swrap.
  assert (2 ^ w = 2 * 2 ^ (w - 1)) as E.
  { rewrite <- Z.pow_succ_r by lia. f_equal. lia. }
  rewrite Z.mod_small; lia.
Qed.

Lemma swrap_range w x : 0 < w -> - 2 ^ (w - 1) <= swrap w x < 2 ^ (w - 1).
Proof.
  intros Hw. unfold swrap.
  assert (2 ^ w = 2 * 2 ^ (w - 1)) as E.
  { rewrite <- Z.pow_succ_r by lia. f_equal. lia. }
  pose proof (Z.mod_pos_bound (x + 2 ^ (w - 1)) (2 ^ w)).
  assert (0 < 2 ^ (w - 1)) by (apply Z.pow_pos_nonneg; lia). lia.
Qed.

(** Constant powers of two, for [lia]. *)
Ltac pow2_consts :=
  change (2 ^ 8) with 256 in *;
  change (2 ^ 12) with 4096 in *;
  change (2 ^ 16) with 65536 in *;
  change (2 ^ 31) with 2147483648 in *;
  change (2 ^ 32) with 4294967296 in *;
  change (2 ^ 63) with 9223372036854775808 in *;
  change (2 ^ 64) with 18446744073709551616 in *;
  change (2 ^ (8 - 1)) with 128 in *;
  change (2 ^ (32 - 1)) with 2147483648 in *;
  change (2 ^ (64 - 1)) with 9223372036854775808 in *.

(** [wrap_lia]: expose the wrap-around as [mod] and finish with [lia]. *)
Ltac wrap_lia :=
  unfold wrap, swrap in *; pow2_consts;
  Z.div_mod_to_equations; lia.

(** Split conjunctions only. *)
Ltac splits := repeat match goal with |- _ /\ _ => split end.

(** Division and remainder by constants, for [lia]. *)
Ltac dm := Z.div_mod_to_equations; lia.

(** ** Page size and alignment ([include/garn/mm.h]) *)

Definition PAGE_SIZE : Z := 4096.

(** [ALIGN_UP(x, alignment)] at type [uint64_t]. *)
Definition ALIGN_UP (x alignment : Z) : Z :=
  if x mod alignment =? 0 then x else u64 (x + (alignment - x mod alignment)).

Lemma ALIGN_UP_spec x a :
  0 < a -> 0 <= x -> x + a <= 2 ^ 64 ->
  x <= ALIGN_UP x a < x + a /\ ALIGN_UP x a mod a = 0.
Proof.
  intros Ha Hx Hb. unfold ALIGN_UP.
  pose proof (Z.mod_pos_bound x a Ha) as Hm.
  destruct (Z.eqb_spec (x mod a) 0) as [E|E]; [lia|].
  rewrite wrap_small by lia. split; [lia|].
  replace (x + (a - x mod a)) with ((x / a + 1) * a).
  - apply Z_mod_mult.
  - pose proof (Z.div_mod x a). lia.
Qed.

(** ** Error numbers ([include/garn/kerrno.h]) *)
Definition ENOENT : Z := 2.
Definition ENOEXEC : Z := 8.
Definition EBADF : Z := 9.
Definition ENOMEM : Z := 12.
Definition EACCES : Z := 13.
Definition EFAULT : Z := 14.
Definition EEXIST : Z := 17.
Definition ENODEV : Z := 19.
Definition ENOTDIR : Z := 20.
Definition EISDIR : Z := 21.
Definition EINVAL : Z := 22.
Definition EMFILE : Z := 24.
Definition ERANGE : Z := 34.
Definition ENOSYS : Z := 88.
Definition ENAMETOOLONG : Z := 91.
Definition EOVERFLOW : Z := 139.

(** ** Loops

    [for_up n i body s] is [for(; n iterations; i++) body], the state threaded
    through.  [for_ret] is the same for a body that may leave the enclosing
    function: [inl r] is [return r], [inr s] goes on. *)
Section Loops.
Context {S R : Type}.
Implicit Types (s : S) (I : Z -> S -> Prop).

Fixpoint for_up (n : nat) (i : Z) (body : Z -> S -> outcome S) s : outcome S :=
  match n with
  | O => Ret s
  | Datatypes.S n' => s' ← body i s; for_up n' (i + 1) body s'
  end.

Fixpoint for_ret (n : nat) (i : Z) (body : Z -> S -> outcome (R + S)) s
    : outcome (R + S) :=
  match n with
  | O => Ret (inr s)
  | Datatypes.S n' =>
      r ← body i s;
      match r with
      | inl v => Ret (inl v)
      | inr s' => for_ret n' (i + 1) body s'
      end
  end.

(** Total correctness of a counted loop from an invariant. *)
Lemma for_up_Returns I n i body s :
  I i s ->
  (forall k s1, i <= k < i + Z.of_nat n -> I k s1 -> Returns (body k s1) (I (k + 1))) ->
  Returns (for_up n i body s) (I (i + Z.of_nat n)).
Proof.
  revert i s. induction n as [|n IH]; intros i s Hi Hstep; cbn [for_up].
  - apply Returns_ret. now rewrite Z.add_0_r.
  - eapply Returns_bind.
    + apply Hstep; [lia|exact Hi].
    + intros s' Hs'. replace (i + Z.of_nat (Datatypes.S n)) with ((i + 1) + Z.of_nat n) by lia.
      apply IH; [exact Hs'|]. intros k s1 Hk. apply Hstep. lia.
Qed.

(** The same, the body being allowed to panic. *)
Lemma for_up_Safe I n i body s :
  I i s ->
  (forall k s1, i <= k < i + Z.of_nat n -> I k s1 -> Safe (body k s1) (I (k + 1))) ->
  Safe (for_up n i body s) (I (i + Z.of_nat n)).
Proof.
  revert i s. induction n as [|n IH]; intros i s Hi Hstep; cbn [for_up].
  - simpl. now rewrite Z.add_0_r.
  - eapply Safe_bind.
    + apply Hstep; [lia|exact Hi].
    + intros s' Hs'. replace (i + Z.of_nat (Datatypes.S n)) with ((i + 1) + Z.of_nat n) by lia.
      apply IH; [exact Hs'|]. intros k s1 Hk. apply Hstep. lia.
Qed.

(** Partial correctness: what holds when the loop comes to its end. *)
Lemma for_up_inv I n i body s s' :
  I i s ->
  (forall k s1 s2, i <= k < i + Z.of_nat n -> I k s1 -> body k s1 = Ret s2 -> I (k + 1) s2) ->
  for_up n i body s = Ret s' -> I (i + Z.of_nat n) s'.
Proof.
  revert i s. induction n as [|n IH]; intros i s Hi Hstep; cbn [for_up]; intros H.
  - inv_ret. now rewrite Z.add_0_r.
  - apply bind_Ret in H. destruct H as (s1 & E & H).
    replace (i + Z.of_nat (Datatypes.S n)) with ((i + 1) + Z.of_nat n) by lia.
    eapply IH; [|intros k t1 t2 Hk; apply Hstep; lia|exact H].
    eapply Hstep; [lia|exact Hi|exact E].
Qed.

(** The same for a loop with early return: [J] describes a returned value. *)
Lemma for_ret_Returns I (J : R -> Prop) n i body s :
  I i s ->
  (forall k s1, i <= k < i + Z.of_nat n -> I k s1 ->
    Returns (body k s1) (fun r => match r with inl v => J v | inr s2 => I (k + 1) s2 end)) ->
  Returns (for_ret n i body s)
    (fun r => match r with inl v => J v | inr s2 => I (i + Z.of_nat n) s2 end).
Proof.
  revert i s. induction n as [|n IH]; intros i s Hi Hstep; cbn [for_ret].
  - apply Returns_ret. now rewrite Z.add_0_r.
  - eapply Returns_bind.
    + apply Hstep; [lia|exact Hi].
    + intros [v|s'] Hs'; [now apply Returns_ret|].
      replace (i + Z.of_nat (Datatypes.S n)) with ((i + 1) + Z.of_nat n) by lia.
      apply IH; [exact Hs'|]. intros k s1 Hk. apply Hstep. lia.
Qed.

(** [for_cond] is [for(; cond; i++) body] with a condition that is evaluated in the
    current state, and early return; it takes fuel. *)
Fixpoint for_cond (fuel : nat) (i : Z) (cond : Z -> S -> bool) (body : Z -> S -> outcome (R + S)) s
    : outcome (R + S) :=
  match fuel with
  | O => OutOfFuel
  | Datatypes.S f =>
      if cond i s then
        r ← body i s;
        match r with
        | inl v => Ret (inl v)
        | inr s' => for_cond f (i + 1) cond body s'
        end
      else Ret (inr s)
  end.

(** Total correctness when the condition is a bound [n] that the invariant fixes. *)
Lemma for_cond_Returns I (J : R -> Prop) n fuel i cond body s :
  I i s -> i <= n -> n - i < Z.of_nat fuel ->
  (forall k s1, i <= k <= n -> I k s1 -> cond k s1 = (k <? n)) ->
  (forall k s1, i <= k < n -> I k s1 ->
    Returns (body k s1) (fun r => match r with inl v => J v | inr s2 => I (k + 1) s2 end)) ->
  Returns (for_cond fuel i cond body s) (fun r => match r with inl v => J v | inr s2 => I n s2 end).
Proof.
  revert i s. induction fuel as [|f IH]; intros i s Hi Hin Hf Hc Hstep; [lia|]. cbn [for_cond].
  rewrite (Hc i s ltac:(lia) Hi). destruct (Z.ltb_spec i n) as [Hlt|Hge].
  - eapply Returns_bind; [apply Hstep; [lia|exact Hi]|]. intros [v|s'] Hs'; [now apply Returns_ret|].
    apply IH; [exact Hs'|lia|lia| |]; intros k s1 Hk; [apply Hc|apply Hstep]; lia.
  - apply Returns_ret. now replace n with i by lia.
Qed.

(** The same, the body being allowed to panic. *)
Lemma for_cond_Safe I (J : R -> Prop) n fuel i cond body s :
  I i s -> i <= n -> n - i < Z.of_nat fuel ->
  (forall k s1, i <= k <= n -> I k s1 -> cond k s1 = (k <? n)) ->
  (forall k s1, i <= k < n -> I k s1 ->
    Safe (body k s1) (fun r => match r with inl v => J v | inr s2 => I (k + 1) s2 end)) ->
  Safe (for_cond fuel i cond body s) (fun r => match r with inl v => J v | inr s2 => I n s2 end).
Proof.
  revert i s. induction fuel as [|f IH]; intros i s Hi Hin Hf Hc Hstep; [lia|]. cbn [for_cond].
  rewrite (Hc i s ltac:(lia) Hi). destruct (Z.ltb_spec i n) as [Hlt|Hge].
  - eapply Safe_bind; [apply Hstep; [lia|exact Hi]|]. intros [v|s'] Hs'; [exact Hs'|].
    apply IH; [exact Hs'|lia|lia| |]; intros k s1 Hk; [apply Hc|apply Hstep]; lia.
  - cbn. now replace n with i by lia.
Qed.
End Loops.

(** ** Memory as a function from addresses

    [upd m a v] is the memory after a store of [v] at [a]. *)
Definition upd {A} (m : Z -> A) (a : Z) (v : A) : Z -> A :=
  fun x => if x =? a then v else m x.

Lemma upd_eq {A} (m : Z -> A) a v : upd m a v a = v.
Proof. unfold upd. now rewrite Z.eqb_refl. Qed.

Lemma upd_ne {A} (m : Z -> A) a v x : x <> a -> upd m a v x = m x.
Proof. intros H. unfold upd. destruct (Z.eqb_spec x a); [contradiction|easy]. Qed.

(** The bytes of a string constant. *)
Definition chars (s : string) : list Z :=
  map (fun c => Z.of_N (Ascii.N_of_ascii c)) (String.list_ascii_of_string s).

(** Case analysis on every integer comparison of the goal and hypotheses. *)
Ltac zcmp :=
  repeat match goal with
  | |- context [?x =? ?y] => destruct (Z.eqb_spec x y)
  | |- context [?x <? ?y] => destruct (Z.ltb_spec x y)
  | |- context [?x <=? ?y] => destruct (Z.leb_spec x y)
  | H : context [?x =? ?y] |- _ => destruct (Z.eqb_spec x y)
  | H : context [?x <? ?y] |- _ => destruct (Z.ltb_spec x y)
  | H : context [?x <=? ?y] |- _ => destruct (Z.leb_spec x y)
  end.

(** ** Bits of words *)

Create Rewrite HintDb zbits.

#[export] Hint Rewrite
  Z.lor_spec Z.land_spec Z.lxor_spec Z.ldiff_spec Z.testbit_0_l
  Bool.andb_true_r Bool.andb_false_r Bool.orb_false_r Bool.orb_true_r
  : zbits.

#[export] Hint Rewrite
  Z.shiftl_spec Z.shiftr_spec Z.lnot_spec using lia : zbits.

Lemma testbit_high w n i : 0 <= n < 2 ^ w -> 0 <= w <= i -> Z.testbit n i = false.
Proof.
  intros Hn Hi. rewrite <- (Z.mod_small n (2 ^ w)) by assumption.
  apply Z.mod_pow2_bits_high. lia.
Qed.

Lemma testbit_pow2 n i : 0 <= n -> Z.testbit (2 ^ n) i = (n =? i).
Proof. intros Hn. apply Z.pow2_bits_eqb. exact Hn. Qed.

(** A word is bounded by [2 ^ w] when its bits from [w] on are clear. *)
Lemma bits_bound w n :
  0 <= w -> 0 <= n -> (forall i, w <= i -> Z.testbit n i = false) -> n < 2 ^ w.
Proof.
  intros Hw Hn H. destruct (Z.eq_dec n 0) as [->|Hn0]; [apply Z.pow_pos_nonneg; lia|].
  apply Z.log2_lt_pow2; [lia|].
  destruct (Z.lt_ge_cases (Z.log2 n) w) as [|Hge]; [assumption|].
  specialize (H _ Hge). rewrite Z.bit_log2 in H by lia. discriminate.
Qed.
