(* ===== verification/DeviceIds.v ===== *)
(** * Kinds of devices ([include/garn/dal/device-types.h], [include/garn/hw/pci.h], the table
    of [kernel/sys/dal/dev/pcidev.c])

    The buses and types of devices of the kernel, the class and subclass numbers of the PCI
    bus, and for each class its branch of the [switch] in [pcidev_detect]. *)

From S2P Require Import Prelude.
#[local] Open Scope string_scope.
#[local] Open Scope Z_scope.

(** ** Buses *)

Definition DEVICE_BUS_NONE : Z := 1.
Definition DEVICE_BUS_PCI : Z := 2.
Definition DEVICE_BUS_ACPI : Z := 3.

(** ** Types of devices *)

Definition DEVICE_TYPE_UNDEFINED : Z := 0.
Definition DEVICE_TYPE_STORAGE_CONTROLLER : Z := 1.
Definition DEVICE_TYPE_NETWORK_CONTROLLER : Z := 2.
Definition DEVICE_TYPE_DISPLAY_CONTROLLER : Z := 3.
Definition DEVICE_TYPE_MULTIMEDIA_CONTROLLER : Z := 4.
Definition DEVICE_TYPE_MEMORY_CONTROLLER : Z := 5.
Definition DEVICE_TYPE_SERIAL_DEVICE : Z := 6.
Definition DEVICE_TYPE_PARALLEL_DEVICE : Z := 7.
Definition DEVICE_TYPE_GPIB : Z := 8.
Definition DEVICE_TYPE_COMMUNICATION_DEVICE : Z := 9.
Definition DEVICE_TYPE_MODEM : Z := 10.
Definition DEVICE_TYPE_SYSTEM_DEVICE : Z := 12.
Definition DEVICE_TYPE_SD_HOST_CONTROLLER : Z := 13.
Definition DEVICE_TYPE_INPUT_CONTROLLER : Z := 14.
Definition DEVICE_TYPE_DOCKING_STATION : Z := 16.
Definition DEVICE_TYPE_PROCESSOR : Z := 17.
Definition DEVICE_TYPE_SERIAL_BUS : Z := 18.

(** ** Classes *)

Definition PCI_CLASS_UNCLASSIFIED : Z := 0x00.
Definition PCI_CLASS_STORAGE_CONTROLLER : Z := 0x01.
Definition PCI_CLASS_NETWORK_CONTROLLER : Z := 0x02.
Definition PCI_CLASS_DISPLAY_CONTROLLER : Z := 0x03.
Definition PCI_CLASS_MULTIMEDIA_CONTROLLER : Z := 0x04.
Definition PCI_CLASS_MEMORY_CONTROLLER : Z := 0x05.
Definition PCI_CLASS_BRIDGE : Z := 0x06.
Definition PCI_CLASS_COMMUNICATION_CONTROLLER : Z := 0x07.
Definition PCI_CLASS_BASE_SYSTEM_PERIPHERAL : Z := 0x08.
Definition PCI_CLASS_INPUT_CONTROLLER : Z := 0x09.
Definition PCI_CLASS_DOCKING_STATION : Z := 0x0A.
Definition PCI_CLASS_PROCESSOR : Z := 0x0B.
Definition PCI_CLASS_SERIAL_BUS_CONTROLLER : Z := 0x0C.
Definition PCI_CLASS_WIRELESS_CONTROLLER : Z := 0x0D.
Definition PCI_CLASS_INTELLIGENT_CONTROLLER : Z := 0x0E.
Definition PCI_CLASS_SATELLITE_COMMUNICATION_CONTROLLER : Z := 0x0F.
Definition PCI_CLASS_ENCRYPTION_CONTROLLER : Z := 0x10.
Definition PCI_CLASS_SIGNAL_PROCESSING_CONTROLLER : Z := 0x11.
Definition PCI_CLASS_PROCESSING_ACCELERATOR : Z := 0x12.
Definition PCI_CLASS_NON_ESSENTIAL : Z := 0x13.
Definition PCI_CLASS_COPROCESSOR : Z := 0x40.

(** ** Subclasses *)

Definition PCI_SUBCLASS_SCSI_BUS : Z := 0x00.
Definition PCI_SUBCLASS_IDE : Z := 0x01.
Definition PCI_SUBCLASS_FLOPPY : Z := 0x02.
Definition PCI_SUBCLASS_IPI : Z := 0x03.
Definition PCI_SUBCLASS_RAID : Z := 0x04.
Definition PCI_SUBCLASS_ATA : Z := 0x05.
Definition PCI_SUBCLASS_SATA : Z := 0x06.
Definition PCI_SUBCLASS_SAS : Z := 0x07.
Definition PCI_SUBCLASS_NVM : Z := 0x08.
Definition PCI_SUBCLASS_UFS : Z := 0x09.
Definition PCI_SUBCLASS_ETHERNET : Z := 0x00.
Definition PCI_SUBCLASS_TOKEN_RING : Z := 0x01.
Definition PCI_SUBCLASS_FDDI : Z := 0x02.
Definition PCI_SUBCLASS_ATM : Z := 0x03.
Definition PCI_SUBCLASS_ISDN : Z := 0x04.
Definition PCI_SUBCLASS_WORLDFLIP : Z := 0x05.
Definition PCI_SUBCLASS_PICMG_2_14 : Z := 0x06.
Definition PCI_SUBCLASS_INFINIBAND : Z := 0x07.
Definition PCI_SUBCLASS_FABRIC : Z := 0x08.
Definition PCI_SUBCLASS_VGA : Z := 0x00.
Definition PCI_SUBCLASS_XGA : Z := 0x01.
Definition PCI_SUBCLASS_3D : Z := 0x02.
Definition PCI_SUBCLASS_VIDEO : Z := 0x00.
Definition PCI_SUBCLASS_AUDIO : Z := 0x01.
Definition PCI_SUBCLASS_TELEPHONY : Z := 0x02.
Definition PCI_SUBCLASS_HDA : Z := 0x03.
Definition PCI_SUBCLASS_RAM : Z := 0x00.
Definition PCI_SUBCLASS_FLASH : Z := 0x01.
Definition PCI_SUBCLASS_CXL : Z := 0x02.
Definition PCI_SUBCLASS_HOST : Z := 0x00.
Definition PCI_SUBCLASS_ISA : Z := 0x01.
Definition PCI_SUBCLASS_EISA : Z := 0x02.
Definition PCI_SUBCLASS_MCA : Z := 0x03.
Definition PCI_SUBCLASS_PCMCIA : Z := 0x05.
Definition PCI_SUBCLASS_NUBUS : Z := 0x06.
Definition PCI_SUBCLASS_RACEWAY : Z := 0x08.
Definition PCI_SUBCLASS_INFINIBAND_TO_PCI : Z := 0x0A.
Definition PCI_SUBCLASS_SERIAL : Z := 0x00.
Definition PCI_SUBCLASS_PARALLEL : Z := 0x01.
Definition PCI_SUBCLASS_MULTIPORT_SERIAL : Z := 0x02.
Definition PCI_SUBCLASS_MODEM : Z := 0x03.
Definition PCI_SUBCLASS_GPIB : Z := 0x04.
Definition PCI_SUBCLASS_SMART_CARD : Z := 0x05.
Definition PCI_SUBCLASS_PIC : Z := 0x00.
Definition PCI_SUBCLASS_DMA : Z := 0x01.
Definition PCI_SUBCLASS_TIMER : Z := 0x02.
Definition PCI_SUBCLASS_RTC : Z := 0x03.
Definition PCI_SUBCLASS_HOT_PLUG : Z := 0x04.
Definition PCI_SUBCLASS_SD : Z := 0x05.
Definition PCI_SUBCLASS_IOMMU : Z := 0x06.
Definition PCI_SUBCLASS_EVENT_COLLECTOR : Z := 0x07.
Definition PCI_SUBCLASS_TIMING_CARD : Z := 0x99.
Definition PCI_SUBCLASS_KEYBOARD_CONTROLLER : Z := 0x00.
Definition PCI_SUBCLASS_DIGITIZER : Z := 0x01.
Definition PCI_SUBCLASS_MOUSE_CONTROLLER : Z := 0x02.
Definition PCI_SUBCLASS_SCANNER_CONTROLLER : Z := 0x03.
Definition PCI_SUBCLASS_GAMEPORT_CONTROLLER : Z := 0x04.
Definition PCI_SUBCLASS_GENERIC : Z := 0x00.
Definition PCI_SUBCLASS_386 : Z := 0x00.
Definition PCI_SUBCLASS_486 : Z := 0x01.
Definition PCI_SUBCLASS_PENTIUM : Z := 0x02.
Definition PCI_SUBCLASS_PENTIUM_PRO : Z := 0x03.
Definition PCI_SUBCLASS_ALPHA : Z := 0x10.
Definition PCI_SUBCLASS_PPC : Z := 0x20.
Definition PCI_SUBCLASS_MIPS : Z := 0x30.
Definition PCI_SUBCLASS_FIREWIRE : Z := 0x00.
Definition PCI_SUBCLASS_ACCESS_BUS : Z := 0x01.
Definition PCI_SUBCLASS_SSA : Z := 0x02.
Definition PCI_SUBCLASS_USB : Z := 0x03.
Definition PCI_SUBCLASS_FIBRE : Z := 0x04.
Definition PCI_SUBCLASS_SMBUS : Z := 0x05.
Definition PCI_SUBCLASS_SERIAL_INFINIBAND : Z := 0x06.
Definition PCI_SUBCLASS_IPMI : Z := 0x07.
Definition PCI_SUBCLASS_SERCOS : Z := 0x08.
Definition PCI_SUBCLASS_CANBUS : Z := 0x09.
Definition PCI_SUBCLASS_IRDA : Z := 0x00.
Definition PCI_SUBCLASS_IR : Z := 0x01.
Definition PCI_SUBCLASS_RF : Z := 0x10.
Definition PCI_SUBCLASS_BLUETOOTH : Z := 0x11.
Definition PCI_SUBCLASS_BROADBAND : Z := 0x12.
Definition PCI_SUBCLASS_ETHERNET_802_1A : Z := 0x20.
Definition PCI_SUBCLASS_ETHERNET_802_1B : Z := 0x21.
Definition PCI_SUBCLASS_CELLULAR_CONTROLLER_MODEM : Z := 0x40.
Definition PCI_SUBCLASS_CELLULAR_CONTROLLER_MODEM_WITH_ETHERNET : Z := 0x41.

(** ** The branches *)

(** What a branch sets: the type of the device and its name when no subclass matches, and
    for the subclasses the name and another type, if it is set again. *)
Record branch : Type := mk_branch { b_type : Z; b_default : string; b_subclasses : list (Z * (option Z * string)) }.

Fixpoint assoc {A} (k : Z) (l : list (Z * A)) : option A :=
  match l with
  | [] => None
  | (k', a) :: r => if k =? k' then Some a else assoc k r
  end.

Definition on_class_unclassified : branch :=
  mk_branch DEVICE_TYPE_UNDEFINED "Unclassified PCI Device" [].

Definition on_class_storage_controller : branch :=
  mk_branch DEVICE_TYPE_STORAGE_CONTROLLER "Mass Storage Controller" [
    (PCI_SUBCLASS_SCSI_BUS, (None, "SCSI Storage Controller"));
    (PCI_SUBCLASS_IDE, (None, "IDE Storage Controller"));
    (PCI_SUBCLASS_FLOPPY, (None, "Floppy Disk Controller"));
    (PCI_SUBCLASS_IPI, (None, "IPI Bus Storage Controller"));
    (PCI_SUBCLASS_RAID, (None, "RAID Storage Controller"));
    (PCI_SUBCLASS_ATA, (None, "ATA Storage Controller"));
    (PCI_SUBCLASS_SATA, (None, "SATA Storage Controller"));
    (PCI_SUBCLASS_SAS, (None, "SAS Storage Controller"));
    (PCI_SUBCLASS_NVM, (None, "Non-Volatile Memory Controller"));
    (PCI_SUBCLASS_UFS, (None, "UFS Controller"))].

Definition on_class_network_controller : branch :=
  mk_branch DEVICE_TYPE_NETWORK_CONTROLLER "Network Controller" [
    (PCI_SUBCLASS_ETHERNET, (None, "Ethernet Network Controller"));
    (PCI_SUBCLASS_TOKEN_RING, (None, "Token Ring Network Controller"));
    (PCI_SUBCLASS_FDDI, (None, "FDDI Network Controller"));
    (PCI_SUBCLASS_ATM, (None, "ATM Network Controller"));
    (PCI_SUBCLASS_ISDN, (None, "ISDN Network Controller"));
    (PCI_SUBCLASS_WORLDFLIP, (None, "WorldFlip Network Controller"));
    (PCI_SUBCLASS_PICMG_2_14, (None, "PICMG Network Controller"));
    (PCI_SUBCLASS_INFINIBAND, (None, "Infiniband Network Controller"));
    (PCI_SUBCLASS_FABRIC, (None, "Fabric Network Controller"))].

Definition on_class_display_controller : branch :=
  mk_branch DEVICE_TYPE_DISPLAY_CONTROLLER "Display Controller" [
    (PCI_SUBCLASS_VGA, (None, "VGA Display Controller"));
    (PCI_SUBCLASS_XGA, (None, "XGA Display Controller"));
    (PCI_SUBCLASS_3D, (None, "3D Display Controller"))].

Definition on_class_multimedia_controller : branch :=
  mk_branch DEVICE_TYPE_MULTIMEDIA_CONTROLLER "Multimedia Controller" [
    (PCI_SUBCLASS_VIDEO, (None, "Multimedia Video Controller"));
    (PCI_SUBCLASS_AUDIO, (None, "Multimedia Audio Controller"));
    (PCI_SUBCLASS_TELEPHONY, (None, "Computer Telephony Device"));
    (PCI_SUBCLASS_HDA, (None, "HDA Device"))].

Definition on_class_memory_controller : branch :=
  mk_branch DEVICE_TYPE_MEMORY_CONTROLLER "Memory Controller" [
    (PCI_SUBCLASS_RAM, (None, "RAM Controller"));
    (PCI_SUBCLASS_FLASH, (None, "FLASH Controller"));
    (PCI_SUBCLASS_CXL, (None, "CXL"))].

Definition on_class_bridge : branch :=
  mk_branch DEVICE_TYPE_SYSTEM_DEVICE "Bridge" [
    (PCI_SUBCLASS_HOST, (None, "Host Bridge"));
    (PCI_SUBCLASS_ISA, (None, "ISA Bridge"));
    (PCI_SUBCLASS_EISA, (None, "EISA Bridge"));
    (PCI_SUBCLASS_MCA, (None, "MCA Bridge"));
    (PCI_SUBCLASS_PCMCIA, (None, "PCMCIA Bridge"));
    (PCI_SUBCLASS_NUBUS, (None, "NuBus Bridge"));
    (PCI_SUBCLASS_RACEWAY, (None, "RACEWay Bridge"));
    (PCI_SUBCLASS_INFINIBAND_TO_PCI, (None, "Infiniband to PCI Host Bridge"))].

Definition on_class_communication_controller : branch :=
  mk_branch DEVICE_TYPE_COMMUNICATION_DEVICE "Communication Controller" [
    (PCI_SUBCLASS_MULTIPORT_SERIAL, (Some DEVICE_TYPE_SERIAL_DEVICE, "Serial Controller"));
    (PCI_SUBCLASS_SERIAL, (Some DEVICE_TYPE_SERIAL_DEVICE, "Serial Controller"));
    (PCI_SUBCLASS_PARALLEL, (Some DEVICE_TYPE_PARALLEL_DEVICE, "Parallel Controller"));
    (PCI_SUBCLASS_MODEM, (Some DEVICE_TYPE_MODEM, "Modem"));
    (PCI_SUBCLASS_GPIB, (Some DEVICE_TYPE_GPIB, "GPIB Controller"));
    (PCI_SUBCLASS_SMART_CARD, (None, "Smart Card Controller"))].

Definition on_class_base_system_peripheral : branch :=
  mk_branch DEVICE_TYPE_SYSTEM_DEVICE "System Peripheral" [
    (PCI_SUBCLASS_PIC, (None, "Programmable Interrupt Controller"));
    (PCI_SUBCLASS_DMA, (None, "DMA Controller"));
    (PCI_SUBCLASS_TIMER, (None, "System Timer"));
    (PCI_SUBCLASS_RTC, (None, "Real-Time Clock"));
    (PCI_SUBCLASS_HOT_PLUG, (None, "PCI Hot-plug Controller"));
    (PCI_SUBCLASS_SD, (Some DEVICE_TYPE_SD_HOST_CONTROLLER, "SD Host Controller"));
    (PCI_SUBCLASS_IOMMU, (None, "IOMMU"));
    (PCI_SUBCLASS_EVENT_COLLECTOR, (None, "Event Collector"));
    (PCI_SUBCLASS_TIMING_CARD, (None, "Timing Card"))].

Definition on_class_input_controller : branch :=
  mk_branch DEVICE_TYPE_INPUT_CONTROLLER "Input Device Controller" [
    (PCI_SUBCLASS_KEYBOARD_CONTROLLER, (None, "Keyboard Controller"));
    (PCI_SUBCLASS_DIGITIZER, (None, "Digitizer Pen"));
    (PCI_SUBCLASS_MOUSE_CONTROLLER, (None, "Mouse Controller"));
    (PCI_SUBCLASS_SCANNER_CONTROLLER, (None, "Scanner Controller"));
    (PCI_SUBCLASS_GAMEPORT_CONTROLLER, (None, "Gameport Controller"))].

Definition on_class_docking_station : branch :=
  mk_branch DEVICE_TYPE_DOCKING_STATION "Docking Station" [
    (PCI_SUBCLASS_GENERIC, (None, "Generic Docking Station"))].

Definition on_class_processor : branch :=
  mk_branch DEVICE_TYPE_PROCESSOR "Co-Processor" [
    (PCI_SUBCLASS_386, (None, "PCI Attached 386 Processor"));
    (PCI_SUBCLASS_486, (None, "PCI Attached 486 Processor"));
    (PCI_SUBCLASS_PENTIUM, (None, "PCI Attached Pentium Processor"));
    (PCI_SUBCLASS_PENTIUM_PRO, (None, "PCI Attached Pentium Pro Processor"));
    (PCI_SUBCLASS_ALPHA, (None, "PCI Attached Alpha Processor"));
    (PCI_SUBCLASS_PPC, (None, "PCI Attached PowerPC Processor"));
    (PCI_SUBCLASS_MIPS, (None, "PCI Attached MIPS Processor"))].

Definition on_class_serial_bus_controller : branch :=
  mk_branch DEVICE_TYPE_SERIAL_BUS "Serial Bus Controller" [
    (PCI_SUBCLASS_FIREWIRE, (None, "FireWire Controller"));
    (PCI_SUBCLASS_ACCESS_BUS, (None, "ACCESS Bus Controller"));
    (PCI_SUBCLASS_SSA, (None, "SSA Controller"));
    (PCI_SUBCLASS_USB, (None, "USB Controller"));
    (PCI_SUBCLASS_FIBRE, (None, "Fibre Channel Controller"));
    (PCI_SUBCLASS_SMBUS, (None, "SMBus Controller"));
    (PCI_SUBCLASS_SERIAL_INFINIBAND, (None, "InfiniBand Controller"));
    (PCI_SUBCLASS_IPMI, (None, "IPMI Interface"));
    (PCI_SUBCLASS_SERCOS, (None, "SERCOS Interface"));
    (PCI_SUBCLASS_CANBUS, (None, "CANBUS Controller"))].

Definition on_class_wireless_controller : branch :=
  mk_branch DEVICE_TYPE_NETWORK_CONTROLLER "Wireless Controller" [
    (PCI_SUBCLASS_IRDA, (None, "IRDA Controller"));
    (PCI_SUBCLASS_IR, (None, "Consumer IR Controller"));
    (PCI_SUBCLASS_RF, (None, "RF Controller"));
    (PCI_SUBCLASS_BLUETOOTH, (None, "Bluetooth Controller"));
    (PCI_SUBCLASS_BROADBAND, (None, "Broadband Controller"));
    (PCI_SUBCLASS_ETHERNET_802_1A, (None, "802.1a Controller"));
    (PCI_SUBCLASS_ETHERNET_802_1B, (None, "802.1b Controller"));
    (PCI_SUBCLASS_CELLULAR_CONTROLLER_MODEM, (None, "Cellular Controller Modem"));
    (PCI_SUBCLASS_CELLULAR_CONTROLLER_MODEM_WITH_ETHERNET, (None, "Cellular Controller Modem with Ethernet"))].

Definition on_class_intelligent_controller : branch :=
  mk_branch DEVICE_TYPE_SYSTEM_DEVICE "I2O Intelligent Controller" [].

Definition on_class_satellite_communication_controller : branch :=
  mk_branch DEVICE_TYPE_MULTIMEDIA_CONTROLLER "Sattelite Communication Device" [].

Definition on_class_encryption_controller : branch :=
  mk_branch DEVICE_TYPE_SYSTEM_DEVICE "Encryption Controller" [].

Definition on_class_signal_processing_controller : branch :=
  mk_branch DEVICE_TYPE_SYSTEM_DEVICE "Signal Processing Controller" [].

Definition on_class_processing_accelerator : branch :=
  mk_branch DEVICE_TYPE_SYSTEM_DEVICE "Smart Data Accelerator Interface (SDXI)" [].

Definition on_class_non_essential : branch :=
  mk_branch DEVICE_TYPE_UNDEFINED "Non-Essential Intrumentation" [].

Definition on_class_coprocessor : branch :=
  mk_branch DEVICE_TYPE_PROCESSOR "Co-Processor" [].

Definition pci_classes : list (Z * branch) :=
  [(PCI_CLASS_UNCLASSIFIED, on_class_unclassified);
   (PCI_CLASS_STORAGE_CONTROLLER, on_class_storage_controller);
   (PCI_CLASS_NETWORK_CONTROLLER, on_class_network_controller);
   (PCI_CLASS_DISPLAY_CONTROLLER, on_class_display_controller);
   (PCI_CLASS_MULTIMEDIA_CONTROLLER, on_class_multimedia_controller);
   (PCI_CLASS_MEMORY_CONTROLLER, on_class_memory_controller);
   (PCI_CLASS_BRIDGE, on_class_bridge);
   (PCI_CLASS_COMMUNICATION_CONTROLLER, on_class_communication_controller);
   (PCI_CLASS_BASE_SYSTEM_PERIPHERAL, on_class_base_system_peripheral);
   (PCI_CLASS_INPUT_CONTROLLER, on_class_input_controller);
   (PCI_CLASS_DOCKING_STATION, on_class_docking_station);
   (PCI_CLASS_PROCESSOR, on_class_processor);
   (PCI_CLASS_SERIAL_BUS_CONTROLLER, on_class_serial_bus_controller);
   (PCI_CLASS_WIRELESS_CONTROLLER, on_class_wireless_controller);
   (PCI_CLASS_INTELLIGENT_CONTROLLER, on_class_intelligent_controller);
   (PCI_CLASS_SATELLITE_COMMUNICATION_CONTROLLER, on_class_satellite_communication_controller);
   (PCI_CLASS_ENCRYPTION_CONTROLLER, on_class_encryption_controller);
   (PCI_CLASS_SIGNAL_PROCESSING_CONTROLLER, on_class_signal_processing_controller);
   (PCI_CLASS_PROCESSING_ACCELERATOR, on_class_processing_accelerator);
   (PCI_CLASS_NON_ESSENTIAL, on_class_non_essential);
   (PCI_CLASS_COPROCESSOR, on_class_coprocessor)].
