(* ===== verification/Links.v ===== *)
(** * Lists linked through memory

    The kernel links its records by hand: open vnodes and cache buffers in both
    directions, processes and drives forwards.  The links are given as functions from
    an address to the next and the previous one; 0 is NULL. *)

From S2P Require Import Prelude.
#[local] Open Scope Z_scope.

(** The two ends of a chain, with the value for an empty one. *)
Definition first_v (stop : Z) (l : list Z) : Z := match l with [] => stop | v :: _ => v end.
Fixpoint last_v (prev : Z) (l : list Z) : Z := match l with [] => prev | v :: l' => last_v v l' end.

Lemma first_v_app stop l1 l2 : first_v stop (l1 ++ l2) = first_v (first_v stop l2) l1.
Proof. now destruct l1. Qed.

Lemma last_v_app l1 : forall prev l2, last_v prev (l1 ++ l2) = last_v (last_v prev l1) l2.
Proof. induction l1; intros; cbn; auto. Qed.

Lemma last_v_in l : forall v, last_v v l ∈ v :: l.
Proof.
  induction l as [|w l IH]; intros v; cbn [last_v]; apply elem_of_cons; [now left|right; apply IH].
Qed.

Lemma first_v_cases l : first_v 0 l = 0 \/ first_v 0 l ∈ l.
Proof. destruct l; [now left|right; apply elem_of_cons; now left]. Qed.

Lemma last_v_cases l : last_v 0 l = 0 \/ last_v 0 l ∈ l.
Proof. destruct l; [now left|right; cbn [last_v]; apply last_v_in]. Qed.

(** A proper chain: distinct addresses, none of them NULL. *)
Definition pchain (l : list Z) : Prop := NoDup l /\ Forall (fun v => v <> 0) l.

Lemma pchain_snoc l v : pchain l -> v ∉ l -> v <> 0 -> pchain (l ++ [v]).
Proof.
  intros [Hnd Hz] Hv Hv0. split; [|apply Forall_app; split; [exact Hz|now apply Forall_singleton]].
  apply NoDup_app. splits; [exact Hnd| |apply NoDup_singleton]. intros x Hx ->%list_elem_of_singleton. contradiction.
Qed.

Lemma pchain_in l v : pchain l -> v ∈ l -> v <> 0.
Proof. intros [_ Hz] Hv. rewrite Forall_forall in Hz. auto. Qed.

(** The parts of a chain around one element. *)
Lemma pchain_middle l1 v l2 : pchain (l1 ++ v :: l2) ->
  v <> 0 /\ pchain l1 /\ pchain l2 /\ pchain (l1 ++ l2) /\ (v ∉ l1 ++ l2) /\
  forall x, x ∈ l1 -> x ∉ l2.
Proof.
  intros [Hnd Hz]. apply NoDup_app in Hnd as (N1 & N12 & N2). apply NoDup_cons in N2 as [Nv N2].
  apply Forall_app in Hz as [Z1 Z2]. apply Forall_cons in Z2 as [Zv Z2].
  assert (forall x, x ∈ l1 -> x <> v /\ x ∉ l2) as D.
  { intros x Hx. split; [intros ->|intros Hx2]; apply (N12 _ Hx); apply elem_of_cons; auto. }
  splits; try split; auto.
  - apply NoDup_app. splits; auto. intros x Hx. now apply D.
  - now apply Forall_app.
  - intros Hv. apply elem_of_app in Hv as [Hv|Hv]; [now destruct (D v Hv)|contradiction].
  - intros x Hx. now apply D.
Qed.

(** The ends of a chain from which [v] is taken out. *)
Lemma first_v_remove l1 v l2 : pchain (l1 ++ v :: l2) ->
  first_v 0 (l1 ++ l2) = if first_v 0 (l1 ++ v :: l2) =? v then first_v 0 l2 else first_v 0 (l1 ++ v :: l2).
Proof.
  intros Hc. apply pchain_middle in Hc as (_ & _ & _ & _ & Hv & _). rewrite !first_v_app.
  destruct l1 as [|w l1]; cbn [first_v]; [now rewrite Z.eqb_refl|].
  rewrite (proj2 (Z.eqb_neq w v)); [reflexivity|]. intros ->. apply Hv. apply elem_of_cons. now left.
Qed.

Lemma last_v_remove l1 v l2 : pchain (l1 ++ v :: l2) ->
  last_v 0 (l1 ++ l2) = if last_v 0 (l1 ++ v :: l2) =? v then last_v 0 l1 else last_v 0 (l1 ++ v :: l2).
Proof.
  intros Hc. apply pchain_middle in Hc as (_ & _ & _ & _ & Hv & _). rewrite !last_v_app. cbn [last_v].
  destruct l2 as [|w l2]; cbn [last_v]; [now rewrite Z.eqb_refl|].
  rewrite (proj2 (Z.eqb_neq _ v)); [reflexivity|]. intros E. apply Hv. apply elem_of_app. right. rewrite <- E. apply last_v_in.
Qed.

(** ** Forward links *)

Section Single.
Implicit Types (nx : Z -> Z) (l : list Z).

(** The elements of [l] are linked in this order, the last one to [stop]. *)
Fixpoint slinked nx l (stop : Z) : Prop :=
  match l with
  | [] => True
  | v :: l' => nx v = first_v stop l' /\ slinked nx l' stop
  end.

Lemma slinked_app nx l1 : forall l2 stop,
  slinked nx (l1 ++ l2) stop <-> slinked nx l1 (first_v stop l2) /\ slinked nx l2 stop.
Proof.
  induction l1 as [|p l1 IH]; intros l2 stop; cbn [app slinked]; [tauto|]. rewrite IH, first_v_app. tauto.
Qed.

Lemma slinked_frame nx nx' l stop :
  (forall p, p ∈ l -> nx' p = nx p) -> slinked nx l stop -> slinked nx' l stop.
Proof.
  induction l as [|p l IH]; cbn [slinked]; [tauto|]. intros Hf [H1 H2]. split.
  - rewrite Hf by (apply elem_of_cons; now left). exact H1.
  - apply IH; [|exact H2]. intros q Hq. apply Hf. apply elem_of_cons. now right.
Qed.

(** Redirecting the last element. *)
Lemma slinked_stop nx nx' l : forall prev stop stop',
  slinked nx l stop -> NoDup l ->
  (forall p, p ∈ l -> nx' p = if p =? last_v prev l then stop' else nx p) ->
  slinked nx' l stop'.
Proof.
  induction l as [|p l IH]; intros prev stop stop' Hl Hnd Hf; cbn [slinked last_v] in *; [exact I|].
  destruct Hl as (H1 & H2). apply NoDup_cons in Hnd as [Hp Hnd]. split.
  - rewrite Hf by (apply elem_of_cons; now left). destruct l as [|w l]; cbn [last_v first_v]; [now rewrite Z.eqb_refl|].
    rewrite (proj2 (Z.eqb_neq _ _)); [exact H1|]. intros E. apply Hp. rewrite E. apply last_v_in.
  - apply (IH p stop stop' H2 Hnd). intros w Hw. apply Hf. apply elem_of_cons. now right.
Qed.

(** Taking out [v] by redirecting the element before it, if there is one. *)
Lemma slinked_remove nx nx' l1 v l2 :
  slinked nx (l1 ++ v :: l2) 0 -> pchain (l1 ++ v :: l2) ->
  (forall x, x ∈ l1 ++ l2 -> nx' x = if negb (last_v 0 l1 =? 0) && (x =? last_v 0 l1) then nx v else nx x) ->
  slinked nx' (l1 ++ l2) 0.
Proof.
  intros Hl Hc Hf. set (p := last_v 0 l1) in *. apply slinked_app in Hl as [L1 [Ln L2]]. cbn [first_v] in L1.
  apply pchain_middle in Hc as (_ & C1 & C2 & _ & Hv & D). apply slinked_app. split.
  - apply (slinked_stop nx _ l1 0 v _ L1 (proj1 C1)). fold p. intros x Hx. rewrite Hf by (apply elem_of_app; now left).
    destruct (Z.eqb_spec x p) as [E|]; [|now rewrite andb_false_r]. rewrite E in Hx.
    rewrite (proj2 (Z.eqb_neq p 0)) by now apply (pchain_in l1). exact Ln.
  - apply (slinked_frame nx); [|exact L2]. intros x Hx. rewrite Hf by (apply elem_of_app; now right).
    destruct (Z.eqb_spec x p) as [Ex|]; [|now rewrite andb_false_r]. rewrite Ex in Hx.
    pose proof (last_v_cases l1) as Cp. fold p in Cp. destruct Cp as [E|Hp]; [now rewrite E|]. now destruct (D p Hp).
Qed.
End Single.

(** ** Links in both directions *)

Section Double.
Implicit Types (nx pv : Z -> Z) (l : list Z).

Fixpoint dlinked nx pv (prev : Z) l (stop : Z) : Prop :=
  match l with
  | [] => True
  | v :: l' => nx v = first_v stop l' /\ pv v = prev /\ dlinked nx pv v l' stop
  end.

Lemma dlinked_app nx pv l1 : forall prev l2 stop,
  dlinked nx pv prev (l1 ++ l2) stop <->
  dlinked nx pv prev l1 (first_v stop l2) /\ dlinked nx pv (last_v prev l1) l2 stop.
Proof.
  induction l1 as [|v l1 IH]; intros prev l2 stop; cbn [app dlinked last_v]; [tauto|].
  rewrite IH, first_v_app. tauto.
Qed.

Lemma dlinked_frame nx pv nx' pv' l : forall prev stop,
  (forall v, v ∈ l -> nx' v = nx v /\ pv' v = pv v) ->
  dlinked nx pv prev l stop -> dlinked nx' pv' prev l stop.
Proof.
  induction l as [|v l IH]; intros prev stop Hf; cbn [dlinked]; [tauto|]. intros (H1 & H2 & H3).
  destruct (Hf v ltac:(apply elem_of_cons; now left)) as [E1 E2]. splits; [congruence|congruence|].
  apply IH; [|exact H3]. intros w Hw. apply Hf. apply elem_of_cons. now right.
Qed.

(** Redirecting the last element. *)
Lemma dlinked_stop nx pv nx' pv' l : forall prev stop stop',
  dlinked nx pv prev l stop -> NoDup l ->
  (forall v, v ∈ l -> pv' v = pv v /\ nx' v = if v =? last_v prev l then stop' else nx v) ->
  dlinked nx' pv' prev l stop'.
Proof.
  induction l as [|v l IH]; intros prev stop stop' Hl Hnd Hf; cbn [dlinked last_v] in *; [exact I|].
  destruct Hl as (H1 & H2 & H3). apply NoDup_cons in Hnd as [Hv Hnd].
  destruct (Hf v ltac:(apply elem_of_cons; now left)) as [E1 E2]. splits; [|congruence|].
  - rewrite E2. destruct l as [|w l]; cbn [last_v first_v]; [now rewrite Z.eqb_refl|].
    rewrite (proj2 (Z.eqb_neq _ _)); [exact H1|]. intros E. apply Hv. rewrite E. apply last_v_in.
  - apply (IH v stop stop' H3 Hnd). intros w Hw. apply Hf. apply elem_of_cons. now right.
Qed.

(** Linking the first element back to [q]. *)
Lemma dlinked_prev nx pv nx' pv' l p q :
  dlinked nx pv p l 0 -> NoDup l ->
  (forall v, v ∈ l -> nx' v = nx v /\ pv' v = if v =? first_v 0 l then q else pv v) ->
  dlinked nx' pv' q l 0.
Proof.
  destruct l as [|v l]; cbn [dlinked first_v]; [easy|]. intros (H1 & H2 & H3) Hnd Hf.
  apply NoDup_cons in Hnd as [Hv Hnd]. destruct (Hf v ltac:(apply elem_of_cons; now left)) as [E1 E2].
  rewrite Z.eqb_refl in E2. splits; [congruence|exact E2|].
  apply (dlinked_frame nx pv); [|exact H3]. intros w Hw.
  destruct (Hf w ltac:(apply elem_of_cons; now right)) as [F1 F2]. split; [exact F1|].
  rewrite F2, (proj2 (Z.eqb_neq _ _)); [reflexivity|]. now intros ->.
Qed.

(** The neighbours of an element. *)
Lemma dlinked_middle nx pv l1 v l2 :
  dlinked nx pv 0 (l1 ++ v :: l2) 0 -> nx v = first_v 0 l2 /\ pv v = last_v 0 l1.
Proof. intros Hl. apply dlinked_app in Hl as (_ & H1 & H2 & _). auto. Qed.

(** Taking out [v] by linking its neighbours with each other. *)
Lemma dlinked_remove nx pv nx' pv' l1 v l2 :
  dlinked nx pv 0 (l1 ++ v :: l2) 0 -> pchain (l1 ++ v :: l2) ->
  (forall x, x ∈ l1 ++ l2 -> nx' x = if negb (pv v =? 0) && (x =? pv v) then nx v else nx x) ->
  (forall x, x ∈ l1 ++ l2 -> pv' x = if negb (nx v =? 0) && (x =? nx v) then pv v else pv x) ->
  dlinked nx' pv' 0 (l1 ++ l2) 0.
Proof.
  intros Hl Hc Hn Hp. destruct (dlinked_middle _ _ _ _ _ Hl) as [En Ep]. rewrite En, Ep in Hn, Hp.
  apply dlinked_app in Hl as (L1 & _ & _ & L2). cbn [first_v] in L1.
  apply pchain_middle in Hc as (_ & C1 & C2 & _ & _ & D).
  set (n := first_v 0 l2) in *. set (p := last_v 0 l1) in *. apply dlinked_app. fold n p. split.
  - apply (dlinked_stop nx pv _ _ l1 0 v n L1 (proj1 C1)). fold p. intros x Hx.
    rewrite Hn, Hp by (apply elem_of_app; now left). pose proof (pchain_in _ _ C1 Hx) as Hx0. split.
    + rewrite (proj2 (Z.eqb_neq x n)), andb_false_r; [reflexivity|].
      pose proof (first_v_cases l2) as Cn. fold n in Cn. destruct Cn as [E|Hin]; [congruence|]. intros ->. now apply (D n Hx).
    + destruct (Z.eqb_spec x p) as [->|]; [|now rewrite andb_false_r]. now rewrite (proj2 (Z.eqb_neq p 0)).
  - apply (dlinked_prev nx pv _ _ l2 v p L2 (proj1 C2)). fold n. intros x Hx.
    rewrite Hn, Hp by (apply elem_of_app; now right). pose proof (pchain_in _ _ C2 Hx) as Hx0. split.
    + rewrite (proj2 (Z.eqb_neq x p)), andb_false_r; [reflexivity|].
      pose proof (last_v_cases l1) as Cp. fold p in Cp. destruct Cp as [E|Hin]; [congruence|]. intros ->. now apply (D p Hin).
    + destruct (Z.eqb_spec x n) as [->|]; [|now rewrite andb_false_r]. now rewrite (proj2 (Z.eqb_neq n 0)).
Qed.

(** Putting [v] behind the last element. *)
Lemma dlinked_snoc nx pv nx' pv' l v :
  dlinked nx pv 0 l 0 -> pchain l -> v ∉ l -> nx' v = 0 -> pv' v = last_v 0 l ->
  (forall x, x ∈ l -> pv' x = pv x /\ nx' x = if x =? last_v 0 l then v else nx x) ->
  dlinked nx' pv' 0 (l ++ [v]) 0.
Proof.
  intros Hl Hc Hv En Ep Hf. apply dlinked_app. split; [|cbn; auto].
  apply (dlinked_stop nx pv _ _ l 0 0 v Hl (proj1 Hc) Hf).
Qed.
End Double.
