(* ===== verification/Interfaces.v ===== *)
(** * Interfaces between components

    What one part of the kernel promises to another.  [PageAllocator] is the
    physical allocator as the heap and the page tables use it ([pmm_allocate],
    [pmm_free] and physical memory); [KernelHeap] is [kmalloc]/[kmfree] as the
    data structures use them.  Clients are proved against these classes; [Pmm]
    and [Kheap] discharge them. *)

From S2P Require Import Prelude.
#[local] Open Scope Z_scope.

(** ** Physical pages *)

(** The operations: [pa_alloc] and [pa_free] are [pmm_allocate]/[pmm_free];
    [pa_mem] and [pa_write] are loads and stores of 64-bit words at a physical
    byte address (the code reaches them through the HHDM); [pa_used] tells which
    page is allocated, [pa_pages] how many pages are managed. *)
Class PageAllocator (P : Type) := {
  pa_alloc : Z -> P -> outcome (Z * P);
  pa_free : Z -> Z -> P -> outcome P;
  pa_mem : P -> Z -> Z;
  pa_write : Z -> Z -> P -> P;
  pa_ok : P -> Prop;
  pa_used : P -> Z -> bool;
  pa_pages : P -> Z
}.

(** A run of [n] pages from [q] on that are all free. *)
Definition free_run {P} `{PageAllocator P} (p : P) (q n : Z) : Prop :=
  0 <= q /\ q + n <= pa_pages p /\ forall i, q <= i < q + n -> pa_used p i = false.

Class PageAllocatorLaws (P : Type) `{PageAllocator P} : Prop := {
  (** An allocation takes a run of free pages and touches no memory; it panics
      only when there is no such run. *)
  pa_alloc_spec : forall n p, 1 <= n < 2 ^ 31 -> pa_ok p ->
    match pa_alloc n p with
    | Ret (v, p') => exists q, v = q * PAGE_SIZE /\ free_run p q n /\
        pa_ok p' /\ pa_pages p' = pa_pages p /\ (forall a, pa_mem p' a = pa_mem p a) /\
        forall i, pa_used p' i = if (q <=? i) && (i <? q + n) then true else pa_used p i
    | Panic _ => forall q, ~ free_run p q n
    | _ => False
    end;
  (** Freeing a run of allocated pages releases exactly them, and may overwrite
      them. *)
  pa_free_spec : forall q n p, 0 <= q -> 1 <= n <= 2 ^ 19 -> q + n <= pa_pages p -> pa_ok p ->
    Returns (pa_free (q * PAGE_SIZE) n p) (fun p' =>
      pa_ok p' /\ pa_pages p' = pa_pages p /\
      (forall a, ~ (q * PAGE_SIZE <= a < (q + n) * PAGE_SIZE) -> pa_mem p' a = pa_mem p a) /\
      forall i, pa_used p' i = if (q <=? i) && (i <? q + n) then false else pa_used p i);
  pa_write_mem : forall a v p x, pa_mem (pa_write a v p) x = if x =? a then v else pa_mem p x;
  pa_write_ok : forall a v p, pa_ok p -> pa_ok (pa_write a v p);
  pa_write_used : forall a v p, pa_used (pa_write a v p) = pa_used p;
  pa_write_pages : forall a v p, pa_pages (pa_write a v p) = pa_pages p;
  pa_pages_bound : forall p, pa_ok p -> 0 <= pa_pages p < 2 ^ 51
}.

(** ** The kernel heap *)

(** [live h] lists the areas handed out and not yet freed: address and size. *)
Class KernelHeap (H : Type) := {
  kh_malloc : Z -> H -> outcome (Z * H);
  kh_free : Z -> H -> outcome H;
  kh_ok : H -> Prop;
  kh_live : H -> list (Z * Z) -> Prop
}.

(** Two areas have no byte in common. *)
Definition apart (x y : Z * Z) : Prop := x.1 + x.2 <= y.1 \/ y.1 + y.2 <= x.1.

Class KernelHeapLaws (H : Type) `{KernelHeap H} : Prop := {
  (** [kmalloc] hands out a new non-null, 16-byte aligned area, at least as large
      as asked for, apart from every live one; the only other outcome is the panic
      of the page allocator. *)
  kh_malloc_spec : forall size h l, 0 <= size < 2 ^ 40 -> kh_ok h -> kh_live h l ->
    match kh_malloc size h with
    | Ret (a, h') => exists n, 0 < a /\ a mod 16 = 0 /\ size <= n /\ a + n < 2 ^ 64 /\
        kh_ok h' /\ kh_live h' ((a, n) :: l) /\ Forall (apart (a, n)) l
    | Panic _ => True
    | _ => False
    end;
  (** [kmfree] of a live area returns and drops exactly that area. *)
  kh_free_spec : forall a n l h, kh_ok h -> kh_live h ((a, n) :: l) ->
    Returns (kh_free a h) (fun h' => kh_ok h' /\ kh_live h' l);
  (** The order in which live areas are listed does not matter. *)
  kh_live_perm : forall h l l', kh_live h l -> Permutation l l' -> kh_live h l'
}.
