(* ===== verification/MemMap.v ===== *)
(** * Physical memory map ([kernel/mem/memmap/memmap.c])

    The map is the response of the boot loader: a list of entries.  The list is
    an argument of every function here (the Limine response the code reads). *)

From S2P Require Import Prelude.
#[local] Open Scope Z_scope.

(** [memmap_entry_t] *)
Record memmap_entry_t : Type := mk_entry {
  me_base : Z;
  me_length : Z;
  me_type : Z
}.

(** The entry types of [mm-internals.h]. *)
Definition MEMMAP_USABLE : Z := 0.
Definition MEMMAP_RESERVED : Z := 1.
Definition MEMMAP_ACPI_RECLAIMABLE : Z := 2.
Definition MEMMAP_ACPI_NVS : Z := 3.
Definition MEMMAP_BAD_MEMORY : Z := 4.
Definition MEMMAP_BOOTLOADER_RECLAIMABLE : Z := 5.
Definition MEMMAP_KERNEL_AND_MODULES : Z := 6.
Definition MEMMAP_FRAMEBUFFER : Z := 7.

Implicit Types (m : list memmap_entry_t).

(** [return memmap_request.response->entry_count;] as an [int]. *)
Definition memmap_get_entry_count m : Z := i32 (Z.of_nat (length m)).

(** [memmap_get_entry]: an index outside the array faults. *)
Definition memmap_get_entry m (entry : Z) : outcome memmap_entry_t :=
  if entry <? 0 then Fault else
  match m !! Z.to_nat entry with Some e => Ret e | None => Fault end.

(** One step of the loop of [memmap_get_highest_usable_address]. *)
Definition highest_step (highest : Z) (e : memmap_entry_t) : Z :=
  if me_type e =? MEMMAP_USABLE then u64 (me_base e + me_length e) else highest.

Definition memmap_get_highest_usable_address m : Z := fold_left highest_step m 0.

(** The end of the last entry of the map. *)
Definition memmap_get_highest_address m : outcome Z :=
  match last m with
  | Some e => Ret (u64 (me_base e + me_length e))
  | None => Fault
  end.

(** What Limine documents about its map: the entries lie inside of the physical address
    space and are sorted by base; the usable and the reclaimable ones are page aligned and
    overlap no other entry, while the others may be unaligned and overlap each other. *)
Definition guaranteed (e : memmap_entry_t) : bool :=
  (me_type e =? MEMMAP_USABLE) || (me_type e =? MEMMAP_BOOTLOADER_RECLAIMABLE).

Definition entry_ok (e : memmap_entry_t) : Prop :=
  0 <= me_base e /\ 0 < me_length e /\ me_base e + me_length e <= 2 ^ 52 /\
  (guaranteed e = true -> me_base e mod PAGE_SIZE = 0 /\ me_length e mod PAGE_SIZE = 0).

Definition entries_apart (e e' : memmap_entry_t) : Prop :=
  me_base e + me_length e <= me_base e' \/ me_base e' + me_length e' <= me_base e.

Fixpoint map_sorted m : Prop :=
  match m with
  | [] => True
  | e :: m' =>
      Forall (fun e' => me_base e <= me_base e' /\ (guaranteed e || guaranteed e' = true -> entries_apart e e')) m' /\
      map_sorted m'
  end.

Definition memmap_ok m : Prop := Forall entry_ok m /\ map_sorted m.

Lemma usable_guaranteed e : me_type e = MEMMAP_USABLE -> guaranteed e = true.
Proof. unfold guaranteed. now intros ->. Qed.

(** An entry with a guarantee ends before every later one begins. *)
Lemma map_sorted_after e m :
  entry_ok e -> Forall entry_ok m -> map_sorted (e :: m) -> guaranteed e = true ->
  Forall (fun e' => me_base e + me_length e <= me_base e') m.
Proof.
  intros (_ & He & _) Hok [Hs _] Hg. rewrite Forall_forall in *. intros e' He'.
  destruct (Hs e' He') as [H1 H2]. rewrite Hg in H2. destruct (Hok e' He') as (_ & Hl & _).
  destruct (H2 eq_refl); lia.
Qed.

Lemma highest_fold_bound m h :
  Forall entry_ok m -> map_sorted m -> Forall (fun e => me_type e = MEMMAP_USABLE -> h <= me_base e) m ->
  h <= fold_left highest_step m h /\
  (forall e, e ∈ m -> me_type e = MEMMAP_USABLE ->
     me_base e + me_length e <= fold_left highest_step m h) /\
  (fold_left highest_step m h = h \/
   exists e, e ∈ m /\ me_type e = MEMMAP_USABLE /\
     fold_left highest_step m h = me_base e + me_length e).
Proof.
  intros Hok. revert h. induction Hok as [|x m Hx Hok IH]; cbn [fold_left]; intros h Hs Hh.
  { split; [lia|]. split; [|now left]. intros e He. now apply not_elem_of_nil in He. }
  apply Forall_cons in Hh as [H1 H2]. pose proof Hx as (Hb & Hl & Hu & _).
  assert (u64 (me_base x + me_length x) = me_base x + me_length x) as Hw.
  { apply wrap_small. assert (2 ^ 52 < 2 ^ 64) by reflexivity. lia. }
  unfold highest_step at 2 4 6 8. rewrite Hw.
  destruct (Z.eqb_spec (me_type x) MEMMAP_USABLE) as [Ht|Ht].
  - specialize (H1 Ht). pose proof (map_sorted_after x m Hx Hok Hs (usable_guaranteed x Ht)) as Ha.
    destruct (IH (me_base x + me_length x) (proj2 Hs)) as (I1 & I2 & I3).
    { eapply Forall_impl; [exact Ha|]. auto. }
    split; [lia|]. split.
    + intros e He Het. apply elem_of_cons in He. destruct He as [->|He]; [lia|auto].
    + right. destruct I3 as [->|(e & He & ?)].
      * exists x. split; [apply elem_of_cons; now left|auto].
      * exists e. split; [apply elem_of_cons; now right|easy].
  - destruct (IH h (proj2 Hs) H2) as (I1 & I2 & I3).
    split; [lia|]. split.
    + intros e He Het. apply elem_of_cons in He. destruct He as [->|He]; [contradiction|auto].
    + destruct I3 as [->|(e & He & ?)]; [now left|right].
      exists e. split; [apply elem_of_cons; now right|easy].
Qed.

Lemma highest_usable_cases m : memmap_ok m ->
  (forall e, e ∈ m -> me_type e = MEMMAP_USABLE -> me_base e + me_length e <= memmap_get_highest_usable_address m) /\
  (memmap_get_highest_usable_address m = 0 \/
   exists e, e ∈ m /\ me_type e = MEMMAP_USABLE /\ memmap_get_highest_usable_address m = me_base e + me_length e).
Proof.
  intros [Hok Hs]. apply (highest_fold_bound m 0 Hok Hs). eapply Forall_impl; [exact Hok|]. intros e (H & _) _. exact H.
Qed.

(** On a map Limine may return, the value of
    [memmap_get_highest_usable_address] bounds every usable entry and is the end
    of one of them (or 0). *)
Lemma highest_usable_address_spec m :
  memmap_ok m ->
  (forall e, e ∈ m -> me_type e = MEMMAP_USABLE ->
     me_base e + me_length e <= memmap_get_highest_usable_address m) /\
  0 <= memmap_get_highest_usable_address m <= 2 ^ 52.
Proof.
  intros Hm. destruct (highest_usable_cases m Hm) as (H1 & H2). split; [exact H1|].
  destruct H2 as [->|(e & He & _ & ->)]; [split; [lia|easy]|].
  destruct Hm as [Hok _]. rewrite Forall_forall in Hok. apply Hok in He. destruct He as (?&?&?&_). lia.
Qed.

(** Decides [memmap_ok] of a concrete map whose entries do not overlap. *)
Ltac memmap_check :=
  split; cbn [map_sorted]; rewrite ?Forall_cons, ?Forall_nil;
  unfold entry_ok, entries_apart; repeat split;
  try (match goal with H : guaranteed _ = true |- _ => discriminate H end); try (intros _; left);
  vm_compute; congruence || exact I || (split; congruence).
