(* ===== verification/Pmm.v ===== *)
(** * Physical page allocator ([kernel/mem/pmm/pmm.c])

    The allocator keeps one bit per physical page.  [bitmap] is the byte array
    the code reaches through a raw pointer: a function from the byte index, with
    no end of its own, so that a store past [bitmapSize] is a store and not an
    error.  [ram] is physical memory in 64-bit words, indexed by byte address:
    [pmm_free] fills freed pages with ones.  The bitmap is kept apart from [ram]: its pages
    are reserved by [pmm_init] and never handed out, so the fill reaches it only when a caller
    frees pages it was not given, which is outside of the model. *)

From S2P Require Import Prelude Interfaces MemMap.

#[local] Open Scope Z_scope.

(** The static variables of [pmm.c], and physical memory. *)
Record pmm_state : Type := mk_pmm {
  bitmap : Z -> Z;
  bitmapAddr : Z;
  bitmapSize : Z;
  freePages : Z;
  usedPages : Z;
  usablePages : Z;
  pmm_lock : spinlock_t;
  ram : Z -> Z
}.

Definition set_bitmap (b : Z -> Z) (s : pmm_state) : pmm_state :=
  mk_pmm b (bitmapAddr s) (bitmapSize s) (freePages s) (usedPages s) (usablePages s)
    (pmm_lock s) (ram s).
Definition set_counts (free used : Z) (s : pmm_state) : pmm_state :=
  mk_pmm (bitmap s) (bitmapAddr s) (bitmapSize s) free used (usablePages s)
    (pmm_lock s) (ram s).
Definition set_usable (n : Z) (s : pmm_state) : pmm_state :=
  mk_pmm (bitmap s) (bitmapAddr s) (bitmapSize s) (freePages s) (usedPages s) n
    (pmm_lock s) (ram s).
Definition set_lock (l : spinlock_t) (s : pmm_state) : pmm_state :=
  mk_pmm (bitmap s) (bitmapAddr s) (bitmapSize s) (freePages s) (usedPages s)
    (usablePages s) l (ram s).
Definition set_ram (r : Z -> Z) (s : pmm_state) : pmm_state :=
  mk_pmm (bitmap s) (bitmapAddr s) (bitmapSize s) (freePages s) (usedPages s)
    (usablePages s) (pmm_lock s) r.

(** [0b10000000 >> j] *)
Definition page_mask (j : Z) : Z := Z.shiftr 128 j.

Definition pmm_bitmap_set (page : Z) (s : pmm_state) : outcome pmm_state :=
  if bitmapSize s <? page / 8
  then Panic "Bitmap bounds exceeded! (alloc)"
  else
    let s := set_counts (u64 (freePages s - 1)) (u64 (usedPages s + 1)) s in
    Ret (set_bitmap
           (upd (bitmap s) (page / 8)
              (u8 (Z.lor (bitmap s (page / 8)) (page_mask (page mod 8))))) s).

Definition pmm_bitmap_clear (page : Z) (s : pmm_state) : outcome pmm_state :=
  if bitmapSize s <? page / 8
  then Panic "Bitmap bounds exceeded! (dealloc)"
  else
    let s := set_counts (u64 (freePages s + 1)) (u64 (usedPages s - 1)) s in
    Ret (set_bitmap
           (upd (bitmap s) (page / 8)
              (u8 (Z.land (bitmap s (page / 8)) (Z.lnot (page_mask (page mod 8)))))) s).

(** The local variables of the two search functions. *)
Record scan : Type := mk_scan { foundPages : Z; scan_base : Z; inChunk : bool }.

(** The body of the two nested loops: bit [j] of byte [i]. *)
Definition scan_page (s : pmm_state) (npages i j : Z) (sc : scan) : outcome (Z + scan) :=
  if Z.land (bitmap s i) (page_mask j) =? 0 then
    let sc := if inChunk sc then sc
              else mk_scan (foundPages sc) (u64 (i * 8 + j)) true in
    let found := i32 (foundPages sc + 1) in
    if found =? npages then Ret (inl (u64 (Z.shiftl (scan_base sc) 12)))
    else Ret (inr (mk_scan found (scan_base sc) (inChunk sc)))
  else
    if inChunk sc then Ret (inr (mk_scan 0 (scan_base sc) false)) else Ret (inr sc).

(** [for(; i < hi; i++) for(j = 0; j < 8; j++) ...] *)
Definition scan_range (s : pmm_state) (npages i hi : Z) (sc : scan) : outcome (Z + scan) :=
  for_ret (Z.to_nat (hi - i)) i
    (fun i sc => for_ret 8 0 (scan_page s npages i) sc) sc.

(** The first byte of the bitmap that describes pages at or above 4 GiB. *)
Definition HIGH_BYTE : Z := 131072.

(** [pmm_find_free]: pages above 4 GiB first, then ([goto retry]) all pages. *)
Definition pmm_find_free (npages : Z) (s : pmm_state) : outcome Z :=
  let searchingHighPages := HIGH_BYTE <? bitmapSize s in
  let i := if searchingHighPages then HIGH_BYTE else 0 in
  r ← scan_range s npages i (bitmapSize s) (mk_scan 0 0 false);
  match r with
  | inl b => Ret b
  | inr sc =>
      if searchingHighPages then
        r ← scan_range s npages 0 (bitmapSize s) (mk_scan 0 (scan_base sc) false);
        match r with
        | inl b => Ret b
        | inr _ => Panic "Out of Memory!"
        end
      else Panic "Out of Memory!"
  end.

(** [pmm_find_free32]: pages below 4 GiB only. *)
Definition pmm_find_free32 (npages : Z) (s : pmm_state) : outcome Z :=
  let limit := if HIGH_BYTE <? bitmapSize s then HIGH_BYTE else bitmapSize s in
  r ← scan_range s npages 0 limit (mk_scan 0 0 false);
  match r with
  | inl b => Ret b
  | inr _ => Panic "Out of Memory! (32-bit Allocator)"
  end.

(** Iterations of [for(uint64_t i = lo; i < lo + npages; i++)], [npages] an
    [int] converted to [uint64_t]. *)
Definition page_iterations (lo npages : Z) : nat := Z.to_nat (u64 (lo + npages) - lo).

Definition mark_used (base npages : Z) (s : pmm_state) : outcome pmm_state :=
  let lo := Z.shiftr base 12 in
  for_up (page_iterations lo npages) lo pmm_bitmap_set s.

Definition pmm_allocate (npages : Z) (s : pmm_state) : outcome (Z * pmm_state) :=
  l ← acquireLock (pmm_lock s);
  let s := set_lock l s in
  base ← pmm_find_free npages s;
  s ← mark_used base npages s;
  Ret (base, set_lock (releaseLock (pmm_lock s)) s).

Definition pmm_allocate32 (npages : Z) (s : pmm_state) : outcome (Z * pmm_state) :=
  l ← acquireLock (pmm_lock s);
  let s := set_lock l s in
  base ← pmm_find_free32 npages s;
  s ← mark_used base npages s;
  Ret (base, set_lock (releaseLock (pmm_lock s)) s).

(** [memset(p, 0xff, PAGE_SIZE)] on physical memory. *)
Definition fill_ones (a : Z) (r : Z -> Z) : Z -> Z :=
  fun x => if (a <=? x) && (x <? a + PAGE_SIZE) then 2 ^ 64 - 1 else r x.

(** One iteration of [pmm_free]: the page filled is the last of the range
    whatever [i] is. *)
Definition free_page (base npages i : Z) (s : pmm_state) : outcome pmm_state :=
  let s := set_ram (fill_ones (u64 (base + i32 ((npages - 1) * PAGE_SIZE))) (ram s)) s in
  pmm_bitmap_clear i s.

Definition pmm_free (base npages : Z) (s : pmm_state) : outcome pmm_state :=
  l ← acquireLock (pmm_lock s);
  let s := set_lock l s in
  let lo := Z.shiftr base 12 in
  s ← for_up (page_iterations lo npages) lo (free_page base npages) s;
  Ret (set_lock (releaseLock (pmm_lock s)) s).

(** The search for an entry that can hold the bitmap. *)
Fixpoint find_bitmap_entry (bsize : Z) (m : list memmap_entry_t) : option Z :=
  match m with
  | [] => None
  | e :: m' =>
      if negb (me_type e =? MEMMAP_USABLE) then find_bitmap_entry bsize m'
      else if me_length e <? bsize then find_bitmap_entry bsize m'
      else Some (me_base e)
  end.

(** Release the pages of one memory map entry. *)
Definition free_entry (e : memmap_entry_t) (s : pmm_state) : outcome pmm_state :=
  if negb (me_type e =? MEMMAP_USABLE) then Ret s else
  let lo := Z.shiftr (me_base e) 12 in
  let hi := Z.shiftr (u64 (me_base e + me_length e)) 12 in
  for_up (Z.to_nat (hi - lo)) lo
    (fun j s => s ← pmm_bitmap_clear j s; Ret (set_usable (u64 (usablePages s + 1)) s)) s.

Fixpoint free_entries (m : list memmap_entry_t) (s : pmm_state) : outcome pmm_state :=
  match m with
  | [] => Ret s
  | e :: m' => s ← free_entry e s; free_entries m' s
  end.

(** [for(i = b; i <= b + bitmapSize; i += PAGE_SIZE)] *)
Definition reserve_bitmap (b : Z) (s : pmm_state) : outcome pmm_state :=
  for_up (Z.to_nat (bitmapSize s / PAGE_SIZE + 1)) 0
    (fun k s =>
       s ← pmm_bitmap_set ((b + k * PAGE_SIZE) / PAGE_SIZE) s;
       Ret (set_usable (u64 (usablePages s - 1)) s)) s.

(** [pmm_init], from the zero-initialised statics. *)
Definition pmm_init (m : list memmap_entry_t) (s : pmm_state) : outcome pmm_state :=
  let bsize := ALIGN_UP (memmap_get_highest_usable_address m) PAGE_SIZE / PAGE_SIZE / 8 in
  match find_bitmap_entry bsize m with
  | None => Panic "Not enough free memory to allocate for bitmap."
  | Some b =>
      let s := mk_pmm (fun i => if (0 <=? i) && (i <? bsize) then 255 else bitmap s i)
                 b bsize (freePages s) (u64 (bsize * 8)) (usablePages s)
                 (pmm_lock s) (ram s) in
      s ← free_entries m s;
      reserve_bitmap b s
  end.

Definition pmm_get_usable_pages_count (s : pmm_state) : Z := usablePages s.
Definition pmm_get_used_pages_count (s : pmm_state) : Z := usedPages s.
Definition pmm_get_free_pages_count (s : pmm_state) : Z := freePages s.

(** ** What a state means *)

(** The bit of page [p]: set means used. *)
Definition page_used (s : pmm_state) (p : Z) : bool :=
  Z.testbit (bitmap s (p / 8)) (7 - p mod 8).

Definition pages_free (s : pmm_state) (p n : Z) : Prop :=
  forall q, p <= q < p + n -> page_used s q = false.

(** The types of the variables: bytes are bytes, counters are 64-bit words, and
    page addresses fit in 64 bits. *)
Definition pmm_wf (s : pmm_state) : Prop :=
  (forall i, 0 <= bitmap s i < 256) /\ 0 <= bitmapSize s < 2 ^ 48 /\
  0 <= freePages s < 2 ^ 64 /\ 0 <= usedPages s < 2 ^ 64.

(** What the bit operations leave alone. *)
Definition same_frame (s s' : pmm_state) : Prop :=
  bitmapAddr s' = bitmapAddr s /\ bitmapSize s' = bitmapSize s /\
  usablePages s' = usablePages s /\ pmm_lock s' = pmm_lock s /\ ram s' = ram s.

(** ** Bits of the bitmap *)

Lemma page_mask_bits j k :
  0 <= j < 8 -> 0 <= k -> Z.testbit (page_mask j) k = (k =? 7 - j).
Proof.
  intros Hj Hk. unfold page_mask. rewrite Z.shiftr_spec by lia.
  change 128 with (2 ^ 7). rewrite testbit_pow2 by lia. zcmp; lia.
Qed.

Lemma land_mask_eq0 b j :
  0 <= j < 8 -> (Z.land b (page_mask j) =? 0) = negb (Z.testbit b (7 - j)).
Proof.
  intros Hj. destruct (Z.testbit b (7 - j)) eqn:Hb; simpl.
  - apply Z.eqb_neq. intros H.
    assert (Z.testbit (Z.land b (page_mask j)) (7 - j) = false) as H'.
    { rewrite H. apply Z.testbit_0_l. }
    rewrite Z.land_spec, Hb, page_mask_bits, Z.eqb_refl in H' by lia. discriminate.
  - apply Z.eqb_eq. apply Z.bits_inj'. intros k Hk.
    rewrite Z.land_spec, page_mask_bits, Z.testbit_0_l by lia.
    destruct (Z.eqb_spec k (7 - j)) as [->|]; [now rewrite Hb|apply andb_false_r].
Qed.

Lemma page_split_inj p q : p / 8 = q / 8 -> 7 - p mod 8 = 7 - q mod 8 -> p = q.
Proof. intros. dm. Qed.

Lemma u8_testbit x k : 0 <= k < 8 -> Z.testbit (u8 x) k = Z.testbit x k.
Proof. intros H. unfold wrap. apply Z.mod_pow2_bits_low. lia. Qed.

Lemma pmm_bitmap_set_eq page s :
  page / 8 <= bitmapSize s ->
  pmm_bitmap_set page s =
  Ret (set_bitmap (upd (bitmap s) (page / 8)
         (u8 (Z.lor (bitmap s (page / 8)) (page_mask (page mod 8)))))
         (set_counts (u64 (freePages s - 1)) (u64 (usedPages s + 1)) s)).
Proof. intros H. unfold pmm_bitmap_set. destruct (Z.ltb_spec (bitmapSize s) (page / 8)); [lia|easy]. Qed.

Lemma pmm_bitmap_clear_eq page s :
  page / 8 <= bitmapSize s ->
  pmm_bitmap_clear page s =
  Ret (set_bitmap (upd (bitmap s) (page / 8)
         (u8 (Z.land (bitmap s (page / 8)) (Z.lnot (page_mask (page mod 8))))))
         (set_counts (u64 (freePages s + 1)) (u64 (usedPages s - 1)) s)).
Proof. intros H. unfold pmm_bitmap_clear. destruct (Z.ltb_spec (bitmapSize s) (page / 8)); [lia|easy]. Qed.

(** The effect of the two bit operations on the bits of all pages. *)
Lemma set_page_used b page q :
  Z.testbit (upd b (page / 8) (u8 (Z.lor (b (page / 8)) (page_mask (page mod 8)))) (q / 8))
    (7 - q mod 8)
  = if q =? page then true else Z.testbit (b (q / 8)) (7 - q mod 8).
Proof.
  pose proof (Z.mod_pos_bound page 8). pose proof (Z.mod_pos_bound q 8).
  destruct (Z.eqb_spec q page) as [->|Hne].
  - rewrite upd_eq, u8_testbit, Z.lor_spec, page_mask_bits by lia.
    rewrite Z.eqb_refl. apply orb_true_r.
  - destruct (Z.eq_dec (q / 8) (page / 8)) as [E|E].
    + rewrite E, upd_eq, u8_testbit, Z.lor_spec, page_mask_bits by lia.
      destruct (Z.eqb_spec (7 - q mod 8) (7 - page mod 8)); [|apply orb_false_r].
      exfalso. apply Hne. now apply page_split_inj.
    + now rewrite upd_ne.
Qed.

Lemma clear_page_used b page q :
  Z.testbit (upd b (page / 8) (u8 (Z.land (b (page / 8)) (Z.lnot (page_mask (page mod 8))))) (q / 8))
    (7 - q mod 8)
  = if q =? page then false else Z.testbit (b (q / 8)) (7 - q mod 8).
Proof.
  pose proof (Z.mod_pos_bound page 8). pose proof (Z.mod_pos_bound q 8).
  destruct (Z.eqb_spec q page) as [->|Hne].
  - rewrite upd_eq, u8_testbit, Z.land_spec, Z.lnot_spec, page_mask_bits by lia.
    rewrite Z.eqb_refl. apply andb_false_r.
  - destruct (Z.eq_dec (q / 8) (page / 8)) as [E|E].
    + rewrite E, upd_eq, u8_testbit, Z.land_spec, Z.lnot_spec, page_mask_bits by lia.
      destruct (Z.eqb_spec (7 - q mod 8) (7 - page mod 8)); [|apply andb_true_r].
      exfalso. apply Hne. now apply page_split_inj.
    + now rewrite upd_ne.
Qed.

Lemma upd_byte_range (b : Z -> Z) i x :
  (forall k, 0 <= b k < 256) -> forall k, 0 <= upd b i (u8 x) k < 256.
Proof.
  intros H k. unfold upd. destruct (k =? i); [|apply H].
  apply (wrap_range 8 x). lia.
Qed.

(** ** Searching *)

Section Search.
Variables (s : pmm_state) (npages lo : Z).
Hypothesis Hn : 1 <= npages < 2 ^ 31.

(** The run of free pages the scanner remembers at page [p], and that no
    sufficiently long run starting at or after [lo] ends at or before [p]. *)
Definition scan_inv (p : Z) (sc : scan) : Prop :=
  lo <= p /\
  (if inChunk sc
   then lo <= scan_base sc /\ scan_base sc + foundPages sc = p /\
        1 <= foundPages sc < npages /\ pages_free s (scan_base sc) (foundPages sc) /\
        (scan_base sc = lo \/ page_used s (scan_base sc - 1) = true)
   else foundPages sc = 0 /\ (p = lo \/ page_used s (p - 1) = true)) /\
  forall q, lo <= q -> q + npages <= p -> ~ pages_free s q npages.

Definition scan_result (hi v : Z) : Prop :=
  exists p, v = p * 4096 /\ lo <= p /\ p + npages <= hi /\ pages_free s p npages.

Lemma scan_step i j sc :
  0 <= lo -> 0 <= i < 2 ^ 48 -> 0 <= j < 8 -> scan_inv (i * 8 + j) sc ->
  Returns (scan_page s npages i j sc) (fun r =>
    match r with
    | inl v => scan_result (i * 8 + j + 1) v
    | inr sc' => scan_inv (i * 8 + j + 1) sc'
    end).
Proof.
  intros Hlo Hi Hj (Hlp & Hc & Hrun). set (p := i * 8 + j) in *.
  assert (page_used s p = Z.testbit (bitmap s i) (7 - j)) as Hbit.
  { unfold page_used, p. f_equal; [f_equal|]; dm. }
  assert (0 <= p < 2 ^ 51) as Hp.
  { unfold p. change (2 ^ 48) with 281474976710656 in Hi.
    change (2 ^ 51) with 2251799813685248. lia. }
  change (2 ^ 51) with 2251799813685248 in Hp.
  assert (forall b, 0 <= b < 2251799813685249 -> u64 (Z.shiftl b 12) = b * 4096) as Hshl.
  { intros b Hb. rewrite Z.shiftl_mul_pow2 by lia. change (2 ^ 12) with 4096.
    apply wrap_small. pow2_consts. lia. }
  unfold scan_page. rewrite land_mask_eq0, <- Hbit by lia. fold p.
  destruct (page_used s p) eqn:Hused; simpl.
  - (* a used page ends the chunk *)
    assert (forall sc', inChunk sc' = false -> foundPages sc' = 0 -> scan_inv (p + 1) sc') as Hend.
    { intros sc' E1 E2. split; [lia|]. split.
      - rewrite E1. split; [easy|]. right. now replace (p + 1 - 1) with p by lia.
      - intros q Hq Hqe Hf. destruct (Z.le_gt_cases (q + npages) p) as [|Hgt]; [now apply (Hrun q)|].
        rewrite (Hf p) in Hused by lia. discriminate. }
    destruct (inChunk sc) eqn:Hin; apply Returns_ret; apply Hend; auto. tauto.
  - (* a free page starts or extends the chunk *)
    set (sc1 := if inChunk sc then sc else mk_scan (foundPages sc) (u64 p) true).
    assert (lo <= scan_base sc1 /\ scan_base sc1 + foundPages sc1 = p /\
            0 <= foundPages sc1 < npages /\ pages_free s (scan_base sc1) (foundPages sc1 + 1) /\
            inChunk sc1 = true /\
            (scan_base sc1 = lo \/ page_used s (scan_base sc1 - 1) = true)) as
      (B1 & B2 & B3 & B4 & B5 & B6).
    { unfold sc1. destruct (inChunk sc) eqn:Hin.
      - destruct Hc as (H1 & H2 & H3 & H4 & H5). splits; auto; try lia.
        intros q Hq. destruct (Z.eq_dec q p) as [->|]; [easy|]. apply H4. lia.
      - destruct Hc as (H1 & H2). simpl. rewrite (wrap_small 64 p) by (pow2_consts; lia).
        rewrite H1. splits; try lia; [|exact H2].
        intros q Hq. now replace q with p by lia. }
    assert (npages < 2147483648) as Hn' by apply Hn.
    rewrite (swrap_small 32) by (change (2 ^ (32 - 1)) with 2147483648; lia).
    destruct (Z.eqb_spec (foundPages sc1 + 1) npages) as [E|E]; apply Returns_ret.
    + exists (scan_base sc1). rewrite Hshl by lia. rewrite <- E. splits; auto; lia.
    + split; [lia|]. rewrite B5. split.
      * simpl. splits; auto; lia.
      * intros q Hq Hqe Hf. destruct (Z.le_gt_cases (q + npages) p) as [|Hgt]; [now apply (Hrun q)|].
        destruct B6 as [B6|B6]; [lia|].
        rewrite (Hf (scan_base sc1 - 1)) in B6 by lia. discriminate.
Qed.

Lemma scan_range_spec i hi sc :
  0 <= lo -> 0 <= i <= hi -> hi < 2 ^ 48 -> scan_inv (i * 8) sc ->
  Returns (scan_range s npages i hi sc) (fun r =>
    match r with
    | inl v => scan_result (hi * 8) v
    | inr sc' => scan_inv (hi * 8) sc'
    end).
Proof.
  intros Hlo Hi Hhi Hinv. unfold scan_range.
  eapply Returns_mono.
  - apply (for_ret_Returns (fun k sc => scan_inv (k * 8) sc) (scan_result (hi * 8))); [exact Hinv|].
    intros k sc1 Hk Hk1. eapply Returns_mono.
    + apply (for_ret_Returns (fun j sc => scan_inv (k * 8 + j) sc)
               (fun v => scan_result (k * 8 + 8) v)).
      * now rewrite Z.add_0_r.
      * intros j sc2 Hj Hj1. eapply Returns_mono; [apply scan_step; [lia|lia|lia|exact Hj1]|].
        intros [v|sc'] H.
        -- destruct H as (q & -> & ? & ? & ?). exists q. splits; auto; lia.
        -- now rewrite Z.add_assoc.
    + intros [v|sc'] H; simpl in H.
      * destruct H as (q & -> & ? & ? & ?). exists q. splits; auto; lia.
      * now replace ((k + 1) * 8) with (k * 8 + 8) by lia.
  - intros [v|sc'] H; [exact H|].
    rewrite Z2Nat.id in H by lia. now replace (i + (hi - i)) with hi in H by lia.
Qed.

(** A search of a whole range from a fresh scanner. *)
Lemma scan_range_fresh hi b :
  0 <= lo <= hi * 8 -> lo mod 8 = 0 -> hi < 2 ^ 48 ->
  Returns (scan_range s npages (lo / 8) hi (mk_scan 0 b false)) (fun r =>
    match r with
    | inl v => scan_result (hi * 8) v
    | inr _ => forall q, lo <= q -> q + npages <= hi * 8 -> ~ pages_free s q npages
    end).
Proof.
  intros Hlo Hm Hhi. eapply Returns_mono.
  - apply (scan_range_spec (lo / 8) hi); try dm. split; [dm|]. simpl. split.
    + split; [easy|]. left. dm.
    + intros q H1 H2. dm.
  - intros [v|sc'] H; [exact H|]. apply H.
Qed.
End Search.

(** What [pmm_find_free] does: it returns the address of a run of [npages]
    free pages inside the bitmap when there is one, and panics otherwise. *)
Lemma pmm_find_free_spec npages s :
  1 <= npages < 2 ^ 31 -> pmm_wf s ->
  match pmm_find_free npages s with
  | Ret v => exists p, v = p * 4096 /\ 0 <= p /\ p + npages <= bitmapSize s * 8 /\
                       pages_free s p npages
  | Panic _ => forall q, 0 <= q -> q + npages <= bitmapSize s * 8 -> ~ pages_free s q npages
  | _ => False
  end.
Proof.
  intros Hn (_ & Hsz & _). unfold pmm_find_free.
  assert (forall b, Returns (scan_range s npages 0 (bitmapSize s) (mk_scan 0 b false)) (fun r =>
      match r with
      | inl v => scan_result s npages 0 (bitmapSize s * 8) v
      | inr _ => forall q, 0 <= q -> q + npages <= bitmapSize s * 8 -> ~ pages_free s q npages
      end)) as Hall.
  { intros b. apply (scan_range_fresh s npages 0 Hn); lia || reflexivity. }
  destruct (Z.ltb_spec HIGH_BYTE (bitmapSize s)) as [Hh|Hh].
  - destruct (scan_range_fresh s npages (HIGH_BYTE * 8) Hn (bitmapSize s) 0)
      as (r & E & Hr); [unfold HIGH_BYTE in *; lia|reflexivity|lia|].
    change (HIGH_BYTE * 8 / 8) with HIGH_BYTE in E. rewrite E. simpl.
    destruct r as [v|sc].
    + destruct Hr as (p & H1 & H2 & H3 & H4). exists p. unfold HIGH_BYTE in *. splits; auto; lia.
    + destruct (Hall (scan_base sc)) as (r & -> & Hr'). simpl.
      destruct r as [v|]; [|exact Hr'].
      destruct Hr' as (p & H1 & H2 & H3 & H4). exists p. splits; auto; lia.
  - destruct (Hall 0) as (r & -> & Hr). simpl. destruct r as [v|]; [|exact Hr].
    destruct Hr as (p & H1 & H2 & H3 & H4). exists p. splits; auto; lia.
Qed.

Lemma pmm_find_free32_spec npages s :
  1 <= npages < 2 ^ 31 -> pmm_wf s ->
  match pmm_find_free32 npages s with
  | Ret v => exists p, v = p * 4096 /\ 0 <= p /\ p + npages <= bitmapSize s * 8 /\
                       p + npages <= 2 ^ 20 /\ pages_free s p npages
  | Panic _ => forall q, 0 <= q -> q + npages <= Z.min (bitmapSize s * 8) (2 ^ 20) ->
                 ~ pages_free s q npages
  | _ => False
  end.
Proof.
  intros Hn (_ & Hsz & _). unfold pmm_find_free32.
  set (limit := if HIGH_BYTE <? bitmapSize s then HIGH_BYTE else bitmapSize s).
  assert (limit * 8 = Z.min (bitmapSize s * 8) (2 ^ 20) /\ 0 <= limit <= bitmapSize s) as [El Hl].
  { unfold limit, HIGH_BYTE. change (2 ^ 20) with 1048576. zcmp; lia. }
  destruct (scan_range_fresh s npages 0 Hn limit 0) as (r & E & Hr); [lia|reflexivity|lia|].
  change (0 / 8) with 0 in E. rewrite E. simpl. rewrite El in Hr. destruct r as [v|]; [|exact Hr].
  destruct Hr as (p & H1 & H2 & H3 & H4). exists p. splits; auto; lia.
Qed.

(** ** Marking and releasing ranges *)

(** [u64 (u64 x + k)] and friends. *)
Lemma u64_add_l x k : u64 (u64 x + k) = u64 (x + k).
Proof. unfold wrap. apply Zplus_mod_idemp_l. Qed.

Lemma u64_sub_r x k : u64 (k - u64 x) = u64 (k - x).
Proof. unfold wrap. apply Zminus_mod_idemp_r. Qed.

Lemma u64_sub_l x k : u64 (u64 x - k) = u64 (x - k).
Proof. unfold wrap. apply Zminus_mod_idemp_l. Qed.

Lemma page_iterations_eq lo n :
  0 <= lo < 2 ^ 52 -> 0 <= n < 2 ^ 31 -> page_iterations lo n = Z.to_nat n.
Proof.
  intros Hlo Hn. unfold page_iterations. f_equal. rewrite wrap_small; [lia|].
  change (2 ^ 52) with 4503599627370496 in *. pow2_consts. lia.
Qed.

Lemma shiftr_page p : Z.shiftr (p * 4096) 12 = p.
Proof. rewrite Z.shiftr_div_pow2 by lia. apply Z.div_mul. lia. Qed.

(** Pages [p .. p + n) are marked used and nothing else happens. *)
Definition marked (p n : Z) (s s' : pmm_state) : Prop :=
  (forall q, page_used s' q = if (p <=? q) && (q <? p + n) then true else page_used s q) /\
  freePages s' = u64 (freePages s - n) /\ usedPages s' = u64 (usedPages s + n) /\
  same_frame s s' /\ pmm_wf s'.

Lemma mark_used_spec p n s :
  pmm_wf s -> 0 <= p -> 0 <= n < 2 ^ 31 -> p + n <= bitmapSize s * 8 ->
  Returns (mark_used (p * 4096) n s) (marked p n s).
Proof.
  intros (Hb & Hsz & Hf & Hu) Hp Hn Hpn. unfold mark_used. rewrite shiftr_page.
  change (2 ^ 48) with 281474976710656 in *.
  rewrite page_iterations_eq by (change (2 ^ 52) with 4503599627370496; lia).
  replace n with (p + Z.of_nat (Z.to_nat n) - p) at 2 by lia.
  apply (for_up_Returns (fun k t => marked p (k - p) s t)).
  - unfold marked, same_frame, pmm_wf. rewrite Z.sub_diag, Z.sub_0_r, !Z.add_0_r, !wrap_small by easy.
    splits; auto; try lia. intros q. zcmp; simpl; easy || lia.
  - intros k t Hk (M1 & M2 & M3 & (F1 & F2 & F3 & F4 & F5) & (W1 & W2 & W3 & W4)).
    rewrite pmm_bitmap_set_eq by (rewrite F2; dm). apply Returns_ret.
    unfold marked, same_frame, pmm_wf. cbn -[Z.sub Z.add wrap upd].
    rewrite M2, M3, u64_sub_l, u64_add_l.
    splits; auto; try (apply wrap_range; lia); try lia.
    + intros q. unfold page_used. cbn [bitmap set_bitmap set_counts].
      rewrite set_page_used. specialize (M1 q). unfold page_used in M1. rewrite M1.
      zcmp; simpl; easy || lia.
    + f_equal. lia.
    + f_equal. lia.
    + now apply upd_byte_range.
Qed.

(** Pages [p .. p + n) are released; the last of them is filled with ones. *)
Definition released (p n : Z) (s s' : pmm_state) : Prop :=
  (forall q, page_used s' q = if (p <=? q) && (q <? p + n) then false else page_used s q) /\
  freePages s' = u64 (freePages s + n) /\ usedPages s' = u64 (usedPages s - n) /\
  bitmapAddr s' = bitmapAddr s /\ bitmapSize s' = bitmapSize s /\
  usablePages s' = usablePages s /\ pmm_lock s' = pmm_lock s /\
  (forall x, ram s' x =
     if (0 <? n) then fill_ones ((p + n - 1) * 4096) (ram s) x else ram s x) /\
  pmm_wf s'.

Lemma fill_ones_idem a r x : fill_ones a (fill_ones a r) x = fill_ones a r x.
Proof. unfold fill_ones. zcmp; simpl; easy. Qed.

Lemma fill_ones_ext a r r' x : r x = r' x -> fill_ones a r x = fill_ones a r' x.
Proof. intros H. unfold fill_ones. now rewrite H. Qed.

(** The address [pmm_free] fills. *)
Lemma last_page_address p n :
  0 <= p -> 1 <= n <= 2 ^ 19 -> p + n < 2 ^ 51 ->
  u64 (p * 4096 + i32 ((n - 1) * PAGE_SIZE)) = (p + n - 1) * 4096.
Proof.
  intros Hp Hn Hpn. unfold PAGE_SIZE. change (2 ^ 19) with 524288 in *.
  change (2 ^ 51) with 2251799813685248 in *.
  rewrite swrap_small by (change (2 ^ (32 - 1)) with 2147483648; lia).
  rewrite wrap_small; [lia|]. pow2_consts. lia.
Qed.

Lemma free_loop_spec p n s :
  pmm_wf s -> 0 <= p -> 1 <= n <= 2 ^ 19 -> p + n <= bitmapSize s * 8 ->
  Returns (for_up (page_iterations p n) p (free_page (p * 4096) n) s) (released p n s).
Proof.
  intros (Hb & Hsz & Hf & Hu) Hp Hn Hpn.
  assert (u64 (p * 4096 + i32 ((n - 1) * PAGE_SIZE)) = (p + n - 1) * 4096) as Ha.
  { apply last_page_address; auto. change (2 ^ 48) with 281474976710656 in *.
    change (2 ^ 51) with 2251799813685248. lia. }
  change (2 ^ 48) with 281474976710656 in *. change (2 ^ 19) with 524288 in *.
  rewrite page_iterations_eq by (change (2 ^ 52) with 4503599627370496; pow2_consts; lia).
  set (I := fun k t =>
    (forall q, page_used t q = if (p <=? q) && (q <? k) then false else page_used s q) /\
    freePages t = u64 (freePages s + (k - p)) /\ usedPages t = u64 (usedPages s - (k - p)) /\
    bitmapAddr t = bitmapAddr s /\ bitmapSize t = bitmapSize s /\
    usablePages t = usablePages s /\ pmm_lock t = pmm_lock s /\
    (forall x, ram t x = if p <? k then fill_ones ((p + n - 1) * 4096) (ram s) x else ram s x) /\
    pmm_wf t).
  apply (Returns_mono _ (I (p + Z.of_nat (Z.to_nat n)))).
  - apply (for_up_Returns I); unfold I.
    + unfold pmm_wf. rewrite Z.sub_diag, Z.sub_0_r, !Z.add_0_r, !wrap_small, Z.ltb_irrefl by easy.
      splits; auto; try (pow2_consts; lia). intros q. zcmp; simpl; easy || lia.
    + intros k t Hk (M1 & M2 & M3 & F1 & F2 & F3 & F4 & F5 & (W1 & W2 & W3 & W4)).
      unfold free_page. rewrite pmm_bitmap_clear_eq by (cbn [bitmapSize set_ram]; rewrite F2; dm).
      apply Returns_ret. unfold pmm_wf. cbn -[Z.sub Z.add wrap upd].
      rewrite M2, M3, u64_sub_l, u64_add_l.
      splits; auto; try (apply wrap_range; lia); try lia.
      * intros q. unfold page_used. cbn [bitmap set_bitmap set_counts set_ram].
        rewrite clear_page_used. specialize (M1 q). unfold page_used in M1. rewrite M1.
        zcmp; simpl; easy || lia.
      * f_equal. lia.
      * f_equal. lia.
      * intros x. rewrite Ha. destruct (Z.ltb_spec p (k + 1)); [|lia].
        specialize (F5 x). destruct (p <? k).
        -- rewrite <- (fill_ones_idem _ (ram s)). now apply fill_ones_ext.
        -- now apply fill_ones_ext.
      * now apply upd_byte_range.
  - intros t (M1 & M2 & M3 & F1 & F2 & F3 & F4 & F5 & W). rewrite Z2Nat.id in * by lia.
    unfold released. replace (p + n - p) with n in * by lia.
    splits; auto; try (apply W; lia). intros x. rewrite F5.
    destruct (Z.ltb_spec p (p + n)), (Z.ltb_spec 0 n); easy || lia.
Qed.

(** ** The allocator interface *)

(** [pmm_allocate] on a machine whose allocator lock is free. *)
Lemma pmm_allocate_cases npages s :
  1 <= npages < 2 ^ 31 -> pmm_wf s -> pmm_lock s = false ->
  match pmm_allocate npages s with
  | Ret (v, s') => exists p, v = p * 4096 /\ 0 <= p /\ p + npages <= bitmapSize s * 8 /\
                     pages_free s p npages /\ marked p npages s s'
  | Panic _ => forall q, 0 <= q -> q + npages <= bitmapSize s * 8 -> ~ pages_free s q npages
  | _ => False
  end.
Proof.
  intros Hn W Hl. unfold pmm_allocate. rewrite Hl. simpl.
  set (s0 := set_lock true s).
  assert (pmm_wf s0) as W0 by exact W.
  pose proof (pmm_find_free_spec npages s0 Hn W0) as H.
  destruct (pmm_find_free npages s0) as [v|m| | |]; simpl; try contradiction; [|exact H].
  destruct H as (p & -> & Hp & Hpn & Hfree).
  destruct (mark_used_spec p npages s0 W0) as (t & -> & Ht); [lia|lia|exact Hpn|].
  simpl. exists p. splits; auto.
  destruct Ht as (M1 & M2 & M3 & (F1 & F2 & F3 & F4 & F5) & W').
  unfold marked, same_frame. cbn. splits; auto. all: apply W'.
Qed.

Lemma pmm_allocate32_cases npages s :
  1 <= npages < 2 ^ 31 -> pmm_wf s -> pmm_lock s = false ->
  match pmm_allocate32 npages s with
  | Ret (v, s') => exists p, v = p * 4096 /\ 0 <= p /\ p + npages <= bitmapSize s * 8 /\
                     p + npages <= 2 ^ 20 /\ pages_free s p npages /\ marked p npages s s'
  | Panic _ => forall q, 0 <= q -> q + npages <= Z.min (bitmapSize s * 8) (2 ^ 20) ->
                 ~ pages_free s q npages
  | _ => False
  end.
Proof.
  intros Hn W Hl. unfold pmm_allocate32. rewrite Hl. simpl.
  set (s0 := set_lock true s).
  assert (pmm_wf s0) as W0 by exact W.
  pose proof (pmm_find_free32_spec npages s0 Hn W0) as H.
  destruct (pmm_find_free32 npages s0) as [v|m| | |]; simpl; try contradiction; [|exact H].
  destruct H as (p & -> & Hp & Hpn & H32 & Hfree).
  destruct (mark_used_spec p npages s0 W0) as (t & -> & Ht); [lia|lia|exact Hpn|].
  simpl. exists p. splits; auto.
  destruct Ht as (M1 & M2 & M3 & (F1 & F2 & F3 & F4 & F5) & W').
  unfold marked, same_frame. cbn. splits; auto. all: apply W'.
Qed.

Lemma pmm_free_cases p n s :
  pmm_wf s -> pmm_lock s = false -> 0 <= p -> 1 <= n <= 2 ^ 19 ->
  p + n <= bitmapSize s * 8 ->
  Returns (pmm_free (p * 4096) n s) (released p n s).
Proof.
  intros W Hl Hp Hn Hpn. unfold pmm_free. rewrite Hl. simpl. rewrite shiftr_page.
  destruct (free_loop_spec p n (set_lock true s) W) as (t & -> & Ht); auto.
  simpl. apply Returns_ret.
  destruct Ht as (M1 & M2 & M3 & F1 & F2 & F3 & F4 & F5 & W').
  unfold released. cbn. splits; auto. all: apply W'.
Qed.

(** ** Accounting *)

(** The number of clear bits among the first [k] pages. *)
Fixpoint count_clear (f : Z -> bool) (k : nat) : Z :=
  match k with
  | O => 0
  | S k' => count_clear f k' + (if f (Z.of_nat k') then 0 else 1)
  end.

Definition free_count (s : pmm_state) : Z :=
  count_clear (page_used s) (Z.to_nat (bitmapSize s * 8)).

Lemma count_clear_bounds f k : 0 <= count_clear f k <= Z.of_nat k.
Proof. induction k; cbn [count_clear]; [lia|]. destruct (f _); lia. Qed.

(** Flipping the bits of [p .. p + n) from [negb b] to [b]. *)
Lemma count_clear_flip (b : bool) f f' p n k :
  0 <= p -> 0 <= n ->
  (forall q, p <= q < p + n -> q < Z.of_nat k -> f q = negb b) ->
  (forall q, f' q = if (p <=? q) && (q <? p + n) then b else f q) ->
  count_clear f' k =
    count_clear f k +
    (if b then -1 else 1) * (Z.min (Z.of_nat k) (p + n) - Z.min (Z.of_nat k) p).
Proof.
  intros Hp Hn Hf Hf'. induction k as [|k IH]; cbn [count_clear].
  - rewrite !Z.min_l by lia. destruct b; lia.
  - rewrite IH, Hf' by (intros; apply Hf; lia).
    destruct (Z.leb_spec p (Z.of_nat k)), (Z.ltb_spec (Z.of_nat k) (p + n)); simpl.
    1: rewrite (Hf (Z.of_nat k)) by lia.
    all: destruct b; simpl; lia.
Qed.

Lemma free_count_bounds s : pmm_wf s -> 0 <= free_count s <= bitmapSize s * 8.
Proof.
  intros (_ & H & _). unfold free_count.
  pose proof (count_clear_bounds (page_used s) (Z.to_nat (bitmapSize s * 8))). lia.
Qed.

(** The counters say what the bitmap says, up to a constant [d]: the pages that are counted
    as free without a clear bit. *)
Definition accounting (d : Z) (s : pmm_state) : Prop :=
  pmm_wf s /\ pmm_lock s = false /\
  freePages s = u64 (free_count s + d) /\ usedPages s = u64 (bitmapSize s * 8 - free_count s - d).

Lemma accounting_marked d p n s s' :
  accounting d s -> 0 <= p -> 0 <= n -> p + n <= bitmapSize s * 8 ->
  pages_free s p n -> marked p n s s' -> accounting d s'.
Proof.
  intros (W & L & A & B) Hp Hn Hpn Hfree (M1 & M2 & M3 & (F1 & F2 & F3 & F4 & F5) & W').
  assert (free_count s' = free_count s - n) as E.
  { unfold free_count. rewrite F2.
    rewrite (count_clear_flip true (page_used s) (page_used s') p n); [cbv iota; lia|lia|lia|intros q Hq _; now apply Hfree|exact M1]. }
  unfold accounting. rewrite M2, M3, A, B, E, F2, F4, u64_sub_l, u64_add_l.
  splits; try apply W'; auto; f_equal; lia.
Qed.

Lemma accounting_released d p n s s' :
  accounting d s -> 0 <= p -> 0 <= n -> p + n <= bitmapSize s * 8 ->
  (forall q, p <= q < p + n -> page_used s q = true) ->
  released p n s s' -> accounting d s'.
Proof.
  intros (W & L & A & B) Hp Hn Hpn Hused (M1 & M2 & M3 & F1 & F2 & F3 & F4 & F5 & W').
  assert (free_count s' = free_count s + n) as E.
  { unfold free_count. rewrite F2.
    rewrite (count_clear_flip false (page_used s) (page_used s') p n); [cbv iota; lia|lia|lia|intros q Hq _; now apply Hused|exact M1]. }
  unfold accounting. rewrite M2, M3, A, B, E, F2, F4, u64_sub_l, u64_add_l.
  splits; try apply W'; auto; f_equal; lia.
Qed.

(** The allocator as a state machine: its clients allocate, and free what is
    allocated. *)
Inductive pmm_step : pmm_state -> pmm_state -> Prop :=
| step_allocate n v s s' :
    1 <= n < 2 ^ 31 -> pmm_allocate n s = Ret (v, s') -> pmm_step s s'
| step_allocate32 n v s s' :
    1 <= n < 2 ^ 31 -> pmm_allocate32 n s = Ret (v, s') -> pmm_step s s'
| step_free p n s s' :
    0 <= p -> 1 <= n <= 2 ^ 19 -> p + n <= bitmapSize s * 8 ->
    (forall q, p <= q < p + n -> page_used s q = true) ->
    pmm_free (p * 4096) n s = Ret s' -> pmm_step s s'.

Lemma pmm_step_accounting d s s' : accounting d s -> pmm_step s s' -> accounting d s'.
Proof.
  intros A Hstep. pose proof A as (W & L & _).
  destruct Hstep as [n v s s' Hn E|n v s s' Hn E|p n s s' Hp Hn Hpn Hu E].
  - pose proof (pmm_allocate_cases n s Hn W L) as H. rewrite E in H.
    destruct H as (p & _ & ? & ? & ? & ?). apply (accounting_marked d p n s); auto; lia.
  - pose proof (pmm_allocate32_cases n s Hn W L) as H. rewrite E in H.
    destruct H as (p & _ & ? & ? & ? & ? & ?). apply (accounting_marked d p n s); auto; lia.
  - destruct (pmm_free_cases p n s) as (t & E' & Ht); auto.
    rewrite E in E'. inv_ret. eapply (accounting_released d p n s); auto; lia.
Qed.

(** ** Initialisation *)

(** Page [q] lies in the usable entry [e]. *)
Definition entry_page (e : memmap_entry_t) (q : Z) : bool :=
  (me_type e =? MEMMAP_USABLE) && (me_base e / 4096 <=? q) &&
  (q <? (me_base e + me_length e) / 4096).

Definition usable_page (m : list memmap_entry_t) (q : Z) : bool := existsb (fun e => entry_page e q) m.

(** What every phase of [pmm_init] preserves. *)
Definition init_frame (s s' : pmm_state) : Prop :=
  u64 (freePages s' + usedPages s') = u64 (freePages s + usedPages s) /\
  bitmapAddr s' = bitmapAddr s /\ bitmapSize s' = bitmapSize s /\
  pmm_lock s' = pmm_lock s /\ ram s' = ram s /\ pmm_wf s'.

Lemma init_frame_refl s : pmm_wf s -> init_frame s s.
Proof. intros W. unfold init_frame. splits; auto; apply W. Qed.

Lemma init_frame_trans s1 s2 s3 : init_frame s1 s2 -> init_frame s2 s3 -> init_frame s1 s3.
Proof.
  intros (A1 & A2 & A3 & A4 & A5 & _) (B1 & B2 & B3 & B4 & B5 & W). unfold init_frame.
  splits; try congruence; apply W.
Qed.

Lemma u64_sum_shift f u d : u64 (u64 (f + d) + u64 (u - d)) = u64 (f + u).
Proof.
  unfold wrap. rewrite <- Zplus_mod. f_equal. lia.
Qed.

Lemma clear_page_spec page t :
  pmm_wf t -> page / 8 <= bitmapSize t ->
  Returns (s ← pmm_bitmap_clear page t; Ret (set_usable (u64 (usablePages s + 1)) s)) (fun t' =>
    (forall q, page_used t' q = if q =? page then false else page_used t q) /\
    freePages t' = u64 (freePages t + 1) /\ init_frame t t').
Proof.
  intros W Hp. rewrite pmm_bitmap_clear_eq by exact Hp. simpl. apply Returns_ret.
  splits.
  - intros q. unfold page_used. cbn [bitmap set_bitmap set_counts set_usable]. apply clear_page_used.
  - reflexivity.
  - destruct W as (W1 & W2 & W3 & W4). unfold init_frame, pmm_wf. cbn -[wrap upd Z.add Z.sub].
    splits; auto; try (apply wrap_range; lia); try lia.
    + apply u64_sum_shift.
    + now apply upd_byte_range.
Qed.

Lemma set_page_spec page t :
  pmm_wf t -> page / 8 <= bitmapSize t ->
  Returns (s ← pmm_bitmap_set page t; Ret (set_usable (u64 (usablePages s - 1)) s)) (fun t' =>
    (forall q, page_used t' q = if q =? page then true else page_used t q) /\
    freePages t' = u64 (freePages t - 1) /\ init_frame t t').
Proof.
  intros W Hp. rewrite pmm_bitmap_set_eq by exact Hp. simpl. apply Returns_ret.
  splits.
  - intros q. unfold page_used. cbn [bitmap set_bitmap set_counts set_usable]. apply set_page_used.
  - reflexivity.
  - destruct W as (W1 & W2 & W3 & W4). unfold init_frame, pmm_wf. cbn -[wrap upd Z.add Z.sub].
    splits; auto; try (apply wrap_range; lia); try lia.
    + rewrite <- (u64_sum_shift (freePages t) (usedPages t) (-1)).
      replace (usedPages t - -1) with (usedPages t + 1) by lia. reflexivity.
    + now apply upd_byte_range.
Qed.

(** The number of pages of a usable entry. *)
Definition entry_pages (e : memmap_entry_t) : Z :=
  if me_type e =? MEMMAP_USABLE then (me_base e + me_length e) / 4096 - me_base e / 4096 else 0.

Lemma free_entry_spec e t :
  pmm_wf t -> entry_ok e ->
  (me_type e = MEMMAP_USABLE -> (me_base e + me_length e) / 4096 / 8 <= bitmapSize t) ->
  Returns (free_entry e t) (fun t' =>
    (forall q, page_used t' q = if entry_page e q then false else page_used t q) /\
    freePages t' = u64 (freePages t + entry_pages e) /\ init_frame t t').
Proof.
  intros W (Hb & Hl & Hu & _) Hsz. unfold free_entry, entry_page, entry_pages.
  destruct (Z.eqb_spec (me_type e) MEMMAP_USABLE) as [Ht|Ht]; simpl.
  2: { apply Returns_ret. rewrite Z.add_0_r, wrap_small by apply W. splits; [easy|easy|now apply init_frame_refl]. }
  specialize (Hsz Ht). change (2 ^ 52) with 4503599627370496 in *. unfold PAGE_SIZE in *.
  rewrite !Z.shiftr_div_pow2, (wrap_small 64) by (pow2_consts; lia). change (2 ^ 12) with 4096.
  set (lo := me_base e / 4096) in *. set (hi := (me_base e + me_length e) / 4096) in *.
  assert (lo <= hi) by (unfold lo, hi; dm).
  eapply Returns_mono.
  - apply (for_up_Returns (fun k t' =>
      (forall q, page_used t' q = if (lo <=? q) && (q <? k) then false else page_used t q) /\
      freePages t' = u64 (freePages t + (k - lo)) /\ init_frame t t')).
    + rewrite Z.sub_diag, Z.add_0_r, wrap_small by apply W. splits; [intros q; zcmp; simpl; easy || lia|easy|now apply init_frame_refl].
    + intros k t1 Hk (I1 & IF & I2). pose proof I2 as (_ & _ & E & _ & _ & W1).
      eapply Returns_mono; [apply clear_page_spec; [exact W1|rewrite E; dm]|].
      intros t2 (J1 & JF & J2). splits; [|rewrite JF, IF, u64_add_l; f_equal; lia|eapply init_frame_trans; eauto].
      intros q. rewrite J1, I1. zcmp; simpl; easy || lia.
  - intros t' (I1 & IF & I2). rewrite Z2Nat.id in * by lia. replace (lo + (hi - lo)) with hi in * by lia.
    splits; [exact I1|exact IF|exact I2].
Qed.

(** The pages of usable entries from page [N] on. *)
Definition beyond (N : Z) (e : memmap_entry_t) : Z :=
  if me_type e =? MEMMAP_USABLE
  then Z.max N ((me_base e + me_length e) / 4096) - Z.max N (me_base e / 4096) else 0.
Definition all_beyond (N : Z) (m : list memmap_entry_t) : Z := foldr (fun e n => beyond N e + n) 0 m.

Lemma entry_page_count e t t' : entry_ok e -> pmm_wf t -> bitmapSize t' = bitmapSize t ->
  (forall q, 0 <= q < bitmapSize t * 8 -> entry_page e q = true -> page_used t q = true) ->
  (forall q, page_used t' q = if entry_page e q then false else page_used t q) ->
  free_count t' = free_count t + (entry_pages e - beyond (bitmapSize t * 8) e).
Proof.
  intros (Hb & Hl & _) (_ & Hs & _) Es Hu Hp. unfold free_count, entry_pages, beyond, entry_page in *. rewrite Es.
  destruct (Z.eqb_spec (me_type e) MEMMAP_USABLE) as [Ht|Ht]; cbn [andb] in *.
  - set (lo := me_base e / 4096) in *. set (hi := (me_base e + me_length e) / 4096) in *.
    assert (0 <= lo <= hi) by (unfold lo, hi; dm).
    rewrite (count_clear_flip false (page_used t) (page_used t') lo (hi - lo)); [|lia|lia| |].
    + rewrite Z2Nat.id by lia. replace (lo + (hi - lo)) with hi by lia. cbv iota. lia.
    + intros q Hq Hk. rewrite Z2Nat.id in Hk by lia. apply Hu; [lia|]. zcmp; simpl; easy || lia.
    + intros q. replace (lo + (hi - lo)) with hi by lia. apply Hp.
  - rewrite Z.add_0_r. generalize (Z.to_nat (bitmapSize t * 8)). intros k. induction k as [|k IH]; [reflexivity|].
    cbn [count_clear]. now rewrite IH, Hp.
Qed.

(** The pages of an entry with a guarantee are not those of a later usable one. *)
Lemma entry_page_later e m q : entry_ok e -> Forall entry_ok m -> map_sorted (e :: m) ->
  usable_page m q = true -> entry_page e q = false.
Proof.
  intros He Hok Hs (e' & He' & Hq)%existsb_exists. apply not_true_is_false. unfold entry_page in *.
  rewrite !andb_true_iff, Z.eqb_eq, Z.leb_le, Z.ltb_lt in *. intros [[Ht H1] H2].
  pose proof (map_sorted_after e m He Hok Hs (usable_guaranteed e Ht)) as Ha. rewrite Forall_forall in Ha.
  specialize (Ha e' ltac:(now apply list_elem_of_In)). dm.
Qed.

Lemma free_entries_spec m t :
  pmm_wf t -> Forall entry_ok m -> map_sorted m ->
  (forall e, e ∈ m -> me_type e = MEMMAP_USABLE ->
     (me_base e + me_length e) / 4096 / 8 <= bitmapSize t) ->
  (forall q, 0 <= q < bitmapSize t * 8 -> page_used t q = false -> usable_page m q = false) ->
  Returns (free_entries m t) (fun t' =>
    (forall q, page_used t' q = if usable_page m q then false else page_used t q) /\
    freePages t' = u64 (freePages t + (free_count t' - free_count t) + all_beyond (bitmapSize t * 8) m) /\
    init_frame t t').
Proof.
  intros W Hok. revert t W. induction Hok as [|e m He Hok IH]; intros t W Hs Hsz Hu; cbn [free_entries].
  - apply Returns_ret. rewrite Z.sub_diag, !Z.add_0_r, wrap_small by apply W. splits; [easy|easy|now apply init_frame_refl].
  - eapply Returns_bind.
    + apply free_entry_spec; [exact W|exact He|]. apply Hsz. apply elem_of_cons. now left.
    + intros t1 (I1 & IF & I2). pose proof I2 as (_ & _ & E & _ & _ & W1).
      assert (free_count t1 = free_count t + (entry_pages e - beyond (bitmapSize t * 8) e)) as EC.
      { apply entry_page_count; auto. intros q Hq He'. destruct (page_used t q) eqn:Eu; [reflexivity|].
        specialize (Hu q Hq Eu). cbn [usable_page existsb] in Hu. now rewrite He' in Hu. }
      eapply Returns_mono.
      * apply IH; [exact W1|apply Hs| |].
        -- intros e' He'. rewrite E. apply Hsz. apply elem_of_cons. now right.
        -- intros q Hq. rewrite E in Hq. rewrite I1. destruct (usable_page m q) eqn:Em; [|easy].
           rewrite (entry_page_later e m q He Hok Hs Em). intros Eu. specialize (Hu q Hq Eu). cbn [usable_page existsb] in Hu.
           fold (usable_page m q) in Hu. now rewrite Em, orb_true_r in Hu.
      * intros t2 (J1 & JF & J2). splits; [| |eapply init_frame_trans; eauto].
        -- intros q. rewrite J1, I1. cbn [usable_page existsb].
           fold (usable_page m q). destruct (usable_page m q), (entry_page e q); easy.
        -- rewrite JF, IF, E, EC, <- Z.add_assoc, u64_add_l. f_equal. cbn [all_beyond foldr]. fold (all_beyond (bitmapSize t * 8) m). lia.
Qed.

(** Marking one page as used takes it from the free ones when it was one of them. *)
Lemma free_count_set page t t' : pmm_wf t -> 0 <= page -> bitmapSize t' = bitmapSize t ->
  (forall q, page_used t' q = if q =? page then true else page_used t q) ->
  free_count t' = free_count t - (if (page <? bitmapSize t * 8) && negb (page_used t page) then 1 else 0).
Proof.
  intros (_ & Hs & _) Hp Es Hu. unfold free_count. rewrite Es. destruct (page_used t page) eqn:E.
  - rewrite andb_false_r, Z.sub_0_r. generalize (Z.to_nat (bitmapSize t * 8)). intros k. induction k as [|k IH]; [reflexivity|].
    cbn [count_clear]. rewrite IH, Hu. destruct (Z.eqb_spec (Z.of_nat k) page) as [->|]; [now rewrite E|reflexivity].
  - rewrite (count_clear_flip true (page_used t) (page_used t') page 1); [|lia|lia|intros q Hq _; now replace q with page by lia|].
    + rewrite Z2Nat.id by lia. cbv iota. cbn [negb andb]. destruct (Z.ltb_spec page (bitmapSize t * 8)); cbn [andb]; lia.
    + intros q. rewrite Hu. zcmp; simpl; easy || lia.
Qed.

(** Among [n] pages from [p] on, those that are no free pages of the bitmap. *)
Definition not_free (p : Z) (n : nat) (t : pmm_state) : Z :=
  count_clear (fun k => (p + k <? bitmapSize t * 8) && negb (page_used t (p + k))) n.

Lemma reserve_bitmap_spec b t :
  pmm_wf t -> 0 <= b -> b mod 4096 = 0 -> (b + bitmapSize t) / 4096 / 8 <= bitmapSize t ->
  Returns (reserve_bitmap b t) (fun t' =>
    (forall q, page_used t' q =
       if (b / 4096 <=? q) && (q <=? (b + bitmapSize t) / 4096) then true else page_used t q) /\
    freePages t' = u64 (freePages t + (free_count t' - free_count t) -
      not_free (b / 4096) (Z.to_nat (bitmapSize t / 4096 + 1)) t) /\
    init_frame t t').
Proof.
  intros W Hb Hm Hsz. unfold reserve_bitmap. pose proof W as (_ & Hs & _).
  unfold PAGE_SIZE in *.
  assert (forall k, (b + k * 4096) / 4096 = b / 4096 + k) as Hk' by (intros; dm).
  eapply Returns_mono.
  - apply (for_up_Returns (fun k t' =>
      (forall q, page_used t' q =
         if (b / 4096 <=? q) && (q <? b / 4096 + k) then true else page_used t q) /\
      freePages t' = u64 (freePages t + (free_count t' - free_count t) - not_free (b / 4096) (Z.to_nat k) t) /\
      init_frame t t')).
    + rewrite Z.sub_diag, !Z.add_0_r. cbn [not_free count_clear Z.to_nat]. rewrite Z.sub_0_r, wrap_small by apply W.
      splits; [intros q; zcmp; simpl; easy || lia|easy|now apply init_frame_refl].
    + intros k t1 Hk (I1 & IF & I2). pose proof I2 as (_ & _ & E & _ & _ & W1).
      eapply Returns_mono; [apply set_page_spec; [exact W1|rewrite E, Hk'; dm]|].
      rewrite Hk'. intros t2 (J1 & JF & J2). splits; [| |eapply init_frame_trans; eauto].
      * intros q. rewrite J1, I1. zcmp; simpl; easy || lia.
      * pose proof J2 as (_ & _ & E2 & _). rewrite (free_count_set (b / 4096 + k) t1 t2 W1 ltac:(dm) E2 J1), JF, IF, u64_sub_l, E.
        f_equal. replace (Z.to_nat (k + 1)) with (S (Z.to_nat k)) by lia. cbn [not_free count_clear].
        fold (not_free (b / 4096) (Z.to_nat k) t). rewrite Z2Nat.id, I1 by lia.
        destruct (Z.leb_spec (b / 4096) (b / 4096 + k)), (Z.ltb_spec (b / 4096 + k) (b / 4096 + k)); try lia. cbn [andb].
        destruct ((_ <? _) && _); lia.
  - intros t' (I1 & IF & I2). rewrite Z.add_0_l, Nat2Z.id in IF. splits; [|exact IF|exact I2]. intros q. rewrite I1.
    assert ((b + bitmapSize t) / 4096 = b / 4096 + bitmapSize t / 4096) by dm.
    rewrite Z2Nat.id by dm. zcmp; simpl; easy || lia.
Qed.

(** ** Properties *)

(** C1: [pmm_allocate] is total and exact.  Started with the lock free, it
    returns exactly when the bitmap has a run of [npages] free pages; the address
    it returns is page aligned and names such a run, all of whose pages were free
    before and are used after; no other page changes state, both counters move by
    [npages], and the lock is free again.  Otherwise it panics, and there is no
    such run anywhere in the bitmap. *)
Theorem pmm_allocate_correct npages s :
  1 <= npages < 2 ^ 31 -> pmm_wf s -> pmm_lock s = false ->
  match pmm_allocate npages s with
  | Ret (v, s') =>
      exists p, v = p * PAGE_SIZE /\ 0 <= p /\ p + npages <= bitmapSize s * 8 /\
        pages_free s p npages /\ marked p npages s s' /\ pmm_lock s' = false
  | Panic _ => forall q, 0 <= q -> q + npages <= bitmapSize s * 8 -> ~ pages_free s q npages
  | _ => False
  end.
Proof.
  intros Hn W L. pose proof (pmm_allocate_cases npages s Hn W L) as H.
  destruct (pmm_allocate npages s) as [[v s']|m| | |]; auto.
  destruct H as (p & ? & ? & ? & ? & M). exists p. splits; auto.
  destruct M as (_ & _ & _ & (_ & _ & _ & -> & _) & _). exact L.
Qed.

(** Pages 2, 3 and 4 of eight are free. *)
Definition pmm_demo : pmm_state :=
  mk_pmm (fun i => if i =? 0 then 199 else 255) 0 1 3 5 0 false (fun _ => 0).

Lemma pmm_demo_wf : pmm_wf pmm_demo.
Proof.
  unfold pmm_wf, pmm_demo. cbn [bitmap bitmapSize freePages usedPages].
  splits; try lia. intros i. destruct (i =? 0); lia.
Qed.

Lemma pmm_allocate_correct_witness :
  (exists s', pmm_allocate 2 pmm_demo = Ret (2 * PAGE_SIZE, s')) /\
  match pmm_allocate 2 pmm_demo with
  | Ret (v, s') =>
      exists p, v = p * PAGE_SIZE /\ 0 <= p /\ p + 2 <= bitmapSize pmm_demo * 8 /\
        pages_free pmm_demo p 2 /\ marked p 2 pmm_demo s' /\ pmm_lock s' = false
  | Panic _ => forall q, 0 <= q -> q + 2 <= bitmapSize pmm_demo * 8 -> ~ pages_free pmm_demo q 2
  | _ => False
  end.
Proof.
  split; [eexists; vm_compute; reflexivity|].
  apply (pmm_allocate_correct 2 pmm_demo); [lia|exact pmm_demo_wf|reflexivity].
Defined.

(** C5: [pmm_free] of a range inside the bitmap returns with the lock free,
    clears exactly the bits of the range and moves the counters by its length.
    The only memory it fills with ones is the last page of the range, whatever
    the number of pages: the other pages keep their contents. *)
Theorem pmm_free_correct p n s :
  pmm_wf s -> pmm_lock s = false -> 0 <= p -> 1 <= n <= 2 ^ 19 ->
  p + n <= bitmapSize s * 8 ->
  Returns (pmm_free (p * PAGE_SIZE) n s) (fun s' =>
    (forall q, page_used s' q = if (p <=? q) && (q <? p + n) then false else page_used s q) /\
    freePages s' = u64 (freePages s + n) /\ usedPages s' = u64 (usedPages s - n) /\
    pmm_lock s' = false /\
    forall x, ram s' x =
      if ((p + n - 1) * PAGE_SIZE <=? x) && (x <? (p + n) * PAGE_SIZE)
      then 2 ^ 64 - 1 else ram s x).
Proof.
  intros W L Hp Hn Hpn. eapply Returns_mono; [now apply pmm_free_cases|].
  intros s' (M1 & M2 & M3 & F1 & F2 & F3 & F4 & F5 & W'). rewrite F4.
  splits; auto. intros x. rewrite F5. destruct (Z.ltb_spec 0 n); [|lia].
  unfold fill_ones, PAGE_SIZE. now replace ((p + n - 1) * 4096 + 4096) with ((p + n) * 4096) by lia.
Qed.

Lemma pmm_free_correct_witness :
  Returns (pmm_free (5 * PAGE_SIZE) 2 pmm_demo) (fun s' =>
    (forall q, page_used s' q = if (5 <=? q) && (q <? 5 + 2) then false else page_used pmm_demo q) /\
    freePages s' = u64 (freePages pmm_demo + 2) /\ usedPages s' = u64 (usedPages pmm_demo - 2) /\
    pmm_lock s' = false /\
    forall x, ram s' x =
      if ((5 + 2 - 1) * PAGE_SIZE <=? x) && (x <? (5 + 2) * PAGE_SIZE)
      then 2 ^ 64 - 1 else ram pmm_demo x).
Proof.
  apply (pmm_free_correct 5 2 pmm_demo); [exact pmm_demo_wf|reflexivity|lia|lia|].
  cbn [bitmapSize pmm_demo]. lia.
Defined.

(** Freeing what was just allocated restores the allocator: every page has
    the state it had, and so have both counters and the lock. *)
Theorem pmm_allocate_free_roundtrip npages s v s1 :
  1 <= npages <= 2 ^ 19 -> pmm_wf s -> pmm_lock s = false ->
  pmm_allocate npages s = Ret (v, s1) ->
  Returns (pmm_free v npages s1) (fun s2 =>
    (forall q, page_used s2 q = page_used s q) /\
    freePages s2 = freePages s /\ usedPages s2 = usedPages s /\
    bitmapSize s2 = bitmapSize s /\ pmm_lock s2 = false).
Proof.
  intros Hn W L E.
  assert (1 <= npages < 2 ^ 31) as Hn'.
  { change (2 ^ 19) with 524288 in Hn. pow2_consts. lia. }
  pose proof (pmm_allocate_cases npages s Hn' W L) as H. rewrite E in H.
  destruct H as (p & -> & Hp & Hpn & Hfree & (M1 & M2 & M3 & (F1 & F2 & F3 & F4 & F5) & W')).
  eapply Returns_mono.
  - apply pmm_free_cases; auto; [now rewrite F4|now rewrite F2].
  - intros s2 (N1 & N2 & N3 & G1 & G2 & G3 & G4 & _).
    rewrite N2, N3, M2, M3, u64_add_l, u64_sub_l, G2, F2, G4, F4.
    replace (freePages s - npages + npages) with (freePages s) by lia.
    replace (usedPages s + npages - npages) with (usedPages s) by lia.
    destruct W as (_ & _ & W3 & W4). rewrite !wrap_small by assumption.
    splits; auto. intros q. rewrite N1, M1. specialize (Hfree q). zcmp; simpl; auto.
    symmetry. apply Hfree. lia.
Qed.

Lemma pmm_allocate_free_roundtrip_witness :
  exists v s1, pmm_allocate 3 pmm_demo = Ret (v, s1) /\
  Returns (pmm_free v 3 s1) (fun s2 =>
    (forall q, page_used s2 q = page_used pmm_demo q) /\
    freePages s2 = freePages pmm_demo /\ usedPages s2 = usedPages pmm_demo /\
    bitmapSize s2 = bitmapSize pmm_demo /\ pmm_lock s2 = false).
Proof.
  destruct (pmm_allocate 3 pmm_demo) as [[v s1]|m| | |] eqn:E.
  2-5: vm_compute in E; discriminate E.
  exists v, s1. split; [reflexivity|].
  apply (pmm_allocate_free_roundtrip 3 pmm_demo v s1); [lia|exact pmm_demo_wf|reflexivity|exact E].
Defined.

Lemma find_bitmap_entry_spec bsize m b :
  find_bitmap_entry bsize m = Some b ->
  exists e, e ∈ m /\ me_type e = MEMMAP_USABLE /\ me_base e = b /\ bsize <= me_length e.
Proof.
  induction m as [|e m IH]; simpl; [discriminate|].
  destruct (Z.eqb_spec (me_type e) MEMMAP_USABLE) as [Ht|Ht]; simpl.
  1: destruct (Z.ltb_spec (me_length e) bsize) as [Hl|Hl].
  2: { intros [= <-]. exists e. splits; auto. apply elem_of_cons. now left. }
  all: intros H; destruct (IH H) as (e' & He' & ?); exists e';
       (split; [apply elem_of_cons; now right|assumption]).
Qed.

Lemma all_ones_used bsize (f : Z -> Z) q :
  0 <= q < bsize * 8 ->
  Z.testbit (if (0 <=? q / 8) && (q / 8 <? bsize) then 255 else f (q / 8)) (7 - q mod 8) = true.
Proof.
  intros Hq. destruct (Z.leb_spec 0 (q / 8)); [|dm]. destruct (Z.ltb_spec (q / 8) bsize); [|dm].
  cbn [andb]. change 255 with (Z.ones 8). apply Z.ones_spec_low. dm.
Qed.

(** The pages [pmm_init] counts as free although no bit of the bitmap says so: the usable
    pages of a last partial byte, which [bitmapSize] does not cover, less the pages reserved
    for the bitmap that were not free. *)
Definition drift (m : list memmap_entry_t) (b bsize : Z) : Z :=
  all_beyond (bsize * 8) m -
  count_clear (fun k => (b / 4096 + k <? bsize * 8) && usable_page m (b / 4096 + k)) (Z.to_nat (bsize / 4096 + 1)).

Lemma count_clear_ext f g k : (forall q, 0 <= q < Z.of_nat k -> f q = g q) -> count_clear f k = count_clear g k.
Proof.
  induction k as [|k IH]; intros H; cbn [count_clear]; [reflexivity|]. rewrite IH by (intros; apply H; lia). now rewrite (H (Z.of_nat k)) by lia.
Qed.

Lemma count_clear_all f k : (forall q, 0 <= q < Z.of_nat k -> f q = true) -> count_clear f k = 0.
Proof. intros H. rewrite (count_clear_ext f (fun _ => true) k H). clear H. induction k as [|k IH]; cbn [count_clear]; lia. Qed.

(** [pmm_init] on a memory map as Limine documents it, when some usable entry
    can hold the bitmap, returns (no bounds panic), and afterwards a page inside
    the bitmap is free exactly when it lies in a usable entry and is not one of
    the pages that hold the bitmap; the counters add up to the number of pages and agree with the bitmap up to
    the drift of the map. *)
Theorem pmm_init_correct m s b :
  memmap_ok m -> pmm_wf s -> freePages s = 0 -> pmm_lock s = false ->
  find_bitmap_entry
    (ALIGN_UP (memmap_get_highest_usable_address m) PAGE_SIZE / PAGE_SIZE / 8) m = Some b ->
  Returns (pmm_init m s) (fun s' =>
    bitmapSize s' = ALIGN_UP (memmap_get_highest_usable_address m) PAGE_SIZE / PAGE_SIZE / 8 /\
    (forall q, 0 <= q < bitmapSize s' * 8 ->
       page_used s' q = false <->
       usable_page m q = true /\ ~ (b / PAGE_SIZE <= q <= (b + bitmapSize s') / PAGE_SIZE)) /\
    u64 (freePages s' + usedPages s') = bitmapSize s' * 8 /\
    bitmapAddr s' = b /\ pmm_lock s' = false /\ pmm_wf s' /\ accounting (drift m b (bitmapSize s')) s').
Proof.
  intros Hm W Hf0 Hl Hfind. unfold pmm_init. rewrite Hfind.
  destruct (highest_usable_address_spec m Hm) as (Hhi & Hr).
  set (h := memmap_get_highest_usable_address m) in *. unfold PAGE_SIZE in *.
  change (2 ^ 52) with 4503599627370496 in *.
  destruct (ALIGN_UP_spec h 4096) as (HA & _); [lia|lia|pow2_consts; lia|].
  set (A := ALIGN_UP h 4096) in *. set (bsize := A / 4096 / 8) in *.
  assert (0 <= bsize < 2 ^ 38) as Hbs.
  { change (2 ^ 38) with 274877906944. unfold bsize. dm. }
  change (2 ^ 38) with 274877906944 in *.
  destruct (find_bitmap_entry_spec _ _ _ Hfind) as (e & He & Ht & <- & Hlen).
  pose proof (Hhi e He Ht) as Hend.
  destruct Hm as [Hok Hsort]. pose proof Hok as Hok'. rewrite Forall_forall in Hok'.
  destruct (Hok' e He) as (Hb0 & _ & _ & Hal). destruct (Hal (usable_guaranteed e Ht)) as [Hb1 _]. unfold PAGE_SIZE in Hb1.
  set (s0 := mk_pmm _ _ _ _ _ _ _ _).
  assert (pmm_wf s0) as W0.
  { destruct W as (W1 & W2 & W3 & W4). unfold s0, pmm_wf. cbn -[wrap Z.pow].
    splits; try assumption; try (apply wrap_range; lia);
      try (change (2 ^ 48) with 281474976710656; lia).
    intros i. destruct (_ && _); [lia|apply W1]. }
  assert (forall q, 0 <= q < bsize * 8 -> page_used s0 q = true) as Hones by (intros q; apply all_ones_used).
  assert (free_count s0 = 0) as C0 by (apply count_clear_all; cbn [bitmapSize s0]; intros q Hq; apply Hones; lia).
  eapply Returns_bind.
  - apply free_entries_spec; [exact W0|exact Hok|exact Hsort| |].
    + intros e' He' Ht'. cbn [bitmapSize s0]. specialize (Hhi e' He' Ht'). unfold bsize. dm.
    + intros q Hq. cbn [bitmapSize s0] in Hq. now rewrite Hones.
  - intros t1 (I1 & IF & I2). pose proof I2 as (_ & _ & E1 & _ & _ & W1).
    cbn [bitmapSize s0] in E1, IF.
    eapply Returns_mono.
    + apply reserve_bitmap_spec; [exact W1|exact Hb0|exact Hb1|]. rewrite E1. unfold bsize in *. dm.
    + intros t2 (J1 & JF & J2). pose proof (init_frame_trans _ _ _ I2 J2) as (K1 & K2 & K3 & K4 & _ & W2).
      rewrite E1 in J1, JF. cbn [bitmapSize bitmapAddr pmm_lock freePages usedPages s0] in *.
      assert (u64 (freePages t2 + usedPages t2) = bsize * 8) as KS.
      { rewrite K1, Hf0, Z.add_0_l. unfold wrap. rewrite Z.mod_mod by lia. apply Z.mod_small. pow2_consts. lia. }
      assert (freePages t2 = u64 (free_count t2 + drift m (me_base e) bsize)) as KF.
      { rewrite JF, IF, C0, Hf0, <- Z.add_sub_assoc, u64_add_l. f_equal. unfold drift, not_free. rewrite E1.
        rewrite (count_clear_ext _ (fun k => (me_base e / 4096 + k <? bsize * 8) && usable_page m (me_base e / 4096 + k))); [lia|].
        intros k Hk. destruct (Z.ltb_spec (me_base e / 4096 + k) (bsize * 8)); [|reflexivity]. cbn [andb].
        rewrite I1, Hones by dm. now destruct (usable_page m _). }
      rewrite K3. splits; auto; try apply W2; try congruence.
      * intros q Hq. rewrite J1, I1, Hones by exact Hq.
        destruct (usable_page m q); zcmp; simpl; split; intros; try easy; try lia.
      * unfold accounting. rewrite K3, K4. splits; auto; try apply W2. rewrite <- KS, <- Z.sub_add_distr.
        rewrite <- u64_sub_r, <- KF, u64_sub_l. replace (_ + _ - _) with (usedPages t2) by lia. rewrite wrap_small; [reflexivity|apply W2].
Qed.

(** One megabyte of usable memory in two entries with a hole between them. *)
Definition memmap_demo : list memmap_entry_t :=
  [mk_entry 4096 8192 MEMMAP_USABLE; mk_entry 12288 4096 MEMMAP_RESERVED;
   mk_entry 16384 1032192 MEMMAP_USABLE].

Lemma pmm_init_correct_witness :
  Returns (pmm_init memmap_demo (mk_pmm (fun _ => 0) 0 0 0 0 0 false (fun _ => 0))) (fun s' =>
    bitmapSize s' = ALIGN_UP (memmap_get_highest_usable_address memmap_demo) PAGE_SIZE / PAGE_SIZE / 8 /\
    (forall q, 0 <= q < bitmapSize s' * 8 ->
       page_used s' q = false <->
       usable_page memmap_demo q = true /\
       ~ (4096 / PAGE_SIZE <= q <= (4096 + bitmapSize s') / PAGE_SIZE)) /\
    u64 (freePages s' + usedPages s') = bitmapSize s' * 8 /\
    bitmapAddr s' = 4096 /\ pmm_lock s' = false /\ pmm_wf s' /\ accounting (drift memmap_demo 4096 (bitmapSize s')) s').
Proof.
  apply (pmm_init_correct memmap_demo _ 4096); try reflexivity.
  - unfold memmap_demo. memmap_check.
  - unfold pmm_wf. cbn. splits; lia.
Defined.

Lemma drift_zero m b : memmap_ok m ->
  let h := memmap_get_highest_usable_address m in let bsize := ALIGN_UP h PAGE_SIZE / PAGE_SIZE / 8 in
  h mod (8 * PAGE_SIZE) = 0 ->
  (exists e, e ∈ m /\ me_type e = MEMMAP_USABLE /\ me_base e = b /\ bsize < me_length e) ->
  drift m b bsize = 0.
Proof.
  intros Hm h bsize Hh (e & He & Ht & <- & Hl). destruct (highest_usable_address_spec m Hm) as (Hhi & Hr). fold h in Hhi, Hr.
  assert (bsize * 8 * 4096 = h) as EN.
  { unfold bsize, ALIGN_UP, PAGE_SIZE in *. assert (h mod 4096 = 0) as -> by dm. cbn [Z.eqb]. dm. }
  clearbody bsize. destruct Hm as [Hok _]. rewrite Forall_forall in Hok. unfold drift.
  assert (all_beyond (bsize * 8) m = 0) as ->.
  { assert (forall l, (forall e', e' ∈ l -> e' ∈ m) -> all_beyond (bsize * 8) l = 0) as Ha.
    { induction l as [|e' l IH]; intros Hin; [reflexivity|]. cbn [all_beyond foldr]. fold (all_beyond (bsize * 8) l).
      rewrite IH by (intros; apply Hin, elem_of_cons; now right). specialize (Hin e' ltac:(apply elem_of_cons; now left)).
      unfold beyond. destruct (Z.eqb_spec (me_type e') MEMMAP_USABLE) as [Ht'|]; [|reflexivity].
      specialize (Hhi e' Hin Ht'). destruct (Hok e' Hin) as (B1 & B2 & _). rewrite !Z.max_l by dm. lia. }
    now apply Ha. }
  destruct (Hok e He) as (B1 & B2 & _ & B3). destruct (B3 (usable_guaranteed e Ht)) as [B4 B5]. specialize (Hhi e He Ht). unfold PAGE_SIZE in *.
  rewrite count_clear_all; [reflexivity|]. intros k Hk.
  assert (0 <= bsize / 4096) by dm. rewrite Z2Nat.id in Hk by lia.
  assert (me_base e / 4096 + k < (me_base e + me_length e) / 4096) by dm.
  destruct (Z.ltb_spec (me_base e / 4096 + k) (bsize * 8)); [|dm]. cbn [andb].
  apply existsb_exists. exists e. split; [now apply list_elem_of_In|]. unfold entry_page. rewrite Ht. zcmp; simpl; easy || lia.
Qed.

(** C6: from [pmm_init] on a memory map as the boot loader documents it, in every state reached by
    allocating pages and freeing allocated pages, the lock is free, [freePages] is the number
    of clear bits and [usedPages] that of set ones, both up to the drift of the memory map,
    which no call changes.  The drift is zero when the usable memory ends at a multiple of
    eight pages and the entry that holds the bitmap is longer than it; otherwise it is the
    number of usable pages behind the last full byte less that of the pages reserved
    without having been free. *)
Theorem pmm_accounting_invariant m s b s0 s' :
  memmap_ok m -> pmm_wf s -> freePages s = 0 -> pmm_lock s = false ->
  let h := memmap_get_highest_usable_address m in let bsize := ALIGN_UP h PAGE_SIZE / PAGE_SIZE / 8 in
  find_bitmap_entry bsize m = Some b -> pmm_init m s = Ret s0 -> rtc pmm_step s0 s' ->
  pmm_wf s' /\ pmm_lock s' = false /\
  freePages s' = u64 (free_count s' + drift m b bsize) /\
  usedPages s' = u64 (bitmapSize s' * 8 - free_count s' - drift m b bsize) /\
  (h mod (8 * PAGE_SIZE) = 0 -> (exists e, e ∈ m /\ me_type e = MEMMAP_USABLE /\ me_base e = b /\ bsize < me_length e) ->
   freePages s' = free_count s' /\ usedPages s' = bitmapSize s' * 8 - free_count s').
Proof.
  intros Hm W Hf Hl h bsize Hb E0 Hr. destruct (pmm_init_correct m s b Hm W Hf Hl Hb) as (t & Et & Es & _ & _ & _ & _ & _ & A).
  rewrite E0 in Et. injection Et as <-. rewrite Es in A. fold h bsize in A.
  assert (accounting (drift m b bsize) s') as (W' & L' & F & U) by (clear - Hr A; induction Hr; eauto using pmm_step_accounting).
  splits; auto; try apply W'. intros H1 H2. rewrite F, U, (drift_zero m b Hm H1 H2 : drift m b bsize = 0).
  pose proof (free_count_bounds s' W'). destruct W' as (_ & Hsz & _). change (2 ^ 48) with 281474976710656 in Hsz.
  rewrite !wrap_small by (pow2_consts; lia). lia.
Qed.

Lemma pmm_accounting_invariant_witness :
  let s := mk_pmm (fun _ => 0) 0 0 0 0 0 false (fun _ => 0) in
  exists s0 s', pmm_init memmap_demo s = Ret s0 /\ rtc pmm_step s0 s' /\
    freePages s' = free_count s' /\ usedPages s' = bitmapSize s' * 8 - free_count s'.
Proof.
  intros s. assert (memmap_ok memmap_demo) as Hm by (unfold memmap_demo; memmap_check).
  assert (pmm_wf s) as W by (unfold pmm_wf; cbn; splits; lia).
  destruct (pmm_init memmap_demo s) as [s0|m| | |] eqn:E0.
  2-5: vm_compute in E0; discriminate E0.
  assert (exists v s1, pmm_allocate 3 s0 = Ret (v, s1)) as (v & s1 & E1).
  { assert (match (s0 ← pmm_init memmap_demo s; pmm_allocate 3 s0) with Ret _ => true | _ => false end = true) as E by (vm_compute; reflexivity).
    rewrite E0 in E. cbn [mbind outcome_bind] in E. destruct (pmm_allocate 3 s0) as [[v s1]|m| | |]; try discriminate E. now exists v, s1. }
  assert (rtc pmm_step s0 s1) as R by (eapply rtc_once, (step_allocate 3 v s0 s1); [lia|exact E1]).
  exists s0, s1. split; [reflexivity|]. split; [exact R|].
  apply (pmm_accounting_invariant memmap_demo s 4096 s0 s1 Hm W eq_refl eq_refl eq_refl E0 R); [vm_compute; reflexivity|].
  exists (mk_entry 4096 8192 MEMMAP_USABLE). split; [apply elem_of_cons; now left|]. vm_compute. auto.
Defined.

(** The drift is real: with nine pages of memory the ninth counts as free. *)
Example drift_nine_pages : drift [mk_entry 0 36864 MEMMAP_USABLE] 0 1 = 1.
Proof. reflexivity. Qed.

(** The bounds check of the bitmap is off by one byte.  A page of the first
    byte after the bitmap ([page / 8 = bitmapSize]) passes the check of
    [pmm_bitmap_clear]: the store goes to the byte after the bitmap, the page
    counts as free, and no allocation ever returns it. *)
Theorem pmm_bitmap_guard_leaks page s :
  pmm_wf s -> pmm_lock s = false -> page / 8 = bitmapSize s ->
  Returns (pmm_bitmap_clear page s) (fun s' =>
    page_used s' page = false /\ freePages s' = u64 (freePages s + 1) /\
    forall n v s'', 1 <= n < 2 ^ 31 -> pmm_allocate n s' = Ret (v, s'') ->
      v / PAGE_SIZE + n <= page).
Proof.
  intros W L Hp. rewrite pmm_bitmap_clear_eq by lia. apply Returns_ret.
  set (s' := set_bitmap _ _). assert (pmm_wf s') as W'.
  { destruct W as (W1 & W2 & W3 & W4). unfold s', pmm_wf. cbn -[wrap upd].
    splits; try lia; try (apply wrap_range; lia). now apply upd_byte_range. }
  splits.
  - unfold page_used, s'. cbn [bitmap set_bitmap]. rewrite clear_page_used. now rewrite Z.eqb_refl.
  - reflexivity.
  - intros n v s'' Hn E. pose proof (pmm_allocate_cases n s' Hn W' L) as H. rewrite E in H.
    destruct H as (p & -> & H1 & H2 & _). unfold PAGE_SIZE. rewrite Z.div_mul by lia.
    cbn in H2. dm.
Qed.

Lemma pmm_bitmap_guard_leaks_witness :
  Returns (pmm_bitmap_clear 8 pmm_demo) (fun s' =>
    page_used s' 8 = false /\ freePages s' = u64 (freePages pmm_demo + 1) /\
    forall n v s'', 1 <= n < 2 ^ 31 -> pmm_allocate n s' = Ret (v, s'') ->
      v / PAGE_SIZE + n <= 8).
Proof. apply (pmm_bitmap_guard_leaks 8 pmm_demo); [exact pmm_demo_wf|reflexivity|reflexivity]. Defined.

(** ** The interface of the allocator, discharged *)

#[export] Instance pmm_page_allocator : PageAllocator pmm_state := {
  pa_alloc := pmm_allocate;
  pa_free := pmm_free;
  pa_mem := ram;
  pa_write := fun a v s => set_ram (upd (ram s) a v) s;
  pa_ok := fun s => pmm_wf s /\ pmm_lock s = false;
  pa_used := page_used;
  pa_pages := fun s => bitmapSize s * 8
}.

#[export] Instance pmm_page_allocator_laws : PageAllocatorLaws pmm_state.
Proof.
  split.
  - intros n p Hn [W L]. pose proof (pmm_allocate_cases n p Hn W L) as H. cbn.
    destruct (pmm_allocate n p) as [[v p']|m| | |]; try contradiction.
    + destruct H as (q & -> & Hq & Hqn & Hf & (M1 & M2 & M3 & (F1 & F2 & F3 & F4 & F5) & W')).
      exists q. unfold free_run, PAGE_SIZE. cbn. splits; auto; try congruence. all: apply W'.
    + intros q (H1 & H2 & H3). exact (H q H1 H2 H3).
  - intros q n p Hq Hn Hqn [W L].
    eapply Returns_mono; [now apply (pmm_free_cases q n p)|].
    intros p' (M1 & M2 & M3 & F1 & F2 & F3 & F4 & F5 & W'). cbn. unfold PAGE_SIZE.
    splits; auto; try congruence; try apply W'.
    intros a Ha. rewrite F5. unfold fill_ones, PAGE_SIZE. zcmp; simpl; easy || lia.
  - reflexivity.
  - intros a v p [W L]. split; [exact W|exact L].
  - reflexivity.
  - reflexivity.
  - intros p [(_ & H & _) _]. cbn. change (2 ^ 48) with 281474976710656 in H.
    change (2 ^ 51) with 2251799813685248. lia.
Qed.
