(* ===== verification/MemUtil.v ===== *)
(** * Memory and string helpers ([kernel/mem/memutil/memutil.c])

    Memory is a function from byte addresses to bytes.  The four functions the
    compiler may call by itself ([memcpy], [memset], [memmove], [memcmp]) and
    the string functions are loops over it; [size_t] loop counts are naturals,
    and the string loops, whose length is not known in advance, take fuel.
    The theorems give the C standard's contract of each function, and show that
    the fuel [length + 1] is enough for a terminated string. *)

From S2P Require Import Prelude.
#[local] Open Scope Z_scope.

Definition mem : Type := Z -> Z.

(** ** The functions *)

(** The body of the forward copy, the same loop in [memcpy] and [memmove]:
    [n] iterations from index [i]. *)
Fixpoint copy_up (n : nat) (i dest src : Z) (m : mem) : mem :=
  match n with
  | O => m
  | S n' => copy_up n' (i + 1) dest src (upd m (dest + i) (m (src + i)))
  end.

Definition memcpy (dest src n : Z) (m : mem) : mem :=
  copy_up (Z.to_nat n) 0 dest src m.

Fixpoint set_up (n : nat) (i p c : Z) (m : mem) : mem :=
  match n with
  | O => m
  | S n' => set_up n' (i + 1) p c (upd m (p + i) (u8 c))
  end.

Definition memset (s c n : Z) (m : mem) : mem :=
  set_up (Z.to_nat n) 0 s c m.

(** The backward loop of [memmove], [for(i = n; i > 0; i--)]. *)
Fixpoint copy_down (i : nat) (dest src : Z) (m : mem) : mem :=
  match i with
  | O => m
  | S i' => copy_down i' dest src (upd m (dest + Z.of_nat i') (m (src + Z.of_nat i')))
  end.

Definition memmove (dest src n : Z) (m : mem) : mem :=
  if src >? dest then copy_up (Z.to_nat n) 0 dest src m
  else if src <? dest then copy_down (Z.to_nat n) dest src m
  else m.

Fixpoint memcmp_loop (n : nat) (i s1 s2 : Z) (m : mem) : Z :=
  match n with
  | O => 0
  | S n' =>
      if negb (m (s1 + i) =? m (s2 + i))
      then (if m (s1 + i) <? m (s2 + i) then -1 else 1)
      else memcmp_loop n' (i + 1) s1 s2 m
  end.

Definition memcmp (s1 s2 n : Z) (m : mem) : Z :=
  memcmp_loop (Z.to_nat n) 0 s1 s2 m.

(** [char] is signed: a byte read as a [char] is its [i8] value. *)
Fixpoint strcmp (fuel : nat) (s1 s2 : Z) (m : mem) : outcome Z :=
  match fuel with
  | O => OutOfFuel
  | S f =>
      if negb (m s1 =? 0) && negb (m s2 =? 0) && (m s1 =? m s2)
      then strcmp f (s1 + 1) (s2 + 1) m
      else Ret (i8 (m s1) - i8 (m s2))
  end.

(** [strncmp] counts [n] down, so [n] bounds the loop. *)
Fixpoint strncmp_loop (n : nat) (s1 s2 : Z) (m : mem) : Z :=
  match n with
  | O => 0
  | S n' =>
      if negb (m s1 =? 0) && negb (m s2 =? 0) && (m s1 =? m s2)
      then strncmp_loop n' (s1 + 1) (s2 + 1) m
      else i8 (m s1) - i8 (m s2)
  end.

Definition strncmp (s1 s2 n : Z) (m : mem) : Z := strncmp_loop (Z.to_nat n) s1 s2 m.

(** [count] is a [uint32_t]. *)
Fixpoint strlen_loop (fuel : nat) (count s : Z) (m : mem) : outcome Z :=
  match fuel with
  | O => OutOfFuel
  | S f => if negb (m s =? 0) then strlen_loop f (u32 (count + 1)) (s + 1) m else Ret count
  end.

Definition strlen (fuel : nat) (s : Z) (m : mem) : outcome Z := strlen_loop fuel 0 s m.

(** [strdup]; the allocator is an argument. *)
Definition strdup {H : Type} (kmalloc : Z -> H -> outcome (Z * H))
    (fuel : nat) (str1 : Z) (m : mem) (h : H) : outcome (Z * mem * H) :=
  l ← strlen fuel str1 m;
  '(str2, h') ← kmalloc (u32 (l + 1)) h;
  l2 ← strlen fuel str1 m;
  Ret (str2, memcpy str2 str1 (u32 (l2 + 1)) m, h').

(** The first loop of [strncat]: find the terminator of [s1]. *)
Fixpoint str_end (fuel : nat) (s : Z) (m : mem) : outcome Z :=
  match fuel with
  | O => OutOfFuel
  | S f => if m s =? 0 then Ret s else str_end f (s + 1) m
  end.

(** The second loop: copy until [n] characters or the terminator are copied. *)
Fixpoint strncat_copy (n : nat) (s1 s2 : Z) (m : mem) : mem :=
  match n with
  | O => upd m s1 0
  | S n' =>
      let m' := upd m s1 (m s2) in
      if m s2 =? 0 then m' else strncat_copy n' (s1 + 1) (s2 + 1) m'
  end.

Definition strncat (fuel : nat) (s1 s2 n : Z) (m : mem) : outcome (Z * mem) :=
  e ← str_end fuel s1 m; Ret (s1, strncat_copy (Z.to_nat n) e s2 m).

(** ** What the copying functions do *)

Lemma copy_up_spec n : forall i dest src m,
  dest <= src \/ src + i + Z.of_nat n <= dest + i ->
  (forall k, i <= k < i + Z.of_nat n -> copy_up n i dest src m (dest + k) = m (src + k)) /\
  (forall a, ~ (dest + i <= a < dest + i + Z.of_nat n) -> copy_up n i dest src m a = m a).
Proof.
  induction n as [|n IH]; intros i dest src m Hov; cbn [copy_up].
  - split; [intros k Hk; lia|reflexivity].
  - destruct (IH (i + 1) dest src (upd m (dest + i) (m (src + i)))) as [I1 I2]; [lia|].
    split.
    + intros k Hk. destruct (Z.eq_dec k i) as [->|Hne].
      * rewrite I2 by lia. apply upd_eq.
      * rewrite I1 by lia. apply upd_ne. lia.
    + intros a Ha. rewrite I2 by lia. apply upd_ne. lia.
Qed.

Lemma copy_down_spec n : forall dest src m,
  src < dest ->
  (forall k, 0 <= k < Z.of_nat n -> copy_down n dest src m (dest + k) = m (src + k)) /\
  (forall a, ~ (dest <= a < dest + Z.of_nat n) -> copy_down n dest src m a = m a).
Proof.
  induction n as [|n IH]; intros dest src m Hlt; cbn [copy_down].
  - split; [intros k Hk; lia|reflexivity].
  - destruct (IH dest src (upd m (dest + Z.of_nat n) (m (src + Z.of_nat n))) Hlt) as [I1 I2].
    split.
    + intros k Hk. destruct (Z.eq_dec k (Z.of_nat n)) as [->|Hne].
      * rewrite I2 by lia. apply upd_eq.
      * rewrite I1 by lia. apply upd_ne. lia.
    + intros a Ha. rewrite I2 by lia. apply upd_ne. lia.
Qed.

(** [copied dest src n m m']: [m'] is [m] with the [n] bytes at [src] copied to
    [dest] and nothing else changed. *)
Definition copied (dest src n : Z) (m m' : mem) : Prop :=
  (forall k, 0 <= k < n -> m' (dest + k) = m (src + k)) /\
  (forall a, ~ (dest <= a < dest + n) -> m' a = m a).

Lemma memcpy_spec dest src n m :
  0 <= n -> dest <= src \/ src + n <= dest -> copied dest src n m (memcpy dest src n m).
Proof.
  intros Hn Hov. unfold memcpy, copied.
  destruct (copy_up_spec (Z.to_nat n) 0 dest src m) as [I1 I2]; [lia|].
  split; intros; [apply I1|apply I2]; lia.
Qed.

Lemma memset_spec s c n m :
  0 <= n ->
  (forall k, 0 <= k < n -> memset s c n m (s + k) = u8 c) /\
  (forall a, ~ (s <= a < s + n) -> memset s c n m a = m a).
Proof.
  intros Hn. unfold memset.
  assert (forall j i m0,
    (forall k, i <= k < i + Z.of_nat j -> set_up j i s c m0 (s + k) = u8 c) /\
    (forall a, ~ (s + i <= a < s + i + Z.of_nat j) -> set_up j i s c m0 a = m0 a)) as H.
  { induction j as [|j IH]; intros i m0; cbn [set_up].
    - split; [intros k Hk; lia|reflexivity].
    - destruct (IH (i + 1) (upd m0 (s + i) (u8 c))) as [I1 I2]. split.
      + intros k Hk. destruct (Z.eq_dec k i) as [->|Hne].
        * rewrite I2 by lia. apply upd_eq.
        * apply I1. lia.
      + intros a Ha. rewrite I2 by lia. apply upd_ne. lia. }
  destruct (H (Z.to_nat n) 0 m) as [I1 I2].
  split; intros; [apply I1|apply I2]; lia.
Qed.

(** [memmove] copies for every pair of areas, overlapping in either
    direction or not: afterwards [dest] holds what [src] held before the call
    and no other byte has changed. *)
Theorem memmove_correct dest src n m :
  0 <= n -> copied dest src n m (memmove dest src n m).
Proof.
  intros Hn. unfold memmove, copied.
  destruct (Z.gtb_spec src dest) as [Hgt|Hle].
  - destruct (copy_up_spec (Z.to_nat n) 0 dest src m) as [I1 I2]; [lia|].
    split; intros; [apply I1|apply I2]; lia.
  - destruct (Z.ltb_spec src dest) as [Hlt|Hge].
    + destruct (copy_down_spec (Z.to_nat n) dest src m Hlt) as [I1 I2].
      split; intros; [apply I1|apply I2]; lia.
    + replace src with dest by lia. now split.
Qed.

Lemma memmove_correct_witness :
  copied 102 100 4 (fun a => a) (memmove 102 100 4 (fun a => a)) /\
  map (memmove 102 100 4 (fun a => a)) [100; 101; 102; 103; 104; 105; 106]
    = [100; 101; 100; 101; 102; 103; 106].
Proof. split; [apply (memmove_correct 102 100 4); lia|reflexivity]. Defined.

(** [memcmp] answers with the sign of the first difference. *)
Lemma memcmp_spec s1 s2 n m :
  0 <= n ->
  (memcmp s1 s2 n m = 0 /\ forall k, 0 <= k < n -> m (s1 + k) = m (s2 + k)) \/
  (exists k, 0 <= k < n /\ (forall j, 0 <= j < k -> m (s1 + j) = m (s2 + j)) /\
     ((memcmp s1 s2 n m = -1 /\ m (s1 + k) < m (s2 + k)) \/
      (memcmp s1 s2 n m = 1 /\ m (s2 + k) < m (s1 + k)))).
Proof.
  intros Hn. unfold memcmp.
  assert (forall j i,
    (memcmp_loop j i s1 s2 m = 0 /\
       forall k, i <= k < i + Z.of_nat j -> m (s1 + k) = m (s2 + k)) \/
    (exists k, i <= k < i + Z.of_nat j /\ (forall l, i <= l < k -> m (s1 + l) = m (s2 + l)) /\
     ((memcmp_loop j i s1 s2 m = -1 /\ m (s1 + k) < m (s2 + k)) \/
      (memcmp_loop j i s1 s2 m = 1 /\ m (s2 + k) < m (s1 + k))))) as H.
  { induction j as [|j IH]; intros i; cbn [memcmp_loop].
    - left. split; [reflexivity|lia].
    - destruct (Z.eqb_spec (m (s1 + i)) (m (s2 + i))) as [E|E]; cbn [negb].
      + destruct (IH (i + 1)) as [[H1 H2]|(k & Hk & H1 & H2)].
        * left. split; [exact H1|]. intros k Hk.
          destruct (Z.eq_dec k i) as [->|]; [exact E|apply H2; lia].
        * right. exists k. splits; [lia|lia| |exact H2]. intros l Hl.
          destruct (Z.eq_dec l i) as [->|]; [exact E|apply H1; lia].
      + right. exists i. splits; [lia|lia|lia|].
        destruct (Z.ltb_spec (m (s1 + i)) (m (s2 + i))); [left|right]; lia. }
  destruct (H (Z.to_nat n) 0) as [[H1 H2]|(k & Hk & H1)].
  - left. split; [exact H1|]. intros. apply H2. lia.
  - right. exists k. splits; try tauto; lia.
Qed.

(** ** Strings *)

(** [cstr m a l]: the bytes [l], none of them zero, are at [a] and terminated. *)
Fixpoint cstr (m : mem) (a : Z) (l : list Z) : Prop :=
  match l with
  | [] => m a = 0
  | c :: l' => m a = c /\ 0 < c < 256 /\ cstr m (a + 1) l'
  end.

Lemma cstr_frame m m' l : forall a,
  (forall k, 0 <= k <= Z.of_nat (length l) -> m' (a + k) = m (a + k)) ->
  cstr m a l -> cstr m' a l.
Proof.
  induction l as [|c l IH]; intros a Hf; cbn [cstr length] in *.
  - intros H. rewrite <- H. rewrite <- (Z.add_0_r a). apply Hf. lia.
  - intros (H1 & H2 & H3). splits; [|lia|lia|].
    + rewrite <- H1. rewrite <- (Z.add_0_r a). apply Hf. lia.
    + apply IH; [|exact H3]. intros k Hk. rewrite <- !Z.add_assoc. apply Hf. lia.
Qed.

Lemma cstr_zero m a l : cstr m a l -> m (a + Z.of_nat (length l)) = 0.
Proof.
  revert a. induction l as [|c l IH]; intros a; cbn [cstr length].
  - now rewrite Z.add_0_r.
  - intros (_ & _ & H). apply IH in H. rewrite <- H. f_equal. lia.
Qed.

Lemma strlen_loop_spec m l : forall fuel count a,
  cstr m a l -> (length l < fuel)%nat -> 0 <= count -> count + Z.of_nat (length l) < 2 ^ 32 ->
  strlen_loop fuel count a m = Ret (count + Z.of_nat (length l)).
Proof.
  induction l as [|c l IH]; intros [|f] count a H Hf Hc Hb; cbn [cstr length] in *; try lia.
  - cbn [strlen_loop]. rewrite H. cbn. now rewrite Z.add_0_r.
  - destruct H as (H1 & H2 & H3). cbn [strlen_loop].
    destruct (Z.eqb_spec (m a) 0); [lia|]. cbn [negb].
    rewrite wrap_small by lia. rewrite IH; [f_equal; lia|exact H3|lia|lia|lia].
Qed.

Lemma strlen_spec m a l fuel :
  cstr m a l -> (length l < fuel)%nat -> Z.of_nat (length l) < 2 ^ 32 ->
  strlen fuel a m = Ret (Z.of_nat (length l)).
Proof. intros. unfold strlen. rewrite (strlen_loop_spec m l); auto; lia. Qed.

Lemma str_end_spec m l : forall fuel a,
  cstr m a l -> (length l < fuel)%nat -> str_end fuel a m = Ret (a + Z.of_nat (length l)).
Proof.
  induction l as [|c l IH]; intros [|f] a H Hf; cbn [cstr length] in *; try lia.
  - cbn [str_end]. rewrite H. cbn. now rewrite Z.add_0_r.
  - destruct H as (H1 & H2 & H3). cbn [str_end].
    destruct (Z.eqb_spec (m a) 0); [lia|]. rewrite IH; [f_equal; lia|exact H3|lia].
Qed.

(** [strcmp] compares as the byte lists compare. *)
Lemma strcmp_spec m l1 : forall l2 fuel a1 a2,
  cstr m a1 l1 -> cstr m a2 l2 -> (length l1 < fuel)%nat ->
  Returns (strcmp fuel a1 a2 m) (fun r => r = 0 <-> l1 = l2).
Proof.
  induction l1 as [|c1 l1 IH]; intros l2 [|f] a1 a2 H1 H2 Hf; cbn [cstr length] in *; try lia.
  - cbn [strcmp]. rewrite H1. cbn [Z.eqb negb andb]. apply Returns_ret.
    destruct l2 as [|c2 l2]; cbn [cstr] in H2.
    + rewrite H2. now split.
    + destruct H2 as (-> & Hc & _). split; [|discriminate]. unfold swrap. pow2_consts.
      intros H. exfalso. wrap_lia.
  - destruct H1 as (E1 & Hc1 & H1). cbn [strcmp].
    destruct (Z.eqb_spec (m a1) 0); [lia|]. cbn [negb andb].
    destruct l2 as [|c2 l2]; cbn [cstr] in H2.
    + rewrite H2. cbn [Z.eqb negb andb]. apply Returns_ret. rewrite E1.
      split; [|discriminate]. intros H. exfalso. wrap_lia.
    + destruct H2 as (E2 & Hc2 & H2). destruct (Z.eqb_spec (m a2) 0); [lia|]. cbn [negb andb].
      rewrite E1, E2. destruct (Z.eqb_spec c1 c2) as [->|Hne].
      * eapply Returns_mono; [apply (IH l2); [exact H1|exact H2|lia]|].
        intros r Hr. rewrite Hr. split; [now intros ->|now intros [= ->]].
      * apply Returns_ret. split; [intros H; exfalso; wrap_lia|now intros [= ->]].
Qed.

(** [strcmp] on two terminated strings returns, and returns 0 exactly when
    the strings are equal; every path and name lookup of the kernel rests on it. *)
Theorem strcmp_correct m a1 a2 l1 l2 fuel :
  cstr m a1 l1 -> cstr m a2 l2 -> (Nat.min (length l1) (length l2) < fuel)%nat ->
  Returns (strcmp fuel a1 a2 m) (fun r => r = 0 <-> l1 = l2).
Proof.
  intros H1 H2 Hf. destruct (Nat.le_ge_cases (length l1) (length l2)) as [Hle|Hle].
  - apply strcmp_spec; auto. lia.
  - (* the loop is symmetric up to the sign of its result *)
    assert (forall f b1 b2, strcmp f b1 b2 m = (r ← strcmp f b2 b1 m; Ret (- r))) as Hsym.
    { induction f as [|f IH]; intros b1 b2; cbn [strcmp]; [reflexivity|].
      rewrite (Z.eqb_sym (m b2) (m b1)), (andb_comm (negb (m b2 =? 0))).
      destruct (_ && _ && _); [apply IH|]. cbn. f_equal. lia. }
    rewrite Hsym. eapply Returns_bind; [apply (strcmp_spec m l2 l1); eauto; lia|].
    intros r Hr. apply Returns_ret. split; [intros H; symmetry; apply Hr; lia|].
    intros ->. destruct Hr as [_ Hr]. rewrite Hr; reflexivity.
Qed.

(** Memory that holds the given bytes from address [a] on, and zeros elsewhere. *)
Definition bytes_at (a : Z) (l : list Z) : mem :=
  fun x => if (a <=? x) && (x <? a + Z.of_nat (length l)) then nth (Z.to_nat (x - a)) l 0 else 0.

Lemma strcmp_correct_witness :
  let m := bytes_at 16 [97; 98; 0; 97; 98; 99; 0] in
  Returns (strcmp 3 16 19 m) (fun r => r = 0 <-> [97; 98] = [97; 98; 99]).
Proof.
  apply (strcmp_correct _ 16 19); [| |cbn; lia]; vm_compute; repeat split; discriminate || reflexivity.
Defined.

Lemma strncat_copy_spec l2 : forall n s1 s2 m,
  cstr m s2 l2 -> s1 + Z.of_nat (Nat.min n (length l2)) < s2 \/ s2 + Z.of_nat (length l2) < s1 ->
  let k := Nat.min n (length l2) in
  (forall j, 0 <= j < Z.of_nat k ->
     strncat_copy n s1 s2 m (s1 + j) = nth (Z.to_nat j) l2 0) /\
  strncat_copy n s1 s2 m (s1 + Z.of_nat k) = 0 /\
  (forall a, ~ (s1 <= a <= s1 + Z.of_nat k) -> strncat_copy n s1 s2 m a = m a).
Proof.
  induction l2 as [|c l2 IH]; intros [|n] s1 s2 m H Hd; cbn [cstr length Nat.min strncat_copy] in *.
  1,3: splits; [lia|rewrite Z.add_0_r; apply upd_eq|intros; apply upd_ne; lia].
  - rewrite H. cbn. splits; [lia|rewrite Z.add_0_r; apply upd_eq|intros; apply upd_ne; lia].
  - destruct H as (H1 & H2 & H3). destruct (Z.eqb_spec (m s2) 0); [lia|].
    destruct (IH n (s1 + 1) (s2 + 1) (upd m s1 (m s2))) as (I1 & I2 & I3).
    + apply (cstr_frame m); [|exact H3]. intros k Hk. apply upd_ne. lia.
    + lia.
    + splits.
      * intros j Hj. destruct (Z.eq_dec j 0) as [->|Hj0].
        -- rewrite Z.add_0_r, I3 by lia. rewrite upd_eq. exact H1.
        -- replace (s1 + j) with (s1 + 1 + (j - 1)) by lia. rewrite I1 by lia.
           replace (Z.to_nat j) with (S (Z.to_nat (j - 1))) by lia. reflexivity.
      * rewrite <- I2. f_equal. lia.
      * intros a Ha. rewrite I3 by lia. apply upd_ne. lia.
Qed.

(** A string is determined by its bytes one by one. *)
Lemma cstr_intro m l : forall a,
  (forall j, 0 <= j < Z.of_nat (length l) ->
     m (a + j) = nth (Z.to_nat j) l 0 /\ 0 < nth (Z.to_nat j) l 0 < 256) ->
  m (a + Z.of_nat (length l)) = 0 -> cstr m a l.
Proof.
  induction l as [|c l IH]; intros a Hj H0; cbn [cstr length] in *.
  - now rewrite Z.add_0_r in H0.
  - destruct (Hj 0) as [E R]; [lia|]. rewrite Z.add_0_r in E.
    change (Z.to_nat 0) with O in E, R. cbn [nth] in E, R.
    splits; [exact E|lia|lia|]. apply IH.
    + intros j Hj'. specialize (Hj (j + 1)). rewrite <- Z.add_assoc, (Z.add_comm 1 j).
      replace (Z.to_nat (j + 1)) with (S (Z.to_nat j)) in Hj by lia. apply Hj. lia.
    + rewrite <- H0. f_equal. lia.
Qed.

Lemma cstr_elim m l : forall a j,
  cstr m a l -> 0 <= j < Z.of_nat (length l) ->
  m (a + j) = nth (Z.to_nat j) l 0 /\ 0 < nth (Z.to_nat j) l 0 < 256.
Proof.
  induction l as [|c l IH]; intros a j H Hj; cbn [cstr length] in *; [lia|].
  destruct H as (H1 & H2 & H3). destruct (Z.eq_dec j 0) as [->|Hj0].
  - rewrite Z.add_0_r. change (Z.to_nat 0) with O. cbn [nth]. split; [exact H1|lia].
  - replace (a + j) with (a + 1 + (j - 1)) by lia.
    replace (Z.to_nat j) with (S (Z.to_nat (j - 1))) by lia. cbn. apply IH; [exact H3|lia].
Qed.

(** [strncat] on two terminated strings that do not overlap returns its first
    argument, which afterwards is the first string followed by at most [n]
    characters of the second, terminated; nothing outside the written area
    changes. *)
Theorem strncat_correct m s1 s2 n l1 l2 fuel :
  let e := s1 + Z.of_nat (length l1) in
  let k := Nat.min (Z.to_nat n) (length l2) in
  cstr m s1 l1 -> cstr m s2 l2 -> (length l1 < fuel)%nat ->
  e + Z.of_nat k < s2 \/ s2 + Z.of_nat (length l2) < s1 ->
  Returns (strncat fuel s1 s2 n m) (fun '(r, m') =>
    r = s1 /\ cstr m' s1 (l1 ++ take (Z.to_nat n) l2) /\
    forall a, ~ (e <= a <= e + Z.of_nat k) -> m' a = m a).
Proof.
  intros e k H1 H2 Hf Hd. unfold strncat. rewrite (str_end_spec m l1) by assumption.
  apply Returns_ret. fold e.
  destruct (strncat_copy_spec l2 (Z.to_nat n) e s2 m H2) as (I1 & I2 & I3).
  { fold k. unfold e in *. lia. }
  fold k in I1, I2, I3. splits; [reflexivity| |exact I3].
  assert (length (l1 ++ take (Z.to_nat n) l2) = (length l1 + k)%nat) as El.
  { rewrite length_app, length_take. lia. }
  apply cstr_intro; rewrite El.
  - intros j Hj. destruct (Z.lt_ge_cases j (Z.of_nat (length l1))) as [Hlt|Hge].
    + rewrite app_nth1 by lia. rewrite I3 by (unfold e; lia). now apply cstr_elim.
    + rewrite app_nth2 by lia.
      assert (nth (Z.to_nat j - length l1) (take (Z.to_nat n) l2) 0 =
              nth (Z.to_nat (j - Z.of_nat (length l1))) l2 0) as ->.
      { rewrite <- (firstn_skipn (Z.to_nat n) l2) at 2.
        rewrite app_nth1 by (rewrite length_take; lia). f_equal. lia. }
      replace (s1 + j) with (e + (j - Z.of_nat (length l1))) by (unfold e; lia).
      rewrite I1 by lia. split; [reflexivity|].
      apply (cstr_elim m l2 s2); [exact H2|lia].
  - rewrite <- I2. f_equal. unfold e. lia.
Qed.

Lemma strncat_correct_witness :
  let m := bytes_at 16 [97; 98; 0; 0; 0; 0; 99; 100; 101; 0] in
  Returns (strncat 3 16 22 2 m) (fun '(r, m') =>
    r = 16 /\ cstr m' 16 ([97; 98] ++ take 2 [99; 100; 101]) /\
    forall a, ~ (18 <= a <= 18 + 2) -> m' a = m a).
Proof.
  apply (strncat_correct _ 16 22 2 [97; 98] [99; 100; 101] 3);
    [| |cbn; lia|left; cbn; lia]; vm_compute; repeat split; discriminate || reflexivity.
Defined.
