(* ===== verification/Kheap.v ===== *)
(** * Kernel heap ([kernel/mem/kheap/kheap.c])

    A doubly linked list of block headers, first fit, splitting on allocation and
    coalescing with both neighbours on free.  Headers are a typed view of memory:
    [hdrs] maps the address of a header to its fields; a store to a field is a
    store to that map.  The page allocator is the interface [PageAllocator].

    The abstract state of the heap is the list of its blocks in list order.
    [kheap_inv] ties the two together; the theorems show that [kmalloc] and
    [kmfree] refine "add a live area apart from all others" and "drop that live
    area", that they return, and that no byte of the heap is lost. *)

From S2P Require Import Prelude Interfaces MemMap Pmm.
#[local] Open Scope Z_scope.

(** ** The code *)

Record kheap_block_header_t : Type := mk_hdr {
  h_size : Z;
  h_flags : Z;
  h_next : Z;
  h_prev : Z
}.

(** [sizeof(kheap_block_header_t)]: 8 + 1 (padded to 8) + 8 + 8. *)
Definition HDR : Z := 32.
Definition KHEAP_FLAGS_FREE : Z := 1.
Definition KHEAP_INIT_PAGES : Z := 25000.

Definition hdr_map : Type := Z -> kheap_block_header_t.

Definition w_size (v : Z) (h : kheap_block_header_t) := mk_hdr v (h_flags h) (h_next h) (h_prev h).
Definition w_flags (v : Z) (h : kheap_block_header_t) := mk_hdr (h_size h) v (h_next h) (h_prev h).
Definition w_next (v : Z) (h : kheap_block_header_t) := mk_hdr (h_size h) (h_flags h) v (h_prev h).
Definition w_prev (v : Z) (h : kheap_block_header_t) := mk_hdr (h_size h) (h_flags h) (h_next h) v.

(** Stores to a field of the header at [a]. *)
Definition set_size (a v : Z) (m : hdr_map) : hdr_map := upd m a (w_size v (m a)).
Definition set_flags (a v : Z) (m : hdr_map) : hdr_map := upd m a (w_flags v (m a)).
Definition set_next (a v : Z) (m : hdr_map) : hdr_map := upd m a (w_next v (m a)).
Definition set_prev (a v : Z) (m : hdr_map) : hdr_map := upd m a (w_prev v (m a)).

Definition is_free (h : kheap_block_header_t) : bool :=
  negb (Z.land (h_flags h) KHEAP_FLAGS_FREE =? 0).

Record kheap_state (P : Type) : Type := mk_kheap {
  hdrs : hdr_map;
  kh_start : Z;
  kh_end : Z;
  kheapSize : Z;
  kheapLock : spinlock_t;
  pages : P
}.
Arguments mk_kheap {P}.
Arguments hdrs {P}.
Arguments kh_start {P}.
Arguments kh_end {P}.
Arguments kheapSize {P}.
Arguments kheapLock {P}.
Arguments pages {P}.

Section Kheap.
Context {P : Type} `{PA : PageAllocator P}.
(** [bl_get_hhdm_offset()], what the boot loader reports. *)
Variable hhdm : Z.

Implicit Types (s : kheap_state P).

Definition with_hdrs (m : hdr_map) s : kheap_state P :=
  mk_kheap m (kh_start s) (kh_end s) (kheapSize s) (kheapLock s) (pages s).
Definition with_end (e : Z) s : kheap_state P :=
  mk_kheap (hdrs s) (kh_start s) e (kheapSize s) (kheapLock s) (pages s).
Definition with_lock (l : spinlock_t) s : kheap_state P :=
  mk_kheap (hdrs s) (kh_start s) (kh_end s) (kheapSize s) l (pages s).

Definition kheap_extend (size : Z) s : outcome (kheap_state P) :=
  let size := u64 (size + HDR) in
  let size := if negb (size mod PAGE_SIZE =? 0) then ALIGN_UP size PAGE_SIZE else size in
  '(v, p) ← pa_alloc (i32 (size / PAGE_SIZE)) (pages s);
  let newh := u64 (v + hhdm) in
  let m := upd (hdrs s) newh (mk_hdr (u64 (size - HDR)) KHEAP_FLAGS_FREE 0 (kh_end s)) in
  if kh_end s =? 0 then Fault
  else Ret (mk_kheap (set_next (kh_end s) newh m) (kh_start s) newh
              (u64 (kheapSize s + size)) (kheapLock s) p).

Definition kheap_create_block (h size : Z) s : kheap_state P :=
  let newh := u64 (h + HDR + size) in
  let m := upd (hdrs s) newh (mk_hdr 0 0 0 0) in
  let m := set_size newh (u64 (h_size (m h) - u64 (size + HDR))) m in
  let m := set_size h size m in
  let m := set_next newh (h_next (m h)) m in
  let m := set_next h newh m in
  let m := set_prev newh h m in
  let m := set_flags newh KHEAP_FLAGS_FREE m in
  let m := if negb (h_next (m newh) =? 0) then set_prev (h_next (m newh)) newh m else m in
  let s := with_hdrs m s in
  if h =? kh_end s then with_end newh s else s.

Definition kheap_init s : outcome (kheap_state P) :=
  '(v, p) ← pa_alloc KHEAP_INIT_PAGES (pages s);
  let a := u64 (v + hhdm) in
  Ret (mk_kheap
         (upd (hdrs s) a (mk_hdr (u64 (KHEAP_INIT_PAGES * PAGE_SIZE - HDR)) KHEAP_FLAGS_FREE 0 0))
         a a (PAGE_SIZE * KHEAP_INIT_PAGES) (kheapLock s) p).

(** [h->flags &= ~(KHEAP_FLAGS_FREE)]. *)
Definition take_block (h : Z) s : kheap_state P :=
  with_hdrs (set_flags h (Z.ldiff (h_flags (hdrs s h)) KHEAP_FLAGS_FREE) (hdrs s)) s.

(** The list walk of [kmalloc]: [Some p] is [return p] with the lock released,
    [None] the end of the list. *)
Fixpoint kmalloc_walk (fuel : nat) (h size : Z) s : outcome (option Z * kheap_state P) :=
  match fuel with
  | O => OutOfFuel
  | S f =>
      if h =? 0 then Ret (None, s)
      else
        let b := hdrs s h in
        if negb (is_free b) || (h_size b <? size) then kmalloc_walk f (h_next b) size s
        else if (h_size b =? size) ||
                ((h_size b >? size) && (h_size b <=? u64 (size + HDR))) then
          let s := take_block h s in
          Ret (Some (u64 (h + HDR)), with_lock (releaseLock (kheapLock s)) s)
        else if h_size b >? u64 (size + HDR) then
          let s := take_block h (kheap_create_block h size s) in
          Ret (Some (u64 (h + HDR)), with_lock (releaseLock (kheapLock s)) s)
        else kmalloc_walk f (h_next b) size s
  end.

(** [kmalloc] calls itself after extending the heap: [depth] bounds the
    recursion, [fuel] the list walk. *)
Fixpoint kmalloc (depth fuel : nat) (size : Z) s : outcome (Z * kheap_state P) :=
  match depth with
  | O => OutOfFuel
  | S d =>
      let size := if negb (size mod 16 =? 0) then ALIGN_UP size 16 else size in
      l ← acquireLock (kheapLock s);
      let s := with_lock l s in
      '(r, s) ← kmalloc_walk fuel (kh_start s) size s;
      match r with
      | Some p => Ret (p, s)
      | None =>
          s ← kheap_extend size s;
          kmalloc d fuel size (with_lock (releaseLock (kheapLock s)) s)
      end
  end.

(** [next] directly follows [h] in memory. *)
Definition adjacent (m : hdr_map) (h next : Z) : bool :=
  u64 (u64 (h + h_size (m h)) + HDR) =? next.

(** The body of both coalescing steps of [kmfree]: [h] absorbs [next]. *)
Definition absorb (h next : Z) s : kheap_state P :=
  let s := if next =? kh_end s then with_end h s else s in
  let m := hdrs s in
  let m := set_size h (u64 (h_size (m h) + u64 (h_size (m next) + HDR))) m in
  let m := if negb (h_next (m next) =? 0) then set_prev (h_next (m next)) h m else m in
  let m := set_next h (h_next (m next)) m in
  with_hdrs m s.

Definition coalesce_next (h : Z) s : kheap_state P :=
  let next := h_next (hdrs s h) in
  if negb (next =? 0) && is_free (hdrs s next) && adjacent (hdrs s) h next
  then absorb h next s else s.

Definition coalesce_prev (h : Z) s : kheap_state P :=
  let prev := h_prev (hdrs s h) in
  if negb (prev =? 0) && is_free (hdrs s prev) && adjacent (hdrs s) prev h
  then absorb prev h s else s.

Definition kmfree (ptr : Z) s : outcome (kheap_state P) :=
  if ptr =? 0 then Ret s
  else
    let h := u64 (ptr - HDR) in
    l ← acquireLock (kheapLock s);
    let s := with_lock l s in
    let s := with_hdrs (set_flags h (Z.lor (h_flags (hdrs s h)) KHEAP_FLAGS_FREE) (hdrs s)) s in
    let s := coalesce_next h s in
    let s := coalesce_prev h s in
    Ret (with_lock (releaseLock (kheapLock s)) s).

Definition kheap_get_size s : Z := kheapSize s.
End Kheap.

(** Loads after stores. *)
Lemma upd_read {A} (m : Z -> A) a v x : upd m a v x = if x =? a then v else m x.
Proof. reflexivity. Qed.
Lemma set_size_read a v m x : set_size a v m x = if x =? a then w_size v (m x) else m x.
Proof. unfold set_size, upd. destruct (Z.eqb_spec x a); now subst. Qed.
Lemma set_flags_read a v m x : set_flags a v m x = if x =? a then w_flags v (m x) else m x.
Proof. unfold set_flags, upd. destruct (Z.eqb_spec x a); now subst. Qed.
Lemma set_next_read a v m x : set_next a v m x = if x =? a then w_next v (m x) else m x.
Proof. unfold set_next, upd. destruct (Z.eqb_spec x a); now subst. Qed.
Lemma set_prev_read a v m x : set_prev a v m x = if x =? a then w_prev v (m x) else m x.
Proof. unfold set_prev, upd. destruct (Z.eqb_spec x a); now subst. Qed.

Create Rewrite HintDb kheap.
#[export] Hint Rewrite @upd_read set_size_read set_flags_read set_next_read set_prev_read Z.eqb_refl
  : kheap.

(** Evaluate a load from a header map: the addresses are compared through the
    disequalities in the context. *)
Ltac eval_hdr :=
  repeat first
    [ progress autorewrite with kheap
    | match goal with
      | H : ?x <> ?y |- context [?x =? ?y] => rewrite (proj2 (Z.eqb_neq x y) H)
      | H : ?y <> ?x |- context [?x =? ?y] => rewrite (proj2 (Z.eqb_neq x y) (not_eq_sym H))
      end ];
  cbn [w_size w_flags w_next w_prev h_size h_flags h_next h_prev].

(** The headers after a split, seen as a whole. *)
Lemma create_block_hdrs {P} (s : kheap_state P) h size sz fl nx pv x :
  let newh := u64 (h + HDR + size) in
  hdrs s h = mk_hdr sz fl nx pv -> newh <> h -> nx <> h -> nx <> newh ->
  hdrs (kheap_create_block h size s) x =
    if x =? h then mk_hdr size fl newh pv
    else if x =? newh then mk_hdr (u64 (sz - u64 (size + HDR))) KHEAP_FLAGS_FREE nx h
    else if (x =? nx) && negb (nx =? 0) then w_prev newh (hdrs s x) else hdrs s x.
Proof.
  intros newh Hh N1 N2 N3. unfold kheap_create_block. fold newh. cbv zeta.
  assert (forall (b : bool) (s1 : kheap_state P) e, hdrs (if b then with_end e s1 else s1) = hdrs s1)
    as -> by now intros [].
  cbn [hdrs with_hdrs].
  assert (forall m, h_next (set_flags newh KHEAP_FLAGS_FREE (set_prev newh h
    (set_next h newh (set_next newh (h_next (set_size h size m h)) (set_size h size m)))) newh)
    = h_next (m h)) as -> by (intros m; eval_hdr; reflexivity).
  assert (h_next (set_size newh (u64 (h_size (upd (hdrs s) newh (mk_hdr 0 0 0 0) h) - u64 (size + HDR)))
            (upd (hdrs s) newh (mk_hdr 0 0 0 0)) h) = nx) as -> by (eval_hdr; now rewrite Hh).
  destruct (Z.eqb_spec nx 0) as [->|Hnx]; cbn [negb]; rewrite ?andb_false_r, ?andb_true_r.
  - destruct (Z.eqb_spec x h) as [->|]; [|destruct (Z.eqb_spec x newh) as [->|]]; eval_hdr;
      now rewrite ?Hh.
  - destruct (Z.eqb_spec x h) as [->|]; [|destruct (Z.eqb_spec x newh) as [->|]]; eval_hdr;
      try now rewrite ?Hh.
Qed.

(** The headers after coalescing. *)
Lemma absorb_hdrs {P} (s : kheap_state P) h next sz fl pv sz2 fl2 nn pv2 x :
  hdrs s h = mk_hdr sz fl next pv -> hdrs s next = mk_hdr sz2 fl2 nn pv2 ->
  next <> h -> nn <> h -> nn <> next ->
  hdrs (absorb h next s) x =
    if x =? h then mk_hdr (u64 (sz + u64 (sz2 + HDR))) fl nn pv
    else if (x =? nn) && negb (nn =? 0) then w_prev h (hdrs s x) else hdrs s x.
Proof.
  intros Hh Hn N1 N2 N3. unfold absorb. cbv zeta. cbn [hdrs with_hdrs].
  assert (forall (b : bool) (s1 : kheap_state P) e, hdrs (if b then with_end e s1 else s1) = hdrs s1)
    as -> by now intros [].
  assert (forall v, h_next (set_size h v (hdrs s) next) = nn) as E by (intros v; eval_hdr; now rewrite Hn).
  rewrite !E. destruct (Z.eqb_spec nn 0) as [->|Hnn]; cbn [negb]; rewrite ?andb_false_r, ?andb_true_r.
  - rewrite E. destruct (Z.eqb_spec x h) as [->|]; eval_hdr; now rewrite ?Hh, ?Hn.
  - assert (forall q v, h_next (set_prev nn q (set_size h v (hdrs s)) next) = nn) as ->
      by (intros q v; eval_hdr; now rewrite Hn).
    destruct (Z.eqb_spec x h) as [->|]; eval_hdr; now rewrite ?Hh, ?Hn.
Qed.

(** What a split and coalescing do to the other fields. *)
Lemma create_block_fields {P} (s : kheap_state P) h size :
  let s' := kheap_create_block h size s in
  kh_start s' = kh_start s /\ kheapSize s' = kheapSize s /\ pages s' = pages s /\
  kheapLock s' = kheapLock s /\
  kh_end s' = if h =? kh_end s then u64 (h + HDR + size) else kh_end s.
Proof. unfold kheap_create_block. cbn. destruct (h =? kh_end s); cbn; auto. Qed.

Lemma absorb_fields {P} (s : kheap_state P) h next :
  let s' := absorb h next s in
  kh_start s' = kh_start s /\ kheapSize s' = kheapSize s /\ pages s' = pages s /\
  kheapLock s' = kheapLock s /\
  kh_end s' = if next =? kh_end s then h else kh_end s.
Proof. unfold absorb. cbn. destruct (next =? kh_end s); cbn; auto. Qed.

(** ** The abstract heap *)

Record block : Type := mk_block { b_addr : Z; b_size : Z; b_free : bool }.

#[global] Instance block_eq_dec : EqDecision block.
Proof. solve_decision. Defined.

Definition b_end (b : block) : Z := b_addr b + HDR + b_size b.

(** The address of the first block of a list, [stop] when there is none. *)
Definition first_addr (stop : Z) (l : list block) : Z :=
  match l with [] => stop | b :: _ => b_addr b end.

Fixpoint last_addr (prev : Z) (l : list block) : Z :=
  match l with [] => prev | b :: l' => last_addr (b_addr b) l' end.

Definition flag_of (b : block) : Z := if b_free b then KHEAP_FLAGS_FREE else 0.

(** [seg m prev l stop]: the headers of the blocks [l] are linked in that order,
    the first one back to [prev], the last one on to [stop]. *)
Fixpoint seg (m : hdr_map) (prev : Z) (l : list block) (stop : Z) : Prop :=
  match l with
  | [] => True
  | b :: l' =>
      m (b_addr b) = mk_hdr (b_size b) (flag_of b) (first_addr stop l') prev /\
      seg m (b_addr b) l' stop
  end.

Definition separate (a b : block) : Prop := b_end a <= b_addr b \/ b_end b <= b_addr a.

Fixpoint pairwise (l : list block) : Prop :=
  match l with [] => True | b :: l' => Forall (separate b) l' /\ pairwise l' end.

Definition total (l : list block) : Z := foldr (fun b n => HDR + b_size b + n) 0 l.

Definition live (l : list block) : list block := List.filter (fun b => negb (b_free b)) l.

(** ** List lemmas *)

Lemma first_addr_app stop l1 l2 :
  first_addr stop (l1 ++ l2) = first_addr (first_addr stop l2) l1.
Proof. now destruct l1. Qed.

Lemma last_addr_app l1 : forall prev l2,
  last_addr prev (l1 ++ l2) = last_addr (last_addr prev l1) l2.
Proof. induction l1; intros; cbn; auto. Qed.

Lemma last_addr_in l : forall c, exists d, d ∈ c :: l /\ last_addr (b_addr c) l = b_addr d.
Proof.
  induction l as [|e l IH]; intros c; cbn [last_addr].
  - exists c. split; [apply elem_of_cons; now left|reflexivity].
  - destruct (IH e) as (d & Hd & E). exists d. split; [apply elem_of_cons; now right|exact E].
Qed.

Lemma seg_app m l1 : forall prev l2 stop,
  seg m prev (l1 ++ l2) stop <->
  seg m prev l1 (first_addr stop l2) /\ seg m (last_addr prev l1) l2 stop.
Proof.
  induction l1 as [|b l1 IH]; intros prev l2 stop; cbn [app seg last_addr]; [tauto|].
  rewrite IH, first_addr_app. tauto.
Qed.

(** Headers outside the segment do not matter. *)
Lemma seg_frame m m' l : forall prev stop,
  (forall b, b ∈ l -> m' (b_addr b) = m (b_addr b)) ->
  seg m prev l stop -> seg m' prev l stop.
Proof.
  induction l as [|b l IH]; intros prev stop H; cbn [seg]; [tauto|].
  intros [H1 H2]. split.
  - rewrite H by (apply elem_of_cons; now left). exact H1.
  - apply IH; [|exact H2]. intros c Hc. apply H. apply elem_of_cons. now right.
Qed.

(** The same list, with another header after its last block. *)
Lemma seg_stop m l : forall prev stop stop',
  seg m prev l stop -> pairwise l ->
  (forall b, b ∈ l -> 0 <= b_size b) -> l <> [] ->
  seg (set_next (last_addr prev l) stop' m) prev l stop'.
Proof.
  induction l as [|b l IH]; intros prev stop stop' H Hp Hs Hne; [easy|].
  destruct H as [H1 H2]. destruct Hp as [Hp1 Hp2]. cbn [seg last_addr].
  destruct l as [|c l].
  - cbn. split; [|exact I]. unfold set_next. rewrite upd_eq, H1. reflexivity.
  - split.
    + unfold set_next. rewrite upd_ne; [exact H1|].
      assert (last_addr (b_addr c) l ∈ b_addr <$> (c :: l)) as Hin.
      { clear. revert c. induction l as [|d l IHl]; intros c; cbn.
        - apply elem_of_cons. now left.
        - apply elem_of_cons. right. apply IHl. }
      apply list_elem_of_fmap in Hin. destruct Hin as (d & Ed & Hd). cbn [last_addr].
      rewrite Ed. rewrite Forall_forall in Hp1. specialize (Hp1 d Hd). unfold separate, b_end, HDR in Hp1.
      pose proof (Hs b ltac:(apply elem_of_cons; now left)).
      pose proof (Hs d ltac:(apply elem_of_cons; now right)). lia.
    + apply IH with stop; [exact H2|exact Hp2| |easy]. intros d Hd. apply Hs.
      apply elem_of_cons. now right.
Qed.

Lemma pairwise_app l1 l2 :
  pairwise (l1 ++ l2) <->
  pairwise l1 /\ pairwise l2 /\ forall a b, a ∈ l1 -> b ∈ l2 -> separate a b.
Proof.
  induction l1 as [|c l1 IH]; cbn [app pairwise].
  - split; [|intros (_ & H & _); exact H].
    intros H. splits; auto. intros a b Ha. now apply not_elem_of_nil in Ha.
  - rewrite IH, Forall_app, !Forall_forall. split.
    + intros ((H1 & H2) & H3 & H4 & H5). splits; auto.
      intros a b [->|Ha]%elem_of_cons Hb; auto.
    + intros ((H1 & H2) & H3 & H4). splits; auto.
      * intros b Hb. apply H4; [apply elem_of_cons; now left|exact Hb].
      * intros a b Ha Hb. apply H4; [apply elem_of_cons; now right|exact Hb].
Qed.

(** Replacing a middle part by blocks that keep apart from everything the old
    part kept apart from. *)
Lemma pairwise_replace l mid mid' r :
  pairwise (l ++ mid ++ r) -> pairwise mid' ->
  (forall x, (x ∈ l \/ x ∈ r) -> (forall y, y ∈ mid -> separate x y) ->
     forall y', y' ∈ mid' -> separate x y') ->
  pairwise (l ++ mid' ++ r).
Proof.
  rewrite !pairwise_app. intros (H1 & (H2 & H3 & H4) & H5) H6 H7.
  assert (forall a b, separate a b -> separate b a) as Hsym by (unfold separate; tauto).
  splits; [assumption..| |].
  - intros a b Ha Hb. apply Hsym. apply (H7 b); auto.
  - intros a b Ha Hb. apply elem_of_app in Hb as [Hb|Hb].
    + apply (H7 a); auto. intros y Hy. apply H5; [exact Ha|]. apply elem_of_app. now left.
    + apply H5; [exact Ha|]. apply elem_of_app. now right.
Qed.

#[global] Instance pairwise_proper : Proper (Permutation ==> iff) pairwise.
Proof.
  assert (forall l l', Permutation l l' -> pairwise l -> pairwise l') as H.
  { induction 1 as [|b l l' Hp IH|b c l|l1 l2 l3 _ IH1 _ IH2]; cbn [pairwise]; auto.
    - intros [H1 H2]. split; [now rewrite <- Hp|auto].
    - rewrite !Forall_cons. intros ((H1 & H2) & H3 & H4). splits; auto.
      unfold separate in *. tauto. }
  intros l l' Hp. split; apply H; [exact Hp|now symmetry].
Qed.

Lemma total_app l1 l2 : total (l1 ++ l2) = total l1 + total l2.
Proof. unfold total. induction l1 as [|b l1 IH]; cbn [foldr app]; lia. Qed.

Lemma live_app l1 l2 : live (l1 ++ l2) = live l1 ++ live l2.
Proof. unfold live. apply List.filter_app. Qed.

Lemma elem_of_mid {A} (x : A) l mid r : x ∈ l ++ mid ++ r <-> x ∈ l \/ x ∈ mid \/ x ∈ r.
Proof. rewrite !elem_of_app. tauto. Qed.

(** Blocks that keep apart fit side by side: their total size is at most that of
    the address range they lie in. *)
Definition block_bytes (b : block) : list Z := seqZ (b_addr b) (HDR + b_size b).

Lemma block_bytes_NoDup l :
  pairwise l -> (forall b, b ∈ l -> 0 <= b_size b) -> NoDup (l ≫= block_bytes).
Proof.
  induction l as [|b l IH]; intros Hp Hs; cbn; [constructor|]. destruct Hp as [Hp1 Hp2].
  apply NoDup_app. splits.
  - apply NoDup_seqZ.
  - intros x Hx Hx'. apply list_elem_of_bind in Hx' as (c & Hx' & Hc).
    apply elem_of_seqZ in Hx, Hx'. rewrite Forall_forall in Hp1. specialize (Hp1 c Hc).
    unfold separate, b_end in Hp1. lia.
  - apply IH; [exact Hp2|]. intros c Hc. apply Hs. apply elem_of_cons. now right.
Qed.

Lemma total_length l :
  (forall b, b ∈ l -> 0 <= b_size b) -> Z.of_nat (length (l ≫= block_bytes)) = total l.
Proof.
  induction l as [|b l IH]; intros Hs; [reflexivity|]. cbn [total foldr].
  change ((b :: l) ≫= block_bytes) with (block_bytes b ++ (l ≫= block_bytes)).
  change (foldr _ 0 l) with (total l). rewrite length_app, Nat2Z.inj_add, IH.
  - unfold block_bytes, HDR. rewrite length_seqZ. specialize (Hs b ltac:(apply elem_of_cons; now left)). lia.
  - intros c Hc. apply Hs. apply elem_of_cons. now right.
Qed.

Lemma total_bound l lo hi :
  pairwise l -> lo <= hi ->
  (forall b, b ∈ l -> lo <= b_addr b /\ 0 <= b_size b /\ b_end b <= hi) -> total l <= hi - lo.
Proof.
  intros Hp Hle Hb. rewrite <- total_length by (intros b H; apply Hb, H).
  assert (length (l ≫= block_bytes) <= length (seqZ lo (hi - lo)))%nat as H.
  { apply submseteq_length, NoDup_submseteq.
    - apply block_bytes_NoDup; [exact Hp|]. intros b H. apply Hb, H.
    - intros x Hx. apply list_elem_of_bind in Hx as (c & Hx & Hc). apply elem_of_seqZ in Hx.
      apply elem_of_seqZ. specialize (Hb c Hc). unfold b_end in Hb. lia. }
  rewrite length_seqZ in H. lia.
Qed.

Lemma total_count l :
  (forall b, b ∈ l -> 0 <= b_size b) -> HDR * Z.of_nat (length l) <= total l.
Proof.
  unfold HDR. induction l as [|b l IH]; intros Hs; cbn [length total foldr]; [unfold total; cbn; lia|].
  change (foldr _ 0 l) with (total l).
  specialize (IH ltac:(intros c Hc; apply Hs; apply elem_of_cons; now right)).
  specialize (Hs b ltac:(apply elem_of_cons; now left)). unfold HDR. lia.
Qed.

(** ** The invariant *)

Section Invariant.
Context {P : Type} `{PA : PageAllocator P} `{PAL : !PageAllocatorLaws P}.
Variable hhdm : Z.
Implicit Types (s : kheap_state P) (b : block).

(** A block lies, 16-byte aligned, in allocated pages of the direct map. *)
Definition block_ok (p : P) b : Prop :=
  hhdm <= b_addr b /\ b_addr b mod 16 = 0 /\ 0 <= b_size b /\ b_size b mod 16 = 0 /\
  b_end b <= hhdm + pa_pages p * PAGE_SIZE /\
  forall x, b_addr b <= x < b_end b -> pa_used p ((x - hhdm) / PAGE_SIZE) = true.

Definition heap_shape s (l : list block) : Prop :=
  l <> [] /\ kh_start s = first_addr 0 l /\ kh_end s = last_addr 0 l /\
  seg (hdrs s) 0 l 0 /\ pairwise l /\ Forall (block_ok (pages s)) l /\
  kheapSize s = u64 (total l) /\ pa_ok (pages s) /\
  0 < hhdm /\ hhdm mod PAGE_SIZE = 0 /\ hhdm + pa_pages (pages s) * PAGE_SIZE < 2 ^ 64.

Definition kheap_inv s (l : list block) : Prop := heap_shape s l /\ kheapLock s = false.

Lemma block_ok_bounds p b :
  block_ok p b -> 0 < hhdm -> hhdm + pa_pages p * PAGE_SIZE < 2 ^ 64 ->
  0 < b_addr b /\ 0 <= b_size b /\ b_addr b + HDR + b_size b < 2 ^ 64.
Proof. unfold block_ok, b_end. intuition lia. Qed.

Lemma heap_shape_lock s l k : heap_shape s l -> heap_shape (with_lock k s) l.
Proof. exact (fun H => H). Qed.

(** Every header of the list can be read off the block. *)
Lemma seg_lookup m l b r prev stop :
  seg m prev (l ++ b :: r) stop ->
  m (b_addr b) = mk_hdr (b_size b) (flag_of b) (first_addr stop r) (last_addr prev l).
Proof. rewrite seg_app. cbn [seg]. tauto. Qed.

(** Addresses of different blocks differ. *)
Lemma pairwise_ne l b r c :
  pairwise (l ++ b :: r) -> c ∈ l \/ c ∈ r -> 0 <= b_size b -> 0 <= b_size c ->
  b_addr c <> b_addr b.
Proof.
  rewrite pairwise_app. cbn [pairwise]. rewrite Forall_forall.
  intros (_ & (H2 & _) & H3) [Hc|Hc] Hb0 Hc0.
  - specialize (H3 c b Hc ltac:(apply elem_of_cons; now left)). unfold separate, b_end, HDR in H3. lia.
  - specialize (H2 c Hc). unfold separate, b_end, HDR in H2. lia.
Qed.

Lemma block_ok_retag p b b' :
  block_ok p b -> b_addr b' = b_addr b -> b_size b' = b_size b -> block_ok p b'.
Proof. unfold block_ok, b_end. intros H -> ->. exact H. Qed.

(** [seg] of a list one of whose headers was rewritten in place. *)
Lemma seg_update m m' prev l b b' r stop :
  seg m prev (l ++ b :: r) stop -> b_addr b' = b_addr b ->
  (forall c, c ∈ l \/ c ∈ r -> m' (b_addr c) = m (b_addr c)) ->
  m' (b_addr b) = mk_hdr (b_size b') (flag_of b') (first_addr stop r) (last_addr prev l) ->
  seg m' prev (l ++ b' :: r) stop.
Proof.
  rewrite !seg_app. cbn [first_addr seg]. intros (H1 & H2 & H3) E Hf Hb. rewrite E.
  splits; [apply (seg_frame m)|exact Hb|apply (seg_frame m)]; auto.
Qed.

(** A list whose first header was linked back to another block. *)
Lemma seg_reprev m m' r p q :
  seg m p r 0 ->
  (forall c r', r = c :: r' ->
     m' (b_addr c) = mk_hdr (b_size c) (flag_of c) (first_addr 0 r') q /\
     forall d, d ∈ r' -> m' (b_addr d) = m (b_addr d)) ->
  seg m' q r 0.
Proof.
  destruct r as [|c r]; cbn [seg]; [easy|]. intros [_ H2] Hc.
  destruct (Hc c r eq_refl) as [E Hd]. split; [exact E|]. now apply (seg_frame m).
Qed.

(** What a heap of the shape [l ++ b :: r] says about the block [b]. *)
Lemma shape_block s l b r :
  heap_shape s (l ++ b :: r) ->
  hdrs s (b_addr b) = mk_hdr (b_size b) (flag_of b) (first_addr 0 r) (last_addr 0 l) /\
  block_ok (pages s) b /\ 0 < b_addr b /\ 0 <= b_size b /\
  b_addr b + HDR + b_size b < 2 ^ 64 /\
  (forall c, c ∈ l \/ c ∈ r -> separate c b /\ block_ok (pages s) c /\ 0 < b_addr c /\ 0 <= b_size c).
Proof.
  intros (H1 & H2 & H3 & H4 & H5 & H6 & H7 & H8 & H9 & H10 & H11).
  rewrite Forall_forall in H6.
  assert (block_ok (pages s) b) as Hb by (apply H6, elem_of_mid with (mid := [b]); right; left; now apply list_elem_of_singleton).
  destruct (block_ok_bounds _ _ Hb H9 H11) as (B1 & B2 & B3).
  splits; auto; [now apply seg_lookup in H4|].
  intros c Hc. assert (block_ok (pages s) c) as Hc'.
  { apply H6, elem_of_mid with (mid := [b]). tauto. }
  destruct (block_ok_bounds _ _ Hc' H9 H11) as (C1 & C2 & C3). splits; auto.
  apply pairwise_app in H5. destruct H5 as (_ & (P1 & _) & P2). destruct Hc as [Hc|Hc].
  - apply P2; [exact Hc|]. apply elem_of_cons. now left.
  - rewrite Forall_forall in P1. specialize (P1 c Hc). unfold separate in *. tauto.
Qed.

Lemma shape_lr s l b r c d :
  heap_shape s (l ++ b :: r) -> c ∈ l -> d ∈ r -> b_addr d <> b_addr c.
Proof.
  intros H Hl Hr. destruct (shape_block s l b r H) as (_ & _ & _ & _ & _ & Hc).
  destruct (Hc c ltac:(now left)) as (_ & _ & _ & C). destruct (Hc d ltac:(now right)) as (_ & _ & _ & D).
  destruct H as (_ & _ & _ & _ & H5 & _). apply pairwise_app in H5 as (_ & _ & H5).
  specialize (H5 c d Hl ltac:(apply elem_of_cons; now right)).
  unfold separate, b_end, HDR in H5. lia.
Qed.

(** [with_end] and [with_hdrs] of a shape: what has to be shown again. *)
Lemma shape_intro s s' l l' :
  heap_shape s l -> l' <> [] ->
  kh_start s' = first_addr 0 l' -> kh_end s' = last_addr 0 l' ->
  seg (hdrs s') 0 l' 0 -> pairwise l' -> Forall (block_ok (pages s)) l' ->
  total l' = total l -> kheapSize s' = kheapSize s -> pages s' = pages s ->
  heap_shape s' l'.
Proof.
  unfold heap_shape. intros (H1 & H2 & H3 & H4 & H5 & H6 & H7 & H8 & H9 & H10 & H11).
  intros ? ? ? ? ? ? Et ? E. rewrite E. splits; auto. congruence.
Qed.

(** A list whose first header, and no other, was linked back to [q]. *)
Lemma seg_relinked m m' r p q :
  seg m p r 0 -> pairwise r -> (forall c, c ∈ r -> 0 < b_addr c /\ 0 <= b_size c) ->
  (forall c, c ∈ r -> m' (b_addr c) =
     if (b_addr c =? first_addr 0 r) && negb (first_addr 0 r =? 0)
     then w_prev q (m (b_addr c)) else m (b_addr c)) ->
  seg m' q r 0.
Proof.
  intros H Hp Hpos Hm. apply (seg_reprev m m' r p q H). intros c r' ->.
  destruct H as [Hc _]. destruct Hp as [Hp _]. rewrite Forall_forall in Hp.
  cbn [first_addr] in Hm. destruct (Hpos c ltac:(apply elem_of_cons; now left)) as [P1 P2].
  rewrite (proj2 (Z.eqb_neq (b_addr c) 0)) in Hm by lia. split.
  - rewrite Hm by (apply elem_of_cons; now left). rewrite Z.eqb_refl, Hc. reflexivity.
  - intros d Hd. rewrite Hm by (apply elem_of_cons; now right).
    specialize (Hp d Hd). destruct (Hpos d ltac:(apply elem_of_cons; now right)) as [P3 P4].
    unfold separate, b_end, HDR in Hp. now rewrite (proj2 (Z.eqb_neq (b_addr d) (b_addr c))) by lia.
Qed.

(** The header after the blocks [b], if any, is none of the others. *)
Lemma first_addr_ne r x :
  x <> 0 -> (forall c, c ∈ r -> b_addr c <> x) -> first_addr 0 r <> x.
Proof.
  intros Hx H. destruct r as [|c r]; cbn; [congruence|]. apply H. apply elem_of_cons. now left.
Qed.

(** Change of a flag in place. *)
Lemma retag_spec s l b r v f :
  heap_shape s (l ++ b :: r) -> v = flag_of (mk_block (b_addr b) (b_size b) f) ->
  heap_shape (with_hdrs (set_flags (b_addr b) v (hdrs s)) s)
    (l ++ mk_block (b_addr b) (b_size b) f :: r).
Proof.
  intros H ->. destruct (shape_block s l b r H) as (Hh & Hb & B1 & B2 & B3 & Hc).
  pose proof H as (H1 & H2 & H3 & H4 & H5 & H6 & H7).
  apply (shape_intro s _ _ _ H); try reflexivity.
  - now destruct l.
  - cbn. rewrite H2, !first_addr_app. reflexivity.
  - cbn. rewrite H3, !last_addr_app. reflexivity.
  - cbn [hdrs with_hdrs]. apply (seg_update (hdrs s) _ 0 l b); auto.
    + intros c Hl. apply upd_ne. destruct (Hc c Hl) as (S1 & _ & _ & S2).
      unfold separate, b_end, HDR in S1. lia.
    + rewrite set_flags_read, Z.eqb_refl, Hh. reflexivity.
  - apply (pairwise_replace l [b] [_] r H5); [cbn; auto|].
    intros x _ Hx y ->%list_elem_of_singleton. apply (Hx b). now apply list_elem_of_singleton.
  - apply Forall_app in H6 as [Hl Hr]. apply Forall_cons in Hr as [_ Hr].
    apply Forall_app. split; [exact Hl|]. apply Forall_cons. split; [|exact Hr].
    apply (block_ok_retag _ b); auto.
  - rewrite !total_app. reflexivity.
Qed.

Lemma take_block_spec s l b r :
  heap_shape s (l ++ b :: r) ->
  heap_shape (take_block (b_addr b) s) (l ++ mk_block (b_addr b) (b_size b) false :: r).
Proof.
  intros H. destruct (shape_block s l b r H) as (Hh & _). unfold take_block.
  apply retag_spec; [exact H|]. rewrite Hh. unfold flag_of. cbn. now destruct (b_free b).
Qed.

(** The links after a split. *)
Lemma create_block_seg s l b b1 b2 r size :
  heap_shape s (l ++ b :: r) -> b_free b = true -> 0 <= size -> size + HDR < b_size b ->
  b1 = mk_block (b_addr b) size true ->
  b2 = mk_block (b_addr b + HDR + size) (b_size b - (size + HDR)) true ->
  seg (hdrs (kheap_create_block (b_addr b) size s)) 0 (l ++ b1 :: b2 :: r) 0.
Proof.
  intros H Hf Hs0 Hlt -> ->. destruct (shape_block s l b r H) as (Hh & Hb & B1 & B2 & B3 & Hc).
  pose proof H as (_ & _ & _ & H4 & H5 & _). unfold HDR in *.
  set (n := b_addr b + 32 + size) in *.
  assert (forall c, c ∈ l \/ c ∈ r -> b_addr c <> b_addr b /\ b_addr c <> n) as Hne.
  { intros c Hl. destruct (Hc c Hl) as (S1 & _ & _ & S2). unfold separate, b_end, HDR in S1. lia. }
  assert (u64 (b_addr b + HDR + size) = n) as En by (apply wrap_small; unfold HDR; lia).
  assert (first_addr 0 r <> b_addr b /\ first_addr 0 r <> n) as [F1 F2].
  { split; apply first_addr_ne; try lia; intros c Hl; apply Hne; now right. }
  pose proof (fun x => create_block_hdrs s (b_addr b) size _ _ _ _ x Hh
    ltac:(rewrite En; lia) F1 ltac:(rewrite En; exact F2)) as Hm. cbv zeta in Hm.
  assert (0 <= size + 32 < 2 ^ 64 /\ 0 <= b_size b - (size + 32) < 2 ^ 64) as [R1 R2] by lia.
  rewrite En in Hm. unfold HDR, flag_of in Hm. rewrite Hf in Hm.
  rewrite (wrap_small 64 (size + 32)), (wrap_small 64 (b_size b - (size + 32))) in Hm by assumption.
  apply seg_app in H4 as [Hl [_ Hr]]. apply seg_app. cbn [first_addr seg last_addr b_addr b_size] in *.
  splits.
  - apply (seg_frame (hdrs s)); [|exact Hl]. intros c Hl'. rewrite Hm.
    destruct (Hne c ltac:(now left)) as [N1 N2]. eval_hdr.
    rewrite (proj2 (Z.eqb_neq (b_addr c) (first_addr 0 r))); [reflexivity|].
    apply not_eq_sym, first_addr_ne; [destruct (Hc c ltac:(now left)); lia|].
    intros d Hd. now apply (shape_lr s l b r).
  - rewrite Hm, Z.eqb_refl. reflexivity.
  - rewrite Hm, Z.eqb_refl. now rewrite (proj2 (Z.eqb_neq n (b_addr b))) by lia.
  - apply (seg_relinked (hdrs s) _ r (b_addr b)); [exact Hr| | |].
    + apply pairwise_app in H5. apply H5.
    + intros c Hc'. apply Hc. now right.
    + intros c Hc'. rewrite Hm. destruct (Hne c ltac:(now right)) as [N1 N2]. now eval_hdr.
Qed.

(** The last block, when a middle one is replaced. *)
Lemma shape_end s l b r :
  heap_shape s (l ++ b :: r) -> (b_addr b =? kh_end s) = match r with [] => true | _ => false end.
Proof.
  intros H. destruct (shape_block s l b r H) as (_ & _ & _ & B & _ & Hc).
  destruct H as (_ & _ & H3 & _). rewrite H3, last_addr_app. cbn [last_addr].
  destruct r as [|c r]; cbn [last_addr]; [apply Z.eqb_refl|].
  apply Z.eqb_neq. destruct (last_addr_in r c) as (d & Hd & ->).
  destruct (Hc d ltac:(now right)) as (S1 & _ & _ & S2). unfold separate, b_end, HDR in S1. lia.
Qed.

(** Splitting a free block. *)
Lemma kheap_create_block_spec s l b r size :
  heap_shape s (l ++ b :: r) -> b_free b = true ->
  0 <= size -> size mod 16 = 0 -> size + HDR < b_size b ->
  heap_shape (kheap_create_block (b_addr b) size s)
    (l ++ mk_block (b_addr b) size true ::
     mk_block (b_addr b + HDR + size) (b_size b - (size + HDR)) true :: r).
Proof.
  intros H Hf Hs0 Hs16 Hlt. destruct (shape_block s l b r H) as (Hh & Hb & B1 & B2 & B3 & Hc).
  pose proof H as (H1 & H2 & H3 & H4 & H5 & H6 & H7).
  destruct (create_block_fields s (b_addr b) size) as (F1 & F2 & F3 & F4 & F5).
  rewrite (shape_end s l b r H) in F5.
  apply (shape_intro s _ _ _ H); try assumption.
  - now destruct l.
  - rewrite F1, H2, !first_addr_app. reflexivity.
  - rewrite F5, H3, !last_addr_app. destruct r; cbn; [|reflexivity].
    apply wrap_small. unfold HDR in *. lia.
  - now apply (create_block_seg s l b).
  - apply (pairwise_replace l [b] [_; _] r H5).
    + cbn. splits; auto. constructor; [|constructor]. left. unfold b_end, HDR. cbn. lia.
    + intros x Hx Hsep y Hy. specialize (Hsep b ltac:(now apply list_elem_of_singleton)).
      destruct (Hc x Hx) as (_ & _ & _ & X). unfold separate, b_end, HDR in *.
      apply elem_of_cons in Hy as [->|Hy]; [|apply list_elem_of_singleton in Hy as ->]; cbn; lia.
  - apply Forall_app in H6 as [Hl Hr]. apply Forall_cons in Hr as [_ Hr].
    apply Forall_app. split; [exact Hl|].
    destruct Hb as (A1 & A2 & A3 & A4 & A5 & A6). unfold b_end, HDR in *.
    repeat (apply Forall_cons; split); [| |exact Hr];
      unfold block_ok, b_end, HDR; cbn; splits; try lia; try dm; intros x Hx; apply A6; lia.
  - rewrite !total_app. unfold total, HDR. cbn [foldr b_size]. lia.
Qed.

(** The links after coalescing. *)
Lemma absorb_seg s l b c r :
  heap_shape s (l ++ b :: c :: r) -> b_end b = b_addr c ->
  seg (hdrs (absorb (b_addr b) (b_addr c) s)) 0
    (l ++ mk_block (b_addr b) (b_size b + b_size c + HDR) (b_free b) :: r) 0.
Proof.
  intros H Hadj. destruct (shape_block s l b (c :: r) H) as (Hh & _ & B1 & B2 & B3 & Hc).
  assert (heap_shape s ((l ++ [b]) ++ c :: r)) as H' by now rewrite <- app_assoc.
  destruct (shape_block s _ c r H') as (Hh' & _ & C1 & C2 & C3 & Hd).
  pose proof H as (_ & _ & _ & H4 & H5 & _). unfold b_end, HDR in *. cbn [first_addr] in Hh.
  assert (forall d, d ∈ l \/ d ∈ r -> b_addr d <> b_addr b) as Hnb.
  { intros d Hl. destruct (Hc d) as (S1 & _ & _ & S2).
    - destruct Hl as [Hl|Hl]; [now left|right; apply elem_of_cons; now right].
    - unfold separate, b_end, HDR in S1. lia. }
  assert (forall d, d ∈ r -> b_addr d <> b_addr c) as Hnc.
  { intros d Hl. destruct (Hd d ltac:(now right)) as (S1 & _ & _ & S2).
    unfold separate, b_end, HDR in S1. lia. }
  pose proof (fun x => absorb_hdrs s (b_addr b) (b_addr c) _ _ _ _ _ _ _ x Hh Hh'
    ltac:(lia) ltac:(apply first_addr_ne; [lia|auto]) ltac:(apply first_addr_ne; [lia|auto])) as Hm.
  assert (0 <= b_size c + 32 < 2 ^ 64 /\ 0 <= b_size b + (b_size c + 32) < 2 ^ 64) as [R1 R2] by lia.
  unfold HDR in Hm.
  rewrite (wrap_small 64 (b_size c + 32)), (wrap_small 64 (b_size b + (b_size c + 32))) in Hm by assumption.
  apply seg_app in H4 as [Hl [_ [_ Hr]]]. apply seg_app. cbn [first_addr seg last_addr b_addr b_size] in *.
  splits.
  - apply (seg_frame (hdrs s)); [|exact Hl]. intros d Hl'. rewrite Hm.
    pose proof (Hnb d ltac:(now left)) as N1. eval_hdr.
    rewrite (proj2 (Z.eqb_neq (b_addr d) (first_addr 0 r))); [reflexivity|].
    apply not_eq_sym, first_addr_ne; [destruct (Hc d ltac:(now left)); lia|].
    intros e He. apply (shape_lr s l b (c :: r)); auto. apply elem_of_cons. now right.
  - rewrite Hm, Z.eqb_refl. unfold flag_of. f_equal. cbn. lia.
  - apply (seg_relinked (hdrs s) _ r (b_addr c)); [exact Hr| | |].
    + apply pairwise_app in H5. apply H5.
    + intros d Hd'. apply Hd. now right.
    + intros d Hd'. rewrite Hm. pose proof (Hnb d ltac:(now right)) as N1. now eval_hdr.
Qed.

(** Coalescing a block with the one after it. *)
Lemma absorb_spec s l b c r :
  heap_shape s (l ++ b :: c :: r) -> b_end b = b_addr c ->
  heap_shape (absorb (b_addr b) (b_addr c) s)
    (l ++ mk_block (b_addr b) (b_size b + b_size c + HDR) (b_free b) :: r).
Proof.
  intros H Hadj. destruct (shape_block s l b (c :: r) H) as (_ & Hb & B1 & B2 & B3 & Hx).
  assert (heap_shape s ((l ++ [b]) ++ c :: r)) as H' by now rewrite <- app_assoc.
  destruct (shape_block s _ c r H') as (_ & Hc & C1 & C2 & C3 & _).
  pose proof H as (H1 & H2 & H3 & H4 & H5 & H6 & H7).
  destruct (absorb_fields s (b_addr b) (b_addr c)) as (F1 & F2 & F3 & F4 & F5).
  rewrite (shape_end s _ c r H') in F5. unfold b_end in Hadj.
  apply (shape_intro s _ _ _ H); try assumption.
  - now destruct l.
  - rewrite F1, H2, !first_addr_app. reflexivity.
  - rewrite F5, H3, !last_addr_app. now destruct r.
  - now apply absorb_seg.
  - apply (pairwise_replace l [b; c] [_] r H5); [cbn; auto|].
    intros x Hx' Hsep y ->%list_elem_of_singleton.
    pose proof (Hsep b ltac:(apply elem_of_cons; now left)) as S1.
    pose proof (Hsep c ltac:(apply elem_of_cons; right; now apply list_elem_of_singleton)) as S2.
    destruct (Hx x) as (_ & _ & _ & X).
    + destruct Hx' as [?|?]; [now left|right; apply elem_of_cons; now right].
    + unfold separate, b_end, HDR in *. cbn. lia.
  - apply Forall_app in H6 as [Hl Hr]. apply Forall_cons in Hr as [_ Hr]. apply Forall_cons in Hr as [_ Hr].
    apply Forall_app. split; [exact Hl|]. apply Forall_cons. split; [|exact Hr].
    destruct Hb as (A1 & A2 & A3 & A4 & A5 & A6). destruct Hc as (D1 & D2 & D3 & D4 & D5 & D6).
    unfold block_ok, b_end, HDR in *. cbn. splits; try lia; try dm.
    intros x Hx'. destruct (Z.lt_ge_cases x (b_addr c)); [apply A6|apply D6]; lia.
  - rewrite !total_app. unfold total, HDR. cbn [foldr b_size]. lia.
Qed.

(** The number of pages [kheap_extend] asks for. *)
Definition extend_pages (size : Z) : Z := (size + HDR + 4095) / 4096.

Lemma extend_size size :
  0 <= size <= 2 ^ 42 ->
  let sz := u64 (size + HDR) in
  (if negb (sz mod PAGE_SIZE =? 0) then ALIGN_UP sz PAGE_SIZE else sz) = extend_pages size * PAGE_SIZE /\
  1 <= extend_pages size < 2 ^ 31 /\ i32 (extend_pages size) = extend_pages size /\
  size + HDR <= extend_pages size * PAGE_SIZE.
Proof.
  intros H sz. change (2 ^ 42) with 4398046511104 in H. unfold extend_pages, PAGE_SIZE, HDR in *.
  assert (sz = size + 32) as -> by (unfold sz; apply wrap_small; pow2_consts; lia).
  assert (1 <= (size + 32 + 4095) / 4096 < 2 ^ 31) as Hn by (pow2_consts; dm).
  splits; try tauto.
  - unfold ALIGN_UP. destruct (Z.eqb_spec ((size + 32) mod 4096) 0) as [E|E]; cbn [negb]; [dm|].
    rewrite wrap_small; [dm|]. pow2_consts. dm.
  - apply swrap_small; [lia|]. pow2_consts. lia.
  - dm.
Qed.

(** Memory of pages that were free is apart from every block. *)
Lemma fresh_separate p q n b c :
  block_ok p c -> free_run p q n -> 1 <= n ->
  b_addr b = hhdm + q * PAGE_SIZE -> b_end b = hhdm + (q + n) * PAGE_SIZE -> separate c b.
Proof.
  intros (C1 & C2 & C3 & C4 & C5 & C6) (_ & _ & Hf) Hn Ha He. unfold separate, PAGE_SIZE in *.
  destruct (Z.le_gt_cases (b_end c) (b_addr b)) as [|G1]; [now left|].
  destruct (Z.le_gt_cases (b_end b) (b_addr c)) as [|G2]; [now right|]. exfalso.
  set (x := Z.max (b_addr b) (b_addr c)). specialize (C6 x).
  assert (b_addr c < b_end c) by (unfold b_end, HDR; lia).
  rewrite Hf in C6; [|unfold x; dm]. discriminate C6. unfold x. lia.
Qed.

Lemma block_ok_grow p p' b :
  pa_pages p' = pa_pages p -> (forall i, pa_used p i = true -> pa_used p' i = true) ->
  block_ok p b -> block_ok p' b.
Proof.
  unfold block_ok. intros -> Hu (H1 & H2 & H3 & H4 & H5 & H6). splits; auto.
Qed.

Lemma kheap_extend_spec size s l :
  0 <= size <= 2 ^ 42 -> heap_shape s l ->
  match kheap_extend hhdm size s with
  | Ret s' => exists b, heap_shape s' (l ++ [b]) /\ b_free b = true /\ size <= b_size b /\
                kheapLock s' = kheapLock s
  | Panic _ => forall q, ~ free_run (pages s) q (extend_pages size)
  | _ => False
  end.
Proof.
  intros Hs H. destruct (extend_size size Hs) as (E1 & Hn & E2 & Hle). cbv zeta in E1.
  unfold kheap_extend. rewrite E1, Z.div_mul, E2 by easy. set (n := extend_pages size) in *.
  destruct H as (H1 & H2 & H3 & H4 & H5 & H6 & H7 & H8 & H9 & H10 & H11).
  pose proof (pa_alloc_spec n (pages s) Hn H8) as HA.
  destruct (pa_alloc n (pages s)) as [[v p']|m| | |]; cbn; try contradiction; [|exact HA].
  destruct HA as (q & -> & Hrun & P1 & P2 & P3 & P4). pose proof Hrun as (R1 & R2 & R3).
  unfold PAGE_SIZE, HDR in *.
  assert (u64 (q * 4096 + hhdm) = hhdm + q * 4096) as -> by (rewrite wrap_small; lia).
  assert (u64 (n * 4096 - 32) = n * 4096 - 32) as -> by (apply wrap_small; lia).
  set (b := mk_block (hhdm + q * 4096) (n * 4096 - 32) true).
  assert (Forall (fun c => separate c b) l) as Hsep.
  { eapply Forall_impl; [exact H6|]. intros c Hc.
    apply (fresh_separate (pages s) q n); auto; [lia|].
    unfold b_end, PAGE_SIZE, HDR. cbn [b_addr b_size b]. lia. }
  assert (forall c, c ∈ l -> 0 < b_addr c /\ 0 <= b_size c /\ b_addr c <> b_addr b) as Hpos.
  { intros c Hc. rewrite Forall_forall in H6, Hsep. specialize (Hsep c Hc).
    destruct (block_ok_bounds _ _ (H6 c Hc)) as (X1 & X2 & X3); auto.
    unfold separate, b_end, HDR in Hsep. cbn [b_addr b_size b] in *. splits; auto. lia. }
  assert (kh_end s ∈ b_addr <$> l) as Hend.
  { rewrite H3. destruct l as [|c l]; [easy|]. cbn [last_addr]. destruct (last_addr_in l c) as (d & Hd & ->).
    now apply list_elem_of_fmap_2. }
  apply list_elem_of_fmap in Hend as (e & Ee & He). destruct (Hpos e He) as (X1 & X2 & X3).
  rewrite (proj2 (Z.eqb_neq (kh_end s) 0)) by lia.
  exists b. splits; [|reflexivity|cbn [b_size b]; lia|reflexivity].
  unfold heap_shape. cbn [kh_start kh_end hdrs pages kheapSize]. rewrite P2. splits; auto.
  - now destruct l.
  - rewrite H2, first_addr_app. now destruct l.
  - now rewrite last_addr_app.
  - apply seg_app. rewrite H3. split.
    + apply (seg_stop _ l 0 0); auto.
      * apply (seg_frame (hdrs s)); [|exact H4]. intros c Hc. apply upd_ne. apply Hpos, Hc.
      * intros c Hc. apply Hpos, Hc.
    + cbn [seg first_addr]. split; [|exact I]. rewrite <- H3, Ee. eval_hdr. cbn. reflexivity.
  - apply pairwise_app. splits; [exact H5|cbn; auto|]. intros c d Hc ->%list_elem_of_singleton.
    rewrite Forall_forall in Hsep. now apply Hsep.
  - apply Forall_app. split.
    + eapply Forall_impl; [exact H6|]. intros c. apply block_ok_grow; [exact P2|].
      intros i Hi. rewrite P4, Hi. now destruct (_ && _).
    + apply Forall_cons. split; [|constructor]. unfold block_ok, b_end, HDR, PAGE_SIZE.
      cbn [b_addr b_size b]. rewrite P2. splits; try lia; try dm. intros x Hx. rewrite P4.
      assert (q <= (x - hhdm) / 4096 < q + n) by dm. zcmp; simpl; easy || lia.
  - rewrite H7, total_app. assert (total [b] = n * 4096) as ->.
    { unfold total, HDR. cbn [foldr b b_size]. lia. }
    unfold wrap.
    now rewrite Z.add_mod_idemp_l by easy.
Qed.

(** *** Allocation *)

Definition fits (size : Z) (b : block) : Prop := b_free b = true /\ size <= b_size b.

(** What [kmalloc] promises about the abstract heap: one more live block. *)
Definition allocated (size : Z) (l l' : list block) (p : Z) : Prop :=
  exists b, p = b_addr b + HDR /\ size <= b_size b /\ b_free b = false /\ b ∈ l' /\
    live l' ≡ₚ b :: live l.

Lemma live_mid l b c r :
  b_free b = true -> b_free c = false ->
  forall d, (d = [] \/ exists e, d = [e] /\ b_free e = true) ->
  live (l ++ c :: d ++ r) ≡ₚ c :: live (l ++ b :: r).
Proof.
  intros Hb Hc d Hd. change (c :: d ++ r) with ([c] ++ d ++ r). change (b :: r) with ([b] ++ r).
  rewrite !live_app.
  assert (live [c] = [c] /\ live [b] = [] /\ live d = []) as (-> & -> & ->).
  { unfold live. cbn. rewrite Hb, Hc. splits; auto. destruct Hd as [->|(e & -> & He)]; cbn; [easy|].
    now rewrite He. }
  symmetry. apply Permutation_middle.
Qed.

Lemma is_free_flag sz b nx pv : is_free (mk_hdr sz (flag_of b) nx pv) = b_free b.
Proof. unfold is_free, flag_of. cbn. now destruct (b_free b). Qed.

(** The walk goes over the blocks [r] after those already seen. *)
Lemma kmalloc_walk_spec size s r : forall l fuel,
  0 <= size <= 2 ^ 42 -> size mod 16 = 0 -> heap_shape s (l ++ r) -> (length r < fuel)%nat ->
  (forall b, b ∈ l -> ~ fits size b) ->
  Returns (kmalloc_walk fuel (first_addr 0 r) size s) (fun '(o, s') =>
    match o with
    | Some p => kheapLock s' = false /\ (exists b, b ∈ r /\ fits size b) /\
                exists l', heap_shape s' l' /\ allocated size (l ++ r) l' p
    | None => s' = s /\ forall b, b ∈ l ++ r -> ~ fits size b
    end).
Proof.
  induction r as [|b r IH]; intros l [|f] Hs H16 H Hf Hno; cbn [length] in Hf; try lia.
  - cbn. apply Returns_ret. split; [reflexivity|]. now rewrite app_nil_r.
  - destruct (shape_block s l b r H) as (Hh & Hb & B1 & B2 & B3 & _).
    cbn [kmalloc_walk first_addr]. rewrite (proj2 (Z.eqb_neq (b_addr b) 0)), Hh, is_free_flag by lia.
    cbn [h_size h_next].
    assert (u64 (size + HDR) = size + HDR) as Ew.
    { apply wrap_small. change (2 ^ 42) with 4398046511104 in Hs. unfold HDR. pow2_consts. lia. }
    assert (u64 (b_addr b + HDR) = b_addr b + HDR) as Eb by (apply wrap_small; unfold HDR in *; lia).
    rewrite Ew, Eb.
    assert (~ fits size b ->
      Returns (kmalloc_walk f (first_addr 0 r) size s) (fun '(o, s') =>
        match o with
        | Some p => kheapLock s' = false /\ (exists c, c ∈ b :: r /\ fits size c) /\
                    exists l', heap_shape s' l' /\ allocated size (l ++ b :: r) l' p
        | None => s' = s /\ forall c, c ∈ l ++ b :: r -> ~ fits size c
        end)) as Hnext.
    { intros Hnf. specialize (IH (l ++ [b]) f Hs H16). rewrite <- app_assoc in IH.
      eapply Returns_mono; [apply IH; [exact H|lia|]|].
      - intros c [Hc| ->%list_elem_of_singleton]%elem_of_app; auto.
      - intros [[p|] s']; [|tauto]. intros (L & (c & Hc & Hc') & Hl'). splits; auto.
        exists c. split; [apply elem_of_cons; now right|exact Hc']. }
    destruct (b_free b) eqn:Eb'; cbn [negb orb]; [|apply Hnext; unfold fits; now rewrite Eb'].
    destruct (Z.ltb_spec (b_size b) size) as [Hlt|Hge]; [apply Hnext; unfold fits; lia|].
    assert (exists c, c ∈ b :: r /\ fits size c) as Hfit.
    { exists b. split; [apply elem_of_cons; now left|]. now split. }
    set (s1 := take_block (b_addr b) s).
    set (s2 := take_block (b_addr b) (kheap_create_block (b_addr b) size s)).
    destruct (Z.le_gt_cases (b_size b) (size + HDR)) as [Hle|Hgt].
    + assert ((b_size b =? size) || ((b_size b >? size) && (b_size b <=? size + HDR)) = true) as ->.
      { destruct (Z.gtb_spec (b_size b) size); zcmp; simpl; easy || lia. }
      apply Returns_ret. splits; [reflexivity|exact Hfit|].
      exists (l ++ mk_block (b_addr b) (b_size b) false :: r). split; [now apply take_block_spec|].
      exists (mk_block (b_addr b) (b_size b) false). splits; auto.
      * apply (elem_of_mid _ l [_] r). right. left. now apply list_elem_of_singleton.
      * apply (live_mid l b (mk_block (b_addr b) (b_size b) false) r Eb' eq_refl []). now left.
    + unfold HDR in *.
      assert ((b_size b =? size) || ((b_size b >? size) && (b_size b <=? size + 32)) = false) as ->.
      { destruct (Z.gtb_spec (b_size b) size); zcmp; simpl; easy || lia. }
      rewrite (proj2 (Z.gtb_lt _ _)) by lia. apply Returns_ret. splits; [reflexivity|exact Hfit|].
      pose proof (kheap_create_block_spec s l b r size H Eb' (proj1 Hs) H16 Hgt) as H'.
      apply take_block_spec in H'. cbn [b_addr b_size] in H'.
      eexists. split; [exact H'|]. exists (mk_block (b_addr b) size false). splits; auto; [cbn; lia| |].
      * apply (elem_of_mid _ l [_] (_ :: r)). right. left. now apply list_elem_of_singleton.
      * apply (live_mid l b (mk_block (b_addr b) size false) r Eb' eq_refl [_]). right.
        eexists. split; reflexivity.
Qed.

Lemma align16_spec size :
  0 <= size <= 2 ^ 42 - 16 ->
  let sz := if negb (size mod 16 =? 0) then ALIGN_UP size 16 else size in
  size <= sz < size + 16 /\ sz mod 16 = 0.
Proof.
  intros H. change (2 ^ 42) with 4398046511104 in H.
  destruct (ALIGN_UP_spec size 16) as (A1 & A2); [lia|lia|pow2_consts; lia|].
  cbv zeta. destruct (Z.eqb_spec (size mod 16) 0); cbn [negb]; lia.
Qed.

(** The walk of one call of [kmalloc], from the start of the list. *)
Lemma kmalloc_walk_full fuel size s l :
  0 <= size <= 2 ^ 42 - 16 -> kheap_inv s l -> (length l < fuel)%nat ->
  let sz := if negb (size mod 16 =? 0) then ALIGN_UP size 16 else size in
  Returns (kmalloc_walk fuel (kh_start s) sz (with_lock true s)) (fun '(o, s') =>
    match o with
    | Some p => exists l', kheap_inv s' l' /\ allocated sz l l' p
    | None => s' = with_lock true s /\ forall b, b ∈ l -> ~ fits sz b
    end).
Proof.
  intros Hs [H L] Hf sz. pose proof (align16_spec size Hs) as [A1 A2]. fold sz in A1, A2.
  change (2 ^ 42) with 4398046511104 in Hs. pose proof H as (_ & H2 & _). rewrite H2.
  eapply Returns_mono; [apply (kmalloc_walk_spec sz (with_lock true s) l [] fuel)|].
  - change (2 ^ 42) with 4398046511104. lia.
  - exact A2.
  - now apply heap_shape_lock.
  - exact Hf.
  - intros b Hb. now apply not_elem_of_nil in Hb.
  - intros [[p|] s']; cbn [app]; [|tauto]. intros (L' & _ & l' & H' & Ha). exists l'. split; [now split|exact Ha].
Qed.

Lemma allocated_weaken size sz l b l' p :
  size <= sz -> b_free b = true -> allocated sz (l ++ [b]) l' p -> allocated size l l' p.
Proof.
  intros Hle Hb (c & -> & H1 & H2 & H3 & H4). exists c. splits; auto; [lia|].
  rewrite H4, live_app. unfold live at 2. cbn. rewrite Hb. cbn. now rewrite app_nil_r.
Qed.

Lemma allocated_le size sz l l' p : size <= sz -> allocated sz l l' p -> allocated size l l' p.
Proof. intros Hle (c & H1 & H2 & H3). exists c. splits; try tauto; lia. Qed.

(** One call of [kmalloc] up to its recursive call. *)
Lemma kmalloc_unfold d fuel size s :
  kheapLock s = false ->
  kmalloc hhdm (S d) fuel size s =
    (let size := if negb (size mod 16 =? 0) then ALIGN_UP size 16 else size in
     '(r, s) ← kmalloc_walk fuel (kh_start s) size (with_lock true s);
     match r with
     | Some p => Ret (p, s)
     | None => s ← kheap_extend hhdm size s;
               kmalloc hhdm d fuel size (with_lock (releaseLock (kheapLock s)) s)
     end).
Proof. intros L. cbn [kmalloc]. rewrite L. reflexivity. Qed.

Lemma kmalloc_cases d fuel size s l :
  0 <= size < 2 ^ 40 -> kheap_inv s l -> (S (length l) < fuel)%nat ->
  match kmalloc hhdm (S (S d)) fuel size s with
  | Ret (p, s') => exists l', kheap_inv s' l' /\ allocated size l l' p
  | Panic _ => (forall b, b ∈ l -> ~ fits size b) /\
               forall q, ~ free_run (pages s) q (extend_pages (ALIGN_UP size 16))
  | _ => False
  end.
Proof.
  intros Hs H Hf. change (2 ^ 40) with 1099511627776 in Hs.
  assert (0 <= size <= 2 ^ 42 - 16) as Hs' by (change (2 ^ 42) with 4398046511104; lia).
  rewrite kmalloc_unfold by apply H.
  destruct (kmalloc_walk_full fuel size s l Hs' H ltac:(lia)) as ([o s1] & E & Ho).
  pose proof (align16_spec size Hs') as [A1 A2]. cbv zeta in *.
  assert ((if negb (size mod 16 =? 0) then ALIGN_UP size 16 else size) = ALIGN_UP size 16) as EA.
  { destruct (Z.eqb_spec (size mod 16) 0) as [E0|]; cbn [negb]; [|reflexivity].
    unfold ALIGN_UP. now rewrite E0. }
  rewrite EA in *. set (sz := ALIGN_UP size 16) in *. rewrite E. cbn [mbind outcome_bind].
  destruct o as [p|].
  - destruct Ho as (l' & H' & Ha). exists l'. split; [exact H'|]. apply (allocated_le size sz); [lia|exact Ha].
  - destruct Ho as [-> Hno]. destruct H as [H L].
    pose proof (kheap_extend_spec sz (with_lock true s) l) as HE.
    change (2 ^ 42) with 4398046511104 in HE. specialize (HE ltac:(lia) H).
    destruct (kheap_extend hhdm sz (with_lock true s)) as [s2|m| | |]; cbn [mbind outcome_bind]; try contradiction.
    + destruct HE as (b & Hb & Hfree & Hsz & _). set (s3 := with_lock _ s2).
      assert (kheap_inv s3 (l ++ [b])) as H3 by now split.
      rewrite kmalloc_unfold by reflexivity.
      destruct (kmalloc_walk_full fuel sz s3 (l ++ [b])) as ([o s4] & E' & Ho).
      { change (2 ^ 42) with 4398046511104. lia. } { exact H3. } { rewrite length_app. cbn. lia. }
      cbv zeta in *. rewrite A2 in *. cbn [Z.eqb negb] in *. rewrite E'. cbn [mbind outcome_bind].
      destruct o as [p|].
      * destruct Ho as (l' & H' & Ha). exists l'. split; [exact H'|].
        apply (allocated_weaken size sz l b); auto. lia.
      * exfalso. destruct Ho as [_ Ho]. apply (Ho b); [apply elem_of_app; right; now apply list_elem_of_singleton|].
        now split.
    + split; [|exact HE]. intros b Hb [F1 F2]. apply (Hno b Hb). split; [exact F1|].
      (* sizes of blocks are multiples of 16 *)
      destruct H as (_ & _ & _ & _ & _ & H6 & _). rewrite Forall_forall in H6.
      destruct (H6 b Hb) as (_ & _ & _ & M & _). revert A1 A2 F2 M. clear. intros. dm.
Qed.

(** *** Release *)

Definition freed (b : block) (l l' : list block) : Prop := live l ≡ₚ b :: live l'.

Lemma live_cons b l : live (b :: l) = if b_free b then live l else b :: live l.
Proof. unfold live. cbn. now destruct (b_free b). Qed.

Lemma adjacent_spec s l b c r :
  heap_shape s (l ++ b :: c :: r) ->
  adjacent (hdrs s) (b_addr b) (b_addr c) = (b_end b =? b_addr c).
Proof.
  intros H. destruct (shape_block s l b (c :: r) H) as (Hh & _ & B1 & B2 & B3 & _).
  unfold adjacent, b_end. rewrite Hh. cbn [h_size]. unfold HDR in *.
  rewrite (wrap_small 64 (b_addr b + b_size b)), wrap_small by lia. f_equal. lia.
Qed.

(** First step: [h] absorbs the block after it when that is free and adjacent. *)
Lemma kmfree_next_spec s l b r :
  heap_shape s (l ++ b :: r) -> b_free b = true ->
  let s' := coalesce_next (b_addr b) s in
  exists b' r', heap_shape s' (l ++ b' :: r') /\ b_addr b' = b_addr b /\ b_free b' = true /\
    live r' = live r /\ kheapLock s' = kheapLock s.
Proof.
  intros H Hb. destruct (shape_block s l b r H) as (Hh & _ & B1 & _). cbv zeta. unfold coalesce_next. rewrite Hh. cbn [h_next]. destruct r as [|c r]; cbn [first_addr].
  - exists b, []. splits; auto.
  - assert (heap_shape s ((l ++ [b]) ++ c :: r)) as H' by now rewrite <- app_assoc.
    destruct (shape_block s _ c r H') as (Hh' & _ & C1 & _).
    rewrite (proj2 (Z.eqb_neq (b_addr c) 0)), Hh', is_free_flag, (adjacent_spec s l b c r H) by lia.
    cbn [negb andb]. destruct (b_free c) eqn:Ec; cbn [andb]; [|exists b, (c :: r); splits; auto].
    destruct (Z.eqb_spec (b_end b) (b_addr c)) as [Ea|_]; [|exists b, (c :: r); splits; auto].
    eexists _, r. split; [exact (absorb_spec s l b c r H Ea)|].
    rewrite live_cons, Ec. splits; auto. apply absorb_fields.
Qed.

(** Second step: the block before [h] absorbs it when that is free and adjacent. *)
Lemma kmfree_prev_spec s l b r :
  heap_shape s (l ++ b :: r) -> b_free b = true ->
  let s' := coalesce_prev (b_addr b) s in
  exists l', heap_shape s' l' /\ live l' = live l ++ live r /\ kheapLock s' = kheapLock s.
Proof.
  intros H Hb. destruct (shape_block s l b r H) as (Hh & _ & B1 & _). cbv zeta. unfold coalesce_prev. rewrite Hh. cbn [h_prev].
  assert (live (l ++ b :: r) = live l ++ live r) as El by (rewrite live_app, live_cons, Hb; reflexivity).
  destruct l as [|c l _] using rev_ind; [exists (b :: r); splits; auto|].
  rewrite last_addr_app. cbn [last_addr].
  assert (heap_shape s (l ++ c :: b :: r)) as H' by now rewrite <- app_assoc in H.
  destruct (shape_block s l c (b :: r) H') as (Hh' & _ & C1 & _).
  rewrite (proj2 (Z.eqb_neq (b_addr c) 0)), Hh', is_free_flag, (adjacent_spec s l c b r H') by lia.
  cbn [negb andb]. destruct (b_free c) eqn:Ec; cbn [andb]; [|exists ((l ++ [c]) ++ b :: r); splits; auto].
  destruct (Z.eqb_spec (b_end c) (b_addr b)) as [Ea|_]; [|exists ((l ++ [c]) ++ b :: r); splits; auto].
  eexists. splits; [exact (absorb_spec s l c b r H' Ea)| |apply absorb_fields].
  rewrite !live_app, !live_cons, Ec. cbn [b_free]. now rewrite app_nil_r.
Qed.

Lemma kmfree_cases s l b :
  kheap_inv s l -> b ∈ l -> b_free b = false ->
  Returns (kmfree (b_addr b + HDR) s) (fun s' => exists l', kheap_inv s' l' /\ freed b l l').
Proof.
  intros [H L] Hin Hb. apply list_elem_of_split in Hin as (l1 & r & ->).
  destruct (shape_block s l1 b r H) as (Hh & _ & B1 & B2 & B3 & _).
  unfold kmfree. rewrite L. unfold HDR in *.
  rewrite (proj2 (Z.eqb_neq (b_addr b + 32) 0)) by lia. cbn [acquireLock mbind outcome_bind].
  rewrite (Z.add_simpl_r (b_addr b) 32), wrap_small by lia.
  cbn [hdrs with_lock]. set (s1 := with_hdrs _ _).
  assert (heap_shape s1 (l1 ++ mk_block (b_addr b) (b_size b) true :: r)) as H1.
  { apply (retag_spec (with_lock true s)); [exact H|]. rewrite Hh. unfold flag_of. cbn. now rewrite Hb. }
  destruct (kmfree_next_spec s1 l1 _ r H1 eq_refl) as (b2 & r2 & H2 & E2 & F2 & L2 & K2).
  cbv zeta in *. cbn [b_addr] in *.
  destruct (kmfree_prev_spec _ l1 b2 r2 H2 F2) as (l3 & H3 & L3 & K3).
  cbv zeta in *. rewrite E2 in *.
  apply Returns_ret. exists l3. split; [split; [exact H3|reflexivity]|].
  unfold freed. rewrite L3, L2, live_app, live_cons, Hb. symmetry. apply Permutation_middle.
Qed.

(** *** Initialisation *)

Lemma kheap_init_cases s :
  pa_ok (pages s) -> kheapLock s = false ->
  0 < hhdm -> hhdm mod PAGE_SIZE = 0 -> hhdm + pa_pages (pages s) * PAGE_SIZE < 2 ^ 64 ->
  match kheap_init hhdm s with
  | Ret s' => exists b, kheap_inv s' [b] /\ b_free b = true /\
                b_size b = KHEAP_INIT_PAGES * PAGE_SIZE - HDR
  | Panic _ => forall q, ~ free_run (pages s) q KHEAP_INIT_PAGES
  | _ => False
  end.
Proof.
  intros Hp L H9 H10 H11. unfold kheap_init.
  pose proof (pa_alloc_spec KHEAP_INIT_PAGES (pages s) ltac:(now split) Hp) as HA.
  destruct (pa_alloc KHEAP_INIT_PAGES (pages s)) as [[v p']|m| | |]; cbn [mbind outcome_bind];
    try contradiction; [|exact HA].
  destruct HA as (q & -> & (R1 & R2 & R3) & P1 & P2 & P3 & P4).
  unfold PAGE_SIZE, HDR, KHEAP_INIT_PAGES in *.
  rewrite (wrap_small 64 (q * 4096 + hhdm)) by lia.
  exists (mk_block (q * 4096 + hhdm) (25000 * 4096 - 32) true). splits; try reflexivity.
  split; [|exact L]. unfold heap_shape. cbn [pages hdrs kh_start kh_end kheapSize]. rewrite P2.
  splits; auto; try reflexivity.
  - cbn [seg]. rewrite upd_eq. now split.
  - cbn. auto.
  - constructor; [|constructor]. unfold block_ok, b_end, HDR, PAGE_SIZE. cbn [b_addr b_size].
    rewrite P2. splits; try lia; try dm. intros x Hx. rewrite P4.
    assert (q <= (x - hhdm) / 4096 < q + 25000) by dm. zcmp; simpl; easy || lia.
Qed.

(** The heap size counter never wraps around: it is the size of the blocks. *)
Lemma kheapSize_total s l : heap_shape s l -> kheapSize s = total l.
Proof.
  intros (H1 & H2 & H3 & H4 & H5 & H6 & H7 & H8 & H9 & H10 & H11). rewrite H7.
  rewrite Forall_forall in H6. pose proof (pa_pages_bound _ H8) as Hp. unfold PAGE_SIZE in *.
  assert (0 <= total l) as H0.
  { pose proof (total_count l ltac:(intros b Hb; apply H6, Hb)) as H. unfold HDR in H. lia. }
  apply wrap_small. split; [exact H0|].
  enough (total l <= hhdm + pa_pages (pages s) * 4096 - hhdm) by lia.
  apply total_bound; [exact H5|lia|]. intros b Hb.
  destruct (H6 b Hb) as (B1 & _ & B3 & _ & B5 & _). unfold PAGE_SIZE in B5. lia.
Qed.

(** Enough fuel for the list walk, read off the size counter. *)
Definition heap_fuel s : nat := Z.to_nat (kheapSize s / HDR + 2).

Lemma heap_fuel_enough s l : heap_shape s l -> (S (length l) < heap_fuel s)%nat.
Proof.
  intros H. unfold heap_fuel. rewrite (kheapSize_total s l H).
  destruct H as (_ & _ & _ & _ & _ & H6 & _). rewrite Forall_forall in H6.
  pose proof (total_count l ltac:(intros b Hb; apply H6, Hb)) as H. unfold HDR in *.
  assert (Z.of_nat (length l) <= total l / 32) by dm. lia.
Qed.
End Invariant.

(** ** The theorems *)

(** A heap of one page over a physical allocator of eight pages. *)
Definition HHDM : Z := 18446603336221196288.

Definition heap_demo_block : block := mk_block HHDM 4064 true.

Definition heap_demo : kheap_state pmm_state :=
  mk_kheap (upd (fun _ => mk_hdr 0 0 0 0) HHDM (mk_hdr 4064 KHEAP_FLAGS_FREE 0 0))
    HHDM HHDM 4096 false
    (mk_pmm (fun i => if i =? 0 then 128 else 0) 0 1 7 1 8 false (fun _ => 0)).

Lemma heap_demo_inv : kheap_inv HHDM heap_demo [heap_demo_block].
Proof.
  split; [|reflexivity]. unfold heap_shape. splits; try reflexivity; try discriminate.
  - split; [reflexivity|exact I].
  - split; [constructor|exact I].
  - constructor; [|constructor]. unfold block_ok. splits;
      [vm_compute; discriminate|vm_compute; reflexivity|vm_compute; discriminate|vm_compute; reflexivity
      |vm_compute; discriminate|].
    intros x Hx. unfold b_end, heap_demo_block, HDR, HHDM in Hx. cbn [b_addr b_size] in Hx.
    assert ((x - HHDM) / PAGE_SIZE = 0) as -> by (unfold HHDM, PAGE_SIZE; dm). reflexivity.
  - split; [|reflexivity]. unfold pmm_wf. cbn. splits; try lia. intros i. destruct (i =? 0); lia.
Qed.

(** C2: [kmalloc] refines "one more live area": from a heap whose blocks are [l],
    with fuel for the list and one extension, it returns a pointer to a block that
    is at least as large as asked for; the live blocks are exactly the old ones and
    the new one, and the invariant (links, disjointness, accounting, lock) holds
    again.  It panics only when no block fits and the page allocator has no run of
    free pages long enough; it never deadlocks and two calls deep is enough. *)
Theorem kmalloc_correct {P} `{PageAllocatorLaws P} hhdm d fuel size (s : kheap_state P) l :
  0 <= size < 2 ^ 40 -> kheap_inv hhdm s l -> (S (length l) < fuel)%nat ->
  match kmalloc hhdm (S (S d)) fuel size s with
  | Ret (p, s') => exists l', kheap_inv hhdm s' l' /\
      exists b, p = b_addr b + HDR /\ size <= b_size b /\ b_free b = false /\ b ∈ l' /\
        live l' ≡ₚ b :: live l
  | Panic _ => (forall b, b ∈ l -> b_free b = true -> b_size b < size) /\
      forall q, ~ free_run (pages s) q (extend_pages (ALIGN_UP size 16))
  | _ => False
  end.
Proof.
  intros Hs Hi Hf. pose proof (kmalloc_cases hhdm d fuel size s l Hs Hi Hf) as H1.
  destruct (kmalloc hhdm (S (S d)) fuel size s) as [[p s']|m| | |]; auto.
  destruct H1 as [H1 H2]. split; [|exact H2]. intros b Hb Hfr. specialize (H1 b Hb).
  unfold fits in H1. destruct (Z.lt_ge_cases (b_size b) size); [assumption|tauto].
Qed.

Lemma kmalloc_correct_witness :
  (exists s', kmalloc HHDM 2 5 100 heap_demo = Ret (HHDM + 32, s')) /\
  match kmalloc HHDM 2 5 100 heap_demo with
  | Ret (p, s') => exists l', kheap_inv HHDM s' l' /\
      exists b, p = b_addr b + HDR /\ 100 <= b_size b /\ b_free b = false /\ b ∈ l' /\
        live l' ≡ₚ b :: live [heap_demo_block]
  | Panic _ => (forall b, b ∈ [heap_demo_block] -> b_free b = true -> b_size b < 100) /\
      forall q, ~ free_run (pages heap_demo) q (extend_pages (ALIGN_UP 100 16))
  | _ => False
  end.
Proof.
  split; [eexists; vm_compute; reflexivity|].
  apply (kmalloc_correct HHDM 0 5 100 heap_demo [heap_demo_block]);
    [split; [lia|reflexivity]|exact heap_demo_inv|cbn; lia].
Defined.

(** C3: [kmfree] of a live block returns, drops exactly that block from the live
    ones and leaves a heap that satisfies the invariant, whatever neighbours it
    was coalesced with. *)
Theorem kmfree_correct {P} `{PageAllocatorLaws P} hhdm (s : kheap_state P) l b :
  kheap_inv hhdm s l -> b ∈ l -> b_free b = false ->
  Returns (kmfree (b_addr b + HDR) s) (fun s' =>
    exists l', kheap_inv hhdm s' l' /\ live l ≡ₚ b :: live l').
Proof. apply kmfree_cases. Qed.

Lemma kmfree_correct_witness :
  exists l, Returns (kmalloc HHDM 2 5 100 heap_demo) (fun '(p, s) =>
    kheap_inv HHDM s l /\
    exists b, p = b_addr b + HDR /\
      Returns (kmfree p s) (fun s' => exists l', kheap_inv HHDM s' l' /\ live l ≡ₚ b :: live l')).
Proof.
  pose proof (kmalloc_cases HHDM 0 5 100 heap_demo [heap_demo_block]
    ltac:(split; [lia|reflexivity]) heap_demo_inv ltac:(cbn; lia)) as H.
  destruct (kmalloc HHDM 2 5 100 heap_demo) as [[p s]|m| | |] eqn:E; try contradiction.
  - destruct H as (l & Hi & b & -> & Hsz & Hf & Hin & Hl). exists l. eexists. split; [reflexivity|].
    split; [exact Hi|]. exists b. split; [reflexivity|].
    exact (kmfree_correct HHDM s l b Hi Hin Hf).
  - exfalso. vm_compute in E. discriminate E.
Defined.

(** A request of more than [2 ^ 64 - 16] bytes is rounded up to 0, so [kmalloc]
    answers it as a request for no bytes at all instead of refusing it. *)
Theorem kmalloc_huge_wraps {P} `{PageAllocator P} hhdm d fuel size (s : kheap_state P) :
  2 ^ 64 - 16 < size < 2 ^ 64 -> kmalloc hhdm d fuel size s = kmalloc hhdm d fuel 0 s.
Proof.
  intros Hs. destruct d as [|d]; [reflexivity|]. cbn [kmalloc]. pow2_consts.
  assert ((if negb (size mod 16 =? 0) then ALIGN_UP size 16 else size) = 0) as ->; [|reflexivity].
  assert (size mod 16 <> 0 /\ size + (16 - size mod 16) = 18446744073709551616) as [E1 E2] by (split; dm).
  unfold ALIGN_UP. rewrite (proj2 (Z.eqb_neq _ _) E1), E2. reflexivity.
Qed.

Lemma kmalloc_huge_wraps_witness :
  kmalloc HHDM 2 5 (2 ^ 64 - 1) heap_demo = kmalloc HHDM 2 5 0 heap_demo /\
  exists s', kmalloc HHDM 2 5 (2 ^ 64 - 1) heap_demo = Ret (HHDM + 32, s').
Proof.
  split; [apply (kmalloc_huge_wraps HHDM 2 5 (2 ^ 64 - 1) heap_demo); split; reflexivity|].
  eexists. vm_compute. reflexivity.
Defined.

(** ** Sequences of operations *)

(** One step of a client: an allocation that succeeds, or the release of an area
    that is live.  The areas handed out and not yet returned are kept beside the
    state. *)
Inductive kheap_step {P} `{PageAllocator P} (hhdm : Z) :
    kheap_state P * list (Z * Z) -> kheap_state P * list (Z * Z) -> Prop :=
| step_malloc size p n s s' areas :
    0 <= size < 2 ^ 40 ->
    kmalloc hhdm 2 (heap_fuel s) size s = Ret (p, s') ->
    n = h_size (hdrs s' (p - HDR)) ->
    kheap_step hhdm (s, areas) (s', (p, n) :: areas)
| step_free p n s s' areas areas' :
    areas ≡ₚ (p, n) :: areas' ->
    kmfree p s = Ret s' ->
    kheap_step hhdm (s, areas) (s', areas').

Definition area_of (b : block) : Z * Z := (b_addr b + HDR, b_size b).

Definition client_inv {P} `{PageAllocator P} (hhdm : Z) (c : kheap_state P * list (Z * Z)) : Prop :=
  exists l, kheap_inv hhdm c.1 l /\ c.2 ≡ₚ map area_of (live l).

Section Sequences.
Context {P : Type} `{PA : PageAllocator P} `{PAL : !PageAllocatorLaws P} (hhdm : Z).

Lemma live_elem l b : b ∈ live l <-> b ∈ l /\ b_free b = false.
Proof.
  unfold live. rewrite !list_elem_of_In, List.filter_In. now destruct (b_free b).
Qed.

Lemma kheap_step_inv c c' : client_inv hhdm c -> kheap_step hhdm c c' -> client_inv hhdm c'.
Proof.
  intros (l & Hi & Ha) Hst. destruct Hst as [size p n s s' areas Hs E ->|p n s s' areas areas' Hp E];
    cbn [fst snd] in *.
  - pose proof (kmalloc_cases hhdm 0 (heap_fuel s) size s l Hs Hi
      (heap_fuel_enough hhdm s l (proj1 Hi))) as H. rewrite E in H.
    destruct H as (l' & Hi' & b & -> & _ & _ & Hin & Hl). exists l'. split; [exact Hi'|]. cbn.
    rewrite Hl, Ha. apply list_elem_of_split in Hin as (l1 & r & ->). destruct Hi' as [Hi' _].
    destruct (shape_block hhdm s' l1 b r Hi') as (Hh & _). cbn [map].
    rewrite Z.add_simpl_r, Hh. reflexivity.
  - rewrite Ha in Hp.
    assert ((p, n) ∈ map area_of (live l)) as Hin by (rewrite Hp; apply elem_of_cons; now left).
    apply list_elem_of_fmap in Hin as (b & Eb & Hin). apply live_elem in Hin as [Hin Hf].
    injection Eb as -> ->.
    destruct (kmfree_cases hhdm s l b Hi Hin Hf) as (s1 & E1 & l' & Hi' & Hl).
    rewrite E in E1. injection E1 as <-. exists l'. split; [exact Hi'|]. cbn.
    apply (Permutation_cons_inv (a := area_of b)). unfold freed in Hl. rewrite <- Hp, Hl. reflexivity.
Qed.

Lemma client_areas_apart c x y areas :
  client_inv hhdm c -> c.2 ≡ₚ x :: y :: areas -> apart x y.
Proof.
  intros (l & ((_ & _ & _ & _ & Hp & Hok & _) & _) & Ha) Hc. rewrite Ha in Hc.
  symmetry in Hc. apply Permutation_map_inv in Hc as (bs & E & Hperm).
  destruct bs as [|b1 [|b2 bs]]; try discriminate. injection E as -> -> _.
  assert (forall m, pairwise m -> pairwise (live m)) as Hlive.
  { induction m as [|c0 m IH]; [auto|]. intros [H1 H2]. rewrite live_cons.
    destruct (b_free c0); [auto|]. split; [|auto]. rewrite Forall_forall in *.
    intros d Hd. apply H1. now apply live_elem in Hd as [Hd _]. }
  apply Hlive in Hp. rewrite Hperm in Hp. destruct Hp as [Hp _]. apply Forall_cons in Hp as [Hp _].
  unfold separate, b_end in Hp. unfold apart, area_of, HDR in *. cbn [fst snd]. lia.
Qed.
End Sequences.

(** C4: whatever sequence of successful allocations and releases of live areas a
    client performs on an initialised heap, any two areas it holds have no byte in
    common, every area is 16-byte aligned and not NULL, the size counter is the
    total size of the blocks, and the heap lock is free. *)
Theorem kheap_areas_disjoint {P} `{PageAllocatorLaws P} hhdm (s s' : kheap_state P) areas :
  pa_ok (pages s) -> kheapLock s = false -> 0 < hhdm -> hhdm mod PAGE_SIZE = 0 ->
  hhdm + pa_pages (pages s) * PAGE_SIZE < 2 ^ 64 ->
  kheap_init hhdm s = Ret s' ->
  forall s'', rtc (kheap_step hhdm) (s', []) (s'', areas) ->
    (forall x y rest, areas ≡ₚ x :: y :: rest -> apart x y) /\
    Forall (fun x => 0 < x.1 /\ x.1 mod 16 = 0) areas /\
    (exists l, kheapSize s'' = total l /\ areas ≡ₚ map area_of (live l)) /\
    kheapLock s'' = false.
Proof.
  intros Hp L H1 H2 H3 E s'' R.
  assert (client_inv hhdm (s', [])) as I0.
  { pose proof (kheap_init_cases hhdm s Hp L H1 H2 H3) as Hi. rewrite E in Hi.
    destruct Hi as (b & Hi & Hb & _). exists [b]. split; [exact Hi|]. cbn. now rewrite Hb. }
  assert (client_inv hhdm (s'', areas)) as I.
  { revert I0 R. generalize (s', @nil (Z * Z)) (s'', areas). intros c c' I0 R.
    induction R; eauto using kheap_step_inv. }
  pose proof I as (l & [Hi Lk] & Ha). cbn in Hi, Lk, Ha. splits.
  - intros x y rest. exact (client_areas_apart hhdm (s'', areas) x y rest I).
  - rewrite Ha, Forall_map, Forall_forall. intros b Hb. apply live_elem in Hb as [Hb _].
    destruct Hi as (_ & _ & _ & _ & _ & Hok & _). rewrite Forall_forall in Hok.
    destruct (Hok b Hb) as (B1 & B2 & _). unfold area_of, HDR. cbn. dm.
  - exists l. split; [exact (kheapSize_total hhdm s'' l Hi)|exact Ha].
  - exact Lk.
Qed.

(** 25600 pages of physical memory, all free. *)
Definition heap_boot : kheap_state pmm_state :=
  mk_kheap (fun _ => mk_hdr 0 0 0 0) 0 0 0 false
    (mk_pmm (fun _ => 0) 0 3200 25600 0 25600 false (fun _ => 0)).

Lemma kheap_areas_disjoint_witness :
  exists s' p s'' n,
    kheap_init HHDM heap_boot = Ret s' /\
    rtc (kheap_step HHDM) (s', []) (s'', [(p, n)]) /\
    (forall x y rest, [(p, n)] ≡ₚ x :: y :: rest -> apart x y) /\
    Forall (fun x => 0 < x.1 /\ x.1 mod 16 = 0) [(p, n)] /\
    (exists l, kheapSize s'' = total l /\ [(p, n)] ≡ₚ map area_of (live l)) /\
    kheapLock s'' = false.
Proof.
  assert (pa_ok (pages heap_boot)) as Hp by (split; [unfold pmm_wf; cbn; splits; lia|reflexivity]).
  pose proof (kheap_init_cases HHDM heap_boot Hp eq_refl eq_refl eq_refl eq_refl) as Hi.
  destruct (kheap_init HHDM heap_boot) as [s'|m| | |] eqn:E; try contradiction.
  - destruct Hi as (b & Hi & Hb & Hsz).
    pose proof (kmalloc_cases HHDM 0 (heap_fuel s') 100 s' [b] ltac:(split; [lia|reflexivity]) Hi
      (heap_fuel_enough HHDM s' [b] (proj1 Hi))) as Hm.
    destruct (kmalloc HHDM 2 (heap_fuel s') 100 s') as [[p s'']|m| | |] eqn:Em; try contradiction.
    + assert (rtc (kheap_step HHDM) (s', []) (s'', [(p, h_size (hdrs s'' (p - HDR)))])) as R.
      { eapply rtc_once, step_malloc; [|exact Em|reflexivity]. split; [lia|reflexivity]. }
      exists s', p, s'', (h_size (hdrs s'' (p - HDR))). split; [reflexivity|]. split; [exact R|].
      exact (kheap_areas_disjoint HHDM heap_boot s' _ Hp eq_refl eq_refl eq_refl eq_refl E s'' R).
    + exfalso. destruct Hm as [Hm _]. apply (Hm b); [apply elem_of_cons; now left|].
      split; [exact Hb|]. rewrite Hsz. vm_compute. discriminate.
  - exfalso. apply (Hi 0). unfold free_run. cbn. splits; [lia|vm_compute; discriminate|].
    intros i _. unfold page_used. cbn. apply Z.bits_0.
Defined.

(** ** The interface of the heap, discharged *)

Section Interface.
Context {P : Type} `{PA : PageAllocator P} `{PAL : !PageAllocatorLaws P} (hhdm : Z).

#[export] Instance kheap_heap : KernelHeap (kheap_state P) := {
  kh_malloc := fun size s => kmalloc hhdm 2 (heap_fuel s) size s;
  kh_free := kmfree;
  kh_ok := fun s => exists l, kheap_inv hhdm s l;
  kh_live := fun s areas => client_inv hhdm (s, areas)
}.

#[export] Instance kheap_heap_laws : KernelHeapLaws (kheap_state P).
Proof.
  split.
  - intros size s areas Hs _ I. pose proof I as (l & Hi & Ha). cbn in Hi, Ha.
    change (kh_malloc size s) with (kmalloc hhdm 2 (heap_fuel s) size s).
    pose proof (kmalloc_cases hhdm 0 (heap_fuel s) size s l Hs Hi
      (heap_fuel_enough hhdm s l (proj1 Hi))) as H.
    destruct (kmalloc hhdm 2 (heap_fuel s) size s) as [[p s']|m| | |] eqn:E; auto.
    destruct H as (l' & Hi' & b & -> & Hsz & Hf & Hin & Hl).
    exists (b_size b). assert (client_inv hhdm (s', (b_addr b + HDR, b_size b) :: areas)) as I'.
    { exists l'. split; [exact Hi'|]. cbn. rewrite Hl, Ha. reflexivity. }
    pose proof Hi' as [(_ & _ & _ & _ & _ & Hok & _ & _ & H9 & _ & H11) _].
    rewrite Forall_forall in Hok. destruct (block_ok_bounds hhdm _ _ (Hok b Hin) H9 H11) as (B1 & B2 & B3).
    destruct (Hok b Hin) as (_ & B4 & _). unfold HDR in *. splits; try lia; auto; try dm.
    + now exists l'.
    + apply Forall_forall. intros y Hy. apply list_elem_of_split in Hy as (a1 & a2 & ->).
      apply (client_areas_apart hhdm _ _ _ (a1 ++ a2) I'). cbn.
      apply perm_skip. symmetry. apply Permutation_middle.
  - intros a n areas s _ (l & Hi & Ha). cbn in Hi, Ha.
    assert ((a, n) ∈ map area_of (live l)) as Hin by (rewrite <- Ha; apply elem_of_cons; now left).
    apply list_elem_of_fmap in Hin as (b & Eb & Hin). apply live_elem in Hin as [Hin Hf].
    injection Eb as -> ->. cbn.
    eapply Returns_mono; [exact (kmfree_cases hhdm s l b Hi Hin Hf)|].
    intros s' (l' & Hi' & Hl). split; [now exists l'|]. exists l'. split; [exact Hi'|]. cbn.
    unfold freed in Hl. apply (Permutation_cons_inv (a := area_of b)). rewrite Hl in Ha. exact Ha.
  - intros s a1 a2 (l & Hi & Ha) Hp. exists l. split; [exact Hi|]. cbn in *. now rewrite <- Hp.
Qed.
End Interface.
