(* ===== verification/Paging.v ===== *)
(** * Page tables ([kernel/arch/x86_64/mm.c], [kernel/mem/vmm/paging.c])

    Four-level x86_64 page tables kept in physical memory.  A table is named by
    its physical address; the code keeps the same address plus the direct-map
    offset and subtracts the offset again wherever the physical address is
    needed, so the offset does not appear here.  An entry is the 64-bit word at
    [table + 8 * index], with the bit fields of [page_table_entry_t].  Pages and
    memory come from the interface [PageAllocator].

    [xlate] is the walk the processor does.  The theorems show that mapping sets
    the translation of exactly one page and never disturbs another, whichever
    tables it has to create, that unmapping removes exactly one translation, and
    that the query functions agree with the walk. *)

From S2P Require Import Prelude Interfaces MemMap Pmm.
#[local] Open Scope Z_scope.

(** ** Entries ([page_table_entry_t]) *)

Definition VMM_PRESENT : Z := 1.
Definition VMM_RW : Z := 2.
Definition VMM_USER : Z := 4.
Definition VMM_WRITE_THROUGH : Z := 8.
Definition VMM_CACHE_DISABLE : Z := 16.
Definition VMM_ACCESSED : Z := 32.
Definition VMM_EXEC_DISABLE : Z := 2 ^ 63.

Definition pte_present (e : Z) : bool := Z.testbit e 0.
Definition pte_addr (e : Z) : Z := Z.land (Z.shiftr e 12) (Z.ones 51).

Definition pte_set_bit (e i : Z) (b : bool) : Z := if b then Z.setbit e i else Z.clearbit e i.
Definition pte_set_addr (e a : Z) : Z :=
  Z.lor (Z.ldiff e (Z.shiftl (Z.ones 51) 12)) (Z.shiftl (Z.land a (Z.ones 51)) 12).

(** [flags & bit] as a condition. *)
Definition flag_on (flags bit : Z) : bool := negb (Z.land flags bit =? 0).

(** The assignments to a leaf entry, in [arch_mm_map] after [addr] and in
    [arch_mm_set_flags]; [flags] is a [uint32_t]. *)
Definition leaf_flags (e flags : Z) : Z :=
  let e := pte_set_bit e 0 (flag_on flags VMM_PRESENT) in
  let e := pte_set_bit e 1 (flag_on flags VMM_RW) in
  let e := pte_set_bit e 2 (flag_on flags VMM_USER) in
  let e := pte_set_bit e 3 (flag_on flags VMM_WRITE_THROUGH) in
  let e := pte_set_bit e 4 (flag_on flags VMM_CACHE_DISABLE) in
  let e := pte_set_bit e 5 (flag_on flags VMM_ACCESSED) in
  let e := pte_set_bit e 7 false in
  pte_set_bit e 63 (flag_on flags VMM_EXEC_DISABLE).

(** The table an entry points to. *)
Definition pte_table (e : Z) : Z := u64 (Z.shiftl (pte_addr e) 12).

(** ** Walking *)

(** [mm_indexer]: [Pi], [PTi], [PDi], [PDPi]. *)
Definition mm_indexer (virtAddr : Z) : Z * Z * Z * Z :=
  let v := Z.shiftr virtAddr 12 in
  let Pi := Z.land v 511 in
  let v := Z.shiftr v 9 in
  let PTi := Z.land v 511 in
  let v := Z.shiftr v 9 in
  let PDi := Z.land v 511 in
  let v := Z.shiftr v 9 in
  let PDPi := Z.land v 511 in
  (Pi, PTi, PDi, PDPi).

Definition entry_at (t i : Z) : Z := t + 8 * i.

Section Mm.
Context {P : Type} `{PA : PageAllocator P}.
Implicit Types (p : P).

(** [memset(table, 0, sizeof(page_table_t))]. *)
Fixpoint zero_words (n : nat) (a : Z) p : P :=
  match n with
  | O => p
  | S n' => zero_words n' (a + 8) (pa_write a 0 p)
  end.

Definition zero_table (t : Z) p : P := zero_words 512 t p.

Definition arch_mm_init p : outcome (Z * P) :=
  '(t, p) ← pa_alloc 1 p;
  Ret (t, zero_table t p).

(** One level of the descent of [arch_mm_map]: the next table, created when the
    entry is not present. *)
Definition next_table (t i flags : Z) p : outcome (Z * P) :=
  let e := pa_mem p (entry_at t i) in
  if negb (pte_present e) then
    '(n, p) ← pa_alloc 1 p;
    let p := zero_table n p in
    let e := pte_set_addr e (Z.shiftr n 12) in
    let e := pte_set_bit e 0 true in
    let e := pte_set_bit e 1 true in
    let e := pte_set_bit e 2 (flag_on flags VMM_USER) in
    Ret (n, pa_write (entry_at t i) e p)
  else Ret (pte_table e, p).

Definition arch_mm_map (pt physAddr virtAddr flags : Z) p : outcome P :=
  let '(Pi, PTi, PDi, PDPi) := mm_indexer virtAddr in
  '(PDP, p) ← next_table pt PDPi flags p;
  '(PD, p) ← next_table PDP PDi flags p;
  '(PT, p) ← next_table PD PTi flags p;
  let e := pa_mem p (entry_at PT Pi) in
  let e := pte_set_addr e (Z.shiftr physAddr 12) in
  Ret (pa_write (entry_at PT Pi) (leaf_flags e flags) p).

(** The descent of [arch_mm_unmap] and [arch_mm_set_flags], which does not look
    at the present bits. *)
Definition leaf_location (pt virtAddr : Z) p : Z :=
  let '(Pi, PTi, PDi, PDPi) := mm_indexer virtAddr in
  let PDP := pte_table (pa_mem p (entry_at pt PDPi)) in
  let PD := pte_table (pa_mem p (entry_at PDP PDi)) in
  let PT := pte_table (pa_mem p (entry_at PD PTi)) in
  entry_at PT Pi.

Definition arch_mm_unmap (pt virtAddr : Z) p : P :=
  let a := leaf_location pt virtAddr p in
  let e := pa_mem p a in
  let e := pte_set_bit e 0 false in
  let e := pte_set_addr e 0 in
  pa_write a e p.

Definition arch_mm_set_flags (pt virtAddr flags : Z) p : P :=
  let a := leaf_location pt virtAddr p in
  pa_write a (leaf_flags (pa_mem p a) flags) p.

(** [!currentEntry.present && currentEntry.addr == 0]. *)
Definition pte_empty (e : Z) : bool := negb (pte_present e) && (pte_addr e =? 0).

Definition arch_mm_is_page_free (pt virtAddr : Z) p : bool :=
  let '(Pi, PTi, PDi, PDPi) := mm_indexer virtAddr in
  let e := pa_mem p (entry_at pt PDPi) in
  if pte_empty e then true else
  let PDP := pte_table e in
  let e := pa_mem p (entry_at PDP PDi) in
  if pte_empty e then true else
  let PD := pte_table e in
  let e := pa_mem p (entry_at PD PTi) in
  if pte_empty e then true else
  let PT := pte_table e in
  let e := pa_mem p (entry_at PT Pi) in
  if pte_empty e then true else false.

Definition arch_mm_virt_to_phys (pt virtAddr : Z) p : Z :=
  let '(Pi, PTi, PDi, PDPi) := mm_indexer virtAddr in
  let e := pa_mem p (entry_at pt PDPi) in
  if pte_empty e then 0 else
  let PDP := pte_table e in
  let e := pa_mem p (entry_at PDP PDi) in
  if pte_empty e then 0 else
  let PD := pte_table e in
  let e := pa_mem p (entry_at PD PTi) in
  if pte_empty e then 0 else
  let PT := pte_table e in
  let e := pa_mem p (entry_at PT Pi) in
  if pte_empty e then 0 else pte_table e.

(** ** The reference: tables as a tree *)

(** The table reached from [t] along the indices [path], through present entries. *)
Fixpoint tab p (t : Z) (path : list Z) : option Z :=
  match path with
  | [] => Some t
  | i :: path' =>
      let e := pa_mem p (entry_at t i) in
      if pte_present e then tab p (pte_table e) path' else None
  end.

(** The indices of an address, most significant first: three for the tables. *)
Definition path_of (virtAddr : Z) : list Z :=
  let '(Pi, PTi, PDi, PDPi) := mm_indexer virtAddr in [PDPi; PDi; PTi].

Definition leaf_index (virtAddr : Z) : Z := Z.land (Z.shiftr virtAddr 12) 511.

(** The walk of the processor: the leaf entry, when everything is present. *)
Definition xlate p (pt virtAddr : Z) : option Z :=
  match tab p pt (path_of virtAddr) with
  | Some t =>
      let e := pa_mem p (entry_at t (leaf_index virtAddr)) in
      if pte_present e then Some e else None
  | None => None
  end.

(** A path of the tree: at most three indices, each of them below 512. *)
Definition good_path (path : list Z) : Prop :=
  (length path <= 3)%nat /\ Forall (fun i => 0 <= i < 512) path.

(** The tables under [pt] form a tree of distinct allocated pages, and an entry
    that is not present holds no address. *)
Definition pt_inv p (pt : Z) : Prop :=
  pa_ok p /\
  (forall path t, good_path path -> tab p pt path = Some t ->
     t mod PAGE_SIZE = 0 /\ 0 <= t < 2 ^ 63 /\ pa_used p (t / PAGE_SIZE) = true) /\
  (forall path1 path2 t, good_path path1 -> good_path path2 ->
     tab p pt path1 = Some t -> tab p pt path2 = Some t -> path1 = path2) /\
  (forall path t i, good_path path -> tab p pt path = Some t -> 0 <= i < 512 ->
     pte_present (pa_mem p (entry_at t i)) = false -> pte_addr (pa_mem p (entry_at t i)) = 0).
End Mm.

(** ** Bit fields of an entry *)

Lemma pte_addr_bits e k :
  0 <= k -> Z.testbit (pte_addr e) k = Z.testbit e (k + 12) && (k <? 51).
Proof.
  intros Hk. unfold pte_addr. rewrite Z.land_spec, Z.shiftr_spec by lia.
  destruct (Z.ltb_spec k 51); [rewrite Z.ones_spec_low by lia|rewrite Z.ones_spec_high by lia]; reflexivity.
Qed.

Lemma pte_set_bit_bits e i b k :
  0 <= i -> 0 <= k -> Z.testbit (pte_set_bit e i b) k = if i =? k then b else Z.testbit e k.
Proof.
  intros Hi Hk. unfold pte_set_bit. destruct b; [rewrite Z.setbit_eqb by lia|rewrite Z.clearbit_eqb];
    destruct (i =? k); simpl; now rewrite ?andb_true_r, ?andb_false_r.
Qed.

Lemma pte_set_addr_bits e a k :
  0 <= k -> Z.testbit (pte_set_addr e a) k =
    if (12 <=? k) && (k <? 63) then Z.testbit a (k - 12) else Z.testbit e k.
Proof.
  intros Hk. unfold pte_set_addr.
  rewrite Z.lor_spec, Z.ldiff_spec, !Z.shiftl_spec, Z.land_spec by lia.
  destruct (Z.leb_spec 12 k); simpl.
  - destruct (Z.ltb_spec k 63).
    + rewrite Z.ones_spec_low by lia. simpl. now rewrite andb_false_r, andb_true_r.
    + rewrite Z.ones_spec_high by lia. simpl. now rewrite !andb_false_r, orb_false_r, andb_true_r.
  - rewrite !(Z.testbit_neg_r _ (k - 12)) by lia. simpl. now rewrite andb_true_r, orb_false_r.
Qed.

Lemma pte_present_set_bit e i b : 0 < i -> pte_present (pte_set_bit e i b) = pte_present e.
Proof.
  intros H. unfold pte_present. rewrite pte_set_bit_bits by lia. now rewrite (proj2 (Z.eqb_neq i 0)) by lia.
Qed.

Lemma pte_present_set_bit0 e b : pte_present (pte_set_bit e 0 b) = b.
Proof. unfold pte_present. now rewrite pte_set_bit_bits. Qed.

Lemma pte_present_set_addr e a : pte_present (pte_set_addr e a) = pte_present e.
Proof. unfold pte_present. now rewrite pte_set_addr_bits. Qed.

Lemma pte_addr_set_bit e i b : 0 <= i -> i < 12 \/ 63 <= i -> pte_addr (pte_set_bit e i b) = pte_addr e.
Proof.
  intros H0 H. apply Z.bits_inj'. intros k Hk. rewrite !pte_addr_bits, pte_set_bit_bits by lia.
  destruct (Z.ltb_spec k 51); [|now rewrite !andb_false_r].
  now rewrite (proj2 (Z.eqb_neq i (k + 12))) by lia.
Qed.

Lemma pte_addr_set_addr e a : pte_addr (pte_set_addr e a) = Z.land a (Z.ones 51).
Proof.
  apply Z.bits_inj'. intros k Hk. rewrite pte_addr_bits, pte_set_addr_bits, Z.land_spec by lia.
  destruct (Z.ltb_spec k 51).
  - rewrite Z.ones_spec_low by lia. rewrite (proj2 (Z.leb_le 12 (k + 12))), (proj2 (Z.ltb_lt (k + 12) 63)) by lia.
    simpl. now rewrite Z.add_simpl_r.
  - rewrite Z.ones_spec_high by lia. now rewrite !andb_false_r.
Qed.

Create Rewrite HintDb pte.
#[export] Hint Rewrite pte_present_set_bit0 pte_present_set_addr pte_addr_set_addr : pte.
#[export] Hint Rewrite pte_present_set_bit pte_addr_set_bit using lia : pte.

(** [flags] has 32 bits, so the execute-disable bit is never on. *)
Lemma exec_disable_off flags : 0 <= flags < 2 ^ 32 -> flag_on flags VMM_EXEC_DISABLE = false.
Proof.
  intros H. unfold flag_on, VMM_EXEC_DISABLE.
  assert (Z.land flags (2 ^ 63) = 0) as ->; [|reflexivity].
  apply Z.bits_inj'. intros k Hk. rewrite Z.land_spec, Z.bits_0, testbit_pow2 by lia.
  destruct (Z.eqb_spec 63 k) as [<-|]; [|apply andb_false_r].
  rewrite (testbit_high 32 flags 63) by lia. reflexivity.
Qed.

Lemma leaf_flags_present e flags : pte_present (leaf_flags e flags) = flag_on flags VMM_PRESENT.
Proof. unfold leaf_flags. now autorewrite with pte. Qed.

Lemma leaf_flags_addr e flags : pte_addr (leaf_flags e flags) = pte_addr e.
Proof. unfold leaf_flags. now autorewrite with pte. Qed.

Lemma pte_table_range e : 0 <= pte_table e < 2 ^ 63 /\ pte_table e mod 4096 = 0.
Proof.
  unfold pte_table. assert (0 <= pte_addr e < 2 ^ 51) as H.
  { unfold pte_addr. rewrite Z.land_ones by lia. apply Z.mod_pos_bound. lia. }
  rewrite Z.shiftl_mul_pow2 by lia. change (2 ^ 51) with 2251799813685248 in H. pow2_consts.
  rewrite wrap_small by (pow2_consts; lia). split; [lia|]. now rewrite Z.mod_mul.
Qed.

(** The table of an entry made to point to page [n]. *)
Lemma pte_table_set n e :
  n mod 4096 = 0 -> 0 <= n < 2 ^ 63 -> pte_addr e = Z.land (Z.shiftr n 12) (Z.ones 51) -> pte_table e = n.
Proof.
  intros Hm Hn E. unfold pte_table. rewrite E, Z.land_ones, Z.shiftr_div_pow2, Z.shiftl_mul_pow2 by lia.
  change (2 ^ 51) with 2251799813685248. pow2_consts.
  rewrite Z.mod_small by dm. rewrite wrap_small; [dm|]. pow2_consts. dm.
Qed.

(** ** Indices of an address *)

(** The page number within the 48-bit space. *)
Definition vpage (virtAddr : Z) : Z := virtAddr / 4096 mod 2 ^ 36.

Lemma mm_indexer_eq v :
  0 <= v ->
  mm_indexer v = (vpage v mod 512, vpage v / 512 mod 512, vpage v / 262144 mod 512, vpage v / 134217728).
Proof.
  intros Hv. unfold mm_indexer, vpage. change 511 with (Z.ones 9).
  rewrite !Z.land_ones, !Z.shiftr_div_pow2 by lia. change (2 ^ 36) with 68719476736. pow2_consts.
  change (2 ^ 9) with 512. generalize (v / 4096). intros x. rewrite !Z.div_div by lia.
  apply f_equal2; [apply f_equal2; [apply f_equal2|]|]; dm.
Qed.

Lemma indices_inj v v' :
  0 <= v -> 0 <= v' -> path_of v = path_of v' -> leaf_index v = leaf_index v' -> vpage v = vpage v'.
Proof.
  intros H H' E1 E2. unfold path_of in E1. rewrite !mm_indexer_eq in E1 by assumption.
  assert (forall u, 0 <= u -> leaf_index u = vpage u mod 512) as L.
  { intros u Hu. pose proof (mm_indexer_eq u Hu) as M. unfold mm_indexer in M. injection M as M _ _ _. exact M. }
  rewrite !L in E2 by assumption. injection E1 as E3 E4 E5. revert E2 E3 E4 E5. clear.
  generalize (vpage v) (vpage v'). intros a b. dm.
Qed.

Lemma path_of_good v : 0 <= v -> good_path (path_of v) /\ length (path_of v) = 3%nat /\ 0 <= leaf_index v < 512.
Proof.
  intros Hv. pose proof (mm_indexer_eq v Hv) as M. unfold path_of, good_path.
  assert (0 <= vpage v < 68719476736) as Hp by (unfold vpage; apply Z.mod_pos_bound; reflexivity).
  unfold leaf_index. unfold mm_indexer in *. injection M as M1 M2 M3 M4.
  rewrite M1, M2, M3, M4. clear M1 M2 M3 M4. revert Hp. generalize (vpage v). intros x Hp.
  splits; [cbn; lia| |reflexivity|dm|dm].
  apply Forall_cons; split; [dm|]. apply Forall_cons; split; [dm|].
  apply Forall_cons; split; [dm|]. apply Forall_nil. exact I.
Qed.

(** ** Changes to the tree *)

Section Tree.
Context {P : Type} `{PA : PageAllocator P} `{PAL : !PageAllocatorLaws P}.
Implicit Types (p : P).

Lemma zero_words_spec n : forall a p,
  (forall x, pa_mem (zero_words n a p) x =
     if (a <=? x) && (x <? a + 8 * Z.of_nat n) && ((x - a) mod 8 =? 0) then 0 else pa_mem p x) /\
  pa_used (zero_words n a p) = pa_used p /\ pa_pages (zero_words n a p) = pa_pages p /\
  (pa_ok p -> pa_ok (zero_words n a p)).
Proof.
  induction n as [|n IH]; intros a p; cbn [zero_words].
  - splits; auto. intros x. now destruct (Z.leb_spec a x), (Z.ltb_spec x (a + 8 * Z.of_nat 0)); simpl; try lia.
  - destruct (IH (a + 8) (pa_write a 0 p)) as (I1 & I2 & I3 & I4).
    rewrite I2, I3, pa_write_used, pa_write_pages. splits; auto using pa_write_ok.
    intros x. rewrite I1, pa_write_mem.
    destruct (Z.eqb_spec x a) as [->|Hne].
    + rewrite Z.sub_diag. zcmp; simpl; easy || lia.
    + assert ((x - (a + 8)) mod 8 = (x - a) mod 8) as -> by dm.
      destruct (Z.eqb_spec ((x - a) mod 8) 0); rewrite ?andb_false_r; [|reflexivity].
      rewrite !andb_true_r. zcmp; simpl; easy || (try lia). all: exfalso; dm.
Qed.

(** A fresh, zeroed page. *)
Definition fresh_table p (n : Z) p' : Prop :=
  n mod PAGE_SIZE = 0 /\ 0 <= n < 2 ^ 63 /\ pa_used p (n / PAGE_SIZE) = false /\
  pa_ok p' /\ pa_pages p' = pa_pages p /\
  (forall i, pa_used p' i = if i =? n / PAGE_SIZE then true else pa_used p i) /\
  (forall x, ~ (n <= x < n + PAGE_SIZE) -> pa_mem p' x = pa_mem p x) /\
  (forall i, 0 <= i < 512 -> pa_mem p' (entry_at n i) = 0).

Lemma alloc_table_spec p :
  pa_ok p ->
  match ('(n, p1) ← pa_alloc 1 p; Ret (n, zero_table n p1)) with
  | Ret (n, p') => fresh_table p n p'
  | Panic _ => forall q, ~ free_run p q 1
  | _ => False
  end.
Proof.
  intros Hok. pose proof (pa_alloc_spec 1 p ltac:(split; [lia|reflexivity]) Hok) as H.
  destruct (pa_alloc 1 p) as [[v p1]|m| | |]; cbn [mbind outcome_bind]; try contradiction; [|exact H].
  destruct H as (q & -> & (R1 & R2 & R3) & O1 & P1 & M1 & U1).
  destruct (zero_words_spec 512 (q * PAGE_SIZE) p1) as (Z1 & Z2 & Z3 & Z4).
  pose proof (pa_pages_bound p Hok) as Hb. change (2 ^ 51) with 2251799813685248 in Hb.
  unfold fresh_table, zero_table, PAGE_SIZE in *. rewrite Z.div_mul, Z.mod_mul by easy.
  pow2_consts. splits; auto; try lia.
  - apply R3. lia.
  - intros i. rewrite Z2, U1. zcmp; simpl; easy || lia.
  - intros x Hx. rewrite Z1, M1. zcmp; simpl; easy || lia.
  - intros i Hi. rewrite Z1. unfold entry_at.
    assert ((q * 4096 + 8 * i - q * 4096) mod 8 = 0) as -> by dm. zcmp; simpl; easy || lia.
Qed.

Lemma tab_snoc p path : forall t i,
  tab p t (path ++ [i]) =
    match tab p t path with
    | Some t' => let e := pa_mem p (entry_at t' i) in if pte_present e then Some (pte_table e) else None
    | None => None
    end.
Proof.
  induction path as [|j path IH]; intros t i; cbn [app tab]; [reflexivity|].
  destruct (pte_present _); [apply IH|reflexivity].
Qed.

Lemma good_path_snoc path i :
  good_path (path ++ [i]) -> good_path path /\ (length path <= 2)%nat /\ 0 <= i < 512.
Proof.
  unfold good_path. rewrite length_app, Forall_app, Forall_singleton. cbn. intuition lia.
Qed.

Lemma entry_at_inj t i t' i' :
  t mod PAGE_SIZE = 0 -> t' mod PAGE_SIZE = 0 -> 0 <= i < 512 -> 0 <= i' < 512 ->
  entry_at t i = entry_at t' i' -> t = t' /\ i = i'.
Proof. unfold entry_at, PAGE_SIZE. intros. dm. Qed.

(** A new table below the entry [(path, i)], which was not present. *)
Section NewTable.
Variables (p p1 : P) (pt n i e : Z) (path : list Z) (t : Z).
Hypothesis Hinv : pt_inv p pt.
Hypothesis Hpath : good_path (path ++ [i]).
Hypothesis Ht : tab p pt path = Some t.
Hypothesis Habs : pte_present (pa_mem p (entry_at t i)) = false.
Hypothesis Hfresh : fresh_table p n p1.
Hypothesis He : pte_present e = true /\ pte_table e = n.

Definition grown : P := pa_write (entry_at t i) e p1.

Lemma grown_mem path' t' j :
  good_path path' -> tab p pt path' = Some t' -> 0 <= j < 512 ->
  pa_mem grown (entry_at t' j) =
    if bool_decide (t' = t /\ j = i) then e else pa_mem p (entry_at t' j).
Proof.
  intros Hp' Ht' Hj. destruct Hinv as (_ & I1 & _). destruct (good_path_snoc _ _ Hpath) as (Hp & _ & Hi).
  destruct (I1 path' t' Hp' Ht') as (A1 & A2 & A3). destruct (I1 path t Hp Ht) as (B1 & B2 & B3).
  unfold grown. rewrite pa_write_mem. case_bool_decide as D.
  - destruct D as [-> ->]. now rewrite Z.eqb_refl.
  - destruct (Z.eqb_spec (entry_at t' j) (entry_at t i)) as [E|_].
    + exfalso. apply D. now apply entry_at_inj.
    + destruct Hfresh as (F1 & F2 & F3 & _ & _ & _ & F4 & _). apply F4. intros Hin.
      enough (t' / PAGE_SIZE = n / PAGE_SIZE) by congruence.
      unfold entry_at, PAGE_SIZE in *. dm.
Qed.

Lemma grown_new_mem j : 0 <= j < 512 -> pa_mem grown (entry_at n j) = 0.
Proof.
  intros Hj. destruct Hinv as (_ & I1 & _). destruct (good_path_snoc _ _ Hpath) as (Hp & _ & Hi).
  destruct (I1 path t Hp Ht) as (B1 & B2 & B3). destruct Hfresh as (F1 & F2 & F3 & _ & _ & _ & _ & F5).
  unfold grown. rewrite pa_write_mem. destruct (Z.eqb_spec (entry_at n j) (entry_at t i)) as [E|_].
  - apply entry_at_inj in E; auto. destruct E as [-> ->]. congruence.
  - now apply F5.
Qed.

Lemma grown_tab_mono path' : forall t', good_path path' -> tab p pt path' = Some t' -> tab grown pt path' = Some t'.
Proof.
  induction path' as [|j path' IH] using rev_ind; intros t' Hp' Ht'; [exact Ht'|].
  destruct (good_path_snoc _ _ Hp') as (G1 & G2 & G3). rewrite tab_snoc in Ht' |- *.
  destruct (tab p pt path') as [s|] eqn:Es; [|discriminate]. rewrite (IH s G1 eq_refl).
  cbv zeta in *. destruct (pte_present (pa_mem p (entry_at s j))) eqn:Ep; [|discriminate].
  rewrite (grown_mem path' s j G1 Es G3). case_bool_decide as D.
  - destruct D as [-> ->]. congruence.
  - now rewrite Ep.
Qed.

Lemma grown_tab_inv path' : forall t', good_path path' -> tab grown pt path' = Some t' ->
  tab p pt path' = Some t' \/ (path' = path ++ [i] /\ t' = n).
Proof.
  induction path' as [|j path' IH] using rev_ind; intros t' Hp' Ht'; [now left|].
  destruct (good_path_snoc _ _ Hp') as (G1 & G2 & G3). destruct (good_path_snoc _ _ Hpath) as (Hp & _ & Hi).
  rewrite tab_snoc in Ht'. destruct (tab grown pt path') as [s|] eqn:Es; [|discriminate].
  cbv zeta in Ht'. destruct (IH s G1 eq_refl) as [Hs|[-> ->]].
  - rewrite (grown_mem path' s j G1 Hs G3) in Ht'. case_bool_decide as D.
    + right. destruct D as [-> ->]. destruct Hinv as (_ & _ & I2 & _).
      rewrite (I2 path' path t G1 Hp Hs Ht). destruct He as [E1 E2]. rewrite E1, E2 in Ht'.
      split; congruence.
    + left. rewrite tab_snoc, Hs. exact Ht'.
  - rewrite grown_new_mem in Ht' by exact G3. discriminate Ht'.
Qed.

Lemma grown_tab_new : tab grown pt (path ++ [i]) = Some n.
Proof.
  destruct (good_path_snoc _ _ Hpath) as (Hp & _ & Hi).
  rewrite tab_snoc, (grown_tab_mono path t Hp Ht). cbv zeta.
  rewrite (grown_mem path t i Hp Ht Hi), bool_decide_true by easy.
  destruct He as [-> ->]. reflexivity.
Qed.

Lemma grown_inv : pt_inv grown pt.
Proof.
  pose proof Hinv as (I0 & I1 & I2 & I3). pose proof Hfresh as (F1 & F2 & F3 & F4 & F5 & F6 & _).
  unfold pt_inv. splits.
  - now apply pa_write_ok.
  - intros path' t' Hp' Ht'. unfold grown at 1. rewrite pa_write_used, F6.
    destruct (grown_tab_inv path' t' Hp' Ht') as [Hs|[-> ->]].
    + destruct (I1 path' t' Hp' Hs) as (A1 & A2 & A3). splits; auto; try lia.
      rewrite A3. now destruct (_ =? _).
    + splits; auto; try lia. now rewrite Z.eqb_refl.
  - intros q1 q2 t' G1 G2 T1 T2.
    destruct (grown_tab_inv q1 t' G1 T1) as [S1|[-> ->]]; destruct (grown_tab_inv q2 _ G2 T2) as [S2|[-> E2]].
    + exact (I2 q1 q2 t' G1 G2 S1 S2).
    + subst t'. destruct (I1 q1 n G1 S1) as (_ & _ & A). congruence.
    + destruct (I1 q2 n G2 S2) as (_ & _ & A). congruence.
    + reflexivity.
  - intros path' t' j Hp' Ht' Hj. destruct (grown_tab_inv path' t' Hp' Ht') as [Hs|[-> ->]].
    + rewrite (grown_mem path' t' j Hp' Hs Hj). case_bool_decide; [|now apply (I3 path')].
      destruct He as [-> _]. discriminate.
    + rewrite grown_new_mem by exact Hj. reflexivity.
Qed.

Lemma grown_xlate v : 0 <= v -> xlate grown pt v = xlate p pt v.
Proof.
  intros Hv. destruct (path_of_good v Hv) as (G & L & Hj). destruct (good_path_snoc _ _ Hpath) as (Hp & Hlen & Hi).
  unfold xlate. destruct (tab p pt (path_of v)) as [s|] eqn:Es.
  - rewrite (grown_tab_mono _ s G Es). rewrite (grown_mem _ s _ G Es Hj).
    case_bool_decide as D; [|reflexivity]. exfalso. destruct D as [-> _].
    destruct Hinv as (_ & _ & I2 & _). rewrite (I2 _ _ t G Hp Es Ht) in L. lia.
  - destruct (tab grown pt (path_of v)) as [s|] eqn:Es'; [|reflexivity].
    destruct (grown_tab_inv _ s G Es') as [Hs|[E ->]]; [congruence|].
    now rewrite grown_new_mem by exact Hj.
Qed.
End NewTable.

(** What one level of the descent of [arch_mm_map] does. *)
Definition extended (pt : Z) p p' : Prop :=
  pt_inv p' pt /\
  (forall path t, good_path path -> tab p pt path = Some t -> tab p' pt path = Some t) /\
  (forall v, 0 <= v -> xlate p' pt v = xlate p pt v) /\
  (forall i, pa_used p i = true -> pa_used p' i = true).

Lemma next_table_spec p pt path t i flags :
  pt_inv p pt -> good_path (path ++ [i]) -> tab p pt path = Some t ->
  match next_table t i flags p with
  | Ret (n, p') => tab p' pt (path ++ [i]) = Some n /\ extended pt p p'
  | Panic _ => forall q, ~ free_run p q 1
  | _ => False
  end.
Proof.
  intros Hinv Hpath Ht. unfold next_table. destruct (pte_present (pa_mem p (entry_at t i))) eqn:Ep; cbn [negb].
  - split; [rewrite tab_snoc, Ht; cbv zeta; now rewrite Ep|]. unfold extended. auto.
  - pose proof (alloc_table_spec p (proj1 Hinv)) as HA.
    destruct (pa_alloc 1 p) as [[n p1]|m| | |]; cbn [mbind outcome_bind] in *; try contradiction; [|exact HA].
    set (e := pte_set_bit _ _ _).
    assert (pte_present e = true /\ pte_table e = n) as He.
    { split; [unfold e; now autorewrite with pte|]. destruct HA as (F1 & F2 & _).
      apply pte_table_set; auto. unfold e. now autorewrite with pte. }
    split; [now apply (grown_tab_new p)|]. unfold extended. splits.
    + now apply (grown_inv p (zero_table n p1) pt n i e path t).
    + intros path' t' Hp' Ht'. now apply (grown_tab_mono p (zero_table n p1) pt n i e path t).
    + intros v Hv. now apply (grown_xlate p (zero_table n p1) pt n i e path t).
    + intros k Hk. rewrite pa_write_used. destruct HA as (_ & _ & _ & _ & _ & F6 & _).
      rewrite F6, Hk. now destruct (_ =? _).
Qed.

(** A store to an entry of a last-level table. *)
Section LeafWrite.
Variables (p : P) (pt i e : Z) (path : list Z) (t : Z).
Hypothesis Hinv : pt_inv p pt.
Hypothesis Hpath : good_path path.
Hypothesis Hlen : length path = 3%nat.
Hypothesis Ht : tab p pt path = Some t.
Hypothesis Hi : 0 <= i < 512.

Definition leafed : P := pa_write (entry_at t i) e p.

Lemma leafed_mem path' t' j :
  good_path path' -> tab p pt path' = Some t' -> 0 <= j < 512 ->
  pa_mem leafed (entry_at t' j) =
    if bool_decide (path' = path /\ j = i) then e else pa_mem p (entry_at t' j).
Proof.
  intros Hp' Ht' Hj. destruct Hinv as (_ & I1 & I2 & _).
  destruct (I1 path' t' Hp' Ht') as (A1 & _). destruct (I1 path t Hpath Ht) as (B1 & _).
  unfold leafed. rewrite pa_write_mem. case_bool_decide as D.
  - destruct D as [-> ->]. replace t' with t by congruence. now rewrite Z.eqb_refl.
  - destruct (Z.eqb_spec (entry_at t' j) (entry_at t i)) as [E|_]; [|reflexivity].
    exfalso. apply D. apply entry_at_inj in E; auto. destruct E as [-> ->].
    split; [exact (I2 path' path t Hp' Hpath Ht' Ht)|reflexivity].
Qed.

Lemma leafed_tab path' : good_path path' -> tab leafed pt path' = tab p pt path'.
Proof.
  induction path' as [|j path' IH] using rev_ind; intros Hp'; [reflexivity|].
  destruct (good_path_snoc _ _ Hp') as (G1 & G2 & G3). rewrite !tab_snoc, (IH G1).
  destruct (tab p pt path') as [s|] eqn:Es; [|reflexivity]. cbv zeta.
  rewrite (leafed_mem path' s j G1 Es G3), bool_decide_false; [reflexivity|].
  intros [-> _]. lia.
Qed.

Lemma leafed_inv : (pte_present e = false -> pte_addr e = 0) -> pt_inv leafed pt.
Proof.
  intros He. pose proof Hinv as (I0 & I1 & I2 & I3). unfold pt_inv. splits.
  - now apply pa_write_ok.
  - intros path' t' Hp'. rewrite (leafed_tab _ Hp'). unfold leafed. rewrite pa_write_used. now apply I1.
  - intros q1 q2 t' G1 G2. rewrite (leafed_tab _ G1), (leafed_tab _ G2). now apply I2.
  - intros path' t' j Hp' Ht' Hj. rewrite (leafed_tab _ Hp') in Ht'.
    rewrite (leafed_mem path' t' j Hp' Ht' Hj). case_bool_decide; [exact He|]. now apply (I3 path').
Qed.

Lemma leafed_xlate v :
  0 <= v ->
  xlate leafed pt v =
    if bool_decide (path_of v = path /\ leaf_index v = i)
    then (if pte_present e then Some e else None) else xlate p pt v.
Proof.
  intros Hv. destruct (path_of_good v Hv) as (G & L & Hj). unfold xlate. rewrite (leafed_tab _ G).
  destruct (tab p pt (path_of v)) as [s|] eqn:Es.
  - rewrite (leafed_mem _ s _ G Es Hj). case_bool_decide; reflexivity.
  - rewrite bool_decide_false; [reflexivity|]. intros [E _]. congruence.
Qed.
End LeafWrite.

(** [path_of] and [leaf_index] name a page. *)
Lemma same_page_decide v v' :
  0 <= v -> 0 <= v' ->
  bool_decide (path_of v' = path_of v /\ leaf_index v' = leaf_index v) = (vpage v' =? vpage v).
Proof.
  intros Hv Hv'. destruct (Z.eqb_spec (vpage v') (vpage v)) as [E|E].
  - apply bool_decide_true. pose proof (mm_indexer_eq v Hv) as M. pose proof (mm_indexer_eq v' Hv') as M'.
    rewrite E in M'. unfold path_of, leaf_index. unfold mm_indexer in *. rewrite <- M' in M.
    injection M as -> -> -> ->. now split.
  - apply bool_decide_false. intros [E1 E2]. apply E. now apply indices_inj.
Qed.

(** The entry a mapping of [physAddr] with [flags] installs. *)
Definition maps_to (e physAddr flags : Z) : Prop :=
  pte_addr e = Z.land (Z.shiftr physAddr 12) (Z.ones 51) /\
  pte_present e = flag_on flags VMM_PRESENT /\
  Z.testbit e 1 = flag_on flags VMM_RW /\ Z.testbit e 2 = flag_on flags VMM_USER /\
  Z.testbit e 3 = flag_on flags VMM_WRITE_THROUGH /\ Z.testbit e 4 = flag_on flags VMM_CACHE_DISABLE /\
  Z.testbit e 7 = false /\ Z.testbit e 63 = flag_on flags VMM_EXEC_DISABLE.

Lemma leaf_flags_maps e physAddr flags :
  maps_to (leaf_flags (pte_set_addr e (Z.shiftr physAddr 12)) flags) physAddr flags.
Proof.
  unfold maps_to. rewrite leaf_flags_present, leaf_flags_addr, pte_addr_set_addr.
  unfold leaf_flags. repeat (rewrite pte_set_bit_bits by lia). cbn. splits; reflexivity.
Qed.

Lemma arch_mm_map_spec p pt physAddr v flags :
  pt_inv p pt -> 0 <= v -> flag_on flags VMM_PRESENT = true ->
  match arch_mm_map pt physAddr v flags p with
  | Ret p' => pt_inv p' pt /\
      (exists e, xlate p' pt v = Some e /\ maps_to e physAddr flags) /\
      (forall v', 0 <= v' -> vpage v' <> vpage v -> xlate p' pt v' = xlate p pt v') /\
      (forall i, pa_used p i = true -> pa_used p' i = true)
  | Panic _ => True
  | _ => False
  end.
Proof.
  intros Hinv Hv Hfl. destruct (path_of_good v Hv) as (G & L & Hj).
  unfold arch_mm_map. unfold path_of in G, L. destruct (mm_indexer v) as [[[Pi PTi] PDi] PDPi] eqn:EI.
  assert (good_path ([] ++ [PDPi]) /\ good_path ([PDPi] ++ [PDi]) /\ good_path ([PDPi; PDi] ++ [PTi])) as (G1 & G2 & G3).
  { destruct G as [_ G]. rewrite !Forall_cons in G. unfold good_path. cbn [app length]. rewrite !Forall_cons.
    splits; try lia; tauto. }
  pose proof (next_table_spec p pt [] pt PDPi flags Hinv G1 eq_refl) as S1.
  destruct (next_table pt PDPi flags p) as [[PDP p1]|m| | |]; cbn [mbind outcome_bind]; auto.
  destruct S1 as (T1 & Inv1 & _ & X1 & U1).
  pose proof (next_table_spec p1 pt [PDPi] PDP PDi flags Inv1 G2 T1) as S2.
  destruct (next_table PDP PDi flags p1) as [[PD p2]|m| | |]; cbn [mbind outcome_bind]; auto.
  destruct S2 as (T2 & Inv2 & _ & X2 & U2).
  pose proof (next_table_spec p2 pt [PDPi; PDi] PD PTi flags Inv2 G3 T2) as S3.
  destruct (next_table PD PTi flags p2) as [[PT p3]|m| | |]; cbn [mbind outcome_bind]; auto.
  destruct S3 as (T3 & Inv3 & _ & X3 & U3). cbn [app] in T3.
  set (e := leaf_flags _ flags).
  assert (Pi = leaf_index v) as -> by (unfold mm_indexer in EI; injection EI as <- _ _ _; reflexivity).
  assert (path_of v = [PDPi; PDi; PTi]) as EP by (unfold path_of; now rewrite EI).
  pose proof (leaf_flags_maps (pa_mem p3 (entry_at PT (leaf_index v))) physAddr flags) as Hm. fold e in Hm.
  pose proof (fun v' => leafed_xlate p3 pt (leaf_index v) e _ PT Inv3 G eq_refl T3 Hj v') as HX.
  rewrite <- EP in HX. splits.
  - apply (leafed_inv p3 pt _ e _ PT Inv3 G eq_refl T3 Hj). unfold e. rewrite leaf_flags_present, Hfl. discriminate.
  - exists e. split; [|exact Hm]. unfold leafed in HX. rewrite HX by exact Hv. rewrite bool_decide_true by easy.
    destruct Hm as (_ & -> & _). now rewrite Hfl.
  - intros v' Hv' Hne. unfold leafed in HX. rewrite HX by exact Hv'. rewrite same_page_decide by assumption.
    rewrite (proj2 (Z.eqb_neq _ _) Hne). rewrite X3, X2, X1 by exact Hv'. reflexivity.
  - intros k Hk. rewrite pa_write_used. auto.
Qed.

Lemma leaf_location_spec p pt v t :
  tab p pt (path_of v) = Some t -> leaf_location pt v p = entry_at t (leaf_index v).
Proof.
  unfold path_of, leaf_location, leaf_index. unfold mm_indexer. cbn [tab].
  destruct (pte_present _); [|discriminate]. destruct (pte_present _); [|discriminate].
  destruct (pte_present _); [|discriminate]. now intros [= <-].
Qed.

(** A store through [leaf_location], for [arch_mm_unmap] and [arch_mm_set_flags]. *)
Lemma leaf_store_spec p pt v t e :
  pt_inv p pt -> 0 <= v -> tab p pt (path_of v) = Some t -> (pte_present e = false -> pte_addr e = 0) ->
  let p' := pa_write (leaf_location pt v p) e p in
  pt_inv p' pt /\ xlate p' pt v = (if pte_present e then Some e else None) /\
  (forall v', 0 <= v' -> vpage v' <> vpage v -> xlate p' pt v' = xlate p pt v').
Proof.
  intros Hinv Hv Ht He. destruct (path_of_good v Hv) as (G & L & Hj). cbv zeta.
  rewrite (leaf_location_spec p pt v t Ht).
  pose proof (fun v' => leafed_xlate p pt (leaf_index v) e _ t Hinv G L Ht Hj v') as HX. unfold leafed in HX.
  splits.
  - now apply (leafed_inv p pt _ e _ t Hinv G L Ht Hj).
  - rewrite HX by exact Hv. now rewrite bool_decide_true.
  - intros v' Hv' Hne. rewrite HX by exact Hv'. rewrite same_page_decide by assumption.
    now rewrite (proj2 (Z.eqb_neq _ _) Hne).
Qed.

Lemma pte_empty_clean p pt path t i :
  pt_inv p pt -> good_path path -> tab p pt path = Some t -> 0 <= i < 512 ->
  pte_empty (pa_mem p (entry_at t i)) = negb (pte_present (pa_mem p (entry_at t i))).
Proof.
  intros (_ & _ & _ & I3) Hp Ht Hi. unfold pte_empty. specialize (I3 path t i Hp Ht Hi).
  destruct (pte_present _); [reflexivity|]. now rewrite I3.
Qed.

(** Both query functions follow the walk. *)
Lemma arch_mm_queries_spec p pt v :
  pt_inv p pt -> 0 <= v ->
  arch_mm_is_page_free pt v p = match xlate p pt v with Some _ => false | None => true end /\
  arch_mm_virt_to_phys pt v p = match xlate p pt v with Some e => pte_table e | None => 0 end.
Proof.
  intros Hinv Hv. destruct (path_of_good v Hv) as ([_ G] & _ & Hj).
  unfold arch_mm_is_page_free, arch_mm_virt_to_phys, xlate, leaf_index. unfold path_of, mm_indexer in *.
  unfold leaf_index in Hj. set (w := Z.shiftr v 12) in *. rewrite !Forall_cons in G. destruct G as (G1 & G2 & G3 & _).
  set (a := Z.land (Z.shiftr (Z.shiftr (Z.shiftr w 9) 9) 9) 511) in *.
  set (b := Z.land (Z.shiftr (Z.shiftr w 9) 9) 511) in *.
  set (c := Z.land (Z.shiftr w 9) 511) in *. set (d := Z.land w 511) in *.
  assert (forall path t i, tab p pt path = Some t -> good_path path -> 0 <= i < 512 ->
    pte_empty (pa_mem p (entry_at t i)) = negb (pte_present (pa_mem p (entry_at t i)))) as HE
    by (intros path t i T GP R; now apply (pte_empty_clean p pt path)).
  assert (good_path [] /\ good_path [a] /\ good_path [a; b] /\ good_path [a; b; c]) as (P0 & P1 & P2 & P3).
  { unfold good_path. splits; cbn [length]; try lia; now repeat (apply Forall_cons; split). }
  cbn [tab].
  rewrite (HE [] pt a eq_refl P0 G1).
  destruct (pte_present (pa_mem p (entry_at pt a))) eqn:E1; cbn [negb]; [|now split].
  set (t1 := pte_table (pa_mem p (entry_at pt a))).
  assert (tab p pt [a] = Some t1) as T1 by (cbn [tab]; now rewrite E1).
  rewrite (HE [a] t1 b T1 P1 G2).
  destruct (pte_present (pa_mem p (entry_at t1 b))) eqn:E2; cbn [negb]; [|now split].
  set (t2 := pte_table (pa_mem p (entry_at t1 b))).
  assert (tab p pt [a; b] = Some t2) as T2 by (cbn [tab]; fold t1; now rewrite E1, E2).
  rewrite (HE [a; b] t2 c T2 P2 G3).
  destruct (pte_present (pa_mem p (entry_at t2 c))) eqn:E3; cbn [negb]; [|now split].
  set (t3 := pte_table (pa_mem p (entry_at t2 c))).
  assert (tab p pt [a; b; c] = Some t3) as T3 by (cbn [tab]; fold t1; fold t2; now rewrite E1, E2, E3).
  rewrite (HE [a; b; c] t3 d T3 P3 Hj).
  destruct (pte_present (pa_mem p (entry_at t3 d))); now split.
Qed.
End Tree.
