(* ===== verification/Vmm.v ===== *)
(** * Virtual memory ([kernel/mem/vmm/paging.c], [kernel/mem/vmm/vaspace.c], the
    address-space half of [kernel/arch/x86_64/mm.c])

    The locked page-table operations, the loops over ranges, address spaces
    (creation, destruction, clearing, cloning) and the system calls [mmap] and
    [munmap].  A page table is named by its physical address, as in [Paging];
    what the boot loader reports (direct-map offset, kernel base) is an argument.
    Loops over [size_t] ranges take fuel: a range of more than [2^64 - 4096] bytes
    makes the C loops wrap around. *)

From S2P Require Import Prelude Interfaces MemMap Pmm Paging.
#[local] Open Scope Z_scope.

Definition VMM_USER_END : Z := 140737488355328.
Definition VMM_INIT_USER_STACK_SIZE : Z := 16777216.
Definition PROT_WRITE : Z := 2.
Definition PROT_EXEC : Z := 4.
Definition MAP_PRIVATE : Z := 1.
Definition MAP_SHARED : Z := 2.
Definition MAP_ANONYMOUS : Z := 8.
Definition MAP_32BIT : Z := 32.

Record vmm_state (P : Type) : Type := mk_vmm {
  vm_pages : P;
  kernelPT : Z;
  VMMlock : spinlock_t;
  cr3 : Z
}.
Arguments mk_vmm {P}.
Arguments vm_pages {P}.
Arguments kernelPT {P}.
Arguments VMMlock {P}.
Arguments cr3 {P}.

Section Vmm.
Context {P : Type} `{PA : PageAllocator P}.
Implicit Types (s : vmm_state P) (p : P).

Definition with_pages p s : vmm_state P := mk_vmm p (kernelPT s) (VMMlock s) (cr3 s).
Definition with_vlock (l : spinlock_t) s : vmm_state P := mk_vmm (vm_pages s) (kernelPT s) l (cr3 s).

(** ** [paging.c] *)

Definition vmm_get_kernel_pt s : Z := kernelPT s.

Definition vmm_map (pt physAddr virtAddr flags : Z) s : outcome (vmm_state P) :=
  l ← acquireLock (VMMlock s);
  let s := with_vlock l s in
  p ← arch_mm_map pt physAddr virtAddr flags (vm_pages s);
  let s := with_pages p s in
  Ret (with_vlock (releaseLock (VMMlock s)) s).

Fixpoint vmm_map_range_loop (fuel : nat) (i pt physAddr virtAddr length flags : Z) s
    : outcome (vmm_state P) :=
  match fuel with
  | O => OutOfFuel
  | S f =>
      if i <? length then
        s ← vmm_map pt physAddr virtAddr flags s;
        vmm_map_range_loop f (u64 (i + PAGE_SIZE)) pt (u64 (physAddr + PAGE_SIZE))
          (u64 (virtAddr + PAGE_SIZE)) length flags s
      else Ret s
  end.

Definition vmm_map_range (fuel : nat) (pt physAddr virtAddr length flags : Z) s : outcome (vmm_state P) :=
  vmm_map_range_loop fuel 0 pt physAddr virtAddr length flags s.

Definition vmm_unmap (pt virtAddr : Z) s : outcome (vmm_state P) :=
  l ← acquireLock (VMMlock s);
  let s := with_vlock l s in
  let s := with_pages (arch_mm_unmap pt virtAddr (vm_pages s)) s in
  Ret (with_vlock (releaseLock (VMMlock s)) s).

Fixpoint vmm_unmap_range_loop (fuel : nat) (i pt virtAddr length : Z) s : outcome (vmm_state P) :=
  match fuel with
  | O => OutOfFuel
  | S f =>
      if i <? length then
        s ← vmm_unmap pt virtAddr s;
        vmm_unmap_range_loop f (u64 (i + PAGE_SIZE)) pt (u64 (virtAddr + PAGE_SIZE)) length s
      else Ret s
  end.

Definition vmm_unmap_range (fuel : nat) (pt virtAddr length : Z) s : outcome (vmm_state P) :=
  vmm_unmap_range_loop fuel 0 pt virtAddr length s.

Definition vmm_set_flags (pt virtAddr flags : Z) s : outcome (vmm_state P) :=
  l ← acquireLock (VMMlock s);
  let s := with_vlock l s in
  let s := with_pages (arch_mm_set_flags pt virtAddr flags (vm_pages s)) s in
  Ret (with_vlock (releaseLock (VMMlock s)) s).

Fixpoint vmm_set_flags_range_loop (fuel : nat) (i pt virtAddr length flags : Z) s : outcome (vmm_state P) :=
  match fuel with
  | O => OutOfFuel
  | S f =>
      if i <? length then
        s ← vmm_set_flags pt virtAddr flags s;
        vmm_set_flags_range_loop f (u64 (i + PAGE_SIZE)) pt (u64 (virtAddr + PAGE_SIZE)) length flags s
      else Ret s
  end.

Definition vmm_set_flags_range (fuel : nat) (pt virtAddr length flags : Z) s : outcome (vmm_state P) :=
  vmm_set_flags_range_loop fuel 0 pt virtAddr length flags s.

Definition vmm_is_page_free (pt virtAddr : Z) s : outcome (bool * vmm_state P) :=
  l ← acquireLock (VMMlock s);
  let s := with_vlock l s in
  let result := arch_mm_is_page_free pt virtAddr (vm_pages s) in
  Ret (result, with_vlock (releaseLock (VMMlock s)) s).

Definition vmm_virt_to_phys (pt virtAddr : Z) s : outcome (Z * vmm_state P) :=
  l ← acquireLock (VMMlock s);
  let s := with_vlock l s in
  let result := arch_mm_virt_to_phys pt virtAddr (vm_pages s) in
  Ret (result, with_vlock (releaseLock (VMMlock s)) s).

(** [vaspace_switch], with the pointer as the code has it (a virtual address). *)
Definition vaspace_switch (hhdm kernelVirtBase pt : Z) s : vmm_state P :=
  let pt := if pt >? kernelVirtBase then u64 (pt - kernelVirtBase)
            else if pt >? hhdm then u64 (pt - hhdm) else pt in
  mk_vmm (vm_pages s) (kernelPT s) (VMMlock s) pt.

(** The three loops of [vmm_init]: the kernel image, the first 4 GiB, and the
    memory map above them. *)
Definition map_kernel_entry (physBase virtBase : Z) (e : memmap_entry_t) s : outcome (vmm_state P) :=
  if negb (me_type e =? MEMMAP_KERNEL_AND_MODULES) then Ret s
  else for_up (Z.to_nat (ALIGN_UP (me_length e) PAGE_SIZE / PAGE_SIZE + 1)) 0
         (fun k => vmm_map (kernelPT s) (u64 (k * PAGE_SIZE + physBase)) (u64 (k * PAGE_SIZE + virtBase))
                     (Z.lor VMM_PRESENT VMM_RW)) s.

Definition map_both (hhdm : Z) (phys : Z) s : outcome (vmm_state P) :=
  s ← vmm_map (kernelPT s) phys phys 3 s;
  vmm_map (kernelPT s) phys (u64 (phys + hhdm)) (Z.lor VMM_PRESENT VMM_RW) s.

Definition map_high_entry (hhdm : Z) (e : memmap_entry_t) s : outcome (vmm_state P) :=
  if u64 (me_base e + me_length e) <=? 4294967295 then Ret s
  else for_up (Z.to_nat (ALIGN_UP (me_length e) PAGE_SIZE / PAGE_SIZE)) 0
         (fun k => map_both hhdm (u64 (k * PAGE_SIZE + me_base e))) s.

Fixpoint for_entries (f : memmap_entry_t -> vmm_state P -> outcome (vmm_state P))
    (m : list memmap_entry_t) s : outcome (vmm_state P) :=
  match m with
  | [] => Ret s
  | e :: m' => s ← f e s; for_entries f m' s
  end.

Definition vmm_init (hhdm physBase virtBase : Z) (m : list memmap_entry_t) s : outcome (vmm_state P) :=
  '(t, p) ← arch_mm_init (vm_pages s);
  let s := mk_vmm p t (VMMlock s) (cr3 s) in
  s ← for_entries (map_kernel_entry physBase virtBase) m s;
  s ← for_up (Z.to_nat 1048575) 1 (fun k => map_both hhdm (k * PAGE_SIZE)) s;
  s ← for_entries (map_high_entry hhdm) m s;
  Ret (vaspace_switch hhdm virtBase (u64 (kernelPT s + hhdm)) s).

(** ** Address spaces *)

(** [memcpy] of [n] words. *)
Fixpoint copy_words (n : nat) (dest src : Z) p : P :=
  match n with
  | O => p
  | S n' => copy_words n' (dest + 8) (src + 8) (pa_write dest (pa_mem p src) p)
  end.

Definition arch_vaspace_new (kpt : Z) p : outcome (Z * P) :=
  '(pt, p) ← pa_alloc 1 p;
  let p := copy_words 512 pt kpt p in
  Ret (pt, zero_words 256 pt p).

(** The nested loops of [arch_vaspace_destroy]; a table is freed after all below
    it. *)
Definition destroy_pt (PT : Z) p : outcome P :=
  for_up 512 0 (fun l p =>
    let e := pa_mem p (entry_at PT l) in
    if pte_present e then pa_free (pte_table e) 1 p else Ret p) p.

Definition destroy_pd (PD : Z) p : outcome P :=
  for_up 512 0 (fun k p =>
    let e := pa_mem p (entry_at PD k) in
    if pte_present e then
      p ← destroy_pt (pte_table e) p; pa_free (pte_table e) 1 p
    else Ret p) p.

Definition destroy_pdp (PDP : Z) p : outcome P :=
  for_up 512 0 (fun j p =>
    let e := pa_mem p (entry_at PDP j) in
    if pte_present e then
      p ← destroy_pd (pte_table e) p; pa_free (pte_table e) 1 p
    else Ret p) p.

Definition arch_vaspace_destroy (pt : Z) p : outcome P :=
  p ← for_up 256 0 (fun i p =>
    let e := pa_mem p (entry_at pt i) in
    if pte_present e then
      p ← destroy_pdp (pte_table e) p; pa_free (pte_table e) 1 p
    else Ret p) p;
  pa_free pt 1 p.

(** [entry.present = false; entry.addr = 0]. *)
Definition clear_entry (a : Z) p : P :=
  pa_write a (pte_set_addr (pte_set_bit (pa_mem p a) 0 false) 0) p.

Definition clear_pt (PT : Z) p : outcome P :=
  for_up 512 0 (fun l p =>
    let e := pa_mem p (entry_at PT l) in
    if pte_present e then pa_free (pte_table e) 1 (clear_entry (entry_at PT l) p) else Ret p) p.

Definition clear_pd (PD : Z) p : outcome P :=
  for_up 512 0 (fun k p =>
    let e := pa_mem p (entry_at PD k) in
    if pte_present e then
      p ← clear_pt (pte_table e) p; pa_free (pte_table e) 1 (clear_entry (entry_at PD k) p)
    else Ret p) p.

Definition clear_pdp (PDP : Z) p : outcome P :=
  for_up 512 0 (fun j p =>
    let e := pa_mem p (entry_at PDP j) in
    if pte_present e then
      p ← clear_pd (pte_table e) p; pa_free (pte_table e) 1 (clear_entry (entry_at PDP j) p)
    else Ret p) p.

Definition arch_vaspace_clear (pt : Z) p : outcome P :=
  for_up 256 0 (fun i p =>
    let e := pa_mem p (entry_at pt i) in
    if pte_present e then
      p ← clear_pdp (pte_table e) p; pa_free (pte_table e) 1 (clear_entry (entry_at pt i) p)
    else Ret p) p.

(** Copy the entry at [src] to [dest] and make it point to a new zeroed table. *)
Definition clone_entry (dest src : Z) p : outcome (Z * P) :=
  let p := pa_write dest (pa_mem p src) p in
  '(n, p) ← pa_alloc 1 p;
  let p := zero_table n p in
  Ret (n, pa_write dest (pte_set_addr (pa_mem p dest) (Z.shiftr n 12)) p).

Definition clone_pt (newPT PT : Z) p : outcome P :=
  for_up 512 0 (fun l p =>
    let e := pa_mem p (entry_at PT l) in
    if pte_present e then
      let pagePhys := pte_table e in
      '(newPagePhys, p) ← pa_alloc 1 p;
      let p := copy_words 512 newPagePhys pagePhys p in
      let p := pa_write (entry_at newPT l) (pa_mem p (entry_at PT l)) p in
      Ret (pa_write (entry_at newPT l)
             (pte_set_addr (pa_mem p (entry_at newPT l)) (Z.shiftr newPagePhys 12)) p)
    else Ret p) p.

Definition clone_pd (newPD PD : Z) p : outcome P :=
  for_up 512 0 (fun k p =>
    let e := pa_mem p (entry_at PD k) in
    if pte_present e then
      '(newPT, p) ← clone_entry (entry_at newPD k) (entry_at PD k) p;
      clone_pt newPT (pte_table e) p
    else Ret p) p.

Definition clone_pdp (newPDP PDP : Z) p : outcome P :=
  for_up 512 0 (fun j p =>
    let e := pa_mem p (entry_at PDP j) in
    if pte_present e then
      '(newPD, p) ← clone_entry (entry_at newPDP j) (entry_at PDP j) p;
      clone_pd newPD (pte_table e) p
    else Ret p) p.

Definition arch_vaspace_clone (kpt toClone : Z) p : outcome (Z * P) :=
  '(clone, p) ← arch_vaspace_new kpt p;
  p ← for_up 256 0 (fun i p =>
    let e := pa_mem p (entry_at toClone i) in
    if pte_present e then
      '(newPDP, p) ← clone_entry (entry_at clone i) (entry_at toClone i) p;
      clone_pdp newPDP (pte_table e) p
    else Ret p) p;
  Ret (clone, p).

Definition vaspace_new s : outcome (Z * vmm_state P) :=
  '(pt, p) ← arch_vaspace_new (kernelPT s) (vm_pages s); Ret (pt, with_pages p s).

(** The NULL test of the callers is on the virtual pointer; [None] is NULL. *)
Definition vaspace_destroy (pt : option Z) s : outcome (vmm_state P) :=
  match pt with
  | None => Ret s
  | Some pt => p ← arch_vaspace_destroy pt (vm_pages s); Ret (with_pages p s)
  end.

Definition vaspace_clear (pt : option Z) s : outcome (vmm_state P) :=
  match pt with
  | None => Ret s
  | Some pt => p ← arch_vaspace_clear pt (vm_pages s); Ret (with_pages p s)
  end.

Definition vaspace_clone (toClone : Z) s : outcome (Z * vmm_state P) :=
  '(c, p) ← arch_vaspace_clone (kernelPT s) toClone (vm_pages s); Ret (c, with_pages p s).

(** The loop of [vaspace_create_area], from offset [i]. *)
Fixpoint create_area_loop (fuel : nat) (i pml4 virtAddr size flags : Z) s : outcome (vmm_state P) :=
  match fuel with
  | O => OutOfFuel
  | S f =>
      if i <? size then
        '(physAddr, p) ← pa_alloc 1 (vm_pages s);
        s ← vmm_map pml4 physAddr (u64 (virtAddr + i)) flags (with_pages p s);
        create_area_loop f (u64 (i + PAGE_SIZE)) pml4 virtAddr size flags s
      else Ret s
  end.

Definition vaspace_create_area (fuel : nat) (pml4 virtAddr size flags : Z) s : outcome (Z * vmm_state P) :=
  let size := if negb (size mod PAGE_SIZE =? 0) then ALIGN_UP size PAGE_SIZE else size in
  s ← create_area_loop fuel 0 pml4 virtAddr size flags s;
  Ret (virtAddr, s).

(** [vaspace_create_thread_user_stack]: the new stack pointer.  The flags lose
    their bit 63 when they are passed as a [uint32_t]. *)
Definition vaspace_create_thread_user_stack (fuel : nat) (pt : Z) s : outcome (Z * vmm_state P) :=
  '(a, s) ← vaspace_create_area fuel pt (VMM_USER_END - VMM_INIT_USER_STACK_SIZE) VMM_INIT_USER_STACK_SIZE
              (u32 (Z.lor (Z.lor VMM_PRESENT VMM_RW) (Z.lor VMM_USER VMM_EXEC_DISABLE))) s;
  Ret (u64 (a + (VMM_INIT_USER_STACK_SIZE - 1 - 15)), s).

(** ** [mmap] and [munmap] *)

(** The search loop of [sys_mmap]: the first run of [length] free pages at or
    after [i]. *)
Fixpoint mmap_search (fuel : nat) (pt i userEnd length npages addr : Z) s : outcome (option Z * vmm_state P) :=
  match fuel with
  | O => OutOfFuel
  | S f =>
      if i <? userEnd then
        '(free, s) ← vmm_is_page_free pt i s;
        if (free : bool) then
          let npages := u64 (npages + 1) in
          let addr := if npages =? 1 then i else addr in
          if npages =? length then Ret (Some addr, s)
          else mmap_search f pt (u64 (i + PAGE_SIZE)) userEnd length npages addr s
        else mmap_search f pt (u64 (i + PAGE_SIZE)) userEnd length 0 addr s
      else Ret (None, s)
  end.

(** The mapping loop: [length] pages from [addr] on. *)
Definition mmap_map (pt addr length vmmflags : Z) s : outcome (vmm_state P) :=
  for_up (Z.to_nat length) 0 (fun j s =>
    '(phys, p) ← pa_alloc 1 (vm_pages s);
    vmm_map pt phys (u64 (addr + u64 (j * PAGE_SIZE))) (u32 vmmflags) (with_pages p s)) s.

Definition mmap_flags (prot : Z) : Z :=
  let f := Z.lor (Z.lor VMM_USER VMM_PRESENT) VMM_EXEC_DISABLE in
  let f := if flag_on prot PROT_WRITE then Z.lor f VMM_RW else f in
  if flag_on prot PROT_EXEC then Z.ldiff f VMM_EXEC_DISABLE else f.

(** [sys_mmap]; [pt] is the page table of the current process.  Errors are
    negative numbers returned as pointers.  The two [ALIGN_UP]s of the source are
    expressions whose values are dropped, so [addr] and [length] keep theirs. *)
Definition sys_mmap (fuel : nat) (pt addr length prot flags : Z) s : outcome (Z * vmm_state P) :=
  if length =? 0 then Ret (u64 (- EINVAL), s)
  else if addr >? VMM_USER_END then Ret (u64 (- ENOMEM), s)
  else if flag_on flags MAP_SHARED then Ret (u64 (- EINVAL), s)
  else if negb (flag_on flags MAP_PRIVATE) then Ret (u64 (- EINVAL), s)
  else if negb (flag_on flags MAP_ANONYMOUS) then Ret (u64 (- EINVAL), s)
  else
    let addr := if addr =? 0 then 4096 else addr in
    let length := length / PAGE_SIZE in
    let userEnd := if flag_on flags MAP_32BIT then 2147483648 else VMM_USER_END in
    '(r, s) ← mmap_search fuel pt addr userEnd length 0 addr s;
    match r with
    | Some base => s ← mmap_map pt base length (mmap_flags prot) s; Ret (base, s)
    | None => Ret (u64 (- ENOMEM), s)
    end.

Definition sys_munmap (pt addr length : Z) s : outcome (Z * vmm_state P) :=
  if length =? 0 then Ret (- EINVAL, s)
  else if (addr >? VMM_USER_END) || negb (addr mod PAGE_SIZE =? 0) then Ret (- EINVAL, s)
  else
    r ← for_ret (Z.to_nat (length / PAGE_SIZE)) 0 (fun (_ : Z) (st : Z * vmm_state P) =>
      let '(addr, s) := st in
      '(physAddr, s) ← vmm_virt_to_phys pt addr s;
      if physAddr =? 0 then Ret (inl (- EINVAL, s) : Z * vmm_state P + Z * vmm_state P)
      else
        p ← pa_free physAddr 1 (vm_pages s);
        s ← vmm_unmap pt addr (with_pages p s);
        Ret (inr (u64 (addr + PAGE_SIZE), s))) (addr, s);
    match r with
    | inl v => Ret v
    | inr (_, s) => Ret (- ENOMEM, s)
    end.
End Vmm.

(** ** What the operations do to the translation *)

Section Spec.
Context {P : Type} `{PA : PageAllocator P} `{PAL : !PageAllocatorLaws P}.
Implicit Types (s : vmm_state P) (p : P).

(** The state between two operations: a tree of tables and a free lock. *)
Definition vmm_inv (pt : Z) s : Prop := pt_inv (vm_pages s) pt /\ VMMlock s = false.

Definition vxlate s (pt v : Z) : option Z := xlate (vm_pages s) pt v.

(** Page allocation does not touch the tables. *)
Lemma tab_mem_eq p p' : (forall a, pa_mem p' a = pa_mem p a) -> forall path t, tab p' t path = tab p t path.
Proof.
  intros H. induction path as [|i path IH]; intros t; cbn [tab]; [reflexivity|].
  rewrite H. now destruct (pte_present _).
Qed.

Lemma pt_inv_alloc p p' pt :
  pt_inv p pt -> pa_ok p' -> (forall a, pa_mem p' a = pa_mem p a) ->
  (forall i, pa_used p i = true -> pa_used p' i = true) ->
  pt_inv p' pt /\ forall v, xlate p' pt v = xlate p pt v.
Proof.
  intros (I0 & I1 & I2 & I3) O M U. pose proof (tab_mem_eq p p' M) as T. split.
  - unfold pt_inv. splits; [exact O| | |].
    + intros path t G. rewrite T. intros Ht. destruct (I1 path t G Ht) as (A1 & A2 & A3). auto.
    + intros q1 q2 t G1 G2. rewrite !T. now apply I2.
    + intros path t i G. rewrite T, !M. now apply I3.
  - intros v. unfold xlate. rewrite T. destruct (tab p pt (path_of v)); [|reflexivity]. now rewrite M.
Qed.

(** One allocated page mapped at [v]: the step of all the loops below. *)
Definition page_mapped (pt v flags : Z) s0 s : Prop :=
  exists e, vxlate s pt v = Some e /\ pte_present e = true /\
    Z.testbit e 1 = flag_on flags VMM_RW /\ Z.testbit e 2 = flag_on flags VMM_USER /\
    Z.testbit e 63 = false /\
    pa_used (vm_pages s0) (pte_table e / PAGE_SIZE) = false /\
    pa_used (vm_pages s) (pte_table e / PAGE_SIZE) = true.

Definition used_mono s s' : Prop :=
  forall i, pa_used (vm_pages s) i = true -> pa_used (vm_pages s') i = true.

Lemma alloc_and_map_spec pt v flags s :
  vmm_inv pt s -> 0 <= v -> 0 <= flags < 2 ^ 32 -> flag_on flags VMM_PRESENT = true ->
  Safe ('(phys, p) ← pa_alloc 1 (vm_pages s); vmm_map pt phys v flags (with_pages p s)) (fun s' =>
    vmm_inv pt s' /\ page_mapped pt v flags s s' /\ used_mono s s' /\ kernelPT s' = kernelPT s /\
    (forall v', 0 <= v' -> vpage v' <> vpage v -> vxlate s' pt v' = vxlate s pt v')).
Proof.
  intros [Hinv L] Hv Hfl Hp.
  pose proof (pa_alloc_spec 1 (vm_pages s) ltac:(split; [lia|reflexivity]) (proj1 Hinv)) as HA.
  destruct (pa_alloc 1 (vm_pages s)) as [[phys p]|m| | |]; cbn [mbind outcome_bind Safe]; auto.
  destruct HA as (q & -> & (R1 & R2 & R3) & O & Pp & M & U).
  assert (forall i, pa_used (vm_pages s) i = true -> pa_used p i = true) as U1.
  { intros i Hi. rewrite U, Hi. now destruct (_ && _). }
  destruct (pt_inv_alloc (vm_pages s) p pt Hinv O M U1) as [Hinv1 X1].
  unfold vmm_map. cbn [with_pages VMMlock]. rewrite L. cbn [acquireLock mbind outcome_bind].
  change (vm_pages (with_vlock true (with_pages p s))) with p.
  pose proof (arch_mm_map_spec p pt (q * PAGE_SIZE) v flags Hinv1 Hv Hp) as HM.
  destruct (arch_mm_map pt (q * PAGE_SIZE) v flags p) as [p2|m| | |]; cbn [mbind outcome_bind Safe]; auto.
  destruct HM as (Hinv2 & (e & Xe & Me) & Xo & U2).
  destruct Me as (E1 & E2 & E3 & E4 & _ & _ & _ & E5).
  pose proof (pa_pages_bound _ (proj1 Hinv)) as Hb. change (2 ^ 51) with 2251799813685248 in Hb.
  assert (pte_table e = q * PAGE_SIZE) as Et.
  { apply pte_table_set; [unfold PAGE_SIZE; apply Z.mod_mul; lia|unfold PAGE_SIZE; pow2_consts; lia|exact E1]. }
  splits.
  - split; [exact Hinv2|reflexivity].
  - exists e. rewrite Et, Z.div_mul by easy. rewrite E2, E5, exec_disable_off by assumption.
    splits; auto; [apply R3; lia|]. cbn [vm_pages with_vlock with_pages]. apply U2. rewrite U. zcmp; simpl; easy || lia.
  - intros i Hi. cbn. auto.
  - reflexivity.
  - intros v' Hv' Hne. unfold vxlate. cbn. rewrite Xo by assumption. apply X1.
Qed.

(** The translation of [v'] is left alone when [v'] is not one of the [n] pages
    from [v] on. *)
Definition outside (v n v' : Z) : Prop := 0 <= v' /\ forall k, 0 <= k < n -> vpage v' <> vpage (v + k * PAGE_SIZE).

Definition area_mapped (pt v n flags : Z) s0 s : Prop :=
  vmm_inv pt s /\ used_mono s0 s /\ kernelPT s = kernelPT s0 /\
  (forall k, 0 <= k < n -> page_mapped pt (v + k * PAGE_SIZE) flags s0 s) /\
  (forall v', outside v n v' -> vxlate s pt v' = vxlate s0 pt v').

Lemma vpage_add v k :
  0 <= v -> 0 <= k -> v + k * PAGE_SIZE < 2 ^ 48 -> vpage (v + k * PAGE_SIZE) = v / 4096 + k.
Proof.
  unfold vpage, PAGE_SIZE. change (2 ^ 48) with 281474976710656. change (2 ^ 36) with 68719476736.
  intros. rewrite Z.div_add, Z.mod_small by dm. reflexivity.
Qed.

(** One more page. *)
Lemma area_mapped_step pt v n flags s0 s s' :
  0 <= v -> 0 <= n -> v + n * PAGE_SIZE < 2 ^ 48 ->
  area_mapped pt v n flags s0 s ->
  vmm_inv pt s' -> page_mapped pt (v + n * PAGE_SIZE) flags s s' -> used_mono s s' ->
  kernelPT s' = kernelPT s ->
  (forall v', 0 <= v' -> vpage v' <> vpage (v + n * PAGE_SIZE) -> vxlate s' pt v' = vxlate s pt v') ->
  area_mapped pt v (n + 1) flags s0 s'.
Proof.
  intros Hv Hn Hb (A1 & A2 & A3 & A4 & A5) I (e & X & Hp & F1 & F2 & F3 & F4 & F5) U K O.
  assert (forall i, pa_used (vm_pages s) i = false -> pa_used (vm_pages s0) i = false) as U'.
  { intros i Hi. destruct (pa_used (vm_pages s0) i) eqn:E; [|reflexivity]. apply A2 in E. congruence. }
  unfold area_mapped. splits; auto; try congruence.
  - intros i Hi. auto.
  - intros k Hk. destruct (Z.eq_dec k n) as [->|Hne].
    + exists e. splits; auto.
    + destruct (A4 k ltac:(lia)) as (e' & X' & Hp' & G1 & G2 & G3 & G4 & G5). exists e'. splits; auto.
      rewrite O; [exact X'|unfold PAGE_SIZE in *; lia|].
      rewrite !vpage_add by (unfold PAGE_SIZE in *; lia). lia.
  - intros v' [Hv' Ho]. rewrite O; [|exact Hv'|apply Ho; lia]. apply A5. split; [exact Hv'|].
    intros k Hk. apply Ho. lia.
Qed.

Lemma area_mapped_0 pt v flags s : vmm_inv pt s -> area_mapped pt v 0 flags s s.
Proof. intros H. unfold area_mapped, used_mono. splits; auto. intros k Hk. lia. Qed.

Lemma create_area_loop_spec pt v n flags s0 : forall fuel k s,
  0 <= k <= n -> (Z.to_nat (n - k) < fuel)%nat -> 0 <= v -> v + n * PAGE_SIZE <= 2 ^ 48 ->
  0 <= flags < 2 ^ 32 -> flag_on flags VMM_PRESENT = true ->
  area_mapped pt v k flags s0 s ->
  Safe (create_area_loop fuel (k * PAGE_SIZE) pt v (n * PAGE_SIZE) flags s) (area_mapped pt v n flags s0).
Proof.
  induction fuel as [|f IH]; intros k s Hk Hf Hv Hb Hfl Hp Ha; [lia|]. cbn [create_area_loop].
  destruct (Z.ltb_spec (k * PAGE_SIZE) (n * PAGE_SIZE)) as [Hlt|Hge].
  - unfold PAGE_SIZE in Hlt, Hb. change (2 ^ 48) with 281474976710656 in *.
    assert (u64 (v + k * PAGE_SIZE) = v + k * PAGE_SIZE) as Eu
      by (apply wrap_small; unfold PAGE_SIZE; pow2_consts; lia).
    rewrite Eu.
    pose proof (alloc_and_map_spec pt (v + k * PAGE_SIZE) flags s (proj1 Ha)
      ltac:(unfold PAGE_SIZE; lia) Hfl Hp) as HM.
    destruct (pa_alloc 1 (vm_pages s)) as [[phys p]|m| | |]; cbn [mbind outcome_bind Safe] in *; auto.
    destruct (vmm_map pt phys (v + k * PAGE_SIZE) flags (with_pages p s)) as [s1|m| | |];
      cbn [mbind outcome_bind Safe] in *; auto.
    destruct HM as (I & M & U & K & O).
    assert (u64 (k * PAGE_SIZE + PAGE_SIZE) = (k + 1) * PAGE_SIZE) as ->
      by (rewrite wrap_small; unfold PAGE_SIZE; pow2_consts; lia).
    apply IH; auto; try lia.
    apply (area_mapped_step pt v k flags s0 s); auto; try lia.
    unfold PAGE_SIZE. change (2 ^ 48) with 281474976710656. lia.
  - replace n with k by (unfold PAGE_SIZE in Hge; lia). exact Ha.
Qed.

(** Taking and releasing the lock around a read leaves the state as it was. *)
Lemma relock s : VMMlock s = false -> with_vlock false (with_vlock true s) = s.
Proof. destruct s. cbn. now intros ->. Qed.

Lemma vmm_queries_spec pt v s :
  vmm_inv pt s -> 0 <= v ->
  vmm_is_page_free pt v s = Ret (match vxlate s pt v with Some _ => false | None => true end, s) /\
  vmm_virt_to_phys pt v s = Ret (match vxlate s pt v with Some e => pte_table e | None => 0 end, s).
Proof.
  intros [Hinv L] Hv. destruct (arch_mm_queries_spec (vm_pages s) pt v Hinv Hv) as [Q1 Q2].
  unfold vmm_is_page_free, vmm_virt_to_phys. rewrite L. cbn [acquireLock mbind outcome_bind releaseLock].
  rewrite relock by exact L. change (vm_pages (with_vlock true s)) with (vm_pages s).
  rewrite Q1, Q2. now split.
Qed.

(** A run of [n] pages without translation. *)
Definition free_pages_at s (pt v n : Z) : Prop :=
  forall k, 0 <= k < n -> vxlate s pt (v + k * PAGE_SIZE) = None.

(** The search at page [j] after [start], the last [n] pages being free: it finds
    the first run of [len] free pages, or there is none. *)
Lemma mmap_search_spec pt start userEnd len s : forall fuel j n addr,
  vmm_inv pt s -> 0 <= start -> userEnd <= 2 ^ 47 -> 1 <= len -> 0 <= j -> 0 <= n <= j -> n < len ->
  start + j * PAGE_SIZE <= userEnd + PAGE_SIZE ->
  (Z.to_nat ((userEnd - (start + j * PAGE_SIZE)) / PAGE_SIZE + 1) < fuel)%nat ->
  (0 < n -> addr = start + (j - n) * PAGE_SIZE) ->
  free_pages_at s pt (start + (j - n) * PAGE_SIZE) n ->
  (forall m, 0 <= m < j - n -> ~ free_pages_at s pt (start + m * PAGE_SIZE) len) ->
  Returns (mmap_search fuel pt (start + j * PAGE_SIZE) userEnd len n addr s) (fun '(r, s') =>
    s' = s /\
    match r with
    | Some b => exists q, 0 <= q /\ b = start + q * PAGE_SIZE /\ b + (len - 1) * PAGE_SIZE < userEnd /\ free_pages_at s pt b len /\
                forall m, 0 <= m < q -> ~ free_pages_at s pt (start + m * PAGE_SIZE) len
    | None => forall m, 0 <= m -> start + m * PAGE_SIZE + (len - 1) * PAGE_SIZE < userEnd ->
                ~ free_pages_at s pt (start + m * PAGE_SIZE) len
    end).
Proof.
  unfold PAGE_SIZE. change (2 ^ 47) with 140737488355328.
  induction fuel as [|f IH]; intros j n addr Hinv Hs He Hl Hj Hn Hnl Hju Hf Ha Hrun Hno; [lia|].
  cbn [mmap_search]. unfold PAGE_SIZE. set (i := start + j * 4096) in *.
  destruct (Z.ltb_spec i userEnd) as [Hlt|Hge].
  - destruct (vmm_queries_spec pt i s Hinv ltac:(lia)) as [Q _]. rewrite Q. cbn [mbind outcome_bind].
    assert (u64 (i + 4096) = start + (j + 1) * 4096) as Ei by (rewrite wrap_small; unfold i; pow2_consts; lia).
    assert ((Z.to_nat ((userEnd - (start + (j + 1) * 4096)) / 4096 + 1) < f)%nat) as Hf'.
    { replace (userEnd - (start + (j + 1) * 4096)) with (userEnd - i + -1 * 4096) by (unfold i; lia).
      rewrite Z.div_add by lia. assert (0 <= (userEnd - i) / 4096) by (apply Z.div_pos; lia). lia. }
    destruct (vxlate s pt i) as [e|] eqn:Ex.
    + (* the page is in use: every window over it is ruled out *)
      rewrite Ei. apply IH; auto; try lia.
      * intros k Hk. lia.
      * intros m Hm Hfree. destruct (Z.lt_ge_cases m (j - n)) as [H1|H1]; [exact (Hno m ltac:(lia) Hfree)|].
        specialize (Hfree (j - m) ltac:(lia)). unfold PAGE_SIZE in Hfree.
        replace (start + m * 4096 + (j - m) * 4096) with i in Hfree by (unfold i; lia). congruence.
    + rewrite (wrap_small 64 (n + 1)) by (pow2_consts; unfold i in *; lia).
      assert (free_pages_at s pt (start + (j - n) * 4096) (n + 1)) as Hrun'.
      { intros k Hk. destruct (Z.eq_dec k n) as [->|Hne]; [|apply Hrun; lia].
        unfold PAGE_SIZE. replace (start + (j - n) * 4096 + n * 4096) with i by (unfold i; lia). exact Ex. }
      assert ((if n + 1 =? 1 then i else addr) = start + (j - n) * 4096) as Ead.
      { destruct (Z.eqb_spec (n + 1) 1); [unfold i; replace n with 0 by lia; f_equal; lia|apply Ha; lia]. }
      rewrite Ead. destruct (Z.eqb_spec (n + 1) len) as [E|E].
      * apply Returns_ret. split; [reflexivity|]. exists (j - n). rewrite E in Hrun'. splits; auto; try (unfold i in *; lia).
      * rewrite Ei. apply IH; auto; try lia.
        -- replace (j + 1 - (n + 1)) with (j - n) by lia. exact Hrun'.
        -- intros m Hm. apply Hno. lia.
  - apply Returns_ret. split; [reflexivity|]. intros m Hm Hb Hfree.
    apply (Hno m); [|exact Hfree]. unfold i in *. lia.
Qed.

Lemma mmap_flags_on prot :
  let f := u32 (mmap_flags prot) in
  0 <= f < 2 ^ 32 /\ flag_on f VMM_PRESENT = true /\ flag_on f VMM_USER = true /\
  flag_on f VMM_RW = flag_on prot PROT_WRITE.
Proof.
  unfold mmap_flags. destruct (flag_on prot PROT_WRITE), (flag_on prot PROT_EXEC); vm_compute;
    repeat split; discriminate || reflexivity.
Qed.

Lemma mmap_map_spec pt v n prot s :
  vmm_inv pt s -> 0 <= v -> 0 <= n -> v + n * PAGE_SIZE <= 2 ^ 48 ->
  Safe (mmap_map pt v n (mmap_flags prot) s) (area_mapped pt v n (u32 (mmap_flags prot)) s).
Proof.
  intros Hinv Hv Hn Hb. destruct (mmap_flags_on prot) as (F1 & F2 & _). unfold mmap_map.
  unfold PAGE_SIZE in Hb. change (2 ^ 48) with 281474976710656 in Hb.
  eapply Safe_mono; [apply (for_up_Safe (fun k => area_mapped pt v k (u32 (mmap_flags prot)) s))|].
  - now apply area_mapped_0.
  - intros k s1 Hk Ha.
    assert (u64 (v + u64 (k * PAGE_SIZE)) = v + k * PAGE_SIZE) as ->.
    { unfold PAGE_SIZE. rewrite (wrap_small 64 (k * 4096)), wrap_small; pow2_consts; lia. }
    eapply Safe_mono; [apply alloc_and_map_spec; [exact (proj1 Ha)|unfold PAGE_SIZE; lia|exact F1|exact F2]|].
    intros s2 (I & M & U & K & O). apply (area_mapped_step pt v k _ s s1); auto; try lia.
    unfold PAGE_SIZE. change (2 ^ 48) with 281474976710656. lia.
  - intros s1. now replace (0 + Z.of_nat (Z.to_nat n)) with n by lia.
Qed.

(** *** New address spaces *)

Lemma copy_words_spec n : forall dest src p,
  dest + 8 * Z.of_nat n <= src \/ src + 8 * Z.of_nat n <= dest ->
  (forall j, 0 <= j < Z.of_nat n -> pa_mem (copy_words n dest src p) (dest + 8 * j) = pa_mem p (src + 8 * j)) /\
  (forall x, ~ (dest <= x < dest + 8 * Z.of_nat n) -> pa_mem (copy_words n dest src p) x = pa_mem p x) /\
  pa_used (copy_words n dest src p) = pa_used p /\ (pa_ok p -> pa_ok (copy_words n dest src p)).
Proof.
  induction n as [|n IH]; intros dest src p Hov; cbn [copy_words].
  - splits; auto. intros j Hj. lia.
  - destruct (IH (dest + 8) (src + 8) (pa_write dest (pa_mem p src) p)) as (I1 & I2 & I3 & I4); [lia|].
    rewrite I3, pa_write_used. splits; auto using pa_write_ok.
    + intros j Hj. destruct (Z.eq_dec j 0) as [->|Hj0].
      * rewrite !Z.mul_0_r, !Z.add_0_r, I2 by lia. rewrite pa_write_mem. now rewrite Z.eqb_refl.
      * replace (dest + 8 * j) with (dest + 8 + 8 * (j - 1)) by lia. rewrite I1 by lia.
        rewrite pa_write_mem, (proj2 (Z.eqb_neq _ _)) by lia. f_equal. lia.
    + intros x Hx. rewrite I2 by lia. rewrite pa_write_mem, (proj2 (Z.eqb_neq _ _)) by lia. reflexivity.
Qed.

(** Memory that differs from [p]'s only outside the tables of [t]. *)
Lemma tab_frame p p' t :
  (forall path (s : Z) i, good_path path -> tab p t path = Some s -> 0 <= i < 512 ->
     pa_mem p' (entry_at s i) = pa_mem p (entry_at s i)) ->
  forall path, good_path path -> tab p' t path = tab p t path.
Proof.
  intros H. induction path as [|i path IH] using rev_ind; intros G; [reflexivity|].
  destruct (good_path_snoc _ _ G) as (G1 & G2 & G3). rewrite !tab_snoc, (IH G1).
  destruct (tab p t path) as [s|] eqn:E; [|reflexivity]. cbv zeta. now rewrite (H path s i G1 E G3).
Qed.

(** [new_space p kpt pt p']: the page [pt] was free; it now holds an empty user
    half and a copy of the kernel half of [kpt]; nothing else changed. *)
Definition new_space p (kpt pt : Z) p' : Prop :=
  pt mod PAGE_SIZE = 0 /\ 0 <= pt < 2 ^ 63 /\ pa_used p (pt / PAGE_SIZE) = false /\ pa_ok p' /\
  (forall i, pa_used p' i = if i =? pt / PAGE_SIZE then true else pa_used p i) /\
  (forall x, ~ (pt <= x < pt + PAGE_SIZE) -> pa_mem p' x = pa_mem p x) /\
  (forall i, 0 <= i < 512 -> pa_mem p' (entry_at pt i) = if i <? 256 then 0 else pa_mem p (entry_at kpt i)).

Lemma arch_vaspace_new_spec p kpt :
  pt_inv p kpt -> Safe (arch_vaspace_new kpt p) (fun '(pt, p') => new_space p kpt pt p').
Proof.
  intros (Hok & I1 & _). destruct (I1 [] kpt ltac:(split; [cbn; lia|constructor]) eq_refl) as (K1 & K2 & K3).
  unfold arch_vaspace_new.
  pose proof (pa_alloc_spec 1 p ltac:(split; [lia|reflexivity]) Hok) as H.
  destruct (pa_alloc 1 p) as [[v p1]|m| | |]; cbn [mbind outcome_bind Safe]; auto.
  destruct H as (q & -> & (R1 & R2 & R3) & O1 & P1 & M1 & U1).
  pose proof (pa_pages_bound p Hok) as Hb. change (2 ^ 51) with 2251799813685248 in Hb. unfold PAGE_SIZE in *.
  assert (kpt / 4096 <> q) as Hkq by (intros <-; rewrite R3 in K3 by lia; discriminate).
  assert (kpt + 4096 <= q * 4096 \/ q * 4096 + 4096 <= kpt) as Hov by (revert Hkq K1; clear; intros; dm).
  destruct (copy_words_spec 512 (q * 4096) kpt p1) as (C1 & C2 & C3 & C4); [lia|].
  destruct (zero_words_spec 256 (q * 4096) (copy_words 512 (q * 4096) kpt p1)) as (Z1 & Z2 & Z3 & Z4).
  unfold new_space, PAGE_SIZE. rewrite Z.div_mul, Z.mod_mul by (clear; lia). pow2_consts. splits; auto; try lia.
  - apply R3. lia.
  - intros i. rewrite Z2, C3, U1.
    assert ((q <=? i) && (i <? q + 1) = (i =? q)) as -> by (clear; zcmp; cbn [andb]; reflexivity || lia).
    reflexivity.
  - intros x Hx. rewrite Z1, C2, M1 by lia.
    assert ((q * 4096 <=? x) && (x <? q * 4096 + 8 * Z.of_nat 256) = false) as ->
      by (revert Hx; clear; intros; zcmp; cbn [andb]; reflexivity || lia).
    reflexivity.
  - intros i Hi. rewrite Z1. unfold entry_at.
    assert ((q * 4096 + 8 * i - q * 4096) mod 8 = 0) as -> by (clear; dm).
    rewrite C1 by lia. rewrite M1, Z.eqb_refl, andb_true_r.
    assert ((q * 4096 <=? q * 4096 + 8 * i) && (q * 4096 + 8 * i <? q * 4096 + 8 * Z.of_nat 256) = (i <? 256)) as ->
      by (revert Hi; clear; intros; zcmp; cbn [andb]; reflexivity || lia).
    reflexivity.
Qed.

Section NewSpace.
Variables (p p' : P) (kpt pt : Z).
Hypothesis Hinv : pt_inv p kpt.
Hypothesis Hnew : new_space p kpt pt p'.

Lemma new_space_kernel_mem path (s : Z) i :
  good_path path -> tab p kpt path = Some s -> 0 <= i < 512 ->
  s <> pt /\ pa_mem p' (entry_at s i) = pa_mem p (entry_at s i).
Proof.
  intros G Hs Hi. destruct Hinv as (_ & I1 & _). destruct (I1 path s G Hs) as (A1 & A2 & A3).
  destruct Hnew as (N1 & N2 & N3 & _ & _ & N4 & _).
  assert (s / PAGE_SIZE <> pt / PAGE_SIZE) as Hne by congruence.
  split; [now intros ->|]. apply N4. unfold entry_at, PAGE_SIZE in *. revert Hne A1 N1 Hi. clear. intros. dm.
Qed.

Lemma new_space_kernel_tab path : good_path path -> tab p' kpt path = tab p kpt path.
Proof. intros G. apply tab_frame; [|exact G]. intros q s i Gq Hs Hi. now apply (new_space_kernel_mem q s i). Qed.

Lemma new_space_tab i path :
  good_path (i :: path) -> tab p' pt (i :: path) = if i <? 256 then None else tab p kpt (i :: path).
Proof.
  intros G. rewrite <- (new_space_kernel_tab _ G). cbn [tab].
  assert (0 <= i < 512) as Hi by (destruct G as [_ G]; now apply Forall_cons in G).
  destruct Hnew as (_ & _ & _ & _ & _ & _ & N5). rewrite N5 by exact Hi.
  destruct (Z.ltb_spec i 256); [reflexivity|].
  destruct (new_space_kernel_mem [] kpt i ltac:(split; [cbn; lia|constructor]) eq_refl Hi) as [_ ->]. reflexivity.
Qed.

Lemma new_space_inv : pt_inv p' pt.
Proof.
  pose proof Hinv as (I0 & I1 & I2 & I3). pose proof Hnew as (N1 & N2 & N3 & N4 & N5 & N6 & N7).
  unfold pt_inv. splits; [exact N4| | |].
  - intros [|i path] t G Ht; rewrite N5.
    + injection Ht as <-. splits; auto; try lia. now rewrite Z.eqb_refl.
    + rewrite (new_space_tab _ _ G) in Ht. destruct (i <? 256); [discriminate|].
      destruct (I1 _ _ G Ht) as (A1 & A2 & A3). splits; auto; try lia. rewrite A3. now destruct (_ =? _).
  - assert (forall i path, good_path (i :: path) -> tab p' pt (i :: path) <> Some pt) as Hroot.
    { intros i path G Ht. rewrite (new_space_tab _ _ G) in Ht. destruct (i <? 256); [discriminate|].
      destruct (new_space_kernel_mem _ pt 0 G Ht ltac:(lia)) as [Hne _]. now apply Hne. }
    intros [|i q1] [|j q2] t G1 G2 T1 T2; try reflexivity.
    + injection T1 as <-. now destruct (Hroot j q2 G2).
    + injection T2 as <-. now destruct (Hroot i q1 G1).
    + rewrite (new_space_tab _ _ G1) in T1. rewrite (new_space_tab _ _ G2) in T2.
      destruct (i <? 256), (j <? 256); try discriminate. exact (I2 _ _ t G1 G2 T1 T2).
  - intros [|i path] t j G Ht Hj.
    + injection Ht as <-. rewrite N7 by exact Hj. destruct (j <? 256); [reflexivity|].
      apply (I3 [] kpt j); auto.
    + rewrite (new_space_tab _ _ G) in Ht. destruct (i <? 256); [discriminate|].
      destruct (new_space_kernel_mem _ t j G Ht Hj) as [_ ->]. now apply (I3 (i :: path)).
Qed.

Lemma new_space_xlate v :
  0 <= v -> xlate p' pt v = (if vpage v <? 2 ^ 35 then None else xlate p kpt v) /\
            xlate p' kpt v = xlate p kpt v.
Proof.
  intros Hv. destruct (path_of_good v Hv) as (G & _ & Hj).
  assert (exists i path, path_of v = i :: path /\ (i <? 256) = (vpage v <? 2 ^ 35)) as (i & path & E & Ei).
  { unfold path_of. rewrite (mm_indexer_eq v Hv). eexists _, _. split; [reflexivity|].
    change (2 ^ 35) with 34359738368. zcmp; try reflexivity; exfalso; dm. }
  unfold xlate. rewrite (new_space_kernel_tab _ G). rewrite E in *. rewrite (new_space_tab _ _ G), Ei.
  destruct (tab p kpt (i :: path)) as [s|] eqn:Es; [|split; [now destruct (vpage v <? 2 ^ 35)|reflexivity]].
  destruct (new_space_kernel_mem _ s _ G Es Hj) as [_ Em].
  split; [destruct (vpage v <? 2 ^ 35); [reflexivity|]|]; now rewrite Em.
Qed.
End NewSpace.
End Spec.

(** ** The theorems *)

(** Sixteen pages of zeroed memory, page 0 reserved and page 1 an empty top-level
    table. *)
Definition vm_demo : vmm_state pmm_state :=
  mk_vmm (mk_pmm (fun i => if i =? 0 then 192 else 0) 0 2 14 2 16 false (fun _ => 0)) 4096 false 0.

Lemma vm_demo_inv : vmm_inv 4096 vm_demo.
Proof.
  assert (forall path t, tab (vm_pages vm_demo) 4096 path = Some t -> path = [] /\ t = 4096) as H.
  { intros [|i path] t; [now intros [= <-]|discriminate]. }
  split; [|reflexivity]. unfold pt_inv. splits.
  - split; [|reflexivity]. unfold pmm_wf. cbn. splits; try lia. intros i. destruct (i =? 0); lia.
  - intros path t _ [_ ->]%H. splits; reflexivity || (vm_compute; discriminate).
  - intros q1 q2 t _ _ [-> _]%H [-> _]%H. reflexivity.
  - reflexivity.
Qed.

Lemma vmm_map_spec {P} `{PageAllocatorLaws P} pt phys v flags (s : vmm_state P) :
  vmm_inv pt s -> 0 <= v -> phys mod PAGE_SIZE = 0 -> 0 <= phys < 2 ^ 63 ->
  flag_on flags VMM_PRESENT = true ->
  Safe (vmm_map pt phys v flags s) (fun s' =>
    vmm_inv pt s' /\
    (exists e, vxlate s' pt v = Some e /\ maps_to e phys flags) /\
    vmm_virt_to_phys pt v s' = Ret (phys, s') /\
    forall v', 0 <= v' -> vpage v' <> vpage v -> vxlate s' pt v' = vxlate s pt v').
Proof.
  intros [Hinv L] Hv Ha Hr Hp. unfold vmm_map. rewrite L. cbn [acquireLock mbind outcome_bind].
  pose proof (arch_mm_map_spec (vm_pages s) pt phys v flags Hinv Hv Hp) as HM.
  change (vm_pages (with_vlock true s)) with (vm_pages s).
  destruct (arch_mm_map pt phys v flags (vm_pages s)) as [p2|m| | |]; cbn [mbind outcome_bind Safe]; auto.
  destruct HM as (Hinv2 & (e & Xe & Me) & Xo & _). set (s' := with_vlock _ _).
  assert (vmm_inv pt s') as Hs' by now split.
  splits; auto.
  - now exists e.
  - destruct (vmm_queries_spec pt v s' Hs' Hv) as [_ ->].
    change (vxlate s' pt v) with (xlate p2 pt v). rewrite Xe. f_equal. f_equal.
    apply pte_table_set; auto. apply Me.
Qed.

(** C7: mapping a page.  [vmm_map] installs the frame and the flags at the given
    address, creating the missing tables, and changes the translation of no other
    page; the tables stay a tree of distinct allocated pages; looking the address up
    gives the frame back; the lock is released.  The only other outcome is the
    out-of-memory panic. *)
Theorem vmm_map_correct {P} `{PageAllocatorLaws P} pt phys v flags (s : vmm_state P) :
  vmm_inv pt s -> 0 <= v -> phys mod PAGE_SIZE = 0 -> 0 <= phys < 2 ^ 63 ->
  flag_on flags VMM_PRESENT = true ->
  Safe (vmm_map pt phys v flags s) (fun s' =>
    vmm_inv pt s' /\
    (exists e, vxlate s' pt v = Some e /\ maps_to e phys flags) /\
    vmm_virt_to_phys pt v s' = Ret (phys, s') /\
    forall v', 0 <= v' -> vpage v' <> vpage v -> vxlate s' pt v' = vxlate s pt v').
Proof. apply vmm_map_spec. Qed.

Lemma vmm_map_correct_witness :
  (exists s', vmm_map 4096 32768 4198400 3 vm_demo = Ret s') /\
  Safe (vmm_map 4096 32768 4198400 3 vm_demo) (fun s' =>
    vmm_inv 4096 s' /\
    (exists e, vxlate s' 4096 4198400 = Some e /\ maps_to e 32768 3) /\
    vmm_virt_to_phys 4096 4198400 s' = Ret (32768, s') /\
    forall v', 0 <= v' -> vpage v' <> vpage 4198400 -> vxlate s' 4096 v' = vxlate vm_demo 4096 v').
Proof.
  split.
  - destruct (vmm_map 4096 32768 4198400 3 vm_demo) as [s'|m| | |] eqn:E; [now exists s'|..];
      vm_compute in E; discriminate E.
  - apply (vmm_map_correct 4096 32768 4198400 3 vm_demo vm_demo_inv); try reflexivity; lia.
Defined.

(** Unmapping a page whose tables exist removes its translation, makes the page
    free again for [vmm_is_page_free], and changes no other translation. *)
Theorem vmm_unmap_correct {P} `{PageAllocatorLaws P} pt v (s : vmm_state P) e :
  vmm_inv pt s -> 0 <= v -> vxlate s pt v = Some e ->
  Returns (vmm_unmap pt v s) (fun s' =>
    vmm_inv pt s' /\ vxlate s' pt v = None /\
    vmm_is_page_free pt v s' = Ret (true, s') /\
    forall v', 0 <= v' -> vpage v' <> vpage v -> vxlate s' pt v' = vxlate s pt v').
Proof.
  intros [Hinv L] Hv Hx. unfold vxlate, xlate in Hx.
  destruct (tab (vm_pages s) pt (path_of v)) as [t|] eqn:Et; [|discriminate].
  unfold vmm_unmap. rewrite L. cbn [acquireLock mbind outcome_bind]. apply Returns_ret.
  change (vm_pages (with_vlock true s)) with (vm_pages s). unfold arch_mm_unmap.
  set (e' := pte_set_addr _ 0).
  assert (pte_present e' = false /\ pte_addr e' = 0) as [E1 E2] by (unfold e'; now autorewrite with pte).
  destruct (leaf_store_spec (vm_pages s) pt v t e' Hinv Hv Et (fun _ => E2)) as (I & X & O).
  rewrite E1 in X. set (s' := with_vlock _ _). assert (vmm_inv pt s') as Hs' by now split.
  splits; auto. destruct (vmm_queries_spec pt v s' Hs' Hv) as [-> _].
  change (vxlate s' pt v) with (xlate (vm_pages s') pt v). unfold s'. cbn [vm_pages with_vlock with_pages]. now rewrite X.
Qed.

Lemma vmm_unmap_correct_witness :
  exists s e, vmm_inv 4096 s /\ vxlate s 4096 4198400 = Some e /\
  Returns (vmm_unmap 4096 4198400 s) (fun s' =>
    vmm_inv 4096 s' /\ vxlate s' 4096 4198400 = None /\
    vmm_is_page_free 4096 4198400 s' = Ret (true, s') /\
    forall v', 0 <= v' -> vpage v' <> vpage 4198400 -> vxlate s' 4096 v' = vxlate s 4096 v').
Proof.
  pose proof (alloc_and_map_spec 4096 4198400 3 vm_demo vm_demo_inv
    ltac:(lia) ltac:(split; [lia|reflexivity]) eq_refl) as H.
  destruct ('(phys, p) ← pa_alloc 1 (vm_pages vm_demo); vmm_map 4096 phys 4198400 3 (with_pages p vm_demo))
    as [s|m| | |] eqn:E; [|vm_compute in E; discriminate E..].
  destruct H as (I & (e & X & _) & _). exists s, e. split; [exact I|]. split; [exact X|].
  exact (vmm_unmap_correct 4096 4198400 s e I ltac:(lia) X).
Defined.

(** The query functions agree with the walk of the processor: a page is reported
    free exactly when it has no translation, and [vmm_virt_to_phys] returns its frame,
    or 0 when it has none; neither changes the state. *)
Theorem vmm_queries_correct {P} `{PageAllocatorLaws P} pt v (s : vmm_state P) :
  vmm_inv pt s -> 0 <= v ->
  vmm_is_page_free pt v s = Ret (match vxlate s pt v with Some _ => false | None => true end, s) /\
  vmm_virt_to_phys pt v s = Ret (match vxlate s pt v with Some e => pte_table e | None => 0 end, s).
Proof. apply vmm_queries_spec. Qed.

Lemma vmm_queries_correct_witness :
  vmm_is_page_free 4096 4198400 vm_demo =
    Ret (match vxlate vm_demo 4096 4198400 with Some _ => false | None => true end, vm_demo) /\
  vmm_virt_to_phys 4096 4198400 vm_demo =
    Ret (match vxlate vm_demo 4096 4198400 with Some e => pte_table e | None => 0 end, vm_demo).
Proof. apply (vmm_queries_correct 4096 4198400 vm_demo vm_demo_inv). lia. Defined.

(** [vaspace_create_area] backs every page of the area, whose size is rounded up
    to pages, with a frame that was free before, and changes no translation outside
    the area; with fuel for one iteration per page it returns or panics. *)
Theorem vaspace_create_area_correct {P} `{PageAllocatorLaws P} fuel pt v size flags (s : vmm_state P) :
  let n := (size + 4095) / 4096 in
  vmm_inv pt s -> 0 <= v -> 0 <= size -> v + n * PAGE_SIZE <= 2 ^ 48 ->
  0 <= flags < 2 ^ 32 -> flag_on flags VMM_PRESENT = true -> (Z.to_nat n < fuel)%nat ->
  Safe (vaspace_create_area fuel pt v size flags s) (fun '(a, s') =>
    a = v /\ area_mapped pt v n flags s s').
Proof.
  intros n Hinv Hv Hs Hb Hfl Hp Hf. unfold vaspace_create_area.
  assert ((if negb (size mod PAGE_SIZE =? 0) then ALIGN_UP size PAGE_SIZE else size) = n * PAGE_SIZE) as ->.
  { unfold n, PAGE_SIZE, ALIGN_UP in *. change (2 ^ 48) with 281474976710656 in Hb.
    destruct (Z.eqb_spec (size mod 4096) 0); cbn [negb]; [dm|]. rewrite wrap_small; [dm|pow2_consts; dm]. }
  eapply Safe_bind.
  - apply (create_area_loop_spec pt v n flags s fuel 0 s); auto; try lia.
    + unfold n. split; [lia|]. apply Z.div_pos; lia.
    + now apply area_mapped_0.
  - intros s' Ha. cbn. now split.
Qed.

Lemma vaspace_create_area_correct_witness :
  Safe (vaspace_create_area 4 4096 4198400 5000 7 vm_demo) (fun '(a, s') =>
    a = 4198400 /\ area_mapped 4096 4198400 2 7 vm_demo s').
Proof.
  apply (vaspace_create_area_correct 4 4096 4198400 5000 7 vm_demo vm_demo_inv);
    try lia; try reflexivity; vm_compute; try discriminate; lia.
Defined.

(** A new address space translates the kernel half exactly as the kernel's own
    tables do and has an empty user half; creating it changes no translation of the
    kernel's tables. *)
Theorem vaspace_new_correct {P} `{PageAllocatorLaws P} (s : vmm_state P) :
  vmm_inv (kernelPT s) s ->
  Safe (vaspace_new s) (fun '(pt, s') =>
    vmm_inv pt s' /\
    forall v, 0 <= v ->
      vxlate s' pt v = (if vpage v <? 2 ^ 35 then None else vxlate s (kernelPT s) v) /\
      vxlate s' (kernelPT s) v = vxlate s (kernelPT s) v).
Proof.
  intros [Hinv L]. unfold vaspace_new.
  eapply Safe_bind; [apply (arch_vaspace_new_spec (vm_pages s) (kernelPT s) Hinv)|].
  intros [pt p'] Hn. cbn [Safe]. splits.
  - split; [exact (new_space_inv _ p' _ pt Hinv Hn)|exact L].
  - intros v Hv. exact (new_space_xlate _ p' _ pt Hinv Hn v Hv).
Qed.

Lemma vaspace_new_correct_witness :
  Safe (vaspace_new vm_demo) (fun '(pt, s') =>
    vmm_inv pt s' /\
    forall v, 0 <= v ->
      vxlate s' pt v = (if vpage v <? 2 ^ 35 then None else vxlate vm_demo 4096 v) /\
      vxlate s' 4096 v = vxlate vm_demo 4096 v).
Proof. exact (vaspace_new_correct vm_demo vm_demo_inv). Defined.

(** The preconditions under which [mmap] does its work: an anonymous private mapping
    of at least a page. *)
Definition mmap_request (addr length flags : Z) : Prop :=
  0 <= addr <= VMM_USER_END /\ PAGE_SIZE <= length < 2 ^ 47 /\
  flag_on flags MAP_SHARED = false /\ flag_on flags MAP_PRIVATE = true /\ flag_on flags MAP_ANONYMOUS = true.

(** The end of the search and its start. *)
Definition mmap_end (flags : Z) : Z := if flag_on flags MAP_32BIT then 2147483648 else VMM_USER_END.
Definition mmap_start (addr : Z) : Z := if addr =? 0 then 4096 else addr.

(** C8: an anonymous private [mmap] of [length / PAGE_SIZE] pages either finds the first run
    of that many unmapped pages at or after the hint (in steps of a page from it), below the
    end of the user area, and maps exactly these to frames that were free, user accessible, writable as [prot]
    asks and always executable; or, when no such run exists, it returns [-ENOMEM] and
    changes nothing.  It returns for fuel of one iteration per page of the user area,
    or panics for lack of memory. *)
Theorem sys_mmap_correct {P} `{PageAllocatorLaws P} fuel pt addr length prot flags (s : vmm_state P) :
  let n := length / PAGE_SIZE in
  vmm_inv pt s -> mmap_request addr length flags ->
  (Z.to_nat (VMM_USER_END / PAGE_SIZE + 2) < fuel)%nat ->
  Safe (sys_mmap fuel pt addr length prot flags s) (fun '(r, s') =>
    ((exists q, 0 <= q /\ r = mmap_start addr + q * PAGE_SIZE /\
        forall m, 0 <= m < q -> ~ forall k, 0 <= k < n -> vxlate s pt (mmap_start addr + m * PAGE_SIZE + k * PAGE_SIZE) = None) /\
     r + (n - 1) * PAGE_SIZE < mmap_end flags /\
     (forall k, 0 <= k < n -> vxlate s pt (r + k * PAGE_SIZE) = None) /\
     area_mapped pt r n (u32 (mmap_flags prot)) s s' /\
     flag_on (u32 (mmap_flags prot)) VMM_RW = flag_on prot PROT_WRITE)
    \/
    (r = u64 (- ENOMEM) /\ s' = s /\
     forall m, 0 <= m -> mmap_start addr + m * PAGE_SIZE + (n - 1) * PAGE_SIZE < mmap_end flags ->
       ~ forall k, 0 <= k < n -> vxlate s pt (mmap_start addr + m * PAGE_SIZE + k * PAGE_SIZE) = None)).
Proof.
  intros n Hinv (Ha & Hl & F1 & F2 & F3) Hf. unfold sys_mmap, PAGE_SIZE in *.
  fold (mmap_start addr). fold (mmap_end flags). fold n.
  change (2 ^ 47) with 140737488355328 in *. unfold VMM_USER_END in *.
  rewrite (proj2 (Z.eqb_neq length 0)), F1, F2, F3 by lia.
  destruct (Z.gtb_spec addr 140737488355328); [lia|]. cbn [negb].
  assert (0 < mmap_start addr /\ mmap_start addr <= 140737488355328) as Hst
    by (unfold mmap_start; destruct (Z.eqb_spec addr 0); lia).
  assert (mmap_end flags <= 140737488355328) as He by (unfold mmap_end, VMM_USER_END; destruct (flag_on flags MAP_32BIT); vm_compute; discriminate).
  assert (1 <= n) as Hn by (unfold n; dm).
  destruct (Z.le_gt_cases (mmap_start addr) (mmap_end flags + 4096)) as [Hle|Hgt].
  2: { (* the hint lies above the end of the search *)
    destruct fuel as [|f]; [lia|]. cbn [mmap_search]. destruct (Z.ltb_spec (mmap_start addr) (mmap_end flags)); [lia|].
    cbn [mbind outcome_bind Safe]. right. splits; auto. intros m Hm Hb. lia. }
  pose proof (mmap_search_spec pt (mmap_start addr) (mmap_end flags) n s fuel 0 0 (mmap_start addr) Hinv) as HS.
  unfold PAGE_SIZE in HS. change (2 ^ 47) with 140737488355328 in HS. rewrite Z.mul_0_l, Z.add_0_r in HS.
  destruct HS as ([r s1] & -> & -> & Hr); try lia.
  { change (140737488355328 / 4096) with 34359738368 in Hf.
    assert ((mmap_end flags - mmap_start addr) / 4096 <= 34359738368) by dm. lia. }
  { intros k Hk. lia. }
  cbn [mbind outcome_bind]. destruct r as [b|].
  - destruct Hr as (q & R0 & R1 & R2 & R3 & R4). eapply Safe_bind.
    + apply (mmap_map_spec pt b n prot s); auto; try lia. unfold PAGE_SIZE. change (2 ^ 48) with 281474976710656. lia.
    + intros s' Ha'. cbn [Safe]. left. splits; auto; [now exists q|apply mmap_flags_on].
  - cbn [Safe]. right. splits; auto.
Qed.

Lemma sys_mmap_correct_witness :
  Safe (sys_mmap (Z.to_nat (VMM_USER_END / PAGE_SIZE + 3)) 4096 0 8192 3 9 vm_demo) (fun '(r, s') =>
    ((exists q, 0 <= q /\ r = mmap_start 0 + q * PAGE_SIZE /\
        forall m, 0 <= m < q -> ~ forall k, 0 <= k < 2 -> vxlate vm_demo 4096 (mmap_start 0 + m * PAGE_SIZE + k * PAGE_SIZE) = None) /\
     r + (2 - 1) * PAGE_SIZE < mmap_end 9 /\
     (forall k, 0 <= k < 2 -> vxlate vm_demo 4096 (r + k * PAGE_SIZE) = None) /\
     area_mapped 4096 r 2 (u32 (mmap_flags 3)) vm_demo s' /\
     flag_on (u32 (mmap_flags 3)) VMM_RW = flag_on 3 PROT_WRITE)
    \/
    (r = u64 (- ENOMEM) /\ s' = vm_demo /\
     forall m, 0 <= m -> mmap_start 0 + m * PAGE_SIZE + (2 - 1) * PAGE_SIZE < mmap_end 9 ->
       ~ forall k, 0 <= k < 2 -> vxlate vm_demo 4096 (mmap_start 0 + m * PAGE_SIZE + k * PAGE_SIZE) = None)).
Proof.
  apply (sys_mmap_correct _ 4096 0 8192 3 9 vm_demo vm_demo_inv).
  - unfold mmap_request. splits; try reflexivity; try (vm_compute; discriminate).
  - apply Z2Nat.inj_lt; vm_compute; try discriminate. reflexivity.
Defined.

(** A search for no pages never ends before the end of the user area. *)
Lemma mmap_search_zero {P} `{PageAllocatorLaws P} pt start userEnd (s : vmm_state P) : forall fuel j n addr,
  vmm_inv pt s -> 0 <= start -> userEnd <= 2 ^ 47 -> 0 <= n <= j ->
  start + j * PAGE_SIZE <= userEnd + PAGE_SIZE ->
  (Z.to_nat ((userEnd - (start + j * PAGE_SIZE)) / PAGE_SIZE + 1) < fuel)%nat ->
  mmap_search fuel pt (start + j * PAGE_SIZE) userEnd 0 n addr s = Ret (None, s).
Proof.
  unfold PAGE_SIZE. change (2 ^ 47) with 140737488355328.
  induction fuel as [|f IH]; intros j n addr Hinv Hs He Hn Hju Hf; [lia|].
  cbn [mmap_search]. unfold PAGE_SIZE. set (i := start + j * 4096) in *.
  destruct (Z.ltb_spec i userEnd) as [Hlt|Hge]; [|reflexivity].
  destruct (vmm_queries_spec pt i s Hinv ltac:(lia)) as [Q _]. rewrite Q. cbn [mbind outcome_bind].
  assert (u64 (i + 4096) = start + (j + 1) * 4096) as -> by (rewrite wrap_small; unfold i; pow2_consts; lia).
  assert ((Z.to_nat ((userEnd - (start + (j + 1) * 4096)) / 4096 + 1) < f)%nat) as Hf'.
  { replace (userEnd - (start + (j + 1) * 4096)) with (userEnd - i + -1 * 4096) by (unfold i; lia).
    rewrite Z.div_add by lia. assert (0 <= (userEnd - i) / 4096) by (apply Z.div_pos; lia). lia. }
  rewrite (wrap_small 64 (n + 1)) by (pow2_consts; unfold i in *; lia).
  rewrite (proj2 (Z.eqb_neq (n + 1) 0)) by lia.
  destruct (vxlate s pt i); apply IH; auto; lia.
Qed.

(** [sys_mmap] of less than a page always fails: the request is rounded down to
    no pages, the search for a run of 0 pages goes over the whole user area and ends
    with [-ENOMEM], although the rounding up to a page was meant. *)
Theorem sys_mmap_short_fails {P} `{PageAllocatorLaws P} fuel pt addr length prot flags (s : vmm_state P) :
  vmm_inv pt s -> 0 < length < PAGE_SIZE -> 0 <= addr <= 2 ^ 31 ->
  flag_on flags MAP_SHARED = false -> flag_on flags MAP_PRIVATE = true -> flag_on flags MAP_ANONYMOUS = true ->
  (Z.to_nat (VMM_USER_END / PAGE_SIZE + 2) < fuel)%nat ->
  sys_mmap fuel pt addr length prot flags s = Ret (u64 (- ENOMEM), s).
Proof.
  intros Hinv Hl Ha F1 F2 F3 Hf. unfold sys_mmap, PAGE_SIZE in *.
  fold (mmap_start addr). fold (mmap_end flags). pow2_consts.
  rewrite (proj2 (Z.eqb_neq length 0)), F1, F2, F3 by lia.
  destruct (Z.gtb_spec addr VMM_USER_END) as [Hg|_]; [unfold VMM_USER_END in Hg; lia|]. cbn [negb].
  rewrite (Z.div_small length 4096) by lia.
  assert (2147483648 <= mmap_end flags <= 140737488355328) as He.
  { unfold mmap_end. destruct (flag_on flags MAP_32BIT); split; vm_compute; discriminate. }
  assert (0 <= mmap_start addr <= 2147483648) as Hst by (unfold mmap_start; destruct (addr =? 0); lia).
  change (VMM_USER_END / 4096) with 34359738368 in Hf.
  pose proof (mmap_search_zero pt (mmap_start addr) (mmap_end flags) s fuel 0 0 (mmap_start addr) Hinv) as HS.
  unfold PAGE_SIZE in HS. change (2 ^ 47) with 140737488355328 in HS. rewrite Z.mul_0_l, Z.add_0_r in HS.
  rewrite HS; [reflexivity|lia..|]. assert ((mmap_end flags - mmap_start addr) / 4096 <= 34359738368) by dm. lia.
Qed.

Lemma sys_mmap_short_fails_witness :
  sys_mmap (Z.to_nat (VMM_USER_END / PAGE_SIZE + 3)) 4096 0 100 3 9 vm_demo = Ret (u64 (- ENOMEM), vm_demo).
Proof.
  apply (sys_mmap_short_fails _ 4096 0 100 3 9 vm_demo vm_demo_inv); try reflexivity.
  - split; reflexivity.
  - split; vm_compute; discriminate.
  - apply Z2Nat.inj_lt; vm_compute; try discriminate. reflexivity.
Defined.

(** [sys_munmap] never reports success: whatever it is given, and also when it has
    unmapped and freed every page of the range, it returns [-EINVAL] or [-ENOMEM]. *)
Theorem sys_munmap_never_succeeds {P} `{PageAllocator P} pt addr length (s s' : vmm_state P) r :
  sys_munmap pt addr length s = Ret (r, s') -> r = - EINVAL \/ r = - ENOMEM.
Proof.
  unfold sys_munmap. destruct (length =? 0); [intros [= <- _]; now left|].
  destruct (_ || _); [intros [= <- _]; now left|]. intros E.
  apply bind_Ret in E as (x & E & Ex). revert E Ex. generalize 0 at 1 as i. generalize (addr, s).
  induction (Z.to_nat (length / PAGE_SIZE)) as [|n IH]; intros [a s1] i E Ex; cbn [for_ret] in E.
  - injection E as <-. injection Ex as <- _. now right.
  - apply bind_Ret in E as (y & Ey & E). apply bind_Ret in Ey as ([phys s2] & Ev & Ey).
    destruct (phys =? 0).
    + injection Ey as <-. injection E as <-. injection Ex as <- _. now left.
    + apply bind_Ret in Ey as (p & _ & Ey). apply bind_Ret in Ey as (s3 & _ & Ey). injection Ey as <-.
      exact (IH _ _ E Ex).
Qed.

(** One page mapped at 4198400. *)
Definition vm_mapped : vmm_state pmm_state :=
  match ('(phys, p) ← pa_alloc 1 (vm_pages vm_demo); vmm_map 4096 phys 4198400 7 (with_pages p vm_demo)) with
  | Ret s => s
  | _ => vm_demo
  end.

Lemma sys_munmap_never_succeeds_witness :
  exists r s', sys_munmap 4096 4198400 4096 vm_mapped = Ret (r, s') /\
    vxlate vm_mapped 4096 4198400 <> None /\ vxlate s' 4096 4198400 = None /\ (r = - EINVAL \/ r = - ENOMEM).
Proof.
  assert (vxlate vm_mapped 4096 4198400 <> None) as Ev by (vm_compute; discriminate).
  assert (match sys_munmap 4096 4198400 4096 vm_mapped with
          | Ret (_, s') => match vxlate s' 4096 4198400 with None => true | _ => false end
          | _ => false end = true) as Eu by (vm_compute; reflexivity).
  destruct (sys_munmap 4096 4198400 4096 vm_mapped) as [[r s']|m| | |] eqn:E; try discriminate Eu.
  exists r, s'. split; [reflexivity|]. split; [exact Ev|].
  split; [destruct (vxlate s' 4096 4198400); [discriminate Eu|reflexivity]|].
  exact (sys_munmap_never_succeeds 4096 4198400 4096 vm_mapped s' r E).
Defined.

(** ** An address space is a map from pages to frames *)

(** Calls on one address space, and what the queries among them answer. *)
Inductive vmm_call : Type :=
| MapPage (phys v flags : Z) | UnmapPage (v : Z) | SetFlags (v flags : Z) | IsPageFree (v : Z) | VirtToPhys (v : Z).
Inductive vmm_answer : Type := Free (b : bool) | Phys (a : Z).

Fixpoint vmm_calls {P} `{PageAllocator P} (pt : Z) (l : list vmm_call) (s : vmm_state P) : outcome (list vmm_answer * vmm_state P) :=
  match l with
  | [] => Ret ([], s)
  | MapPage phys v flags :: l' => s ← vmm_map pt phys v flags s; vmm_calls pt l' s
  | UnmapPage v :: l' => s ← vmm_unmap pt v s; vmm_calls pt l' s
  | SetFlags v flags :: l' => s ← vmm_set_flags pt v flags s; vmm_calls pt l' s
  | IsPageFree v :: l' => '(b, s) ← vmm_is_page_free pt v s; '(r, s) ← vmm_calls pt l' s; Ret (Free b :: r, s)
  | VirtToPhys v :: l' => '(a, s) ← vmm_virt_to_phys pt v s; '(r, s) ← vmm_calls pt l' s; Ret (Phys a :: r, s)
  end.

(** What is promised: for each page of the address space its frame and flags, if it has any. *)
Definition page_map : Type := Z -> option (Z * Z).
Definition map_call (c : vmm_call) (M : page_map) : page_map :=
  match c with
  | MapPage phys v flags => upd M (vpage v) (Some (phys, flags))
  | UnmapPage v => upd M (vpage v) None
  | SetFlags v flags => upd M (vpage v) (option_map (fun '(phys, _) => (phys, flags)) (M (vpage v)))
  | _ => M
  end.
Definition map_answer (c : vmm_call) (M : page_map) : list vmm_answer :=
  match c with
  | IsPageFree v => [Free (match M (vpage v) with Some _ => false | None => true end)]
  | VirtToPhys v => [Phys (match M (vpage v) with Some (phys, _) => phys | None => 0 end)]
  | _ => []
  end.
Fixpoint map_calls (l : list vmm_call) (M : page_map) : list vmm_answer * page_map :=
  match l with
  | [] => ([], M)
  | c :: l' => let '(r, M') := map_calls l' (map_call c M) in (map_answer c M ++ r, M')
  end.

(** Frames are page aligned, pages are mapped as present, and only pages that are mapped are
    unmapped or get new flags: [vmm_unmap] and [vmm_set_flags] do not look whether the tables
    exist. *)
Definition legal_call (c : vmm_call) (M : page_map) : Prop :=
  match c with
  | MapPage phys v flags => 0 <= v /\ phys mod PAGE_SIZE = 0 /\ 0 <= phys < 2 ^ 63 /\ flag_on flags VMM_PRESENT = true
  | UnmapPage v => 0 <= v /\ M (vpage v) <> None
  | SetFlags v flags => 0 <= v /\ M (vpage v) <> None /\ flag_on flags VMM_PRESENT = true
  | IsPageFree v | VirtToPhys v => 0 <= v
  end.
Fixpoint legal_calls (l : list vmm_call) (M : page_map) : Prop :=
  match l with [] => True | c :: l' => legal_call c M /\ legal_calls l' (map_call c M) end.

Section PageMap.
Context {P : Type} `{PAL : PageAllocatorLaws P}.
Implicit Types (s : vmm_state P) (M : page_map).

(** The tables translate as the map says. *)
Definition translates (pt : Z) s M : Prop :=
  forall v, 0 <= v ->
    match M (vpage v), vxlate s pt v with
    | Some (phys, flags), Some e => maps_to e phys flags /\ phys mod PAGE_SIZE = 0 /\ 0 <= phys < 2 ^ 63
    | None, None => True
    | _, _ => False
    end.

Lemma translates_upd pt s s' M v r : translates pt s M ->
  (forall v', 0 <= v' -> vpage v' <> vpage v -> vxlate s' pt v' = vxlate s pt v') ->
  (forall v', 0 <= v' -> vpage v' = vpage v -> vxlate s' pt v' = vxlate s' pt v) ->
  match r, vxlate s' pt v with
  | Some (phys, flags), Some e => maps_to e phys flags /\ phys mod PAGE_SIZE = 0 /\ 0 <= phys < 2 ^ 63
  | None, None => True
  | _, _ => False
  end -> translates pt s' (upd M (vpage v) r).
Proof.
  intros HT HO HS HR v' Hv'. unfold upd. destruct (Z.eqb_spec (vpage v') (vpage v)) as [E|E]; [rewrite HS by assumption; exact HR|].
  rewrite HO by assumption. now apply HT.
Qed.

(** The translation depends on the page only. *)
Lemma xlate_same_page pt s v v' : 0 <= v -> 0 <= v' -> vpage v' = vpage v -> vxlate s pt v' = vxlate s pt v.
Proof.
  intros Hv Hv' E. unfold vxlate, xlate. assert (path_of v' = path_of v /\ leaf_index v' = leaf_index v) as [-> ->]; [|reflexivity].
  assert (mm_indexer v' = mm_indexer v) as Ei by now rewrite !mm_indexer_eq, E by assumption.
  split; [unfold path_of; now rewrite Ei|]. exact (f_equal (fun '(i, _, _, _) => i) Ei).
Qed.

Lemma set_flags_spec pt v flags s e : vmm_inv pt s -> 0 <= v -> vxlate s pt v = Some e -> flag_on flags VMM_PRESENT = true ->
  Returns (vmm_set_flags pt v flags s) (fun s' => vmm_inv pt s' /\ vxlate s' pt v = Some (leaf_flags e flags) /\
    forall v', 0 <= v' -> vpage v' <> vpage v -> vxlate s' pt v' = vxlate s pt v').
Proof.
  intros [Hinv L] Hv Hx Hp. unfold vxlate, xlate in Hx. destruct (tab (vm_pages s) pt (path_of v)) as [t|] eqn:Et; [|discriminate].
  unfold vmm_set_flags. rewrite L. cbn [acquireLock mbind outcome_bind]. apply Returns_ret.
  change (vm_pages (with_vlock true s)) with (vm_pages s). unfold arch_mm_set_flags.
  destruct (leaf_store_spec (vm_pages s) pt v t (leaf_flags (pa_mem (vm_pages s) (leaf_location pt v (vm_pages s))) flags) Hinv Hv Et) as (I & X & O).
  { rewrite leaf_flags_present, Hp. discriminate. }
  rewrite leaf_flags_present, Hp in X. destruct (pte_present _) eqn:Ep in Hx; [|discriminate]. injection Hx as <-.
  rewrite <- (leaf_location_spec _ _ _ _ Et).
  set (s' := with_vlock _ _). splits; [now split|exact X|exact O].
Qed.

Lemma leaf_flags_keeps e phys f flags : maps_to e phys f -> maps_to (leaf_flags e flags) phys flags.
Proof.
  intros (Ha & _). unfold maps_to. rewrite leaf_flags_present, leaf_flags_addr, Ha.
  unfold leaf_flags. repeat (rewrite pte_set_bit_bits by lia). cbn. splits; reflexivity.
Qed.

(** One call. *)
Lemma vmm_call_spec pt c l s M : vmm_inv pt s -> translates pt s M -> legal_call c M ->
  Safe (vmm_calls pt [c] s) (fun '(r, s') => r = map_answer c M /\ vmm_inv pt s' /\ translates pt s' (map_call c M)) ->
  (forall s', vmm_inv pt s' -> translates pt s' (map_call c M) -> Safe (vmm_calls pt l s') (fun '(r, s2) =>
     r = fst (map_calls l (map_call c M)) /\ vmm_inv pt s2 /\ translates pt s2 (snd (map_calls l (map_call c M))))) ->
  Safe (vmm_calls pt (c :: l) s) (fun '(r, s2) => r = fst (map_calls (c :: l) M) /\ vmm_inv pt s2 /\ translates pt s2 (snd (map_calls (c :: l) M))).
Proof.
  intros HI HT HL H1 HK. cbn [map_calls]. destruct (map_calls l (map_call c M)) as [rl M'] eqn:EM. cbn [fst snd] in *.
  assert (forall m f, (forall s', m = Ret s' -> Safe (f s') (fun '(r, s2) => r = rl /\ vmm_inv pt s2 /\ translates pt s2 M')) ->
    (match m with Ret _ | Panic _ => True | _ => False end) -> Safe (s' ← m; f s') (fun '(r, s2) => r = rl /\ vmm_inv pt s2 /\ translates pt s2 M')) as HB.
  { intros m f Hf Hm. destruct m; try contradiction; [now apply Hf|exact I]. }
  destruct c as [phys v flags|v|v flags|v|v]; cbn [vmm_calls map_answer app] in *.
  - destruct (vmm_map pt phys v flags s) as [s'| | | |]; try contradiction; cbn [mbind outcome_bind Safe] in *; [|exact I]. destruct H1 as (_ & I1 & T1). now apply HK.
  - destruct (vmm_unmap pt v s) as [s'| | | |]; try contradiction; cbn [mbind outcome_bind Safe] in *; [|exact I]. destruct H1 as (_ & I1 & T1). now apply HK.
  - destruct (vmm_set_flags pt v flags s) as [s'| | | |]; try contradiction; cbn [mbind outcome_bind Safe] in *; [|exact I]. destruct H1 as (_ & I1 & T1). now apply HK.
  - destruct (vmm_is_page_free pt v s) as [[b s']| | | |]; try contradiction; cbn [mbind outcome_bind Safe] in *; [|exact I]. destruct H1 as (E1 & I1 & T1).
    eapply Safe_bind; [exact (HK s' I1 T1)|]. intros [r s2] (-> & I2 & T2). cbn [Safe]. splits; auto. now injection E1 as ->.
  - destruct (vmm_virt_to_phys pt v s) as [[b s']| | | |]; try contradiction; cbn [mbind outcome_bind Safe] in *; [|exact I]. destruct H1 as (E1 & I1 & T1).
    eapply Safe_bind; [exact (HK s' I1 T1)|]. intros [r s2] (-> & I2 & T2). cbn [Safe]. splits; auto. now injection E1 as ->.
Qed.

Lemma legal_call_spec pt c s M : vmm_inv pt s -> translates pt s M -> legal_call c M ->
  Safe (vmm_calls pt [c] s) (fun '(r, s') => r = map_answer c M /\ vmm_inv pt s' /\ translates pt s' (map_call c M)).
Proof.
  intros HI HT HL. destruct c as [phys v flags|v|v flags|v|v]; cbn [vmm_calls map_answer map_call legal_call] in *.
  - destruct HL as (Hv & Ha & Hr & Hp). eapply Safe_bind; [exact (vmm_map_spec pt phys v flags s HI Hv Ha Hr Hp)|].
    intros s' (I' & (e & X & Me) & _ & O). cbn [Safe]. splits; auto. apply (translates_upd pt s); auto; [intros; now apply xlate_same_page|]. rewrite X. auto.
  - destruct HL as (Hv & Hm). pose proof (HT v Hv) as Hx. destruct (M (vpage v)) as [[phys f]|]; [|contradiction]. destruct (vxlate s pt v) as [e|] eqn:Ex; [|contradiction].
    destruct (vmm_unmap_correct pt v s e HI Hv Ex) as (s' & -> & I' & X & _ & O). cbn [mbind outcome_bind Safe]. splits; auto.
    apply (translates_upd pt s); auto; [intros; now apply xlate_same_page|]. now rewrite X.
  - destruct HL as (Hv & Hm & Hp). pose proof (HT v Hv) as Hx. destruct (M (vpage v)) as [[phys f]|]; [|contradiction]. destruct (vxlate s pt v) as [e|] eqn:Ex; [|contradiction].
    destruct (set_flags_spec pt v flags s e HI Hv Ex Hp) as (s' & -> & I' & X & O). cbn [mbind outcome_bind Safe option_map]. splits; auto.
    apply (translates_upd pt s); auto; [intros; now apply xlate_same_page|]. rewrite X. destruct Hx as (Me & Ha & Hr). splits; auto; try lia. now apply (leaf_flags_keeps e phys f).
  - destruct (vmm_queries_spec pt v s HI HL) as [-> _]. cbn [mbind outcome_bind Safe]. splits; auto. pose proof (HT v HL) as Hx.
    destruct (M (vpage v)) as [[phys f]|], (vxlate s pt v); try contradiction; reflexivity.
  - destruct (vmm_queries_spec pt v s HI HL) as [_ ->]. cbn [mbind outcome_bind Safe]. splits; auto. pose proof (HT v HL) as Hx.
    destruct (M (vpage v)) as [[phys f]|], (vxlate s pt v); try contradiction; [|reflexivity]. destruct Hx as ((Ea & _) & Ha & Hr). do 2 f_equal.
    now apply pte_table_set.
Qed.
End PageMap.

(** C10: an address space is a map from pages to frames with flags: whatever sequence of
    mapping, unmapping and changing flags is done, page free and address queries in between
    answer as the map does, and in the end the processor finds through the tables exactly the
    frames and flags of the map, and no translation for any other page; the tables stay a tree
    of distinct allocated pages and the lock is free.  The only other outcome is the
    out-of-memory panic.  Pages are mapped as present, and only mapped pages are unmapped or
    given flags. *)
Theorem page_map_refines {P} `{PageAllocatorLaws P} pt l (s : vmm_state P) M :
  vmm_inv pt s -> translates pt s M -> legal_calls l M ->
  Safe (vmm_calls pt l s) (fun '(r, s') => r = fst (map_calls l M) /\ vmm_inv pt s' /\ translates pt s' (snd (map_calls l M))).
Proof.
  revert s M. induction l as [|c l IH]; intros s M HI HT HL; [now cbn|]. destruct HL as [H1 H2].
  apply vmm_call_spec; auto. now apply legal_call_spec.
Qed.

Definition demo_vcalls : list vmm_call :=
  [IsPageFree 4198400; MapPage 32768 4198400 3; MapPage 36864 4202496 7; VirtToPhys 4202500; SetFlags 4198400 1; UnmapPage 4202496; IsPageFree 4202496; VirtToPhys 4198400].

Lemma page_map_refines_witness :
  fst (map_calls demo_vcalls (fun _ => None)) = [Free true; Phys 36864; Free true; Phys 32768] /\
  (exists r, vmm_calls 4096 demo_vcalls vm_demo = Ret r) /\
  Safe (vmm_calls 4096 demo_vcalls vm_demo) (fun '(r, s') => r = fst (map_calls demo_vcalls (fun _ => None)) /\
    vmm_inv 4096 s' /\ translates 4096 s' (snd (map_calls demo_vcalls (fun _ => None)))).
Proof.
  split; [vm_compute; reflexivity|]. split.
  - assert (match vmm_calls 4096 demo_vcalls vm_demo with Ret _ => true | _ => false end = true) as E by (vm_compute; reflexivity).
    destruct (vmm_calls 4096 demo_vcalls vm_demo) as [r|?| | |]; try discriminate E. now exists r.
  - apply (page_map_refines 4096 demo_vcalls vm_demo (fun _ => None) vm_demo_inv).
    + intros v Hv. unfold vxlate, xlate. destruct (tab _ _ _) as [t|] eqn:Et; [|exact I].
      assert (pa_mem (vm_pages vm_demo) (entry_at t (leaf_index v)) = 0) as -> by reflexivity. exact I.
    + cbn [legal_calls demo_vcalls]. vm_compute. repeat split; discriminate.
Defined.
