(* ===== verification/Boot.v ===== *)
(** * Start-up of memory management ([kernel/kernel.c], [kernel/sys/bootloader.c])

    The answers of the boot loader, and the three steps of [_start] that bring up the
    memory: the page allocator, the kernel's own page tables and the heap, on the
    memory map the boot loader reports.  The theorem gives the kernel's address space
    page by page: the direct map, the identity map and the kernel image, and nothing
    else. *)

From Stdlib Require Import Btauto.
From S2P Require Import Prelude Interfaces MemMap Pmm Kheap Paging Vmm.
#[local] Open Scope Z_scope.

(** ** [bootloader.c] *)

(** What the kernel reads of the Limine responses. *)
Record limine : Type := mk_limine {
  kernel_address : Z;
  kernel_size : Z;
  gpt_disk_uuid : Z;
  gpt_part_uuid : Z;
  mbr_disk_id : Z;
  physical_base : Z;
  virtual_base : Z;
  hhdm_offset : Z;
  cpu_count : Z;
  bsp_lapic_id : Z;
  cpus : list Z;
  smp_flags : Z;
  rsdp_address : Z
}.

Definition bl_get_kernel_file_address (B : limine) : Z := kernel_address B.
Definition bl_get_kernel_file_size (B : limine) : Z := kernel_size B.
Definition bl_get_gpt_system_disk_uuid (B : limine) : Z := gpt_disk_uuid B.
Definition bl_get_gpt_system_partition_uuid (B : limine) : Z := gpt_part_uuid B.
Definition bl_get_mbr_system_disk_id (B : limine) : Z := mbr_disk_id B.
Definition bl_get_kernel_phys_base (B : limine) : Z := physical_base B.
Definition bl_get_kernel_virt_base (B : limine) : Z := virtual_base B.
Definition bl_get_hhdm_offset (B : limine) : Z := hhdm_offset B.
Definition bl_get_cpu_count (B : limine) : Z := cpu_count B.
Definition bl_get_bsp_lapic_id (B : limine) : Z := bsp_lapic_id B.
Definition bl_get_cpu_info_array (B : limine) : list Z := cpus B.
(** An index outside of the array faults. *)
Definition bl_get_cpu_info (B : limine) (index : Z) : outcome Z :=
  match (if index <? 0 then None else cpus B !! Z.to_nat index) with Some a => Ret a | None => Fault end.
Definition bl_is_x2apic (B : limine) : Z := u8 (smp_flags B).
Definition bl_get_rsdp_address (B : limine) : Z := rsdp_address B.

(** ** The memory part of [_start]

    [s] is the allocator's memory before, [hdrs] and [cr3] what the boot loader left
    in memory and in the register. *)
Definition memory_boot (B : limine) (m : list memmap_entry_t) (hdrs : Z -> kheap_block_header_t) (cr3 : Z)
    (s : pmm_state) : outcome (vmm_state pmm_state * kheap_state pmm_state) :=
  p ← pmm_init m s;
  v ← vmm_init (bl_get_hhdm_offset B) (bl_get_kernel_phys_base B) (bl_get_kernel_virt_base B) m (mk_vmm p 0 false cr3);
  h ← kheap_init (bl_get_hhdm_offset B) (mk_kheap hdrs 0 0 0 false (vm_pages v));
  Ret (with_pages (pages h) v, h).

(** ** The kernel's address space *)

(** [n] page numbers from [a] on. *)
Definition range (a n x : Z) : bool := (a <=? x) && (x <? a + n).

Section Space.
Variables (hhdm physBase virtBase : Z).

(** The page numbers of the direct map and of the kernel image. *)
Definition direct_page : Z := vpage hhdm.
Definition image_page : Z := vpage virtBase.

(** The physical address a page is mapped to, if it is mapped: identity in the lower
    half, the direct map, the kernel image. *)
Definition frame (n : Z) : Z :=
  if n <? direct_page then n * PAGE_SIZE
  else if n <? image_page then (n - direct_page) * PAGE_SIZE
  else physBase + (n - image_page) * PAGE_SIZE.

(** The number of pages an entry is given: its length rounded up. *)
Definition page_count (e : memmap_entry_t) : Z := (me_length e + 4095) / PAGE_SIZE.

Definition image_of (e : memmap_entry_t) (x : Z) : bool :=
  (me_type e =? MEMMAP_KERNEL_AND_MODULES) && range image_page (page_count e + 1) x.

Definition high_of (e : memmap_entry_t) (x : Z) : bool :=
  (4294967295 <? me_base e + me_length e) &&
  (range (me_base e / PAGE_SIZE) (page_count e) x ||
   range (direct_page + me_base e / PAGE_SIZE) (page_count e) x).

Definition low_pages (x : Z) : bool := range 1 1048575 x || range (direct_page + 1) 1048575 x.

(** The pages that are mapped: the image for every entry of that type, the first
    4 GiB without page 0, and the entries that end above them, both twice.  An entry that
    is not aligned gets as many pages as its length needs, from the page of its base on:
    its last bytes can lie one page further. *)
Definition boot_pages (m : list memmap_entry_t) (x : Z) : bool :=
  existsb (fun e => image_of e x) m || low_pages x || existsb (fun e => high_of e x) m.

(** The map is as the boot loader documents it; its direct map and the image are in the upper
    half, page aligned and apart: all of the physical memory and the first 4 GiB fit in between, and
    the image below the end of the address space. *)
Record layout (m : list memmap_entry_t) : Prop := {
  ly_hhdm : 2 ^ 64 - 2 ^ 47 <= hhdm /\ hhdm mod PAGE_SIZE = 0;
  ly_virt : hhdm + 4294967296 <= virtBase /\ virtBase mod PAGE_SIZE = 0 /\ virtBase < 2 ^ 64;
  ly_phys : 0 <= physBase < 2 ^ 52 /\ physBase mod PAGE_SIZE = 0;
  ly_map : memmap_ok m;
  ly_fits : forall e, e ∈ m -> me_base e + me_length e <= virtBase - hhdm;
  ly_image : forall e, e ∈ m -> me_type e = MEMMAP_KERNEL_AND_MODULES -> virtBase + me_length e + PAGE_SIZE <= 2 ^ 64
}.

Context {P : Type} `{PA : PageAllocator P} `{PAL : !PageAllocatorLaws P}.
Implicit Types (s : vmm_state P) (p : P) (Q : Z -> bool).

(** Exactly the pages of [Q] are mapped under [pt], each to its frame, present and
    writable and nothing else. *)
Record direct (N pt : Z) Q s : Prop := {
  di_inv : vmm_inv pt s;
  di_pt : kernelPT s = pt;
  di_size : pa_pages (vm_pages s) = N;
  di_map : forall n, 0 <= n < 2 ^ 36 ->
    match vxlate s pt (n * PAGE_SIZE) with
    | Some e => Q n = true /\ maps_to e (frame n) 3
    | None => Q n = false
    end
}.

Lemma direct_ext N pt Q Q' s : (forall n, Q n = Q' n) -> direct N pt Q s -> direct N pt Q' s.
Proof.
  intros HQ [H1 H2 Hs H3]. split; auto. intros n Hn. specialize (H3 n Hn). destruct (vxlate _ _ _); now rewrite <- HQ.
Qed.

Lemma vpage_page n : 0 <= n < 2 ^ 36 -> vpage (n * PAGE_SIZE) = n.
Proof. intros Hn. unfold vpage, PAGE_SIZE. rewrite Z.div_mul by lia. now apply Z.mod_small. Qed.

Lemma vpage_upper v : 2 ^ 64 - 2 ^ 47 <= v < 2 ^ 64 -> vpage v = v / 4096 - (2 ^ 52 - 2 ^ 36).
Proof.
  unfold vpage. change (2 ^ 47) with 140737488355328. change (2 ^ 52) with 4503599627370496.
  change (2 ^ 36) with 68719476736. pow2_consts. intros Hv. dm.
Qed.

Lemma xlate_page s pt v : 0 <= v -> vxlate s pt v = vxlate s pt (vpage v * PAGE_SIZE).
Proof.
  intros Hv. assert (0 <= vpage v < 2 ^ 36) as Hr by (apply Z.mod_pos_bound; lia).
  assert (bool_decide (path_of (vpage v * PAGE_SIZE) = path_of v /\ leaf_index (vpage v * PAGE_SIZE) = leaf_index v) = true) as E.
  { rewrite same_page_decide by (unfold PAGE_SIZE; lia). rewrite vpage_page by exact Hr. apply Z.eqb_refl. }
  apply bool_decide_eq_true in E as [E1 E2]. unfold vxlate, xlate. now rewrite E1, E2.
Qed.

(** The number of pages of the allocator does not change. *)
Lemma next_table_pages t i flags p n p' : pa_ok p -> next_table t i flags p = Ret (n, p') ->
  pa_ok p' /\ pa_pages p' = pa_pages p.
Proof.
  intros Hp. unfold next_table. destruct (pte_present _); cbn [negb]; [now intros [= _ <-]|].
  intros ([v p1] & EA & E2)%bind_Ret. pose proof (pa_alloc_spec 1 p ltac:(lia) Hp) as HA. rewrite EA in HA.
  destruct HA as (q & _ & _ & Hok & Hpg & _). destruct (zero_words_spec 512 v p1) as (_ & _ & Z1 & Z2).
  injection E2 as _ <-. rewrite pa_write_pages. unfold zero_table. split; [apply pa_write_ok, Z2, Hok|congruence].
Qed.

Lemma arch_mm_map_pages pt phys v flags p p' : pa_ok p -> arch_mm_map pt phys v flags p = Ret p' ->
  pa_pages p' = pa_pages p.
Proof.
  intros Hp. unfold arch_mm_map. destruct (mm_indexer v) as [[[Pi PTi] PDi] PDPi].
  intros ([t1 p1] & E1 & E)%bind_Ret. apply next_table_pages in E1 as [O1 N1]; [|exact Hp].
  apply bind_Ret in E as ([t2 p2] & E2 & E). apply next_table_pages in E2 as [O2 N2]; [|exact O1].
  apply bind_Ret in E as ([t3 p3] & E3 & E). apply next_table_pages in E3 as [O3 N3]; [|exact O2].
  injection E as <-. rewrite pa_write_pages. congruence.
Qed.

(** One call of [vmm_map] that follows the layout. *)
Lemma map_direct N pt Q n phys v s : direct N pt Q s -> 0 <= v -> vpage v = n -> phys / 4096 = frame n / 4096 ->
  Safe (vmm_map (kernelPT s) phys v 3 s) (direct N pt (fun x => (x =? n) || Q x)).
Proof.
  intros [[Hinv L] Hpt Hsz HQ] Hv <- Hph. unfold vmm_map. rewrite L, Hpt. cbn [acquireLock mbind outcome_bind].
  change (vm_pages (with_vlock true s)) with (vm_pages s).
  pose proof (arch_mm_map_spec (vm_pages s) pt phys v 3 Hinv Hv eq_refl) as HM.
  destruct (arch_mm_map pt phys v 3 (vm_pages s)) as [p2|m| | |] eqn:E; cbn [mbind outcome_bind Safe]; auto.
  destruct HM as (Hinv2 & (e & Xe & Me) & Xo & _). split.
  - now split.
  - exact Hpt.
  - cbn. now rewrite (arch_mm_map_pages _ _ _ _ _ _ (proj1 Hinv) E).
  - intros x Hx. set (s' := with_vlock _ _). destruct (Z.eqb_spec x (vpage v)) as [->|Hne]; cbn [orb].
    + rewrite <- xlate_page by exact Hv. unfold vxlate. cbn. rewrite Xe. split; [reflexivity|].
      revert Me. unfold maps_to. rewrite !Z.shiftr_div_pow2 by lia. change (2 ^ 12) with 4096. now rewrite Hph.
    + unfold vxlate. cbn. rewrite Xo; [exact (HQ x Hx)|unfold PAGE_SIZE; lia|]. now rewrite vpage_page.
Qed.

(** *** The loops *)

Lemma range_snoc a k x : 0 <= k -> range a (k + 1) x = (x =? a + k) || range a k x.
Proof. intros Hk. unfold range. zcmp; simpl; try reflexivity; lia. Qed.

Lemma range_0 a x : range a 0 x = false.
Proof. unfold range. zcmp; simpl; try reflexivity; lia. Qed.

Section Layout.
Context (m : list memmap_entry_t) (LY : layout m).

Lemma upper_pages : direct_page = hhdm / 4096 - 4503530907893760 /\ image_page = virtBase / 4096 - 4503530907893760 /\
  34359738368 <= direct_page /\ direct_page + 1048576 <= image_page < 68719476736 /\
  hhdm = (direct_page + 4503530907893760) * 4096 /\ virtBase = (image_page + 4503530907893760) * 4096.
Proof.
  destruct (ly_hhdm m LY) as [H1 H2]. destruct (ly_virt m LY) as (H3 & H4 & H5). unfold direct_page, image_page, PAGE_SIZE in *.
  rewrite !vpage_upper by lia. change (2 ^ 52 - 2 ^ 36) with 4503530907893760.
  change (2 ^ 47) with 140737488355328 in *. pow2_consts. splits; dm.
Qed.

Lemma image_page_at k : 0 <= k -> image_page + k < 2 ^ 36 ->
  vpage (u64 (k * PAGE_SIZE + virtBase)) = image_page + k /\
  u64 (k * PAGE_SIZE + physBase) = frame (image_page + k).
Proof.
  intros Hk Hr. destruct upper_pages as (_ & _ & U3 & U4 & U5 & U6). destruct (ly_phys m LY) as [P1 _].
  change (2 ^ 36) with 68719476736 in Hr. change (2 ^ 52) with 4503599627370496 in P1. unfold PAGE_SIZE, frame in *.
  assert (0 <= k * 4096 + virtBase < 18446744073709551616) as Hv by lia.
  rewrite !wrap_small by (pow2_consts; lia). split.
  - rewrite vpage_upper by (change (2 ^ 47) with 140737488355328; pow2_consts; lia).
    change (2 ^ 52 - 2 ^ 36) with 4503530907893760. rewrite U6. dm.
  - destruct (Z.ltb_spec (image_page + k) direct_page), (Z.ltb_spec (image_page + k) image_page); unfold PAGE_SIZE; lia.
Qed.

Lemma direct_page_at k : 0 <= k -> direct_page + k < image_page ->
  vpage (k * PAGE_SIZE) = k /\ frame k = k * PAGE_SIZE /\
  vpage (u64 (k * PAGE_SIZE + hhdm)) = direct_page + k /\ frame (direct_page + k) = k * PAGE_SIZE.
Proof.
  intros Hk Hr. destruct upper_pages as (_ & _ & U3 & U4 & U5 & U6). unfold PAGE_SIZE, frame in *.
  rewrite wrap_small by (pow2_consts; lia). splits.
  - apply vpage_page. change (2 ^ 36) with 68719476736. lia.
  - destruct (Z.ltb_spec k direct_page); [reflexivity|lia].
  - rewrite vpage_upper by (change (2 ^ 47) with 140737488355328; pow2_consts; lia).
    change (2 ^ 52 - 2 ^ 36) with 4503530907893760. rewrite U5 at 1. dm.
  - destruct (Z.ltb_spec (direct_page + k) direct_page), (Z.ltb_spec (direct_page + k) image_page); unfold PAGE_SIZE; lia.
Qed.

(** The same for an address in page [k]. *)
Lemma direct_address_at a k : a / 4096 = k -> 0 <= a -> direct_page + k < image_page ->
  vpage a = k /\ a / 4096 = frame k / 4096 /\
  vpage (u64 (a + hhdm)) = direct_page + k /\ a / 4096 = frame (direct_page + k) / 4096.
Proof.
  intros Ha H0 Hr. destruct (direct_page_at k ltac:(dm) Hr) as (E1 & E2 & E3 & E4).
  destruct upper_pages as (_ & _ & U3 & U4 & U5 & U6). rewrite E2, E4. unfold PAGE_SIZE. rewrite Z.div_mul by lia. splits; auto.
  - unfold vpage. rewrite Ha. apply Z.mod_small. change (2 ^ 36) with 68719476736. dm.
  - rewrite wrap_small by (pow2_consts; dm).
    rewrite vpage_upper by (change (2 ^ 47) with 140737488355328; pow2_consts; dm).
    change (2 ^ 52 - 2 ^ 36) with 4503530907893760. rewrite U5 at 1. dm.
Qed.

Lemma map_both_direct N pt Q a k s : direct N pt Q s -> a / 4096 = k -> 0 <= a -> direct_page + k < image_page ->
  Safe (map_both hhdm a s) (direct N pt (fun x => (x =? k) || (x =? direct_page + k) || Q x)).
Proof.
  intros Hs Hk Ha Hr. destruct (direct_address_at a k Hk Ha Hr) as (E1 & E2 & E3 & E4). unfold map_both.
  eapply Safe_bind; [apply (map_direct N pt Q k); [exact Hs|exact Ha|exact E1|exact E2]|].
  intros s1 H1. eapply Safe_mono; [apply (map_direct N pt _ (direct_page + k) _ _ _ H1)|].
  - apply wrap_range. lia.
  - exact E3.
  - exact E4.
  - intros s2. apply direct_ext. intros n. rewrite !orb_assoc. f_equal. apply orb_comm.
Qed.

(** Pages from [a] on, mapped twice. *)
Lemma both_loop N pt a f n : forall i Q s, direct N pt Q s -> 0 <= a -> direct_page + a + Z.of_nat n <= image_page ->
  (forall k, i <= k < i + Z.of_nat n -> f k / 4096 = a + (k - i) /\ 0 <= f k) ->
  Safe (for_up n i (fun k => map_both hhdm (f k)) s)
    (direct N pt (fun x => range a (Z.of_nat n) x || range (direct_page + a) (Z.of_nat n) x || Q x)).
Proof.
  intros i Q s Hs Ha Hn Hf.
  eapply Safe_mono; [apply (for_up_Safe (fun k => direct N pt (fun x => range a (k - i) x || range (direct_page + a) (k - i) x || Q x)))|].
  - rewrite Z.sub_diag. revert Hs. apply direct_ext. intros x. now rewrite !range_0.
  - intros k s1 Hk H1. destruct (Hf k Hk) as [Hf1 Hf2].
    eapply Safe_mono; [apply (map_both_direct N pt _ (f k) (a + (k - i)) s1 H1); auto; lia|].
    intros s2. apply direct_ext. intros x. replace (k + 1 - i) with (k - i + 1) by lia. rewrite !range_snoc by lia.
    rewrite Z.add_assoc. repeat match goal with |- context [range ?a ?b ?c] => destruct (range a b c) end; btauto || (destruct (x =? _), (x =? _); reflexivity).
  - intros s2. apply direct_ext. intros x. now replace (i + Z.of_nat n - i) with (Z.of_nat n) by lia.
Qed.

Lemma entries_direct N pt f (g : memmap_entry_t -> Z -> bool) :
  forall l Q s, direct N pt Q s ->
  (forall e Q s, e ∈ l -> direct N pt Q s -> Safe (f e s) (direct N pt (fun x => g e x || Q x))) ->
  Safe (for_entries f l s) (direct N pt (fun x => existsb (fun e => g e x) l || Q x)).
Proof.
  induction l as [|e l IH]; intros Q s Hs Hf; cbn [for_entries existsb]; [exact Hs|].
  eapply Safe_bind; [apply Hf; [apply elem_of_cons; now left|exact Hs]|].
  intros s1 H1. eapply Safe_mono; [apply IH; [exact H1|intros; apply Hf; [apply elem_of_cons; now right|assumption]]|].
  intros s2. apply direct_ext. intros x. destruct (existsb _ l), (g e x), (Q x); reflexivity.
Qed.

Lemma entry_facts e : e ∈ m -> 0 <= me_base e /\ 0 < me_length e /\
  ALIGN_UP (me_length e) PAGE_SIZE / PAGE_SIZE = page_count e /\ me_base e + me_length e <= virtBase - hhdm.
Proof.
  intros He. destruct (ly_map m LY) as [Hok _]. rewrite Forall_forall in Hok. destruct (Hok e He) as (H1 & H2 & H3 & _).
  pose proof (ly_fits m LY e He). change (2 ^ 52) with 4503599627370496 in H3.
  destruct (ALIGN_UP_spec (me_length e) PAGE_SIZE) as [HA HB]; try (unfold PAGE_SIZE; pow2_consts; lia).
  unfold page_count, PAGE_SIZE in *. splits; auto. dm.
Qed.

Lemma image_entry_direct N pt e Q s : e ∈ m -> direct N pt Q s ->
  Safe (map_kernel_entry physBase virtBase e s) (direct N pt (fun x => image_of e x || Q x)).
Proof.
  intros He Hs. unfold map_kernel_entry, image_of.
  destruct (Z.eqb_spec (me_type e) MEMMAP_KERNEL_AND_MODULES) as [Ht|Ht]; cbn [negb andb orb]; [|exact Hs].
  destruct (entry_facts e He) as (_ & F2 & -> & _). pose proof (ly_image m LY e He Ht) as Hi.
  destruct upper_pages as (_ & _ & U3 & U4 & U5 & U6). rewrite U6 in Hi. unfold PAGE_SIZE in Hi. pow2_consts.
  set (c := page_count e + 1). assert (0 <= c) as Hc by (unfold c, page_count, PAGE_SIZE; dm).
  assert (image_page + c <= 68719476736) as Hb by (unfold c, page_count, PAGE_SIZE; dm).
  eapply Safe_mono; [apply (for_up_Safe (fun k => direct N pt (fun x => range image_page k x || Q x)))|].
  - revert Hs. apply direct_ext. intros x. now rewrite range_0.
  - intros k s1 Hk H1. rewrite Z2Nat.id in Hk by exact Hc.
    destruct (image_page_at k ltac:(lia) ltac:(change (2 ^ 36) with 68719476736; lia)) as [E1 E2]. apply (f_equal (fun x => x / 4096)) in E2.
    replace (kernelPT s) with (kernelPT s1) by (rewrite (di_pt _ _ _ _ Hs); apply (di_pt _ _ _ _ H1)). change (Z.lor VMM_PRESENT VMM_RW) with 3.
    eapply Safe_mono; [apply (map_direct N pt _ (image_page + k) _ _ s1 H1); [apply wrap_range; lia|exact E1|exact E2]|].
    intros s2. apply direct_ext. intros x. rewrite range_snoc by lia. now rewrite orb_assoc.
  - intros s2. apply direct_ext. intros x. now rewrite Z2Nat.id, Z.add_0_l.
Qed.

Lemma high_entry_direct N pt e Q s : e ∈ m -> direct N pt Q s ->
  Safe (map_high_entry hhdm e s) (direct N pt (fun x => high_of e x || Q x)).
Proof.
  intros He Hs. unfold map_high_entry, high_of.
  destruct (entry_facts e He) as (F1 & F2 & -> & F6).
  destruct upper_pages as (_ & _ & U3 & U4 & U5 & U6). rewrite U5, U6 in F6.
  assert (me_base e + me_length e < 281474976710656) as Hend by lia.
  rewrite wrap_small by (pow2_consts; lia).
  destruct (Z.leb_spec (me_base e + me_length e) 4294967295), (Z.ltb_spec 4294967295 (me_base e + me_length e)); cbn [andb orb]; try lia;
    [exact Hs|].
  set (c := page_count e). assert (0 <= c) as Hc by (unfold c, page_count, PAGE_SIZE; dm).
  eapply Safe_mono; [apply (both_loop N pt (me_base e / PAGE_SIZE)); [exact Hs|unfold PAGE_SIZE; dm| |]|].
  - rewrite Z2Nat.id by exact Hc. unfold c, page_count, PAGE_SIZE. dm.
  - intros k Hk. rewrite Z2Nat.id in Hk by exact Hc. unfold c, page_count, PAGE_SIZE in *. rewrite wrap_small by (pow2_consts; dm). split; dm.
  - intros s2. apply direct_ext. intros x. now rewrite Z2Nat.id.
Qed.

Lemma mm_init_direct p k : pa_ok p ->
  Safe (arch_mm_init p) (fun '(t, p') => 0 <= t < pa_pages p * PAGE_SIZE /\ (k = false -> forall c, direct (pa_pages p) t (fun _ => false) (mk_vmm p' t k c))).
Proof.
  intros Hp. pose proof (alloc_table_spec p Hp) as HA. pose proof (pa_alloc_spec 1 p ltac:(lia) Hp) as HB. unfold arch_mm_init.
  destruct (_ ≫= _) as [[t p']|m'| | |] eqn:EB; cbn [Safe]; auto.
  split; [|intros -> c].
  { apply bind_Ret in EB as ([v p1] & EA & EB). rewrite EA in HB. destruct HB as (q & -> & (R1 & R2 & _) & _).
    assert (t = q * PAGE_SIZE) as -> by congruence. unfold PAGE_SIZE. lia. }
  destruct HA as (F1 & F2 & F3 & F4 & F5 & F6 & F7 & F8).
  assert (forall path u, good_path path -> tab p' t path = Some u -> path = [] /\ u = t) as Ht.
  { intros [|i path] u [_ G]; [now intros [= <-]|]. cbn [tab]. apply Forall_cons in G as [Gi _]. now rewrite F8. }
  split; [split; [|reflexivity]|reflexivity|exact F5|].
  - unfold pt_inv. cbn [vm_pages]. splits; [exact F4| | |].
    + intros path u G [-> ->]%Ht; [|exact G]. splits; auto; try lia. rewrite F6. now rewrite Z.eqb_refl.
    + intros q1 q2 u G1 G2 [-> _]%Ht [-> _]%Ht; auto.
    + intros path u i G [-> ->]%Ht Hi; [|exact G]. now rewrite F8.
  - intros n Hn. unfold vxlate, xlate. cbn [vm_pages].
    destruct (path_of_good (n * PAGE_SIZE) ltac:(unfold PAGE_SIZE; lia)) as (G & GL & _).
    destruct (tab p' t (path_of (n * PAGE_SIZE))) as [u|] eqn:E; [|reflexivity].
    apply Ht in E as [E _]; [|exact G]. now rewrite E in GL.
Qed.

(** [vmm_init] builds exactly the address space of the layout. *)
Lemma vmm_init_direct s : pa_ok (vm_pages s) -> VMMlock s = false ->
  pa_pages (vm_pages s) * PAGE_SIZE <= virtBase - hhdm ->
  Safe (vmm_init hhdm physBase virtBase m s) (fun s' =>
    direct (pa_pages (vm_pages s)) (kernelPT s') (boot_pages m) s' /\ (kernelPT s' <> 0 -> cr3 s' = kernelPT s')).
Proof.
  intros Hp L HN. unfold vmm_init. eapply Safe_bind; [apply (mm_init_direct _ (VMMlock s) Hp)|].
  intros [t p] [Ht Hd]. specialize (Hd L (cr3 s)) as Hs. clear Hd.
  eapply Safe_bind; [apply (entries_direct (pa_pages (vm_pages s)) t _ image_of); [exact Hs|intros e Q s0 He; apply image_entry_direct, He]|].
  intros s1 H1. destruct upper_pages as (_ & _ & U3 & U4 & U5 & U6).
  eapply Safe_bind; [apply (both_loop (pa_pages (vm_pages s)) t 1 (fun k => k * PAGE_SIZE)); [exact H1|lia|rewrite Z2Nat.id by lia; lia|intros k Hk; unfold PAGE_SIZE; split; [rewrite Z.div_mul by lia; lia|lia]]|].
  intros s2 H2. eapply Safe_bind; [apply (entries_direct (pa_pages (vm_pages s)) t _ high_of); [exact H2|intros e Q s0 He; apply high_entry_direct, He]|].
  intros s3 H3. cbn [Safe]. pose proof (di_pt _ _ _ _ H3) as Ept. 
  split.
  - destruct H3 as [K1 K2 K3 K4]. unfold vaspace_switch. cbn [kernelPT]. rewrite K2. split; [exact K1|reflexivity|exact K3|].
    intros n Hn. specialize (K4 n Hn). change (vxlate _ t (n * PAGE_SIZE)) with (vxlate s3 t (n * PAGE_SIZE)).
    assert (existsb (fun e => high_of e n) m || (range 1 (Z.of_nat (Z.to_nat 1048575)) n ||
      range (direct_page + 1) (Z.of_nat (Z.to_nat 1048575)) n || (existsb (fun e => image_of e n) m || false)) = boot_pages m n) as <-.
    { unfold boot_pages, low_pages. rewrite Z2Nat.id by lia.
      destruct (existsb (fun e => high_of e n) m), (range 1 _ n), (range (direct_page + 1) _ n), (existsb _ m); reflexivity. }
    exact K4.
  - intros Hz. unfold vaspace_switch in *. cbn [kernelPT cr3] in *. rewrite Ept in *.
    destruct (ly_virt m LY) as (_ & _ & V3). rewrite (wrap_small 64 (t + hhdm)) by (unfold PAGE_SIZE in *; pow2_consts; lia).
    rewrite !Z.gtb_ltb. destruct (Z.ltb_spec virtBase (t + hhdm)); [lia|]. destruct (Z.ltb_spec hhdm (t + hhdm)); [|lia].
    rewrite wrap_small by (unfold PAGE_SIZE in *; pow2_consts; lia). lia.
Qed.
End Layout.
End Space.

(** ** The memory of the kernel after start-up *)

Lemma highest_within m hi : memmap_ok m -> 0 <= hi -> (forall e, e ∈ m -> me_base e + me_length e <= hi) ->
  memmap_get_highest_usable_address m <= hi.
Proof.
  intros Hm H0 Hf. destruct (highest_usable_cases m Hm) as (_ & [->|(e & He & _ & ->)]); [exact H0|exact (Hf e He)].
Qed.

(** C9: the memory part of [_start].  On a memory map as the boot loader documents it,
    with some usable entry that can hold the bitmap, [pmm_init], [vmm_init] and
    [kheap_init] in the order of the code return, or stop with the out-of-memory
    panic.  Afterwards the kernel's page tables are a tree of distinct allocated pages
    in which exactly the pages of the first 4 GiB, of the memory above and of the
    kernel image are mapped, each to the frame the layout gives it, writable and for
    the kernel only; the register holds these tables (unless they are at address 0); and the heap, on the same pages,
    is one free block of the initial size with its invariant established. *)
Theorem memory_boot_correct B m hdrs c s b :
  layout (hhdm_offset B) (physical_base B) (virtual_base B) m ->
  pmm_wf s -> freePages s = 0 -> pmm_lock s = false ->
  find_bitmap_entry (ALIGN_UP (memmap_get_highest_usable_address m) PAGE_SIZE / PAGE_SIZE / 8) m = Some b ->
  Safe (memory_boot B m hdrs c s) (fun '(v, h) =>
    vmm_inv (kernelPT v) v /\ vm_pages v = pages h /\ (kernelPT v <> 0 -> cr3 v = kernelPT v) /\
    (forall n, 0 <= n < 2 ^ 36 ->
      match vxlate v (kernelPT v) (n * PAGE_SIZE) with
      | Some e => boot_pages (hhdm_offset B) (virtual_base B) m n = true /\
                  maps_to e (frame (hhdm_offset B) (physical_base B) (virtual_base B) n) (Z.lor VMM_PRESENT VMM_RW)
      | None => boot_pages (hhdm_offset B) (virtual_base B) m n = false
      end) /\
    exists blk, kheap_inv (hhdm_offset B) h [blk] /\ b_free blk = true /\
      b_size blk = KHEAP_INIT_PAGES * PAGE_SIZE - HDR).
Proof.
  intros LY W Hf L Hb. unfold memory_boot, bl_get_hhdm_offset, bl_get_kernel_phys_base, bl_get_kernel_virt_base.
  set (hhdm := hhdm_offset B) in *. set (pb := physical_base B) in *. set (vb := virtual_base B) in *.
  pose proof (ly_map _ _ _ _ LY) as Hm. destruct (ly_hhdm _ _ _ _ LY) as [Y1 Y1']. destruct (ly_virt _ _ _ _ LY) as (Y2 & _ & Y3).
  change (2 ^ 47) with 140737488355328 in Y1. pow2_consts.
  destruct (pmm_init_correct m s b Hm W Hf L Hb) as (p & -> & B1 & _ & _ & _ & B2 & B3 & _). cbn [mbind outcome_bind].
  assert (pa_ok p) as Hp by now split.
  assert (pa_pages p * PAGE_SIZE <= vb - hhdm) as HN.
  { pose proof (highest_within m (vb - hhdm) Hm ltac:(lia) (ly_fits _ _ _ _ LY)) as HH.
    destruct (highest_usable_address_spec m Hm) as (_ & HR). change (2 ^ 52) with 4503599627370496 in HR.
    pose proof (ALIGN_UP_spec (memmap_get_highest_usable_address m) PAGE_SIZE ltac:(unfold PAGE_SIZE; lia) ltac:(lia)
      ltac:(unfold PAGE_SIZE; pow2_consts; lia)) as [A1 A2].
    change (pa_pages p) with (bitmapSize p * 8). rewrite B1. unfold PAGE_SIZE in *.
    destruct (ly_virt _ _ _ _ LY) as (_ & Y4 & _). unfold PAGE_SIZE in Y4. dm. }
  eapply Safe_bind; [apply (vmm_init_direct hhdm pb vb m LY (mk_vmm p 0 false c)); [exact Hp|reflexivity|exact HN]|].
  intros v [[D1 D2 D3 D4] D5]. cbn [vm_pages] in D3.
  pose proof D1 as [Dinv Dl]. pose proof (proj1 Dinv) as Dok.
  set (h0 := mk_kheap hdrs 0 0 0 false (vm_pages v)).
  pose proof (kheap_init_cases hhdm h0 Dok eq_refl ltac:(lia) Y1' ltac:(cbn [pages h0]; rewrite D3; lia)) as HK.
  pose proof (pa_alloc_spec KHEAP_INIT_PAGES (vm_pages v) ltac:(now split) Dok) as HA.
  destruct (kheap_init hhdm h0) as [h|m'| | |] eqn:EK; cbn [mbind outcome_bind Safe]; try contradiction; [|exact I].
  destruct HK as (blk & K1 & K2 & K3). unfold kheap_init in EK. apply bind_Ret in EK as ([a p'] & EA & EK).
  change (pages h0) with (vm_pages v) in EA. rewrite EA in HA. destruct HA as (q & _ & _ & A1 & _ & A2 & A3).
  assert (pages h = p') as -> by (injection EK as <-; reflexivity).
  destruct (pt_inv_alloc (vm_pages v) p' (kernelPT v) Dinv A1 A2) as [I1 I2].
  { intros i Hi. rewrite A3, Hi. now destruct (_ && _). }
  cbn [with_pages kernelPT vm_pages cr3]. splits; auto.
  - split; [exact I1|exact Dl].
  - intros n Hn. specialize (D4 n Hn). unfold vxlate in *. cbn [vm_pages with_pages]. rewrite I2. exact D4.
  - exists blk. auto.
Qed.

(** A machine with 256 MiB of memory and the kernel at 1 MiB; the reserved entry before it is not aligned. *)
Definition boot_demo : limine :=
  mk_limine 0 0 0 0 0 0x100000 0xFFFFFFFF80000000 0xFFFF800000000000 1 0 [0] 0 0.

Definition boot_map : list memmap_entry_t :=
  [mk_entry 4096 647168 MEMMAP_USABLE; mk_entry 0x9FC00 0x400 MEMMAP_RESERVED; mk_entry 0x100000 0x200000 MEMMAP_KERNEL_AND_MODULES;
   mk_entry 0x300000 0xFD00000 MEMMAP_USABLE].

Lemma memory_boot_correct_witness :
  boot_pages 0xFFFF800000000000 0xFFFFFFFF80000000 boot_map (direct_page 0xFFFF800000000000 + 5) = true /\
  boot_pages 0xFFFF800000000000 0xFFFFFFFF80000000 boot_map 0 = false /\
  let s := mk_pmm (fun _ => 0) 0 0 0 0 0 false (fun _ => 0) in
  Safe (memory_boot boot_demo boot_map (fun _ => mk_hdr 0 0 0 0) 0 s) (fun '(v, h) =>
    vmm_inv (kernelPT v) v /\ vm_pages v = pages h /\ (kernelPT v <> 0 -> cr3 v = kernelPT v) /\
    (forall n, 0 <= n < 2 ^ 36 ->
      match vxlate v (kernelPT v) (n * PAGE_SIZE) with
      | Some e => boot_pages (hhdm_offset boot_demo) (virtual_base boot_demo) boot_map n = true /\
                  maps_to e (frame (hhdm_offset boot_demo) (physical_base boot_demo) (virtual_base boot_demo) n) (Z.lor VMM_PRESENT VMM_RW)
      | None => boot_pages (hhdm_offset boot_demo) (virtual_base boot_demo) boot_map n = false
      end) /\
    exists blk, kheap_inv (hhdm_offset boot_demo) h [blk] /\ b_free blk = true /\
      b_size blk = KHEAP_INIT_PAGES * PAGE_SIZE - HDR).
Proof.
  split; [vm_compute; reflexivity|]. split; [vm_compute; reflexivity|]. intros s.
  apply (memory_boot_correct boot_demo boot_map (fun _ => mk_hdr 0 0 0 0) 0 s 4096); try (vm_compute; reflexivity).
  - split.
    + vm_compute. splits; congruence.
    + vm_compute. splits; congruence.
    + vm_compute. splits; congruence.
    + unfold boot_map. memmap_check.
    + intros e He. unfold boot_map in He. repeat (apply elem_of_cons in He as [->|He]; [vm_compute; discriminate|]). now apply not_elem_of_nil in He.
    + intros e He. unfold boot_map in He. repeat (apply elem_of_cons in He as [->|He]; [vm_compute; congruence|]). now apply not_elem_of_nil in He.
  - unfold pmm_wf. cbn. splits; lia.
Defined.
