(* ===== verification/ListDs.v ===== *)
(** * Linked lists ([kernel/ds/list.c])

    The singly linked list most kernel tables are kept in.  [nodes] is the memory
    of list nodes; nodes come from the interface [KernelHeap].  The abstract value
    of a list is the Rocq list of its values in order; every operation is shown to
    refine the operation on that list, to give back exactly the memory it took, and
    to leave the lock free.  [foreach] loops take fuel; the length of the list plus
    one is enough. *)

From S2P Require Import Prelude Interfaces MemMap Pmm Kheap.
#[local] Open Scope Z_scope.

(** ** The code *)

Record list_node_t : Type := mk_node { n_next : Z; n_value : Z }.

(** [sizeof(list_node_t)] and [sizeof(list_t)]. *)
Definition NODE_SIZE : Z := 16.
Definition LIST_SIZE : Z := 32.

(** A list with the memory of nodes and the heap it lives in. *)
Record list_t (H : Type) : Type := mk_list {
  head : Z;
  tail : Z;
  nodeCount : Z;
  l_lock : spinlock_t;
  nodes : Z -> list_node_t;
  heap : H
}.
Arguments mk_list {H}.
Arguments head {H}.
Arguments tail {H}.
Arguments nodeCount {H}.
Arguments l_lock {H}.
Arguments nodes {H}.
Arguments heap {H}.

Section Code.
Context {H : Type} `{KH : KernelHeap H}.
Implicit Types (l : list_t H).

Definition with_llock (k : spinlock_t) l : list_t H :=
  mk_list (head l) (tail l) (nodeCount l) k (nodes l) (heap l).
Definition set_node_next (a v : Z) (m : Z -> list_node_t) : Z -> list_node_t :=
  upd m a (mk_node v (n_value (m a))).
Definition set_node_value (a v : Z) (m : Z -> list_node_t) : Z -> list_node_t :=
  upd m a (mk_node (n_next (m a)) v).

(** [list_create]: the list and the address of its [list_t]. *)
Definition list_create (m : Z -> list_node_t) (h : H) : outcome (Z * list_t H) :=
  '(a, h) ← kh_malloc LIST_SIZE h;
  Ret (a, mk_list 0 0 0 false m h).

(** The [foreach] of [list_destroy]; the next pointer is read after the node has
    been freed. *)
Fixpoint destroy_nodes (fuel : nat) (node : Z) l : outcome (list_t H) :=
  match fuel with
  | O => OutOfFuel
  | S f =>
      if node =? 0 then Ret l
      else
        h ← kh_free node (heap l);
        let l := mk_list (head l) (tail l) (nodeCount l) (l_lock l) (nodes l) h in
        destroy_nodes f (n_next (nodes l node)) l
  end.

(** [list_destroy] of the list whose [list_t] is at [a]. *)
Definition list_destroy (fuel : nat) (a : Z) l : outcome (list_t H) :=
  k ← acquireLock (l_lock l);
  let l := with_llock k l in
  l ← destroy_nodes fuel (head l) l;
  h ← kh_free a (heap l);
  let l := mk_list (head l) (tail l) (nodeCount l) (l_lock l) (nodes l) h in
  Ret (with_llock (releaseLock (l_lock l)) l).

Definition list_insert (value : Z) l : outcome (list_t H) :=
  '(node, h) ← kh_malloc NODE_SIZE (heap l);
  let m := set_node_value node value (nodes l) in
  k ← acquireLock (l_lock l);
  if nodeCount l =? 0 then
    let m := set_node_next node 0 m in
    Ret (mk_list node node (u64 (nodeCount l + 1)) (releaseLock k) m h)
  else if tail l =? 0 then Fault
  else
    let m := set_node_next (tail l) node m in
    let m := set_node_next node 0 m in
    Ret (mk_list (head l) node (u64 (nodeCount l + 1)) (releaseLock k) m h).

(** [int i] counts the nodes passed. *)
Fixpoint index_of_loop (fuel : nat) (node i value : Z) l : outcome (option Z) :=
  match fuel with
  | O => OutOfFuel
  | S f =>
      if node =? 0 then Ret None
      else if n_value (nodes l node) =? value then Ret (Some i)
      else index_of_loop f (n_next (nodes l node)) (i32 (i + 1)) value l
  end.

Definition list_index_of (fuel : nat) (value : Z) l : outcome (Z * list_t H) :=
  k ← acquireLock (l_lock l);
  let l := with_llock k l in
  r ← index_of_loop fuel (head l) 0 value l;
  match r with
  | Some i => Ret (i, with_llock (releaseLock (l_lock l)) l)
  | None => Ret (-1, with_llock (releaseLock (l_lock l)) l)
  end.

Fixpoint get_loop (fuel : nat) (node i index : Z) l : outcome Z :=
  match fuel with
  | O => OutOfFuel
  | S f =>
      if node =? 0 then Ret 0
      else if i =? index then Ret (n_value (nodes l node))
      else get_loop f (n_next (nodes l node)) (u64 (i + 1)) index l
  end.

(** [list_get]; NULL is 0. *)
Definition list_get (fuel : nat) (index : Z) l : outcome (Z * list_t H) :=
  k ← acquireLock (l_lock l);
  let l := with_llock k l in
  v ← get_loop fuel (head l) 0 index l;
  Ret (v, with_llock (releaseLock (l_lock l)) l).

(** The common body of [list_remove] and [list_remove_index]: take [node] out of
    the list and free it. *)
Definition unlink (prev node : Z) l : outcome (list_t H) :=
  let next := n_next (nodes l node) in
  let hd := if head l =? node then next else head l in
  let tl := if tail l =? node then prev else tail l in
  let m := if negb (prev =? 0) then set_node_next prev next (nodes l) else nodes l in
  h ← kh_free node (heap l);
  Ret (mk_list hd tl (u64 (nodeCount l - 1)) (releaseLock (l_lock l)) m h).

Fixpoint remove_loop (fuel : nat) (prev node value : Z) l : outcome (option (list_t H)) :=
  match fuel with
  | O => OutOfFuel
  | S f =>
      if node =? 0 then Ret None
      else if n_value (nodes l node) =? value then l' ← unlink prev node l; Ret (Some l')
      else remove_loop f node (n_next (nodes l node)) value l
  end.

Definition list_remove (fuel : nat) (value : Z) l : outcome (Z * list_t H) :=
  k ← acquireLock (l_lock l);
  let l := with_llock k l in
  r ← remove_loop fuel 0 (head l) value l;
  match r with
  | Some l' => Ret (0, l')
  | None => Ret (-1, with_llock (releaseLock (l_lock l)) l)
  end.

Fixpoint remove_index_loop (fuel : nat) (prev node i index : Z) l : outcome (option (list_t H)) :=
  match fuel with
  | O => OutOfFuel
  | S f =>
      if node =? 0 then Ret None
      else if i =? index then l' ← unlink prev node l; Ret (Some l')
      else remove_index_loop f node (n_next (nodes l node)) (u64 (i + 1)) index l
  end.

Definition list_remove_index (fuel : nat) (index : Z) l : outcome (Z * list_t H) :=
  k ← acquireLock (l_lock l);
  let l := with_llock k l in
  r ← remove_index_loop fuel 0 (head l) 0 index l;
  match r with
  | Some l' => Ret (0, l')
  | None => Ret (-1, with_llock (releaseLock (l_lock l)) l)
  end.

(** Several lists live in one heap: run a list operation with the current heap [h] and
    give the heap back.  The heap stored in a list that is not being worked on is not
    looked at. *)
Definition set_list_heap (h : H) l : list_t H := mk_list (head l) (tail l) (nodeCount l) (l_lock l) (nodes l) h.
Definition run_list (f : list_t H -> outcome (list_t H)) l (h : H) : outcome (list_t H * H) :=
  l ← f (set_list_heap h l); Ret (l, heap l).
End Code.

(** ** The abstract list *)

(** A node: its address, the size of its heap area, its value. *)
Record cell : Type := mk_cell { c_addr : Z; c_size : Z; c_value : Z }.

Definition first_cell (stop : Z) (cs : list cell) : Z :=
  match cs with [] => stop | c :: _ => c_addr c end.

Fixpoint last_cell (prev : Z) (cs : list cell) : Z :=
  match cs with [] => prev | c :: cs' => last_cell (c_addr c) cs' end.

(** The nodes [cs] are linked in this order, the last one to [stop]. *)
Fixpoint chain (m : Z -> list_node_t) (cs : list cell) (stop : Z) : Prop :=
  match cs with
  | [] => True
  | c :: cs' => m (c_addr c) = mk_node (first_cell stop cs') (c_value c) /\ chain m cs' stop
  end.

Definition cell_area (c : cell) : Z * Z := (c_addr c, c_size c).

Lemma first_cell_app stop c1 c2 : first_cell stop (c1 ++ c2) = first_cell (first_cell stop c2) c1.
Proof. now destruct c1. Qed.

Lemma last_cell_app c1 : forall prev c2, last_cell prev (c1 ++ c2) = last_cell (last_cell prev c1) c2.
Proof. induction c1; intros; cbn; auto. Qed.

Lemma chain_app m c1 : forall c2 stop,
  chain m (c1 ++ c2) stop <-> chain m c1 (first_cell stop c2) /\ chain m c2 stop.
Proof.
  induction c1 as [|c c1 IH]; intros c2 stop; cbn [app chain]; [tauto|].
  rewrite IH, first_cell_app. tauto.
Qed.

Lemma chain_frame m m' cs : forall stop,
  (forall c, c ∈ cs -> m' (c_addr c) = m (c_addr c)) -> chain m cs stop -> chain m' cs stop.
Proof.
  induction cs as [|c cs IH]; intros stop Hf; cbn [chain]; [tauto|]. intros [H1 H2]. split.
  - rewrite Hf by (apply elem_of_cons; now left). exact H1.
  - apply IH; [|exact H2]. intros d Hd. apply Hf. apply elem_of_cons. now right.
Qed.

(** Redirecting the last node. *)
Lemma chain_stop m cs c stop stop' :
  chain m (cs ++ [c]) stop -> NoDup (map c_addr (cs ++ [c])) ->
  chain (set_node_next (c_addr c) stop' m) (cs ++ [c]) stop'.
Proof.
  rewrite !chain_app. cbn [first_cell chain]. intros (H1 & H2 & _) Hnd. rewrite map_app in Hnd.
  apply NoDup_app in Hnd as (_ & Hd & _). split.
  - apply (chain_frame m); [|exact H1]. intros d Hin. unfold set_node_next. apply upd_ne. intros E.
    apply (Hd (c_addr d)); [now apply list_elem_of_fmap_2|rewrite E; now apply list_elem_of_singleton].
  - split; [|exact I]. unfold set_node_next. rewrite upd_eq, H2. reflexivity.
Qed.

Section Refinement.
Context {H : Type} `{KH : KernelHeap H} `{KHL : !KernelHeapLaws H}.
Implicit Types (l : list_t H) (cs : list cell).

(** [list_shape l cs R]: the list has the nodes [cs]; besides the areas of its nodes
    the heap has the live areas [R]. *)
Definition list_shape l cs (R : list (Z * Z)) : Prop :=
  head l = first_cell 0 cs /\ tail l = last_cell 0 cs /\ nodeCount l = u64 (Z.of_nat (length cs)) /\
  chain (nodes l) cs 0 /\ NoDup (map c_addr cs) /\ Forall (fun c => 0 < c_addr c /\ 0 < c_size c) cs /\
  kh_ok (heap l) /\ kh_live (heap l) (map cell_area cs ++ R).

(** The list represents [vs] and nobody holds its lock. *)
Definition list_rep l (vs : list Z) (R : list (Z * Z)) : Prop :=
  l_lock l = false /\ exists cs, list_shape l cs R /\ map c_value cs = vs.

Lemma shape_node l c1 c c2 R :
  list_shape l (c1 ++ c :: c2) R ->
  nodes l (c_addr c) = mk_node (first_cell 0 c2) (c_value c) /\ 0 < c_addr c.
Proof.
  intros (_ & _ & _ & Hc & _ & Hp & _). apply chain_app in Hc as [_ [Hc _]]. split; [exact Hc|].
  rewrite Forall_forall in Hp. apply Hp. apply elem_of_app. right. apply elem_of_cons. now left.
Qed.

(** Nodes that are not the last one have different addresses. *)
Lemma NoDup_addr_mid c1 c c2 d :
  NoDup (map c_addr (c1 ++ c :: c2)) -> d ∈ c1 \/ d ∈ c2 -> c_addr d <> c_addr c.
Proof.
  rewrite map_app. cbn. intros Hnd Hd E. apply NoDup_app in Hnd as (_ & Hn1 & Hn2).
  apply NoDup_cons in Hn2 as [Hn2 _]. destruct Hd as [Hd|Hd].
  - apply (Hn1 (c_addr d)); [now apply list_elem_of_fmap_2|]. apply elem_of_cons. now left.
  - apply Hn2. rewrite <- E. now apply list_elem_of_fmap_2.
Qed.

(** Taking a node out. *)
Lemma unlink_spec l c1 c c2 R :
  list_shape l (c1 ++ c :: c2) R -> Z.of_nat (length (c1 ++ c :: c2)) < 2 ^ 64 ->
  Returns (unlink (last_cell 0 c1) (c_addr c) l) (fun l' =>
    l_lock l' = false /\ list_shape l' (c1 ++ c2) R).
Proof.
  intros Hs Hlen. destruct (shape_node l c1 c c2 R Hs) as [En Hpos].
  destruct Hs as (H1 & H2 & H3 & H4 & H5 & H6 & H7 & H8). unfold unlink. rewrite En. cbn [n_next].
  assert (kh_live (heap l) (cell_area c :: map cell_area (c1 ++ c2) ++ R)) as Hl.
  { eapply kh_live_perm; [exact H8|]. rewrite !map_app. cbn [map]. rewrite <- !app_assoc. cbn [app].
    symmetry. apply Permutation_middle. }
  destruct (kh_free_spec (c_addr c) (c_size c) _ (heap l) H7 Hl) as (h & -> & Ok & Hl'). cbn [mbind outcome_bind].
  apply Returns_ret. split; [reflexivity|]. unfold list_shape. cbn [head tail nodeCount nodes heap].
  assert (forall d, d ∈ c1 \/ d ∈ c2 -> c_addr d <> c_addr c) as Hne by (intros d; now apply NoDup_addr_mid).
  assert (Forall (fun c => 0 < c_addr c /\ 0 < c_size c) (c1 ++ c2)) as Hp.
  { apply Forall_app in H6 as [P1 P2]. apply Forall_cons in P2 as [_ P2]. now apply Forall_app. }
  assert (NoDup (map c_addr (c1 ++ c2))) as Hnd.
  { rewrite map_app in H5 |- *. cbn in H5. apply NoDup_app in H5 as (N1 & N2 & N3).
    apply NoDup_cons in N3 as [_ N3]. apply NoDup_app. splits; auto. intros x Hx Hx'. apply (N2 x Hx).
    apply elem_of_cons. now right. }
  splits; auto.
  - rewrite H1, !first_cell_app. destruct c1 as [|d c1]; cbn [first_cell]; [now rewrite Z.eqb_refl|].
    rewrite (proj2 (Z.eqb_neq _ _)); [reflexivity|]. apply Hne. left. apply elem_of_cons. now left.
  - rewrite H2, !last_cell_app. cbn [last_cell]. destruct c2 as [|d c2 _] using rev_ind.
    + cbn. now rewrite Z.eqb_refl.
    + rewrite !last_cell_app. cbn. rewrite (proj2 (Z.eqb_neq _ _)); [reflexivity|].
      apply Hne. right. apply elem_of_app. right. now apply list_elem_of_singleton.
  - rewrite H3. rewrite !length_app in *. cbn [length] in *. unfold wrap.
    rewrite Zminus_mod_idemp_l. f_equal. lia.
  - apply chain_app in H4 as [C1 [_ C2]]. destruct c1 as [|d c1 _] using rev_ind; [exact C2|].
    rewrite last_cell_app. cbn [last_cell].
    apply Forall_app in H6 as [P1 _]. apply Forall_app in P1 as [_ P1]. rewrite Forall_singleton in P1.
    rewrite (proj2 (Z.eqb_neq (c_addr d) 0)) by lia. cbn [negb].
    apply chain_app. split.
    + apply (chain_stop _ _ _ _ _ C1). rewrite map_app in Hnd. now apply NoDup_app in Hnd.
    + apply (chain_frame (nodes l)); [|exact C2]. intros e He. unfold set_node_next. apply upd_ne. intros E.
      rewrite map_app in Hnd. apply NoDup_app in Hnd as (_ & Hd & _). apply (Hd (c_addr d)).
      * apply list_elem_of_fmap_2. apply elem_of_app. right. now apply list_elem_of_singleton.
      * rewrite <- E. now apply list_elem_of_fmap_2.
Qed.

Lemma remove_loop_spec l value c2 : forall c1 fuel R,
  list_shape l (c1 ++ c2) R -> Z.of_nat (length (c1 ++ c2)) < 2 ^ 64 -> (length c2 < fuel)%nat ->
  (forall c, c ∈ c1 -> c_value c <> value) ->
  Returns (remove_loop fuel (last_cell 0 c1) (first_cell 0 c2) value l) (fun r =>
    match r with
    | Some l' => exists d1 c d2, c1 ++ c2 = d1 ++ c :: d2 /\ c_value c = value /\
                   (forall e, e ∈ d1 -> c_value e <> value) /\ l_lock l' = false /\ list_shape l' (d1 ++ d2) R
    | None => forall c, c ∈ c1 ++ c2 -> c_value c <> value
    end).
Proof.
  induction c2 as [|c c2 IH]; intros c1 [|f] R Hs Hlen Hf Hno; cbn [length] in Hf; try lia.
  - apply Returns_ret. now rewrite app_nil_r.
  - destruct (shape_node l c1 c c2 R Hs) as [En Hpos]. cbn [remove_loop first_cell].
    rewrite (proj2 (Z.eqb_neq (c_addr c) 0)), En by lia. cbn [n_value n_next].
    destruct (Z.eqb_spec (c_value c) value) as [E|E].
    + destruct (unlink_spec l c1 c c2 R Hs Hlen) as (l' & -> & L & Hs'). apply Returns_ret.
      exists c1, c, c2. splits; auto.
    + specialize (IH (c1 ++ [c]) f R). rewrite <- app_assoc, last_cell_app in IH. cbn [app last_cell] in IH.
      apply IH; auto; [lia|]. intros e [He| ->%list_elem_of_singleton]%elem_of_app; auto.
Qed.

(** Cells against values. *)
Lemma map_split_value cs vs v1 v v2 :
  map c_value cs = vs -> vs = v1 ++ v :: v2 ->
  exists c1 c c2, cs = c1 ++ c :: c2 /\ map c_value c1 = v1 /\ c_value c = v /\ map c_value c2 = v2.
Proof.
  intros <- E. apply map_eq_app in E as (c1 & r & -> & E1 & E). apply map_eq_cons in E as (c & c2 & -> & E2 & E3).
  exists c1, c, c2. auto.
Qed.

(** The first occurrence of a value splits a list in one way only. *)
Lemma first_split_unique (v : Z) a b a' b' :
  a ++ v :: b = a' ++ v :: b' -> v ∉ a -> v ∉ a' -> a = a' /\ b = b'.
Proof.
  revert a'. induction a as [|x a IH]; intros [|y a'] E Ha Ha'; cbn in E.
  - injection E as ->. auto.
  - injection E as -> _. destruct Ha'. apply elem_of_cons. now left.
  - injection E as -> _. destruct Ha. apply elem_of_cons. now left.
  - injection E as -> E. destruct (IH a' E) as [-> ->]; auto.
    + intros Hin. apply Ha. apply elem_of_cons. now right.
    + intros Hin. apply Ha'. apply elem_of_cons. now right.
Qed.

Lemma index_of_loop_spec l value R c2 : forall c1 fuel,
  list_shape l (c1 ++ c2) R -> Z.of_nat (length (c1 ++ c2)) < 2 ^ 31 -> (length c2 < fuel)%nat ->
  (forall c, c ∈ c1 -> c_value c <> value) ->
  Returns (index_of_loop fuel (first_cell 0 c2) (Z.of_nat (length c1)) value l) (fun r =>
    match r with
    | Some i => 0 <= i /\ map c_value (c1 ++ c2) !! Z.to_nat i = Some value /\
                forall j, (j < Z.to_nat i)%nat -> map c_value (c1 ++ c2) !! j <> Some value
    | None => value ∉ map c_value (c1 ++ c2)
    end).
Proof.
  induction c2 as [|c c2 IH]; intros c1 [|f] Hs Hlen Hf Hno; cbn [length] in Hf; try lia.
  - apply Returns_ret. rewrite app_nil_r. intros Hin. apply list_elem_of_fmap in Hin as (c & -> & Hc).
    now apply (Hno c).
  - destruct (shape_node l c1 c c2 R Hs) as [En Hpos]. cbn [index_of_loop first_cell].
    rewrite (proj2 (Z.eqb_neq (c_addr c) 0)), En by lia. cbn [n_value n_next].
    destruct (Z.eqb_spec (c_value c) value) as [E|E].
    + apply Returns_ret. rewrite Nat2Z.id, map_app. splits; [lia| |].
      * rewrite lookup_app_r by (rewrite length_map; lia). rewrite length_map, Nat.sub_diag. cbn. now rewrite E.
      * intros j Hj. rewrite lookup_app_l by (rewrite length_map; lia). intros Hv.
        apply list_elem_of_lookup_2 in Hv. apply list_elem_of_fmap in Hv as (d & -> & Hd). now apply (Hno d).
    + specialize (IH (c1 ++ [c]) f). rewrite <- app_assoc in IH. cbn [app] in IH. rewrite length_app in *. cbn [length] in *.
      rewrite swrap_small by (pow2_consts; lia).
      replace (Z.of_nat (length c1) + 1) with (Z.of_nat (length (c1 ++ [c]))) by (rewrite length_app; cbn; lia).
      apply IH; auto; try lia.
      intros e [He| ->%list_elem_of_singleton]%elem_of_app; auto.
Qed.

Lemma get_loop_spec l R index c2 : forall c1 fuel,
  list_shape l (c1 ++ c2) R -> Z.of_nat (length (c1 ++ c2)) < 2 ^ 31 -> (length c2 < fuel)%nat ->
  Z.of_nat (length c1) <= index ->
  get_loop fuel (first_cell 0 c2) (Z.of_nat (length c1)) index l =
    Ret (default 0 (map c_value (c1 ++ c2) !! Z.to_nat index)).
Proof.
  induction c2 as [|c c2 IH]; intros c1 [|f] Hs Hlen Hf Hi; cbn [length] in Hf; try lia.
  - cbn. rewrite app_nil_r. rewrite lookup_ge_None_2; [reflexivity|]. rewrite length_map. lia.
  - destruct (shape_node l c1 c c2 R Hs) as [En Hpos]. cbn [get_loop first_cell].
    rewrite (proj2 (Z.eqb_neq (c_addr c) 0)), En by lia. cbn [n_value n_next].
    destruct (Z.eqb_spec (Z.of_nat (length c1)) index) as [E|E].
    + rewrite <- E, Nat2Z.id, map_app, lookup_app_r by (rewrite length_map; lia).
      rewrite length_map, Nat.sub_diag. reflexivity.
    + specialize (IH (c1 ++ [c]) f). rewrite <- app_assoc in IH. cbn [app] in IH. rewrite length_app in *. cbn [length] in *.
      rewrite wrap_small by (pow2_consts; lia).
      replace (Z.of_nat (length c1) + 1) with (Z.of_nat (length (c1 ++ [c]))) by (rewrite length_app; cbn; lia).
      apply IH; auto; rewrite ?length_app in *; cbn; lia.
Qed.
(** [list_insert] on the nodes. *)
Lemma list_insert_shape l cs R v :
  l_lock l = false -> list_shape l cs R -> Z.of_nat (length cs) < 2 ^ 64 - 1 ->
  Safe (list_insert v l) (fun l' => l_lock l' = false /\ exists c, c_value c = v /\ list_shape l' (cs ++ [c]) R).
Proof.
  intros L (H1 & H2 & H3 & H4 & H5 & H6 & H7 & H8) Hlen.
  unfold list_insert.
  pose proof (kh_malloc_spec NODE_SIZE (heap l) _ ltac:(split; [easy|reflexivity]) H7 H8) as HM.
  destruct (kh_malloc NODE_SIZE (heap l)) as [[a h]|m| | |]; cbn [mbind outcome_bind Safe]; auto.
  destruct HM as (n & A1 & A2 & A3 & A4 & A5 & A6 & A7). unfold NODE_SIZE in A3.
  set (c := mk_cell a n v).
  assert (forall d, d ∈ cs -> c_addr d <> a) as Hne.
  { intros d Hd E. rewrite Forall_forall in A7. rewrite Forall_forall in H6.
    specialize (A7 (cell_area d) ltac:(apply elem_of_app; left; now apply list_elem_of_fmap_2)).
    specialize (H6 d Hd). unfold apart, cell_area in A7. cbn in A7. lia. }
  rewrite L. cbn [acquireLock mbind outcome_bind releaseLock]. rewrite H3, wrap_small by lia.
  assert (forall hd tl m, hd = first_cell 0 (cs ++ [c]) -> tl = a -> chain m (cs ++ [c]) 0 ->
    let l' := mk_list hd tl (u64 (Z.of_nat (length cs) + 1)) false m h in
    l_lock l' = false /\ exists c, c_value c = v /\ list_shape l' (cs ++ [c]) R) as Hrep.
  { intros hd tl m E1 E2 Hc. split; [reflexivity|]. exists c. split; [reflexivity|].
    unfold list_shape. cbn [head tail nodeCount nodes heap]. splits; auto.
    - now rewrite last_cell_app, E2.
    - rewrite length_app. cbn [length]. f_equal. lia.
    - rewrite map_app. cbn [map c_addr c]. apply NoDup_app. splits; auto; [|apply NoDup_singleton].
      intros x Hx ->%list_elem_of_singleton. apply list_elem_of_fmap in Hx as (d & E & Hd). now apply (Hne d).
    - apply Forall_app. split; [exact H6|]. apply Forall_singleton. cbn. lia.
    - eapply kh_live_perm; [exact A6|]. rewrite map_app, <- app_assoc. cbn [map app cell_area c_addr c_size c].
      apply Permutation_middle. }
  destruct cs as [|d cs _] using rev_ind.
  - cbn. apply Hrep; auto. split; [|exact I]. cbn. unfold set_node_next, set_node_value, upd. cbn. now rewrite Z.eqb_refl.
  - rewrite (proj2 (Z.eqb_neq _ 0)) by (rewrite length_app; cbn; lia).
    rewrite H2, last_cell_app. cbn [last_cell]. rewrite Forall_app, Forall_singleton in H6.
    rewrite (proj2 (Z.eqb_neq (c_addr d) 0)) by lia. cbn [Safe]. apply Hrep; auto.
    { rewrite H1, !first_cell_app. now destruct cs. }
    assert (c_addr d <> a) as Hd by (apply Hne; apply elem_of_app; right; now apply list_elem_of_singleton).
    apply chain_app. split.
    + cbn [first_cell c_addr c].
      apply (chain_frame (set_node_next (c_addr d) a (nodes l))); [|now apply (chain_stop _ _ _ 0)].
      intros e He. specialize (Hne e He). unfold set_node_next, set_node_value, upd. cbn.
      rewrite (proj2 (Z.eqb_neq _ _) Hne), (proj2 (Z.eqb_neq _ _) Hd). reflexivity.
    + split; [|exact I]. cbn [first_cell c_addr c_value c]. unfold set_node_next at 1. rewrite upd_eq.
      unfold set_node_next, set_node_value, upd. cbn.
      rewrite Z.eqb_refl, (proj2 (Z.eqb_neq a (c_addr d))) by congruence. reflexivity.
Qed.


(** [list_remove] on the nodes. *)
Lemma list_remove_shape l cs R v fuel :
  l_lock l = false -> list_shape l cs R -> Z.of_nat (length cs) < 2 ^ 64 -> (length cs < fuel)%nat ->
  Returns (list_remove fuel v l) (fun '(r, l') => l_lock l' = false /\
    ((r = 0 /\ exists d1 c d2, cs = d1 ++ c :: d2 /\ c_value c = v /\ (forall e, e ∈ d1 -> c_value e <> v) /\
        list_shape l' (d1 ++ d2) R) \/
     (r = -1 /\ (forall c, c ∈ cs -> c_value c <> v) /\ list_shape l' cs R))).
Proof.
  intros L Hs Hlen Hf. unfold list_remove. rewrite L. cbn [acquireLock mbind outcome_bind]. pose proof Hs as (H1 & _).
  change (head (with_llock true l)) with (head l). rewrite H1.
  destruct (remove_loop_spec (with_llock true l) v cs [] fuel R Hs Hlen Hf) as (r & E & Hr).
  { intros c Hc. now apply not_elem_of_nil in Hc. }
  cbn [last_cell app] in E, Hr. rewrite E. cbn [mbind outcome_bind]. destruct r as [l'|]; apply Returns_ret.
  - destruct Hr as (d1 & c & d2 & -> & <- & Hno & L' & Hs'). split; [exact L'|]. left. split; [reflexivity|].
    exists d1, c, d2. auto.
  - split; [reflexivity|]. right. auto.
Qed.
End Refinement.

(** ** The theorems *)

(** The empty list on the one-page heap of [Kheap]. *)
#[local] Instance demo_heap : KernelHeap (kheap_state pmm_state) := kheap_heap HHDM.
#[local] Instance demo_heap_laws : KernelHeapLaws (kheap_state pmm_state) := kheap_heap_laws HHDM.

Definition list_demo : list_t (kheap_state pmm_state) :=
  mk_list 0 0 0 false (fun _ => mk_node 0 0) heap_demo.

Lemma list_demo_rep : list_rep list_demo [] [].
Proof.
  split; [reflexivity|]. exists []. split; [|reflexivity]. unfold list_shape. splits; try reflexivity.
  - constructor.
  - constructor.
  - exists [heap_demo_block]. exact heap_demo_inv.
  - exists [heap_demo_block]. split; [exact heap_demo_inv|reflexivity].
Qed.

(** [list_insert] appends: from a list that represents [vs] it yields one that
    represents [vs ++ [v]], takes one node from the heap and nothing else, and leaves
    the lock free; the only other outcome is the out-of-memory panic. *)
Theorem list_insert_correct {H} `{KH : KernelHeap H} `{KHL : !KernelHeapLaws H} (l : list_t H) vs R v :
  list_rep l vs R -> Z.of_nat (length vs) < 2 ^ 64 - 1 ->
  Safe (list_insert v l) (fun l' => list_rep l' (vs ++ [v]) R).
Proof.
  intros (L & cs & Hs & <-) Hlen. rewrite length_map in Hlen.
  eapply Safe_mono; [exact (list_insert_shape l cs R v L Hs Hlen)|]. intros l' (L' & c & <- & Hs').
  split; [exact L'|]. exists (cs ++ [c]). split; [exact Hs'|apply map_app].
Qed.

Lemma list_insert_correct_witness : Safe (list_insert 7 list_demo) (fun l' => list_rep l' ([] ++ [7]) []).
Proof. apply (list_insert_correct list_demo [] [] 7); [exact list_demo_rep|reflexivity]. Defined.

(** [list_remove] removes the first occurrence of the value and returns 0, giving
    its node back to the heap; it returns -1 and changes nothing when the value is not
    in the list.  It returns for fuel above the length and leaves the lock free. *)
Theorem list_remove_correct {H} `{KH : KernelHeap H} `{KHL : !KernelHeapLaws H} (l : list_t H) vs R v fuel :
  list_rep l vs R -> Z.of_nat (length vs) < 2 ^ 64 -> (length vs < fuel)%nat ->
  Returns (list_remove fuel v l) (fun '(r, l') =>
    (r = 0 /\ exists v1 v2, vs = v1 ++ v :: v2 /\ (v ∉ v1) /\ list_rep l' (v1 ++ v2) R) \/
    (r = -1 /\ (v ∉ vs) /\ list_rep l' vs R)).
Proof.
  intros (L & cs & Hs & <-) Hlen Hf. rewrite length_map in *.
  eapply Returns_mono; [exact (list_remove_shape l cs R v fuel L Hs Hlen Hf)|]. intros [r l'] [L' [C|C]].
  - destruct C as (-> & d1 & c & d2 & -> & <- & Hno & Hs'). left. split; [reflexivity|].
    exists (map c_value d1), (map c_value d2). rewrite map_app. splits; auto.
    + intros Hin. apply list_elem_of_fmap in Hin as (e & Ee & He). now apply (Hno e He).
    + split; [exact L'|]. exists (d1 ++ d2). split; [exact Hs'|]. now rewrite map_app.
  - destruct C as (-> & Hr & Hs'). right. splits; auto.
    + intros Hin. apply list_elem_of_fmap in Hin as (e & Ee & He). now apply (Hr e He).
    + split; [exact L'|]. now exists cs.
Qed.

Lemma list_remove_correct_witness :
  Returns (list_remove 1 7 list_demo) (fun '(r, l') =>
    (r = 0 /\ exists v1 v2, [] = v1 ++ 7 :: v2 /\ (7 ∉ v1) /\ list_rep l' (v1 ++ v2) []) \/
    (r = -1 /\ (7 ∉ []) /\ list_rep l' [] [])).
Proof. apply (list_remove_correct list_demo [] [] 7 1); [exact list_demo_rep|reflexivity|cbn; lia]. Defined.

(** The lookups follow the list: [list_get] returns the value at the index, or
    NULL past the end; [list_index_of] returns the index of the first occurrence of a
    value, or -1; neither changes the list. *)
Theorem list_lookup_correct {H} `{KH : KernelHeap H} `{KHL : !KernelHeapLaws H} (l : list_t H) vs R v index fuel :
  list_rep l vs R -> Z.of_nat (length vs) < 2 ^ 31 -> (length vs < fuel)%nat -> 0 <= index ->
  list_get fuel index l = Ret (default 0 (vs !! Z.to_nat index), l) /\
  Returns (list_index_of fuel v l) (fun '(i, l') => l' = l /\
    ((0 <= i /\ vs !! Z.to_nat i = Some v /\ forall j, (j < Z.to_nat i)%nat -> vs !! j <> Some v) \/
     (i = -1 /\ v ∉ vs))).
Proof.
  intros (L & cs & Hs & <-) Hlen Hf Hi. rewrite length_map in *. pose proof Hs as (H1 & _).
  assert (with_llock false (with_llock true l) = l) as EL by (destruct l; cbn in *; now subst).
  unfold list_get, list_index_of. rewrite L. cbn [acquireLock mbind outcome_bind].
  change (head (with_llock true l)) with (head l). rewrite H1. split.
  - pose proof (get_loop_spec (with_llock true l) R index cs [] fuel Hs Hlen Hf ltac:(cbn; lia)) as HG.
    cbn [length app] in HG. change (Z.of_nat 0) with 0 in HG. rewrite HG. cbn [mbind outcome_bind releaseLock].
    unfold releaseLock. now rewrite EL.
  - destruct (index_of_loop_spec (with_llock true l) v R cs [] fuel Hs Hlen Hf) as (r & E & Hr).
    { intros c Hc. now apply not_elem_of_nil in Hc. }
    cbn [length app] in E, Hr. change (Z.of_nat 0) with 0 in E. rewrite E. cbn [mbind outcome_bind releaseLock].
    unfold releaseLock. destruct r as [i|]; apply Returns_ret; rewrite EL; split; auto.
Qed.

Lemma list_lookup_correct_witness :
  list_get 1 3 list_demo = Ret (0, list_demo) /\
  Returns (list_index_of 1 7 list_demo) (fun '(i, l') => l' = list_demo /\
    ((0 <= i /\ [] !! Z.to_nat i = Some 7 /\ forall j, (j < Z.to_nat i)%nat -> [] !! j <> Some 7) \/
     (i = -1 /\ 7 ∉ []))).
Proof. apply (list_lookup_correct list_demo [] [] 7 3 1); [exact list_demo_rep|reflexivity|cbn; lia|lia]. Defined.
