(* ===== verification/Path.v ===== *)
(** * Path names ([vnode_get_absolute_path] of [kernel/sys/fal/vnode.c])

    Building an absolute path in a freshly allocated buffer and simplifying it in
    place.  Strings live in byte memory as in [MemUtil]; the buffer comes from the
    interface [KernelHeap].  [fuel] bounds the string loops and the scan of the
    buffer; a bit more than the longest path is enough. *)

From S2P Require Import Prelude Interfaces MemMap Pmm MemUtil Kheap.
#[local] Open Scope Z_scope.

Definition PATH_MAX : Z := 4096.

(** Characters. *)
Definition SLASH : Z := 47.
Definition DOT : Z := 46.

(** [strncmp(&buf[i], literal, n)]: the literal's characters, then its terminator. *)
Fixpoint strncmp_lit (n : nat) (a : Z) (lit : list Z) (m : mem) : Z :=
  match n with
  | O => 0
  | S n' =>
      let c := hd 0 lit in
      if negb (m a =? 0) && negb (c =? 0) && (m a =? c)
      then strncmp_lit n' (a + 1) (tl lit) m
      else i8 (m a) - i8 c
  end.

(** [strncat(buf, "/", 1)]. *)
Definition append_slash (fuel : nat) (buf : Z) (m : mem) : outcome mem :=
  e ← str_end fuel buf m; Ret (upd (upd m e SLASH) (e + 1) 0).

(** [memcpy(&buf[dest], &buf[src], strlen(&buf[src])+1)]. *)
Definition shift_left (fuel : nat) (buf dest src : Z) (m : mem) : outcome mem :=
  l ← strlen fuel (buf + src) m; Ret (memcpy (buf + dest) (buf + src) (u32 (l + 1)) m).

(** The inner loop [for(int j = i-1; j > 0; j--)]: go back to the previous slash and
    move the rest of the path to [j + off]. *)
Fixpoint back_to_slash (fuel n : nat) (buf j off src : Z) (m : mem) : outcome mem :=
  match n with
  | O => OutOfFuel
  | S n' =>
      if j >? 0 then
        if m (buf + j) =? SLASH then shift_left fuel buf (j + off) src m
        else back_to_slash fuel n' buf (j - 1) off src m
      else Ret m
  end.

(** One iteration of the scan at index [i]; [dirindex] counts the slashes seen. *)
Definition check_step (fuel : nat) (buf i dirindex : Z) (m : mem) : outcome (Z * mem) :=
  let dirindex := if m (buf + i) =? SLASH then i32 (dirindex + 1) else dirindex in
  m ← (if strncmp_lit 4 (buf + i) [SLASH; DOT; DOT; SLASH] m =? 0 then
         if dirindex <? 2 then shift_left fuel buf i (i + 3) m
         else back_to_slash fuel fuel buf (i32 (i - 1)) 0 (i + 3) m
       else if strncmp_lit 3 (buf + i) [SLASH; DOT; DOT] m =? 0 then
         if dirindex <? 2 then shift_left fuel buf i (i + 3) m
         else back_to_slash fuel fuel buf (i32 (i - 1)) 1 (i + 3) m
       else if strncmp_lit 2 (buf + i) [SLASH; DOT] m =? 0 then shift_left fuel buf i (i + 2) m
       else if strncmp_lit 2 (buf + i) [SLASH; SLASH] m =? 0 then shift_left fuel buf i (i + 1) m
       else Ret m);
  Ret (dirindex, m).

(** The loop [for(uint32_t i = 0; i < strlen(buf); i++)]. *)
Fixpoint check_path (fuel n : nat) (buf i dirindex : Z) (m : mem) : outcome mem :=
  match n with
  | O => OutOfFuel
  | S n' =>
      l ← strlen fuel buf m;
      if i <? l then
        '(dirindex, m) ← check_step fuel buf i dirindex m;
        check_path fuel n' buf (u32 (i + 1)) dirindex m
      else Ret m
  end.

(** The result of the function: the buffer or NULL, [kerrno], memory and heap. *)
Record path_result (H : Type) : Type := mk_path {
  p_buf : option Z;
  p_errno : Z;
  p_mem : mem;
  p_heap : H
}.
Arguments mk_path {H}.
Arguments p_buf {H}.
Arguments p_errno {H}.
Arguments p_mem {H}.
Arguments p_heap {H}.

Section Code.
Context {H : Type} `{KH : KernelHeap H}.

Definition vnode_get_absolute_path (fuel : nat) (root relative : Z) (m : mem) (h : H) : outcome (path_result H) :=
  '(buf, h) ← kh_malloc (PATH_MAX + 1) h;
  lroot ← strlen fuel root m;
  lrel ← strlen fuel relative m;
  let size := u32 (lroot + lrel) in
  if size >? PATH_MAX then Ret (mk_path None ENAMETOOLONG m h)
  else if m relative =? SLASH then
    let m := memcpy buf relative (u32 (lrel + 1)) m in
    m ← check_path fuel fuel buf 0 0 m;
    Ret (mk_path (Some buf) 0 m h)
  else
    let m := memcpy buf root lroot m in
    let sptr := lroot in
    let sep := negb (m (root + sptr - 1) =? SLASH) in
    if sep && (size + 1 >? PATH_MAX) then
      h ← kh_free buf h; Ret (mk_path None ENAMETOOLONG m h)
    else
      let m := if sep then upd m (buf + sptr) SLASH else m in
      let sptr := if sep then sptr + 1 else sptr in
      let m := memcpy (buf + sptr) relative (u32 (lrel + 1)) m in
      m ← append_slash fuel buf m;
      m ← check_path fuel fuel buf 0 0 m;
      Ret (mk_path (Some buf) 0 m h).
End Code.

(** ** Simple paths *)

(** No empty component and no component that starts with a dot. *)
Fixpoint simple (s : list Z) : Prop :=
  match s with
  | c :: ((d :: _) as s') => ~ (c = SLASH /\ (d = SLASH \/ d = DOT)) /\ simple s'
  | _ => True
  end.

Lemma simple_nth s : forall j,
  simple s -> (S j < length s)%nat -> nth j s 0 = SLASH -> nth (S j) s 0 <> SLASH /\ nth (S j) s 0 <> DOT.
Proof.
  induction s as [|c [|d s] IH]; intros [|j] Hs Hj E; cbn [length nth] in *; try lia.
  - destruct Hs as [Hs _]. split; intros E2; apply Hs; auto.
  - destruct Hs as [_ Hs]. apply (IH j Hs); [cbn; lia|exact E].
Qed.

Lemma i8_inj a b : 0 <= a < 256 -> 0 <= b < 256 -> i8 a - i8 b = 0 -> a = b.
Proof. intros. wrap_lia. Qed.

(** A literal that matches at [a] agrees on its first two characters. *)
Lemma strncmp_lit_match n a x y lit m :
  0 < x < 256 -> 0 < y < 256 -> 0 <= m a < 256 -> 0 <= m (a + 1) < 256 ->
  strncmp_lit (S (S n)) a (x :: y :: lit) m = 0 -> m a = x /\ m (a + 1) = y.
Proof.
  intros Hx Hy Ha Ha1. cbn [strncmp_lit hd tl].
  destruct (Z.eqb_spec (m a) 0), (Z.eqb_spec x 0), (Z.eqb_spec (m a) x); cbn [negb andb]; try lia;
    try (intros E; apply i8_inj in E; lia).
  destruct (Z.eqb_spec (m (a + 1)) 0), (Z.eqb_spec y 0), (Z.eqb_spec (m (a + 1)) y); cbn [negb andb]; try lia;
    try (intros E; apply i8_inj in E; lia).
Qed.

(** Bytes of a string in memory, its terminator included. *)
Lemma cstr_byte m a s j :
  cstr m a s -> 0 <= j <= Z.of_nat (length s) -> m (a + j) = nth (Z.to_nat j) s 0 /\ 0 <= m (a + j) < 256.
Proof.
  intros Hs Hj. destruct (Z.eq_dec j (Z.of_nat (length s))) as [->|Hne].
  - rewrite (cstr_zero m a s Hs), nth_overflow by lia. lia.
  - destruct (cstr_elim m s a j Hs) as [-> R]; [lia|]. split; [reflexivity|lia].
Qed.

(** On a simple path the scan changes nothing. *)
Lemma check_step_simple fuel buf s i dirindex m :
  cstr m buf s -> simple s -> 0 <= i < Z.of_nat (length s) ->
  exists d, check_step fuel buf i dirindex m = Ret (d, m).
Proof.
  intros Hs Hsim Hi. unfold check_step.
  destruct (cstr_byte m buf s i Hs ltac:(lia)) as [E1 R1].
  destruct (cstr_byte m buf s (i + 1) Hs ltac:(lia)) as [E2 R2]. rewrite Z.add_assoc in E2, R2.
  assert (forall n c lit, c = DOT \/ c = SLASH ->
    (strncmp_lit (S (S n)) (buf + i) (SLASH :: c :: lit) m =? 0) = false) as Hno.
  { intros n c lit Hc. apply Z.eqb_neq. intros E.
    apply strncmp_lit_match in E as [M1 M2]; auto; try (destruct Hc; subst c; unfold DOT, SLASH; lia).
    rewrite E1 in M1. rewrite E2 in M2. replace (Z.to_nat (i + 1)) with (S (Z.to_nat i)) in M2 by lia.
    destruct (Z.eq_dec (i + 1) (Z.of_nat (length s))) as [El|Hl].
    - rewrite nth_overflow in M2 by lia. destruct Hc; subst c; discriminate M2.
    - destruct (simple_nth s (Z.to_nat i) Hsim ltac:(lia) M1) as [N1 N2]. destruct Hc; subst c; congruence. }
  rewrite (Hno 2%nat DOT), (Hno 1%nat DOT), (Hno 0%nat DOT), (Hno 0%nat SLASH) by auto. eexists. reflexivity.
Qed.

Lemma check_path_simple fuel buf s m : forall n i dirindex,
  cstr m buf s -> simple s -> 0 <= i <= Z.of_nat (length s) -> Z.of_nat (length s) < 2 ^ 32 ->
  (length s < fuel)%nat -> (Z.to_nat (Z.of_nat (length s) - i) < n)%nat ->
  check_path fuel n buf i dirindex m = Ret m.
Proof.
  induction n as [|n IH]; intros i dirindex Hs Hsim Hi Hl Hf Hn; [lia|]. cbn [check_path].
  rewrite (strlen_spec m buf s fuel Hs Hf Hl). cbn [mbind outcome_bind].
  destruct (Z.ltb_spec i (Z.of_nat (length s))) as [Hlt|Hge]; [|reflexivity].
  destruct (check_step_simple fuel buf s i dirindex m Hs Hsim ltac:(lia)) as (d & ->).
  cbn [mbind outcome_bind]. rewrite wrap_small by lia. apply IH; auto; lia.
Qed.

(** ** Assembling the path *)

Lemma cstr_concat m l r : forall a,
  (forall j, 0 <= j < Z.of_nat (length r) -> m (a + j) = nth (Z.to_nat j) r 0 /\ 0 < nth (Z.to_nat j) r 0 < 256) ->
  cstr m (a + Z.of_nat (length r)) l -> cstr m a (r ++ l).
Proof.
  intros a Hr Hl. apply cstr_intro; rewrite length_app.
  - intros j Hj. destruct (Z.lt_ge_cases j (Z.of_nat (length r))) as [H|H].
    + rewrite app_nth1 by lia. now apply Hr.
    + rewrite app_nth2 by lia. replace (a + j) with (a + Z.of_nat (length r) + (j - Z.of_nat (length r))) by lia.
      replace (Z.to_nat j - length r)%nat with (Z.to_nat (j - Z.of_nat (length r))) by lia.
      apply cstr_elim; [exact Hl|lia].
  - rewrite <- (cstr_zero _ _ _ Hl). f_equal. lia.
Qed.

Lemma cstr_copied dest src l m m' :
  copied dest src (Z.of_nat (length l) + 1) m m' -> cstr m src l -> cstr m' dest l.
Proof.
  intros [Hc _] Hs. apply cstr_intro.
  - intros j Hj. rewrite Hc by lia. now apply cstr_elim.
  - rewrite Hc by lia. now apply cstr_zero.
Qed.

Lemma append_slash_spec fuel buf s m :
  cstr m buf s -> (length s < fuel)%nat ->
  Returns (append_slash fuel buf m) (fun m' =>
    cstr m' buf (s ++ [SLASH]) /\
    forall x, x <> buf + Z.of_nat (length s) -> x <> buf + Z.of_nat (length s) + 1 -> m' x = m x).
Proof.
  intros Hs Hf. unfold append_slash. rewrite (str_end_spec m s fuel buf Hs Hf). apply Returns_ret.
  set (e := buf + Z.of_nat (length s)). split.
  - apply cstr_concat.
    + intros j Hj. rewrite !upd_ne by (unfold e; lia). now apply cstr_elim.
    + fold e. cbn [cstr]. rewrite upd_eq, upd_ne, upd_eq by lia. unfold SLASH. lia.
  - intros x H1 H2. rewrite !upd_ne by assumption. reflexivity.
Qed.

Section Theorems.
Context {H : Type} `{KH : KernelHeap H} `{KHL : !KernelHeapLaws H}.

(** The string at [a] keeps clear of the [n] bytes at [buf]. *)
Definition clear_of (buf n a : Z) (s : list Z) : Prop := apart (buf, n) (a, Z.of_nat (length s) + 1).

Lemma clear_of_copied buf n d src k a s m m' :
  copied d src k m m' -> clear_of buf n a s -> buf <= d -> d + k <= buf + n -> cstr m a s -> cstr m' a s.
Proof.
  intros [_ Hf] Hcl H1 H2 Hs. apply (cstr_frame m); [|exact Hs]. intros j Hj. apply Hf.
  unfold clear_of, apart in Hcl. cbn in Hcl. lia.
Qed.
End Theorems.

(** On a relative path without empty components and without components that
    start with a dot, below a root that ends in a slash, [vnode_get_absolute_path]
    returns a new buffer that holds the root, the path and a final slash, as it is
    documented to, and leaves memory outside the buffer alone; it runs within the
    fuel or panics for lack of memory. *)
Theorem absolute_path_simple {H} `{KH : KernelHeap H} `{KHL : !KernelHeapLaws H}
    fuel root relative r l m (h : H) areas :
  cstr m root r -> cstr m relative l -> m relative <> SLASH ->
  r <> [] -> last r = Some SLASH -> simple (r ++ l ++ [SLASH]) ->
  Z.of_nat (length r + length l) < PATH_MAX -> (Z.to_nat (PATH_MAX + 1) < fuel)%nat ->
  kh_ok h -> kh_live h areas ->
  (forall buf h', kh_malloc (PATH_MAX + 1) h = Ret (buf, h') ->
     clear_of buf (PATH_MAX + 1) root r /\ clear_of buf (PATH_MAX + 1) relative l) ->
  Safe (vnode_get_absolute_path fuel root relative m h) (fun p =>
    exists buf n, p_buf p = Some buf /\ p_errno p = 0 /\ kh_live (p_heap p) ((buf, n) :: areas) /\
      cstr (p_mem p) buf (r ++ l ++ [SLASH]) /\
      forall x, ~ (buf <= x < buf + PATH_MAX + 1) -> p_mem p x = m x).
Proof.
  intros Hr Hl Hrel Hne Hlast Hsim Hlen Hf Hok Hlive Hclear. unfold vnode_get_absolute_path, PATH_MAX in *.
  pose proof (kh_malloc_spec 4097 h areas ltac:(split; [lia|reflexivity]) Hok Hlive) as HM.
  change (4096 + 1) with 4097 in *.
  destruct (kh_malloc 4097 h) as [[buf h']|e| | |]; cbn [mbind outcome_bind Safe]; auto.
  destruct HM as (n & A1 & _ & A3 & A4 & A5 & A6 & _). destruct (Hclear buf h' eq_refl) as [C1 C2].
  assert (length r < fuel /\ length l < fuel)%nat as [F1 F2] by lia.
  rewrite (strlen_spec m root r fuel Hr F1) by (pow2_consts; lia).
  rewrite (strlen_spec m relative l fuel Hl F2) by (pow2_consts; lia). cbn [mbind outcome_bind].
  rewrite (wrap_small 32 (Z.of_nat (length r) + _)), (wrap_small 32 (Z.of_nat (length l) + 1)) by (pow2_consts; lia).
  destruct (Z.gtb_spec (Z.of_nat (length r) + Z.of_nat (length l)) 4096) as [Hg|_]; [lia|].
  rewrite (proj2 (Z.eqb_neq _ _) Hrel).
  (* the root *)
  set (m1 := memcpy buf root (Z.of_nat (length r)) m).
  assert (copied buf root (Z.of_nat (length r)) m m1) as K1.
  { apply memcpy_spec; [lia|]. unfold clear_of, apart in C1. cbn in C1. lia. }
  assert (cstr m1 root r) as Hr1 by (apply (clear_of_copied buf 4097 buf root _ root r m m1 K1 C1); auto; lia).
  assert (cstr m1 relative l) as Hl1 by (apply (clear_of_copied buf 4097 buf root _ relative l m m1 K1 C2); auto; lia).
  assert (1 <= Z.of_nat (length r)) as Hr0 by (destruct r; [easy|cbn; lia]).
  assert (m1 (root + Z.of_nat (length r) - 1) = SLASH) as Esl.
  { replace (root + Z.of_nat (length r) - 1) with (root + (Z.of_nat (length r) - 1)) by lia.
    destruct (cstr_elim m1 r root (Z.of_nat (length r) - 1) Hr1) as [-> _]; [lia|].
    rewrite last_lookup in Hlast. apply (nth_lookup_Some r _ 0) in Hlast. rewrite <- Hlast. f_equal. lia. }
  rewrite Esl, Z.eqb_refl. cbn [negb andb].
  (* the relative path *)
  set (m2 := memcpy (buf + Z.of_nat (length r)) relative (Z.of_nat (length l) + 1) m1).
  assert (copied (buf + Z.of_nat (length r)) relative (Z.of_nat (length l) + 1) m1 m2) as K2.
  { apply memcpy_spec; [lia|]. unfold clear_of, apart in C2. cbn in C2. lia. }
  assert (cstr m2 buf (r ++ l)) as Hb.
  { apply cstr_concat.
    - intros j Hj. rewrite (proj2 K2) by lia. rewrite (proj1 K1) by lia. now apply cstr_elim.
    - now apply (cstr_copied _ relative l m1 m2). }
  destruct (append_slash_spec fuel buf (r ++ l) m2 Hb) as (m3 & -> & Hs3 & Fr3); [rewrite length_app; lia|].
  rewrite <- app_assoc in Hs3. cbn [mbind outcome_bind].
  rewrite (check_path_simple fuel buf (r ++ l ++ [SLASH]) m3); auto; rewrite ?length_app; cbn [length]; try lia.
  cbn [mbind outcome_bind Safe]. exists buf, n. splits; auto. intros x Hx.
  rewrite Fr3 by (rewrite length_app; lia). rewrite (proj2 K2) by lia. apply (proj2 K1). lia.
Qed.

(** The one-page heap of [Kheap] and two strings in low memory. *)
#[local] Instance demo_heap : KernelHeap (kheap_state pmm_state) := kheap_heap HHDM.
#[local] Instance demo_heap_laws : KernelHeapLaws (kheap_state pmm_state) := kheap_heap_laws HHDM.

Definition path_mem (root relative : string) : mem := bytes_at 16 (chars root ++ [0] ++ chars relative ++ [0]).

Lemma heap_demo_live : kh_ok heap_demo /\ kh_live heap_demo [].
Proof.
  split; exists [heap_demo_block]; [exact heap_demo_inv|]. split; [exact heap_demo_inv|reflexivity].
Qed.

Lemma absolute_path_simple_witness :
  Safe (vnode_get_absolute_path (Z.to_nat 4099) 16 22 (path_mem "/home" "a") heap_demo) (fun _ => True) /\
  Safe (vnode_get_absolute_path (Z.to_nat 4099) 16 23 (path_mem "/home/" "a/b") heap_demo) (fun p =>
    exists buf n, p_buf p = Some buf /\ p_errno p = 0 /\ kh_live (p_heap p) ((buf, n) :: []) /\
      cstr (p_mem p) buf (chars "/home/" ++ chars "a/b" ++ [SLASH]) /\
      forall x, ~ (buf <= x < buf + PATH_MAX + 1) -> p_mem p x = path_mem "/home/" "a/b" x).
Proof.
  split; [vm_compute; exact I|].
  apply (absolute_path_simple (Z.to_nat 4099) 16 23 (chars "/home/") (chars "a/b")).
  1,2: vm_compute; repeat split; discriminate || reflexivity.
  1,2: vm_compute; discriminate.
  1: reflexivity.
  1: vm_compute; repeat split; intros [H1 H2]; try discriminate H1; destruct H2 as [H2|H2]; discriminate H2.
  1: reflexivity.
  1: unfold PATH_MAX; lia.
  1,2: apply heap_demo_live.
  intros buf h' E. vm_compute in E. injection E as <- _. split; right; vm_compute; discriminate.
Defined.

(** When root and path together are longer than [PATH_MAX], the function returns
    NULL with [kerrno] = [ENAMETOOLONG], but the buffer it allocated first stays
    allocated: its area is live in the heap and nobody has its address. *)
Theorem absolute_path_too_long_leaks {H} `{KH : KernelHeap H} `{KHL : !KernelHeapLaws H}
    fuel root relative r l m (h : H) areas :
  cstr m root r -> cstr m relative l -> PATH_MAX < Z.of_nat (length r + length l) < 2 ^ 31 ->
  (length r < fuel)%nat -> (length l < fuel)%nat -> kh_ok h -> kh_live h areas ->
  Safe (vnode_get_absolute_path fuel root relative m h) (fun p =>
    p_buf p = None /\ p_errno p = ENAMETOOLONG /\
    exists buf n, PATH_MAX < n /\ kh_live (p_heap p) ((buf, n) :: areas)).
Proof.
  intros Hr Hl Hlen F1 F2 Hok Hlive. unfold vnode_get_absolute_path, PATH_MAX in *.
  pose proof (kh_malloc_spec (4096 + 1) h areas ltac:(split; [lia|reflexivity]) Hok Hlive) as HM.
  destruct (kh_malloc (4096 + 1) h) as [[buf h']|e| | |]; cbn [mbind outcome_bind Safe]; auto.
  destruct HM as (n & A1 & _ & A3 & A4 & A5 & A6 & _). pow2_consts.
  rewrite (strlen_spec m root r fuel Hr F1), (strlen_spec m relative l fuel Hl F2) by (pow2_consts; lia).
  cbn [mbind outcome_bind]. rewrite (wrap_small 32 (Z.of_nat (length r) + _)) by (pow2_consts; lia).
  destruct (Z.gtb_spec (Z.of_nat (length r) + Z.of_nat (length l)) 4096) as [_|Hg]; [|lia].
  cbn [Safe p_buf p_errno p_heap]. splits; auto. exists buf, n. split; [lia|exact A6].
Qed.

(** Five thousand characters at address 16. *)
Definition long_mem : mem := fun x => if (16 <=? x) && (x <? 5016) then 65 else 0.

Lemma long_mem_cstr : cstr long_mem 16 (repeat 65 (Z.to_nat 5000)).
Proof.
  apply cstr_intro; rewrite repeat_length.
  - intros j Hj. rewrite nth_repeat_lt by lia. unfold long_mem. zcmp; simpl; lia.
  - rewrite Z2Nat.id by lia. reflexivity.
Qed.

Lemma absolute_path_too_long_leaks_witness :
  Safe (vnode_get_absolute_path (Z.to_nat 5001) 16 5017 long_mem heap_demo) (fun p =>
    p_buf p = None /\ p_errno p = ENAMETOOLONG /\
    exists buf n, PATH_MAX < n /\ kh_live (p_heap p) ((buf, n) :: [])).
Proof.
  apply (absolute_path_too_long_leaks (Z.to_nat 5001) 16 5017 (repeat 65 (Z.to_nat 5000)) []).
  - exact long_mem_cstr.
  - reflexivity.
  - rewrite repeat_length. cbn [length]. unfold PATH_MAX. pow2_consts. lia.
  - rewrite repeat_length. lia.
  - cbn [length]. lia.
  - apply heap_demo_live.
  - apply heap_demo_live.
Defined.

(** The simplification does not remove all [..] components: after it has removed
    one together with the component before it, the scan goes on behind the text that
    moved into its place, so of two [..] in a row the second one stays. *)
Theorem absolute_path_dotdot_stays :
  Returns (vnode_get_absolute_path 64 16 18 (path_mem "/" "a/b/../../c") heap_demo) (fun p =>
    exists buf, p_buf p = Some buf /\ cstr (p_mem p) buf (chars "/a/../c/")).
Proof.
  eexists. split; [vm_compute; reflexivity|]. eexists. split; [reflexivity|].
  vm_compute. repeat split; discriminate || reflexivity.
Qed.

(** A name that starts with a dot is mangled: its leading slash and dot are taken
    for a [.] component, so the path of [.rc] in [/home/] is [/homerc/]. *)
Theorem absolute_path_hidden_mangled :
  Returns (vnode_get_absolute_path 64 16 23 (path_mem "/home/" ".rc") heap_demo) (fun p =>
    exists buf, p_buf p = Some buf /\ cstr (p_mem p) buf (chars "/homerc/")).
Proof.
  eexists. split; [vm_compute; reflexivity|]. eexists. split; [reflexivity|].
  vm_compute. repeat split; discriminate || reflexivity.
Qed.
