(* ===== verification/Vnode.v ===== *)
(** * Vnodes, file descriptors and the file system calls ([kernel/sys/fal/vnode.c],
    [kernel/sys/fal/vfs.c])

    The file abstraction layer between the system calls and the file systems.  A
    vnode or a mounted file system is named by its address, 0 being NULL; the
    records live in memory maps.  What a file system does in its [vn_*] operations
    is not fixed here: [ops] gives, for the address of an operation table, the
    operations it holds, [None] being a NULL function pointer.  [Initrd] supplies one
    such table.  A descriptor table is a heap block that can be freed: an access to a
    table that is not allocated, or outside it, is a [Fault]. *)

From S2P Require Import Prelude Links Interfaces MemMap Pmm MemUtil Kheap Path.
#[local] Open Scope Z_scope.

(** ** Data *)

Definition O_RDONLY : Z := 0.
Definition O_WRONLY : Z := 1.
Definition O_RDWR : Z := 2.
Definition O_APPEND : Z := 1024.
Definition O_DIRECTORY : Z := 65536.

Definition V_REG : Z := 1.
Definition V_DIR : Z := 2.
Definition V_BAD : Z := 7.

Definition PROCESS_INIT_FD : Z := 128.
Definition PROCESS_MAX_FD : Z := 2048.

(** [flags & bit] as a condition. *)
Definition has (flags bit : Z) : bool := negb (Z.land flags bit =? 0).

Record vnode_t : Type := mk_vnode {
  v_filename : list Z;
  v_mode : Z;
  v_flags : Z;
  v_type : Z;
  v_size : Z;
  v_refCount : Z;
  v_lock : spinlock_t;
  v_vfsMountedHere : Z;
  v_vfs : Z;
  v_vnodeops : Z;
  v_fsData : Z;
  v_next : Z;
  v_prev : Z
}.

Record vfs_t : Type := mk_vfs {
  vfs_fid : Z;
  vfs_mountFlags : Z;
  vfs_vnodeCovered : Z;
  vfs_rootVnode : Z;
  vfs_system : bool;  (* the drive's partition is the system partition *)
  vfs_lock : spinlock_t;
  vfs_next : Z
}.

Record fd_t : Type := mk_fd { fd_file : Z; fd_offset : Z; fd_flags : Z }.

(** [sizeof(fd_t)] and [sizeof(vnode_t)]. *)
Definition FD_SIZE : Z := 24.
Definition VNODE_SIZE : Z := 392.

(** What [process_t] holds for the file system calls; [Process] has the rest. *)
Record files_t : Type := mk_files { fdTable : Z; fdMax : Z; cwd : Z }.

(** Everything the layer works on: the vnodes and file systems, the list of open
    vnodes, [rootVFS] and [lastVFS], the fid counter, [kerrno], byte memory, the heap,
    the descriptor tables, and the private state [f_x] of the file systems. *)
Record fal (X H : Type) : Type := mk_fal {
  f_vnodes : Z -> vnode_t;
  f_vfss : Z -> vfs_t;
  vnodeListHead : Z;
  vnodeListTail : Z;
  rootVFS : Z;
  lastVFS : Z;
  f_nextfid : Z;
  kerrno : Z;
  f_mem : mem;
  f_heap : H;
  f_tables : gmap Z (list fd_t);
  f_x : X
}.
Arguments mk_fal {X H}.
Arguments f_vnodes {X H}.
Arguments f_vfss {X H}.
Arguments vnodeListHead {X H}.
Arguments vnodeListTail {X H}.
Arguments rootVFS {X H}.
Arguments lastVFS {X H}.
Arguments f_nextfid {X H}.
Arguments kerrno {X H}.
Arguments f_mem {X H}.
Arguments f_heap {X H}.
Arguments f_tables {X H}.
Arguments f_x {X H}.

(** An operation table of a file system over states [F]. *)
Record vnode_operations_t (F : Type) : Type := mk_ops {
  vn_read : option (Z -> Z -> Z -> Z -> F -> outcome (Z * F));
  vn_write : option (Z -> Z -> Z -> Z -> F -> outcome (Z * F));
  vn_inactive : option (Z -> F -> outcome (Z * F));
  vn_lookup : option (Z -> list Z -> F -> outcome (Z * F));
  vn_readdir : option (Z -> Z -> Z -> Z -> F -> outcome (Z * F))
}.
Arguments mk_ops {F}.
Arguments vn_read {F}.
Arguments vn_write {F}.
Arguments vn_inactive {F}.
Arguments vn_lookup {F}.
Arguments vn_readdir {F}.

(** ** Stores to single fields *)

Section Fields.
Context {X H : Type}.
Implicit Types (s : fal X H).

Definition set_vnodes (f : Z -> vnode_t) s : fal X H :=
  mk_fal f (f_vfss s) (vnodeListHead s) (vnodeListTail s) (rootVFS s) (lastVFS s) (f_nextfid s) (kerrno s)
    (f_mem s) (f_heap s) (f_tables s) (f_x s).
Definition set_vfss (f : Z -> vfs_t) s : fal X H :=
  mk_fal (f_vnodes s) f (vnodeListHead s) (vnodeListTail s) (rootVFS s) (lastVFS s) (f_nextfid s) (kerrno s)
    (f_mem s) (f_heap s) (f_tables s) (f_x s).
Definition set_list (h t : Z) s : fal X H :=
  mk_fal (f_vnodes s) (f_vfss s) h t (rootVFS s) (lastVFS s) (f_nextfid s) (kerrno s)
    (f_mem s) (f_heap s) (f_tables s) (f_x s).
Definition set_vfs_list (r l : Z) s : fal X H :=
  mk_fal (f_vnodes s) (f_vfss s) (vnodeListHead s) (vnodeListTail s) r l (f_nextfid s) (kerrno s)
    (f_mem s) (f_heap s) (f_tables s) (f_x s).
Definition set_nextfid (n : Z) s : fal X H :=
  mk_fal (f_vnodes s) (f_vfss s) (vnodeListHead s) (vnodeListTail s) (rootVFS s) (lastVFS s) n (kerrno s)
    (f_mem s) (f_heap s) (f_tables s) (f_x s).
Definition set_errno (e : Z) s : fal X H :=
  mk_fal (f_vnodes s) (f_vfss s) (vnodeListHead s) (vnodeListTail s) (rootVFS s) (lastVFS s) (f_nextfid s) e
    (f_mem s) (f_heap s) (f_tables s) (f_x s).
Definition set_mem (m : mem) s : fal X H :=
  mk_fal (f_vnodes s) (f_vfss s) (vnodeListHead s) (vnodeListTail s) (rootVFS s) (lastVFS s) (f_nextfid s) (kerrno s)
    m (f_heap s) (f_tables s) (f_x s).
Definition set_heap (h : H) s : fal X H :=
  mk_fal (f_vnodes s) (f_vfss s) (vnodeListHead s) (vnodeListTail s) (rootVFS s) (lastVFS s) (f_nextfid s) (kerrno s)
    (f_mem s) h (f_tables s) (f_x s).
Definition set_tables (t : gmap Z (list fd_t)) s : fal X H :=
  mk_fal (f_vnodes s) (f_vfss s) (vnodeListHead s) (vnodeListTail s) (rootVFS s) (lastVFS s) (f_nextfid s) (kerrno s)
    (f_mem s) (f_heap s) t (f_x s).

Definition vnode_at s (a : Z) : vnode_t := f_vnodes s a.
Definition upd_vnode (a : Z) (g : vnode_t -> vnode_t) s : fal X H :=
  set_vnodes (upd (f_vnodes s) a (g (f_vnodes s a))) s.
Definition upd_vfs (a : Z) (g : vfs_t -> vfs_t) s : fal X H :=
  set_vfss (upd (f_vfss s) a (g (f_vfss s a))) s.
End Fields.

Definition w_vlock (l : spinlock_t) (v : vnode_t) : vnode_t :=
  mk_vnode (v_filename v) (v_mode v) (v_flags v) (v_type v) (v_size v) (v_refCount v) l
    (v_vfsMountedHere v) (v_vfs v) (v_vnodeops v) (v_fsData v) (v_next v) (v_prev v).
Definition w_vnext (n : Z) (v : vnode_t) : vnode_t :=
  mk_vnode (v_filename v) (v_mode v) (v_flags v) (v_type v) (v_size v) (v_refCount v) (v_lock v)
    (v_vfsMountedHere v) (v_vfs v) (v_vnodeops v) (v_fsData v) n (v_prev v).
Definition w_vprev (p : Z) (v : vnode_t) : vnode_t :=
  mk_vnode (v_filename v) (v_mode v) (v_flags v) (v_type v) (v_size v) (v_refCount v) (v_lock v)
    (v_vfsMountedHere v) (v_vfs v) (v_vnodeops v) (v_fsData v) (v_next v) p.
Definition w_refCount (n : Z) (v : vnode_t) : vnode_t :=
  mk_vnode (v_filename v) (v_mode v) (v_flags v) (v_type v) (v_size v) n (v_lock v)
    (v_vfsMountedHere v) (v_vfs v) (v_vnodeops v) (v_fsData v) (v_next v) (v_prev v).
Definition w_modes (flags mode : Z) (v : vnode_t) : vnode_t :=
  mk_vnode (v_filename v) mode flags (v_type v) (v_size v) (v_refCount v) (v_lock v)
    (v_vfsMountedHere v) (v_vfs v) (v_vnodeops v) (v_fsData v) (v_next v) (v_prev v).
Definition w_mounted (m : Z) (v : vnode_t) : vnode_t :=
  mk_vnode (v_filename v) (v_mode v) (v_flags v) (v_type v) (v_size v) (v_refCount v) (v_lock v)
    m (v_vfs v) (v_vnodeops v) (v_fsData v) (v_next v) (v_prev v).

(** ** The list of open vnodes *)

Section VnodeList.
Context {X H : Type}.
Implicit Types (s : fal X H).

Definition vnode_list_add (vnode : Z) s : fal X H :=
  if vnodeListHead s =? 0 then
    let s := set_list vnode vnode s in
    let s := upd_vnode (vnodeListHead s) (w_vnext 0) s in
    upd_vnode (vnodeListHead s) (w_vprev 0) s
  else
    let s := upd_vnode (vnodeListTail s) (w_vnext vnode) s in
    let s := upd_vnode vnode (w_vprev (vnodeListTail s)) s in
    let s := set_list (vnodeListHead s) vnode s in
    upd_vnode (vnodeListTail s) (w_vnext 0) s.

Definition vnode_list_remove (vnode : Z) s : fal X H :=
  let s := if vnodeListTail s =? vnode then set_list (vnodeListHead s) (v_prev (f_vnodes s vnode)) s else s in
  let s := if vnodeListHead s =? vnode then set_list (v_next (f_vnodes s vnode)) (vnodeListTail s) s else s in
  let s := if negb (v_next (f_vnodes s vnode) =? 0)
           then upd_vnode (v_next (f_vnodes s vnode)) (w_vprev (v_prev (f_vnodes s vnode))) s else s in
  if negb (v_prev (f_vnodes s vnode) =? 0)
  then upd_vnode (v_prev (f_vnodes s vnode)) (w_vnext (v_next (f_vnodes s vnode))) s else s.

Definition vnode_list_reset s : fal X H := set_list 0 0 s.

(** The loop of [vnode_list_search_by_filename]. *)
Fixpoint search_loop (fuel : nat) (i : Z) (fid : Z) (filename : list Z) s : outcome Z :=
  match fuel with
  | O => OutOfFuel
  | S f =>
      if i =? 0 then Ret 0
      else if (vfs_fid (f_vfss s (v_vfs (f_vnodes s i))) =? fid) &&
              bool_decide (v_filename (f_vnodes s i) = filename) then Ret i
      else search_loop f (v_next (f_vnodes s i)) fid filename s
  end.

Definition vnode_list_search_by_filename (fuel : nat) (vfs : Z) (filename : list Z) s : outcome Z :=
  search_loop fuel (vnodeListHead s) (vfs_fid (f_vfss s vfs)) filename s.
End VnodeList.

(** ** Path lookup *)

(** The inner loop of [vnode_lookup] that collects one component: the characters up
    to a slash or the end, and the rest of the path. *)
Fixpoint component (path : list Z) : list Z * list Z :=
  match path with
  | [] => ([], [])
  | c :: rest =>
      if c =? SLASH then ([], path)
      else let '(d, r) := component rest in (c :: d, r)
  end.

(** [dirname] with its slash, and the path after it. *)
Definition next_dirname (path : list Z) : list Z * list Z :=
  let '(comp, rest) := component path in
  match rest with
  | c :: r => if c =? SLASH then (comp ++ [SLASH], r) else (comp, rest)
  | [] => (comp, [])
  end.

Section Vnode.
Context {X H : Type} `{KH : KernelHeap H}.
(** The operation tables. *)
Variable ops : Z -> vnode_operations_t (fal X H).
Implicit Types (s : fal X H).

(** Take and release the lock of a vnode. *)
Definition lock_vnode (v : Z) s : outcome (fal X H) :=
  l ← acquireLock (v_lock (f_vnodes s v)); Ret (upd_vnode v (w_vlock l) s).
Definition unlock_vnode (v : Z) s : fal X H :=
  upd_vnode v (w_vlock (releaseLock (v_lock (f_vnodes s v)))) s.

(** [vnode_new]; the other fields are zeroed. *)
Definition vnode_new (vfs vnodeops : Z) s : outcome (Z * fal X H) :=
  '(a, h) ← kh_malloc VNODE_SIZE (f_heap s);
  let s := set_heap h s in
  Ret (a, upd_vnode a (fun _ => mk_vnode [] 0 0 0 0 0 false 0 vfs vnodeops 0 0 0) s).

(** One iteration of the loop of [vnode_lookup] over the component [dirname]: the
    vnode found (0 when the lookup ends with NULL) and the current file system. *)
Definition lookup_step (dirname : list Z) (vfs currentVnode : Z) s : outcome (Z * Z * fal X H) :=
  if 255 <? Z.of_nat (length dirname) then Fault
  else
    let prevVnode := currentVnode in
    s ← lock_vnode prevVnode s;
    let o := v_vnodeops (f_vnodes s currentVnode) in
    match (if o =? 0 then None else vn_lookup (ops o)) with
    | None => Ret (0, vfs, set_errno EINVAL (unlock_vnode currentVnode s))
    | Some lookup =>
        '(currentVnode, s) ← lookup currentVnode dirname s;
        let s := unlock_vnode prevVnode s in
        s ← (if negb (prevVnode =? vfs_rootVnode (f_vfss s vfs))
             then match vn_inactive (ops (v_vnodeops (f_vnodes s prevVnode))) with
                  | Some inactive => '(_, s) ← inactive prevVnode s; Ret s
                  | None => Ret s
                  end
             else Ret s);
        if currentVnode =? 0 then Ret (0, vfs, s)
        else if negb (v_vfsMountedHere (f_vnodes s currentVnode) =? 0) then
          let vfs := v_vfsMountedHere (f_vnodes s currentVnode) in
          Ret (vfs_rootVnode (f_vfss s vfs), vfs, s)
        else Ret (currentVnode, vfs, s)
    end.

Fixpoint lookup_loop (fuel : nat) (path : list Z) (vfs currentVnode : Z) s : outcome (Z * fal X H) :=
  match fuel with
  | O => OutOfFuel
  | S f =>
      match path with
      | [] => Ret (currentVnode, s)
      | _ =>
          let '(dirname, rest) := next_dirname path in
          '(v, vfs, s) ← lookup_step dirname vfs currentVnode s;
          if v =? 0 then Ret (0, s) else lookup_loop f rest vfs v s
      end
  end.

(** [vnode_lookup]; a NULL path is [None].  Every iteration consumes a character, so
    the length of the path bounds the loop. *)
Definition vnode_lookup (path : option (list Z)) s : outcome (Z * fal X H) :=
  let s := set_errno 0 s in
  match path with
  | Some (c :: rest) =>
      if c =? SLASH then
        let vfs := rootVFS s in
        if vfs =? 0 then Fault else
        lookup_loop (S (length rest)) rest vfs (vfs_rootVnode (f_vfss s vfs)) s
      else Ret (0, set_errno EINVAL s)
  | _ => Ret (0, set_errno EINVAL s)
  end.

(** ** Operations on vnodes *)

Definition vnode_open (fuel : nat) (path : option (list Z)) (flags mode : Z) s : outcome (Z * fal X H) :=
  let s := set_errno 0 s in
  '(vnode, s) ← vnode_lookup path s;
  if vnode =? 0 then Ret (0, s)
  else
    s ← lock_vnode vnode s;
    if has flags O_DIRECTORY && negb (v_type (f_vnodes s vnode) =? V_DIR) then
      Ret (0, unlock_vnode vnode (set_errno ENOTDIR s))
    else if negb (has flags O_DIRECTORY) && (v_type (f_vnodes s vnode) =? V_DIR) then
      Ret (0, unlock_vnode vnode (set_errno EISDIR s))
    else
      let s := upd_vnode vnode (w_refCount (i32 (v_refCount (f_vnodes s vnode) + 1))) s in
      r ← vnode_list_search_by_filename fuel (v_vfs (f_vnodes s vnode)) (default [] path) s;
      let s := if r =? 0 then upd_vnode vnode (w_modes flags mode) (vnode_list_add vnode s) else s in
      Ret (vnode, unlock_vnode vnode s).

Definition vnode_close (vnode : Z) s : outcome (Z * fal X H) :=
  let s := set_errno 0 s in
  s ← lock_vnode vnode s;
  let s := upd_vnode vnode (w_refCount (i32 (v_refCount (f_vnodes s vnode) - 1))) s in
  '(status, s) ←
    (if v_refCount (f_vnodes s vnode) =? 0 then
       let s := vnode_list_remove vnode s in
       if v_vnodeops (f_vnodes s vnode) =? 0 then Fault
       else match vn_inactive (ops (v_vnodeops (f_vnodes s vnode))) with
            | Some inactive => inactive vnode s
            | None => h ← kh_free vnode (f_heap s); Ret (0, set_heap h s)
            end
     else Ret (0, s));
  Ret (status, unlock_vnode vnode s).

(** The operation table of a vnode, [None] for NULL. *)
Definition table_of (vnode : Z) s : option (vnode_operations_t (fal X H)) :=
  let o := v_vnodeops (f_vnodes s vnode) in if o =? 0 then None else Some (ops o).

(** The error exits of the three transfer functions: the lock is released. *)
Definition fail_unlock (vnode e : Z) s : outcome (Z * fal X H) :=
  Ret (- e, unlock_vnode vnode (set_errno e s)).

Definition vnode_read (vnode size buf offset : Z) s : outcome (Z * fal X H) :=
  let s := set_errno 0 s in
  s ← lock_vnode vnode s;
  match table_of vnode s ≫= vn_read with
  | None => fail_unlock vnode EINVAL s
  | Some read =>
      if v_type (f_vnodes s vnode) =? V_DIR then fail_unlock vnode EINVAL s
      else '(n, s) ← read vnode size buf offset s; Ret (n, unlock_vnode vnode s)
  end.

Definition vnode_write (vnode size buf offset : Z) s : outcome (Z * fal X H) :=
  let s := set_errno 0 s in
  s ← lock_vnode vnode s;
  if v_type (f_vnodes s vnode) =? V_DIR then fail_unlock vnode EINVAL s
  else match table_of vnode s ≫= vn_write with
       | None => fail_unlock vnode EINVAL s
       | Some write => '(n, s) ← write vnode size buf offset s; Ret (n, unlock_vnode vnode s)
       end.

Definition vnode_readdir (vnode count buf offset : Z) s : outcome (Z * fal X H) :=
  let s := set_errno 0 s in
  s ← lock_vnode vnode s;
  if negb (v_type (f_vnodes s vnode) =? V_DIR) then fail_unlock vnode EINVAL s
  else match table_of vnode s ≫= vn_readdir with
       | None => fail_unlock vnode EINVAL s
       | Some readdir => '(n, s) ← readdir vnode count buf offset s; Ret (n, unlock_vnode vnode s)
       end.

(** ** Descriptor tables *)

Definition empty_fd : fd_t := mk_fd 0 0 0.

Definition vnode_alloc_fd_table (size : Z) s : outcome (Z * fal X H) :=
  '(a, h) ← kh_malloc (u64 (FD_SIZE * size)) (f_heap s);
  Ret (a, set_tables (<[a := repeat empty_fd (Z.to_nat size)]> (f_tables s)) (set_heap h s)).

(** The copy reads [prevSize] descriptors of the old table. *)
Definition vnode_realloc_fd_table (fd prevSize newSize : Z) s : outcome (Z * fal X H) :=
  if prevSize =? newSize then Ret (fd, s)
  else
    '(newfd, h) ← kh_malloc (u64 (FD_SIZE * newSize)) (f_heap s);
    let s := set_heap h s in
    match f_tables s !! fd with
    | Some old =>
        if Z.of_nat (length old) <? prevSize then Fault
        else
          let t := take (Z.to_nat prevSize) old ++ repeat empty_fd (Z.to_nat (newSize - prevSize)) in
          let s := set_tables (delete fd (<[newfd := t]> (f_tables s))) s in
          h ← kh_free fd (f_heap s);
          Ret (newfd, set_heap h s)
    | None => Fault
    end.

(** Reading and writing descriptor [i] of the table at [t]. *)
Definition fd_get (t i : Z) s : outcome fd_t :=
  match f_tables s !! t with
  | Some l => if (0 <=? i) && (i <? Z.of_nat (length l)) then Ret (nth (Z.to_nat i) l empty_fd) else Fault
  | None => Fault
  end.

Definition fd_set (t i : Z) (f : fd_t) s : outcome (fal X H) :=
  match f_tables s !! t with
  | Some l => if (0 <=? i) && (i <? Z.of_nat (length l))
              then Ret (set_tables (<[t := <[Z.to_nat i := f]> l]> (f_tables s)) s) else Fault
  | None => Fault
  end.

(** ** System calls *)

(** The bytes of a string in memory. *)
Fixpoint read_cstr (fuel : nat) (a : Z) (m : mem) : outcome (list Z) :=
  match fuel with
  | O => OutOfFuel
  | S f => if m a =? 0 then Ret [] else l ← read_cstr f (a + 1) m; Ret (m a :: l)
  end.

(** [vnode_get_absolute_path] on this state: the buffer (0 for NULL) and its string. *)
Definition absolute_path (fuel : nat) (root relative : Z) s : outcome (Z * option (list Z) * fal X H) :=
  p ← vnode_get_absolute_path fuel root relative (f_mem s) (f_heap s);
  let s := set_errno (p_errno p) (set_heap (p_heap p) (set_mem (p_mem p) s)) in
  match p_buf p with
  | None => Ret (0, None, s)
  | Some b => str ← read_cstr fuel b (f_mem s); Ret (b, Some str, s)
  end.

(** The search for a free descriptor in [sys_open], from [i] on: [inl] is a return. *)
Fixpoint open_scan (fuel n : nat) (i : Z) (p : files_t) (abs : Z) (path : option (list Z)) (flags mode : Z) s
    : outcome ((Z * fal X H) + fal X H) :=
  match n with
  | O => Ret (inr s)
  | S n' =>
      e ← fd_get (fdTable p) i s;
      if fd_file e =? 0 then
        '(v, s) ← vnode_open fuel path flags mode s;
        s ← fd_set (fdTable p) i (mk_fd v (fd_offset e) (fd_flags e)) s;
        if v =? 0 then Ret (inl (- kerrno s, s))
        else
          s ← fd_set (fdTable p) i (mk_fd v 0 flags) s;
          h ← kh_free abs (f_heap s);
          Ret (inl (i, set_heap h s))
      else open_scan fuel n' (i + 1) p abs path flags mode s
  end.

(** The result of [vnode_realloc_fd_table] is dropped: [fdTable] keeps the address of
    the table that has been freed. *)
Fixpoint sys_open_loop (depth fuel : nat) (p : files_t) (abs : Z) (path : option (list Z)) (flags mode : Z) s
    : outcome (Z * files_t * fal X H) :=
  match depth with
  | O => OutOfFuel
  | S d =>
      r ← open_scan fuel (Z.to_nat (fdMax p)) 0 p abs path flags mode s;
      match r with
      | inl (v, s) => Ret (v, p, s)
      | inr s =>
          if u64 (fdMax p + 1) >=? PROCESS_MAX_FD then Ret (- EMFILE, p, s)
          else
            '(_, s) ← vnode_realloc_fd_table (fdTable p) (u64 (fdMax p + 1)) (u64 ((fdMax p + 1) * 2)) s;
            let p := mk_files (fdTable p) (u64 ((fdMax p + 1) * 2 - 1)) (cwd p) in
            sys_open_loop d fuel p abs path flags mode s
      end
  end.

Definition sys_open (depth fuel : nat) (p : files_t) (path flags mode : Z) s : outcome (Z * files_t * fal X H) :=
  '(abs, str, s) ← absolute_path fuel (cwd p) path s;
  sys_open_loop depth fuel p abs str flags mode s.

(** The test common to [sys_read], [sys_write] and [sys_close]. *)
Definition good_fd (p : files_t) (fd : Z) s : outcome (option fd_t) :=
  if u64 fd >? fdMax p then Ret None
  else e ← fd_get (fdTable p) fd s; Ret (if fd_file e =? 0 then None else Some e).

(** [res] is a [size_t]; a negative result of the transfer is a large number. *)
Definition advance (p : files_t) (fd res : Z) s : outcome (Z * fal X H) :=
  let r := u64 res in
  if r >? 0 then
    e ← fd_get (fdTable p) fd s;
    s ← fd_set (fdTable p) fd (mk_fd (fd_file e) (u64 (fd_offset e + r)) (fd_flags e)) s;
    Ret (i64 r, s)
  else Ret (i64 r, s).

Definition sys_read (p : files_t) (fd buf count : Z) s : outcome (Z * fal X H) :=
  o ← good_fd p fd s;
  match o with
  | None => Ret (- EBADF, s)
  | Some e =>
      if has (fd_flags e) O_WRONLY && negb (has (fd_flags e) O_RDWR) then Ret (- EACCES, s)
      else
        '(res, s) ← vnode_read (fd_file e) count buf (fd_offset e) s;
        advance p fd res s
  end.

Definition sys_write (p : files_t) (fd buf count : Z) s : outcome (Z * fal X H) :=
  o ← good_fd p fd s;
  match o with
  | None => Ret (- EBADF, s)
  | Some e =>
      if negb (has (fd_flags e) O_WRONLY) && negb (has (fd_flags e) O_RDWR) then Ret (- EACCES, s)
      else
        '(res, s) ← vnode_write (fd_file e) count buf (fd_offset e) s;
        advance p fd res s
  end.

Definition sys_close (p : files_t) (fd : Z) s : outcome (Z * fal X H) :=
  o ← good_fd p fd s;
  match o with
  | None => Ret (- EBADF, s)
  | Some e => s ← fd_set (fdTable p) fd (mk_fd 0 (fd_offset e) (fd_flags e)) s; Ret (0, s)
  end.

Definition sys_getcwd (fuel : nat) (p : files_t) (buf size : Z) s : outcome (Z * fal X H) :=
  l ← strlen fuel (cwd p) (f_mem s);
  if size <? u32 (l + 1) then Ret (u64 (- ERANGE), s)
  else Ret (buf, set_mem (memcpy buf (cwd p) (u32 (l + 1)) (f_mem s)) s).

(** The path with a final slash, in a new buffer when it lacks one. *)
Definition with_slash (fuel : nat) (str : Z) s : outcome (Z * fal X H) :=
  l ← strlen fuel str (f_mem s);
  if negb (f_mem s (str + (l - 1)) =? SLASH) then
    '(ok, h) ← kh_malloc (u32 (l + 2)) (f_heap s);
    let m := memcpy ok str (u32 (l + 1)) (f_mem s) in
    m ← append_slash fuel ok m;
    l' ← strlen fuel ok m;
    h ← kh_free str h;
    Ret (ok, set_heap h (set_mem (upd m (ok + l') 0) s))
  else Ret (str, s).

Definition sys_chdir (fuel : nat) (p : files_t) (path : Z) s : outcome (Z * files_t * fal X H) :=
  l ← strlen fuel path (f_mem s);
  if l >? PATH_MAX then Ret (- ENAMETOOLONG, p, s)
  else
    '(str, _, s) ← absolute_path fuel (cwd p) path s;
    if str =? 0 then Ret (- kerrno s, p, s)
    else
      '(str, s) ← with_slash fuel str s;
      name ← read_cstr fuel str (f_mem s);
      '(file, s) ← vnode_open fuel (Some name) (Z.lor O_DIRECTORY O_RDONLY) 0 s;
      if file =? 0 then
        h ← kh_free str (f_heap s); Ret (- kerrno s, p, set_heap h s)
      else
        h ← kh_free (cwd p) (f_heap s);
        Ret (0, mk_files (fdTable p) (fdMax p) str, set_heap h s).

(** [sys_getdents]; the descriptor number is not checked. *)
Definition sys_getdents (p : files_t) (fd dirp count : Z) s : outcome (Z * fal X H) :=
  if dirp =? 0 then Ret (- EFAULT, s)
  else
    e ← fd_get (fdTable p) fd s;
    if fd_file e =? 0 then Ret (- EBADF, s)
    else if negb (has (v_flags (f_vnodes s (fd_file e))) O_DIRECTORY) then Ret (- ENOTDIR, s)
    else
      '(n, s) ← vnode_readdir (fd_file e) count dirp (fd_offset e) s;
      e ← fd_get (fdTable p) fd s;
      s ← fd_set (fdTable p) fd (mk_fd (fd_file e) (u64 (fd_offset e + n)) (fd_flags e)) s;
      Ret (n, s).

(** ** Mounting *)

(** The system partition: mounting it replaces the root file system.  [start_devfs] and
    [autoreg] stand for [devfs_init("/dev/")] and [device_driver_autoreg], which
    return 0 for success. *)
Definition vfs_mount (fuel : nat) (start_devfs autoreg : fal X H -> outcome (Z * fal X H))
    (vfs : Z) (mnt : list Z) (flags : Z) s : outcome (Z * fal X H) :=
  let v := f_vfss s vfs in
  if vfs_system v then
    if rootVFS s =? 0 then Fault
    else
      let s := upd_vfs vfs (fun v => mk_vfs 0 0 (vfs_vnodeCovered v) (vfs_rootVnode v) (vfs_system v) (vfs_lock v)
                                       (vfs_next (f_vfss s (rootVFS s)))) s in
      let s := set_vfs_list vfs (if rootVFS s =? lastVFS s then vfs else lastVFS s) s in
      let s := vnode_list_reset s in
      '(r, s) ← start_devfs s;
      if negb (r =? 0) then Panic "Failed to mount devfs!"
      else
        '(r, s) ← autoreg s;
        if negb (r =? 0) then Panic "autoreg.txt not found on system fs!" else Ret (0, s)
  else
    let s := upd_vfs vfs (fun v => mk_vfs (vfs_fid v) flags (vfs_vnodeCovered v) (vfs_rootVnode v) (vfs_system v)
                                     (vfs_lock v) (vfs_next v)) s in
    let finish s : outcome (Z * fal X H) :=
      Ret (0, set_nextfid (u64 (f_nextfid s + 1))
                (upd_vfs vfs (fun v => mk_vfs (f_nextfid s) (vfs_mountFlags v) (vfs_vnodeCovered v)
                                         (vfs_rootVnode v) (vfs_system v) (vfs_lock v) (vfs_next v)) s)) in
    if rootVFS s =? 0 then
      finish (upd_vfs vfs (fun v => mk_vfs (vfs_fid v) (vfs_mountFlags v) (vfs_vnodeCovered v) (vfs_rootVnode v)
                                      (vfs_system v) (vfs_lock v) 0) (set_vfs_list vfs vfs s))
    else if bool_decide (mnt = [SLASH]) then Ret (-1, s)
    else
      '(mntVnode, s) ← vnode_open fuel (Some mnt) O_DIRECTORY 0 s;
      if mntVnode =? 0 then Ret (- kerrno s, s)
      else
        let s := upd_vfs (lastVFS s) (fun v => mk_vfs (vfs_fid v) (vfs_mountFlags v) (vfs_vnodeCovered v)
                   (vfs_rootVnode v) (vfs_system v) (vfs_lock v) vfs) s in
        let s := set_vfs_list (rootVFS s) vfs s in
        let s := upd_vnode mntVnode (w_mounted vfs) s in
        finish (upd_vfs vfs (fun v => mk_vfs (vfs_fid v) (vfs_mountFlags v) mntVnode (vfs_rootVnode v)
                                        (vfs_system v) (vfs_lock v) (vfs_next v)) s).

Fixpoint unmount_loop (fuel : nat) (prev i vfs : Z) s : outcome (Z * fal X H) :=
  match fuel with
  | O => OutOfFuel
  | S f =>
      if i =? 0 then Ret (1, s)
      else if i =? vfs then
        if negb (prev =? 0) then
          l ← acquireLock (vfs_lock (f_vfss s prev));
          let s := upd_vfs prev (fun v => mk_vfs (vfs_fid v) (vfs_mountFlags v) (vfs_vnodeCovered v) (vfs_rootVnode v)
                                  (vfs_system v) (releaseLock l) (vfs_next (f_vfss s i))) s in
          h ← kh_free i (f_heap s); Ret (0, set_heap h s)
        else Ret (1, s)
      else unmount_loop f i (vfs_next (f_vfss s i)) vfs s
  end.

Definition vfs_unmount (fuel : nat) (vfs : Z) s : outcome (Z * fal X H) :=
  unmount_loop fuel 0 (rootVFS s) vfs s.

Fixpoint by_fid_loop (fuel : nat) (i fid : Z) s : outcome Z :=
  match fuel with
  | O => OutOfFuel
  | S f =>
      if i =? 0 then Ret 0
      else if vfs_fid (f_vfss s i) =? fid then Ret i
      else by_fid_loop f (vfs_next (f_vfss s i)) fid s
  end.

Definition vfs_get_by_fid (fuel : nat) (fid : Z) s : outcome Z := by_fid_loop fuel (rootVFS s) fid s.
Definition vfs_get_root s : Z := rootVFS s.
End Vnode.

(** ** The list of open vnodes, abstractly *)

(** The vnodes of a list are linked in both directions. *)
Abbreviation linked f := (dlinked (fun v => v_next (f v)) (fun v => v_prev (f v))).

Definition vnode_list {X H} (s : fal X H) (l : list Z) : Prop :=
  vnodeListHead s = first_v 0 l /\ vnodeListTail s = last_v 0 l /\ linked (f_vnodes s) 0 l 0 /\
  NoDup l /\ Forall (fun v => v <> 0) l.

Section ListSpec.
Context {X H : Type}.
Implicit Types (s : fal X H).

Lemma upd_vnode_read a g s x : f_vnodes (upd_vnode a g s) x = if x =? a then g (f_vnodes s x) else f_vnodes s x.
Proof. unfold upd_vnode, upd. cbn. now destruct (Z.eqb_spec x a) as [->|]. Qed.

Lemma vnode_list_add_spec s l v :
  vnode_list s l -> v ∉ l -> v <> 0 -> vnode_list (vnode_list_add v s) (l ++ [v]).
Proof.
  intros (H1 & H2 & H3 & H4 & H5) Hv Hv0. unfold vnode_list_add.
  destruct (pchain_snoc l v (conj H4 H5) Hv Hv0) as [Hnd Hnz]. destruct l as [|w l].
  - rewrite H1. cbn [first_v Z.eqb]. unfold vnode_list.
    cbn [vnodeListHead vnodeListTail upd_vnode set_vnodes set_list]. splits; auto.
    cbn [dlinked app first_v]. rewrite !upd_vnode_read. cbn [vnodeListHead upd_vnode set_vnodes set_list].
    rewrite Z.eqb_refl. cbn. auto.
  - assert ((vnodeListHead s =? 0) = false) as ->.
    { rewrite H1. apply Z.eqb_neq. now apply Forall_cons in H5. }
    set (t := vnodeListTail s) in *. assert (t ∈ w :: l) as Ht by (rewrite H2; cbn [last_v]; apply last_v_in).
    assert (t <> v) as Htv by congruence.
    unfold vnode_list. cbn [vnodeListHead vnodeListTail upd_vnode set_vnodes set_list]. fold t. splits; auto.
    + rewrite last_v_app. reflexivity.
    + apply (dlinked_snoc _ _ _ _ (w :: l) v H3 (conj H4 H5) Hv); rewrite <- ?H2; [| |intros x Hx; assert (x <> v) as Hxv by congruence];
        rewrite !upd_vnode_read; cbn [vnodeListTail vnodeListHead f_vnodes upd_vnode set_vnodes set_list]; fold t;
        rewrite ?Z.eqb_refl, ?(proj2 (Z.eqb_neq x v) Hxv); unfold upd; rewrite ?Z.eqb_refl, ?(proj2 (Z.eqb_neq x v) Hxv); cbn; auto.
      destruct (Z.eqb_spec x t) as [->|]; cbn; auto.
Qed.

Lemma vnode_list_remove_spec s l1 v l2 :
  vnode_list s (l1 ++ v :: l2) -> vnode_list (vnode_list_remove v s) (l1 ++ l2).
Proof.
  intros (H1 & H2 & H3 & H4 & H5). pose proof (conj H4 H5 : pchain (l1 ++ v :: l2)) as Hc.
  destruct (dlinked_middle _ _ _ _ _ H3) as [Ln Lp]. cbn beta in Ln, Lp.
  destruct (pchain_middle _ _ _ Hc) as (Zv & C1 & C2 & [N12 Z12] & Nv & _).
  set (n := first_v 0 l2) in *. set (p := last_v 0 l1) in *.
  assert (n <> v /\ p <> v) as [Hnv Hpv].
  { pose proof (first_v_cases l2) as Cn. pose proof (last_v_cases l1) as Cp. fold n in Cn. fold p in Cp.
    rewrite elem_of_app in Nv. split; [destruct Cn|destruct Cp]; congruence || intros E; rewrite E in *; tauto. }
  assert (forall x, f_vnodes (vnode_list_remove v s) x =
    (if negb (p =? 0) && (x =? p) then w_vnext n else fun y => y)
      ((if negb (n =? 0) && (x =? n) then w_vprev p else fun y => y) (f_vnodes s x))) as Hf.
  { intros x. unfold vnode_list_remove.
    assert (forall (c : bool) s1 a b, f_vnodes (if c then set_list a b s1 else s1) = f_vnodes s1) as E by now intros [].
    rewrite !E, Ln, Lp. destruct (Z.eqb_spec n 0) as [En|En]; cbn [negb andb].
    - rewrite !E, Lp, Ln. destruct (Z.eqb_spec p 0); cbn [negb andb]; rewrite ?upd_vnode_read, !E; [reflexivity|].
      now destruct (x =? p).
    - rewrite !upd_vnode_read, !E, (proj2 (Z.eqb_neq v n)), Lp, Ln by congruence.
      destruct (Z.eqb_spec p 0); cbn [negb andb]; rewrite ?upd_vnode_read, !E.
      + now destruct (x =? n).
      + destruct (x =? p), (x =? n); reflexivity. }
  assert (vnodeListHead (vnode_list_remove v s) = (if vnodeListHead s =? v then n else vnodeListHead s) /\
          vnodeListTail (vnode_list_remove v s) = (if vnodeListTail s =? v then p else vnodeListTail s)) as [Hh Ht].
  { unfold vnode_list_remove.
    assert (forall (c : bool) a g s1, vnodeListHead (if c then upd_vnode a g s1 else s1) = vnodeListHead s1 /\
      vnodeListTail (if c then upd_vnode a g s1 else s1) = vnodeListTail s1) as E by now intros [].
    rewrite !(proj1 (E _ _ _ _)), !(proj2 (E _ _ _ _)).
    destruct (vnodeListTail s =? v); cbn [vnodeListHead set_list]; destruct (vnodeListHead s =? v); cbn; auto. }
  unfold vnode_list. rewrite Hh, Ht, H1, H2, (first_v_remove _ _ _ Hc), (last_v_remove _ _ _ Hc). splits; auto.
  apply (dlinked_remove _ _ _ _ _ _ _ H3 Hc); intros x _; rewrite Hf, ?Ln, ?Lp; now destruct (_ && _), (_ && _).
Qed.

(** The search goes over the linked vnodes and ends. *)
Lemma search_loop_spec s fid name l : forall prev fuel,
  linked (f_vnodes s) prev l 0 -> Forall (fun v => v <> 0) l -> (length l < fuel)%nat ->
  Returns (search_loop fuel (first_v 0 l) fid name s) (fun r =>
    (r = 0 /\ forall v, v ∈ l -> ~ (vfs_fid (f_vfss s (v_vfs (f_vnodes s v))) = fid /\ v_filename (f_vnodes s v) = name)) \/
    (r ∈ l /\ vfs_fid (f_vfss s (v_vfs (f_vnodes s r))) = fid /\ v_filename (f_vnodes s r) = name)).
Proof.
  induction l as [|v l IH]; intros prev [|f] Hl Hz Hf; cbn [length] in Hf; try lia.
  - apply Returns_ret. left. split; [reflexivity|]. intros v Hv. now apply not_elem_of_nil in Hv.
  - destruct Hl as (Ln & _ & Hl). apply Forall_cons in Hz as [Hz0 Hz]. cbn [search_loop first_v].
    rewrite (proj2 (Z.eqb_neq v 0) Hz0).
    destruct (Z.eqb_spec (vfs_fid (f_vfss s (v_vfs (f_vnodes s v)))) fid) as [E1|E1];
      [case_bool_decide as E2|]; cbn [andb].
    + apply Returns_ret. right. splits; auto. apply elem_of_cons. now left.
    + rewrite Ln. eapply Returns_mono; [apply (IH v f Hl Hz); lia|]. intros r [[-> Hr]|[Hr Hr']].
      * left. split; [reflexivity|]. intros w [->|Hw]%elem_of_cons; [tauto|now apply Hr].
      * right. split; [apply elem_of_cons; now right|exact Hr'].
    + rewrite Ln. eapply Returns_mono; [apply (IH v f Hl Hz); lia|]. intros r [[-> Hr]|[Hr Hr']].
      * left. split; [reflexivity|]. intros w [->|Hw]%elem_of_cons; [tauto|now apply Hr].
      * right. split; [apply elem_of_cons; now right|exact Hr'].
Qed.

(** The list depends on its two ends and the links only. *)
Lemma vnode_list_frame s s' l :
  vnodeListHead s' = vnodeListHead s -> vnodeListTail s' = vnodeListTail s ->
  (forall v, v_next (f_vnodes s' v) = v_next (f_vnodes s v) /\ v_prev (f_vnodes s' v) = v_prev (f_vnodes s v)) ->
  vnode_list s l -> vnode_list s' l.
Proof.
  intros E1 E2 Hf (H1 & H2 & H3 & H4 & H5). unfold vnode_list. rewrite E1, E2. splits; auto.
  apply (dlinked_frame (fun v => v_next (f_vnodes s v)) (fun v => v_prev (f_vnodes s v))); auto.
Qed.

(** A store to a vnode that leaves its links alone. *)
Lemma vnode_list_upd s l a g :
  (forall v, v_next (g v) = v_next v /\ v_prev (g v) = v_prev v) ->
  vnode_list s l -> vnode_list (upd_vnode a g s) l.
Proof.
  intros Hg. apply vnode_list_frame; [reflexivity|reflexivity|]. intros v. rewrite upd_vnode_read.
  destruct (v =? a); [apply Hg|auto].
Qed.
End ListSpec.

Create HintDb vnodes.
#[export] Hint Resolve vnode_list_upd vnode_list_add_spec vnode_list_remove_spec : vnodes.

(** The list of open vnodes refines a sequence: [vnode_list_add] of a vnode that
    is not in it appends it, [vnode_list_remove] takes a member out and keeps the
    others in order, and [vnode_list_search_by_filename] ends within one step more
    than the length and returns a member with the file system id and name asked
    for, or NULL exactly when there is none. *)
Theorem vnode_list_correct {X H} (s : fal X H) l :
  vnode_list s l ->
  (forall v, v ∉ l -> v <> 0 -> vnode_list (vnode_list_add v s) (l ++ [v])) /\
  (forall l1 v l2, l = l1 ++ v :: l2 -> vnode_list (vnode_list_remove v s) (l1 ++ l2)) /\
  vnode_list (vnode_list_reset s) [] /\
  forall fuel vfs name, (length l < fuel)%nat ->
    Returns (vnode_list_search_by_filename fuel vfs name s) (fun r =>
      let hit v := vfs_fid (f_vfss s (v_vfs (f_vnodes s v))) = vfs_fid (f_vfss s vfs) /\
                   v_filename (f_vnodes s v) = name in
      (r = 0 /\ forall v, v ∈ l -> ~ hit v) \/ (r ∈ l /\ hit r)).
Proof.
  intros Hl. splits.
  - intros v. now apply vnode_list_add_spec.
  - intros l1 v l2 ->. now apply vnode_list_remove_spec.
  - unfold vnode_list, vnode_list_reset. cbn. splits; auto; constructor.
  - intros fuel vfs name Hf. unfold vnode_list_search_by_filename. destruct Hl as (-> & _ & H3 & _ & H5).
    now apply (search_loop_spec s (vfs_fid (f_vfss s vfs)) name l 0).
Qed.

(** A state with three vnodes of one file system, the first two open. *)
Definition vnode_named (name : string) (ty ops next prev : Z) : vnode_t :=
  mk_vnode (chars name) 0 0 ty 0 1 false 0 7 ops 0 next prev.

Definition fal_demo : fal unit unit :=
  mk_fal (fun v => if v =? 100 then vnode_named "a" V_REG 50 200 0
                   else if v =? 200 then vnode_named "d/" V_DIR 50 0 100
                   else vnode_named "c" V_REG 50 0 0)
    (fun _ => mk_vfs 1 0 0 300 false false 0) 100 200 7 7 2 0 (fun _ => 0) tt
    {[ 900 := [mk_fd 200 100 O_RDONLY; mk_fd 0 0 0] ]} tt.

Lemma fal_demo_list : vnode_list fal_demo [100; 200].
Proof.
  assert (NoDup [100; 200]) by (apply (bool_decide_unpack _); vm_compute; exact I).
  unfold vnode_list. cbn. splits; auto; repeat constructor; lia.
Qed.

Lemma vnode_list_correct_witness :
  vnode_list (vnode_list_add 300 fal_demo) [100; 200; 300] /\
  vnode_list (vnode_list_remove 100 fal_demo) [200] /\
  vnode_list_search_by_filename 3 7 (chars "d/") fal_demo = Ret 200.
Proof.
  destruct (vnode_list_correct fal_demo [100; 200] fal_demo_list) as (Ha & Hr & _).
  splits; [apply (Ha 300); [apply (bool_decide_unpack _); vm_compute; exact I|lia]|apply (Hr [] 100 [200]); reflexivity|reflexivity].
Defined.

(** Adding the first of several open vnodes once more, as [vnode_open] does when
    the path it compares with differs from the stored name, cuts the list: the head
    is still that vnode, its successor is NULL, so that a search by name no longer
    reaches any other open vnode. *)
Theorem vnode_list_add_twice_drops {X H} (s : fal X H) v l :
  vnode_list s (v :: l) -> l <> [] ->
  let s' := vnode_list_add v s in
  vnodeListHead s' = v /\ v_next (f_vnodes s' v) = 0 /\
  forall vfs w, w ∈ l -> Returns (vnode_list_search_by_filename 2 vfs (v_filename (f_vnodes s w)) s') (fun r => r <> w).
Proof.
  intros (H1 & H2 & H3 & H4 & H5) Hl. cbn [first_v] in H1. apply NoDup_cons in H4 as [Hv H4].
  apply Forall_cons in H5 as [Hv0 H5]. unfold vnode_list_add. rewrite H1, (proj2 (Z.eqb_neq v 0) Hv0).
  cbn zeta. set (s' := upd_vnode _ _ (set_list _ _ _)).
  assert (vnodeListHead s' = v) as Eh by (unfold s'; cbn; exact H1).
  assert (v_next (f_vnodes s' v) = 0) as En by (unfold s'; rewrite upd_vnode_read; cbn; now rewrite Z.eqb_refl).
  splits; [exact Eh|exact En|]. intros vfs w Hw. unfold vnode_list_search_by_filename. rewrite Eh. cbn [search_loop].
  rewrite (proj2 (Z.eqb_neq v 0) Hv0), En. cbn [Z.eqb].
  destruct (_ && _); apply Returns_ret; [congruence|]. rewrite Forall_forall in H5. intros E. now apply (H5 w Hw).
Qed.

Lemma vnode_list_add_twice_drops_witness :
  let s' := vnode_list_add 100 fal_demo in
  vnodeListHead s' = 100 /\ v_next (f_vnodes s' 100) = 0 /\
  vnode_list_search_by_filename 2 7 (chars "d/") s' = Ret 0.
Proof.
  destruct (vnode_list_add_twice_drops fal_demo 100 [200] fal_demo_list ltac:(discriminate)) as (H1 & H2 & _).
  cbn zeta. splits; [exact H1|exact H2|reflexivity].
Defined.

(** ** Opening *)

Section OpenSpec.
Context {X H : Type}.
Variable ops : Z -> vnode_operations_t (fal X H).
Implicit Types (s : fal X H).

(** What locking, unlocking and counting leave alone. *)
Lemma search_same fuel i fid name s s' :
  f_vfss s' = f_vfss s ->
  (forall v, v_next (f_vnodes s' v) = v_next (f_vnodes s v) /\ v_vfs (f_vnodes s' v) = v_vfs (f_vnodes s v) /\
             v_filename (f_vnodes s' v) = v_filename (f_vnodes s v)) ->
  search_loop fuel i fid name s' = search_loop fuel i fid name s.
Proof.
  intros E Hf. revert i. induction fuel as [|f IH]; intros i; cbn [search_loop]; [reflexivity|].
  destruct (Hf i) as (-> & -> & ->). rewrite E, IH. reflexivity.
Qed.

(** The part of [vnode_open] after a successful lookup. *)
Definition same_kind (flags : Z) (v : vnode_t) : bool := Bool.eqb (has flags O_DIRECTORY) (v_type v =? V_DIR).

Lemma vnode_open_refused fuel path flags mode s v s1 l :
  vnode_lookup ops path (set_errno 0 s) = Ret (v, s1) -> v <> 0 ->
  v_lock (f_vnodes s1 v) = false -> vnode_list s1 l ->
  same_kind flags (f_vnodes s1 v) = false ->
  Returns (vnode_open ops fuel path flags mode s) (fun '(r, s2) =>
    r = 0 /\ kerrno s2 = (if has flags O_DIRECTORY then ENOTDIR else EISDIR) /\ vnode_list s2 l /\
    v_lock (f_vnodes s2 v) = false /\ v_refCount (f_vnodes s2 v) = v_refCount (f_vnodes s1 v)).
Proof.
  intros E Hv Hlk Hl Hk. unfold vnode_open. rewrite E. cbn [mbind outcome_bind].
  rewrite (proj2 (Z.eqb_neq v 0) Hv). unfold lock_vnode. rewrite Hlk. cbn [acquireLock mbind outcome_bind].
  unfold same_kind in Hk. rewrite !upd_vnode_read, !Z.eqb_refl. cbn [v_type w_vlock].
  destruct (has flags O_DIRECTORY), (v_type (f_vnodes s1 v) =? V_DIR); try discriminate; cbn [negb andb];
    apply Returns_ret; unfold unlock_vnode; rewrite !upd_vnode_read, !Z.eqb_refl; splits; try reflexivity;
    try (apply vnode_list_upd; [easy|]; apply (vnode_list_frame (upd_vnode v (w_vlock true) s1)); auto with vnodes);
    cbn; unfold upd; rewrite Z.eqb_refl; reflexivity.
Qed.

Lemma vnode_list_add_fields s v x :
  v_refCount (f_vnodes (vnode_list_add v s) x) = v_refCount (f_vnodes s x).
Proof.
  unfold vnode_list_add. destruct (vnodeListHead s =? 0); rewrite !upd_vnode_read;
    cbn [f_vnodes set_list vnodeListHead vnodeListTail upd_vnode set_vnodes]; unfold upd;
    repeat match goal with |- context [?a =? ?b] => destruct (Z.eqb_spec a b); subst end; reflexivity.
Qed.

Lemma vnode_open_granted fuel path flags mode s v s1 l :
  vnode_lookup ops path (set_errno 0 s) = Ret (v, s1) -> v <> 0 ->
  v_lock (f_vnodes s1 v) = false -> vnode_list s1 l -> (length l < fuel)%nat ->
  same_kind flags (f_vnodes s1 v) = true ->
  let hit w := vfs_fid (f_vfss s1 (v_vfs (f_vnodes s1 w))) = vfs_fid (f_vfss s1 (v_vfs (f_vnodes s1 v))) /\
               v_filename (f_vnodes s1 w) = default [] path in
  Returns (vnode_open ops fuel path flags mode s) (fun '(r, s2) =>
    r = v /\ v_lock (f_vnodes s2 v) = false /\
    v_refCount (f_vnodes s2 v) = i32 (v_refCount (f_vnodes s1 v) + 1) /\
    ((exists w, w ∈ l /\ hit w) /\ vnode_list s2 l \/
     (forall w, w ∈ l -> ~ hit w) /\ (v ∉ l -> vnode_list s2 (l ++ [v])) /\
       v_flags (f_vnodes s2 v) = flags /\ v_mode (f_vnodes s2 v) = mode)).
Proof.
  intros E Hv Hlk Hl Hf Hk hit. unfold vnode_open. rewrite E. cbn [mbind outcome_bind].
  rewrite (proj2 (Z.eqb_neq v 0) Hv). unfold lock_vnode. rewrite Hlk. cbn [acquireLock mbind outcome_bind].
  apply eqb_prop in Hk. rewrite !upd_vnode_read, !Z.eqb_refl. cbn [v_type w_vlock].
  rewrite <- Hk, andb_negb_r, andb_comm, andb_negb_r.
  set (s2 := upd_vnode v _ (upd_vnode v _ s1)). change (v_vfs _) with (v_vfs (f_vnodes s1 v)).
  assert (vnode_list s2 l) as Hl2 by (do 2 (apply vnode_list_upd; [easy|]); exact Hl).
  assert (forall x, v_next (f_vnodes s2 x) = v_next (f_vnodes s1 x) /\ v_vfs (f_vnodes s2 x) = v_vfs (f_vnodes s1 x) /\
             v_filename (f_vnodes s2 x) = v_filename (f_vnodes s1 x))
    by (intros x; unfold s2; rewrite !upd_vnode_read; destruct (x =? v); cbn; auto).
  assert (v_refCount (f_vnodes s2 v) = i32 (v_refCount (f_vnodes s1 v) + 1)) as Hc
    by (unfold s2; rewrite !upd_vnode_read, !Z.eqb_refl; reflexivity).
  unfold vnode_list_search_by_filename. rewrite (search_same _ _ _ _ s1 s2) by auto.
  change (vnodeListHead s2) with (vnodeListHead s1). rewrite (proj1 Hl). destruct Hl as (_ & _ & H3 & _ & H5).
  eapply Returns_bind; [exact (search_loop_spec s1 _ (default [] path) l 0 fuel H3 H5 Hf)|].
  intros r [[-> Hno]|(Hr & Hhit)]; apply Returns_ret; unfold unlock_vnode.
  - rewrite Z.eqb_refl, !upd_vnode_read, !Z.eqb_refl. cbn [v_lock w_vlock v_refCount w_modes v_flags v_mode].
    rewrite vnode_list_add_fields. splits; auto. right. splits; auto. intros Hvl.
    do 2 (apply vnode_list_upd; [easy|]). now apply vnode_list_add_spec.
  - assert (r <> 0) as Hr0 by (rewrite Forall_forall in H5; now apply H5).
    rewrite (proj2 (Z.eqb_neq r 0) Hr0), !upd_vnode_read, !Z.eqb_refl. cbn [v_lock w_vlock v_refCount].
    splits; auto. left. split; [now exists r|]. apply vnode_list_upd; [easy|exact Hl2].
Qed.
End OpenSpec.

(** [vnode_open] of a path that resolves to the vnode [v] checks that the kind
    asked for ([O_DIRECTORY]) is the kind found: if not, it fails with [ENOTDIR] or
    [EISDIR], counts nothing and leaves the list alone; if so, it returns [v] with one
    more reference, and adds it to the list and sets its flags and mode exactly when no
    open vnode of that file system has the path as its name.  The lock is free again
    in every case. *)
Theorem vnode_open_correct {X H} (ops : Z -> vnode_operations_t (fal X H)) fuel path flags mode s v s1 l :
  vnode_lookup ops path (set_errno 0 s) = Ret (v, s1) -> v <> 0 ->
  v_lock (f_vnodes s1 v) = false -> vnode_list s1 l -> (length l < fuel)%nat ->
  let hit w := vfs_fid (f_vfss s1 (v_vfs (f_vnodes s1 w))) = vfs_fid (f_vfss s1 (v_vfs (f_vnodes s1 v))) /\
               v_filename (f_vnodes s1 w) = default [] path in
  Returns (vnode_open ops fuel path flags mode s) (fun '(r, s2) =>
    v_lock (f_vnodes s2 v) = false /\
    if same_kind flags (f_vnodes s1 v) then
      r = v /\ v_refCount (f_vnodes s2 v) = i32 (v_refCount (f_vnodes s1 v) + 1) /\
      ((exists w, w ∈ l /\ hit w) /\ vnode_list s2 l \/
       (forall w, w ∈ l -> ~ hit w) /\ (v ∉ l -> vnode_list s2 (l ++ [v])) /\
         v_flags (f_vnodes s2 v) = flags /\ v_mode (f_vnodes s2 v) = mode)
    else r = 0 /\ kerrno s2 = (if has flags O_DIRECTORY then ENOTDIR else EISDIR) /\
         vnode_list s2 l /\ v_refCount (f_vnodes s2 v) = v_refCount (f_vnodes s1 v)).
Proof.
  intros E Hv Hlk Hl Hf hit. destruct (same_kind flags (f_vnodes s1 v)) eqn:Hk.
  - eapply Returns_mono; [now apply (vnode_open_granted ops fuel path flags mode s v s1 l)|]. intros [r s2]. tauto.
  - eapply Returns_mono; [now apply (vnode_open_refused ops fuel path flags mode s v s1 l)|]. intros [r s2]. tauto.
Qed.

(** A file system whose root holds the regular file [a], the directory [d/] and the
    regular file [c]. *)
Definition demo_lookup {H : Type} (v : Z) (name : list Z) (s : fal unit H) : outcome (Z * fal unit H) :=
  if bool_decide (name = chars "a") then Ret (100, s)
  else if bool_decide (name = chars "d/") then Ret (200, s)
  else if bool_decide (name = chars "c") then Ret (301, s)
  else Ret (0, set_errno ENOENT s).

Definition demo_ops {H : Type} (o : Z) : vnode_operations_t (fal unit H) :=
  mk_ops (Some (fun v size buf off s => Ret (size, s))) None None (Some demo_lookup) None.

Lemma vnode_open_correct_witness :
  Returns (vnode_open demo_ops 3 (Some (chars "/c")) O_RDONLY 0 fal_demo) (fun '(r, s2) =>
    r = 301 /\ v_refCount (f_vnodes s2 301) = 2 /\ vnode_list s2 [100; 200; 301]) /\
  Returns (vnode_open demo_ops 3 (Some (chars "/c")) O_DIRECTORY 0 fal_demo) (fun '(r, s2) =>
    r = 0 /\ kerrno s2 = ENOTDIR).
Proof.
  set (s1 := upd_vnode 300 (w_vlock false) (upd_vnode 300 (w_vlock true) (set_errno 0 fal_demo))).
  assert (vnode_lookup demo_ops (Some (chars "/c")) (set_errno 0 fal_demo) = Ret (301, s1)) as E by reflexivity.
  assert (f_vnodes s1 301 = vnode_named "c" V_REG 50 0 0 /\
          f_vnodes s1 100 = f_vnodes fal_demo 100 /\ f_vnodes s1 200 = f_vnodes fal_demo 200) as (E1 & E3 & E4)
    by (splits; reflexivity).
  assert (vnode_list s1 [100; 200]) as E2 by (do 2 (apply vnode_list_upd; [easy|]); exact fal_demo_list).
  clearbody s1.
  pose proof (fun fl => vnode_open_correct demo_ops 3 (Some (chars "/c")) fl 0 fal_demo 301 s1 [100; 200] E
    ltac:(lia) ltac:(now rewrite E1) E2 ltac:(cbn; lia)) as HO.
  split.
  - eapply Returns_mono; [exact (HO O_RDONLY)|]. intros [r s2]. rewrite E1. cbn. intros (_ & -> & -> & Hc).
    splits; auto. destruct Hc as [[(w & Hw & _ & Hn) _]|(_ & Hc & _)].
    + apply elem_of_cons in Hw as [->|Hw]; [|apply list_elem_of_singleton in Hw as ->]; rewrite ?E3, ?E4 in Hn; discriminate Hn.
    + apply Hc. apply (bool_decide_unpack _); vm_compute; exact I.
  - eapply Returns_mono; [exact (HO O_DIRECTORY)|]. intros [r s2]. rewrite E1. cbn. intros (_ & -> & -> & _). auto.
Defined.

(** ** Descriptors *)

Section DescriptorSpec.
Context {X H : Type} `{KH : KernelHeap H}.
Variable ops : Z -> vnode_operations_t (fal X H).
Implicit Types (s : fal X H).

Lemma fd_get_inv t i s e :
  fd_get t i s = Ret e -> exists l, f_tables s !! t = Some l /\ 0 <= i < Z.of_nat (length l) /\ nth (Z.to_nat i) l empty_fd = e.
Proof.
  unfold fd_get. destruct (f_tables s !! t) as [l|]; [|discriminate].
  destruct (Z.leb_spec 0 i), (Z.ltb_spec i (Z.of_nat (length l))); try discriminate. intros [= <-]. exists l. auto with lia.
Qed.

Lemma fd_set_get t i s e f :
  fd_get t i s = Ret e -> Returns (fd_set t i f s) (fun s' => fd_get t i s' = Ret f /\
    s' = set_tables (f_tables s') s /\ forall j, j <> i -> fd_get t j s' = fd_get t j s).
Proof.
  intros (l & E & Hi & _)%fd_get_inv. unfold fd_set. rewrite E.
  rewrite (proj2 (Z.leb_le 0 i)), (proj2 (Z.ltb_lt i _)) by lia. cbn [andb]. apply Returns_ret. unfold fd_get.
  cbn [f_tables set_tables]. rewrite lookup_insert_eq, length_insert. splits; [|reflexivity|].
  - rewrite (proj2 (Z.leb_le 0 i)), (proj2 (Z.ltb_lt i _)) by lia. cbn [andb]. f_equal.
    apply nth_lookup_Some, list_lookup_insert_eq. lia.
  - intros j Hj. rewrite E. destruct (Z.leb_spec 0 j), (Z.ltb_spec j (Z.of_nat (length l))); try reflexivity.
    cbn [andb]. f_equal. rewrite !nth_lookup, list_lookup_insert_ne by lia. reflexivity.
Qed.

(** A scan over descriptors that are all in use opens nothing. *)
Lemma open_scan_full fuel n : forall i p abs path flags mode s l,
  f_tables s !! fdTable p = Some l -> 0 <= i -> i + Z.of_nat n <= Z.of_nat (length l) ->
  (forall j, i <= j < i + Z.of_nat n -> fd_file (nth (Z.to_nat j) l empty_fd) <> 0) ->
  open_scan ops fuel n i p abs path flags mode s = Ret (inr s).
Proof.
  induction n as [|n IH]; intros i p abs path flags mode s l E Hi Hn Hu; cbn [open_scan]; [reflexivity|].
  unfold fd_get. rewrite E, (proj2 (Z.leb_le 0 i)), (proj2 (Z.ltb_lt i _)) by lia. cbn [andb mbind outcome_bind].
  rewrite (proj2 (Z.eqb_neq _ 0)) by (apply Hu; lia). apply (IH _ _ _ _ _ _ _ l); auto with lia.
Qed.

(** The table is freed, and [fdTable] still names it. *)
Lemma realloc_frees t n m s r s' :
  n <> m -> vnode_realloc_fd_table t n m s = Ret (r, s') -> f_tables s' !! t = None.
Proof.
  intros Hn. unfold vnode_realloc_fd_table. rewrite (proj2 (Z.eqb_neq n m) Hn). intros E. inv_ret.
  cbn [f_tables set_heap] in *. destruct (f_tables s !! t) as [old|]; [|discriminate].
  destruct (_ <? n); [discriminate|]. inv_ret. cbn [f_tables set_heap set_tables]. apply lookup_delete_eq.
Qed.
End DescriptorSpec.

(** When the descriptors [sys_open] searches are all in use and the table may still
    grow, [sys_open] never returns: the table is reallocated but the new address is
    dropped, so the next round reads the freed table. *)
Theorem sys_open_full_table_faults {X H} `{KH : KernelHeap H} (ops : Z -> vnode_operations_t (fal X H))
    depth fuel p path flags mode s l :
  f_tables s !! fdTable p = Some l -> Z.of_nat (length l) = fdMax p + 1 -> 0 <= fdMax p ->
  fdMax p + 1 < PROCESS_MAX_FD ->
  (forall j, 0 <= j < fdMax p -> fd_file (nth (Z.to_nat j) l empty_fd) <> 0) ->
  forall r, sys_open ops depth fuel p path flags mode s <> Ret r.
Proof.
  intros E Hl H0 Hm Hu r Hr. unfold sys_open in Hr. apply bind_Ret in Hr as ([[abs str] s1] & E1 & Hr).
  assert (f_tables s1 = f_tables s) as Et.
  { unfold absolute_path in E1. apply bind_Ret in E1 as (q & _ & E1). destruct (p_buf q); inv_ret; reflexivity. }
  rewrite <- Et in E. destruct depth as [|d]; [discriminate Hr|]. cbn [sys_open_loop] in Hr.
  rewrite (open_scan_full ops fuel (Z.to_nat (fdMax p)) 0 p abs str flags mode s1 l E) in Hr by
    (try lia; intros j Hj; apply Hu; lia).
  cbn [mbind outcome_bind] in Hr. unfold PROCESS_MAX_FD in *.
  rewrite !(wrap_small 64 (_ + 1)) in Hr by (pow2_consts; lia).
  destruct (Z.geb_spec (fdMax p + 1) 2048) as [Hge|_]; [lia|].
  rewrite !(wrap_small 64 (_ * 2)), (wrap_small 64 (_ - 1)) in Hr by (pow2_consts; lia).
  apply bind_Ret in Hr as ([nt s2] & E2 & Hr). apply realloc_frees in E2; [|lia].
  destruct d as [|d]; [discriminate Hr|]. cbn [sys_open_loop] in Hr. cbn [fdMax] in Hr.
  destruct (Z.to_nat ((fdMax p + 1) * 2 - 1)) as [|k] eqn:Ek; [lia|].
  cbn [open_scan fdTable] in Hr. unfold fd_get in Hr. cbn [fdTable] in Hr. rewrite E2 in Hr. discriminate Hr.
Qed.

(** A process whose two descriptors are in use, on the demonstration heap. *)
Definition open_demo : fal unit (kheap_state pmm_state) :=
  mk_fal (f_vnodes fal_demo) (f_vfss fal_demo) 100 200 7 7 2 0 (path_mem "/" "c") heap_demo
    {[ HHDM + 32 := [mk_fd 100 0 0; mk_fd 200 0 0] ]} tt.

Lemma sys_open_full_table_faults_witness :
  forall r, sys_open (KH := kheap_heap HHDM) demo_ops 2 64 (mk_files (HHDM + 32) 1 16) 18 O_RDONLY 0 open_demo <> Ret r.
Proof.
  apply (sys_open_full_table_faults demo_ops 2 64 (mk_files (HHDM + 32) 1 16) 18 O_RDONLY 0 open_demo
           [mk_fd 100 0 0; mk_fd 200 0 0]); cbn [fdTable fdMax]; unfold PROCESS_MAX_FD; try lia; [reflexivity|reflexivity|].
  intros j Hj. replace j with 0 by lia. discriminate.
Defined.

(** [sys_read] on a readable descriptor returns what [vnode_read] returned and moves
    the offset of exactly that descriptor by it.  This holds for a failed transfer too:
    the error number, negative, is added to the offset modulo 2^64. *)
Lemma sys_read_moves_offset {X H} (ops : Z -> vnode_operations_t (fal X H)) p fd buf count s e res s1 :
  good_fd p fd s = Ret (Some e) -> has (fd_flags e) O_WRONLY && negb (has (fd_flags e) O_RDWR) = false ->
  vnode_read ops (fd_file e) count buf (fd_offset e) s = Ret (res, s1) -> f_tables s1 = f_tables s ->
  - 2 ^ 63 <= res < 2 ^ 63 -> 0 <= fd_offset e < 2 ^ 64 ->
  Returns (sys_read ops p fd buf count s) (fun '(r, s2) =>
    r = res /\ s2 = set_tables (f_tables s2) s1 /\
    fd_get (fdTable p) fd s2 = Ret (mk_fd (fd_file e) (u64 (fd_offset e + res)) (fd_flags e)) /\
    forall j, j <> fd -> fd_get (fdTable p) j s2 = fd_get (fdTable p) j s).
Proof.
  intros Hg Hw Hr Ht Hres Hoff. unfold sys_read. rewrite Hg. cbn [mbind outcome_bind]. rewrite Hw, Hr.
  cbn [mbind outcome_bind]. unfold good_fd in Hg. destruct (u64 fd >? fdMax p); [discriminate|].
  apply bind_Ret in Hg as (e' & Hg & He). destruct (fd_file e' =? 0); [discriminate|]. injection He as ->.
  assert (forall j, fd_get (fdTable p) j s1 = fd_get (fdTable p) j s) as Hs1
    by (intros j; unfold fd_get; now rewrite Ht).
  assert (i64 (u64 res) = res) as Ei by wrap_lia.
  unfold advance. rewrite Ei. destruct (Z.gtb_spec (u64 res) 0) as [Hpos|Hpos].
  - rewrite Hs1, Hg. cbn [mbind outcome_bind]. rewrite <- Hs1 in Hg.
    eapply Returns_bind; [exact (fd_set_get _ _ _ _ _ Hg)|]. intros s2 (G1 & G2 & G3). apply Returns_ret.
    splits; [reflexivity|exact G2| |intros j Hj; rewrite G3 by exact Hj; apply Hs1].
    rewrite G1. do 2 f_equal. unfold wrap. apply Zplus_mod_idemp_r.
  - assert (res = 0) as -> by wrap_lia. apply Returns_ret. splits; auto; [now destruct s1|].
    rewrite Hs1, Hg, Z.add_0_r, wrap_small by lia. now destruct e.
Qed.
