(* ===== verification/Initrd.v ===== *)
(** * The initial ram disk ([kernel/sys/fal/initrd/initrd.c])

    A read-only file system over a tar archive in memory.  It supplies an operation
    table to [Vnode]; its private state is the address of the archive and the
    [initrd_file_fs_data_t] records, by address.  The time stamps of a vnode are not
    modelled. *)

From S2P Require Import Prelude Links Interfaces MemMap Pmm MemUtil Kheap Path Vnode.
#[local] Open Scope Z_scope.

(** ** The tar header *)

Definition TAR_SIZE : Z := 124.
Definition TAR_TYPEFLAG : Z := 156.
Definition TAR_HEADER_SIZE : Z := 157.
Definition FS_DATA_SIZE : Z := 8.
Definition VFS_SIZE : Z := 144.
Definition MS_RDONLY : Z := 1.

(** [initrd_tar_conv_number]: [n] digits from [str] on, after the value [acc]. *)
Fixpoint conv_loop (n : nat) (acc str : Z) (m : mem) : Z :=
  match n with
  | O => acc
  | S n' => conv_loop n' (u64 (u64 (acc * 8) + u64 (i8 (m str) - 48))) (str + 1) m
  end.

Definition initrd_tar_conv_number (str size : Z) (m : mem) : Z := conv_loop (Z.to_nat size) 0 str m.

(** [!strcmp(l, a)] for a string [l] of the kernel and a string in memory. *)
Fixpoint str_eq (l : list Z) (a : Z) (m : mem) : bool :=
  match l with
  | [] => m a =? 0
  | c :: l' => (m a =? c) && str_eq l' (a + 1) m
  end.

(** The entry after the one at [h]. *)
Definition next_header (h : Z) (m : mem) : Z :=
  let size := initrd_tar_conv_number (h + TAR_SIZE) 11 m in
  let haddr := u64 (h + (size / 512 + 1) * 512) in
  if negb (size mod 512 =? 0) then u64 (haddr + 512) else haddr.

(** The loop over the headers: the header with the name, 0 at the end mark. *)
Fixpoint tar_find (fuel : nat) (h : Z) (fullname : list Z) (m : mem) : outcome Z :=
  match fuel with
  | O => OutOfFuel
  | S f =>
      if m h =? 0 then Ret 0
      else if str_eq fullname h m then Ret h
      else tar_find f (next_header h m) fullname m
  end.

Definition tar_type (h : Z) (m : mem) : Z :=
  let t := m (h + TAR_TYPEFLAG) in
  if (t =? 0) || (t =? 48) then V_REG else if t =? 53 then V_DIR else V_BAD.

(** ** The file system *)

Record initrd_state : Type := mk_initrd { initrd : Z; startOffset : Z -> Z }.

Record statfs_t : Type := mk_statfs {
  st_type : Z; st_bsize : Z; st_totalBlocks : Z; st_freeBlocks : Z; st_availBlocks : Z;
  st_files : Z; st_freeFiles : Z; st_fid : Z; st_maxNameLength : Z; st_mountFlags : Z
}.

Section Initrd.
Context {H : Type} `{KH : KernelHeap H}.
(** The bound for the loops, and the address of [initrdVnodeOps]. *)
Variable (fuel : nat) (initrdVnodeOps : Z).
Abbreviation F := (fal initrd_state H).
Implicit Types (s : F).

Definition set_x (x : initrd_state) s : F :=
  mk_fal (f_vnodes s) (f_vfss s) (vnodeListHead s) (vnodeListTail s) (rootVFS s) (lastVFS s) (f_nextfid s) (kerrno s)
    (f_mem s) (f_heap s) (f_tables s) x.

Fixpoint read_loop (n : nat) (i size filesize start buf offset : Z) (m : mem) : Z * mem :=
  match n with
  | O => (size, m)
  | S n' =>
      if offset >=? filesize then (i, m)
      else read_loop n' (i + 1) size filesize start buf (u64 (offset + 1)) (upd m (buf + i) (m (start + offset)))
  end.

Definition initrd_read (self size buf offset : Z) s : outcome (Z * F) :=
  let v := f_vnodes s self in
  if (0 <? size) && (offset <? v_size v) && (v_fsData v =? 0) then Fault
  else
    let '(r, m) := read_loop (Z.to_nat size) 0 size (v_size v) (startOffset (f_x s) (v_fsData v)) buf offset (f_mem s) in
    Ret (r, set_mem m s).

Definition initrd_inactive (vnode : Z) s : outcome (Z * F) :=
  h ← kh_free (v_fsData (f_vnodes s vnode)) (f_heap s);
  h ← kh_free vnode h;
  Ret (0, set_heap h s).

(** [fullname] is an array of 256 characters on the stack. *)
Definition initrd_lookup (self : Z) (name : list Z) s : outcome (Z * F) :=
  if (self =? 0) || negb (v_type (f_vnodes s self) =? V_DIR) then Ret (0, set_errno ENOTDIR s)
  else
    let fullname := v_filename (f_vnodes s self) ++ name in
    if Z.of_nat (length fullname) >? 255 then Fault
    else
      listEntry ← vnode_list_search_by_filename fuel (v_vfs (f_vnodes s self)) fullname s;
      if negb (listEntry =? 0) then Ret (listEntry, s)
      else
        h ← tar_find fuel (initrd (f_x s)) fullname (f_mem s);
        if h =? 0 then Ret (0, set_errno ENOENT s)
        else
          '(vnode, s) ← vnode_new (v_vfs (f_vnodes s self)) initrdVnodeOps s;
          '(fsData, hp) ← kh_malloc FS_DATA_SIZE (f_heap s);
          let s := set_heap hp s in
          let s := upd_vnode vnode (fun v =>
            mk_vnode fullname (v_mode v) (v_flags v) (tar_type h (f_mem s))
              (initrd_tar_conv_number (h + TAR_SIZE) 11 (f_mem s)) (v_refCount v) (v_lock v) (v_vfsMountedHere v)
              (v_vfs v) (v_vnodeops v) fsData (v_next v) (v_prev v)) s in
          let s := set_x (mk_initrd (initrd (f_x s))
                     (upd (startOffset (f_x s)) fsData (u64 (h + ALIGN_UP TAR_HEADER_SIZE 512)))) s in
          Ret (vnode, s).

Definition initrd_ops (o : Z) : vnode_operations_t F :=
  mk_ops (Some initrd_read) None (Some initrd_inactive) (Some initrd_lookup) None.

(** [modsize] is the size of the boot module. *)
Definition initrd_statfs (modsize self : Z) s : statfs_t :=
  mk_statfs 1413567488 512 (ALIGN_UP modsize 512 / 512) 0 0 0 0 (vfs_fid (f_vfss s self)) 100
    (vfs_mountFlags (f_vfss s self)).

(** [address] is the address of the boot module, 0 when there is none. *)
Definition initrd_init (start_devfs autoreg : F -> outcome (Z * F)) (address : Z) s : outcome F :=
  '(initrdFS, h) ← kh_malloc VFS_SIZE (f_heap s);
  let s := upd_vfs initrdFS (fun _ => mk_vfs 0 0 0 0 false false 0) (set_heap h s) in
  '(root, s) ← vnode_new initrdFS initrdVnodeOps s;
  let s := upd_vfs initrdFS (fun v => mk_vfs (vfs_fid v) (vfs_mountFlags v) (vfs_vnodeCovered v) root
                                        (vfs_system v) (vfs_lock v) (vfs_next v)) s in
  let s := upd_vnode root (fun v => mk_vnode (v_filename v) (v_mode v) 0 V_DIR 0 (v_refCount v) (v_lock v)
             (v_vfsMountedHere v) (v_vfs v) (v_vnodeops v) 0 (v_next v) (v_prev v)) s in
  let s := set_x (mk_initrd address (startOffset (f_x s))) s in
  if address =? 0 then Panic "initrd.grd not found!"
  else
    '(_, s) ← vfs_mount initrd_ops fuel start_devfs autoreg initrdFS [SLASH] MS_RDONLY s;
    Ret s.
End Initrd.

(** ** Reading *)

Lemma read_loop_spec n : forall i size filesize start buf offset m,
  0 <= i -> i + Z.of_nat n = size -> 0 <= offset -> 0 <= filesize < 2 ^ 64 ->
  buf + size <= start \/ start + filesize <= buf ->
  let k := Z.min (Z.of_nat n) (Z.max 0 (filesize - offset)) in
  let '(r, m') := read_loop n i size filesize start buf offset m in
  r = i + k /\
  (forall j, 0 <= j < k -> m' (buf + i + j) = m (start + offset + j)) /\
  (forall x, ~ (buf + i <= x < buf + i + k) -> m' x = m x).
Proof.
  induction n as [|n IH]; intros i size filesize start buf offset m Hi Hn Ho Hf Hd k; cbn [read_loop].
  - subst k. splits; intros; lia || reflexivity.
  - destruct (Z.geb_spec offset filesize) as [Hge|Hlt]; [subst k; splits; intros; lia || reflexivity|].
    rewrite wrap_small by (pow2_consts; lia).
    specialize (IH (i + 1) size filesize start buf (offset + 1) (upd m (buf + i) (m (start + offset)))
      ltac:(lia) ltac:(lia) ltac:(lia) Hf Hd). cbn zeta in IH.
    destruct (read_loop n _ _ _ _ _ _ _) as [r m']. destruct IH as (I1 & I2 & I3). subst k. splits; [lia| |].
    + intros j Hj. destruct (Z.eq_dec j 0) as [->|Hj0].
      * rewrite !Z.add_0_r, I3, upd_eq by lia. reflexivity.
      * replace (buf + i + j) with (buf + (i + 1) + (j - 1)) by lia. rewrite I2 by lia.
        rewrite upd_ne by lia. f_equal. lia.
    + intros x Hx. rewrite I3, upd_ne by lia. reflexivity.
Qed.

(** [initrd_read] returns the number of bytes between the offset and the end of the
    file, at most the size asked for, and none beyond the end; it copies exactly those
    bytes of the archive to the buffer and writes nothing else. *)
Lemma initrd_read_spec {H} self size buf offset (s : fal initrd_state H) :
  let v := f_vnodes s self in
  let start := startOffset (f_x s) (v_fsData v) in
  0 <= size -> 0 <= offset -> 0 <= v_size v < 2 ^ 64 -> v_fsData v <> 0 ->
  buf + size <= start \/ start + v_size v <= buf ->
  let k := Z.min size (Z.max 0 (v_size v - offset)) in
  Returns (initrd_read self size buf offset s) (fun '(r, s') =>
    r = k /\ (forall j, 0 <= j < k -> f_mem s' (buf + j) = f_mem s (start + offset + j)) /\
    (forall x, ~ (buf <= x < buf + k) -> f_mem s' x = f_mem s x) /\ s' = set_mem (f_mem s') s).
Proof.
  intros v start Hs Ho Hv Hd Hdis k. unfold initrd_read. fold v. rewrite (proj2 (Z.eqb_neq _ 0) Hd), andb_false_r.
  fold start. pose proof (read_loop_spec (Z.to_nat size) 0 size (v_size v) start buf offset (f_mem s)
    ltac:(lia) ltac:(lia) Ho Hv Hdis) as HR. cbn zeta in HR. rewrite Z2Nat.id in HR by exact Hs.
  destruct (read_loop _ _ _ _ _ _ _ _) as [r m']. destruct HR as (R1 & R2 & R3). apply Returns_ret.
  rewrite Z.add_0_r in *. splits; auto.
Qed.

(** An archive at 1024 with the directory [bin/] and the file [bin/sh] of 5 bytes. *)
Definition tar_entry (name sz : string) (flag : Z) : list Z :=
  chars name ++ repeat 0 (124 - String.length name) ++ chars sz ++ repeat 0 21 ++ [flag] ++ repeat 0 355.
Definition initrd_bytes : list Z :=
  tar_entry "bin/" "00000000000" 53 ++ tar_entry "bin/sh" "00000000005" 48 ++ chars "hello" ++ repeat 0 507.
Definition initrd_mem : mem := bytes_at 1024 initrd_bytes.

(** The file system as [initrd_init] leaves it, with the root vnode in the first block
    of the heap. *)
Definition initrd_boot : outcome (fal initrd_state (kheap_state pmm_state)) :=
  initrd_init (KH := demo_heap) 8 50 (fun s => Ret (0, s)) (fun s => Ret (0, s)) 1024
    (mk_fal (fun _ => vnode_named "" 0 0 0 0) (fun _ => mk_vfs 0 0 0 0 false false 0) 0 0 0 0 0 0
       initrd_mem heap_demo ∅ (mk_initrd 0 (fun _ => 0))).

(** ** The archive, abstractly *)

Record entry : Type := mk_entry { e_hdr : Z; e_name : list Z; e_type : Z; e_size : Z }.

(** The [n] octal digits at [a] continue the number [acc] to [v]. *)
Fixpoint octal_at (m : mem) (a : Z) (n : nat) (acc v : Z) {struct n} : Prop :=
  match n with
  | O => v = acc
  | S n' => 48 <= m a < 56 /\ octal_at m (a + 1) n' (8 * acc + (m a - 48)) v
  end.

Lemma conv_loop_octal m n : forall acc a v,
  0 <= acc -> (acc + 1) * 8 ^ Z.of_nat n <= 2 ^ 63 -> octal_at m a n acc v ->
  conv_loop n acc a m = v /\ 0 <= v < (acc + 1) * 8 ^ Z.of_nat n.
Proof.
  induction n as [|n IH]; intros acc a v Ha Hb Ho; cbn [octal_at conv_loop] in *.
  - subst. cbn. lia.
  - destruct Ho as [Hd Ho]. rewrite Nat2Z.inj_succ, Z.pow_succ_r in * by lia.
    assert (1 <= 8 ^ Z.of_nat n) by (pose proof (Z.pow_pos_nonneg 8 (Z.of_nat n)); lia).
    assert (8 * acc + 8 <= 2 ^ 63) by nia.
    rewrite (swrap_small 8 (m a)) by (pow2_consts; lia). pow2_consts.
    rewrite (wrap_small 64 (acc * 8)), (wrap_small 64 (m a - 48)), wrap_small by (pow2_consts; lia).
    replace (acc * 8 + (m a - 48)) with (8 * acc + (m a - 48)) by lia.
    destruct (IH (8 * acc + (m a - 48)) (a + 1) v) as [E1 E2]; [lia|nia|exact Ho|]. split; [exact E1|nia].
Qed.

(** The archive at [h] holds the entries [es]: a header block, the size in octal, and
    the data padded to full blocks; names are strings. *)
Fixpoint archive (m : mem) (h : Z) (es : list entry) {struct es} : Prop :=
  match es with
  | [] => m h = 0
  | e :: es' =>
      h <> 0 /\ e_hdr e = h /\ e_name e <> [] /\ cstr m h (e_name e) /\
      e_type e = tar_type h m /\ octal_at m (h + TAR_SIZE) 11 0 (e_size e) /\
      0 <= h < 2 ^ 63 /\ archive m (h + 512 + 512 * ((e_size e + 511) / 512)) es'
  end.

Fixpoint find_entry (es : list entry) (name : list Z) : option entry :=
  match es with
  | [] => None
  | e :: es' => if bool_decide (name = e_name e) then Some e else find_entry es' name
  end.

(** What a path names, from the directory [full] on: the last entry of the way, or the
    error. *)
Fixpoint resolve (fuel : nat) (es : list entry) (dir : entry) (path : list Z) : entry + Z :=
  match fuel with
  | O => inr 0
  | S f =>
      match path with
      | [] => inl dir
      | _ =>
          let '(d, rest) := next_dirname path in
          if e_type dir =? V_DIR then
            match find_entry es (e_name dir ++ d) with
            | Some e => resolve f es e rest
            | None => inr ENOENT
            end
          else inr ENOTDIR
      end
  end.

(** The root directory, which has no header. *)
Definition root_entry : entry := mk_entry 0 [] V_DIR 0.

Definition string_ok (l : list Z) : Prop := Forall (fun c => 0 < c < 256) l.

Lemma cstr_str_eq l m : forall a n, string_ok n -> cstr m a l -> str_eq n a m = bool_decide (n = l).
Proof.
  induction l as [|c l IH]; intros a n Hn Hl; cbn [cstr] in Hl.
  - destruct n as [|x n]; cbn [str_eq]; [now rewrite Hl|]. apply Forall_cons in Hn as [Hx _]. rewrite Hl.
    rewrite (proj2 (Z.eqb_neq 0 x)) by lia. now rewrite bool_decide_false by discriminate.
  - destruct n as [|x n]; cbn [str_eq].
    + rewrite (proj2 (Z.eqb_neq _ 0)) by lia. now rewrite bool_decide_false by discriminate.
    + apply Forall_cons in Hn as [Hx Hn]. destruct Hl as (-> & Hc & Hl). rewrite (IH _ n Hn Hl).
      destruct (Z.eqb_spec c x) as [->|Hne]; cbn [andb]; [|now rewrite bool_decide_false by congruence].
      apply bool_decide_ext. split; congruence.
Qed.

Lemma archive_step m e es :
  archive m (e_hdr e) (e :: es) ->
  e_size e = initrd_tar_conv_number (e_hdr e + TAR_SIZE) 11 m /\ archive m (next_header (e_hdr e) m) es.
Proof.
  cbn [archive]. intros (_ & _ & _ & _ & _ & Ho & Hh & Ha).
  destruct (conv_loop_octal m 11 0 _ _ ltac:(lia) ltac:(vm_compute; discriminate) Ho) as [E Hv].
  change ((0 + 1) * 8 ^ Z.of_nat 11) with 8589934592 in Hv.
  unfold next_header, initrd_tar_conv_number. change (Z.to_nat 11) with 11%nat. rewrite E. split; [reflexivity|].
  assert (2 ^ 63 + 2 ^ 63 = 2 ^ 64) by reflexivity. assert (8589934592 + 1024 < 2 ^ 63) by reflexivity.
  rewrite (wrap_small 64 (e_hdr e + _)) by dm. replace (negb _) with (negb (e_size e mod 512 =? 0)) by reflexivity.
  destruct (Z.eqb_spec (e_size e mod 512) 0); cbn [negb]; rewrite ?wrap_small by dm;
    match goal with |- archive _ ?x _ => replace x with (e_hdr e + 512 + 512 * ((e_size e + 511) / 512)) by dm end; exact Ha.
Qed.

(** The search of the archive: total, and it finds the first entry of that name. *)
Lemma tar_find_spec m n : forall es h fuel,
  string_ok n -> archive m h es -> (length es < fuel)%nat ->
  tar_find fuel h n m = Ret (match find_entry es n with Some e => e_hdr e | None => 0 end) /\
  (forall e, find_entry es n = Some e -> e_hdr e <> 0 /\ e_name e = n /\
     e_type e = tar_type (e_hdr e) m /\ e_size e = initrd_tar_conv_number (e_hdr e + TAR_SIZE) 11 m).
Proof.
  induction es as [|e es IH]; intros h [|f] Hn Ha Hf; cbn [length] in Hf; try lia; cbn [archive] in Ha; cbn [tar_find find_entry].
  - rewrite Ha. cbn. split; [reflexivity|discriminate].
  - pose proof Ha as (H0 & Eh & Hne & Hc & Ht & _). rewrite <- Eh in Ha. apply archive_step in Ha as [Hs Ha]. rewrite Eh in Hs, Ha.
    assert (m h <> 0) as Hmh by (destruct (e_name e) as [|c l]; [contradiction|cbn [cstr] in Hc; lia]).
    rewrite (proj2 (Z.eqb_neq _ 0) Hmh), (cstr_str_eq _ _ _ _ Hn Hc).
    case_bool_decide as E; [|apply IH; auto; lia].
    rewrite Eh. split; [reflexivity|]. intros e' [= <-]. rewrite Eh. auto.
Qed.

(** ** Lookup along a path *)

Section Walk.
Context {H : Type} `{KH : KernelHeap H} `{KHL : !KernelHeapLaws H}.
Variable (fuel : nat) (O : Z).
Implicit Types (s : fal initrd_state H).

Definition owned (areas : list (Z * Z)) (v : Z) : Prop := exists n, 0 < n /\ (v, n) ∈ areas.

(** The file system is mounted as root and the vnodes in [l] are open; they and the
    root vnode lie in live areas of the heap. *)
Record ready (s : fal initrd_state H) (es : list entry) (l : list Z) (areas : list (Z * Z)) : Prop := {
  rd_vfs : rootVFS s <> 0;
  rd_root : let r := vfs_rootVnode (f_vfss s (rootVFS s)) in
    r <> 0 /\ owned areas r /\ v_filename (f_vnodes s r) = [] /\ v_type (f_vnodes s r) = V_DIR /\
    v_lock (f_vnodes s r) = false /\ v_vnodeops (f_vnodes s r) = O;
  rd_archive : archive (f_mem s) (initrd (f_x s)) es /\ (length es < fuel)%nat;
  rd_list : vnode_list s l /\ (length l < fuel)%nat /\ forall v, v ∈ l -> owned areas v;
  rd_heap : kh_ok (f_heap s) /\ kh_live (f_heap s) areas
}.

(** What a lookup changes: locks, and vnodes outside the areas of the start. *)
Definition unlocked (v : vnode_t) : vnode_t := w_vlock false v.
Definition walked (s0 : fal initrd_state H) (areas : list (Z * Z)) s : Prop :=
  f_vfss s = f_vfss s0 /\ rootVFS s = rootVFS s0 /\ vnodeListHead s = vnodeListHead s0 /\ f_mem s = f_mem s0 /\
  initrd (f_x s) = initrd (f_x s0) /\ kerrno s = 0 /\
  forall v, owned areas v -> unlocked (f_vnodes s v) = unlocked (f_vnodes s0 v).

(** The vnode at [v] stands for the entry [e]: it is the root, or a vnode of its own
    with its data record. *)
Definition stands s (areas : list (Z * Z)) (v : Z) (e : entry) : Prop :=
  let r := vfs_rootVnode (f_vfss s (rootVFS s)) in
  let vn := f_vnodes s v in
  v <> 0 /\ v_filename vn = e_name e /\ v_type vn = e_type e /\ v_lock vn = false /\ v_vnodeops vn = O /\
  kh_ok (f_heap s) /\
  ((v = r /\ e = root_entry /\ kh_live (f_heap s) areas) \/
   (v <> r /\ v_size vn = e_size e /\ startOffset (f_x s) (v_fsData vn) = u64 (e_hdr e + 512) /\
    exists n1 n2, 0 < n1 /\ kh_live (f_heap s) ((v_fsData vn, n2) :: (v, n1) :: areas))).

Lemma walked_search s0 es l areas s vfs name :
  ready s0 es l areas -> walked s0 areas s ->
  (forall v, v ∈ l -> v_filename (f_vnodes s0 v) <> name) ->
  vnode_list_search_by_filename fuel vfs name s = Ret 0.
Proof.
  intros R (W1 & W2 & W3 & W4 & W5 & W6 & W7) Hno. destruct (rd_list _ _ _ _ R) as (Hl & Hf & Ho).
  destruct Hl as (L1 & _ & L3 & _ & L5). unfold vnode_list_search_by_filename. rewrite W3, L1.
  assert (linked (f_vnodes s) 0 l 0) as L3'.
  { apply (dlinked_frame (fun v => v_next (f_vnodes s0 v)) (fun v => v_prev (f_vnodes s0 v))); [|exact L3]. intros v Hv. specialize (W7 v (Ho v Hv)).
    split; [exact (f_equal v_next W7)|exact (f_equal v_prev W7)]. }
  destruct (search_loop_spec s (vfs_fid (f_vfss s vfs)) name l 0 fuel L3' L5 Hf) as (r & -> & [[-> _]|(Hr & _ & Hn)]);
    [reflexivity|]. exfalso. apply (Hno r Hr). rewrite <- Hn. symmetry. exact (f_equal v_filename (W7 r (Ho r Hr))).
Qed.

Lemma owned_apart a n L x : 0 < n -> Forall (apart (a, n)) L -> owned L x -> a <> x.
Proof.
  intros Hn HL (k & Hk & Hx). rewrite Forall_forall in HL. specialize (HL _ Hx). unfold apart in HL. cbn in HL. lia.
Qed.

(** A vnode and its data record are allocated. *)
Definition fresh s (L : list (Z * Z)) (v' : Z) (e : entry) s' : Prop :=
  v' <> 0 /\ (forall x, owned L x -> v' <> x) /\
  (exists vn, (forall x, f_vnodes s' x = if x =? v' then vn else f_vnodes s x) /\ v_filename vn = e_name e /\ v_type vn = e_type e /\
     v_lock vn = false /\ v_vfsMountedHere vn = 0 /\ v_vnodeops vn = O /\ v_size vn = e_size e /\
     startOffset (f_x s') (v_fsData vn) = u64 (e_hdr e + 512) /\
     exists n1 n2, 0 < n1 /\ kh_live (f_heap s') ((v_fsData vn, n2) :: (v', n1) :: L)) /\
  kh_ok (f_heap s') /\ f_vfss s' = f_vfss s /\ rootVFS s' = rootVFS s /\ vnodeListHead s' = vnodeListHead s /\
  f_mem s' = f_mem s /\ initrd (f_x s') = initrd (f_x s) /\ kerrno s' = kerrno s.

Lemma initrd_lookup_spec s es L v e d :
  archive (f_mem s) (initrd (f_x s)) es -> (length es < fuel)%nat -> kh_ok (f_heap s) -> kh_live (f_heap s) L ->
  v <> 0 -> v_filename (f_vnodes s v) = e_name e -> v_type (f_vnodes s v) = e_type e ->
  string_ok (e_name e ++ d) -> Z.of_nat (length (e_name e ++ d)) <= 255 ->
  vnode_list_search_by_filename fuel (v_vfs (f_vnodes s v)) (e_name e ++ d) s = Ret 0 ->
  Safe (initrd_lookup fuel O v d s) (fun '(v', s') =>
    if e_type e =? V_DIR then
      match find_entry es (e_name e ++ d) with
      | Some e' => fresh s L v' e' s'
      | None => v' = 0 /\ s' = set_errno ENOENT s
      end
    else v' = 0 /\ s' = set_errno ENOTDIR s).
Proof.
  intros Ha Hf Hok HL Hv En Et Hs Hlen Hse. unfold initrd_lookup.
  rewrite (proj2 (Z.eqb_neq v 0) Hv), Et, En. cbn [orb].
  destruct (e_type e =? V_DIR); cbn [negb]; [|cbn; auto].
  destruct (Z.gtb_spec (Z.of_nat (length (e_name e ++ d))) 255) as [Hg|_]; [lia|].
  rewrite Hse. cbn [mbind outcome_bind Z.eqb negb].
  destruct (tar_find_spec (f_mem s) _ es _ fuel Hs Ha Hf) as [-> Hfd]. cbn [mbind outcome_bind].
  destruct (find_entry es (e_name e ++ d)) as [e'|]; [|cbn; auto].
  destruct (Hfd e' eq_refl) as (Hh & E1 & E2 & E3). rewrite (proj2 (Z.eqb_neq _ 0) Hh).
  unfold vnode_new. cbn [f_heap].
  pose proof (kh_malloc_spec VNODE_SIZE (f_heap s) L ltac:(unfold VNODE_SIZE; split; [lia|reflexivity]) Hok HL) as M1.
  destruct (kh_malloc VNODE_SIZE (f_heap s)) as [[a h1]|?| | |]; cbn [mbind outcome_bind Safe]; auto.
  destruct M1 as (n1 & A1 & _ & A3 & _ & A5 & A6 & A7). cbn [f_heap upd_vnode set_vnodes set_heap].
  pose proof (kh_malloc_spec FS_DATA_SIZE h1 _ ltac:(unfold FS_DATA_SIZE; split; [lia|reflexivity]) A5 A6) as M2.
  destruct (kh_malloc FS_DATA_SIZE h1) as [[b h2]|?| | |]; cbn [mbind outcome_bind Safe]; auto.
  destruct M2 as (n2 & _ & _ & _ & _ & B5 & B6 & _). unfold VNODE_SIZE in A3.
  cbn [Safe]. unfold fresh. splits; [lia|intros x; now apply (owned_apart a n1 L x ltac:(lia))| |exact B5|reflexivity..].
  eexists. split; [intros x; cbn; unfold upd; rewrite Z.eqb_refl; destruct (x =? a); reflexivity|].
  cbn. rewrite upd_eq. splits; auto. exists n1, n2. split; [lia|exact B6].
Qed.

Lemma initrd_inactive_spec s v n1 n2 L R :
  kh_ok (f_heap s) -> kh_live (f_heap s) L -> Permutation L ((v_fsData (f_vnodes s v), n2) :: (v, n1) :: R) ->
  Returns (initrd_inactive v s) (fun '(_, s') =>
    exists h, s' = set_heap h s /\ kh_ok h /\ kh_live h R).
Proof.
  intros Hok HL HP. unfold initrd_inactive.
  eapply Returns_bind; [exact (kh_free_spec _ n2 _ _ Hok (kh_live_perm _ _ _ HL HP))|]. intros h1 [O1 L1].
  eapply Returns_bind; [exact (kh_free_spec v n1 R h1 O1 L1)|]. intros h2 [O2 L2]. apply Returns_ret.
  exists h2. auto.
Qed.

(** The vnode a step leaves behind is released, unless it is the root. *)
Definition release_prev (vfs prev : Z) s : outcome (fal initrd_state H) :=
  if negb (prev =? vfs_rootVnode (f_vfss s vfs))
  then match vn_inactive (initrd_ops fuel O (v_vnodeops (f_vnodes s prev))) with
       | Some inactive => '(_, s) ← inactive prev s; Ret s
       | None => Ret s
       end
  else Ret s.

(** The live areas while the vnode [v] is looked at. *)
Definition holding s (areas : list (Z * Z)) (v : Z) (L : list (Z * Z)) : Prop :=
  (v = vfs_rootVnode (f_vfss s (rootVFS s)) /\ L = areas) \/
  (v <> vfs_rootVnode (f_vfss s (rootVFS s)) /\
   exists n1 n2, 0 < n1 /\ L = (v_fsData (f_vnodes s v), n2) :: (v, n1) :: areas).

Lemma stands_holding s areas v e :
  stands s areas v e -> exists L, holding s areas v L /\ kh_live (f_heap s) L.
Proof.
  intros (_ & _ & _ & _ & _ & _ & [(E & _ & HL)|(E & _ & _ & n1 & n2 & Hn & HL)]); eexists; (split; [|exact HL]);
    [left; auto|right; split; [exact E|exists n1, n2; auto]].
Qed.

Lemma holding_owned s areas v L x : holding s areas v L -> owned areas x -> owned L x.
Proof.
  intros [[_ ->]|(_ & n1 & n2 & _ & ->)] (n & Hn & Hx); exists n; (split; [exact Hn|]); [exact Hx|].
  do 2 (apply elem_of_cons; right). exact Hx.
Qed.

Lemma release_prev_spec s areas v L M :
  holding s areas v L -> kh_ok (f_heap s) -> kh_live (f_heap s) (M ++ L) ->
  Returns (release_prev (rootVFS s) v s) (fun s' =>
    exists h, s' = set_heap h s /\ kh_ok h /\ kh_live h (M ++ areas)).
Proof.
  intros Hh Hok HL. unfold release_prev. destruct Hh as [(E & ->)|(E & n1 & n2 & _ & ->)].
  - rewrite <- E, Z.eqb_refl. apply Returns_ret. exists (f_heap s). splits; auto. now destruct s.
  - rewrite (proj2 (Z.eqb_neq _ _) E). cbn [negb initrd_ops vn_inactive].
    eapply Returns_bind; [eapply (initrd_inactive_spec s v n1 n2 _ (M ++ areas) Hok HL)|].
    + rewrite <- Permutation_middle. apply perm_skip. symmetry. apply Permutation_middle.
    + intros [_ s'] Hs. apply Returns_ret. exact Hs.
Qed.

Lemma stands_root s0 es l areas :
  ready s0 es l areas -> stands s0 areas (vfs_rootVnode (f_vfss s0 (rootVFS s0))) root_entry.
Proof.
  intros R. destruct (rd_root _ _ _ _ R) as (R1 & R2 & R3 & R4 & R5 & R6).
  destruct (rd_heap _ _ _ _ R) as (R7 & R8). unfold stands. splits; auto.
Qed.

Lemma release_then {A} s areas v L M vfs (K : fal initrd_state H -> outcome A) Q :
  holding s areas v L -> kh_ok (f_heap s) -> kh_live (f_heap s) (M ++ L) -> rootVFS s = vfs ->
  (forall h, kh_ok h -> kh_live h (M ++ areas) -> Safe (K (set_heap h s)) Q) ->
  Safe (release_prev vfs v s ≫= K) Q.
Proof.
  intros Hh Hok HL <- HK. destruct (release_prev_spec s areas v L M Hh Hok HL) as (s' & -> & h & -> & Ho & Hl).
  now apply HK.
Qed.

(** The end of a step: the vnode found, or the root of what is mounted on it. *)
Definition step_end (vfs v' : Z) s : outcome (Z * Z * fal initrd_state H) :=
  if v' =? 0 then Ret (0, vfs, s)
  else if negb (v_vfsMountedHere (f_vnodes s v') =? 0) then
    let vfs := v_vfsMountedHere (f_vnodes s v') in Ret (vfs_rootVnode (f_vfss s vfs), vfs, s)
  else Ret (v', vfs, s).

Lemma holding_frame s s' areas v L :
  f_vfss s' = f_vfss s -> rootVFS s' = rootVFS s -> v_fsData (f_vnodes s' v) = v_fsData (f_vnodes s v) ->
  holding s areas v L -> holding s' areas v L.
Proof. intros F1 F2 F3. unfold holding. now rewrite F1, F2, F3. Qed.

(** Nothing was found: the error is set, all else is as before and no area of the heap is left over. *)
Definition not_found s0 (areas : list (Z * Z)) (c v : Z) s : Prop :=
  v = 0 /\ kerrno s = c /\ walked s0 areas (set_errno 0 s) /\ kh_ok (f_heap s) /\ kh_live (f_heap s) areas.

(** A step that found nothing. *)
Lemma step_missing s0 areas s v L c :
  walked s0 areas s -> holding s areas v L -> kh_ok (f_heap s) -> kh_live (f_heap s) L ->
  Safe (release_prev (rootVFS s0) v (unlock_vnode v (set_errno c (upd_vnode v (w_vlock true) s)))
        ≫= step_end (rootVFS s0) 0) (fun '(v', _, s') => not_found s0 areas c v' s').
Proof.
  intros (W1 & W2 & W3 & W4 & W5 & W6 & W7) HH Hok HL. apply (release_then _ areas v L []); auto.
  - apply (holding_frame s); auto. unfold unlock_vnode. rewrite !upd_vnode_read. cbn [f_vnodes set_errno].
    rewrite Z.eqb_refl. cbn. unfold upd. now rewrite Z.eqb_refl.
  - intros h Ho Hl. unfold step_end, not_found, walked. cbn [Z.eqb Safe]. splits; auto. intros x Hx. rewrite <- (W7 x Hx).
    cbn [f_vnodes set_heap set_errno]. unfold unlock_vnode. rewrite upd_vnode_read. cbn [f_vnodes set_errno]. rewrite !upd_vnode_read, Z.eqb_refl.
    destruct (Z.eqb_spec x v); [subst; reflexivity|reflexivity].
Qed.

(** A step that made a new vnode. *)
Lemma step_found s0 es l areas s v L v' e' s2 :
  ready s0 es l areas -> walked s0 areas s -> holding s areas v L ->
  fresh (upd_vnode v (w_vlock true) s) L v' e' s2 ->
  Safe (release_prev (rootVFS s0) v (unlock_vnode v s2) ≫= step_end (rootVFS s0) v') (fun '(v', vfs', s') =>
    vfs' = rootVFS s0 /\ walked s0 areas s' /\ stands s' areas v' e').
Proof.
  intros R (W1 & W2 & W3 & W4 & W5 & W6 & W7) HH
    (N0 & Nx & (vn & V0 & V1 & V2 & V3 & V4 & V5 & V6 & V7 & n1 & n2 & Hn1 & V8) & N1 & N2 & N3 & N4 & N5 & N6 & N7).
  destruct (rd_root _ _ _ _ R) as (R1 & R2 & _). rewrite <- W1, <- W2 in R1, R2.
  assert (v' <> v) as Hvv.
  { apply Nx. destruct HH as [[-> ->]|(_ & k1 & k2 & Hk & ->)]; [exact R2|].
    exists k1. split; [exact Hk|]. apply elem_of_cons. right. apply elem_of_cons. now left. }
  set (s3 := unlock_vnode v s2).
  assert (forall x, f_vnodes s3 x = if x =? v' then vn else if x =? v then unlocked (f_vnodes s v) else f_vnodes s x) as G.
  { intros x. unfold s3, unlock_vnode. rewrite upd_vnode_read, !V0, !upd_vnode_read.
    destruct (Z.eqb_spec x v), (Z.eqb_spec x v'); subst; try contradiction; reflexivity. }
  apply (release_then s3 areas v L [(v_fsData vn, n2); (v', n1)]); [|exact N1|exact V8|exact (eq_trans N3 W2)|].
  { apply (holding_frame s); [exact N2|exact N3| |exact HH].
    now rewrite G, (proj2 (Z.eqb_neq v v')), Z.eqb_refl by congruence. }
  intros h Ho Hl. unfold step_end. rewrite (proj2 (Z.eqb_neq v' 0) N0). cbn [f_vnodes set_heap].
  rewrite G, Z.eqb_refl, V4. cbn [Z.eqb negb Safe]. splits; [reflexivity| |].
  - unfold walked. splits; [exact (eq_trans N2 W1)|exact (eq_trans N3 W2)|exact (eq_trans N4 W3)|
      exact (eq_trans N5 W4)|exact (eq_trans N6 W5)|exact (eq_trans N7 W6)|]. intros x Hx. cbn [f_vnodes set_heap].
    rewrite <- (W7 x Hx). assert (x <> v') as Hxv.
    { intros ->. apply (Nx v'); [|reflexivity]. now apply (holding_owned s areas v L). }
    rewrite G, (proj2 (Z.eqb_neq x v') Hxv). now destruct (Z.eqb_spec x v) as [->|].
  - unfold stands. cbn [f_vnodes f_x f_heap set_heap]. rewrite !G, !Z.eqb_refl.
    splits; auto. right. splits; auto; [|exists n1, n2; auto].
    change (v' <> vfs_rootVnode (f_vfss s2 (rootVFS s2))). rewrite N2, N3. apply Nx.
    now apply (holding_owned s areas v L _ HH).
Qed.

(** One component of a path. *)
Lemma lookup_step_spec s0 es l areas s v e d :
  O <> 0 -> ready s0 es l areas -> walked s0 areas s -> stands s areas v e ->
  string_ok (e_name e ++ d) -> Z.of_nat (length (e_name e ++ d)) <= 255 ->
  (forall w, w ∈ l -> v_filename (f_vnodes s0 w) <> e_name e ++ d) ->
  Safe (lookup_step (initrd_ops fuel O) d (rootVFS s0) v s) (fun '(v', vfs', s') =>
    if e_type e =? V_DIR then
      match find_entry es (e_name e ++ d) with
      | Some e' => vfs' = rootVFS s0 /\ walked s0 areas s' /\ stands s' areas v' e'
      | None => not_found s0 areas ENOENT v' s'
      end
    else not_found s0 areas ENOTDIR v' s').
Proof.
  intros HO R W S Hs Hlen Hno. pose proof W as (W1 & W2 & W3 & W4 & W5 & W6 & W7).
  pose proof S as (S1 & S2 & S3 & S4 & S5 & S6 & _). destruct (stands_holding _ _ _ _ S) as (L & HH & HL).
  unfold lookup_step. rewrite length_app in Hlen.
  destruct (Z.ltb_spec 255 (Z.of_nat (length d))) as [Hg|_]; [lia|].
  unfold lock_vnode. rewrite S4. cbn [acquireLock mbind outcome_bind].
  set (s1 := upd_vnode v (w_vlock true) s).
  assert (f_vnodes s1 v = w_vlock true (f_vnodes s v)) as E1 by (unfold s1; now rewrite upd_vnode_read, Z.eqb_refl).
  rewrite E1. cbn [v_vnodeops w_vlock]. rewrite S5, (proj2 (Z.eqb_neq O 0) HO). cbn [initrd_ops vn_lookup].
  assert (walked s0 areas s1) as Wl.
  { unfold walked, s1. splits; auto. intros x Hx. rewrite <- (W7 x Hx), upd_vnode_read. now destruct (x =? v). }
  destruct (rd_archive _ _ _ _ R) as [Ha Hf].
  eapply Safe_bind.
  { apply (initrd_lookup_spec s1 es L v e d); rewrite ?E1; auto.
    - change (f_mem s1) with (f_mem s). change (f_x s1) with (f_x s). now rewrite W4, W5.
    - rewrite length_app. exact Hlen.
    - now apply (walked_search s0 es l areas). }
  intros [v' s2] HR. destruct (e_type e =? V_DIR).
  - destruct (find_entry es (e_name e ++ d)) as [e'|].
    + exact (step_found s0 es l areas s v L v' e' s2 R W HH HR).
    + destruct HR as [-> ->]. eapply Safe_mono; [exact (step_missing s0 areas s v L ENOENT W HH S6 HL)|].
      intros [[? ?] ?]. auto.
  - destruct HR as [-> ->]. eapply Safe_mono; [exact (step_missing s0 areas s v L ENOTDIR W HH S6 HL)|].
    intros [[? ?] ?]. auto.
Qed.

Lemma find_entry_name es n e : find_entry es n = Some e -> e_name e = n.
Proof.
  induction es as [|x es IH]; cbn [find_entry]; [discriminate|]. case_bool_decide; [intros [= <-]; auto|exact IH].
Qed.

Lemma component_app path : (component path).1 ++ (component path).2 = path.
Proof.
  induction path as [|c path IH]; [reflexivity|]. cbn [component]. destruct (c =? SLASH); [reflexivity|].
  destruct (component path) as [d r]. cbn in *. now rewrite IH.
Qed.

Lemma component_rest path : match (component path).2 with [] => True | c :: _ => c = SLASH end.
Proof.
  induction path as [|c path IH]; [exact I|]. cbn [component]. destruct (Z.eqb_spec c SLASH); [assumption|].
  now destruct (component path) as [d r].
Qed.

Lemma next_dirname_app path d rest :
  path <> [] -> next_dirname path = (d, rest) -> path = d ++ rest /\ d <> [].
Proof.
  intros Hp. unfold next_dirname. pose proof (component_app path) as E. pose proof (component_rest path) as Er.
  destruct (component path) as [comp [|c r]]; cbn in E, Er.
  - intros [= <- <-]. rewrite <- E in Hp. rewrite app_nil_r in *. auto.
  - subst c. rewrite Z.eqb_refl. intros [= <- <-]. split; [now rewrite <- app_assoc|]. now destruct comp.
Qed.

Lemma lookup_loop_spec s0 es l areas n : forall path s v e,
  O <> 0 -> ready s0 es l areas -> walked s0 areas s -> stands s areas v e -> (length path < n)%nat ->
  string_ok (e_name e ++ path) -> Z.of_nat (length (e_name e ++ path)) <= 255 ->
  (forall w k, w ∈ l -> v_filename (f_vnodes s0 w) <> take k (e_name e ++ path)) ->
  Safe (lookup_loop (initrd_ops fuel O) n path (rootVFS s0) v s) (fun '(v', s') =>
    match resolve n es e path with
    | inl e' => walked s0 areas s' /\ stands s' areas v' e'
    | inr c => not_found s0 areas c v' s'
    end).
Proof.
  induction n as [|n IH]; intros path s v e HO R W S Hn Hs Hlen Hno; [lia|]. cbn [lookup_loop resolve].
  destruct path as [|c0 path0] eqn:Ep; [cbn; auto|]. rewrite <- Ep in *.
  destruct (next_dirname path) as [d rest] eqn:Ed.
  destruct (next_dirname_app path d rest) as [Eq Hd]; [now rewrite Ep|exact Ed|].
  assert (e_name e ++ path = (e_name e ++ d) ++ rest) as E by (now rewrite Eq, app_assoc).
  rewrite E in Hs, Hlen, Hno. apply Forall_app in Hs as Hs2. rewrite length_app in Hlen.
  assert (length rest < length path)%nat as Hr.
  { rewrite Eq, length_app. destruct d; [contradiction|cbn; lia]. }
  eapply Safe_bind.
  { apply (lookup_step_spec s0 es l areas s v e d HO R W S); [apply Hs2|lia|].
    intros w Hw Ew. apply (Hno w (length (e_name e ++ d)) Hw). now rewrite take_app_length. }
  intros [[v' vfs'] s']. destruct (e_type e =? V_DIR); [|intros HN; pose proof HN as [-> _]; exact HN].
  destruct (find_entry es (e_name e ++ d)) as [e'|] eqn:Ef; [|intros HN; pose proof HN as [-> _]; exact HN].
  intros (-> & W' & S'). rewrite (proj2 (Z.eqb_neq v' 0)) by apply S'. apply find_entry_name in Ef. rewrite <- Ef in *.
  apply IH; auto; [lia|]. rewrite length_app. lia.
Qed.
End Walk.


Definition demo_entries : list entry :=
  [mk_entry 1024 (chars "bin/") V_DIR 0; mk_entry 1536 (chars "bin/sh") V_REG 5].

Lemma demo_archive : archive initrd_mem 1024 demo_entries.
Proof. vm_compute. repeat split; discriminate || reflexivity. Qed.

#[local] Existing Instance demo_heap.
#[local] Existing Instance demo_heap_laws.

(** The state after [initrd_init] at boot is ready. *)
Lemma initrd_boot_ready :
  Returns initrd_boot (fun s => exists areas, ready 8 50 s demo_entries [] areas).
Proof.
  assert ((match kh_malloc VFS_SIZE heap_demo with
           | Ret (_, h) => match kh_malloc VNODE_SIZE h with Ret _ => true | _ => false end
           | _ => false
           end) = true) as Two by (vm_compute; reflexivity).
  unfold initrd_boot, initrd_init. cbn [f_heap].
  pose proof (kh_malloc_spec (KernelHeapLaws := demo_heap_laws) VFS_SIZE heap_demo []
    ltac:(unfold VFS_SIZE; lia) (proj1 heap_demo_live) (proj2 heap_demo_live)) as M1.
  destruct (kh_malloc VFS_SIZE heap_demo) as [[a h]|?| | |] eqn:E1; try contradiction; [|discriminate Two].
  destruct M1 as (n1 & A1 & _ & A3 & _ & A5 & A6 & A7). cbn [mbind outcome_bind].
  unfold vnode_new. cbn [f_heap upd_vfs set_vfss set_heap].
  pose proof (kh_malloc_spec VNODE_SIZE h _ ltac:(unfold VNODE_SIZE; lia) A5 A6) as M2.
  destruct (kh_malloc VNODE_SIZE h) as [[b h']|?| | |] eqn:E2; try contradiction.
  - destruct M2 as (n2 & B1 & _ & B3 & _ & B5 & B6 & B7). cbn [mbind outcome_bind Z.eqb].
    unfold vfs_mount. cbn [upd_vfs upd_vnode set_vfss set_vnodes set_heap set_x f_vfss]. rewrite !upd_eq.
    cbn [vfs_system rootVFS Z.eqb mbind outcome_bind]. apply Returns_ret. exists [(b, n2); (a, n1)].
    unfold VNODE_SIZE, VFS_SIZE in *.
    assert (owned [(b, n2); (a, n1)] b) as Ow by (exists n2; split; [lia|apply elem_of_cons; now left]).
    constructor; cbn -[demo_entries owned vnode_list archive]; unfold upd; rewrite ?Z.eqb_refl;
      cbn -[demo_entries owned vnode_list archive]; rewrite ?Z.eqb_refl.
    + lia.
    + cbn -[owned]. splits; auto; lia.
    + split; [exact demo_archive|cbn; lia].
    + unfold vnode_list. cbn. splits; auto; try constructor; try lia. intros v Hv. now apply not_elem_of_nil in Hv.
    + auto.
  - discriminate Two.
Qed.

