(* ===== verification/Bytes.v ===== *)
(** * Words in byte memory

    Little-endian loads and stores of [n]-byte words, as the C code does them through
    pointers to structures (ELF headers, tables on disk blocks). *)

From S2P Require Import Prelude MemUtil.
#[local] Open Scope Z_scope.

Fixpoint load (n : nat) (a : Z) (m : mem) : Z :=
  match n with
  | O => 0
  | S n' => m a + 256 * load n' (a + 1) m
  end.

Fixpoint store (n : nat) (a v : Z) (m : mem) : mem :=
  match n with
  | O => m
  | S n' => store n' (a + 1) (v / 256) (upd m a (v mod 256))
  end.

(** Bytes stored one after the other. *)
Fixpoint write_bytes (l : list Z) (a : Z) (m : mem) : mem :=
  match l with
  | [] => m
  | c :: l' => write_bytes l' (a + 1) (upd m a c)
  end.

Abbreviation load8 := (load 1).
Abbreviation load16 := (load 2).
Abbreviation load32 := (load 4).
Abbreviation load64 := (load 8).
Abbreviation store8 := (store 1).
Abbreviation store16 := (store 2).
Abbreviation store32 := (store 4).
Abbreviation store64 := (store 8).

Lemma load_ext n : forall a m m',
  (forall k, 0 <= k < Z.of_nat n -> m' (a + k) = m (a + k)) -> load n a m' = load n a m.
Proof.
  induction n as [|n IH]; intros a m m' He; cbn [load]; [reflexivity|].
  rewrite (IH (a + 1) m m'); [|intros k Hk; rewrite <- Z.add_assoc; apply He; lia].
  specialize (He 0 ltac:(lia)). rewrite Z.add_0_r in He. now rewrite He.
Qed.

(** The same bytes at another place. *)
Lemma load_shift n : forall a b m m',
  (forall k, 0 <= k < Z.of_nat n -> m' (a + k) = m (b + k)) -> load n a m' = load n b m.
Proof.
  induction n as [|n IH]; intros a b m m' He; cbn [load]; [reflexivity|].
  rewrite (IH (a + 1) (b + 1) m m'); [|intros k Hk; rewrite <- !Z.add_assoc; apply He; lia].
  specialize (He 0 ltac:(lia)). rewrite !Z.add_0_r in He. now rewrite He.
Qed.

Lemma store_other n : forall a v m x, ~ (a <= x < a + Z.of_nat n) -> store n a v m x = m x.
Proof.
  induction n as [|n IH]; intros a v m x Hx; cbn [store]; [reflexivity|].
  rewrite IH by lia. apply upd_ne. lia.
Qed.

(** A load elsewhere does not see a store. *)
Lemma load_store_other k n a b v m :
  a + Z.of_nat k <= b \/ b + Z.of_nat n <= a -> load k a (store n b v m) = load k a m.
Proof. intros Hd. apply load_ext. intros j Hj. apply store_other. lia. Qed.

(** A load gives back what was stored, cut to its width. *)
Lemma load_store n : forall a v m, load n a (store n a v m) = v mod 2 ^ (8 * Z.of_nat n).
Proof.
  induction n as [|n IH]; intros a v m; [symmetry; apply Z.mod_1_r|]. cbn [load store].
  rewrite IH, store_other, upd_eq by lia.
  replace (8 * Z.of_nat (S n)) with (8 + 8 * Z.of_nat n) by lia. rewrite Z.pow_add_r by lia. change (2 ^ 8) with 256.
  set (q := 2 ^ (8 * Z.of_nat n)). assert (0 < q) by (apply Z.pow_pos_nonneg; lia).
  rewrite Z.rem_mul_r by lia. reflexivity.
Qed.

(** The bytes of a word. *)
Lemma store_byte n : forall a v m k, 0 <= k < Z.of_nat n -> store n a v m (a + k) = v / 256 ^ k mod 256.
Proof.
  induction n as [|n IH]; intros a v m k Hk; [lia|]. cbn [store]. destruct (Z.eq_dec k 0) as [->|N].
  - rewrite Z.add_0_r, store_other, upd_eq by lia. now rewrite Z.pow_0_r, Z.div_1_r.
  - replace (a + k) with (a + 1 + (k - 1)) by lia. rewrite IH by lia. rewrite Z.div_div by (try apply Z.pow_pos_nonneg; lia).
    replace (256 * 256 ^ (k - 1)) with (256 ^ k); [reflexivity|]. rewrite <- Z.pow_succ_r by lia. f_equal. lia.
Qed.

(** Bytes that are bytes make a word of that width. *)
Lemma load_range n : forall a m, (forall k, 0 <= k < Z.of_nat n -> 0 <= m (a + k) < 256) ->
  0 <= load n a m < 2 ^ (8 * Z.of_nat n).
Proof.
  induction n as [|n IH]; intros a m Hb; cbn [load]; [cbn; lia|].
  replace (8 * Z.of_nat (S n)) with (8 + 8 * Z.of_nat n) by lia. rewrite Z.pow_add_r by lia. change (2 ^ 8) with 256.
  specialize (IH (a + 1) m). assert (0 <= load n (a + 1) m < 2 ^ (8 * Z.of_nat n)).
  { apply IH. intros k Hk. rewrite <- Z.add_assoc. apply Hb. lia. }
  specialize (Hb 0 ltac:(lia)). rewrite Z.add_0_r in Hb. lia.
Qed.

Create Rewrite HintDb words.
#[export] Hint Rewrite load_store : words.
#[export] Hint Rewrite load_store_other using lia : words.

Lemma write_bytes_outside l : forall addr m x, ~ (addr <= x < addr + Z.of_nat (length l)) -> write_bytes l addr m x = m x.
Proof.
  induction l as [|c l IH]; intros addr m x Hx; cbn [write_bytes length] in *; [reflexivity|]. rewrite IH, upd_ne by lia. reflexivity.
Qed.

Lemma write_bytes_at l : forall a m k, (k < length l)%nat -> write_bytes l a m (a + Z.of_nat k) = nth k l 0.
Proof.
  induction l as [|c l IH]; intros a m k Hk; cbn [write_bytes length] in *; [lia|]. destruct k as [|k].
  - rewrite Z.add_0_r, write_bytes_outside by lia. now rewrite upd_eq.
  - replace (a + Z.of_nat (S k)) with (a + 1 + Z.of_nat k) by lia. rewrite IH by lia. reflexivity.
Qed.

Lemma write_bytes_app l1 : forall l2 addr m,
  write_bytes (l1 ++ l2) addr m = write_bytes l2 (addr + Z.of_nat (length l1)) (write_bytes l1 addr m).
Proof.
  induction l1 as [|x l1 IH]; intros l2 addr m; cbn [app write_bytes length]; [f_equal; lia|].
  rewrite IH. f_equal. lia.
Qed.

(** Bits that do not overlap are added. *)
Lemma lor_disjoint a b n : 0 <= n -> 0 <= b < 2 ^ n -> Z.lor (Z.shiftl a n) b = a * 2 ^ n + b.
Proof.
  intros Hn Hb. rewrite <- Z.shiftl_mul_pow2 by lia.
  assert (Z.land (Z.shiftl a n) b = 0) as E.
  { apply Z.bits_inj'. intros k Hk. rewrite Z.land_spec, Z.bits_0. destruct (Z.lt_ge_cases k n).
    - now rewrite Z.shiftl_spec_low by lia.
    - rewrite <- (Z.mod_small b (2 ^ n)), Z.mod_pow2_bits_high by lia. apply andb_false_r. }
  rewrite Z.add_nocarry_lxor by exact E. symmetry. now apply Z.lxor_lor.
Qed.

(** A statement about small numbers can be tried on all of them. *)
Lemma all_below (n : nat) (P : Z -> bool) :
  forallb P (map Z.of_nat (seq 0 n)) = true -> forall b, 0 <= b < Z.of_nat n -> P b = true.
Proof.
  intros H b Hb. rewrite forallb_forall in H. apply H. rewrite <- (Z2Nat.id b) by lia. apply in_map, in_seq. lia.
Qed.

Lemma all_bytes (P : Z -> bool) : forallb P (map Z.of_nat (seq 0 256)) = true -> forall b, 0 <= b < 256 -> P b = true.
Proof. exact (all_below 256 P). Qed.
