(* ===== verification/Ports.v ===== *)
(** * Input and output ports ([kernel/arch/x86_64/ports.c])

    The interface between drivers and the machine: [W] is the state of everything that is
    reached through ports, and an access may change it.  Drivers are written against the
    class; what a device promises about its ports is a class of laws in the file of the
    driver that needs it. *)

From S2P Require Import Prelude.
#[local] Open Scope Z_scope.

Class PortIO (W : Type) := {
  arch_inb : Z -> W -> Z * W;
  arch_outb : Z -> Z -> W -> W;
  arch_inw : Z -> W -> Z * W;
  arch_outw : Z -> Z -> W -> W
}.
