(* ===== verification/Module.v ===== *)
(** * Kernel symbols and loaded modules ([kernel/sys/ksym.c], [kernel/module/module.c])

    Two lists the module loader works with: the symbols the kernel exports, taken from
    the symbol table of its own ELF file, and the modules loaded so far.  The entries
    are records by address, the lists are [ListDs] lists that share the kernel heap.
    Names are strings in byte memory and are compared with [strcmp]. *)

From S2P Require Import Prelude Interfaces MemMap Pmm MemUtil Kheap ListDs Path Vnode Bytes.
#[local] Open Scope Z_scope.

Record ksym_entry_t : Type := mk_ksym { ks_address : Z; ks_name : Z }.
Record loaded_mod_list_entry_t : Type := mk_mod { me_size : Z; me_address : Z; me_metadata : Z }.

(** [sizeof] of the two records. *)
Definition KSYM_SIZE : Z := 16.
Definition MOD_ENTRY_SIZE : Z := 24.

(** [module_t] in memory: the name, [init] and [fini]. *)
Definition mod_name (m : mem) (md : Z) : Z := load64 md m.
Definition mod_init (m : mem) (md : Z) : Z := load64 (md + 8) m.
Definition mod_fini (m : mem) (md : Z) : Z := load64 (md + 16) m.

Record loader (X H : Type) : Type := mk_loader {
  k_fal : fal X H;
  moduleLoaderLock : spinlock_t;
  moduleListLock : spinlock_t;
  ksymLock : spinlock_t;
  moduleList : list_t H;
  ksymList : list_t H;
  k_mods : Z -> loaded_mod_list_entry_t;
  k_syms : Z -> ksym_entry_t
}.
Arguments mk_loader {X H}.
Arguments k_fal {X H}.
Arguments moduleLoaderLock {X H}.
Arguments moduleListLock {X H}.
Arguments ksymLock {X H}.
Arguments moduleList {X H}.
Arguments ksymList {X H}.
Arguments k_mods {X H}.
Arguments k_syms {X H}.

Section Code.
Context {X H : Type} `{KH : KernelHeap H}.
Implicit Types (s : loader X H).

Definition set_fal (f : fal X H) s : loader X H :=
  mk_loader f (moduleLoaderLock s) (moduleListLock s) (ksymLock s) (moduleList s) (ksymList s) (k_mods s) (k_syms s).
Definition set_loaderLock (k : spinlock_t) s : loader X H :=
  mk_loader (k_fal s) k (moduleListLock s) (ksymLock s) (moduleList s) (ksymList s) (k_mods s) (k_syms s).
Definition set_modLock (k : spinlock_t) s : loader X H :=
  mk_loader (k_fal s) (moduleLoaderLock s) k (ksymLock s) (moduleList s) (ksymList s) (k_mods s) (k_syms s).
Definition set_ksymLock (k : spinlock_t) s : loader X H :=
  mk_loader (k_fal s) (moduleLoaderLock s) (moduleListLock s) k (moduleList s) (ksymList s) (k_mods s) (k_syms s).
Definition set_modules (l : list_t H) (e : Z -> loaded_mod_list_entry_t) s : loader X H :=
  mk_loader (k_fal s) (moduleLoaderLock s) (moduleListLock s) (ksymLock s) l (ksymList s) e (k_syms s).
Definition set_ksyms (l : list_t H) (e : Z -> ksym_entry_t) s : loader X H :=
  mk_loader (k_fal s) (moduleLoaderLock s) (moduleListLock s) (ksymLock s) (moduleList s) l (k_mods s) e.
Definition s_mem s : mem := f_mem (k_fal s).
Definition s_heap s : H := f_heap (k_fal s).
Definition put_mem (m : mem) s : loader X H := set_fal (set_mem m (k_fal s)) s.
Definition put_heap (h : H) s : loader X H := set_fal (set_heap h (k_fal s)) s.
Definition put_errno (e : Z) s : loader X H := set_fal (set_errno e (k_fal s)) s.

(** ** Modules *)

(** The [foreach] of [module_list_search] and [module_list_get]: the entry with the
    name, 0 when there is none; [sfuel] bounds the comparison of names. *)
Fixpoint find_module (fuel sfuel : nat) (node name : Z) s : outcome Z :=
  match fuel with
  | O => OutOfFuel
  | S f =>
      if node =? 0 then Ret 0
      else
        let entry := n_value (nodes (moduleList s) node) in
        c ← strcmp sfuel (mod_name (s_mem s) (me_metadata (k_mods s entry))) name (s_mem s);
        if c =? 0 then Ret entry else find_module f sfuel (n_next (nodes (moduleList s) node)) name s
  end.

(** Both return from inside the locked region: the lock stays taken when the name is
    found. *)
Definition module_list_get (fuel sfuel : nat) (name : Z) s : outcome (Z * loader X H) :=
  k ← acquireLock (moduleListLock s);
  let s := set_modLock k s in
  e ← find_module fuel sfuel (head (moduleList s)) name s;
  if negb (e =? 0) then Ret (e, s)
  else Ret (0, set_modLock (releaseLock (moduleListLock s)) s).

Definition module_list_search (fuel sfuel : nat) (name : Z) s : outcome (bool * loader X H) :=
  k ← acquireLock (moduleListLock s);
  let s := set_modLock k s in
  e ← find_module fuel sfuel (head (moduleList s)) name s;
  if negb (e =? 0) then Ret (true, s)
  else Ret (false, set_modLock (releaseLock (moduleListLock s)) s).

Definition module_list_add (entry : loaded_mod_list_entry_t) s : outcome (loader X H) :=
  '(a, h) ← kh_malloc MOD_ENTRY_SIZE (s_heap s);
  let s := put_heap h s in
  k ← acquireLock (moduleListLock s);
  let s := set_modLock k s in
  '(l, h) ← run_list (list_insert a) (moduleList s) (s_heap s);
  let s := set_modules l (upd (k_mods s) a entry) (put_heap h s) in
  Ret (set_modLock (releaseLock (moduleListLock s)) s).

(** [call] runs a function of a module, given by its address. *)
Fixpoint fini_loop (fuel : nat) (call : Z -> loader X H -> outcome (loader X H)) (node : Z) s : outcome (loader X H) :=
  match fuel with
  | O => OutOfFuel
  | S f =>
      if node =? 0 then Ret s
      else
        let entry := n_value (nodes (moduleList s) node) in
        s ← call (mod_fini (s_mem s) (me_metadata (k_mods s entry))) s;
        fini_loop f call (n_next (nodes (moduleList s) node)) s
  end.

Definition module_shutdown (fuel : nat) (call : Z -> loader X H -> outcome (loader X H)) s : outcome (loader X H) :=
  k ← acquireLock (moduleListLock s);
  let s := set_modLock k s in
  s ← fini_loop fuel call (head (moduleList s)) s;
  Ret (set_modLock (releaseLock (moduleListLock s)) s).

(** [start_initrd] and [autoreg] are [initrd_init()] and
    [device_driver_autoreg("/drv/initreg.txt")]. *)
Definition module_init (start_initrd : loader X H -> outcome (loader X H))
    (autoreg : loader X H -> outcome (Z * loader X H)) s : outcome (loader X H) :=
  s ← start_initrd s;
  '(r, s) ← autoreg s;
  if negb (r =? 0) then Panic "initreg.txt not found on initrd!"
  else
    '(_, l) ← list_create (nodes (moduleList s)) (s_heap s);
    Ret (put_heap (heap l) (set_modules l (k_mods s) s)).

(** ** Kernel symbols *)

(** [virt_base] is [bl_get_kernel_virt_base()]. *)
Definition ksym_add (virt_base name address : Z) s : outcome (loader X H) :=
  k ← acquireLock (ksymLock s);
  let s := set_ksymLock k s in
  '(a, h) ← kh_malloc KSYM_SIZE (s_heap s);
  '(l, h) ← run_list (list_insert a) (ksymList s) h;
  let e := mk_ksym (u64 (address - 0xFFFFFFFF80000000 + virt_base)) name in
  let s := set_ksyms l (upd (k_syms s) a e) (put_heap h s) in
  Ret (set_ksymLock (releaseLock (ksymLock s)) s).

Fixpoint find_ksym (fuel sfuel : nat) (node name : Z) s : outcome (option Z) :=
  match fuel with
  | O => OutOfFuel
  | S f =>
      if node =? 0 then Ret None
      else
        let ksym := k_syms s (n_value (nodes (ksymList s) node)) in
        c ← strcmp sfuel (ks_name ksym) name (s_mem s);
        if c =? 0 then Ret (Some (ks_address ksym)) else find_ksym f sfuel (n_next (nodes (ksymList s) node)) name s
  end.

Definition ksym_find (fuel sfuel : nat) (name : Z) s : outcome (Z * loader X H) :=
  k ← acquireLock (ksymLock s);
  let s := set_ksymLock k s in
  r ← find_ksym fuel sfuel (head (ksymList s)) name s;
  match r with
  | Some a => Ret (a, set_ksymLock (releaseLock (ksymLock s)) s)
  | None => Ret (0, set_ksymLock (releaseLock (ksymLock s)) s)
  end.
End Code.

(** ** The lists, abstractly *)

Section Spec.
Context {X H : Type}.
Implicit Types (s : loader X H).

(** The cells of a list whose head is [hd], and the names of their values. *)
Definition named (m : mem) (hd : Z) (nd : Z -> list_node_t) (name_of : Z -> Z) (cells : list cell) (names : list (list Z)) : Prop :=
  hd = first_cell 0 cells /\ chain nd cells 0 /\ Forall (fun c => 0 < c_addr c /\ c_value c <> 0) cells /\
  Forall2 (fun c nm => cstr m (name_of (c_value c)) nm) cells names.

(** The modules loaded, by name. *)
Definition loaded s (cells : list cell) (names : list (list Z)) : Prop :=
  named (s_mem s) (head (moduleList s)) (nodes (moduleList s))
    (fun e => mod_name (s_mem s) (me_metadata (k_mods s e))) cells names.

(** The symbols known, by name. *)
Definition known s (cells : list cell) (names : list (list Z)) : Prop :=
  named (s_mem s) (head (ksymList s)) (nodes (ksymList s)) (fun e => ks_name (k_syms s e)) cells names.

(** The first cell with a name. *)
Fixpoint lookup_name (cells : list cell) (names : list (list Z)) (nm : list Z) : option cell :=
  match cells, names with
  | c :: cells', n :: names' => if bool_decide (n = nm) then Some c else lookup_name cells' names' nm
  | _, _ => None
  end.

Lemma lookup_name_some (P : cell -> list Z -> Prop) cells names nm :
  Forall2 P cells names ->
  bool_decide (nm ∈ names) = bool_decide (is_Some (lookup_name cells names nm)).
Proof.
  induction 1 as [|c n cells names _ _ IH]; cbn [lookup_name].
  - rewrite !bool_decide_false; [reflexivity| |apply not_elem_of_nil]. now intros [? [=]].
  - destruct (decide (n = nm)) as [->|Hne].
    + rewrite (bool_decide_true (nm = nm)) by reflexivity.
      rewrite !bool_decide_true; [reflexivity|eauto|apply elem_of_cons; now left].
    + rewrite (bool_decide_false (n = nm)) by exact Hne. rewrite <- IH. apply bool_decide_ext.
      rewrite elem_of_cons. split; [intros [E|E]; [congruence|exact E]|now right].
Qed.

(** Both searches follow [lookup_name]. *)
Lemma find_module_spec s sfuel name nm cells : forall names fuel,
  cstr (s_mem s) name nm -> Forall (fun n => (length n < sfuel)%nat) names -> (length cells < fuel)%nat ->
  chain (nodes (moduleList s)) cells 0 -> Forall (fun c => 0 < c_addr c /\ c_value c <> 0) cells ->
  Forall2 (fun c n => cstr (s_mem s) (mod_name (s_mem s) (me_metadata (k_mods s (c_value c)))) n) cells names ->
  find_module fuel sfuel (first_cell 0 cells) name s =
    Ret (match lookup_name cells names nm with Some c => c_value c | None => 0 end).
Proof.
  induction cells as [|c cells IH]; intros names [|f] Hn Hs Hf Hc Hp H2; cbn [length] in Hf; try lia; [reflexivity|].
  apply Forall2_cons_inv_l in H2 as (n & names' & Hcs & H2 & ->). apply Forall_cons in Hs as [Hs0 Hs].
  apply Forall_cons in Hp as [[Hp0 _] Hp]. destruct Hc as [En Hc]. cbn [find_module first_cell lookup_name].
  rewrite (proj2 (Z.eqb_neq (c_addr c) 0)), En by lia. cbn [n_value n_next].
  destruct (strcmp_spec (s_mem s) n nm sfuel _ name Hcs Hn Hs0) as (r & -> & Hr). cbn [mbind outcome_bind].
  destruct (Z.eqb_spec r 0) as [E|E].
  - rewrite bool_decide_true by now apply Hr. reflexivity.
  - rewrite bool_decide_false by (intros E2; now apply E, Hr). apply IH; auto. lia.
Qed.

Lemma find_ksym_spec s sfuel name nm cells : forall names fuel,
  cstr (s_mem s) name nm -> Forall (fun n => (length n < sfuel)%nat) names -> (length cells < fuel)%nat ->
  chain (nodes (ksymList s)) cells 0 -> Forall (fun c => 0 < c_addr c /\ c_value c <> 0) cells ->
  Forall2 (fun c n => cstr (s_mem s) (ks_name (k_syms s (c_value c))) n) cells names ->
  find_ksym fuel sfuel (first_cell 0 cells) name s =
    Ret (option_map (fun c => ks_address (k_syms s (c_value c))) (lookup_name cells names nm)).
Proof.
  induction cells as [|c cells IH]; intros names [|f] Hn Hs Hf Hc Hp H2; cbn [length] in Hf; try lia; [reflexivity|].
  apply Forall2_cons_inv_l in H2 as (n & names' & Hcs & H2 & ->). apply Forall_cons in Hs as [Hs0 Hs].
  apply Forall_cons in Hp as [[Hp0 _] Hp]. destruct Hc as [En Hc]. cbn [find_ksym first_cell lookup_name].
  rewrite (proj2 (Z.eqb_neq (c_addr c) 0)), En by lia. cbn [n_value n_next].
  destruct (strcmp_spec (s_mem s) n nm sfuel _ name Hcs Hn Hs0) as (r & -> & Hr). cbn [mbind outcome_bind].
  destruct (Z.eqb_spec r 0) as [E|E].
  - rewrite bool_decide_true by now apply Hr. reflexivity.
  - rewrite bool_decide_false by (intros E2; now apply E, Hr). apply IH; auto. lia.
Qed.

(** [ksym_find]: the address of the first symbol of that name, 0 for an unknown name. *)
Lemma ksym_find_spec s fuel sfuel name nm cells names :
  ksymLock s = false -> known s cells names -> cstr (s_mem s) name nm ->
  Forall (fun n => (length n < sfuel)%nat) names -> (length cells < fuel)%nat ->
  ksym_find fuel sfuel name s =
    Ret (match lookup_name cells names nm with Some c => ks_address (k_syms s (c_value c)) | None => 0 end, s).
Proof.
  intros L (K1 & K2 & K3 & K4) Hn Hs Hf. unfold ksym_find. rewrite L. cbn [acquireLock mbind outcome_bind].
  change (ksymList (set_ksymLock true s)) with (ksymList s). rewrite K1.
  rewrite (find_ksym_spec (set_ksymLock true s) sfuel name nm cells names fuel); auto. cbn [mbind outcome_bind].
  assert (set_ksymLock false (set_ksymLock true s) = s) as E by (destruct s; cbn in *; now subst).
  unfold releaseLock. destruct (lookup_name cells names nm); cbn [option_map]; now rewrite E.
Qed.
End Spec.

(** [module_list_search] returns true exactly when a module of that name is loaded.
    In that case it returns with the list's lock still taken: every later operation on
    the list spins forever.  In the other case the lock is free again. *)
Theorem module_list_search_keeps_lock {X H} `{KH : KernelHeap H} (s : loader X H) fuel sfuel name nm cells names :
  loaded s cells names -> moduleListLock s = false -> cstr (s_mem s) name nm ->
  Forall (fun n => (length n < sfuel)%nat) names -> (length cells < fuel)%nat ->
  Returns (module_list_search fuel sfuel name s) (fun '(r, s') =>
    r = bool_decide (nm ∈ names) /\ moduleListLock s' = r /\
    (r = true -> forall f sf other, module_list_search f sf other s' = Deadlock /\ module_list_get f sf other s' = Deadlock) /\
    (r = false -> s' = s)).
Proof.
  intros (K1 & K2 & K3 & K4) L Hn Hs Hf. unfold module_list_search at 1. rewrite L. cbn [acquireLock mbind outcome_bind].
  change (moduleList (set_modLock true s)) with (moduleList s). rewrite K1.
  rewrite (find_module_spec (set_modLock true s) sfuel name nm cells names fuel); auto. cbn [mbind outcome_bind].
  rewrite (lookup_name_some _ cells names nm K4).
  assert (set_modLock false (set_modLock true s) = s) as E by (destruct s; cbn in *; now subst).
  destruct (lookup_name cells names nm) as [c|] eqn:El.
  - assert (c ∈ cells) as Hc.
    { clear -El. revert names El. induction cells as [|d cells IH]; intros [|n names]; cbn; try discriminate.
      case_bool_decide; [intros [= ->]; apply elem_of_cons; now left|]. intros E. apply elem_of_cons. right. eauto. }
    rewrite Forall_forall in K3. rewrite (proj2 (Z.eqb_neq _ 0)) by now apply K3. cbn [negb].
    apply Returns_ret. rewrite bool_decide_true by eauto. splits; auto. discriminate.
  - cbn [Z.eqb negb]. apply Returns_ret. rewrite bool_decide_false by (now intros [? [=]]). splits; auto; discriminate.
Qed.

(** One module, called [ext2]. *)
Definition loader_demo : loader unit unit :=
  mk_loader (mk_fal (fun _ => vnode_named "" 0 0 0 0) (fun _ => mk_vfs 0 0 0 0 false false 0) 0 0 0 0 0 0
      (fun a => if a =? 512 then 16 else bytes_at 16 (chars "ext2" ++ [0] ++ chars "fat" ++ [0]) a) tt ∅ tt)
    false false false (mk_list 64 64 1 false (fun _ => mk_node 0 96) tt) (mk_list 0 0 0 false (fun _ => mk_node 0 0) tt)
    (fun _ => mk_mod 100 1024 512) (fun _ => mk_ksym 0 0).

#[local] Instance no_heap : KernelHeap unit :=
  { kh_malloc := fun _ _ => Panic "no memory"; kh_free := fun _ _ => Ret tt; kh_ok := fun _ => True; kh_live := fun _ _ => True }.

Lemma loader_demo_loaded : loaded loader_demo [mk_cell 64 16 96] [chars "ext2"].
Proof.
  unfold loaded, named. splits; [reflexivity|cbn; auto| |].
  - apply Forall_singleton. cbn. lia.
  - constructor; [|constructor]. vm_compute. repeat split; discriminate || reflexivity.
Qed.

Lemma module_list_search_keeps_lock_witness :
  Returns (module_list_search 2 5 16 loader_demo) (fun '(r, s') =>
    r = true /\ moduleListLock s' = true /\ module_list_search 2 5 21 s' = Deadlock) /\
  module_list_search 2 5 21 loader_demo = Ret (false, loader_demo).
Proof.
  split; [|vm_compute; reflexivity].
  eapply Returns_mono.
  - apply (module_list_search_keeps_lock loader_demo 2 5 16 (chars "ext2") [mk_cell 64 16 96] [chars "ext2"]);
      [exact loader_demo_loaded|reflexivity| |apply Forall_singleton; cbn; lia|cbn; lia].
    vm_compute. repeat split; discriminate || reflexivity.
  - intros [r s'] (-> & H2 & H3 & _).
    assert (bool_decide (chars "ext2" ∈ [chars "ext2"]) = true) as E by (vm_compute; reflexivity).
    rewrite E in *. splits; auto. now apply H3.
Defined.
