(* ===== verification/Elf.v ===== *)
(** * ELF: modules, drivers and programs ([kernel/exec/elf.c], [kernel/sys/ksym.c])

    ELF files are read into byte memory and worked on in place, so every header field
    is a load and every fix-up a store.  Section header addresses are computed with the
    C types of the operands: the entry size is a 16-bit value, the index a [size_t], a
    32-bit or a 16-bit value.  Programs are copied to the memory of the process, which is
    kept per page table ([user]) and reached through the tables: a page that gets a new frame
    gets the contents of the frame, and a store to a page without translation faults. *)

From S2P Require Import Prelude Interfaces MemMap Pmm MemUtil Kheap Paging Vmm ListDs Path Vnode Bytes Module.
#[local] Open Scope Z_scope.

(** ** Layout of the structures *)

Definition ET_REL : Z := 1.
Definition ET_EXEC : Z := 2.
Definition EM_X86_64 : Z := 62.
Definition ELFCLASS64 : Z := 2.
Definition SHT_SYMTAB : Z := 2.
Definition SHT_RELA : Z := 4.
Definition SHT_NOBITS : Z := 8.
Definition SHF_ALLOC : Z := 2.
Definition SHN_UNDEF : Z := 0.
Definition SHN_LORESERVE : Z := 65280.
Definition PT_LOAD : Z := 1.
Definition R_X86_64_64 : Z := 1.
Definition R_X86_64_PC32 : Z := 2.
Definition R_X86_64_32 : Z := 10.

(** [Elf64_Ehdr] at [h]; 64 bytes. *)
Definition EHDR_SIZE : Z := 64.
Definition e_type (m : mem) (h : Z) : Z := load16 (h + 16) m.
Definition e_machine (m : mem) (h : Z) : Z := load16 (h + 18) m.
Definition e_entry (m : mem) (h : Z) : Z := load64 (h + 24) m.
Definition e_phoff (m : mem) (h : Z) : Z := load64 (h + 32) m.
Definition e_shoff (m : mem) (h : Z) : Z := load64 (h + 40) m.
Definition e_phentsize (m : mem) (h : Z) : Z := load16 (h + 54) m.
Definition e_phnum (m : mem) (h : Z) : Z := load16 (h + 56) m.
Definition e_shentsize (m : mem) (h : Z) : Z := load16 (h + 58) m.
Definition e_shnum (m : mem) (h : Z) : Z := load16 (h + 60) m.

(** [Elf64_Shdr]. *)
Definition sh_type (m : mem) (sh : Z) : Z := load32 (sh + 4) m.
Definition sh_flags (m : mem) (sh : Z) : Z := load64 (sh + 8) m.
Definition sh_addr (m : mem) (sh : Z) : Z := load64 (sh + 16) m.
Definition sh_offset (m : mem) (sh : Z) : Z := load64 (sh + 24) m.
Definition sh_size (m : mem) (sh : Z) : Z := load64 (sh + 32) m.
Definition sh_link (m : mem) (sh : Z) : Z := load32 (sh + 40) m.
Definition sh_info (m : mem) (sh : Z) : Z := load32 (sh + 44) m.

(** [Elf64_Sym], 24 bytes. *)
Definition SYM_SIZE : Z := 24.
Definition st_name (m : mem) (st : Z) : Z := load32 st m.
Definition st_shndx (m : mem) (st : Z) : Z := load16 (st + 6) m.
Definition st_value (m : mem) (st : Z) : Z := load64 (st + 8) m.

(** [Elf64_Rela], 24 bytes. *)
Definition RELA_SIZE : Z := 24.
Definition r_offset (m : mem) (r : Z) : Z := load64 r m.
Definition r_info (m : mem) (r : Z) : Z := load64 (r + 8) m.
Definition r_addend (m : mem) (r : Z) : Z := i64 (load64 (r + 16) m).
Definition ELF64_R_SYM (info : Z) : Z := Z.shiftr info 32.
Definition ELF64_R_TYPE (info : Z) : Z := Z.land info 4294967295.

(** [Elf64_Phdr]. *)
Definition p_type (m : mem) (p : Z) : Z := load32 p m.
Definition p_offset (m : mem) (p : Z) : Z := load64 (p + 8) m.
Definition p_vaddr (m : mem) (p : Z) : Z := load64 (p + 16) m.
Definition p_filesz (m : mem) (p : Z) : Z := load64 (p + 32) m.
Definition p_memsz (m : mem) (p : Z) : Z := load64 (p + 40) m.

(** The section header with a [size_t], an [Elf64_Word] or an [Elf64_Half] index. *)
Definition shdr (m : mem) (h elf i : Z) : Z := u64 (elf + e_shoff m h + e_shentsize m h * i).
Definition shdr_word (m : mem) (h elf w : Z) : Z := u64 (elf + e_shoff m h + u32 (e_shentsize m h * w)).
Definition shdr_half (m : mem) (h elf x : Z) : Z := u64 (elf + e_shoff m h + i32 (e_shentsize m h * x)).

Definition set_sh_addr (sh a : Z) (m : mem) : mem := store64 (sh + 16) a m.
Definition set_st_value (st v : Z) (m : mem) : mem := store64 (st + 8) v m.

(** ** Validation *)

(** The result and the new [kerrno]. *)
Definition elf_validate (h etype : Z) (m : mem) : bool * Z :=
  if negb (m h =? 127) || negb (m (h + 1) =? 69) || negb (m (h + 2) =? 76) || negb (m (h + 3) =? 70) then (false, ENOEXEC)
  else if negb (m (h + 4) =? ELFCLASS64) then (false, ENOEXEC)
  else if negb (e_type m h =? etype) then (false, ENOEXEC)
  else if negb (e_machine m h =? EM_X86_64) then (false, ENOEXEC)
  else (true, 0).

(** ** Sections, symbols and relocations *)

Section Modules.
Context {X H : Type} `{KH : KernelHeap H}.
(** Bounds for the section and symbol loops, and for string comparisons. *)
Variable (fuel sfuel : nat).
Implicit Types (s : loader X H).

(** The first loop of [elf_find_symbol] and [ksym_init]. *)
Definition set_addresses (h elf : Z) s : outcome (Z + loader X H) :=
  for_cond fuel 0 (fun i s => i <? e_shnum (s_mem s) h)
    (fun i s => let sh := shdr (s_mem s) h elf i in
       Ret (inr (put_mem (set_sh_addr sh (u64 (elf + sh_offset (s_mem s) sh)) (s_mem s)) s))) s.

(** The symbols of a section: [body] gets the address of the symbol and of the names. *)
Definition for_symbols {R : Type} (h elf : Z) (body : Z -> Z -> loader X H -> outcome (R + loader X H)) s
    : outcome (R + loader X H) :=
  for_cond fuel 0 (fun i s => i <? e_shnum (s_mem s) h)
    (fun i s =>
       let m := s_mem s in
       let sh := shdr m h elf i in
       if negb (sh_type m sh =? SHT_SYMTAB) then Ret (inr s)
       else
         let symNames := sh_addr m (shdr_word m h elf (sh_link m sh)) in
         let symTable := sh_addr m sh in
         for_cond fuel 0 (fun sym s => sym <? sh_size (s_mem s) sh / SYM_SIZE)
           (fun sym s => body (u64 (symTable + SYM_SIZE * sym)) symNames s) s) s.

(** [symTable[sym].st_name && !strcmp(symNames + st_name, name)]. *)
Definition name_is (st symNames name : Z) s : outcome bool :=
  let n := st_name (s_mem s) st in
  if n =? 0 then Ret false
  else c ← strcmp sfuel (u64 (symNames + n)) name (s_mem s); Ret (c =? 0).

Definition add_section (h elf st : Z) s : loader X H :=
  let m := s_mem s in
  put_mem (set_st_value st (u64 (st_value m st + sh_addr m (shdr_half m h elf (st_shndx m st)))) m) s.

Definition elf_find_symbol (hhdmOffset elf symbol : Z) s : outcome (Z * loader X H) :=
  k ← acquireLock (moduleLoaderLock s);
  let s := set_loaderLock k s in
  r ← set_addresses elf elf s;
  match r with
  | inl v => Ret (v, s)
  | inr s =>
      r ← for_symbols (R := (Z * loader X H)%type) elf elf (fun st symNames s =>
        let m := s_mem s in
        let x := st_shndx m st in
        let s := if negb (x =? SHN_UNDEF) && (x <? SHN_LORESERVE) && (st_value m st <? hhdmOffset)
                 then add_section elf elf st s else s in
        if negb (x =? SHN_UNDEF) then
          b ← name_is st symNames symbol s;
          if (b : bool) then Ret (inl (st_value (s_mem s) st, set_loaderLock (releaseLock (moduleLoaderLock s)) s)) else Ret (inr s)
        else Ret (inr s)) s;
      match r with
      | inl vs => Ret vs
      | inr s => Ret (0, set_loaderLock (releaseLock (moduleLoaderLock s)) s)
      end
  end.

(** [kfile] is [bl_get_kernel_file_address()]. *)
Definition ksym_init (virt_base kfile : Z) s : outcome (loader X H) :=
  '(_, l) ← list_create (nodes (ksymList s)) (s_heap s);
  let s := put_heap (heap l) (set_ksyms l (k_syms s) s) in
  r ← set_addresses kfile kfile s;
  match r with
  | inl _ => Fault
  | inr s =>
      r ← for_symbols (R := unit) kfile kfile (fun st symNames s =>
        let m := s_mem s in
        if negb (st_shndx m st =? SHN_UNDEF) then
          s ← ksym_add virt_base (u64 (symNames + st_name m st)) (st_value m st) s; Ret (inr s)
        else Ret (inr s)) s;
      match r with inl _ => Fault | inr s => Ret s end
  end.

(** One relocation: [None] for a type that is not supported. *)
Definition relocate (rela symbolTable targetAddr : Z) (m : mem) : option mem :=
  let S := st_value m (u64 (symbolTable + SYM_SIZE * ELF64_R_SYM (r_info m rela))) in
  let A := r_addend m rela in
  let target := u64 (r_offset m rela + targetAddr) in
  let t := ELF64_R_TYPE (r_info m rela) in
  if t =? R_X86_64_64 then Some (store64 target (u64 (S + A)) m)
  else if t =? R_X86_64_32 then Some (store32 target (u32 (S + A)) m)
  else if t =? R_X86_64_PC32 then Some (store32 target (u32 (S + A - target)) m)
  else None.

Definition elf_calculate_relocations (h elf_module : Z) s : outcome (Z * loader X H) :=
  r ← for_cond (R := loader X H) fuel 0 (fun i s => i <? e_shnum (s_mem s) h)
    (fun i s =>
       let m := s_mem s in
       let sh := shdr m h elf_module i in
       if negb (sh_type m sh =? SHT_RELA) then Ret (inr s)
       else
         let table := sh_addr m sh in
         let targetSection := shdr_word m h elf_module (sh_info m sh) in
         let symbolTable := sh_addr m (shdr_word m h elf_module (sh_link m sh)) in
         for_cond fuel 0 (fun rela s => rela <? sh_size (s_mem s) sh / RELA_SIZE)
           (fun rela s =>
              match relocate (u64 (table + RELA_SIZE * rela)) symbolTable (sh_addr (s_mem s) targetSection) (s_mem s) with
              | Some m => Ret (inr (put_mem m s))
              | None => Ret (inl (put_errno ENOEXEC s))
              end) s) s;
  match r with
  | inl s => Ret (-1, s)
  | inr s => Ret (0, s)
  end.
End Modules.

(** ** Loading modules and drivers *)

Definition MODULE_T_SIZE : Z := 24.
Definition DEVICE_DRIVER_T_SIZE : Z := 32.

Section Load.
Context {X H : Type} `{KH : KernelHeap H}.
Variable (fuel sfuel : nat).
(** The file systems, and the functions of modules by address. *)
Variable ops : Z -> vnode_operations_t (fal X H).
Variable call : Z -> loader X H -> outcome (loader X H).
Implicit Types (s : loader X H).

(** The section loop of [elf_module_load_common]. *)
Definition place_section (h elf_module i : Z) s : outcome (unit + loader X H) :=
  let m := s_mem s in
  let sh := shdr m h elf_module i in
  if sh_type m sh =? SHT_NOBITS then
    if (sh_size m sh =? 0) || (Z.land (sh_flags m sh) SHF_ALLOC =? 0) then Ret (inr s)
    else
      '(a, hp) ← kh_malloc (sh_size m sh) (s_heap s);
      let m := set_sh_addr sh a m in
      Ret (inr (put_mem (memset (sh_addr m sh) 0 (sh_size m sh) m) (put_heap hp s)))
  else Ret (inr (put_mem (set_sh_addr sh (u64 (elf_module + sh_offset m sh)) m) s)).

(** What the symbol loop found: [*modData] and [*driverData]. *)
Record found : Type := mk_found { modData : Z; driverData : Z }.

(** The name strings of the loader, by address. *)
Variable (metadata_str driver_metadata_str : Z).

(** One symbol: [inl] is a failed load. *)
Definition load_symbol (h elf_module : Z) (want_driver : bool) (st symNames : Z) (fs : found * loader X H)
    : outcome (loader X H + (found * loader X H)) :=
  let '(f, s) := fs in
  let m := s_mem s in
  let x := st_shndx m st in
  r ← (if negb (x =? SHN_UNDEF) && (x <? SHN_LORESERVE) then Ret (inr (add_section h elf_module st s))
       else if x =? SHN_UNDEF then
         '(v, s) ← ksym_find fuel sfuel (u64 (symNames + st_name m st)) s;
         let s := put_mem (set_st_value st v (s_mem s)) s in
         if i64 (st_value (s_mem s) st) =? -1 then Ret (inl (put_errno ENOEXEC s)) else Ret (inr s)
       else Ret (inr s));
  match r with
  | inl s => Ret (inl s)
  | inr s =>
      b ← name_is sfuel st symNames metadata_str s;
      if (b : bool) then Ret (inr (mk_found (st_value (s_mem s) st) (driverData f), s))
      else
        d ← name_is sfuel st symNames driver_metadata_str s;
        if (d : bool) && want_driver then Ret (inr (mk_found (modData f) (st_value (s_mem s) st), s))
        else Ret (inr (f, s))
  end.

(** The symbol loop, the state being extended by what was found. *)
Definition load_symbols (h elf_module : Z) (want_driver : bool) (fs : found * loader X H)
    : outcome (loader X H + (found * loader X H)) :=
  for_cond (S := (found * loader X H)%type) fuel 0 (fun i fs => i <? e_shnum (s_mem fs.2) h)
    (fun i fs =>
       let m := s_mem fs.2 in
       let sh := shdr m h elf_module i in
       if negb (sh_type m sh =? SHT_SYMTAB) then Ret (inr fs)
       else
         let symNames := sh_addr m (shdr_word m h elf_module (sh_link m sh)) in
         let symTable := sh_addr m sh in
         for_cond fuel 0 (fun sym fs => sym <? sh_size (s_mem fs.2) sh / SYM_SIZE)
           (fun sym fs => load_symbol h elf_module want_driver (u64 (symTable + SYM_SIZE * sym)) symNames fs) fs) fs.

(** [modData] is always asked for; [driverData] only for drivers. *)
Definition elf_module_load_common (h elf_module : Z) (want_driver : bool) s : outcome (Z * found * loader X H) :=
  let s := put_errno 0 s in
  let none := mk_found 0 0 in
  r ← for_cond (R := unit) fuel 0 (fun i s => i <? e_shnum (s_mem s) h) (place_section h elf_module) s;
  match r with
  | inl _ => Fault
  | inr s =>
      r ← load_symbols h elf_module want_driver (none, s);
      match r with
      | inl s => Ret (-1, none, s)
      | inr (f, s) =>
          if modData f =? 0 then Ret (-1, f, put_errno ENOEXEC s)
          else if want_driver && (driverData f =? 0) then Ret (-1, f, put_errno ENOEXEC s)
          else
            '(r, s) ← elf_calculate_relocations fuel h elf_module s;
            if negb (r =? 0) then Ret (-1, f, s) else Ret (0, f, s)
      end
  end.

(** The file operations on the loader's state. *)
Definition open_file (path : list Z) (flags : Z) s : outcome (Z * loader X H) :=
  '(v, f) ← vnode_open ops fuel (Some path) flags 0 (k_fal s); Ret (v, set_fal f s).
Definition read_file (file size buf : Z) s : outcome (loader X H) :=
  '(_, f) ← vnode_read ops file size buf 0 (k_fal s); Ret (set_fal f s).
Definition close_file (file : Z) s : outcome (loader X H) :=
  '(_, f) ← vnode_close ops file (k_fal s); Ret (set_fal f s).
Definition file_size (file : Z) s : Z := v_size (f_vnodes (k_fal s) file).
Definition alloc (size : Z) s : outcome (Z * loader X H) :=
  '(a, hp) ← kh_malloc size (s_heap s); Ret (a, put_heap hp s).
Definition free (a : Z) s : outcome (loader X H) :=
  hp ← kh_free a (s_heap s); Ret (put_heap hp s).

(** [modDataStore]: the copy of the metadata.  Its name pointer is overwritten by the
    copy, so the buffer allocated for the name is lost. *)
Definition store_metadata (md : Z) s : outcome (Z * loader X H) :=
  '(store, s) ← alloc MODULE_T_SIZE s;
  l ← strlen sfuel (mod_name (s_mem s) md) (s_mem s);
  '(nm, s) ← alloc (u32 (l + 1)) s;
  let m := store64 store nm (s_mem s) in
  let m := memcpy store md MODULE_T_SIZE m in
  l ← strlen sfuel (mod_name m md) m;
  let m := memcpy (mod_name m store) (mod_name m md) (u32 (l + 1)) m in
  Ret (store, put_mem m s).

(** The copy of a module that is already loaded gives its NOBITS sections back. *)
Definition free_nobits (h elf_module : Z) s : outcome (unit + loader X H) :=
  for_cond (R := unit) fuel 0 (fun i s => i <? e_shnum (s_mem s) h)
    (fun i s =>
       let sh := shdr (s_mem s) h elf_module i in
       if sh_type (s_mem s) sh =? SHT_NOBITS then s ← free (sh_addr (s_mem s) sh) s; Ret (inr s) else Ret (inr s)) s.

(** Check for a loaded module of that name, under the loader's lock. *)
Definition already_loaded (h elf_module name : Z) s : outcome (bool * loader X H) :=
  k ← acquireLock (moduleLoaderLock s);
  let s := set_loaderLock k s in
  '(b, s) ← module_list_search fuel sfuel name s;
  if (b : bool) then
    r ← free_nobits h elf_module s;
    match r with
    | inl _ => Fault
    | inr s => let s := put_errno EEXIST s in Ret (true, set_loaderLock (releaseLock (moduleLoaderLock s)) s)
    end
  else Ret (false, set_loaderLock (releaseLock (moduleLoaderLock s)) s).

Definition unload (elf_module file : Z) s : outcome (loader X H) :=
  s ← free elf_module s; close_file file s.

Definition elf_load_module (modulePath : list Z) s : outcome (Z * loader X H) :=
  let s := put_errno 0 s in
  '(h, s) ← alloc EHDR_SIZE s;
  '(file, s) ← open_file modulePath O_RDONLY s;
  if file =? 0 then s ← free h s; Ret (-1, s)
  else
    s ← read_file file EHDR_SIZE h s;
    let '(ok, e) := elf_validate h ET_REL (s_mem s) in
    let s := put_errno e s in
    if negb ok then s ← free h s; Ret (-1, s)
    else
      '(elf_module, s) ← alloc (file_size file s) s;
      s ← read_file file (file_size file s) elf_module s;
      '(r, f, s) ← elf_module_load_common h elf_module false s;
      if negb (r =? 0) then s ← unload elf_module file s; Ret (-1, s)
      else
        '(_, s) ← store_metadata (modData f) s;
        '(b, s) ← already_loaded h elf_module (mod_name (s_mem s) (modData f)) s;
        if (b : bool) then s ← unload elf_module file s; Ret (-1, s)
        else
          s ← module_list_add (mk_mod (file_size file s) elf_module (modData f)) s;
          s ← close_file file s;
          s ← call (mod_init (s_mem s) (modData f)) s;
          Ret (0, s).

(** [elf_load_driver]: besides the result, the new [node->driver] when the node is
    marked loaded. *)
Definition elf_load_driver (path : list Z) s : outcome (Z * option Z * loader X H) :=
  let s := put_errno 0 s in
  '(h, s) ← alloc EHDR_SIZE s;
  '(file, s) ← open_file path O_RDONLY s;
  if file =? 0 then s ← free h s; Ret (-1, None, s)
  else
    s ← read_file file EHDR_SIZE h s;
    let '(ok, e) := elf_validate h ET_REL (s_mem s) in
    let s := put_errno e s in
    if negb ok then s ← free h s; Ret (-1, None, s)
    else
      '(elf_module, s) ← alloc (file_size file s) s;
      s ← read_file file (file_size file s) elf_module s;
      '(r, f, s) ← elf_module_load_common h elf_module true s;
      if negb (r =? 0) then s ← unload elf_module file s; Ret (-1, None, s)
      else
        '(store, s) ← store_metadata (modData f) s;
        '(b, s) ← already_loaded h elf_module (mod_name (s_mem s) store) s;
        if (b : bool) then s ← unload elf_module file s; Ret (-1, None, s)
        else
          s ← module_list_add (mk_mod (file_size file s) elf_module store) s;
          '(driver, s) ←
            (if negb (driverData f =? 0) then
               '(d, s) ← alloc DEVICE_DRIVER_T_SIZE s;
               Ret (Some d, put_mem (memcpy d (driverData f) DEVICE_DRIVER_T_SIZE (s_mem s)) s)
             else Ret (None, s));
          s ← close_file file s;
          s ← call (mod_init (s_mem s) (modData f)) s;
          Ret (0, driver, s).
End Load.

(** ** Loading programs *)

(** What [elf_exec_load] works on: the file layer, virtual memory, and the memory of the
    processes by page table. *)
Record exec_state (X H P : Type) : Type := mk_exec {
  x_fal : fal X H;
  x_vm : vmm_state P;
  user : Z -> mem
}.
Arguments mk_exec {X H P}.
Arguments x_fal {X H P}.
Arguments x_vm {X H P}.
Arguments user {X H P}.

(** The copy and the zeroing loop, byte by byte; [src] is in kernel memory. *)
Fixpoint copy_in (n : nat) (i dst src : Z) (km um : mem) : mem :=
  match n with
  | O => um
  | S n' => copy_in n' (i + 1) dst src km (upd um (dst + i) (km (src + i)))
  end.

Fixpoint zero_in (n : nat) (a : Z) (um : mem) : mem :=
  match n with
  | O => um
  | S n' => zero_in n' (a + 1) (upd um a 0)
  end.

Definition load_bytes (vaddr filesz memsz src : Z) (km um : mem) : mem :=
  zero_in (Z.to_nat (memsz - filesz)) (vaddr + filesz) (copy_in (Z.to_nat filesz) 0 vaddr src km um).

(** What a user address reads as, through its translation in [vm].  The stores of programs
    are not kept in the memory of the allocator, so that this stands for the bytes a
    frame has when it is new, of which nothing is known. *)
Definition frame_byte {P} `{PA : PageAllocator P} (vm : vmm_state P) (pt x : Z) : Z :=
  match vxlate vm pt x with
  | Some e =>
      let a := pte_table e + x mod PAGE_SIZE in
      Z.land (Z.shiftr (pa_mem (vm_pages vm) (a - a mod 8)) (8 * (a mod 8))) 255
  | None => 0
  end.

(** The memory of a process after its tables changed from [vm] to [vm']: what keeps its
    translation keeps its contents. *)
Definition remapped {P} `{PA : PageAllocator P} (vm vm' : vmm_state P) (pt : Z) (um : mem) : mem :=
  fun x => if bool_decide (vxlate vm' pt x = vxlate vm pt x) then um x else frame_byte vm' pt x.

(** All of the [n] bytes from [a] on can be stored to. *)
Fixpoint stores_ok {P} `{PA : PageAllocator P} (n : nat) (vm : vmm_state P) (pt a : Z) : bool :=
  match n with
  | O => true
  | S n' => match vxlate vm pt a with Some _ => stores_ok n' vm pt (a + 1) | None => false end
  end.

Section Exec.
Context {X H P : Type} `{KH : KernelHeap H} `{PA : PageAllocator P}.
Variable (fuel vfuel : nat) (hhdm virt_base : Z).
Variable ops : Z -> vnode_operations_t (fal X H).
Implicit Types (s : exec_state X H P).

(** One program header; [pt] is the page table of the process. *)
Definition load_segment (elfExec pt phdr : Z) s : outcome (exec_state X H P) :=
  let m := f_mem (x_fal s) in
  if p_type m phdr =? PT_LOAD then
    '(_, vm) ← vaspace_create_area vfuel pt (p_vaddr m phdr) (p_memsz m phdr)
                 (Z.lor (Z.lor VMM_PRESENT VMM_USER) VMM_RW) (x_vm s);
    let vm := vaspace_switch hhdm virt_base (u64 (pt + hhdm)) vm in
    if negb (stores_ok (Z.to_nat (Z.max (p_filesz m phdr) (p_memsz m phdr))) vm pt (p_vaddr m phdr)) then Fault else
    let um := load_bytes (p_vaddr m phdr) (p_filesz m phdr) (p_memsz m phdr) (u64 (elfExec + p_offset m phdr)) m
                (remapped (x_vm s) vm pt (user s pt)) in
    let vm := vaspace_switch hhdm virt_base (u64 (vmm_get_kernel_pt vm + hhdm)) vm in
    Ret (mk_exec (x_fal s) vm (upd (user s) pt um))
  else Ret s.

Definition load_segments (h elfExec pt : Z) s : outcome (unit + exec_state X H P) :=
  for_cond (R := unit) fuel 0 (fun i s => i <? e_phnum (f_mem (x_fal s)) h)
    (fun i s =>
       let m := f_mem (x_fal s) in
       s ← load_segment elfExec pt (u64 (elfExec + e_phoff m h + e_phentsize m h * i)) s;
       Ret (inr s)) s.

Definition put_fal (f : fal X H) s : exec_state X H P := mk_exec f (x_vm s) (user s).

(** The result and, on success, the entry point for [regs.rip]. *)
Definition elf_exec_load (pt : Z) (path : list Z) s : outcome (Z * option Z * exec_state X H P) :=
  let f := set_errno 0 (x_fal s) in
  '(file, f) ← vnode_open ops fuel (Some path) O_RDWR 0 f;
  if file =? 0 then Ret (-1, None, put_fal (set_errno ENOENT f) s)
  else
    '(h, hp) ← kh_malloc EHDR_SIZE (f_heap f);
    '(_, f) ← vnode_read ops file EHDR_SIZE h 0 (set_heap hp f);
    let '(ok, e) := elf_validate h ET_EXEC (f_mem f) in
    let f := set_errno e f in
    if negb ok then Ret (-1, None, put_fal f s)
    else
      '(elfExec, hp) ← kh_malloc (v_size (f_vnodes f file)) (f_heap f);
      '(_, f) ← vnode_read ops file (v_size (f_vnodes f file)) elfExec 0 (set_heap hp f);
      r ← load_segments h elfExec pt (put_fal f s);
      match r with
      | inl _ => Fault
      | inr s =>
          let f := x_fal s in
          let entry := e_entry (f_mem f) h in
          hp ← kh_free elfExec (f_heap f);
          hp ← kh_free h hp;
          Ret (0, Some entry, put_fal (set_heap hp f) s)
      end.
End Exec.

(** ** Relocations *)

(** A relocation stores the value the x86-64 ABI prescribes: [S + A] as 64 or 32 bits,
    or [S + A - P] as 32 bits, at the place it names, and changes no byte outside that
    place; any other type is refused. *)
Theorem relocate_correct m rela symbolTable targetAddr :
  let S := st_value m (u64 (symbolTable + SYM_SIZE * ELF64_R_SYM (r_info m rela))) in
  let A := r_addend m rela in
  let P := u64 (r_offset m rela + targetAddr) in
  let t := ELF64_R_TYPE (r_info m rela) in
  match relocate rela symbolTable targetAddr m with
  | Some m' =>
      exists n, (forall x, ~ (P <= x < P + Z.of_nat n) -> m' x = m x) /\
      ((t = R_X86_64_64 /\ n = 8%nat /\ load64 P m' = u64 (S + A)) \/
       (t = R_X86_64_32 /\ n = 4%nat /\ load32 P m' = u32 (S + A)) \/
       (t = R_X86_64_PC32 /\ n = 4%nat /\ load32 P m' = u32 (S + A - P)))
  | None => t <> R_X86_64_64 /\ t <> R_X86_64_32 /\ t <> R_X86_64_PC32
  end.
Proof.
  intros S A P t. unfold relocate. fold S A P t.
  destruct (Z.eqb_spec t R_X86_64_64) as [E1|E1]; [|destruct (Z.eqb_spec t R_X86_64_32) as [E2|E2];
    [|destruct (Z.eqb_spec t R_X86_64_PC32) as [E3|E3]]].
  - exists 8%nat. split; [intros x; apply store_other|]. left. splits; auto. rewrite load_store. apply Z.mod_mod. lia.
  - exists 4%nat. split; [intros x; apply store_other|]. right. left. splits; auto. rewrite load_store. apply Z.mod_mod. lia.
  - exists 4%nat. split; [intros x; apply store_other|]. right. right. splits; auto. rewrite load_store. apply Z.mod_mod. lia.
  - auto.
Qed.

(** ** The image of a program *)

(** The byte of a segment at [x], as the ELF specification has it: the bytes of the file,
    then zeros up to the size in memory. *)
Definition segment_byte (m : mem) (elfExec phdr x : Z) : Z :=
  if x <? p_vaddr m phdr + p_filesz m phdr then m (u64 (elfExec + p_offset m phdr) + (x - p_vaddr m phdr)) else 0.

Definition phdr_at (m : mem) (h elfExec i : Z) : Z := u64 (elfExec + e_phoff m h + e_phentsize m h * i).

(** The pages a segment is given: as many as its size needs, from the page of its address on. *)
Definition seg_pages (m : mem) (phdr : Z) : Z := (p_memsz m phdr + 4095) / 4096.
Definition on_pages (m : mem) (phdr x : Z) : Prop :=
  p_vaddr m phdr / 4096 <= x / 4096 < p_vaddr m phdr / 4096 + seg_pages m phdr.

(** A loadable segment that does not cross the end of these pages, as one at a page boundary
    never does, in the lower half of the address space. *)
Definition placed (m : mem) (phdr : Z) : Prop :=
  p_filesz m phdr <= p_memsz m phdr /\
  p_vaddr m phdr mod 4096 + p_memsz m phdr <= seg_pages m phdr * 4096 /\
  p_vaddr m phdr + seg_pages m phdr * 4096 <= 2 ^ 47.

Lemma copy_in_spec n : forall i dst src km um x,
  copy_in n i dst src km um x = if (dst + i <=? x) && (x <? dst + i + Z.of_nat n) then km (src + (x - dst)) else um x.
Proof.
  induction n as [|n IH]; intros i dst src km um x; cbn [copy_in].
  - destruct (Z.leb_spec (dst + i) x), (Z.ltb_spec x (dst + i + Z.of_nat 0)); cbn [andb]; lia || reflexivity.
  - rewrite IH. unfold upd. zcmp; cbn [andb]; try lia; try reflexivity; subst; f_equal; lia.
Qed.

Lemma zero_in_spec n : forall a um x, zero_in n a um x = if (a <=? x) && (x <? a + Z.of_nat n) then 0 else um x.
Proof.
  induction n as [|n IH]; intros a um x; cbn [zero_in].
  - destruct (Z.leb_spec a x), (Z.ltb_spec x (a + Z.of_nat 0)); cbn [andb]; lia || reflexivity.
  - rewrite IH. unfold upd. zcmp; cbn [andb]; try lia; reflexivity.
Qed.

Lemma load_bytes_spec vaddr filesz memsz src km um x :
  0 <= filesz ->
  load_bytes vaddr filesz memsz src km um x =
    if (vaddr <=? x) && (x <? vaddr + filesz) then km (src + (x - vaddr))
    else if (vaddr + filesz <=? x) && (x <? vaddr + memsz) then 0 else um x.
Proof.
  intros Hf. unfold load_bytes. rewrite zero_in_spec, copy_in_spec, Z.add_0_r, (Z2Nat.id filesz Hf).
  destruct (Z.le_ge_cases 0 (memsz - filesz)) as [H|H].
  - rewrite Z2Nat.id by exact H. zcmp; cbn [andb]; lia || reflexivity.
  - rewrite (Z2Nat.nonpos (memsz - filesz)) by lia. zcmp; cbn [andb]; lia || reflexivity.
Qed.

Section Image.
Context {X H P : Type} `{PA : PageAllocator P}.
Variable (fuel vfuel : nat) (hhdm virt_base : Z).
Implicit Types (s : exec_state X H P).

Lemma stores_ok_spec n : forall vm pt a, (forall x, a <= x < a + Z.of_nat n -> vxlate vm pt x <> None) -> stores_ok n vm pt a = true.
Proof.
  induction n as [|n IH]; intros vm pt a Hx; cbn [stores_ok]; [reflexivity|].
  pose proof (Hx a ltac:(lia)) as H0. destruct (vxlate vm pt a); [|contradiction]. apply IH. intros x Hr. apply Hx. lia.
Qed.

(** The pages of an area. *)
Lemma area_inside `{PAL : !PageAllocatorLaws P} pt v n flags (vm vm' : vmm_state P) x : area_mapped pt v n flags vm vm' -> 0 <= v -> v + n * 4096 <= 2 ^ 47 -> 0 <= x < 2 ^ 47 ->
  v / 4096 <= x / 4096 < v / 4096 + n ->
  exists e, vxlate vm' pt x = Some e /\ Z.testbit e 1 = flag_on flags VMM_RW /\ Z.testbit e 2 = flag_on flags VMM_USER.
Proof.
  change (2 ^ 47) with 140737488355328. intros (_ & _ & _ & HM & _) Hv Hn Hx Hp. destruct (HM (x / 4096 - v / 4096) ltac:(lia)) as (e & He & _ & E1 & E2 & _).
  exists e. splits; auto. rewrite <- He. apply xlate_same_page; [unfold PAGE_SIZE; dm|lia|].
  rewrite vpage_add by (unfold PAGE_SIZE; change (2 ^ 48) with 281474976710656; dm). unfold vpage. rewrite Z.mod_small by (change (2 ^ 36) with 68719476736; dm). lia.
Qed.

Lemma area_outside pt v n flags (vm vm' : vmm_state P) x : area_mapped pt v n flags vm vm' -> 0 <= v -> v + n * 4096 <= 2 ^ 47 -> 0 <= x < 2 ^ 47 ->
  ~ (v / 4096 <= x / 4096 < v / 4096 + n) -> vxlate vm' pt x = vxlate vm pt x.
Proof.
  change (2 ^ 47) with 140737488355328. intros (_ & _ & _ & _ & HO) Hv Hn Hx Hp. apply HO. split; [lia|]. intros k Hk.
  rewrite vpage_add by (unfold PAGE_SIZE; change (2 ^ 48) with 281474976710656; dm). unfold vpage. rewrite Z.mod_small by (change (2 ^ 36) with 68719476736; dm). lia.
Qed.

(** One loadable segment. *)
Lemma load_segment_spec `{PAL : !PageAllocatorLaws P} elfExec pt phdr s :
  let m := f_mem (x_fal s) in
  p_type m phdr = PT_LOAD -> 0 <= p_vaddr m phdr -> 0 <= p_filesz m phdr -> placed m phdr ->
  (Z.to_nat (seg_pages m phdr) < vfuel)%nat -> vmm_inv pt (x_vm s) ->
  Safe (load_segment vfuel hhdm virt_base elfExec pt phdr s) (fun s' =>
    x_fal s' = x_fal s /\ vmm_inv pt (x_vm s') /\
    (forall x, p_vaddr m phdr <= x < p_vaddr m phdr + p_memsz m phdr -> user s' pt x = segment_byte m elfExec phdr x) /\
    (forall x, 0 <= x < 2 ^ 47 -> on_pages m phdr x ->
       exists e, vxlate (x_vm s') pt x = Some e /\ Z.testbit e 1 = true /\ Z.testbit e 2 = true) /\
    (forall x, 0 <= x < 2 ^ 47 -> ~ on_pages m phdr x -> user s' pt x = user s pt x /\ vxlate (x_vm s') pt x = vxlate (x_vm s) pt x) /\
    forall q, q <> pt -> user s' q = user s q).
Proof.
  intros m Ht Hv Hf (Hfm & Hfit & Hend) Hfu HI. unfold load_segment. fold m. rewrite Ht. cbn [Z.eqb PT_LOAD Pos.eqb].
  set (v := p_vaddr m phdr) in *. set (n := seg_pages m phdr) in *. set (ms := p_memsz m phdr) in *. set (fs := p_filesz m phdr) in *.
  assert (0 <= n) as Hn by (unfold n, seg_pages; apply Z.div_pos; fold ms; lia). change (2 ^ 47) with 140737488355328 in *.
  eapply Safe_bind; [apply (vaspace_create_area_correct vfuel pt v ms _ (x_vm s) HI Hv ltac:(lia))|]; auto.
  { unfold PAGE_SIZE. fold ms in n. fold (seg_pages m phdr) n. change (2 ^ 48) with 281474976710656. change ((ms + 4095) / 4096) with n. lia. }
  { now vm_compute. }
  intros [a vm] [_ HA]. change ((ms + 4095) / 4096) with n in HA. set (vm1 := vaspace_switch _ _ _ vm).
  assert (forall x, vxlate vm1 pt x = vxlate vm pt x) as E1 by reflexivity.
  assert (forall x, v <= x < v + ms -> 0 <= x < 140737488355328 /\ v / 4096 <= x / 4096 < v / 4096 + n) as Hin by (intros x Hx; dm).
  rewrite stores_ok_spec; cbn [negb].
  2: { intros x Hx. rewrite E1. rewrite Z2Nat.id in Hx by lia. destruct (Hin x ltac:(lia)) as [Hx1 Hx2].
       destruct (area_inside pt v n _ (x_vm s) vm x HA Hv ltac:(lia) Hx1 Hx2) as (e & -> & _). discriminate. }
  cbn [Safe x_fal x_vm user]. set (vm2 := vaspace_switch _ _ _ vm1). assert (forall x, vxlate vm2 pt x = vxlate vm pt x) as E2 by reflexivity. splits.
  - reflexivity.
  - destruct HA as ([I1 L1] & _). split; [exact I1|exact L1].
  - intros x Hx. rewrite upd_eq, load_bytes_spec by exact Hf. unfold segment_byte. fold v fs.
    destruct (Z.leb_spec v x), (Z.ltb_spec x (v + fs)); cbn [andb]; try lia; try reflexivity.
    destruct (Z.leb_spec (v + fs) x), (Z.ltb_spec x (v + ms)); cbn [andb]; try lia; reflexivity.
  - intros x Hx Hp. rewrite E2. exact (area_inside pt v n _ (x_vm s) vm x HA Hv ltac:(lia) Hx Hp).
  - intros x Hx Hp. pose proof (area_outside pt v n _ (x_vm s) vm x HA Hv ltac:(lia) Hx Hp) as Eo. rewrite E2. split; [|exact Eo].
    rewrite upd_eq, load_bytes_spec by exact Hf. unfold remapped. rewrite E1, bool_decide_true by exact Eo.
    assert (~ (v <= x < v + ms)) as Hno by (intros Hc; apply Hp, Hin, Hc).
    destruct (Z.leb_spec v x), (Z.ltb_spec x (v + fs)); cbn [andb]; try lia; destruct (Z.leb_spec (v + fs) x), (Z.ltb_spec x (v + ms)); cbn [andb]; try lia; reflexivity.
  - intros q Hq. now apply upd_ne.
Qed.
End Image.

(** C15: loading the program headers gives the process the image its file describes.  The
    loadable segments lie in the lower half, fit the pages they are given (as segments at a
    page boundary do) and share no page.  Then every byte of a segment comes from the file, or is zero
    behind the bytes of the file; all pages of the segments are present, writable and for the
    user; outside of them neither the memory nor the translation of the lower half changes, and
    no other address space changes.  No store faults: the only other outcome is the
    out-of-memory panic.  The bytes of a page around a segment are those of the new frame, and
    nothing is said of them. *)
Theorem elf_segments_image {X H P} `{PageAllocatorLaws P} fuel vfuel hhdm virt_base h elfExec pt (s : exec_state X H P) :
  let m := f_mem (x_fal s) in
  let n := e_phnum m h in
  let load i := p_type m (phdr_at m h elfExec i) = PT_LOAD in
  (forall a, 0 <= m a < 256) -> n < Z.of_nat fuel -> vmm_inv pt (x_vm s) ->
  (forall i, 0 <= i < n -> load i -> placed m (phdr_at m h elfExec i) /\ (Z.to_nat (seg_pages m (phdr_at m h elfExec i)) < vfuel)%nat) ->
  (forall i j x, 0 <= i < j -> j < n -> load i -> load j -> on_pages m (phdr_at m h elfExec i) x -> ~ on_pages m (phdr_at m h elfExec j) x) ->
  Safe (load_segments fuel vfuel hhdm virt_base h elfExec pt s) (fun r =>
    match r with
    | inl _ => False
    | inr s' => x_fal s' = x_fal s /\ vmm_inv pt (x_vm s') /\
        (forall i x, 0 <= i < n -> load i -> let ph := phdr_at m h elfExec i in
           p_vaddr m ph <= x < p_vaddr m ph + p_memsz m ph -> user s' pt x = segment_byte m elfExec ph x) /\
        (forall i x, 0 <= i < n -> load i -> 0 <= x < 2 ^ 47 -> on_pages m (phdr_at m h elfExec i) x ->
           exists e, vxlate (x_vm s') pt x = Some e /\ Z.testbit e 1 = true /\ Z.testbit e 2 = true) /\
        (forall x, 0 <= x < 2 ^ 47 -> (forall i, 0 <= i < n -> load i -> ~ on_pages m (phdr_at m h elfExec i) x) ->
           user s' pt x = user s pt x /\ vxlate (x_vm s') pt x = vxlate (x_vm s) pt x) /\
        forall q, q <> pt -> user s' q = user s q
    end).
Proof.
  intros m n load Hb Hn HI Hpl Hdis. unfold load_segments.
  assert (forall k a, 0 <= Bytes.load k a m) as Hld by (intros k a; apply (load_range k a m); intros; apply Hb).
  apply (for_cond_Safe (fun k s' => x_fal s' = x_fal s /\ vmm_inv pt (x_vm s') /\
        (forall i x, 0 <= i < k -> load i -> let ph := phdr_at m h elfExec i in
           p_vaddr m ph <= x < p_vaddr m ph + p_memsz m ph -> user s' pt x = segment_byte m elfExec ph x) /\
        (forall i x, 0 <= i < k -> load i -> 0 <= x < 2 ^ 47 -> on_pages m (phdr_at m h elfExec i) x ->
           exists e, vxlate (x_vm s') pt x = Some e /\ Z.testbit e 1 = true /\ Z.testbit e 2 = true) /\
        (forall x, 0 <= x < 2 ^ 47 -> (forall i, 0 <= i < k -> load i -> ~ on_pages m (phdr_at m h elfExec i) x) ->
           user s' pt x = user s pt x /\ vxlate (x_vm s') pt x = vxlate (x_vm s) pt x) /\
        forall q, q <> pt -> user s' q = user s q)); [| |lia|intros k s1 _ (-> & _); reflexivity|].
  { splits; auto; intros; lia. }
  { apply Hld. }
  intros k s1 Hk (E1 & E2 & E3 & E4 & E5 & E6). rewrite E1. fold m. change (u64 (elfExec + e_phoff m h + e_phentsize m h * k)) with (phdr_at m h elfExec k).
  set (ph := phdr_at m h elfExec k) in *. destruct (Z.eq_dec (p_type m ph) PT_LOAD) as [Ht|Ht].
  - destruct (Hpl k Hk Ht) as [Hp Hfu]. pose proof (load_segment_spec vfuel hhdm virt_base elfExec pt ph s1) as HS. cbn zeta in HS. rewrite E1 in HS. fold m in HS.
    eapply Safe_bind; [apply HS; auto; apply Hld|]. intros s2 (F1 & F2 & F3 & F4 & F5 & F6). cbn [Safe].
    assert (forall i x, 0 <= i < k -> load i -> on_pages m (phdr_at m h elfExec i) x -> ~ on_pages m ph x) as Hd by (intros i x Hi Hl; apply (Hdis i k x); auto; lia).
    splits; auto.
    + intros i x Hi Hl. set (ph' := phdr_at m h elfExec i). intros Hx. destruct (Z.eq_dec i k) as [->|Hne]; [now apply F3|].
      destruct (Hpl i ltac:(lia) Hl) as [(P1 & P2 & P3) _]. fold ph' in P1, P2, P3.
      assert (0 <= p_vaddr m ph') as Hv0 by apply Hld. change (2 ^ 47) with 140737488355328 in P3.
      assert (on_pages m ph' x) as Ho by (unfold on_pages; dm).
      rewrite (proj1 (F5 x ltac:(change (2 ^ 47) with 140737488355328; dm) (Hd i x ltac:(lia) Hl Ho))). apply (E3 i); auto; lia.
    + intros i x Hi Hl Hx Ho. destruct (Z.eq_dec i k) as [->|Hne]; [now apply F4|].
      rewrite (proj2 (F5 x Hx (Hd i x ltac:(lia) Hl Ho))). apply (E4 i); auto; lia.
    + intros x Hx Ho. destruct (F5 x Hx ltac:(apply (Ho k); auto; lia)) as [-> ->]. apply E5; auto. intros i Hi. apply Ho. lia.
    + intros q Hq. rewrite F6 by exact Hq. now apply E6.
  - unfold load_segment. rewrite E1. fold m. rewrite (proj2 (Z.eqb_neq _ _) Ht). cbn [mbind outcome_bind Safe]. splits; auto.
    + intros i x Hi Hl. apply E3; auto. destruct (Z.eq_dec i k) as [->|]; [contradiction|lia].
    + intros i x Hi Hl. apply E4; auto. destruct (Z.eq_dec i k) as [->|]; [contradiction|lia].
    + intros x Hx Ho. apply E5; auto. intros i Hi. apply Ho. lia.
Qed.

(** A program at 4096 with one loadable segment: three bytes of the file at offset 120
    go to 0x400000, two more bytes are zero.  The header is at 16. *)
Definition le (n : nat) (v : Z) : list Z := map (fun k => Z.shiftr v (8 * Z.of_nat k) mod 256) (seq 0 n).

Definition exec_header : list Z :=
  [127; 69; 76; 70; 2] ++ repeat 0 11 ++ le 2 2 ++ le 2 62 ++ le 4 1 ++ le 8 4194304 ++ le 8 64 ++ le 8 0 ++ le 4 0 ++
  le 2 64 ++ le 2 56 ++ le 2 1 ++ le 2 0 ++ le 2 0 ++ le 2 0.
Definition exec_phdr : list Z :=
  le 4 1 ++ le 4 0 ++ le 8 120 ++ le 8 4194304 ++ le 8 0 ++ le 8 3 ++ le 8 5 ++ le 8 4096.
Definition exec_mem : mem := fun a =>
  if a <? 1024 then bytes_at 16 exec_header a else bytes_at 4160 (exec_phdr ++ [11; 22; 33]) a.

Definition exec_demo : exec_state unit unit pmm_state :=
  mk_exec (mk_fal (fun _ => vnode_named "" 0 0 0 0) (fun _ => mk_vfs 0 0 0 0 false false 0) 0 0 0 0 0 0 exec_mem tt ∅ tt)
    vm_demo (fun _ _ => 99).

Lemma bytes_at_range a l x : forallb (fun v => (0 <=? v) && (v <? 256)) l = true -> 0 <= bytes_at a l x < 256.
Proof.
  intros Hl. rewrite forallb_forall in Hl. unfold bytes_at. destruct (_ && _) eqn:E; [|lia].
  apply andb_prop in E as [E1 E2]. apply Z.leb_le in E1. apply Z.ltb_lt in E2.
  assert (In (nth (Z.to_nat (x - a)) l 0) l) as Hin by (apply nth_In; lia).
  apply Hl in Hin. apply andb_prop in Hin as [H1 H2]. lia.
Qed.

Lemma exec_mem_range a : 0 <= exec_mem a < 256.
Proof. unfold exec_mem. destruct (a <? 1024); apply bytes_at_range; reflexivity. Qed.

Lemma elf_segments_image_witness :
  elf_validate 16 ET_EXEC exec_mem = (true, 0) /\
  (match load_segments 2 2 HHDM 0 16 4096 4096 exec_demo with Ret _ => true | _ => false end = true) /\
  Safe (load_segments 2 2 HHDM 0 16 4096 4096 exec_demo) (fun r =>
    match r with
    | inl _ => False
    | inr s' => map (user s' 4096) [4194303; 4194304; 4194306; 4194307; 4194308] = [99; 11; 33; 0; 0]
    end).
Proof.
  split; [reflexivity|]. split; [vm_compute; reflexivity|]. eapply Safe_mono.
  - apply (elf_segments_image 2 2 HHDM 0 16 4096 4096 exec_demo exec_mem_range); [reflexivity|exact vm_demo_inv| |].
    + intros i Hi _. change (e_phnum (f_mem (x_fal exec_demo)) 16) with 1 in Hi. assert (i = 0) as -> by lia.
      split; [|vm_compute; lia]. unfold placed. vm_compute. repeat split; discriminate.
    + intros i j x Hi Hj. change (e_phnum (f_mem (x_fal exec_demo)) 16) with 1 in Hj. lia.
  - intros [u|s'] HR; [exact HR|]. destruct HR as (_ & _ & HB & _ & HO & _). cbn [map].
    rewrite (proj1 (HO 4194303 ltac:(split; [discriminate|reflexivity]) ltac:(intros i Hi _; change (e_phnum (f_mem (x_fal exec_demo)) 16) with 1 in Hi;
      assert (i = 0) as -> by lia; vm_compute; intros [C _]; now apply C))).
    rewrite !(HB 0) by ((vm_compute; split; congruence) || reflexivity). vm_compute. reflexivity.
Defined.

(** The same program with one more segment, of one byte, at [v2], and the first one at [v1]. *)
Definition two_phdrs (v1 v2 : Z) : list Z :=
  le 4 1 ++ le 4 0 ++ le 8 176 ++ le 8 v1 ++ le 8 0 ++ le 8 3 ++ le 8 5 ++ le 8 4096 ++
  le 4 1 ++ le 4 0 ++ le 8 179 ++ le 8 v2 ++ le 8 0 ++ le 8 1 ++ le 8 1 ++ le 8 4096.
Definition two_segments (v1 v2 : Z) : exec_state unit unit pmm_state :=
  mk_exec (mk_fal (fun _ => vnode_named "" 0 0 0 0) (fun _ => mk_vfs 0 0 0 0 false false 0) 0 0 0 0 0 0
    (fun a => if a =? 72 then 2 else if a <? 1024 then bytes_at 16 exec_header a else bytes_at 4160 (two_phdrs v1 v2 ++ [11; 22; 33; 44]) a) tt ∅ tt)
    vm_demo (fun _ _ => 99).
Definition loaded_bytes (v1 v2 : Z) (l : list Z) : outcome (list Z) :=
  r ← load_segments 3 2 HHDM 0 16 4096 4096 (two_segments v1 v2);
  match r with inl _ => Fault | inr s' => Ret (map (user s' 4096) l) end.

(** Segments that share no page are loaded; a segment on a page of an earlier one gets a
    new frame there, so that the bytes of the earlier one are lost; and a segment that
    crosses the end of the pages its size needs faults. *)
Theorem segments_sharing_pages :
  loaded_bytes 0x400000 0x401010 [0x400000; 0x400002; 0x401010] = Ret [11; 33; 44] /\
  loaded_bytes 0x400000 0x400010 [0x400000; 0x400002; 0x400010] = Ret [0; 0; 44] /\
  loaded_bytes 0x400FFE 0x500000 [] = Fault.
Proof. splits; vm_compute; reflexivity. Qed.

(** ** Undefined symbols *)

(** A symbol the kernel does not export is not refused: [ksym_find] reports it with 0,
    while the loader looks for -1, so the module is loaded with the symbol at address 0. *)
Lemma undefined_symbol_accepted {X H} fuel sfuel ms ds h elf_module want st symNames f (s : loader X H) cells names nm r :
  st_shndx (s_mem s) st = SHN_UNDEF -> ksymLock s = false -> known s cells names ->
  cstr (s_mem s) (u64 (symNames + st_name (s_mem s) st)) nm -> nm ∉ names ->
  Forall (fun n => (length n < sfuel)%nat) names -> (length cells < fuel)%nat ->
  load_symbol fuel sfuel ms ds h elf_module want st symNames (f, s) = Ret r ->
  exists f' s', r = inr (f', s') /\ st_value (s_mem s') st = 0.
Proof.
  intros Hx L K Hn Hno Hs Hf. unfold load_symbol. rewrite Hx. cbn [Z.eqb SHN_UNDEF negb andb].
  rewrite (ksym_find_spec s fuel sfuel _ nm cells names L K Hn Hs Hf). cbn [mbind outcome_bind].
  pose proof (lookup_name_some _ cells names nm (proj2 (proj2 (proj2 K)))) as E.
  rewrite bool_decide_false in E by exact Hno. symmetry in E. apply bool_decide_eq_false in E.
  destruct (lookup_name cells names nm); [exfalso; apply E; eauto|].
  set (s1 := put_mem _ s). assert (st_value (s_mem s1) st = 0) as Ev
    by (exact (load_store 8 (st + 8) 0 (s_mem s))).
  rewrite Ev. change (i64 0 =? -1) with false. cbn [mbind outcome_bind]. intros Hr. apply bind_Ret in Hr as (b & _ & Hr). destruct b.
  - injection Hr as <-. do 2 eexists. split; [reflexivity|exact Ev].
  - apply bind_Ret in Hr as (d & _ & Hr). destruct (d && want); injection Hr as <-; do 2 eexists; (split; [reflexivity|exact Ev]).
Qed.
