(* ===== verification/ExecStack.v ===== *)
(** * The initial stack of a program ([sys_execve], [include/garn/arch/x86_64.h])

    [sys_execve] pushes the argument and environment strings and then the vectors the
    System V ABI prescribes.  [um] is the memory of the process, [km] kernel memory,
    where the strings have been copied to. *)

From S2P Require Import Prelude MemUtil Bytes.
#[local] Open Scope Z_scope.

(** ** The macros *)

(** [while(stack & (sizeof(type)-1)) stack--] for a power of two [size]. *)
Definition align_down (size stack : Z) : Z := stack - stack mod size.

(** [X86_64_PUSH(uint64_t, val, stack)] and [X86_64_PUSH(char, val, stack)]. *)
Definition push64 (val stack : Z) (um : mem) : Z * mem :=
  let stack := align_down 8 (u64 (stack - 8)) in (stack, store64 stack val um).
Definition push8 (val stack : Z) (um : mem) : Z * mem :=
  let stack := u64 (stack - 1) in (stack, upd um stack val).

(** The loop of [X86_64_PUSHSTR(s, stack)]: [n] more characters, the last one at
    [s + n - 1]. *)
Fixpoint push_chars (n : nat) (s stack : Z) (km um : mem) : Z * mem :=
  match n with
  | O => (stack, um)
  | S n' => let '(stack, um) := push8 (km (s + Z.of_nat n')) stack um in push_chars n' s stack km um
  end.

(** The terminator is pushed first. *)
Definition pushstr (fuel : nat) (s stack : Z) (km um : mem) : outcome (Z * mem) :=
  l ← strlen fuel s km; Ret (push_chars (S (Z.to_nat l)) s stack km um).

(** ** The code of [sys_execve] *)

(** Push the strings of a vector; the vector gets their addresses on the stack. *)
Fixpoint push_vector (fuel : nat) (v : list Z) (stack : Z) (km um : mem) : outcome (list Z * Z * mem) :=
  match v with
  | [] => Ret ([], stack, um)
  | s :: v' =>
      '(stack, um) ← pushstr fuel s stack km um;
      '(ps, stack', um) ← push_vector fuel v' stack km um;
      Ret (stack :: ps, stack', um)
  end.

Fixpoint push_words (ws : list Z) (stack : Z) (um : mem) : Z * mem :=
  match ws with
  | [] => (stack, um)
  | w :: ws' => let '(stack, um) := push64 w stack um in push_words ws' stack um
  end.

(** From the strings in kernel memory to the final stack pointer. *)
Definition exec_stack (fuel : nat) (newArgv newEnvp : list Z) (rsp : Z) (km um : mem) : outcome (Z * mem) :=
  let argc := Z.of_nat (length newArgv) in
  let envc := Z.of_nat (length newEnvp) in
  '(args, rsp, um) ← push_vector fuel newArgv rsp km um;
  '(envs, rsp, um) ← push_vector fuel newEnvp rsp km um;
  let rsp := if negb (rsp mod 16 =? 0) then u64 (rsp - rsp mod 16) else rsp in
  let stackAlign := u64 (8 + 8 + envc * 8 + 8 + argc * 8 + 8) in
  let rsp := if negb (stackAlign mod 16 =? 0) then u64 (rsp - stackAlign mod 16) else rsp in
  Ret (push_words ([0; 0] ++ reverse envs ++ [0] ++ reverse args ++ [argc]) rsp um).

(** ** Strings *)

Lemma push_chars_spec n : forall s stack km um,
  Z.of_nat n <= stack < 2 ^ 64 ->
  let '(stack', um') := push_chars n s stack km um in
  stack' = stack - Z.of_nat n /\
  (forall j, 0 <= j < Z.of_nat n -> um' (stack' + j) = km (s + j)) /\
  (forall x, ~ (stack' <= x < stack) -> um' x = um x).
Proof.
  induction n as [|n IH]; intros s stack km um Hs; cbn [push_chars push8].
  - splits; intros; lia || reflexivity.
  - rewrite (wrap_small 64) by (pow2_consts; lia).
    specialize (IH s (stack - 1) km (upd um (stack - 1) (km (s + Z.of_nat n))) ltac:(lia)).
    destruct (push_chars n s (stack - 1) km _) as [stack' um']. destruct IH as (E & H1 & H2). splits; [lia| |].
    + intros j Hj. destruct (Z.eq_dec j (Z.of_nat n)) as [->|Hne]; [|apply H1; lia].
      rewrite H2, E by lia. replace (stack - 1 - Z.of_nat n + Z.of_nat n) with (stack - 1) by lia. apply upd_eq.
    + intros x Hx. rewrite H2 by lia. apply upd_ne. lia.
Qed.

(** A pushed string is the same string at the new stack pointer. *)
Lemma pushstr_spec fuel s l stack km um :
  cstr km s l -> (length l < fuel)%nat -> Z.of_nat (length l) + 1 <= stack < 2 ^ 64 -> Z.of_nat (length l) < 2 ^ 32 ->
  Returns (pushstr fuel s stack km um) (fun '(stack', um') =>
    stack' = stack - (Z.of_nat (length l) + 1) /\ cstr um' stack' l /\
    (forall x, ~ (stack' <= x < stack) -> um' x = um x)).
Proof.
  intros Hl Hf Hs H32. unfold pushstr. rewrite (strlen_spec km s l fuel Hl Hf H32). cbn [mbind outcome_bind].
  apply Returns_ret. pose proof (push_chars_spec (S (Z.to_nat (Z.of_nat (length l)))) s stack km um ltac:(lia)) as HP.
  destruct (push_chars _ s stack km um) as [stack' um']. destruct HP as (E & H1 & H2).
  rewrite Nat2Z.id in *. splits; [lia| |exact H2].
  apply cstr_intro; [intros j Hj; rewrite H1 by lia; now apply cstr_elim|].
  rewrite H1 by lia. now apply cstr_zero.
Qed.

(** A vector of strings: [strs] in kernel memory, each with room on the stack. *)
Definition total (strs : list (list Z)) : Z := fold_right (fun l z => Z.of_nat (length l) + 1 + z) 0 strs.

Lemma total_nonneg strs : 0 <= total strs.
Proof.
  induction strs as [|l strs IH]; [cbn; lia|].
  change (total (l :: strs)) with (Z.of_nat (length l) + 1 + total strs). lia.
Qed.

Lemma cstr_same um um' p l : cstr um p l -> (forall x, p <= x -> um' x = um x) -> cstr um' p l.
Proof. intros Hc Hx. apply (cstr_frame um); [|exact Hc]. intros k Hk. apply Hx. lia. Qed.

Lemma push_vector_spec fuel km v : forall strs stack um,
  Forall2 (cstr km) v strs -> Forall (fun l => (length l < fuel)%nat) strs ->
  total strs <= stack < 2 ^ 64 -> total strs < 2 ^ 32 ->
  Returns (push_vector fuel v stack km um) (fun '(ps, stack', um') =>
    stack' = stack - total strs /\ length ps = length v /\ Forall2 (cstr um') ps strs /\
    Forall (fun p => stack' <= p < stack) ps /\ (forall x, ~ (stack' <= x < stack) -> um' x = um x)).
Proof.
  induction v as [|s v IH]; intros strs stack um H2 Hf Hs H32; cbn [push_vector].
  - apply Forall2_nil_inv_l in H2 as ->. apply Returns_ret. cbn in *. splits; [lia|reflexivity|constructor|constructor|auto].
  - apply Forall2_cons_inv_l in H2 as (l & strs' & Hl & H2 & ->). apply Forall_cons in Hf as [Hf0 Hf].
    cbn [total fold_right] in Hs, H32 |- *. fold (total strs') in *. pose proof (total_nonneg strs').
    eapply Returns_bind; [apply (pushstr_spec fuel s l stack km um Hl Hf0); lia|]. intros [st1 um1] (E1 & C1 & F1).
    eapply Returns_bind; [apply (IH strs' st1 um1 H2 Hf); lia|]. intros [[ps st2] um2] (E2 & E3 & C2 & P2 & F2).
    apply Returns_ret. splits; [lia|cbn; now rewrite E3| | |].
    + constructor; [|exact C2]. apply (cstr_same um1); [exact C1|]. intros x Hx. apply F2. lia.
    + constructor; [lia|]. eapply Forall_impl; [exact P2|]. cbn. lia.
    + intros x Hx. rewrite F2, F1 by lia. reflexivity.
Qed.

(** ** The vectors *)

Lemma align_down_8 x : x mod 8 = 0 -> align_down 8 x = x.
Proof. intros E. unfold align_down. lia. Qed.

Lemma push_words_spec ws : forall stack um,
  stack mod 8 = 0 -> 8 * Z.of_nat (length ws) <= stack < 2 ^ 64 -> Forall (fun w => 0 <= w < 2 ^ 64) ws ->
  let '(stack', um') := push_words ws stack um in
  stack' = stack - 8 * Z.of_nat (length ws) /\
  (forall i w, ws !! i = Some w -> load64 (stack - 8 * (Z.of_nat i + 1)) um' = w) /\
  (forall x, ~ (stack' <= x < stack) -> um' x = um x).
Proof.
  induction ws as [|w ws IH]; intros stack um Ha Hs Hw; cbn [push_words length] in *.
  - splits; [lia|intros i w; now rewrite lookup_nil|auto].
  - apply Forall_cons in Hw as [Hw0 Hw]. unfold push64. rewrite (wrap_small 64), align_down_8 by (pow2_consts; dm).
    specialize (IH (stack - 8) (store64 (stack - 8) w um) ltac:(dm) ltac:(lia) Hw).
    destruct (push_words ws (stack - 8) _) as [stack' um']. destruct IH as (E & H1 & H2). splits; [lia| |].
    + intros [|i] v; cbn [lookup list_lookup].
      * intros [= <-]. replace (stack - 8 * (Z.of_nat 0 + 1)) with (stack - 8) by lia.
        rewrite (load_ext 8 (stack - 8) (store64 (stack - 8) w um) um') by (intros k Hk; apply H2; lia).
        rewrite load_store. apply Z.mod_small. exact Hw0.
      * intros Hi. specialize (H1 i v Hi). now replace (stack - 8 * (Z.of_nat (S i) + 1)) with (stack - 8 - 8 * (Z.of_nat i + 1)) by lia.
    + intros x Hx. rewrite H2 by lia. apply store_other. lia.
Qed.

(** The words of the initial stack, from the stack pointer up. *)
Definition stack_words (args envs : list Z) : list Z :=
  [Z.of_nat (length args)] ++ args ++ [0] ++ envs ++ [0; 0].

(** What was pushed first lies highest. *)
Lemma pushed_order args envs k w :
  stack_words args envs !! k = Some w ->
  let ws := [0; 0] ++ reverse envs ++ [0] ++ reverse args ++ [Z.of_nat (length args)] in
  ws !! (length ws - S k)%nat = Some w.
Proof.
  intros Hk ws. assert (ws = reverse (stack_words args envs)) as E.
  { unfold stack_words, ws. rewrite !reverse_app, reverse_singleton. cbn [reverse rev_append app]. now rewrite <- !app_assoc. }
  pose proof (lookup_lt_Some _ _ _ Hk) as Hlt. rewrite E, length_reverse, reverse_lookup by lia.
  replace (length (stack_words args envs) - S (length (stack_words args envs) - S k))%nat with k by lia. exact Hk.
Qed.

Lemma vector_same um um' ps strs lo hi :
  Forall2 (cstr um) ps strs -> Forall (fun p => lo <= p < hi) ps -> (forall x, lo <= x -> um' x = um x) ->
  Forall2 (cstr um') ps strs.
Proof.
  intros H2 Hp Hx. induction H2 as [|p l ps strs Hc H2 IH]; constructor; apply Forall_cons in Hp as [Hp0 Hp]; auto.
  apply (cstr_same um); [exact Hc|]. intros x Hge. apply Hx. lia.
Qed.

(** C14: the stack a program starts on: the stack pointer is 16-byte aligned and points to
    the argument count, followed by the addresses of the argument strings, a null word,
    the addresses of the environment strings, a null word and the empty auxiliary vector;
    every string lies above the vectors and equals the one passed to [execve], and
    nothing at or above the old stack pointer changes. *)
Theorem exec_stack_layout fuel newArgv newEnvp argv envp rsp km um :
  Forall2 (cstr km) newArgv argv -> Forall2 (cstr km) newEnvp envp ->
  Forall (fun l => (length l < fuel)%nat) (argv ++ envp) ->
  let size := total argv + total envp + 8 * (Z.of_nat (length argv) + Z.of_nat (length envp)) + 80 in
  size < 2 ^ 32 -> size <= rsp < 2 ^ 64 ->
  Returns (exec_stack fuel newArgv newEnvp rsp km um) (fun '(rsp', um') =>
    rsp' mod 16 = 0 /\ rsp - size <= rsp' /\
    exists args envs, Forall2 (cstr um') args argv /\ Forall2 (cstr um') envs envp /\
      Forall (fun p => rsp' < p < rsp) (args ++ envs) /\
      (forall k w, stack_words args envs !! k = Some w -> load64 (rsp' + 8 * Z.of_nat k) um' = w) /\
      forall x, rsp <= x -> um' x = um x).
Proof.
  intros Ha He Hf size H32 Hs. apply Forall_app in Hf as [Fa Fe].
  pose proof (total_nonneg argv). pose proof (total_nonneg envp). pose proof (Forall2_length _ _ _ Ha) as La.
  pose proof (Forall2_length _ _ _ He) as Le. unfold exec_stack.
  eapply Returns_bind; [apply (push_vector_spec fuel km newArgv argv rsp um Ha Fa); lia|].
  intros [[args r1] um1] (E1 & L1 & C1 & P1 & F1).
  eapply Returns_bind; [apply (push_vector_spec fuel km newEnvp envp r1 um1 He Fe); lia|].
  intros [[envs r2] um2] (E2 & L2 & C2 & P2 & F2). apply Returns_ret.
  set (r3 := if negb (r2 mod 16 =? 0) then u64 (r2 - r2 mod 16) else r2).
  assert (r3 mod 16 = 0 /\ r2 - 16 < r3 <= r2) as [A3 B3].
  { unfold r3. destruct (Z.eqb_spec (r2 mod 16) 0); cbn [negb]; [lia|]. rewrite wrap_small by (pow2_consts; dm). dm. }
  clearbody r3. set (sa := u64 _).
  assert (sa = 32 + 8 * Z.of_nat (length argv) + 8 * Z.of_nat (length envp)) as Esa
    by (unfold sa; rewrite wrap_small; pow2_consts; lia).
  clearbody sa. set (r4 := if negb (sa mod 16 =? 0) then u64 (r3 - sa mod 16) else r3).
  assert (r4 mod 8 = 0 /\ (r4 - sa) mod 16 = 0 /\ r3 - 16 < r4 <= r3) as (A4 & A5 & B4).
  { unfold r4. destruct (Z.eqb_spec (sa mod 16) 0); cbn [negb]; [dm|]. rewrite wrap_small by (pow2_consts; dm). dm. }
  clearbody r4. replace (length newArgv) with (length args) by exact L1.
  set (ws := [0; 0] ++ reverse envs ++ [0] ++ reverse args ++ [Z.of_nat (length args)]).
  assert (Z.of_nat (length ws) = 4 + Z.of_nat (length args) + Z.of_nat (length envs)) as Lw.
  { unfold ws. rewrite !length_app, !length_reverse. cbn [length]. lia. }
  assert (Forall (fun w => 0 <= w < 2 ^ 64) ws) as Hws.
  { unfold ws. repeat (apply Forall_app; split); try apply Forall_reverse; repeat constructor; pow2_consts; try lia.
    - eapply Forall_impl; [exact P2|]. cbn. lia.
    - eapply Forall_impl; [exact P1|]. cbn. lia. }
  pose proof (push_words_spec ws r4 um2 A4 ltac:(lia) Hws) as HP.
  destruct (push_words ws r4 um2) as [r5 um5]. destruct HP as (E5 & G5 & F5).
  assert (r5 = r4 - sa) as -> by lia. splits; [exact A5|unfold size; lia|]. exists args, envs. splits.
  - apply (vector_same um1 um5 args argv r1 rsp C1 P1). intros x Hx. rewrite F5, F2 by lia. reflexivity.
  - apply (vector_same um2 um5 envs envp r2 r1 C2 P2). intros x Hx. apply F5. lia.
  - apply Forall_app. split; [eapply Forall_impl; [exact P1|]|eapply Forall_impl; [exact P2|]]; cbn; lia.
  - intros k w Hk. pose proof (pushed_order args envs k w Hk) as Ho. cbn zeta in Ho. fold ws in Ho.
    apply lookup_lt_Some in Hk. unfold stack_words in Hk. rewrite !length_app in Hk. cbn [length] in Hk.
    rewrite <- (G5 _ w Ho). f_equal. lia.
  - intros x Hx. rewrite F5, F2, F1 by lia. reflexivity.
Qed.

(** Kernel memory with the strings [sh], [-c] and [A=1]. *)
Definition exec_strings : mem := bytes_at 16 (chars "sh" ++ [0] ++ chars "-c" ++ [0] ++ chars "A=1" ++ [0]).

Lemma exec_stack_layout_witness :
  Returns (exec_stack 4 [16; 19] [22] 4096 exec_strings (fun _ => 0)) (fun '(rsp', um') =>
    rsp' mod 16 = 0 /\ exists args envs, Forall2 (cstr um') args [chars "sh"; chars "-c"] /\
      Forall2 (cstr um') envs [chars "A=1"] /\
      forall k w, stack_words args envs !! k = Some w -> load64 (rsp' + 8 * Z.of_nat k) um' = w).
Proof.
  eapply Returns_mono.
  - apply (exec_stack_layout 4 [16; 19] [22] [chars "sh"; chars "-c"] [chars "A=1"] 4096 exec_strings (fun _ => 0)).
    + repeat constructor; vm_compute; repeat split; discriminate || reflexivity.
    + repeat constructor; vm_compute; repeat split; discriminate || reflexivity.
    + repeat constructor; cbn; lia.
    + reflexivity.
    + split; [discriminate|reflexivity].
  - intros [rsp' um'] (A1 & _ & args & envs & C1 & C2 & _ & G & _). split; [exact A1|]. exists args, envs. auto.
Defined.
