(* ===== verification/Sched.v ===== *)
(** * Threads and the scheduler ([kernel/process/sched/sched.c],
    [kernel/arch/x86_64/context.c])

    Preemptive round robin on one processor.  Threads and processes are records in
    memory maps by address; the ring of threads is a [ListDs] list whose values are
    thread addresses.  [cpu_t] holds what a context switch exchanges: the interrupt
    frame, the FPU state, the FS base, the kernel stack in the TSS and CR3. *)

From S2P Require Import Prelude Interfaces MemMap Pmm Kheap ListDs.
#[local] Open Scope Z_scope.

Definition THREAD_STATUS_READY : Z := 0.
Definition THREAD_STATUS_RUNNING : Z := 1.
Definition THREAD_STATUS_BLOCKED : Z := 2.
Definition THREAD_STATUS_DESTROYED : Z := 3.

(** The x86_64 interrupt frame. *)
Record stack_frame_t : Type := mk_frame {
  ds : Z;
  r15 : Z; r14 : Z; r13 : Z; r12 : Z; r11 : Z; r10 : Z; r9 : Z; r8 : Z;
  rdi : Z; rsi : Z; rbp : Z; rbx : Z; rdx : Z; rcx : Z; rax : Z;
  intn : Z; errCode : Z;
  rip : Z; cs : Z; rflags : Z; rsp : Z; ss : Z
}.

Record thread_t : Type := mk_thread {
  t_status : Z;
  t_regs : stack_frame_t;
  t_tsp : Z;
  t_fpRegs : list Z;
  t_kernelStack : Z;
  t_kernelStackDeallocAddress : Z;
  t_process : Z
}.

Record process_t : Type := mk_process {
  p_name : Z;
  p_pid : Z;
  p_exitStatus : Z;
  p_status : Z;
  p_pt : Z;
  p_fdTable : Z;
  p_fdMax : Z;
  p_cwd : Z;
  p_mainThread : Z;
  p_parent : Z;
  p_next : Z
}.

Record cpu_t : Type := mk_cpu { cpu_fp : list Z; cpu_fsbase : Z; cpu_rsp0 : Z; cpu_cr3 : Z }.

(** The globals of sched.c with the memory they point to; [threadList] is [None]
    before [sched_init]. *)
Record sched_state (H : Type) : Type := mk_sched {
  threads : Z -> thread_t;
  processes : Z -> process_t;
  threadList : option (list_t H);
  currentThreadNode : Z;
  currentThread : Z;
  currentProcess : Z;
  cpu : cpu_t
}.
Arguments mk_sched {H}.
Arguments threads {H}.
Arguments processes {H}.
Arguments threadList {H}.
Arguments currentThreadNode {H}.
Arguments currentThread {H}.
Arguments currentProcess {H}.
Arguments cpu {H}.

Definition w_status (x : Z) (t : thread_t) : thread_t :=
  mk_thread x (t_regs t) (t_tsp t) (t_fpRegs t) (t_kernelStack t) (t_kernelStackDeallocAddress t) (t_process t).
Definition w_context (r : stack_frame_t) (fp : list Z) (t : thread_t) : thread_t :=
  mk_thread (t_status t) r (t_tsp t) fp (t_kernelStack t) (t_kernelStackDeallocAddress t) (t_process t).
Definition w_tsp (x : Z) (t : thread_t) : thread_t :=
  mk_thread (t_status t) (t_regs t) x (t_fpRegs t) (t_kernelStack t) (t_kernelStackDeallocAddress t) (t_process t).

Section Sched.
Context {H : Type} `{KH : KernelHeap H}.
Implicit Types (s : sched_state H).

Definition upd_thread (a : Z) (g : thread_t -> thread_t) s : sched_state H :=
  mk_sched (upd (threads s) a (g (threads s a))) (processes s) (threadList s) (currentThreadNode s)
    (currentThread s) (currentProcess s) (cpu s).
Definition set_threadList (l : list_t H) s : sched_state H :=
  mk_sched (threads s) (processes s) (Some l) (currentThreadNode s) (currentThread s) (currentProcess s) (cpu s).
Definition set_current (node thread process : Z) s : sched_state H :=
  mk_sched (threads s) (processes s) (threadList s) node thread process (cpu s).
Definition set_cpu (c : cpu_t) s : sched_state H :=
  mk_sched (threads s) (processes s) (threadList s) (currentThreadNode s) (currentThread s) (currentProcess s) c.

(** ** The code *)

(** The [checkready] loop of [_sched_get_next_thread]; [lfuel] bounds the list walk of
    [list_remove].  With the ring empty the head is NULL and is dereferenced. *)
Fixpoint checkready (fuel lfuel : nat) s : outcome (sched_state H) :=
  match fuel, threadList s with
  | O, _ => OutOfFuel
  | _, None => Fault
  | S f, Some l =>
      '(l, s) ←
        (if t_status (threads s (currentThread s)) =? THREAD_STATUS_DESTROYED then
           '(_, l) ← list_remove lfuel (currentThread s) l; Ret (l, set_threadList l s)
         else Ret (l, upd_thread (currentThread s) (w_status THREAD_STATUS_READY) s));
      let node := if currentThreadNode s =? 0 then head l else currentThreadNode s in
      if node =? 0 then Fault
      else
        let thread := n_value (nodes l node) in
        let s := set_current (n_next (nodes l node)) thread (t_process (threads s thread)) s in
        if negb (t_status (threads s (currentThread s)) =? THREAD_STATUS_READY) then checkready f lfuel s
        else Ret s
  end.

Definition _sched_get_next_thread (fuel lfuel : nat) s : outcome (sched_state H) :=
  match threadList s with
  | None => Fault
  | Some l =>
      if head l =? 0 then Fault
      else if n_next (nodes l (head l)) =? 0 then Ret s
      else checkready fuel lfuel s
  end.

Definition sched_add_thread (thread : Z) s : outcome (sched_state H) :=
  match threadList s with
  | None => Fault
  | Some l =>
      let s := upd_thread thread (w_status THREAD_STATUS_READY) s in
      l ← list_insert thread l;
      let s := set_threadList l s in
      let ct := if currentThread s =? 0 then thread else currentThread s in
      let cp := if currentProcess s =? 0 then t_process (threads s thread) else currentProcess s in
      let cn := if currentThreadNode s =? 0 then head l else currentThreadNode s in
      Ret (set_current cn ct cp s)
  end.

(** The kernel stack goes back to the heap the thread list lives in. *)
Definition sched_remove_thread (thread : Z) s : outcome (sched_state H) :=
  match threadList s with
  | None => Fault
  | Some l =>
      h ← kh_free (t_kernelStackDeallocAddress (threads s thread)) (heap l);
      let s := set_threadList (mk_list (head l) (tail l) (nodeCount l) (l_lock l) (nodes l) h) s in
      Ret (upd_thread thread (w_status THREAD_STATUS_DESTROYED) s)
  end.

Definition sched_get_current_process s : Z := currentProcess s.
Definition sched_get_current_thread s : Z := currentThread s.

Definition arch_store_context (regs : stack_frame_t) s : sched_state H :=
  upd_thread (currentThread s) (w_context regs (cpu_fp (cpu s))) s.

Definition arch_restore_context s : stack_frame_t * sched_state H :=
  let t := threads s (currentThread s) in
  (t_regs t, set_cpu (mk_cpu (t_fpRegs t) (t_tsp t) (cpu_rsp0 (cpu s)) (cpu_cr3 (cpu s))) s).

Definition arch_set_tsp (pointer : Z) s : sched_state H :=
  let s := upd_thread (currentThread s) (w_tsp pointer) s in
  set_cpu (mk_cpu (cpu_fp (cpu s)) pointer (cpu_rsp0 (cpu s)) (cpu_cr3 (cpu s))) s.

Definition sys_set_tsp (pointer : Z) s : Z * sched_state H := (0, arch_set_tsp pointer s).

(** [vaspace_switch] loads CR3. *)
Definition sched_preempt (fuel lfuel : nat) (regs : stack_frame_t) s : outcome (stack_frame_t * sched_state H) :=
  match threadList s with
  | None => Ret (regs, s)
  | Some l =>
      if head l =? 0 then Ret (regs, s)
      else
        let s := arch_store_context regs s in
        s ← _sched_get_next_thread fuel lfuel s;
        let c := cpu s in
        let s := set_cpu (mk_cpu (cpu_fp c) (cpu_fsbase c) (t_kernelStack (threads s (currentThread s))) (cpu_cr3 c)) s in
        let '(regs, s) := arch_restore_context s in
        let c := cpu s in
        let pt := p_pt (processes s (t_process (threads s (currentThread s)))) in
        Ret (regs, set_cpu (mk_cpu (cpu_fp c) (cpu_fsbase c) (cpu_rsp0 c) pt) s)
  end.
End Sched.

(** ** The ring of threads *)

Section Ring.
Context {H : Type} `{KH : KernelHeap H} `{KHL : !KernelHeapLaws H}.
Implicit Types (s : sched_state H) (cells : list cell).

(** The thread list consists of [cells], the current thread is the one in position
    [i], and [currentThreadNode] is the node after it (NULL at the end). *)
Definition ring s cells (i : nat) (R : list (Z * Z)) : Prop :=
  exists l c, threadList s = Some l /\ l_lock l = false /\ list_shape l cells R /\ cells !! i = Some c /\
    currentThread s = c_value c /\ currentThreadNode s = first_cell 0 (drop (S i) cells).

(** The position after [i]. *)
Definition after (i n : nat) : nat := (S i mod n)%nat.

Lemma shape_lookup l cells R j c :
  list_shape l cells R -> cells !! j = Some c ->
  nodes l (c_addr c) = mk_node (first_cell 0 (drop (S j) cells)) (c_value c) /\ 0 < c_addr c.
Proof.
  intros Hs Hj. apply (shape_node l (take j cells) c (drop (S j) cells) R). now rewrite take_drop_middle.
Qed.

(** The node to go to, from the position [k] of the one after the current. *)
Lemma wrap_node l cells R k c :
  list_shape l cells R -> cells !! (k mod length cells)%nat = Some c -> (k <= length cells)%nat ->
  (if first_cell 0 (drop k cells) =? 0 then first_cell 0 cells else first_cell 0 (drop k cells)) = c_addr c.
Proof.
  intros Hs Hc Hi. destruct (Nat.eq_dec k (length cells)) as [E|E].
  - rewrite E, Nat.Div0.mod_same in Hc. rewrite drop_ge by lia. cbn. destruct cells; [discriminate|].
    injection Hc as ->. reflexivity.
  - rewrite Nat.mod_small in Hc by lia. rewrite (drop_S _ _ _ Hc). cbn [first_cell].
    destruct (shape_lookup l cells R k c Hs Hc) as [_ Hp].
    rewrite (proj2 (Z.eqb_neq _ 0)) by lia. reflexivity.
Qed.

(** The state after a switch to the thread of the cell in position [j]. *)
Definition switched s cells (j : nat) (c : cell) : sched_state H :=
  set_current (first_cell 0 (drop (S j) cells)) (c_value c) (t_process (threads s (c_value c))) s.

(** The search for the next thread, when that thread is ready. *)
Lemma checkready_next f lf s cells i R c :
  ring s cells i R -> t_status (threads s (currentThread s)) <> THREAD_STATUS_DESTROYED ->
  cells !! after i (length cells) = Some c -> t_status (threads s (c_value c)) = THREAD_STATUS_READY ->
  checkready (S f) lf s =
    Ret (switched (upd_thread (currentThread s) (w_status THREAD_STATUS_READY) s) cells (after i (length cells)) c).
Proof.
  intros (l & d & El & Lk & Hs & Hi & Ec & En) Hd Hc Hr. cbn [checkready]. rewrite El.
  rewrite (proj2 (Z.eqb_neq _ _) Hd). cbn [mbind outcome_bind currentThreadNode upd_thread]. rewrite En.
  pose proof Hs as (Hh & _). rewrite Hh. apply lookup_lt_Some in Hi as Hlt.
  rewrite (wrap_node l cells R (S i) c Hs Hc Hlt). destruct (shape_lookup l cells R _ c Hs Hc) as [E1 E2].
  rewrite (proj2 (Z.eqb_neq (c_addr c) 0)), E1 by lia. cbn [n_value n_next set_current upd_thread threads currentThread].
  unfold upd at 1. destruct (Z.eqb_spec (c_value c) (currentThread s)) as [E|E]; [reflexivity|].
  rewrite Hr. reflexivity.
Qed.

Lemma ring_more s cells i R l : ring s cells i R -> threadList s = Some l -> (2 <= length cells)%nat ->
  head l <> 0 /\ n_next (nodes l (head l)) <> 0.
Proof.
  intros (l' & d & El & Lk & Hs & Hi & _) E Hn. rewrite E in El. injection El as ->.
  destruct cells as [|c0 [|c1 cs']]; cbn [length] in Hn; try lia. pose proof Hs as (Hh & _). cbn in Hh. rewrite Hh.
  destruct (shape_lookup l' _ R 0%nat c0 Hs eq_refl) as [E0 P0].
  destruct (shape_lookup l' _ R 1%nat c1 Hs eq_refl) as [_ P1]. rewrite E0. cbn. lia.
Qed.

Lemma ring_after s cells i R c :
  ring s cells i R -> cells !! after i (length cells) = Some c ->
  forall s', threadList s' = threadList s -> currentThread s' = c_value c ->
    currentThreadNode s' = first_cell 0 (drop (S (after i (length cells))) cells) ->
    ring s' cells (after i (length cells)) R.
Proof. intros (l & d & El & Lk & Hs & _) Hc s' E1 E2 E3. exists l, c. rewrite E1. splits; auto. Qed.

Lemma after_lookup i cells : (i < length cells)%nat -> exists c, cells !! after i (length cells) = Some c.
Proof.
  intros Hi. apply lookup_lt_is_Some_2. unfold after. apply Nat.mod_upper_bound. lia.
Qed.
End Ring.

(** A timer tick switches to the next thread of the ring: the registers and FPU
    state of the running thread are stored in it and it becomes ready; the frame the
    interrupt returns to, the FPU state, FS base, kernel stack and page table are those
    of the next thread; no other thread changes, and the ring moves on by one. *)
Theorem sched_preempt_switches {H} `{KH : KernelHeap H} f lf regs (s : sched_state H) cells i R c :
  ring s cells i R -> (2 <= length cells)%nat -> cells !! after i (length cells) = Some c ->
  c_value c <> currentThread s ->
  t_status (threads s (currentThread s)) <> THREAD_STATUS_DESTROYED ->
  t_status (threads s (c_value c)) = THREAD_STATUS_READY ->
  let next := threads s (c_value c) in
  Returns (sched_preempt (S f) lf regs s) (fun '(regs', s') =>
    ring s' cells (after i (length cells)) R /\ currentThread s' = c_value c /\ currentProcess s' = t_process next /\
    regs' = t_regs next /\
    cpu s' = mk_cpu (t_fpRegs next) (t_tsp next) (t_kernelStack next) (p_pt (processes s (t_process next))) /\
    threads s' (currentThread s) =
      w_status THREAD_STATUS_READY (w_context regs (cpu_fp (cpu s)) (threads s (currentThread s))) /\
    forall x, x <> currentThread s -> threads s' x = threads s x).
Proof.
  intros Hr Hn Hc Hne Hd Hrd next. pose proof Hr as (l & d & El & Lk & Hs & Hi & Ec & En).
  destruct (ring_more s cells i R l Hr El Hn) as [H1 H2].
  unfold sched_preempt. rewrite El, (proj2 (Z.eqb_neq _ 0) H1).
  set (s1 := arch_store_context regs s).
  assert (ring s1 cells i R) as Hr1 by (exists l, d; splits; auto).
  assert (forall x, x <> currentThread s -> threads s1 x = threads s x) as Ho by (intros x Hx; apply upd_ne; exact Hx).
  assert (threads s1 (currentThread s) = w_context regs (cpu_fp (cpu s)) (threads s (currentThread s))) as E1
    by (apply upd_eq).
  unfold _sched_get_next_thread. change (threadList s1) with (threadList s).
  rewrite El, (proj2 (Z.eqb_neq _ 0) H1), (proj2 (Z.eqb_neq _ 0) H2).
  rewrite (checkready_next f lf s1 cells i R c); [|exact Hr1| |exact Hc|].
  2: { change (currentThread s1) with (currentThread s). rewrite E1. exact Hd. }
  2: { rewrite Ho by exact Hne. exact Hrd. }
  change (currentThread s1) with (currentThread s).
  set (s2 := switched _ cells _ c). cbn [mbind outcome_bind arch_restore_context set_cpu cpu threads currentThread processes].
  assert (forall x, threads s2 x = if x =? currentThread s then w_status THREAD_STATUS_READY (threads s1 x) else threads s1 x) as E2.
  { intros x. unfold s2, switched, set_current, upd_thread. cbn [threads]. unfold upd at 1.
    now destruct (Z.eqb_spec x (currentThread s)) as [->|]. }
  assert (threads s2 (c_value c) = next) as E3
    by (rewrite E2, (proj2 (Z.eqb_neq _ _) Hne); apply Ho; exact Hne).
  apply Returns_ret. change (currentThread s2) with (c_value c). rewrite E3. splits; try reflexivity.
  - apply (ring_after s cells i R c Hr Hc); reflexivity.
  - unfold s2, switched. cbn [currentProcess set_cpu set_current threads upd_thread].
    rewrite upd_ne by exact Hne. now rewrite Ho.
  - cbn [threads set_cpu]. now rewrite E2, Z.eqb_refl, E1.
  - intros x Hx. cbn [threads set_cpu]. rewrite E2, (proj2 (Z.eqb_neq _ _) Hx). now apply Ho.
Qed.

(** Two threads on the one-page heap. *)
#[local] Instance demo_heap : KernelHeap (kheap_state pmm_state) := kheap_heap HHDM.
#[local] Instance demo_heap_laws : KernelHeapLaws (kheap_state pmm_state) := kheap_heap_laws HHDM.

Definition frame0 : stack_frame_t := mk_frame 0 0 0 0 0 0 0 0 0 0 0 0 0 0 0 0 0 0 0 0 0 0 0.
Definition frame_at (ip : Z) : stack_frame_t := mk_frame 0 0 0 0 0 0 0 0 0 0 0 0 0 0 0 0 0 0 ip 0 0 0 0.


Lemma two_threads : exists l cells,
  l_lock l = false /\ list_shape l cells [] /\ map c_value cells = [1000; 2000].
Proof.
  assert ((match list_insert 1000 list_demo with
           | Ret l => match list_insert 2000 l with Ret _ => true | _ => false end
           | _ => false
           end) = true) as Two by (vm_compute; reflexivity).
  destruct list_demo_rep as (L0 & cs0 & S0 & E0). apply map_eq_nil in E0 as ->.
  pose proof (list_insert_shape list_demo [] [] 1000 L0 S0 ltac:(reflexivity)) as H1.
  destruct (list_insert 1000 list_demo) as [l1|?| | |]; try discriminate Two.
  destruct H1 as (L1 & c1 & V1 & S1).
  pose proof (list_insert_shape l1 _ [] 2000 L1 S1 ltac:(reflexivity)) as H2.
  destruct (list_insert 2000 l1) as [l2|?| | |]; try discriminate Two.
  destruct H2 as (L2 & c2 & V2 & S2). exists l2, ([c1] ++ [c2]). splits; auto. cbn. now rewrite V1, V2.
Qed.

(** Thread 1000 runs, thread 2000 is next. *)
Definition sched_demo (l : list_t (kheap_state pmm_state)) (st node : Z) : sched_state (kheap_state pmm_state) :=
  mk_sched (fun t => mk_thread (if t =? 1000 then st else 0) (frame_at t) (t + 1) [t] (t + 2) (t + 3) (t + 4))
    (fun p => mk_process 0 0 0 0 (p + 5) 0 0 0 0 0 0) (Some l) node 1000 1004 (mk_cpu [7] 0 0 0).

Lemma sched_demo_ring st : exists l c1 c2,
  ring (sched_demo l st (c_addr c2)) [c1; c2] 0 [] /\ c_value c1 = 1000 /\ c_value c2 = 2000.
Proof.
  destruct two_threads as (l & cells & L & S & E). destruct cells as [|c1 [|c2 [|]]]; try discriminate.
  injection E as E1 E2. exists l, c1, c2. splits; auto. exists l, c1. splits; auto.
Qed.

Lemma sched_preempt_switches_witness :
  exists l c1 c2, let s := sched_demo l 0 (c_addr c2) in
  Returns (sched_preempt 1 3 frame0 s) (fun '(regs', s') =>
    ring s' [c1; c2] 1 [] /\ currentThread s' = 2000 /\ rip regs' = 2000 /\
    cpu s' = mk_cpu [2000] 2001 2002 2009 /\ t_regs (threads s' 1000) = frame0).
Proof.
  destruct (sched_demo_ring 0) as (l & c1 & c2 & Hr & E1 & E2). exists l, c1, c2. cbn zeta.
  eapply Returns_mono.
  - apply (sched_preempt_switches 0 3 frame0 (sched_demo l 0 (c_addr c2)) [c1; c2] 0 [] c2); [exact Hr|cbn; lia|reflexivity|..];
      rewrite ?E2; cbn; lia || discriminate || reflexivity.
  - intros [regs' s'] (H1 & H2 & _ & H4 & H5 & H6 & _). rewrite H2, H4, H5, E2. splits; auto.
    change 1000 with (currentThread (sched_demo l 0 (c_addr c2))) at 1. now rewrite H6.
Defined.

(** ** Fairness *)

(** Successive timer ticks, with the frames the interrupts push. *)
Fixpoint ticks {H} `{KH : KernelHeap H} (fuel lfuel : nat) (frames : list stack_frame_t) (s : sched_state H)
    : outcome (sched_state H) :=
  match frames with
  | [] => Ret s
  | r :: frames' => '(_, s) ← sched_preempt fuel lfuel r s; ticks fuel lfuel frames' s
  end.

(** The threads are on the list, none of them destroyed; the current thread is one of
    them, and the cursor is the node of any of them or NULL: the state between two ticks,
    and the state after [sched_add_thread], which can leave the cursor on the node of the
    running thread itself. *)
Definition ring_any {H} `{KH : KernelHeap H} (s : sched_state H) (cells : list cell) (k : nat) (R : list (Z * Z)) : Prop :=
  exists l, threadList s = Some l /\ l_lock l = false /\ list_shape l cells R /\ (k <= length cells)%nat /\
    currentThreadNode s = first_cell 0 (drop k cells) /\ (exists d, d ∈ cells /\ currentThread s = c_value d) /\
    forall d, d ∈ cells -> t_status (threads s (c_value d)) <> THREAD_STATUS_DESTROYED.

Section Fair.
Context {H : Type} `{KH : KernelHeap H}.
Implicit Types (s : sched_state H) (cells : list cell).

Definition thread_ready s (a : Z) : Prop := t_status (threads s a) = THREAD_STATUS_READY.

Lemma mod_next a b n : (0 < n)%nat -> ((S (a mod n) + b) mod n = (a + S b) mod n)%nat.
Proof.
  intros Hn. replace (S (a mod n) + b)%nat with (a mod n + S b)%nat by lia. now rewrite Nat.Div0.add_mod_idemp_l.
Qed.

(** One round of the search: the running thread becomes ready and the thread under the
    cursor the current one. *)
Lemma checkready_round f lf s cells k R c :
  ring_any s cells k R -> cells !! (k mod length cells)%nat = Some c ->
  let s1 := switched (upd_thread (currentThread s) (w_status THREAD_STATUS_READY) s) cells (k mod length cells) c in
  checkready (S f) lf s = (if t_status (threads s1 (c_value c)) =? THREAD_STATUS_READY then Ret s1 else checkready f lf s1) /\
  ring_any s1 cells (S (k mod length cells)) R /\ (forall x, thread_ready s x -> thread_ready s1 x).
Proof.
  intros (l & El & Lk & Hs & Hk & En & (d & Hd & Ed) & Hnd) Hc s1. pose proof (lookup_lt_Some _ _ _ Hc) as Hlt.
  assert (forall x, t_status (threads s1 x) = if x =? currentThread s then THREAD_STATUS_READY else t_status (threads s x)) as Et.
  { intros x. unfold s1, switched, set_current, upd_thread. cbn [threads]. unfold upd. now destruct (Z.eqb_spec x (currentThread s)). }
  splits.
  - cbn [checkready]. rewrite El, (proj2 (Z.eqb_neq (t_status _) THREAD_STATUS_DESTROYED)) by (rewrite Ed; now apply Hnd).
    cbn [mbind outcome_bind currentThreadNode upd_thread]. rewrite En. pose proof Hs as (Hh & _).
    rewrite Hh, (wrap_node l cells R k c Hs Hc Hk). destruct (shape_lookup l cells R _ c Hs Hc) as [E1 E2].
    rewrite (proj2 (Z.eqb_neq (c_addr c) 0)), E1 by lia. cbn [n_value n_next].
    change (set_current _ _ _ _) with s1. change (currentThread s1) with (c_value c). now destruct (t_status _ =? _).
  - exists l. splits; auto; [exists c; split; [now apply list_elem_of_lookup_2 in Hc|reflexivity]|].
    intros e He. rewrite Et. destruct (c_value e =? currentThread s); [discriminate|now apply Hnd].
  - intros x Hx. unfold thread_ready. rewrite Et. now destruct (x =? currentThread s).
Qed.

(** The search ends at the first ready thread at or behind the cursor; threads it passes
    become ready, no thread that was ready stops being so. *)
Lemma checkready_finds lf c d : forall f s cells k R,
  ring_any s cells k R -> cells !! ((k + d) mod length cells)%nat = Some c -> thread_ready s (c_value c) -> (d < f)%nat ->
  Returns (checkready f lf s) (fun s' => exists e c', (e <= d)%nat /\
    ring_any s' cells (S ((k + e) mod length cells)) R /\ cells !! ((k + e) mod length cells)%nat = Some c' /\
    currentThread s' = c_value c' /\ forall x, thread_ready s x -> thread_ready s' x).
Proof.
  induction d as [|d IH]; intros f s cells k R Hr Hc Hrd Hf; (destruct f as [|f]; [lia|]);
    pose proof (lookup_lt_Some _ _ _ Hc) as Hlt; pose proof (Nat.mod_upper_bound k (length cells) ltac:(lia)) as Hm;
    destruct (lookup_lt_is_Some_2 cells (k mod length cells) Hm) as [c0 Hc0];
    destruct (checkready_round f lf s cells k R c0 Hr Hc0) as (-> & Hr1 & Hk1); set (s1 := switched _ _ _ _) in *.
  - rewrite Nat.add_0_r in Hc. assert (c0 = c) as -> by congruence. rewrite (Hk1 _ Hrd), Z.eqb_refl. apply Returns_ret.
    exists 0%nat, c. rewrite Nat.add_0_r. splits; auto.
  - destruct (Z.eqb_spec (t_status (threads s1 (c_value c0))) THREAD_STATUS_READY).
    + apply Returns_ret. exists 0%nat, c0. rewrite Nat.add_0_r. splits; auto. lia.
    + eapply Returns_mono; [apply (IH f s1 cells _ R Hr1)|].
      * now rewrite mod_next by lia.
      * now apply Hk1.
      * lia.
      * intros s' (e & c' & He & Hr' & Hc' & Ec & Hk'). rewrite mod_next in Hr', Hc' by lia. exists (S e), c'. splits; auto. lia.
Qed.

(** A tick, when some thread at distance [d] from the cursor is ready. *)
Lemma tick_finds f lf regs s cells k R c d :
  ring_any s cells k R -> (2 <= length cells)%nat -> cells !! ((k + d) mod length cells)%nat = Some c -> thread_ready s (c_value c) -> (d < f)%nat ->
  Returns (sched_preempt f lf regs s) (fun '(_, s') => exists e c', (e <= d)%nat /\
    ring_any s' cells (S ((k + e) mod length cells)) R /\ cells !! ((k + e) mod length cells)%nat = Some c' /\
    currentThread s' = c_value c' /\ forall x, thread_ready s x -> thread_ready s' x).
Proof.
  intros Hr Hn Hc Hrd Hf. pose proof Hr as (l & El & Lk & Hs & Hk & En & Hcur & Hnd).
  assert (head l <> 0 /\ n_next (nodes l (head l)) <> 0) as [H1 H2].
  { destruct cells as [|c0 [|c1 cs']]; cbn [length] in Hn; try lia. pose proof Hs as (Hh & _). cbn in Hh. rewrite Hh.
    destruct (shape_lookup l _ R 0%nat c0 Hs eq_refl) as [E0 P0]. destruct (shape_lookup l _ R 1%nat c1 Hs eq_refl) as [_ P1].
    rewrite E0. cbn. lia. }
  unfold sched_preempt. rewrite El, (proj2 (Z.eqb_neq _ 0) H1). set (s1 := arch_store_context regs s).
  assert (forall x, t_status (threads s1 x) = t_status (threads s x)) as Ht.
  { intros x. unfold s1, arch_store_context, upd_thread. cbn [threads]. unfold upd. now destruct (Z.eqb_spec x (currentThread s)) as [->|]. }
  assert (ring_any s1 cells k R) as Hr1 by (exists l; splits; auto; intros e He; rewrite Ht; now apply Hnd).
  unfold _sched_get_next_thread. change (threadList s1) with (threadList s).
  rewrite El, (proj2 (Z.eqb_neq _ 0) H1), (proj2 (Z.eqb_neq _ 0) H2).
  eapply Returns_bind; [apply (checkready_finds lf c d f s1 cells k R Hr1 Hc); [unfold thread_ready; now rewrite Ht|exact Hf]|].
  intros s2 (e & c' & He & (l2 & E2) & Hc' & Ec & Hk2). apply Returns_ret. exists e, c'. splits; auto; [now exists l2|].
  intros x Hx. apply (Hk2 x). unfold thread_ready. now rewrite Ht.
Qed.

(** A thread at distance [d] from the cursor has to wait for at most [d] others. *)
Lemma runs_within f lf c d : forall s cells k R frames,
  ring_any s cells k R -> (2 <= length cells)%nat -> cells !! ((k + d) mod length cells)%nat = Some c -> thread_ready s (c_value c) -> (d < f)%nat ->
  (d < length frames)%nat ->
  exists n, (1 <= n <= S d)%nat /\ Returns (ticks f lf (take n frames) s) (fun s' => currentThread s' = c_value c).
Proof.
  induction (lt_wf d) as [d _ IH]. intros s cells k R frames Hr Hn Hc Hrd Hf Hl. destruct frames as [|r frames]; [cbn in Hl; lia|].
  destruct (tick_finds f lf r s cells k R c d Hr Hn Hc Hrd Hf) as ([r' s'] & E & e & c' & He & Hr' & Hc' & Ec & Hk').
  destruct (Nat.eq_dec e d) as [->|Hne].
  - exists 1%nat. split; [lia|]. cbn [take ticks]. rewrite E. cbn [mbind outcome_bind]. rewrite take_0. apply Returns_ret. congruence.
  - destruct (IH (d - S e)%nat ltac:(lia) s' cells _ R frames Hr' Hn) as (n & Hn' & HR); [|now apply Hk'|lia|cbn in Hl; lia|].
    + rewrite mod_next by lia. now replace (k + e + S (d - S e))%nat with (k + d)%nat by lia.
    + exists (S n). split; [lia|]. cbn [take ticks]. rewrite E. exact HR.
Qed.
End Fair.

(** C13: the scheduler is fair: with at least two threads on the list and none of them
    destroyed, wherever the cursor is and whatever the states of the other threads are, a
    ready thread is the current one after at most as many timer ticks as there are threads,
    whatever frames the interrupts push; no search takes more rounds than there are threads. *)
Theorem sched_fair {H} `{KH : KernelHeap H} f lf (s : sched_state H) cells k R c frames :
  ring_any s cells k R -> (2 <= length cells <= f)%nat -> c ∈ cells -> thread_ready s (c_value c) ->
  (length cells <= length frames)%nat ->
  exists n, (1 <= n <= length cells)%nat /\
    Returns (ticks f lf (take n frames) s) (fun s' => currentThread s' = c_value c).
Proof.
  intros Hr Hn Hc Hrd Hl. apply list_elem_of_lookup_1 in Hc as (j & Hj). apply lookup_lt_Some in Hj as Hjn.
  destruct (Hr) as (l & _ & _ & _ & Hk & _). set (m := length cells) in *.
  pose proof (Nat.mod_upper_bound (j + (m - k)) m ltac:(lia)) as Hd.
  destruct (runs_within f lf c ((j + (m - k)) mod m) s cells k R frames Hr) as (n & Hn' & HR); try lia.
  - fold m. rewrite Nat.Div0.add_mod_idemp_r. replace (k + (j + (m - k)))%nat with (j + 1 * m)%nat by lia.
    now rewrite Nat.Div0.mod_add, Nat.mod_small.
  - exact Hrd.
  - exists n. split; [lia|exact HR].
Qed.

(** The first thread runs and the cursor is on its own node, as [sched_add_thread] leaves
    it: the second thread waits for two ticks. *)
Lemma sched_fair_witness :
  exists l c1 c2, exists n, (1 <= n <= 2)%nat /\
    Returns (ticks 2 3 (take n [frame0; frame_at 5]) (sched_demo l THREAD_STATUS_RUNNING (c_addr c1)))
      (fun s' => currentThread s' = c_value c2 /\ c_value c1 = 1000).
Proof.
  destruct (sched_demo_ring THREAD_STATUS_RUNNING) as (l & c1 & c2 & (l' & d & El & Lk & Hs & Hi & _) & E1 & E2). exists l, c1, c2.
  injection El as <-.
  destruct (sched_fair 2 3 (sched_demo l THREAD_STATUS_RUNNING (c_addr c1)) [c1; c2] 0 [] c2 [frame0; frame_at 5]) as (n & Hn & HF).
  - exists l. splits; auto; [cbn; lia|exists c1; split; [apply elem_of_cons; now left|now rewrite E1]|].
    intros c Hc. apply elem_of_cons in Hc as [-> | Hc]; [|apply list_elem_of_singleton in Hc as ->]; rewrite ?E1, ?E2; discriminate.
  - cbn. lia.
  - apply elem_of_cons. right. now apply list_elem_of_singleton.
  - unfold thread_ready. now rewrite E2.
  - cbn. lia.
  - exists n. split; [exact Hn|]. eapply Returns_mono; [exact HF|]. auto.
Defined.

(** A new thread joins the others at the end of the list, ready; the state is again one in
    which every ready thread runs within a bounded time. *)
Theorem sched_add_thread_joins {H} `{KH : KernelHeap H} `{KHL : !KernelHeapLaws H} thread (s : sched_state H) cells k R :
  ring_any s cells k R -> Z.of_nat (length cells) < 2 ^ 64 - 1 -> currentThread s <> 0 ->
  Safe (sched_add_thread thread s) (fun s' => exists c k', c_value c = thread /\ ring_any s' (cells ++ [c]) k' R /\
    thread_ready s' thread /\ currentThread s' = currentThread s /\ forall x, thread_ready s x -> thread_ready s' x).
Proof.
  intros (l & El & Lk & Hs & Hk & En & (d & Hd & Ed) & Hnd) Hlen H0. unfold sched_add_thread. rewrite El.
  eapply Safe_bind; [exact (list_insert_shape l cells R thread Lk Hs Hlen)|]. intros l' (Lk' & c & Ec & Hs'). cbn [Safe].
  cbn [set_threadList upd_thread set_current threads currentThread currentThreadNode currentProcess].
  rewrite (proj2 (Z.eqb_neq (currentThread s) 0)) by exact H0.
  assert (forall x, t_status (upd (threads s) thread (w_status THREAD_STATUS_READY (threads s thread)) x) =
    if x =? thread then THREAD_STATUS_READY else t_status (threads s x)) as Et.
  { intros x. unfold upd. now destruct (x =? thread). }
  assert (exists k', (k' <= length (cells ++ [c]))%nat /\
    (if currentThreadNode s =? 0 then head l' else currentThreadNode s) = first_cell 0 (drop k' (cells ++ [c]))) as (k' & Hk' & Ek').
  { rewrite length_app. cbn [length]. destruct (Z.eqb_spec (currentThreadNode s) 0) as [E0|E0].
    - exists 0%nat. split; [lia|]. pose proof Hs' as (Hh & _). now rewrite Hh.
    - exists k. split; [lia|]. rewrite En in E0 |- *. rewrite drop_app_le by lia. destruct (drop k cells); [contradiction|reflexivity]. }
  exists c, k'. unfold thread_ready. cbn [set_current set_threadList upd_thread threads]. splits; auto.
  - exists l'. splits; auto.
    + exists d. split; [apply elem_of_app; now left|exact Ed].
    + cbn [set_current set_threadList upd_thread threads]. intros e [He|He%list_elem_of_singleton]%elem_of_app; rewrite Et.
      * destruct (c_value e =? thread); [discriminate|now apply Hnd].
      * rewrite He, Ec, Z.eqb_refl. discriminate.
  - now rewrite Et, Z.eqb_refl.
  - intros x Hx. rewrite Et. now destruct (x =? thread).
Qed.

(** ** Destroyed threads *)

Section Reap.
Context {H : Type} `{KH : KernelHeap H} `{KHL : !KernelHeapLaws H}.
Implicit Types (s : sched_state H) (cells : list cell).

(** [list_remove] of the value in position [i], values being distinct. *)
Lemma remove_at l cells R i c lf :
  l_lock l = false -> list_shape l cells R -> Z.of_nat (length cells) < 2 ^ 64 -> (length cells < lf)%nat ->
  cells !! i = Some c -> NoDup (map c_value cells) ->
  Returns (list_remove lf (c_value c) l) (fun '(_, l') =>
    l_lock l' = false /\ list_shape l' (take i cells ++ drop (S i) cells) R).
Proof.
  intros L Hs Hlen Hf Hi Hnd.
  eapply Returns_mono; [exact (list_remove_shape l cells R (c_value c) lf L Hs Hlen Hf)|].
  intros [r l'] [L' [(-> & d1 & e & d2 & E & Ev & Hno & Hs')|(_ & Hno & _)]]; (split; [exact L'|]).
  - rewrite <- (take_drop_middle cells i c Hi) in E, Hnd.
    assert (map c_value (take i cells) ++ c_value c :: map c_value (drop (S i) cells) =
            map c_value d1 ++ c_value c :: map c_value d2) as Em.
    { apply (f_equal (map c_value)) in E. rewrite !map_app in E. cbn [map] in E. now rewrite Ev in E. }
    rewrite map_app in Hnd. cbn [map] in Hnd. apply NoDup_app in Hnd as (_ & Hnd & _).
    destruct (first_split_unique _ _ _ _ _ Em) as [E1 E2].
    + intros Hin. apply (Hnd _ Hin). apply elem_of_cons. now left.
    + intros Hin. apply list_elem_of_fmap in Hin as (x & Ex & Hx). apply (Hno x Hx). now symmetry.
    + apply (f_equal length) in E1. rewrite !length_map in E1.
      apply app_inj_1 in E as [<- E]; [|exact E1]. injection E as _ <-. exact Hs'.
  - exfalso. apply (Hno c); [|reflexivity]. now apply list_elem_of_lookup_2 in Hi.
Qed.

Lemma checkready_reap f lf s cells i R c :
  ring s cells i R -> t_status (threads s (currentThread s)) = THREAD_STATUS_DESTROYED ->
  (2 <= length cells < lf)%nat -> Z.of_nat (length cells) < 2 ^ 64 -> NoDup (map c_value cells) ->
  let cells' := take i cells ++ drop (S i) cells in
  let j := (i mod length cells')%nat in
  cells' !! j = Some c -> t_status (threads s (c_value c)) = THREAD_STATUS_READY ->
  Returns (checkready (S f) lf s) (fun s' =>
    ring s' cells' j R /\ currentThread s' = c_value c /\ threads s' = threads s).
Proof.
  intros (l & d & El & Lk & Hs & Hi & Ec & En) Hd [Hn Hf] Hlen Hnd cells' j Hc Hr. cbn [checkready]. rewrite El, Hd, Z.eqb_refl, Ec.
  destruct (remove_at l cells R i d lf Lk Hs Hlen Hf Hi Hnd) as ([r l'] & -> & L' & Hs'). fold cells' in Hs'.
  cbn [mbind outcome_bind currentThreadNode set_threadList]. apply lookup_lt_Some in Hi as Hlt.
  assert (drop (S i) cells = drop i cells') as Ed.
  { unfold cells'. rewrite drop_app_length' by (rewrite length_take; lia). reflexivity. }
  assert (length cells' = length cells - 1)%nat as El' by (unfold cells'; rewrite length_app, length_take, length_drop; lia).
  rewrite En, Ed. pose proof Hs' as (Hh & _). rewrite Hh, (wrap_node l' cells' R i c Hs' Hc ltac:(lia)).
  destruct (shape_lookup l' cells' R j c Hs' Hc) as [E1 E2].
  rewrite (proj2 (Z.eqb_neq (c_addr c) 0)), E1 by lia. cbn [n_value n_next set_current set_threadList threads currentThread].
  rewrite Hr. cbn [Z.eqb negb THREAD_STATUS_READY]. apply Returns_ret. splits; try reflexivity.
  exists l', c. splits; auto.
Qed.
End Reap.

(** When the running thread has been destroyed, the search for the next thread takes
    it off the list, gives its node back to the heap and switches to the thread that
    followed it; the other threads stay in order. *)
Theorem sched_reaps_destroyed {H} `{KH : KernelHeap H} `{KHL : !KernelHeapLaws H} f lf (s : sched_state H) cells i R c :
  ring s cells i R -> t_status (threads s (currentThread s)) = THREAD_STATUS_DESTROYED ->
  (2 <= length cells < lf)%nat -> Z.of_nat (length cells) < 2 ^ 64 -> NoDup (map c_value cells) ->
  let cells' := take i cells ++ drop (S i) cells in
  let j := (i mod length cells')%nat in
  cells' !! j = Some c -> t_status (threads s (c_value c)) = THREAD_STATUS_READY ->
  Returns (_sched_get_next_thread (S f) lf s) (fun s' =>
    ring s' cells' j R /\ currentThread s' = c_value c /\ threads s' = threads s).
Proof.
  intros Hr Hd Hn Hlen Hnd cells' j Hc Hrd. pose proof Hr as (l & d & El & _).
  destruct (ring_more s cells i R l Hr El ltac:(lia)) as [H1 H2]. unfold _sched_get_next_thread.
  rewrite El, (proj2 (Z.eqb_neq _ 0) H1), (proj2 (Z.eqb_neq _ 0) H2). now apply checkready_reap.
Qed.

Lemma sched_reaps_destroyed_witness :
  exists l c1 c2, let s := sched_demo l THREAD_STATUS_DESTROYED (c_addr c2) in
  Returns (_sched_get_next_thread 1 3 s) (fun s' => ring s' [c2] 0 [] /\ currentThread s' = c_value c2 /\ c_value c1 = 1000).
Proof.
  destruct (sched_demo_ring THREAD_STATUS_DESTROYED) as (l & c1 & c2 & Hr & E1 & E2). exists l, c1, c2. cbn zeta.
  eapply Returns_mono.
  - apply (sched_reaps_destroyed 0 3 (sched_demo l THREAD_STATUS_DESTROYED (c_addr c2)) [c1; c2] 0 [] c2);
      [exact Hr|reflexivity|cbn; lia|reflexivity| |reflexivity|now rewrite E2].
    cbn. rewrite E1, E2. apply (bool_decide_unpack _). vm_compute. exact I.
  - intros s' (A1 & A2 & _). splits; [exact A1|exact A2|exact E1].
Defined.
