(* ===== verification/Process.v ===== *)
(** * Processes ([kernel/process/process.c])

    The process table, [fork], [exit], [waitpid] and [execve], composed from the
    scheduler ([Sched]), the file layer ([Vnode]), virtual memory ([Vmm]) and the program
    loader ([Elf]).  There is one kernel heap, the one in the file layer's state: the
    thread list is run with it.  [user] is the memory of a process by its page table, at
    user addresses; a system call sees it below [VMM_USER_END] and kernel memory above. *)

From S2P Require Import Prelude Links Interfaces MemMap Pmm MemUtil Kheap Paging Vmm ListDs Path Vnode Bytes Module Elf ExecStack Sched.
#[local] Open Scope Z_scope.

Definition PROCESS_STATUS_RUNNING : Z := 0.
Definition PROCESS_STATUS_ZOMBIE : Z := 1.
Definition VMM_INIT_KERNEL_STACK_SIZE : Z := 8192.

(** [sizeof(process_t)] and [sizeof(thread_t)]. *)
Definition PROCESS_SIZE : Z := 80.
Definition THREAD_SIZE : Z := 752.

Record kernel (X H P : Type) : Type := mk_kernel {
  kn_exec : exec_state X H P;
  kn_sched : sched_state H;
  processList : Z;
  processListLast : Z;
  initProc : Z;
  next_pid : Z
}.
Arguments mk_kernel {X H P}.
Arguments kn_exec {X H P}.
Arguments kn_sched {X H P}.
Arguments processList {X H P}.
Arguments processListLast {X H P}.
Arguments initProc {X H P}.
Arguments next_pid {X H P}.

Definition w_pnext (n : Z) (p : process_t) : process_t :=
  mk_process (p_name p) (p_pid p) (p_exitStatus p) (p_status p) (p_pt p) (p_fdTable p) (p_fdMax p) (p_cwd p)
    (p_mainThread p) (p_parent p) n.
Definition w_parent (n : Z) (p : process_t) : process_t :=
  mk_process (p_name p) (p_pid p) (p_exitStatus p) (p_status p) (p_pt p) (p_fdTable p) (p_fdMax p) (p_cwd p)
    (p_mainThread p) n (p_next p).
Definition w_pstatus (st : Z) (p : process_t) : process_t :=
  mk_process (p_name p) (p_pid p) (p_exitStatus p) st (p_pt p) (p_fdTable p) (p_fdMax p) (p_cwd p)
    (p_mainThread p) (p_parent p) (p_next p).
Definition w_exit (e : Z) (p : process_t) : process_t :=
  mk_process (p_name p) (p_pid p) e (p_status p) (p_pt p) (p_fdTable p) (p_fdMax p) (p_cwd p)
    (p_mainThread p) (p_parent p) (p_next p).
Definition w_name (n : Z) (p : process_t) : process_t :=
  mk_process n (p_pid p) (p_exitStatus p) (p_status p) (p_pt p) (p_fdTable p) (p_fdMax p) (p_cwd p)
    (p_mainThread p) (p_parent p) (p_next p).
Definition w_rsp (x : Z) (f : stack_frame_t) : stack_frame_t :=
  mk_frame (ds f) (r15 f) (r14 f) (r13 f) (r12 f) (r11 f) (r10 f) (r9 f) (r8 f) (rdi f) (rsi f) (rbp f) (rbx f) (rdx f)
    (rcx f) (rax f) (intn f) (errCode f) (rip f) (cs f) (rflags f) x (ss f).
Definition w_rip (x : Z) (f : stack_frame_t) : stack_frame_t :=
  mk_frame (ds f) (r15 f) (r14 f) (r13 f) (r12 f) (r11 f) (r10 f) (r9 f) (r8 f) (rdi f) (rsi f) (rbp f) (rbx f) (rdx f)
    (rcx f) (rax f) (intn f) (errCode f) x (cs f) (rflags f) (rsp f) (ss f).
Definition w_rax (x : Z) (f : stack_frame_t) : stack_frame_t :=
  mk_frame (ds f) (r15 f) (r14 f) (r13 f) (r12 f) (r11 f) (r10 f) (r9 f) (r8 f) (rdi f) (rsi f) (rbp f) (rbx f) (rdx f)
    (rcx f) x (intn f) (errCode f) (rip f) (cs f) (rflags f) (rsp f) (ss f).
Definition w_regs (r : stack_frame_t) (t : thread_t) : thread_t :=
  mk_thread (t_status t) r (t_tsp t) (t_fpRegs t) (t_kernelStack t) (t_kernelStackDeallocAddress t) (t_process t).

Section Process.
Context {X H P : Type} `{KH : KernelHeap H} `{PA : PageAllocator P}.
(** Loop bounds, the direct map offset, the kernel base, and the file systems. *)
Variable (fuel vfuel : nat) (hhdm virt_base : Z).
Variable ops : Z -> vnode_operations_t (fal X H).
Implicit Types (k : kernel X H P).

(** ** Access to the parts *)

Definition kfal k : fal X H := x_fal (kn_exec k).
Definition kvm k : vmm_state P := x_vm (kn_exec k).
Definition put_exec (e : exec_state X H P) k : kernel X H P :=
  mk_kernel e (kn_sched k) (processList k) (processListLast k) (initProc k) (next_pid k).
Definition put_kfal (f : fal X H) k : kernel X H P := put_exec (mk_exec f (kvm k) (user (kn_exec k))) k.
Definition put_kvm (vm : vmm_state P) k : kernel X H P := put_exec (mk_exec (kfal k) vm (user (kn_exec k))) k.
Definition put_user (pt : Z) (um : mem) k : kernel X H P :=
  put_exec (mk_exec (kfal k) (kvm k) (upd (user (kn_exec k)) pt um)) k.
Definition put_sched (s : sched_state H) k : kernel X H P :=
  mk_kernel (kn_exec k) s (processList k) (processListLast k) (initProc k) (next_pid k).
Definition put_list (first last : Z) k : kernel X H P :=
  mk_kernel (kn_exec k) (kn_sched k) first last (initProc k) (next_pid k).

Definition proc k (a : Z) : process_t := processes (kn_sched k) a.
Definition thread k (a : Z) : thread_t := threads (kn_sched k) a.
Definition upd_proc (a : Z) (g : process_t -> process_t) k : kernel X H P :=
  let s := kn_sched k in
  put_sched (mk_sched (threads s) (upd (processes s) a (g (processes s a))) (threadList s) (currentThreadNode s)
    (currentThread s) (currentProcess s) (cpu s)) k.
Definition upd_kthread (a : Z) (g : thread_t -> thread_t) k : kernel X H P := put_sched (upd_thread a g (kn_sched k)) k.

(** Run a scheduler operation with the kernel heap. *)
Definition on_sched (f : sched_state H -> outcome (sched_state H)) k : outcome (kernel X H P) :=
  match threadList (kn_sched k) with
  | None => Fault
  | Some l =>
      s ← f (set_threadList (set_list_heap (f_heap (kfal k)) l) (kn_sched k));
      match threadList s with
      | None => Fault
      | Some l => Ret (put_kfal (set_heap (heap l) (kfal k)) (put_sched s k))
      end
  end.

Definition kalloc (size : Z) k : outcome (Z * kernel X H P) :=
  '(a, h) ← kh_malloc size (f_heap (kfal k)); Ret (a, put_kfal (set_heap h (kfal k)) k).
Definition kfree (a : Z) k : outcome (kernel X H P) :=
  h ← kh_free a (f_heap (kfal k)); Ret (put_kfal (set_heap h (kfal k)) k).
Definition kmem k : mem := f_mem (kfal k).
Definition put_kmem (m : mem) k : kernel X H P := put_kfal (set_mem m (kfal k)) k.

(** [strdup] of a string in kernel memory, and of a string constant. *)
Definition kstrdup (a : Z) k : outcome (Z * kernel X H P) :=
  '(b, m, h) ← strdup kh_malloc fuel a (kmem k) (f_heap (kfal k));
  Ret (b, put_kfal (set_heap h (set_mem m (kfal k))) k).

Definition new_string (l : list Z) k : outcome (Z * kernel X H P) :=
  '(a, k) ← kalloc (Z.of_nat (length l) + 1) k;
  Ret (a, put_kmem (write_bytes (l ++ [0]) a (kmem k)) k).

Definition _process_gen_pid k : Z * kernel X H P :=
  (next_pid k, mk_kernel (kn_exec k) (kn_sched k) (processList k) (processListLast k) (initProc k) (i32 (next_pid k + 1))).

(** ** Termination *)

Fixpoint terminate_loop (n : nat) (p process : Z) k : outcome (kernel X H P) :=
  match n with
  | O => OutOfFuel
  | S n' =>
      if p =? 0 then Ret k
      else if p =? process then
        let k := upd_proc p (w_pstatus PROCESS_STATUS_ZOMBIE) k in
        on_sched (sched_remove_thread (p_mainThread (proc k p))) k
      else terminate_loop n' (p_next (proc k p)) process k
  end.

Definition process_terminate (process : Z) k : outcome (kernel X H P) :=
  terminate_loop fuel (processList k) process k.

(** The references of the open files are dropped; the loop stops before the last slot. *)
Definition drop_fd (t i : Z) k : outcome (kernel X H P) :=
  e ← fd_get t i (kfal k);
  if fd_file e =? 0 then Ret k
  else Ret (put_kfal (upd_vnode (fd_file e) (fun v => w_refCount (i32 (v_refCount v - 1)) v) (kfal k)) k).

(** Children of a freed process become children of init. *)
Fixpoint reparent_loop (n : nat) (child p : Z) k : outcome (kernel X H P) :=
  match n with
  | O => OutOfFuel
  | S n' =>
      if child =? 0 then Ret k
      else
        let k := if p_parent (proc k child) =? p then upd_proc child (w_parent (initProc k)) k else k in
        reparent_loop n' (p_next (proc k child)) p k
  end.

Definition unlink_process (prev p : Z) k : kernel X H P :=
  let last := if p =? processListLast k then prev else processListLast k in
  let first := if p =? processList k then p_next (proc k p) else processList k in
  let k := put_list first last k in
  if negb (prev =? 0) then upd_proc prev (w_pnext (p_next (proc k p))) k else k.

(** What is done with the process once it has been found. *)
Definition free_found (prev p : Z) k : outcome (kernel X H P) :=
  let k := unlink_process prev p k in
  k ← kfree (p_name (proc k p)) k;
  k ← kfree (p_cwd (proc k p)) k;
  k ← for_up (Z.to_nat (p_fdMax (proc k p))) 0 (fun i k => drop_fd (p_fdTable (proc k p)) i k) k;
  vm ← vaspace_destroy (if p_pt (proc k p) =? 0 then None else Some (p_pt (proc k p))) (kvm k);
  let k := put_kvm vm k in
  k ← reparent_loop fuel (processList k) p k;
  kfree p k.

Fixpoint free_loop (n : nat) (prev p process : Z) k : outcome (kernel X H P) :=
  match n with
  | O => OutOfFuel
  | S n' =>
      if p =? 0 then Ret k
      else if p =? process then free_found prev p k
      else free_loop n' p (p_next (proc k p)) process k
  end.

Definition process_free (process : Z) k : outcome (kernel X H P) :=
  free_loop fuel 0 (processList k) process k.

(** [sys_exit]: the state in which the thread waits to be rescheduled for the last time. *)
Definition sys_exit (status : Z) k : outcome (kernel X H P) :=
  let cur := currentProcess (kn_sched k) in
  let k := upd_proc cur (w_exit (Z.land (Z.shiftl (u8 status) 8) 65280)) k in
  process_terminate cur k.

(** [process_terminate_exception] prints a report, terminates and waits likewise. *)
Definition process_terminate_exception (process : Z) k : outcome (kernel X H P) := process_terminate process k.

(** ** fork *)

(** [newProcess->name]: the name with [ (fork)] appended. *)
Definition fork_name (name : Z) k : outcome (Z * kernel X H P) :=
  l ← strlen fuel name (kmem k);
  '(a, k) ← kalloc (u32 (l + 8)) k;
  let m := memcpy a name l (kmem k) in
  l ← strlen fuel name m;
  Ret (a, put_kmem (write_bytes (chars " (fork)" ++ [0]) (a + l) m) k).

(** One descriptor is copied and its file gets one more reference. *)
Definition copy_fd (from to i : Z) k : outcome (kernel X H P) :=
  e ← fd_get from i (kfal k);
  f ← fd_set to i e (kfal k);
  Ret (put_kfal (if fd_file e =? 0 then f
                 else upd_vnode (fd_file e) (fun v => w_refCount (i32 (v_refCount v + 1)) v) f) k).

Definition sys_fork k : outcome (Z * kernel X H P) :=
  let cur := currentProcess (kn_sched k) in
  '(np, k) ← kalloc PROCESS_SIZE k;
  let '(pid, k) := _process_gen_pid k in
  '(name, k) ← fork_name (p_name (proc k cur)) k;
  let fdm := p_fdMax (proc k cur) in
  '(tab, f) ← vnode_alloc_fd_table (u64 (fdm + 1)) (kfal k);
  let k := put_kfal f k in
  '(wd, k) ← kstrdup (p_cwd (proc k cur)) k;
  k ← for_up (Z.to_nat fdm) 0 (fun i k => copy_fd (p_fdTable (proc k cur)) tab i k) k;
  '(nt, k) ← kalloc THREAD_SIZE k;
  let old := thread k (p_mainThread (proc k cur)) in
  '(kstack, k) ← kalloc (VMM_INIT_KERNEL_STACK_SIZE + 1) k;
  let k := upd_kthread nt (fun _ => mk_thread THREAD_STATUS_READY (t_regs old) (t_tsp old) (t_fpRegs old)
             (kstack + VMM_INIT_KERNEL_STACK_SIZE) kstack np) k in
  '(pt, vm) ← vaspace_clone (p_pt (proc k cur)) (kvm k);
  let k := put_user pt (user (kn_exec k) (p_pt (proc k cur))) (put_kvm vm k) in
  let k := upd_proc np (fun _ => mk_process name pid 0 PROCESS_STATUS_RUNNING pt tab fdm wd nt cur 0) k in
  if processListLast k =? 0 then Fault
  else
    let k := upd_proc (processListLast k) (w_pnext np) k in
    let k := put_list (processList k) np k in
    k ← on_sched (sched_add_thread nt) k;
    Ret (pid, upd_kthread nt (fun t => w_regs (w_rax 0 (t_regs t)) t) k).

(** ** waitpid *)

(** One pass over the process list: the first zombie child that is waited for. *)
Fixpoint wait_scan (n : nat) (child pid : Z) k : outcome Z :=
  match n with
  | O => OutOfFuel
  | S n' =>
      if child =? 0 then Ret 0
      else if negb (p_status (proc k child) =? PROCESS_STATUS_ZOMBIE) ||
              negb (p_parent (proc k child) =? currentProcess (kn_sched k)) ||
              ((pid >? 0) && negb (p_pid (proc k child) =? pid))
      then wait_scan n' (p_next (proc k child)) pid k
      else Ret child
  end.

(** The status of the child is stored for the caller, and the child is freed. *)
Definition store_status (c status : Z) k : kernel X H P :=
  let pt := p_pt (proc k (currentProcess (kn_sched k))) in
  if negb (status =? 0)
  then put_user pt (store32 status (u32 (p_exitStatus (proc k c))) (user (kn_exec k) pt)) k else k.

Definition wait_reap (c status : Z) k : outcome (Z * kernel X H P) :=
  let k := store_status c status k in
  let r := p_pid (proc k c) in
  k ← process_free c k;
  Ret (r, k).

(** [others] is what the rest of the system does between two passes. *)
Fixpoint wait_loop (n : nat) (others : kernel X H P -> kernel X H P) (pid status : Z) k : outcome (Z * kernel X H P) :=
  match n with
  | O => OutOfFuel
  | S n' =>
      c ← wait_scan fuel (processList k) pid k;
      if c =? 0 then wait_loop n' others pid status (others k) else wait_reap c status k
  end.

Definition sys_waitpid (n : nat) (others : kernel X H P -> kernel X H P) (pid status : Z) k : outcome (Z * kernel X H P) :=
  if pid <? -1 then Ret (- ENOSYS, k)
  else if pid =? 0 then Ret (- ENOSYS, k)
  else wait_loop n others pid status k.

(** ** execve *)

(** Memory as the kernel sees it during a system call of a process. *)
Definition seen (pt : Z) k : mem := fun a => if a <? VMM_USER_END then user (kn_exec k) pt a else kmem k a.

(** The loops that duplicate a vector of strings: each pointer in the process's own
    vector is replaced by the address of the copy. *)
Fixpoint dup_vector (n : nat) (pt v : Z) k : outcome (list Z * kernel X H P) :=
  match n with
  | O => OutOfFuel
  | S n' =>
      let s := load64 v (seen pt k) in
      if s =? 0 then Ret ([], k)
      else
        l ← strlen fuel s (seen pt k);
        '(a, k) ← kalloc (u32 (l + 1)) k;
        let k := put_kmem (copy_in (Z.to_nat (u32 (l + 1))) 0 a s (seen pt k) (kmem k)) k in
        let k := put_user pt (store64 v a (user (kn_exec k) pt)) k in
        '(r, k) ← dup_vector n' pt (v + 8) k;
        Ret (a :: r, k)
  end.

Fixpoint kfree_all (l : list Z) k : outcome (kernel X H P) :=
  match l with
  | [] => Ret k
  | a :: l' => k ← kfree a k; kfree_all l' k
  end.

(** The strings are freed as they are pushed; freeing does not change memory, so they
    are freed together here. *)
Definition push_program_stack (pt : Z) (newArgv newEnvp : list Z) (sp : Z) k : outcome (Z * kernel X H P) :=
  '(sp, um) ← exec_stack fuel newArgv newEnvp sp (kmem k) (user (kn_exec k) pt);
  k ← kfree_all newArgv (put_user pt um k);
  k ← kfree_all newEnvp k;
  Ret (sp, k).

(** Load the image and set [regs.rip]. *)
Definition exec_image (pt t : Z) (path : list Z) k : outcome (Z * kernel X H P) :=
  '(r, entry, e) ← elf_exec_load fuel vfuel hhdm virt_base ops pt path (kn_exec k);
  let k := put_exec e k in
  match entry with
  | Some a => Ret (r, upd_kthread t (fun th => w_regs (w_rip a (t_regs th)) th) k)
  | None => Ret (r, k)
  end.

(** Entering user mode: the kernel stack and page table of the process, and the entry
    point and stack pointer.  An error number is returned to the caller instead. *)
Inductive exec_result : Type :=
| Failed (e : Z)
| Entered (ip sp : Z).

Definition enter (t pt : Z) k : kernel X H P :=
  let s := kn_sched k in
  let c := cpu s in
  put_sched (set_cpu (mk_cpu (cpu_fp c) (cpu_fsbase c) (t_kernelStack (threads s t)) pt) s) k.

Definition sys_execve (path argv envp : Z) k : outcome (exec_result * kernel X H P) :=
  if (argv =? 0) || (envp =? 0) then Ret (Failed (- EFAULT), k)
  else
    let cur := currentProcess (kn_sched k) in
    let pt := p_pt (proc k cur) in
    let t := p_mainThread (proc k cur) in
    '(p, str, f) ← absolute_path fuel (p_cwd (proc k cur)) path (kfal k);
    let k := put_kfal f k in
    match str with
    | None => Ret (Failed (- kerrno (kfal k)), k)
    | Some name =>
        '(nm, k) ← kstrdup p k;
        let k := upd_proc cur (fun pr => w_pstatus PROCESS_STATUS_RUNNING (w_name nm pr)) k in
        '(file, f) ← vnode_open ops fuel (Some name) O_RDONLY 0 (kfal k);
        let k := put_kfal f k in
        if file =? 0 then Ret (Failed (- kerrno (kfal k)), k)
        else
          '(_, f) ← vnode_close ops file (kfal k);
          '(newArgv, k) ← dup_vector fuel pt argv (put_kfal f k);
          '(newEnvp, k) ← dup_vector fuel pt envp k;
          '(va, k) ← kalloc (u64 (Z.of_nat (length newArgv) * 8)) k;
          '(ve, k) ← kalloc (u64 (Z.of_nat (length newEnvp) * 8)) k;
          vm ← vaspace_clear (if pt =? 0 then None else Some pt) (kvm k);
          '(sp, vm) ← vaspace_create_thread_user_stack vfuel pt vm;
          '(sp, k) ← push_program_stack pt newArgv newEnvp sp (put_kvm vm k);
          let k := upd_kthread t (fun th => w_regs (w_rsp sp (t_regs th)) th) k in
          '(r, k) ← exec_image pt t name k;
          if negb (r =? 0) then Ret (Failed (- ENOENT), k)
          else
            k ← kfree p k;
            k ← kfree va k;
            k ← kfree ve k;
            let k := enter t pt k in
            Ret (Entered (rip (t_regs (thread k t))) (rsp (t_regs (thread k t))), k)
    end.

(** ** The first process *)

Definition init_path : list Z := chars "/bin/init.elf".

(** Three opens of the terminal. *)
Definition open_tty (tab i flags : Z) k : outcome (kernel X H P) :=
  '(v, f) ← vnode_open ops fuel (Some (chars "/dev/tty0")) O_RDWR 0 (kfal k);
  f ← fd_set tab i (mk_fd v 0 flags) f;
  Ret (put_kfal f k).

Definition push_string (str : list Z) (sp : Z) (um : mem) : Z * mem :=
  push_chars (S (length str)) 0 sp (bytes_at 0 (str ++ [0])) um.

Definition process_create_init k : outcome (exec_result * kernel X H P) :=
  '(np, k) ← kalloc PROCESS_SIZE k;
  let '(pid, k) := _process_gen_pid k in
  '(pt, vm) ← vaspace_new (kvm k);
  let k := put_kvm vm k in
  '(t, k) ← kalloc THREAD_SIZE k;
  '(kstack, k) ← kalloc (VMM_INIT_KERNEL_STACK_SIZE + 1) k;
  '(sp, vm) ← vaspace_create_thread_user_stack vfuel pt (kvm k);
  let k := upd_kthread t (fun _ => mk_thread THREAD_STATUS_READY (w_rsp sp frame0) 0 [] (kstack + VMM_INIT_KERNEL_STACK_SIZE)
             kstack np) (put_kvm vm k) in
  '(name, k) ← new_string init_path k;
  '(tab, f) ← vnode_alloc_fd_table PROCESS_INIT_FD (kfal k);
  '(wd, k) ← new_string (chars "/") (put_kfal f k);
  k ← open_tty tab 0 O_RDONLY k;
  k ← open_tty tab 1 O_WRONLY k;
  k ← open_tty tab 2 O_WRONLY k;
  let k := upd_proc np (fun _ => mk_process name pid 0 PROCESS_STATUS_RUNNING pt tab (PROCESS_INIT_FD - 1) wd t 0 0) k in
  '(r, k) ← exec_image pt t init_path k;
  if negb (r =? 0) then Panic "Could not load init!"
  else
    let k := put_list np np k in
    let k := mk_kernel (kn_exec k) (kn_sched k) (processList k) (processListLast k) np (next_pid k) in
    let '(sp, um) := push64 0 sp (user (kn_exec k) pt) in
    let '(sp, um) := push_string (chars "./bin/init.elf") sp um in
    let '(sp', um) := push_words [0; 0; 0; sp; 1] sp um in
    let k := put_user pt um k in
    let k := upd_kthread t (fun th => w_regs (w_rsp sp' (t_regs th)) th) k in
    k ← on_sched (sched_add_thread t) k;
    let k := enter t pt k in
    Ret (Entered (rip (t_regs (thread k t))) (rsp (t_regs (thread k t))), k).

Definition process_init k : outcome (exec_result * kernel X H P) := process_create_init k.

Definition sched_init k : outcome (exec_result * kernel X H P) :=
  '(_, l) ← list_create (fun _ => mk_node 0 0) (f_heap (kfal k));
  process_init (put_kfal (set_heap (heap l) (kfal k)) (put_sched (set_threadList l (kn_sched k)) k)).
End Process.

(** ** The process list, abstractly *)

Section Spec.
Context {X H P : Type} `{KH : KernelHeap H} `{KHL : !KernelHeapLaws H} `{PA : PageAllocator P}.
Implicit Types (k : kernel X H P).

Abbreviation plinked f := (slinked (fun p => p_next (f p))).

Definition process_list k (l : list Z) : Prop :=
  processList k = first_v 0 l /\ processListLast k = last_v 0 l /\ plinked (proc k) l 0 /\ NoDup l /\
  Forall (fun p => p <> 0) l.

Lemma upd_proc_read a g k x : proc (upd_proc a g k) x = if x =? a then g (proc k x) else proc k x.
Proof. unfold proc, upd_proc. cbn. unfold upd. now destruct (Z.eqb_spec x a) as [->|]. Qed.

(** Everything but the process table and the two ends of the list. *)
Definition rest_same k k' : Prop :=
  kn_exec k' = kn_exec k /\ threads (kn_sched k') = threads (kn_sched k) /\ threadList (kn_sched k') = threadList (kn_sched k) /\
  currentProcess (kn_sched k') = currentProcess (kn_sched k) /\ initProc k' = initProc k.

Lemma unlink_process_spec k l1 p l2 :
  process_list k (l1 ++ p :: l2) ->
  let k' := unlink_process (last_v 0 l1) p k in
  process_list k' (l1 ++ l2) /\ rest_same k k' /\
  (forall x, p_parent (proc k' x) = p_parent (proc k x)) /\ proc k' p = proc k p.
Proof.
  intros (H1 & H2 & H3 & H4 & H5) k'. pose proof (conj H4 H5 : pchain (l1 ++ p :: l2)) as Hc.
  destruct (pchain_middle _ _ _ Hc) as (Zp & _ & _ & [N12 Z12] & Np & _). set (q := last_v 0 l1) in *.
  assert (p_next (proc k p) = first_v 0 l2) as Ln by now apply slinked_app in H3 as (_ & Ln & _).
  assert (forall x, proc k' x = if negb (q =? 0) && (x =? q) then w_pnext (p_next (proc k p)) (proc k x) else proc k x) as Hf.
  { intros x. unfold k', unlink_process. fold q. destruct (Z.eqb_spec q 0); cbn [negb andb]; [reflexivity|].
    now rewrite upd_proc_read. }
  assert (processList k' = (if processList k =? p then p_next (proc k p) else processList k) /\
          processListLast k' = (if processListLast k =? p then q else processListLast k) /\ rest_same k k') as (E1 & E2 & E3).
  { unfold k', unlink_process, rest_same. fold q. rewrite !(Z.eqb_sym p). destruct (negb (q =? 0)); cbn; splits; reflexivity. }
  splits; auto.
  - unfold process_list. rewrite E1, E2, H1, H2, Ln, (first_v_remove _ _ _ Hc), (last_v_remove _ _ _ Hc). splits; auto.
    apply (slinked_remove _ _ _ _ _ H3 Hc). fold q. intros x _. rewrite Hf. now destruct (_ && _).
  - intros x. rewrite Hf. destruct (_ && _); reflexivity.
  - rewrite Hf. destruct (Z.eqb_spec p q) as [E|]; [|now rewrite andb_false_r].
    pose proof (last_v_cases l1) as Cq. fold q in Cq. destruct Cq as [E0|Cq]; [now rewrite E0|].
    destruct Np. apply elem_of_app. left. now rewrite E.
Qed.

(** ** Freeing a process *)

Lemma reparent_loop_spec p l : forall n k,
  plinked (proc k) l 0 -> NoDup l -> Forall (fun x => x <> 0) l -> (length l < n)%nat ->
  Returns (reparent_loop n (first_v 0 l) p k) (fun k' =>
    rest_same k k' /\ processList k' = processList k /\ processListLast k' = processListLast k /\
    (forall x, p_next (proc k' x) = p_next (proc k x)) /\
    (forall x, x ∉ l -> proc k' x = proc k x) /\
    forall x, x ∈ l -> p_parent (proc k' x) = if p_parent (proc k x) =? p then initProc k else p_parent (proc k x)).
Proof.
  induction l as [|c l IH]; intros n k Hl Hnd Hz Hn; (destruct n as [|n]; [cbn in Hn; lia|]); cbn [reparent_loop first_v].
  - apply Returns_ret. unfold rest_same. splits; try reflexivity. intros x Hx. now apply elem_of_nil in Hx.
  - apply Forall_cons in Hz as [Hc Hz]. rewrite (proj2 (Z.eqb_neq c 0)) by exact Hc.
    apply NoDup_cons in Hnd as [Hcl Hnd]. destruct Hl as [Hnx Hl]. cbn in Hn.
    set (k1 := if p_parent (proc k c) =? p then upd_proc c (w_parent (initProc k)) k else k).
    assert (forall x, proc k1 x = if (x =? c) && (p_parent (proc k c) =? p) then w_parent (initProc k) (proc k x) else proc k x) as Hk1.
    { intros x. unfold k1. destruct (p_parent (proc k c) =? p); [|now rewrite andb_false_r].
      rewrite upd_proc_read, andb_true_r. reflexivity. }
    assert (forall x, p_next (proc k1 x) = p_next (proc k x)) as Hn1 by (intros x; rewrite Hk1; now destruct (_ && _)).
    assert (rest_same k k1 /\ processList k1 = processList k /\ processListLast k1 = processListLast k) as (R1 & R2 & R3).
    { unfold k1, rest_same. destruct (_ =? _); cbn; splits; reflexivity. }
    rewrite Hn1, Hnx. eapply Returns_mono; [apply (IH n k1)|]; auto; [apply (slinked_frame (fun p => p_next (proc k p))); auto|lia|].
    intros k' (A1 & A2 & A3 & A4 & A5 & A6). unfold rest_same in *. destruct_and!.
    splits; try congruence.
    + intros x Hx. apply not_elem_of_cons in Hx as [Hxc Hx]. rewrite A5, Hk1 by exact Hx.
      now rewrite (proj2 (Z.eqb_neq x c)).
    + intros x Hx. apply elem_of_cons in Hx as [->|Hx].
      * rewrite A5, Hk1, Z.eqb_refl by exact Hcl. cbn [andb]. now destruct (_ =? p).
      * rewrite A6, Hk1 by exact Hx. rewrite (proj2 (Z.eqb_neq x c)) by congruence.
        cbn [andb]. destruct (p_parent (proc k x) =? p); congruence.
Qed.

(** How many of the descriptors [l] refer to the file [v]. *)
Definition uses (v : Z) (l : list fd_t) : Z := Z.of_nat (length (filter (fun e => fd_file e = v) l)).

Lemma uses_snoc v l e : uses v (l ++ [e]) = uses v l + if fd_file e =? v then 1 else 0.
Proof.
  unfold uses. rewrite filter_app, length_app, filter_cons, filter_nil.
  destruct (Z.eqb_spec (fd_file e) v); [rewrite decide_True by assumption|rewrite decide_False by assumption]; cbn; lia.
Qed.

Lemma drop_fds_spec p tab l n k :
  p_fdTable (proc k p) = tab -> f_tables (kfal k) !! tab = Some l -> (n <= length l)%nat ->
  Returns (for_up n 0 (fun i k => drop_fd (p_fdTable (proc k p)) i k) k) (fun k' => exists vn,
    k' = put_kfal (set_vnodes vn (kfal k)) k /\
    forall v, v <> 0 -> u32 (v_refCount (vn v)) = u32 (v_refCount (f_vnodes (kfal k) v) - uses v (take n l))).
Proof.
  intros Ht Hl Hn.
  eapply Returns_mono; [apply (for_up_Returns (fun i k' => exists vn, k' = put_kfal (set_vnodes vn (kfal k)) k /\
    forall v, v <> 0 -> u32 (v_refCount (vn v)) = u32 (v_refCount (f_vnodes (kfal k) v) - uses v (take (Z.to_nat i) l))))|].
  - exists (f_vnodes (kfal k)). split; [now destruct k as [[[]]]|]. intros v _.
    change (uses v (take (Z.to_nat 0) l)) with 0. now rewrite Z.sub_0_r.
  - intros i k1 Hi (vn & -> & Hvn). unfold drop_fd, fd_get.
    change (proc (put_kfal (set_vnodes vn (kfal k)) k) p) with (proc k p). rewrite Ht. cbn. rewrite Hl.
    rewrite (proj2 (Z.leb_le 0 i)), (proj2 (Z.ltb_lt i _)) by lia. cbn.
    set (e := nth (Z.to_nat i) l empty_fd).
    assert (take (Z.to_nat (i + 1)) l = take (Z.to_nat i) l ++ [e]) as Etk.
    { replace (Z.to_nat (i + 1)) with (S (Z.to_nat i)) by lia. apply take_S_r.
      unfold e. rewrite nth_lookup. destruct (lookup_lt_is_Some_2 l (Z.to_nat i)) as [y Hy]; [lia|]. now rewrite Hy. }
    assert (forall v, uses v (take (Z.to_nat (i + 1)) l) = uses v (take (Z.to_nat i) l) + if fd_file e =? v then 1 else 0) as Eu
      by (intros v; rewrite Etk; apply uses_snoc).
    destruct (Z.eqb_spec (fd_file e) 0) as [E0|E0]; apply Returns_ret.
    + exists vn. split; [reflexivity|]. intros v Hv. rewrite Eu, E0, (proj2 (Z.eqb_neq 0 v)), Z.add_0_r by congruence. auto.
    + eexists. split; [reflexivity|]. intros v Hv. rewrite Eu. unfold upd. rewrite (Z.eqb_sym (fd_file e)).
      specialize (Hvn v Hv). destruct (Z.eqb_spec v (fd_file e)) as [->|]; cbn; [|rewrite Z.add_0_r; exact Hvn].
      revert Hvn. set (x := v_refCount (vn _)). set (y := v_refCount _). clearbody x y.
      generalize (uses (fd_file e) (take (Z.to_nat i) l)). intros u. wrap_lia.
  - cbn. intros k' (vn & E & Hv). exists vn. split; [exact E|]. intros v Hv0. rewrite Hv by exact Hv0. do 3 f_equal. f_equal. lia.
Qed.

(** The heap is intact and exactly the areas [l] are in use. *)
Definition heap_holds k (l : list (Z * Z)) : Prop := kh_ok (f_heap (kfal k)) /\ kh_live (f_heap (kfal k)) l.

Lemma kfree_spec a n l k : heap_holds k ((a, n) :: l) ->
  Returns (kfree a k) (fun k' => exists h, k' = put_kfal (set_heap h (kfal k)) k /\ kh_ok h /\ kh_live h l).
Proof.
  intros [Hok Hl]. unfold kfree. eapply Returns_bind; [apply (kh_free_spec a n l _ Hok Hl)|].
  intros h [H1 H2]. apply Returns_ret. eauto.
Qed.

Lemma free_loop_reach fuel p l1 : forall n prev k l2,
  plinked (proc k) (l1 ++ p :: l2) 0 -> p ∉ l1 -> Forall (fun x => x <> 0) (l1 ++ p :: l2) -> (length l1 < n)%nat ->
  free_loop fuel n prev (first_v 0 (l1 ++ p :: l2)) p k = free_found fuel (last_v prev l1) p k.
Proof.
  induction l1 as [|q l1 IH]; intros n prev k l2 Hl Hp Hz Hn; (destruct n as [|n]; [cbn in Hn; lia|]);
    cbn [app first_v last_v free_loop]; apply Forall_cons in Hz as [Hq Hz].
  - now rewrite (proj2 (Z.eqb_neq p 0)), Z.eqb_refl.
  - apply not_elem_of_cons in Hp as [Hpq Hp]. destruct Hl as [Hnx Hl]. cbn in Hn.
    rewrite (proj2 (Z.eqb_neq q 0)), (proj2 (Z.eqb_neq q p)) by congruence. rewrite Hnx. apply IH; auto. lia.
Qed.

(** What freeing [p] needs: its place in the list, its descriptors, the areas it owns. *)
Record freeable k (l1 : list Z) (p : Z) (l2 : list Z) (fds : list fd_t) (vm' : vmm_state P) (L : list (Z * Z)) : Prop := {
  fr_list : process_list k (l1 ++ p :: l2);
  fr_fds : f_tables (kfal k) !! p_fdTable (proc k p) = Some fds;
  fr_max : 0 <= p_fdMax (proc k p) <= Z.of_nat (length fds);
  fr_heap : exists n1 n2 n3, heap_holds k ((p_name (proc k p), n1) :: (p_cwd (proc k p), n2) :: (p, n3) :: L);
  fr_vm : vaspace_destroy (if p_pt (proc k p) =? 0 then None else Some (p_pt (proc k p))) (kvm k) = Ret vm'
}.

(** What freeing [p] does. *)
Record freed k (l1 : list Z) (p : Z) (l2 : list Z) (fds : list fd_t) (vm' : vmm_state P) (L : list (Z * Z)) k' : Prop := {
  fd_list : process_list k' (l1 ++ l2);
  fd_heap : heap_holds k' L;
  fd_vm : kvm k' = vm';
  fd_user : user (kn_exec k') = user (kn_exec k);
  fd_threads : threads (kn_sched k') = threads (kn_sched k);
  fd_parent : forall x, x ∈ l1 ++ l2 ->
    p_parent (proc k' x) = if p_parent (proc k x) =? p then initProc k else p_parent (proc k x);
  fd_refs : forall v, v <> 0 -> u32 (v_refCount (f_vnodes (kfal k') v)) =
    u32 (v_refCount (f_vnodes (kfal k) v) - uses v (take (Z.to_nat (p_fdMax (proc k p))) fds))
}.

Lemma process_free_spec fuel k l1 p l2 fds vm' L :
  freeable k l1 p l2 fds vm' L -> (length (l1 ++ p :: l2) < fuel)%nat ->
  Returns (process_free fuel p k) (freed k l1 p l2 fds vm' L).
Proof.
  intros [Hl Hfds Hmax (n1 & n2 & n3 & Hh) Hvm] Hf. rewrite length_app in Hf. cbn in Hf.
  unfold process_free. pose proof Hl as (E1 & _ & Hlk & Hnd & Hz). rewrite E1.
  apply NoDup_app in Hnd as (_ & Hp & Hp2). apply NoDup_cons in Hp2 as [Hp2 _].
  assert (p ∉ l1) as Hp1 by (intros Hx; apply (Hp _ Hx), elem_of_cons; now left).
  rewrite free_loop_reach by (auto; lia). unfold free_found.
  destruct (unlink_process_spec k l1 p l2 Hl) as (U1 & U2 & U3 & U4).
  set (k0 := unlink_process (last_v 0 l1) p k) in *. destruct U2 as (UE & Ut & _ & _ & Ui).
  assert (kfal k0 = kfal k /\ kvm k0 = kvm k) as [Uf Uv] by (unfold kfal, kvm; now rewrite UE).
  rewrite U4. eapply Returns_bind; [apply (kfree_spec _ n1); unfold heap_holds; rewrite Uf; exact Hh|].
  intros k1 (h1 & -> & A1 & A2). change (proc (put_kfal _ _)) with (proc k0). rewrite U4.
  eapply Returns_bind; [apply (kfree_spec _ n2); split; [exact A1|exact A2]|].
  intros k2 (h2 & -> & B1 & B2). change (proc (put_kfal _ _)) with (proc k0). rewrite U4.
  eapply Returns_bind; [eapply (drop_fds_spec p _ fds); [reflexivity| |lia]|].
  { change (proc (put_kfal _ _)) with (proc k0). rewrite U4. cbn. rewrite Uf. exact Hfds. }
  intros k3 (vn & -> & Hvn). change (proc (put_kfal _ _)) with (proc k0). rewrite U4.
  change (kvm (put_kfal _ _)) with (kvm k0). rewrite Uv. change (p_pt (processes (kn_sched k) p)) with (p_pt (proc k p)).
  rewrite Hvm. cbn [mbind outcome_bind].
  set (k4 := put_kvm vm' _). destruct U1 as (V1 & V2 & V3 & V4 & V5).
  change (processList k4) with (processList k0). rewrite V1.
  eapply Returns_bind; [apply (reparent_loop_spec p (l1 ++ l2)); auto; rewrite length_app; lia|].
  intros k5 ((R1 & R2 & _ & _ & R3) & R4 & R5 & R6 & R7 & R8).
  eapply Returns_mono; [apply (kfree_spec p n3 L); unfold heap_holds, kfal; rewrite R1; split; [exact B1|exact B2]|].
  intros k6 (h & -> & C1 & C2). split; auto.
  - unfold process_list. change (proc (put_kfal _ _)) with (proc k5). cbn. rewrite R4, R5. splits; auto.
    apply (slinked_frame (fun p => p_next (proc k4 p))); auto.
  - split; [exact C1|exact C2].
  - cbn. unfold kvm. rewrite R1. reflexivity.
  - cbn. rewrite R1. cbn. now rewrite UE.
  - cbn. rewrite R2. exact Ut.
  - intros x Hx. change (proc (put_kfal _ _)) with (proc k5). rewrite R8 by exact Hx.
    change (proc k4) with (proc k0). rewrite U3. change (initProc k4) with (initProc k0). now rewrite Ui.
  - intros v Hv. cbn. unfold kfal. rewrite R1. cbn. rewrite Hvn by exact Hv. cbn. now rewrite Uf.
Qed.

(** ** Waiting *)

(** [c] is a zombie child of the caller that the call waits for. *)
Definition waited (pid c : Z) k : bool :=
  (p_status (proc k c) =? PROCESS_STATUS_ZOMBIE) && (p_parent (proc k c) =? currentProcess (kn_sched k)) &&
  (negb (pid >? 0) || (p_pid (proc k c) =? pid)).

Lemma wait_scan_spec pid k l : forall n,
  plinked (proc k) l 0 -> Forall (fun x => x <> 0) l -> (length l < n)%nat ->
  (wait_scan n (first_v 0 l) pid k = Ret 0 /\ forall x, x ∈ l -> waited pid x k = false) \/
  (exists l1 c l2, l = l1 ++ c :: l2 /\ waited pid c k = true /\ (forall x, x ∈ l1 -> waited pid x k = false) /\
     wait_scan n (first_v 0 l) pid k = Ret c).
Proof.
  induction l as [|x l IH]; intros n Hl Hz Hn; (destruct n as [|n]; [cbn in Hn; lia|]); cbn [wait_scan first_v].
  - left. split; [reflexivity|]. intros x Hx. now apply elem_of_nil in Hx.
  - apply Forall_cons in Hz as [Hx Hz]. destruct Hl as [Hnx Hl]. cbn in Hn.
    rewrite (proj2 (Z.eqb_neq x 0)) by exact Hx.
    replace (_ || _ || _) with (negb (waited pid x k)).
    2: { unfold waited. now rewrite !negb_andb, negb_orb, negb_involutive. }
    destruct (waited pid x k) eqn:E; cbn [negb].
    + right. exists [], x, l. splits; auto. intros y Hy. now apply elem_of_nil in Hy.
    + rewrite Hnx. destruct (IH n Hl Hz ltac:(lia)) as [[E1 E2]|(l1 & c & l2 & -> & E1 & E2 & E3)].
      * left. split; [exact E1|]. intros y Hy. apply elem_of_cons in Hy as [->|Hy]; auto.
      * right. exists (x :: l1), c, l2. splits; auto. intros y Hy. apply elem_of_cons in Hy as [->|Hy]; auto.
Qed.

Lemma wait_scan_first pid k l1 c l2 fuel :
  process_list k (l1 ++ c :: l2) -> (length (l1 ++ c :: l2) < fuel)%nat -> waited pid c k = true ->
  (forall x, x ∈ l1 -> waited pid x k = false) -> wait_scan fuel (processList k) pid k = Ret c.
Proof.
  intros (-> & _ & Hl & Hnd & Hz) Hf Hc Hno.
  destruct (wait_scan_spec pid k _ fuel Hl Hz Hf) as [[_ E]|(m1 & d & m2 & E & Ed & Em & ->)].
  - rewrite E in Hc; [discriminate|]. apply elem_of_app. right. apply elem_of_cons. now left.
  - f_equal. revert m1 E Em. clear - Hno Hc Ed. induction l1 as [|x l1 IH]; intros [|y m1] E Em; cbn in E; injection E as E1 E2.
    + now symmetry.
    + subst. rewrite Em in Hc; [discriminate|]. apply elem_of_cons. now left.
    + subst. rewrite Hno in Ed; [discriminate|]. apply elem_of_cons. now left.
    + apply (IH (fun z Hz => Hno z (proj2 (elem_of_cons _ _ _) (or_intror Hz))) m1 E2).
      intros z Hz. apply Em. apply elem_of_cons. now right.
Qed.

Lemma wait_scan_none pid k l fuel :
  process_list k l -> (length l < fuel)%nat -> (forall x, x ∈ l -> waited pid x k = false) ->
  wait_scan fuel (processList k) pid k = Ret 0.
Proof.
  intros (-> & _ & Hl & _ & Hz) Hf Hno.
  destruct (wait_scan_spec pid k l fuel Hl Hz Hf) as [[E _]|(l1 & c & l2 & -> & Hc & _)]; [exact E|].
  rewrite Hno in Hc; [discriminate|]. apply elem_of_app. right. apply elem_of_cons. now left.
Qed.

(** As long as no child is there to be reaped, the call polls. *)
Lemma wait_loop_polls fuel others pid status : forall j n k,
  (forall i, (i < j)%nat -> exists l, process_list (Nat.iter i others k) l /\ (length l < fuel)%nat /\
    forall x, x ∈ l -> waited pid x (Nat.iter i others k) = false) ->
  wait_loop fuel (j + n) others pid status k = wait_loop fuel n others pid status (Nat.iter j others k).
Proof.
  induction j as [|j IH]; intros n k Hi; [reflexivity|]. destruct (Hi O ltac:(lia)) as (l & H1 & H2 & H3). cbn in H1, H3.
  cbn [Nat.add wait_loop]. rewrite (wait_scan_none pid k l fuel) by assumption. cbn [mbind outcome_bind].
  change (0 =? 0) with true. cbn iota. rewrite Nat.iter_succ_r, IH; [reflexivity|].
  intros i Hij. rewrite <- Nat.iter_succ_r. apply Hi. lia.
Qed.
End Spec.

(** C16: [sys_waitpid] for one child or for any polls until a zombie child it waits for
    is there, however the rest of the system runs in between; then it returns that
    child's pid with its exit status stored, takes exactly that process out of the
    process list, gives its children to init, drops its references to open files, and
    gives its name, working directory, process structure and address space back.  Other
    pids give -ENOSYS. *)
Theorem sys_waitpid_reaps {X H P} `{KH : KernelHeap H} `{KHL : !KernelHeapLaws H} `{PA : PageAllocator P}
    fuel j n others pid status (k : kernel X H P) l1 c l2 fds vm' L :
  let k1 := Nat.iter j others k in
  (forall i, (i < j)%nat -> exists l, process_list (Nat.iter i others k) l /\ (length l < fuel)%nat /\
    forall x, x ∈ l -> waited pid x (Nat.iter i others k) = false) ->
  freeable k1 l1 c l2 fds vm' L -> (length (l1 ++ c :: l2) < fuel)%nat ->
  waited pid c k1 = true -> (forall x, x ∈ l1 -> waited pid x k1 = false) ->
  if (pid <? -1) || (pid =? 0) then sys_waitpid fuel (j + S n) others pid status k = Ret (- ENOSYS, k)
  else Returns (sys_waitpid fuel (j + S n) others pid status k) (fun '(r, k') =>
    r = p_pid (proc k1 c) /\ freed (store_status c status k1) l1 c l2 fds vm' L k').
Proof.
  intros k1 Hi Hfr Hf Hc Hno. unfold sys_waitpid.
  destruct (pid <? -1); [reflexivity|]. destruct (pid =? 0); [reflexivity|]. cbn [orb].
  rewrite (wait_loop_polls fuel others pid status j (S n) k Hi). fold k1. cbn [wait_loop].
  pose proof (fr_list _ _ _ _ _ _ _ Hfr) as Hl. rewrite (wait_scan_first pid k1 l1 c l2 fuel Hl Hf Hc Hno).
  cbn [mbind outcome_bind]. pose proof Hl as (_ & _ & _ & _ & Hz). apply Forall_app in Hz as [_ Hz].
  apply Forall_cons in Hz as [Hz _]. rewrite (proj2 (Z.eqb_neq c 0) Hz). unfold wait_reap.
  assert (freeable (store_status c status k1) l1 c l2 fds vm' L) as Hfr'.
  { unfold store_status. destruct (negb _); [|exact Hfr]. destruct Hfr. now split. }
  eapply Returns_bind; [exact (process_free_spec fuel _ l1 c l2 fds vm' L Hfr' Hf)|].
  intros k' Hk'. apply Returns_ret. split; [|exact Hk']. unfold store_status. now destruct (negb _).
Qed.

(** Init waits for its only child, which ends after one pass; the child's structure,
    name and working directory are the live areas of the heap. *)
#[local] Instance demo_heap : KernelHeap (kheap_state pmm_state) := kheap_heap HHDM.
#[local] Instance demo_heap_laws : KernelHeapLaws (kheap_state pmm_state) := kheap_heap_laws HHDM.

Lemma three_areas : exists (h : kheap_state pmm_state) a1 a2 a3 n1 n2 n3,
  kh_ok h /\ kh_live h [(a1, n1); (a2, n2); (a3, n3)] /\ 0 < a3 /\ a3 mod 16 = 0.
Proof.
  assert (match kh_malloc 80 heap_demo with
          | Ret (_, h) => match kh_malloc 16 h with
                          | Ret (_, h) => match kh_malloc 16 h with Ret _ => true | _ => false end
                          | _ => false end
          | _ => false end = true) as E by (vm_compute; reflexivity).
  assert (kh_ok heap_demo) as K0 by (exists [heap_demo_block]; exact heap_demo_inv).
  assert (kh_live heap_demo []) as L0 by (exists [heap_demo_block]; split; [exact heap_demo_inv|reflexivity]).
  pose proof (kh_malloc_spec 80 heap_demo [] ltac:(lia) K0 L0) as S1.
  destruct (kh_malloc 80 heap_demo) as [[a3 h1]|?| | |]; try discriminate E. destruct S1 as (n3 & P3 & M3 & _ & _ & K1 & L1 & _).
  pose proof (kh_malloc_spec 16 h1 _ ltac:(lia) K1 L1) as S2.
  destruct (kh_malloc 16 h1) as [[a2 h2]|?| | |]; try discriminate E. destruct S2 as (n2 & _ & _ & _ & _ & K2 & L2 & _).
  pose proof (kh_malloc_spec 16 h2 _ ltac:(lia) K2 L2) as S3.
  destruct (kh_malloc 16 h2) as [[a1 h3]|?| | |]; try discriminate E. destruct S3 as (n1 & _ & _ & _ & _ & K3 & L3 & _).
  exists h3, a1, a2, a3, n1, n2, n3. auto.
Qed.

Definition kernel_demo (h : kheap_state pmm_state) (name wd c : Z) : kernel unit (kheap_state pmm_state) pmm_state :=
  mk_kernel
    (mk_exec (mk_fal (fun _ => vnode_named "a" V_REG 50 0 0) (fun _ => mk_vfs 1 0 0 300 false false 0) 0 0 7 7 2 0
                (fun _ => 0) h {[ 900 := [mk_fd 100 0 0; mk_fd 0 0 0] ]} tt)
       vm_demo (fun _ _ => 0))
    (mk_sched (fun _ => mk_thread 0 frame0 0 [] 0 0 0)
       (fun p => if p =? 1 then mk_process 0 1 0 PROCESS_STATUS_RUNNING 0 0 0 0 0 0 c
                 else mk_process name 2 256 PROCESS_STATUS_RUNNING 0 900 1 wd 0 1 0)
       None 0 0 1 (mk_cpu [] 0 0 0))
    1 c 1 3.

Lemma sys_waitpid_reaps_witness : exists h name wd c,
  Returns (sys_waitpid 3 2 (upd_proc c (w_pstatus PROCESS_STATUS_ZOMBIE)) (-1) 64 (kernel_demo h name wd c)) (fun '(r, k') =>
    r = 2 /\ process_list k' [1] /\ heap_holds k' [] /\
    user (kn_exec k') 0 65 = 1 /\ v_refCount (f_vnodes (kfal k') 100) mod 2 ^ 32 = 0).
Proof.
  destruct three_areas as (h & a1 & a2 & c & n1 & n2 & n3 & Hok & Hl & Hc & Hm). exists h, a1, a2, c.
  assert (c <> 1) as Hc1 by (intros ->; discriminate Hm).
  set (k := kernel_demo h a1 a2 c).
  set (k1 := upd_proc c (w_pstatus PROCESS_STATUS_ZOMBIE) k).
  assert (proc k 1 = mk_process 0 1 0 0 0 0 0 0 0 0 c /\ proc k c = mk_process a1 2 256 0 0 900 1 a2 0 1 0) as [E1 Ec]
    by (unfold k, proc; cbn; now rewrite (proj2 (Z.eqb_neq c 1) Hc1)).
  assert (proc k1 1 = proc k 1 /\ proc k1 c = w_pstatus 1 (proc k c)) as [F1 Fc].
  { unfold k1. rewrite !upd_proc_read, Z.eqb_refl. now rewrite (proj2 (Z.eqb_neq 1 c)) by congruence. }
  assert (NoDup [1; c]) as Hnd by (apply NoDup_cons; split; [rewrite list_elem_of_singleton; congruence|apply NoDup_singleton]).
  assert (forall k', processList k' = 1 -> processListLast k' = c -> p_next (proc k' 1) = c -> p_next (proc k' c) = 0 ->
            process_list (X := unit) (H := kheap_state pmm_state) (P := pmm_state) k' ([1] ++ c :: [])) as PL.
  { intros k' Q1 Q2 Q3 Q4. unfold process_list. cbn. rewrite Q1, Q2. splits; auto. repeat constructor; lia. }
  eapply Returns_mono.
  - apply (sys_waitpid_reaps 3 1 0 (upd_proc c (w_pstatus PROCESS_STATUS_ZOMBIE)) (-1) 64 k [1] c []
             [mk_fd 100 0 0; mk_fd 0 0 0] vm_demo []).
    + intros i Hi. replace i with O by lia. exists [1; c]. change (Nat.iter 0 _ k) with k. splits; [|cbn; lia|].
      * apply PL; rewrite ?E1, ?Ec; reflexivity.
      * intros x Hx. unfold waited. apply elem_of_cons in Hx as [->|Hx]; [now rewrite E1|].
        apply list_elem_of_singleton in Hx as ->. now rewrite Ec.
    + change (Nat.iter 1 _ k) with k1. split; rewrite ?Fc, ?Ec.
      * apply PL; rewrite ?F1, ?E1, ?Fc, ?Ec; reflexivity.
      * reflexivity.
      * cbn. lia.
      * exists n1, n2, n3. split; [exact Hok|exact Hl].
      * reflexivity.
    + cbn. lia.
    + change (Nat.iter 1 _ k) with k1. unfold waited. now rewrite Fc, Ec.
    + change (Nat.iter 1 _ k) with k1. intros x Hx. apply list_elem_of_singleton in Hx as ->. unfold waited. now rewrite F1, E1.
  - change (Nat.iter 1 _ k) with k1. intros [r k'] (-> & [G1 G2 G3 G4 G5 G6 G7]). rewrite Fc, Ec. splits; auto.
    + rewrite G4. unfold store_status. cbn [negb Z.eqb]. rewrite Fc, Ec.
      change (currentProcess (kn_sched k1)) with 1. rewrite F1, E1. reflexivity.
    + specialize (G7 100 ltac:(lia)). unfold wrap in G7. rewrite G7. unfold store_status. cbn [negb Z.eqb].
      change (proc (put_user _ _ k1) c) with (proc k1 c). rewrite Fc, Ec. reflexivity.
Defined.
