(* ===== verification/Bcache.v ===== *)
(** * The block cache ([kernel/sys/dal/stor/bcache.c])

    Thirty buffers of one block each, kept in a list from the least to the most recently
    released one.  A buffer is named by its position in the array plus one, so that 0 is
    NULL.  The drives are driven through the function pointers in [drive_t]; [D] is the
    state of the hardware behind them. *)

From S2P Require Import Prelude Links.
#[local] Open Scope Z_scope.

Definition BCACHE_BUF_COUNT : Z := 30.
Definition BCACHE_BLOCK_SIZE : Z := 512.
Definition MAX_PARTITIONS : Z := 128.
Definition DRIVE_TYPE_OPTICAL : Z := 2.

Record partition_t : Type := mk_part {
  startLBA : Z;
  endLBA : Z;
  attribs : Z;
  isSystemPartition : bool;
  part_size : Z;
  part_valid : bool
}.

(** [d_read self lba blocks old dev]: the result, the contents of the buffer afterwards
    and the new state of the hardware; [d_write] takes the contents.  The name, the
    interface, the sizes and the driver's context are used by drivers only. *)
Record drive_t (D : Type) : Type := mk_drive {
  isSystemDrive : bool;
  d_type : Z;
  driveid : Z;
  d_read : option (Z -> Z -> Z -> list Z -> D -> outcome (Z * list Z * D));
  d_write : option (Z -> Z -> Z -> list Z -> D -> outcome (Z * D));
  partitionCount : Z;
  partitions : list partition_t;
  d_lock : spinlock_t;
  d_next : Z
}.
Arguments mk_drive {D}.
Arguments isSystemDrive {D}.
Arguments d_type {D}.
Arguments driveid {D}.
Arguments d_read {D}.
Arguments d_write {D}.
Arguments partitionCount {D}.
Arguments partitions {D}.
Arguments d_lock {D}.
Arguments d_next {D}.

Record bcache_buf_t : Type := mk_buf {
  valid : bool;
  dirty : bool;
  refCount : Z;
  data : list Z;
  block : Z;
  drive : Z;
  b_next : Z;
  b_prev : Z;
  b_lock : spinlock_t
}.

(** The cache, the drives, the hardware, and [kerrno]. *)
Record storage (D : Type) : Type := mk_stor {
  bc_head : Z;
  bc_tail : Z;
  bc_buf : Z -> bcache_buf_t;
  bc_spinlock : spinlock_t;
  drives : Z -> drive_t D;
  dev : D;
  st_errno : Z
}.
Arguments mk_stor {D}.
Arguments bc_head {D}.
Arguments bc_tail {D}.
Arguments bc_buf {D}.
Arguments bc_spinlock {D}.
Arguments drives {D}.
Arguments dev {D}.
Arguments st_errno {D}.

Definition w_bnext (n : Z) (b : bcache_buf_t) : bcache_buf_t :=
  mk_buf (valid b) (dirty b) (refCount b) (data b) (block b) (drive b) n (b_prev b) (b_lock b).
Definition w_bprev (p : Z) (b : bcache_buf_t) : bcache_buf_t :=
  mk_buf (valid b) (dirty b) (refCount b) (data b) (block b) (drive b) (b_next b) p (b_lock b).
Definition w_bref (n : Z) (b : bcache_buf_t) : bcache_buf_t :=
  mk_buf (valid b) (dirty b) n (data b) (block b) (drive b) (b_next b) (b_prev b) (b_lock b).
Definition w_bvalid (v : bool) (b : bcache_buf_t) : bcache_buf_t :=
  mk_buf v (dirty b) (refCount b) (data b) (block b) (drive b) (b_next b) (b_prev b) (b_lock b).
Definition w_bdirty (d : bool) (b : bcache_buf_t) : bcache_buf_t :=
  mk_buf (valid b) d (refCount b) (data b) (block b) (drive b) (b_next b) (b_prev b) (b_lock b).
Definition w_bdata (l : list Z) (b : bcache_buf_t) : bcache_buf_t :=
  mk_buf (valid b) (dirty b) (refCount b) l (block b) (drive b) (b_next b) (b_prev b) (b_lock b).
Definition w_block (d blk : Z) (b : bcache_buf_t) : bcache_buf_t :=
  mk_buf (valid b) (dirty b) (refCount b) (data b) blk d (b_next b) (b_prev b) (b_lock b).
Definition w_block_lock (l : spinlock_t) (b : bcache_buf_t) : bcache_buf_t :=
  mk_buf (valid b) (dirty b) (refCount b) (data b) (block b) (drive b) (b_next b) (b_prev b) l.

Section Bcache.
Context {D : Type}.
Implicit Types (s : storage D).

Definition set_bufs (f : Z -> bcache_buf_t) s : storage D :=
  mk_stor (bc_head s) (bc_tail s) f (bc_spinlock s) (drives s) (dev s) (st_errno s).
Definition upd_buf (a : Z) (g : bcache_buf_t -> bcache_buf_t) s : storage D := set_bufs (upd (bc_buf s) a (g (bc_buf s a))) s.
Definition set_ends (h t : Z) s : storage D :=
  mk_stor h t (bc_buf s) (bc_spinlock s) (drives s) (dev s) (st_errno s).
Definition set_cache_lock (l : spinlock_t) s : storage D :=
  mk_stor (bc_head s) (bc_tail s) (bc_buf s) l (drives s) (dev s) (st_errno s).
Definition set_dev (d : D) s : storage D :=
  mk_stor (bc_head s) (bc_tail s) (bc_buf s) (bc_spinlock s) (drives s) d (st_errno s).
Definition set_drives (f : Z -> drive_t D) s : storage D :=
  mk_stor (bc_head s) (bc_tail s) (bc_buf s) (bc_spinlock s) f (dev s) (st_errno s).
Definition set_st_errno (e : Z) s : storage D :=
  mk_stor (bc_head s) (bc_tail s) (bc_buf s) (bc_spinlock s) (drives s) (dev s) e.

(** [&bcache.buf[i]]. *)
Definition buf_at (i : Z) : Z := i + 1.

(** The two loops of [bcache_init] that link the buffers. *)
Definition link_next (i : Z) s : outcome (storage D) := Ret (upd_buf (buf_at i) (w_bnext (buf_at (i + 1))) s).
Definition link_prev (i : Z) s : outcome (storage D) :=
  Ret (upd_buf (buf_at (BCACHE_BUF_COUNT - 1 - i)) (w_bprev (buf_at (BCACHE_BUF_COUNT - 1 - i - 1))) s).

Definition bcache_init s : outcome (storage D) :=
  let s := set_ends (buf_at 0) (buf_at (BCACHE_BUF_COUNT - 1)) s in
  s ← for_up (Z.to_nat (BCACHE_BUF_COUNT - 1)) 0 link_next s;
  let s := upd_buf (bc_tail s) (w_bnext 0) s in
  s ← for_up (Z.to_nat (BCACHE_BUF_COUNT - 1)) 0 link_prev s;
  Ret (upd_buf (bc_head s) (w_bprev 0) s).

(** The block is read with the buffer locked; the result of the drive is not looked at. *)
Definition bcache_read (buf : Z) s : outcome (Z * storage D) :=
  l ← acquireLock (b_lock (bc_buf s buf));
  let s := upd_buf buf (w_block_lock l) s in
  let b := bc_buf s buf in
  match d_read (drives s (drive b)) with
  | Some read =>
      '(_, bytes, d) ← read (drive b) (block b) 1 (data b) (dev s);
      let s := upd_buf buf (w_bdata bytes) (set_dev d s) in
      Ret (0, upd_buf buf (w_block_lock (releaseLock (b_lock (bc_buf s buf)))) s)
  | None =>
      let s := set_st_errno ENOSYS s in
      Ret (-1, upd_buf buf (w_block_lock (releaseLock (b_lock (bc_buf s buf)))) s)
  end.

(** A dirty block is written, twice. *)
Definition bcache_write (buf : Z) s : outcome (Z * storage D) :=
  l ← acquireLock (b_lock (bc_buf s buf));
  let s := upd_buf buf (w_block_lock l) s in
  let b := bc_buf s buf in
  s ← (if dirty b then
         match d_write (drives s (drive b)) with
         | None => Fault
         | Some write =>
             '(_, d) ← write (drive b) (block b) 1 (data b) (dev s);
             '(_, d) ← write (drive b) (block b) 1 (data b) d;
             Ret (upd_buf buf (w_bdirty false) (set_dev d s))
         end
       else Ret s);
  Ret (0, upd_buf buf (w_block_lock (releaseLock (b_lock (bc_buf s buf)))) s).

(** The two searches of [bcache_get]: a buffer that holds the block, and a free one. *)
Fixpoint find_cached (fuel : nat) (i drv blk : Z) s : outcome Z :=
  match fuel with
  | O => OutOfFuel
  | S f =>
      if i =? 0 then Ret 0
      else if (drive (bc_buf s i) =? drv) && (block (bc_buf s i) =? blk) && valid (bc_buf s i) then Ret i
      else find_cached f (b_next (bc_buf s i)) drv blk s
  end.

Fixpoint find_free (fuel : nat) (i : Z) s : outcome Z :=
  match fuel with
  | O => OutOfFuel
  | S f =>
      if i =? 0 then Ret 0
      else if refCount (bc_buf s i) =? 0 then Ret i
      else find_free f (b_next (bc_buf s i)) s
  end.

Definition unlock_cache s : storage D := set_cache_lock (releaseLock (bc_spinlock s)) s.

Definition bcache_get (fuel : nat) (drv blk : Z) s : outcome (Z * storage D) :=
  l ← acquireLock (bc_spinlock s);
  let s := set_cache_lock l s in
  i ← find_cached fuel (bc_head s) drv blk s;
  if negb (i =? 0) then
    Ret (i, unlock_cache (upd_buf i (fun b => w_bref (u32 (refCount b + 1)) b) s))
  else
    i ← find_free fuel (bc_head s) s;
    if negb (i =? 0) then
      let s := upd_buf i (fun b => w_bref (u32 (refCount b + 1)) b) s in
      let s := upd_buf i (fun b => w_bdirty false (w_bvalid true (w_block drv blk b))) s in
      '(r, s) ← bcache_read i s;
      if negb (r =? 0) then
        Ret (0, unlock_cache (upd_buf i (fun b => w_bvalid false (w_bref 0 b)) s))
      else Ret (i, unlock_cache s)
    else Panic "No available bcache buffers!".

Definition bcache_release (buf : Z) s : outcome (storage D) :=
  l ← acquireLock (bc_spinlock s);
  let s := set_cache_lock l s in
  if refCount (bc_buf s buf) =? 0 then Ret (unlock_cache s)
  else
    let s := upd_buf buf (fun b => w_bref (u32 (refCount b - 1)) b) s in
    if refCount (bc_buf s buf) =? 0 then
      let s := upd_buf (bc_tail s) (w_bnext buf) s in
      let s := if buf =? bc_head s then set_ends (b_next (bc_buf s buf)) (bc_tail s) s else s in
      let s := if negb (b_next (bc_buf s buf) =? 0)
               then upd_buf (b_next (bc_buf s buf)) (w_bprev (b_prev (bc_buf s buf))) s else s in
      let s := if negb (b_prev (bc_buf s buf) =? 0)
               then upd_buf (b_prev (bc_buf s buf)) (w_bnext (b_next (bc_buf s buf))) s else s in
      let s := upd_buf buf (w_bprev (bc_tail s)) s in
      let s := upd_buf buf (w_bnext 0) s in
      let s := upd_buf buf (w_bvalid false) s in
      Ret (unlock_cache (set_ends (bc_head s) buf s))
    else Ret (unlock_cache s).

Fixpoint sync_loop (fuel : nat) (i : Z) s : outcome (storage D) :=
  match fuel with
  | O => OutOfFuel
  | S f =>
      if i =? 0 then Ret s
      else
        s ← (if dirty (bc_buf s i) then '(_, s) ← bcache_write i s; Ret s else Ret s);
        sync_loop f (b_next (bc_buf s i)) s
  end.

Definition sys_sync (fuel : nat) s : outcome (Z * storage D) :=
  s ← sync_loop fuel (bc_head s) s; Ret (0, s).
End Bcache.

(** What the rest of the kernel sees of the storage layer: a part of a larger state, which
    can be read and replaced. *)
Class HasStorage (X D : Type) : Type := {
  storage_of : X -> storage D;
  put_storage : storage D -> X -> X
}.
Class HasStorageLaws (X D : Type) `{HasStorage X D} : Prop := {
  storage_put : forall s x, storage_of (put_storage s x) = s;
  put_storage_of : forall x, put_storage (storage_of x) x = x
}.

(** ** The list of buffers, abstractly *)

Section Spec.
Context {D : Type}.
Implicit Types (s : storage D) (l : list Z).

Abbreviation blinked s := (dlinked (fun b => b_next (bc_buf s b)) (fun b => b_prev (bc_buf s b))).

(** The buffers in the order [l], the next to be reused first; no lock is held. *)
Record cache s l : Prop := {
  ca_head : bc_head s = first_v 0 l;
  ca_tail : bc_tail s = last_v 0 l;
  ca_links : blinked s 0 l 0;
  ca_chain : pchain l;
  ca_lock : bc_spinlock s = false;
  ca_unlocked : forall b, b ∈ l -> b_lock (bc_buf s b) = false
}.

(** [s'] differs from [s] in the buffer [b], which is now [x], and in [kerrno] and the
    hardware. *)
Record only_buf s (b : Z) (x : bcache_buf_t) s' : Prop := {
  ob_head : bc_head s' = bc_head s;
  ob_tail : bc_tail s' = bc_tail s;
  ob_lock : bc_spinlock s' = bc_spinlock s;
  ob_drives : drives s' = drives s;
  ob_buf : forall y, bc_buf s' y = if y =? b then x else bc_buf s y
}.

Lemma upd_buf_read a g s x : bc_buf (upd_buf a g s) x = if x =? a then g (bc_buf s x) else bc_buf s x.
Proof. unfold upd_buf, upd. cbn. now destruct (Z.eqb_spec x a) as [->|]. Qed.

Lemma only_buf_cache s b x s' l :
  cache s l -> b_next x = b_next (bc_buf s b) -> b_prev x = b_prev (bc_buf s b) -> b_lock x = false ->
  only_buf s b x s' -> cache s' l.
Proof.
  intros [] En Ep El []. split; try congruence.
  - eapply dlinked_frame; [|exact ca_links0]. intros y _. cbn. rewrite ob_buf0.
    destruct (Z.eqb_spec y b) as [->|]; auto.
  - intros y Hy. rewrite ob_buf0. destruct (y =? b); auto.
Qed.

(** The two searches find the first buffer of the list with the property. *)
Definition hit (drv blk : Z) s (b : Z) : bool :=
  (drive (bc_buf s b) =? drv) && (block (bc_buf s b) =? blk) && valid (bc_buf s b).
Definition unused s (b : Z) : bool := refCount (bc_buf s b) =? 0.

Lemma find_cached_spec drv blk s l : forall fuel prev,
  blinked s prev l 0 -> Forall (fun b => b <> 0) l -> (length l < fuel)%nat ->
  find_cached fuel (first_v 0 l) drv blk s = Ret (default 0 (List.find (hit drv blk s) l)).
Proof.
  induction l as [|b l IH]; intros [|f] prev Hl Hz Hf; cbn [length] in Hf; try lia; [reflexivity|].
  cbn [find_cached first_v List.find]. apply Forall_cons in Hz as [Hb Hz]. destruct Hl as (En & _ & Hl).
  rewrite (proj2 (Z.eqb_neq b 0) Hb). fold (hit drv blk s b). destruct (hit drv blk s b); [reflexivity|].
  rewrite En. apply (IH f b Hl Hz). lia.
Qed.

Lemma find_free_spec s l : forall fuel prev,
  blinked s prev l 0 -> Forall (fun b => b <> 0) l -> (length l < fuel)%nat ->
  find_free fuel (first_v 0 l) s = Ret (default 0 (List.find (unused s) l)).
Proof.
  induction l as [|b l IH]; intros [|f] prev Hl Hz Hf; cbn [length] in Hf; try lia; [reflexivity|].
  cbn [find_free first_v List.find]. apply Forall_cons in Hz as [Hb Hz]. destruct Hl as (En & _ & Hl).
  rewrite (proj2 (Z.eqb_neq b 0) Hb). fold (unused s b). destruct (unused s b); [reflexivity|].
  rewrite En. apply (IH f b Hl Hz). lia.
Qed.

Lemma find_in (f : Z -> bool) l b : List.find f l = Some b -> b ∈ l /\ f b = true.
Proof. intros E. apply List.find_some in E as [H1 H2]. split; [now apply list_elem_of_In|exact H2]. Qed.

(** Reading a block into an unlocked buffer. *)
Lemma bcache_read_spec b s :
  b_lock (bc_buf s b) = false ->
  let x := bc_buf s b in
  match d_read (drives s (drive x)) with
  | None => Returns (bcache_read b s) (fun '(r, s') =>
      r = -1 /\ dev s' = dev s /\ st_errno s' = ENOSYS /\ only_buf s b x s')
  | Some read => forall q bytes d, read (drive x) (block x) 1 (data x) (dev s) = Ret (q, bytes, d) ->
      Returns (bcache_read b s) (fun '(r, s') =>
        r = 0 /\ dev s' = d /\ st_errno s' = st_errno s /\ only_buf s b (w_bdata bytes x) s')
  end.
Proof.
  intros L x. unfold bcache_read. rewrite L. cbn [acquireLock mbind outcome_bind].
  rewrite upd_buf_read, Z.eqb_refl. cbn [drive block data w_block_lock]. fold x.
  change (drives (upd_buf b (w_block_lock true) s)) with (drives s).
  destruct (d_read (drives s (drive x))) as [read|]; [intros q bytes d E|].
  - change (dev (upd_buf b (w_block_lock true) s)) with (dev s). rewrite E. cbn [mbind outcome_bind].
    apply Returns_ret. splits; try reflexivity. split; try reflexivity. intros y. rewrite !upd_buf_read. cbn.
    unfold upd. destruct (Z.eqb_spec y b) as [->|]; [|reflexivity]. rewrite Z.eqb_refl. unfold w_bdata, w_block_lock.
    cbn. unfold releaseLock, x. rewrite <- L. now destruct (bc_buf s b).
  - apply Returns_ret. splits; try reflexivity. split; try reflexivity. intros y. rewrite !upd_buf_read. cbn.
    unfold upd. destruct (Z.eqb_spec y b) as [->|]; [|reflexivity]. rewrite Z.eqb_refl. unfold w_block_lock.
    cbn. unfold releaseLock, x. rewrite <- L. now destruct (bc_buf s b).
Qed.

(** What [bcache_get] makes of a free buffer. *)
Definition loaded (drv blk : Z) (bytes : list Z) (x : bcache_buf_t) : bcache_buf_t :=
  mk_buf true false 1 bytes blk drv (b_next x) (b_prev x) false.
Definition emptied (drv blk : Z) (x : bcache_buf_t) : bcache_buf_t :=
  mk_buf false false 0 (data x) blk drv (b_next x) (b_prev x) false.
Definition shared (x : bcache_buf_t) : bcache_buf_t := w_bref (u32 (refCount x + 1)) x.
End Spec.

(** Getting a block, case by case. *)
Lemma bcache_get_spec {D} fuel drv blk (s : storage D) l :
  cache s l -> (length l < fuel)%nat ->
  (forall read old, d_read (drives s drv) = Some read -> exists r, read drv blk 1 old (dev s) = Ret r) ->
  match List.find (hit drv blk s) l, List.find (unused s) l with
  | Some b, _ => Returns (bcache_get fuel drv blk s) (fun '(r, s') =>
      r = b /\ cache s' l /\ only_buf s b (shared (bc_buf s b)) s' /\ dev s' = dev s)
  | None, Some b => Returns (bcache_get fuel drv blk s) (fun '(r, s') =>
      cache s' l /\
      match d_read (drives s drv) with
      | Some read => exists q bytes, read drv blk 1 (data (bc_buf s b)) (dev s) = Ret (q, bytes, dev s') /\
          r = b /\ only_buf s b (loaded drv blk bytes (bc_buf s b)) s'
      | None => r = 0 /\ st_errno s' = ENOSYS /\ only_buf s b (emptied drv blk (bc_buf s b)) s'
      end)
  | None, None => bcache_get fuel drv blk s = Panic "No available bcache buffers!"
  end.
Proof.
  intros Hc Hf Hr. pose proof Hc as [Hh Ht Hl Hch Hlk Hul]. unfold bcache_get. rewrite Hlk. cbn [acquireLock mbind outcome_bind].
  change (bc_head (set_cache_lock true s)) with (bc_head s). rewrite Hh.
  rewrite (find_cached_spec drv blk (set_cache_lock true s) l fuel 0) by (exact Hl || exact (proj2 Hch) || exact Hf).
  rewrite (find_free_spec (set_cache_lock true s) l fuel 0) by (exact Hl || exact (proj2 Hch) || exact Hf).
  change (hit drv blk (set_cache_lock true s)) with (hit drv blk s).
  change (unused (set_cache_lock true s)) with (unused s). cbn [mbind outcome_bind].
  destruct (List.find (hit drv blk s) l) as [b|] eqn:E1; cbn [from_option]; unfold id.
  - apply find_in in E1 as [Hb _]. rewrite (proj2 (Z.eqb_neq b 0)) by now apply (pchain_in l). cbn [negb].
    apply Returns_ret. assert (only_buf s b (shared (bc_buf s b))
      (unlock_cache (upd_buf b (fun x => w_bref (u32 (refCount x + 1)) x) (set_cache_lock true s)))) as Ho.
    { split; try (cbn; unfold releaseLock; congruence). intros y. cbn. unfold upd. now destruct (Z.eqb_spec y b) as [->|]. }
    splits; auto. exact (only_buf_cache s b (shared (bc_buf s b)) _ l Hc eq_refl eq_refl (Hul b Hb) Ho).
  - cbn [Z.eqb negb]. destruct (List.find (unused s) l) as [b|] eqn:E2; cbn [from_option]; unfold id; [|reflexivity].
    apply find_in in E2 as [Hb Hu]. apply Z.eqb_eq in Hu. rewrite (proj2 (Z.eqb_neq b 0)) by now apply (pchain_in l). cbn [negb].
    set (s2 := upd_buf b _ (upd_buf b _ _)).
    assert (bc_buf s2 b = loaded drv blk (data (bc_buf s b)) (bc_buf s b)) as E3.
    { unfold s2. rewrite !upd_buf_read, Z.eqb_refl. cbn. rewrite Hu. unfold w_bdirty, w_bvalid, w_block, w_bref, loaded.
      cbn. now rewrite (Hul b Hb). }
    pose proof (bcache_read_spec b s2) as HR. rewrite E3 in HR. specialize (HR eq_refl). cbn [loaded drive block data] in HR.
    change (drives s2) with (drives s) in HR. change (dev s2) with (dev s) in HR.
    destruct (d_read (drives s drv)) as [read|] eqn:Er.
    + destruct (Hr read (data (bc_buf s b)) eq_refl) as ([[q bytes] d] & E).
      eapply Returns_bind; [exact (HR q bytes d E)|]. intros [r s'] (-> & E4 & _ & Ho). apply Returns_ret.
      assert (only_buf s b (loaded drv blk bytes (bc_buf s b)) (unlock_cache s')) as Ho'.
      { destruct Ho as [O1 O2 O3 O4 O5]. split; [exact O1|exact O2|now rewrite Hlk|exact O4|]. intros y. cbn. rewrite O5.
        destruct (Z.eqb_spec y b) as [->|]; [reflexivity|]. unfold s2. now rewrite !upd_buf_read, (proj2 (Z.eqb_neq y b)). }
      split; [exact (only_buf_cache s b (loaded drv blk bytes (bc_buf s b)) _ l Hc eq_refl eq_refl eq_refl Ho')|].
      exists q, bytes. cbn. rewrite E4. auto.
    + eapply Returns_bind; [exact HR|]. intros [r s'] (-> & _ & E4 & Ho). apply Returns_ret.
      assert (only_buf s b (emptied drv blk (bc_buf s b))
                (unlock_cache (upd_buf b (fun x => w_bvalid false (w_bref 0 x)) s'))) as Ho'.
      { destruct Ho as [O1 O2 O3 O4 O5]. split; [exact O1|exact O2|now rewrite Hlk|exact O4|]. intros y.
        cbn -[upd]. unfold upd. rewrite !O5, Z.eqb_refl. destruct (Z.eqb_spec y b) as [->|]; [reflexivity|].
        unfold s2. now rewrite !upd_buf_read, (proj2 (Z.eqb_neq y b)). }
      split; [exact (only_buf_cache s b (emptied drv blk (bc_buf s b)) _ l Hc eq_refl eq_refl eq_refl Ho')|]. splits; auto.
Qed.

(** C20: [bcache_get] returns, with one more reference, the buffer that holds the block if
    there is one.  Otherwise it takes the first free buffer of the list, that is the one
    released longest ago, fills it with what the drive delivers for the block and marks it
    valid, clean and used once; if the drive cannot read it returns NULL with [ENOSYS] and
    the buffer stays free.  It panics exactly when every buffer is in use.  The order of
    the buffers does not change, no other buffer is touched and all locks are free. *)
Theorem bcache_get_correct {D} fuel drv blk (s : storage D) l :
  cache s l -> (length l < fuel)%nat ->
  (forall read old, d_read (drives s drv) = Some read -> exists r, read drv blk 1 old (dev s) = Ret r) ->
  match List.find (hit drv blk s) l, List.find (unused s) l with
  | Some b, _ => Returns (bcache_get fuel drv blk s) (fun '(r, s') =>
      r = b /\ cache s' l /\ only_buf s b (shared (bc_buf s b)) s' /\ dev s' = dev s)
  | None, Some b => Returns (bcache_get fuel drv blk s) (fun '(r, s') =>
      cache s' l /\
      match d_read (drives s drv) with
      | Some read => exists q bytes, read drv blk 1 (data (bc_buf s b)) (dev s) = Ret (q, bytes, dev s') /\
          r = b /\ only_buf s b (loaded drv blk bytes (bc_buf s b)) s'
      | None => r = 0 /\ st_errno s' = ENOSYS /\ only_buf s b (emptied drv blk (bc_buf s b)) s'
      end)
  | None, None => bcache_get fuel drv blk s = Panic "No available bcache buffers!"
  end.
Proof. exact (bcache_get_spec fuel drv blk s l). Qed.

(** The buffers in the order of the array. *)
Definition all_bufs : list Z := map (fun i => Z.of_nat i + 1) (List.seq 0 30).

Lemma bcache_init_cache {D} (s : storage D) :
  bc_spinlock s = false -> (forall b, b_lock (bc_buf s b) = false) ->
  Returns (bcache_init s) (fun s' => cache s' all_bufs /\ forall b, refCount (bc_buf s' b) = refCount (bc_buf s b) /\
    valid (bc_buf s' b) = valid (bc_buf s b)).
Proof.
  intros Hl Hb. unfold bcache_init. cbn -[upd_buf]. apply Returns_ret.
  assert (forall (s1 : storage D) P, (forall b, P (bc_buf s1 b) b) ->
    forall a g, (forall x, P x a -> P (g x) a) -> forall b, P (bc_buf (upd_buf a g s1) b) b) as Inv.
  { intros s1 P H a g Hg b. rewrite upd_buf_read. destruct (Z.eqb_spec b a) as [->|]; auto. }
  set (s' := upd_buf _ _ _).
  assert (forall b, b_lock (bc_buf s' b) = false /\ refCount (bc_buf s' b) = refCount (bc_buf s b) /\
                    valid (bc_buf s' b) = valid (bc_buf s b)) as HI.
  { unfold s'. repeat (apply (Inv _ (fun x b => b_lock x = false /\ refCount x = refCount (bc_buf s b) /\ valid x = valid (bc_buf s b)));
      [|now intros x]). intros b. cbn. auto. }
  split; [|intros b; apply HI]. split; try reflexivity.
  - vm_compute. repeat split.
  - split; [|repeat constructor; discriminate]. apply (bool_decide_unpack _). vm_compute. exact I.
  - exact Hl.
  - intros b _. apply HI.
Qed.

(** ** Releasing *)

Section Release.
Context {D : Type}.
Implicit Types (s : storage D) (l : list Z).

(** The fields of a buffer that are not links. *)
Definition contents (x : bcache_buf_t) : bool * bool * Z * list Z * Z * Z :=
  (valid x, dirty x, refCount x, data x, block x, drive x).

(** The buffers after the last reference to [b], which is not at the end, is dropped. *)
Lemma release_bufs s l1 b l2 :
  cache s (l1 ++ b :: l2) -> l2 <> [] -> refCount (bc_buf s b) = 1 ->
  Returns (bcache_release b s) (fun s' =>
    bc_head s' = (if bc_head s =? b then first_v 0 l2 else bc_head s) /\ bc_tail s' = b /\ bc_spinlock s' = false /\
    (drives s' = drives s /\ dev s' = dev s) /\ forall x, bc_buf s' x =
      let y := bc_buf s x in
      if x =? b then w_bvalid false (w_bnext 0 (w_bprev (bc_tail s) (w_bref 0 y)))
      else
        let y := if x =? bc_tail s then w_bnext b y else y in
        let y := if x =? first_v 0 l2 then w_bprev (last_v 0 l1) y else y in
        if negb (last_v 0 l1 =? 0) && (x =? last_v 0 l1) then w_bnext (first_v 0 l2) y else y).
Proof.
  intros Hc Hl2 Hr. pose proof Hc as [Hh Ht Hl Hch Hlk _].
  destruct (dlinked_middle _ _ _ _ _ Hl) as [En Ep]. cbn beta in En, Ep.
  destruct (pchain_middle _ _ _ Hch) as (Hb0 & C1 & C2 & _ & Hb & _). rewrite elem_of_app in Hb.
  set (n := first_v 0 l2) in *. set (p := last_v 0 l1) in *. set (t := bc_tail s) in *.
  assert (n ∈ l2) as Hn by (unfold n; destruct l2; [contradiction|apply elem_of_cons; now left]).
  assert (t ∈ l2) as Htin.
  { rewrite Ht, last_v_app. cbn [last_v]. destruct l2 as [|w l2]; [contradiction|]. cbn [last_v]. apply last_v_in. }
  assert (n <> 0) as Hn0 by now apply (pchain_in l2).
  assert (n <> b /\ t <> b /\ p <> b) as (Hnb & Htb & Hpb).
  { pose proof (last_v_cases l1) as Cp. fold p in Cp. splits; [intros E; rewrite E in *; tauto..|].
    destruct Cp as [->|Cp]; [congruence|intros E; rewrite E in *; tauto]. }
  unfold bcache_release. rewrite Hlk. cbn [acquireLock mbind outcome_bind].
  change (bc_buf (set_cache_lock true s)) with (bc_buf s). rewrite Hr. cbn [Z.eqb].
  rewrite upd_buf_read, Z.eqb_refl. change (bc_buf (set_cache_lock true s)) with (bc_buf s). cbn [refCount w_bref].
  rewrite Hr. change (u32 (1 - 1) =? 0) with true. cbn iota.
  change (bc_tail (upd_buf _ _ (set_cache_lock true s))) with t.
  set (s1 := upd_buf t (w_bnext b) _).
  assert (forall x, bc_buf s1 x = if x =? b then w_bref 0 (bc_buf s x) else if x =? t then w_bnext b (bc_buf s x) else bc_buf s x) as E1.
  { intros x. unfold s1. rewrite !upd_buf_read. cbn [bc_buf set_cache_lock]. destruct (Z.eqb_spec x b) as [->|].
    - rewrite (proj2 (Z.eqb_neq b t)), Hr by congruence. reflexivity.
    - reflexivity. }
  set (s2 := if b =? bc_head s1 then _ else s1).
  assert (bc_buf s2 = bc_buf s1 /\ bc_tail s2 = t /\ bc_head s2 = if bc_head s =? b then n else bc_head s) as (E2 & T2 & H2).
  { unfold s2. rewrite Z.eqb_sym. change (bc_head s1) with (bc_head s). destruct (bc_head s =? b); splits; try reflexivity.
    cbn [bc_head set_ends]. rewrite E1, Z.eqb_refl. exact En. }
  rewrite E2, E1, Z.eqb_refl. cbn [b_next b_prev w_bref]. rewrite En, Ep, (proj2 (Z.eqb_neq n 0) Hn0). cbn [negb].
  rewrite upd_buf_read, (proj2 (Z.eqb_neq b n)), E2, E1, Z.eqb_refl by congruence. cbn [b_next b_prev w_bref]. rewrite En, Ep.
  set (s3 := upd_buf n (w_bprev p) s2). set (s4 := if negb (p =? 0) then upd_buf p (w_bnext n) s3 else s3).
  assert (bc_tail s4 = t /\ bc_head s4 = bc_head s2 /\ forall x, bc_buf s4 x =
    if negb (p =? 0) && (x =? p) then w_bnext n (bc_buf s3 x) else bc_buf s3 x) as (T4 & H4 & E4).
  { unfold s4. destruct (negb (p =? 0)); splits; auto. intros x. now rewrite upd_buf_read. }
  assert (drives s4 = drives s /\ dev s4 = dev s) as Hdd.
  { unfold s4, s3, s2. destruct (negb (p =? 0)), (b =? bc_head s1); split; reflexivity. }
  apply Returns_ret. cbn [bc_head bc_tail bc_spinlock unlock_cache set_cache_lock set_ends upd_buf set_bufs releaseLock].
  rewrite H4, H2. splits; try reflexivity; [apply Hdd|apply Hdd|]. intros x.
  change (bc_buf (unlock_cache _)) with
    (bc_buf (upd_buf b (w_bvalid false) (upd_buf b (w_bnext 0) (upd_buf b (w_bprev (bc_tail s4)) s4)))).
  rewrite !upd_buf_read, T4, E4. unfold s3. rewrite upd_buf_read, E2, E1. destruct (Z.eqb_spec x b) as [->|Hxb].
  - rewrite (proj2 (Z.eqb_neq b p)), andb_false_r, (proj2 (Z.eqb_neq b n)) by congruence. reflexivity.
  - destruct (_ && _), (x =? n), (x =? t); reflexivity.
Qed.
End Release.

Section Release2.
Context {D : Type}.
Implicit Types (s : storage D) (l : list Z).

Lemma release_last s l1 b l2 :
  cache s (l1 ++ b :: l2) -> l2 <> [] -> refCount (bc_buf s b) = 1 ->
  Returns (bcache_release b s) (fun s' => cache s' (l1 ++ l2 ++ [b]) /\
    (forall x, x <> b -> contents (bc_buf s' x) = contents (bc_buf s x)) /\
    refCount (bc_buf s' b) = 0 /\ valid (bc_buf s' b) = false /\ drives s' = drives s /\ dev s' = dev s).
Proof.
  intros Hc Hl2 Hr. eapply Returns_mono; [exact (release_bufs s l1 b l2 Hc Hl2 Hr)|]. intros s' (Hh' & Ht' & Hk' & Hd & Hf).
  destruct Hc as [Hh Ht Hl Hch Hlk Hul]. destruct (pchain_middle _ _ _ Hch) as (Hb0 & _ & _ & C12 & Hb & D12).
  destruct (dlinked_middle _ _ _ _ _ Hl) as [En Ep]. cbn beta in En, Ep.
  assert (last_v 0 (l1 ++ l2) = bc_tail s) as Et.
  { rewrite Ht, !last_v_app. cbn [last_v]. destruct l2; [contradiction|reflexivity]. }
  assert (bc_tail s ∈ l2) as Htin.
  { rewrite Ht, last_v_app. cbn [last_v]. destruct l2 as [|w l2]; [contradiction|]. cbn [last_v]. apply last_v_in. }
  assert (forall x, x ∈ l1 ++ l2 -> x <> b) as Hne by (intros x Hx ->; contradiction).
  assert (first_v 0 l2 <> 0) as Hn0.
  { apply (pchain_in _ _ C12), elem_of_app. right. destruct l2; [contradiction|apply elem_of_cons; now left]. }
  rewrite app_assoc. split; [split|].
  - rewrite Hh', Hh, <- first_v_remove by exact Hch. rewrite (first_v_app 0 (l1 ++ l2) [b]). destruct (l1 ++ l2) eqn:E; [|reflexivity].
    apply app_eq_nil in E as [_ E]. contradiction.
  - now rewrite Ht', last_v_app.
  - apply (dlinked_snoc
      (fun x => if negb (last_v 0 l1 =? 0) && (x =? last_v 0 l1) then first_v 0 l2 else b_next (bc_buf s x))
      (fun x => if negb (first_v 0 l2 =? 0) && (x =? first_v 0 l2) then last_v 0 l1 else b_prev (bc_buf s x))); auto.
    + apply (dlinked_remove _ _ _ _ _ _ _ Hl Hch); intros x _; now rewrite En, Ep.
    + now rewrite Hf, Z.eqb_refl.
    + now rewrite Hf, Z.eqb_refl, Et.
    + intros x Hx. rewrite Hf, (proj2 (Z.eqb_neq x b)) by now apply Hne. rewrite Et.
      rewrite (proj2 (Z.eqb_neq (first_v 0 l2) 0)) by exact Hn0.
      cbn [negb andb]. destruct (Z.eqb_spec x (last_v 0 l1)) as [E|]; [|rewrite andb_false_r; destruct (x =? first_v 0 l2), (x =? bc_tail s); auto].
      rewrite andb_true_r. destruct (Z.eqb_spec (last_v 0 l1) 0) as [E0|E0]; cbn [negb].
      * destruct (pchain_in _ _ C12 Hx). congruence.
      * rewrite (proj2 (Z.eqb_neq x (bc_tail s))); [destruct (x =? first_v 0 l2); auto|].
        intros Ex. destruct (last_v_cases l1) as [|Hin]; [congruence|]. apply (D12 _ Hin). congruence.
  - now apply pchain_snoc.
  - exact Hk'.
  - intros x Hx. rewrite Hf. apply elem_of_app in Hx as [Hx|Hx%list_elem_of_singleton].
    + rewrite (proj2 (Z.eqb_neq x b)) by now apply Hne.
      assert (b_lock (bc_buf s x) = false) as E.
      { apply Hul. rewrite elem_of_app in *. destruct Hx; [now left|right; apply elem_of_cons; now right]. }
      destruct (_ && _), (x =? first_v 0 l2), (x =? bc_tail s); exact E.
    + rewrite Hx, Z.eqb_refl. apply Hul. apply elem_of_app. right. apply elem_of_cons. now left.
  - splits; [|rewrite Hf, Z.eqb_refl; reflexivity..|apply Hd|apply Hd]. intros x Hx. rewrite Hf, (proj2 (Z.eqb_neq x b) Hx).
    destruct (_ && _), (x =? first_v 0 l2), (x =? bc_tail s); reflexivity.
Qed.

(** ** One block at a time

    How the rest of the kernel uses the cache: nothing is in use, a block is taken, looked
    at and released. *)
Definition quiet s (b : Z) : Prop := refCount (bc_buf s b) = 0 /\ valid (bc_buf s b) = false.
Definition idle s l : Prop := cache s l /\ (1 < length l)%nat /\ Forall (quiet s) l.
Definition held s b l : Prop := cache s (b :: l) /\ l <> [] /\ refCount (bc_buf s b) = 1 /\ Forall (quiet s) l.

(** The drive has [cap] blocks and delivers those of [disk]: there is an invariant of the
    hardware under which reading a block works, and which it keeps. *)
Definition serves s (drv cap : Z) (disk : Z -> list Z) : Prop :=
  exists read (I : D -> Prop), d_read (drives s drv) = Some read /\ I (dev s) /\
    forall blk old d, 0 <= blk < cap -> I d -> exists q d', read drv blk 1 old d = Ret (q, disk blk, d') /\ I d'.

Lemma serves_ext s s' drv cap disk :
  d_read (drives s' drv) = d_read (drives s drv) -> dev s' = dev s -> serves s drv cap disk -> serves s' drv cap disk.
Proof. intros E1 E2 (read & I & H1 & H2 & H3). exists read, I. rewrite E1, E2. auto. Qed.

Lemma idle_get fuel drv blk s b l cap disk :
  idle s (b :: l) -> (length (b :: l) < fuel)%nat -> serves s drv cap disk -> 0 <= blk < cap ->
  Returns (bcache_get fuel drv blk s) (fun '(r, s') =>
    r = b /\ b <> 0 /\ held s' b l /\ data (bc_buf s' b) = disk blk /\ drives s' = drives s /\ serves s' drv cap disk).
Proof.
  intros (Hc & Hlen & Hq) Hf (read & I & Er & HI & Hread) Hblk. pose proof (bcache_get_spec fuel drv blk s (b :: l) Hc Hf) as HG.
  rewrite Er in HG. specialize (HG ltac:(intros r0 old [= <-]; destruct (Hread blk old (dev s) Hblk HI) as (q & d' & E & _); eauto)).
  assert (List.find (hit drv blk s) (b :: l) = None) as E1.
  { destruct (List.find _ _) as [x|] eqn:E; [|reflexivity]. apply find_in in E as [Hx Hh].
    rewrite Forall_forall in Hq. destruct (Hq x Hx) as [_ V]. unfold hit in Hh. rewrite V, andb_false_r in Hh. discriminate. }
  assert (List.find (unused s) (b :: l) = Some b) as E2.
  { cbn. unfold unused. apply Forall_cons in Hq as [[-> _] _]. reflexivity. }
  rewrite E1, E2 in HG. eapply Returns_mono; [exact HG|]. intros [r s'] (Hc' & q & bytes & E & -> & Ho).
  destruct (Hread blk (data (bc_buf s b)) (dev s) Hblk HI) as (q' & d' & E' & HI'). rewrite E in E'. injection E' as _ -> Ed.
  pose proof (ca_chain _ _ Hc) as Hch. destruct Ho as [_ _ _ O4 O5]. splits; auto.
  - apply (pchain_in _ _ Hch). apply elem_of_cons. now left.
  - unfold held. rewrite O5, Z.eqb_refl. splits; auto; [intros ->; cbn in Hlen; lia|].
    apply Forall_cons in Hq as [_ Hq]. rewrite Forall_forall in *. intros x Hx. unfold quiet. rewrite O5.
    rewrite (proj2 (Z.eqb_neq x b)); [now apply Hq|]. intros ->. destruct Hch as [Hnd _]. apply NoDup_cons in Hnd. tauto.
  - now rewrite O5, Z.eqb_refl.
  - exists read, I. rewrite O4, Ed. auto.
Qed.

Lemma held_release s b l :
  held s b l -> Returns (bcache_release b s) (fun s' => idle s' (l ++ [b]) /\ drives s' = drives s /\ dev s' = dev s).
Proof.
  intros (Hc & Hl & Hr & Hq). eapply Returns_mono; [exact (release_last s [] b l Hc Hl Hr)|].
  intros s' (Hc' & Hx & Hr' & Hv & Hd1 & Hd2). splits; auto. unfold idle. splits; auto.
  - rewrite length_app. destruct l; [contradiction|cbn; lia].
  - apply Forall_app. split; [|repeat constructor; assumption]. rewrite Forall_forall in *. intros x Hin.
    assert (x <> b) as Hne by (intros ->; destruct (ca_chain _ _ Hc) as [Hnd _]; apply NoDup_cons in Hnd; tauto).
    pose proof (Hx x Hne) as E. unfold contents in E. injection E as Ev _ Er _ _ _.
    unfold quiet. rewrite Ev, Er. now apply Hq.
Qed.

(** Only the drives have changed. *)
Lemma held_drives s b l f : held s b l -> held (set_drives f s) b l.
Proof. intros ([] & H1 & H2 & H3). split; [now split|auto]. Qed.

(** Only the hardware has changed. *)
Lemma idle_dev s l d : idle s l -> idle (set_dev d s) l.
Proof. intros ([] & H1 & H2). split; [now split|auto]. Qed.
End Release2.

(** [bcache_release] drops one reference.  When it was the last one, and the buffer is
    not already the last of the list, the buffer becomes the most recently used one: it
    moves to the end, no longer valid, and the others keep their order.  A buffer without
    references is left alone.  The contents of the other buffers do not change, and no
    lock is held afterwards. *)
Theorem bcache_release_correct {D} (s : storage D) l1 b l2 :
  cache s (l1 ++ b :: l2) -> 0 <= refCount (bc_buf s b) < 2 ^ 32 -> (refCount (bc_buf s b) = 1 -> l2 <> []) ->
  Returns (bcache_release b s) (fun s' =>
    (forall x, x <> b -> contents (bc_buf s' x) = contents (bc_buf s x)) /\
    refCount (bc_buf s' b) = Z.max 0 (refCount (bc_buf s b) - 1) /\
    if refCount (bc_buf s b) =? 1
    then cache s' (l1 ++ l2 ++ [b]) /\ valid (bc_buf s' b) = false
    else cache s' (l1 ++ b :: l2) /\ valid (bc_buf s' b) = valid (bc_buf s b)).
Proof.
  intros Hc Hr Hl2. destruct (Z.eqb_spec (refCount (bc_buf s b)) 1) as [E|E].
  - eapply Returns_mono; [exact (release_last s l1 b l2 Hc (Hl2 E) E)|]. intros s' (A1 & A2 & A3 & A4 & _).
    splits; auto. rewrite A3, E. reflexivity.
  - pose proof Hc as [_ _ _ _ Hlk Hul].
    assert (b_lock (bc_buf s b) = false) as Hb by (apply Hul, elem_of_app; right; apply elem_of_cons; now left).
    unfold bcache_release. rewrite Hlk. cbn [acquireLock mbind outcome_bind].
    change (bc_buf (set_cache_lock true s)) with (bc_buf s). destruct (Z.eqb_spec (refCount (bc_buf s b)) 0) as [E0|E0].
    + apply Returns_ret. splits; auto; [cbn; rewrite E0; reflexivity|]. destruct Hc. split; auto.
    + rewrite upd_buf_read, Z.eqb_refl. cbn [refCount w_bref bc_buf set_cache_lock].
      rewrite wrap_small, (proj2 (Z.eqb_neq _ 0)) by lia. apply Returns_ret.
      assert (only_buf s b (w_bref (refCount (bc_buf s b) - 1) (bc_buf s b))
                (unlock_cache (upd_buf b (fun x => w_bref (u32 (refCount x - 1)) x) (set_cache_lock true s)))) as Ho.
      { split; try (cbn; unfold releaseLock; congruence). intros y. cbn. unfold upd.
        destruct (Z.eqb_spec y b) as [->|]; [|reflexivity]. now rewrite wrap_small by lia. }
      pose proof (only_buf_cache s b (w_bref (refCount (bc_buf s b) - 1) (bc_buf s b)) _ _ Hc eq_refl eq_refl Hb Ho) as Hc'.
      destruct Ho as [_ _ _ _ Ho]. splits; auto.
      * intros x Hx. now rewrite Ho, (proj2 (Z.eqb_neq x b) Hx).
      * rewrite Ho, Z.eqb_refl. cbn. lia.
      * now rewrite Ho, Z.eqb_refl.
Qed.

(** A drive whose blocks hold their own number, and the empty cache in front of it. *)
Definition drive_demo : drive_t unit :=
  mk_drive false 1 0 (Some (fun _ lba _ _ d => Ret (0, [lba], d))) None 1 [mk_part 64 127 0 false 0 true] false 0.

Definition storage_demo : storage unit :=
  mk_stor 0 0 (fun _ => mk_buf false false 0 [] 0 0 0 0 false) false (fun _ => drive_demo) tt 0.

Lemma storage_demo_cache : Returns (bcache_init storage_demo) (fun s => cache s all_bufs /\
  List.find (hit 7 5 s) all_bufs = None /\ List.find (unused s) all_bufs = Some 1 /\
  (forall drv, d_read (drives s drv) = d_read drive_demo)).
Proof.
  destruct (bcache_init_cache storage_demo eq_refl (fun _ => eq_refl)) as (s & E & Hc & _).
  exists s. split; [exact E|]. vm_compute in E. injection E as <-. splits; try reflexivity. exact Hc.
Qed.

Lemma bcache_get_correct_witness :
  Returns (bcache_init storage_demo) (fun s =>
    Returns (bcache_get 31 7 5 s) (fun '(r, s') => r = 1 /\ cache s' all_bufs /\ data (bc_buf s' 1) = [5])).
Proof.
  destruct storage_demo_cache as (s & E & Hc & E1 & E2 & E3). exists s. split; [exact E|].
  assert (forall read old, d_read (drives s 7) = Some read -> exists r, read 7 5 1 old (dev s) = Ret r) as Hr.
  { rewrite E3. cbn. intros read old [= <-]. eauto. }
  pose proof (bcache_get_correct 31 7 5 s all_bufs Hc ltac:(cbn; lia) Hr) as HG. rewrite E1, E2, E3 in HG.
  eapply Returns_mono; [exact HG|]. intros [r s'] (Hc' & q & bytes & [= <- <- _] & -> & Ho). splits; auto.
  now rewrite (ob_buf _ _ _ _ Ho).
Defined.

(** Buffer 1 holds block 5 and is in use. *)
Definition storage_used : storage unit :=
  mk_stor 1 3 (fun b => if b =? 1 then mk_buf true false 1 [5] 5 7 2 0 false
                        else if b =? 2 then mk_buf false false 0 [] 0 0 3 1 false
                        else mk_buf false false 0 [] 0 0 0 2 false) false (fun _ => drive_demo) tt 0.

Lemma bcache_release_correct_witness :
  Returns (bcache_release 1 storage_used) (fun s' => cache s' [2; 3; 1] /\ valid (bc_buf s' 1) = false).
Proof.
  eapply Returns_mono; [apply (bcache_release_correct storage_used [] 1 [2; 3])|].
  - split; try reflexivity.
    + vm_compute. repeat split.
    + split; [apply (bool_decide_unpack _); vm_compute; exact I|repeat constructor; discriminate].
    + intros b Hb. cbn. now destruct (b =? 1), (b =? 2).
  - cbn. lia.
  - discriminate.
  - intros s' (_ & _ & H). exact H.
Defined.

(** The buffers reached from the head. *)
Fixpoint walk {D} (fuel : nat) (i : Z) (s : storage D) : list Z :=
  match fuel with
  | O => []
  | S f => if i =? 0 then [] else i :: walk f (b_next (bc_buf s i)) s
  end.

(** Releasing the buffer at the end of the list leaves its back link pointing to itself;
    when it is released a second time the buffers behind it drop out of the list.  All
    thirty buffers are taken, the last one and the first one are released, the last one is
    taken and released once more: the first one is lost. *)
Theorem bcache_release_tail_loses_buffer :
  Returns (bcache_init storage_demo) (fun s =>
    Returns (for_up 30 1 (fun i s => '(_, s) ← bcache_get 31 7 i s; Ret s) s) (fun s =>
      Returns (bcache_release 30 s ≫= bcache_release 1) (fun s =>
        walk 40 (bc_head s) s = map Z.of_nat (List.seq 2 29) ++ [1] /\
        Returns (bcache_get 31 7 99 s) (fun '(r, s) => r = 30 /\
          Returns (bcache_release 30 s) (fun s => walk 40 (bc_head s) s = map Z.of_nat (List.seq 2 29)))))).
Proof.
  repeat (eexists; split; [vm_compute; reflexivity|]; repeat split; try reflexivity).
Qed.
