(* ===== verification/Time.v ===== *)
(** * Time ([kernel/sys/time.c])

    The kernel's clock, and the conversion between calendar dates and seconds since 1970.
    Types as in [include/garn/time.h]: [int] arithmetic is done at 32 bits, and a division
    of two [int]s rounds towards zero. *)

From S2P Require Import Prelude.
#[local] Open Scope Z_scope.

Record systime_t : Type := mk_systime {
  seconds : Z;
  minutes : Z;
  hours : Z;
  dayOfMonth : Z;
  month : Z;
  year : Z
}.

(** [timespec_t] and [timespec64_t] differ in the width of [sec]. *)
Record timespec_t : Type := mk_timespec { sec : Z; nsec : Z }.
Record timespec64_t : Type := mk_timespec64 { sec64 : Z; nsec64 : Z }.

(** ** The clock: the state is [kernelTime] *)

Definition time_set (time : timespec_t) (kernelTime : timespec64_t) : timespec64_t :=
  mk_timespec64 (u64 (sec time)) (nsec time).
Definition time_set64 (time kernelTime : timespec64_t) : timespec64_t := time.
Definition time_get (kernelTime : timespec64_t) : timespec_t := mk_timespec (u32 (sec64 kernelTime)) (nsec64 kernelTime).
Definition time_get64 (kernelTime : timespec64_t) : timespec64_t := kernelTime.

(** ** Dates *)

Definition _time_days_from_civil (y m d : Z) : Z :=
  let y := i32 (y - if m <=? 2 then 1 else 0) in
  let era := Z.quot (if y >=? 0 then y else i32 (y - 399)) 400 in
  let yoe := i32 (y - i32 (era * 400)) in
  let doy := i32 (Z.quot (i32 (153 * (if m >? 2 then m - 3 else m + 9) + 2)) 5 + d - 1) in
  let doe := i32 (i32 (yoe * 365) + Z.quot yoe 4 - Z.quot yoe 100 + doy) in
  i32 (i32 (era * 146097) + doe - 719468).

Definition _time_civil_from_days (daysSinceEpoch : Z) : Z * Z * Z :=
  let time := u64 (daysSinceEpoch + 719468) in
  let era := i32 (time / 146097) in
  let doe := u32 (time - i32 (era * 146097)) in
  let yoe := u32 (doe - doe / 1460 + doe / 36524 - doe / 146096) / 365 in
  let y := i32 (yoe + u32 (i32 (era * 400))) in
  let doy := u32 (doe - u32 (365 * yoe + yoe / 4 - yoe / 100)) in
  let mp := u32 (5 * doy + 2) / 153 in
  let d := u32 (doy - u32 (153 * mp + 2) / 5 + 1) in
  let m := u32 (mp + if mp <? 10 then 3 else -9) in
  (i32 (y + if m <=? 2 then 1 else 0), m, d).

Definition time_conv_to_unix64 (time : systime_t) : timespec64_t :=
  let days := _time_days_from_civil (i32 (year time)) (month time) (dayOfMonth time) in
  mk_timespec64
    (u64 (i32 (i32 (days * 86400) + i32 (hours time * 60 * 60) + i32 (minutes time * 60) + seconds time))) 0.

Definition time_conv_to_unix (time : systime_t) : timespec_t :=
  let timespec64 := time_conv_to_unix64 time in
  mk_timespec (u32 (sec64 timespec64)) (nsec64 timespec64).

Definition time_conv_to_systime64 (time : timespec64_t) : systime_t :=
  let unixtime := sec64 time in
  let daysSinceEpoch := i64 (unixtime / (60 * 60 * 24)) in
  let '(y, m, d) := _time_civil_from_days daysSinceEpoch in
  mk_systime (u8 (unixtime mod 60)) (u8 ((unixtime / 60) mod 60)) (u8 ((unixtime / (60 * 60)) mod 24))
    (u8 d) (u8 m) (u64 y).

(** ** The calendar *)

Definition leap (y : Z) : bool := (y mod 4 =? 0) && (negb (y mod 100 =? 0) || (y mod 400 =? 0)).
Definition length_in (lp : bool) (m : Z) : Z :=
  if m =? 2 then (if lp then 29 else 28)
  else if (m =? 4) || (m =? 6) || (m =? 9) || (m =? 11) then 30 else 31.
Definition month_length (y m : Z) : Z := length_in (leap y) m.
Definition valid_date (y m d : Z) : bool :=
  (1 <=? m) && (m <=? 12) && (1 <=? d) && (d <=? month_length y m).

(** The day after a date. *)
Definition next_day (y m d : Z) : Z * Z * Z :=
  if d <? month_length y m then (y, m, d + 1)
  else if m <? 12 then (y, m + 1, 1) else (y + 1, 1, 1).

(** [f] holds of [z], [z + 1], ..., [n] values in all. *)
Fixpoint all_from (n : nat) (z : Z) (f : Z -> bool) : bool :=
  match n with
  | O => true
  | S n' => if f z then all_from n' (z + 1) f else false
  end.

Lemma all_from_spec n : forall z f, all_from n z f = true -> forall i, z <= i < z + Z.of_nat n -> f i = true.
Proof.
  induction n as [|n IH]; intros z f Ha i Hi; [lia|]. cbn in Ha. destruct (f z) eqn:E; [|discriminate].
  destruct (Z.eq_dec i z) as [->|Hne]; [exact E|]. apply (IH (z + 1)); [exact Ha|lia].
Qed.

Definition date_eqb (a b : Z * Z * Z) : bool :=
  let '(y, m, d) := a in let '(y', m', d') := b in (y =? y') && (m =? m') && (d =? d').

Lemma date_eqb_eq a b : date_eqb a b = true <-> a = b.
Proof.
  destruct a as [[y m] d], b as [[y' m'] d']. cbn. rewrite !andb_true_iff, !Z.eqb_eq. intuition congruence.
Qed.

(** ** One era of 400 years, by evaluation *)

(** Year of the era, day of the year (from March on), month (March is 0) and day of a day
    of the era, in unbounded arithmetic. *)
Definition yoe_of (doe : Z) : Z := (doe - doe / 1460 + doe / 36524 - doe / 146096) / 365.
Definition doy_of (doe : Z) : Z := let y := yoe_of doe in doe - (365 * y + y / 4 - y / 100).
Definition mp_of (doy : Z) : Z := (5 * doy + 2) / 153.
Definition date_of (era doe : Z) : Z * Z * Z :=
  let doy := doy_of doe in
  let mp := mp_of doy in
  let m := if mp <? 10 then mp + 3 else mp - 9 in
  (yoe_of doe + era * 400 + (if m <=? 2 then 1 else 0), m, doy - (153 * mp + 2) / 5 + 1).

(** The first day of a year of the era, and the length of the year, which begins in March
    and has the leap day of the following calendar year. *)
Definition year_start (y : Z) : Z := 365 * y + y / 4 - y / 100.
Definition year_length (y : Z) : Z := if leap (y + 1) then 366 else 365.

Definition year_check (y : Z) : bool :=
  let s := if y =? 399 then 146097 else year_start (y + 1) in
  (s =? year_start y + year_length y) && (yoe_of (year_start y) =? y) && (yoe_of (s - 1) =? y).

Lemma year_checked y : 0 <= y < 400 -> year_check y = true.
Proof.
  assert (all_from 400 0 year_check = true) as H by (vm_compute; reflexivity).
  intros Hy. apply (all_from_spec _ _ _ H). lia.
Qed.

Lemma year_start_next y : 0 <= y < 400 ->
  (if y =? 399 then 146097 else year_start (y + 1)) = year_start y + year_length y /\
  yoe_of (year_start y) = y /\ yoe_of (year_start y + year_length y - 1) = y.
Proof.
  intros Hy. apply year_checked in Hy. unfold year_check in Hy. rewrite !andb_true_iff, !Z.eqb_eq in Hy.
  destruct Hy as ((H1 & H2) & H3). rewrite H1 in H3. auto.
Qed.

Lemma yoe_of_mono a b : 0 <= a <= b -> b < 146097 -> yoe_of a <= yoe_of b.
Proof.
  intros Hab Hb. unfold yoe_of. apply Z.div_le_mono; [lia|].
  replace b with (a + Z.of_nat (Z.to_nat (b - a))) in * by lia. generalize dependent (Z.to_nat (b - a)). intros n Hab Hb.
  clear Hab. induction n as [|n IH]; [rewrite Z.add_0_r; lia|]. etransitivity; [apply IH; lia|].
  rewrite Nat2Z.inj_succ. dm.
Qed.

Lemma era_split doe : 0 <= doe < 146097 -> exists y k, 0 <= y < 400 /\ 0 <= k < year_length y /\ doe = year_start y + k.
Proof.
  intros Hd. assert (forall n : nat, (n < 400)%nat -> doe < (if Z.of_nat n =? 399 then 146097 else year_start (Z.of_nat n + 1)) ->
    exists y k, 0 <= y < 400 /\ 0 <= k < year_length y /\ doe = year_start y + k) as H.
  - induction n as [|n IH]; intros Hn Hlt.
    + exists 0, doe. change (doe < 365) in Hlt. change (year_length 0) with 365. change (year_start 0) with 0. lia.
    + destruct (Z.lt_ge_cases doe (year_start (Z.of_nat (S n)))) as [Hl|Hl].
      * apply IH; [lia|]. destruct (Z.eqb_spec (Z.of_nat n) 399); [lia|].
        now replace (Z.of_nat n + 1) with (Z.of_nat (S n)) by lia.
      * exists (Z.of_nat (S n)), (doe - year_start (Z.of_nat (S n))).
        destruct (year_start_next (Z.of_nat (S n)) ltac:(lia)) as (E' & _). lia.
  - apply (H 399%nat); [lia|]. change (doe < 146097). lia.
Qed.

Lemma yoe_doy y k : 0 <= y < 400 -> 0 <= k < year_length y ->
  yoe_of (year_start y + k) = y /\ doy_of (year_start y + k) = k.
Proof.
  intros Hy Hk. destruct (year_start_next y Hy) as (E & E1 & E2).
  assert (year_start y + year_length y <= 146097) as Hb.
  { rewrite <- E. destruct (Z.eqb_spec y 399); [lia|]. unfold year_start. dm. }
  assert (0 <= year_start y) as Hs by (unfold year_start; dm).
  assert (yoe_of (year_start y + k) = y) as Ey.
  { apply Z.le_antisymm; [rewrite <- E2 at 2|rewrite <- E1 at 1]; apply yoe_of_mono; lia. }
  split; [exact Ey|]. unfold doy_of. rewrite Ey. unfold year_start. lia.
Qed.

(** The months and days of a year that begins in March. *)
Definition md_of (k : Z) : Z * Z :=
  let mp := mp_of k in (if mp <? 10 then mp + 3 else mp - 9, k - (153 * mp + 2) / 5 + 1).

Definition day_check (lp : bool) (k : Z) : bool :=
  let '(m, d) := md_of k in
  let '(m', d') := md_of (k + 1) in
  (1 <=? m) && (m <=? 12) && (1 <=? d) && (d <=? length_in (if m <=? 2 then lp else false) m) &&
  (mp_of k <=? 11) && (0 <=? mp_of k) &&
  if k =? (if lp then 365 else 364) then (m =? 2) && (d =? length_in lp 2)
  else if d <? length_in (if m <=? 2 then lp else false) m then (m' =? m) && (d' =? d + 1)
  else (d' =? 1) && (if m <? 12 then (m' =? m + 1) && negb (m =? 2) else m' =? 1).

Lemma day_checked (lp : bool) k : 0 <= k < (if lp then 366 else 365) -> day_check lp k = true.
Proof.
  intros Hk. destruct lp.
  - assert (all_from 366 0 (day_check true) = true) as H by (vm_compute; reflexivity).
    apply (all_from_spec _ _ _ H). lia.
  - assert (all_from 365 0 (day_check false) = true) as H by (vm_compute; reflexivity).
    apply (all_from_spec _ _ _ H). lia.
Qed.

(** Taking the checks apart. *)
Ltac unfold_check H :=
  repeat match type of H with
  | (_ && _) = true => let H' := fresh H in apply andb_true_iff in H as [H H']
  end.

Lemma length_in_other a b m : m <> 2 -> length_in a m = length_in b m.
Proof. intros Hm. unfold length_in. now rewrite (proj2 (Z.eqb_neq m 2) Hm). Qed.

Lemma length_in_le a m : length_in a m <= 31.
Proof. unfold length_in. repeat case_match; lia. Qed.

Lemma leap_era y era : leap (y + era * 400) = leap y.
Proof.
  unfold leap. rewrite Z_mod_plus_full.
  replace (y + era * 400) with (y + (era * 100) * 4) by lia. rewrite Z_mod_plus_full.
  replace (y + era * 100 * 4) with (y + (era * 4) * 100) by lia. now rewrite Z_mod_plus_full.
Qed.

(** The length of a month of the year that begins in March of [y]. *)
Lemma month_length_era y era m :
  month_length (y + era * 400 + (if m <=? 2 then 1 else 0)) m = length_in (if m <=? 2 then leap (y + 1) else false) m.
Proof.
  unfold month_length. destruct (Z.leb_spec m 2).
  - replace (y + era * 400 + 1) with (y + 1 + era * 400) by lia. now rewrite leap_era.
  - apply length_in_other. lia.
Qed.

Lemma date_of_valid y k era :
  0 <= y < 400 -> 0 <= k < year_length y ->
  let '(m, d) := md_of k in
  date_of era (year_start y + k) = (y + era * 400 + (if m <=? 2 then 1 else 0), m, d) /\
  valid_date (y + era * 400 + (if m <=? 2 then 1 else 0)) m d = true /\ 1 <= m <= 12 /\ 1 <= d <= 31 /\
  0 <= mp_of k <= 11.
Proof.
  intros Hy Hk. destruct (yoe_doy y k Hy Hk) as [E1 E2].
  pose proof (day_checked (leap (y + 1)) k Hk) as HC. unfold day_check in HC. unfold date_of. rewrite E1, E2.
  change (if mp_of k <? 10 then mp_of k + 3 else mp_of k - 9) with (fst (md_of k)).
  change (k - (153 * mp_of k + 2) / 5 + 1) with (snd (md_of k)).
  destruct (md_of k) as [m d], (md_of (k + 1)) as [m' d']. cbn [fst snd].
  unfold_check HC. apply Z.leb_le in HC1, HC2, HC3, HC4, HC5, HC. split; [reflexivity|].
  pose proof (length_in_le (if m <=? 2 then leap (y + 1) else false) m). unfold valid_date.
  rewrite month_length_era, !andb_true_iff, !Z.leb_le. lia.
Qed.

(** The day after. *)
Lemma date_of_next y k era :
  0 <= y < 400 -> 0 <= k < year_length y ->
  (if year_start y + k =? 146096 then date_of (era + 1) 0 else date_of era (year_start y + k + 1)) =
  let '(Y, m, d) := date_of era (year_start y + k) in next_day Y m d.
Proof.
  intros Hy Hk. destruct (year_start_next y Hy) as (Es & _ & _).
  pose proof (day_checked (leap (y + 1)) k Hk) as HC. unfold day_check in HC.
  pose proof (date_of_valid y k era Hy Hk) as HD. destruct (md_of k) as [m d] eqn:Em. destruct HD as (-> & _).
  destruct (md_of (k + 1)) as [m' d'] eqn:Em'. unfold_check HC. unfold next_day. rewrite month_length_era.
  assert ((if leap (y + 1) then 365 else 364) = year_length y - 1) as Ey by (unfold year_length; destruct (leap _); lia).
  rewrite Ey in HC0. destruct (Z.eqb_spec k (year_length y - 1)) as [Ek|Ek].
  - apply andb_true_iff in HC0 as [E1 E2]. apply Z.eqb_eq in E1, E2. subst m d. cbn [Z.leb Z.compare].
    change (2 <=? 2) with true. cbn iota. rewrite Z.ltb_irrefl. change (2 <? 12) with true. cbn iota.
    destruct (Z.eqb_spec y 399) as [->|Hne].
    + rewrite (proj2 (Z.eqb_eq _ _)) by lia. change (date_of (era + 1) 0) with (0 + (era + 1) * 400 + 0, 3, 1). f_equal. f_equal. lia.
    + assert (year_start (y + 1) < 146097).
      { destruct (year_start_next (y + 1) ltac:(lia)) as (E & _). unfold year_start. dm. }
      rewrite (proj2 (Z.eqb_neq _ _)) by lia. replace (year_start y + k + 1) with (year_start (y + 1) + 0) by lia.
      assert (0 <= 0 < year_length (y + 1)) as H0 by (unfold year_length; destruct (leap (y + 1 + 1)); lia).
      pose proof (date_of_valid (y + 1) 0 era ltac:(lia) H0) as HD. change (md_of 0) with (3, 1) in HD. destruct HD as (-> & _).
      f_equal. f_equal. change (3 <=? 2) with false. cbn iota. lia.
  - rewrite (proj2 (Z.eqb_neq _ _)).
    2: { intros E. destruct (Z.eqb_spec y 399); [lia|]. unfold year_start, year_length in *. destruct (leap (y + 1)); dm. }
    rewrite <- Z.add_assoc. pose proof (date_of_valid y (k + 1) era Hy ltac:(lia)) as HD. rewrite Em' in HD. destruct HD as (-> & _).
    destruct (d <? _).
    + apply andb_true_iff in HC0 as [E1 E2]. apply Z.eqb_eq in E1, E2. now subst.
    + apply andb_true_iff in HC0 as [E1 E2]. apply Z.eqb_eq in E1. subst d'. destruct (Z.ltb_spec m 12).
      * apply andb_true_iff in E2 as [E2 E3]. apply Z.eqb_eq in E2. subst m'. apply negb_true_iff, Z.eqb_neq in E3.
        f_equal. f_equal. destruct (Z.leb_spec m 2), (Z.leb_spec (m + 1) 2); lia.
      * apply Z.eqb_eq in E2. subst m'. f_equal. f_equal. rewrite (proj2 (Z.leb_gt m 2)) by lia. change (1 <=? 2) with true. cbn iota. lia.
Qed.

(** ** The code, at its widths *)

(** Days up to the year 2,000,000; 719468 days lie between 1 March of the year 0 and the
    epoch. *)
Definition DAYS : Z := 5000 * 146097.

Lemma civil_from_days_model t : 0 <= t < DAYS ->
  _time_civil_from_days (t - 719468) = date_of (t / 146097) (t mod 146097).
Proof.
  unfold DAYS. intros Ht. set (era := t / 146097). set (doe := t mod 146097).
  assert (0 <= era < 5000 /\ 0 <= doe < 146097 /\ t = era * 146097 + doe) as (He & Hd & Et) by (unfold era, doe; dm).
  destruct (era_split doe Hd) as (y & k & Hy & Hk & Es). destruct (yoe_doy y k Hy Hk) as [E1 E2]. rewrite <- Es in E1, E2.
  pose proof (date_of_valid y k era Hy Hk) as HV. unfold md_of in HV. cbv beta iota zeta in HV.
  destruct HV as (_ & _ & Hm & Hday & Hmp). assert (year_length y <= 366) by (unfold year_length; destruct (leap _); lia).
  unfold _time_civil_from_days. replace (t - 719468 + 719468) with t by lia. rewrite (wrap_small 64 t) by lia. fold era.
  rewrite (swrap_small 32 era), (swrap_small 32 (era * 146097)), (swrap_small 32 (era * 400)) by lia.
  replace (t - era * 146097) with doe by lia. rewrite (wrap_small 32 doe) by lia.
  rewrite (wrap_small 32 (doe - _ + _ - _)) by dm. fold (yoe_of doe). rewrite E1.
  rewrite (wrap_small 32 (365 * y + _ - _)) by dm.
  replace (doe - (365 * y + y / 4 - y / 100)) with k by (unfold year_start in Es; lia).
  rewrite (wrap_small 32 k), (wrap_small 32 (5 * k + 2)) by lia. fold (mp_of k).
  rewrite (wrap_small 32 (153 * mp_of k + 2)), (wrap_small 32 (k - _ + 1)), (wrap_small 32 (era * 400)) by lia.
  rewrite (swrap_small 32 (y + era * 400)) by lia. unfold date_of. rewrite E1, E2.
  replace (u32 (mp_of k + (if mp_of k <? 10 then 3 else -9))) with (if mp_of k <? 10 then mp_of k + 3 else mp_of k - 9).
  2: { rewrite wrap_small; destruct (Z.ltb_spec (mp_of k) 10); lia. }
  rewrite (swrap_small 32); [reflexivity|lia|]. destruct (_ <=? 2); lia.
Qed.

(** Shifting a date by the eras. *)
Lemma days_from_civil_model era doe y m d :
  0 <= era < 5000 -> 0 <= doe < 146097 -> date_of era doe = (y, m, d) ->
  _time_days_from_civil y m d = era * 146097 + doe - 719468.
Proof.
  intros He Hd HD. destruct (era_split doe Hd) as (y0 & k & Hy & Hk & ->).
  pose proof (date_of_valid y0 k era Hy Hk) as HV. unfold md_of in HV. cbv beta iota zeta in HV.
  destruct HV as (E & _ & Hm & Hday & Hmp). rewrite E in HD. injection HD as <- <- <-. clear E.
  assert (year_length y0 <= 366) by (unfold year_length; destruct (leap _); lia).
  set (m := if mp_of k <? 10 then _ else _) in *. set (b := if m <=? 2 then 1 else 0).
  unfold _time_days_from_civil. fold b. replace (y0 + era * 400 + b - b) with (y0 + era * 400) by lia.
  rewrite (swrap_small 32 (y0 + era * 400)), Z.geb_leb, (proj2 (Z.leb_le 0 _)) by lia.
  replace (Z.quot (y0 + era * 400) 400) with era by (rewrite Z.quot_div_nonneg by lia; dm).
  rewrite (swrap_small 32 (era * 400)), (swrap_small 32 (era * 146097)) by lia.
  replace (y0 + era * 400 - era * 400) with y0 by lia. rewrite (swrap_small 32 y0), (swrap_small 32 (y0 * 365)) by lia.
  replace (if m >? 2 then m - 3 else m + 9) with (mp_of k).
  2: { unfold m. rewrite Z.gtb_ltb. destruct (Z.ltb_spec (mp_of k) 10); [rewrite (proj2 (Z.ltb_lt _ _))|rewrite (proj2 (Z.ltb_ge _ _))]; lia. }
  rewrite (swrap_small 32 (153 * mp_of k + 2)) by lia. rewrite !Z.quot_div_nonneg by lia.
  replace ((153 * mp_of k + 2) / 5 + (k - (153 * mp_of k + 2) / 5 + 1) - 1) with k by lia.
  unfold year_start in *. rewrite (swrap_small 32 k), (swrap_small 32 (y0 * 365 + _ - _ + _)) by dm.
  rewrite swrap_small by dm. lia.
Qed.

Lemma civil_days n : - 719468 <= n < DAYS - 719468 ->
  let '(y, m, d) := _time_civil_from_days n in
  valid_date y m d = true /\ _time_days_from_civil y m d = n /\ 1 <= m <= 12 /\ 1 <= d <= 31 /\ 0 <= y <= 2000000.
Proof.
  intros Hn. pose proof (civil_from_days_model (n + 719468) ltac:(lia)) as E.
  replace (n + 719468 - 719468) with n in E by lia. rewrite E.
  assert (0 <= (n + 719468) / 146097 < 5000 /\ 0 <= (n + 719468) mod 146097 < 146097) as [He Hd] by (unfold DAYS in Hn; dm).
  set (era := (n + 719468) / 146097) in *. set (doe := (n + 719468) mod 146097) in *.
  assert (n + 719468 = era * 146097 + doe) as Et by (unfold era, doe; dm).
  destruct (date_of era doe) as [[y m] d] eqn:Ed.
  pose proof (days_from_civil_model era doe y m d He Hd Ed) as Hb.
  destruct (era_split doe Hd) as (y0 & k & Hy & Hk & Es). pose proof (date_of_valid y0 k era Hy Hk) as HV. rewrite <- Es in HV.
  destruct (md_of k) as [m0 d0]. rewrite Ed in HV. destruct HV as ([= -> -> ->] & HV & Hm & Hday & _).
  splits; auto; try lia; destruct (_ <=? 2); lia.
Qed.

Lemma civil_next n : - 719468 <= n < DAYS - 719468 - 1 ->
  _time_civil_from_days (n + 1) = let '(y, m, d) := _time_civil_from_days n in next_day y m d.
Proof.
  unfold DAYS. intros Hn. set (t := n + 719468).
  pose proof (civil_from_days_model t ltac:(unfold t, DAYS; lia)) as E. replace (t - 719468) with n in E by (unfold t; lia).
  pose proof (civil_from_days_model (t + 1) ltac:(unfold t, DAYS; lia)) as E'. replace (t + 1 - 719468) with (n + 1) in E' by (unfold t; lia).
  rewrite E, E'. assert (0 <= t mod 146097 < 146097) as Hd by dm.
  destruct (era_split (t mod 146097) Hd) as (y & k & Hy & Hk & Es). rewrite Es.
  rewrite <- (date_of_next y k (t / 146097) Hy Hk), <- Es. destruct (Z.eqb_spec (t mod 146097) 146096).
  - f_equal; dm.
  - f_equal; dm.
Qed.

(** C21: the conversion of day numbers is the Gregorian calendar, from 1 March of the year
    0 to about the year 2,000,000: day 0 is 1 January 1970, each day has a valid date, the
    date of the next day is the next date of the calendar, and the date converts back to
    the day. *)
Theorem time_civil_correct n : - 719468 <= n < DAYS - 719468 - 1 ->
  _time_civil_from_days 0 = (1970, 1, 1) /\
  let '(y, m, d) := _time_civil_from_days n in
  valid_date y m d = true /\ _time_civil_from_days (n + 1) = next_day y m d /\ _time_days_from_civil y m d = n.
Proof.
  intros Hn. split; [reflexivity|]. pose proof (civil_next n Hn) as E. pose proof (civil_days n ltac:(lia)) as H.
  destruct (_time_civil_from_days n) as [[y m] d]. destruct H as (H1 & H2 & _). auto.
Qed.

Lemma time_civil_correct_witness :
  _time_civil_from_days 19782 = (2024, 2, 29) /\ valid_date 2024 2 29 = true /\
  _time_civil_from_days 19783 = next_day 2024 2 29 /\ _time_days_from_civil 2024 2 29 = 19782.
Proof. split; [vm_compute; reflexivity|]. apply (time_civil_correct 19782). unfold DAYS. lia. Defined.

(** Seconds since the epoch survive the conversion to a date and back, exactly up to
    the end of the 32-bit range in 2038; the first second after it comes back as a time
    before the epoch. *)
Theorem time_unix_roundtrip s n : 0 <= s < 2 ^ 31 ->
  time_conv_to_unix64 (time_conv_to_systime64 (mk_timespec64 s n)) = mk_timespec64 s 0 /\
  sec64 (time_conv_to_unix64 (time_conv_to_systime64 (mk_timespec64 (2 ^ 31) n))) = 2 ^ 64 - 2 ^ 31.
Proof.
  intros Hs. split; [|vm_compute; reflexivity]. unfold time_conv_to_systime64. cbn [sec64].
  change (60 * 60 * 24) with 86400. change (60 * 60) with 3600.
  assert (0 <= s / 86400 < 24856) as Hd by dm.
  rewrite (swrap_small 64 (s / 86400)) by (pow2_consts; lia).
  pose proof (civil_days (s / 86400) ltac:(unfold DAYS; lia)) as H.
  destruct (_time_civil_from_days (s / 86400)) as [[y m] d]. destruct H as (_ & Eb & Hm & Hday & Hy).
  unfold time_conv_to_unix64. cbn [year month dayOfMonth hours minutes seconds].
  rewrite (wrap_small 64 y), (wrap_small 8 m), (wrap_small 8 d), (swrap_small 32 y), Eb by (pow2_consts; lia).
  rewrite (wrap_small 8 (s mod 60)), (wrap_small 8 ((s / 60) mod 60)), (wrap_small 8 ((s / 3600) mod 24)) by (pow2_consts; dm).
  rewrite (swrap_small 32 (s / 86400 * 86400)), (swrap_small 32 (_ * 60 * 60)), (swrap_small 32 (_ * 60)) by (pow2_consts; dm).
  assert (s / 86400 * 86400 + (s / 3600) mod 24 * 60 * 60 + (s / 60) mod 60 * 60 + s mod 60 = s) as -> by dm.
  rewrite swrap_small, wrap_small by (pow2_consts; lia). reflexivity.
Qed.

Lemma time_unix_roundtrip_witness :
  time_conv_to_systime64 (mk_timespec64 1709210096 0) = mk_systime 56 34 12 29 2 2024 /\
  time_conv_to_unix64 (time_conv_to_systime64 (mk_timespec64 1709210096 0)) = mk_timespec64 1709210096 0.
Proof. split; [vm_compute; reflexivity|]. apply (time_unix_roundtrip 1709210096 0). lia. Defined.
