(* ===== verification/Term.v ===== *)
(** * Framebuffer and terminal ([kernel/display/fb.c], [kernel/sys/term/term.c],
    [kernel/sys/term/cursor/cursor.c])

    The framebuffer and its copy are byte memory.  The font is a table of one byte per
    row of a glyph, an argument here.  What goes to the debug port and to the serial port
    is the output [t_out], oldest first. *)

From S2P Require Import Prelude MemUtil Bytes.
#[local] Open Scope Z_scope.

Definition GLYPH_X : Z := 8.
Definition GLYPH_Y : Z := 16.

Record framebuffer_info_t : Type := mk_fbinfo {
  fb_address : Z;
  fb_readAddress : Z;
  fb_pitch : Z;
  fb_width : Z;
  fb_height : Z;
  fb_bpp : Z;
  fb_size : Z
}.

Inductive port : Type := Debugcon | Serial.

Record cursor_t : Type := mk_cursor { posX : Z; posY : Z }.

(** [term_context_t], the framebuffer, video memory and the two ports. *)
Record term_context_t : Type := mk_tc {
  escape : bool;
  escapeCSI : bool;
  enabled : bool;
  escapeOffset : Z;
  escArgs : list Z;
  escArgsCount : Z;
  foregroundColour : Z;
  backgroundColour : Z;
  cursor : cursor_t;
  t_lock : spinlock_t;
  t_fb : framebuffer_info_t;
  t_fbLock : spinlock_t;
  t_mem : mem;
  t_out : list (port * Z)
}.
Implicit Types (s : term_context_t).

Definition set_tlock (l : spinlock_t) s : term_context_t :=
  mk_tc (escape s) (escapeCSI s) (enabled s) (escapeOffset s) (escArgs s) (escArgsCount s) (foregroundColour s)
    (backgroundColour s) (cursor s) l (t_fb s) (t_fbLock s) (t_mem s) (t_out s).
Definition set_escape (e c : bool) (o : Z) s : term_context_t :=
  mk_tc e c (enabled s) o (escArgs s) (escArgsCount s) (foregroundColour s)
    (backgroundColour s) (cursor s) (t_lock s) (t_fb s) (t_fbLock s) (t_mem s) (t_out s).
Definition set_args (l : list Z) (n : Z) s : term_context_t :=
  mk_tc (escape s) (escapeCSI s) (enabled s) (escapeOffset s) l n (foregroundColour s)
    (backgroundColour s) (cursor s) (t_lock s) (t_fb s) (t_fbLock s) (t_mem s) (t_out s).
Definition set_enabled (b : bool) s : term_context_t :=
  mk_tc (escape s) (escapeCSI s) b (escapeOffset s) (escArgs s) (escArgsCount s) (foregroundColour s)
    (backgroundColour s) (cursor s) (t_lock s) (t_fb s) (t_fbLock s) (t_mem s) (t_out s).
Definition set_colours (f b : Z) s : term_context_t :=
  mk_tc (escape s) (escapeCSI s) (enabled s) (escapeOffset s) (escArgs s) (escArgsCount s) f
    b (cursor s) (t_lock s) (t_fb s) (t_fbLock s) (t_mem s) (t_out s).
Definition cursor_set (x y : Z) s : term_context_t :=
  mk_tc (escape s) (escapeCSI s) (enabled s) (escapeOffset s) (escArgs s) (escArgsCount s) (foregroundColour s)
    (backgroundColour s) (mk_cursor x y) (t_lock s) (t_fb s) (t_fbLock s) (t_mem s) (t_out s).
Definition set_fbmem (m : mem) s : term_context_t :=
  mk_tc (escape s) (escapeCSI s) (enabled s) (escapeOffset s) (escArgs s) (escArgsCount s) (foregroundColour s)
    (backgroundColour s) (cursor s) (t_lock s) (t_fb s) (t_fbLock s) m (t_out s).
Definition set_fblock (l : spinlock_t) s : term_context_t :=
  mk_tc (escape s) (escapeCSI s) (enabled s) (escapeOffset s) (escArgs s) (escArgsCount s) (foregroundColour s)
    (backgroundColour s) (cursor s) (t_lock s) (t_fb s) l (t_mem s) (t_out s).
Definition set_fb (f : framebuffer_info_t) s : term_context_t :=
  mk_tc (escape s) (escapeCSI s) (enabled s) (escapeOffset s) (escArgs s) (escArgsCount s) (foregroundColour s)
    (backgroundColour s) (cursor s) (t_lock s) f (t_fbLock s) (t_mem s) (t_out s).
Definition emit (p : port) (c : Z) s : term_context_t :=
  mk_tc (escape s) (escapeCSI s) (enabled s) (escapeOffset s) (escArgs s) (escArgsCount s) (foregroundColour s)
    (backgroundColour s) (cursor s) (t_lock s) (t_fb s) (t_fbLock s) (t_mem s) (t_out s ++ [(p, u8 c)]).
Definition x_of s : Z := posX (cursor s).
Definition y_of s : Z := posY (cursor s).

(** ** The framebuffer *)

(** Pixels per line; dividing by the bytes per pixel traps when there are less than 8
    bits. *)
Definition line_pixels (f : framebuffer_info_t) : outcome Z :=
  if fb_bpp f / 8 =? 0 then Fault else Ret (fb_pitch f / (fb_bpp f / 8)).

Definition put_pixel (i colour : Z) s : term_context_t :=
  let m := store32 (fb_address (t_fb s) + 4 * i) colour (t_mem s) in
  set_fbmem (store32 (fb_readAddress (t_fb s) + 4 * i) colour m) s.

Definition fb_pixel (x y colour : Z) s : outcome term_context_t :=
  let f := t_fb s in
  if (x >=? fb_width f) || (y >=? fb_height f) then Ret s
  else
    l ← acquireLock (t_fbLock s);
    let s := set_fblock l s in
    n ← line_pixels f;
    let s := put_pixel (u32 (y * n + x)) colour s in
    Ret (set_fblock (releaseLock (t_fbLock s)) s).

Definition fb_clear (colour : Z) s : outcome term_context_t :=
  l ← acquireLock (t_fbLock s);
  let s := set_fblock l s in
  n ← line_pixels (t_fb s);
  s ← for_up (Z.to_nat (fb_height (t_fb s))) 0 (fun i s =>
        for_up (Z.to_nat n) 0 (fun j s => Ret (put_pixel (u32 (n * i + j)) colour s)) s) s;
  Ret (set_fblock (releaseLock (t_fbLock s)) s).

(** [address], [bpp], [pitch] and [height] are what the boot loader reports. *)
Definition fb_init (address bpp pitch height : Z) s : outcome term_context_t :=
  if bpp / 8 =? 0 then Fault
  else Ret (set_fb (mk_fbinfo address address (u32 pitch) (u32 (pitch / (bpp / 8))) (u32 height) (u16 bpp)
                      (u64 (height * pitch))) s).

Definition term_clear s : outcome term_context_t :=
  s ← fb_clear (backgroundColour s) s; Ret (cursor_set 0 0 s).

(** [copy] is the address of the new copy. *)
Definition fb_read_init (copy : Z) s : outcome term_context_t :=
  let f := t_fb s in
  let s := set_fb (mk_fbinfo (fb_address f) copy (fb_pitch f) (fb_width f) (fb_height f) (fb_bpp f) (fb_size f)) s in
  term_clear (set_fbmem (memset copy 0 (u32 (fb_height f * fb_pitch f)) (t_mem s)) s).

(** ** Scrolling and glyphs *)

Fixpoint fill_words (n : nat) (i a colour : Z) (m : mem) : mem :=
  match n with
  | O => m
  | S n' => fill_words n' (i + 1) a colour (store32 (a + 4 * i) colour m)
  end.

Definition term_scroll (pix : Z) s : term_context_t :=
  let f := t_fb s in
  let rows := u32 (fb_pitch f * pix) in
  let kept := u64 (fb_size f - rows) in
  let m := memcpy (fb_readAddress f) (u64 (rows + fb_readAddress f)) kept (t_mem s) in
  let last := u64 (kept + fb_readAddress f) in
  let m := memset last 255 rows m in
  let m := fill_words (Z.to_nat (u32 (fb_width f * pix))) 0 last (backgroundColour s) m in
  set_fbmem (memcpy (fb_address f) (fb_readAddress f) (fb_size f) m) s.

Section Term.
(** The glyphs. *)
Variable font : Z -> Z.

Definition glyph_bit (chr dy dx : Z) : bool :=
  negb (Z.land (font (u8 chr * GLYPH_Y + dy)) (Z.shiftr 128 dx) =? 0).

(** The loops run to [posY+GLYPH_Y] and [posX+GLYPH_X] at 32 bits. *)
Definition term_char (chr : Z) s : outcome term_context_t :=
  let x := x_of s in
  let y := y_of s in
  for_up (Z.to_nat (u32 (y + GLYPH_Y) - y)) y (fun i s =>
    for_up (Z.to_nat (u32 (x + GLYPH_X) - x)) x (fun j s =>
      s ← fb_pixel j i (backgroundColour s) s;
      if glyph_bit chr (i - y) (j - x) then fb_pixel j i (foregroundColour s) s else Ret s) s) s.

(** ** The cursor *)

Definition cursor_advance s : term_context_t :=
  let f := t_fb s in
  if u32 (x_of s + GLYPH_X) >=? fb_width f then
    if u32 (y_of s + GLYPH_Y) >? u32 (fb_height f - GLYPH_Y) then
      let s := term_scroll GLYPH_Y s in cursor_set 0 (y_of s) s
    else cursor_set 0 (u32 (y_of s + GLYPH_Y)) s
  else cursor_set (u32 (x_of s + GLYPH_X)) (y_of s) s.

Definition cursor_newline s : term_context_t :=
  let f := t_fb s in
  if u32 (y_of s + GLYPH_Y) >? u32 (fb_height f - GLYPH_Y) then
    let s := term_scroll GLYPH_Y s in cursor_set 0 (y_of s) s
  else cursor_set (x_of s) (u32 (y_of s + GLYPH_Y)) s.

Definition cursor_return s : term_context_t := cursor_set 0 (y_of s) s.

Definition cursor_backspace s : outcome term_context_t :=
  if i32 (x_of s) - GLYPH_X >=? 0 then
    term_char 32 (cursor_set (u32 (x_of s - GLYPH_X)) (y_of s) s)
  else
    let w := fb_width (t_fb s) in
    s ← term_char 32 (cursor_set (u32 (w - GLYPH_X)) (u32 (y_of s - GLYPH_Y)) s);
    Ret (cursor_set (u32 (w - GLYPH_X)) (u32 (y_of s - GLYPH_Y)) s).

(** ** Characters *)

Definition CURSOR_GLYPH : Z := 219.
Definition ch_newline : Z := 10.
Definition ch_return : Z := 13.
Definition ch_escape : Z := 27.
Definition ch_backspace : Z := 8.

(** The output to the debug port and the serial port. *)
Definition emit_char (chr : Z) s : term_context_t :=
  let s := emit Serial chr (emit Debugcon chr s) in
  if chr =? ch_newline then emit Serial ch_return s else s.

(** The cases for a new line, a carriage return and a printed character. *)
Definition do_newline s : outcome term_context_t :=
  s ← term_char 0 s; term_char CURSOR_GLYPH (cursor_return (cursor_newline s)).
Definition do_return s : outcome term_context_t := term_char CURSOR_GLYPH (cursor_return s).
Definition do_print (chr : Z) s : outcome term_context_t :=
  s ← term_char chr s; term_char CURSOR_GLYPH (cursor_advance s).

Definition term_putchar_raw (chr : Z) s : outcome term_context_t :=
  if negb (enabled s) then Ret s
  else
    let s := emit_char chr s in
    if chr =? ch_newline then do_newline s
    else if chr =? ch_return then do_return s
    else do_print chr s.

(** ** Escape sequences *)

Definition col256 : list Z := [
    0x000000; 0x00005f; 0x000087; 0x0000af; 0x0000d7; 0x0000ff; 0x005f00; 0x005f5f;
    0x005f87; 0x005faf; 0x005fd7; 0x005fff; 0x008700; 0x00875f; 0x008787; 0x0087af;
    0x0087d7; 0x0087ff; 0x00af00; 0x00af5f; 0x00af87; 0x00afaf; 0x00afd7; 0x00afff;
    0x00d700; 0x00d75f; 0x00d787; 0x00d7af; 0x00d7d7; 0x00d7ff; 0x00ff00; 0x00ff5f;
    0x00ff87; 0x00ffaf; 0x00ffd7; 0x00ffff; 0x5f0000; 0x5f005f; 0x5f0087; 0x5f00af;
    0x5f00d7; 0x5f00ff; 0x5f5f00; 0x5f5f5f; 0x5f5f87; 0x5f5faf; 0x5f5fd7; 0x5f5fff;
    0x5f8700; 0x5f875f; 0x5f8787; 0x5f87af; 0x5f87d7; 0x5f87ff; 0x5faf00; 0x5faf5f;
    0x5faf87; 0x5fafaf; 0x5fafd7; 0x5fafff; 0x5fd700; 0x5fd75f; 0x5fd787; 0x5fd7af;
    0x5fd7d7; 0x5fd7ff; 0x5fff00; 0x5fff5f; 0x5fff87; 0x5fffaf; 0x5fffd7; 0x5fffff;
    0x870000; 0x87005f; 0x870087; 0x8700af; 0x8700d7; 0x8700ff; 0x875f00; 0x875f5f;
    0x875f87; 0x875faf; 0x875fd7; 0x875fff; 0x878700; 0x87875f; 0x878787; 0x8787af;
    0x8787d7; 0x8787ff; 0x87af00; 0x87af5f; 0x87af87; 0x87afaf; 0x87afd7; 0x87afff;
    0x87d700; 0x87d75f; 0x87d787; 0x87d7af; 0x87d7d7; 0x87d7ff; 0x87ff00; 0x87ff5f;
    0x87ff87; 0x87ffaf; 0x87ffd7; 0x87ffff; 0xaf0000; 0xaf005f; 0xaf0087; 0xaf00af;
    0xaf00d7; 0xaf00ff; 0xaf5f00; 0xaf5f5f; 0xaf5f87; 0xaf5faf; 0xaf5fd7; 0xaf5fff;
    0xaf8700; 0xaf875f; 0xaf8787; 0xaf87af; 0xaf87d7; 0xaf87ff; 0xafaf00; 0xafaf5f;
    0xafaf87; 0xafafaf; 0xafafd7; 0xafafff; 0xafd700; 0xafd75f; 0xafd787; 0xafd7af;
    0xafd7d7; 0xafd7ff; 0xafff00; 0xafff5f; 0xafff87; 0xafffaf; 0xafffd7; 0xafffff;
    0xd70000; 0xd7005f; 0xd70087; 0xd700af; 0xd700d7; 0xd700ff; 0xd75f00; 0xd75f5f;
    0xd75f87; 0xd75faf; 0xd75fd7; 0xd75fff; 0xd78700; 0xd7875f; 0xd78787; 0xd787af;
    0xd787d7; 0xd787ff; 0xd7af00; 0xd7af5f; 0xd7af87; 0xd7afaf; 0xd7afd7; 0xd7afff;
    0xd7d700; 0xd7d75f; 0xd7d787; 0xd7d7af; 0xd7d7d7; 0xd7d7ff; 0xd7ff00; 0xd7ff5f;
    0xd7ff87; 0xd7ffaf; 0xd7ffd7; 0xd7ffff; 0xff0000; 0xff005f; 0xff0087; 0xff00af;
    0xff00d7; 0xff00ff; 0xff5f00; 0xff5f5f; 0xff5f87; 0xff5faf; 0xff5fd7; 0xff5fff;
    0xff8700; 0xff875f; 0xff8787; 0xff87af; 0xff87d7; 0xff87ff; 0xffaf00; 0xffaf5f;
    0xffaf87; 0xffafaf; 0xffafd7; 0xffafff; 0xffd700; 0xffd75f; 0xffd787; 0xffd7af;
    0xffd7d7; 0xffd7ff; 0xffff00; 0xffff5f; 0xffff87; 0xffffaf; 0xffffd7; 0xffffff;
    0x080808; 0x121212; 0x1c1c1c; 0x262626; 0x303030; 0x3a3a3a; 0x444444; 0x4e4e4e;
    0x585858; 0x626262; 0x6c6c6c; 0x767676; 0x808080; 0x8a8a8a; 0x949494; 0x9e9e9e;
    0xa8a8a8; 0xb2b2b2; 0xbcbcbc; 0xc6c6c6; 0xd0d0d0; 0xdadada; 0xe4e4e4; 0xeeeeee
  ].

(** [escArgs[i]], for [i] inside the array. *)
Definition arg s (i : nat) : Z := nth i (escArgs s) 0.

(** The colour an SGR sequence asks for, if it does; the table has 240 entries. *)
Definition sgr_colour s : outcome (option Z) :=
  if arg s 1 =? 5 then
    match nth_error col256 (Z.to_nat (arg s 2)) with Some c => Ret (Some c) | None => Fault end
  else if arg s 1 =? 2 then Ret (Some (u32 (Z.shiftl (arg s 2) 16 + Z.shiftl (arg s 3) 8 + arg s 4)))
  else Ret None.

Definition term_sgr s : outcome term_context_t :=
  s ← (if arg s 0 =? 38 then c ← sgr_colour s; Ret (set_colours (default (foregroundColour s) c) (backgroundColour s) s)
       else if arg s 0 =? 48 then c ← sgr_colour s; Ret (set_colours (foregroundColour s) (default (backgroundColour s) c) s)
       else Ret s);
  term_char CURSOR_GLYPH s.

Definition reset_escape s : term_context_t := set_args (repeat 0 16) 0 (set_escape false false 0 s).

(** A digit behind the seventeenth parameter is stored outside of the array. *)
Definition term_handle_esc (chr : Z) s : outcome term_context_t :=
  if escapeOffset s =? 1 then
    Ret (if chr =? 91 then set_escape (escape s) true (escapeOffset s) s else s)
  else if (48 <=? chr) && (chr <=? 57) then
    if escArgsCount s =? 16 then Ret s
    else if 16 <? escArgsCount s then Fault
    else
      let i := Z.to_nat (escArgsCount s) in
      Ret (set_args (<[i := u8 (u8 (arg s i * 10) + (chr - 48))]> (escArgs s)) (escArgsCount s) s)
  else if chr =? 59 then Ret (set_args (escArgs s) (u8 (escArgsCount s + 1)) s)
  else
    s ← (if chr =? 64 then for_up (Z.to_nat (arg s 0)) 0 (fun _ s => term_putchar_raw 32 s) s
         else if chr =? 109 then term_sgr s
         else if chr =? 74 then
           if (escArgsCount s =? 0) && (arg s 0 =? 2) then term_clear s else Ret s
         else Ret s);
    Ret (reset_escape s).

Definition unlock_term s : term_context_t := set_tlock (releaseLock (t_lock s)) s.

Definition term_putchar (chr : Z) s : outcome (Z * term_context_t) :=
  if chr =? 0 then Ret (0, s)
  else if negb (enabled s) then Ret (0, s)
  else
    l ← acquireLock (t_lock s);
    let s := emit_char chr (set_tlock l s) in
    if escape s then
      let s := set_escape (escape s) (escapeCSI s) (u16 (escapeOffset s + 1)) s in
      s ← term_handle_esc chr s; Ret (0, unlock_term s)
    else
      s ← (if chr =? ch_newline then do_newline s
           else if chr =? ch_return then do_return s
           else if chr =? ch_escape then Ret (set_escape true (escapeCSI s) (escapeOffset s) s)
           else if chr =? ch_backspace then
             s ← term_char 0 s;
             s ← cursor_backspace (unlock_term s);
             term_char CURSOR_GLYPH s
           else do_print chr s);
      Ret (chr, unlock_term s).

Definition term_putchar_dbg (chr : Z) s : outcome (Z * term_context_t) :=
  l ← acquireLock (t_lock s);
  Ret (chr, unlock_term (emit_char chr (set_tlock l s))).

(** [term_print] and [term_print_dbg] of a string; [put] is the character function. *)
Fixpoint print_loop (put : Z -> term_context_t -> outcome (Z * term_context_t)) (str : list Z) (chars : Z) s
    : outcome (Z * term_context_t) :=
  match str with
  | [] => Ret (chars, s)
  | c :: str' => '(_, s) ← put c s; print_loop put str' (chars + 1) s
  end.
Definition term_print (str : list Z) s : outcome (Z * term_context_t) := print_loop term_putchar str 0 s.
Definition term_print_dbg (str : list Z) s : outcome (Z * term_context_t) := print_loop term_putchar_dbg str 0 s.

Definition term_get_colour (foreback : bool) s : Z := if foreback then backgroundColour s else foregroundColour s.
Definition term_set_colour (colour : Z) (foreback : bool) s : term_context_t :=
  if foreback then set_colours (foregroundColour s) colour s else set_colours colour (backgroundColour s) s.
Definition term_disable s : term_context_t := set_enabled false s.
Definition term_enable s : term_context_t := set_enabled true s.

(** What [term_init] does to the terminal, before it turns the kernel's output on. *)
Definition reset_terminal s : outcome term_context_t :=
  s ← term_clear (set_colours 0xffffffff 0 s);
  Ret (set_enabled true (set_escape false false 0 s)).

(** Writing the [size] characters at [buf] of memory [m] to the terminal device. *)
Definition term_write_as_file (size buf : Z) (m : mem) s : outcome (Z * term_context_t) :=
  s ← for_up (Z.to_nat size) 0 (fun i s => '(_, s) ← term_putchar (i8 (m (buf + i))) s; Ret s) s;
  Ret (size, s).
End Term.

(** ** The picture on the screen *)

(** A usable framebuffer: 32 bits per pixel, lines without padding, at least one glyph in
    each direction; the copy is the framebuffer itself or lies apart from it. *)
Record fb_ok (f : framebuffer_info_t) : Prop := {
  fo_bpp : fb_bpp f = 32;
  fo_pitch : fb_pitch f = 4 * fb_width f;
  fo_width : GLYPH_X <= fb_width f < 2 ^ 30;
  fo_height : GLYPH_Y <= fb_height f < 2 ^ 30;
  fo_size : fb_size f = 4 * (fb_width f * fb_height f);
  fo_small : fb_width f * fb_height f < 2 ^ 30;
  fo_addr : 0 <= fb_readAddress f /\ fb_readAddress f + fb_size f < 2 ^ 64;
  fo_apart : fb_address f = fb_readAddress f \/ fb_address f + fb_size f <= fb_readAddress f \/
             fb_readAddress f + fb_size f <= fb_address f
}.

Definition on_screen (f : framebuffer_info_t) (x y : Z) : Prop := 0 <= x < fb_width f /\ 0 <= y < fb_height f.

(** The pixels are in the framebuffer, which is what is seen on the screen, and in the copy
    of it that is read. *)
Inductive plane : Type := Visible | Copy.
Definition plane_base (f : framebuffer_info_t) (p : plane) : Z := match p with Visible => fb_address f | Copy => fb_readAddress f end.

(** The colour of a pixel. *)
Definition pixel (f : framebuffer_info_t) (p : plane) (m : mem) (x y : Z) : Z := load32 (plane_base f p + 4 * (y * fb_width f + x)) m.

Lemma pixel_index f x y : fb_ok f -> on_screen f x y -> 0 <= y * fb_width f + x < fb_width f * fb_height f.
Proof. intros [] [Hx Hy]. nia. Qed.

Lemma pixel_index_inj f x y a b : fb_ok f -> on_screen f x y -> on_screen f a b ->
  y * fb_width f + x = b * fb_width f + a -> x = a /\ y = b.
Proof. intros _ [Hx Hy] [Ha Hb] E. assert (y = b) by nia. split; [nia|assumption]. Qed.

Lemma set_fbmem_twice m m' s : set_fbmem m (set_fbmem m' s) = set_fbmem m s.
Proof. reflexivity. Qed.

Lemma set_fbmem_same s : set_fbmem (t_mem s) s = s.
Proof. now destruct s. Qed.

(** A pixel on the screen changes, nothing else; a pixel outside is ignored. *)
Lemma fb_pixel_spec x y c s :
  fb_ok (t_fb s) -> t_fbLock s = false -> 0 <= x -> 0 <= y -> 0 <= c < 2 ^ 32 ->
  Returns (fb_pixel x y c s) (fun s' => s' = set_fbmem (t_mem s') s /\
    forall p a b, on_screen (t_fb s) a b ->
      pixel (t_fb s) p (t_mem s') a b = if (a =? x) && (b =? y) then c else pixel (t_fb s) p (t_mem s) a b).
Proof.
  intros Hf Hl Hx Hy Hc. unfold fb_pixel. rewrite !Z.geb_leb.
  destruct (Z.leb_spec (fb_width (t_fb s)) x) as [H1|H1]; cbn [orb].
  { apply Returns_ret. split; [symmetry; apply set_fbmem_same|]. intros p a b [Ha Hb].
    rewrite (proj2 (Z.eqb_neq a x)) by lia. reflexivity. }
  destruct (Z.leb_spec (fb_height (t_fb s)) y) as [H2|H2].
  { apply Returns_ret. split; [symmetry; apply set_fbmem_same|]. intros p a b [Ha Hb].
    rewrite (proj2 (Z.eqb_neq b y)), andb_false_r by lia. reflexivity. }
  rewrite Hl. cbn [acquireLock mbind outcome_bind]. unfold line_pixels. rewrite (fo_bpp _ Hf), (fo_pitch _ Hf).
  change (32 / 8) with 4. change (4 =? 0) with false. cbn iota. cbn [mbind outcome_bind].
  replace (4 * fb_width (t_fb s) / 4) with (fb_width (t_fb s)) by dm.
  assert (on_screen (t_fb s) x y) as Hon by (split; lia). pose proof (pixel_index _ x y Hf Hon) as Hi.
  rewrite wrap_small by (pose proof (fo_small _ Hf); lia). apply Returns_ret. split.
  - destruct s. cbn in *. now subst.
  - intros p a b Hab. pose proof (pixel_index _ a b Hf Hab) as Hj. unfold pixel. cbn [put_pixel set_fbmem set_fblock t_mem t_fb].
    pose proof (fo_apart _ Hf). pose proof (fo_size _ Hf).
    destruct ((a =? x) && (b =? y)) eqn:E.
    + apply andb_true_iff in E as [E1%Z.eqb_eq E2%Z.eqb_eq]. subst.
      destruct p; cbn [plane_base]; [|autorewrite with words; apply Z.mod_small; lia].
      destruct (Z.eq_dec (fb_address (t_fb s)) (fb_readAddress (t_fb s))) as [->|Hne]; [|rewrite load_store_other by lia];
        autorewrite with words; apply Z.mod_small; lia.
    + assert (b * fb_width (t_fb s) + a <> y * fb_width (t_fb s) + x) as Hne.
      { intros E2. destruct (pixel_index_inj _ a b x y Hf Hab Hon E2) as [-> ->]. now rewrite !Z.eqb_refl in E. }
      rewrite load_store_other by (destruct p; cbn [plane_base]; lia). apply load_store_other. destruct p; cbn [plane_base]; lia.
Qed.

(** What a glyph with its corner at [(x, y)] makes of the picture. *)
Definition in_cell (x y a b : Z) : bool := (x <=? a) && (a <? x + GLYPH_X) && (y <=? b) && (b <? y + GLYPH_Y).
Definition drawn (font : Z -> Z) (chr x y fg bg a b : Z) : Z := if glyph_bit font chr (b - y) (a - x) then fg else bg.

(** The fields a drawing operation leaves alone. *)
Record term_ok s : Prop := {
  to_fb : fb_ok (t_fb s);
  to_fblock : t_fbLock s = false;
  to_x : 0 <= x_of s < fb_width (t_fb s);
  to_y : 0 <= y_of s <= fb_height (t_fb s) - GLYPH_Y;
  to_fg : 0 <= foregroundColour s < 2 ^ 32;
  to_bg : 0 <= backgroundColour s < 2 ^ 32;
  to_args : length (escArgs s) = 16%nat
}.

Lemma term_char_spec font chr s : term_ok s ->
  Returns (term_char font chr s) (fun s' => s' = set_fbmem (t_mem s') s /\
    forall p a b, on_screen (t_fb s) a b -> pixel (t_fb s) p (t_mem s') a b =
      if in_cell (x_of s) (y_of s) a b
      then drawn font chr (x_of s) (y_of s) (foregroundColour s) (backgroundColour s) a b
      else pixel (t_fb s) p (t_mem s) a b).
Proof.
  intros [Hf Hl Hx Hy Hfg Hbg _]. unfold term_char. set (x := x_of s) in *. set (y := y_of s) in *.
  pose proof (fo_width _ Hf). pose proof (fo_height _ Hf). unfold GLYPH_X, GLYPH_Y in *.
  rewrite !wrap_small by (pow2_consts; change (2 ^ 30) with 1073741824 in *; lia).
  replace (y + 16 - y) with 16 by lia. replace (x + 8 - x) with 8 by lia.
  set (J := fun (i j : Z) (s1 : term_context_t) => s1 = set_fbmem (t_mem s1) s /\
    forall p a b, on_screen (t_fb s) a b -> pixel (t_fb s) p (t_mem s1) a b =
      if (x <=? a) && (a <? x + 8) && (y <=? b) && ((b <? i) || (b =? i) && (a <? j))
      then drawn font chr x y (foregroundColour s) (backgroundColour s) a b else pixel (t_fb s) p (t_mem s) a b).
  eapply Returns_mono; [apply (for_up_Returns (fun i => J i x))|].
  - split; [symmetry; apply set_fbmem_same|]. intros p a b Hab.
    destruct (_ && _) eqn:E; [|reflexivity]. zcmp; cbn in E; try discriminate; lia.
  - intros i s1 Hi H1. eapply Returns_mono; [apply (for_up_Returns (fun j => J i j) (Z.to_nat 8) x); [exact H1|]|].
    + intros j s2 Hj [E2 P2]. rewrite E2. set (s0 := set_fbmem (t_mem s2) s).
      eapply Returns_bind; [apply (fb_pixel_spec j i (backgroundColour s0) s0); auto; lia|].
      intros s3 [E3 P3]. change (t_fb s0) with (t_fb s) in P3. change (t_mem s0) with (t_mem s2) in P3.
      assert (forall m', (forall p a b, on_screen (t_fb s) a b -> pixel (t_fb s) p m' a b =
        if (a =? j) && (b =? i) then drawn font chr x y (foregroundColour s) (backgroundColour s) j i
        else pixel (t_fb s) p (t_mem s2) a b) -> J i (j + 1) (set_fbmem m' s)) as HJ.
      { intros m' Hm'. split; [reflexivity|]. intros p a b Hab. cbn [t_mem set_fbmem]. rewrite Hm', P2 by exact Hab.
        destruct (Z.eqb_spec a j) as [->|]; [destruct (Z.eqb_spec b i) as [->|]|]; cbn [andb].
        - replace (_ && _) with true; [reflexivity|]. symmetry. zcmp; cbn; lia || reflexivity.
        - f_equal; zcmp; cbn; lia || reflexivity.
        - f_equal; zcmp; cbn; lia || reflexivity. }
      unfold drawn in HJ. destruct (glyph_bit font chr (i - y) (j - x)) eqn:Eg.
      * rewrite E3. change (foregroundColour _) with (foregroundColour s).
        eapply Returns_mono; [apply (fb_pixel_spec j i (foregroundColour s) (set_fbmem (t_mem s3) s)); auto; lia|].
        intros s4 [E4 P4]. rewrite E4, set_fbmem_twice. apply HJ. intros p a b Hab. rewrite P4, P3 by exact Hab.
        now destruct (_ && _).
      * apply Returns_ret. rewrite E3. apply HJ. exact P3.
    + intros s2 [E2 P2]. split; [exact E2|]. intros p a b Hab. rewrite P2 by exact Hab. f_equal; zcmp; cbn; lia || reflexivity.
  - intros s' [E P]. split; [exact E|]. intros p a b Hab. rewrite P by exact Hab. unfold in_cell, GLYPH_X, GLYPH_Y. f_equal;
    zcmp; cbn; lia || reflexivity.
Qed.

Lemma fill_words_spec n : forall i a c m, 0 <= c < 2 ^ 32 ->
  (forall j, i <= j < i + Z.of_nat n -> load32 (a + 4 * j) (fill_words n i a c m) = c) /\
  (forall x, ~ (a + 4 * i <= x < a + 4 * (i + Z.of_nat n)) -> fill_words n i a c m x = m x).
Proof.
  induction n as [|n IH]; intros i a c m Hc; cbn [fill_words]; [split; [lia|reflexivity]|].
  destruct (IH (i + 1) a c (store32 (a + 4 * i) c m) Hc) as [I1 I2]. split.
  - intros j Hj. destruct (Z.eq_dec j i) as [->|Hne]; [|apply I1; lia].
    erewrite load_ext; [|intros k Hk; apply I2; lia]. rewrite load_store. apply Z.mod_small. lia.
  - intros x Hx. rewrite I2 by lia. apply store_other. lia.
Qed.

(** Scrolling moves the picture of the copy up by [pix] lines and fills up with the
    background; the framebuffer gets the same picture. *)
Lemma term_scroll_spec pix s : fb_ok (t_fb s) -> 0 <= backgroundColour s < 2 ^ 32 -> 0 <= pix <= fb_height (t_fb s) ->
  let s' := term_scroll pix s in
  s' = set_fbmem (t_mem s') s /\
  forall p x y, on_screen (t_fb s) x y -> pixel (t_fb s) p (t_mem s') x y =
    if y <? fb_height (t_fb s) - pix then pixel (t_fb s) Copy (t_mem s) x (y + pix) else backgroundColour s.
Proof.
  intros Hf Hc Hp s'. split; [reflexivity|]. unfold s', term_scroll. cbn [t_mem set_fbmem]. pose proof Hf as [_ Hpitch Hw Hh Hsz Hsm Had Hap].
  set (f := t_fb s) in *. set (w := fb_width f) in *. set (h := fb_height f) in *. set (R := fb_readAddress f) in *.
  assert (0 <= w * pix <= w * h) as Hwp by (unfold GLYPH_X in Hw; nia).
  assert (u32 (fb_pitch f * pix) = 4 * (w * pix)) as -> by (rewrite Hpitch; rewrite wrap_small; [lia|lia]).
  rewrite (wrap_small 32 (w * pix)) by lia.
  rewrite (wrap_small 64 (fb_size f - _)), (wrap_small 64 (4 * (w * pix) + R)), (wrap_small 64 (_ - _ + R)) by lia.
  set (m1 := memcpy R _ _ (t_mem s)). set (last := fb_size f - 4 * (w * pix) + R). set (m2 := memset last 255 _ m1).
  set (m3 := fill_words _ 0 last _ m2).
  destruct (memcpy_spec R (4 * (w * pix) + R) (fb_size f - 4 * (w * pix)) (t_mem s)) as [C1 C2]; [lia|lia|].
  destruct (memset_spec last 255 (4 * (w * pix)) m1) as [_ S2]; [lia|].
  destruct (fill_words_spec (Z.to_nat (w * pix)) 0 last (backgroundColour s) m2 Hc) as [F1 F2]. fold m1 in C1, C2. fold m2 in S2. fold m3 in F1, F2.
  destruct (memcpy_spec (fb_address f) R (fb_size f) m3) as [D1 D2]; [lia|lia|].
  assert (forall p k, 0 <= k < fb_size f -> memcpy (fb_address f) R (fb_size f) m3 (plane_base f p + k) = m3 (R + k)) as D.
  { intros [|] k Hk; cbn [plane_base]; [now apply D1|]. fold R. destruct Hap as [E|Hap]; [rewrite E in D1 |- *; now apply D1|apply D2; lia]. }
  intros p x y Hxy. pose proof (pixel_index f x y Hf Hxy) as Hi. destruct Hxy as [Hx Hy]. fold w in Hx, Hi. fold h in Hy, Hi.
  unfold pixel. change (plane_base f Copy) with R. fold w.
  rewrite (load_shift 4 _ (R + 4 * (y * w + x)) m3) by (intros k Hk; rewrite <- !Z.add_assoc; apply D; lia).
  destruct (Z.ltb_spec y (h - pix)) as [Hlt|Hge].
  - assert (y * w + x < (h - pix) * w) by nia. assert (fb_size f = 4 * (w * pix) + 4 * ((h - pix) * w)) as Es by (rewrite Hsz; lia).
    apply load_shift. intros k Hk. rewrite <- Z.add_assoc, F2, S2, C1 by (unfold last; lia). f_equal. lia.
  - assert ((h - pix) * w <= y * w + x < h * w) by nia.
    replace (R + 4 * (y * w + x)) with (last + 4 * (y * w + x - (h - pix) * w)) by (unfold last; rewrite Hsz; lia).
    apply F1. lia.
Qed.

(** ** An abstract terminal *)

(** A picture and the position of the cursor in it. *)
Record screen : Type := mk_screen { sc_pic : Z -> Z -> Z; sc_x : Z; sc_y : Z }.

Section Abstract.
Variable (font : Z -> Z) (w h fg bg : Z).
Implicit Types (A : screen).

Definition a_draw (chr : Z) A : screen :=
  mk_screen (fun a b => if in_cell (sc_x A) (sc_y A) a b then drawn font chr (sc_x A) (sc_y A) fg bg a b else sc_pic A a b)
    (sc_x A) (sc_y A).

(** The next line; at the bottom the picture moves up by one line of text. *)
Definition a_newline A : screen :=
  if sc_y A + 2 * GLYPH_Y >? h
  then mk_screen (fun a b => if b <? h - GLYPH_Y then sc_pic A a (b + GLYPH_Y) else bg) 0 (sc_y A)
  else mk_screen (sc_pic A) (sc_x A) (sc_y A + GLYPH_Y).
Definition a_return A : screen := mk_screen (sc_pic A) 0 (sc_y A).
Definition a_advance A : screen :=
  if sc_x A + GLYPH_X >=? w then a_return (a_newline A)
  else mk_screen (sc_pic A) (sc_x A + GLYPH_X) (sc_y A).

Definition a_put (chr : Z) A : screen :=
  if chr =? ch_newline then a_draw CURSOR_GLYPH (a_return (a_newline (a_draw 0 A)))
  else if chr =? ch_return then a_draw CURSOR_GLYPH (a_return A)
  else a_draw CURSOR_GLYPH (a_advance (a_draw chr A)).
End Abstract.

(** The screen shows [A], and so does the copy that scrolling reads. *)
Definition shows s (A : screen) : Prop :=
  (forall p x y, on_screen (t_fb s) x y -> pixel (t_fb s) p (t_mem s) x y = sc_pic A x y) /\
  x_of s = sc_x A /\ y_of s = sc_y A.

(** [s'] is [s] after drawing and moving the cursor. *)
Definition drawn_to s (A : screen) s' : Prop :=
  s' = cursor_set (sc_x A) (sc_y A) (set_fbmem (t_mem s') s) /\ shows s' A /\ term_ok s'.

Section Refine.
Variable font : Z -> Z.

Lemma term_ok_move s m x y : term_ok s -> 0 <= x < fb_width (t_fb s) -> 0 <= y <= fb_height (t_fb s) - GLYPH_Y ->
  term_ok (cursor_set x y (set_fbmem m s)).
Proof. intros [] Hx Hy. now split. Qed.

Lemma drawn_to_refl s A : term_ok s -> shows s A -> drawn_to s A s.
Proof. intros Hs HA. split; [|auto]. destruct HA as (_ & E1 & E2). unfold x_of, y_of in *. destruct s as [? ? ? ? ? ? ? ? [] ?]. cbn in *. now subst. Qed.

Lemma draw_step chr s s' A : drawn_to s A s' ->
  Returns (term_char font chr s') (drawn_to s (a_draw font (foregroundColour s) (backgroundColour s) chr A)).
Proof.
  intros (E & (HP & Hx & Hy) & Hok). eapply Returns_mono; [exact (term_char_spec font chr s' Hok)|].
  assert (foregroundColour s' = foregroundColour s /\ backgroundColour s' = backgroundColour s) as [Ef Eb] by now rewrite E.
  intros s2 [E2 P2]. rewrite Ef, Eb, Hx, Hy in P2. unfold drawn_to. splits.
  - rewrite E2, E. reflexivity.
  - split; [|rewrite E2; now split]. rewrite E2. cbn [t_fb t_mem set_fbmem sc_pic a_draw]. intros p x y Hxy. rewrite P2, HP by exact Hxy.
    reflexivity.
  - rewrite E2. destruct Hok. now split.
Qed.

(** Moving the cursor, possibly with a scroll. *)
Lemma newline_step s s' A : drawn_to s A s' ->
  drawn_to s (a_newline (fb_height (t_fb s)) (backgroundColour s) A) (cursor_newline s').
Proof.
  intros (E & (HP & Hx & Hy) & Hok). pose proof Hok as [Hf Hl Kx Ky Kf Kb Ka].
  assert (t_fb s' = t_fb s /\ backgroundColour s' = backgroundColour s) as [Ef Eb] by now rewrite E.
  pose proof (fo_height _ Hf) as Hh. pose proof (fo_width _ Hf) as Hw. change (2 ^ 30) with 1073741824 in *.
  unfold cursor_newline, a_newline. unfold GLYPH_X, GLYPH_Y in *. rewrite !wrap_small by (pow2_consts; lia).
  replace (y_of s' + 16 >? fb_height (t_fb s') - 16) with (sc_y A + 2 * 16 >? fb_height (t_fb s))
    by (rewrite Hy, Ef; rewrite !Z.gtb_ltb; zcmp; lia || reflexivity).
  destruct (Z.gtb_spec (sc_y A + 2 * 16) (fb_height (t_fb s))).
  - destruct (term_scroll_spec 16 s' Hf Kb) as [E2 P2]; [lia|]. rewrite Eb in P2.
    set (s2 := term_scroll 16 s') in *. assert (y_of s2 = sc_y A) as Y2 by (rewrite E2; exact Hy). rewrite Y2. unfold drawn_to. splits.
    + rewrite E2, E. reflexivity.
    + split; [|now split]. cbn [t_fb t_mem cursor_set sc_pic]. replace (t_fb s2) with (t_fb s') by now rewrite E2.
      intros p x y [Hx' Hy']. rewrite P2 by (split; assumption). rewrite Ef. destruct (Z.ltb_spec y (fb_height (t_fb s) - 16)) as [Hlt|]; [|reflexivity].
      rewrite <- Ef. apply HP. rewrite <- Ef in Hlt. split; [exact Hx'|lia].
    + rewrite E2. apply term_ok_move; [exact Hok| |]; cbn [t_fb set_fbmem]; unfold GLYPH_Y; lia.
  - unfold drawn_to. splits.
    + rewrite Hx, Hy. change (t_mem (cursor_set _ _ s')) with (t_mem s').
      transitivity (cursor_set (sc_x A) (sc_y A + 16) (cursor_set (sc_x A) (sc_y A) (set_fbmem (t_mem s') s))); [now rewrite <- E|reflexivity].
    + split; [exact HP|]. cbn. split; [exact Hx|now rewrite Hy].
    + replace s' with (set_fbmem (t_mem s') s') at 1 2 3 by now destruct s'. apply term_ok_move; [exact Hok|exact Kx|].
      unfold GLYPH_Y. rewrite Hy, Ef in *. change (y_of (set_fbmem (t_mem s') s')) with (y_of s'). rewrite Hy. lia.
Qed.

Lemma move_step s s' A x y : drawn_to s A s' -> 0 <= x < fb_width (t_fb s) -> 0 <= y <= fb_height (t_fb s) - GLYPH_Y ->
  drawn_to s (mk_screen (sc_pic A) x y) (cursor_set x y s').
Proof.
  intros (E & (HP & _) & Hok) Hx Hy. unfold drawn_to. assert (t_fb s' = t_fb s) as Ef by now rewrite E. splits.
  - change (t_mem (cursor_set _ _ s')) with (t_mem s').
    transitivity (cursor_set x y (cursor_set (sc_x A) (sc_y A) (set_fbmem (t_mem s') s))); [now rewrite <- E|reflexivity].
  - split; [exact HP|now split].
  - destruct Hok. split; try assumption; change (t_fb (cursor_set x y s')) with (t_fb s'); rewrite Ef; assumption.
Qed.

Lemma return_step s s' A : drawn_to s A s' -> drawn_to s (a_return A) (cursor_return s').
Proof.
  intros H. pose proof H as (E & (_ & _ & Hy) & Hok). assert (t_fb s' = t_fb s) as Ef by now rewrite E.
  unfold cursor_return, a_return. rewrite Hy. apply (move_step s s' A); [exact H| |];
    destruct Hok as [Hf _ Kx Ky _ _ _]; rewrite <- ?Ef, <- ?Hy; [pose proof (fo_width _ Hf); unfold GLYPH_X in *; lia|exact Ky].
Qed.

Lemma advance_step s s' A : drawn_to s A s' ->
  drawn_to s (a_advance (fb_width (t_fb s)) (fb_height (t_fb s)) (backgroundColour s) A) (cursor_advance s').
Proof.
  intros H. pose proof H as (E & (_ & Hx & Hy) & Hok). assert (t_fb s' = t_fb s) as Ef by now rewrite E.
  pose proof Hok as [Hf _ Kx Ky _ _ _]. pose proof (fo_width _ Hf) as Hw. pose proof (fo_height _ Hf) as Hh.
  change (2 ^ 30) with 1073741824 in *. unfold a_advance.
  assert (cursor_advance s' = if sc_x A + GLYPH_X >=? fb_width (t_fb s) then cursor_return (cursor_newline s')
            else cursor_set (sc_x A + GLYPH_X) (sc_y A) s') as ->.
  { unfold cursor_advance, cursor_newline. rewrite Hx, Ef. unfold GLYPH_X, GLYPH_Y in *.
    rewrite (wrap_small 32 (sc_x A + 8)) by (pow2_consts; lia). destruct (_ >=? _); [|now rewrite Hy]. now destruct (_ >? _). }
  destruct (Z.geb_spec (sc_x A + GLYPH_X) (fb_width (t_fb s))); [now apply return_step, newline_step|].
  apply (move_step s s' A); auto; rewrite <- ?Ef, <- ?Hy; [unfold GLYPH_X in *; rewrite Ef; lia|exact Ky].
Qed.

(** What a character makes of the state besides the picture. *)
Definition echo (chr : Z) : list (port * Z) :=
  [(Debugcon, u8 chr); (Serial, u8 chr)] ++ if chr =? ch_newline then [(Serial, ch_return)] else [].

(** Text: no NUL, no escape, no backspace. *)
Definition is_text (chr : Z) : bool := negb (chr =? 0) && negb (chr =? ch_escape) && negb (chr =? ch_backspace).

Record ready s (A : screen) : Prop := {
  re_ok : term_ok s;
  re_shows : shows s A;
  re_enabled : enabled s = true;
  re_escape : escape s = false;
  re_lock : t_lock s = false
}.

Lemma term_putchar_spec chr s A : ready s A -> is_text chr = true ->
  Returns (term_putchar font chr s) (fun '(r, s') => r = chr /\
    ready s' (a_put font (fb_width (t_fb s)) (fb_height (t_fb s)) (foregroundColour s) (backgroundColour s) chr A) /\
    t_out s' = t_out s ++ echo chr /\ t_fb s' = t_fb s /\
    foregroundColour s' = foregroundColour s /\ backgroundColour s' = backgroundColour s /\
    escapeOffset s' = escapeOffset s /\ escArgs s' = escArgs s /\ escArgsCount s' = escArgsCount s).
Proof.
  intros [Hok Hsh He Hesc Hlk] Ht. unfold is_text in Ht. rewrite !andb_true_iff, !negb_true_iff in Ht. destruct Ht as ((T1 & T2) & T3).
  unfold term_putchar. rewrite T1, He, Hlk. cbn [negb acquireLock mbind outcome_bind].
  set (s1 := emit_char chr (set_tlock true s)).
  assert (escape s1 = false /\ t_out s1 = t_out s ++ echo chr /\ t_fb s1 = t_fb s /\ foregroundColour s1 = foregroundColour s /\
          backgroundColour s1 = backgroundColour s /\ enabled s1 = true /\ t_mem s1 = t_mem s /\ escapeOffset s1 = escapeOffset s /\
          escArgs s1 = escArgs s /\ escArgsCount s1 = escArgsCount s) as (E1 & E2 & E3 & E4 & E5 & E6 & E7 & E8 & E9 & E10).
  { unfold s1, emit_char, echo. destruct (chr =? ch_newline); cbn; rewrite <- ?app_assoc; auto 12. }
  assert (term_ok s1 /\ shows s1 A) as [Hok1 Hsh1].
  { unfold s1, emit_char. destruct Hok. destruct Hsh as (S1 & S2 & S3). destruct (chr =? ch_newline); (split; [now split|split; [exact S1|now split]]). }
  rewrite E1, T2, T3. pose proof (drawn_to_refl s1 A Hok1 Hsh1) as H0. rewrite <- E3, <- E4, <- E5.
  eapply Returns_bind with (P := drawn_to s1 (a_put font (fb_width (t_fb s1)) (fb_height (t_fb s1)) (foregroundColour s1) (backgroundColour s1) chr A)).
  - unfold a_put. destruct (chr =? ch_newline).
    + unfold do_newline. eapply Returns_bind; [apply (draw_step 0 s1 s1 A H0)|]. intros s2 H2.
      apply draw_step, return_step, newline_step, H2.
    + destruct (chr =? ch_return); [apply draw_step, return_step, H0|].
      unfold do_print. eapply Returns_bind; [apply (draw_step chr s1 s1 A H0)|]. intros s2 H2. apply draw_step, advance_step, H2.
  - intros s2 (F & Hsh2 & Hok2). apply Returns_ret.
    assert (enabled s2 = true /\ escape s2 = false /\ t_out s2 = t_out s1 /\ t_fb s2 = t_fb s1 /\
      foregroundColour s2 = foregroundColour s1 /\ backgroundColour s2 = backgroundColour s1 /\ escapeOffset s2 = escapeOffset s1 /\
      escArgs s2 = escArgs s1 /\ escArgsCount s2 = escArgsCount s1) as (G1 & G2 & G3 & G4 & G5 & G6 & G7 & G8 & G9)
      by (rewrite F; cbn; auto 12).
    splits; cbn [t_out t_fb foregroundColour backgroundColour escapeOffset escArgs escArgsCount unlock_term set_tlock]; try congruence.
    split; auto. destruct Hok2. now split.
Qed.
End Refine.

(** C22: printing text is what the abstract terminal does: the characters appear as their
    glyphs from the cursor on, on the screen and in the copy of it, lines wrap at the right margin, the picture scrolls at the
    bottom and the cursor block follows; every character also goes to both ports.  It
    returns with the lock free and the cursor inside the screen. *)
Theorem term_print_refines font str s A : ready s A -> Forall (fun c => is_text c = true) str ->
  let put A c := a_put font (fb_width (t_fb s)) (fb_height (t_fb s)) (foregroundColour s) (backgroundColour s) c A in
  Returns (term_print font str s) (fun '(n, s') => n = Z.of_nat (length str) /\
    ready s' (fold_left put str A) /\ t_out s' = t_out s ++ flat_map echo str).
Proof.
  intros Hr Ht put. unfold term_print.
  assert (forall str s1 A1 n, ready s1 A1 -> Forall (fun c => is_text c = true) str -> t_fb s1 = t_fb s ->
    foregroundColour s1 = foregroundColour s -> backgroundColour s1 = backgroundColour s ->
    Returns (print_loop (term_putchar font) str n s1) (fun '(r, s') => r = n + Z.of_nat (length str) /\
      ready s' (fold_left put str A1) /\ t_out s' = t_out s1 ++ flat_map echo str)) as H.
  { clear. induction str as [|c str IH]; intros s1 A1 n Hr Ht E1 E2 E3; cbn [print_loop length fold_left flat_map].
    - apply Returns_ret. rewrite app_nil_r. splits; auto. cbn. lia.
    - apply Forall_cons in Ht as [Hc Ht]. eapply Returns_bind; [exact (term_putchar_spec font c s1 A1 Hr Hc)|].
      intros [r s2] (_ & Hr2 & O2 & F1 & F2 & F3 & _). rewrite E1, E2, E3 in Hr2.
      eapply Returns_mono; [apply (IH s2 (put A1 c) (n + 1) Hr2 Ht); congruence|].
      intros [r' s'] (-> & Hr' & O'). splits; [lia|exact Hr'|]. now rewrite O', O2, <- app_assoc. }
  exact (H str s A 0 Hr Ht eq_refl eq_refl eq_refl).
Qed.

(** A screen of 2 by 2 characters. *)
Definition term_demo : term_context_t :=
  mk_tc false false true 0 (repeat 0 16) 0 0xffffff 0 (mk_cursor 0 0) false (mk_fbinfo 4096 8192 64 16 32 32 2048) false
    (fun _ => 0) [].

Lemma term_demo_ready : ready term_demo (mk_screen (fun _ _ => 0) 0 0).
Proof.
  split; try reflexivity.
  - split; try reflexivity; try (cbn; unfold GLYPH_Y; lia). split; try reflexivity; try (cbn; unfold GLYPH_X, GLYPH_Y; lia).
  - split; [reflexivity|now split].
Qed.

Lemma term_print_refines_witness :
  Returns (term_print (fun i => i) (chars "Hi!") term_demo) (fun '(n, s') => n = 3 /\ x_of s' = 8 /\ y_of s' = 16 /\
    t_out s' = flat_map echo (chars "Hi!")).
Proof.
  eapply Returns_mono; [apply (term_print_refines (fun i => i) (chars "Hi!") term_demo _ term_demo_ready)|].
  - repeat constructor.
  - intros [n s'] (-> & [_ (_ & Ex & Ey) _ _ _] & Eo). splits; [reflexivity|rewrite Ex; reflexivity|rewrite Ey; reflexivity|exact Eo].
Defined.

(** Backspace in the upper left corner moves the cursor to line 2^32 - 32. *)
Theorem backspace_leaves_screen :
  Returns (term_putchar (fun i => i) ch_backspace term_demo) (fun '(_, s') => y_of s' = 2 ^ 32 - 32).
Proof. eexists. split; [vm_compute; reflexivity|reflexivity]. Qed.

(** An escape sequence with a digit behind seventeen separators stores outside of the
    array of parameters; a palette index from 240 on reads outside of the colour table. *)
Theorem escape_overflow :
  term_print (fun i => i) ([27; 91] ++ repeat 59 17 ++ [49]) term_demo = Fault /\
  term_print (fun i => i) ([27] ++ chars "[38;5;240m") term_demo = Fault.
Proof. split; vm_compute; reflexivity. Qed.
