(* ===== verification/Kprintf.v ===== *)
(** * Formatted output ([kernel/klibc/kstdio/])

    [kvprintf] and the functions built on it, over the terminal of [Term].  The variable
    arguments are a list of 64-bit words; strings are read from memory.  The static work
    buffer only lives from the conversion of a number to its output, and is the list of
    its characters here. *)

From S2P Require Import Prelude MemUtil Bytes Term.
#[local] Open Scope Z_scope.

Record kstdio : Type := mk_kstdio {
  ks_term : term_context_t;
  kernelScreenOut : bool;
  kvprintfLock : spinlock_t;
  kprintfLock : spinlock_t;
  klogLock : spinlock_t
}.

Definition set_ks_term (t : term_context_t) (k : kstdio) : kstdio :=
  mk_kstdio t (kernelScreenOut k) (kvprintfLock k) (kprintfLock k) (klogLock k).
Definition set_vlock (l : spinlock_t) (k : kstdio) : kstdio :=
  mk_kstdio (ks_term k) (kernelScreenOut k) l (kprintfLock k) (klogLock k).
Definition set_plock (l : spinlock_t) (k : kstdio) : kstdio :=
  mk_kstdio (ks_term k) (kernelScreenOut k) (kvprintfLock k) l (klogLock k).
Definition set_glock (l : spinlock_t) (k : kstdio) : kstdio :=
  mk_kstdio (ks_term k) (kernelScreenOut k) (kvprintfLock k) (kprintfLock k) l.

(** ** Numbers *)

(** The loop that counts the digits: at least one. *)
Fixpoint count_digits (fuel : nat) (x : Z) : Z :=
  match fuel with
  | O => 0
  | S f => let x := Z.quot x 10 in 1 + if x =? 0 then 0 else count_digits f x
  end.

(** The digits are stored from the last one backwards. *)
Fixpoint put_digits (n : nat) (x : Z) (acc : list Z) : list Z :=
  match n with
  | O => acc
  | S n' => put_digits n' (Z.quot x 10) ((Z.rem x 10 + 48) :: acc)
  end.

(** [%u]; 64 bits have at most 20 decimal digits. *)
Definition fmt_u (unum : Z) : list Z :=
  let usize := count_digits 20 unum in put_digits (Z.to_nat usize) unum [].

(** [%d]: the argument is cut to an [int], which has at most 10 digits; the sign is
    changed at that width. *)
Definition fmt_d (v : Z) : list Z :=
  let dnum := i32 v in
  let neg := dnum <? 0 in
  let dnum := if neg then i32 (- dnum) else dnum in
  (if neg then [45] else []) ++ put_digits (Z.to_nat (count_digits 10 dnum)) dnum [].

Definition hex_char (r : Z) : Z := if r <? 10 then 48 + r else 65 + (r - 10).
Fixpoint put_hex (n : nat) (x : Z) (acc : list Z) : list Z :=
  match n with
  | O => acc
  | S n' => put_hex n' (x / 16) (hex_char (x mod 16) :: acc)
  end.

(** [%x]: two digits per byte, as many bytes as the number needs. *)
Definition hex_size (xnum : Z) : Z :=
  if xnum >? 0xFFFFFFFFFFFFFF then 8 * 2 - 1
  else if xnum >? 0xFFFFFFFFFFFF then 7 * 2 - 1
  else if xnum >? 0xFFFFFFFFFF then 6 * 2 - 1
  else if xnum >? 0xFFFFFFFF then 5 * 2 - 1
  else if xnum >? 0xFFFFFF then 4 * 2 - 1
  else if xnum >? 0xFFFF then 3 * 2 - 1
  else if xnum >? 0xFF then 2 * 2 - 1
  else 1 * 2 - 1.
Definition fmt_x (xnum : Z) : list Z := put_hex (Z.to_nat (hex_size xnum + 1)) xnum [].

(** ** Output *)

Section Print.
Variable font : Z -> Z.
Variable m : mem.
Variable sfuel : nat.

Definition kputchar (chr : Z) (k : kstdio) : outcome (Z * kstdio) :=
  '(r, t) ← (if kernelScreenOut k then term_putchar font chr (ks_term k) else term_putchar_dbg chr (ks_term k));
  Ret (r, set_ks_term t k).

Definition print_string (str : list Z) (k : kstdio) : outcome (Z * kstdio) :=
  '(n, t) ← (if kernelScreenOut k then term_print font str (ks_term k) else term_print_dbg str (ks_term k));
  Ret (n, set_ks_term t k).

Definition kernel_screen_output_disable (k : kstdio) : kstdio := mk_kstdio (ks_term k) false (kvprintfLock k) (kprintfLock k) (klogLock k).
Definition kernel_screen_output_enable (k : kstdio) : kstdio := mk_kstdio (ks_term k) true (kvprintfLock k) (kprintfLock k) (klogLock k).

Definition term_init (k : kstdio) : outcome kstdio :=
  t ← reset_terminal (ks_term k); Ret (kernel_screen_output_enable (set_ks_term t k)).

(** The string at an address. *)
Fixpoint string_at (fuel : nat) (a : Z) : outcome (list Z) :=
  match fuel with
  | O => OutOfFuel
  | S f => if m a =? 0 then Ret [] else l ← string_at f (a + 1); Ret (m a :: l)
  end.

(** The characters a conversion prints; [None] where the conversion is ignored. *)
Definition convert (c : Z) (args : list Z) : outcome (option (list Z) * list Z) :=
  if c =? 37 then Ret (Some [37], args)
  else if (c =? 100) || (c =? 117) || (c =? 99) || (c =? 115) || (c =? 120) || (c =? 112) then
    match args with
    | [] => Fault
    | v :: args =>
        if c =? 100 then Ret (Some (fmt_d v), args)
        else if c =? 117 then Ret (Some (fmt_u v), args)
        else if c =? 99 then Ret (Some [i8 v], args)
        else if c =? 115 then l ← string_at sfuel v; Ret (Some l, args)
        else Ret (Some (fmt_x v), args)
    end
  else Ret (None, args).

(** The loop over the format.  [%%] and [%c] go through [kputchar], which differs from the
    printing of strings only in that it does not stop at a NUL. *)
Fixpoint kvprintf_loop (fmt : list Z) (args : list Z) (chars : Z) (k : kstdio) : outcome (Z * kstdio) :=
  match fmt with
  | [] => Ret (chars, k)
  | f :: fmt' =>
      if f =? 37 then
        match fmt' with
        | [] => Ret (chars, k)
        | c :: fmt'' =>
            '(out, args) ← convert c args;
            match out with
            | None => kvprintf_loop fmt'' args chars k
            | Some l =>
                if (c =? 37) || (c =? 99) then
                  '(_, k) ← kputchar (nth 0 l 0) k; kvprintf_loop fmt'' args (chars + 1) k
                else '(n, k) ← print_string l k; kvprintf_loop fmt'' args (chars + n) k
            end
        end
      else '(_, k) ← kputchar f k; kvprintf_loop fmt' args (chars + 1) k
  end.

Definition kvprintf (fmt args : list Z) (k : kstdio) : outcome (Z * kstdio) :=
  l ← acquireLock (kvprintfLock k);
  '(n, k) ← kvprintf_loop fmt args 0 (set_vlock l k);
  Ret (n, set_vlock (releaseLock (kvprintfLock k)) k).

Definition kprintf (fmt args : list Z) (k : kstdio) : outcome (Z * kstdio) :=
  l ← acquireLock (kprintfLock k);
  '(n, k) ← kvprintf fmt args (set_plock l k);
  Ret (n, set_plock (releaseLock (kprintfLock k)) k).

(** ** Log messages *)

Definition KLOG_OK : Z := 0.
Definition KLOG_FAILED : Z := 1.
Definition KLOG_INFO : Z := 2.
Definition KLOG_WARNING : Z := 3.
Definition KLOG_CRITICAL : Z := 4.

(** The format of the status, in its colour and back. *)
Definition status_fmt (status : Z) : option (list Z) :=
  let fmt a b c := Some (chars a ++ [27] ++ chars b ++ [27] ++ chars c) in
  if status =? KLOG_OK then fmt "[   " "[38;2;0;255;0mOK" "[38;2;%d;%d;%dm   ] "
  else if status =? KLOG_FAILED then fmt "[ " "[38;2;255;0;0mFAILED" "[38;2;%d;%d;%dm ] "
  else if status =? KLOG_INFO then fmt "[  " "[38;2;0;255;255mINFO" "[38;2;%d;%d;%dm  ] "
  else if status =? KLOG_WARNING then fmt "[  " "[38;2;255;255;0mWARN" "[38;2;%d;%d;%dm  ] "
  else if status =? KLOG_CRITICAL then fmt "[" "[38;2;140;0;0mCRITICAL" "[38;2;%d;%d;%dm] "
  else None.

(** [n] times the same character; a negative count prints nothing. *)
Definition pad (n chr : Z) (k : kstdio) : outcome kstdio :=
  for_up (Z.to_nat n) 0 (fun _ k => '(_, k) ← kputchar chr k; Ret k) k.

(** [ticks] are the values of the two calls of [timer_get_ticks], in milliseconds: the
    timer can tick in between. *)
Definition klog_stamp (ticks : Z * Z) (k : kstdio) : outcome kstdio :=
  let milliseconds := ticks.1 mod 1000 in
  let seconds := ticks.2 / 1000 mod 1000000 in
  '(_, k) ← kprintf ([27] ++ chars "[38;2;180;180;180m") [] k;
  '(_, k) ← kputchar 91 k;
  k ← pad (6 - count_digits 20 seconds) 32 k;
  '(_, k) ← kprintf (chars "%u") [seconds] k;
  '(_, k) ← kputchar 46 k;
  k ← pad (3 - count_digits 20 milliseconds) 48 k;
  '(_, k) ← kprintf (chars "%u") [milliseconds] k;
  '(_, k) ← kputchar 93 k;
  Ret k.

Definition klog (ticks : Z * Z) (fmt : list Z) (status component : Z) (args : list Z) (k : kstdio) : outcome kstdio :=
  l ← acquireLock (klogLock k);
  let k := set_glock l k in
  let colour := term_get_colour false (ks_term k) in
  let r := Z.land (Z.shiftr colour 16) 255 in
  let g := Z.land (Z.shiftr colour 8) 255 in
  let b := Z.land colour 255 in
  k ← klog_stamp ticks k;
  '(_, k) ← kprintf ([27] ++ chars "[38;2;%d;%d;%dm") [r; g; b] k;
  k ← (match status_fmt status with
       | Some f => '(_, k) ← kprintf f (r :: g :: b :: args) k; Ret k
       | None => Ret k
       end);
  '(_, k) ← kprintf ([27] ++ chars "[38;2;255;89;0m%s" ++ [27] ++ chars "[38;2;%d;%d;%dm: ") [component; r; g; b] k;
  '(_, k) ← kvprintf fmt args k;
  Ret (set_glock (releaseLock (klogLock k)) k).
End Print.

(** ** Error strings *)

Definition kerrStr : list string := [
  "Not administrator"; "No such file or directory"; "No such process"; "Interrupted system call"; "I/O error";
  "No such device or address"; "Arg list too long"; "Exec format error"; "Bad file number"; "No children";
  "No more processes"; "Out of Mmemory"; "Permission denied"; "Bad address"; "Block device required";
  "Mount device busy"; "File exists"; "Cross-device link"; "No such device"; "Not a directory"; "Is a directory";
  "Invalid argument"; "Too many open files in system"; "Too many open files"; "Not a typewriter"; "Text file busy";
  "File too large"; "No space left on device"; "Illegal seek"; "Read only file system"; "Too many links";
  "Broken pipe"; "Math arg out of domain of func" ]%string.

Definition kstrerror (err : Z) : outcome string :=
  if err - 1 <? 0 then Fault
  else match nth_error kerrStr (Z.to_nat (err - 1)) with Some s => Ret s | None => Fault end.

(** ** What the conversions print *)

(** Reading numbers back. *)
Definition dec_step (a c : Z) : Z := 10 * a + (c - 48).
Definition dec_value (l : list Z) : Z := fold_left dec_step l 0.
Definition signed_value (l : list Z) : Z := match l with 45 :: l' => - dec_value l' | _ => dec_value l end.
Definition hex_digit (c : Z) : Z := if c <? 65 then c - 48 else c - 55.
Definition hex_step (a c : Z) : Z := 16 * a + hex_digit c.
Definition hex_value (l : list Z) : Z := fold_left hex_step l 0.

Lemma put_digits_fold n : forall x acc a, 0 <= x < 10 ^ Z.of_nat n ->
  fold_left dec_step (put_digits n x acc) a = fold_left dec_step acc (a * 10 ^ Z.of_nat n + x).
Proof.
  induction n as [|n IH]; intros x acc a Hx; cbn [put_digits]; [cbn in Hx; f_equal; lia|].
  rewrite Nat2Z.inj_succ, Z.pow_succ_r in * by lia. rewrite Z.quot_div_nonneg, Z.rem_mod_nonneg by lia.
  rewrite IH by dm. cbn [fold_left]. f_equal. unfold dec_step. set (p := 10 ^ Z.of_nat n).
  pose proof (Z.div_mod x 10 ltac:(lia)). lia.
Qed.

Lemma count_digits_S f x :
  count_digits (S f) x = 1 + (if Z.quot x 10 =? 0 then 0 else count_digits f (Z.quot x 10)).
Proof. reflexivity. Qed.

Lemma count_digits_spec fuel : forall x, 0 <= x < 10 ^ Z.of_nat (S fuel) ->
  let c := count_digits (S fuel) x in 1 <= c /\ x < 10 ^ c /\ (c = 1 \/ 10 ^ (c - 1) <= x).
Proof.
  induction fuel as [|f IH]; intros x Hx; cbn zeta; rewrite count_digits_S.
  - change (10 ^ Z.of_nat 1) with 10 in Hx. rewrite Z.quot_small by lia. cbn. lia.
  - rewrite Nat2Z.inj_succ, Z.pow_succ_r in Hx by lia. rewrite Z.quot_div_nonneg by lia.
    destruct (Z.eqb_spec (x / 10) 0) as [E|E]; [cbn; dm|].
    assert (0 <= x / 10 < 10 ^ Z.of_nat (S f)) as Hq by dm. specialize (IH (x / 10) Hq). cbn zeta in IH.
    set (c := count_digits (S f) (x / 10)) in *. destruct IH as (I1 & I2 & I3).
    replace (1 + c - 1) with c by lia. rewrite Z.pow_add_r by lia. change (10 ^ 1) with 10. splits; [lia|dm|]. right.
    destruct I3 as [->|I3]; [change (10 ^ 1) with 10; dm|].
    replace c with (1 + (c - 1)) by lia. rewrite Z.pow_add_r by lia. change (10 ^ 1) with 10. dm.
Qed.

Lemma fmt_u_value u : 0 <= u < 2 ^ 64 -> dec_value (fmt_u u) = u.
Proof.
  intros Hu. assert (0 <= u < 10 ^ Z.of_nat 20) as Hb by (change (10 ^ Z.of_nat 20) with 100000000000000000000; lia).
  destruct (count_digits_spec 19 u Hb) as (H1 & H2 & _). unfold fmt_u, dec_value.
  rewrite put_digits_fold; [cbn; lia|]. rewrite Z2Nat.id by lia. lia.
Qed.

Lemma put_digits_head n : forall x acc, 0 <= x -> Forall (fun c => 48 <= c) acc -> Forall (fun c => 48 <= c) (put_digits n x acc).
Proof.
  induction n as [|n IH]; intros x acc Hx Ha; cbn [put_digits]; [exact Ha|]. rewrite Z.quot_div_nonneg, Z.rem_mod_nonneg by lia.
  apply IH; [dm|]. apply Forall_cons. split; [dm|exact Ha].
Qed.

Lemma fmt_d_value v : - 2 ^ 31 < v < 2 ^ 31 -> signed_value (fmt_d v) = v.
Proof.
  intros Hv. unfold fmt_d. rewrite (swrap_small 32 v) by (pow2_consts; lia).
  assert (forall x, 0 <= x < 2 ^ 31 -> dec_value (put_digits (Z.to_nat (count_digits 10 x)) x []) = x) as Hd.
  { intros x Hx. assert (0 <= x < 10 ^ Z.of_nat 10) as Hb by (change (10 ^ Z.of_nat 10) with 10000000000; lia).
    destruct (count_digits_spec 9 x Hb) as (H1 & H2 & _). unfold dec_value. rewrite put_digits_fold; [cbn; lia|].
    rewrite Z2Nat.id by lia. lia. }
  destruct (Z.ltb_spec v 0).
  - rewrite (swrap_small 32 (- v)) by (pow2_consts; lia). cbn [app signed_value]. rewrite Hd by lia. lia.
  - cbn [app]. unfold signed_value.
    pose proof (put_digits_head (Z.to_nat (count_digits 10 v)) v [] ltac:(lia) (Forall_nil_2 _)) as Hh.
    specialize (Hd v ltac:(lia)). set (l := put_digits _ v []) in *.
    destruct l as [|c l]; [exact Hd|]. apply Forall_cons in Hh as [Hc _].
    destruct c as [|c|c]; try lia. now repeat (destruct c as [c|c|]; try exact Hd; try lia).
Qed.

Lemma hex_digit_char r : 0 <= r < 16 -> hex_digit (hex_char r) = r.
Proof. intros Hr. unfold hex_digit, hex_char. zcmp; lia. Qed.

Lemma put_hex_fold n : forall x acc a, 0 <= x < 16 ^ Z.of_nat n ->
  fold_left hex_step (put_hex n x acc) a = fold_left hex_step acc (a * 16 ^ Z.of_nat n + x).
Proof.
  induction n as [|n IH]; intros x acc a Hx; cbn [put_hex]; [cbn in Hx; f_equal; lia|].
  rewrite Nat2Z.inj_succ, Z.pow_succ_r in * by lia. rewrite IH by dm. cbn [fold_left]. f_equal. unfold hex_step.
  rewrite hex_digit_char by dm. set (p := 16 ^ Z.of_nat n). pose proof (Z.div_mod x 16 ltac:(lia)). lia.
Qed.

Lemma fmt_x_value x : 0 <= x < 2 ^ 64 -> hex_value (fmt_x x) = x.
Proof.
  intros Hx. unfold fmt_x, hex_value. rewrite put_hex_fold; [cbn; lia|]. unfold hex_size. rewrite !Z.gtb_ltb.
  zcmp; (split; [lia|]); match goal with |- _ < ?b => let b' := eval vm_compute in b in change b with b' end; lia.
Qed.

(** ** The text of a format *)

(** The character function in use. *)
Definition putc (font : Z -> Z) (k : kstdio) : Z -> term_context_t -> outcome (Z * term_context_t) :=
  if kernelScreenOut k then term_putchar font else term_putchar_dbg.

Lemma print_loop_app put l l' : forall n s,
  print_loop put (l ++ l') n s = '(n, s) ← print_loop put l n s; print_loop put l' n s.
Proof.
  induction l as [|c l IH]; intros n s; cbn [app print_loop]; [reflexivity|].
  destruct (put c s) as [[r s1]|?| | |]; try reflexivity. cbn [mbind outcome_bind]. apply IH.
Qed.

Lemma print_loop_count put l : forall n s,
  print_loop put l n s = '(j, s) ← print_loop put l 0 s; Ret (n + j, s).
Proof.
  induction l as [|c l IH]; intros n s; cbn [print_loop]; [cbn [mbind outcome_bind]; do 2 f_equal; lia|].
  destruct (put c s) as [[r s1]|?| | |]; try reflexivity. cbn [mbind outcome_bind]. rewrite IH, (IH 1).
  destruct (print_loop put l 0 s1) as [[j s2]|?| | |]; try reflexivity. cbn [mbind outcome_bind]. do 2 f_equal. lia.
Qed.

Section Text.
Variable (font : Z -> Z) (m : mem) (sfuel : nat).

(** The text a format stands for. *)
Fixpoint render (fmt args : list Z) : outcome (list Z) :=
  match fmt with
  | [] => Ret []
  | f :: fmt' =>
      if f =? 37 then
        match fmt' with
        | [] => Ret []
        | c :: fmt'' =>
            '(out, args) ← convert m sfuel c args; l ← render fmt'' args; Ret (default [] out ++ l)
        end
      else l ← render fmt' args; Ret (f :: l)
  end.

Lemma convert_single c args out args' : convert m sfuel c args = Ret (Some out, args') -> (c =? 37) || (c =? 99) = true ->
  out = [nth 0 out 0].
Proof.
  unfold convert. destruct (Z.eqb_spec c 37); [now intros [= <- _]|]. destruct (Z.eqb_spec c 99) as [->|]; [|discriminate]. cbn.
  destruct args; [discriminate|]. now intros [= <- _].
Qed.

Lemma kputchar_put c k : kputchar font c k = '(r, t) ← putc font k c (ks_term k); Ret (r, set_ks_term t k).
Proof. unfold kputchar, putc. now destruct (kernelScreenOut k). Qed.

Lemma print_string_put l k : print_string font l k = '(n, t) ← print_loop (putc font k) l 0 (ks_term k); Ret (n, set_ks_term t k).
Proof. unfold print_string, putc, term_print, term_print_dbg. now destruct (kernelScreenOut k). Qed.

(** A format prints the characters of its text, one after the other. *)
Lemma kvprintf_loop_put : forall len fmt args n k l, (length fmt <= len)%nat -> render fmt args = Ret l ->
  kvprintf_loop font m sfuel fmt args n k = '(j, t) ← print_loop (putc font k) l n (ks_term k); Ret (j, set_ks_term t k).
Proof.
  assert (forall k, set_ks_term (ks_term k) k = k) as E0 by now intros [].
  induction len as [|len IH]; intros [|f fmt] args n k l Hlen Hr; cbn [length] in Hlen; try lia; cbn [kvprintf_loop render] in *;
    try (injection Hr as <-; cbn [print_loop mbind outcome_bind]; now rewrite E0).
  destruct (f =? 37).
  - destruct fmt as [|c fmt]; [injection Hr as <-; cbn [print_loop mbind outcome_bind]; now rewrite E0|]. cbn [length] in Hlen.
    apply bind_Ret in Hr as ([out args'] & Ec & Hr). apply bind_Ret in Hr as (l' & Er & [= <-]). rewrite Ec. cbn [mbind outcome_bind].
    destruct out as [o|]; cbn [from_option]; unfold id; [|now apply IH; [lia|]].
    rewrite print_loop_app. destruct ((c =? 37) || (c =? 99)) eqn:Es.
    + rewrite (convert_single c args o args' Ec Es) at 2. rewrite kputchar_put. cbn [print_loop].
      destruct (putc font k (nth 0 o 0) (ks_term k)) as [[r t]|?| | |]; try reflexivity. cbn [mbind outcome_bind].
      now rewrite (IH fmt args' (n + 1) _ l' ltac:(lia) Er).
    + rewrite print_string_put, (print_loop_count _ o n). destruct (print_loop (putc font k) o 0 (ks_term k)) as [[j t]|?| | |]; try reflexivity.
      cbn [mbind outcome_bind]. now rewrite (IH fmt args' (n + j) _ l' ltac:(lia) Er).
  - apply bind_Ret in Hr as (l' & Er & [= <-]). rewrite kputchar_put. cbn [print_loop].
    destruct (putc font k f (ks_term k)) as [[r t]|?| | |]; try reflexivity. cbn [mbind outcome_bind].
    now rewrite (IH fmt args (n + 1) _ l' ltac:(lia) Er).
Qed.

(** The printing functions with their locks free. *)
Lemma kvprintf_put fmt args k l : render fmt args = Ret l -> kvprintfLock k = false ->
  kvprintf font m sfuel fmt args k = '(j, t) ← print_loop (putc font k) l 0 (ks_term k); Ret (j, set_ks_term t k).
Proof.
  intros Hr Lk. unfold kvprintf. rewrite Lk. cbn [acquireLock mbind outcome_bind].
  rewrite (kvprintf_loop_put (length fmt) fmt args 0 _ l) by auto. change (putc font (set_vlock true k)) with (putc font k).
  cbn [ks_term set_vlock]. destruct (print_loop _ l 0 (ks_term k)) as [[j t]|?| | |]; try reflexivity. cbn [mbind outcome_bind].
  destruct k. cbn in *. now subst.
Qed.

Lemma kprintf_put fmt args k l : render fmt args = Ret l -> kvprintfLock k = false -> kprintfLock k = false ->
  kprintf font m sfuel fmt args k = '(j, t) ← print_loop (putc font k) l 0 (ks_term k); Ret (j, set_ks_term t k).
Proof.
  intros Hr Lv Lk. unfold kprintf. rewrite Lk. cbn [acquireLock mbind outcome_bind].
  rewrite (kvprintf_put fmt args (set_plock true k) l) by auto. change (putc font (set_plock true k)) with (putc font k).
  cbn [ks_term set_plock]. destruct (print_loop _ l 0 (ks_term k)) as [[j t]|?| | |]; try reflexivity. cbn [mbind outcome_bind].
  destruct k. cbn in *. now subst.
Qed.
End Text.

(** ** Output with the screen off *)

Definition emit_all (str : list Z) (t : term_context_t) : term_context_t := fold_left (fun t c => emit_char c t) str t.

Lemma emit_char_lock c t : t_lock t = false -> unlock_term (emit_char c (set_tlock true t)) = emit_char c t.
Proof. intros L. unfold emit_char, unlock_term. destruct t. cbn in L. subst. now destruct (c =? ch_newline). Qed.

Lemma emit_char_out c t : t_lock (emit_char c t) = t_lock t /\ t_out (emit_char c t) = t_out t ++ echo c.
Proof. unfold emit_char, echo. destruct (c =? ch_newline); cbn; rewrite <- ?app_assoc; auto. Qed.

Lemma emit_all_out str : forall t, t_lock (emit_all str t) = t_lock t /\ t_out (emit_all str t) = t_out t ++ flat_map echo str.
Proof.
  induction str as [|c str IH]; intros t; cbn [emit_all fold_left flat_map]; [now rewrite app_nil_r|].
  destruct (IH (emit_char c t)) as [I1 I2], (emit_char_out c t) as [E1 E2]. unfold emit_all in *.
  now rewrite I1, I2, E1, E2, <- app_assoc.
Qed.

Lemma print_dbg_spec str : forall n t, t_lock t = false ->
  print_loop term_putchar_dbg str n t = Ret (n + Z.of_nat (length str), emit_all str t).
Proof.
  induction str as [|c str IH]; intros n t L; cbn [print_loop emit_all fold_left length]; [do 2 f_equal; lia|].
  unfold term_putchar_dbg. rewrite L. cbn [acquireLock mbind outcome_bind]. rewrite emit_char_lock by exact L.
  fold term_putchar_dbg. rewrite IH by (rewrite (proj1 (emit_char_out c t)); exact L). do 2 f_equal. lia.
Qed.

(** The screen is off and the terminal is not in use. *)
Definition quiet (k : kstdio) : Prop := kernelScreenOut k = false /\ t_lock (ks_term k) = false.

Definition emit_ks (l : list Z) (k : kstdio) : kstdio := set_ks_term (emit_all l (ks_term k)) k.

Lemma emit_ks_quiet l k : quiet k -> quiet (emit_ks l k).
Proof. intros [H1 H2]. split; [exact H1|]. cbn. now rewrite (proj1 (emit_all_out l (ks_term k))). Qed.

Lemma kprintf_off font m sfuel fmt args l k : quiet k -> kvprintfLock k = false -> kprintfLock k = false ->
  render m sfuel fmt args = Ret l -> kprintf font m sfuel fmt args k = Ret (Z.of_nat (length l), emit_ks l k).
Proof.
  intros [H1 H2] Lv Lk Hr. rewrite (kprintf_put font m sfuel fmt args k l Hr Lv Lk). unfold putc. rewrite H1.
  now rewrite print_dbg_spec by exact H2.
Qed.

(** With the screen off, [kprintf] sends the text of the format to the debug and
    serial ports character by character, returns its length and leaves its locks free.
    Numbers print so that they read back: [%u] and [%x] for all 64-bit words, [%d] for all
    [int]s but the smallest. *)
Theorem kprintf_numbers font m sfuel u d x k :
  quiet k -> kvprintfLock k = false -> kprintfLock k = false ->
  0 <= u < 2 ^ 64 -> - 2 ^ 31 < d < 2 ^ 31 -> 0 <= x < 2 ^ 64 ->
  exists U V X, dec_value U = u /\ signed_value V = d /\ hex_value X = x /\
  Returns (kprintf font m sfuel (chars "%u %d 0x%x") [u; d; x] k) (fun '(n, k') =>
    let text := U ++ [32] ++ V ++ chars " 0x" ++ X in
    n = Z.of_nat (length text) /\ t_out (ks_term k') = t_out (ks_term k) ++ flat_map echo text /\
    quiet k' /\ kvprintfLock k' = false /\ kprintfLock k' = false).
Proof.
  intros Hq L1 L2 Hu Hd Hx. exists (fmt_u u), (fmt_d d), (fmt_x x).
  splits; [now apply fmt_u_value|now apply fmt_d_value|now apply fmt_x_value|].
  rewrite (kprintf_off font m sfuel _ _ (fmt_u u ++ [32] ++ fmt_d d ++ chars " 0x" ++ fmt_x x)); auto;
    try (rewrite <- (app_nil_r (fmt_x x)); reflexivity).
  apply Returns_ret. cbn zeta. splits; try assumption; try reflexivity; try apply emit_all_out; apply (emit_ks_quiet _ _ Hq).
Qed.

Definition ks_demo : kstdio := mk_kstdio term_demo false false false false.

Lemma kprintf_numbers_witness :
  exists U V X, dec_value U = 4095 /\ signed_value V = -17 /\ hex_value X = 48879 /\
  Returns (kprintf (fun _ => 0) (fun _ => 0) 1 (chars "%u %d 0x%x") [4095; -17; 48879] ks_demo) (fun '(n, k') =>
    let text := U ++ [32] ++ V ++ chars " 0x" ++ X in
    n = Z.of_nat (length text) /\ t_out (ks_term k') = flat_map echo text /\
    quiet k' /\ kvprintfLock k' = false /\ kprintfLock k' = false).
Proof. apply (kprintf_numbers (fun _ => 0) (fun _ => 0) 1 4095 (-17) 48879 ks_demo); try reflexivity; try lia. now split. Defined.

(** The smallest [int] does not print as a number: its sign cannot be changed. *)
Theorem kprintf_int_min : fmt_d (- 2 ^ 31) = chars "-./,),(-*,(".
Proof. vm_compute. reflexivity. Qed.

(** [kstrerror] knows 33 errors; the codes of the kernel go beyond. *)
Theorem kstrerror_range : kstrerror ENOSYS = Fault /\ kstrerror ERANGE = Fault /\ kstrerror 0 = Fault /\
  kstrerror ENOENT = Ret "No such file or directory"%string.
Proof. vm_compute. auto. Qed.
