(* ===== verification/Klog.v ===== *)
(** * The log on the screen ([kernel/klibc/kstdio/klog.c])

    A log message is text and changes of the colour.  The escape sequences that [klog]
    prints are read again by the terminal ([Term]); here they are followed character by
    character, up to the picture on the screen. *)

From S2P Require Import Prelude MemUtil Bytes Term Kprintf.
#[local] Open Scope Z_scope.

(** ** Text and colours *)

Inductive piece : Type :=
| Text (l : list Z)
| Colour (r g b : Z).

(** The sequence that sets the colour of the text. *)
Definition sgr (r g b : Z) : list Z :=
  [ch_escape; 91] ++ fmt_d 38 ++ [59] ++ fmt_d 2 ++ [59] ++ fmt_d r ++ [59] ++ fmt_d g ++ [59] ++ fmt_d b ++ [109].

Definition piece_chars (p : piece) : list Z := match p with Text l => l | Colour r g b => sgr r g b end.
Definition all_chars (ps : list piece) : list Z := flat_map piece_chars ps.

Definition piece_ok (p : piece) : Prop :=
  match p with
  | Text l => Forall (fun c => is_text c = true) l
  | Colour r g b => 0 <= r < 256 /\ 0 <= g < 256 /\ 0 <= b < 256
  end.

Definition rgb (r g b : Z) : Z := r * 65536 + g * 256 + b.

(** What a piece makes of the picture and the colour. *)
Definition a_piece (font : Z -> Z) (f : framebuffer_info_t) (bg : Z) (st : screen * Z) (p : piece) : screen * Z :=
  match p with
  | Text l => (fold_left (fun A c => a_put font (fb_width f) (fb_height f) st.2 bg c A) l st.1, st.2)
  | Colour r g b => (a_draw font (rgb r g b) bg CURSOR_GLYPH st.1, rgb r g b)
  end.

(** Between two sequences nothing is left of the last one. *)
Record tidy (s : term_context_t) (A : screen) : Prop := {
  ti_ready : ready s A;
  ti_offset : escapeOffset s = 0;
  ti_args : escArgs s = repeat 0 16;
  ti_count : escArgsCount s = 0
}.

Section Escape.
Variable s0 : term_context_t.
Hypothesis (Hen : enabled s0 = true) (Hlk : t_lock s0 = false).

(** Inside a sequence: the offset, the parameters and their number, and the characters
    seen. *)
Definition parsing (o : Z) (args : list Z) (cnt : Z) (l : list Z) : term_context_t :=
  set_args args cnt (set_escape true true o (emit_all l s0)).

Lemma emit_all_snoc l c : emit_all (l ++ [c]) s0 = emit_char c (emit_all l s0).
Proof. unfold emit_all. now rewrite fold_left_app. Qed.

Lemma emit_all_fields l : let s := emit_all l s0 in
  enabled s = true /\ t_lock s = false /\ foregroundColour s = foregroundColour s0 /\ backgroundColour s = backgroundColour s0 /\
  t_fb s = t_fb s0 /\ t_mem s = t_mem s0 /\ cursor s = cursor s0 /\ t_fbLock s = t_fbLock s0.
Proof.
  induction l as [|c l IH] using rev_ind; cbn zeta; [cbn; auto 10|]. rewrite emit_all_snoc. cbn zeta in IH.
  unfold emit_char. destruct (c =? ch_newline); cbn; tauto.
Qed.

Variable font : Z -> Z.

(** One character inside a sequence. *)
Lemma parsing_step c o args cnt l : c <> 0 -> 0 <= o < 2 ^ 16 - 1 ->
  term_putchar font c (parsing o args cnt l) =
    s ← term_handle_esc font c (set_tlock true (parsing (o + 1) args cnt (l ++ [c]))); Ret (0, unlock_term s).
Proof.
  intros Hc Ho. destruct (emit_all_fields l) as (E1 & E2 & _). unfold term_putchar. rewrite (proj2 (Z.eqb_neq c 0) Hc).
  replace (enabled (parsing o args cnt l)) with true by (symmetry; exact E1).
  replace (t_lock (parsing o args cnt l)) with false by (symmetry; exact E2). cbn [negb acquireLock mbind outcome_bind].
  assert (emit_char c (set_tlock true (parsing o args cnt l)) = set_tlock true (parsing o args cnt (l ++ [c]))) as ->.
  { unfold parsing. rewrite emit_all_snoc. unfold emit_char. now destruct (c =? ch_newline). }
  cbn [escape parsing set_tlock set_args set_escape escapeOffset escapeCSI]. rewrite wrap_small by (pow2_consts; lia). reflexivity.
Qed.

Lemma parsing_unlock o args cnt l : unlock_term (set_tlock true (parsing o args cnt l)) = parsing o args cnt l.
Proof.
  destruct (emit_all_fields l) as (_ & E2 & _). unfold unlock_term, parsing. destruct (emit_all l s0). cbn in *. now subst.
Qed.

(** A digit belongs to the current parameter, which has eight bits. *)
Definition dec8 (a c : Z) : Z := u8 (u8 (a * 10) + (c - 48)).
Definition digit (c : Z) : Prop := 48 <= c <= 57.

Lemma parse_digit c o args cnt l : digit c -> 1 <= o < 2 ^ 16 - 1 -> 0 <= cnt < 16 ->
  term_putchar font c (parsing o args cnt l) =
    Ret (0, parsing (o + 1) (<[Z.to_nat cnt := dec8 (nth (Z.to_nat cnt) args 0) c]> args) cnt (l ++ [c])).
Proof.
  intros [H1 H2] Ho Hcnt. rewrite parsing_step by lia. unfold term_handle_esc.
  cbn [escapeOffset escArgsCount parsing set_tlock set_args set_escape arg escArgs].
  rewrite (proj2 (Z.eqb_neq (o + 1) 1)), (proj2 (Z.leb_le 48 c)), (proj2 (Z.leb_le c 57)) by lia. cbn [andb].
  rewrite (proj2 (Z.eqb_neq cnt 16)), (proj2 (Z.ltb_ge 16 cnt)) by lia. cbn [mbind outcome_bind]. do 2 f_equal.
  etransitivity; [|apply parsing_unlock]. reflexivity.
Qed.

Lemma parse_separator o args cnt l : 1 <= o < 2 ^ 16 - 1 -> 0 <= cnt < 255 ->
  term_putchar font 59 (parsing o args cnt l) = Ret (0, parsing (o + 1) args (cnt + 1) (l ++ [59])).
Proof.
  intros Ho Hcnt. rewrite parsing_step by lia. unfold term_handle_esc.
  cbn [escapeOffset escArgsCount parsing set_tlock set_args set_escape]. rewrite (proj2 (Z.eqb_neq (o + 1) 1)) by lia.
  cbn. do 2 f_equal. rewrite wrap_small by (pow2_consts; lia). etransitivity; [|apply parsing_unlock]. reflexivity.
Qed.

Lemma parse_digits ds : forall n o args cnt l, Forall digit ds -> 1 <= o -> o + Z.of_nat (length ds) < 2 ^ 16 -> 0 <= cnt < 16 ->
  length args = 16%nat ->
  print_loop (term_putchar font) ds n (parsing o args cnt l) =
    Ret (n + Z.of_nat (length ds), parsing (o + Z.of_nat (length ds))
           (<[Z.to_nat cnt := fold_left dec8 ds (nth (Z.to_nat cnt) args 0)]> args) cnt (l ++ ds)).
Proof.
  induction ds as [|c ds IH]; intros n o args cnt l Hd Ho Hlen Hcnt Hargs; cbn [print_loop length fold_left].
  - rewrite !Z.add_0_r, app_nil_r. do 3 f_equal. symmetry. apply list_insert_id.
    destruct (nth_lookup_or_length args (Z.to_nat cnt) 0); [assumption|lia].
  - apply Forall_cons in Hd as [Hc Hd]. cbn [length] in Hlen. rewrite parse_digit by (auto; lia). cbn [mbind outcome_bind].
    rewrite IH; auto; try lia; [|now rewrite length_insert]. rewrite list_insert_insert_eq.
    rewrite (nth_lookup_Some _ _ _ _ (list_lookup_insert_eq args (Z.to_nat cnt) (dec8 (nth (Z.to_nat cnt) args 0) c) ltac:(lia))).
    rewrite <- app_assoc. f_equal. f_equal; [lia|]. f_equal. lia.
Qed.

(** A number below 256 is read back as itself. *)
Lemma byte_digits x : 0 <= x < 256 -> Forall digit (fmt_d x) /\ fold_left dec8 (fmt_d x) 0 = x /\ (length (fmt_d x) <= 3)%nat.
Proof.
  intros Hx. pose (ok := fun n => let l := fmt_d (Z.of_nat n) in
    forallb (fun c => (48 <=? c) && (c <=? 57)) l && (fold_left dec8 l 0 =? Z.of_nat n) && (length l <=? 3)%nat).
  assert (forallb ok (List.seq 0 256) = true) as Hall by (vm_compute; reflexivity).
  rewrite forallb_forall in Hall. specialize (Hall (Z.to_nat x) ltac:(apply in_seq; lia)). unfold ok in Hall.
  rewrite Z2Nat.id, !andb_true_iff, forallb_forall in Hall by lia. destruct Hall as ((H1 & H2) & H3). splits.
  - apply Forall_forall. intros c Hc%list_elem_of_In. specialize (H1 c Hc). unfold digit. lia.
  - now apply Z.eqb_eq.
  - now apply Nat.leb_le.
Qed.

Lemma parse_number x n o args cnt l : 0 <= x < 256 -> 1 <= o -> o + 3 < 2 ^ 16 -> 0 <= cnt < 16 -> length args = 16%nat ->
  nth (Z.to_nat cnt) args 0 = 0 ->
  print_loop (term_putchar font) (fmt_d x) n (parsing o args cnt l) =
    Ret (n + Z.of_nat (length (fmt_d x)), parsing (o + Z.of_nat (length (fmt_d x))) (<[Z.to_nat cnt := x]> args) cnt (l ++ fmt_d x)).
Proof.
  intros Hx Ho Ho' Hc Ha Hz. destruct (byte_digits x Hx) as (D1 & D2 & D3). rewrite parse_digits by (auto; lia). now rewrite Hz, D2.
Qed.

(** A parameter and what follows it. *)
Lemma parse_parameter x n o args cnt l rest : 0 <= x < 256 -> 1 <= o -> o + 4 < 2 ^ 16 -> 0 <= cnt < 16 -> length args = 16%nat ->
  nth (Z.to_nat cnt) args 0 = 0 -> exists o', o <= o' <= o + 4 /\
  print_loop (term_putchar font) (fmt_d x ++ [59] ++ rest) n (parsing o args cnt l) =
    print_loop (term_putchar font) rest (n + Z.of_nat (length (fmt_d x ++ [59])))
      (parsing o' (<[Z.to_nat cnt := x]> args) (cnt + 1) (l ++ fmt_d x ++ [59])).
Proof.
  intros Hx Ho Ho' Hc Ha Hz. pose proof (byte_digits x Hx) as (_ & _ & D3). exists (o + Z.of_nat (length (fmt_d x)) + 1). split; [lia|].
  rewrite print_loop_app, parse_number by (auto; lia). cbn [mbind outcome_bind app print_loop]. rewrite parse_separator by lia.
  cbn [mbind outcome_bind]. rewrite <- app_assoc, length_app. cbn [length]. f_equal. lia.
Qed.
End Escape.

(** One step over a parameter and its separator. *)
Ltac parameter s He Hlk :=
  match goal with |- Returns (print_loop (term_putchar ?font) (fmt_d ?x ++ [59] ++ ?rest) ?n (parsing _ ?o ?args ?cnt ?l)) _ =>
    let E := fresh in
    destruct (parse_parameter s He Hlk font x n o args cnt l rest) as (? & ? & E);
    [lia|lia|lia|lia|reflexivity|reflexivity|rewrite E; clear E]
  end.

Section Pieces.
Variable font : Z -> Z.
Implicit Types (s : term_context_t) (A : screen).

(** The end of a sequence for the colour of the text. *)
Lemma parse_end s A o r g b l : tidy s A -> 0 <= r < 256 -> 0 <= g < 256 -> 0 <= b < 256 -> 1 <= o < 2 ^ 16 - 1 ->
  Returns (term_putchar font 109 (parsing s o ([38; 2; r; g; b] ++ repeat 0 11) 4 l)) (fun '(_, s') =>
    tidy s' (a_draw font (rgb r g b) (backgroundColour s) CURSOR_GLYPH A) /\ foregroundColour s' = rgb r g b /\
    backgroundColour s' = backgroundColour s /\ t_fb s' = t_fb s /\ t_out s' = t_out s ++ flat_map echo (l ++ [109])).
Proof.
  intros [[Hok Hsh He Hesc Hlk] _ _ _] Hr Hg Hb Ho. rewrite parsing_step by (auto; lia). unfold term_handle_esc.
  cbn [escapeOffset parsing set_tlock set_args set_escape]. rewrite (proj2 (Z.eqb_neq (o + 1) 1)) by lia.
  cbn [andb Z.leb Z.eqb Z.compare Pos.compare Pos.compare_cont Pos.eqb]. unfold term_sgr, sgr_colour.
  cbn [arg escArgs parsing set_tlock set_args set_escape nth app Z.eqb Pos.eqb mbind outcome_bind default from_option].
  rewrite !Z.shiftl_mul_pow2 by lia. replace (u32 (r * 2 ^ 16 + g * 2 ^ 8 + b)) with (rgb r g b)
    by (unfold rgb; rewrite wrap_small by (pow2_consts; lia); lia). unfold id.
  destruct (emit_all_fields s He Hlk (l ++ [109])) as (F1 & F2 & F3 & F4 & F5 & F6 & F7 & F8).
  set (s1 := set_colours _ _ _).
  assert (term_ok s1 /\ shows s1 A) as [Hok1 Hsh1].
  { destruct Hok as [K1 K2 K3 K4 K5 K6 K7], Hsh as (S1 & S2 & S3). unfold shows, x_of, y_of in *. split; [split|splits]; unfold s1, x_of, y_of;
      cbn [t_fb t_fbLock cursor foregroundColour backgroundColour escArgs t_mem set_colours set_tlock parsing set_args set_escape];
      rewrite ?F4, ?F5, ?F6, ?F7, ?F8; auto. unfold rgb. lia. }
  destruct (draw_step font CURSOR_GLYPH s1 s1 A (drawn_to_refl s1 A Hok1 Hsh1)) as (s2 & Ed & E2 & Hsh2 & Hok2).
  rewrite Ed. cbn [mbind outcome_bind]. apply Returns_ret.
  assert (foregroundColour s2 = rgb r g b /\ backgroundColour s2 = backgroundColour s /\ t_fb s2 = t_fb s /\ enabled s2 = true /\
    t_out s2 = t_out (emit_all (l ++ [109]) s)) as (G1 & G2 & G3 & G4 & G5)
    by (rewrite E2; cbn [foregroundColour backgroundColour t_fb enabled t_out cursor_set set_fbmem s1 set_colours set_tlock parsing set_args set_escape]; auto 10).
  assert (backgroundColour s1 = backgroundColour s) as Eb by exact F4. rewrite Eb in Hsh2. cbn [foregroundColour s1 set_colours] in Hsh2.
  splits; try assumption; [|rewrite <- (proj2 (emit_all_out (l ++ [109]) s)); exact G5].
  split; try reflexivity. destruct Hok2. split; auto. now split.
Qed.

Lemma put_colour s A r g b n : tidy s A -> 0 <= r < 256 -> 0 <= g < 256 -> 0 <= b < 256 ->
  Returns (print_loop (term_putchar font) (sgr r g b) n s) (fun '(n', s') => n' = n + Z.of_nat (length (sgr r g b)) /\
    tidy s' (a_draw font (rgb r g b) (backgroundColour s) CURSOR_GLYPH A) /\ foregroundColour s' = rgb r g b /\
    backgroundColour s' = backgroundColour s /\ t_fb s' = t_fb s /\ t_out s' = t_out s ++ flat_map echo (sgr r g b)).
Proof.
  intros Ht Hr Hg Hb. pose proof Ht as [[_ _ He Hesc Hlk] To Ta Tc]. unfold sgr. rewrite print_loop_app.
  assert (print_loop (term_putchar font) [ch_escape; 91] n s = Ret (n + 2, parsing s 1 (repeat 0 16) 0 [ch_escape; 91])) as ->.
  { destruct s. cbn in *. subst. replace (n + 2) with (n + 1 + 1) by lia. reflexivity. }
  cbn [mbind outcome_bind].
  parameter s He Hlk. parameter s He Hlk. parameter s He Hlk. parameter s He Hlk.
  rewrite print_loop_app, (parse_number s He Hlk font b) by (reflexivity || lia). cbn [mbind outcome_bind print_loop].
  pose proof (proj2 (proj2 (byte_digits b Hb))) as Hl. eapply Returns_bind; [eapply (parse_end s A _ r g b); auto; lia|].
  intros [q s'] (R1 & R2 & R3 & R4 & R5). apply Returns_ret. splits; auto.
  - rewrite !length_app. cbn [length]. lia.
  - rewrite R5. do 2 f_equal. now rewrite <- !app_assoc.
Qed.

(** What printing leaves besides the picture. *)
Definition printed (l : list Z) (fg : Z) s s' : Prop :=
  foregroundColour s' = fg /\ backgroundColour s' = backgroundColour s /\ t_fb s' = t_fb s /\ t_out s' = t_out s ++ flat_map echo l.

Lemma put_text l : forall s A n, tidy s A -> Forall (fun c => is_text c = true) l ->
  Returns (print_loop (term_putchar font) l n s) (fun '(n', s') => n' = n + Z.of_nat (length l) /\
    tidy s' (a_piece font (t_fb s) (backgroundColour s) (A, foregroundColour s) (Text l)).1 /\ printed l (foregroundColour s) s s').
Proof.
  unfold printed. induction l as [|c l IH]; intros s A n [Hr T1 T2 T3] Ht; cbn [print_loop length a_piece fold_left fst snd flat_map].
  - apply Returns_ret. splits; auto; [lia|now split|symmetry; apply app_nil_r].
  - apply Forall_cons in Ht as [Hc Ht]. eapply Returns_bind; [exact (term_putchar_spec font c s A Hr Hc)|].
    intros [r s1] (_ & R1 & R2 & R3 & R4 & R5 & R6 & R7 & R8).
    eapply Returns_mono; [eapply (IH s1); [split; [exact R1|congruence..]|exact Ht]|].
    rewrite R3, R4, R5. intros [n' s2] (-> & Q1 & Q2 & Q3 & Q4 & Q5). splits; try congruence; [lia|exact Q1|].
    now rewrite Q5, R2, <- app_assoc.
Qed.

Lemma put_piece p s A n : tidy s A -> piece_ok p ->
  let st := a_piece font (t_fb s) (backgroundColour s) (A, foregroundColour s) p in
  Returns (print_loop (term_putchar font) (piece_chars p) n s) (fun '(n', s') => n' = n + Z.of_nat (length (piece_chars p)) /\
    tidy s' st.1 /\ printed (piece_chars p) st.2 s s').
Proof.
  destruct p as [l|r g b]; cbn [piece_ok piece_chars a_piece fst snd]; intros Ht Hp; [now apply put_text|].
  destruct Hp as (P1 & P2 & P3). eapply Returns_mono; [exact (put_colour s A r g b n Ht P1 P2 P3)|].
  intros [n' s'] (R1 & R2 & R3 & R4 & R5 & R6). splits; auto. now splits.
Qed.

Lemma put_pieces ps : forall s A n, tidy s A -> Forall piece_ok ps ->
  let st := fold_left (a_piece font (t_fb s) (backgroundColour s)) ps (A, foregroundColour s) in
  Returns (print_loop (term_putchar font) (all_chars ps) n s) (fun '(n', s') => n' = n + Z.of_nat (length (all_chars ps)) /\
    tidy s' st.1 /\ printed (all_chars ps) st.2 s s').
Proof.
  unfold printed. induction ps as [|p ps IH]; intros s A n Ht Hp; cbn [all_chars flat_map fold_left print_loop length fst snd].
  - apply Returns_ret. splits; auto; [lia|symmetry; apply app_nil_r].
  - apply Forall_cons in Hp as [Hp Hps]. rewrite print_loop_app. eapply Returns_bind; [exact (put_piece p s A n Ht Hp)|].
    intros [n1 s1] (-> & T1 & P1 & P2 & P3 & P4). eapply Returns_mono; [exact (IH s1 _ _ T1 Hps)|].
    rewrite P1, P2, P3, <- surjective_pairing. intros [n2 s2] (-> & T2 & Q1 & Q2 & Q3 & Q4).
    splits; try congruence; [unfold all_chars; rewrite length_app; lia|]. now rewrite Q4, P4, flat_map_app, <- app_assoc.
Qed.
End Pieces.

(** ** Printing with the screen on *)

(** The text of pieces with unknown numbers. *)
Ltac render_pieces := unfold all_chars; cbn [flat_map piece_chars]; unfold sgr; rewrite <- ?app_assoc; reflexivity.

Section Log.
Variable (font : Z -> Z) (m : mem) (sfuel : nat).
Variable (k0 : kstdio) (A0 : screen).

(** The picture and the colour after some pieces. *)
Definition after (ps : list piece) : screen * Z :=
  fold_left (a_piece font (t_fb (ks_term k0)) (backgroundColour (ks_term k0))) ps (A0, foregroundColour (ks_term k0)).

Lemma after_app ps qs : after (ps ++ qs) = fold_left (a_piece font (t_fb (ks_term k0)) (backgroundColour (ks_term k0))) qs (after ps).
Proof. apply fold_left_app. Qed.

(** The state after these pieces were printed in [k0]: the printing locks are free, that of
    the log is [g]. *)
Record shown (g : spinlock_t) (ps : list piece) (k : kstdio) : Prop := {
  sh_on : kernelScreenOut k = true;
  sh_vlock : kvprintfLock k = false;
  sh_plock : kprintfLock k = false;
  sh_glock : klogLock k = g;
  sh_tidy : tidy (ks_term k) (after ps).1;
  sh_printed : printed (all_chars ps) (after ps).2 (ks_term k0) (ks_term k)
}.

Lemma shown_put g ps qs k n : shown g ps k -> Forall piece_ok qs ->
  Returns ('(j, t) ← print_loop (putc font k) (all_chars qs) n (ks_term k); Ret (j, set_ks_term t k)) (fun '(_, k') => shown g (ps ++ qs) k').
Proof.
  intros [S1 S2 S3 S4 S5 (P1 & P2 & P3 & P4)] Hq. unfold putc. rewrite S1.
  eapply Returns_bind; [exact (put_pieces font qs _ _ n S5 Hq)|]. rewrite P1, P2, P3, <- surjective_pairing.
  intros [j t] (_ & T & Q1 & Q2 & Q3 & Q4). apply Returns_ret.
  rewrite <- after_app in T, Q1. split; auto. unfold printed.
  cbn [ks_term set_ks_term]. splits; try congruence. rewrite Q4, P4. unfold all_chars. now rewrite !flat_map_app, <- app_assoc.
Qed.

Lemma kprintf_shown g ps qs k fmt args : shown g ps k -> Forall piece_ok qs -> render m sfuel fmt args = Ret (all_chars qs) ->
  Returns (kprintf font m sfuel fmt args k) (fun '(_, k') => shown g (ps ++ qs) k').
Proof. intros S Hq Hr. rewrite (kprintf_put font m sfuel fmt args k _ Hr (sh_vlock _ _ _ S) (sh_plock _ _ _ S)). now apply shown_put. Qed.

Lemma kvprintf_shown g ps qs k fmt args : shown g ps k -> Forall piece_ok qs -> render m sfuel fmt args = Ret (all_chars qs) ->
  Returns (kvprintf font m sfuel fmt args k) (fun '(_, k') => shown g (ps ++ qs) k').
Proof. intros S Hq Hr. rewrite (kvprintf_put font m sfuel fmt args k _ Hr (sh_vlock _ _ _ S)). now apply shown_put. Qed.

Lemma kputchar_shown g ps k c : shown g ps k -> is_text c = true ->
  Returns (kputchar font c k) (fun '(_, k') => shown g (ps ++ [Text [c]]) k').
Proof.
  intros S Hc. rewrite kputchar_put.
  pose proof (shown_put g ps [Text [c]] k 0 S ltac:(repeat constructor; exact Hc)) as H. cbn [all_chars flat_map piece_chars app print_loop] in H.
  destruct (putc font k c (ks_term k)) as [[r t]|?| | |]; cbn [mbind outcome_bind] in *; try (destruct H as (? & H & _); discriminate).
  destruct H as ([r' k'] & [= <- <-] & H). now apply Returns_ret.
Qed.

Lemma pad_shown g ps k c n : shown g ps k -> is_text c = true ->
  Returns (pad font n c k) (shown g (ps ++ repeat (Text [c]) (Z.to_nat n))).
Proof.
  intros S Hc. unfold pad. eapply Returns_mono;
    [apply (for_up_Returns (fun i => shown g (ps ++ repeat (Text [c]) (Z.to_nat i))))|].
  - cbn. now rewrite app_nil_r.
  - intros i k1 Hi S1. eapply Returns_bind; [exact (kputchar_shown g _ k1 c S1 Hc)|]. intros [r k2] S2. apply Returns_ret.
    replace (Z.to_nat (i + 1)) with (Z.to_nat i + 1)%nat by lia. now rewrite repeat_app, app_assoc.
  - intros k' S'. now rewrite Z.add_0_l, Nat2Z.id in S'.
Qed.

(** ** A message *)

(** The time in square brackets, padded. *)
Definition stamp_pieces (ticks : Z * Z) : list piece :=
  let milliseconds := ticks.1 mod 1000 in
  let seconds := ticks.2 / 1000 mod 1000000 in
  [Colour 180 180 180; Text [91]] ++ repeat (Text [32]) (Z.to_nat (6 - count_digits 20 seconds)) ++ [Text (fmt_u seconds); Text [46]] ++
  repeat (Text [48]) (Z.to_nat (3 - count_digits 20 milliseconds)) ++ [Text (fmt_u milliseconds); Text [93]].

(** The status in its colour; an unknown one prints nothing. *)
Definition status_pieces (status r g b : Z) : list piece :=
  let mk a c name z := [Text (chars a); c; Text (chars name); Colour r g b; Text (chars z)] in
  if status =? KLOG_OK then mk "[   " (Colour 0 255 0) "OK" "   ] "
  else if status =? KLOG_FAILED then mk "[ " (Colour 255 0 0) "FAILED" " ] "
  else if status =? KLOG_INFO then mk "[  " (Colour 0 255 255) "INFO" "  ] "
  else if status =? KLOG_WARNING then mk "[  " (Colour 255 255 0) "WARN" "  ] "
  else if status =? KLOG_CRITICAL then mk "[" (Colour 140 0 0) "CRITICAL" "] "
  else [].

Definition log_pieces (ticks : Z * Z) (status : Z) (component message : list Z) (r g b : Z) : list piece :=
  stamp_pieces ticks ++ [Colour r g b] ++ status_pieces status r g b ++
  [Colour 255 89 0; Text component; Colour r g b; Text (chars ": ")] ++ [Text message].

Lemma fmt_u_text u : 0 <= u -> Forall (fun c => is_text c = true) (fmt_u u).
Proof.
  intros Hu. eapply Forall_impl; [exact (put_digits_head _ u [] Hu (Forall_nil_2 _))|]. cbv beta. intros c Hc. unfold is_text, ch_escape, ch_backspace.
  rewrite !(proj2 (Z.eqb_neq _ _)) by lia. reflexivity.
Qed.

Lemma klog_stamp_shown g ps k ticks : shown g ps k -> 0 <= ticks.1 /\ 0 <= ticks.2 ->
  Returns (klog_stamp font m sfuel ticks k) (shown g (ps ++ stamp_pieces ticks)).
Proof.
  intros S Ht. unfold klog_stamp, stamp_pieces.
  assert (forall x, 0 <= x -> render m sfuel (chars "%u") [x] = Ret (all_chars [Text (fmt_u x)])) as Hu by reflexivity.
  eapply Returns_bind; [apply (kprintf_shown g ps [Colour 180 180 180]); [exact S|repeat constructor; lia|reflexivity]|]. intros [? k1] S1.
  eapply Returns_bind; [exact (kputchar_shown g _ k1 91 S1 eq_refl)|]. intros [? k2] S2.
  eapply Returns_bind; [exact (pad_shown g _ k2 32 _ S2 eq_refl)|]. intros k3 S3.
  eapply Returns_bind; [apply (kprintf_shown g _ [Text (fmt_u (ticks.2 / 1000 mod 1000000))] k3 _ _ S3);
    [repeat constructor; apply fmt_u_text; dm|apply Hu; dm]|]. intros [? k4] S4.
  eapply Returns_bind; [exact (kputchar_shown g _ k4 46 S4 eq_refl)|]. intros [? k5] S5.
  eapply Returns_bind; [exact (pad_shown g _ k5 48 _ S5 eq_refl)|]. intros k6 S6.
  eapply Returns_bind; [apply (kprintf_shown g _ [Text (fmt_u (ticks.1 mod 1000))] k6 _ _ S6);
    [repeat constructor; apply fmt_u_text; dm|apply Hu; dm]|]. intros [? k7] S7.
  eapply Returns_bind; [exact (kputchar_shown g _ k7 93 S7 eq_refl)|]. intros [? k8] S8. apply Returns_ret.
  rewrite <- !app_assoc in S8. exact S8.
Qed.

Lemma byte_of c n : 0 <= Z.land (Z.shiftr c n) 255 < 256.
Proof. change 255 with (Z.ones 8). rewrite Z.land_ones by lia. change (2 ^ 8) with 256. apply Z.mod_pos_bound. lia. Qed.

Lemma status_render status r g b args : 0 <= r < 256 -> 0 <= g < 256 -> 0 <= b < 256 ->
  Forall piece_ok (status_pieces status r g b) /\
  match status_fmt status with
  | Some f => render m sfuel f (r :: g :: b :: args) = Ret (all_chars (status_pieces status r g b))
  | None => status_pieces status r g b = []
  end.
Proof.
  intros Hr Hg Hb. unfold status_fmt, status_pieces. repeat case_match; (split; [|try reflexivity; render_pieces]); repeat constructor; lia.
Qed.

Lemma render_literal lit fmt args : Forall (fun c => c <> 37) lit ->
  render m sfuel (lit ++ fmt) args = l ← render m sfuel fmt args; Ret (lit ++ l).
Proof.
  induction lit as [|c lit IH]; intros Hl; cbn [app]; [now destruct (render m sfuel fmt args)|]. apply Forall_cons in Hl as [Hc Hl].
  cbn [render]. rewrite (proj2 (Z.eqb_neq c 37) Hc), IH by exact Hl. now destruct (render m sfuel fmt args).
Qed.

Lemma render_string fmt a args :
  render m sfuel (37 :: 115 :: fmt) (a :: args) = l ← string_at m sfuel a; l' ← render m sfuel fmt args; Ret (l ++ l').
Proof. cbn [render]. change (37 =? 37) with true. cbn iota. unfold convert. cbn [Z.eqb Pos.eqb orb]. now destruct (string_at m sfuel a). Qed.

(** The log in a running kernel with the screen on. *)
Lemma klog_shown ps k ticks fmt status component args comp msg : shown false ps k -> 0 <= ticks.1 /\ 0 <= ticks.2 ->
  string_at m sfuel component = Ret comp -> Forall (fun c => is_text c = true) comp ->
  render m sfuel fmt args = Ret msg -> Forall (fun c => is_text c = true) msg ->
  let c := foregroundColour (ks_term k) in
  Returns (klog font m sfuel ticks fmt status component args k)
    (shown false (ps ++ log_pieces ticks status comp msg (Z.land (Z.shiftr c 16) 255) (Z.land (Z.shiftr c 8) 255) (Z.land c 255))).
Proof.
  intros S Ht Hc Tc Hm Tm c. unfold klog. rewrite (sh_glock _ _ _ S). cbn [acquireLock mbind outcome_bind].
  change (term_get_colour false (ks_term (set_glock true k))) with c.
  pose proof (byte_of c 16) as Hr. pose proof (byte_of c 8) as Hg. pose proof (byte_of c 0) as Hb. rewrite Z.shiftr_0_r in Hb.
  set (r := Z.land (Z.shiftr c 16) 255) in *. set (g := Z.land (Z.shiftr c 8) 255) in *. set (b := Z.land c 255) in *.
  assert (shown true ps (set_glock true k)) as S0 by (destruct S; now split).
  eapply Returns_bind; [exact (klog_stamp_shown true ps _ ticks S0 Ht)|]. intros k1 S1.
  eapply Returns_bind; [apply (kprintf_shown true _ [Colour r g b] k1 _ _ S1); [repeat constructor; lia|render_pieces]|]. intros [? k2] S2.
  eapply Returns_bind with (P := shown true ((ps ++ stamp_pieces ticks) ++ [Colour r g b] ++ status_pieces status r g b)).
  { destruct (status_render status r g b args Hr Hg Hb) as [P1 P2]. destruct (status_fmt status).
    - eapply Returns_bind; [exact (kprintf_shown true _ _ k2 _ _ S2 P1 P2)|]. intros [? k3] S3. apply Returns_ret. now rewrite <- app_assoc in S3.
    - apply Returns_ret. now rewrite P2. }
  intros k3 S3.
  eapply Returns_bind; [apply (kprintf_shown true _ [Colour 255 89 0; Text comp; Colour r g b; Text (chars ": ")] k3 _ _ S3);
    [repeat constructor; try lia; exact Tc|]|].
  { change (render m sfuel (([27] ++ chars "[38;2;255;89;0m") ++ 37 :: 115 :: [27] ++ chars "[38;2;%d;%d;%dm: ") [component; r; g; b] =
      Ret (all_chars [Colour 255 89 0; Text comp; Colour r g b; Text (chars ": ")])).
    rewrite render_literal, render_string, Hc by (repeat constructor; discriminate). render_pieces. }
  intros [? k4] S4. eapply Returns_bind; [apply (kvprintf_shown true _ [Text msg] k4 _ _ S4); [repeat constructor; exact Tm|]|].
  { rewrite Hm. cbn. now rewrite app_nil_r. }
  intros [? k5] S5. apply Returns_ret. unfold log_pieces. rewrite <- !app_assoc in S5. rewrite <- ?app_assoc. destruct S5. now split.
Qed.
End Log.

Lemma rgb_of c : rgb (Z.land (Z.shiftr c 16) 255) (Z.land (Z.shiftr c 8) 255) (Z.land c 255) = c mod 2 ^ 24.
Proof.
  change 255 with (Z.ones 8). rewrite !Z.land_ones, !Z.shiftr_div_pow2 by lia. unfold rgb.
  change (2 ^ 24) with 16777216. change (2 ^ 16) with 65536. change (2 ^ 8) with 256. Z.to_euclidean_division_equations. lia.
Qed.

(** C23: a log message on the screen is its time, its status, its component and its text,
    each in its colour: exactly these characters go to both ports, the escape sequences
    among them are read back by the terminal as the colours meant, and the picture is that
    of the text printed in them.  The time is the seconds of the second reading of the timer
    and the milliseconds of the first.  The colour of the text is afterwards what it was in
    its 24 low bits, with the others cleared; the terminal is ready for the next message and
    all locks are free. *)
Theorem klog_correct font m sfuel k A ticks fmt status component args comp msg :
  let t := ks_term k in
  let c := foregroundColour t in
  let ps := log_pieces ticks status comp msg (Z.land (Z.shiftr c 16) 255) (Z.land (Z.shiftr c 8) 255) (Z.land c 255) in
  kernelScreenOut k = true -> kvprintfLock k = false -> kprintfLock k = false -> klogLock k = false -> tidy t A -> 0 <= ticks.1 /\ 0 <= ticks.2 ->
  string_at m sfuel component = Ret comp -> Forall (fun c => is_text c = true) comp ->
  render m sfuel fmt args = Ret msg -> Forall (fun c => is_text c = true) msg ->
  Returns (klog font m sfuel ticks fmt status component args k) (fun k' => let t' := ks_term k' in
    t_out t' = t_out t ++ flat_map echo (all_chars ps) /\
    tidy t' (fold_left (a_piece font (t_fb t) (backgroundColour t)) ps (A, c)).1 /\
    foregroundColour t' = c mod 2 ^ 24 /\ backgroundColour t' = backgroundColour t /\ kernelScreenOut k' = true /\
    kvprintfLock k' = false /\ kprintfLock k' = false /\ klogLock k' = false).
Proof.
  intros t c ps H1 H2 H3 H4 Ht Hk Hc Tc Hm Tm.
  assert (shown font k A false [] k) as S by (split; auto; unfold printed, all_chars; cbn; now rewrite app_nil_r).
  eapply Returns_mono; [exact (klog_shown font m sfuel k A [] k ticks fmt status component args comp msg S Hk Hc Tc Hm Tm)|].
  intros k' [S1 S2 S3 S4 S5 (P1 & P2 & P3 & P4)]. fold t c in S5, P1, P2, P3, P4. cbn zeta. splits; auto.
  rewrite P1, <- rgb_of. unfold after, log_pieces. rewrite !fold_left_app. reflexivity.
Qed.

Lemma term_demo_tidy : tidy term_demo (mk_screen (fun _ _ => 0) 0 0).
Proof. split; try reflexivity. exact term_demo_ready. Qed.

Lemma klog_correct_witness :
  Returns (klog (fun i => i) (bytes_at 64 (chars "DAL" ++ [0])) 5 (1250, 1250) (chars "%u pages") KLOG_OK 64 [7] (mk_kstdio term_demo true false false false))
    (fun k' => foregroundColour (ks_term k') = 0xffffff /\ klogLock k' = false /\
      t_out (ks_term k') = flat_map echo ([27] ++ chars "[38;2;180;180;180m[     1.250]" ++ [27] ++ chars "[38;2;255;255;255m[   " ++ [27] ++
        chars "[38;2;0;255;0mOK" ++ [27] ++ chars "[38;2;255;255;255m   ] " ++ [27] ++ chars "[38;2;255;89;0mDAL" ++ [27] ++
        chars "[38;2;255;255;255m: 7 pages")).
Proof.
  eapply Returns_mono.
  - apply (klog_correct (fun i => i) (bytes_at 64 (chars "DAL" ++ [0])) 5 (mk_kstdio term_demo true false false false) (mk_screen (fun _ _ => 0) 0 0)
      (1250, 1250) (chars "%u pages") KLOG_OK 64 [7] (chars "DAL") (chars "7 pages")); try reflexivity; try exact term_demo_tidy; try (cbn; lia); repeat constructor.
  - intros k' (R1 & _ & R3 & _ & _ & _ & _ & R8). splits; [exact R3|exact R8|rewrite R1; vm_compute; reflexivity].
Defined.

(** The timer is read twice: when a second passes in between, the time shown is almost a
    second late. *)
Theorem klog_stamp_torn : all_chars (stamp_pieces (1999, 2000)) = [27] ++ chars "[38;2;180;180;180m[     2.999]".
Proof. vm_compute. reflexivity. Qed.
