(* ===== verification/Panic.v ===== *)
(** * Stopping the kernel ([kernel/sys/panic.c], [kernel/arch/x86_64/state.c],
    [kernel/ubsan/ubsan.c])

    [panic] prints a message and halts the processor; elsewhere in the development it is
    the outcome [Panic].  Here it is followed to the end, over the printing functions of
    [Kprintf] and [Klog].  The state the functions end in is the one the processor is
    halted in. *)

From S2P Require Import Prelude Interfaces MemMap Pmm MemUtil Kheap ListDs Bytes Sched Term Kprintf Klog.
#[local] Open Scope Z_scope.

(** The processor and the output: whether it handles interrupts, whether it is halted, and
    the control registers. *)
Record control_regs : Type := mk_crs { cr0 : Z; cr2 : Z; cr3 : Z; cr4 : Z }.
Record pmachine : Type := mk_pm {
  pm_ks : kstdio;
  panicLock : spinlock_t;
  pm_interrupts : bool;
  pm_halted : bool;
  pm_crs : control_regs
}.

Definition set_ks (k : kstdio) (p : pmachine) : pmachine := mk_pm k (panicLock p) (pm_interrupts p) (pm_halted p) (pm_crs p).
Definition set_panic_lock (l : spinlock_t) (p : pmachine) : pmachine := mk_pm (pm_ks p) l (pm_interrupts p) (pm_halted p) (pm_crs p).
Definition arch_disable_interrupts (p : pmachine) : pmachine := mk_pm (pm_ks p) (panicLock p) false (pm_halted p) (pm_crs p).

(** [cli], then [hlt] for ever. *)
Definition arch_stop (p : pmachine) : pmachine := mk_pm (pm_ks p) (panicLock p) false true (pm_crs p).

Section Panic.
Variable font : Z -> Z.
Variable m : mem.
Variable sfuel : nat.
Variable ticks : Z * Z.
Variable virt_base : Z.

(** The address of a string of the kernel. *)
Variable lit : string -> Z.
Implicit Types (p : pmachine) (k : kstdio).

(** A printing function on the output of the machine. *)
Definition with_ks {A} (f : kstdio -> outcome (A * kstdio)) p : outcome pmachine :=
  '(_, k) ← f (pm_ks p); Ret (set_ks k p).

Definition klog_on (fmt : list Z) (status component : Z) (args : list Z) p : outcome pmachine :=
  k ← klog font m sfuel ticks fmt status component args (pm_ks p); Ret (set_ks k p).

Definition newline2 : list Z := [10; 10].

Definition panic (str : list Z) (component : Z) (args : list Z) p : outcome pmachine :=
  let p := arch_disable_interrupts (set_ks (kernel_screen_output_enable (pm_ks p)) p) in
  l ← acquireLock (panicLock p);
  let p := set_panic_lock l p in
  p ← with_ks (kputchar font 10) p;
  p ← klog_on (chars "Kernel Panic!" ++ newline2) KLOG_CRITICAL component [] p;
  p ← with_ks (kvprintf font m sfuel str args) p;
  Ret (arch_stop (set_panic_lock (releaseLock (panicLock p)) p)).

(** ** The registers *)

Definition dump_format : list Z :=
  chars "RAX=0x%x RBX=0x%x RCX=0x%x" ++ [10] ++ chars "RDX=0x%x RSI=0x%x RDI=0x%x" ++ [10] ++
  chars "RBP=0x%x RSP=0x%x RIP=0x%x (no KOFF 0x%x)" ++ [10] ++ chars "R8=0x%x  R9=0x%x  R10=0x%x" ++ [10] ++
  chars "R11=0x%x R12=0x%x R13=0x%x" ++ [10] ++ chars "R14=0x%x R15=0x%x" ++ [10] ++ chars "RFLAGS=0x%x" ++ [10] ++
  chars "CS=0x%x DS=0x%x SS=0x%x" ++ [10] ++ chars "CR0=0x%x CR2=0x%x CR3=0x%x CR4=0x%x" ++ [10] ++ chars "V=0x%x ERRCODE=0x%x".

Definition dump_args (regs : stack_frame_t) (c : control_regs) : list Z :=
  [rax regs; rbx regs; rcx regs; rdx regs; rsi regs; rdi regs; rbp regs; rsp regs; rip regs;
   if rip regs >? virt_base then u64 (rip regs - virt_base) else rip regs;
   r8 regs; r9 regs; r10 regs; r11 regs; r12 regs; r13 regs; r14 regs; r15 regs; rflags regs; cs regs; ds regs; ss regs;
   cr0 c; cr2 c; cr3 c; cr4 c; intn regs; errCode regs].

Definition arch_dump_cpu_state (regs : stack_frame_t) p : outcome pmachine :=
  with_ks (kprintf font m sfuel dump_format (dump_args regs (pm_crs p))) p.

Definition panic_exception (str : list Z) (regs : stack_frame_t) (args : list Z) p : outcome pmachine :=
  let p := arch_disable_interrupts (set_ks (kernel_screen_output_enable (pm_ks p)) p) in
  p ← with_ks (kputchar font 10) p;
  p ← klog_on (chars "Kernel Panic!" ++ newline2) KLOG_CRITICAL (lit "Exception Handler") [] p;
  p ← with_ks (kprintf font m sfuel (chars "Exception: ") []) p;
  p ← with_ks (kvprintf font m sfuel str args) p;
  p ← with_ks (kprintf font m sfuel newline2 []) p;
  l ← acquireLock (panicLock p);
  p ← arch_dump_cpu_state regs (set_panic_lock l p);
  Ret (arch_stop (set_panic_lock (releaseLock (panicLock p)) p)).

(** ** Reports of undefined behaviour *)

Record source_location_t : Type := mk_loc { file : Z; line : Z; column : Z }.

(** The names of types are the addresses of their characters. *)
Record type_mismatch_info_t : Type := mk_mismatch { tm_location : source_location_t; tm_name : Z; alignment : Z; typeCheckKind : Z }.
Record typed_data_t : Type := mk_typed { td_location : source_location_t; td_name : Z }.

Definition typeStrings : list string := [
  "load of"; "store to"; "reference binding to"; "member access within"; "member call on"; "constructor call on";
  "downcast of"; "downcast of"; "upcast of"; "cast to virtual base of" ]%string.

Definition where_fmt : list Z := chars " (file: %s, line: %u, column: %u)".
Definition where_args (l : source_location_t) : list Z := [file l; line l; column l].

(** The two ways a report ends. *)
Definition fatal (str : string) (args : list Z) (l : source_location_t) p : outcome pmachine :=
  panic (chars str ++ where_fmt) (lit "ubsan") (args ++ where_args l) p.
Definition warning (str : string) (args : list Z) (l : source_location_t) p : outcome pmachine :=
  klog_on (chars str ++ where_fmt ++ [10]) KLOG_WARNING (lit "ubsan") (args ++ where_args l) p.

Definition ubsan_handle_type_mismatch_v1 (d : type_mismatch_info_t) (pointer : Z) p : outcome pmachine :=
  if pointer =? 0 then fatal "NULL pointer access" [] (tm_location d) p
  else if negb (alignment d =? 0) && negb (u64 pointer mod alignment d =? 0) then
    warning "Unaligned memory access" [] (tm_location d) p
  else
    match nth_error typeStrings (Z.to_nat (typeCheckKind d)) with
    | None => Fault
    | Some s => warning "Insufficient size: %s address %p with insufficient space for object of type %s"
                  [lit s; pointer; tm_name d] (tm_location d) p
    end.

Definition ubsan_handle_load_invalid_value (d : typed_data_t) (value : Z) p : outcome pmachine :=
  warning "Load of value 0x%x, which is not a valid value for type %s" [value; td_name d] (td_location d) p.

Definition ubsan_handle_pointer_overflow (l : source_location_t) (base result : Z) p : outcome pmachine :=
  if (base =? 0) && (result =? 0) then fatal "Applying zero offset to null pointer" [] l p
  else if (base =? 0) && negb (result =? 0) then fatal "Applying non-zero offset 0x%x to null pointer" [result] l p
  else if negb (base =? 0) && (result =? 0) then
    fatal "Applying non-zero offset to non-null pointer 0x%x produced null pointer" [base] l p
  else fatal "Pointer 0x%x overflowed to 0x%x" [base; result] l p.

Definition ubsan_handle_out_of_bounds (d : typed_data_t) (index opts : Z) p : outcome pmachine :=
  fatal "Index 0x%x out of bounds for type %s" [index; td_name d] (td_location d) p.
Definition ubsan_handle_shift_out_of_bounds (l : source_location_t) (LHS RHS : Z) p : outcome pmachine :=
  fatal "Shift out of bounds" [] l p.
Definition ubsan_handle_divrem_overflow (l : source_location_t) (LHS RHS : Z) p : outcome pmachine :=
  fatal "Invalid division or divide by zero" [] l p.
Definition ubsan_handle_negate_overflow (d : typed_data_t) (oldValue : Z) p : outcome pmachine :=
  fatal "Negation of %u cannot be represented in type %s" [oldValue; td_name d] (td_location d) p.
Definition ubsan_handle_add_overflow (l : source_location_t) p : outcome pmachine := fatal "Add overflow" [] l p.
Definition ubsan_handle_sub_overflow (l : source_location_t) p : outcome pmachine := fatal "Subtract overflow" [] l p.
Definition ubsan_handle_mul_overflow (l : source_location_t) p : outcome pmachine := fatal "Multiply overflow" [] l p.
Definition ubsan_handle_builtin_unreachable (l : source_location_t) p : outcome pmachine :=
  fatal "__builtin_unreachable() reached!" [] l p.
End Panic.

(** ** What is printed before the halt *)

(** The output is free: its locks and the terminal. *)
Record output_free (k : kstdio) (A : screen) : Prop := {
  of_vlock : kvprintfLock k = false;
  of_plock : kprintfLock k = false;
  of_glock : klogLock k = false;
  of_tidy : tidy (ks_term k) A
}.

Section Output.
Variable (font : Z -> Z) (m : mem) (sfuel : nat) (ticks : Z * Z).
Variable (k0 : kstdio) (A0 : screen).
Abbreviation shown := (shown font k0 A0).
Abbreviation text := (Forall (fun c => is_text c = true)).

Lemma start_shown k A : output_free k A -> k0 = kernel_screen_output_enable k -> A0 = A -> shown false [] k0.
Proof. intros [] -> ->. split; auto. unfold printed, all_chars. cbn. now rewrite app_nil_r. Qed.

(** A function that prints some pieces leaves the rest of the machine alone. *)
Lemma with_ks_shown {B} (f : kstdio -> outcome (B * kstdio)) g ps p :
  Returns (f (pm_ks p)) (fun '(_, k) => shown g ps k) ->
  Returns (with_ks f p) (fun p' => exists k, p' = set_ks k p /\ shown g ps k).
Proof. intros Hf. unfold with_ks. eapply Returns_bind; [exact Hf|]. intros [r k] Hs. apply Returns_ret. eauto. Qed.

(** The head of a panic: the new line and the log. *)
Definition head_pieces (comp : list Z) : list piece :=
  let c := foregroundColour (ks_term k0) in
  Text [10] :: log_pieces ticks KLOG_CRITICAL comp (chars "Kernel Panic!" ++ newline2)
    (Z.land (Z.shiftr c 16) 255) (Z.land (Z.shiftr c 8) 255) (Z.land c 255).

Lemma panic_head comp component p (f : pmachine -> outcome pmachine) (Q : pmachine -> Prop) :
  shown false [] (pm_ks p) -> 0 <= ticks.1 /\ 0 <= ticks.2 -> string_at m sfuel component = Ret comp -> text comp ->
  (forall k, shown false (head_pieces comp) k -> Returns (f (set_ks k p)) Q) ->
  Returns (p ← with_ks (kputchar font 10) p;
           p ← klog_on font m sfuel ticks (chars "Kernel Panic!" ++ newline2) KLOG_CRITICAL component [] p; f p) Q.
Proof.
  intros S Ht Hc Tc Hf. eapply Returns_bind; [apply (with_ks_shown _ false [Text [10]]), (kputchar_shown _ _ _ false [] _ 10 S eq_refl)|].
  intros p1 (k1 & -> & S1). unfold klog_on. cbn [pm_ks set_ks].
  assert (foregroundColour (ks_term k1) = foregroundColour (ks_term k0)) as Ec by exact (proj1 (sh_printed _ _ _ _ _ _ S1)).
  destruct (klog_shown font m sfuel k0 A0 [Text [10]] k1 ticks (chars "Kernel Panic!" ++ newline2) KLOG_CRITICAL component [] comp _
    S1 Ht Hc Tc eq_refl ltac:(repeat constructor)) as (k2 & -> & S2).
  rewrite Ec in S2. exact (Hf k2 S2).
Qed.
End Output.

Lemma panic_shown font m sfuel ticks str component args p A comp msg :
  let k0 := kernel_screen_output_enable (pm_ks p) in
  output_free (pm_ks p) A -> panicLock p = false -> 0 <= ticks.1 /\ 0 <= ticks.2 ->
  string_at m sfuel component = Ret comp -> Forall (fun c => is_text c = true) comp ->
  render m sfuel str args = Ret msg -> Forall (fun c => is_text c = true) msg ->
  Returns (panic font m sfuel ticks str component args p) (fun p' => exists k,
    p' = arch_stop (set_panic_lock false (set_ks k p)) /\ shown font k0 A false (head_pieces ticks k0 comp ++ [Text msg]) k).
Proof.
  intros k0 Hf Hl Ht Hc Tc Hm Tm. unfold panic. cbn [panicLock arch_disable_interrupts set_ks]. rewrite Hl.
  cbn [acquireLock mbind outcome_bind]. set (p1 := set_panic_lock true _).
  pose proof (start_shown font k0 A (pm_ks p) A Hf eq_refl eq_refl) as S0.
  apply (panic_head font m sfuel ticks k0 A comp component p1 _ _ S0 Ht Hc Tc). intros k2 S2.
  eapply Returns_bind; [eapply (with_ks_shown font k0 A), (kvprintf_shown font m sfuel k0 A false _ [Text msg] k2 _ _ S2)|].
  - repeat constructor. exact Tm.
  - rewrite Hm. cbn. now rewrite app_nil_r.
  - intros p3 (k3 & -> & S3). apply Returns_ret. exists k3. split; [reflexivity|exact S3].
Qed.

(** With its locks free [panic] terminates: the processor is halted with interrupts off,
    after the new line, the log entry with the component and the text of the message went
    to the screen and to both ports, also when the output of the kernel to the screen had
    been turned off. *)
Theorem panic_correct font m sfuel ticks str component args p A comp msg :
  let k0 := kernel_screen_output_enable (pm_ks p) in
  let ps := head_pieces ticks k0 comp ++ [Text msg] in
  output_free (pm_ks p) A -> panicLock p = false -> 0 <= ticks.1 /\ 0 <= ticks.2 ->
  string_at m sfuel component = Ret comp -> Forall (fun c => is_text c = true) comp ->
  render m sfuel str args = Ret msg -> Forall (fun c => is_text c = true) msg ->
  Returns (panic font m sfuel ticks str component args p) (fun p' =>
    pm_halted p' = true /\ pm_interrupts p' = false /\ panicLock p' = false /\
    t_out (ks_term (pm_ks p')) = t_out (ks_term (pm_ks p)) ++ flat_map echo (all_chars ps) /\
    tidy (ks_term (pm_ks p')) (after font k0 A ps).1).
Proof.
  intros k0 ps Hf Hl Ht Hc Tc Hm Tm.
  eapply Returns_mono; [exact (panic_shown font m sfuel ticks str component args p A comp msg Hf Hl Ht Hc Tc Hm Tm)|].
  intros p' (k & -> & [_ _ _ _ S5 (_ & _ & _ & S6)]). exact (conj eq_refl (conj eq_refl (conj eq_refl (conj S6 S5)))).
Qed.

(** A machine with the small terminal, whose kernel output has been turned off. *)
Definition panic_demo : pmachine := mk_pm ks_demo false true false (mk_crs 1 2 3 4).
Definition panic_mem : mem := bytes_at 64 (chars "ubsan" ++ [0] ++ chars "a.c" ++ [0]).

Lemma panic_demo_free : output_free (pm_ks panic_demo) (mk_screen (fun _ _ => 0) 0 0).
Proof. split; try reflexivity. exact term_demo_tidy. Qed.

Lemma panic_correct_witness :
  Returns (panic (fun i => i) panic_mem 9 (2000, 2000) (chars "Out of %s: %u") 64 [70; 12] panic_demo) (fun p' =>
    pm_halted p' = true /\ pm_interrupts p' = false /\
    t_out (ks_term (pm_ks p')) = flat_map echo ([10; 27] ++ chars "[38;2;180;180;180m[     2.000]" ++ [27] ++ chars "[38;2;255;255;255m[" ++
      [27] ++ chars "[38;2;140;0;0mCRITICAL" ++ [27] ++ chars "[38;2;255;255;255m] " ++ [27] ++ chars "[38;2;255;89;0mubsan" ++ [27] ++
      chars "[38;2;255;255;255m: Kernel Panic!" ++ [10; 10] ++ chars "Out of a.c: 12")).
Proof.
  eapply Returns_mono.
  - apply (panic_correct (fun i => i) panic_mem 9 (2000, 2000) (chars "Out of %s: %u") 64 [70; 12] panic_demo (mk_screen (fun _ _ => 0) 0 0)
      (chars "ubsan") (chars "Out of a.c: 12") panic_demo_free); try reflexivity; try (cbn; lia); repeat constructor.
  - intros p' (R1 & R2 & _ & R4 & _). splits; [exact R1|exact R2|rewrite R4; vm_compute; reflexivity].
Defined.

(** ** The dump of the registers *)

(** A label and the value behind it. *)
Definition dump_fields (virt_base : Z) (regs : stack_frame_t) (c : control_regs) : list (list Z * Z) :=
  let nl s := 10 :: chars s in
  combine [chars "RAX=0x"; chars " RBX=0x"; chars " RCX=0x"; nl "RDX=0x"; chars " RSI=0x"; chars " RDI=0x"; nl "RBP=0x"; chars " RSP=0x";
    chars " RIP=0x"; chars " (no KOFF 0x"; 41 :: nl "R8=0x"; chars "  R9=0x"; chars "  R10=0x"; nl "R11=0x"; chars " R12=0x"; chars " R13=0x";
    nl "R14=0x"; chars " R15=0x"; nl "RFLAGS=0x"; nl "CS=0x"; chars " DS=0x"; chars " SS=0x"; nl "CR0=0x"; chars " CR2=0x"; chars " CR3=0x";
    chars " CR4=0x"; nl "V=0x"; chars " ERRCODE=0x"] (dump_args virt_base regs c).

Lemma render_fields m sfuel (l : list (list Z * Z)) : Forall (fun '(s, _) => Forall (fun c => c <> 37) s) l ->
  render m sfuel (flat_map (fun '(s, _) => s ++ [37; 120]) l) (map snd l) = Ret (flat_map (fun '(s, v) => s ++ fmt_x v) l).
Proof.
  induction l as [|[s v] l IH]; intros Hl; [reflexivity|]. apply Forall_cons in Hl as [Hs Hl]. cbn [flat_map map snd].
  rewrite <- app_assoc, render_literal by exact Hs. cbn [app render]. change (37 =? 37) with true. cbn iota.
  unfold convert. cbn [Z.eqb Pos.eqb orb mbind outcome_bind]. rewrite (IH Hl). cbn [mbind outcome_bind]. now rewrite <- app_assoc.
Qed.

(** The dump has a conversion for each of its values, and prints each behind its name. *)
Lemma dump_text m sfuel virt_base regs c :
  render m sfuel dump_format (dump_args virt_base regs c) = Ret (flat_map (fun '(s, v) => s ++ fmt_x v) (dump_fields virt_base regs c)).
Proof.
  rewrite <- (render_fields m sfuel (dump_fields virt_base regs c)); [reflexivity|]. repeat constructor; discriminate.
Qed.

Lemma fmt_x_text x : Forall (fun c => is_text c = true) (fmt_x x).
Proof.
  unfold fmt_x. assert (forall n x acc, Forall (fun c => is_text c = true) acc -> Forall (fun c => is_text c = true) (put_hex n x acc)) as H.
  { induction n as [|n IH]; intros y acc Ha; cbn [put_hex]; [exact Ha|]. apply IH. constructor; [|exact Ha].
    assert (0 <= y mod 16 < 16) as Hy by (apply Z.mod_pos_bound; lia). unfold hex_char, is_text, ch_escape, ch_backspace.
    destruct (_ <? _); rewrite !(proj2 (Z.eqb_neq _ _)) by lia; reflexivity. }
  now apply H.
Qed.

Lemma dump_is_text virt_base regs c :
  Forall (fun c => is_text c = true) (flat_map (fun '(s, v) => s ++ fmt_x v) (dump_fields virt_base regs c)).
Proof.
  assert (forall l : list (list Z * Z), Forall (fun '(s, _) => Forall (fun c => is_text c = true) s) l ->
    Forall (fun c => is_text c = true) (flat_map (fun '(s, v) => s ++ fmt_x v) l)) as H.
  { induction l as [|[s v] l IH]; intros Hl; [constructor|]. apply Forall_cons in Hl as [Hs Hl]. cbn [flat_map].
    apply Forall_app. split; [apply Forall_app; split; [exact Hs|apply fmt_x_text]|now apply IH]. }
  apply H. repeat constructor.
Qed.

(** An exception in the kernel: the same head, the name of the exception and all
    registers, each behind its name. *)
Theorem panic_exception_halts font m sfuel ticks virt_base lit str regs args p A comp msg :
  let k0 := kernel_screen_output_enable (pm_ks p) in
  let dump := flat_map (fun '(s, v) => s ++ fmt_x v) (dump_fields virt_base regs (pm_crs p)) in
  let ps := head_pieces ticks k0 comp ++ [Text (chars "Exception: ")] ++ [Text msg] ++ [Text newline2] ++ [Text dump] in
  output_free (pm_ks p) A -> panicLock p = false -> 0 <= ticks.1 /\ 0 <= ticks.2 ->
  string_at m sfuel (lit "Exception Handler") = Ret comp -> Forall (fun c => is_text c = true) comp ->
  render m sfuel str args = Ret msg -> Forall (fun c => is_text c = true) msg ->
  Returns (panic_exception font m sfuel ticks virt_base lit str regs args p) (fun p' =>
    pm_halted p' = true /\ pm_interrupts p' = false /\ panicLock p' = false /\
    t_out (ks_term (pm_ks p')) = t_out (ks_term (pm_ks p)) ++ flat_map echo (all_chars ps)).
Proof.
  intros k0 dump ps Hf Hl Ht Hc Tc Hm Tm. unfold panic_exception. set (p1 := arch_disable_interrupts _).
  pose proof (start_shown font k0 A (pm_ks p) A Hf eq_refl eq_refl) as S0.
  apply (panic_head font m sfuel ticks k0 A comp (lit "Exception Handler") p1 _ _ S0 Ht Hc Tc). intros k2 S2.
  eapply Returns_bind; [apply (with_ks_shown font k0 A _ false (head_pieces ticks k0 comp ++ [Text (chars "Exception: ")])),
    (kprintf_shown font m sfuel k0 A false _ _ k2 _ _ S2); [repeat constructor|reflexivity]|]. intros p3 (k3 & -> & S3).
  eapply Returns_bind; [eapply (with_ks_shown font k0 A), (kvprintf_shown font m sfuel k0 A false _ [Text msg] k3 _ _ S3);
    [repeat constructor; exact Tm|rewrite Hm; cbn; now rewrite app_nil_r]|]. intros p4 (k4 & -> & S4).
  eapply Returns_bind; [eapply (with_ks_shown font k0 A), (kprintf_shown font m sfuel k0 A false _ [Text newline2] k4 _ _ S4);
    [repeat constructor|reflexivity]|]. intros p5 (k5 & -> & S5).
  cbn [panicLock set_ks p1 arch_disable_interrupts]. rewrite Hl. cbn [acquireLock mbind outcome_bind].
  eapply Returns_bind; [eapply (with_ks_shown font k0 A), (kprintf_shown font m sfuel k0 A false _ [Text dump] k5 _ _ S5)|].
  - constructor; [apply dump_is_text|constructor].
  - rewrite dump_text. cbn [all_chars flat_map piece_chars]. now rewrite app_nil_r.
  - intros p6 (k6 & -> & [_ _ _ _ _ (_ & _ & _ & S6)]). apply Returns_ret. rewrite <- !app_assoc in S6.
    exact (conj eq_refl (conj eq_refl (conj eq_refl S6))).
Qed.

Lemma panic_exception_halts_witness :
  Returns (panic_exception (fun i => i) panic_mem 9 (2000, 2000) 0 (fun _ => 64) (chars "Page Fault") frame0 [] panic_demo) (fun p' => pm_halted p' = true).
Proof.
  eapply Returns_mono.
  - apply (panic_exception_halts (fun i => i) panic_mem 9 (2000, 2000) 0 (fun _ => 64) (chars "Page Fault") frame0 [] panic_demo
      (mk_screen (fun _ _ => 0) 0 0) (chars "ubsan") (chars "Page Fault") panic_demo_free); try reflexivity; try (cbn; lia); repeat constructor.
  - intros p' (R1 & _). exact R1.
Defined.

(** ** Panics while printing *)

Lemma kprintf_needs_locks font m sfuel fmt args k x : kprintfLock k = true \/ kvprintfLock k = true -> kprintf font m sfuel fmt args k <> Ret x.
Proof.
  intros Hl E. unfold kprintf in E. apply bind_Ret in E as (l & E & E'). destruct (kprintfLock k); [discriminate E|].
  apply bind_Ret in E' as ([n k1] & E1 & _). apply bind_Ret in E1 as (l1 & E1 & _). cbn [kvprintfLock set_plock] in E1.
  destruct Hl as [?|Hl]; [discriminate|]. rewrite Hl in E1. discriminate E1.
Qed.

(** A log entry cannot be printed while one of the output locks is held. *)
Lemma klog_needs_locks font m sfuel ticks fmt status component args k k' :
  klogLock k = true \/ kprintfLock k = true \/ kvprintfLock k = true -> klog font m sfuel ticks fmt status component args k <> Ret k'.
Proof.
  intros Hl E. unfold klog in E. apply bind_Ret in E as (l & E & E'). destruct (klogLock k); [discriminate E|].
  apply bind_Ret in E' as (k1 & E1 & _). apply bind_Ret in E1 as (x & E1 & _). revert E1. apply kprintf_needs_locks.
  destruct Hl as [?|Hl]; [discriminate|exact Hl].
Qed.

(** A panic in the middle of a message, for instance after a fault on the argument of [%s],
    never reaches the halt: the processor spins on the lock it holds itself, with
    interrupts off and without the message. *)
Theorem panic_while_printing font m sfuel ticks str component args p p' :
  (let k := pm_ks p in klogLock k = true \/ kprintfLock k = true \/ kvprintfLock k = true) ->
  panic font m sfuel ticks str component args p <> Ret p'.
Proof.
  intros Hl E. unfold panic in E. apply bind_Ret in E as (l & _ & E). apply bind_Ret in E as (p1 & E1 & E).
  apply bind_Ret in E1 as ([r k1] & E1 & [= <-]). rewrite kputchar_put in E1. apply bind_Ret in E1 as ([r1 t1] & _ & [= <- <-]).
  apply bind_Ret in E as (p2 & E2 & _). apply bind_Ret in E2 as (k2 & E2 & _). revert E2. apply klog_needs_locks. exact Hl.
Qed.

(** ** Which reports stop the kernel *)

(** The place in the source behind a text without conversions. *)
Lemma where_text m sfuel str l name : Forall (fun c => c <> 37) (chars str) -> string_at m sfuel (file l) = Ret name ->
  render m sfuel (chars str ++ where_fmt) (where_args l) =
    Ret (chars str ++ chars " (file: " ++ name ++ chars ", line: " ++ fmt_u (line l) ++ chars ", column: " ++ fmt_u (column l) ++ chars ")").
Proof.
  intros Hs Hn. rewrite render_literal by exact Hs.
  change where_fmt with (chars " (file: " ++ 37 :: 115 :: chars ", line: %u, column: %u)").
  rewrite (render_literal m sfuel (chars " (file: ")); [|repeat constructor; discriminate].
  unfold where_args. rewrite render_string, Hn. reflexivity.
Qed.

(** A null pointer halts the processor with its place in the source on the screen. *)
Theorem ubsan_null_pointer_halts font m sfuel ticks lit d p A comp name : let l := tm_location d in
  output_free (pm_ks p) A -> panicLock p = false -> 0 <= ticks.1 /\ 0 <= ticks.2 ->
  string_at m sfuel (lit "ubsan") = Ret comp -> Forall (fun c => is_text c = true) comp ->
  string_at m sfuel (file l) = Ret name -> Forall (fun c => is_text c = true) name -> 0 <= line l -> 0 <= column l ->
  Returns (ubsan_handle_type_mismatch_v1 font m sfuel ticks lit d 0 p) (fun p' => pm_halted p' = true /\
    t_out (ks_term (pm_ks p')) = t_out (ks_term (pm_ks p)) ++
      flat_map echo (all_chars (head_pieces ticks (pm_ks p) comp ++ [Text (chars "NULL pointer access" ++ chars " (file: " ++ name ++
        chars ", line: " ++ fmt_u (line l) ++ chars ", column: " ++ fmt_u (column l) ++ chars ")")]))).
Proof.
  intros l Hf Hl Ht Hc Tc Hn Tn H1 H2. unfold ubsan_handle_type_mismatch_v1, fatal. cbn [Z.eqb app].
  eapply Returns_mono; [eapply (panic_shown font m sfuel ticks _ (lit "ubsan") _ p A comp _ Hf Hl Ht Hc Tc);
    [apply (where_text m sfuel _ l name); [repeat constructor; discriminate|exact Hn]|]|].
  - rewrite !Forall_app. splits; try exact Tn; try apply fmt_u_text; auto; repeat constructor.
  - intros p' (k & -> & [_ _ _ _ _ (_ & _ & _ & S6)]). exact (conj eq_refl S6).
Qed.

(** A check of kind 10 or above, which has no entry in the table of names, reads behind
    the table. *)
Theorem ubsan_unknown_kind font m sfuel ticks lit d pointer p :
  pointer <> 0 -> alignment d = 0 -> 10 <= typeCheckKind d ->
  ubsan_handle_type_mismatch_v1 font m sfuel ticks lit d pointer p = Fault.
Proof.
  intros Hp Ha Hk. unfold ubsan_handle_type_mismatch_v1. rewrite (proj2 (Z.eqb_neq _ _) Hp), Ha. cbn [Z.eqb negb andb].
  assert (nth_error typeStrings (Z.to_nat (typeCheckKind d)) = None) as -> by (apply nth_error_None; cbn; lia). reflexivity.
Qed.
