(* ===== verification/Input.v ===== *)
(** * Keyboard input ([kernel/sys/term/input.c])

    The state of the modifier keys and the ring buffer between the keyboard interrupt and
    the readers.  An entry of the ring is named by its index; [next] is kept as the code
    keeps it. *)

From S2P Require Import Prelude MemUtil.
#[local] Open Scope Z_scope.

Definition INPUT_RB_SIZE : Z := 32.
Definition INPUT_LEFT_SHIFT : Z := 0.
Definition INPUT_RIGHT_SHIFT : Z := 1.
Definition INPUT_LEFT_ALT : Z := 2.
Definition INPUT_RIGHT_ALT : Z := 3.
Definition INPUT_LEFT_CTRL : Z := 4.
Definition INPUT_RIGHT_CTRL : Z := 5.
Definition INPUT_CAPSLOCK : Z := 6.

Record kb_state_t : Type := mk_kb {
  lShift : bool;
  rShift : bool;
  lCtrl : bool;
  rCtrl : bool;
  lAlt : bool;
  rAlt : bool;
  capsLock : bool
}.

Record kb_input_t : Type := mk_key { key : Z; pressed : bool; special : bool }.

Record input_kb_rb_entry_t : Type := mk_rb { chr : Z; rb_next : Z }.

Record input_state : Type := mk_input {
  keyboardState : kb_state_t;
  kbringbuffer : Z -> input_kb_rb_entry_t;
  writeRBPos : Z;
  readRBPos : Z;
  keyBuffer : Z
}.
Implicit Types (s : input_state).

Definition set_ring (f : Z -> input_kb_rb_entry_t) (w r : Z) s : input_state :=
  mk_input (keyboardState s) f w r (keyBuffer s).
Definition set_kb (k : kb_state_t) s : input_state :=
  mk_input k (kbringbuffer s) (writeRBPos s) (readRBPos s) (keyBuffer s).

Definition store_chr (i c : Z) (f : Z -> input_kb_rb_entry_t) : Z -> input_kb_rb_entry_t := upd f i (mk_rb c (rb_next (f i))).

(** Linking the ring. *)
Fixpoint link_ring (n : nat) (i : Z) (f : Z -> input_kb_rb_entry_t) : Z -> input_kb_rb_entry_t :=
  match n with
  | O => f
  | S n' => link_ring n' (i + 1) (upd f i (mk_rb (chr (f i)) (i + 1)))
  end.

Definition input_init s : input_state :=
  let f := link_ring (Z.to_nat (INPUT_RB_SIZE - 1)) 0 (kbringbuffer s) in
  let l := INPUT_RB_SIZE - 1 in
  set_ring (upd f l (mk_rb (chr (f l)) 0)) 0 0 s.

(** [input_rb_read]: the number of characters, and memory with them at [buf]. *)
Fixpoint rb_read_loop (n : nat) (i buf : Z) (m : mem) s : Z * mem * input_state :=
  match n with
  | O => (i, m, s)
  | S n' =>
      if writeRBPos s =? readRBPos s then (i, m, s)
      else
        let r := readRBPos s in
        let m := upd m (buf + i) (u8 (chr (kbringbuffer s r))) in
        let f := store_chr r 0 (kbringbuffer s) in
        rb_read_loop n' (i + 1) buf m (set_ring f (writeRBPos s) (rb_next (f r)) s)
  end.
Definition input_rb_read (size buf : Z) (m : mem) s : Z * mem * input_state := rb_read_loop (Z.to_nat size) 0 buf m s.

Definition input_rb_close s : Z * input_state := (0, s).

(** The terminal device reads from the ring ([term.c]). *)
Definition term_read_as_file (size buf : Z) (m : mem) s : Z * mem * input_state := input_rb_read size buf m s.

Definition special_key (k : Z) (p : bool) (b : kb_state_t) : kb_state_t :=
  let on := if negb p then false else true in
  if k =? INPUT_LEFT_ALT then mk_kb (lShift b) (rShift b) (lCtrl b) (rCtrl b) on (rAlt b) (capsLock b)
  else if k =? INPUT_RIGHT_ALT then mk_kb (lShift b) (rShift b) (lCtrl b) (rCtrl b) (lAlt b) on (capsLock b)
  else if k =? INPUT_LEFT_CTRL then mk_kb (lShift b) (rShift b) on (rCtrl b) (lAlt b) (rAlt b) (capsLock b)
  else if k =? INPUT_RIGHT_CTRL then mk_kb (lShift b) (rShift b) (lCtrl b) on (lAlt b) (rAlt b) (capsLock b)
  else if k =? INPUT_LEFT_SHIFT then mk_kb on (rShift b) (lCtrl b) (rCtrl b) (lAlt b) (rAlt b) (capsLock b)
  else if k =? INPUT_RIGHT_SHIFT then mk_kb (lShift b) on (lCtrl b) (rCtrl b) (lAlt b) (rAlt b) (capsLock b)
  else if k =? INPUT_CAPSLOCK then
    mk_kb (lShift b) (rShift b) (lCtrl b) (rCtrl b) (lAlt b) (rAlt b) (if capsLock b && p then false else true)
  else b.

Definition input_send_key (input : kb_input_t) s : input_state :=
  if special input then set_kb (special_key (key input) (pressed input) (keyboardState s)) s
  else if pressed input then
    let s := mk_input (keyboardState s) (kbringbuffer s) (writeRBPos s) (readRBPos s) (key input) in
    let f := store_chr (writeRBPos s) (key input) (kbringbuffer s) in
    set_ring f (rb_next (f (writeRBPos s))) (readRBPos s) s
  else s.

(** ** The ring as a queue *)

(** The characters [q] wait in the ring, the oldest at the reading position. *)
Record queue s (q : list Z) : Prop := {
  qu_len : (length q < 32)%nat;
  qu_read : 0 <= readRBPos s < 32;
  qu_write : writeRBPos s = (readRBPos s + Z.of_nat (length q)) mod 32;
  qu_next : forall i, 0 <= i < 32 -> rb_next (kbringbuffer s i) = (i + 1) mod 32;
  qu_chr : forall k c, q !! k = Some c -> chr (kbringbuffer s ((readRBPos s + Z.of_nat k) mod 32)) = c
}.

Lemma input_init_queue s : queue (input_init s) [].
Proof.
  split; try reflexivity; try discriminate; [cbn; lia|cbn; lia|].
  intros i Hi. assert (Forall (fun i => rb_next (kbringbuffer (input_init s) i) = (i + 1) mod 32) (map Z.of_nat (List.seq 0 32))) as H
    by (vm_compute; repeat constructor).
  rewrite Forall_forall in H. apply H. apply list_elem_of_In, in_map_iff. exists (Z.to_nat i). split; [lia|]. apply in_seq. lia.
Qed.

(** A store to the character of an entry keeps the links. *)
Lemma store_chr_next i c f j : rb_next (store_chr i c f j) = rb_next (f j).
Proof. unfold store_chr, upd. now destruct (Z.eqb_spec j i) as [->|]. Qed.

Lemma send_key_queue s q k : queue s q -> pressed k = true -> special k = false ->
  queue (input_send_key k s) (if (length q =? 31)%nat then [] else q ++ [key k]).
Proof.
  intros [Ql Qr Qw Qn Qc] Hp Hs. unfold input_send_key. rewrite Hs, Hp. cbn [writeRBPos kbringbuffer set_ring].
  set (w := writeRBPos s) in *. rewrite store_chr_next, Qn by (rewrite Qw; dm).
  destruct (Nat.eqb_spec (length q) 31) as [E|E].
  - split; cbn [readRBPos writeRBPos kbringbuffer set_ring length]; try discriminate; try lia.
    + rewrite Qw, E. change (Z.of_nat 31) with 31. change (Z.of_nat 0) with 0. dm.
    + intros i Hi. rewrite store_chr_next. now apply Qn.
  - split; cbn [readRBPos writeRBPos kbringbuffer set_ring]; rewrite ?length_app; cbn [length]; try lia.
    + rewrite Qw. dm.
    + intros i Hi. rewrite store_chr_next. now apply Qn.
    + intros j c Hj. destruct (Nat.eq_dec j (length q)) as [->|Hne].
      * rewrite lookup_app_r, Nat.sub_diag in Hj by lia. injection Hj as <-. rewrite <- Qw. fold w. unfold store_chr. now rewrite upd_eq.
      * apply lookup_lt_Some in Hj as Hlt. rewrite length_app in Hlt. cbn in Hlt.
        rewrite lookup_app_l in Hj by lia. unfold store_chr. rewrite upd_ne; [now apply Qc|]. rewrite Qw. dm.
Qed.

Lemma read_queue n : forall q i buf m s, queue s q ->
  let '(r, m', s') := rb_read_loop n i buf m s in
  let k := Nat.min n (length q) in
  r = i + Z.of_nat k /\ queue s' (drop k q) /\
  (forall j c, (j < k)%nat -> q !! j = Some c -> m' (buf + i + Z.of_nat j) = u8 c) /\
  (forall a, ~ (buf + i <= a < buf + i + Z.of_nat k) -> m' a = m a) /\
  keyboardState s' = keyboardState s.
Proof.
  induction n as [|n IH]; intros q i buf m s HQ; cbn [rb_read_loop].
  - cbn. splits; auto; intros; lia.
  - pose proof HQ as [Ql Qr Qw Qn Qc]. destruct (Z.eqb_spec (writeRBPos s) (readRBPos s)) as [E|E].
    + assert (q = []) as -> by (destruct q; [reflexivity|exfalso; rewrite Qw in E; cbn [length] in *; revert E; dm]).
      cbn. splits; auto; intros; lia.
    + destruct q as [|c q]; [exfalso; apply E; rewrite Qw; cbn; rewrite Z.add_0_r; dm|].
      set (r := readRBPos s) in *. set (f := store_chr r 0 (kbringbuffer s)).
      replace (rb_next (f r)) with ((r + 1) mod 32) by (unfold f; now rewrite store_chr_next, Qn by lia). cbn [length] in *.
      assert (queue (set_ring f (writeRBPos s) ((r + 1) mod 32) s) q) as HQ'.
      { split; cbn [readRBPos writeRBPos kbringbuffer set_ring]; [lia|dm| | |].
        - rewrite Qw. dm.
        - intros j Hj. unfold f. rewrite store_chr_next. now apply Qn.
        - intros j d Hj. apply lookup_lt_Some in Hj as Hlt. unfold f, store_chr. rewrite upd_ne by dm.
          rewrite <- (Qc (S j) d Hj). do 2 f_equal. dm. }
      pose proof (Qc O c eq_refl) as Ec. replace ((r + Z.of_nat 0) mod 32) with r in Ec by dm. rewrite Ec.
      specialize (IH q (i + 1) buf (upd m (buf + i) (u8 c)) _ HQ'). cbn zeta in IH.
      destruct (rb_read_loop _ _ _ _ _) as [[r0 m'] s']. destruct IH as (I1 & I2 & I3 & I4 & I5). cbn [Nat.min drop].
      splits; auto; [lia| |].
      * intros j d Hj Hd. destruct j as [|j]; cbn in Hd.
        -- injection Hd as <-. rewrite Z.add_0_r, I4, upd_eq by lia. reflexivity.
        -- replace (buf + i + Z.of_nat (S j)) with (buf + (i + 1) + Z.of_nat j) by lia. apply I3; [lia|exact Hd].
      * intros a Ha. rewrite I4 by lia. apply upd_ne. lia.
Qed.

(** The ring buffer is a queue of up to 31 characters: a key press appends its
    character, a read of [size] takes the oldest characters out, in order, as many as
    there are and fit, and writes them and nothing else.  There is no check for a full
    ring: the 32nd character makes it look empty, and all that waited is lost. *)
Theorem input_queue_correct s q :
  queue s q ->
  (forall k, pressed k = true -> special k = false ->
     queue (input_send_key k s) (if (length q =? 31)%nat then [] else q ++ [key k])) /\
  (forall k, pressed k = false \/ special k = true -> queue (input_send_key k s) q) /\
  forall size buf m, 0 <= size ->
    let '(r, m', s') := input_rb_read size buf m s in
    let n := Nat.min (Z.to_nat size) (length q) in
    r = Z.of_nat n /\ queue s' (drop n q) /\
    (forall j c, (j < n)%nat -> q !! j = Some c -> m' (buf + Z.of_nat j) = u8 c) /\
    (forall a, ~ (buf <= a < buf + Z.of_nat n) -> m' a = m a).
Proof.
  intros HQ. splits.
  - intros k. now apply send_key_queue.
  - intros k Hk. unfold input_send_key. destruct (special k); [destruct HQ; now split|].
    destruct (pressed k); [now destruct Hk|exact HQ].
  - intros size buf m Hs. pose proof (read_queue (Z.to_nat size) q 0 buf m s HQ) as H. unfold input_rb_read.
    destruct (rb_read_loop _ _ _ _ _) as [[r m'] s']. cbn zeta in H. rewrite !Z.add_0_r in H. cbn [Z.add] in H.
    destruct H as (-> & H2 & H3 & H4 & _). splits; auto.
Qed.

Definition input_demo : input_state :=
  input_init (mk_input (mk_kb false false false false false false false) (fun _ => mk_rb 0 0) 0 0 0).

Lemma input_queue_correct_witness :
  queue (input_send_key (mk_key 98 true false) (input_send_key (mk_key 97 true false) input_demo)) [97; 98] /\
  let '(r, m', _) := input_rb_read 8 4096 (fun _ => 0)
    (input_send_key (mk_key 98 true false) (input_send_key (mk_key 97 true false) input_demo)) in
  r = 2 /\ m' 4096 = 97 /\ m' 4097 = 98.
Proof.
  destruct (input_queue_correct input_demo [] (input_init_queue _)) as (H1 & _).
  destruct (input_queue_correct _ _ (H1 (mk_key 97 true false) eq_refl eq_refl)) as (H2 & _).
  pose proof (H2 (mk_key 98 true false) eq_refl eq_refl) as H3. split; [exact H3|].
  destruct (input_queue_correct _ _ H3) as (_ & _ & H4). specialize (H4 8 4096 (fun _ => 0) ltac:(lia)).
  destruct (input_rb_read _ _ _ _) as [[r m'] s']. destruct H4 as (-> & _ & H5 & _). cbn in H5. splits; [reflexivity| |].
  - exact (H5 0%nat 97 ltac:(lia) eq_refl).
  - exact (H5 1%nat 98 ltac:(lia) eq_refl).
Defined.

(** Caps lock is switched on also by letting go of the key. *)
Theorem capslock_release_locks b : capsLock (special_key INPUT_CAPSLOCK false b) = true.
Proof. cbn. now rewrite andb_false_r. Qed.
