(* ===== verification/Irq.v ===== *)
(** * Interrupt handlers and the timer ([kernel/cpu/irq.c], [kernel/sys/timer.c])

    For each interrupt a list of handlers in the kernel heap.  Running a handler is the
    argument [call]; [W] is the state the handlers work on.  *)

From S2P Require Import Prelude Interfaces MemMap Pmm Kheap ListDs Sched.
#[local] Open Scope Z_scope.

Definition IRQ_SHARED : Z := 1.
Definition IRQ_MAX : Z := 256.

(** [sizeof(irq_t)]. *)
Definition IRQ_T_SIZE : Z := 8.

Record irq_state (H W : Type) : Type := mk_irq {
  irqHandlerLists : Z -> option (list_t H);
  irqFlags : Z -> Z;
  irq_handlers : Z -> Z;
  i_heap : H;
  i_world : W;
  i_eoi : Z
}.
Arguments mk_irq {H W}.
Arguments irqHandlerLists {H W}.
Arguments irqFlags {H W}.
Arguments irq_handlers {H W}.
Arguments i_heap {H W}.
Arguments i_world {H W}.
Arguments i_eoi {H W}.

Section Code.
Context {H W : Type} `{KH : KernelHeap H}.
Variable call : Z -> stack_frame_t -> W -> outcome W.
Implicit Types (s : irq_state H W).

Definition put_ilist (irq : Z) (l : list_t H) s : irq_state H W :=
  mk_irq (upd (irqHandlerLists s) irq (Some l)) (irqFlags s) (irq_handlers s) (heap l) (i_world s) (i_eoi s).
Definition put_flags (irq f : Z) s : irq_state H W :=
  mk_irq (irqHandlerLists s) (upd (irqFlags s) irq f) (irq_handlers s) (i_heap s) (i_world s) (i_eoi s).
Definition put_iheap (h : H) s : irq_state H W :=
  mk_irq (irqHandlerLists s) (irqFlags s) (irq_handlers s) h (i_world s) (i_eoi s).
Definition put_handler (a handler : Z) s : irq_state H W :=
  mk_irq (irqHandlerLists s) (irqFlags s) (upd (irq_handlers s) a handler) (i_heap s) (i_world s) (i_eoi s).

Definition shared (flags : Z) : bool := negb (Z.land flags IRQ_SHARED =? 0).

(** The list of an interrupt, created when there is none. *)
Definition handler_list (irq : Z) s : outcome (list_t H) :=
  match irqHandlerLists s irq with
  | Some l => Ret (set_list_heap (i_heap s) l)
  | None => '(_, l) ← list_create (fun _ => mk_node 0 0) (i_heap s); Ret l
  end.

(** Success returns no value; it is [None] here. *)
Definition irq_add_handler (irq handler flags : Z) s : outcome (option Z * irq_state H W) :=
  '(irqStruct, h) ← kh_malloc IRQ_T_SIZE (i_heap s);
  let s := put_handler irqStruct handler (put_iheap h s) in
  l ← handler_list irq s;
  let s := put_ilist irq l s in
  if (negb (shared (irqFlags s irq)) && negb (nodeCount l =? 0)) || (shared (irqFlags s irq) && negb (shared flags)) then
    h ← kh_free irqStruct (i_heap s); Ret (Some (-1), put_iheap h s)
  else
    l ← list_insert irqStruct l;
    Ret (None, put_flags irq (u32 flags) (put_ilist irq l s)).

(** [list_remove] is called with the handler, not with the entry. *)
Fixpoint remove_handler_loop (fuel lfuel : nat) (node irq handler : Z) (l : list_t H) s : outcome (irq_state H W) :=
  match fuel with
  | O => OutOfFuel
  | S f =>
      if node =? 0 then Ret s
      else if irq_handlers s (n_value (nodes l node)) =? handler then
        '(_, l) ← list_remove lfuel handler l;
        let s := put_ilist irq l s in
        Ret (if nodeCount l =? 0 then put_flags irq 0 s else s)
      else remove_handler_loop f lfuel (n_next (nodes l node)) irq handler l s
  end.

Definition irq_remove_handler (fuel : nat) (irq handler : Z) s : outcome (irq_state H W) :=
  match irqHandlerLists s irq with
  | None => Ret s
  | Some l =>
      let l := set_list_heap (i_heap s) l in
      remove_handler_loop fuel fuel (head l) irq handler l s
  end.

Fixpoint call_handlers (fuel : nat) (node : Z) (l : list_t H) (regs : stack_frame_t) s : outcome (irq_state H W) :=
  match fuel with
  | O => OutOfFuel
  | S f =>
      if node =? 0 then Ret s
      else
        w ← call (irq_handlers s (n_value (nodes l node))) regs (i_world s);
        call_handlers f (n_next (nodes l node)) l regs
          (mk_irq (irqHandlerLists s) (irqFlags s) (irq_handlers s) (i_heap s) w (i_eoi s))
  end.

(** [arch_end_interrupt]. *)
Definition end_interrupt s : irq_state H W :=
  mk_irq (irqHandlerLists s) (irqFlags s) (irq_handlers s) (i_heap s) (i_world s) (i_eoi s + 1).

(** [arch_get_irq_number]: the stub pushes the number in place of the error code. *)
Definition arch_get_irq_number (regs : stack_frame_t) : Z := i32 (errCode regs).

Definition irq_handler (fuel : nat) (regs : stack_frame_t) s : outcome (irq_state H W) :=
  let irqNumber := arch_get_irq_number regs in
  if irqNumber =? 224 then Ret s
  else if (irqNumber <? 0) || (IRQ_MAX <=? irqNumber) then Fault
  else
    match irqHandlerLists s irqNumber with
    | None => Ret (end_interrupt s)
    | Some l => s ← call_handlers fuel (head l) l regs s; Ret (end_interrupt s)
    end.
End Code.

(** ** The timer *)

(** Every tenth tick is passed to the scheduler: the frame and state to go on with. *)
Definition timer_tick {S} (preempt : stack_frame_t -> S -> outcome (stack_frame_t * S)) (regs : stack_frame_t)
    (ticksSinceOSBoot : Z) (s : S) : outcome (Z * stack_frame_t * S) :=
  let t := u64 (ticksSinceOSBoot + 1) in
  if t mod 10 =? 0 then '(regs, s) ← preempt regs s; Ret (t, regs, s) else Ret (t, regs, s).

Definition timer_get_ticks (ticksSinceOSBoot : Z) : Z := ticksSinceOSBoot.

(** [ksleep]: the loop ends at the first of the observed tick counts [seen] that reaches
    the final one. *)
Fixpoint ksleep_loop (finalTicks : Z) (seen : list Z) : outcome nat :=
  match seen with
  | [] => OutOfFuel
  | t :: seen' => if t <? finalTicks then n ← ksleep_loop finalTicks seen'; Ret (S n) else Ret O
  end.
Definition ksleep (ms ticksSinceOSBoot : Z) (seen : list Z) : outcome nat := ksleep_loop (u64 (ticksSinceOSBoot + ms)) seen.

(** ** Handlers in order *)

Section Spec.
Context {H W : Type} `{KH : KernelHeap H} `{KHL : !KernelHeapLaws H}.
Variable call : Z -> stack_frame_t -> W -> outcome W.
Implicit Types (s : irq_state H W).

(** Running handlers one after the other. *)
Fixpoint run_all (hs : list Z) (regs : stack_frame_t) (w : W) : outcome W :=
  match hs with
  | [] => Ret w
  | h :: hs' => w ← call h regs w; run_all hs' regs w
  end.

Definition set_world (w : W) s : irq_state H W :=
  mk_irq (irqHandlerLists s) (irqFlags s) (irq_handlers s) (i_heap s) w (i_eoi s).

Lemma call_handlers_spec cells l regs : forall fuel s,
  chain (nodes l) cells 0 -> Forall (fun c => 0 < c_addr c) cells -> (length cells < fuel)%nat ->
  call_handlers call fuel (first_cell 0 cells) l regs s =
    w ← run_all (map (fun c => irq_handlers s (c_value c)) cells) regs (i_world s); Ret (set_world w s).
Proof.
  induction cells as [|c cells IH]; intros [|f] s Hc Hp Hf; cbn [length] in Hf; try lia.
  - cbn. now destruct s.
  - apply Forall_cons in Hp as [Hp0 Hp]. destruct Hc as [En Hc]. cbn [call_handlers first_cell map run_all].
    rewrite (proj2 (Z.eqb_neq (c_addr c) 0)), En by lia. cbn [n_value n_next].
    destruct (call _ regs (i_world s)) as [w|?| | |]; try reflexivity. cbn [mbind outcome_bind]. apply IH; auto. lia.
Qed.

(** Looking for the entry of a handler. *)
Lemma remove_handler_loop_spec irq handler l lfuel cells : forall fuel s,
  chain (nodes l) cells 0 -> Forall (fun c => 0 < c_addr c) cells -> (length cells < fuel)%nat ->
  remove_handler_loop fuel lfuel (first_cell 0 cells) irq handler l s =
    if bool_decide (Exists (fun c => irq_handlers s (c_value c) = handler) cells) then
      '(_, l) ← list_remove lfuel handler l;
      let s := put_ilist irq l s in
      Ret (if nodeCount l =? 0 then put_flags irq 0 s else s)
    else Ret s.
Proof.
  clear call. induction cells as [|c cells IH]; intros [|f] s Hc Hp Hf; cbn [length] in Hf; try lia.
  - reflexivity.
  - apply Forall_cons in Hp as [Hp0 Hp]. destruct Hc as [En Hc]. cbn [remove_handler_loop first_cell].
    rewrite (proj2 (Z.eqb_neq (c_addr c) 0)), En by lia. cbn [n_value n_next].
    destruct (Z.eqb_spec (irq_handlers s (c_value c)) handler) as [E|E].
    + rewrite bool_decide_true by now apply Exists_cons_hd. reflexivity.
    + rewrite IH by (auto; lia). erewrite bool_decide_ext; [reflexivity|]. rewrite Exists_cons. tauto.
Qed.
End Spec.

(** The handlers registered for an interrupt, in order, and the free list lock. *)
Definition registered {H W} `{KernelHeap H} (s : irq_state H W) (irq : Z) (cells : list cell) (R : list (Z * Z)) : Prop :=
  exists l, irqHandlerLists s irq = Some l /\ l_lock l = false /\ list_shape (set_list_heap (i_heap s) l) cells R.

(** An interrupt runs the handlers registered for it one after the other, in the order
    of registration, each in the state the one before has left, and is acknowledged once
    at the end; the spurious interrupt is not acknowledged. *)
Theorem irq_handler_runs_all {H W} `{KH : KernelHeap H} call fuel regs (s : irq_state H W) cells R :
  let irq := arch_get_irq_number regs in
  0 <= irq < IRQ_MAX -> registered s irq cells R -> (length cells < fuel)%nat ->
  irq_handler call fuel regs s =
    if irq =? 224 then Ret s
    else w ← run_all call (map (fun c => irq_handlers s (c_value c)) cells) regs (i_world s);
         Ret (end_interrupt (set_world w s)).
Proof.
  intros irq Hi (l & El & Lk & Hs) Hf. unfold irq_handler. fold irq. destruct (irq =? 224); [reflexivity|].
  rewrite (proj2 (Z.ltb_ge irq 0)), (proj2 (Z.leb_gt IRQ_MAX irq)), El by lia. cbn [orb].
  destruct Hs as (Hh & _ & _ & Hc & _ & Hp & _). cbn [head set_list_heap nodes] in Hh, Hc.
  rewrite Hh, (call_handlers_spec call cells l regs fuel s Hc) by (first [exact Hf | eapply Forall_impl; [exact Hp|cbn; tauto]]).
  destruct (run_all call _ regs (i_world s)); reflexivity.
Qed.

(** ** Registration *)

Section Register.
Context {H W : Type} `{KH : KernelHeap H} `{KHL : !KernelHeapLaws H}.
Implicit Types (s : irq_state H W).

(** The handlers of an interrupt when its list may not exist yet; every entry of the list
    is a live area of the heap. *)
Definition handlers_of s (irq : Z) (cells : list cell) (R : list (Z * Z)) : Prop :=
  match irqHandlerLists s irq with
  | None => cells = [] /\ kh_ok (i_heap s) /\ kh_live (i_heap s) R
  | Some l => l_lock l = false /\ list_shape (set_list_heap (i_heap s) l) cells R
  end /\ Forall (fun c => exists n, 0 < n /\ (c_value c, n) ∈ R) cells.

(** A second handler is refused unless both sides share the interrupt. *)
Definition refused s (irq flags : Z) (cells : list cell) : bool :=
  if shared (irqFlags s irq) then negb (shared flags) else negb (Nat.eqb (length cells) 0).

(** The list that a registration works on, after the entry at [a] has been allocated. *)
Lemma handler_list_spec s irq cells R a n handler h :
  handlers_of s irq cells R ->
  kh_ok h -> (forall l, irqHandlerLists s irq = Some l -> kh_live h ((a, n) :: map cell_area cells ++ R)) ->
  (irqHandlerLists s irq = None -> kh_live h ((a, n) :: R)) ->
  Safe (handler_list irq (put_handler a handler (put_iheap h s))) (fun l => l_lock l = false /\
    exists R', list_shape l cells ((a, n) :: R') /\ R ⊆ R').
Proof.
  intros [Hh _] Hok HS HN. unfold handler_list. cbn [irqHandlerLists put_handler put_iheap i_heap].
  destruct (irqHandlerLists s irq) as [l|].
  - destruct Hh as [Lk Hs]. cbn. split; [exact Lk|]. exists R. split; [|set_solver].
    destruct Hs as (H1 & H2 & H3 & H4 & H5 & H6 & _ & _). unfold list_shape. splits; auto.
    eapply kh_live_perm; [exact (HS l eq_refl)|]. now rewrite Permutation_middle.
  - destruct Hh as [-> _]. unfold list_create.
    pose proof (kh_malloc_spec LIST_SIZE h _ ltac:(split; [easy|reflexivity]) Hok (HN eq_refl)) as HM.
    destruct (kh_malloc LIST_SIZE h) as [[b h']| | | |]; try contradiction; cbn; [|exact I].
    destruct HM as (k & _ & _ & _ & _ & Hok' & Hl & _). split; [reflexivity|]. exists ((b, k) :: R). split; [|set_solver].
    unfold list_shape. splits; auto; try reflexivity; try constructor. cbn. eapply kh_live_perm; [exact Hl|]. constructor.
Qed.

(** What a registration leaves alone: the world, the other interrupts, and the handlers
    registered before. *)
Definition kept s s' (irq : Z) (cells : list cell) : Prop :=
  i_world s' = i_world s /\
  (forall j, j <> irq -> irqHandlerLists s' j = irqHandlerLists s j /\ irqFlags s' j = irqFlags s j) /\
  (forall c, c ∈ cells -> irq_handlers s' (c_value c) = irq_handlers s (c_value c)).

(** The two ends of a registration; [s1] has the new entry at [a] and the list [l]. *)
Section Ends.
Variables (s : irq_state H W) (irq a handler n : Z) (h : H) (l : list_t H) (cells : list cell) (R' : list (Z * Z)).
Let s1 : irq_state H W := put_ilist irq l (put_handler a handler (put_iheap h s)).
Hypothesis (Lk : l_lock l = false) (Hs : list_shape l cells ((a, n) :: R')).
Hypothesis Hkeep : forall c, c ∈ cells -> upd (irq_handlers s) a handler (c_value c) = irq_handlers s (c_value c).

Lemma refuse_end :
  Safe (h' ← kh_free a (i_heap s1); Ret (Some (-1), put_iheap h' s1)) (fun '(r, s') =>
    kept s s' irq cells /\ r = Some (-1) /\ exists R', registered s' irq cells R').
Proof.
  destruct Hs as (H1 & H2 & H3 & H4 & H5 & H6 & Hok & Hl).
  assert (kh_live (heap l) ((a, n) :: map cell_area cells ++ R')) as Hl'.
  { eapply kh_live_perm; [exact Hl|]. now rewrite Permutation_middle. }
  destruct (kh_free_spec a n _ (heap l) Hok Hl') as (h' & E & Hok' & Hl2). unfold s1. cbn [i_heap put_ilist].
  rewrite E. cbn. splits; auto.
  - unfold kept. cbn. splits; auto. intros j Hj. now rewrite upd_ne by auto.
  - exists R', l. cbn. rewrite upd_eq. splits; auto. unfold list_shape. splits; auto.
Qed.

Lemma insert_end flags : Z.of_nat (length cells) < 2 ^ 64 - 1 ->
  Safe (l ← list_insert a l; Ret (None, put_flags irq (u32 flags) (put_ilist irq l s1))) (fun '(r, s') =>
    kept s s' irq cells /\ r = @None Z /\ irqFlags s' irq = u32 flags /\
    exists c R', irq_handlers s' (c_value c) = handler /\ registered s' irq (cells ++ [c]) R').
Proof.
  intros Hlen. eapply Safe_bind; [apply (list_insert_shape l cells _ a Lk Hs Hlen)|]. intros l' (Lk' & c & Ec & Hs').
  cbn. splits; auto.
  - unfold kept. cbn. splits; auto. intros j Hj. now rewrite !upd_ne by auto.
  - now rewrite upd_eq.
  - exists c, ((a, n) :: R'). rewrite Ec, upd_eq. split; [reflexivity|]. exists l'. cbn. rewrite upd_eq. splits; auto.
Qed.
End Ends.

(** Registering appends the handler to those of the interrupt and keeps the others, unless
    a second handler is not allowed; then the entry is freed and -1 is returned. *)
Lemma irq_add_handler_spec irq handler flags s cells R :
  handlers_of s irq cells R -> Z.of_nat (length cells) < 2 ^ 64 - 1 ->
  Safe (irq_add_handler irq handler flags s) (fun '(r, s') => kept s s' irq cells /\
    if refused s irq flags cells then r = Some (-1) /\ exists R', registered s' irq cells R'
    else r = None /\ irqFlags s' irq = u32 flags /\
      exists c R', irq_handlers s' (c_value c) = handler /\ registered s' irq (cells ++ [c]) R').
Proof.
  intros HH Hlen. unfold irq_add_handler.
  set (Rall := match irqHandlerLists s irq with None => R | Some _ => map cell_area cells ++ R end).
  assert (kh_ok (i_heap s) /\ kh_live (i_heap s) Rall) as [Hok Hlive].
  { destruct HH as [HH _]. unfold Rall. destruct (irqHandlerLists s irq); [|tauto]. destruct HH as [_ HH]. unfold list_shape in HH. cbn in HH. tauto. }
  pose proof (kh_malloc_spec IRQ_T_SIZE (i_heap s) _ ltac:(split; [easy|reflexivity]) Hok Hlive) as HM.
  destruct (kh_malloc IRQ_T_SIZE (i_heap s)) as [[a h]| | | |]; try contradiction; cbn [mbind outcome_bind Safe]; [|exact I].
  destruct HM as (n & _ & _ & Hn & _ & Hok' & Hl & Hap).
  eapply Safe_bind.
  { apply (handler_list_spec s irq cells R a n handler h HH Hok'); [intros ? E|intros E]; unfold Rall in Hl; now rewrite E in Hl. }
  intros l (Lk & R' & Hs & Hsub).
  assert (forall c, c ∈ cells -> upd (irq_handlers s) a handler (c_value c) = irq_handlers s (c_value c)) as Hkeep.
  { intros c Hc. apply upd_ne. destruct HH as [_ HF]. rewrite Forall_forall in HF. destruct (HF c Hc) as (k & Hk & Hin).
    rewrite Forall_forall in Hap. specialize (Hap (c_value c, k)). unfold IRQ_T_SIZE, apart in *. cbn [fst snd] in Hap.
    assert ((c_value c, k) ∈ Rall) as Hin' by (unfold Rall; destruct (irqHandlerLists s irq); [apply elem_of_app; now right|exact Hin]).
    specialize (Hap Hin'). lia. }
  assert ((nodeCount l =? 0) = Nat.eqb (length cells) 0) as EN.
  { destruct Hs as (_ & _ & -> & _). rewrite wrap_small by lia. destruct cells; reflexivity. }
  cbn [irqFlags put_ilist put_handler put_iheap]. rewrite EN. unfold refused.
  destruct (shared (irqFlags s irq)), (shared flags), (Nat.eqb (length cells) 0); cbn [negb andb orb];
    first [eapply insert_end; eauto | eapply refuse_end; eauto].
Qed.
End Register.

(** Two handlers, called 7 and 9, for interrupt 1; the state is the trace of calls. *)
#[local] Instance demo_heap : KernelHeap (kheap_state pmm_state) := kheap_heap HHDM.
#[local] Instance demo_heap_laws : KernelHeapLaws (kheap_state pmm_state) := kheap_heap_laws HHDM.

Definition irq_demo (l : list_t (kheap_state pmm_state)) : irq_state (kheap_state pmm_state) (list Z) :=
  mk_irq (upd (fun _ => None) 1 (Some l)) (fun _ => IRQ_SHARED) (fun a => if a =? 1000 then 7 else 9) (heap l) [] 0.

Definition irq1_frame : stack_frame_t := mk_frame 0 0 0 0 0 0 0 0 0 0 0 0 0 0 0 0 0 1 0 0 0 0 0.

Lemma irq_demo_registered : exists l cells, registered (irq_demo l) 1 cells [] /\ map c_value cells = [1000; 2000].
Proof.
  destruct two_threads as (l & cells & L & S & E). exists l, cells. split; [|exact E]. exists l. splits; auto.
Qed.

Lemma irq_handler_runs_all_witness : exists l,
  irq_handler (fun h _ w => Ret (w ++ [h])) 3 irq1_frame (irq_demo l) = Ret (end_interrupt (set_world [7; 9] (irq_demo l))).
Proof.
  destruct irq_demo_registered as (l & cells & Hr & E). exists l.
  destruct cells as [|c1 [|c2 [|]]]; try discriminate. injection E as E1 E2.
  rewrite (irq_handler_runs_all (fun h _ w => Ret (w ++ [h])) 3 irq1_frame (irq_demo l) [c1; c2] []).
  - cbn [map irq_handlers irq_demo]. rewrite E1, E2. reflexivity.
  - vm_compute. split; [discriminate|reflexivity].
  - exact Hr.
  - cbn. lia.
Defined.

(** [irq_remove_handler] never removes the handler: the list holds the addresses of the
    entries and the handler's own address is looked for in it. *)
Theorem irq_remove_handler_keeps {H W} `{KH : KernelHeap H} `{KHL : !KernelHeapLaws H} fuel irq handler
    (s : irq_state H W) cells R :
  registered s irq cells R -> Z.of_nat (length cells) < 2 ^ 64 -> (length cells < fuel)%nat ->
  (forall c, c ∈ cells -> c_value c <> handler) ->
  Returns (irq_remove_handler fuel irq handler s) (fun s' => registered s' irq cells R).
Proof.
  intros Hreg Hlen Hf Hne. pose proof Hreg as (l & El & Lk & Hs). unfold irq_remove_handler. rewrite El.
  pose proof Hs as (Hh & _ & _ & Hc & _ & Hp & _). cbn [head set_list_heap] in Hh. change (head (set_list_heap (i_heap s) l)) with (head l).
  rewrite Hh, (remove_handler_loop_spec irq handler _ fuel cells fuel s Hc) by (first [exact Hf | eapply Forall_impl; [exact Hp|cbn; tauto]]).
  case_bool_decide; [|apply Returns_ret; exact Hreg].
  eapply Returns_bind; [apply (list_remove_shape (set_list_heap (i_heap s) l) cells R handler fuel Lk Hs Hlen Hf)|].
  intros [r l'] [L' [(_ & d1 & c & d2 & -> & Ev & _)|(_ & _ & Hs')]].
  - exfalso. apply (Hne c); [|exact Ev]. apply elem_of_app. right. apply elem_of_cons. now left.
  - apply Returns_ret. exists l'. destruct (nodeCount l' =? 0); cbn; rewrite upd_eq; splits; auto; destruct l'; exact Hs'.
Qed.
