(* ===== verification/Gpt.v ===== *)
(** * Drives and partition tables ([kernel/sys/dal/stor/drive.c],
    [kernel/sys/dal/stor/part/gpt.c])

    The list of drives and the reading of GUID partition tables through the block cache.
    A block is a list of bytes; the fields of the header and of the entries are loads from
    it.  Giving a partition to the device manager is the argument [pdev]. *)

From S2P Require Import Prelude Links Interfaces MemMap Pmm MemUtil Kheap Bytes Bcache.
#[local] Open Scope Z_scope.

(** The globals of drive.c and gpt.c on top of the storage layer. *)
Record dal (H D : Type) : Type := mk_dal {
  dl_stor : storage D;
  dl_heap : H;
  gptLock : spinlock_t;
  drivesHead : Z;
  drivesTail : Z;
  next_driveid : Z
}.
Arguments mk_dal {H D}.
Arguments dl_stor {H D}.
Arguments dl_heap {H D}.
Arguments gptLock {H D}.
Arguments drivesHead {H D}.
Arguments drivesTail {H D}.
Arguments next_driveid {H D}.

(** ** On the disk *)

(** Fields of [gpt_header_t] and [gpt_entry_t], in a block. *)
Definition GPT_HEADER_SIZE : Z := 96.
(** What is read of an entry: everything but the name. *)
Definition GPT_ENTRY_USED : Z := 56.
Definition gpt_GUID (i : Z) (b : mem) : Z := load64 (56 + 8 * i) b.
Definition gptArrayStartLBA (b : mem) : Z := load64 72 b.
Definition partCount (b : mem) : Z := load32 80 b.
Definition entrySize (b : mem) : Z := load32 84 b.
Definition typeGUID (i e : Z) (b : mem) : Z := load64 (e + 8 * i) b.
Definition partGUID (i e : Z) (b : mem) : Z := load64 (e + 16 + 8 * i) b.
Definition entry_startLBA (e : Z) (b : mem) : Z := load64 (e + 32) b.
Definition entry_endLBA (e : Z) (b : mem) : Z := load64 (e + 40) b.
Definition entry_attribs (e : Z) (b : mem) : Z := load64 (e + 48) b.

(** [!strcmp(partHeader->magic, "EFI PART")]: the terminator is the first byte of the
    revision. *)
Definition magic_is (b : mem) : bool :=
  bool_decide (map b [0; 1; 2; 3; 4; 5; 6; 7; 8] = chars "EFI PART" ++ [0]).

(** The condition under which a drive is taken to have a partition table. *)
Definition accepted (b : mem) : bool :=
  magic_is b || negb (entrySize b >? 512) || negb (entrySize b mod 128 =? 0) || (partCount b >? MAX_PARTITIONS).

Definition w_system {D} (x : bool) (d : drive_t D) : drive_t D :=
  mk_drive x (d_type d) (driveid d) (d_read d) (d_write d) (partitionCount d) (partitions d) (d_lock d) (d_next d).
Definition w_parts {D} (n : Z) (l : list partition_t) (d : drive_t D) : drive_t D :=
  mk_drive (isSystemDrive d) (d_type d) (driveid d) (d_read d) (d_write d) n l (d_lock d) (d_next d).
Definition w_dlock {D} (l : spinlock_t) (d : drive_t D) : drive_t D :=
  mk_drive (isSystemDrive d) (d_type d) (driveid d) (d_read d) (d_write d) (partitionCount d) (partitions d) l (d_next d).
Definition w_dnext {D} (n : Z) (d : drive_t D) : drive_t D :=
  mk_drive (isSystemDrive d) (d_type d) (driveid d) (d_read d) (d_write d) (partitionCount d) (partitions d) (d_lock d) n.
Definition w_driveid {D} (n : Z) (d : drive_t D) : drive_t D :=
  mk_drive (isSystemDrive d) (d_type d) n (d_read d) (d_write d) (partitionCount d) (partitions d) (d_lock d) (d_next d).

(** The first slot that is not valid takes the partition. *)
Fixpoint fill_slot (sys : bool) (first last attr : Z) (l : list partition_t) : list partition_t :=
  match l with
  | [] => []
  | p :: l' =>
      if part_valid p then p :: fill_slot sys first last attr l'
      else mk_part first last attr (sys || isSystemPartition p) (u64 ((last - first) * 512)) true :: l'
  end.

Section Gpt.
Context {H D : Type} `{KH : KernelHeap H}.
(** The bound for the walks through the cache, and the GUIDs the boot loader reports for
    the boot disk and the boot partition. *)
Variable (fuel : nat) (bootDiskGUID bootPartGUID : Z * Z).
Implicit Types (s : dal H D).

Definition put_stor (st : storage D) s : dal H D :=
  mk_dal st (dl_heap s) (gptLock s) (drivesHead s) (drivesTail s) (next_driveid s).
Definition put_heap (h : H) s : dal H D :=
  mk_dal (dl_stor s) h (gptLock s) (drivesHead s) (drivesTail s) (next_driveid s).
Definition put_gptLock (l : spinlock_t) s : dal H D :=
  mk_dal (dl_stor s) (dl_heap s) l (drivesHead s) (drivesTail s) (next_driveid s).
Definition put_drive_list (h t : Z) s : dal H D :=
  mk_dal (dl_stor s) (dl_heap s) (gptLock s) h t (next_driveid s).
Definition drive_of s (d : Z) : drive_t D := drives (dl_stor s) d.
Definition upd_drive (d : Z) (g : drive_t D -> drive_t D) s : dal H D :=
  put_stor (set_drives (upd (drives (dl_stor s)) d (g (drive_of s d))) (dl_stor s)) s.

Definition get_block (drv blk : Z) s : outcome (Z * dal H D) :=
  '(b, st) ← bcache_get fuel drv blk (dl_stor s); Ret (b, put_stor st s).
Definition release_block (buf : Z) s : outcome (dal H D) :=
  st ← bcache_release buf (dl_stor s); Ret (put_stor st s).
Definition block_of s (buf : Z) : mem := bytes_at 0 (data (bc_buf (dl_stor s) buf)).

Definition unlock_gpt s : dal H D := put_gptLock (releaseLock (gptLock s)) s.

Definition gpt_validate_drive (drv : Z) s : outcome (bool * dal H D) :=
  if d_type (drive_of s drv) =? DRIVE_TYPE_OPTICAL then Ret (false, s)
  else
    l ← acquireLock (gptLock s);
    '(buf, s) ← get_block drv 1 (put_gptLock l s);
    if buf =? 0 then Ret (false, unlock_gpt s)
    else
      let h := block_of s buf in
      let s := if accepted h && (bootDiskGUID.1 =? gpt_GUID 0 h) && (bootDiskGUID.2 =? gpt_GUID 1 h)
               then upd_drive drv (w_system true) s else s in
      s ← release_block buf s;
      Ret (accepted h, unlock_gpt s).

(** One entry of the table, at offset [e] of the block [b].  The source compares the
    first half of the partition's GUID twice. *)
Definition add_entry (drv e : Z) (b : mem) s : outcome (dal H D) :=
  if e + GPT_ENTRY_USED >? BCACHE_BLOCK_SIZE then Fault
  else if negb (typeGUID 0 e b =? 0) && negb (typeGUID 1 e b =? 0) then
    Ret (upd_drive drv (fun d =>
      let sys := (partGUID 0 e b =? bootPartGUID.1) && (partGUID 0 e b =? bootPartGUID.1) && isSystemDrive d in
      w_parts (u64 (partitionCount d + 1))
        (fill_slot sys (entry_startLBA e b) (entry_endLBA e b) (entry_attribs e b) (partitions d)) d) s)
  else Ret s.

(** One block of the table. *)
Definition add_chunk (drv first size per i : Z) s : outcome (dal H D) :=
  '(buf, s) ← get_block drv (u64 (first + i)) s;
  if buf =? 0 then Fault
  else
    s ← for_up (Z.to_nat per) 0 (fun j s => add_entry drv (j * size) (block_of s buf) s) s;
    release_block buf s.

Definition gpt_initialise_drive (drv : Z) s : outcome (bool * dal H D) :=
  '(partHeader, h) ← kh_malloc GPT_HEADER_SIZE (dl_heap s);
  let s := put_heap h s in
  l ← acquireLock (gptLock s);
  '(buf, s) ← get_block drv 1 (put_gptLock l s);
  if buf =? 0 then Fault
  else
    let hdr := block_of s buf in
    s ← release_block buf s;
    let first := if gptArrayStartLBA hdr =? 0 then 2 else gptArrayStartLBA hdr in
    if (entrySize hdr =? 0) || (512 / entrySize hdr =? 0) then Fault
    else
      let per := 512 / entrySize hdr in
      s ← for_up (Z.to_nat (partCount hdr / per)) 0 (add_chunk drv first (entrySize hdr) per) s;
      h ← kh_free partHeader (dl_heap s);
      Ret (true, unlock_gpt (put_heap h s)).

(** ** The list of drives *)

Definition _drive_gen_driveid s : Z * dal H D :=
  (next_driveid s, mk_dal (dl_stor s) (dl_heap s) (gptLock s) (drivesHead s) (drivesTail s) (u64 (next_driveid s + 1))).

Definition optical_partition (l : list partition_t) : list partition_t :=
  match l with
  | [] => []
  | p :: l' => mk_part 0 0 0 (isSystemPartition p) 0 true :: l'
  end.

(** [next] of a drive that is appended is not set. *)
Definition drive_add (pdev : Z -> Z -> dal H D -> outcome (dal H D)) (drv : Z) s : outcome (Z * dal H D) :=
  let s := upd_drive drv (fun d => w_system false (w_parts 0 (partitions d) d)) s in
  let '(id, s) := _drive_gen_driveid s in
  let s := upd_drive drv (w_driveid id) s in
  let s := if drivesHead s =? 0 then upd_drive drv (w_dnext 0) (put_drive_list drv drv s)
           else put_drive_list (drivesHead s) drv (upd_drive (drivesTail s) (w_dnext drv) s) in
  l ← acquireLock (d_lock (drive_of s drv));
  let s := upd_drive drv (w_dlock l) s in
  s ← (if d_type (drive_of s drv) =? DRIVE_TYPE_OPTICAL then
         Ret (upd_drive drv (fun d => w_parts 1 (optical_partition (partitions d)) d) s)
       else
         '(ok, s) ← gpt_validate_drive drv s;
         if (ok : bool) then '(_, s) ← gpt_initialise_drive drv s; Ret s else Ret s);
  s ← for_up (Z.to_nat (partitionCount (drive_of s drv))) 0 (pdev drv) s;
  Ret (0, upd_drive drv (fun d => w_dlock (releaseLock (d_lock d)) d) s).

(** The search of [drive_remove]; when the drive is found the function returns with its
    lock held. *)
Fixpoint remove_loop (n : nat) (prev i drv : Z) s : outcome (dal H D) :=
  match n with
  | O => OutOfFuel
  | S n' =>
      if i =? 0 then Ret (upd_drive drv (fun d => w_dlock (releaseLock (d_lock d)) d) s)
      else if i =? drv then
        s ← (if negb (prev =? 0) then
               l ← acquireLock (d_lock (drive_of s prev));
               let s := upd_drive prev (w_dnext (d_next (drive_of s i))) (upd_drive prev (w_dlock l) s) in
               Ret (upd_drive prev (fun d => w_dlock (releaseLock (d_lock d)) d) s)
             else Ret (put_drive_list (d_next (drive_of s (drivesHead s))) (drivesTail s) s));
        h ← kh_free i (dl_heap s);
        Ret (put_heap h s)
      else remove_loop n' i (d_next (drive_of s i)) drv s
  end.

Definition drive_remove (drv : Z) s : outcome (dal H D) :=
  l ← acquireLock (d_lock (drive_of s drv));
  let s := upd_drive drv (w_dlock l) s in
  remove_loop fuel 0 (drivesHead s) drv s.

Definition drive_get_list s : Z := drivesHead s.
End Gpt.

(** ** The partitions of a table *)

(** The test of the code: both halves of the type are not zero. *)
Definition entry_used (b : mem) (e : Z) : bool := negb (typeGUID 0 e b =? 0) && negb (typeGUID 1 e b =? 0).

Definition part_of (sysdrive : bool) (boot : Z) (b : mem) (e : Z) : partition_t :=
  mk_part (entry_startLBA e b) (entry_endLBA e b) (entry_attribs e b) ((partGUID 0 e b =? boot) && sysdrive)
    (u64 ((entry_endLBA e b - entry_startLBA e b) * 512)) true.

(** The offsets of the first [k] entries of a block, the partitions in them, and the
    partitions of the first [k] blocks of the table. *)
Definition offsets (size k : Z) : list Z := map (fun j => Z.of_nat j * size) (List.seq 0 (Z.to_nat k)).
Definition block_parts (sysdrive : bool) (boot size k : Z) (b : mem) : list partition_t :=
  map (part_of sysdrive boot b) (List.filter (entry_used b) (offsets size k)).
Definition table_parts (sysdrive : bool) (boot size per first : Z) (disk : Z -> list Z) (k : Z) : list partition_t :=
  flat_map (fun i => block_parts sysdrive boot size per (bytes_at 0 (disk (first + Z.of_nat i)))) (List.seq 0 (Z.to_nat k)).

Lemma seq_succ k : 0 <= k -> List.seq 0 (Z.to_nat (k + 1)) = List.seq 0 (Z.to_nat k) ++ [Z.to_nat k].
Proof. intros Hk. replace (Z.to_nat (k + 1)) with (S (Z.to_nat k)) by lia. apply List.seq_S. Qed.

Lemma block_parts_succ sys boot size k b : 0 <= k ->
  block_parts sys boot size (k + 1) b =
    block_parts sys boot size k b ++ (if entry_used b (k * size) then [part_of sys boot b (k * size)] else []).
Proof.
  intros Hk. unfold block_parts, offsets. rewrite seq_succ, !map_app, List.filter_app, map_app by exact Hk. f_equal.
  cbn [map List.filter]. rewrite Z2Nat.id by exact Hk. now destruct (entry_used b (k * size)).
Qed.

Lemma table_parts_succ sys boot size per first disk k : 0 <= k ->
  table_parts sys boot size per first disk (k + 1) =
    table_parts sys boot size per first disk k ++ block_parts sys boot size per (bytes_at 0 (disk (first + k))).
Proof.
  intros Hk. unfold table_parts. rewrite seq_succ, flat_map_app by exact Hk. f_equal. cbn [flat_map].
  now rewrite app_nil_r, Z2Nat.id by exact Hk.
Qed.

(** ** The table as the standard describes it *)

(** Entry [k] of the array that begins at block [first]: its block and its offset there. *)
Definition entry_block (size first : Z) (disk : Z -> list Z) (k : nat) : mem := bytes_at 0 (disk (first + Z.of_nat k * size / 512)).
Definition entry_offset (size : Z) (k : nat) : Z := Z.of_nat k * size mod 512.

(** An entry is unused when the 128 bits of its type are zero; the boot partition is the one
    with the 128 bits of the boot loader's GUID. *)
Definition uefi_used (b : mem) (e : Z) : bool := negb ((typeGUID 0 e b =? 0) && (typeGUID 1 e b =? 0)).
Definition uefi_part (sysdrive : bool) (boot : Z * Z) (b : mem) (e : Z) : partition_t :=
  mk_part (entry_startLBA e b) (entry_endLBA e b) (entry_attribs e b) ((partGUID 0 e b =? boot.1) && (partGUID 1 e b =? boot.2) && sysdrive)
    (u64 ((entry_endLBA e b - entry_startLBA e b) * 512)) true.
Definition uefi_entry (sysdrive : bool) (boot : Z * Z) (size first : Z) (disk : Z -> list Z) (k : nat) : list partition_t :=
  let b := entry_block size first disk k in
  let e := entry_offset size k in
  if uefi_used b e then [uefi_part sysdrive boot b e] else [].
Definition uefi_parts (sysdrive : bool) (boot : Z * Z) (size first : Z) (disk : Z -> list Z) (count : nat) : list partition_t :=
  flat_map (uefi_entry sysdrive boot size first disk) (List.seq 0 count).

(** Entries the code takes for what they are: not only one half of the type is zero, and not
    only the first half of the GUID is that of the boot partition. *)
Definition plain_entry (boot : Z * Z) (b : mem) (e : Z) : Prop :=
  (typeGUID 0 e b = 0 <-> typeGUID 1 e b = 0) /\ (partGUID 0 e b = boot.1 -> partGUID 1 e b = boot.2).

Lemma filter_flat_map {A B} (p : A -> bool) (f : A -> B) l : map f (List.filter p l) = flat_map (fun x => if p x then [f x] else []) l.
Proof. induction l as [|x l IH]; cbn [List.filter flat_map]; [reflexivity|]. destruct (p x); cbn; now rewrite IH. Qed.

(** One block of the table. *)
Lemma block_parts_uefi sys boot size per first disk i : 0 < size -> Z.of_nat per * size = 512 ->
  (forall j, (j < per)%nat -> plain_entry boot (entry_block size first disk (i * per + j)) (entry_offset size (i * per + j))) ->
  flat_map (uefi_entry sys boot size first disk) (List.seq (i * per) per) = block_parts sys boot.1 size (Z.of_nat per) (bytes_at 0 (disk (first + Z.of_nat i))).
Proof.
  intros Hs Hp Hpl. replace (List.seq (i * per) per) with (map (Nat.add (i * per)) (List.seq 0 per))
    by (etransitivity; [exact (fmap_add_seq (i * per) 0 per)|now rewrite Nat.add_0_r]).
  unfold block_parts, offsets. rewrite filter_flat_map, Nat2Z.id, !flat_map_concat_map, !map_map. f_equal. apply map_ext_in.
  intros j Hj%in_seq. unfold uefi_entry. specialize (Hpl j ltac:(lia)). unfold entry_block, entry_offset in *.
  assert (Z.of_nat (i * per + j) * size = Z.of_nat i * 512 + Z.of_nat j * size) as E by (rewrite <- Hp; lia).
  assert (0 <= Z.of_nat j * size < 512) as Hb by (rewrite <- Hp; nia).
  assert (Z.of_nat (i * per + j) * size / 512 = Z.of_nat i) as E1 by (rewrite E; dm).
  assert ((Z.of_nat (i * per + j) * size) mod 512 = Z.of_nat j * size) as E2 by (rewrite E; dm).
  rewrite E1, E2 in *. set (b := bytes_at 0 _) in *. set (e := Z.of_nat j * size) in *. destruct Hpl as [P1 P2]. unfold entry_used, uefi_used, part_of, uefi_part.
  assert ((partGUID 0 e b =? boot.1) && (partGUID 1 e b =? boot.2) = (partGUID 0 e b =? boot.1)) as ->.
  { destruct (Z.eqb_spec (partGUID 0 e b) boot.1) as [E0|]; [|reflexivity]. rewrite (P2 E0), Z.eqb_refl. reflexivity. }
  destruct (Z.eqb_spec (typeGUID 0 e b) 0) as [Z0|Z0], (Z.eqb_spec (typeGUID 1 e b) 0) as [Z1|Z1]; cbn [andb negb]; try reflexivity; exfalso; tauto.
Qed.

(** The blocks of the table hold its entries, when the entries fill them. *)
Lemma table_parts_uefi sys boot size per first disk n : 0 < size -> Z.of_nat per * size = 512 ->
  (forall k, (k < n * per)%nat -> plain_entry boot (entry_block size first disk k) (entry_offset size k)) ->
  table_parts sys boot.1 size (Z.of_nat per) first disk (Z.of_nat n) = uefi_parts sys boot size first disk (n * per).
Proof.
  intros Hs Hp. unfold table_parts, uefi_parts. rewrite Nat2Z.id. induction n as [|n IH]; intros Hpl; [reflexivity|].
  rewrite List.seq_S, flat_map_app, IH by (intros k Hk; apply Hpl; lia). replace (S n * per)%nat with (n * per + per)%nat by lia.
  rewrite List.seq_app, flat_map_app, !Nat.add_0_l. f_equal. cbn [flat_map]. rewrite app_nil_r. symmetry.
  apply block_parts_uefi; auto. intros j Hj. apply Hpl. nia.
Qed.

Section Spec.
Context {H D : Type} `{KH : KernelHeap H} `{KHL : !KernelHeapLaws H}.
Implicit Types (s : dal H D).

(** A slot not yet used, and the partitions [ps] at the front of the array. *)
Definition blank (p : partition_t) : Prop := part_valid p = false /\ isSystemPartition p = false.
Definition holds (d : drive_t D) (ps : list partition_t) : Prop :=
  partitionCount d = Z.of_nat (length ps) /\
  exists rest, partitions d = ps ++ rest /\ Z.of_nat (length (ps ++ rest)) = MAX_PARTITIONS /\
    Forall (fun p => part_valid p = true) ps /\ Forall blank rest.

Lemma fill_slot_app sys a b c ps p rest :
  Forall (fun q => part_valid q = true) ps -> blank p ->
  fill_slot sys a b c (ps ++ p :: rest) = ps ++ mk_part a b c sys (u64 ((b - a) * 512)) true :: rest.
Proof.
  intros Hps [Hp1 Hp2]. induction Hps as [|q ps Hq _ IH]; cbn [app fill_slot].
  - now rewrite Hp1, Hp2, orb_false_r.
  - now rewrite Hq, IH.
Qed.

Lemma holds_add d ps sys a b c :
  holds d ps -> Z.of_nat (length ps) < MAX_PARTITIONS ->
  holds (w_parts (u64 (partitionCount d + 1)) (fill_slot sys a b c (partitions d)) d)
    (ps ++ [mk_part a b c sys (u64 ((b - a) * 512)) true]).
Proof.
  intros (Hn & rest & E & Hlen & Hv & Hb) Hps. destruct rest as [|p rest]; [rewrite app_nil_r in Hlen; lia|].
  apply Forall_cons in Hb as [Hp Hb]. split; cbn [w_parts partitionCount partitions].
  - rewrite Hn, length_app. cbn [length]. unfold MAX_PARTITIONS in *. rewrite wrap_small by (pow2_consts; lia). lia.
  - exists rest. rewrite E, fill_slot_app, <- app_assoc by assumption. splits; auto.
    + rewrite !length_app in *. exact Hlen.
    + apply Forall_app. split; [exact Hv|repeat constructor].
Qed.

(** [s] is [s0] with the partitions [ps] entered for the drive; the cache may differ, and
    the drive still serves its blocks. *)
Record entered s0 (drv cap : Z) (disk : Z -> list Z) (ps : list partition_t) s : Prop := {
  en_parts : holds (drive_of s drv) ps;
  en_system : isSystemDrive (drive_of s drv) = isSystemDrive (drive_of s0 drv);
  en_read : d_read (drive_of s drv) = d_read (drive_of s0 drv);
  en_serves : serves (dl_stor s) drv cap disk;
  en_other : forall x, x <> drv -> drive_of s x = drive_of s0 x;
  en_lock : gptLock s = gptLock s0;
  en_heap : dl_heap s = dl_heap s0
}.

Lemma entered_stor s0 drv cap disk ps s st :
  entered s0 drv cap disk ps s -> drives st = drives (dl_stor s) -> serves st drv cap disk -> entered s0 drv cap disk ps (put_stor st s).
Proof.
  intros [] E1 E2. assert (forall x, drive_of (put_stor st s) x = drive_of s x) as E by (intros x; unfold drive_of; cbn; congruence).
  split; rewrite ?E; auto. intros x Hx. rewrite E. auto.
Qed.

Lemma entered_dev s0 drv cap disk ps s st :
  entered s0 drv cap disk ps s -> drives st = drives (dl_stor s) -> dev st = dev (dl_stor s) -> entered s0 drv cap disk ps (put_stor st s).
Proof. intros He E1 E2. apply entered_stor; auto. apply (serves_ext (dl_stor s)); [now rewrite E1|exact E2|now destruct He]. Qed.

Section Reading.
Variable (fuel : nat) (bootPartGUID : Z * Z) (s0 : dal H D) (drv cap : Z) (disk : Z -> list Z).
Hypothesis Hcap : cap <= 2 ^ 64.
Abbreviation sysd := (isSystemDrive (drive_of s0 drv)).

Lemma add_entry_spec ps s e b :
  entered s0 drv cap disk ps s -> e + GPT_ENTRY_USED <= BCACHE_BLOCK_SIZE ->
  let new := if entry_used b e then [part_of sysd bootPartGUID.1 b e] else [] in
  Z.of_nat (length (ps ++ new)) <= MAX_PARTITIONS ->
  Returns (add_entry bootPartGUID drv e b s) (fun s' => entered s0 drv cap disk (ps ++ new) s' /\
    exists f, dl_stor s' = set_drives f (dl_stor s)).
Proof.
  intros Hs He new Hlen. unfold add_entry. destruct (Z.gtb_spec (e + GPT_ENTRY_USED) BCACHE_BLOCK_SIZE); [lia|]. fold (entry_used b e). unfold new in *.
  destruct (entry_used b e); [|apply Returns_ret; rewrite app_nil_r; split; [exact Hs|]].
  - apply Returns_ret. split; [|now eexists]. destruct Hs. rewrite length_app in Hlen. cbn [length] in Hlen.
    set (s' := upd_drive _ _ s).
    assert (forall g x, drive_of (upd_drive drv g s) x = if x =? drv then g (drive_of s drv) else drive_of s x) as Ed.
    { intros g x. unfold drive_of, upd_drive. cbn. unfold upd. now destruct (Z.eqb_spec x drv) as [->|]. }
    split; unfold s'; rewrite ?Ed, ?Z.eqb_refl; auto.
    + rewrite en_system0, andb_diag. apply holds_add; [exact en_parts0|lia].
    + apply (serves_ext (dl_stor s)); [|reflexivity|exact en_serves0]. cbn. now rewrite upd_eq.
    + intros x Hx. rewrite Ed, (proj2 (Z.eqb_neq x drv) Hx). auto.
  - exists (drives (dl_stor s)). now destruct (dl_stor s).
Qed.

Lemma add_chunk_spec ps s l first size per i :
  entered s0 drv cap disk ps s -> idle (dl_stor s) l -> (length l < fuel)%nat -> 0 <= first + i < cap ->
  GPT_ENTRY_USED <= size -> 0 <= per -> per * size <= BCACHE_BLOCK_SIZE ->
  let new := block_parts sysd bootPartGUID.1 size per (bytes_at 0 (disk (first + i))) in
  Z.of_nat (length (ps ++ new)) <= MAX_PARTITIONS ->
  Returns (add_chunk fuel bootPartGUID drv first size per i s) (fun s' => entered s0 drv cap disk (ps ++ new) s' /\
    exists l', idle (dl_stor s') l' /\ length l' = length l).
Proof.
  intros Hs Hi Hf Hfirst Hsz Hper Hper2 new Hlen. unfold add_chunk, get_block. rewrite wrap_small by (pow2_consts; lia).
  destruct l as [|b l]; [destruct Hi as (_ & Hi & _); cbn in Hi; lia|].
  eapply Returns_bind.
  { eapply Returns_bind; [exact (idle_get fuel drv (first + i) _ b l cap disk Hi Hf (en_serves _ _ _ _ _ _ Hs) Hfirst)|].
    intros [r st] (-> & Hb & Hh & Ed & Edr & Edev). apply Returns_ret.
    exact (conj eq_refl (conj Hb (conj Hh (conj Ed (entered_stor _ _ _ _ _ _ _ Hs Edr Edev)))) :
      (fun '(r, s') => r = b /\ b <> 0 /\ held (dl_stor s') b l /\ data (bc_buf (dl_stor s') b) = disk (first + i) /\
         entered s0 drv cap disk ps s') (b, put_stor st s)). }
  intros [r s1] (-> & Hb & Hh & Ed & Hs1). rewrite (proj2 (Z.eqb_neq b 0) Hb). set (blk := bytes_at 0 (disk (first + i))) in *.
  eapply Returns_bind.
  { apply (for_up_Returns (fun j s => entered s0 drv cap disk (ps ++ block_parts sysd bootPartGUID.1 size j blk) s /\
             held (dl_stor s) b l /\ block_of s b = blk)).
    - rewrite app_nil_r. splits; auto. unfold block_of. now rewrite Ed.
    - intros j s2 Hj (Hs2 & Hh2 & Eb). rewrite Eb. cbn [Z.add] in Hj. rewrite Z2Nat.id in Hj by lia.
      assert (Z.of_nat (length ((ps ++ block_parts sysd bootPartGUID.1 size j blk) ++
        (if entry_used blk (j * size) then [part_of sysd bootPartGUID.1 blk (j * size)] else []))) <= MAX_PARTITIONS) as Hl.
      { rewrite <- app_assoc, <- block_parts_succ by lia. eapply Z.le_trans; [|exact Hlen]. apply inj_le.
        rewrite !length_app. apply Nat.add_le_mono_l. unfold new, block_parts, offsets. rewrite !length_map.
        replace (Z.to_nat per) with (Z.to_nat (j + 1) + (Z.to_nat per - Z.to_nat (j + 1)))%nat by lia.
        rewrite (List.seq_app (Z.to_nat (j + 1))), map_app, List.filter_app, length_app. lia. }
      eapply Returns_mono; [apply (add_entry_spec _ s2 (j * size) blk Hs2); [unfold GPT_ENTRY_USED, BCACHE_BLOCK_SIZE in *; nia|exact Hl]|].
      intros s3 (Hs3 & f & Ef). rewrite <- app_assoc, <- block_parts_succ in Hs3 by lia. splits; [exact Hs3| |].
      + rewrite Ef. now apply held_drives.
      + unfold block_of. rewrite Ef. exact Eb. }
  intros s2 (Hs2 & Hh2 & _). cbn [Z.add] in Hs2. rewrite Z2Nat.id in Hs2 by lia. unfold release_block.
  eapply Returns_bind; [exact (held_release _ _ _ Hh2)|]. intros st (Hi' & E1 & E2). apply Returns_ret. split.
  - now apply entered_dev.
  - exists (l ++ [b]). split; [exact Hi'|]. rewrite length_app. cbn. lia.
Qed.
End Reading.
End Spec.

(** What the blocks that are read make of the drive. *)
Lemma gpt_initialise_spec {H D} `{KH : KernelHeap H} `{KHL : !KernelHeapLaws H} fuel boot drv
    (s : dal H D) l cap disk R :
  let hdr := bytes_at 0 (disk 1) in
  let size := entrySize hdr in
  let per := 512 / size in
  let first := if gptArrayStartLBA hdr =? 0 then 2 else gptArrayStartLBA hdr in
  let n := partCount hdr / per in
  let ps := table_parts (isSystemDrive (drive_of s drv)) boot.1 size per first disk n in
  idle (dl_stor s) l -> (length l < fuel)%nat -> serves (dl_stor s) drv cap disk -> gptLock s = false ->
  kh_ok (dl_heap s) -> kh_live (dl_heap s) R -> holds (drive_of s drv) [] ->
  GPT_ENTRY_USED <= size <= 512 -> 0 <= partCount hdr -> 0 <= first -> first + n <= cap -> 2 <= cap <= 2 ^ 64 ->
  Z.of_nat (length ps) <= MAX_PARTITIONS ->
  Safe (gpt_initialise_drive fuel boot drv s) (fun '(ok, s') =>
    ok = true /\ holds (drive_of s' drv) ps /\ (forall x, x <> drv -> drive_of s' x = drive_of s x) /\
    (exists l', idle (dl_stor s') l' /\ length l' = length l) /\ serves (dl_stor s') drv cap disk /\
    gptLock s' = false /\ kh_ok (dl_heap s') /\ kh_live (dl_heap s') R).
Proof.
  intros hdr size per first n ps Hi Hf Hd Hlk Hok Hlive Hh Hsz Hpc Hfirst Hlast Hcap Hlen. unfold gpt_initialise_drive, GPT_HEADER_SIZE.
  assert (1 <= per /\ per * size <= 512 /\ 0 <= n) as (Hper & Hper2 & Hn).
  { unfold per, n, GPT_ENTRY_USED in *. splits; [apply Z.div_le_lower_bound; lia| |].
    - rewrite Z.mul_comm. apply Z.mul_div_le. lia.
    - apply Z.div_pos; [lia|]. apply Z.div_str_pos. lia. }
  pose proof (kh_malloc_spec 96 _ _ ltac:(lia) Hok Hlive) as HM. destruct (kh_malloc 96 (dl_heap s)) as [[a h]|?| | |]; try contradiction; [|exact I].
  destruct HM as (na & Ha & _ & _ & _ & Hok1 & Hlive1 & _). cbn [mbind outcome_bind]. cbn [gptLock put_heap]. rewrite Hlk. cbn [acquireLock mbind outcome_bind].
  set (s1 := put_gptLock true (put_heap h s)).
  assert (entered s1 drv cap disk [] s1) as He1 by (split; auto; exact Hh).
  destruct l as [|b l]; [destruct Hi as (_ & Hi & _); cbn in Hi; lia|]. unfold get_block.
  destruct (idle_get fuel drv 1 (dl_stor s1) b l cap disk Hi Hf Hd ltac:(lia)) as ([r st] & Eg & -> & Hb & Hheld & Ed & Edr & Edev).
  rewrite Eg. cbn [mbind outcome_bind]. rewrite (proj2 (Z.eqb_neq b 0) Hb).
  change (block_of (put_stor st s1) b) with (bytes_at 0 (data (bc_buf st b))). rewrite Ed. fold hdr. unfold release_block.
  destruct (held_release _ _ _ Hheld) as (st2 & Er & Hi2 & Edr2 & Edev2). cbn [dl_stor put_stor]. rewrite Er. cbn [mbind outcome_bind].
  set (s2 := put_stor st2 (put_stor st s1)). fold size per first n.
  assert (entered s1 drv cap disk [] s2) as He2 by (apply entered_dev; auto; apply entered_stor; auto).
  rewrite (proj2 (Z.eqb_neq size 0)), (proj2 (Z.eqb_neq per 0)) by (unfold GPT_ENTRY_USED in *; lia). cbn [orb].
  assert (Returns (for_up (Z.to_nat n) 0 (add_chunk fuel boot drv first size per) s2) (fun s' =>
    entered s1 drv cap disk ps s' /\ exists l', idle (dl_stor s') l' /\ length l' = S (length l))) as (s3 & E3 & He3 & l3 & Hi3 & Hl3).
  { eapply Returns_mono; [apply (for_up_Returns (fun k s' => entered s1 drv cap disk
      (table_parts (isSystemDrive (drive_of s drv)) boot.1 size per first disk k) s' /\ exists l', idle (dl_stor s') l' /\ length l' = S (length l)))|].
    - split; [exact He2|]. exists (l ++ [b]). split; [exact Hi2|]. rewrite length_app. cbn. lia.
    - intros k s4 Hk (He4 & l4 & Hi4 & Hl4). cbn [Z.add] in Hk. rewrite Z2Nat.id in Hk by lia.
      eapply Returns_mono; [apply (add_chunk_spec fuel boot s1 drv cap disk ltac:(lia) _ s4 l4 first size per k He4 Hi4)|]; auto; try lia.
      + rewrite Hl4. exact Hf.
      + rewrite <- table_parts_succ by lia. eapply Z.le_trans; [|exact Hlen]. apply inj_le. unfold ps, table_parts.
        replace (Z.to_nat n) with (Z.to_nat (k + 1) + (Z.to_nat n - Z.to_nat (k + 1)))%nat by lia.
        rewrite (List.seq_app (Z.to_nat (k + 1))), flat_map_app, length_app. apply Nat.le_add_r.
      + intros s5 (He5 & l5 & Hi5 & Hl5). rewrite <- table_parts_succ in He5 by lia. split; [exact He5|].
        exists l5. split; [exact Hi5|congruence].
    - intros s'. cbn [Z.add]. rewrite Z2Nat.id by lia. auto. }
  rewrite E3. cbn [mbind outcome_bind]. destruct He3. rewrite en_heap0. cbn [dl_heap s1 put_gptLock put_heap].
  destruct (kh_free_spec a na R h Hok1 Hlive1) as (h' & Eh & Hok' & Hlive'). rewrite Eh. cbn [mbind outcome_bind Safe].
  splits; auto. exists l3. split; [exact Hi3|]. cbn. lia.
Qed.

(** C24: [gpt_initialise_drive] enters the partitions of a GUID partition table as the
    standard describes it: the entries of the array whose type GUID is not zero, in order,
    each with its first and last block and attributes, marked as system partition when it is
    the boot partition of the system drive.  The cache is idle again, the header copy is
    freed, the lock is free, and no other drive is touched.  The entries must fill whole
    blocks, no type may have one half that is zero, and no other partition may share the
    first half of its GUID with the boot partition; [gpt_short_table_missed],
    [gpt_half_type_missed] and [gpt_wrong_boot_partition] show what the code does else.  The
    recorded size lacks the last block. *)
Theorem gpt_initialise_correct {H D} `{KH : KernelHeap H} `{KHL : !KernelHeapLaws H} fuel boot drv
    (s : dal H D) l cap disk R :
  let hdr := bytes_at 0 (disk 1) in
  let size := entrySize hdr in
  let first := if gptArrayStartLBA hdr =? 0 then 2 else gptArrayStartLBA hdr in
  let count := Z.to_nat (partCount hdr) in
  let ps := uefi_parts (isSystemDrive (drive_of s drv)) boot size first disk count in
  idle (dl_stor s) l -> (length l < fuel)%nat -> serves (dl_stor s) drv cap disk -> gptLock s = false ->
  kh_ok (dl_heap s) -> kh_live (dl_heap s) R -> holds (drive_of s drv) [] ->
  GPT_ENTRY_USED <= size <= 512 -> 512 mod size = 0 -> 0 <= partCount hdr -> (partCount hdr * size) mod 512 = 0 ->
  0 <= first -> first + partCount hdr * size / 512 <= cap -> 2 <= cap <= 2 ^ 64 ->
  (forall k, (k < count)%nat -> plain_entry boot (entry_block size first disk k) (entry_offset size k)) ->
  Z.of_nat (length ps) <= MAX_PARTITIONS ->
  Safe (gpt_initialise_drive fuel boot drv s) (fun '(ok, s') =>
    ok = true /\ holds (drive_of s' drv) ps /\ (forall x, x <> drv -> drive_of s' x = drive_of s x) /\
    (exists l', idle (dl_stor s') l' /\ length l' = length l) /\ serves (dl_stor s') drv cap disk /\
    gptLock s' = false /\ kh_ok (dl_heap s') /\ kh_live (dl_heap s') R).
Proof.
  intros hdr size first count ps Hi Hf Hd Hlk Hok Hlive Hh Hsz Hdiv Hpc Hfill Hfirst Hlast Hcap Hpl Hlen.
  set (per := 512 / size). set (n := partCount hdr / per). unfold GPT_ENTRY_USED in Hsz.
  assert (per * size = 512 /\ 0 < per) as [Hp Hp0] by (unfold per; split; [|apply Z.div_str_pos; lia]; rewrite Z.mul_comm; pose proof (Z.div_mod 512 size ltac:(lia)); lia).
  assert (partCount hdr = n * per) as Hn.
  { unfold n. rewrite Z.mul_comm. apply Z.div_exact; [lia|]. rewrite <- Hp, Z.mul_mod_distr_r in Hfill by lia. nia. }
  assert (0 <= n) as Hn0 by (apply Z.div_pos; lia).
  assert (partCount hdr * size / 512 = n) as En by (rewrite Hn, <- Hp, <- Z.mul_assoc; apply Z.div_mul; lia). rewrite En in Hlast.
  assert (ps = table_parts (isSystemDrive (drive_of s drv)) boot.1 size per first disk n) as Eps.
  { unfold ps. rewrite <- (Z2Nat.id per), <- (Z2Nat.id n) by lia. rewrite table_parts_uefi.
    - f_equal. unfold count. rewrite Hn, Z2Nat.inj_mul by lia. reflexivity.
    - lia.
    - rewrite Z2Nat.id by lia. exact Hp.
    - intros k Hk. apply Hpl. unfold count. rewrite Hn, Z2Nat.inj_mul by lia. exact Hk. }
  rewrite Eps in Hlen |- *. apply (gpt_initialise_spec fuel boot drv s l cap disk R); auto.
Qed.

(** A disk with the header in block 1 and two entries of 128 bytes in block 2: the first
    is the boot partition, the second is unused. *)
Definition gpt_disk (blk : Z) : list Z :=
  if blk =? 1 then chars "EFI PART" ++ repeat 0 64 ++ [2; 0; 0; 0; 0; 0; 0; 0; 4; 0; 0; 0; 128; 0; 0; 0]
  else if blk =? 2 then [1; 0; 0; 0; 0; 0; 0; 0; 1; 0; 0; 0; 0; 0; 0; 0; 9; 0; 0; 0; 0; 0; 0; 0; 9; 0; 0; 0; 0; 0; 0; 0;
                         64; 0; 0; 0; 0; 0; 0; 0; 127; 0; 0; 0; 0; 0; 0; 0]
  else [].

Definition gpt_drive : drive_t unit :=
  mk_drive true 1 0 (Some (fun _ lba _ _ d => Ret (0, gpt_disk lba, d))) None 0 (repeat (mk_part 0 0 0 false 0 false) 128) false 0.

Definition gpt_storage : storage unit :=
  mk_stor 1 3 (fun b => if b =? 1 then mk_buf false false 0 [] 0 0 2 0 false
                        else if b =? 2 then mk_buf false false 0 [] 0 0 3 1 false
                        else mk_buf false false 0 [] 0 0 0 2 false) false (fun _ => gpt_drive) tt 0.

Lemma gpt_storage_idle : idle gpt_storage [1; 2; 3] /\ serves gpt_storage 7 100 gpt_disk.
Proof.
  split.
  - split; [|split; [cbn; lia|repeat constructor]]. split; try reflexivity.
    + vm_compute. repeat split.
    + split; [apply (bool_decide_unpack _); vm_compute; exact I|repeat constructor; discriminate].
    + intros b Hb. cbn. now destruct (b =? 1), (b =? 2).
  - eexists _, (fun _ => True). splits; [reflexivity|exact I|]. intros blk old d _ _. exists 0, d. split; [reflexivity|exact I].
Qed.

#[local] Instance demo_heap : KernelHeap (kheap_state pmm_state) := kheap_heap HHDM.
#[local] Instance demo_heap_laws : KernelHeapLaws (kheap_state pmm_state) := kheap_heap_laws HHDM.

Definition gpt_dal : dal (kheap_state pmm_state) unit := mk_dal gpt_storage heap_demo false 7 7 1.

Lemma gpt_initialise_correct_witness :
  (exists r, gpt_initialise_drive 4 (9, 9) 7 gpt_dal = Ret r) /\
  Safe (gpt_initialise_drive 4 (9, 9) 7 gpt_dal) (fun '(ok, s') =>
    ok = true /\ partitionCount (drive_of s' 7) = 1 /\
    nth_error (partitions (drive_of s' 7)) 0 = Some (mk_part 64 127 0 true (63 * 512) true)).
Proof.
  split.
  - assert (match gpt_initialise_drive 4 (9, 9) 7 gpt_dal with Ret _ => true | _ => false end = true) as E by (vm_compute; reflexivity).
    destruct (gpt_initialise_drive 4 (9, 9) 7 gpt_dal) as [r|?| | |]; try discriminate E. now exists r.
  - eapply Safe_mono; [apply (gpt_initialise_correct 4 (9, 9) 7 gpt_dal [1; 2; 3] 100 gpt_disk [])|].
    + apply gpt_storage_idle.
    + cbn. lia.
    + apply gpt_storage_idle.
    + reflexivity.
    + exists [heap_demo_block]. exact heap_demo_inv.
    + exists [heap_demo_block]. split; [exact heap_demo_inv|reflexivity].
    + split; [reflexivity|]. exists (repeat (mk_part 0 0 0 false 0 false) 128). splits; try reflexivity; [constructor|].
      apply Forall_forall. intros p Hp%list_elem_of_In%List.repeat_spec. now rewrite Hp.
    + vm_compute. split; discriminate.
    + reflexivity.
    + vm_compute. discriminate.
    + reflexivity.
    + vm_compute. discriminate.
    + vm_compute. discriminate.
    + lia.
    + change (Z.to_nat _) with 4%nat. intros k Hk.
      destruct k as [|[|[|[|]]]]; try lia; (split; [split|]); vm_compute; intros E; discriminate E || reflexivity.
    + vm_compute. discriminate.
    + intros [ok s'] (-> & (Hn & rest & -> & _) & _). split; [reflexivity|]. rewrite Hn. split; vm_compute; reflexivity.
Defined.

(** The number of partitions found on a disk with a table of [count] entries, of which the
    first has the type [t0], [t1] and the GUID [g0], [g1], and whether it is taken for the
    boot partition. *)
Definition table_disk (count t0 t1 g0 g1 blk : Z) : list Z :=
  let word x := x :: repeat 0 7 in
  if blk =? 1 then chars "EFI PART" ++ repeat 0 64 ++ word 2 ++ [count; 0; 0; 0; 128; 0; 0; 0]
  else if blk =? 2 then word t0 ++ word t1 ++ word g0 ++ word g1 ++ word 64 ++ word 127
  else [].
Definition found (count t0 t1 g0 g1 : Z) : outcome (Z * bool) :=
  let d := mk_drive true 1 0 (Some (fun _ lba _ _ d => Ret (0, table_disk count t0 t1 g0 g1 lba, d))) None 0 (repeat (mk_part 0 0 0 false 0 false) 128) false 0 in
  '(_, s) ← gpt_initialise_drive 4 (9, 9) 7 (put_stor (set_drives (fun _ => d) gpt_storage) gpt_dal);
  Ret (partitionCount (drive_of s 7), existsb isSystemPartition (partitions (drive_of s 7))).

(** The number of blocks is rounded down: with fewer entries than fill a block none is
    looked at. *)
Theorem gpt_short_table_missed : found 4 1 1 5 5 = Ret (1, false) /\ found 2 1 1 5 5 = Ret (0, false).
Proof. split; vm_compute; reflexivity. Qed.

(** A partition whose type has a half that is zero is taken for an unused entry. *)
Theorem gpt_half_type_missed : uefi_used (bytes_at 0 (table_disk 4 1 0 5 5 2)) 0 = true /\ found 4 1 0 5 5 = Ret (0, false).
Proof. split; vm_compute; reflexivity. Qed.

(** Only the first half of the GUID is compared with that of the boot partition. *)
Theorem gpt_wrong_boot_partition : found 4 1 1 9 9 = Ret (1, true) /\ found 4 1 1 9 5 = Ret (1, true).
Proof. split; vm_compute; reflexivity. Qed.

(** A block of zeros is accepted as a partition table, and so is every block whose entry
    size is at most 512; the entry size 0 then divides by zero. *)
Theorem blank_drive_accepted :
  accepted (fun _ => 0) = true /\ (forall b, entrySize b <= 512 -> accepted b = true) /\
  gpt_initialise_drive 4 (9, 9) 7
    (put_stor (set_drives (fun _ => mk_drive false 1 0 (Some (fun _ _ _ _ d => Ret (0, repeat 0 512, d))) None 0 [] false 0) gpt_storage) gpt_dal)
    = Fault.
Proof.
  splits; [reflexivity| |vm_compute; reflexivity]. intros b Hb. unfold accepted.
  destruct (Z.gtb_spec (entrySize b) 512); [lia|]. cbn [negb]. now rewrite orb_true_r.
Qed.

(** [drive_remove] of the first drive returns with the lock of the drive held. *)
Theorem drive_remove_keeps_lock {H D} `{KH : KernelHeap H} `{KHL : !KernelHeapLaws H} fuel (s : dal H D) drv n R :
  drivesHead s = drv -> drv <> 0 -> d_lock (drive_of s drv) = false ->
  kh_ok (dl_heap s) -> kh_live (dl_heap s) ((drv, n) :: R) ->
  Returns (drive_remove (S fuel) drv s) (fun s' =>
    drivesHead s' = d_next (drive_of s drv) /\ d_lock (drive_of s' drv) = true).
Proof.
  intros Eh H0 Hl Hok Hlive. unfold drive_remove. rewrite Hl. cbn [acquireLock mbind outcome_bind remove_loop].
  change (drivesHead (upd_drive _ _ _)) with (drivesHead s). rewrite Eh, (proj2 (Z.eqb_neq _ 0) H0), Z.eqb_refl.
  cbn [negb Z.eqb mbind outcome_bind dl_heap put_drive_list upd_drive put_stor].
  destruct (kh_free_spec drv n R _ Hok Hlive) as (h & E & _). rewrite E. cbn [mbind outcome_bind]. apply Returns_ret.
  unfold drive_of. cbn. rewrite ?Eh, !upd_eq. split; reflexivity.
Qed.
