(* ===== verification/Ide.v ===== *)
(** * IDE disks ([modules/ide])

    The driver for disks on an IDE controller: access to the registers of a channel,
    polling, and the transfer of sectors by programmed input and output.  The machine is
    reached through [PortIO]; [AtaChannel] states what the ATA standard promises about the
    ports of a channel, in terms of the abstract state [ata].  The first half of the file is
    the driver, the second shows that it reads and writes exactly the sectors asked for, and
    that a disk attached by it serves the block cache. *)

From S2P Require Import Prelude DeviceIds Links Interfaces MemMap Pmm MemUtil Kheap Bytes Bcache Gpt Ports.
#[local] Open Scope Z_scope.

Definition ATA_SR_BSY : Z := 0x80.
Definition ATA_SR_DRQ : Z := 0x08.
Definition ATA_SR_ERR : Z := 0x01.

Definition ATA_CMD_READ_PIO : Z := 0x20.
Definition ATA_CMD_READ_PIO_EXT : Z := 0x24.
Definition ATA_CMD_WRITE_PIO : Z := 0x30.
Definition ATA_CMD_WRITE_PIO_EXT : Z := 0x34.
Definition ATA_CMD_CACHE_FLUSH : Z := 0xE7.
Definition ATA_CMD_CACHE_FLUSH_EXT : Z := 0xEA.
Definition ATA_CMD_IDENTIFY_PACKET : Z := 0xA1.
Definition ATA_CMD_IDENTIFY : Z := 0xEC.

Definition IDE_ATA : Z := 0.
Definition IDE_ATAPI : Z := 1.

Definition ATA_REG_DATA : Z := 0x00.
Definition ATA_REG_ERROR : Z := 0x01.
Definition ATA_REG_SECCOUNT0 : Z := 0x02.
Definition ATA_REG_LBA0 : Z := 0x03.
Definition ATA_REG_LBA1 : Z := 0x04.
Definition ATA_REG_LBA2 : Z := 0x05.
Definition ATA_REG_HDDEVSEL : Z := 0x06.
Definition ATA_REG_COMMAND : Z := 0x07.
Definition ATA_REG_STATUS : Z := 0x07.
Definition ATA_REG_SECCOUNT1 : Z := 0x08.
Definition ATA_REG_LBA3 : Z := 0x09.
Definition ATA_REG_LBA4 : Z := 0x0A.
Definition ATA_REG_LBA5 : Z := 0x0B.
Definition ATA_REG_CONTROL : Z := 0x0C.

Record ide_channel_t : Type := mk_chan {
  iobase : Z;
  control : Z;
  busMastering : Z;
  noInt : Z
}.

(** [idSpace] and [model] are the bytes; the pointer to the drive is not used. *)
Record ide_drive_t : Type := mk_ide {
  ideChannel : Z;
  masterSlave : Z;
  ide_type : Z;
  idSpace : list Z;
  ide_size : Z;
  model : list Z;
  channel : ide_channel_t
}.

(** Fields of [ide_ata_identify_t]. *)
Definition capabilities (id : list Z) : Z := load32 98 (bytes_at 0 id).
Definition sectorsLBA28 (id : list Z) : Z := load32 120 (bytes_at 0 id).
Definition commandSets (i : Z) (id : list Z) : Z := load16 (164 + 2 * i) (bytes_at 0 id).
Definition sectorsLBA48 (id : list Z) : Z := load64 200 (bytes_at 0 id).

(** The port of a register. *)
Definition reg_port (ch : ide_channel_t) (reg : Z) : option Z :=
  if reg <? 0x08 then Some (u16 (iobase ch + reg - 0x00))
  else if reg <? 0x0C then Some (u16 (iobase ch + reg - 0x06))
  else if reg <? 0x0E then Some (u16 (control ch + reg - 0x0A))
  else if reg <? 0x16 then Some (u16 (busMastering ch + reg - 0x0E))
  else None.

(** Registers that need the high order bit of the control register. *)
Definition high_order (reg : Z) : bool := (reg >? 0x07) && (reg <? 0x0C).

Definition ide_error (error : Z) : Z := if error =? 0 then 0 else error.

(** How a request addresses the disk: [lba_mode], [lba_io] and [head].  With 48-bit
    addresses [head] is never set: [head0] is what the variable happens to hold. *)
Record ide_address : Type := mk_addr { lba_mode : Z; lba_io : list Z; head : Z }.

Definition ide_addressing (caps head0 startLBA : Z) : ide_address :=
  if startLBA >=? 0x100000 then
    mk_addr 2 [Z.shiftr (Z.land startLBA 0x0000000000FF) 0; Z.shiftr (Z.land startLBA 0x00000000FF00) 8;
               Z.shiftr (Z.land startLBA 0x000000FF0000) 16; Z.shiftr (Z.land startLBA 0x0000FF000000) 24;
               Z.shiftr (Z.land startLBA 0x00FF00000000) 32; Z.shiftr (Z.land startLBA 0xFF0000000000) 40] head0
  else if negb (Z.land caps (Z.shiftl 1 9) =? 0) then
    mk_addr 1 [Z.shiftr (Z.land startLBA 0x00000FF) 0; Z.shiftr (Z.land startLBA 0x000FF00) 8;
               Z.shiftr (Z.land startLBA 0x0FF0000) 16; 0; 0; 0] (u8 (Z.shiftr (Z.land startLBA 0xF000000) 24))
  else
    let sect := u8 (startLBA mod 63 + 1) in
    let cyl := u16 (u64 (startLBA + 1 - sect) / (16 * 63)) in
    mk_addr 0 [sect; Z.land (Z.shiftr cyl 0) 0xFF; Z.land (Z.shiftr cyl 8) 0xFF; 0; 0; 0]
      (u8 (u64 (startLBA + 1 - sect) mod (16 * 63) / 63)).

Section Driver.
Context {W : Type} `{IO : PortIO W}.
Implicit Types (w : W) (ch : ide_channel_t).

Definition out_reg ch (reg data : Z) w : W :=
  match reg_port ch reg with Some p => arch_outb p (u8 data) w | None => w end.

(** The recursive calls are for the control register, which makes none. *)
Definition ide_write_reg ch (reg data : Z) w : W :=
  let w := if high_order reg then out_reg ch ATA_REG_CONTROL (Z.lor 0x80 (noInt ch)) w else w in
  let w := out_reg ch reg data w in
  if high_order reg then out_reg ch ATA_REG_CONTROL (noInt ch) w else w.

(** A register that has no port leaves the result without a value. *)
Definition ide_read_reg ch (reg : Z) w : outcome (Z * W) :=
  let w := if high_order reg then out_reg ch ATA_REG_CONTROL (Z.lor 0x80 (noInt ch)) w else w in
  match reg_port ch reg with
  | None => Fault
  | Some p =>
      let '(result, w) := arch_inb p w in
      Ret (result, if high_order reg then out_reg ch ATA_REG_CONTROL (noInt ch) w else w)
  end.

(** [while(ide_read_reg(channel, reg) & bit);] *)
Fixpoint wait_clear (fuel : nat) ch (reg bit : Z) w : outcome W :=
  match fuel with
  | O => OutOfFuel
  | S f => '(x, w) ← ide_read_reg ch reg w; if Z.land x bit =? 0 then Ret w else wait_clear f ch reg bit w
  end.

(** The statement under [checkErrors] reads the status register and does nothing with
    it. *)
Definition ide_poll (fuel : nat) ch (reg bit : Z) (checkErrors : bool) w : outcome (Z * W) :=
  w ← wait_clear fuel ch reg bit w;
  '(e, w) ← ide_read_reg ch ATA_REG_ERROR w;
  let err := ide_error e in
  w ← (if checkErrors then '(_, w) ← ide_read_reg ch ATA_REG_STATUS w; Ret w else Ret w);
  Ret (err, w).

(** Selecting the drive and the sectors, and giving the command; the same code in
    [ide_ata_read] and [ide_ata_write]. *)
Definition ide_command (fuel : nat) (head0 : Z) (cmds : Z * Z) (d : ide_drive_t) (startLBA blocks : Z) w : outcome (Z * W) :=
  let ch := channel d in
  let a := ide_addressing (capabilities (idSpace d)) head0 startLBA in
  let io i := nth i (lba_io a) 0 in
  w ← wait_clear fuel ch ATA_REG_STATUS ATA_SR_BSY w;
  let w := ide_write_reg ch ATA_REG_HDDEVSEL
             (Z.lor (Z.lor (if lba_mode a =? 0 then 0xA0 else 0xE0) (Z.shiftl (masterSlave d) 4)) (head a)) w in
  let w := if lba_mode a =? 2 then
             let w := ide_write_reg ch ATA_REG_SECCOUNT1 (Z.shiftr (Z.land blocks 0xFF00) 8) w in
             let w := ide_write_reg ch ATA_REG_LBA3 (io 3%nat) w in
             let w := ide_write_reg ch ATA_REG_LBA4 (io 4%nat) w in
             ide_write_reg ch ATA_REG_LBA5 (io 5%nat) w
           else w in
  let w := ide_write_reg ch ATA_REG_SECCOUNT0 (Z.land blocks 0x00FF) w in
  let w := ide_write_reg ch ATA_REG_LBA0 (io 0%nat) w in
  let w := ide_write_reg ch ATA_REG_LBA1 (io 1%nat) w in
  let w := ide_write_reg ch ATA_REG_LBA2 (io 2%nat) w in
  Ret (lba_mode a, ide_write_reg ch ATA_REG_COMMAND (if lba_mode a =? 2 then cmds.2 else cmds.1) w).

(** [tmp] is [buf] as an array of 16-bit words. *)
Definition data_port ch : Z := u16 (iobase ch + ATA_REG_DATA).

Definition read_word ch (addr : Z) (j : Z) '((m, w) : mem * W) : outcome (mem * W) :=
  let '(x, w) := arch_inw (data_port ch) w in
  Ret (store 2 (addr + 2 * j) x m, w).

Definition read_block (fuel : nat) ch (buf i : Z) '((m, w) : mem * W) : outcome ((mem * W) + (mem * W)) :=
  '(err, w) ← ide_poll fuel ch ATA_REG_STATUS ATA_SR_BSY true w;
  if negb (err =? 0) then Ret (inl (m, w))
  else r ← for_up 256 0 (read_word ch (buf + 512 * i)) (m, w); Ret (inr r).

(** The result, the memory afterwards, and the machine. *)
Definition ide_ata_read (fuel : nat) (head0 : Z) (d : ide_drive_t) (startLBA blocks buf : Z) (m : mem) w : outcome (Z * mem * W) :=
  '(_, w) ← ide_command fuel head0 (ATA_CMD_READ_PIO, ATA_CMD_READ_PIO_EXT) d startLBA blocks w;
  r ← for_ret (Z.to_nat blocks) 0 (read_block fuel (channel d) buf) (m, w);
  Ret (match r with inl (m, w) => (-1, m, w) | inr (m, w) => (0, m, w) end).

Definition write_word ch (addr : Z) (m : mem) (j : Z) w : outcome W :=
  Ret (arch_outw (data_port ch) (load16 (addr + 2 * j) m) w).

Definition write_block (fuel : nat) ch (buf : Z) (m : mem) (i : Z) w : outcome W :=
  '(_, w) ← ide_poll fuel ch ATA_REG_STATUS ATA_SR_BSY false w;
  for_up 256 0 (write_word ch (buf + 512 * i) m) w.

Definition ide_ata_write (fuel : nat) (head0 : Z) (d : ide_drive_t) (startLBA blocks buf : Z) (m : mem) w : outcome (Z * W) :=
  '(mode, w) ← ide_command fuel head0 (ATA_CMD_WRITE_PIO, ATA_CMD_WRITE_PIO_EXT) d startLBA blocks w;
  w ← for_up (Z.to_nat blocks) 0 (write_block fuel (channel d) buf m) w;
  let w := ide_write_reg (channel d) ATA_REG_COMMAND (if mode =? 2 then ATA_CMD_CACHE_FLUSH_EXT else ATA_CMD_CACHE_FLUSH) w in
  '(_, w) ← ide_poll fuel (channel d) ATA_REG_STATUS ATA_SR_BSY false w;
  Ret (0, w).

Definition ide_atapi_read (d : ide_drive_t) (startLBA blocks buf : Z) (m : mem) w : outcome (Z * mem * W) := Ret (0, m, w).
Definition ide_atapi_write (d : ide_drive_t) (startLBA blocks buf : Z) (m : mem) w : outcome (Z * W) := Ret (0, w).
End Driver.

(** ** Finding the drives *)

Definition DRIVE_TYPE_DISK : Z := 1.

(** Sizes of [ide_channel_t], [ide_drive_t], [ide_controller_t] and [drive_t]. *)
Definition CHANNEL_SIZE : Z := 8.
Definition IDE_DRIVE_SIZE : Z := 592.
Definition CONTROLLER_SIZE : Z := 32.
Definition DRIVE_T_SIZE : Z := 6232.

(** What is used of the device and its [pci_config_device_t]. *)
Record ide_device : Type := mk_idev {
  dev_bus : Z;
  hdr_class : Z;
  hdr_subclass : Z;
  hdr_progIF : Z;
  hdr_command : Z;
  BAR0 : Z; BAR1 : Z; BAR2 : Z; BAR3 : Z; BAR4 : Z
}.

Definition probe (p : ide_device) : bool :=
  negb (negb (dev_bus p =? DEVICE_BUS_PCI) || negb (hdr_class p =? PCI_CLASS_STORAGE_CONTROLLER) || negb (hdr_subclass p =? PCI_SUBCLASS_IDE)).

(** The new value of the command register: [(1 << 1) & (1 << 2)] is zero. *)
Definition ide_pci_command (c : Z) : Z :=
  u16 (Z.land (Z.lor c (Z.land (Z.shiftl 1 1) (Z.shiftl 1 2))) (Z.lnot (Z.shiftl 1 10))).

Definition bar_ports (bar : Z) : Z := u16 (Z.land bar 0xFFFFFFFC).

(** The ports of the two channels; [None] when a base address is one of memory. *)
Definition ide_channels (p : ide_device) : option (ide_channel_t * ide_channel_t) :=
  '(io1, ctl1) ← (if negb (Z.land (hdr_progIF p) 1 =? 0) then
                    if (Z.land (BAR0 p) 1 =? 0) || (Z.land (BAR1 p) 1 =? 0) then None else Some (bar_ports (BAR0 p), bar_ports (BAR1 p))
                  else Some (0x1F0, 0x3F6));
  '(io2, ctl2) ← (if negb (Z.land (hdr_progIF p) (Z.shiftl 1 2) =? 0) then
                    if (Z.land (BAR2 p) 1 =? 0) || (Z.land (BAR3 p) 1 =? 0) then None else Some (bar_ports (BAR2 p), bar_ports (BAR3 p))
                  else Some (0x170, 0x376));
  '(bm1, bm2) ← (if negb (Z.land (hdr_progIF p) (Z.shiftl 1 7) =? 0) then
                   if Z.land (BAR4 p) 1 =? 0 then None else Some (bar_ports (BAR4 p), u16 (Z.land (BAR4 p) 0xFFFFFFFC + 8))
                 else Some (0, 0));
  Some (mk_chan io1 ctl1 bm1 0, mk_chan io2 ctl2 bm2 0).

(** The name of the drive: the bytes of each word swapped, then the spaces at the end
    (but not the first byte) replaced by zeros. *)
Fixpoint swap_pairs (l : list Z) : list Z :=
  match l with
  | x :: y :: l' => y :: x :: swap_pairs l'
  | _ => []
  end.
(** The loop from the end, on the reversed bytes behind the first. *)
Fixpoint zero_spaces (l : list Z) : list Z :=
  match l with
  | x :: l' => if x =? 0x20 then 0 :: zero_spaces l' else l
  | [] => []
  end.
Definition ide_model (id : list Z) : list Z :=
  let l := swap_pairs (take 40 (drop 54 id)) in
  take 1 l ++ reverse (zero_spaces (reverse (drop 1 l))) ++ [0].

Definition ide_capacity (id : list Z) : Z :=
  u64 ((if negb (Z.land (commandSets 1 id) (Z.shiftl 1 10) =? 0) then sectorsLBA48 id else sectorsLBA28 id) * 512).

Fixpoint mem_bytes (m : mem) (addr : Z) (n : nat) : list Z :=
  match n with
  | O => []
  | S n' => m addr :: mem_bytes m (addr + 1) n'
  end.

Section Attach.
Context {W H : Type} `{IO : PortIO W} `{KH : KernelHeap H}.
(** Bounds for polling and for the block cache; waiting; the write to configuration space;
    the boot disk and partition; the file system devices; the value of [head]. *)
Variable (fuel cfuel : nat) (ksleep : Z -> W -> W) (pci_config_write_word : Z -> Z -> W -> W).
Variable (bootDiskGUID bootPartGUID : Z * Z) (pdev : Z -> Z -> dal H W -> outcome (dal H W)) (head0 : Z).
Implicit Types (w : W) (s : dal H W).

(** [while(!(status & DRQ)) if(status & ERR) ...]: did the identification fail? *)
Fixpoint wait_identify (n : nat) (ch : ide_channel_t) w : outcome (bool * W) :=
  match n with
  | O => OutOfFuel
  | S n' =>
      '(x, w) ← ide_read_reg ch ATA_REG_STATUS w;
      if negb (Z.land x ATA_SR_DRQ =? 0) then Ret (false, w)
      else
        '(y, w) ← ide_read_reg ch ATA_REG_STATUS w;
        if negb (Z.land y ATA_SR_ERR =? 0) then '(_, w) ← ide_read_reg ch ATA_REG_ERROR w; Ret (true, w)
        else wait_identify n' ch w
  end.

Fixpoint read_id (n : nat) (ch : ide_channel_t) w : list Z * W :=
  match n with
  | O => ([], w)
  | S n' =>
      let '(x, w) := arch_inw (u16 (iobase ch)) w in
      let '(l, w) := read_id n' ch w in
      (x mod 256 :: x / 256 :: l, w)
  end.

(** No drive: the status is 0, 0x7F or 0xFF, each read again. *)
Definition no_drive (ch : ide_channel_t) w : outcome (bool * W) :=
  '(x, w) ← ide_read_reg ch ATA_REG_STATUS w;
  if x =? 0 then Ret (true, w) else
  '(x, w) ← ide_read_reg ch ATA_REG_STATUS w;
  if x =? 0x7F then Ret (true, w) else
  '(x, w) ← ide_read_reg ch ATA_REG_STATUS w;
  Ret (x =? 0xFF, w).

Definition is_atapi (ch : ide_channel_t) w : outcome (bool * W) :=
  '(x, w) ← ide_read_reg ch ATA_REG_LBA1 w;
  if negb (x =? 0) then Ret (true, w) else
  '(x, w) ← ide_read_reg ch ATA_REG_LBA2 w;
  Ret (negb (x =? 0), w).

(** The type and the identification of drive [j], if there is one. *)
Definition identify (ch : ide_channel_t) (j : Z) w : outcome (option (Z * list Z) * W) :=
  let w := ksleep 10 (ide_write_reg ch ATA_REG_HDDEVSEL (Z.lor 0xA0 (Z.shiftl j 4)) w) in
  let w := ide_write_reg ch ATA_REG_SECCOUNT0 0 w in
  let w := ide_write_reg ch ATA_REG_LBA0 0 w in
  let w := ide_write_reg ch ATA_REG_LBA1 0 w in
  let w := ide_write_reg ch ATA_REG_LBA2 0 w in
  let w := ksleep 10 (ide_write_reg ch ATA_REG_COMMAND ATA_CMD_IDENTIFY w) in
  '(none, w) ← no_drive ch w;
  if (none : bool) then Ret (None, w)
  else
    '(atapi, w) ← is_atapi ch w;
    let w := if (atapi : bool) then ksleep 10 (ide_write_reg ch ATA_REG_COMMAND ATA_CMD_IDENTIFY_PACKET w) else w in
    '(error, w) ← wait_identify fuel ch w;
    if (error : bool) then Ret (None, w)
    else
      let '(id, w) := read_id 256 ch w in
      Ret (Some (if atapi then IDE_ATAPI else IDE_ATA, id), w).

(** The functions of the drive, for a buffer that holds [old]: it begins at address 0 and
    has the size of the blocks. *)
Definition ide_d_read (d : ide_drive_t) (self lba blocks : Z) (old : list Z) w : outcome (Z * list Z * W) :=
  '(r, m, w) ← ide_ata_read fuel head0 d lba blocks 0 (bytes_at 0 old) w;
  Ret (r, mem_bytes m 0 (Z.to_nat (512 * blocks)), w).
Definition ide_d_write (d : ide_drive_t) (self lba blocks : Z) (bytes : list Z) w : outcome (Z * W) :=
  ide_ata_write fuel head0 d lba blocks 0 (bytes_at 0 bytes) w.

Definition new_drive (d : ide_drive_t) : drive_t W :=
  mk_drive false (if ide_type d =? IDE_ATA then DRIVE_TYPE_DISK else DRIVE_TYPE_OPTICAL) 0
    (if ide_type d =? IDE_ATA then Some (ide_d_read d) else None) (if ide_type d =? IDE_ATA then Some (ide_d_write d) else None)
    0 (repeat (mk_part 0 0 0 false 0 false) (Z.to_nat MAX_PARTITIONS)) false 0.

Definition attach_drive (chs : ide_channel_t * ide_channel_t) (i j : Z) s : outcome (dal H W) :=
  let ch := if i =? 0 then chs.1 else chs.2 in
  '(r, w) ← identify ch j (dev (dl_stor s));
  let s := put_stor (set_dev w (dl_stor s)) s in
  match r with
  | None => Ret s
  | Some (type, id) =>
      '(a, h) ← kh_malloc DRIVE_T_SIZE (dl_heap s);
      let s := upd_drive a (fun _ => new_drive (mk_ide i j type id (ide_capacity id) (ide_model id) ch)) (put_heap h s) in
      '(_, s) ← drive_add cfuel bootDiskGUID bootPartGUID pdev a s;
      Ret s
  end.

Definition ide_alloc (size : Z) s : outcome (dal H W) := '(_, h) ← kh_malloc size (dl_heap s); Ret (put_heap h s).
Definition on_ports (g : W -> W) s : dal H W := put_stor (set_dev (g (dev (dl_stor s))) (dl_stor s)) s.

Definition attach (p : ide_device) s : outcome (bool * dal H W) :=
  if negb (probe p) then Ret (false, s)
  else
    let s := on_ports (pci_config_write_word 0x4 (ide_pci_command (hdr_command p))) s in
    s ← ide_alloc CHANNEL_SIZE s; s ← ide_alloc CHANNEL_SIZE s;
    s ← ide_alloc IDE_DRIVE_SIZE s; s ← ide_alloc IDE_DRIVE_SIZE s; s ← ide_alloc IDE_DRIVE_SIZE s; s ← ide_alloc IDE_DRIVE_SIZE s;
    s ← ide_alloc CONTROLLER_SIZE s;
    match ide_channels p with
    | None => Ret (false, s)
    | Some chs =>
        let s := on_ports (ide_write_reg chs.1 ATA_REG_CONTROL 2) s in
        let s := on_ports (ide_write_reg chs.2 ATA_REG_CONTROL 2) s in
        s ← for_up 2 0 (fun i s => for_up 2 0 (fun j s => attach_drive chs i j s) s) s;
        Ret (true, s)
    end.

Definition remove (p : ide_device) : bool := false.
End Attach.

(** ** The channel, by the standard *)

(** What a channel does: nothing, send the words of a block and then [rest] more sectors
    from [next] on, or receive words for the sector [at_] of [rest]. *)
Inductive phase : Type :=
| Idle
| DataIn (words : list Z) (next rest : Z)
| DataOut (got : list Z) (at_ rest : Z).

(** The registers (those written twice for 48-bit addresses with their previous value),
    the number of times the status will still be read as busy, the delays to come, and for
    each of the two drives its number of sectors, whether it knows the commands with
    addresses of 48 bits, and the bytes of the sectors. *)
Record ata : Type := mk_ata {
  a_count : Z * Z;
  a_lba0 : Z * Z;
  a_lba1 : Z * Z;
  a_lba2 : Z * Z;
  a_device : Z;
  a_error : Z;
  a_phase : phase;
  a_busy : nat;
  a_delay : nat -> nat;
  a_sectors : bool -> Z;
  a_lba48 : bool -> bool;
  a_media : bool -> Z -> list Z
}.
Implicit Types (a : ata).

Definition put_regs (c l0 l1 l2 : Z * Z) (dv : Z) a : ata :=
  mk_ata c l0 l1 l2 dv (a_error a) (a_phase a) (a_busy a) (a_delay a) (a_sectors a) (a_lba48 a) (a_media a).
(** A new phase is entered after a delay. *)
Definition enter (e : Z) (p : phase) a : ata :=
  mk_ata (a_count a) (a_lba0 a) (a_lba1 a) (a_lba2 a) (a_device a) e p (a_delay a O) (fun n => a_delay a (S n)) (a_sectors a) (a_lba48 a) (a_media a).
Definition put_busy (n : nat) a : ata :=
  mk_ata (a_count a) (a_lba0 a) (a_lba1 a) (a_lba2 a) (a_device a) (a_error a) (a_phase a) n (a_delay a) (a_sectors a) (a_lba48 a) (a_media a).
Definition put_phase (p : phase) a : ata :=
  mk_ata (a_count a) (a_lba0 a) (a_lba1 a) (a_lba2 a) (a_device a) (a_error a) p (a_busy a) (a_delay a) (a_sectors a) (a_lba48 a) (a_media a).
Definition put_media (f : bool -> Z -> list Z) a : ata :=
  mk_ata (a_count a) (a_lba0 a) (a_lba1 a) (a_lba2 a) (a_device a) (a_error a) (a_phase a) (a_busy a) (a_delay a) (a_sectors a) (a_lba48 a) f.

(** The selected drive. *)
Definition selected a : bool := Z.testbit (a_device a) 4.
Definition sectors_of a : Z := a_sectors a (selected a).

Fixpoint words_of (l : list Z) : list Z :=
  match l with
  | x :: y :: l' => x + 256 * y :: words_of l'
  | _ => []
  end.
Fixpoint bytes_of (l : list Z) : list Z :=
  match l with
  | [] => []
  | x :: l' => x mod 256 :: x / 256 :: bytes_of l'
  end.

Definition IDNF : Z := 0x10.
Definition ABRT : Z := 0x04.

(** Go on with a transfer: the next sector, the end, or a sector that does not exist. *)
Definition send (lba rest : Z) a : ata :=
  if rest =? 0 then put_phase Idle a
  else if (0 <=? lba) && (lba <? sectors_of a) then enter 0 (DataIn (words_of (a_media a (selected a) lba)) (lba + 1) (rest - 1)) a
  else enter IDNF Idle a.
Definition receive (lba rest : Z) a : ata :=
  if rest =? 0 then enter 0 Idle a
  else if (0 <=? lba) && (lba <? sectors_of a) then enter 0 (DataOut [] lba rest) a
  else enter IDNF Idle a.

(** Addresses of 28 bits, or by cylinder, head and sector in the translation with 16 heads
    and 63 sectors; addresses of 48 bits; the number of sectors. *)
Definition address a : Z :=
  if Z.testbit (a_device a) 6
  then (a_lba0 a).1 + 2 ^ 8 * (a_lba1 a).1 + 2 ^ 16 * (a_lba2 a).1 + 2 ^ 24 * (a_device a mod 16)
  else ((((a_lba1 a).1 + 2 ^ 8 * (a_lba2 a).1) * 16 + a_device a mod 16) * 63 + (a_lba0 a).1) - 1.
Definition address_ext a : Z :=
  (a_lba0 a).1 + 2 ^ 8 * (a_lba1 a).1 + 2 ^ 16 * (a_lba2 a).1 +
  2 ^ 24 * (a_lba0 a).2 + 2 ^ 32 * (a_lba1 a).2 + 2 ^ 40 * (a_lba2 a).2.
Definition count a : Z := if (a_count a).1 =? 0 then 256 else (a_count a).1.
Definition count_ext a : Z :=
  let n := (a_count a).1 + 2 ^ 8 * (a_count a).2 in if n =? 0 then 65536 else n.

(** A drive without 48-bit addresses aborts the commands that use them. *)
Definition ext (go : ata -> ata) a : ata := if a_lba48 a (selected a) then go a else enter ABRT Idle a.

Definition execute (cmd : Z) a : ata :=
  if cmd =? ATA_CMD_READ_PIO then send (address a) (count a) a
  else if cmd =? ATA_CMD_READ_PIO_EXT then ext (send (address_ext a) (count_ext a)) a
  else if cmd =? ATA_CMD_WRITE_PIO then receive (address a) (count a) a
  else if cmd =? ATA_CMD_WRITE_PIO_EXT then ext (receive (address_ext a) (count_ext a)) a
  else if cmd =? ATA_CMD_CACHE_FLUSH then enter 0 Idle a
  else if cmd =? ATA_CMD_CACHE_FLUSH_EXT then ext (enter 0 Idle) a
  else enter ABRT Idle a.

Definition write_reg (reg v : Z) a : ata :=
  if reg =? 2 then put_regs (v, (a_count a).1) (a_lba0 a) (a_lba1 a) (a_lba2 a) (a_device a) a
  else if reg =? 3 then put_regs (a_count a) (v, (a_lba0 a).1) (a_lba1 a) (a_lba2 a) (a_device a) a
  else if reg =? 4 then put_regs (a_count a) (a_lba0 a) (v, (a_lba1 a).1) (a_lba2 a) (a_device a) a
  else if reg =? 5 then put_regs (a_count a) (a_lba0 a) (a_lba1 a) (v, (a_lba2 a).1) (a_device a) a
  else if reg =? 6 then put_regs (a_count a) (a_lba0 a) (a_lba1 a) (a_lba2 a) v a
  else if reg =? 7 then execute v a
  else a.

Definition status a : Z :=
  if (0 <? a_busy a)%nat then ATA_SR_BSY
  else Z.lor (Z.lor 0x40 (match a_phase a with Idle => 0 | _ => ATA_SR_DRQ end)) (if a_error a =? 0 then 0 else ATA_SR_ERR).

Definition data_in a : Z * ata :=
  match a_phase a with
  | DataIn [x] next rest => (x, send next rest a)
  | DataIn (x :: ws) next rest => (x, put_phase (DataIn ws next rest) a)
  | _ => (0, a)
  end.

Definition data_out (x : Z) a : ata :=
  match a_phase a with
  | DataOut got lba rest =>
      if (length got =? 255)%nat then
        receive (lba + 1) (rest - 1)
          (put_media (fun d => if Bool.eqb d (selected a) then upd (a_media a d) lba (bytes_of (got ++ [x])) else a_media a d) a)
      else put_phase (DataOut (got ++ [x]) lba rest) a
  | _ => a
  end.

(** What the standard says of the ports of a channel at [base].  Registers may be written
    and data transferred only when the channel is not busy. *)
Class AtaChannel (W : Type) `{IO : PortIO W} (base : Z) := {
  view : W -> ata;
  ata_out : forall reg v w, 2 <= reg <= 7 -> 0 <= v < 256 -> a_busy (view w) = O ->
    view (arch_outb (base + reg) v w) = write_reg reg v (view w);
  ata_status : forall w, let r := arch_inb (base + 7) w in
    r.1 = status (view w) /\ view r.2 = put_busy (a_busy (view w) - 1) (view w);
  ata_error : forall w, a_busy (view w) = O -> let r := arch_inb (base + 1) w in
    r.1 = a_error (view w) /\ view r.2 = view w;
  ata_data_in : forall w, a_busy (view w) = O -> let r := arch_inw base w in
    r.1 = (data_in (view w)).1 /\ view r.2 = (data_in (view w)).2;
  ata_data_out : forall x w, 0 <= x < 65536 -> a_busy (view w) = O -> view (arch_outw base x w) = data_out x (view w);
  (** Other ports; bit 2 of the control register would reset the drives. *)
  ata_elsewhere : forall p v w, ~ (base <= p < base + 8) -> Z.land v 4 = 0 -> view (arch_outb p v w) = view w
}.

(** A machine that has nothing but such a channel. *)
#[global] Instance ata_ports (base : Z) : PortIO ata := {
  arch_inb p a := if p =? base + 7 then (status a, put_busy (a_busy a - 1) a) else if p =? base + 1 then (a_error a, a) else (0, a);
  arch_outb p v a := if (base <=? p) && (p <? base + 8) then write_reg (p - base) v a else a;
  arch_inw p a := data_in a;
  arch_outw p x a := data_out x a
}.

#[global] Instance ata_channel (base : Z) : @AtaChannel ata (ata_ports base) base.
Proof.
  refine {| view := fun a => a |}; cbn.
  - intros reg v w Hr _ _. rewrite (proj2 (Z.leb_le base (base + reg))), (proj2 (Z.ltb_lt (base + reg) (base + 8))) by lia.
    cbn [andb]. f_equal. lia.
  - intros w. rewrite Z.eqb_refl. split; reflexivity.
  - intros w _. rewrite (proj2 (Z.eqb_neq (base + 1) (base + 7))), Z.eqb_refl by lia. split; reflexivity.
  - intros w _. split; reflexivity.
  - reflexivity.
  - intros p v w Hp _. destruct (Z.leb_spec base p), (Z.ltb_spec p (base + 8)); cbn; reflexivity || lia.
Defined.

(** ** Bytes and words *)

Definition byte (x : Z) : Prop := 0 <= x < 256.
Definition sector (l : list Z) : Prop := length l = 512%nat /\ Forall byte l.

(** A list of even length, pair by pair. *)
Lemma pairs_ind (P : list Z -> Prop) :
  P [] -> (forall x, P [x]) -> (forall x y l, P l -> P (x :: y :: l)) -> forall l, P l.
Proof.
  intros H0 H1 H2. fix go 1. intros [|x [|y l]]; [exact H0|apply H1|apply H2, go].
Qed.

Lemma bytes_words l : Forall byte l -> Nat.Even (length l) -> bytes_of (words_of l) = l.
Proof.
  induction l as [|x|x y l IH] using pairs_ind; intros HF He; [reflexivity|destruct He; cbn in *; lia|].
  apply Forall_cons in HF as [Hx HF]. apply Forall_cons in HF as [Hy HF]. unfold byte in *. cbn [words_of bytes_of].
  rewrite IH; [|exact HF|destruct He as [k Hk]; exists (k - 1)%nat; cbn in Hk; lia]. f_equal; [dm|f_equal; dm].
Qed.

Lemma words_length l : Nat.Even (length l) -> (2 * length (words_of l) = length l)%nat.
Proof.
  induction l as [|x|x y l IH] using pairs_ind; intros He; [reflexivity|destruct He; cbn in *; lia|].
  cbn [words_of length]. specialize (IH ltac:(destruct He as [k Hk]; exists (k - 1)%nat; cbn in Hk; lia)). lia.
Qed.

Lemma words_range l : Forall byte l -> Forall (fun x => 0 <= x < 65536) (words_of l).
Proof.
  induction l as [|x|x y l IH] using pairs_ind; intros HF; [constructor|constructor|].
  apply Forall_cons in HF as [Hx HF]. apply Forall_cons in HF as [Hy HF]. unfold byte in *. constructor; [lia|auto].
Qed.

Lemma sector_words l : sector l ->
  bytes_of (words_of l) = l /\ length (words_of l) = 256%nat /\ Forall (fun x => 0 <= x < 65536) (words_of l).
Proof.
  intros [Hl HF]. assert (Nat.Even (length l)) as He by (rewrite Hl; now exists 256%nat).
  splits; [now apply bytes_words| |now apply words_range]. pose proof (words_length l He). lia.
Qed.

(** The bytes of [n] sectors. *)
Fixpoint sectors_from (disk : Z -> list Z) (lba : Z) (n : nat) : list Z :=
  match n with
  | O => []
  | S n' => disk lba ++ sectors_from disk (lba + 1) n'
  end.

(** A byte of an address, as the driver takes it out. *)
Lemma byte_at x k : 0 <= k -> Z.shiftr (Z.land x (Z.shiftl 0xFF k)) k = x / 2 ^ k mod 256.
Proof.
  intros Hk. change 0xFF with (Z.ones 8). rewrite Z.shiftr_land, Z.shiftr_shiftl_l, Z.sub_diag, Z.shiftl_0_r by lia.
  rewrite Z.land_ones, Z.shiftr_div_pow2 by lia. reflexivity.
Qed.

Lemma send_phase lba n p a : send lba n (put_phase p a) = send lba n a.
Proof. reflexivity. Qed.

(** ** Registers and polling *)

Section Channel.
Context {W : Type} {IO : PortIO W} (ch : ide_channel_t) {CH : AtaChannel W (iobase ch)}.
Hypothesis (Hbase : 0 <= iobase ch /\ iobase ch + 8 <= 65536).
Hypothesis (Hctl : ~ (iobase ch <= u16 (control ch + 2) < iobase ch + 8)) (Hint : Z.land (noInt ch) 4 = 0 /\ byte (noInt ch)).
Implicit Types (w : W).

Lemma out_ctl v w : Z.land v 4 = 0 -> byte v -> view (out_reg ch ATA_REG_CONTROL v w) = view w.
Proof.
  intros Hv Hb. unfold out_reg, reg_port, ATA_REG_CONTROL. cbn [Z.ltb Z.compare Pos.compare Pos.compare_cont].
  replace (control ch + 12 - 10) with (control ch + 2) by lia. apply ata_elsewhere; [exact Hctl|].
  unfold byte in Hb. rewrite wrap_small by (pow2_consts; lia). exact Hv.
Qed.

Lemma int_bits : Z.land (Z.lor 0x80 (noInt ch)) 4 = 0 /\ byte (Z.lor 0x80 (noInt ch)).
Proof.
  destruct Hint as [H4 Hb]. split; [now rewrite Z.land_lor_distr_l, H4|]. unfold byte in *.
  split; [apply Z.lor_nonneg; lia|]. apply (bits_bound 8); [lia|apply Z.lor_nonneg; lia|]. intros i Hi.
  rewrite Z.lor_spec, (testbit_high 8 (noInt ch)) by (pow2_consts; lia). now rewrite (testbit_high 8 0x80) by (pow2_consts; lia).
Qed.

(** A register is written as the channel sees it; the upper bytes go to the same ports. *)
Lemma write_reg_spec reg v w : 2 <= reg <= 11 -> byte v -> a_busy (view w) = O ->
  view (ide_write_reg ch reg v w) = write_reg (if reg <? 8 then reg else reg - 6) v (view w).
Proof.
  intros Hr Hv Hb. unfold ide_write_reg, high_order. destruct int_bits as [I1 I2]. destruct Hint as [I3 I4].
  assert (forall r w', 2 <= r <= 7 -> a_busy (view w') = O -> view (arch_outb (u16 (iobase ch + r)) (u8 v) w') = write_reg r v (view w')) as HO.
  { intros r w' Hr' Hb'. unfold byte in Hv. rewrite !wrap_small by (pow2_consts; lia). apply ata_out; auto. }
  destruct (Z.ltb_spec reg 8).
  - replace (reg >? 7) with false by (destruct (Z.gtb_spec reg 7); lia). cbn [andb]. unfold out_reg, reg_port.
    rewrite (proj2 (Z.ltb_lt reg 8)), Z.sub_0_r by lia. apply HO; [lia|exact Hb].
  - replace (reg >? 7) with true by (destruct (Z.gtb_spec reg 7); lia). rewrite (proj2 (Z.ltb_lt reg 12)) by lia. cbn [andb].
    rewrite out_ctl by assumption. unfold out_reg at 1, reg_port. rewrite (proj2 (Z.ltb_ge reg 8)), (proj2 (Z.ltb_lt reg 12)) by lia.
    replace (iobase ch + reg - 6) with (iobase ch + (reg - 6)) by lia. rewrite HO, out_ctl by (auto; try lia; rewrite out_ctl; auto). reflexivity.
Qed.

Lemma read_status w : let r := arch_inb (iobase ch + 7) w in
  ide_read_reg ch ATA_REG_STATUS w = Ret r /\ r.1 = status (view w) /\ view r.2 = put_busy (a_busy (view w) - 1) (view w).
Proof.
  intros r. split; [|apply ata_status]. unfold ide_read_reg, high_order, reg_port, ATA_REG_STATUS.
  cbn [Z.gtb Z.ltb Z.compare Pos.compare Pos.compare_cont andb]. rewrite Z.sub_0_r, wrap_small by (pow2_consts; lia).
  fold r. now destruct r.
Qed.

Lemma read_error w : a_busy (view w) = O -> let r := arch_inb (iobase ch + 1) w in
  ide_read_reg ch ATA_REG_ERROR w = Ret r /\ r.1 = a_error (view w) /\ view r.2 = view w.
Proof.
  intros Hb r. split; [|now apply ata_error]. unfold ide_read_reg, high_order, reg_port, ATA_REG_ERROR.
  cbn [Z.gtb Z.ltb Z.compare Pos.compare Pos.compare_cont andb]. rewrite Z.sub_0_r, wrap_small by (pow2_consts; lia).
  fold r. now destruct r.
Qed.

Lemma status_busy a : Z.land (status a) ATA_SR_BSY = 0 <-> a_busy a = O.
Proof.
  unfold status. destruct (Nat.ltb_spec 0 (a_busy a)); [split; [discriminate|lia]|]. split; [lia|]. intros _.
  destruct (a_phase a); destruct (a_error a =? 0); reflexivity.
Qed.

Lemma put_busy_twice n k a : put_busy n (put_busy k a) = put_busy n a.
Proof. reflexivity. Qed.
Lemma put_busy_same n a : a_busy a = n -> put_busy n a = a.
Proof. intros <-. now destruct a. Qed.

(** The busy wait ends: the channel is busy for fewer reads than the bound. *)
Lemma wait_spec : forall fuel w, (a_busy (view w) < fuel)%nat ->
  Returns (wait_clear fuel ch ATA_REG_STATUS ATA_SR_BSY w) (fun w' => view w' = put_busy 0 (view w)).
Proof.
  induction fuel as [|f IH]; intros w Hf; [lia|]. cbn [wait_clear].
  destruct (read_status w) as (-> & E1 & E2). destruct (arch_inb _ w) as [x w1]. cbn [fst snd] in *. subst x. cbn [mbind outcome_bind].
  destruct (Z.eqb_spec (Z.land (status (view w)) ATA_SR_BSY) 0) as [E|E].
  - apply Returns_ret. rewrite E2. apply status_busy in E. now rewrite E.
  - assert (a_busy (view w) <> O) by (intros H0; apply E, status_busy, H0).
    eapply Returns_mono; [apply IH|]; rewrite E2; [cbn; lia|]. intros w' ->. apply put_busy_twice.
Qed.

Lemma poll_spec fuel check w : (a_busy (view w) < fuel)%nat ->
  Returns (ide_poll fuel ch ATA_REG_STATUS ATA_SR_BSY check w) (fun '(e, w') => e = a_error (view w) /\ view w' = put_busy 0 (view w)).
Proof.
  intros Hf. unfold ide_poll. eapply Returns_bind; [now apply wait_spec|]. intros w1 E1.
  destruct (read_error w1) as (-> & E2 & E3); [now rewrite E1|]. destruct (arch_inb _ w1) as [x w2]. cbn [fst snd] in *. subst x.
  cbn [mbind outcome_bind]. assert (ide_error (a_error (view w1)) = a_error (view w)) as E4.
  { rewrite E1. cbn. unfold ide_error. destruct (Z.eqb_spec (a_error (view w)) 0) as [->|]; reflexivity. }
  destruct check; cbn [mbind outcome_bind]; [|apply Returns_ret; split; [exact E4|congruence]].
  destruct (read_status w2) as (-> & _ & E5). destruct (arch_inb _ w2) as [x w3]. cbn [fst snd] in *. cbn [mbind outcome_bind].
  apply Returns_ret. split; [exact E4|]. rewrite E5, E3, E1. reflexivity.
Qed.

(** ** Giving a command *)

(** Writes to registers other than the command register. *)
Definition writes (l : list (Z * Z)) w : W := fold_left (fun w '(r, v) => ide_write_reg ch r v w) l w.
Definition written (l : list (Z * Z)) a : ata := fold_left (fun a '(r, v) => write_reg (if r <? 8 then r else r - 6) v a) l a.

Lemma write_reg_busy r v a : r <> 7 -> a_busy (write_reg r v a) = a_busy a.
Proof. intros H. unfold write_reg. zcmp; reflexivity || lia. Qed.

Lemma writes_spec l : forall w, Forall (fun '(r, v) => 2 <= r <= 11 /\ r <> 7 /\ byte v) l -> a_busy (view w) = O ->
  view (writes l w) = written l (view w).
Proof.
  induction l as [|[r v] l IH]; intros w HF Hb; [reflexivity|]. apply Forall_cons in HF as [(Hr & H7 & Hv) HF].
  cbn [writes written fold_left]. fold (writes l (ide_write_reg ch r v w)). rewrite IH, write_reg_spec by (auto; rewrite write_reg_spec, write_reg_busy; auto; zcmp; lia).
  reflexivity.
Qed.

(** A request the driver can express. *)
Record request (d : ide_drive_t) (head0 startLBA blocks : Z) : Prop := {
  rq_drive : masterSlave d = 0 \/ masterSlave d = 1;
  rq_lba : 0 <= startLBA < 2 ^ 48;
  rq_blocks : 1 <= blocks <= (if startLBA <? 0x100000 then 256 else 65536);
  rq_head : byte head0 /\ (0x100000 <= startLBA -> Z.testbit head0 4 = true -> masterSlave d = 1)
}.

(** The value for the device register: the drive, the kind of address, and the head. *)
Definition device_byte (v : Z) (drive lba : bool) (h : Z) : Prop :=
  byte v /\ Z.testbit v 4 = drive /\ Z.testbit v 6 = lba /\ v mod 16 = h.
#[local] Instance device_byte_dec v drive lba h : Decision (device_byte v drive lba h).
Proof. unfold device_byte, byte. apply _. Defined.

Lemma device_value ms h : ms = 0 \/ ms = 1 -> byte h ->
  (h < 16 -> device_byte (Z.lor (Z.lor 0xA0 (Z.shiftl ms 4)) h) (ms =? 1) false h) /\
  device_byte (Z.lor (Z.lor 0xE0 (Z.shiftl ms 4)) h) ((ms =? 1) || Z.testbit h 4) true (h mod 16).
Proof.
  intros Hms Hh.
  assert (forall ms, ms = 0 \/ ms = 1 -> Forall (fun h => device_byte (Z.lor (Z.lor 0xE0 (Z.shiftl ms 4)) h) ((ms =? 1) || Z.testbit h 4) true (h mod 16))
    (map Z.of_nat (List.seq 0 256))) as H1 by (intros ? [->| ->]; apply (bool_decide_unpack _); vm_compute; exact I).
  assert (forall ms, ms = 0 \/ ms = 1 -> Forall (fun h => device_byte (Z.lor (Z.lor 0xA0 (Z.shiftl ms 4)) h) (ms =? 1) false h)
    (map Z.of_nat (List.seq 0 16))) as H2 by (intros ? [->| ->]; apply (bool_decide_unpack _); vm_compute; exact I).
  specialize (H1 ms Hms). specialize (H2 ms Hms). rewrite Forall_forall in H1, H2. unfold byte in Hh. split; [intros Hh'; apply H2|apply H1];
    apply list_elem_of_In, in_map_iff; exists (Z.to_nat h); (split; [lia|apply in_seq; lia]).
Qed.

(** The address by cylinder, head and sector is the address. *)
Lemma chs_roundtrip lba : 0 <= lba < 0x100000 ->
  let sect := u8 (lba mod 63 + 1) in let cyl := u16 (u64 (lba + 1 - sect) / (16 * 63)) in let h := u8 (u64 (lba + 1 - sect) mod (16 * 63) / 63) in
  byte sect /\ byte (Z.land (Z.shiftr cyl 0) 0xFF) /\ byte (Z.land (Z.shiftr cyl 8) 0xFF) /\ 0 <= h < 16 /\
  ((Z.land (Z.shiftr cyl 0) 0xFF + 2 ^ 8 * Z.land (Z.shiftr cyl 8) 0xFF) * 16 + h) * 63 + sect - 1 = lba.
Proof.
  intros Hl sect cyl h. assert (sect = lba mod 63 + 1) as Es by (unfold sect; rewrite wrap_small by (pow2_consts; dm); reflexivity).
  assert (u64 (lba + 1 - sect) = lba - lba mod 63) as Eu by (rewrite Es, wrap_small by (pow2_consts; dm); lia).
  assert (cyl = (lba - lba mod 63) / 1008) as Ec by (unfold cyl; rewrite Eu, wrap_small by (pow2_consts; dm); reflexivity).
  assert (h = (lba - lba mod 63) mod 1008 / 63) as Eh by (unfold h; rewrite Eu, wrap_small by (pow2_consts; dm); reflexivity).
  change 0xFF with (Z.ones 8). rewrite !Z.land_ones, !Z.shiftr_div_pow2 by lia. change (2 ^ 0) with 1. pow2_consts. unfold byte.
  rewrite Ec, Eh, Es. clear sect cyl h Es Eu Ec Eh. splits; dm.
Qed.

Lemma byte_mod x : byte (x mod 256).
Proof. unfold byte. apply Z.mod_pos_bound. lia. Qed.

Lemma low_byte x : Z.land x 0xFF = x mod 256.
Proof. change 0xFF with (Z.ones 8). now rewrite Z.land_ones by lia. Qed.

Lemma length_28 blocks : 1 <= blocks <= 256 -> (if blocks mod 256 =? 0 then 256 else blocks mod 256) = blocks.
Proof. intros Hb. destruct (Z.eqb_spec (blocks mod 256) 0); dm. Qed.

Lemma length_48 blocks n : 1 <= blocks <= 65536 -> n = blocks mod 256 + 256 * (blocks / 256 mod 256) ->
  (if n =? 0 then 65536 else n) = blocks.
Proof. intros Hb ->. destruct (Z.eqb_spec (blocks mod 256 + 256 * (blocks / 256 mod 256)) 0); dm. Qed.

(** What reaches the channel: the registers for the address, then the command. *)
Definition setup (d : ide_drive_t) (blocks : Z) (x : ide_address) : list (Z * Z) :=
  let io i := nth i (lba_io x) 0 in
  (6, Z.lor (Z.lor (if lba_mode x =? 0 then 0xA0 else 0xE0) (Z.shiftl (masterSlave d) 4)) (head x)) ::
  (if lba_mode x =? 2 then [(8, Z.shiftr (Z.land blocks 0xFF00) 8); (9, io 3%nat); (10, io 4%nat); (11, io 5%nat)] else []) ++
  [(2, Z.land blocks 0x00FF); (3, io 0%nat); (4, io 1%nat); (5, io 2%nat)].

(** The state of the channel addresses the request. *)
Definition addresses (mode startLBA blocks : Z) (drive : bool) a : Prop :=
  selected a = drive /\
  if mode =? 2 then address_ext a = startLBA /\ count_ext a = blocks else address a = startLBA /\ count a = blocks.

Lemma setup_addresses d head0 startLBA blocks a :
  request d head0 startLBA blocks ->
  let x := ide_addressing (capabilities (idSpace d)) head0 startLBA in
  Forall (fun '(r, v) => 2 <= r <= 11 /\ r <> 7 /\ byte v) (setup d blocks x) /\
  addresses (lba_mode x) startLBA blocks (masterSlave d =? 1) (written (setup d blocks x) a).
Proof.
  intros [Hms Hl Hbl [Hh Hsel]] x. unfold x, ide_addressing. destruct (Z.geb_spec startLBA 0x100000) as [Hbig|Hsmall].
  - rewrite (proj2 (Z.ltb_ge startLBA 0x100000)) in Hbl by lia. unfold setup. cbn [lba_mode lba_io head nth Z.eqb app].
    destruct (device_value (masterSlave d) head0 Hms Hh) as [_ (V1 & V2 & V3 & V4)].
    set (dv := Z.lor (Z.lor _ _) _) in *. clearbody dv.
    change 0xFF00 with (Z.shiftl 0xFF 8). change 0x0000000000FF with (Z.shiftl 0xFF 0).
    change 0x000000FF0000 with (Z.shiftl 0xFF 16). change 0x0000FF000000 with (Z.shiftl 0xFF 24).
    change 0x00FF00000000 with (Z.shiftl 0xFF 32). change 0xFF0000000000 with (Z.shiftl 0xFF 40).
    rewrite !byte_at by lia. change (Z.shiftl 0xFF 0) with 0xFF. rewrite low_byte. split.
    + repeat (apply List.Forall_cons; [splits; [lia|lia|lia|auto using byte_mod]|]); apply List.Forall_nil.
    + unfold addresses, written, selected. cbn -[Z.testbit].
      change (8 - 6) with 2. change (9 - 6) with 3. change (10 - 6) with 4. change (11 - 6) with 5. cbn -[Z.testbit]. split.
      * rewrite V2. destruct Hms as [Em|Em]; rewrite Em in *; [|reflexivity]. destruct (Z.testbit head0 4); [lia|reflexivity].
      * unfold address_ext, count_ext. cbn -[Z.pow]. pow2_consts. split; [dm|]. apply length_48; [lia|]. dm.
  - rewrite (proj2 (Z.ltb_lt startLBA 0x100000)) in Hbl by lia. destruct (negb (Z.land (capabilities (idSpace d)) (Z.shiftl 1 9) =? 0)).
    + unfold setup. cbn [lba_mode lba_io head nth Z.eqb app].
      assert (Z.shiftr (Z.land startLBA 0xF000000) 24 = 0) as E24.
      { change 0xF000000 with (Z.shiftl 0xF 24). rewrite Z.shiftr_land, Z.shiftr_div_pow2 by lia. replace (startLBA / 2 ^ 24) with 0 by dm. reflexivity. }
      rewrite E24. change (u8 0) with 0. destruct (device_value (masterSlave d) 0 Hms ltac:(unfold byte; lia)) as [_ (V1 & V2 & V3 & V4)].
      set (dv := Z.lor (Z.lor _ _) _) in *. clearbody dv.
      change 0x000FF00 with (Z.shiftl 0xFF 8). change 0x00000FF with (Z.shiftl 0xFF 0). change 0x0FF0000 with (Z.shiftl 0xFF 16).
      rewrite !byte_at by lia. change (Z.shiftl 0xFF 0) with 0xFF. rewrite low_byte. split.
      * repeat (apply List.Forall_cons; [splits; [lia|lia|lia|auto using byte_mod]|]); apply List.Forall_nil.
      * unfold addresses, written, selected. cbn -[Z.testbit]. split; [rewrite V2; apply orb_false_r|].
        unfold address, count. cbn -[Z.testbit Z.modulo]. rewrite V3, V4. split; [dm|]. now apply length_28.
    + unfold setup. cbn [lba_mode lba_io head nth Z.eqb app]. destruct (chs_roundtrip startLBA ltac:(lia)) as (C1 & C2 & C3 & C4 & C5).
      set (sect := u8 _) in *. set (cyl := u16 _) in *. set (hd := u8 (_ / _)) in *.
      destruct (device_value (masterSlave d) hd Hms ltac:(unfold byte; lia)) as [(V1 & V2 & V3 & V4) _]; [lia|].
      set (dv := Z.lor (Z.lor _ _) _) in *. clearbody dv. rewrite (low_byte blocks). split.
      * repeat (apply List.Forall_cons; [splits; [lia|lia|lia|auto using byte_mod]|]); apply List.Forall_nil.
      * unfold addresses, written, selected. cbn -[Z.testbit]. split; [exact V2|]. unfold address, count. cbn -[Z.testbit Z.modulo]. rewrite V3, V4. split; [|now apply length_28].
        cbn in C5. lia.
Qed.

(** The disks do not change, every delay is shorter than the bound, and a disk of more than
    0x100000 sectors has addresses of 48 bits: the driver uses them from there on. *)
Record disks (fuel : nat) (med : bool -> Z -> list Z) (secs : bool -> Z) a : Prop := {
  dk_delay : forall t, (a_delay a t < fuel)%nat;
  dk_media : a_media a = med;
  dk_sectors : a_sectors a = secs;
  dk_ext : forall dv, 0x100000 < secs dv -> a_lba48 a dv = true
}.
Definition ready (fuel : nat) med secs a : Prop := disks fuel med secs a /\ (a_busy a < fuel)%nat /\ a_phase a = Idle.

Lemma write_reg_disks fuel med secs r v a : r <> 7 -> disks fuel med secs a -> disks fuel med secs (write_reg r v a).
Proof. intros H []. unfold write_reg. zcmp; try lia; split; auto. Qed.

Lemma written_disks fuel med secs l : forall a, Forall (fun '(r, v) => 2 <= r <= 11 /\ r <> 7 /\ byte v) l ->
  disks fuel med secs a -> disks fuel med secs (written l a).
Proof.
  induction l as [|[r v] l IH]; intros a HF Ha; [exact Ha|]. apply Forall_cons in HF as [(Hr & H7 & _) HF].
  apply IH; [exact HF|]. apply write_reg_disks; [zcmp; lia|exact Ha].
Qed.

Lemma written_busy l : forall a, Forall (fun '(r, v) => 2 <= r <= 11 /\ r <> 7 /\ byte v) l ->
  a_busy (written l a) = a_busy a /\ a_delay (written l a) = a_delay a.
Proof.
  induction l as [|[r v] l IH]; intros a HF; [split; reflexivity|]. apply Forall_cons in HF as [(Hr & H7 & _) HF].
  cbn [written fold_left]. fold (written l (write_reg (if r <? 8 then r else r - 6) v a)). destruct (IH (write_reg (if r <? 8 then r else r - 6) v a) HF) as [-> ->].
  unfold write_reg. zcmp; split; reflexivity || lia.
Qed.

Lemma put_busy_disks fuel med secs n a : disks fuel med secs a -> disks fuel med secs (put_busy n a).
Proof. intros []. split; auto. Qed.
Lemma enter_disks fuel med secs e p a : disks fuel med secs a -> disks fuel med secs (enter e p a).
Proof. intros []. split; auto. intros t. cbn. apply dk_delay0. Qed.
Lemma put_phase_disks fuel med secs p a : disks fuel med secs a -> disks fuel med secs (put_phase p a).
Proof. intros []. split; auto. Qed.
Hint Resolve write_reg_disks written_disks put_busy_disks enter_disks put_phase_disks : core.

(** The transfer that a command starts, for either kind of address. *)
Definition starts (cmds : Z * Z) (go : Z -> Z -> ata -> ata) : Prop :=
  byte cmds.1 /\ byte cmds.2 /\ forall a, execute cmds.1 a = go (address a) (count a) a /\ execute cmds.2 a = ext (go (address_ext a) (count_ext a)) a.

Lemma command_spec fuel med secs head0 cmds go d startLBA blocks w :
  channel d = ch -> starts cmds go -> request d head0 startLBA blocks ->
  disks fuel med secs (view w) -> (a_busy (view w) < fuel)%nat -> (0x100000 <= startLBA -> 0x100000 < secs (masterSlave d =? 1)) ->
  Returns (ide_command fuel head0 cmds d startLBA blocks w) (fun '(mode, w') => exists a, view w' = go startLBA blocks a /\ (mode = 2 -> 0x100000 <= startLBA) /\
    disks fuel med secs a /\ a_busy a = O /\ selected a = (masterSlave d =? 1) /\ a_delay a = a_delay (view w)).
Proof.
  intros Ech (C1 & C2 & Hgo) Hrq Hd Hb Hx. unfold ide_command. rewrite Ech. eapply Returns_bind; [now apply wait_spec|]. intros w1 E1.
  set (x := ide_addressing _ _ _). destruct (setup_addresses d head0 startLBA blocks (view w1) Hrq) as (HF & Hsel & Hadr). fold x in HF, Hsel, Hadr.
  apply Returns_ret.
  match goal with |- context [ide_write_reg ch ATA_REG_COMMAND _ ?y] =>
    replace y with (writes (setup d blocks x) w1) by (unfold writes, setup; destruct (lba_mode x =? 2); reflexivity) end.
  assert (a_busy (view w1) = O) as B1 by now rewrite E1.
  exists (written (setup d blocks x) (view w1)). rewrite write_reg_spec; rewrite ?writes_spec; auto; [|unfold ATA_REG_COMMAND; lia|destruct (lba_mode x =? 2); assumption|].
  2:{ now rewrite (proj1 (written_busy _ _ HF)). }
  assert (lba_mode x = 2 -> 0x100000 <= startLBA) as Hmode.
  { unfold x, ide_addressing. rewrite Z.geb_leb. destruct (Z.leb_spec 0x100000 startLBA); [auto|]. destruct (negb _); discriminate. }
  splits; auto; [|apply written_disks; auto; rewrite E1; auto|now rewrite (proj1 (written_busy _ _ HF))|rewrite (proj2 (written_busy _ _ HF)), E1; reflexivity].
  change (write_reg (if ATA_REG_COMMAND <? 8 then ATA_REG_COMMAND else ATA_REG_COMMAND - 6)) with execute.
  destruct (Z.eqb_spec (lba_mode x) 2) as [E2|_]; destruct Hadr as [A1 A2]; [rewrite (proj2 (Hgo _))|rewrite (proj1 (Hgo _)); now rewrite A1, A2].
  rewrite A1, A2. unfold ext. rewrite Hsel, (dk_ext fuel med secs); [reflexivity|apply written_disks; auto; rewrite E1; auto|auto].
Qed.

(** ** Reading *)

Lemma data_port_base : data_port ch = iobase ch.
Proof. unfold data_port, ATA_REG_DATA. rewrite Z.add_0_r. apply wrap_small. pow2_consts. lia. Qed.

Lemma store_word addr x m : 0 <= x < 65536 -> store 2 addr x m = write_bytes [x mod 256; x / 256] addr m.
Proof. intros Hx. cbn [store write_bytes]. f_equal. apply Z.mod_small. dm. Qed.

(** The words of a block go to memory; then the channel turns to the next sector. *)
Lemma read_words ws : forall addr j m w next more, ws <> [] -> Forall (fun x => 0 <= x < 65536) ws ->
  a_phase (view w) = DataIn ws next more -> a_busy (view w) = O ->
  Returns (for_up (length ws) j (read_word ch addr) (m, w)) (fun '(m', w') =>
    m' = write_bytes (bytes_of ws) (addr + 2 * j) m /\ view w' = send next more (view w)).
Proof.
  induction ws as [|x ws IH]; intros addr j m w next more Hne HF Hp Hb; [contradiction|]. apply Forall_cons in HF as [Hx HF].
  cbn [length for_up read_word]. rewrite data_port_base. destruct (ata_data_in w Hb) as [E1 E2]. unfold data_in in E1, E2. rewrite Hp in E1, E2.
  destruct (arch_inw (iobase ch) w) as [y w1]. cbn [fst snd] in *. cbn [mbind outcome_bind].
  destruct ws as [|x' ws].
  - cbn [for_up length bytes_of fst snd] in *. subst y. apply Returns_ret. split; [now apply store_word|exact E2].
  - cbn [fst snd] in *. subst y. eapply Returns_mono; [apply (IH addr (j + 1) _ w1 next more)|]; rewrite ?E2; auto; try discriminate.
    intros [m' w'] [-> ->]. split; [|apply send_phase]. rewrite store_word by exact Hx.
    change (bytes_of (x :: x' :: ws)) with ([x mod 256; x / 256] ++ bytes_of (x' :: ws)). rewrite write_bytes_app. cbn [length].
    f_equal. lia.
Qed.

Lemma sectors_from_length disk : forall n lba, (forall x, lba <= x < lba + Z.of_nat n -> sector (disk x)) ->
  Z.of_nat (length (sectors_from disk lba n)) = 512 * Z.of_nat n.
Proof.
  induction n as [|n IH]; intros lba H; [reflexivity|]. cbn [sectors_from]. rewrite length_app, Nat2Z.inj_add, IH by (intros; apply H; lia).
  rewrite (proj1 (H lba ltac:(lia))). lia.
Qed.

(** Reading [n] sectors while the channel has at least so many to send: those that exist
    are delivered; at the first that does not, the transfer fails. *)
Lemma read_loop fuel med secs drv : (forall x, 0 <= x < secs drv -> sector (med drv x)) -> forall n i lba more buf m w a,
  0 <= lba -> Z.of_nat n <= more -> view w = send lba more a -> disks fuel med secs a -> a_busy a = O -> selected a = drv ->
  let k := Z.min (Z.of_nat n) (Z.max 0 (secs drv - lba)) in
  let m' := write_bytes (sectors_from (med drv) lba (Z.to_nat k)) (buf + 512 * i) m in
  Returns (for_ret n i (read_block fuel ch buf) (m, w)) (fun r => exists w' a', disks fuel med secs a' /\ selected a' = drv /\
    if lba + Z.of_nat n <=? Z.max lba (secs drv) then r = inr (m', w') /\ view w' = send (lba + Z.of_nat n) (more - Z.of_nat n) a' /\ a_busy a' = O
    else r = inl (m', w') /\ view w' = a' /\ a_busy a' = O /\ a_phase a' = Idle).
Proof.
  intros Hmed. induction n as [|n IH]; intros i lba more buf m w a Hl Hm Hv Hd Hb Hsel k m'; cbn [for_ret].
  - apply Returns_ret. exists w, a. rewrite Z.add_0_r, Z.sub_0_r, (proj2 (Z.leb_le lba _)) by lia.
    unfold m', k. replace (Z.to_nat _) with O by lia. splits; auto.
  - assert (sectors_of a = secs drv) as Es by (unfold sectors_of; rewrite Hsel; destruct Hd; congruence).
    assert (0 <= lba) as Hl' by exact Hl. unfold send in Hv. rewrite (proj2 (Z.eqb_neq more 0)), (proj2 (Z.leb_le 0 lba) Hl), Es in Hv by lia. cbn [andb] in Hv.
    assert (forall e p, (a_busy (enter e p a) < fuel)%nat) as Hf by (intros; cbn; apply (dk_delay _ _ _ _ Hd)).
    unfold read_block. destruct (Z.ltb_spec lba (secs drv)) as [Hin|Hout].
    + destruct (poll_spec fuel true w) as ([e w1] & E & -> & E1); [rewrite Hv; auto|]. rewrite E, Hv. clear E. cbn [mbind outcome_bind a_error enter Z.eqb negb].
      rewrite Hv in E1. set (ws := words_of (a_media a (selected a) lba)) in *.
      assert (a_media a (selected a) lba = med drv lba) as Em by (rewrite Hsel; destruct Hd; congruence).
      destruct (sector_words (med drv lba) (Hmed lba ltac:(lia))) as (W1 & W2 & W3). rewrite <- Em in W1, W2, W3. fold ws in W1, W2, W3.
      destruct (read_words ws (buf + 512 * i) 0 m w1 (lba + 1) (more - 1)) as ([m1 w2] & E2 & -> & V2); auto.
      { intros ->. discriminate W2. } { now rewrite E1. } { now rewrite E1. }
      rewrite W2 in E2. rewrite E2. cbn [mbind outcome_bind]. rewrite W1, Em, Z.mul_0_r, Z.add_0_r in *.
      set (a1 := put_busy 0 (enter 0 (DataIn ws (lba + 1) (more - 1)) a)) in *. rewrite E1 in V2.
      eapply Returns_mono; [apply (IH (i + 1) (lba + 1) (more - 1) buf _ w2 a1); auto; try lia|].
      { unfold a1. auto. }
      intros r (w' & a' & Hd' & Hs' & R). exists w', a'. splits; auto.
      replace (lba + Z.of_nat (S n)) with (lba + 1 + Z.of_nat n) by lia. replace (more - Z.of_nat (S n)) with (more - 1 - Z.of_nat n) by lia.
      replace (Z.max (lba + 1) (secs drv)) with (Z.max lba (secs drv)) in R by lia.
      assert (m' = write_bytes (sectors_from (med drv) (lba + 1) (Z.to_nat (Z.min (Z.of_nat n) (Z.max 0 (secs drv - (lba + 1))))))
        (buf + 512 * (i + 1)) (write_bytes (med drv lba) (buf + 512 * i) m)) as ->; [|exact R].
      unfold m', k. replace (Z.to_nat (Z.min (Z.of_nat (S n)) (Z.max 0 (secs drv - lba)))) with
        (S (Z.to_nat (Z.min (Z.of_nat n) (Z.max 0 (secs drv - (lba + 1)))))) by lia.
      cbn [sectors_from]. rewrite write_bytes_app, (proj1 (Hmed lba ltac:(lia))). f_equal. lia.
    + destruct (poll_spec fuel true w) as ([e w1] & E & -> & E1); [rewrite Hv; auto|]. rewrite E, Hv. cbn [mbind outcome_bind a_error enter].
      change (negb (IDNF =? 0)) with true. cbn [mbind outcome_bind]. apply Returns_ret. exists w1, (view w1). rewrite E1, Hv.
      rewrite (proj2 (Z.leb_gt _ _)) by lia. unfold m', k. replace (Z.to_nat _) with O by lia. splits; auto.
Qed.

(** ** Writing *)

Fixpoint mem_words (m : mem) (addr : Z) (n : nat) : list Z :=
  match n with
  | O => []
  | S n' => load16 addr m :: mem_words m (addr + 2) n'
  end.
Lemma load16_bytes m addr : (forall x, byte (m x)) -> 0 <= load16 addr m < 65536 /\ load16 addr m mod 256 = m addr /\ load16 addr m / 256 = m (addr + 1).
Proof. intros Hm. cbn [load]. pose proof (Hm addr) as B0. pose proof (Hm (addr + 1)) as B1. unfold byte in *. splits; try lia; dm. Qed.

Lemma bytes_mem_words m n : (forall x, byte (m x)) -> forall addr, bytes_of (mem_words m addr n) = mem_bytes m addr (2 * n).
Proof.
  intros Hm. induction n as [|n IH]; intros addr; [reflexivity|]. replace (2 * S n)%nat with (S (S (2 * n))) by lia.
  cbn [mem_words mem_bytes bytes_of]. destruct (load16_bytes m addr Hm) as (_ & -> & ->). rewrite IH. do 3 f_equal. lia.
Qed.

Lemma mem_words_app m n : forall addr, mem_words m addr (S n) = mem_words m addr n ++ [load16 (addr + 2 * Z.of_nat n) m].
Proof.
  induction n as [|n IH]; intros addr; [cbn [mem_words app]; do 2 f_equal; lia|].
  change (mem_words m addr (S (S n))) with (load16 addr m :: mem_words m (addr + 2) (S n)). rewrite IH. cbn [mem_words app]. do 4 f_equal. lia.
Qed.

Lemma mem_words_length m n : forall addr, length (mem_words m addr n) = n.
Proof. induction n as [|n IH]; intros addr; cbn [mem_words length]; [reflexivity|]. now rewrite IH. Qed.

(** The channel after a whole sector. *)
Definition take_sector (lba : Z) (bytes : list Z) a : ata :=
  put_media (fun d => if Bool.eqb d (selected a) then upd (a_media a d) lba bytes else a_media a d) a.

Lemma write_words m addr : (forall x, byte (m x)) -> forall n j w lba more, (j + n = 256)%nat -> (0 < n)%nat ->
  a_phase (view w) = DataOut (mem_words m addr j) lba more -> a_busy (view w) = O ->
  Returns (for_up n (Z.of_nat j) (write_word ch addr m) w) (fun w' =>
    view w' = receive (lba + 1) (more - 1) (take_sector lba (mem_bytes m addr 512) (view w))).
Proof.
  intros Hm. induction n as [|n IH]; intros j w lba more Hj Hn Hp Hb; [lia|]. cbn [for_up write_word mbind outcome_bind].
  rewrite data_port_base. destruct (load16_bytes m (addr + 2 * Z.of_nat j) Hm) as (Hx & _ & _).
  pose proof (ata_data_out _ w Hx Hb) as E. unfold data_out in E. rewrite Hp, mem_words_length, <- mem_words_app in E.
  destruct (Nat.eqb_spec j 255) as [->|Hj'].
  - assert (n = O) as -> by lia. apply Returns_ret. rewrite E, (bytes_mem_words m 256) by exact Hm. reflexivity.
  - replace (Z.of_nat j + 1) with (Z.of_nat (S j)) by lia. eapply Returns_mono; [apply (IH (S j) _ lba more)|]; try lia; rewrite ?E; auto.
Qed.

Lemma write_loop fuel secs drv m buf : (forall x, byte (m x)) -> forall n i lba more w a,
  0 <= lba -> Z.of_nat n <= more -> lba + Z.of_nat n <= secs drv -> view w = receive lba more a ->
  (forall t, (a_delay a t < fuel)%nat) -> a_sectors a = secs -> selected a = drv ->
  Returns (for_up n i (write_block fuel ch buf m) w) (fun w' => exists a', view w' = receive (lba + Z.of_nat n) (more - Z.of_nat n) a' /\
    a_sectors a' = secs /\ a_lba48 a' = a_lba48 a /\ selected a' = drv /\ (forall t, a_delay a' t = a_delay a (n + t)%nat) /\
    forall d x, a_media a' d x = if Bool.eqb d drv && (lba <=? x) && (x <? lba + Z.of_nat n)
                                 then mem_bytes m (buf + 512 * (i + (x - lba))) 512 else a_media a d x).
Proof.
  intros Hm. induction n as [|n IH]; intros i lba more w a Hl Hmo Hin Hv Hdl Hs Hsel; cbn [for_up].
  - apply Returns_ret. exists a. rewrite Z.add_0_r, Z.sub_0_r. splits; auto. intros d x.
    destruct (Z.leb_spec lba x), (Z.ltb_spec x lba); try lia; now rewrite ?andb_false_r.
  - unfold receive in Hv. rewrite (proj2 (Z.eqb_neq more 0)), (proj2 (Z.leb_le 0 lba) Hl) in Hv by lia.
    unfold sectors_of in Hv. rewrite Hs, Hsel, (proj2 (Z.ltb_lt lba (secs drv))) in Hv by lia. cbn [andb] in Hv.
    assert (Returns (write_block fuel ch buf m i w) (fun w2 => view w2 = receive (lba + 1) (more - 1)
      (take_sector lba (mem_bytes m (buf + 512 * i) 512) (put_busy 0 (enter 0 (DataOut [] lba more) a))))) as (w2 & E2 & V2).
    { unfold write_block. eapply Returns_bind; [apply poll_spec; rewrite Hv; apply Hdl|]. intros [e w1] [_ E1]. rewrite Hv in E1.
      eapply Returns_mono; [apply (write_words m (buf + 512 * i) Hm 256 0 w1 lba more)|]; try lia; rewrite ?E1; auto. }
    rewrite E2. cbn [mbind outcome_bind].
    set (a1 := take_sector lba _ _) in V2.
    eapply Returns_mono; [apply (IH (i + 1) (lba + 1) (more - 1) w2 a1); auto; try lia|].
    { intros t. apply (Hdl (S t)). }
    intros w' (a' & V' & S' & X' & Sel' & D' & M'). exists a'. replace (lba + Z.of_nat (S n)) with (lba + 1 + Z.of_nat n) by lia.
    replace (more - Z.of_nat (S n)) with (more - 1 - Z.of_nat n) by lia. splits; auto.
    intros d x. rewrite M'. assert (a_media a1 d x = if Bool.eqb d drv && (x =? lba) then mem_bytes m (buf + 512 * i) 512 else a_media a d x) as ->.
    { change (a_media a1 d x) with ((if Bool.eqb d (selected a) then upd (a_media a d) lba (mem_bytes m (buf + 512 * i) 512) else a_media a d) x).
      rewrite Hsel. unfold upd. destruct (Bool.eqb d drv), (x =? lba); reflexivity. }
    destruct (Bool.eqb d drv); cbn [andb]; [|reflexivity].
    destruct (Z.leb_spec (lba + 1) x), (Z.leb_spec lba x), (Z.eqb_spec x lba), (Z.ltb_spec x (lba + 1 + Z.of_nat n)); cbn [andb]; try lia; try reflexivity;
        f_equal; lia.
Qed.
End Channel.

(** The ports of a channel: the command block is apart from the control register, and the
    driver leaves the bit that resets the drives alone. *)
Record wired (ch : ide_channel_t) : Prop := {
  wi_base : 0 <= iobase ch /\ iobase ch + 8 <= 65536;
  wi_control : ~ (iobase ch <= u16 (control ch + 2) < iobase ch + 8);
  wi_int : Z.land (noInt ch) 4 = 0 /\ byte (noInt ch)
}.

Lemma starts_read : starts (ATA_CMD_READ_PIO, ATA_CMD_READ_PIO_EXT) send.
Proof. repeat split; discriminate. Qed.
Lemma starts_write : starts (ATA_CMD_WRITE_PIO, ATA_CMD_WRITE_PIO_EXT) receive.
Proof. repeat split; discriminate. Qed.

(** What a request reads: the sectors that exist, and whether all of them do. *)
Lemma ide_ata_read_spec {W} {IO : PortIO W} d {CH : AtaChannel W (iobase (channel d))} fuel head0 med secs startLBA blocks buf m w :
  let drv := masterSlave d =? 1 in
  let k := Z.min blocks (Z.max 0 (secs drv - startLBA)) in
  wired (channel d) -> request d head0 startLBA blocks -> (0x100000 <= startLBA -> 0x100000 < secs drv) ->
  ready fuel med secs (view w) -> (forall x, 0 <= x < secs drv -> sector (med drv x)) ->
  Returns (ide_ata_read fuel head0 d startLBA blocks buf m w) (fun '(r, m', w') =>
    r = (if startLBA + blocks <=? secs drv then 0 else -1) /\
    m' = write_bytes (sectors_from (med drv) startLBA (Z.to_nat k)) buf m /\ ready fuel med secs (view w')).
Proof.
  intros drv k [Hb Hc Hi] Hrq Hx (Hd & Hbusy & Hph) Hmed. unfold ide_ata_read. pose proof Hrq as [_ Hl Hbl _].
  assert (1 <= blocks) as Hb1 by lia.
  eapply Returns_bind; [exact (command_spec (channel d) Hb Hc Hi fuel med secs head0 _ send d startLBA blocks w eq_refl starts_read Hrq Hd Hbusy Hx)|].
  intros [mode w1] (a & V & _ & Hd1 & Hb2 & Hsel & _). eapply Returns_bind;
    [apply (read_loop (channel d) Hb fuel med secs drv Hmed (Z.to_nat blocks) 0 startLBA blocks buf m w1 a); auto; lia|].
  rewrite Z2Nat.id by lia. fold k. rewrite Z.mul_0_r, Z.add_0_r.
  assert (forall a', disks fuel med secs a' -> a_busy a' = O -> a_phase a' = Idle -> ready fuel med secs a') as HR.
  { intros a' Hd' E' Hp'. unfold ready. splits; auto. rewrite E'. pose proof (dk_delay _ _ _ _ Hd' O). lia. }
  intros r (w' & a' & Hd' & _ & R). destruct (Z.leb_spec (startLBA + blocks) (secs drv)) as [Hin|Hout].
  - rewrite (proj2 (Z.leb_le _ (Z.max startLBA (secs drv)))) in R by lia. destruct R as (-> & V' & B').
    apply Returns_ret. splits; auto. rewrite V', Z.sub_diag. apply HR; auto. now apply put_phase_disks.
  - rewrite (proj2 (Z.leb_gt _ (Z.max startLBA (secs drv)))) in R by lia. destruct R as (-> & V' & B' & P').
    apply Returns_ret. splits; auto. rewrite V'. now apply HR.
Qed.

(** What a write stores, when the drive has finished the last sector before the driver
    gives the command that flushes its cache. *)
Lemma ide_ata_write_spec {W} {IO : PortIO W} d {CH : AtaChannel W (iobase (channel d))} fuel head0 med secs startLBA blocks buf m w :
  let drv := masterSlave d =? 1 in
  wired (channel d) -> request d head0 startLBA blocks -> ready fuel med secs (view w) -> (forall x, byte (m x)) ->
  startLBA + blocks <= secs drv -> a_delay (view w) (Z.to_nat blocks) = O ->
  Returns (ide_ata_write fuel head0 d startLBA blocks buf m w) (fun '(r, w') => r = 0 /\
    exists med', ready fuel med' secs (view w') /\ forall dv x, med' dv x =
      if Bool.eqb dv drv && (startLBA <=? x) && (x <? startLBA + blocks) then mem_bytes m (buf + 512 * (x - startLBA)) 512 else med dv x).
Proof.
  intros drv [Hb Hc Hi] Hrq (Hd & Hbusy & Hph) Hm Hin Hlast. unfold ide_ata_write. pose proof Hrq as [_ Hl Hbl _].
  assert (1 <= blocks) as Hb1 by lia.
  eapply Returns_bind; [exact (command_spec (channel d) Hb Hc Hi fuel med secs head0 _ receive d startLBA blocks w eq_refl starts_write Hrq Hd Hbusy ltac:(intros ?; fold drv; lia))|].
  intros [mode w1] (a & V & Hmode & Hd1 & Hb2 & Hsel & Edl). eapply Returns_bind.
  { apply (write_loop (channel d) Hb fuel secs drv m buf Hm (Z.to_nat blocks) 0 startLBA blocks w1 a); try (rewrite ?Z2Nat.id by lia); auto;
      try lia; apply Hd1. }
  rewrite Z2Nat.id by lia. intros w2 (a' & V' & S' & X' & Sel' & D' & M'). rewrite Z.sub_diag in V'. cbn [receive Z.eqb] in V'. unfold receive in V'. cbn [Z.eqb] in V'.
  assert (a_busy (view w2) = O) as B2 by (rewrite V'; cbn; rewrite D', Nat.add_0_r, Edl; exact Hlast).
  set (w3 := ide_write_reg _ _ _ w2). set (cmd := if mode =? 2 then ATA_CMD_CACHE_FLUSH_EXT else ATA_CMD_CACHE_FLUSH) in w3.
  assert (view w3 = enter 0 Idle (view w2)) as E3.
  { unfold w3. rewrite (write_reg_spec (channel d) Hb Hc Hi); [|unfold ATA_REG_COMMAND; lia|unfold cmd; destruct (mode =? 2); (split; [discriminate|reflexivity])|exact B2].
    unfold cmd. destruct (Z.eqb_spec mode 2) as [E2|_]; [|reflexivity].
    change (write_reg (if ATA_REG_COMMAND <? 8 then ATA_REG_COMMAND else ATA_REG_COMMAND - 6)) with execute.
    change (execute ATA_CMD_CACHE_FLUSH_EXT (view w2)) with (ext (enter 0 Idle) (view w2)). unfold ext.
    assert (a_lba48 (view w2) (selected (view w2)) = true) as ->; [|reflexivity].
    rewrite V'. change (selected (enter 0 Idle a')) with (selected a'). change (a_lba48 (enter 0 Idle a')) with (a_lba48 a').
    rewrite Sel', X'. apply (dk_ext _ _ _ _ Hd1). specialize (Hmode E2). lia. }
  assert (forall t, (a_delay a' t < fuel)%nat) as Hdl by (intros t; rewrite D'; apply Hd1).
  eapply Returns_bind; [apply (poll_spec (channel d) Hb); rewrite E3, V'; cbn; apply Hdl|]. intros [e w4] [_ E4]. apply Returns_ret.
  split; [reflexivity|]. exists (a_media a'). rewrite E4, E3, V'. split.
  - unfold ready. splits; [split; auto; [intros t; cbn; apply Hdl|cbn; rewrite X'; apply Hd1]| |reflexivity]. cbn. specialize (Hdl O). lia.
  - intros dv x. rewrite M'. destruct Hd1 as [_ <- _ _]. destruct (_ && _); reflexivity.
Qed.

Lemma mem_bytes_sector m addr : (forall x, byte (m x)) -> sector (mem_bytes m addr 512).
Proof.
  intros Hm. assert (forall n addr, length (mem_bytes m addr n) = n /\ Forall byte (mem_bytes m addr n)) as HL; [|apply HL].
  induction n as [|n IH]; intros p; [split; constructor|]. destruct (IH (p + 1)) as [E1 E2]. cbn [mem_bytes length]. split; [now rewrite E1|now constructor].
Qed.

Lemma mem_bytes_app m n k : forall addr, mem_bytes m addr (k + n) = mem_bytes m addr k ++ mem_bytes m (addr + Z.of_nat k) n.
Proof.
  induction k as [|k IH]; intros addr; cbn [Nat.add mem_bytes app]; [f_equal; lia|]. rewrite IH. do 3 f_equal. lia.
Qed.

(** Sectors that hold a buffer, one after the other. *)
Lemma sectors_stored disk m buf start blocks :
  (forall x, start <= x < start + blocks -> disk x = mem_bytes m (buf + 512 * (x - start)) 512) ->
  forall n l, start <= l -> l + Z.of_nat n <= start + blocks -> sectors_from disk l n = mem_bytes m (buf + 512 * (l - start)) (512 * n).
Proof.
  intros M. induction n as [|n IH]; intros l H1 H2; [reflexivity|]. cbn [sectors_from]. rewrite IH by lia.
  replace (512 * S n)%nat with (512 + 512 * n)%nat by lia. rewrite mem_bytes_app, M by lia. do 2 f_equal. lia.
Qed.

(** ** Properties *)

(** [ide_ata_read] stores exactly the sectors asked for at [buf], in order, for every
    kind of address the driver uses (48 bits, 28 bits, and cylinder, head and sector), and
    returns 0; when some of the sectors do not exist, it stores those in front of them and
    returns -1.  Polling ends, and the channel is ready for the next request. *)
Theorem ide_ata_read_correct {W} {IO : PortIO W} d {CH : AtaChannel W (iobase (channel d))} fuel head0 med secs startLBA blocks buf m w :
  let drv := masterSlave d =? 1 in
  let k := Z.min blocks (Z.max 0 (secs drv - startLBA)) in
  wired (channel d) -> request d head0 startLBA blocks -> (0x100000 <= startLBA -> 0x100000 < secs drv) ->
  ready fuel med secs (view w) -> (forall x, 0 <= x < secs drv -> sector (med drv x)) ->
  Returns (ide_ata_read fuel head0 d startLBA blocks buf m w) (fun '(r, m', w') =>
    r = (if startLBA + blocks <=? secs drv then 0 else -1) /\
    m' = write_bytes (sectors_from (med drv) startLBA (Z.to_nat k)) buf m /\ ready fuel med secs (view w')).
Proof. apply ide_ata_read_spec. Qed.

(** What [ide_ata_write] has written, [ide_ata_read] reads back into another buffer; all
    other sectors of both drives are kept. *)
Theorem ide_write_read_roundtrip {W} {IO : PortIO W} d {CH : AtaChannel W (iobase (channel d))} fuel head0 med secs startLBA blocks buf buf' m w :
  let drv := masterSlave d =? 1 in
  wired (channel d) -> request d head0 startLBA blocks -> ready fuel med secs (view w) -> (forall x, 0 <= x < secs drv -> sector (med drv x)) ->
  (forall x, byte (m x)) -> startLBA + blocks <= secs drv -> a_delay (view w) (Z.to_nat blocks) = O ->
  Returns ('(_, w) ← ide_ata_write fuel head0 d startLBA blocks buf m w; ide_ata_read fuel head0 d startLBA blocks buf' m w)
    (fun '(r, m', w') => r = 0 /\ m' = write_bytes (mem_bytes m buf (Z.to_nat (512 * blocks))) buf' m /\
       forall dv x, dv <> drv \/ x < startLBA \/ startLBA + blocks <= x -> a_media (view w') dv x = med dv x).
Proof.
  intros drv Hwi Hrq Hr Hmed Hm Hin Hlast.
  eapply Returns_bind; [exact (ide_ata_write_spec d fuel head0 med secs startLBA blocks buf m w Hwi Hrq Hr Hm Hin Hlast)|].
  intros [r w1] (_ & med' & Hr1 & M). fold drv in M.
  eapply Returns_mono; [apply (ide_ata_read_spec d fuel head0 med' secs startLBA blocks buf' m w1 Hwi Hrq ltac:(intros ?; fold drv; pose proof (proj1 (rq_blocks _ _ _ _ Hrq)); lia) Hr1)|].
  - intros x Hx. rewrite M. destruct (_ && _); [now apply mem_bytes_sector|now apply Hmed].
  - fold drv. intros [[r' m'] w'] (-> & -> & Hr'). rewrite (proj2 (Z.leb_le _ _) Hin). pose proof Hrq as [_ _ Hbl _].
    assert (1 <= blocks) as Hb1 by lia. splits; [reflexivity| |].
    + replace (Z.min blocks (Z.max 0 (secs drv - startLBA))) with blocks by lia. f_equal.
      rewrite (sectors_stored _ m buf startLBA blocks); [f_equal; lia| |lia|lia]. intros x Hx.
      rewrite M, Bool.eqb_reflx, (proj2 (Z.leb_le _ _)), (proj2 (Z.ltb_lt _ _)) by lia. reflexivity.
    + intros dv x Hx. destruct Hr' as ([_ -> _ _] & _). rewrite M. destruct (Bool.eqb_spec dv drv), (Z.leb_spec startLBA x), (Z.ltb_spec x (startLBA + blocks));
        cbn [andb]; reflexivity || (destruct Hx as [Hx|Hx]; [contradiction|lia]).
Qed.

Lemma mem_bytes_write l : forall addr m, mem_bytes (write_bytes l addr m) addr (length l) = l.
Proof.
  induction l as [|c l IH]; intros addr m; [reflexivity|]. cbn [length mem_bytes write_bytes]. rewrite IH, write_bytes_outside, upd_eq by lia. reflexivity.
Qed.

(** C28: a disk attached by the driver serves the block cache, the partition tables and the
    file systems on it: every block below its capacity is delivered as it is on the disk,
    however often and in whatever order the blocks are read.  A disk of more than 0x100000
    blocks must have addresses of 48 bits, and the variable [head], which the driver does
    not set for them, must not hold the bit that selects the other drive
    ([ide_small_drive_refused] and [ide_head_selects_other_drive] show what happens else). *)
Theorem ide_serves {W} {IO : PortIO W} d {CH : AtaChannel W (iobase (channel d))} fuel head0 med secs (s : storage W) drv :
  let sel := masterSlave d =? 1 in
  d_read (drives s drv) = Some (ide_d_read fuel head0 d) -> wired (channel d) -> masterSlave d = 0 \/ masterSlave d = 1 ->
  byte head0 -> (0x100000 < secs sel -> Z.testbit head0 4 = true -> masterSlave d = 1) -> secs sel <= 2 ^ 48 ->
  ready fuel med secs (view (dev s)) -> (forall x, 0 <= x < secs sel -> sector (med sel x)) ->
  serves s drv (secs sel) (med sel).
Proof.
  intros sel Er Hwi Hms Hh Hhead Hcap Hr Hmed. exists (ide_d_read fuel head0 d), (fun w => ready fuel med secs (view w)). splits; auto.
  intros blk old w Hblk Hw. unfold ide_d_read.
  assert (request d head0 blk 1) as Hrq.
  { split; [exact Hms|lia|destruct (blk <? 0x100000); lia|]. split; [exact Hh|]. intros H1 H2. apply Hhead; [lia|exact H2]. }
  destruct (ide_ata_read_spec d fuel head0 med secs blk 1 0 (bytes_at 0 old) w Hwi Hrq ltac:(intros ?; fold sel; lia) Hw Hmed) as ([[r m'] w'] & E & _ & -> & Hw').
  rewrite E. cbn [mbind outcome_bind]. fold sel. replace (Z.to_nat (Z.min 1 (Z.max 0 (secs sel - blk)))) with 1%nat by lia.
  cbn [sectors_from]. rewrite app_nil_r. replace (Z.to_nat (512 * 1)) with (length (med sel blk)) by (rewrite (proj1 (Hmed blk Hblk)); reflexivity).
  rewrite mem_bytes_write. exists r, w'. split; [reflexivity|exact Hw'].
Qed.

(** A channel with two disks, each busy for two reads of the status; the bytes of a sector
    are its number, and 100 more on the second disk. *)
Definition demo_media (dv : bool) (x : Z) : list Z := repeat ((x + if dv then 100 else 0) mod 256) 512.
Definition demo_ata (secs : Z) (delay : nat -> nat) : ata :=
  mk_ata (0, 0) (0, 0) (0, 0) (0, 0) 0 0 Idle 2 delay (fun _ => secs) (fun _ => true) demo_media.
Definition demo_chan : ide_channel_t := mk_chan 0x1F0 0x3F6 0 0.
Definition demo_ide (ms : Z) : ide_drive_t := mk_ide 0 ms IDE_ATA (repeat 0 98 ++ [0; 2] ++ repeat 0 412) 0 [] demo_chan.
#[local] Instance demo_ports : PortIO ata := ata_ports 0x1F0.
#[local] Instance demo_channel ms : AtaChannel ata (iobase (channel (demo_ide ms))) := ata_channel 0x1F0.

Lemma demo_wired : wired demo_chan.
Proof. split; [cbn; lia|cbn; intros H; vm_compute in H; destruct H as [_ H]; discriminate|split; [reflexivity|split; [discriminate|reflexivity]]]. Qed.

Lemma demo_ready secs n : (n < 3)%nat -> ready 3 demo_media (fun _ => secs) (demo_ata secs (fun _ => n)).
Proof. intros Hn. unfold ready. splits; [split; auto|cbn; lia|reflexivity]. Qed.

Lemma demo_sector dv x : sector (demo_media dv x).
Proof.
  unfold demo_media. split; [apply List.repeat_length|]. apply Forall_forall. intros y Hy%list_elem_of_In%List.repeat_spec. subst y.
  unfold byte. apply Z.mod_pos_bound. lia.
Qed.

Lemma demo_request ms lba n : ms = 0 \/ ms = 1 -> 0 <= lba < 2 ^ 48 -> 1 <= n <= 256 -> request (demo_ide ms) 0 lba n.
Proof. intros Hms Hl Hn. split; auto; [destruct (lba <? 0x100000); lia|]. split; [split; [discriminate|reflexivity]|discriminate]. Qed.

(** Two sectors are asked for at the end of a disk of 2000000 sectors, one exists. *)
Lemma ide_ata_read_correct_witness :
  Returns (ide_ata_read 3 0 (demo_ide 1) 1999999 2 4096 (fun _ => 7) (demo_ata 2000000 (fun _ => 2%nat))) (fun '(r, m', _) =>
    r = -1 /\ m' 4096 = (1999999 + 100) mod 256 /\ m' (4096 + 511) = (1999999 + 100) mod 256 /\ m' (4096 + 512) = 7).
Proof.
  eapply Returns_mono; [apply (ide_ata_read_correct (demo_ide 1) 3 0 demo_media (fun _ => 2000000) 1999999 2 4096 (fun _ => 7)
    (demo_ata 2000000 (fun _ => 2%nat)) demo_wired)|].
  - apply demo_request; cbn; lia.
  - cbn. lia.
  - apply demo_ready. lia.
  - intros x _. apply demo_sector.
  - intros [[r m'] w'] (-> & -> & _). splits; vm_compute; reflexivity.
Defined.

Lemma ide_write_read_roundtrip_witness :
  Returns ('(_, w) ← ide_ata_write 3 0 (demo_ide 0) 70 2 0 (fun x => x mod 256) (demo_ata 1000 (fun _ => 0%nat));
           ide_ata_read 3 0 (demo_ide 0) 70 2 4096 (fun x => x mod 256) w) (fun '(r, m', w') =>
    r = 0 /\ m' (4096 + 258) = 2 /\ a_media w' true 70 = demo_media true 70).
Proof.
  eapply Returns_mono; [apply (ide_write_read_roundtrip (demo_ide 0) 3 0 demo_media (fun _ => 1000) 70 2 0 4096 (fun x => x mod 256)
    (demo_ata 1000 (fun _ => 0%nat)) demo_wired)|].
  - apply demo_request; lia.
  - apply demo_ready. lia.
  - intros x _. apply demo_sector.
  - intros x. unfold byte. apply Z.mod_pos_bound. lia.
  - cbn. lia.
  - reflexivity.
  - intros [[r m'] w'] (-> & -> & M). splits; [reflexivity|vm_compute; reflexivity|]. apply M. now left.
Defined.

Definition demo_storage : storage ata :=
  mk_stor 0 0 (fun _ => mk_buf false false 0 [] 0 0 0 0 false) false (fun _ => new_drive 3 0 (demo_ide 0)) (demo_ata 1000 (fun _ => 1%nat)) 0.

Lemma ide_serves_witness : serves demo_storage 7 1000 (demo_media false).
Proof.
  apply (ide_serves (demo_ide 0) 3 0 demo_media (fun _ => 1000) demo_storage 7 eq_refl demo_wired).
  - now left.
  - split; [discriminate|reflexivity].
  - cbn. lia.
  - cbn. lia.
  - apply demo_ready. lia.
  - intros x _. apply demo_sector.
Defined.

(** ** Where the driver goes wrong *)

(** The variable [head] is not set for 48-bit addresses: when it happens to hold a value
    with bit 4, a read from the first disk comes from the second. *)
Theorem ide_head_selects_other_drive :
  ('(r, m', _) ← ide_ata_read 3 0x10 (demo_ide 0) 0x100000 1 0 (fun _ => 7) (demo_ata 0x200000 (fun _ => 1%nat)); Ret (r, m' 0)) = Ret (0, 100) /\
  nth 0 (demo_media false 0x100000) 0 = 0.
Proof. split; vm_compute; reflexivity. Qed.

(** From block 0x100000 on the driver uses addresses of 48 bits, also on a drive that does
    not have them: the read fails although the block exists. *)
Theorem ide_small_drive_refused :
  let w := demo_ata 0x200000 (fun _ => 1%nat) in
  let w := mk_ata (a_count w) (a_lba0 w) (a_lba1 w) (a_lba2 w) (a_device w) (a_error w) (a_phase w) (a_busy w) (a_delay w)
             (a_sectors w) (fun _ => false) (a_media w) in
  ('(r, m', _) ← ide_ata_read 3 0 (demo_ide 0) 0xFFFFF 1 0 (fun _ => 7) w; Ret (r, m' 0)) = Ret (0, 0xFF) /\
  ('(r, m', _) ← ide_ata_read 3 0 (demo_ide 0) 0x100000 1 0 (fun _ => 7) w; Ret (r, m' 0)) = Ret (-1, 7).
Proof. split; vm_compute; reflexivity. Qed.

(** With the ports of a compatible controller, the control register is taken to be at
    0x3F8, which is the first serial port; a secondary channel uses 0x378, the printer. *)
Theorem ide_legacy_control_port p : probe p = true -> Z.land (hdr_progIF p) 0x85 = 0 ->
  exists c1 c2, ide_channels p = Some (c1, c2) /\ reg_port c1 ATA_REG_CONTROL = Some 0x3F8 /\ reg_port c2 ATA_REG_CONTROL = Some 0x378.
Proof.
  intros _ Hp.
  assert (forall b, Z.land 0x85 b = b -> Z.land (hdr_progIF p) b = 0) as HB by (intros b Hb; rewrite <- Hb, Z.land_assoc, Hp; reflexivity).
  unfold ide_channels. rewrite (HB 1 eq_refl), (HB (Z.shiftl 1 2) eq_refl), (HB (Z.shiftl 1 7) eq_refl). cbn. do 2 eexists. split; [reflexivity|].
  split; reflexivity.
Qed.

(** Neither memory access nor bus mastering is switched on in the command register: only
    the bit that masks interrupts is cleared. *)
Theorem ide_pci_command_keeps c : 0 <= c < 65536 -> forall i, Z.testbit (ide_pci_command c) i = Z.testbit c i && negb (i =? 10).
Proof.
  intros Hc i. unfold ide_pci_command, wrap. change (Z.land (Z.shiftl 1 1) (Z.shiftl 1 2)) with 0. rewrite Z.lor_0_r.
  destruct (Z.lt_ge_cases i 0); [now rewrite !Z.testbit_neg_r by lia|]. destruct (Z.lt_ge_cases i 16).
  - rewrite Z.mod_pow2_bits_low, Z.land_spec, Z.lnot_spec, Z.shiftl_spec by lia. f_equal. f_equal.
    change 1 with (2 ^ 0). rewrite testbit_pow2 by lia. zcmp; lia || reflexivity.
  - rewrite Z.mod_pow2_bits_high, (testbit_high 16 c) by (pow2_consts; lia). reflexivity.
Qed.

(** A write to sectors that do not exist reports success and stores nothing. *)
Theorem ide_write_error_lost :
  ('(r, w') ← ide_ata_write 3 0 (demo_ide 0) 1000 1 0 (fun x => 9) (demo_ata 1000 (fun _ => 0%nat)); Ret (r, a_media w' false 1000)) =
    Ret (0, demo_media false 1000).
Proof. vm_compute. reflexivity. Qed.

(** The cache flush is commanded while the drive may still be busy with the last sector. *)
Theorem ide_flush_while_busy :
  ('(_, w) ← ide_command 3 0 (ATA_CMD_WRITE_PIO, ATA_CMD_WRITE_PIO_EXT) (demo_ide 0) 5 1 (demo_ata 1000 (fun _ => 2%nat));
   w ← for_up 1 0 (write_block 3 demo_chan 0 (fun _ => 9)) w; Ret (status w)) = Ret ATA_SR_BSY.
Proof. vm_compute. reflexivity. Qed.

(** The name of a drive keeps its inner spaces and loses those at the end. *)
Example ide_model_demo : ide_model (repeat 0 54 ++ swap_pairs (chars "QEMU HARDDISK                           ")) =
  chars "QEMU HARDDISK" ++ repeat 0 28.
Proof. vm_compute. reflexivity. Qed.
