(* ===== verification/Ahci.v ===== *)
(** * SATA disks ([modules/ahci])

    The driver for disks behind an AHCI controller.  Commands are built in memory and
    carried out by the controller, which reads and writes memory by itself.  [Hba] is the
    machine as the driver uses it: the registers of the controller, the memory the
    controller reaches (addressed as it addresses it, the kernel adds the offset of the
    direct map), and the allocator of pages.  [AhciPort] states what the AHCI specification
    promises of a port, in terms of the abstract state [hport]. *)

From S2P Require Import Prelude DeviceIds Links Interfaces MemMap Pmm MemUtil Kheap Bytes Bcache Gpt Ports Ide.
#[local] Open Scope Z_scope.

Definition FIS_TYPE_REG_H2D : Z := 0x27.
Definition SATA_SIG_ATA : Z := 0x00000101.
Definition SATA_SIG_ATAPI : Z := 0xEB140101.
Definition AHCI_ATA : Z := 1.
Definition AHCI_ATAPI : Z := 2.
Definition AHCI_CAP_SAM : Z := Z.shiftl 1 18.
Definition AHCI_CAP_S64A : Z := Z.shiftl 1 31.
Definition AHCI_GHC_AE : Z := Z.shiftl 1 31.
Definition AHCI_GHC_IE : Z := Z.shiftl 1 1.
Definition AHCI_EXCAP_BOH : Z := 1.
Definition AHCI_BOHC_BOS : Z := 1.
Definition AHCI_BOHC_OOS : Z := Z.shiftl 1 1.
Definition AHCI_BOHC_BB : Z := Z.shiftl 1 4.
Definition AHCI_PxCMD_ST : Z := 1.
Definition AHCI_PxCMD_FRE : Z := Z.shiftl 1 4.
Definition AHCI_PxCMD_FR : Z := Z.shiftl 1 14.
Definition AHCI_PxCMD_CR : Z := Z.shiftl 1 15.
Definition AHCI_PxTFD_BSY : Z := Z.shiftl 1 7.
Definition AHCI_PxTFD_DRQ : Z := Z.shiftl 1 3.
Definition AHCI_PxIS_TFES : Z := Z.shiftl 1 30.
Definition ATA_CMD_READ_DMA : Z := 0xC8.
Definition ATA_CMD_READ_DMA_EXT : Z := 0x25.
Definition ATA_CMD_WRITE_DMA : Z := 0xCA.
Definition ATA_CMD_WRITE_DMA_EXT : Z := 0x35.
Definition MAX_PRDS : Z := 248.

(** Offsets of the registers in [ahci_mem_t] and, for a port, in [ahci_mem_port_t]. *)
Definition R_CAP1 : Z := 0x00.
Definition R_GHC : Z := 0x04.
Definition R_IS : Z := 0x08.
Definition R_PI : Z := 0x0C.
Definition R_CAP2 : Z := 0x24.
Definition R_BOHC : Z := 0x28.
Definition port_reg (i off : Z) : Z := 0x100 + 0x80 * i + off.
Definition P_CLB : Z := 0x00.
Definition P_CLBU : Z := 0x04.
Definition P_FB : Z := 0x08.
Definition P_FBU : Z := 0x0C.
Definition P_IS : Z := 0x10.
Definition P_IE : Z := 0x14.
Definition P_CMD : Z := 0x18.
Definition P_TFD : Z := 0x20.
Definition P_SIG : Z := 0x24.
Definition P_SSTS : Z := 0x28.
Definition P_SERR : Z := 0x30.
Definition P_SACT : Z := 0x34.
Definition P_CI : Z := 0x38.

(** Sizes of [ahci_command_header_t], [ahci_cmd_table_t], [ahci_prd_t] and
    [fis_reg_h2d_t], and the place of the region descriptors in the table. *)
Definition HEADER_SIZE : Z := 32.
Definition TABLE_SIZE : Z := 144.
Definition PRD_SIZE : Z := 16.
Definition FIS_SIZE : Z := 20.
Definition PRDT : Z := 128.

Class Hba (W : Type) := {
  hba_read : Z -> W -> Z * W;
  hba_write : Z -> Z -> W -> W;
  dma_mem : W -> mem;
  dma_put : mem -> W -> W;
  dma_alloc : Z -> W -> outcome (Z * W);
  dma_alloc32 : Z -> W -> outcome (Z * W);
  dma_free : Z -> Z -> W -> outcome W;
  ksleep : Z -> W -> W
}.

Record ahci_drive_t : Type := mk_ahci {
  ah_type : Z;
  ah_size : Z;
  ah_idSpace : list Z;
  ah_model : list Z;
  maxCommands : Z;
  ah_port : Z
}.

(** A field of [n] bits at bit [k] of a word. *)
Definition set_field (k n v x : Z) : Z := Z.lor (Z.ldiff x (Z.shiftl (Z.ones n) k)) (Z.shiftl (Z.land v (Z.ones n)) k).

Definition join64 (low high : Z) : Z := Z.lor low (Z.shiftl high 32).
Definition low32 (x : Z) : Z := Z.land x 0x00000000FFFFFFFF.
Definition high32 (x : Z) : Z := Z.shiftr (Z.land x 0xFFFFFFFF00000000) 32.

Section Driver.
Context {W : Type} `{HB : Hba W}.
Variable fuel : nat.
Implicit Types (w : W).

Definition on_mem (g : mem -> mem) w : W := dma_put (g (dma_mem w)) w.
Definition update_reg (r : Z) (g : Z -> Z) w : W := let '(x, w) := hba_read r w in hba_write r (u32 (g x)) w.

(** [ms + 1] rounds. *)
Fixpoint wait_loop (n : nat) (r : Z) (test : Z -> bool) w : bool * W :=
  match n with
  | O => (false, w)
  | S n' => let '(x, w) := hba_read r w in if test x then (true, w) else wait_loop n' r test (ksleep 1 w)
  end.
Definition ahci_wait_set (r bit ms : Z) w : bool * W := wait_loop (Z.to_nat (u32 (ms + 1))) r (fun x => negb (Z.land x bit =? 0)) w.
Definition ahci_wait_clear (r bit ms : Z) w : bool * W := wait_loop (Z.to_nat (u32 (ms + 1))) r (fun x => Z.land x bit =? 0) w.

Fixpoint first_free (n : nat) (i slots : Z) : Z :=
  match n with
  | O => -1
  | S n' => if Z.land slots 1 =? 0 then i else first_free n' (i + 1) (Z.shiftr slots 1)
  end.

Definition ahci_find_cmd_slot (max port : Z) w : Z * W :=
  let '(sact, w) := hba_read (port_reg port P_SACT) w in
  let '(ci, w) := hba_read (port_reg port P_CI) w in
  (first_free (Z.to_nat max) 0 (Z.lor sact ci), w).

Fixpoint enable_loop (n : nat) w : W :=
  match n with
  | O => w
  | S n' =>
      let w := update_reg R_GHC (fun x => Z.lor x AHCI_GHC_AE) w in
      let '(x, w) := hba_read R_GHC w in
      if negb (Z.land x AHCI_GHC_AE =? 0) then w else enable_loop n' (ksleep 10 w)
  end.

Definition ahci_enable w : bool * W :=
  let '(cap, w) := hba_read R_CAP1 w in
  let w := if Z.land cap AHCI_CAP_SAM =? 0 then
             let '(x, w) := hba_read R_GHC w in
             if Z.land x AHCI_GHC_AE =? 0 then enable_loop 3 w else w
           else w in
  let '(x, w) := hba_read R_GHC w in
  (negb (Z.land x AHCI_GHC_AE =? 0), w).

(** ** Commands *)

Definition read64 (lo hi : Z) w : Z * W :=
  let '(x, w) := hba_read lo w in let '(y, w) := hba_read hi w in (join64 x y, w).

(** The command header and its table, and the fields set in it. *)
Definition table_of (h : Z) (m : mem) : Z := join64 (load32 (h + 8) m) (load32 (h + 12) m).
Definition set_header (wr : bool) (plen : Z) (h : Z) (m : mem) : mem :=
  let m := store 1 h (set_field 0 5 (FIS_SIZE / 4) (load 1 h m)) m in
  let m := store 1 (h + 1) (set_field 2 1 1 (load 1 (h + 1) m)) m in
  let m := store 1 h (set_field 7 1 0 (load 1 h m)) m in
  let m := store 1 h (set_field 6 1 (if wr then 1 else 0) (load 1 h m)) m in
  store 2 (h + 2) plen m.

(** One region descriptor. *)
Definition set_prd (s64 : bool) (e addr dbc : Z) (m : mem) : mem :=
  let m := store 4 e (if s64 then low32 addr else u32 addr) m in
  let m := store 4 (e + 4) (if s64 then high32 addr else 0) m in
  let m := store 4 (e + 12) (set_field 0 22 dbc (load32 (e + 12) m)) m in
  store 4 (e + 12) (set_field 31 1 0 (load32 (e + 12) m)) m.

Fixpoint prd_loop (n : nat) (s64 : bool) (e base off blocks : Z) (m : mem) : Z * Z * Z * mem :=
  match n with
  | O => (e, off, blocks, m)
  | S n' => prd_loop n' s64 (e + PRD_SIZE) base (i32 (off + 0x400000)) (u64 (blocks - 0x2000)) (set_prd s64 e (u64 (base + off)) 0x3FFFFF m)
  end.

Fixpoint store_list (l : list (Z * Z)) (a : Z) (m : mem) : mem :=
  match l with
  | [] => m
  | (o, v) :: l' => store_list l' a (store 1 (a + o) v m)
  end.

(** The fields of the command FIS: offset and byte, in the order of the stores.  With
    cylinders the head is not stored. *)
Definition fis_fields (wr : bool) (caps startLBA count : Z) : list (Z * Z) :=
  [(0, FIS_TYPE_REG_H2D); (1, 0x80)] ++
  (if startLBA >=? 0x100000 then
     [(4, Z.shiftr (Z.land startLBA 0x0000000000FF) 0); (5, Z.shiftr (Z.land startLBA 0x00000000FF00) 8);
      (6, Z.shiftr (Z.land startLBA 0x000000FF0000) 16); (7, Z.shiftl 1 6); (8, Z.shiftr (Z.land startLBA 0x0000FF000000) 24);
      (9, Z.shiftr (Z.land startLBA 0x00FF00000000) 32); (10, Z.shiftr (Z.land startLBA 0xFF0000000000) 40);
      (2, if wr then ATA_CMD_WRITE_DMA_EXT else ATA_CMD_READ_DMA_EXT)]
   else if negb (Z.land caps (Z.shiftl 1 9) =? 0) then
     [(4, Z.shiftr (Z.land startLBA 0x00000FF) 0); (5, Z.shiftr (Z.land startLBA 0x000FF00) 8);
      (6, Z.shiftr (Z.land startLBA 0x0FF0000) 16); (7, Z.shiftl 1 6); (8, 0); (9, 0); (10, 0);
      (2, if wr then ATA_CMD_WRITE_DMA else ATA_CMD_READ_DMA)]
   else
     let sect := i32 (startLBA mod 63 + 1) in
     let cyl := i32 (u64 (startLBA + 1 - sect) / (16 * 63)) in
     [(4, sect); (5, Z.land (Z.shiftr cyl 0) 0xFF); (6, Z.land (Z.shiftr cyl 8) 0xFF); (8, 0); (9, 0); (10, 0);
      (2, if wr then ATA_CMD_WRITE_DMA else ATA_CMD_READ_DMA)]) ++
  [(12, Z.land count 0xFF); (13, Z.land (Z.shiftr count 8) 0xFF)].

(** The wait for the slot: [true] when the command came to its end. *)
Fixpoint wait_slot (n : nat) (port slot : Z) w : outcome (bool * W) :=
  match n with
  | O => OutOfFuel
  | S n' =>
      let '(ci, w) := hba_read (port_reg port P_CI) w in
      if Z.land ci (Z.shiftl 1 slot) =? 0 then Ret (true, w)
      else
        let '(ist, w) := hba_read (port_reg port P_IS) w in
        if negb (Z.land ist AHCI_PxIS_TFES =? 0) then Ret (false, w) else wait_slot n' port slot w
  end.

Fixpoint wait_idle (n : nat) (port : Z) w : outcome W :=
  match n with
  | O => OutOfFuel
  | S n' => let '(ci, w) := hba_read (port_reg port P_CI) w in if ci =? 0 then Ret w else wait_idle n' port w
  end.

Definition alloc_pages (n : Z) w : outcome (Z * W) :=
  let '(cap, w) := hba_read R_CAP1 w in
  if Z.land cap AHCI_CAP_S64A =? 0 then dma_alloc32 n w else dma_alloc n w.

(** Is the wait for the task file of a port over in time? *)
Definition wait_task (port : Z) w : bool * W :=
  let '(ok, w) := ahci_wait_clear (port_reg port P_TFD) AHCI_PxTFD_BSY 1000 w in
  if ok then ahci_wait_clear (port_reg port P_TFD) AHCI_PxTFD_DRQ 1000 w else (false, w).

(** Issue the command and wait for its end. *)
Definition issue (port slot : Z) w : outcome (bool * W) :=
  let w := hba_write (port_reg port P_CI) (u32 (Z.shiftl 1 slot)) w in
  '(ok, w) ← wait_slot fuel port slot w;
  if negb ok then Ret (false, w)
  else
    let '(ist, w) := hba_read (port_reg port P_IS) w in
    if negb (Z.land ist AHCI_PxIS_TFES =? 0) then Ret (false, w)
    else w ← wait_idle fuel port w; Ret (true, w).

(** The command in the slot with header [h]: the header, the regions and the FIS.  The
    result is the memory for the transfer and the index of the last region. *)
Definition ahci_build (wr : bool) (caps startLBA blocks h : Z) w : outcome (Z * Z * W) :=
  let table := table_of h (dma_mem w) in
  let plen := u16 (u16 (u64 (blocks - 1) / 0x400000) + 1) in
  let w := on_mem (set_header wr plen h) w in
  let w := on_mem (memset table 0 (TABLE_SIZE + (MAX_PRDS - 1) * PRD_SIZE)) w in
  '(cont, w) ← alloc_pages (u64 (blocks * 512) / PAGE_SIZE + 1) w;
  let '(cap, w) := hba_read R_CAP1 w in
  let s64 := negb (Z.land cap AHCI_CAP_S64A =? 0) in
  let n := load16 (h + 2) (dma_mem w) - 1 in
  let '(e, off, rest, mm) := prd_loop (Z.to_nat n) s64 (table + PRDT) cont 0 blocks (dma_mem w) in
  let w := dma_put mm w in
  let w := on_mem (set_prd s64 e (u64 (cont + off)) (u64 (rest * 512 - 1))) w in
  let w := on_mem (memset table 0 64) w in
  let w := on_mem (store_list (fis_fields wr caps startLBA blocks) table) w in
  Ret (cont, Z.max 0 n, w).

(** [ahci_ata_read] and [ahci_ata_write] are the same but for the direction: both copy the
    pages of the controller to the buffer at the end.  [m] is the memory of the caller; the
    wait before the command looks at the port with the number of the last region. *)
Definition ahci_ata_io (wr : bool) (d : ahci_drive_t) (startLBA blocks buf : Z) (m : mem) w : outcome (Z * mem * W) :=
  if blocks >? 0xFFFF then Ret (- EINVAL, m, w)
  else
    let port := ah_port d in
    let w := hba_write (port_reg port P_SERR) 0xFFFFFFFF w in
    let w := hba_write (port_reg port P_IS) 0xFFFFFFFF w in
    let '(slot, w) := ahci_find_cmd_slot (maxCommands d) port w in
    if slot <? 0 then Ret (-1, m, w)
    else
      let '(list, w) := read64 (port_reg port P_CLB) (port_reg port P_CLBU) w in
      '(cont, i, w) ← ahci_build wr (capabilities (ah_idSpace d)) startLBA blocks (list + HEADER_SIZE * slot) w;
      let '(ok, w) := wait_task i w in
      if negb ok then Ret (- ENODEV, m, w)
      else
        '(ok, w) ← issue port slot w;
        if negb (ok : bool) then Ret (- ENODEV, m, w)
        else
          let m := write_bytes (mem_bytes (dma_mem w) cont (Z.to_nat (blocks * 512))) buf m in
          w ← dma_free cont (u64 (blocks * 512) / PAGE_SIZE + 1) w;
          Ret (0, m, w).

Definition ahci_ata_read : ahci_drive_t -> Z -> Z -> Z -> mem -> W -> outcome (Z * mem * W) := ahci_ata_io false.
Definition ahci_ata_write : ahci_drive_t -> Z -> Z -> Z -> mem -> W -> outcome (Z * mem * W) := ahci_ata_io true.

Definition ahci_atapi_read (d : ahci_drive_t) (startLBA blocks buf : Z) (m : mem) w : outcome (Z * mem * W) := Ret (0, m, w).
Definition ahci_atapi_write (d : ahci_drive_t) (startLBA blocks buf : Z) (m : mem) w : outcome (Z * mem * W) := Ret (0, m, w).
End Driver.

(** ** Finding the drives *)

Definition CONTROLLER_SIZE : Z := 16.
Definition AHCI_DRIVE_SIZE : Z := 592.

Definition probe (p : ide_device) : bool :=
  negb (negb (dev_bus p =? DEVICE_BUS_PCI) || negb (hdr_class p =? PCI_CLASS_STORAGE_CONTROLLER) ||
        negb (hdr_subclass p =? PCI_SUBCLASS_SATA) || negb (hdr_progIF p =? 1)).

Section Attach.
Context {W H : Type} `{HB : Hba W} `{KH : KernelHeap H}.
(** Bounds for polling and for the block cache; the write to configuration space; switching
    off the cache for a page; what the kernel sees in the lower half of its address space;
    the boot disk and partition; the file system devices. *)
Variable (fuel cfuel : nat) (pci_config_write_word : Z -> Z -> W -> W) (uncached : Z -> W -> W) (lower_half : W -> mem).
Variable (bootDiskGUID bootPartGUID : Z * Z) (pdev : Z -> Z -> dal H W -> outcome (dal H W)).
Implicit Types (w : W) (s : dal H W).

(** A page whose address goes to a pair of registers; it is zeroed and not cached. *)
Definition new_area (lo hi : Z) w : outcome W :=
  '(a, w) ← alloc_pages 1 w;
  let w := hba_write hi (high32 a) (hba_write lo (low32 a) w) in
  Ret (uncached a (on_mem (memset a 0 PAGE_SIZE) w)).

Fixpoint new_tables (n : nat) (h : Z) w : outcome W :=
  match n with
  | O => Ret w
  | S n' =>
      '(a, w) ← alloc_pages 1 w;
      let w := on_mem (fun m => store 4 (h + 12) (high32 a) (store 4 (h + 8) (low32 a) m)) w in
      let w := uncached a (on_mem (memset a 0 PAGE_SIZE) w) in
      new_tables n' (h + HEADER_SIZE) w
  end.

(** Stop the port and give it its command list, command tables and received FIS; [false]
    when it hangs. *)
Definition port_init (max i : Z) w : outcome (bool * W) :=
  let w := update_reg (port_reg i P_CMD) (fun x => Z.ldiff x AHCI_PxCMD_ST) w in
  let w := update_reg (port_reg i P_CMD) (fun x => Z.ldiff x AHCI_PxCMD_FRE) w in
  let '(ok, w) := ahci_wait_clear (port_reg i P_CMD) AHCI_PxCMD_CR 600 w in
  let '(ok, w) := if ok : bool then ahci_wait_clear (port_reg i P_CMD) AHCI_PxCMD_FR 600 w else (false, w) in
  if negb ok then Ret (false, w)
  else
    let w := hba_write (port_reg i P_SERR) 0xFFFFFFFF w in
    let w := hba_write (port_reg i P_IS) 0xFFFFFFFF w in
    let w := hba_write (port_reg i P_IE) 0 w in
    w ← new_area (port_reg i P_CLB) (port_reg i P_CLBU) w;
    let '(list, w) := read64 (port_reg i P_CLB) (port_reg i P_CLBU) w in
    w ← new_tables (Z.to_nat max) list w;
    w ← new_area (port_reg i P_FB) (port_reg i P_FBU) w;
    Ret (true, w).

(** Is there a device, and does the port start? *)
Definition port_start (i : Z) w : bool * W :=
  let '(x, w) := hba_read (port_reg i P_SSTS) w in
  let '(y, w) := if Z.land x 0xF =? 0 then (0, w) else hba_read (port_reg i P_SSTS) w in
  if Z.land (Z.shiftr y 8) 0xF =? 0 then (false, w)
  else
    let w := update_reg (port_reg i P_CMD) (fun x => Z.lor x AHCI_PxCMD_FRE) w in
    let w := update_reg (port_reg i P_CMD) (fun x => Z.lor x AHCI_PxCMD_ST) w in
    let '(ok, w) := ahci_wait_set (port_reg i P_CMD) AHCI_PxCMD_CR 600 w in
    if ok then ahci_wait_set (port_reg i P_CMD) AHCI_PxCMD_FR 600 w else (false, w).

(** The identification; the bytes are taken from the address of the page without the
    offset of the direct map. *)
Definition identify (sig max i : Z) w : outcome (option (Z * list Z) * W) :=
  let '(slot, w) := ahci_find_cmd_slot max i w in
  let '(list, w) := read64 (port_reg i P_CLB) (port_reg i P_CLBU) w in
  let h := list + HEADER_SIZE * slot in
  let table := table_of h (dma_mem w) in
  let w := on_mem (fun m =>
    let m := store 1 h (set_field 0 5 (FIS_SIZE / 4) (load 1 h m)) m in
    let m := store 1 (h + 1) (set_field 2 1 1 (load 1 (h + 1) m)) m in
    store 2 (h + 2) 1 (store 1 h (set_field 6 1 0 (load 1 h m)) m)) w in
  '(buf, w) ← alloc_pages 1 w;
  let w := on_mem (set_prd true (table + PRDT) buf 511) w in
  let w := on_mem (memset table 0 FIS_SIZE) w in
  let w := on_mem (store_list [(0, FIS_TYPE_REG_H2D); (1, 0x80);
                               (2, if sig =? SATA_SIG_ATA then ATA_CMD_IDENTIFY else ATA_CMD_IDENTIFY_PACKET)] table) w in
  let give_up_page w := w ← dma_free buf 1 w; Ret (None, w) in
  let '(ok, w) := wait_task i w in
  if negb ok then give_up_page w
  else
    let w := hba_write (port_reg i P_CI) (u32 (Z.shiftl 1 slot)) w in
    let '(ok, w) := ahci_wait_clear (port_reg i P_TFD) AHCI_PxTFD_BSY 1000 w in
    if negb ok then give_up_page w
    else
      '(ok, w) ← wait_slot fuel i slot w;
      if negb (ok : bool) then give_up_page w
      else
        Ret (Some (buf, mem_bytes (lower_half w) buf 512), w).

Definition ahci_d_read (d : ahci_drive_t) (self lba blocks : Z) (old : list Z) w : outcome (Z * list Z * W) :=
  '(r, m, w) ← ahci_ata_read fuel d lba blocks 0 (bytes_at 0 old) w;
  Ret (r, mem_bytes m 0 (Z.to_nat (512 * blocks)), w).
Definition ahci_d_write (d : ahci_drive_t) (self lba blocks : Z) (bytes : list Z) w : outcome (Z * W) :=
  '(r, _, w) ← ahci_ata_write fuel d lba blocks 0 (bytes_at 0 bytes) w; Ret (r, w).

Definition new_drive (d : ahci_drive_t) : drive_t W :=
  mk_drive false (if ah_type d =? AHCI_ATA then DRIVE_TYPE_DISK else DRIVE_TYPE_OPTICAL) 0
    (if ah_type d =? AHCI_ATA then Some (ahci_d_read d) else None) (if ah_type d =? AHCI_ATA then Some (ahci_d_write d) else None)
    0 (repeat (mk_part 0 0 0 false 0 false) (Z.to_nat MAX_PARTITIONS)) false 0.

Definition on_hba (g : W -> W) s : dal H W := put_stor (set_dev (g (dev (dl_stor s))) (dl_stor s)) s.
Definition with_hba {A} (g : W -> outcome (A * W)) s : outcome (A * dal H W) :=
  '(x, w) ← g (dev (dl_stor s)); Ret (x, put_stor (set_dev w (dl_stor s)) s).
Definition ahci_alloc (size : Z) s : outcome (Z * dal H W) := '(a, h) ← kh_malloc size (dl_heap s); Ret (a, put_heap h s).

Definition attach_port (max i : Z) s : outcome (dal H W) :=
  '(ok, s) ← with_hba (port_init max i) s;
  if negb (ok : bool) then Ret s
  else
    '(ok, s) ← with_hba (fun w => Ret (port_start i w)) s;
    if negb (ok : bool) then Ret s
    else
      '(sig, s) ← with_hba (fun w => Ret (hba_read (port_reg i P_SIG) w)) s;
      if negb ((sig =? SATA_SIG_ATA) || (sig =? SATA_SIG_ATAPI)) then Ret s
      else
        '(_, s) ← ahci_alloc AHCI_DRIVE_SIZE s;
        '(r, s) ← with_hba (identify sig max i) s;
        match r with
        | None => Ret s
        | Some (buf, id) =>
            '(a, s) ← ahci_alloc DRIVE_T_SIZE s;
            '(_, s) ← with_hba (fun w => w ← dma_free buf 1 w; Ret (tt, w)) s;
            let d := mk_ahci (if sig =? SATA_SIG_ATA then AHCI_ATA else AHCI_ATAPI) (ide_capacity id) id (ide_model id) max i in
            '(_, s) ← drive_add cfuel bootDiskGUID bootPartGUID pdev a (upd_drive a (fun _ => new_drive d) s);
            Ret s
        end.

(** The hand-over by the firmware: [false] when it does not come to an end. *)
Definition handoff w : bool * W :=
  let '(cap2, w) := hba_read R_CAP2 w in
  if Z.land cap2 AHCI_EXCAP_BOH =? 0 then (true, w)
  else
    let '(x, w) := hba_read R_BOHC w in
    if negb (Z.land x AHCI_BOHC_OOS =? 0) then (true, w)
    else
      let w := ksleep 25 (update_reg R_BOHC (fun x => Z.lor x AHCI_BOHC_OOS) w) in
      let '(ok, w) := ahci_wait_clear R_BOHC AHCI_BOHC_BB 3000 w in
      if ok then ahci_wait_clear R_BOHC AHCI_BOHC_BOS 3000 w else (false, w).

(** [abar] is the address of the registers, from BAR5. *)
Definition attach (abar : Z) (p : ide_device) s : outcome (bool * dal H W) :=
  if negb (probe p) then Ret (false, s)
  else
    let s := on_hba (fun w => uncached abar (pci_config_write_word 0x4 (ide_pci_command (hdr_command p)) w)) s in
    '(_, s) ← ahci_alloc CONTROLLER_SIZE s;
    '(cap, s) ← with_hba (fun w => Ret (hba_read R_CAP1 w)) s;
    let max := Z.land (Z.shiftr cap 8) 0x1F + 1 in
    '(ok, s) ← with_hba (fun w => Ret (handoff w)) s;
    if negb (ok : bool) then Ret (false, s)
    else
      let s := on_hba (update_reg R_GHC (fun x => Z.ldiff x AHCI_GHC_IE)) s in
      '(ok, s) ← with_hba (fun w => Ret (ahci_enable w)) s;
      if negb (ok : bool) then Ret (false, s)
      else
        let s := on_hba (update_reg R_IS (fun x => Z.lor x 0xFFFFFFFF)) s in
        s ← for_up 32 0 (fun i s =>
              '(pi, s) ← with_hba (fun w => Ret (hba_read R_PI w)) s;
              if Z.land pi (Z.shiftl 1 i) =? 0 then Ret s else attach_port max i s) s;
        Ret (true, s).

Definition remove (p : ide_device) : bool := false.
End Attach.

(** ** A port, by the specification *)

(** What the controller sees of a command slot: the direction, the address of the first
    sector, the number of sectors and the memory, if the command is one the specification
    describes. *)
Record transfer : Type := mk_tr { t_write : bool; t_lba : Z; t_count : Z; t_addr : Z }.

Definition b8 (a : Z) (m : mem) : Z := load 1 a m.

Definition decode (list slot : Z) (m : mem) : option transfer :=
  let h := list + HEADER_SIZE * slot in
  let ct := load32 (h + 8) m + 2 ^ 32 * load32 (h + 12) m in
  let wr := Z.testbit (b8 h m) 6 in
  let cmd := b8 (ct + 2) m in
  let low := b8 (ct + 4) m + 2 ^ 8 * b8 (ct + 5) m + 2 ^ 16 * b8 (ct + 6) m in
  let ext := (cmd =? ATA_CMD_READ_DMA_EXT) || (cmd =? ATA_CMD_WRITE_DMA_EXT) in
  let lba := if ext then low + 2 ^ 24 * b8 (ct + 8) m + 2 ^ 32 * b8 (ct + 9) m + 2 ^ 40 * b8 (ct + 10) m
             else low + 2 ^ 24 * (b8 (ct + 7) m mod 16) in
  let n := if ext then b8 (ct + 12) m + 2 ^ 8 * b8 (ct + 13) m else b8 (ct + 12) m in
  let n := if n =? 0 then if ext then 65536 else 256 else n in
  if (b8 h m mod 32 =? 5) && (load16 (h + 2) m =? 1) && (b8 ct m =? FIS_TYPE_REG_H2D) && Z.testbit (b8 (ct + 1) m) 7 &&
     Z.testbit (b8 (ct + 7) m) 6 && (load32 (ct + PRDT + 12) m mod 2 ^ 22 + 1 =? 512 * n) &&
     (if wr then (cmd =? ATA_CMD_WRITE_DMA) || (cmd =? ATA_CMD_WRITE_DMA_EXT) else (cmd =? ATA_CMD_READ_DMA) || (cmd =? ATA_CMD_READ_DMA_EXT))
  then Some (mk_tr wr lba n (load32 (ct + PRDT) m + 2 ^ 32 * load32 (ct + PRDT + 4) m))
  else None.

(** The state of a port: its capabilities, command list and running commands, whether the
    last one failed, how often it will still be seen running, the task file of port 0, the
    disk, memory, and the pages in use. *)
Record hport : Type := mk_hp {
  hp_cap : Z;
  hp_clb : Z;
  hp_ci : Z;
  hp_tfes : bool;
  hp_wait : nat;
  hp_delay : nat -> nat;
  hp_tfd : Z;
  hp_sectors : Z;
  hp_media : Z -> list Z;
  hp_mem : mem;
  hp_used : Z -> bool
}.
Implicit Types (p : hport).

Definition put_run (ci : Z) (err : bool) (n : nat) (dl : nat -> nat) p : hport :=
  mk_hp (hp_cap p) (hp_clb p) ci err n dl (hp_tfd p) (hp_sectors p) (hp_media p) (hp_mem p) (hp_used p).
Definition put_hmem (m : mem) p : hport :=
  mk_hp (hp_cap p) (hp_clb p) (hp_ci p) (hp_tfes p) (hp_wait p) (hp_delay p) (hp_tfd p) (hp_sectors p) (hp_media p) m (hp_used p).
Definition put_hmedia (f : Z -> list Z) p : hport :=
  mk_hp (hp_cap p) (hp_clb p) (hp_ci p) (hp_tfes p) (hp_wait p) (hp_delay p) (hp_tfd p) (hp_sectors p) f (hp_mem p) (hp_used p).
Definition put_used (u : Z -> bool) p : hport :=
  mk_hp (hp_cap p) (hp_clb p) (hp_ci p) (hp_tfes p) (hp_wait p) (hp_delay p) (hp_tfd p) (hp_sectors p) (hp_media p) (hp_mem p) u.

Definition in_run (q n i : Z) : bool := (q <=? i) && (i <? q + n).
(** Pages taken and given back. *)
Definition take_pages (q n : Z) p : hport := put_used (fun i => in_run q n i || hp_used p i) p.
Definition free_pages (q n : Z) p : hport := put_used (fun i => negb (in_run q n i) && hp_used p i) p.

(** A run of pages not in use; there is one below a limit. *)
Definition unused (q n : Z) p : Prop := forall i, in_run q n i = true -> hp_used p i = false.
Definition room (limit n : Z) p : Prop := exists q, 0 <= q /\ q + n <= limit /\ unused q n p.

(** The transfer is made: a read changes memory, a write changes the disk. *)
Definition perform (t : transfer) p : hport :=
  if t_write t then put_hmedia (fun x => if in_run (t_lba t) (t_count t) x
    then mem_bytes (hp_mem p) (t_addr t + 512 * (x - t_lba t)) 512 else hp_media p x) p
  else put_hmem (write_bytes (sectors_from (hp_media p) (t_lba t) (Z.to_nat (t_count t))) (t_addr t) (hp_mem p)) p.

(** What the registers of the driver's port promise, with one command at a time. *)
Class AhciPort (W : Type) `{HB : Hba W} (port : Z) := {
  hview : W -> hport;
  hpages : Z;
  h_mem : forall w, dma_mem w = hp_mem (hview w);
  h_put : forall m w, hview (dma_put m w) = put_hmem m (hview w);
  h_cap : forall w, let r := hba_read R_CAP1 w in r.1 = hp_cap (hview w) /\ hview r.2 = hview w;
  h_clb : forall w, let r := hba_read (port_reg port P_CLB) w in r.1 = low32 (hp_clb (hview w)) /\ hview r.2 = hview w;
  h_clbu : forall w, let r := hba_read (port_reg port P_CLBU) w in r.1 = high32 (hp_clb (hview w)) /\ hview r.2 = hview w;
  h_tfd : forall w, let r := hba_read (port_reg 0 P_TFD) w in r.1 = hp_tfd (hview w) /\ hview r.2 = hview w;
  h_serr : forall v w, hview (hba_write (port_reg port P_SERR) v w) = hview w;
  (** Writing ones clears the reasons for an interrupt. *)
  h_is_clear : forall w, hview (hba_write (port_reg port P_IS) 0xFFFFFFFF w) =
    put_run (hp_ci (hview w)) false (hp_wait (hview w)) (hp_delay (hview w)) (hview w);
  h_is : forall w, let r := hba_read (port_reg port P_IS) w in
    (Z.land r.1 AHCI_PxIS_TFES =? 0) = negb (hp_tfes (hview w)) /\ hview r.2 = hview w;
  (** No native command queuing is in use. *)
  h_sact : forall w, let r := hba_read (port_reg port P_SACT) w in r.1 = 0 /\ hview r.2 = hview w;
  h_ci_idle : forall w, hp_ci (hview w) = 0 -> let r := hba_read (port_reg port P_CI) w in r.1 = 0 /\ hview r.2 = hview w;
  h_ci_wait : forall n w, hp_ci (hview w) <> 0 -> hp_wait (hview w) = S n -> let r := hba_read (port_reg port P_CI) w in
    r.1 = hp_ci (hview w) /\ hview r.2 = put_run (hp_ci (hview w)) (hp_tfes (hview w)) n (hp_delay (hview w)) (hview w);
  (** A command comes to its end: the transfer is made, or an error is reported and the
      command stays. *)
  h_ci_done : forall slot t w, 0 <= slot < 32 -> hp_ci (hview w) = 2 ^ slot -> hp_wait (hview w) = O ->
    decode (hp_clb (hview w)) slot (hp_mem (hview w)) = Some t -> let r := hba_read (port_reg port P_CI) w in
    if t_lba t + t_count t <=? hp_sectors (hview w)
    then r.1 = 0 /\ hview r.2 = put_run 0 false O (hp_delay (hview w)) (perform t (hview w))
    else r.1 = 2 ^ slot /\ hview r.2 = put_run (2 ^ slot) true O (hp_delay (hview w)) (hview w);
  h_ci_write : forall slot w, 0 <= slot < 32 -> hp_ci (hview w) = 0 ->
    hview (hba_write (port_reg port P_CI) (2 ^ slot) w) =
      put_run (2 ^ slot) (hp_tfes (hview w)) (hp_delay (hview w) O) (fun n => hp_delay (hview w) (S n)) (hview w);
  (** Where there are pages that are not in use, such pages are handed out; memory keeps its
      contents. *)
  h_alloc : forall n w, 1 <= n -> room hpages n (hview w) -> Returns (dma_alloc n w) (fun '(a, w') =>
    exists q, a = PAGE_SIZE * q /\ 0 <= q /\ q + n <= 2 ^ 52 /\ unused q n (hview w) /\ hview w' = take_pages q n (hview w));
  h_alloc32 : forall n w, 1 <= n -> room (Z.min hpages (2 ^ 20)) n (hview w) -> Returns (dma_alloc32 n w) (fun '(a, w') =>
    exists q, a = PAGE_SIZE * q /\ 0 <= q /\ q + n <= 2 ^ 20 /\ unused q n (hview w) /\ hview w' = take_pages q n (hview w));
  (** Freed pages may be overwritten. *)
  h_free : forall q n w, 1 <= n -> (forall i, in_run q n i = true -> hp_used (hview w) i = true) ->
    Returns (dma_free (PAGE_SIZE * q) n w) (fun w' => exists m, hview w' = put_hmem m (free_pages q n (hview w)) /\
      (forall x, in_run q n (x / PAGE_SIZE) = false -> m x = hp_mem (hview w) x) /\
      ((forall x, byte (hp_mem (hview w) x)) -> forall x, byte (m x)))
}.

(** ** Building a command *)

Lemma load_memset_other n a s k m : 0 <= k -> a + Z.of_nat n <= s \/ s + k <= a -> load n a (memset s 0 k m) = load n a m.
Proof. intros Hk Hd. apply load_ext. intros j Hj. apply (memset_spec s 0 k m Hk). lia. Qed.

Lemma load_zero n : forall a m, (forall j, 0 <= j < Z.of_nat n -> m (a + j) = 0) -> load n a m = 0.
Proof.
  induction n as [|n IH]; intros a m Hz; [reflexivity|]. cbn [load]. rewrite IH.
  - specialize (Hz 0 ltac:(lia)). rewrite Z.add_0_r in Hz. lia.
  - intros j Hj. rewrite <- Z.add_assoc. apply Hz. lia.
Qed.

Lemma load_memset_zero n a s k m : 0 <= k -> s <= a -> a + Z.of_nat n <= s + k -> load n a (memset s 0 k m) = 0.
Proof.
  intros Hk H1 H2. apply load_zero. intros j Hj. replace (a + j) with (s + (a - s + j)) by lia.
  rewrite (proj1 (memset_spec s 0 k m Hk)) by lia. reflexivity.
Qed.

#[local] Hint Rewrite load_memset_other load_memset_zero using (unfold PRDT, TABLE_SIZE, MAX_PRDS, PRD_SIZE in *; lia) : words.

(** The halves of an address. *)
Lemma halves x : 0 <= x < 2 ^ 64 -> low32 x = x mod 2 ^ 32 /\ high32 x = x / 2 ^ 32 /\ join64 (low32 x) (high32 x) = x.
Proof.
  intros Hx. assert (low32 x = x mod 2 ^ 32) as E1 by (unfold low32; change 0xFFFFFFFF with (Z.ones 32); apply Z.land_ones; lia).
  assert (high32 x = x / 2 ^ 32) as E2.
  { unfold high32. change 0xFFFFFFFF00000000 with (Z.shiftl (Z.ones 32) 32). rewrite Z.shiftr_land, Z.shiftr_shiftl_l, Z.sub_diag, Z.shiftl_0_r by lia.
    rewrite Z.land_ones, Z.shiftr_div_pow2, Z.mod_small by (pow2_consts; dm || lia). reflexivity. }
  splits; auto. unfold join64. rewrite E1, E2, Z.lor_comm, lor_disjoint by (pow2_consts; dm || lia). pow2_consts. dm.
Qed.

Lemma join64_sum a b : 0 <= a < 2 ^ 32 -> 0 <= b -> join64 a b = a + 2 ^ 32 * b.
Proof. intros Ha Hb. unfold join64. rewrite Z.lor_comm, lor_disjoint by lia. lia. Qed.

(** The first byte of the command header, whatever it was: the length of the FIS and the
    direction. *)
Lemma header_byte x wr : byte x ->
  let v := set_field 6 1 (if wr : bool then 1 else 0) (set_field 7 1 0 (set_field 0 5 5 x mod 256) mod 256) mod 256 in
  v mod 32 = 5 /\ Z.testbit v 6 = wr.
Proof.
  intros Hx. assert (forall wr, Forall (fun x => set_field 6 1 (if wr : bool then 1 else 0) (set_field 7 1 0 (set_field 0 5 5 x mod 256) mod 256) mod 256 mod 32 = 5 /\
    Z.testbit (set_field 6 1 (if wr : bool then 1 else 0) (set_field 7 1 0 (set_field 0 5 5 x mod 256) mod 256) mod 256) 6 = wr) (map Z.of_nat (List.seq 0 256))) as HF
    by (intros []; apply (bool_decide_unpack _); vm_compute; exact I).
  specialize (HF wr). rewrite Forall_forall in HF. apply HF, list_elem_of_In, in_map_iff. unfold byte in Hx. exists (Z.to_nat x). split; [lia|apply in_seq; lia].
Qed.

Lemma set_header_spec wr h m : (forall x, byte (m x)) ->
  let m' := set_header wr 1 h m in
  b8 h m' mod 32 = 5 /\ Z.testbit (b8 h m') 6 = wr /\ load16 (h + 2) m' = 1 /\
  (forall x, ~ (h <= x < h + 4) -> m' x = m x).
Proof.
  intros Hm m'. unfold m', set_header, b8. change (FIS_SIZE / 4) with 5.
  assert (load 1 h m = m h) as E0 by (cbn [load]; lia).
  assert (forall v k, load 1 h (store 1 h v k) = v mod 256) as E1 by (intros; rewrite load_store; reflexivity).
  destruct (header_byte (m h) wr (Hm h)) as [B1 B2].
  rewrite !(load_store_other 1 2 h (h + 2)) by lia. rewrite E1. rewrite (E1 (set_field 7 1 0 _)).
  rewrite !(load_store_other 1 1 h (h + 1)) by lia. rewrite E1, E0. splits; auto.
  - rewrite load_store. reflexivity.
  - intros x Hx. rewrite !store_other by (cbn; lia). reflexivity.
Qed.

Lemma set_prd_spec s64 e addr dbc m : 0 <= addr < 2 ^ 64 -> (s64 = false -> addr < 2 ^ 32) -> 0 <= dbc < 2 ^ 22 -> load32 (e + 12) m = 0 ->
  let m' := set_prd s64 e addr dbc m in
  load32 e m' + 2 ^ 32 * load32 (e + 4) m' = addr /\ load32 (e + 12) m' mod 2 ^ 22 = dbc /\ (forall x, ~ (e <= x < e + 16) -> m' x = m x).
Proof.
  intros Ha H32 Hd H0 m'. unfold m', set_prd. destruct (halves addr Ha) as (L & U & _).
  autorewrite with words. change (2 ^ (8 * Z.of_nat 4)) with (2 ^ 32). rewrite H0. splits.
  - destruct s64; [rewrite L, U; pow2_consts; dm|]. specialize (H32 eq_refl). unfold u32, wrap. pow2_consts. dm.
  - unfold set_field. change (Z.shiftl (Z.land 0 (Z.ones 1)) 31) with 0. rewrite Z.lor_0_r, Z.ldiff_0_l, Z.lor_0_l, Z.shiftl_0_r, Z.land_ones by lia.
    rewrite (Z.mod_small dbc) by lia. change (2 ^ 22) with 4194304 in *. rewrite (Z.mod_small dbc (2 ^ 32)) by (pow2_consts; lia).
    assert (Z.ldiff dbc (Z.shiftl (Z.ones 1) 31) = dbc) as ->.
    { apply Z.bits_inj'. intros i Hi. rewrite Z.ldiff_spec. change (Z.shiftl (Z.ones 1) 31) with (2 ^ 31). rewrite testbit_pow2 by lia.
      destruct (Z.eqb_spec 31 i) as [<-|]; [|apply andb_true_r]. rewrite (testbit_high 22 dbc); [reflexivity|change (2 ^ 22) with 4194304; lia|lia]. }
    pow2_consts. rewrite !Z.mod_small by (rewrite ?Z.mod_small; lia). reflexivity.
  - intros x Hx. rewrite !store_other by (cbn; lia). reflexivity.
Qed.

(** A request the driver can express: 48-bit addresses, or 28-bit ones on a drive that
    takes them; at most as many sectors as one region and the command can have. *)
Definition askable (caps startLBA blocks : Z) : Prop :=
  1 <= blocks /\ if startLBA >=? 0x100000 then startLBA < 2 ^ 48 /\ blocks <= 8192
                 else 0 <= startLBA /\ Z.land caps (Z.shiftl 1 9) <> 0 /\ blocks <= 256.

(** The command FIS, read back. *)
Definition fis_for (wr : bool) (startLBA blocks t : Z) (m : mem) : Prop :=
  b8 t m = FIS_TYPE_REG_H2D /\ Z.testbit (b8 (t + 1) m) 7 = true /\ b8 (t + 7) m = 64 /\
  b8 (t + 4) m = startLBA mod 256 /\ b8 (t + 5) m = startLBA / 2 ^ 8 mod 256 /\ b8 (t + 6) m = startLBA / 2 ^ 16 mod 256 /\
  b8 (t + 12) m = blocks mod 256 /\ b8 (t + 13) m = blocks / 2 ^ 8 mod 256 /\
  if startLBA >=? 0x100000
  then b8 (t + 2) m = (if wr then ATA_CMD_WRITE_DMA_EXT else ATA_CMD_READ_DMA_EXT) /\ b8 (t + 8) m = startLBA / 2 ^ 24 mod 256 /\
       b8 (t + 9) m = startLBA / 2 ^ 32 mod 256 /\ b8 (t + 10) m = startLBA / 2 ^ 40 mod 256
  else b8 (t + 2) m = (if wr then ATA_CMD_WRITE_DMA else ATA_CMD_READ_DMA).

Lemma store_list_other l : forall t m x, Forall (fun '(o, _) => 0 <= o < 64) l -> ~ (t <= x < t + 64) -> store_list l t m x = m x.
Proof.
  induction l as [|[o v] l IH]; intros t m x HF Hx; [reflexivity|]. apply Forall_cons in HF as [Ho HF]. cbn [store_list].
  rewrite IH by assumption. apply store_other. cbn. lia.
Qed.

Lemma fis_fields_small wr caps startLBA count : Forall (fun '(o, _) => 0 <= o < 64) (fis_fields wr caps startLBA count).
Proof. unfold fis_fields. destruct (startLBA >=? 0x100000); [|destruct (negb _)]; repeat (apply List.Forall_cons; [lia|]); apply List.Forall_nil. Qed.

Lemma fis_built wr caps startLBA blocks t m : askable caps startLBA blocks ->
  fis_for wr startLBA blocks t (store_list (fis_fields wr caps startLBA blocks) t m).
Proof.
  intros [Hb Ha]. unfold fis_fields, fis_for, b8. rewrite !(low_byte blocks), (low_byte (Z.shiftr blocks 8)), (Z.shiftr_div_pow2 blocks) by lia.
  destruct (startLBA >=? 0x100000).
  - change 0x00000000FF00 with (Z.shiftl 0xFF 8). change 0x0000000000FF with (Z.shiftl 0xFF 0).
    change 0x000000FF0000 with (Z.shiftl 0xFF 16). change 0x0000FF000000 with (Z.shiftl 0xFF 24).
    change 0x00FF00000000 with (Z.shiftl 0xFF 32). change 0xFF0000000000 with (Z.shiftl 0xFF 40). rewrite !byte_at by lia.
    cbn [app store_list]. replace (t + 0) with t by lia. autorewrite with words. change (2 ^ (8 * Z.of_nat 1)) with 256. change (2 ^ 0) with 1.
    rewrite Z.div_1_r, !Zmod_mod. splits; try reflexivity; now destruct wr.
  - rewrite (proj2 (Z.eqb_neq _ 0) (proj1 (proj2 Ha))). cbn [negb].
    change 0x000FF00 with (Z.shiftl 0xFF 8). change 0x00000FF with (Z.shiftl 0xFF 0). change 0x0FF0000 with (Z.shiftl 0xFF 16). rewrite !byte_at by lia.
    cbn [app store_list]. replace (t + 0) with t by lia. autorewrite with words. change (2 ^ (8 * Z.of_nat 1)) with 256. change (2 ^ 0) with 1.
    rewrite Z.div_1_r, !Zmod_mod. splits; try reflexivity; now destruct wr.
Qed.

(** The controller decodes what the driver has built. *)
Lemma decode_built wr caps startLBA blocks list slot addr m :
  let h := list + HEADER_SIZE * slot in
  let ct := load32 (h + 8) m + 2 ^ 32 * load32 (h + 12) m in
  askable caps startLBA blocks ->
  b8 h m mod 32 = 5 /\ Z.testbit (b8 h m) 6 = wr /\ load16 (h + 2) m = 1 -> fis_for wr startLBA blocks ct m ->
  load32 (ct + PRDT) m + 2 ^ 32 * load32 (ct + PRDT + 4) m = addr -> load32 (ct + PRDT + 12) m mod 2 ^ 22 = 512 * blocks - 1 ->
  decode list slot m = Some (mk_tr wr startLBA blocks addr).
Proof.
  intros h ct [Hb Ha] (H1 & H2 & H3) (F0 & F1 & F7 & F4 & F5 & F6 & F12 & F13 & F) Hp1 Hp2. unfold decode. fold h ct.
  rewrite H1, H2, H3, F0, F1, F7, F4, F5, F6, F12, F13, Hp1, Hp2. change (Z.testbit 64 6) with true. change (64 mod 16) with 0.
  assert ((512 * blocks - 1 + 1 =? 512 * blocks) = true) as Hlen by (apply Z.eqb_eq; lia). change (2 ^ 8) with 256.
  change (2 ^ 16) with 65536. change (2 ^ 24) with 16777216.
  revert Ha F. destruct (Z.geb_spec startLBA 0x100000); intros Ha F.
  - destruct F as (-> & -> & -> & ->). destruct Ha as [Hl Hb'].
    set (ext := (_ =? ATA_CMD_READ_DMA_EXT) || _). assert (ext = true) as -> by (destruct wr; reflexivity).
    set (ok := if wr then _ else _). assert (ok = true) as -> by (destruct wr; reflexivity).
    rewrite (length_48 blocks _ ltac:(lia) eq_refl), Hlen. cbn [andb Z.eqb Pos.eqb FIS_TYPE_REG_H2D]. do 2 f_equal.
    pow2_consts. change (2 ^ 24) with 16777216. change (2 ^ 40) with 1099511627776. change (2 ^ 48) with 281474976710656 in Hl. dm.
  - rewrite F. destruct Ha as (Hl & _ & Hb').
    set (ext := (_ =? ATA_CMD_READ_DMA_EXT) || _). assert (ext = false) as -> by (destruct wr; reflexivity).
    set (ok := if wr then _ else _). assert (ok = true) as -> by (destruct wr; reflexivity).
    rewrite (length_28 blocks) by lia. rewrite Hlen. cbn [andb Z.eqb Pos.eqb FIS_TYPE_REG_H2D]. do 2 f_equal. dm.
Qed.

(** The memory with a command in it. *)
Definition built (wr s64 : bool) (caps startLBA blocks h table cont : Z) (m : mem) : mem :=
  store_list (fis_fields wr caps startLBA blocks) table (memset table 0 64
    (set_prd s64 (table + PRDT) cont (512 * blocks - 1)
      (memset table 0 (TABLE_SIZE + (MAX_PRDS - 1) * PRD_SIZE) (set_header wr 1 h m)))).

Section Built.
Variable (wr s64 : bool) (caps startLBA blocks list table cont : Z) (m : mem).
Hypothesis (Hm : forall x, byte (m x)) (Ha : askable caps startLBA blocks).
Hypothesis (Hd : table + 4096 <= list \/ list + 4096 <= table) (Hc : 0 <= cont < 2 ^ 64) (Hc32 : s64 = false -> cont < 2 ^ 32).
Hypothesis Ht : load32 (list + 8) m + 2 ^ 32 * load32 (list + 12) m = table.
Abbreviation m' := (built wr s64 caps startLBA blocks list table cont m).

Lemma askable_small : 1 <= blocks <= 8192.
Proof. destruct Ha as [H1 H2]. destruct (startLBA >=? 0x100000); lia. Qed.

Lemma prd_built : let m3 := set_prd s64 (table + PRDT) cont (512 * blocks - 1) (memset table 0 4096 (set_header wr 1 list m)) in
  load32 (table + PRDT) m3 + 2 ^ 32 * load32 (table + PRDT + 4) m3 = cont /\ load32 (table + PRDT + 12) m3 mod 2 ^ 22 = 512 * blocks - 1 /\
  (forall x, ~ (table + PRDT <= x < table + PRDT + 16) -> m3 x = memset table 0 4096 (set_header wr 1 list m) x).
Proof.
  pose proof askable_small. apply set_prd_spec; auto; [change (2 ^ 22) with 4194304; lia|]. apply load_memset_zero; unfold PRDT; lia.
Qed.

(** Nothing but the header and the table has changed. *)
Lemma built_frame x : ~ (list <= x < list + 4) -> ~ (table <= x < table + 4096) -> m' x = m x.
Proof.
  intros H1 H2. unfold built. change (TABLE_SIZE + (MAX_PRDS - 1) * PRD_SIZE) with 4096. rewrite store_list_other by (apply fis_fields_small || lia).
  rewrite (proj2 (memset_spec table 0 64 _ ltac:(lia))) by lia. rewrite (proj2 (proj2 prd_built)) by (unfold PRDT; lia).
  rewrite (proj2 (memset_spec table 0 4096 _ ltac:(lia))) by lia. now apply set_header_spec.
Qed.

(** Behind the FIS the table holds the region, in front of it the header is as set. *)
Lemma built_high n a : table + 64 <= a \/ a + Z.of_nat n <= table ->
  load n a m' = load n a (set_prd s64 (table + PRDT) cont (512 * blocks - 1) (memset table 0 4096 (set_header wr 1 list m))).
Proof.
  intros Hn. unfold built. change (TABLE_SIZE + (MAX_PRDS - 1) * PRD_SIZE) with 4096. apply load_ext. intros k Hk.
  rewrite store_list_other by (apply fis_fields_small || lia). apply memset_spec; lia.
Qed.

Lemma built_header n a : list <= a -> a + Z.of_nat n <= list + 4096 -> load n a m' = load n a (set_header wr 1 list m).
Proof.
  intros H1 H2. rewrite built_high by lia. apply load_ext. intros k Hk. rewrite (proj2 (proj2 prd_built)) by (unfold PRDT; lia).
  apply memset_spec; lia.
Qed.

Lemma built_decodes : decode list 0 m' = Some (mk_tr wr startLBA blocks cont).
Proof.
  destruct (set_header_spec wr list m Hm) as (S1 & S2 & S3 & S4). destruct prd_built as (P1 & P2 & _).
  assert (forall k, 4 <= k < 4000 -> load32 (list + k) m' = load32 (list + k) m) as El.
  { intros k Hk. rewrite built_header by lia. apply load_ext. intros j Hj. apply S4. lia. }
  apply (decode_built wr caps); change (HEADER_SIZE * 0) with 0; rewrite ?Z.add_0_r, ?(El 8), ?(El 12), ?Ht by lia; auto.
  - unfold b8. rewrite !built_header by lia. auto.
  - apply fis_built. exact Ha.
  - rewrite !built_high by (unfold PRDT; lia). exact P1.
  - rewrite !built_high by (unfold PRDT; lia). exact P2.
Qed.

Lemma built_bytes : forall x, byte (m' x).
Proof.
  assert (forall n a v k, (forall x, byte (k x)) -> forall x, byte (store n a v k x)) as HS.
  { induction n as [|n IH]; intros a v k Hk x; [apply Hk|]. cbn [store]. apply IH. intros y. unfold upd. destruct (y =? a); [apply byte_mod|apply Hk]. }
  assert (forall s n k, 0 <= n -> (forall x, byte (k x)) -> forall x, byte (memset s 0 n k x)) as HM.
  { intros s n k Hn Hk x. destruct (memset_spec s 0 n k Hn) as [M1 M2]. destruct (decide (s <= x < s + n)) as [Hx|Hx].
    - replace x with (s + (x - s)) by lia. rewrite M1 by lia. split; [discriminate|reflexivity].
    - rewrite M2 by lia. apply Hk. }
  assert (forall l t k, (forall x, byte (k x)) -> forall x, byte (store_list l t k x)) as HL.
  { induction l as [|[o v] l IH]; intros t k Hk x; [apply Hk|]. cbn [store_list]. apply IH. auto. }
  unfold built, set_prd, set_header. apply HL, HM; [lia|]. do 4 apply HS. apply HM; [unfold TABLE_SIZE, MAX_PRDS, PRD_SIZE; lia|].
  do 5 apply HS. exact Hm.
Qed.
End Built.

(** ** One request *)

Section Port.
Context {W : Type} {HB : Hba W} (port : Z) {CH : AhciPort W port}.
Implicit Types (w : W).

Lemma on_mem_view g w : hview (on_mem g w) = put_hmem (g (hp_mem (hview w))) (hview w).
Proof. unfold on_mem. now rewrite h_put, h_mem. Qed.

Lemma alloc_pages_spec n w : 1 <= n -> room (Z.min hpages (2 ^ 20)) n (hview w) ->
  Returns (alloc_pages n w) (fun '(a, w') => exists q, a = PAGE_SIZE * q /\ 0 <= q /\ q + n <= 2 ^ 52 /\ unused q n (hview w) /\
    (Z.land (hp_cap (hview w)) AHCI_CAP_S64A = 0 -> a < 2 ^ 32) /\ hview w' = take_pages q n (hview w)).
Proof.
  intros Hn Hr. unfold alloc_pages. destruct (h_cap w) as [E1 E2]. destruct (hba_read R_CAP1 w) as [cap w1]. cbn [fst snd] in *. subst cap. rewrite <- E2 in *.
  destruct (Z.eqb_spec (Z.land (hp_cap (hview w1)) AHCI_CAP_S64A) 0) as [E|E].
  - eapply Returns_mono; [now apply h_alloc32|]. intros [a w'] (q & -> & H1 & H2 & H3 & H4). exists q. unfold PAGE_SIZE. pow2_consts.
    change (2 ^ 20) with 1048576 in H2. change (2 ^ 52) with 4503599627370496. splits; auto; lia.
  - eapply Returns_mono; [apply h_alloc; auto; destruct Hr as (q & H1 & H2 & H3); exists q; splits; auto; lia|].
    intros [a w'] (q & -> & H1 & H2 & H3 & H4). exists q. splits; auto. contradiction.
Qed.

Lemma find_slot_spec max w : hp_ci (hview w) = 0 -> 1 <= max ->
  exists w', ahci_find_cmd_slot max port w = (0, w') /\ hview w' = hview w.
Proof.
  intros Hc Hm. unfold ahci_find_cmd_slot. destruct (h_sact w) as [E1 E2]. destruct (hba_read _ w) as [x w1]. cbn [fst snd] in *. subst x.
  destruct (h_ci_idle w1) as [E3 E4]; [congruence|]. destruct (hba_read _ w1) as [y w2]. cbn [fst snd] in *. subst y.
  exists w2. split; [|congruence]. f_equal. replace (Z.to_nat max) with (S (Z.to_nat (max - 1))) by lia. reflexivity.
Qed.

Lemma read_list_spec w : 0 <= hp_clb (hview w) < 2 ^ 64 ->
  exists w', read64 (port_reg port P_CLB) (port_reg port P_CLBU) w = (hp_clb (hview w), w') /\ hview w' = hview w.
Proof.
  intros Hl. unfold read64. destruct (h_clb w) as [E1 E2]. destruct (hba_read _ w) as [x w1]. cbn [fst snd] in *. subst x.
  destruct (h_clbu w1) as [E3 E4]. destruct (hba_read _ w1) as [y w2]. cbn [fst snd] in *. subst y. exists w2.
  rewrite E2, (proj2 (proj2 (halves _ Hl))). split; congruence.
Qed.

Lemma wait_task_spec w : Z.land (hp_tfd (hview w)) AHCI_PxTFD_BSY = 0 -> Z.land (hp_tfd (hview w)) AHCI_PxTFD_DRQ = 0 ->
  exists w', wait_task 0 w = (true, w') /\ hview w' = hview w.
Proof.
  intros H1 H2. unfold wait_task, ahci_wait_clear. change (Z.to_nat (u32 (1000 + 1))) with (S 1000). cbn [wait_loop].
  destruct (h_tfd w) as [E1 E2]. destruct (hba_read _ w) as [x w1]. cbn [fst snd] in *. subst x. rewrite H1. cbn [Z.eqb].
  destruct (h_tfd w1) as [E3 E4]. destruct (hba_read _ w1) as [x w2]. cbn [fst snd] in *. subst x. rewrite E2, H2. cbn [Z.eqb].
  exists w2. split; [reflexivity|congruence].
Qed.

(** The state at the end of a command. *)
Definition finished (t : transfer) (dl : nat -> nat) p : hport := put_run 0 false O dl (perform t p).

Lemma wait_slot_spec t : forall n w, hp_ci (hview w) = 1 -> hp_tfes (hview w) = false -> (hp_wait (hview w) < n)%nat ->
  decode (hp_clb (hview w)) 0 (hp_mem (hview w)) = Some t ->
  Returns (wait_slot n port 0 w) (fun '(ok, w') =>
    if t_lba t + t_count t <=? hp_sectors (hview w) then ok = true /\ hview w' = finished t (hp_delay (hview w)) (hview w)
    else ok = false /\ hview w' = put_run 1 true O (hp_delay (hview w)) (hview w)).
Proof.
  induction n as [|n IH]; intros w Hc He Hn Hd; [lia|]. cbn [wait_slot]. destruct (hp_wait (hview w)) as [|k] eqn:Ek.
  - pose proof (h_ci_done 0 t w ltac:(lia) Hc Ek Hd) as HD. destruct (hba_read (port_reg port P_CI) w) as [x w1]. cbn [fst snd] in HD.
    destruct (t_lba t + t_count t <=? hp_sectors (hview w)); destruct HD as [-> V].
    + cbn [Z.land Z.eqb]. apply Returns_ret. auto.
    + change (Z.land (2 ^ 0) (Z.shiftl 1 0) =? 0) with false. cbv iota. destruct (h_is w1) as [E1 E2].
      destruct (hba_read (port_reg port P_IS) w1) as [y w2]. cbn [fst snd] in *. rewrite E1, V. cbn [hp_tfes put_run negb].
      apply Returns_ret. split; [reflexivity|]. now rewrite E2, V.
  - assert (hp_ci (hview w) <> 0) as Hc0 by (rewrite Hc; discriminate).
    destruct (h_ci_wait k w Hc0 Ek) as [E1 E2]. destruct (hba_read (port_reg port P_CI) w) as [x w1]. cbn [fst snd] in *. subst x. rewrite Hc.
    change (Z.land 1 (Z.shiftl 1 0) =? 0) with false. cbv iota. destruct (h_is w1) as [E3 E4].
    destruct (hba_read (port_reg port P_IS) w1) as [y w2]. cbn [fst snd] in *. rewrite E3, E2. cbn [hp_tfes put_run]. rewrite He. cbn [negb].
    eapply Returns_mono; [apply (IH w2)|]; rewrite ?E4, ?E2; auto; [cbn; lia|].
    cbn [hp_sectors put_run hp_delay]. intros [ok w'] HR. destruct (_ <=? _); destruct HR as [-> ->]; (split; [reflexivity|]); [unfold finished, perform; cbn; now destruct (t_write t)|reflexivity].
Qed.

Lemma issue_spec fuel t w : hp_ci (hview w) = 0 -> hp_tfes (hview w) = false -> (forall k, (hp_delay (hview w) k < fuel)%nat) ->
  decode (hp_clb (hview w)) 0 (hp_mem (hview w)) = Some t ->
  Returns (issue fuel port 0 w) (fun '(ok, w') => exists dl, (forall k, (dl k < fuel)%nat) /\
    if t_lba t + t_count t <=? hp_sectors (hview w) then ok = true /\ hview w' = finished t dl (hview w)
    else ok = false /\ hview w' = put_run 1 true O dl (hview w)).
Proof.
  intros Hc He Hdl Hd. unfold issue. change (u32 (Z.shiftl 1 0)) with (2 ^ 0). set (w1 := hba_write _ _ w).
  assert (hview w1 = put_run 1 false (hp_delay (hview w) O) (fun n => hp_delay (hview w) (S n)) (hview w)) as V1.
  { unfold w1. rewrite h_ci_write, He by (auto; lia). reflexivity. }
  assert (forall k, ((fun n => hp_delay (hview w) (S n)) k < fuel)%nat) as Hdl' by (intros k; apply Hdl).
  eapply Returns_bind; [apply (wait_slot_spec t fuel w1); rewrite V1; auto; apply Hdl|].
  intros [ok w2] HR. cbv beta iota in HR. rewrite V1 in HR. cbn [hp_sectors put_run hp_delay] in HR. destruct (t_lba t + t_count t <=? hp_sectors (hview w)); destruct HR as [-> V2]; cbn [negb].
  - destruct (h_is w2) as [E1 E2]. destruct (hba_read (port_reg port P_IS) w2) as [y w3]. cbn [fst snd] in *. rewrite E1, V2.
    assert (hp_tfes (finished t (fun n => hp_delay (hview w) (S n)) (put_run 1 false (hp_delay (hview w) 0) (fun n => hp_delay (hview w) (S n)) (hview w))) = false) as -> by reflexivity.
    cbn [negb]. destruct fuel as [|f]; [specialize (Hdl O); lia|]. cbn [wait_idle].
    destruct (h_ci_idle w3) as [E3 E4]; [rewrite E2, V2; reflexivity|]. destruct (hba_read (port_reg port P_CI) w3) as [z w4]. cbn [fst snd] in *. subst z.
    cbn [Z.eqb mbind outcome_bind]. apply Returns_ret. eexists. split; [exact Hdl'|]. split; [reflexivity|]. rewrite E4, E2, V2.
    unfold finished, perform. cbn. now destruct (t_write t).
  - apply Returns_ret. eexists. split; [exact Hdl'|]. split; [reflexivity|]. exact V2.
Qed.

(** Between requests: nothing runs, no delay is too long, the task file of port 0 is idle,
    and the command list and the table of the first slot are two pages in use. *)
Record ahci_ready (fuel : nat) p : Prop := {
  ar_ci : hp_ci p = 0;
  ar_delay : forall k, (hp_delay p k < fuel)%nat;
  ar_tfd : Z.land (hp_tfd p) AHCI_PxTFD_BSY = 0 /\ Z.land (hp_tfd p) AHCI_PxTFD_DRQ = 0;
  ar_bytes : forall x, byte (hp_mem p x);
  ar_pages : exists ql qt, hp_clb p = PAGE_SIZE * ql /\ 0 <= ql < 2 ^ 52 /\ hp_used p ql = true /\
    load32 (hp_clb p + 8) (hp_mem p) + 2 ^ 32 * load32 (hp_clb p + 12) (hp_mem p) = PAGE_SIZE * qt /\ hp_used p qt = true /\ ql <> qt
}.

Definition pages_for (blocks : Z) : Z := 512 * blocks / PAGE_SIZE + 1.

Lemma build_spec fuel wr caps startLBA blocks w : let p := hview w in
  askable caps startLBA blocks -> ahci_ready fuel p -> room (Z.min hpages (2 ^ 20)) (pages_for blocks) p ->
  Returns (ahci_build wr caps startLBA blocks (hp_clb p) w) (fun '(cont, i, w') => i = 0 /\ exists q M, cont = PAGE_SIZE * q /\ 0 <= q /\ q + pages_for blocks <= 2 ^ 52 /\
    unused q (pages_for blocks) p /\ hview w' = put_hmem M (take_pages q (pages_for blocks) p) /\ (forall x, byte (M x)) /\
    decode (hp_clb p) 0 M = Some (mk_tr wr startLBA blocks cont) /\
    forall ql qt, hp_clb p = PAGE_SIZE * ql -> load32 (hp_clb p + 8) (hp_mem p) + 2 ^ 32 * load32 (hp_clb p + 12) (hp_mem p) = PAGE_SIZE * qt -> ql <> qt ->
      forall x, ~ (hp_clb p <= x < hp_clb p + 4) -> x / PAGE_SIZE <> qt -> M x = hp_mem p x).
Proof.
  intros p Ha [_ _ _ Hby (ql & qt & El & Hql & _ & Et & _ & Hne)] Hroom. unfold ahci_build. set (list := hp_clb p) in *.
  pose proof (askable_small caps startLBA blocks Ha) as Hb. rewrite h_mem. fold p.
  assert (forall k, 0 <= load32 k (hp_mem p) < 2 ^ 32) as Hl32 by (intros k; apply (load_range 4); intros; apply Hby).
  unfold table_of. rewrite join64_sum, Et by apply Hl32. set (table := PAGE_SIZE * qt) in *.
  assert (table + 4096 <= list \/ list + 4096 <= table) as Hd by (unfold table, PAGE_SIZE in *; lia).
  assert (u16 (u16 (u64 (blocks - 1) / 0x400000) + 1) = 1) as ->.
  { rewrite (wrap_small 64) by (pow2_consts; lia). replace ((blocks - 1) / 0x400000) with 0 by dm. reflexivity. }
  set (w1 := on_mem _ (on_mem _ w)). set (m2 := memset table 0 4096 (set_header wr 1 list (hp_mem p))).
  assert (hview w1 = put_hmem m2 p) as V1 by (unfold w1; rewrite !on_mem_view; reflexivity).
  assert (u64 (blocks * 512) / PAGE_SIZE + 1 = pages_for blocks) as -> by (unfold pages_for; rewrite wrap_small by (pow2_consts; lia); f_equal; f_equal; lia).
  assert (1 <= pages_for blocks) as Hn by (unfold pages_for, PAGE_SIZE; dm).
  eapply Returns_bind; [apply (alloc_pages_spec _ w1 Hn); rewrite V1; exact Hroom|]. intros [cont w2] (q & -> & Hq0 & Hq & Hun & H32 & V2).
  rewrite V1 in Hun, H32, V2. destruct (h_cap w2) as [E1 E2]. destruct (hba_read R_CAP1 w2) as [cap w3]. cbn [fst snd] in *. subst cap.
  rewrite h_mem, E2, V2. cbn [hp_cap hp_mem take_pages put_used put_hmem].
  assert (load16 (list + 2) m2 = 1) as ->.
  { unfold m2. rewrite load_memset_other by lia. now apply set_header_spec. }
  change (Z.to_nat (1 - 1)) with O. change (Z.max 0 (1 - 1)) with 0. cbn [prd_loop]. rewrite Z.add_0_r.
  set (s64 := negb (Z.land (hp_cap p) AHCI_CAP_S64A =? 0)).
  assert (0 <= PAGE_SIZE * q < 2 ^ 64) as Hc by (change (2 ^ 52) with 4503599627370496 in *; unfold PAGE_SIZE; pow2_consts; lia).
  rewrite (wrap_small 64 (PAGE_SIZE * q)), (wrap_small 64 (blocks * 512 - 1)) by (pow2_consts; lia). rewrite (Z.mul_comm blocks 512).
  assert (s64 = false -> PAGE_SIZE * q < 2 ^ 32) as Hc32.
  { intros E. apply H32. unfold s64 in E. destruct (Z.eqb_spec (Z.land (hp_cap p) AHCI_CAP_S64A) 0) as [E0|]; [exact E0|discriminate]. }
  apply Returns_ret. split; [reflexivity|]. exists q, (built wr s64 caps startLBA blocks list table (PAGE_SIZE * q) (hp_mem p)).
  splits; auto.
  - rewrite !on_mem_view, h_put, E2, V2. unfold built. reflexivity.
  - apply built_bytes; auto.
  - apply (built_decodes wr s64 caps); auto.
  - intros ql' qt' _ Et' _ x Hx1 Hx2. apply built_frame; auto. unfold table, PAGE_SIZE in *. assert (qt = qt') as -> by lia. intros Hx. apply Hx2. dm.
Qed.

Lemma mem_bytes_ext m1 m2 n : forall addr, (forall x, addr <= x < addr + Z.of_nat n -> m1 x = m2 x) -> mem_bytes m1 addr n = mem_bytes m2 addr n.
Proof.
  induction n as [|n IH]; intros addr He; [reflexivity|]. cbn [mem_bytes]. rewrite He, (IH (addr + 1)) by (intros; try apply He; lia). reflexivity.
Qed.

Lemma in_run_spec q n i : in_run q n i = true <-> q <= i < q + n.
Proof. unfold in_run. rewrite andb_true_iff, Z.leb_le, Z.ltb_lt. tauto. Qed.

(** The bytes of a request fit the pages. *)
Lemma pages_fit q blocks x : 1 <= blocks -> PAGE_SIZE * q <= x < PAGE_SIZE * q + 512 * blocks -> in_run q (pages_for blocks) (x / PAGE_SIZE) = true.
Proof. intros Hb Hx. apply in_run_spec. unfold pages_for, PAGE_SIZE in *. dm. Qed.

(** What a transfer may change: memory in the pages of the transfer and in those of the
    command list and table. *)
Lemma still_ready fuel p m' q n dl used :
  ahci_ready fuel p -> (forall x, byte (m' x)) -> (forall k, (dl k < fuel)%nat) -> unused q n p ->
  (forall ql qt, hp_clb p = PAGE_SIZE * ql -> load32 (hp_clb p + 8) (hp_mem p) + 2 ^ 32 * load32 (hp_clb p + 12) (hp_mem p) = PAGE_SIZE * qt -> ql <> qt ->
    forall x, ~ (hp_clb p <= x < hp_clb p + 4) -> x / PAGE_SIZE <> qt -> in_run q n (x / PAGE_SIZE) = false -> m' x = hp_mem p x) ->
  (forall i, used i = hp_used p i) ->
  forall p', hp_ci p' = 0 -> hp_delay p' = dl -> hp_tfd p' = hp_tfd p -> hp_mem p' = m' -> hp_clb p' = hp_clb p -> hp_used p' = used -> ahci_ready fuel p'.
Proof.
  intros [_ _ Htf _ (ql & qt & E1 & Hq & U1 & Et & U2 & Hne)] Hby Hdl Hun Hm Hu p' H1 H2 H3 H4 H5 H6. subst dl m' used.
  assert (in_run q n ql = false) as Hr.
  { destruct (in_run q n ql) eqn:E; [|reflexivity]. rewrite (Hun ql E) in U1. discriminate. }
  assert (forall k, 4 <= k < 4000 -> load32 (hp_clb p + k) (hp_mem p') = load32 (hp_clb p + k) (hp_mem p)) as El.
  { intros k Hk. apply load_ext. intros j Hj. assert ((hp_clb p + k + j) / PAGE_SIZE = ql) as Eq by (unfold PAGE_SIZE in *; dm).
    apply (Hm ql qt E1 Et Hne); [lia|congruence|congruence]. }
  split; auto; [now rewrite H3|]. exists ql, qt. rewrite H5, !El, !Hu by lia. splits; auto; lia.
Qed.

Lemma write_bytes_range l : forall addr m, (forall x, byte (m x)) -> Forall byte l -> forall x, byte (write_bytes l addr m x).
Proof.
  induction l as [|c l IH]; intros addr m Hm HF x; [apply Hm|]. apply Forall_cons in HF as [Hc HF]. cbn [write_bytes]. apply IH; [|exact HF].
  intros y. unfold upd. destruct (y =? addr); [exact Hc|apply Hm].
Qed.

Lemma sectors_from_bytes disk : forall n lba, (forall x, lba <= x < lba + Z.of_nat n -> sector (disk x)) -> Forall byte (sectors_from disk lba n).
Proof.
  induction n as [|n IH]; intros lba H; [constructor|]. cbn [sectors_from]. apply Forall_app. split; [apply H; lia|]. apply IH. intros x Hx. apply H. lia.
Qed.

(** The end of a request that was carried out: the pages are free again, and hold what was
    read, or what they held before, which is also what was written. *)
Lemma finish_spec fuel (wr : bool) startLBA blocks p k q M dl m7 : let n := pages_for blocks in
  let p6 := finished (mk_tr wr startLBA blocks (PAGE_SIZE * q)) dl (put_hmem M (take_pages q n (put_run 0 false k (hp_delay p) p))) in
  let p7 := put_hmem m7 (free_pages q n p6) in
  0 <= startLBA -> 1 <= blocks -> startLBA + blocks <= hp_sectors p -> (forall x, 0 <= x < hp_sectors p -> sector (hp_media p x)) ->
  ahci_ready fuel p -> unused q n p -> (forall x, byte (M x)) -> (forall t, (dl t < fuel)%nat) ->
  (forall ql qt, hp_clb p = PAGE_SIZE * ql -> load32 (hp_clb p + 8) (hp_mem p) + 2 ^ 32 * load32 (hp_clb p + 12) (hp_mem p) = PAGE_SIZE * qt -> ql <> qt ->
    forall x, ~ (hp_clb p <= x < hp_clb p + 4) -> x / PAGE_SIZE <> qt -> M x = hp_mem p x) ->
  (forall x, in_run q n (x / PAGE_SIZE) = false -> m7 x = hp_mem p6 x) -> ((forall x, byte (hp_mem p6 x)) -> forall x, byte (m7 x)) ->
  ahci_ready fuel p7 /\ (forall i, hp_used p7 i = hp_used p i) /\
  if wr then mem_bytes (hp_mem p6) (PAGE_SIZE * q) (Z.to_nat (blocks * 512)) = mem_bytes (hp_mem p) (PAGE_SIZE * q) (Z.to_nat (blocks * 512)) /\
    (forall x, hp_media p7 x = if in_run startLBA blocks x then mem_bytes (hp_mem p) (PAGE_SIZE * q + 512 * (x - startLBA)) 512 else hp_media p x)
  else mem_bytes (hp_mem p6) (PAGE_SIZE * q) (Z.to_nat (blocks * 512)) = sectors_from (hp_media p) startLBA (Z.to_nat blocks) /\ hp_media p7 = hp_media p.
Proof.
  intros n p6 p7 Hl Hb Hin Hmed Hr Hun HMb Hdl Hfr Hm7 Hb7. pose proof Hr as [_ _ _ _ (ql & qt & E1 & Hq & U1 & Et & U2 & Hne)].
  assert (Z.of_nat (length (sectors_from (hp_media p) startLBA (Z.to_nat blocks))) = 512 * blocks) as Hlen.
  { rewrite sectors_from_length; [lia|]. intros x Hx. apply Hmed. lia. }
  assert (forall x, in_run q n (x / PAGE_SIZE) = true -> M x = hp_mem p x) as HM.
  { intros x Hx. pose proof (Hun _ Hx) as Hu. apply (Hfr ql qt E1 Et Hne); [|congruence].
    intros Hx'. replace (x / PAGE_SIZE) with ql in Hu by (unfold PAGE_SIZE in *; dm). congruence. }
  assert (forall x, in_run q n (x / PAGE_SIZE) = false -> hp_mem p6 x = M x) as H6.
  { intros x Hx. unfold p6, finished, perform. destruct wr; [reflexivity|]. cbn. apply write_bytes_outside. rewrite Hlen. intros Hx'.
    pose proof (pages_fit q blocks x Hb Hx') as E. fold n in E. congruence. }
  assert (forall x, byte (hp_mem p6 x)) as HB6.
  { unfold p6, finished, perform. destruct wr; [exact HMb|]. cbn. apply write_bytes_range; [exact HMb|]. apply sectors_from_bytes.
    intros x Hx. apply Hmed. lia. }
  assert (forall i, hp_used p7 i = hp_used p i) as Hu.
  { intros i. assert (hp_used p7 i = negb (in_run q n i) && (in_run q n i || hp_used p i)) as -> by (unfold p7, p6, finished, perform; destruct wr; reflexivity).
    specialize (Hun i). destruct (in_run q n i); [now rewrite Hun|reflexivity]. }
  splits; auto.
  - apply (still_ready fuel p m7 q n dl (hp_used p7)); auto; try (unfold p7, p6, finished, perform; destruct wr; reflexivity).
    intros ql' qt' A1 A2 A3 x B1 B2 B3. rewrite Hm7, H6 by exact B3. now apply (Hfr ql' qt').
  - destruct wr; split.
    + apply mem_bytes_ext. intros x Hx. apply HM, (pages_fit q blocks x Hb). lia.
    + intros x. change (hp_media p7 x) with (if in_run startLBA blocks x then mem_bytes M (PAGE_SIZE * q + 512 * (x - startLBA)) 512 else hp_media p x).
      destruct (in_run startLBA blocks x) eqn:E; [|reflexivity]. apply in_run_spec in E.
      apply mem_bytes_ext. intros y Hy. apply HM, (pages_fit q blocks y Hb). lia.
    + change (hp_mem p6) with (write_bytes (sectors_from (hp_media p) startLBA (Z.to_nat blocks)) (PAGE_SIZE * q) M).
      replace (Z.to_nat (blocks * 512)) with (length (sectors_from (hp_media p) startLBA (Z.to_nat blocks))) by lia.
      apply mem_bytes_write.
    + reflexivity.
Qed.

(** A request: the sectors are transferred between the disk and pages that were not in use,
    and these pages are copied to the buffer, for both directions. *)
Lemma io_spec fuel wr d startLBA blocks buf m w : let p := hview w in
  ah_port d = port -> 1 <= maxCommands d -> askable (capabilities (ah_idSpace d)) startLBA blocks -> ahci_ready fuel p ->
  room (Z.min hpages (2 ^ 20)) (pages_for blocks) p -> (forall x, 0 <= x < hp_sectors p -> sector (hp_media p x)) ->
  Returns (ahci_ata_io fuel wr d startLBA blocks buf m w) (fun '(r, m', w') => let p' := hview w' in
    hp_sectors p' = hp_sectors p /\
    if startLBA + blocks <=? hp_sectors p then
      r = 0 /\ ahci_ready fuel p' /\ (forall i, hp_used p' i = hp_used p i) /\
      if wr then exists q, unused q (pages_for blocks) p /\
        m' = write_bytes (mem_bytes (hp_mem p) (PAGE_SIZE * q) (Z.to_nat (blocks * 512))) buf m /\
        (forall x, hp_media p' x = if in_run startLBA blocks x then mem_bytes (hp_mem p) (PAGE_SIZE * q + 512 * (x - startLBA)) 512 else hp_media p x)
      else m' = write_bytes (sectors_from (hp_media p) startLBA (Z.to_nat blocks)) buf m /\ hp_media p' = hp_media p
    else r = - ENODEV /\ m' = m /\ hp_media p' = hp_media p /\ exists q, unused q (pages_for blocks) p /\ forall i, hp_used p' i = in_run q (pages_for blocks) i || hp_used p i).
Proof.
  intros p Ep Hmax Ha Hr Hroom Hmed. pose proof (askable_small _ _ _ Ha) as Hb. pose proof Hr as [Hci Hdl [Ht1 Ht2] Hby (ql & qt & E1 & Hq & U1 & Et & U2 & Hne)].
  assert (0 <= hp_clb p < 2 ^ 64) as Hclb by (rewrite E1; change (2 ^ 52) with 4503599627370496 in Hq; unfold PAGE_SIZE; pow2_consts; lia).
  unfold ahci_ata_io. replace (blocks >? 0xFFFF) with false by (destruct (Z.gtb_spec blocks 0xFFFF); lia). rewrite Ep. cbv zeta.
  set (w1 := hba_write _ _ (hba_write _ _ w)). set (p1 := put_run 0 false (hp_wait p) (hp_delay p) p).
  assert (hview w1 = p1) as V1 by (unfold w1; rewrite h_is_clear, h_serr; fold p; now rewrite Hci).
  destruct (find_slot_spec (maxCommands d) w1) as (w2 & -> & V2); [now rewrite V1|exact Hmax|]. cbn [Z.ltb Z.compare]. rewrite V1 in V2.
  destruct (read_list_spec w2) as (w3 & -> & V3); [now rewrite V2|]. rewrite V2 in *. change (HEADER_SIZE * 0) with 0. rewrite Z.add_0_r. rewrite <- V3.
  assert (ahci_ready fuel (hview w3)) as Hr3 by (rewrite V3; split; auto; exists ql, qt; splits; auto; lia).
  eapply Returns_bind; [exact (build_spec fuel wr _ startLBA blocks w3 Ha Hr3 ltac:(rewrite V3; exact Hroom))|].
  rewrite V3. intros [[cont i] w4] (-> & q & M & -> & Hq0 & Hqn & Hun & V4 & HMb & Hdec & Hfr). change (unused q (pages_for blocks) p) in Hun.
  destruct (wait_task_spec w4) as (w5 & -> & V5); [rewrite V4; exact Ht1|rewrite V4; exact Ht2|]. cbn [negb]. rewrite V4 in V5.
  eapply Returns_bind; [apply (issue_spec fuel (mk_tr wr startLBA blocks (PAGE_SIZE * q)) w5); rewrite V5; auto|].
  intros [ok w6] (dl & Hdl' & HR). rewrite V5 in HR. cbn [t_lba t_count] in HR.
  change (hp_sectors (put_hmem M (take_pages q (pages_for blocks) p1))) with (hp_sectors p) in HR.
  destruct (Z.leb_spec (startLBA + blocks) (hp_sectors p)) as [Hin|Hout]; destruct HR as [-> V6]; cbn [negb].
  2:{ apply Returns_ret. rewrite V6. splits; auto. exists q. split; [exact Hun|reflexivity]. }
  assert (u64 (blocks * 512) / PAGE_SIZE + 1 = pages_for blocks) as -> by (unfold pages_for; rewrite wrap_small by (pow2_consts; lia); f_equal; f_equal; lia).
  rewrite h_mem, V6. set (p6 := finished _ _ _) in *.
  assert (1 <= pages_for blocks) as Hn by (unfold pages_for, PAGE_SIZE; dm).
  assert (forall i, hp_used p6 i = in_run q (pages_for blocks) i || hp_used p i) as Hu6 by (intros i; unfold p6, finished, perform; destruct wr; reflexivity).
  eapply Returns_bind; [apply (h_free q (pages_for blocks) w6 Hn); rewrite V6; intros i Hi; rewrite Hu6, Hi; reflexivity|].
  intros w7 (m7 & V7 & Hm7 & Hb7). rewrite V6 in V7, Hm7, Hb7. apply Returns_ret.
  assert (0 <= startLBA) as Hl by (destruct Ha as [_ Ha]; destruct (Z.geb_spec startLBA 0x100000); lia).
  destruct (finish_spec fuel wr startLBA blocks p (hp_wait p) q M dl m7 Hl ltac:(lia) Hin Hmed Hr Hun HMb Hdl' Hfr Hm7 Hb7) as (F1 & F2 & F3).
  rewrite V7. splits; auto; [unfold p6, finished, perform; destruct wr; reflexivity|].
  destruct wr; destruct F3 as [F3 F4]; [exists q; splits; auto|split; auto]; f_equal; exact F3.
Qed.
End Port.

(** ** Properties *)

(** [ahci_ata_read] stores exactly the sectors asked for at [buf] and returns 0, and
    gives back the pages it has used; when some of the sectors do not exist it returns
    [-ENODEV] and stores nothing, and the pages for the transfer are lost.  The command the
    driver builds in memory is the one the controller decodes, and all waiting ends. *)
Theorem ahci_ata_read_correct {W} {HB : Hba W} d {CH : AhciPort W (ah_port d)} fuel startLBA blocks buf m w : let p := hview w in
  1 <= maxCommands d -> askable (capabilities (ah_idSpace d)) startLBA blocks -> ahci_ready fuel p ->
  room (Z.min hpages (2 ^ 20)) (pages_for blocks) p -> (forall x, 0 <= x < hp_sectors p -> sector (hp_media p x)) ->
  Returns (ahci_ata_read fuel d startLBA blocks buf m w) (fun '(r, m', w') => let p' := hview w' in
    hp_media p' = hp_media p /\
    if startLBA + blocks <=? hp_sectors p then
      r = 0 /\ m' = write_bytes (sectors_from (hp_media p) startLBA (Z.to_nat blocks)) buf m /\
      ahci_ready fuel p' /\ (forall i, hp_used p' i = hp_used p i)
    else r = - ENODEV /\ m' = m /\ exists q, unused q (pages_for blocks) p /\ forall i, hp_used p' i = in_run q (pages_for blocks) i || hp_used p i).
Proof.
  intros p H1 H2 H3 H4 H5. eapply Returns_mono; [exact (io_spec (ah_port d) fuel false d startLBA blocks buf m w eq_refl H1 H2 H3 H4 H5)|].
  intros [[r m'] w'] (_ & HR). fold p in HR. destruct (startLBA + blocks <=? hp_sectors p).
  - destruct HR as (R1 & R2 & R3 & R4 & R5). splits; auto.
  - destruct HR as (R1 & R2 & R3 & R4). splits; auto.
Qed.

(** [ahci_ata_write] never looks at the buffer: it writes to the disk what the new pages
    happen to hold, reports success, and overwrites the buffer with it. *)
Theorem ahci_ata_write_ignores_buffer {W} {HB : Hba W} d {CH : AhciPort W (ah_port d)} fuel startLBA blocks buf m w : let p := hview w in
  1 <= maxCommands d -> askable (capabilities (ah_idSpace d)) startLBA blocks -> ahci_ready fuel p ->
  room (Z.min hpages (2 ^ 20)) (pages_for blocks) p -> (forall x, 0 <= x < hp_sectors p -> sector (hp_media p x)) ->
  startLBA + blocks <= hp_sectors p ->
  Returns (ahci_ata_write fuel d startLBA blocks buf m w) (fun '(r, m', w') => r = 0 /\
    exists q, unused q (pages_for blocks) p /\ m' = write_bytes (mem_bytes (hp_mem p) (PAGE_SIZE * q) (Z.to_nat (blocks * 512))) buf m /\
      forall x, startLBA <= x < startLBA + blocks -> hp_media (hview w') x = mem_bytes (hp_mem p) (PAGE_SIZE * q + 512 * (x - startLBA)) 512).
Proof.
  intros p H1 H2 H3 H4 H5 Hin. eapply Returns_mono; [exact (io_spec (ah_port d) fuel true d startLBA blocks buf m w eq_refl H1 H2 H3 H4 H5)|].
  intros [[r m'] w'] (_ & HR). fold p in HR. rewrite (proj2 (Z.leb_le _ _) Hin) in HR. destruct HR as (R1 & _ & _ & q & R2 & R3 & R4).
  split; [exact R1|]. exists q. splits; auto. intros x Hx. rewrite R4, (proj2 (in_run_spec _ _ _) Hx). reflexivity.
Qed.

(** The part of the state that a request leaves as it is. *)
Record ahci_serving (fuel : nat) (pages secs : Z) (med : Z -> list Z) p : Prop := {
  as_ready : ahci_ready fuel p;
  as_room : room (Z.min pages (2 ^ 20)) (pages_for 1) p;
  as_sectors : hp_sectors p = secs;
  as_media : hp_media p = med
}.

(** A disk attached by the driver serves the block cache, the partition tables and the
    file systems on it, as long as one page of memory is left. *)
Theorem ahci_serves {W} {HB : Hba W} d {CH : AhciPort W (ah_port d)} fuel secs med (s : storage W) drv :
  d_read (drives s drv) = Some (ahci_d_read fuel d) -> 1 <= maxCommands d -> Z.land (capabilities (ah_idSpace d)) (Z.shiftl 1 9) <> 0 ->
  secs <= 2 ^ 48 -> ahci_serving fuel hpages secs med (hview (dev s)) -> (forall x, 0 <= x < secs -> sector (med x)) ->
  serves s drv secs med.
Proof.
  intros Er Hmax Hcaps Hcap Hs Hmed. exists (ahci_d_read fuel d), (fun w => ahci_serving fuel hpages secs med (hview w)). splits; auto.
  intros blk old w Hblk [Hr Hro Hse Hme]. unfold ahci_d_read, ahci_ata_read.
  assert (askable (capabilities (ah_idSpace d)) blk 1) as Ha by (split; [lia|]; destruct (Z.geb_spec blk 0x100000); splits; auto; lia).
  destruct (io_spec (ah_port d) fuel false d blk 1 0 (bytes_at 0 old) w eq_refl Hmax Ha Hr Hro ltac:(now rewrite Hse, Hme)) as ([[r m'] w'] & E & Es & HR).
  rewrite Hse in HR. rewrite (proj2 (Z.leb_le _ _)) in HR by lia. destruct HR as (-> & Hr' & Hu & -> & Hm'). rewrite E. cbn [mbind outcome_bind].
  rewrite Hme. change (Z.to_nat 1) with 1%nat. cbn [sectors_from]. rewrite app_nil_r.
  replace (Z.to_nat (512 * 1)) with (length (med blk)) by (rewrite (proj1 (Hmed blk Hblk)); reflexivity). rewrite mem_bytes_write.
  exists 0, w'. split; [reflexivity|]. split; auto; [|congruence|congruence].
  destruct Hro as (q & Q1 & Q2 & Q3). exists q. splits; auto. intros i Hi. rewrite Hu. now apply Q3.
Qed.

(** ** A port that keeps the promises *)

(** The first run of pages not in use, below a limit. *)
Definition find_run (limit n : Z) p : option Z :=
  List.find (fun q => forallb (fun k => negb (hp_used p (q + Z.of_nat k))) (List.seq 0 (Z.to_nat n)))
    (map Z.of_nat (List.seq 0 (Z.to_nat (limit - n + 1)))).

Definition find_alloc (limit n : Z) p : outcome (Z * hport) :=
  match find_run limit n p with
  | Some q => Ret (PAGE_SIZE * q, take_pages q n p)
  | None => Panic "out of memory"
  end.

Lemma find_alloc_spec limit n p : 1 <= n -> 0 <= limit -> room limit n p -> Returns (find_alloc limit n p) (fun '(a, p') =>
  exists q, a = PAGE_SIZE * q /\ 0 <= q /\ q + n <= limit /\ unused q n p /\ p' = take_pages q n p).
Proof.
  intros Hn Hlim (q0 & R1 & R2 & R3). unfold find_alloc, find_run.
  destruct (List.find _ _) as [q|] eqn:E.
  - apply List.find_some in E as [Hin Hf]. apply in_map_iff in Hin as (j & <- & Hj). apply in_seq in Hj.
    apply Returns_ret. exists (Z.of_nat j). splits; try lia; auto. intros i Hi. apply in_run_spec in Hi. rewrite forallb_forall in Hf.
    specialize (Hf (Z.to_nat (i - Z.of_nat j)) ltac:(apply in_seq; lia)). replace (Z.of_nat j + Z.of_nat (Z.to_nat (i - Z.of_nat j))) with i in Hf by lia.
    now apply negb_true_iff.
  - exfalso. assert (In q0 (map Z.of_nat (List.seq 0 (Z.to_nat (limit - n + 1))))) as Hin
      by (apply in_map_iff; exists (Z.to_nat q0); split; [lia|apply in_seq; lia]).
    pose proof (List.find_none _ _ E _ Hin) as Hf. cbv beta in Hf. apply not_true_iff_false in Hf. apply Hf, forallb_forall. intros k Hk. apply in_seq in Hk.
    rewrite R3; [reflexivity|]. apply in_run_spec. lia.
Qed.

Definition demo_pages : Z := 64.

(** A read of the register of running commands. *)
Definition step_ci p : Z * hport :=
  if hp_ci p =? 0 then (0, p)
  else match hp_wait p with
  | S n => (hp_ci p, put_run (hp_ci p) (hp_tfes p) n (hp_delay p) p)
  | O =>
      match decode (hp_clb p) (Z.log2 (hp_ci p)) (hp_mem p) with
      | Some t => if t_lba t + t_count t <=? hp_sectors p then (0, put_run 0 false O (hp_delay p) (perform t p))
                  else (hp_ci p, put_run (hp_ci p) true O (hp_delay p) p)
      | None => (hp_ci p, p)
      end
  end.

(** The registers of port 0. *)
#[local] Instance demo_hba : Hba hport := {
  hba_read r p :=
    if r =? R_CAP1 then (hp_cap p, p) else if r =? port_reg 0 P_CLB then (low32 (hp_clb p), p)
    else if r =? port_reg 0 P_CLBU then (high32 (hp_clb p), p) else if r =? port_reg 0 P_TFD then (hp_tfd p, p)
    else if r =? port_reg 0 P_IS then (if hp_tfes p then AHCI_PxIS_TFES else 0, p)
    else if r =? port_reg 0 P_CI then step_ci p else (0, p);
  hba_write r v p :=
    if r =? port_reg 0 P_IS then put_run (hp_ci p) false (hp_wait p) (hp_delay p) p
    else if (r =? port_reg 0 P_CI) && (hp_ci p =? 0) then put_run v (hp_tfes p) (hp_delay p O) (fun n => hp_delay p (S n)) p
    else p;
  dma_mem := hp_mem;
  dma_put := put_hmem;
  dma_alloc := find_alloc demo_pages;
  dma_alloc32 := find_alloc (Z.min demo_pages (2 ^ 20));
  dma_free a n p := Ret (free_pages (a / PAGE_SIZE) n p);
  ksleep _ p := p
}.

#[local] Instance demo_port : AhciPort hport 0.
Proof.
  refine {| hview := fun p => p; hpages := demo_pages |}; cbn [hba_read hba_write dma_mem dma_put dma_alloc dma_alloc32 dma_free demo_hba].
  all: try (split; reflexivity).
  all: try reflexivity.
  - intros w. change (port_reg 0 P_IS =? R_CAP1) with false. cbn. destruct (hp_tfes w); split; reflexivity.
  - intros w E. change (step_ci w) with (step_ci w). cbn. unfold step_ci. rewrite E. split; reflexivity.
  - intros n w Hc Hw. cbn. unfold step_ci. rewrite (proj2 (Z.eqb_neq _ 0) Hc), Hw. split; reflexivity.
  - intros slot t w Hs Hc Hw Hd. cbn. unfold step_ci. rewrite Hc, Hw, Z.log2_pow2, Hd by lia.
    rewrite (proj2 (Z.eqb_neq (2 ^ slot) 0)) by (apply Z.pow_nonzero; lia). destruct (_ <=? _); split; reflexivity.
  - intros slot w Hs Hc. cbn. now rewrite Hc.
  - intros n w Hn Hr. eapply Returns_mono; [apply find_alloc_spec; auto; unfold demo_pages; lia|]. intros [a w'] (q & H1 & H2 & H3 & H4).
    exists q. splits; auto; [unfold demo_pages in H3; change (2 ^ 52) with 4503599627370496; lia|tauto|tauto].
  - intros n w Hn Hr. eapply Returns_mono; [apply find_alloc_spec; auto; change (Z.min demo_pages (2 ^ 20)) with 64; lia|]. intros [a w'] (q & H1 & H2 & H3 & H4).
    exists q. splits; auto; [change (Z.min demo_pages (2 ^ 20)) with 64 in H3; change (2 ^ 20) with 1048576; lia|tauto|tauto].
  - intros q n w Hn Hu. apply Returns_ret. exists (hp_mem w). rewrite (Z.mul_comm PAGE_SIZE q), Z.div_mul by discriminate. splits; auto.
Defined.

(** A port with a disk: the command list is in page 1, the table of the first slot in page
    2, and a command takes two reads.  The first disk has 2000000 sectors. *)
Definition demo_port_of (secs : Z) (disk : Z -> list Z) (tfd : Z) : hport :=
  mk_hp 0 4096 0 false 0 (fun _ => 2%nat) tfd secs disk (bytes_at (4096 + 8) [0; 0x20]) (fun i => (i =? 1) || (i =? 2)).
Definition demo_disk (x : Z) : list Z := repeat (x mod 256) 512.
Definition demo_state (tfd : Z) : hport := demo_port_of 2000000 demo_disk tfd.
Definition demo_ahci : ahci_drive_t := mk_ahci AHCI_ATA 0 (repeat 0 98 ++ [0; 2] ++ repeat 0 412) [] 32 0.

Lemma demo_port_ready secs disk : ahci_ready 3 (demo_port_of secs disk 0).
Proof.
  split; try reflexivity; [cbn; lia|split; reflexivity| |].
  - intros x. cbn. unfold bytes_at. destruct (_ && _); [|split; [discriminate|reflexivity]].
    destruct (Z.to_nat (x - (4096 + 8))) as [|[|[|n]]]; split; cbn; discriminate || reflexivity.
  - exists 1, 2. splits; try reflexivity; discriminate.
Qed.

Lemma demo_port_room secs disk : room (Z.min demo_pages (2 ^ 20)) 1 (demo_port_of secs disk 0).
Proof. exists 0. splits; [lia|vm_compute; discriminate|]. intros i Hi. apply in_run_spec in Hi. replace i with 0 by lia. reflexivity. Qed.

Lemma demo_disk_sector x : sector (demo_disk x).
Proof.
  unfold demo_disk. split; [apply List.repeat_length|]. apply Forall_forall. intros y Hy%list_elem_of_In%List.repeat_spec. subst y. apply byte_mod.
Qed.

Lemma ahci_ata_read_correct_witness :
  Returns (ahci_ata_read 3 demo_ahci 1500000 2 8192 (fun _ => 7) (demo_state 0)) (fun '(r, m', _) =>
    r = 0 /\ m' 8192 = 1500000 mod 256 /\ m' (8192 + 1023) = 1500001 mod 256 /\ m' (8192 + 1024) = 7).
Proof.
  eapply Returns_mono; [apply (ahci_ata_read_correct demo_ahci (CH := demo_port) 3 1500000 2 8192 (fun _ => 7) (demo_state 0))|].
  - cbn. lia.
  - split; [lia|]. vm_compute. split; [reflexivity|discriminate].
  - apply demo_port_ready.
  - apply demo_port_room.
  - intros x _. apply demo_disk_sector.
  - intros [[r m'] w'] (_ & HR). change (1500000 + 2 <=? hp_sectors (hview (demo_state 0))) with true in HR. destruct HR as (-> & -> & _).
    splits; vm_compute; reflexivity.
Defined.

Lemma write_mem_first m0 a n addr m : write_bytes (mem_bytes m0 a (S n)) addr m addr = m0 a.
Proof. cbn [mem_bytes write_bytes]. now rewrite write_bytes_outside, upd_eq by lia. Qed.

Lemma ahci_ata_write_ignores_buffer_witness :
  Returns (ahci_ata_write 3 demo_ahci 5 1 8192 (fun _ => 7) (demo_state 0)) (fun '(r, m', w') => r = 0 /\ m' 8192 = 0 /\ nth 0 (hp_media w' 5) 9 = 0).
Proof.
  eapply Returns_mono; [apply (ahci_ata_write_ignores_buffer demo_ahci (CH := demo_port) 3 5 1 8192 (fun _ => 7) (demo_state 0))|].
  - cbn. lia.
  - split; [lia|]. vm_compute. repeat split; discriminate.
  - apply demo_port_ready.
  - apply demo_port_room.
  - intros x _. apply demo_disk_sector.
  - vm_compute. discriminate.
  - intros [[r m'] w'] (-> & q & Hq & -> & Hm). split; [reflexivity|].
    assert (q <> 1) as Hq1 by (intros ->; specialize (Hq 1 eq_refl); discriminate).
    assert (hp_mem (hview (demo_state 0)) (PAGE_SIZE * q) = 0) as E0.
    { cbn. unfold bytes_at, PAGE_SIZE. cbn [length]. destruct (Z.leb_spec (4096 + 8) (4096 * q)), (Z.ltb_spec (4096 * q) (4096 + 8 + Z.of_nat 2)); cbn [andb]; reflexivity || lia. }
    split.
    + change (Z.to_nat (1 * 512)) with (S 511). rewrite write_mem_first. exact E0.
    + rewrite Hm by lia. rewrite Z.sub_diag, Z.mul_0_r, Z.add_0_r. exact E0.
Defined.

Definition demo_storage : storage hport :=
  mk_stor 0 0 (fun _ => mk_buf false false 0 [] 0 0 0 0 false) false (fun _ => new_drive 3 demo_ahci) (demo_state 0) 0.

Lemma ahci_serves_witness : serves demo_storage 7 2000000 demo_disk.
Proof.
  apply (ahci_serves demo_ahci (CH := demo_port) 3 2000000 demo_disk demo_storage 7 eq_refl).
  - cbn. lia.
  - vm_compute. discriminate.
  - vm_compute. discriminate.
  - split; [apply demo_port_ready|apply demo_port_room|reflexivity|reflexivity].
  - intros x _. apply demo_disk_sector.
Defined.

(** ** Where the driver goes wrong *)

(** The wait before a command looks at port 0, whatever port the drive is on: without a
    drive there (the task file is then 0x7F) every
    request fails after its time is over, and its pages are lost. *)
Theorem ahci_waits_for_port_0 :
  ('(r, _, p) ← ahci_ata_read 3 demo_ahci 5 1 8192 (fun _ => 7) (demo_state 0x7F); Ret (r, map (hp_used p) [0; 1; 2; 3])) =
    Ret (- ENODEV, [true; true; true; false]).
Proof. vm_compute. reflexivity. Qed.

(** More than 8192 sectors do not fit one region, but only one is ever used: the count of
    bytes is cut to 22 bits. *)
Theorem ahci_region_cut m : load32 (0 + 12) (set_prd true 0 0 (u64 (8193 * 512 - 1)) (memset 0 0 16 m)) mod 2 ^ 22 = 511 /\
  u16 (u16 (u64 (8193 - 1) / 0x400000) + 1) = 1.
Proof.
  split; [|reflexivity]. unfold set_prd. autorewrite with words. reflexivity.
Qed.
