(* ===== verification/Fat.v ===== *)
(** * The FAT file system: names, clusters and files ([modules/fat/file.c], [modules/fat/fat.h])

    A loadable driver for FAT file systems, over the block cache and the file layer.
    Blocks are byte lists; the fields of directory entries and tables are loads from
    them.  Long names are collected in a static buffer from its end backwards. *)

From S2P Require Import Prelude Links Interfaces MemMap Pmm MemUtil Kheap Path Vnode Bytes Bcache.
#[local] Open Scope Z_scope.

Definition FAT_ATTR_READ_ONLY : Z := 1.
Definition FAT_ATTR_HIDDEN : Z := 2.
Definition FAT_ATTR_SYSTEM : Z := 4.
Definition FAT_ATTR_VOL_ID : Z := 8.
Definition FAT_ATTR_DIRECTORY : Z := 16.
Definition FAT_ATTR_LFN : Z :=
  Z.lor (Z.lor (Z.lor FAT_ATTR_READ_ONLY FAT_ATTR_HIDDEN) FAT_ATTR_SYSTEM) FAT_ATTR_VOL_ID.

(** Fields of [fat_directory_t] and [fat_lfn_t] at offset [e] of a block. *)
Definition DIR_SIZE : Z := 32.
Definition dir_name (b : mem) (e i : Z) : Z := b (e + i).
Definition dir_attrib (b : mem) (e : Z) : Z := b (e + 11).
Definition dir_clusterHigh (b : mem) (e : Z) : Z := load16 (e + 20) b.
Definition dir_clusterLow (b : mem) (e : Z) : Z := load16 (e + 26) b.
Definition dir_size (b : mem) (e : Z) : Z := load32 (e + 28) b.
Definition lfn_ord (b : mem) (e : Z) : Z := b e.
Definition lfn_name1 (b : mem) (e i : Z) : Z := load16 (e + 1 + 2 * i) b.
Definition lfn_name2 (b : mem) (e i : Z) : Z := load16 (e + 14 + 2 * i) b.
Definition lfn_name3 (b : mem) (e i : Z) : Z := load16 (e + 28 + 2 * i) b.

(** ** Long names *)

(** [LFNCharIndex], [LFNNewEntry] and [LFNWorkBuffer]. *)
Record lfn_state : Type := mk_lfn { LFNCharIndex : Z; LFNNewEntry : bool; LFNWorkBuffer : mem }.

(** One character of an entry; unused positions hold 0xFFFF. *)
Definition lfn_char (c : Z) (l : lfn_state) : lfn_state :=
  if c =? 0xFFFF then l
  else mk_lfn (u8 (LFNCharIndex l - 1)) (LFNNewEntry l) (upd (LFNWorkBuffer l) (LFNCharIndex l) (Z.land c 255)).

(** [n] characters of a field, the last one first. *)
Fixpoint lfn_field (n : nat) (field : Z -> Z) (l : lfn_state) : lfn_state :=
  match n with
  | O => l
  | S n' => lfn_field n' field (lfn_char (field (Z.of_nat n')) l)
  end.

(** The string in the buffer from [i] on. *)
Fixpoint buffer_string (n : nat) (i : Z) (b : mem) : list Z :=
  match n with
  | O => []
  | S n' => if b i =? 0 then [] else b i :: buffer_string n' (i + 1) b
  end.

(** The collected name at the first entry of the name, which is the last on the disk;
    [None] is NULL.  The copy of the name on the heap is made by the caller of this
    function. *)
Definition lfn_collect (b : mem) (e : Z) (l : lfn_state) : option (list Z) * lfn_state :=
  let l := if LFNNewEntry l then mk_lfn 255 false (LFNWorkBuffer l) else l in
  let l := lfn_field 2 (lfn_name3 b e) l in
  let l := lfn_field 6 (lfn_name2 b e) l in
  let l := lfn_field 5 (lfn_name1 b e) l in
  if (lfn_ord b e =? 1) || (lfn_ord b e =? 0x41) then
    let l := mk_lfn (u8 (LFNCharIndex l + 1)) true (LFNWorkBuffer l) in
    if negb (LFNWorkBuffer l 255 =? 0) then (None, l)
    else (Some (buffer_string 256 (LFNCharIndex l) (LFNWorkBuffer l)), l)
  else (None, l).

(** ** Encoding long names

    How a long name is stored: as 16-bit units, thirteen to an entry, terminated by a zero
    and filled up with 0xFFFF unless the last entry is full; the entries are in reverse
    order, numbered from 1, the last one marked with 0x40. *)
Definition units (name : list Z) : list Z :=
  if (length name mod 13 =? 0)%nat then name else name ++ [0] ++ repeat 0xFFFF (12 - length name mod 13).

Definition unit_bytes (l : list Z) : list Z := flat_map (fun u => [u mod 256; u / 256]) l.
Definition encode_entry (ord : Z) (us : list Z) : list Z :=
  [ord] ++ unit_bytes (take 5 us) ++ [FAT_ATTR_LFN; 0; 0] ++ unit_bytes (take 6 (drop 5 us)) ++ [0; 0] ++
  unit_bytes (take 2 (drop 11 us)).

(** The entries from number [k] on, of [n] more. *)
Fixpoint encode_from (n : nat) (k : Z) (us : list Z) : list (list Z) :=
  match n with
  | O => []
  | S n' => encode_entry (k + if (n' =? 0)%nat then 0x40 else 0) (take 13 us) :: encode_from n' (k + 1) (drop 13 us)
  end.
Definition lfn_encode (name : list Z) : list (list Z) :=
  rev (encode_from (length (units name) / 13) 1 (units name)).

(** The parser run over the entries of a directory. *)
Fixpoint collect_all (entries : list (list Z)) (l : lfn_state) : list (option (list Z)) * lfn_state :=
  match entries with
  | [] => ([], l)
  | e :: es => let '(r, l) := lfn_collect (bytes_at 0 e) 0 l in let '(rs, l) := collect_all es l in (r :: rs, l)
  end.

(** The end of the work buffer holds [w]. *)
Definition tail_is (l : lfn_state) (w : list Z) : Prop :=
  LFNCharIndex l = 255 - Z.of_nat (length w) /\
  forall i, (i < length w)%nat -> LFNWorkBuffer l (256 - Z.of_nat (length w) + Z.of_nat i) = nth i w 0.

Definition kept (us : list Z) : list Z := map (fun u => Z.land u 255) (List.filter (fun u => negb (u =? 0xFFFF)) us).

Lemma kept_app a b : kept (a ++ b) = kept a ++ kept b.
Proof. unfold kept. now rewrite List.filter_app, map_app. Qed.

Lemma kept_length us : (length (kept us) <= length us)%nat.
Proof. unfold kept. rewrite length_map. apply List.filter_length_le. Qed.

Lemma lfn_char_tail c l w :
  tail_is l w -> (length (kept [c]) + length w <= 255)%nat ->
  tail_is (lfn_char c l) (kept [c] ++ w) /\ LFNNewEntry (lfn_char c l) = LFNNewEntry l.
Proof.
  intros [Hi Hb] Hlen. unfold lfn_char, kept in *. cbn [List.filter] in *. destruct (c =? 0xFFFF); cbn [negb map app length] in *; [now split|].
  split; [|reflexivity]. split; cbn [LFNCharIndex LFNWorkBuffer length].
  - rewrite Hi, wrap_small by (pow2_consts; lia). lia.
  - intros i Hlt. rewrite Hi. destruct i as [|i]; cbn [nth].
    + replace (256 - Z.of_nat (S (length w)) + Z.of_nat 0) with (255 - Z.of_nat (length w)) by lia. apply upd_eq.
    + rewrite upd_ne by lia. rewrite <- Hb by lia. f_equal. lia.
Qed.

Lemma lfn_field_tail field n : forall l w,
  let us := map (fun i => field (Z.of_nat i)) (List.seq 0 n) in
  tail_is l w -> (length (kept us) + length w <= 255)%nat ->
  tail_is (lfn_field n field l) (kept us ++ w) /\ LFNNewEntry (lfn_field n field l) = LFNNewEntry l.
Proof.
  induction n as [|n IH]; intros l w us Ht Hlen; [now split|]. cbn [lfn_field]. unfold us in *.
  rewrite List.seq_S, map_app, kept_app in *. cbn [map Nat.add] in *. rewrite length_app in Hlen.
  destruct (lfn_char_tail (field (Z.of_nat n)) l w Ht ltac:(lia)) as [Ht1 E1].
  destruct (IH _ _ Ht1) as [Ht2 E2]; [rewrite length_app; lia|]. rewrite <- app_assoc. split; [exact Ht2|congruence].
Qed.

Lemma unit_load u : u mod 256 + 256 * (u / 256) = u.
Proof. dm. Qed.

Lemma load16_at l k a : a = Z.of_nat k -> (S k < length l)%nat ->
  load16 a (bytes_at 0 l) = nth k l 0 + 256 * nth (S k) l 0.
Proof.
  intros -> Hk. cbn [load]. unfold bytes_at. rewrite !(proj2 (Z.leb_le 0 _)), !(proj2 (Z.ltb_lt _ _)) by lia. cbn [andb].
  rewrite !Z.sub_0_r, Nat2Z.id. replace (Z.to_nat (Z.of_nat k + 1)) with (S k) by lia. lia.
Qed.

(** The fields of an encoded entry. *)
Lemma encode_entry_fields ord us : length us = 13%nat ->
  let b := bytes_at 0 (encode_entry ord us) in
  lfn_ord b 0 = ord /\ map (fun i => lfn_name1 b 0 (Z.of_nat i)) (List.seq 0 5) = take 5 us /\
  map (fun i => lfn_name2 b 0 (Z.of_nat i)) (List.seq 0 6) = take 6 (drop 5 us) /\
  map (fun i => lfn_name3 b 0 (Z.of_nat i)) (List.seq 0 2) = take 2 (drop 11 us).
Proof.
  intros Hl b. do 13 (destruct us as [|? us]; [discriminate Hl|]). destruct us; [|discriminate Hl].
  unfold b, lfn_name1, lfn_name2, lfn_name3. splits; [reflexivity| | |]; cbn [List.seq map].
  - rewrite (load16_at _ 1), (load16_at _ 3), (load16_at _ 5), (load16_at _ 7), (load16_at _ 9) by (reflexivity || (cbn; lia)).
    cbn. now rewrite !unit_load.
  - rewrite (load16_at _ 14), (load16_at _ 16), (load16_at _ 18), (load16_at _ 20), (load16_at _ 22), (load16_at _ 24)
      by (reflexivity || (cbn; lia)).
    cbn. now rewrite !unit_load.
  - rewrite (load16_at _ 28), (load16_at _ 30) by (reflexivity || (cbn; lia)). cbn. now rewrite !unit_load.
Qed.

(** The parser is about to collect, or has collected the end [w] of a name. *)
Definition collecting (l : lfn_state) (w : list Z) : Prop :=
  (LFNNewEntry l = true /\ w = []) \/ (LFNNewEntry l = false /\ tail_is l w).

Lemma collect_entry ord us l w :
  length us = 13%nat -> collecting l w -> (length (kept us) + length w <= 255)%nat ->
  exists l', tail_is l' (kept us ++ w) /\
    lfn_collect (bytes_at 0 (encode_entry ord us)) 0 l =
      (if (ord =? 1) || (ord =? 0x41) then
        let l' := mk_lfn (u8 (LFNCharIndex l' + 1)) true (LFNWorkBuffer l') in
        (if negb (LFNWorkBuffer l' 255 =? 0) then None else Some (buffer_string 256 (LFNCharIndex l') (LFNWorkBuffer l')), l')
      else (None, l')) /\ LFNNewEntry l' = false.
Proof.
  intros Hl Hc Hlen. destruct (encode_entry_fields ord us Hl) as (F0 & F1 & F2 & F3). cbn zeta in F0, F1, F2, F3.
  unfold lfn_collect. rewrite F0. set (l0 := if LFNNewEntry l then _ else l).
  assert (tail_is l0 w /\ LFNNewEntry l0 = false) as [T0 N0].
  { unfold l0. destruct Hc as [[En ->]|[En Ht]]; rewrite En; [|now split]. split; [|reflexivity]. split; [reflexivity|]. cbn. lia. }
  assert (kept us = kept (take 5 us) ++ kept (take 6 (drop 5 us)) ++ kept (take 2 (drop 11 us))) as Ek.
  { rewrite <- !kept_app. f_equal.
    rewrite (take_ge (drop 11 us)) by (rewrite length_drop; lia). change 11%nat with (5 + 6)%nat.
    now rewrite <- drop_drop, !take_drop. }
  rewrite Ek in Hlen. rewrite !length_app in Hlen.
  destruct (lfn_field_tail (lfn_name3 (bytes_at 0 (encode_entry ord us)) 0) 2 l0 w T0) as [T1 N1]; [rewrite F3; lia|]. rewrite F3 in T1.
  destruct (lfn_field_tail (lfn_name2 (bytes_at 0 (encode_entry ord us)) 0) 6 _ _ T1) as [T2 N2];
    [rewrite F2, length_app; lia|]. rewrite F2 in T2.
  destruct (lfn_field_tail (lfn_name1 (bytes_at 0 (encode_entry ord us)) 0) 5 _ _ T2) as [T3 N3];
    [rewrite F1, !length_app; lia|]. rewrite F1 in T3.
  eexists. split; [rewrite Ek, <- !app_assoc; exact T3|]. rewrite N3, N2, N1, N0. split; [|reflexivity].
  destruct (_ || _); [|reflexivity]. cbn zeta. destruct (negb _); reflexivity.
Qed.

Lemma buffer_string_tail l name n i :
  (forall j, (j < length (name ++ [0%Z]))%nat -> LFNWorkBuffer l (i + Z.of_nat j) = nth j (name ++ [0]) 0) ->
  Forall (fun c => c <> 0) name -> (length name < n)%nat -> buffer_string n i (LFNWorkBuffer l) = name.
Proof.
  revert i n. induction name as [|c name IH]; intros i [|n] Hb Hc Hn; cbn [length] in Hn; try lia; cbn [buffer_string].
  - specialize (Hb 0%nat ltac:(cbn; lia)). cbn in Hb. rewrite Z.add_0_r in Hb. now rewrite Hb.
  - apply Forall_cons in Hc as [Hc0 Hc]. pose proof (Hb 0%nat ltac:(cbn; lia)) as H0. cbn in H0. rewrite Z.add_0_r in H0.
    rewrite H0, (proj2 (Z.eqb_neq c 0) Hc0). f_equal. apply IH; [|exact Hc|lia].
    intros j Hj. specialize (Hb (S j) ltac:(cbn in *; lia)). cbn [app nth] in Hb. rewrite <- Hb. f_equal. lia.
Qed.

Lemma collect_all_app es1 es2 l :
  collect_all (es1 ++ es2) l =
    let '(r1, l) := collect_all es1 l in let '(r2, l) := collect_all es2 l in (r1 ++ r2, l).
Proof.
  revert l. induction es1 as [|e es1 IH]; intros l; cbn [app collect_all]; [now destruct (collect_all es2 l)|].
  destruct (lfn_collect _ _ l) as [r l1]. rewrite IH. destruct (collect_all es1 l1) as [r1 l2]. now destruct (collect_all es2 l2).
Qed.

Lemma collect_later n : forall k us l w,
  length us = (13 * n)%nat -> 2 <= k -> k + Z.of_nat n <= 64 -> collecting l w -> (length (kept us) + length w <= 255)%nat ->
  exists l', collect_all (rev (encode_from n k us)) l = (repeat None n, l') /\ collecting l' (kept us ++ w).
Proof.
  induction n as [|n IH]; intros k us l w Hl Hk Hk2 Hc Hlen.
  - destruct us; [|discriminate]. now exists l.
  - cbn [encode_from rev]. rewrite collect_all_app. rewrite <- (take_drop 13 us), kept_app, length_app in Hlen.
    destruct (IH (k + 1) (drop 13 us) l w) as (l1 & E1 & C1); [rewrite length_drop; lia|lia|lia|exact Hc|lia|].
    rewrite E1. cbn [collect_all]. destruct (collect_entry (k + if (n =? 0)%nat then 0x40 else 0) (take 13 us) l1 (kept (drop 13 us) ++ w))
      as (l2 & T2 & E2 & N2); [rewrite length_take; lia|exact C1|rewrite length_app; lia|].
    assert ((k + (if (n =? 0)%nat then 0x40 else 0) =? 1) || (k + (if (n =? 0)%nat then 0x40 else 0) =? 0x41) = false) as Eo.
    { apply orb_false_iff. destruct (n =? 0)%nat; split; apply Z.eqb_neq; lia. }
    rewrite Eo in E2. rewrite E2. exists l2. split; [|right; split; [exact N2|]].
    + f_equal. now rewrite <- (List.repeat_cons n None).
    + rewrite <- (take_drop 13 us), kept_app, <- app_assoc. exact T2.
Qed.

Lemma kept_name name : Forall (fun c => 0 <= c < 256) name -> kept name = name.
Proof.
  induction 1 as [|c name Hc _ IH]; [reflexivity|]. unfold kept in *. cbn [List.filter].
  rewrite (proj2 (Z.eqb_neq c 0xFFFF)) by lia. cbn [negb map]. rewrite IH. f_equal.
  change 255 with (Z.ones 8). rewrite Z.land_ones by lia. apply Z.mod_small. lia.
Qed.

Lemma kept_units name : Forall (fun c => 0 < c < 256) name -> (length name mod 13 <> 0)%nat ->
  kept (units name) = name ++ [0] /\ (length (units name) = 13 * (length (units name) / 13))%nat /\
  (1 <= length (units name) / 13)%nat /\ (length (units name) <= length name + 13)%nat.
Proof.
  intros Hc Hm. unfold units. rewrite (proj2 (Nat.eqb_neq _ 0) Hm). split.
  - rewrite !kept_app, (kept_name name) by (eapply Forall_impl; [exact Hc|cbn; lia]). f_equal.
    assert (kept (repeat 0xFFFF (12 - length name mod 13)) = []) as ->; [|reflexivity].
    unfold kept. generalize (12 - length name mod 13)%nat as q. induction q as [|q IH]; [reflexivity|exact IH].
  - rewrite !length_app, repeat_length. cbn [length].
    pose proof (Nat.div_mod_eq (length name) 13). pose proof (Nat.mod_upper_bound (length name) 13 ltac:(lia)).
    replace (length name + (1 + (12 - length name mod 13)))%nat with ((length name / 13 + 1) * 13)%nat by lia.
    rewrite Nat.div_mul by lia. lia.
Qed.

Lemma encode_from_length n : forall k us, length (encode_from n k us) = n.
Proof. induction n as [|n IH]; intros k us; cbn; [reflexivity|now rewrite IH]. Qed.

(** C25: the parser of long file names inverts their encoding: fed with the entries of a
    name in the order they have on the disk it returns NULL for all but the last and the
    name for that, and is then ready for the next name.  The name has at most 241 characters
    of 8 bits, and its length is not a multiple of thirteen: such a name has no terminator,
    and [lfn_full_entry_rejected] shows that the parser does not take it. *)
Theorem lfn_roundtrip name l :
  Forall (fun c => 0 < c < 256) name -> (length name <= 241)%nat -> (length name mod 13 <> 0)%nat -> LFNNewEntry l = true ->
  let n := length (lfn_encode name) in
  exists l', collect_all (lfn_encode name) l = (repeat None (n - 1) ++ [Some name], l') /\ LFNNewEntry l' = true.
Proof.
  intros Hc Hlen Hm Hnew n. destruct (kept_units name Hc Hm) as (Ek & El & Eq & El2).
  unfold lfn_encode in *. set (us := units name) in *. set (q := (length us / 13)%nat) in *.
  assert (n = q) as ->. { unfold n. rewrite length_rev. apply encode_from_length. }
  destruct q as [|q]; [lia|]. cbn [encode_from rev]. rewrite collect_all_app, Nat.sub_succ, Nat.sub_0_r. change (1 + 1) with 2.
  assert (length (kept (take 13 us)) + length (kept (drop 13 us)) = S (length name))%nat as Hk.
  { rewrite <- length_app, <- kept_app, take_drop, Ek, length_app. cbn. lia. }
  destruct (collect_later q 2 (drop 13 us) l []) as (l1 & E1 & C1); [rewrite length_drop; lia|lia|lia|now left|cbn; lia|].
  rewrite app_nil_r in C1. rewrite E1. cbn [collect_all].
  destruct (collect_entry (1 + if (q =? 0)%nat then 0x40 else 0) (take 13 us) l1 (kept (drop 13 us)))
    as (l2 & [T2 B2] & E2 & _); [rewrite length_take; lia|exact C1|lia|].
  rewrite <- kept_app, take_drop, Ek in T2, B2. rewrite length_app in T2, B2. cbn [length] in T2, B2.
  assert ((1 + (if (q =? 0)%nat then 0x40 else 0) =? 1) || (1 + (if (q =? 0)%nat then 0x40 else 0) =? 0x41) = true) as Eo.
  { destruct (q =? 0)%nat; reflexivity. }
  rewrite Eo in E2. cbn zeta in E2. cbn [LFNCharIndex LFNWorkBuffer] in E2. rewrite T2, wrap_small in E2 by (pow2_consts; lia).
  pose proof (B2 (length name) ltac:(lia)) as Bz. rewrite app_nth2, Nat.sub_diag in Bz by lia. cbn [nth] in Bz.
  replace (256 - Z.of_nat (length name + 1) + Z.of_nat (length name)) with 255 in Bz by lia.
  rewrite Bz in E2. cbn [Z.eqb negb] in E2.
  rewrite (buffer_string_tail l2 name 256) in E2; [| |eapply Forall_impl; [exact Hc|cbn; lia]|lia].
  - rewrite E2. eexists. split; reflexivity.
  - intros j Hj. rewrite length_app in Hj. cbn in Hj. rewrite <- B2 by lia. f_equal. lia.
Qed.

Definition lfn_start : lfn_state := mk_lfn 0 true (fun _ => 0).

Lemma lfn_roundtrip_witness :
  length (lfn_encode (chars "hello world.txt")) = 2%nat /\
  (collect_all (lfn_encode (chars "hello world.txt")) lfn_start).1 = [None; Some (chars "hello world.txt")].
Proof.
  split; [reflexivity|].
  destruct (lfn_roundtrip (chars "hello world.txt") lfn_start) as (l' & E & _); [|cbn; lia|discriminate|reflexivity|].
  - cbn. repeat constructor; lia.
  - rewrite E. reflexivity.
Defined.

(** A name whose length is a multiple of thirteen has no terminator on the disk; it is
    taken to be corrupt. *)
Theorem lfn_full_entry_rejected :
  (collect_all (lfn_encode (chars "thirteen.char")) lfn_start).1 = [None].
Proof. vm_compute. reflexivity. Qed.

(** ** Short names *)

(** [fat_parse_sfn]: the name is built in a new buffer [buf] of 13 bytes; [strptr] is the
    position.  The two copying loops stop at a space. *)
Fixpoint sfn_copy (n : nat) (i : Z) (b : mem) (e buf strptr : Z) (m : mem) : Z * mem :=
  match n with
  | O => (strptr, m)
  | S n' =>
      if dir_name b e i =? 32 then (strptr, m)
      else sfn_copy n' (i + 1) b e buf (u8 (strptr + 1)) (upd m (buf + strptr) (dir_name b e i))
  end.

Definition sfn_write (b : mem) (e buf : Z) (m : mem) : mem :=
  let '(strptr, m) := sfn_copy 8 0 b e buf 0 m in
  let m := if negb (m (buf + strptr - 1) =? 46) && negb (dir_name b e 8 =? 32) then upd m (buf + strptr) 46 else m in
  let strptr := if has (dir_attrib b e) FAT_ATTR_DIRECTORY then strptr else u8 (strptr + 1) in
  let '(strptr, m) := sfn_copy 3 8 b e buf strptr m in
  upd m (buf + strptr) 0.

(** [cs] is the part of the field of [n] characters at [i] before the padding. *)
Definition padded (b : mem) (e i : Z) (n : nat) (cs : list Z) : Prop :=
  (length cs <= n)%nat /\ (forall j, (j < length cs)%nat -> dir_name b e (i + Z.of_nat j) = nth j cs 0) /\
  Forall (fun c => c <> 32) cs /\ ((length cs < n)%nat -> dir_name b e (i + Z.of_nat (length cs)) = 32).

Lemma sfn_copy_spec b e buf : forall n i cs strptr m,
  padded b e i n cs -> 0 <= strptr -> strptr + Z.of_nat n < 256 ->
  let '(p, m') := sfn_copy n i b e buf strptr m in
  p = strptr + Z.of_nat (length cs) /\
  (forall j, (j < length cs)%nat -> m' (buf + strptr + Z.of_nat j) = nth j cs 0) /\
  (forall x, ~ (buf + strptr <= x < buf + strptr + Z.of_nat (length cs)) -> m' x = m x).
Proof.
  induction n as [|n IH]; intros i cs strptr m (Hl & Hc & Hs & Hp) H0 H1; cbn [sfn_copy].
  - destruct cs; [|cbn in Hl; lia]. splits; [cbn; lia| |auto]. intros j Hj. cbn in Hj. lia.
  - destruct cs as [|c cs].
    + specialize (Hp ltac:(cbn; lia)). cbn [length] in Hp. rewrite Z.add_0_r in Hp. rewrite Hp, Z.eqb_refl.
      splits; [cbn; lia| |auto]. intros j Hj. cbn in Hj. lia.
    + apply Forall_cons in Hs as [Hc0 Hs]. pose proof (Hc 0%nat ltac:(cbn; lia)) as E. rewrite Z.add_0_r in E. cbn [nth] in E.
      rewrite E, (proj2 (Z.eqb_neq c 32) Hc0), wrap_small by (pow2_consts; lia).
      specialize (IH (i + 1) cs (strptr + 1) (upd m (buf + strptr) c)). destruct (sfn_copy n _ _ _ _ _ _) as [p m'].
      destruct IH as (I1 & I2 & I3); [|lia|lia|].
      * unfold padded. splits; [cbn in Hl; lia| |exact Hs|].
        -- intros j Hj. specialize (Hc (S j) ltac:(cbn; lia)). cbn [nth] in Hc. rewrite <- Hc. f_equal. lia.
        -- intros Hj. rewrite <- Hp by (cbn; lia). f_equal. cbn [length]. lia.
      * cbn [length]. splits; [lia| |].
        -- intros [|j] Hj; cbn [nth].
           ++ rewrite I3, Z.add_0_r, upd_eq by lia. reflexivity.
           ++ rewrite <- I2 by lia. f_equal. lia.
        -- intros x Hx. rewrite I3, upd_ne by lia. reflexivity.
Qed.

(** The short name of a file with an extension. *)
Lemma sfn_file b e buf m pre c ext :
  padded b e 0 8 (pre ++ [c]) -> padded b e 8 3 ext -> ext <> [] -> c <> 46 ->
  has (dir_attrib b e) FAT_ATTR_DIRECTORY = false ->
  let name := (pre ++ [c]) ++ [46] ++ ext ++ [0] in
  (forall j, (j < length name)%nat -> sfn_write b e buf m (buf + Z.of_nat j) = nth j name 0) /\
  (forall x, ~ (buf <= x < buf + Z.of_nat (length name)) -> sfn_write b e buf m x = m x).
Proof.
  set (base := pre ++ [c]). intros Hb He Ne Hd Hf name. unfold sfn_write. pose proof Hb as (Lb & _). pose proof He as (Le & Xe & Se & _).
  pose proof (sfn_copy_spec b e buf 8 0 base 0 m Hb ltac:(lia) ltac:(cbn; lia)) as C1.
  destruct (sfn_copy 8 0 b e buf 0 m) as [p m1]. destruct C1 as (-> & B1 & F1). change (0 + Z.of_nat (length base)) with (Z.of_nat (length base)).
  assert (length base = S (length pre)) as Ln by (unfold base; rewrite length_app; cbn; lia).
  assert (m1 (buf + Z.of_nat (length base) - 1) = c) as E1.
  { replace (buf + Z.of_nat (length base) - 1) with (buf + 0 + Z.of_nat (length pre)) by lia. rewrite B1 by lia.
    unfold base. now rewrite app_nth2, Nat.sub_diag by lia. }
  assert (dir_name b e 8 <> 32) as E8.
  { destruct ext as [|x ext]; [contradiction|]. specialize (Xe 0%nat ltac:(cbn; lia)). change (8 + Z.of_nat 0) with 8 in Xe. rewrite Xe. cbn [nth].
    now apply Forall_cons in Se as [? _]. }
  rewrite E1, (proj2 (Z.eqb_neq c 46) Hd), (proj2 (Z.eqb_neq _ 32) E8), Hf. cbn [negb andb].
  rewrite wrap_small by (pow2_consts; lia).
  set (m2 := upd m1 (buf + Z.of_nat (length base)) 46).
  pose proof (sfn_copy_spec b e buf 3 8 ext (Z.of_nat (length base) + 1) m2 He ltac:(lia) ltac:(lia)) as C2.
  destruct (sfn_copy 3 8 b e buf _ m2) as [p m3]. destruct C2 as (-> & B2 & F2).
  assert (length name = length base + 1 + length ext + 1)%nat as Lt by (unfold name; rewrite !length_app; cbn; lia).
  split.
  - intros j Hj. rewrite Lt in Hj. unfold name. destruct (Nat.lt_ge_cases j (length base)) as [J|J].
    + rewrite upd_ne, F2 by lia. unfold m2. rewrite upd_ne, app_nth1 by lia. rewrite <- B1 by lia. f_equal. lia.
    + rewrite app_nth2 by lia. destruct (j - length base)%nat as [|j'] eqn:Ej; cbn [app nth].
      * rewrite upd_ne, F2 by lia. unfold m2. replace (buf + Z.of_nat j) with (buf + Z.of_nat (length base)) by lia. apply upd_eq.
      * destruct (Nat.lt_ge_cases j' (length ext)) as [J'|J'].
        -- rewrite upd_ne, app_nth1 by lia. rewrite <- B2 by lia. f_equal. lia.
        -- assert (j' = length ext) as -> by lia. rewrite app_nth2, Nat.sub_diag by lia.
           replace (buf + Z.of_nat j) with (buf + (Z.of_nat (length base) + 1 + Z.of_nat (length ext))) by lia. apply upd_eq.
  - intros x Hx. rewrite Lt in Hx. rewrite upd_ne, F2 by lia. unfold m2. rewrite upd_ne, F1 by lia. reflexivity.
Qed.

(** A file without an extension gets the byte that happened to be in the buffer behind its
    name, and a directory with one loses the dot. *)
Theorem sfn_stale_byte :
  let file := bytes_at 0 (chars "README     " ++ [0]) in
  let dir := bytes_at 0 (chars "LIB     D  " ++ [FAT_ATTR_DIRECTORY]) in
  let m := bytes_at 100 (repeat 63 13) in
  buffer_string 13 100 (sfn_write file 0 100 m) = chars "README?" /\
  buffer_string 13 100 (sfn_write dir 0 100 m) = chars "LIBD".
Proof. vm_compute. split; reflexivity. Qed.
