(* ===== verification/FatFs.v ===== *)
(** * The FAT file system: mounting, lookup and reading ([modules/fat/fat.c],
    [modules/fat/file.c])

    The operations the driver gives to the file layer.  [fat_mount] holds what [vfs_t] has
    for a file system on a disk: the drive, the partition, the type and, in [context], the
    metadata.  Files are read from the drive directly, tables and directories through the
    block cache. *)

From S2P Require Import Prelude Links Interfaces MemMap Pmm MemUtil Kheap Path Vnode Initrd Bytes Bcache Fat.
#[local] Open Scope Z_scope.

(** The fields of [fat_common_bpb_t] that are used. *)
Record fat_common_bpb_t : Type := mk_bpb {
  bytesPerSector : Z;
  sectorsPerCluster : Z;
  reservedSectorCount : Z;
  FATCount : Z;
  rootEntryCount : Z;
  totalSectors16 : Z;
  FATSize16 : Z;
  totalSectors32 : Z
}.

Record fat_metadata_t : Type := mk_meta {
  bpb : fat_common_bpb_t;
  sectorCount : Z;
  FATSize : Z;
  rootDirSectors : Z;
  firstDataSector : Z;
  firstFATSector : Z;
  dataSectorCount : Z;
  clusterCount : Z
}.

Definition FILESYS_TYPE_FAT12 : list Z := chars "fat12".
Definition FILESYS_TYPE_FAT16 : list Z := chars "fat16".
Definition FILESYS_TYPE_FAT32 : list Z := chars "fat32".

Record fat_mount : Type := mk_mount { fm_drive : Z; fm_partition : Z; fm_name : list Z; fm_type : list Z; fm_context : fat_metadata_t }.

(** The storage layer, the mounted file systems by their [vfs_t], [firstCluster] of a
    vnode by the address of its data, and the state of the name parser. *)
Record fat_state (D : Type) : Type := mk_fat {
  fat_stor : storage D;
  fat_mounts : Z -> fat_mount;
  firstCluster : Z -> Z;
  fat_lfn : lfn_state
}.
Arguments mk_fat {D}.
Arguments fat_stor {D}.
Arguments fat_mounts {D}.
Arguments firstCluster {D}.
Arguments fat_lfn {D}.

#[global] Instance fat_has_storage D : HasStorage (fat_state D) D :=
  {| storage_of := fat_stor; put_storage st x := mk_fat st (fat_mounts x) (firstCluster x) (fat_lfn x) |}.
#[global] Instance fat_has_storage_laws D : HasStorageLaws (fat_state D) D.
Proof. split; [reflexivity|now intros []]. Qed.

Section Fat.
Context {H D : Type} `{KH : KernelHeap H}.
(** The bound for the walks through the cache and the clusters of a file, the address of
    [fatVnodeOps], and what an array on the stack holds before it is written. *)
Variable (fuel : nat) (fatVnodeOps : Z) (stack : list Z).
Abbreviation F := (fal (fat_state D) H).
Implicit Types (s : F).

Definition put_x (x : fat_state D) s : F :=
  mk_fal (f_vnodes s) (f_vfss s) (vnodeListHead s) (vnodeListTail s) (rootVFS s) (lastVFS s) (f_nextfid s) (kerrno s)
    (f_mem s) (f_heap s) (f_tables s) x.
Definition disk s : storage D := fat_stor (f_x s).
Definition put_disk (st : storage D) s : F := put_x (put_storage st (f_x s)) s.
Definition put_lfn (l : lfn_state) s : F := put_x (mk_fat (disk s) (fat_mounts (f_x s)) (firstCluster (f_x s)) l) s.
Definition put_cluster (a c : Z) s : F :=
  put_x (mk_fat (disk s) (fat_mounts (f_x s)) (upd (firstCluster (f_x s)) a c) (fat_lfn (f_x s))) s.
Definition fat_block s (buf : Z) : mem := bytes_at 0 (data (bc_buf (disk s) buf)).

Definition fat_get (drv blk : Z) s : outcome (Z * F) :=
  '(b, st) ← bcache_get fuel drv blk (disk s); Ret (b, put_disk st s).
Definition fat_release (buf : Z) s : outcome F :=
  st ← bcache_release buf (disk s); Ret (put_disk st s).

Definition mount_of s (vfs : Z) : fat_mount := fat_mounts (f_x s) vfs.

(** [drive->partitions[partition].startLBA]. *)
Definition partition_start s (vfs : Z) : outcome Z :=
  let fm := mount_of s vfs in
  match nth_error (partitions (drives (disk s) (fm_drive fm))) (Z.to_nat (fm_partition fm)) with
  | Some p => Ret (startLBA p)
  | None => Fault
  end.

(** ** Names in the heap *)

(** The collected name, copied to a new buffer of 256 bytes; 0 is NULL. *)
Definition fat_parse_lfn (b : mem) (e : Z) s : outcome (Z * list Z * F) :=
  let '(r, l) := lfn_collect b e (fat_lfn (f_x s)) in
  let s := put_lfn l s in
  match r with
  | None => Ret (0, [], s)
  | Some name =>
      '(buf, h) ← kh_malloc 256 (f_heap s);
      Ret (buf, name, set_mem (write_bytes (name ++ [0]) buf (f_mem s)) (set_heap h s))
  end.

(** The short name is built in a new buffer of 13 bytes. *)
Definition fat_parse_sfn (b : mem) (e : Z) s : outcome (Z * list Z * F) :=
  '(buf, h) ← kh_malloc 13 (f_heap s);
  let m := sfn_write b e buf (f_mem s) in
  name ← read_cstr fuel buf m;
  Ret (buf, name, set_mem m (set_heap h s)).

Definition free_name (a : Z) s : outcome F := h ← kh_free a (f_heap s); Ret (set_heap h s).

(** ** The table *)

(** The next cluster of a file, 0 at the end or when the table cannot be read. *)
Definition fat16_next_cluster (vfs cluster : Z) s : outcome (Z * F) :=
  let fm := mount_of s vfs in
  start ← partition_start s vfs;
  '(buf, s) ← fat_get (fm_drive fm) (u64 (start + firstFATSector (fm_context fm) + cluster / 256)) s;
  if buf =? 0 then Ret (0, s)
  else
    let next := load16 (2 * (cluster mod 256)) (fat_block s buf) in
    s ← fat_release buf s;
    Ret (if next >=? 0xFFF6 then 0 else next, s).

Definition fat32_next_cluster (vfs cluster : Z) s : outcome (Z * F) :=
  let fm := mount_of s vfs in
  start ← partition_start s vfs;
  '(buf, s) ← fat_get (fm_drive fm) (u64 (start + firstFATSector (fm_context fm) + cluster / 128)) s;
  if buf =? 0 then Ret (0, s)
  else
    let next := load32 (4 * (cluster mod 128)) (fat_block s buf) in
    s ← fat_release buf s;
    Ret (if next >=? 0x0FFFFF6 then 0 else next, s).

(** The first sector of a cluster, as computed in each function. *)
Definition cluster_sector (start : Z) (md : fat_metadata_t) (cluster : Z) : Z :=
  u64 (start + firstDataSector md + u64 (sectorsPerCluster (bpb md) * u64 (cluster - 2))).

(** ** Lookup *)

(** What a sector of a directory gives: the vnode of the entry, or the two flags. *)
Inductive scan : Type :=
| Found (vnode : Z)
| Next (isLFN foundByLFN : bool).

(** [fat32_found]: the vnode of the entry at [e] of the buffer. *)
Definition fat_found (vfs : Z) (fullname : list Z) (buf e : Z) s : outcome (scan * F) :=
  let b := fat_block s buf in
  '(vnode, s) ← vnode_new vfs fatVnodeOps s;
  '(fsData, h) ← kh_malloc 4 (f_heap s);
  let s := put_cluster fsData (u32 (dir_clusterLow b e + Z.shiftl (dir_clusterHigh b e) 16)) (set_heap h s) in
  let s := upd_vnode vnode (fun v =>
    mk_vnode fullname (v_mode v) (v_flags v) (if has (dir_attrib b e) FAT_ATTR_DIRECTORY then V_DIR else V_REG)
      (dir_size b e) (v_refCount v) (v_lock v) (v_vfsMountedHere v) (v_vfs v) (v_vnodeops v) fsData (v_next v) (v_prev v)) s in
  s ← fat_release buf s;
  Ret (Found vnode, s).

Fixpoint scan_sector (n : nat) (j vfs : Z) (fullname lookFor : list Z) (buf : Z) (isLFN foundByLFN : bool) s
    : outcome (scan * F) :=
  match n with
  | O => Ret (Next isLFN foundByLFN, s)
  | S n' =>
      let e := j * DIR_SIZE in
      let b := fat_block s buf in
      if e + DIR_SIZE >? BCACHE_BLOCK_SIZE then Fault
      else if dir_name b e 0 =? 0xE5 then scan_sector n' (j + 1) vfs fullname lookFor buf isLFN foundByLFN s
      else if dir_name b e 0 =? 0 then Ret (Next isLFN foundByLFN, s)
      else if has (dir_attrib b e) FAT_ATTR_LFN then
        '(a, name, s) ← fat_parse_lfn b e s;
        if negb (a =? 0) && ((lfn_ord b e =? 1) || (lfn_ord b e =? 0x41)) && bool_decide (name = lookFor) then
          s ← free_name a s; scan_sector n' (j + 1) vfs fullname lookFor buf true true s
        else scan_sector n' (j + 1) vfs fullname lookFor buf true foundByLFN s
      else if isLFN && negb foundByLFN then scan_sector n' (j + 1) vfs fullname lookFor buf false foundByLFN s
      else if foundByLFN then fat_found vfs fullname buf e s
      else
        '(a, name, s) ← fat_parse_sfn b e s;
        if bool_decide (name = lookFor) then s ← free_name a s; fat_found vfs fullname buf e s
        else scan_sector n' (j + 1) vfs fullname lookFor buf isLFN foundByLFN s
  end.

(** The sectors of a cluster; [None] is the return of NULL when a block cannot be had. *)
Fixpoint scan_cluster (n : nat) (sector vfs : Z) (fullname lookFor : list Z) (isLFN foundByLFN : bool) s
    : outcome (option scan * F) :=
  match n with
  | O => Ret (Some (Next isLFN foundByLFN), s)
  | S n' =>
      let fm := mount_of s vfs in
      '(buf, s) ← fat_get (fm_drive fm) sector s;
      if buf =? 0 then Ret (None, s)
      else
        '(r, s) ← scan_sector (Z.to_nat (bytesPerSector (bpb (fm_context fm)) / DIR_SIZE)) 0 vfs fullname lookFor buf isLFN foundByLFN s;
        match r with
        | Found v => Ret (Some (Found v), s)
        | Next i f => s ← fat_release buf s; scan_cluster n' (u64 (sector + 1)) vfs fullname lookFor i f s
        end
  end.

Fixpoint scan_chain (n : nat) (start cluster vfs : Z) (fullname lookFor : list Z) (isLFN foundByLFN : bool) s
    : outcome (Z * F) :=
  match n with
  | O => OutOfFuel
  | S n' =>
      let md := fm_context (mount_of s vfs) in
      '(r, s) ← scan_cluster (Z.to_nat (sectorsPerCluster (bpb md))) (cluster_sector start md cluster) vfs fullname lookFor
                  isLFN foundByLFN s;
      match r with
      | None => Ret (0, s)
      | Some (Found v) => Ret (v, s)
      | Some (Next i f) =>
          '(next, s) ← fat32_next_cluster vfs cluster s;
          if next =? 0 then Ret (0, set_errno ENOENT s) else scan_chain n' start next vfs fullname lookFor i f s
      end
  end.

(** The name without its final slash. *)
Definition look_for (name : list Z) : list Z :=
  match rev name with
  | c :: r => if c =? SLASH then rev r else name
  | [] => name
  end.

Definition fat_lookup (self : Z) (name : list Z) s : outcome (Z * F) :=
  if (self =? 0) || negb (v_type (f_vnodes s self) =? V_DIR) then Ret (0, set_errno ENOTDIR s)
  else
    let vfs := v_vfs (f_vnodes s self) in
    let fullname := v_filename (f_vnodes s self) ++ name in
    if Z.of_nat (length fullname) >? 255 then Fault
    else
      listEntry ← vnode_list_search_by_filename fuel vfs fullname s;
      if negb (listEntry =? 0) then Ret (listEntry, s)
      else
        start ← partition_start s vfs;
        let t := fm_type (mount_of s vfs) in
        if bool_decide (t = FILESYS_TYPE_FAT12) || bool_decide (t = FILESYS_TYPE_FAT16) then Ret (0, set_errno ENOENT s)
        else if bool_decide (t = FILESYS_TYPE_FAT32) then
          scan_chain fuel start (firstCluster (f_x s) (v_fsData (f_vnodes s self))) vfs fullname (look_for name) false false s
        else Ret (0, set_errno EINVAL s).

(** ** Reading *)

(** The positions and the memory during a read. *)
Record cursor : Type := mk_cur { currentPosition : Z; cur_offset : Z; bytesRead : Z; cur_mem : mem }.

(** The bytes of a sector, from the [k]th on. *)
Fixpoint copy_sector (n : nat) (k size filesize buf : Z) (sect : list Z) (c : cursor) : cursor :=
  match n with
  | O => c
  | S n' =>
      if currentPosition c <? cur_offset c then
        copy_sector n' (k + 1) size filesize buf sect (mk_cur (u64 (currentPosition c + 1)) (cur_offset c) (bytesRead c) (cur_mem c))
      else
        let c := mk_cur (u64 (currentPosition c + 1)) (u64 (cur_offset c + 1)) (u64 (bytesRead c + 1))
                   (upd (cur_mem c) (buf + bytesRead c) (nth (Z.to_nat k) sect 0)) in
        if (bytesRead c >=? filesize) || (bytesRead c >? size) then c
        else copy_sector n' (k + 1) size filesize buf sect c
  end.

(** The sectors of a cluster, read from the drive into the array [sect]. *)
Fixpoint copy_cluster (n : nat) (i sector vfs size filesize buf : Z) (sect : list Z) (c : cursor) s
    : outcome (list Z * cursor * F) :=
  match n with
  | O => Ret (sect, c, s)
  | S n' =>
      let fm := mount_of s vfs in
      match d_read (drives (disk s) (fm_drive fm)) with
      | None => Fault
      | Some read =>
          '(_, sect, d) ← read (fm_drive fm) (u64 (sector + i)) 1 sect (dev (disk s));
          let s := put_disk (set_dev d (disk s)) s in
          let c := copy_sector (Z.to_nat (bytesPerSector (bpb (fm_context fm)))) 0 size filesize buf sect c in
          copy_cluster n' (i + 1) sector vfs size filesize buf sect c s
      end
  end.

Fixpoint copy_chain (n : nat) (start cluster vfs size filesize buf : Z) (sect : list Z) (c : cursor) s
    : outcome (Z * cursor * F) :=
  match n with
  | O => OutOfFuel
  | S n' =>
      if (bytesRead c <? size) && negb (cluster =? 0) && negb (bytesRead c =? filesize) then
        let fm := mount_of s vfs in
        let md := fm_context fm in
        '(sect, c, s) ← copy_cluster (Z.to_nat (sectorsPerCluster (bpb md))) 0 (cluster_sector start md cluster) vfs
                          size filesize buf sect c s;
        if bool_decide (fm_type fm = FILESYS_TYPE_FAT12) || bool_decide (fm_type fm = FILESYS_TYPE_FAT16)
        then copy_chain n' start cluster vfs size filesize buf sect c s
        else if bool_decide (fm_type fm = FILESYS_TYPE_FAT32) then
          '(next, s) ← fat32_next_cluster vfs cluster s;
          copy_chain n' start next vfs size filesize buf sect c s
        else Ret (- EINVAL, c, set_errno EINVAL s)
      else Ret (i64 (bytesRead c), c, s)
  end.

Definition fat_read (self size buf offset : Z) s : outcome (Z * F) :=
  let v := f_vnodes s self in
  start ← partition_start s (v_vfs v);
  if offset >=? v_size v then Ret (0, s)
  else
    '(r, c, s) ← copy_chain fuel start (firstCluster (f_x s) (v_fsData v)) (v_vfs v) size (v_size v) buf stack
                   (mk_cur 0 offset 0 (f_mem s)) s;
    Ret (r, set_mem (cur_mem c) s).

(** ** Listing a directory *)

Definition DT_DIR : Z := 4.
Definition DT_REG : Z := 8.

(** [sizeof(dirent_t)], with one character of the name. *)
Definition DIRENT_SIZE : Z := 20.

(** The variables of [fat_readdir]: the position in the caller's buffer, whether a long
    name has been parsed, the name ([str]), [dirent.offset], [trueOffset],
    [bytesReadFromOffset] and [bytesRead]. *)
Record listing : Type := mk_ls {
  bufind : Z;
  LFNParsedFirst : bool;
  ls_str : Z * list Z;
  d_offset : Z;
  trueOffset : Z;
  bytesReadFromOffset : Z;
  ls_bytesRead : Z
}.

(** The numeric fields of a [dirent_t]. *)
Definition put_dirent (a inode off reclen type : Z) (m : mem) : mem :=
  upd (store 2 (a + 16) reclen (store64 (a + 8) off (store64 a inode m))) (a + 18) type.

(** One entry of the directory; [inl] is a return. *)
Definition list_entry (b : mem) (e cluster count buf offset : Z) (l : listing) s : outcome ((Z + listing) * F) :=
  if d_offset l <? trueOffset l then
    Ret (inr (mk_ls (bufind l) (LFNParsedFirst l) (ls_str l) (u64 (d_offset l + DIR_SIZE)) (trueOffset l)
                (bytesReadFromOffset l) (ls_bytesRead l)), s)
  else if dir_name b e 0 =? 0 then Ret (inr l, s)
  else if dir_attrib b e =? FAT_ATTR_LFN then
    '(a, name, s) ← fat_parse_lfn b e s;
    Ret (inr (mk_ls (bufind l) (if a =? 0 then LFNParsedFirst l else true) (a, name) (u64 (d_offset l + DIR_SIZE))
                (u64 (trueOffset l + DIR_SIZE)) (bytesReadFromOffset l) (ls_bytesRead l)), s)
  else
    '(str, s) ← (if LFNParsedFirst l then Ret (ls_str l, s) else '(a, name, s) ← fat_parse_sfn b e s; Ret ((a, name), s));
    let type := if has (dir_attrib b e) FAT_ATTR_DIRECTORY then DT_DIR else DT_REG in
    let len := Z.of_nat (length str.2) in
    let reclen := u16 (DIRENT_SIZE + len) in
    let bytes := u64 (ls_bytesRead l + reclen) in
    if bytes <=? offset then
      s ← free_name str.1 (set_mem (memset buf 0 count (f_mem s)) s);
      Ret (inr (mk_ls 0 false str (d_offset l) (trueOffset l) 0 bytes), s)
    else
      let from := u64 (bytesReadFromOffset l + DIRENT_SIZE + len) in
      if (from >? count) && negb (offset >? bytes) then
        s ← free_name str.1 s; Ret (inl (u64 (from - (DIRENT_SIZE + len))), s)
      else
        let again := from >? count in
        let s := if again then set_mem (memset buf 0 count (f_mem s)) s else s in
        let at_ := if again then 0 else bufind l in
        let m := put_dirent (buf + at_) cluster (d_offset l) reclen type (f_mem s) in
        let m := write_bytes (str.2 ++ [0]) (buf + at_ + (DIRENT_SIZE - 1)) m in
        s ← free_name str.1 (set_mem m s);
        Ret (inr (mk_ls (i32 (at_ + (DIRENT_SIZE - 1) + len + 1)) false str (u64 (d_offset l + DIR_SIZE))
                    (u64 (trueOffset l + DIR_SIZE)) (if again then reclen else from) bytes), s).

Fixpoint list_sector (n : nat) (k cluster count buf offset : Z) (sect : list Z) (l : listing) s : outcome ((Z + listing) * F) :=
  match n with
  | O => Ret (inr l, s)
  | S n' =>
      '(r, s) ← list_entry (bytes_at 0 sect) k cluster count buf offset l s;
      match r with
      | inl v => Ret (inl v, s)
      | inr l => list_sector n' (k + DIR_SIZE) cluster count buf offset sect l s
      end
  end.

Fixpoint list_cluster (n : nat) (i sector vfs cluster count buf offset : Z) (sect : list Z) (l : listing) s
    : outcome ((Z + list Z * listing) * F) :=
  match n with
  | O => Ret (inr (sect, l), s)
  | S n' =>
      let fm := mount_of s vfs in
      match d_read (drives (disk s) (fm_drive fm)) with
      | None => Fault
      | Some read =>
          '(_, sect, d) ← read (fm_drive fm) (u64 (sector + i)) 1 sect (dev (disk s));
          let s := put_disk (set_dev d (disk s)) s in
          '(r, s) ← list_sector (Z.to_nat ((bytesPerSector (bpb (fm_context fm)) + DIR_SIZE - 1) / DIR_SIZE)) 0
                      cluster count buf offset sect l s;
          match r with
          | inl v => Ret (inl v, s)
          | inr l => list_cluster n' (i + 1) sector vfs cluster count buf offset sect l s
          end
      end
  end.

Fixpoint list_chain (n : nat) (start cluster vfs count buf offset : Z) (sect : list Z) (l : listing) s : outcome (Z * F) :=
  match n with
  | O => OutOfFuel
  | S n' =>
      if cluster =? 0 then Ret (i64 (bytesReadFromOffset l), s)
      else
        let fm := mount_of s vfs in
        let md := fm_context fm in
        '(r, s) ← list_cluster (Z.to_nat (sectorsPerCluster (bpb md))) 0 (cluster_sector start md cluster) vfs cluster
                    count buf offset sect l s;
        match r with
        | inl v => Ret (i64 v, s)
        | inr (sect, l) =>
            if bool_decide (fm_type fm = FILESYS_TYPE_FAT12) || bool_decide (fm_type fm = FILESYS_TYPE_FAT16)
            then list_chain n' start cluster vfs count buf offset sect l s
            else if bool_decide (fm_type fm = FILESYS_TYPE_FAT32) then
              '(next, s) ← fat32_next_cluster vfs cluster s;
              list_chain n' start next vfs count buf offset sect l s
            else Ret (- EINVAL, set_errno EINVAL s)
        end
  end.

Definition fat_readdir (self count buf offset : Z) s : outcome (Z * F) :=
  let v := f_vnodes s self in
  if negb (v_type v =? V_DIR) then Ret (- ENOTDIR, set_errno ENOTDIR s)
  else
    start ← partition_start s (v_vfs v);
    list_chain fuel start (firstCluster (f_x s) (v_fsData v)) (v_vfs v) count buf offset stack
      (mk_ls 0 false (0, []) 0 0 0 0) s.

Definition fat_ops : vnode_operations_t F :=
  mk_ops (Some fat_read) None None (Some fat_lookup) (Some fat_readdir).
End Fat.

(** ** Files as chains of clusters *)

(** The table entry of a cluster as the driver reads it, from the blocks of the disk. *)
Definition next_of (blk : Z -> list Z) (fat cluster : Z) : Z :=
  let next := load32 (4 * (cluster mod 128)) (bytes_at 0 (blk (u64 (fat + cluster / 128)))) in
  if next >=? 0x0FFFFF6 then 0 else next.

(** The clusters of a file: each entry gives the next one, the last gives 0. *)
Fixpoint chain (blk : Z -> list Z) (fat : Z) (cs : list Z) : Prop :=
  match cs with
  | [] => True
  | c :: cs' => c <> 0 /\ next_of blk fat c = first_v 0 cs' /\ chain blk fat cs'
  end.

(** The byte at position [p] of the file with the clusters [cs]. *)
Definition file_byte (blk : Z -> list Z) (start : Z) (md : fat_metadata_t) (cs : list Z) (p : Z) : Z :=
  let B := sectorsPerCluster (bpb md) * 512 in
  nth (Z.to_nat (p mod 512)) (blk (u64 (cluster_sector start md (nth (Z.to_nat (p / B)) cs 0) + p mod B / 512))) 0.

Section Read.
Variable (size filesize buf offset : Z) (file : Z -> Z) (m0 : mem).
Hypothesis (Hsize : 0 <= size <= filesize) (Hfs : filesize < 2 ^ 32) (Hoff : 0 <= offset < filesize).

(** As many bytes are copied before the inner loop stops. *)
Definition stop : Z := Z.min filesize (size + 1).

(** The transfer has reached position [P] of the file, or has passed the end. *)
Record ahead (P : Z) (c : cursor) : Prop := {
  ah_pos : currentPosition c = P;
  ah_off : cur_offset c = Z.max offset P;
  ah_read : bytesRead c = Z.max 0 (P - offset);
  ah_stop : bytesRead c < stop;
  ah_bytes : forall j, 0 <= j < bytesRead c -> cur_mem c (buf + j) = file (offset + j);
  ah_frame : forall x, ~ (buf <= x < buf + bytesRead c) -> cur_mem c x = m0 x
}.
Record done (k : Z) (c : cursor) : Prop := {
  dn_pos : currentPosition c = cur_offset c;
  dn_read : stop <= bytesRead c <= stop + k;
  dn_bytes : forall j, 0 <= j < size -> cur_mem c (buf + j) = file (offset + j);
  dn_frame : forall x, ~ (buf <= x < buf + bytesRead c) -> cur_mem c x = m0 x
}.

Lemma stop_test n : (n >=? filesize) || (n >? size) = (stop <=? n).
Proof. unfold stop. destruct (Z.geb_spec n filesize), (Z.gtb_spec n size), (Z.leb_spec (Z.min filesize (size + 1)) n); cbn; lia. Qed.

Lemma copy_sector_ahead sect n : forall k P c,
  ahead P c -> 0 <= P -> P + Z.of_nat n < 2 ^ 62 -> 0 <= k ->
  (forall i, k <= i < k + Z.of_nat n -> nth (Z.to_nat i) sect 0 = file (P + (i - k))) ->
  ahead (P + Z.of_nat n) (copy_sector n k size filesize buf sect c) \/ done 0 (copy_sector n k size filesize buf sect c).
Proof.
  induction n as [|n IH]; intros k P c Hc HP HPn Hk Hb; cbn [copy_sector]; [left; now rewrite Z.add_0_r|].
  pose proof Hc as [E1 E2 E3 E4 E5 E6]. pow2_consts. change (2 ^ 62) with 4611686018427387904 in *. rewrite E1, E2.
  replace (P + Z.of_nat (S n)) with ((P + 1) + Z.of_nat n) by lia.
  destruct (Z.ltb_spec P (Z.max offset P)).
  - apply IH; [|lia|lia|lia|intros i Hi; rewrite Hb by lia; f_equal; lia].
    split; cbn [currentPosition cur_offset bytesRead cur_mem]; rewrite ?wrap_small by (pow2_consts; lia); try lia; auto.
  - set (c' := mk_cur _ _ _ _).
    assert (ahead (P + 1) c' \/ done 0 c') as Hc'.
    { assert (bytesRead c' = P + 1 - offset) as R1 by (cbn; rewrite E3, wrap_small; pow2_consts; lia).
      assert (forall j, 0 <= j < bytesRead c' -> cur_mem c' (buf + j) = file (offset + j)) as R2.
      { intros j Hj. cbn [cur_mem c']. destruct (Z.eq_dec j (bytesRead c)) as [->|Hne]; [|rewrite upd_ne by lia; apply E5; lia].
        rewrite upd_eq, Hb by lia. f_equal. lia. }
      assert (forall x, ~ (buf <= x < buf + bytesRead c') -> cur_mem c' x = m0 x) as R3.
      { intros x Hx. cbn [cur_mem c']. rewrite upd_ne by lia. apply E6. lia. }
      destruct (Z.le_gt_cases stop (bytesRead c')); [right|left].
      - split; auto; [cbn; f_equal; lia|lia|]. intros j Hj. apply R2. unfold stop in *. lia.
      - split; auto; try lia; cbn [currentPosition cur_offset c']; rewrite wrap_small by (pow2_consts; lia); lia. }
    rewrite stop_test. destruct (Z.leb_spec stop (bytesRead c')) as [Hs|Hs].
    + destruct Hc' as [Ha|Hd]; [destruct Ha; lia|now right].
    + destruct Hc' as [Ha|Hd]; [|destruct Hd; lia].
      apply IH; [exact Ha|lia|lia|lia|]. intros i Hi. rewrite Hb by lia. f_equal. lia.
Qed.

Lemma copy_sector_done sect n q c : 0 <= q -> q < 2 ^ 32 -> done q c -> done (q + 1) (copy_sector (S n) 0 size filesize buf sect c).
Proof.
  intros Hq Hq2 [E1 E2 E3 E4]. cbn [copy_sector]. rewrite E1, Z.ltb_irrefl. set (c' := mk_cur _ _ _ _).
  assert (bytesRead c' = bytesRead c + 1) as R by (cbn; apply wrap_small; unfold stop in *; pow2_consts; lia).
  rewrite stop_test, (proj2 (Z.leb_le _ _)) by lia. split; [reflexivity|lia| |].
  - intros j Hj. cbn [cur_mem c']. rewrite upd_ne; [now apply E3|]. unfold stop in *. lia.
  - intros x Hx. cbn [cur_mem c']. unfold stop in *. rewrite upd_ne by lia. apply E4. lia.
Qed.
End Read.

Section Chain.
Context {H D : Type}.
Implicit Types (s : fal (fat_state D) H).

(** The state with another storage layer: the same drives, one of which still serves the
    same blocks. *)
Definition same_disk s (drv cap : Z) (blk : Z -> list Z) (st : storage D) : Prop :=
  drives st = drives (disk s) /\ serves st drv cap blk.

Lemma put_disk_id s : put_disk (disk s) s = s.
Proof. destruct s as [? ? ? ? ? ? ? ? ? ? ? []]. reflexivity. Qed.

Lemma set_dev_id s : put_disk (set_dev (dev (disk s)) (disk s)) s = s.
Proof. etransitivity; [|apply put_disk_id]. f_equal. now destruct (disk s). Qed.

(** The entry of a cluster is read through the idle cache. *)
Lemma next_cluster_spec fuel vfs cluster s l cap blk start :
  idle (disk s) l -> (length l < fuel)%nat -> serves (disk s) (fm_drive (mount_of s vfs)) cap blk ->
  partition_start s vfs = Ret start -> u64 (start + firstFATSector (fm_context (mount_of s vfs)) + cluster / 128) < cap ->
  Returns (fat32_next_cluster fuel vfs cluster s) (fun '(r, s') =>
    r = next_of blk (start + firstFATSector (fm_context (mount_of s vfs))) cluster /\
    exists st l', s' = put_disk st s /\ same_disk s (fm_drive (mount_of s vfs)) cap blk st /\ idle st l' /\ length l' = length l).
Proof.
  intros Hi Hf Hs Hp Hin. unfold fat32_next_cluster, fat_get. rewrite Hp. cbn [mbind outcome_bind].
  destruct l as [|b l]; [destruct Hi as (_ & Hi & _); cbn in Hi; lia|].
  destruct (idle_get fuel _ (u64 (start + firstFATSector (fm_context (mount_of s vfs)) + cluster / 128)) _ b l cap blk Hi Hf Hs)
    as ([r st] & Eg & -> & Hb & Hheld & Ed & Edr & Hsv).
  { split; [|exact Hin]. now apply wrap_range. }
  rewrite Eg. cbn [mbind outcome_bind]. rewrite (proj2 (Z.eqb_neq b 0) Hb). unfold fat_release.
  destruct (held_release _ _ _ Hheld) as (st2 & Er & Hi2 & Edr2 & Edev2).
  change (disk (put_disk st s)) with st. rewrite Er. cbn [mbind outcome_bind]. apply Returns_ret. split.
  - unfold next_of, fat_block. change (disk (put_disk st s)) with st. rewrite Ed. reflexivity.
  - exists st2, (l ++ [b]). splits; [reflexivity| |exact Hi2|rewrite length_app; cbn; lia].
    split; [congruence|]. apply (serves_ext st); [now rewrite Edr2|exact Edev2|exact Hsv].
Qed.

Section Transfer.
Variable (size filesize buf offset : Z) (m0 : mem).
Hypothesis (Hsize : 0 <= size <= filesize) (Hfs : filesize < 2 ^ 32) (Hoff : 0 <= offset < filesize).
Abbreviation ahead_of file := (ahead size filesize buf offset file m0).
Abbreviation done_with file := (done size filesize buf offset file m0).

Lemma done_mono file q q' c : q <= q' -> done_with file q c -> done_with file q' c.
Proof. intros Hq []. split; auto. lia. Qed.

(** A cluster moves the transfer on by its sectors, or past the end by at most one byte
    for each of them. *)
Lemma copy_cluster_spec file vfs sector cap blk : forall n i sect P q c s,
  serves (disk s) (fm_drive (mount_of s vfs)) cap blk -> (forall j, i <= j < i + Z.of_nat n -> u64 (sector + j) < cap) -> bytesPerSector (bpb (fm_context (mount_of s vfs))) = 512 ->
  0 <= i -> 0 <= P -> P + 512 * Z.of_nat n < 2 ^ 62 -> 0 <= q -> q + Z.of_nat n < 2 ^ 32 ->
  (forall j k, i <= j < i + Z.of_nat n -> 0 <= k < 512 ->
     nth (Z.to_nat k) (blk (u64 (sector + j))) 0 = file (P + 512 * (j - i) + k)) ->
  ahead_of file P c \/ done_with file q c ->
  Returns (copy_cluster n i sector vfs size filesize buf sect c s) (fun '(_, c', s') =>
    (exists d, s' = put_disk (set_dev d (disk s)) s /\ serves (set_dev d (disk s)) (fm_drive (mount_of s vfs)) cap blk) /\
    (ahead_of file (P + 512 * Z.of_nat n) c' \/ done_with file (q + Z.of_nat n) c')).
Proof.
  induction n as [|n IH]; intros i sect P q c s Hs Hin Hbps Hi HP HPn Hq Hqn Hb Hc; cbn [copy_cluster].
  - apply Returns_ret. rewrite Z.mul_0_r, !Z.add_0_r. split; [|auto]. exists (dev (disk s)). split; [now rewrite set_dev_id|].
    now destruct (disk s).
  - pose proof Hs as (read & I & Er & HI & Hread). rewrite Er.
    destruct (Hread (u64 (sector + i)) sect (dev (disk s))) as (q0 & d1 & E & HI1); [split; [now apply wrap_range|apply Hin; lia]|exact HI|].
    rewrite E. cbn [mbind outcome_bind]. rewrite Hbps.
    set (s1 := put_disk (set_dev d1 (disk s)) s).
    assert (serves (disk s1) (fm_drive (mount_of s1 vfs)) cap blk) as Hs1 by (exists read, I; auto).
    change (Z.to_nat 512) with 512%nat. set (c1 := copy_sector 512 0 _ _ _ _ c).
    assert (ahead_of file (P + 512) c1 \/ done_with file (q + 1) c1) as Hc1.
    { destruct Hc as [Hc|Hc].
      - destruct (copy_sector_ahead size filesize buf offset file m0 Hsize Hfs Hoff (blk (u64 (sector + i))) 512 0 P c Hc) as [Ha|Hd]; try lia.
        + intros k Hk. rewrite (Hb i k) by lia. f_equal. lia.
        + now left.
        + right. apply (done_mono file 0); [lia|exact Hd].
      - right. apply copy_sector_done; auto. lia. }
    replace (P + 512 * Z.of_nat (S n)) with ((P + 512) + 512 * Z.of_nat n) by lia.
    replace (q + Z.of_nat (S n)) with ((q + 1) + Z.of_nat n) by lia.
    eapply Returns_mono; [apply (IH (i + 1) _ (P + 512) (q + 1) c1 s1 Hs1); auto; try lia|].
    + intros j Hj. apply Hin. lia.
    + intros j k Hj Hk. rewrite Hb by lia. f_equal. lia.
    + intros [[sect' c'] s'] ((d & -> & Hd) & R). split; [|exact R]. exists d. split; [reflexivity|exact Hd].
Qed.

(** The result of a transfer. *)
Definition transferred (file : Z -> Z) (spc : Z) (c : cursor) : Prop :=
  size <= bytesRead c <= stop size filesize + spc /\ (forall j, 0 <= j < size -> cur_mem c (buf + j) = file (offset + j)) /\
  (forall x, ~ (buf <= x < buf + bytesRead c) -> cur_mem c x = m0 x).

Lemma done_transferred file spc c : done_with file spc c -> transferred file spc c.
Proof. intros [_ E1 E2 E3]. unfold transferred, stop in *. splits; auto; lia. Qed.
End Transfer.

(** The sectors of a cluster and its entry in the table are on the drive. *)
Definition on_drive (cap start : Z) (md : fat_metadata_t) (c : Z) : Prop :=
  u64 (start + firstFATSector md + c / 128) < cap /\
  forall j, 0 <= j < sectorsPerCluster (bpb md) -> u64 (cluster_sector start md c + j) < cap.

Lemma file_byte_at blk start md pre c cs j k :
  let spc := sectorsPerCluster (bpb md) in
  0 <= j < spc -> 0 <= k < 512 ->
  file_byte blk start md (pre ++ c :: cs) (Z.of_nat (length pre) * (spc * 512) + 512 * j + k) =
    nth (Z.to_nat k) (blk (u64 (cluster_sector start md c + j))) 0.
Proof.
  intros spc Hj Hk. unfold file_byte. fold spc. set (p := Z.of_nat (length pre) * (spc * 512) + 512 * j + k).
  assert (p / (spc * 512) = Z.of_nat (length pre)) as E1.
  { symmetry. apply (Z.div_unique_pos _ _ _ (512 * j + k)); [nia|unfold p; lia]. }
  assert (p mod (spc * 512) = 512 * j + k) as E2.
  { symmetry. apply (Z.mod_unique_pos _ _ (Z.of_nat (length pre))); [nia|unfold p; lia]. }
  assert (p mod 512 = k) as E3.
  { symmetry. apply (Z.mod_unique_pos _ _ (Z.of_nat (length pre) * spc + j)); [lia|unfold p; lia]. }
  rewrite E1, E2, E3, Nat2Z.id, app_nth2, Nat.sub_diag by lia. cbn [nth]. do 4 f_equal.
  symmetry. apply (Z.div_unique_pos _ _ _ k); lia.
Qed.

Section Whole.
Variable (fuel : nat) (size filesize buf offset : Z) (m0 : mem).
Hypothesis (Hsize : 0 <= size <= filesize) (Hfs : filesize < 2 ^ 32) (Hoff : 0 <= offset < filesize).
Variable (vfs start : Z) (md : fat_metadata_t) (cap : Z) (blk : Z -> list Z) (all : list Z).
Abbreviation spc := (sectorsPerCluster (bpb md)).
Abbreviation fat := (start + firstFATSector md).
Abbreviation file := (file_byte blk start md all).
Hypothesis (Hbps : bytesPerSector (bpb md) = 512) (Hspc : 1 <= spc < 256)
  (Hlen : Z.of_nat (length all) * (spc * 512) < 2 ^ 62) (Hcap : offset + size <= Z.of_nat (length all) * (spc * 512)).

(** The file system is mounted, its drive works and nothing else uses the cache. *)
Record mounted s (n : nat) : Prop := {
  mo_type : fm_type (mount_of s vfs) = FILESYS_TYPE_FAT32;
  mo_meta : fm_context (mount_of s vfs) = md;
  mo_start : partition_start s vfs = Ret start;
  mo_serves : serves (disk s) (fm_drive (mount_of s vfs)) cap blk;
  mo_idle : exists l, idle (disk s) l /\ length l = n
}.

Lemma mounted_put s n st l :
  mounted s n -> same_disk s (fm_drive (mount_of s vfs)) cap blk st -> idle st l -> length l = n -> mounted (put_disk st s) n.
Proof.
  intros [] [E1 E2] Hi Hl. split; auto.
  - unfold partition_start in *. change (disk (put_disk st s)) with st. change (mount_of (put_disk st s) vfs) with (mount_of s vfs).
    now rewrite E1.
  - now exists l.
Qed.

(** While fewer bytes than asked for are there, the transfer is still ahead. *)
Lemma phase_cases q c :
  let P := Z.of_nat q * (spc * 512) in
  ahead size filesize buf offset file m0 P c \/ done size filesize buf offset file m0 spc c ->
  0 <= bytesRead c < 2 ^ 33 /\ (bytesRead c < size -> ahead size filesize buf offset file m0 P c) /\
  (size <= bytesRead c -> transferred size filesize buf offset m0 file spc c).
Proof.
  intros P [Hc|Hc]; change (2 ^ 33) with 8589934592; pow2_consts.
  - pose proof Hc as [_ _ E3 E4 E5 E6]. unfold stop in *. splits; [lia|lia|auto|].
    intros Hs. unfold transferred, stop. splits; [lia|lia| |exact E6]. intros j Hj. apply E5. lia.
  - assert (transferred size filesize buf offset m0 file spc c) as Ht by (eapply done_transferred; eauto).
    destruct Hc as [_ E1 _ _]. unfold stop in *. splits; [lia|lia|lia|auto].
Qed.

Lemma copy_chain_spec : forall cs pre n sect c s m,
  all = pre ++ cs -> chain blk fat cs -> Forall (on_drive cap start md) cs -> mounted s m -> (m < fuel)%nat -> (length cs < n)%nat ->
  ahead size filesize buf offset file m0 (Z.of_nat (length pre) * (spc * 512)) c \/ done size filesize buf offset file m0 spc c ->
  Returns (copy_chain fuel n start (first_v 0 cs) vfs size filesize buf sect c s) (fun '(r, c', s') =>
    r = bytesRead c' /\ transferred size filesize buf offset m0 file spc c' /\ mounted s' m /\ exists st, s' = put_disk st s).
Proof.
  induction cs as [|c0 cs IH]; intros pre [|n] sect c s m Ea Hch Hin Hm Hf Hn Hc; cbn [length] in Hn; try lia; cbn [copy_chain].
  - destruct (phase_cases (length pre) c Hc) as (Hr & Hlt & Hge). rewrite app_nil_r in Ea. subst pre.
    destruct (Z.ltb_spec (bytesRead c) size) as [Hs|Hs].
    + specialize (Hlt Hs). destruct Hlt. lia.
    + cbn [andb]. apply Returns_ret. splits; auto; [apply swrap_small; pow2_consts; lia|]. exists (disk s). symmetry. apply put_disk_id.
  - destruct (phase_cases (length pre) c Hc) as (Hr & Hlt & Hge). destruct Hch as (Hc0 & Hnext & Hch).
    apply Forall_cons in Hin as [[Hin1 Hin2] Hin]. destruct (Z.ltb_spec (bytesRead c) size) as [Hs|Hs].
    2:{ cbn [andb]. apply Returns_ret. splits; auto; [apply swrap_small; pow2_consts; lia|]. exists (disk s). symmetry. apply put_disk_id. }
    specialize (Hlt Hs). cbn [andb first_v]. rewrite (proj2 (Z.eqb_neq c0 0) Hc0), (proj2 (Z.eqb_neq (bytesRead c) filesize)) by lia. cbn [negb andb].
    pose proof Hm as [Ht Hmd Hst Hsv (l & Hi & Hl)]. rewrite Hmd.
    assert (length all = length pre + S (length cs))%nat as La by (rewrite Ea, length_app; cbn; lia).
    eapply Returns_bind.
    { apply (copy_cluster_spec size filesize buf offset m0 Hsize Hfs Hoff file vfs (cluster_sector start md c0) cap blk
               (Z.to_nat spc) 0 sect (Z.of_nat (length pre) * (spc * 512)) 0 c s Hsv); try (rewrite ?Z2Nat.id by lia; pow2_consts; nia).
      - intros j Hj. rewrite Z2Nat.id in Hj by lia. apply Hin2. lia.
      - now rewrite Hmd.
      - intros j k Hj Hk. rewrite Z2Nat.id in Hj by lia. rewrite Ea, Z.sub_0_r, file_byte_at by lia. reflexivity.
      - now left. }
    intros [[sect' c'] s1] ((d1 & -> & Hsv1) & Hc'). rewrite Z2Nat.id in Hc' by lia. set (s1 := put_disk (set_dev d1 (disk s)) s).
    assert (mounted s1 m) as Hm1 by (apply (mounted_put s m _ l); auto; [split; auto|now apply idle_dev]).
    change (mount_of s1 vfs) with (mount_of s vfs). rewrite Ht. cbn [bool_decide]. 
    rewrite !bool_decide_false, bool_decide_true by (reflexivity || discriminate). cbn [orb].
    assert (u64 (start + firstFATSector (fm_context (mount_of s1 vfs)) + c0 / 128) < cap) as Hin1' by (change (mount_of s1 vfs) with (mount_of s vfs); now rewrite Hmd).
    eapply Returns_bind; [exact (next_cluster_spec fuel vfs c0 s1 l cap blk start (idle_dev _ _ _ Hi) ltac:(lia) Hsv1 (mo_start _ _ Hm1) Hin1')|].
    change (mount_of s1 vfs) with (mount_of s vfs). rewrite Hmd, Hnext. intros [nx s2] (-> & st & l' & -> & Hsd & Hi' & Hl').
    assert (mounted (put_disk st s1) m) as Hm' by (apply (mounted_put s1 m st l'); auto; congruence).
    eapply Returns_mono; [apply (IH (pre ++ [c0]) n sect' c' (put_disk st s1) m)|].
    + now rewrite <- app_assoc.
    + exact Hch.
    + exact Hin.
    + exact Hm'.
    + exact Hf.
    + lia.
    + rewrite length_app. cbn [length]. destruct Hc' as [Hc'|Hc']; [left|right; exact Hc'].
      replace (Z.of_nat (length pre + 1) * (spc * 512)) with (Z.of_nat (length pre) * (spc * 512) + 512 * spc) by lia. exact Hc'.
    + intros [[r c''] s3] (R1 & R2 & R3 & st3 & ->). splits; auto. now exists st3.
Qed.
End Whole.
End Chain.

(** What [fat_read] does; of the file layer only the memory and the disk change. *)
Lemma fat_read_spec {H D} fuel stack self size buf offset (s : fal (fat_state D) H) start md cap blk cs n :
  let v := f_vnodes s self in
  let spc := sectorsPerCluster (bpb md) in
  mounted (v_vfs v) start md cap blk s n -> Forall (on_drive cap start md) cs -> (n < fuel)%nat -> (length cs < fuel)%nat ->
  bytesPerSector (bpb md) = 512 -> 1 <= spc < 256 ->
  chain blk (start + firstFATSector md) cs -> firstCluster (f_x s) (v_fsData v) = first_v 0 cs ->
  0 <= size <= v_size v -> v_size v < 2 ^ 32 -> 0 <= offset < v_size v ->
  Z.of_nat (length cs) * (spc * 512) < 2 ^ 62 -> offset + size <= Z.of_nat (length cs) * (spc * 512) ->
  Returns (fat_read fuel stack self size buf offset s) (fun '(r, s') =>
    size <= r <= size + 1 + spc /\
    (forall j, 0 <= j < size -> f_mem s' (buf + j) = file_byte blk start md cs (offset + j)) /\
    (forall x, ~ (buf <= x < buf + r) -> f_mem s' x = f_mem s x) /\ mounted (v_vfs v) start md cap blk s' n /\
    exists m st, s' = set_mem m (put_disk st s)).
Proof.
  intros v spc Hm Hin Hf1 Hf2 Hbps Hspc Hch Efc Hsize Hfs Hoff Hlen Hcap. unfold fat_read. fold v.
  rewrite (mo_start _ _ _ _ _ _ _ Hm). cbn [mbind outcome_bind]. destruct (Z.geb_spec offset (v_size v)); [lia|]. rewrite Efc.
  pose proof (copy_chain_spec fuel size (v_size v) buf offset (f_mem s) Hsize Hfs Hoff (v_vfs v) start md cap blk cs Hbps Hspc Hlen Hcap
    cs [] fuel stack (mk_cur 0 offset 0 (f_mem s)) s n eq_refl Hch Hin Hm Hf1 Hf2) as HC.
  eapply Returns_bind; [apply HC; left|].
  - split; cbn [currentPosition cur_offset bytesRead cur_mem length Z.of_nat]; unfold stop; try lia; auto; intros j Hj; lia.
  - intros [[r c] s'] (-> & (R1 & R2 & R3) & Hm' & st & ->). apply Returns_ret. unfold stop in R1. fold spc in R1. splits; auto; try lia.
    + destruct Hm'. split; auto.
    + now exists (cur_mem c), st.
Qed.

(** C26: reading from a file on a FAT32 file system follows the chain of clusters in the
    table and stores the bytes of the file from the offset on; it terminates and leaves
    the block cache idle.  The number returned is at least the number asked for and can
    exceed it by one byte for each sector of a cluster and one more; so much is stored
    behind the bytes asked for. *)
Theorem fat_read_correct {H D} fuel stack self size buf offset (s : fal (fat_state D) H) start md cap blk cs n :
  let v := f_vnodes s self in
  let spc := sectorsPerCluster (bpb md) in
  mounted (v_vfs v) start md cap blk s n -> Forall (on_drive cap start md) cs -> (n < fuel)%nat -> (length cs < fuel)%nat ->
  bytesPerSector (bpb md) = 512 -> 1 <= spc < 256 ->
  chain blk (start + firstFATSector md) cs -> firstCluster (f_x s) (v_fsData v) = first_v 0 cs ->
  0 <= size <= v_size v -> v_size v < 2 ^ 32 -> 0 <= offset < v_size v ->
  Z.of_nat (length cs) * (spc * 512) < 2 ^ 62 -> offset + size <= Z.of_nat (length cs) * (spc * 512) ->
  Returns (fat_read fuel stack self size buf offset s) (fun '(r, s') =>
    size <= r <= size + 1 + spc /\
    (forall j, 0 <= j < size -> f_mem s' (buf + j) = file_byte blk start md cs (offset + j)) /\
    (forall x, ~ (buf <= x < buf + r) -> f_mem s' x = f_mem s x) /\ mounted (v_vfs v) start md cap blk s' n).
Proof.
  intros v spc Hm Hin Hf1 Hf2 Hbps Hspc Hch Efc Hsize Hfs Hoff Hlen Hcap. eapply Returns_mono.
  - now apply (fat_read_spec fuel stack self size buf offset s start md cap blk cs n).
  - intros [r s'] (R1 & R2 & R3 & R4 & _). splits; auto; lia.
Qed.

(** A file of 1500 bytes in the clusters 2 and 3, of two sectors each; the bytes of a
    sector are its number. *)
Definition fat_demo_blk (b : Z) : list Z :=
  if b =? 1 then repeat 0 8 ++ [3; 0; 0; 0; 255; 255; 255; 15] ++ repeat 0 496 else repeat b 512.
Definition fat_demo_md : fat_metadata_t := mk_meta (mk_bpb 512 2 1 1 0 100 1 0) 100 1 0 2 1 98 49.

Definition fat_demo_storage : storage unit :=
  mk_stor 1 2 (fun b => if b =? 1 then mk_buf false false 0 [] 0 0 2 0 false else mk_buf false false 0 [] 0 0 0 1 false) false
    (fun _ => mk_drive false 1 0 (Some (fun _ lba _ _ d => Ret (0, fat_demo_blk lba, d))) None 1 [mk_part 0 99 0 false 0 true] false 0) tt 0.

Definition fat_demo : fal (fat_state unit) unit :=
  mk_fal (fun _ => mk_vnode (chars "a.txt") 0 0 V_REG 1500 0 false 0 7 50 64 0 0) (fun _ => mk_vfs 0 0 0 0 false false 0)
    0 0 7 7 1 0 (fun _ => 0) tt ∅
    (mk_fat fat_demo_storage (fun _ => mk_mount 5 0 [] FILESYS_TYPE_FAT32 fat_demo_md) (fun _ => 2) lfn_start).

Lemma fat_demo_mounted : mounted 7 0 fat_demo_md 100 fat_demo_blk fat_demo 2 /\ chain fat_demo_blk 1 [2; 3].
Proof.
  split; [|vm_compute; repeat split; discriminate]. split; try reflexivity.
  - eexists _, (fun _ => True). splits; [reflexivity|exact I|]. intros blk old d _ _. exists 0, d. split; [reflexivity|exact I].
  - exists [1; 2]. split; [|reflexivity]. split; [|split; [cbn; lia|repeat constructor]]. split; try reflexivity.
    + vm_compute. repeat split.
    + split; [apply (bool_decide_unpack _); vm_compute; exact I|repeat constructor; discriminate].
    + intros b Hb. cbn. now destruct (b =? 1).
Qed.

Lemma fat_read_correct_witness :
  Returns (fat_read 3 [] 100 10 8192 1020 fat_demo) (fun '(r, s') =>
    10 <= r <= 13 /\ f_mem s' (8192 + 3) = 3 /\ f_mem s' (8192 + 4) = 4).
Proof.
  destruct fat_demo_mounted as [Hm Hc]. eapply Returns_mono.
  - apply (fat_read_correct 3 [] 100 10 8192 1020 fat_demo 0 fat_demo_md 100 fat_demo_blk [2; 3] 2 Hm).
    { repeat constructor; try (intros j Hj; assert (j = 0 \/ j = 1) as [->| ->] by (cbn in Hj; lia)); vm_compute; reflexivity. }
    1-2: cbn; lia.
    1: reflexivity.
    2: exact Hc.
    2: reflexivity.
    all: vm_compute; repeat split; congruence.
  - intros [r s'] (R1 & R2 & _). split; [exact R1|].
    split; [rewrite (R2 3) by lia|rewrite (R2 4) by lia]; vm_compute; reflexivity.
Defined.

(** Ten bytes are asked for, twelve are stored and reported, and the last one is not even
    the one that follows in the file. *)
Theorem fat_read_overruns :
  Returns (fat_read 3 [] 100 10 8192 1020 fat_demo) (fun '(r, s') =>
    r = 12 /\ f_mem s' (8192 + 11) = 5 /\ file_byte fat_demo_blk 0 fat_demo_md [2; 3] (1020 + 11) = 4).
Proof. eexists. split; [vm_compute; reflexivity|]. vm_compute. repeat split. Qed.

(** A directory in cluster 2 with one file, whose first letter and attributes are given. *)
#[local] Instance demo_heap : KernelHeap (kheap_state pmm_state) := kheap_heap HHDM.

Definition fat_dir_blk (letter attr b : Z) : list Z :=
  if b =? 1 then repeat 0 8 ++ [255; 255; 255; 15] ++ repeat 0 500
  else if b =? 2 then [letter] ++ chars "       TXT" ++ [attr] ++ repeat 0 14 ++ [9; 0; 5; 0; 0; 0] ++ repeat 0 480
  else repeat 0 512.

Definition fat_dir (letter attr : Z) : fal (fat_state unit) (kheap_state pmm_state) :=
  mk_fal (fun _ => mk_vnode [] 0 0 V_DIR 0 0 false 0 7 50 64 0 0) (fun _ => mk_vfs 0 0 0 0 false false 0)
    0 0 7 7 1 0 (fun _ => 0) heap_demo ∅
    (mk_fat (mk_stor 1 2 (bc_buf fat_demo_storage) false
        (fun _ => mk_drive false 1 0 (Some (fun _ lba _ _ d => Ret (0, fat_dir_blk letter attr lba, d))) None 1
                    [mk_part 0 99 0 false 0 true] false 0) tt 0)
       (fun _ => mk_mount 5 0 [] FILESYS_TYPE_FAT32 fat_demo_md) (fun _ => 2) lfn_start).

(** What a lookup of [A.TXT] gives: the type, size and first cluster of the vnode, or the
    error number. *)
Definition looked_up (letter attr : Z) : outcome (Z * Z * Z + Z) :=
  '(v, s) ← fat_lookup 20 50 100 (chars "A.TXT") (fat_dir letter attr);
  Ret (if v =? 0 then inr (kerrno s)
       else inl (v_type (f_vnodes s v), v_size (f_vnodes s v), firstCluster (f_x s) (v_fsData (f_vnodes s v)))).

(** An archived file is found; a read-only one is taken for a part of a long name and is
    not. *)
Theorem fat_lookup_misses_readonly :
  looked_up 65 0x20 = Ret (inl (V_REG, 5, 9)) /\ looked_up 65 0x21 = Ret (inr ENOENT).
Proof. split; vm_compute; reflexivity. Qed.

(** A deleted file, whose first letter is 0xE5, is not looked up but is listed. *)
Theorem fat_readdir_lists_deleted :
  looked_up 0xE5 0x20 = Ret (inr ENOENT) /\
  ('(n, s) ← fat_readdir 20 [] 100 64 8192 0 (fat_dir 0xE5 0x20); Ret (n, map (f_mem s) [8192 + 16; 8192 + 18; 8192 + 19; 8192 + 20])) =
    Ret (25, [25; DT_REG; 0xE5; 46]).
Proof. split; vm_compute; reflexivity. Qed.
