(* ===== verification/FatMount.v ===== *)
(** * The FAT driver: recognising and mounting a volume ([modules/fat/fat.c])

    The driver functions the device manager calls for a partition ([probe], [attach],
    [remove]) and [fat_statfs].  What the device manager does in [device_remove], and the
    two functions a system partition starts, are arguments. *)

From S2P Require Import Prelude Links Interfaces MemMap Pmm MemUtil Kheap Path Vnode Initrd Bytes Bcache Fat FatFs.
#[local] Open Scope Z_scope.

Record fs_pdev_data_t : Type := mk_pdev { pd_drive : Z; pd_partitionIndex : Z }.

Definition PROBE_OEMID_COUNT : Z := 15.
Definition probeOEMIDs : list (list Z) := map chars
  ["GARNFAT "; "MSDOS2.0"; "MSDOS2.1"; "MSDOS3.0"; "MSDOS3.1"; "MSDOS3.2"; "MSDOS3.3"; "MSDOS4.0"; "MSDOS5.0";
   "MSDOS5.1"; "MSWIN4.0"; "MSWIN4.1"; "FRDOS5.1"; "mkdosfs "; "mkfs.fat"]%string.

(** The fields of the boot sector. *)
Definition bpb_jump (b : mem) (i : Z) : Z := b i.
Definition OEMID : Z := 3.
Definition read_bpb (b : mem) : fat_common_bpb_t :=
  mk_bpb (load16 11 b) (b 13) (load16 14 b) (b 16) (load16 17 b) (load16 19 b) (load16 22 b) (load32 32 b).
Definition fat12_bootSig (b : mem) : Z := b 38.
Definition fat12_volLabel (b : mem) : list Z := map (fun i => b (43 + Z.of_nat i)) (seq 0 11).
Definition FATSize32 (b : mem) : Z := load32 36 b.
Definition rootCluster (b : mem) : Z := load32 44 b.
Definition fat32_bootSig (b : mem) : Z := b 66.
Definition fat32_volLabel (b : mem) : list Z := map (fun i => b (71 + Z.of_nat i)) (seq 0 11).

(** [sizeof(fat_metadata_t)] and [sizeof(fat_vnode_data_t)]. *)
Definition METADATA_SIZE : Z := 80.
Definition VNODE_DATA_SIZE : Z := 4.

(** The layout of the volume; a zero divisor faults. *)
Definition layout (b : mem) : outcome fat_metadata_t :=
  let p := read_bpb b in
  if (bytesPerSector p =? 0) || (sectorsPerCluster p =? 0) then Fault
  else
    let sectors := if totalSectors16 p =? 0 then totalSectors32 p else totalSectors16 p in
    let fats := if FATSize16 p =? 0 then FATSize32 b else FATSize16 p in
    let rootDir := (rootEntryCount p * 32 + (bytesPerSector p - 1)) / bytesPerSector p in
    let first := u32 (reservedSectorCount p + u32 (FATCount p * fats) + rootDir) in
    let dataSectors := u64 (sectors - first) in
    Ret (mk_meta p sectors fats rootDir first (reservedSectorCount p) dataSectors (dataSectors / sectorsPerCluster p)).

(** The type, the label, and the first cluster of the root directory. *)
Definition no_name : list Z := chars "NO NAME   " ++ [0].
Definition classify (b : mem) (md : fat_metadata_t) : list Z * list Z * Z :=
  if clusterCount md <? 4085 then
    (FILESYS_TYPE_FAT12, if fat12_bootSig b =? 0x29 then fat12_volLabel b else no_name, 0)
  else if clusterCount md <? 65525 then
    (FILESYS_TYPE_FAT16, if fat12_bootSig b =? 0x29 then fat12_volLabel b else no_name, 0)
  else (FILESYS_TYPE_FAT32, if fat32_bootSig b =? 0x29 then fat32_volLabel b else no_name, rootCluster b).

(** The comparison with the names in the driver's data, placed behind the block. *)
Definition oem_is (b : mem) (id : list Z) : bool :=
  strncmp OEMID BCACHE_BLOCK_SIZE 8 (write_bytes (id ++ [0]) BCACHE_BLOCK_SIZE b) =? 0.

(** The entries of one sector of the table. *)
Fixpoint tally (n : nat) (j : Z) (entry : Z -> Z) (eoc : Z) (free files : Z) : Z * Z :=
  match n with
  | O => (free, files)
  | S n' =>
      if entry j =? 0 then tally n' (j + 1) entry eoc (u64 (free + 1)) files
      else if entry j =? eoc then tally n' (j + 1) entry eoc free (u64 (files + 1))
      else tally n' (j + 1) entry eoc free files
  end.

Section Mount.
Context {H D : Type} `{KH : KernelHeap H}.
Variable (fuel : nat) (ops : Z -> vnode_operations_t (fal (fat_state D) H)) (fatVnodeOps : Z).
Abbreviation F := (fal (fat_state D) H).
Implicit Types (s : F).

Definition pdev_start (p : fs_pdev_data_t) s : outcome Z :=
  match nth_error (partitions (drives (disk s) (pd_drive p))) (Z.to_nat (pd_partitionIndex p)) with
  | Some q => Ret (startLBA q)
  | None => Fault
  end.

Definition probe (p : fs_pdev_data_t) s : outcome (bool * F) :=
  if d_type (drives (disk s) (pd_drive p)) =? DRIVE_TYPE_OPTICAL then Ret (false, s)
  else
    start ← pdev_start p s;
    '(buf, s) ← fat_get fuel (pd_drive p) start s;
    if buf =? 0 then Ret (false, s)
    else
      let b := fat_block s buf in
      if bytesPerSector (read_bpb b) =? 0 then s ← fat_release buf s; Ret (false, s)
      else if negb (bpb_jump b 0 =? 0xEB) && negb (bpb_jump b 2 =? 0x90) then s ← fat_release buf s; Ret (false, s)
      else s ← fat_release buf s; Ret (existsb (oem_is b) probeOEMIDs, s).

(** [vfs_mount] with the mount point NULL, which is used when there is a root already. *)
Definition mount_null (start_devfs autoreg : F -> outcome (Z * F)) (vfs flags : Z) s : outcome (Z * F) :=
  if negb (vfs_system (f_vfss s vfs)) && negb (rootVFS s =? 0) then Fault
  else vfs_mount ops fuel start_devfs autoreg vfs [] flags s.

Definition put_mount (vfs : Z) (fm : fat_mount) s : F :=
  put_x (mk_fat (disk s) (upd (fat_mounts (f_x s)) vfs fm) (firstCluster (f_x s)) (fat_lfn (f_x s))) s.

Definition is_system (p : fs_pdev_data_t) s : bool :=
  match nth_error (partitions (drives (disk s) (pd_drive p))) (Z.to_nat (pd_partitionIndex p)) with
  | Some q => isSystemPartition q
  | None => false
  end.

Definition attach (device_remove : F -> outcome (Z * F)) (start_devfs autoreg : F -> outcome (Z * F))
    (p : fs_pdev_data_t) s : outcome (bool * F) :=
  '(_, s) ← device_remove s;
  start ← pdev_start p s;
  '(buf, s) ← fat_get fuel (pd_drive p) start s;
  if buf =? 0 then Ret (false, s)
  else
    '(_, h) ← kh_malloc METADATA_SIZE (f_heap s);
    '(fatVFS, h) ← kh_malloc VFS_SIZE h;
    let s := upd_vfs fatVFS (fun _ => mk_vfs 0 0 0 0 false false 0) (set_heap h s) in
    let b := fat_block s buf in
    md ← layout b;
    '(rootDirData, h) ← kh_malloc VNODE_DATA_SIZE (f_heap s);
    let '(type, name, root) := classify b md in
    let s := put_cluster rootDirData root (set_heap h s) in
    let s := put_mount fatVFS (mk_mount (pd_drive p) (pd_partitionIndex p) name type md) s in
    '(rootVnode, s) ← vnode_new fatVFS fatVnodeOps s;
    let s := upd_vfs fatVFS (fun v => mk_vfs (vfs_fid v) (vfs_mountFlags v) (vfs_vnodeCovered v) rootVnode
                                        (is_system p s) (vfs_lock v) (vfs_next v)) s in
    let s := upd_vnode rootVnode (fun v => mk_vnode (v_filename v) (v_mode v) (v_flags v) V_DIR
               (u64 (u32 (rootDirSectors md * bytesPerSector (bpb md)))) (v_refCount v) (v_lock v) (v_vfsMountedHere v)
               (v_vfs v) (v_vnodeops v) rootDirData (v_next v) (v_prev v)) s in
    '(_, s) ← mount_null start_devfs autoreg fatVFS 0 s;
    s ← fat_release buf s;
    Ret (true, s).

(** [device->data] is freed. *)
Definition remove (data : Z) s : outcome (bool * F) := h ← kh_free data (f_heap s); Ret (true, set_heap h s).

(** The sectors of the table, counted from the start of the partition. *)
Fixpoint statfs_loop (n : nat) (i start drv : Z) (per : nat) (entry : mem -> Z -> Z) (eoc free files : Z) s
    : outcome (Z * Z * F) :=
  match n with
  | O => Ret (free, files, s)
  | S n' =>
      '(buf, s) ← fat_get fuel drv (u64 (start + i)) s;
      if buf =? 0 then Fault
      else
        let '(free, files) := tally per 0 (entry (fat_block s buf)) eoc free files in
        s ← fat_release buf s;
        statfs_loop n' (i + 1) start drv per entry eoc free files s
  end.

Definition fat_statfs (self : Z) s : outcome (statfs_t * F) :=
  let fm := mount_of s self in
  let md := fm_context fm in
  start ← partition_start s self;
  '(free, files, s) ←
    (if bool_decide (fm_type fm = FILESYS_TYPE_FAT12) then Ret (0, 0, s)
     else if bool_decide (fm_type fm = FILESYS_TYPE_FAT16) then
       statfs_loop (Z.to_nat (FATSize md)) 0 start (fm_drive fm) 256 (fun b j => load16 (2 * j) b) 0xFFFF 0 0 s
     else if bool_decide (fm_type fm = FILESYS_TYPE_FAT32) then
       statfs_loop (Z.to_nat (FATSize md)) 0 start (fm_drive fm) 128 (fun b j => Z.land (load32 (4 * j) b) 0x0FFFFFFF) 0xFFFFFFF 0 0 s
     else Ret (0, 0, s));
  Ret (mk_statfs 0x4D44 (sectorsPerCluster (bpb md) * bytesPerSector (bpb md)) (clusterCount md) free free files 0
         (vfs_fid (f_vfss s self)) 256 (vfs_mountFlags (f_vfss s self)), s).
End Mount.

(** ** The layout *)

(** A volume the driver can use: sectors of 512 bytes, and the areas in front of the data
    fit the volume. *)
Record volume (b : mem) : Prop := {
  vo_byte : forall i, 0 <= b i < 256;
  vo_sector : bytesPerSector (read_bpb b) = 512;
  vo_cluster : sectorsPerCluster (read_bpb b) <> 0;
  vo_fits : forall md, layout b = Ret md ->
    reservedSectorCount (read_bpb b) + FATCount (read_bpb b) * FATSize md + rootDirSectors md <= sectorCount md
}.

Lemma load_byte n a (b : mem) : (forall i, 0 <= b i < 256) -> 0 <= load n a b < 2 ^ (8 * Z.of_nat n).
Proof. intros Hb. apply load_range. auto. Qed.

(** The areas of a volume follow one another: the tables, the root directory and the
    clusters, the last of which ends inside the volume. *)
Lemma layout_spec b : volume b -> exists md, layout b = Ret md /\
  let p := read_bpb b in
  bpb md = p /\ firstFATSector md = reservedSectorCount p /\
  firstDataSector md = firstFATSector md + FATCount p * FATSize md + rootDirSectors md /\
  0 <= FATCount p * FATSize md /\ 0 <= rootDirSectors md /\ 0 <= firstFATSector md /\
  0 <= clusterCount md /\ sectorCount md < 2 ^ 32 /\ 1 <= sectorsPerCluster p < 256 /\
  firstDataSector md + sectorsPerCluster p * clusterCount md <= sectorCount md.
Proof.
  intros [Hb Hs Hc Hfit]. unfold layout in *. rewrite Hs, (proj2 (Z.eqb_neq _ _) Hc) in Hfit |- *. cbn [Z.eqb orb] in Hfit |- *.
  set (p := read_bpb b) in *.
  set (fats := if FATSize16 p =? 0 then FATSize32 b else FATSize16 p) in *.
  set (sectors := if totalSectors16 p =? 0 then totalSectors32 p else totalSectors16 p) in *.
  set (root := (rootEntryCount p * 32 + (512 - 1)) / 512) in *.
  assert (0 <= reservedSectorCount p) as R1 by (pose proof (load_byte 2 14 b Hb); cbn in *; lia).
  assert (0 <= FATCount p) as R2 by (cbn; apply Hb).
  assert (0 <= rootEntryCount p) as R3 by (pose proof (load_byte 2 17 b Hb); cbn in *; lia).
  assert (0 <= fats) as R4.
  { unfold fats. destruct (FATSize16 p =? 0); [pose proof (load_byte 4 36 b Hb)|pose proof (load_byte 2 22 b Hb)]; cbn in *; lia. }
  assert (0 <= sectors < 2 ^ 32) as R5.
  { unfold sectors. change (2 ^ 32) with 4294967296.
    destruct (totalSectors16 p =? 0); [pose proof (load_byte 4 32 b Hb)|pose proof (load_byte 2 19 b Hb)]; cbn in *; lia. }
  assert (1 <= sectorsPerCluster p < 256) as R6 by (pose proof (Hb 13); cbn in *; lia).
  assert (0 <= root) as R7 by (apply Z.div_pos; lia).
  eexists. split; [reflexivity|]. specialize (Hfit _ eq_refl). cbn [FATSize sectorCount rootDirSectors firstDataSector firstFATSector dataSectorCount clusterCount bpb] in Hfit |- *. cbv zeta.
  assert (0 <= FATCount p * fats) as R8 by nia.
  rewrite (wrap_small 32 (FATCount p * fats)), (wrap_small 32 (_ + _ + _)) by lia.
  rewrite (wrap_small 64 (sectors - _)) by (pow2_consts; lia).
  splits; auto; try lia.
  - apply Z.div_pos; lia.
  - pose proof (Z.mul_div_le (sectors - (reservedSectorCount p + FATCount p * fats + root)) (sectorsPerCluster p) ltac:(lia)). lia.
Qed.

(** Where a cluster is, on the drive. *)
Lemma cluster_inside b start md c : volume b -> layout b = Ret md -> 0 <= start < 2 ^ 63 -> 2 <= c < clusterCount md + 2 ->
  start + firstFATSector md + FATCount (bpb md) * FATSize md <= cluster_sector start md c /\
  cluster_sector start md c + sectorsPerCluster (bpb md) <= start + sectorCount md.
Proof.
  intros Hv El Hs Hc. destruct (layout_spec b Hv) as (md' & E & Hp & H1 & H2 & H3 & H4 & H5 & H6 & H7 & H8 & H9).
  rewrite El in E. injection E as <-. rewrite Hp. unfold cluster_sector. rewrite Hp.
  assert (clusterCount md <= sectorCount md) by nia.
  rewrite (wrap_small 64 (c - 2)) by (pow2_consts; lia). change (2 ^ 63) with 9223372036854775808 in *.
  rewrite (wrap_small 64 (sectorsPerCluster (read_bpb b) * (c - 2))) by (pow2_consts; nia).
  rewrite wrap_small by (pow2_consts; nia). nia.
Qed.

(** A drive that holds the volume holds its clusters and their entries in the table. *)
Lemma cluster_on_drive b start md cap c : volume b -> layout b = Ret md -> 0 <= start < 2 ^ 63 -> start + sectorCount md <= cap ->
  2 <= c < clusterCount md + 2 -> 1 <= clusterCount md -> on_drive cap start md c.
Proof.
  intros Hv El Hs Hcap Hc H0. destruct (cluster_inside b start md c Hv El Hs Hc) as [C1 C2].
  destruct (layout_spec b Hv) as (md' & E & Hp & H1 & H2 & H3 & H4 & H5 & H6 & H7 & H8 & H9). rewrite El in E. injection E as <-.
  rewrite Hp in *. change (2 ^ 63) with 9223372036854775808 in *. pow2_consts. split.
  - rewrite wrap_small by (pow2_consts; Z.div_mod_to_equations; nia). Z.div_mod_to_equations; nia.
  - intros j Hj. rewrite wrap_small by (pow2_consts; rewrite Hp in Hj; nia). rewrite Hp in Hj. lia.
Qed.

(** ** Mounting *)

Section Attach.
Context {H D : Type} `{KHL : KernelHeapLaws H}.
Variable (fuel : nat) (ops : Z -> vnode_operations_t (fal (fat_state D) H)) (fatVnodeOps : Z).
Abbreviation F := (fal (fat_state D) H).
Implicit Types (s : F).

Lemma malloc_safe size h l : 0 <= size < 2 ^ 40 -> kh_ok h -> kh_live h l ->
  Safe (kh_malloc size h) (fun '(a, h') => 0 < a /\ kh_ok h' /\ exists n, kh_live h' ((a, n) :: l)).
Proof.
  intros Hs Hok Hl. pose proof (kh_malloc_spec size h l Hs Hok Hl) as HM.
  destruct (kh_malloc size h) as [[a h']|?| | |]; cbn; try contradiction; [|exact I].
  destruct HM as (n & ? & _ & _ & _ & ? & ? & _). eauto.
Qed.

Lemma vnode_new_safe vfs o s l : kh_ok (f_heap s) -> kh_live (f_heap s) l ->
  Safe (vnode_new vfs o s) (fun '(a, s') => exists h' g, s' = upd_vnode a g (set_heap h' s)).
Proof.
  intros Hok Hl. eapply Safe_bind; [apply (malloc_safe VNODE_SIZE _ l); auto; unfold VNODE_SIZE; lia|]. intros [a h] _. cbn. eauto.
Qed.

(** What is left to do once the new root is in place: the two functions of the kernel that
    start the system on it, and the release of the boot sector. *)
Definition hand_over (start_devfs autoreg : F -> outcome (Z * F)) (b : Z) s : outcome (bool * F) :=
  '(r, s) ← start_devfs s;
  if negb (r =? 0) then Panic "Failed to mount devfs!"
  else
    '(r, s) ← autoreg s;
    if negb (r =? 0) then Panic "autoreg.txt not found on system fs!"
    else s ← fat_release b s; Ret (true, s).

(** The volume has just become the root: its root vnode is the directory at the cluster
    the boot sector names, no other vnode is open, and once the buffer [b] of the boot sector
    is released the file system can be read. *)
Record new_root vops (start : Z) md cap blk (n : nat) (b : Z) s : Prop := {
  nr_fid : vfs_fid (f_vfss s (rootVFS s)) = 0 /\ vfs_mountFlags (f_vfss s (rootVFS s)) = 0;
  nr_vnode : let rv := f_vnodes s (vfs_rootVnode (f_vfss s (rootVFS s))) in
    v_type rv = V_DIR /\ v_vfs rv = rootVFS s /\ v_vnodeops rv = vops /\
    firstCluster (f_x s) (v_fsData rv) = rootCluster (bytes_at 0 (blk start));
  nr_list : vnodeListHead s = 0;
  nr_mounted : Returns (fat_release b s) (fun s' => rootVFS s' = rootVFS s /\ mounted (rootVFS s) start md cap blk s' n)
}.

Lemma mount_system start_devfs autoreg vfs s b :
  vfs_system (f_vfss s vfs) = true -> rootVFS s <> 0 ->
  exists s1, ('(_, s) ← mount_null fuel ops start_devfs autoreg vfs 0 s; s ← fat_release b s; Ret (true, s)) = hand_over start_devfs autoreg b s1 /\
    rootVFS s1 = vfs /\ vnodeListHead s1 = 0 /\ f_vnodes s1 = f_vnodes s /\ f_x s1 = f_x s /\
    vfs_fid (f_vfss s1 vfs) = 0 /\ vfs_mountFlags (f_vfss s1 vfs) = 0 /\ vfs_rootVnode (f_vfss s1 vfs) = vfs_rootVnode (f_vfss s vfs).
Proof.
  intros Hs Hr. unfold mount_null, vfs_mount. rewrite Hs, (proj2 (Z.eqb_neq _ 0) Hr). cbn [negb andb].
  set (s1 := vnode_list_reset _). exists s1. split; [|unfold s1; cbn; rewrite upd_eq; cbn; splits; reflexivity].
  unfold hand_over. destruct (start_devfs s1) as [[r2 s2]|?| | |]; cbn [mbind outcome_bind]; try reflexivity.
  destruct (negb (r2 =? 0)); cbn [mbind outcome_bind]; [reflexivity|].
  destruct (autoreg s2) as [[r3 s3]|?| | |]; cbn [mbind outcome_bind]; try reflexivity.
  destruct (negb (r3 =? 0)); reflexivity.
Qed.
End Attach.

(** C27: attaching a FAT32 volume of the system partition, on a drive that serves its blocks,
    makes it the new root and then hands over to the two functions of the kernel that start
    the system on it, about which nothing is assumed: up to the out-of-memory panic,
    [attach] is exactly these two calls (with the panic of the code when one of them fails)
    and the release of the boot sector, from a state in which the volume is the root with the
    layout the boot sector describes and, once the boot sector is released, [fat_read]
    works.  Every cluster of the volume lies behind the tables and ends inside the volume. *)
Theorem attach_correct {H D} `{KHL : KernelHeapLaws H} fuel ops vops device_remove start_devfs autoreg p
    (s s0 : fal (fat_state D) H) r0 q cap blk l areas md :
  device_remove s0 = Ret (r0, s) -> rootVFS s <> 0 ->
  idle (disk s) l -> (length l < fuel)%nat -> serves (disk s) (pd_drive p) cap blk ->
  nth_error (partitions (drives (disk s) (pd_drive p))) (Z.to_nat (pd_partitionIndex p)) = Some q ->
  isSystemPartition q = true -> 0 <= startLBA q < 2 ^ 63 ->
  kh_ok (f_heap s) -> kh_live (f_heap s) areas ->
  volume (bytes_at 0 (blk (startLBA q))) -> layout (bytes_at 0 (blk (startLBA q))) = Ret md -> 65525 <= clusterCount md -> startLBA q + sectorCount md <= cap ->
  ((exists msg, attach fuel ops vops device_remove start_devfs autoreg p s0 = Panic msg) \/
   exists b s', attach fuel ops vops device_remove start_devfs autoreg p s0 = hand_over start_devfs autoreg b s' /\
     new_root vops (startLBA q) md cap blk (length l) b s') /\
  forall c, 2 <= c < clusterCount md + 2 -> on_drive cap (startLBA q) md c /\
    startLBA q + firstFATSector md + FATCount (bpb md) * FATSize md <= cluster_sector (startLBA q) md c /\
    cluster_sector (startLBA q) md c + sectorsPerCluster (bpb md) <= startLBA q + sectorCount md.
Proof.
  intros E0 Hroot Hi Hf Hsv Hq Hsys Hst Hok Hl Hv Elay Hcc Hcap.
  split; [|intros c Hc; split; [apply (cluster_on_drive (bytes_at 0 (blk (startLBA q)))); auto; lia|now apply (cluster_inside (bytes_at 0 (blk (startLBA q))))]].
  unfold attach. rewrite E0. cbn [mbind outcome_bind]. unfold pdev_start. rewrite Hq. cbn [mbind outcome_bind].
  destruct l as [|b l]; [destruct Hi as (_ & Hi & _); cbn in Hi; lia|]. unfold fat_get.
  assert (startLBA q < cap) as Hq0.
  { destruct (layout_spec _ Hv) as (md' & E & Hp & _ & _ & H3 & _ & H5 & _ & _ & H8 & _). rewrite Elay in E. injection E as <-.
    destruct (cluster_inside _ (startLBA q) md 2 Hv Elay Hst ltac:(lia)) as [C1 C2]. rewrite Hp in *. lia. }
  destruct (idle_get fuel _ (startLBA q) _ b l cap blk Hi Hf Hsv ltac:(lia)) as ([r st] & Eg & -> & Hb & Hheld & Ed & Edr & Hsv').
  rewrite Eg. cbn [mbind outcome_bind]. rewrite (proj2 (Z.eqb_neq b 0) Hb).
  pose proof (malloc_safe METADATA_SIZE (f_heap (put_disk st s)) areas ltac:(unfold METADATA_SIZE; lia) Hok Hl) as M1.
  destruct (kh_malloc METADATA_SIZE (f_heap (put_disk st s))) as [[md0 h1]|msg| | |]; try contradiction; [|left; now exists msg]. destruct M1 as (_ & Hok1 & n1 & Hl1).
  cbn [mbind outcome_bind].
  pose proof (malloc_safe VFS_SIZE _ _ ltac:(unfold VFS_SIZE; lia) Hok1 Hl1) as M2.
  destruct (kh_malloc VFS_SIZE h1) as [[vfs h2]|msg| | |]; try contradiction; [|left; now exists msg]. destruct M2 as (Hvfs & Hok2 & n2 & Hl2).
  cbn [mbind outcome_bind].
  unfold fat_block. cbn [upd_vfs set_vfss set_heap f_x put_disk put_x disk put_storage fat_stor fat_has_storage]. rewrite Ed, Elay.
  cbn [mbind outcome_bind f_heap upd_vfs set_vfss set_heap].
  pose proof (malloc_safe VNODE_DATA_SIZE _ _ ltac:(unfold VNODE_DATA_SIZE; lia) Hok2 Hl2) as M3.
  destruct (kh_malloc VNODE_DATA_SIZE h2) as [[rd h3]|msg| | |]; try contradiction; [|left; now exists msg]. destruct M3 as (_ & Hok3 & n3 & Hl3).
  cbn [mbind outcome_bind].
  unfold classify. rewrite (proj2 (Z.ltb_ge _ 4085)), (proj2 (Z.ltb_ge _ 65525)) by lia.
  match goal with |- context [vnode_new vfs vops ?x] => set (s1 := x) end.
  unfold vnode_new. pose proof (malloc_safe VNODE_SIZE _ _ ltac:(unfold VNODE_SIZE; lia) (Hok3 : kh_ok (f_heap s1)) Hl3) as M4.
  destruct (kh_malloc VNODE_SIZE (f_heap s1)) as [[rv h4]|msg| | |]; try contradiction; [|left; now exists msg]. clear M4.
  cbn [mbind outcome_bind]. match goal with |- context [mount_null _ _ _ _ _ _ ?x] => set (s3 := x) end.
  assert (vfs_system (f_vfss s3 vfs) = true) as Es.
  { cbn. rewrite upd_eq. cbn. unfold is_system. change (disk _) with st. now rewrite Edr, Hq. }
  destruct (mount_system fuel ops start_devfs autoreg vfs s3 b Es Hroot) as (s4 & E4 & R1 & R2 & R3 & R4 & R5 & R6 & R7).
  right. exists b, s4. split; [exact E4|].
  assert (vfs_rootVnode (f_vfss s3 vfs) = rv) as Er by (cbn; now rewrite upd_eq). rewrite Er in R7.
  assert (mount_of s4 vfs = mk_mount (pd_drive p) (pd_partitionIndex p)
    (if fat32_bootSig (bytes_at 0 (blk (startLBA q))) =? 0x29 then fat32_volLabel (bytes_at 0 (blk (startLBA q))) else no_name)
    FILESYS_TYPE_FAT32 md) as Em by (unfold mount_of; rewrite R4; cbn; apply upd_eq).
  split; rewrite ?R1, ?R7; [auto| |exact R2|].
  - rewrite R3, R4. cbn. rewrite !upd_eq. cbn. rewrite ?upd_eq. splits; reflexivity.
  - change (disk s3) with st in *. assert (disk s4 = st) as Ed4 by (unfold disk; now rewrite R4).
    unfold fat_release. rewrite Ed4. destruct (held_release _ _ _ Hheld) as (st5 & -> & Hi5 & Hd5 & Hv5). cbn [mbind outcome_bind].
    apply Returns_ret. split; [exact R1|].
    assert (mount_of (put_disk st5 s4) vfs = mount_of s4 vfs) as Em' by reflexivity.
    split; rewrite ?Em', ?Em; try reflexivity; change (disk (put_disk st5 s4)) with st5.
    + unfold partition_start. rewrite Em', Em. change (disk (put_disk st5 s4)) with st5. cbn [fm_drive fm_partition].
      now rewrite Hd5, Edr, Hq.
    + cbn [fm_drive]. apply (serves_ext st); [now rewrite Hd5|now rewrite Hv5|exact Hsv'].
    + exists (l ++ [b]). split; [exact Hi5|]. rewrite length_app. cbn. lia.
Qed.

(** ** A volume *)

#[local] Instance demo_heap : KernelHeap (kheap_state pmm_state) := kheap_heap HHDM.
#[local] Instance demo_heap_laws : KernelHeapLaws (kheap_state pmm_state) := kheap_heap_laws HHDM.

(** A boot sector: one table of 512 sectors behind the boot sector, 65536 clusters of one
    sector, the root directory in cluster 2. *)
Definition boot_sector : list Z :=
  [0xEB; 0x58; 0x90] ++ chars "mkfs.fat" ++ [0; 2; 1; 1; 0; 1; 0; 0; 0; 0; 0; 0; 0] ++ repeat 0 8 ++ [1; 2; 1; 0] ++
  [0; 2; 0; 0; 0; 0; 0; 0; 2; 0; 0; 0] ++ repeat 0 462 ++ [0x55; 0xAA].

Definition boot_blk (lba : Z) : list Z := if lba =? 64 then boot_sector else repeat 0 512.

Definition boot_storage (sys : bool) : storage unit :=
  mk_stor 1 2 (bc_buf fat_demo_storage) false
    (fun _ => mk_drive true 1 0 (Some (fun _ lba _ _ d => Ret (0, boot_blk lba, d))) None 1
                [mk_part 64 66112 0 sys 0 true] false 0) tt 0.

Definition boot_state (sys : bool) : fal (fat_state unit) (kheap_state pmm_state) :=
  mk_fal (fun _ => mk_vnode [] 0 0 0 0 0 false 0 0 0 0 0 0) (fun _ => mk_vfs 0 0 0 0 false false 0)
    0 0 7 7 1 0 (fun _ => 0) heap_demo ∅
    (mk_fat (boot_storage sys) (fun _ => mk_mount 0 0 [] [] fat_demo_md) (fun _ => 0) lfn_start).

Definition boot_md : fat_metadata_t := mk_meta (mk_bpb 512 1 1 1 0 0 0 66049) 66049 512 0 513 1 65536 65536.

Lemma boot_volume : volume (bytes_at 0 boot_sector) /\
  layout (bytes_at 0 boot_sector) = Ret boot_md.
Proof.
  split; [split|vm_compute; reflexivity].
  - intros i. unfold bytes_at.
    assert (Forall (fun x => 0 <= x < 256) boot_sector) as HF by (apply (bool_decide_unpack _); vm_compute; exact I).
    destruct (_ && _); [|lia]. destruct (nth_error boot_sector (Z.to_nat (i - 0))) as [x|] eqn:E.
    + rewrite (nth_error_nth _ _ 0 E). rewrite Forall_forall in HF. apply HF, list_elem_of_In, (nth_error_In _ _ E).
    + rewrite nth_overflow; [lia|]. now apply nth_error_None.
  - vm_compute. reflexivity.
  - vm_compute. discriminate.
  - intros md E. injection E as <-. vm_compute. discriminate.
Qed.

Lemma boot_idle sys : idle (disk (boot_state sys)) [1; 2].
Proof.
  split; [|split; [cbn; lia|repeat constructor]]. split; try reflexivity.
  - vm_compute. repeat split.
  - split; [apply (bool_decide_unpack _); vm_compute; exact I|repeat constructor; discriminate].
  - intros b Hb. cbn. now destruct (b =? 1).
Qed.

Definition boot_attach (sys : bool) : outcome (bool * fal (fat_state unit) (kheap_state pmm_state)) :=
  attach 3 (fun _ => fat_ops 3 50 []) 50 (fun s => Ret (0, s)) (fun s => Ret (0, s)) (fun s => Ret (0, s)) (mk_pdev 5 0) (boot_state sys).

Lemma not_panic {A} (r : outcome A) (Q : Prop) : (exists msg, r = Panic msg) \/ Q ->
  match r with Ret _ => true | _ => false end = true -> Q.
Proof. now intros [[msg ->]|HQ]. Qed.

Lemma attach_correct_witness :
  exists b s', boot_attach true = hand_over (fun s => Ret (0, s)) (fun s => Ret (0, s)) b s' /\
    new_root 50 64 boot_md 70000 boot_blk 2 b s' /\ cluster_sector 64 boot_md 65537 + 1 <= 64 + 66049.
Proof.
  destruct boot_volume as [Hv El].
  assert (match boot_attach true with Ret _ => true | _ => false end = true) as Er by (vm_compute; reflexivity).
  destruct (attach_correct 3 (fun _ => fat_ops 3 50 []) 50 (fun s => Ret (0, s)) (fun s => Ret (0, s)) (fun s => Ret (0, s))
    (mk_pdev 5 0) (boot_state true) (boot_state true) 0 (mk_part 64 66112 0 true 0 true) 70000 boot_blk [1; 2] [] boot_md) as [HA HC].
  - reflexivity.
  - discriminate.
  - apply boot_idle.
  - cbn. lia.
  - eexists _, (fun _ => True). splits; [reflexivity|exact I|]. intros blk old d _ _. exists 0, d. split; [reflexivity|exact I].
  - reflexivity.
  - reflexivity.
  - cbn. lia.
  - apply heap_demo_live.
  - apply heap_demo_live.
  - exact Hv.
  - exact El.
  - vm_compute. discriminate.
  - vm_compute. discriminate.
  - destruct (not_panic _ _ HA Er) as (b & s' & E1 & E2). exists b, s'. split; [exact E1|].
    split; [exact E2|]. refine (proj2 (proj2 (HC 65537 _))). cbn. lia.
Defined.

(** The driver accepts the volume; it also accepts one whose jump instruction is wrong in
    one of its two bytes, since both must be wrong for a rejection. *)
Definition probed (first : Z) : outcome bool :=
  '(ok, _) ← probe (D := unit) 3 (mk_pdev 5 0)
    (put_disk (set_drives (fun _ => mk_drive true 1 0 (Some (fun _ _ _ _ d => Ret (0, first :: tail boot_sector, d))) None 1
                            [mk_part 64 66112 0 true 0 true] false 0) (boot_storage true)) (boot_state true)); Ret ok.

Theorem probe_jump_test : probed 0xEB = Ret true /\ probed 0x00 = Ret true.
Proof. split; vm_compute; reflexivity. Qed.

(** A volume that is not on the system partition is mounted at NULL: the kernel, which
    always has a root by then, faults. *)
Theorem attach_second_faults : boot_attach false = Fault.
Proof. vm_compute. reflexivity. Qed.

(** The free clusters are counted in the sectors from the boot sector on, not in the
    table: the table of the example has 126 free entries and one file. *)
Theorem statfs_reads_boot_sector :
  Returns (fat_statfs 3 7 fat_demo) (fun '(r, _) => st_freeBlocks r = 128 /\ st_files r = 0) /\
  tally 128 0 (fun j => Z.land (load32 (4 * j) (bytes_at 0 (fat_demo_blk 1))) 0x0FFFFFFF) 0xFFFFFFF 0 0 = (126, 1).
Proof. split; [eexists; split; [vm_compute; reflexivity|]|]; vm_compute; auto. Qed.
