(* ===== verification/Device.v ===== *)
(** * Devices and drivers ([kernel/sys/dal/dev/device.c], [kernel/sys/dal/dev/driver.c])

    The device manager keeps a list of devices, each with a list of identifiers; the driver
    manager a list of registered drivers, each with an array of the identifiers it serves.
    A driver is loaded when a device asks for it, then probed and attached.  Identifiers,
    their strings and the drivers' function tables are in memory; running a function of a
    driver is the argument [invoke]. *)

From S2P Require Import Prelude Interfaces MemMap Pmm MemUtil Kheap ListDs Path Vnode Initrd Bytes Module Elf.
#[local] Open Scope Z_scope.

Definition DEVICE_ID_CLASS_NONE : Z := 0.
Definition DEVICE_ID_CLASS_PS2 : Z := 1.
Definition DEVICE_ID_CLASS_PCI : Z := 2.
Definition DEVICE_ID_CLASS_ACPI : Z := 3.
Definition DEVICE_ID_CLASS_BUS : Z := 4.
Definition DEVICE_ID_CLASS_TIMER : Z := 5.
Definition DEVICE_ID_CLASS_FS_PDEV : Z := 6.
Definition DEVICE_ID_PCI_VENDOR_ANY : Z := 0xFFFF.
Definition DEVICE_ID_PCI_DEVICE_ANY : Z := 0xFFFF.
Definition DEVICE_ID_PCI_PROGIF_ANY : Z := 0xFF.

(** The fields of the [device_id_t] at an address, and its size. *)
Definition DEVICE_ID_SIZE : Z := 48.
Definition id_class (m : mem) (a : Z) : Z := m a.
Definition id_value8 (m : mem) (a i : Z) : Z := m (a + 1 + i).
Definition id_value16 (m : mem) (a i : Z) : Z := load16 (a + 6 + 2 * i) m.
Definition id_string (m : mem) (a i : Z) : Z := load64 (a + 32 + 8 * i) m.

(** [device_driver_t]: the pointers to the functions. *)
Definition drv_probe (m : mem) (d : Z) : Z := load64 d m.
Definition drv_attach (m : mem) (d : Z) : Z := load64 (d + 8) m.
Definition drv_remove (m : mem) (d : Z) : Z := load64 (d + 16) m.

(** [sizeof(driver_node_t)]. *)
Definition DRIVER_NODE_SIZE : Z := 32.

Record driver_node_t : Type := mk_dnode { nd_driver : Z; nd_ids : Z; nd_loaded : bool; nd_path : list Z }.

(** The name of a device is used in messages only. *)
Record device_t (H : Type) : Type := mk_device {
  dv_bus : Z; dv_type : Z; dv_data : Z; dv_driverData : Z; dv_idList : option (list_t H); dv_node : Z
}.
Arguments mk_device {H}.
Arguments dv_bus {H}.
Arguments dv_type {H}.
Arguments dv_data {H}.
Arguments dv_driverData {H}.
Arguments dv_idList {H}.
Arguments dv_node {H}.

Record devman (X H : Type) : Type := mk_dm {
  dm_ld : loader X H;
  deviceManagerLock : spinlock_t;
  deviceList : list_t H;
  deviceCount : Z;
  driverManagerLock : spinlock_t;
  driverList : list_t H;
  driverCount : Z;
  dm_devs : Z -> device_t H;
  dm_nodes : Z -> driver_node_t
}.
Arguments mk_dm {X H}.
Arguments dm_ld {X H}.
Arguments deviceManagerLock {X H}.
Arguments deviceList {X H}.
Arguments deviceCount {X H}.
Arguments driverManagerLock {X H}.
Arguments driverList {X H}.
Arguments driverCount {X H}.
Arguments dm_devs {X H}.
Arguments dm_nodes {X H}.

(** ** Matching *)

(** [id1] is the identifier of the driver, which may hold wildcards. *)
Definition match_pci (id1 id2 : Z) (m : mem) : bool :=
  ((id_value16 m id1 0 =? id_value16 m id2 0) || (id_value16 m id1 0 =? DEVICE_ID_PCI_VENDOR_ANY)) &&
  ((id_value16 m id1 1 =? id_value16 m id2 1) || (id_value16 m id1 1 =? DEVICE_ID_PCI_DEVICE_ANY)) &&
  (id_value16 m id1 2 =? id_value16 m id2 2) && (id_value16 m id1 3 =? id_value16 m id2 3) &&
  ((id_value8 m id1 0 =? id_value8 m id2 0) || (id_value8 m id1 0 =? DEVICE_ID_PCI_PROGIF_ANY)).

Definition device_match_ids (sfuel : nat) (id1 id2 : Z) (m : mem) : outcome bool :=
  let c := id_class m id1 in
  if negb (c =? id_class m id2) then Ret false
  else if (c =? DEVICE_ID_CLASS_FS_PDEV) || (c =? DEVICE_ID_CLASS_PS2) then Ret true
  else if (c =? DEVICE_ID_CLASS_TIMER) || (c =? DEVICE_ID_CLASS_BUS) then Ret (id_value8 m id1 0 =? id_value8 m id2 0)
  else if c =? DEVICE_ID_CLASS_PCI then Ret (match_pci id1 id2 m)
  else if c =? DEVICE_ID_CLASS_ACPI then
    if (id_string m id1 0 =? 0) || (id_string m id2 0 =? 0) then Ret false
    else c ← strcmp sfuel (id_string m id1 0) (id_string m id2 0) m; Ret (c =? 0)
  else Ret false.

(** One identifier of a driver against the list of a device. *)
Fixpoint match_device {H} (fuel sfuel : nat) (item : Z) (l : list_t H) (id : Z) (m : mem) : outcome bool :=
  match fuel with
  | O => OutOfFuel
  | S f =>
      if item =? 0 then Ret false
      else
        b ← device_match_ids sfuel id (n_value (nodes l item)) m;
        if (b : bool) then Ret true else match_device f sfuel (n_next (nodes l item)) l id m
  end.

(** All identifiers of a driver, up to the one of class NONE. *)
Fixpoint match_node {H} (fuel lfuel sfuel : nat) (id : Z) (l : list_t H) (m : mem) : outcome bool :=
  match fuel with
  | O => OutOfFuel
  | S f =>
      if id_class m id =? DEVICE_ID_CLASS_NONE then Ret false
      else
        b ← match_device lfuel sfuel (head l) l id m;
        if (b : bool) then Ret true else match_node f lfuel sfuel (id + DEVICE_ID_SIZE) l m
  end.

Section Manager.
Context {X H : Type} `{KH : KernelHeap H}.
(** The bounds for the lists and for the strings; the file systems; the initialisation
    functions of modules, and the functions of drivers, by address. *)
Variable (fuel sfuel : nat).
Variable ops : Z -> vnode_operations_t (fal X H).
Variable call : Z -> loader X H -> outcome (loader X H).
Abbreviation M := (devman X H).
Variable invoke : Z -> Z -> M -> outcome (bool * M).
(** The strings [metadata], [driver_metadata] and [driver_ids], the start of the direct
    map, and the buffer of [device_driver_autoreg]. *)
Variable (metadata_str driver_metadata_str driver_ids_str hhdmOffset str : Z).
Implicit Types (s : M).

Definition put_ld (l : loader X H) s : M :=
  mk_dm l (deviceManagerLock s) (deviceList s) (deviceCount s) (driverManagerLock s) (driverList s) (driverCount s) (dm_devs s) (dm_nodes s).
Definition put_devices (l : list_t H) (n : Z) s : M :=
  mk_dm (dm_ld s) (deviceManagerLock s) l n (driverManagerLock s) (driverList s) (driverCount s) (dm_devs s) (dm_nodes s).
Definition put_drivers (l : list_t H) (n : Z) s : M :=
  mk_dm (dm_ld s) (deviceManagerLock s) (deviceList s) (deviceCount s) (driverManagerLock s) l n (dm_devs s) (dm_nodes s).
Definition put_devlock (k : spinlock_t) s : M :=
  mk_dm (dm_ld s) k (deviceList s) (deviceCount s) (driverManagerLock s) (driverList s) (driverCount s) (dm_devs s) (dm_nodes s).
Definition put_drvlock (k : spinlock_t) s : M :=
  mk_dm (dm_ld s) (deviceManagerLock s) (deviceList s) (deviceCount s) k (driverList s) (driverCount s) (dm_devs s) (dm_nodes s).
Definition upd_dev (d : Z) (g : device_t H -> device_t H) s : M :=
  mk_dm (dm_ld s) (deviceManagerLock s) (deviceList s) (deviceCount s) (driverManagerLock s) (driverList s) (driverCount s)
    (upd (dm_devs s) d (g (dm_devs s d))) (dm_nodes s).
Definition put_node (n : Z) (x : driver_node_t) s : M :=
  mk_dm (dm_ld s) (deviceManagerLock s) (deviceList s) (deviceCount s) (driverManagerLock s) (driverList s) (driverCount s)
    (dm_devs s) (upd (dm_nodes s) n x).
Definition dm_mem s : mem := s_mem (dm_ld s).
Definition dm_heap s : H := s_heap (dm_ld s).
Definition put_dmheap (h : H) s : M := put_ld (put_heap h (dm_ld s)) s.
Definition put_dmmem (m : mem) s : M := put_ld (put_mem m (dm_ld s)) s.
Definition w_node (n : Z) (d : device_t H) : device_t H := mk_device (dv_bus d) (dv_type d) (dv_data d) (dv_driverData d) (dv_idList d) n.
Definition w_idList (l : list_t H) (d : device_t H) : device_t H := mk_device (dv_bus d) (dv_type d) (dv_data d) (dv_driverData d) (Some l) (dv_node d).

Definition dm_alloc (size : Z) s : outcome (Z * M) := '(a, l) ← alloc size (dm_ld s); Ret (a, put_ld l s).
Definition dm_free (a : Z) s : outcome M := l ← free a (dm_ld s); Ret (put_ld l s).

(** ** Attaching *)

(** [elf_load_driver(node)]. *)
Definition load_node (node : Z) s : outcome M :=
  '(_, d, l) ← elf_load_driver fuel sfuel ops call metadata_str driver_metadata_str (nd_path (dm_nodes s node)) (dm_ld s);
  let s := put_ld l s in
  Ret (match d with
       | Some d => put_node node (mk_dnode d (nd_ids (dm_nodes s node)) true (nd_path (dm_nodes s node))) s
       | None => s
       end).

(** A driver and a device: compare the identifiers, load, probe and attach the driver. *)
Definition try_driver (device node : Z) s : outcome (bool * M) :=
  match dv_idList (dm_devs s device) with
  | None => Fault
  | Some l =>
      status ← match_node fuel fuel sfuel (nd_ids (dm_nodes s node)) l (dm_mem s);
      if negb status then Ret (false, s)
      else
        s ← (if nd_loaded (dm_nodes s node) then Ret s else load_node node s);
        let driver := nd_driver (dm_nodes s node) in
        if (driver =? 0) || (drv_probe (dm_mem s) driver =? 0) then Ret (false, s)
        else
          '(status, s) ← invoke (drv_probe (dm_mem s) driver) device s;
          if negb status then Ret (false, s)
          else
            let s := upd_dev device (w_node node) s in
            '(status, s) ← invoke (drv_attach (dm_mem s) driver) device s;
            if (status : bool) then Ret (true, s) else Ret (false, upd_dev device (w_node 0) s)
  end.

Fixpoint attach_loop (n : nat) (item device : Z) s : outcome (bool * M) :=
  match n with
  | O => OutOfFuel
  | S n' =>
      if item =? 0 then Ret (false, s)
      else
        let node := n_value (nodes (driverList s) item) in
        if (node =? 0) || (nd_ids (dm_nodes s node) =? 0) then attach_loop n' (n_next (nodes (driverList s) item)) device s
        else
          '(status, s) ← try_driver device node s;
          if (status : bool) then Ret (true, put_drvlock (releaseLock (driverManagerLock s)) s)
          else attach_loop n' (n_next (nodes (driverList s) item)) device s
  end.

Definition device_driver_attach (device : Z) s : outcome (bool * M) :=
  if driverCount s =? 0 then Ret (false, s) else attach_loop fuel (head (driverList s)) device s.

Fixpoint attach_devices_loop (n : nat) (item node : Z) s : outcome (bool * M) :=
  match n with
  | O => OutOfFuel
  | S n' =>
      if item =? 0 then Ret (false, s)
      else
        let device := n_value (nodes (deviceList s) item) in
        if device =? 0 then attach_devices_loop n' (n_next (nodes (deviceList s) item)) node s
        else
          '(status, s) ← try_driver device node s;
          if (status : bool) then Ret (true, put_devlock (releaseLock (deviceManagerLock s)) s)
          else attach_devices_loop n' (n_next (nodes (deviceList s) item)) node s
  end.

Definition device_attach_to_driver (node : Z) s : outcome (bool * M) :=
  if deviceCount s =? 0 then Ret (false, s) else attach_devices_loop fuel (head (deviceList s)) node s.

(** ** Devices *)

Definition device_init s : outcome M :=
  '(_, l) ← list_create (nodes (deviceList s)) (dm_heap s);
  Ret (put_dmheap (heap l) (put_devices l (deviceCount s) s)).

Definition device_add (device : Z) s : outcome M :=
  '(l, h) ← run_list (list_insert device) (deviceList s) (dm_heap s);
  let s := put_dmheap h (put_devices l (u64 (deviceCount s + 1)) s) in
  '(_, s) ← device_driver_attach device s;
  Ret s.

Definition device_remove (device : Z) s : outcome (Z * M) :=
  let nd := dm_nodes s (dv_node (dm_devs s device)) in
  let f := drv_remove (dm_mem s) (nd_driver nd) in
  '(ok, s) ← (if negb (dv_node (dm_devs s device) =? 0) && nd_loaded nd && negb (f =? 0)
              then invoke f device s else Ret (true, s));
  if negb ok then Ret (-1, s)
  else
    '(r, l) ← list_remove fuel device (set_list_heap (dm_heap s) (deviceList s));
    let s := put_dmheap (heap l) (put_devices l (deviceCount s) s) in
    if negb (r =? 0) then Ret (-1, s) else Ret (0, put_devices (deviceList s) (u64 (deviceCount s - 1)) s).

Definition device_get_device_count s : Z := deviceCount s.

(** The [i]th value of a list, the last one when there are fewer. *)
Fixpoint nth_item (n : nat) (item count i value : Z) (l : list_t H) : outcome Z :=
  match n with
  | O => OutOfFuel
  | S n' =>
      if item =? 0 then Ret value
      else
        let value := n_value (nodes l item) in
        if count =? i then Ret value else nth_item n' (n_next (nodes l item)) (u64 (count + 1)) i value l
  end.

Definition device_get_device (i : Z) s : outcome (Z * M) :=
  let i := if i >=? deviceCount s then deviceCount s else i in
  k ← acquireLock (deviceManagerLock s);
  d ← nth_item fuel (head (deviceList s)) 0 i 0 (deviceList s);
  Ret (d, put_devlock (releaseLock k) s).

Definition device_id_initialise (device : Z) s : outcome M :=
  '(_, l) ← list_create (fun _ => mk_node 0 0) (dm_heap s);
  Ret (upd_dev device (w_idList l) (put_dmheap (heap l) s)).

(** [devid] is the identifier, byte by byte. *)
Definition device_id_add (device : Z) (devid : list Z) s : outcome M :=
  '(newDevID, s) ← dm_alloc DEVICE_ID_SIZE s;
  let s := put_dmmem (write_bytes devid newDevID (dm_mem s)) s in
  match dv_idList (dm_devs s device) with
  | None => Fault
  | Some l =>
      '(l, h) ← run_list (list_insert newDevID) l (dm_heap s);
      Ret (put_dmheap h (upd_dev device (w_idList l) s))
  end.

(** ** Drivers *)

Definition driver_init s : outcome M :=
  '(_, l) ← list_create (nodes (driverList s)) (dm_heap s);
  Ret (put_dmheap (heap l) (put_drivers l (driverCount s) s)).

Definition device_driver_add (node : Z) s : outcome M :=
  '(l, h) ← run_list (list_insert node) (driverList s) (dm_heap s);
  Ret (put_dmheap h (put_drivers l (u64 (driverCount s + 1)) s)).

(** The node with the path, 0 when there is none. *)
Fixpoint find_driver (n : nat) (item : Z) (path : list Z) s : outcome Z :=
  match n with
  | O => OutOfFuel
  | S n' =>
      if item =? 0 then Ret 0
      else
        let node := n_value (nodes (driverList s) item) in
        if bool_decide (nd_path (dm_nodes s node) = path) then Ret node
        else find_driver n' (n_next (nodes (driverList s) item)) path s
  end.

(** [idListSize]. *)
Fixpoint count_ids (n : nat) (ids size : Z) (m : mem) : outcome Z :=
  match n with
  | O => OutOfFuel
  | S n' => if id_class m (ids + DEVICE_ID_SIZE * size) =? DEVICE_ID_CLASS_NONE then Ret size else count_ids n' ids (size + 1) m
  end.

(** A string of an identifier is copied to the heap. *)
Definition copy_string (id i : Z) s : outcome M :=
  let a := id_string (dm_mem s) id i in
  if a =? 0 then Ret s
  else
    l ← strlen sfuel a (dm_mem s);
    '(newStr, s) ← dm_alloc (u32 (l + 1)) s;
    let m := memcpy newStr a (u32 (l + 1)) (dm_mem s) in
    Ret (put_dmmem (store64 (id + 32 + 8 * i) newStr m) s).

Fixpoint copy_strings (n : nat) (id : Z) s : outcome M :=
  match n with
  | O => Ret s
  | S n' => s ← copy_string id 0 s; s ← copy_string id 1 s; copy_strings n' (id + DEVICE_ID_SIZE) s
  end.

(** The copy of the identifiers, strings included, that outlives the file. *)
Definition store_ids (driverIDs idListSize : Z) s : outcome (Z * M) :=
  '(store, s) ← dm_alloc (u64 (DEVICE_ID_SIZE * idListSize)) s;
  let s := put_dmmem (memcpy store driverIDs (DEVICE_ID_SIZE * idListSize) (dm_mem s)) s in
  s ← copy_strings (Z.to_nat idListSize) store s;
  Ret (store, s).

Definition register_fail (elf file : Z) s : outcome (Z * M) :=
  s ← dm_free elf s; l ← close_file ops file (dm_ld s); Ret (-1, put_ld l s).

Definition device_driver_register (path : list Z) s : outcome (Z * M) :=
  let s := put_ld (put_errno 0 (dm_ld s)) s in
  known ← (if driverCount s =? 0 then Ret 0 else find_driver fuel (head (driverList s)) path s);
  if negb (known =? 0) then Ret (-1, s)
  else
    '(file, l) ← open_file fuel ops path O_RDONLY (dm_ld s);
    let s := put_ld l s in
    if file =? 0 then Ret (-1, s)
    else
      '(elf, s) ← dm_alloc (file_size file (dm_ld s)) s;
      l ← read_file ops file (file_size file (dm_ld s)) elf (dm_ld s);
      let s := put_ld l s in
      let '(ok, e) := elf_validate elf ET_REL (dm_mem s) in
      let s := put_ld (put_errno e (dm_ld s)) s in
      if negb ok then register_fail elf file s
      else
        '(driver, l) ← elf_find_symbol fuel sfuel hhdmOffset elf driver_metadata_str (dm_ld s);
        let s := put_ld l s in
        if driver =? 0 then register_fail elf file s
        else
          '(driverIDs, l) ← elf_find_symbol fuel sfuel hhdmOffset elf driver_ids_str (dm_ld s);
          let s := put_ld l s in
          if driverIDs =? 0 then register_fail elf file s
          else
            '(r, l) ← elf_calculate_relocations fuel elf elf (dm_ld s);
            let s := put_ld l s in
            if negb (r =? 0) then register_fail elf file s
            else
              idListSize ← count_ids fuel driverIDs 0 (dm_mem s);
              if idListSize =? 0 then register_fail elf file s
              else
                '(ids, s) ← store_ids driverIDs (idListSize + 1) s;
                '(node, s) ← dm_alloc DRIVER_NODE_SIZE s;
                '(_, s) ← dm_alloc (u32 (Z.of_nat (length path) + 1)) s;
                let s := put_node node (mk_dnode 0 ids false path) s in
                s ← device_driver_add node s;
                s ← dm_free elf s;
                l ← close_file ops file (dm_ld s);
                let s := put_ld l s in
                '(_, s) ← device_attach_to_driver node s;
                Ret (0, s).

Definition device_driver_unregister_node (node : Z) s : outcome (Z * M) :=
  if nd_loaded (dm_nodes s node) then Ret (-1, s)
  else
    '(r, l) ← list_remove fuel node (set_list_heap (dm_heap s) (driverList s));
    let s := put_dmheap (heap l) (put_drivers l (driverCount s) s) in
    if negb (r =? 0) then Ret (-1, s) else s ← dm_free node s; Ret (0, s).

Definition device_driver_unregister (path : list Z) s : outcome (Z * M) :=
  node ← find_driver fuel (head (driverList s)) path s;
  if node =? 0 then Ret (-1, s) else device_driver_unregister_node node s.

(** The characters of [path] up to the first slash, kept from the line before when there
    is none. *)
Fixpoint dir_prefix (j : Z) (path : list Z) (tempPtr : Z) : Z :=
  match path with
  | [] => tempPtr
  | c :: r => if c =? SLASH then j + 1 else dir_prefix (j + 1) r tempPtr
  end.

(** A line of the file, which is in [str], is registered. *)
Definition register_line (path : list Z) (tempPtr : Z) s : outcome (Z * M) :=
  '(regPath, s) ← dm_alloc 256 s;
  let tempPtr := dir_prefix 0 path tempPtr in
  line ← read_cstr sfuel str (dm_mem s);
  let p := take (Z.to_nat tempPtr) path ++ line in
  if Z.of_nat (length p) >? 255 then Fault
  else
    let s := put_dmmem (write_bytes (p ++ [0]) regPath (dm_mem s)) s in
    '(_, s) ← device_driver_register p s;
    s ← dm_free regPath s;
    Ret (tempPtr, s).

(** The file, byte by byte; a line is cut to pieces of 128 bytes. *)
Fixpoint autoreg_loop (n : nat) (i file ptr tempPtr : Z) (path : list Z) s : outcome M :=
  match n with
  | O => OutOfFuel
  | S n' =>
      if negb (i <? file_size file (dm_ld s)) then Ret s
      else
        '(_, f) ← vnode_read ops file 1 (str + ptr) i (k_fal (dm_ld s));
        let s := put_ld (set_fal f (dm_ld s)) s in
        if dm_mem s (str + ptr) =? 10 then
          if ptr <=? 0 then autoreg_loop n' (u64 (i + 1)) file ptr tempPtr path s
          else
            let s := put_dmmem (upd (dm_mem s) (str + ptr) 0) s in
            '(tempPtr, s) ← register_line path tempPtr s;
            autoreg_loop n' (u64 (i + 1)) file 0 tempPtr path s
        else
          let ptr := if ptr + 1 >=? 128 then 0 else ptr + 1 in
          autoreg_loop n' (u64 (i + 1)) file ptr tempPtr path s
  end.

Definition device_driver_autoreg (path : list Z) s : outcome (Z * M) :=
  '(file, l) ← open_file fuel ops path O_RDONLY (dm_ld s);
  let s := put_ld l s in
  if file =? 0 then Ret (-1, s)
  else
    s ← autoreg_loop fuel 0 file 0 0 path s;
    l ← close_file ops file (dm_ld s);
    Ret (0, put_ld l s).

Definition device_driver_get_driver_count s : Z := driverCount s.

(** The value returned is the address of the node, not of its [device_driver_t]. *)
Definition device_driver_get_driver (i : Z) s : outcome (Z * M) :=
  let i := if i >=? driverCount s then driverCount s else i in
  k ← acquireLock (driverManagerLock s);
  d ← nth_item fuel (head (driverList s)) 0 i 0 (driverList s);
  Ret (d, put_drvlock (releaseLock k) s).
End Manager.

(** ** The choice of a driver *)

(** An identifier of a driver stands for an identifier of a device. *)
Definition serves_id (m : mem) (a b : Z) : Prop :=
  let c := id_class m a in
  c = id_class m b /\
  (c = DEVICE_ID_CLASS_FS_PDEV \/ c = DEVICE_ID_CLASS_PS2 \/
   ((c = DEVICE_ID_CLASS_TIMER \/ c = DEVICE_ID_CLASS_BUS) /\ id_value8 m a 0 = id_value8 m b 0) \/
   (c = DEVICE_ID_CLASS_PCI /\
      (id_value16 m a 0 = id_value16 m b 0 \/ id_value16 m a 0 = DEVICE_ID_PCI_VENDOR_ANY) /\
      (id_value16 m a 1 = id_value16 m b 1 \/ id_value16 m a 1 = DEVICE_ID_PCI_DEVICE_ANY) /\
      id_value16 m a 2 = id_value16 m b 2 /\ id_value16 m a 3 = id_value16 m b 3 /\
      (id_value8 m a 0 = id_value8 m b 0 \/ id_value8 m a 0 = DEVICE_ID_PCI_PROGIF_ANY)) \/
   (c = DEVICE_ID_CLASS_ACPI /\ id_string m a 0 <> 0 /\ id_string m b 0 <> 0 /\
      exists l, cstr m (id_string m a 0) l /\ cstr m (id_string m b 0) l)).

(** The strings of an identifier end. *)
Definition id_ok (sfuel : nat) (m : mem) (a : Z) : Prop :=
  id_class m a = DEVICE_ID_CLASS_ACPI -> id_string m a 0 <> 0 -> exists l, cstr m (id_string m a 0) l /\ (length l < sfuel)%nat.

Lemma cstr_unique m : forall l1 l2 a, cstr m a l1 -> cstr m a l2 -> l1 = l2.
Proof.
  induction l1 as [|c l1 IH]; intros [|d l2] a; cbn [cstr]; [reflexivity| | |].
  - intros E (Hd & ? & _). lia.
  - intros (Hc & ? & _) E. lia.
  - intros (<- & ? & H1) (<- & ? & H2). f_equal. now apply (IH l2 (a + 1)).
Qed.

Lemma eqb_or_iff a b c : (a =? b) || (a =? c) = true <-> a = b \/ a = c.
Proof. rewrite orb_true_iff, !Z.eqb_eq. reflexivity. Qed.

Lemma device_match_ids_spec sfuel m a b : id_ok sfuel m a -> id_ok sfuel m b ->
  Returns (device_match_ids sfuel a b m) (fun r => r = true <-> serves_id m a b).
Proof.
  intros Ha Hb. unfold device_match_ids, serves_id, DEVICE_ID_CLASS_FS_PDEV, DEVICE_ID_CLASS_PS2, DEVICE_ID_CLASS_TIMER,
    DEVICE_ID_CLASS_BUS, DEVICE_ID_CLASS_PCI, DEVICE_ID_CLASS_ACPI, id_ok in *. cbv zeta in *.
  destruct (Z.eqb_spec (id_class m a) (id_class m b)) as [E|E]; cbn [negb]; [|apply Returns_ret; split; [discriminate|tauto]].
  rewrite <- E in *. set (c := id_class m a) in *. clearbody c.
  destruct (_ || _) eqn:E1; [apply eqb_or_iff in E1; apply Returns_ret; tauto|].
  assert (c <> 6 /\ c <> 1) as [N6 N1] by (split; intros ->; discriminate).
  destruct ((c =? 5) || (c =? 4)) eqn:E2.
  { apply eqb_or_iff in E2. apply Returns_ret. rewrite Z.eqb_eq. destruct E2 as [-> | ->]; intuition (try lia). }
  assert (c <> 5 /\ c <> 4) as [N5 N4] by (split; intros ->; discriminate).
  destruct (Z.eqb_spec c 2) as [->|N2].
  { apply Returns_ret. unfold match_pci. rewrite !andb_true_iff, !eqb_or_iff, !Z.eqb_eq. intuition (try lia). }
  destruct (Z.eqb_spec c 3) as [->|N3]; [|apply Returns_ret; split; [discriminate|intuition (try lia)]].
  destruct (Z.eqb_spec (id_string m a 0) 0) as [Ea|Ea]; cbn [orb]; [apply Returns_ret; split; [discriminate|intuition (try lia)]|].
  destruct (Z.eqb_spec (id_string m b 0) 0) as [Eb|Eb]; cbn [orb]; [apply Returns_ret; split; [discriminate|intuition (try lia)]|].
  destruct (Ha eq_refl Ea) as (la & Hla & La), (Hb eq_refl Eb) as (lb & Hlb & Lb).
  destruct (strcmp_spec m la lb sfuel _ _ Hla Hlb La) as (r & -> & Hr). cbn [mbind outcome_bind]. apply Returns_ret.
  rewrite Z.eqb_eq, Hr. split.
  - intros ->. split; [reflexivity|]. do 4 right. splits; auto. exists lb. auto.
  - intros (_ & [?|[?|[?|[?|(_ & _ & _ & l & H1 & H2)]]]]); try lia.
    now rewrite (cstr_unique m la l _ Hla H1), (cstr_unique m lb l _ Hlb H2).
Qed.

Section Choice.
Context {H : Type}.
Variable (fuel sfuel : nat).

(** The device has the identifiers [vs]; the driver those in the array at [a], of which
    there are [n]. *)
Definition has_ids (m : mem) (l : list_t H) (vs : list Z) : Prop :=
  exists cs, head l = first_cell 0 cs /\ chain (nodes l) cs 0 /\ Forall (fun c => 0 < c_addr c) cs /\ map c_value cs = vs /\
    Forall (id_ok sfuel m) vs /\ (length vs < fuel)%nat.
Definition id_array (m : mem) (a : Z) (n : nat) : Prop :=
  (forall i, 0 <= i < Z.of_nat n -> id_class m (a + DEVICE_ID_SIZE * i) <> DEVICE_ID_CLASS_NONE /\ id_ok sfuel m (a + DEVICE_ID_SIZE * i)) /\
  id_class m (a + DEVICE_ID_SIZE * Z.of_nat n) = DEVICE_ID_CLASS_NONE.

Lemma match_device_spec m (l : list_t H) id : forall cs n,
  chain (nodes l) cs 0 -> Forall (fun c => 0 < c_addr c) cs -> Forall (id_ok sfuel m) (map c_value cs) -> id_ok sfuel m id ->
  (length cs < n)%nat ->
  Returns (match_device n sfuel (first_cell 0 cs) l id m) (fun r => r = true <-> exists v, v ∈ map c_value cs /\ serves_id m id v).
Proof.
  induction cs as [|c cs IH]; intros [|n] Hc Hp Hv Hid Hn; cbn [length] in Hn; try lia; cbn [match_device first_cell].
  - apply Returns_ret. split; [discriminate|]. intros (v & Hin & _). now apply elem_of_nil in Hin.
  - apply Forall_cons in Hp as [Hp0 Hp]. cbn [map] in Hv |- *. apply Forall_cons in Hv as [Hv0 Hv]. destruct Hc as [En Hc].
    rewrite (proj2 (Z.eqb_neq (c_addr c) 0)), En by lia. cbn [n_value n_next].
    destruct (device_match_ids_spec sfuel m id (c_value c) Hid Hv0) as ([|] & -> & Hr); cbn [mbind outcome_bind].
    + apply Returns_ret. split; [|reflexivity]. intros _. exists (c_value c). split; [apply elem_of_cons; now left|now apply Hr].
    + eapply Returns_mono; [apply IH; auto; lia|]. intros r ->. split; intros (v & Hin & Hs); exists v.
      * split; [apply elem_of_cons; now right|exact Hs].
      * apply elem_of_cons in Hin as [->|Hin]; [apply Hr in Hs; discriminate|auto].
Qed.

Lemma match_node_spec m (l : list_t H) vs : forall k a n,
  has_ids m l vs -> id_array m a k -> (k < n)%nat ->
  Returns (match_node n fuel sfuel a l m) (fun r => r = true <->
    exists i v, 0 <= i < Z.of_nat k /\ v ∈ vs /\ serves_id m (a + DEVICE_ID_SIZE * i) v).
Proof.
  intros k. induction k as [|k IH]; intros a [|n] Hl [Ha Hend] Hn; try lia; cbn [match_node].
  - rewrite Z.mul_0_r, Z.add_0_r in Hend. rewrite Hend. apply Returns_ret. split; [discriminate|]. intros (i & v & Hi & _). lia.
  - destruct (Ha 0 ltac:(lia)) as [Hc Hok]. rewrite Z.mul_0_r, Z.add_0_r in Hc, Hok. rewrite (proj2 (Z.eqb_neq _ _) Hc).
    pose proof Hl as (cs & -> & Hch & Hp & <- & Hv & Hf). rewrite length_map in Hf.
    destruct (match_device_spec m l a cs fuel Hch Hp Hv Hok Hf) as ([|] & -> & Hr); cbn [mbind outcome_bind].
    + apply Returns_ret. split; [|reflexivity]. intros _. destruct (proj1 Hr eq_refl) as (v & Hin & Hs).
      exists 0, v. rewrite Z.mul_0_r, Z.add_0_r. splits; auto; lia.
    + eapply Returns_mono; [apply IH; [exact Hl| |lia]|].
      * split.
        -- intros i Hi. specialize (Ha (i + 1) ltac:(lia)). replace (a + DEVICE_ID_SIZE + DEVICE_ID_SIZE * i) with (a + DEVICE_ID_SIZE * (i + 1)) by lia. exact Ha.
        -- rewrite <- Hend. f_equal. lia.
      * intros r ->. split; intros (i & v & Hi & Hin & Hs).
        -- exists (i + 1), v. splits; auto; try lia. now replace (a + DEVICE_ID_SIZE * (i + 1)) with (a + DEVICE_ID_SIZE + DEVICE_ID_SIZE * i) by lia.
        -- destruct (Z.eq_dec i 0) as [->|Hi0].
           ++ rewrite Z.mul_0_r, Z.add_0_r in Hs. assert (false = true) by (apply Hr; eauto). discriminate.
           ++ exists (i - 1), v. splits; auto; try lia. now replace (a + DEVICE_ID_SIZE + DEVICE_ID_SIZE * (i - 1)) with (a + DEVICE_ID_SIZE * i) by lia.
Qed.
End Choice.

Section Attach.
Context {X H : Type} `{KH : KernelHeap H}.
Variable (fuel sfuel : nat).
Variable ops : Z -> vnode_operations_t (fal X H).
Variable call : Z -> loader X H -> outcome (loader X H).
Abbreviation M := (devman X H).
Variable invoke : Z -> Z -> M -> outcome (bool * M).
Variable (metadata_str driver_metadata_str : Z).
(** The answers of the drivers' functions, which leave the managers alone. *)
Variable answer : Z -> Z -> bool.
Hypothesis passive : forall f d s, invoke f d s = Ret (answer f d, s).
Variable (dev : Z) (vs : list Z).
Implicit Types (s : M).

(** One of the identifiers in the array at [a] serves a device with the identifiers [vs]. *)
Definition offers (m : mem) (a : Z) : Prop :=
  exists i v, 0 <= i /\ (forall j, 0 <= j <= i -> id_class m (a + DEVICE_ID_SIZE * j) <> DEVICE_ID_CLASS_NONE) /\
    v ∈ vs /\ serves_id m (a + DEVICE_ID_SIZE * i) v.

(** The driver serves the device, and takes it. *)
Definition suits s (nd : Z) : Prop :=
  let d := nd_driver (dm_nodes s nd) in
  offers (dm_mem s) (nd_ids (dm_nodes s nd)) /\ d <> 0 /\ drv_probe (dm_mem s) d <> 0 /\
  answer (drv_probe (dm_mem s) d) dev = true /\ answer (drv_attach (dm_mem s) d) dev = true.

Definition registered s (nd : Z) : Prop :=
  nd <> 0 /\ nd_ids (dm_nodes s nd) <> 0 /\ nd_loaded (dm_nodes s nd) = true /\
  exists k, id_array sfuel (dm_mem s) (nd_ids (dm_nodes s nd)) k /\ (k < fuel)%nat.

(** Nothing but the driver of the device has changed. *)
Record steady s s' : Prop := {
  sd_ld : dm_ld s' = dm_ld s;
  sd_devices : deviceList s' = deviceList s /\ deviceCount s' = deviceCount s;
  sd_drivers : driverList s' = driverList s /\ driverCount s' = driverCount s;
  sd_nodes : dm_nodes s' = dm_nodes s;
  sd_ids : dv_idList (dm_devs s' dev) = dv_idList (dm_devs s dev);
  sd_others : forall d, d <> dev -> dm_devs s' d = dm_devs s d
}.

Lemma steady_refl s : steady s s.
Proof. now split. Qed.

Lemma steady_trans s1 s2 s3 : steady s1 s2 -> steady s2 s3 -> steady s1 s3.
Proof.
  intros [A1 [A2 A3] [A4 A5] A6 A7 A8] [B1 [B2 B3] [B4 B5] B6 B7 B8]. split; try split; try congruence. intros d Hd. rewrite B8, A8; auto.
Qed.

Lemma steady_node s k : steady s (upd_dev dev (w_node k) s).
Proof. split; cbn; try now split. - now rewrite upd_eq. - intros d Hd. now rewrite upd_ne. Qed.

Lemma steady_suits s s' nd : steady s s' -> suits s' nd <-> suits s nd.
Proof. intros [E1 _ _ E2 _ _]. unfold suits, dm_mem. now rewrite E1, E2. Qed.

Lemma offers_array m a k : id_array sfuel m a k ->
  offers m a <-> exists i v, 0 <= i < Z.of_nat k /\ v ∈ vs /\ serves_id m (a + DEVICE_ID_SIZE * i) v.
Proof.
  intros [Ha Hend]. split.
  - intros (i & v & Hi & Hj & Hv & Hs). exists i, v. splits; auto.
    destruct (Z.lt_ge_cases i (Z.of_nat k)) as [|Hge]; [assumption|]. exfalso. apply (Hj (Z.of_nat k)); [lia|exact Hend].
  - intros (i & v & Hi & Hv & Hs). exists i, v. splits; auto; [lia|]. intros j Hj. apply Ha. lia.
Qed.

Lemma try_driver_spec s l nd :
  dv_idList (dm_devs s dev) = Some l -> has_ids fuel sfuel (dm_mem s) l vs -> registered s nd ->
  Returns (try_driver fuel sfuel ops call invoke metadata_str driver_metadata_str dev nd s) (fun '(r, s') =>
    steady s s' /\ (r = true <-> suits s nd) /\ (r = true -> dv_node (dm_devs s' dev) = nd)).
Proof.
  intros El Hl (_ & _ & Hld & k & Hk & Hkf). unfold try_driver. rewrite El.
  destruct (match_node_spec fuel sfuel (dm_mem s) l vs k _ fuel Hl Hk Hkf) as (b & -> & Hb). rewrite <- offers_array in Hb by exact Hk.
  cbn [mbind outcome_bind]. unfold suits. cbv zeta.
  destruct b; cbn [negb]; [|apply Returns_ret; splits; [apply steady_refl| |discriminate]; split; [discriminate|]; intros (Ho & _); now apply Hb in Ho].
  rewrite Hld. cbn [mbind outcome_bind]. set (d := nd_driver (dm_nodes s nd)).
  destruct (Z.eqb_spec d 0) as [Ed|Ed]; cbn [orb]; [apply Returns_ret; splits; [apply steady_refl|split; [discriminate|tauto]|discriminate]|].
  destruct (Z.eqb_spec (drv_probe (dm_mem s) d) 0) as [Ep|Ep]; cbn [orb]; [apply Returns_ret; splits; [apply steady_refl|split; [discriminate|tauto]|discriminate]|].
  rewrite passive. cbn [mbind outcome_bind].
  destruct (answer (drv_probe (dm_mem s) d) dev) eqn:E1; cbn [negb]; [|apply Returns_ret; splits; [apply steady_refl|split; [discriminate|intuition discriminate]|discriminate]].
  rewrite passive. cbn [mbind outcome_bind]. change (dm_mem (upd_dev dev (w_node nd) s)) with (dm_mem s).
  destruct (answer (drv_attach (dm_mem s) d) dev) eqn:E2; apply Returns_ret.
  - splits; [apply steady_node|tauto|]. intros _. cbn. now rewrite upd_eq.
  - splits; [|split; [discriminate|intuition discriminate]|discriminate]. eapply steady_trans; [apply steady_node|apply steady_node].
Qed.

Lemma attach_loop_spec l : forall cs n s,
  dv_idList (dm_devs s dev) = Some l -> has_ids fuel sfuel (dm_mem s) l vs ->
  chain (nodes (driverList s)) cs 0 -> Forall (fun c => 0 < c_addr c) cs -> (length cs < n)%nat -> Forall (registered s) (map c_value cs) ->
  Returns (attach_loop fuel sfuel ops call invoke metadata_str driver_metadata_str n (first_cell 0 cs) dev s) (fun '(r, s') =>
    steady s s' /\
    ((r = true /\ exists pre nd post, map c_value cs = pre ++ nd :: post /\ suits s nd /\ Forall (fun x => ~ suits s x) pre /\
        dv_node (dm_devs s' dev) = nd) \/
     (r = false /\ Forall (fun x => ~ suits s x) (map c_value cs)))).
Proof.
  induction cs as [|c cs IH]; intros [|n] s El Hl Hc Hp Hn Hr; cbn [length] in Hn; try lia; cbn [attach_loop first_cell map].
  - apply Returns_ret. split; [apply steady_refl|]. right. split; [reflexivity|constructor].
  - apply Forall_cons in Hp as [Hp0 Hp]. apply Forall_cons in Hr as [Hr0 Hr]. destruct Hc as [En Hc].
    rewrite (proj2 (Z.eqb_neq (c_addr c) 0)), En by lia. cbn [n_value n_next]. pose proof Hr0 as (N1 & N2 & _).
    rewrite (proj2 (Z.eqb_neq _ _) N1), (proj2 (Z.eqb_neq _ _) N2). cbn [orb].
    destruct (try_driver_spec s l (c_value c) El Hl Hr0) as ([b s1] & -> & Hst & Hb & Hnode). cbn [mbind outcome_bind].
    destruct b.
    + apply Returns_ret. split; [destruct Hst; now split|]. left. split; [reflexivity|].
      exists [], (c_value c), (map c_value cs). splits; [reflexivity|now apply Hb|constructor|now apply Hnode].
    + assert (~ suits s (c_value c)) as Hno by (intros Hs; apply Hb in Hs; discriminate).
      pose proof Hst as [E1 _ [E2 _] E3 E4 _]. rewrite E2, En. cbn [n_next].
      eapply Returns_mono; [apply (IH n s1)|]; auto.
      * now rewrite E4.
      * unfold dm_mem in *. now rewrite E1.
      * now rewrite E2.
      * lia.
      * eapply Forall_impl; [exact Hr|]. intros x. unfold registered, dm_mem. now rewrite E1, E3.
      * intros [r s2] (Hst2 & C). split; [exact (steady_trans _ _ _ Hst Hst2)|].
        destruct C as [(-> & pre & nd & post & E & Hs & Hf & Hnd)|(-> & Hf)]; [left|right]; split; try reflexivity.
        -- exists (c_value c :: pre), nd, post. splits; [now rewrite E|now apply (steady_suits s s1)| |exact Hnd].
           constructor; [exact Hno|]. eapply Forall_impl; [exact Hf|]. intros x Hx Hsx. now apply Hx, (steady_suits s s1 x Hst).
        -- constructor; [exact Hno|]. eapply Forall_impl; [exact Hf|]. intros x Hx Hsx. now apply Hx, (steady_suits s s1 x Hst).
Qed.
End Attach.

(** Attaching a device takes the first registered driver that has a matching identifier
    and whose probe and attach functions accept the device; the device then refers to this
    driver, and the result is true.  When there is none the result is false.  Nothing else
    is changed.  The drivers are loaded, and their functions leave the managers alone. *)
Theorem device_driver_attach_first {X H} `{KH : KernelHeap H} fuel sfuel ops call
    (invoke : Z -> Z -> devman X H -> outcome (bool * devman X H)) md_str drv_str answer dev vs l cs s :
  (forall f d s, invoke f d s = Ret (answer f d, s)) ->
  dv_idList (dm_devs s dev) = Some l -> has_ids fuel sfuel (dm_mem s) l vs ->
  head (driverList s) = first_cell 0 cs -> chain (nodes (driverList s)) cs 0 -> Forall (fun c => 0 < c_addr c) cs ->
  (length cs < fuel)%nat -> driverCount s <> 0 -> Forall (registered fuel sfuel s) (map c_value cs) ->
  Returns (device_driver_attach fuel sfuel ops call invoke md_str drv_str dev s) (fun '(r, s') =>
    steady dev s s' /\
    ((r = true /\ exists pre nd post, map c_value cs = pre ++ nd :: post /\ suits answer dev vs s nd /\
        Forall (fun x => ~ suits answer dev vs s x) pre /\ dv_node (dm_devs s' dev) = nd) \/
     (r = false /\ Forall (fun x => ~ suits answer dev vs s x) (map c_value cs)))).
Proof.
  intros Hp El Hl Hh Hc Hpos Hn Hcnt Hr. unfold device_driver_attach. rewrite (proj2 (Z.eqb_neq _ _) Hcnt), Hh.
  now apply (attach_loop_spec fuel sfuel ops call invoke md_str drv_str answer Hp dev vs l cs fuel s).
Qed.

(** Two drivers: a timer's, and one for all controllers of PCI class 1.6; a device of this
    class. *)
Definition dev_mem : mem :=
  store64 4100 5000 (store64 4108 5001 (store64 4200 5002 (store64 4208 5003
    (write_bytes [5] 1000
      (write_bytes [2; 0xFF; 0; 0; 0; 0; 0xFF; 0xFF; 0xFF; 0xFF; 1; 0; 6; 0] 2000
        (write_bytes [2; 1; 0; 0; 0; 0; 0x86; 0x80; 0x22; 0x29; 1; 0; 6; 0] 3000 (fun _ => 0))))))).

Definition dev_list (v1 v2 : Z) : list_t unit :=
  mk_list 64 80 2 false (fun a => if a =? 64 then mk_node 80 v1 else mk_node 0 v2) tt.

Definition dev_state (loaded : bool) : devman unit unit :=
  mk_dm (put_mem dev_mem loader_demo) false (dev_list 96 97) 2 false (dev_list 200 300) 2
    (fun _ => mk_device 0 0 0 0 (Some (mk_list 112 112 1 false (fun _ => mk_node 0 3000) tt)) 0)
    (fun n => if n =? 200 then mk_dnode 4200 1000 loaded (chars "/drv/pit.drv") else mk_dnode 4100 2000 loaded (chars "/drv/ide.drv")).

#[local] Instance no_heap : KernelHeap unit :=
  { kh_malloc := fun _ _ => Panic "no memory"; kh_free := fun _ _ => Ret tt; kh_ok := fun _ => True; kh_live := fun _ _ => True }.

Lemma dev_array a : a = 1000 \/ a = 2000 -> id_array 1 dev_mem a 1.
Proof.
  intros Ha. split; [intros i Hi; replace i with 0 by lia; split|]; destruct Ha as [-> | ->]; try (vm_compute; reflexivity);
    intros E; vm_compute in E; discriminate.
Qed.

Lemma dev_suits : ~ suits (fun _ _ => true) 96 [3000] (dev_state true) 200 /\ suits (fun _ _ => true) 96 [3000] (dev_state true) 300.
Proof.
  split.
  - intros (Ho & _). apply (proj1 (offers_array 1 [3000] dev_mem 1000 1 (dev_array 1000 (or_introl eq_refl)))) in Ho as (i & v & Hi & Hv & Hs).
    apply list_elem_of_singleton in Hv as ->. replace i with 0 in Hs by lia. destruct Hs as [E _]. vm_compute in E. discriminate.
  - split; [|repeat split; vm_compute; discriminate].
    apply (proj2 (offers_array 1 [3000] dev_mem 2000 1 (dev_array 2000 (or_intror eq_refl)))).
    exists 0, 3000. splits; [lia|lia|apply list_elem_of_singleton; reflexivity|]. split; [vm_compute; reflexivity|].
    do 3 right. left. vm_compute. intuition.
Qed.

Lemma device_driver_attach_first_witness :
  Returns (device_driver_attach 3 1 (fun _ => mk_ops None None None None None) (fun _ l => Ret l) (fun _ _ s => Ret (true, s)) 0 0 96 (dev_state true))
    (fun '(r, s') => r = true /\ dv_node (dm_devs s' 96) = 300 /\ dv_node (dm_devs s' 97) = 0).
Proof.
  destruct dev_suits as [N1 N2]. eapply Returns_mono.
  - apply (device_driver_attach_first 3 1 (fun _ => mk_ops None None None None None) (fun _ l => Ret l) (fun _ _ s => Ret (true, s)) 0 0
      (fun _ _ => true) 96 [3000] (mk_list 112 112 1 false (fun _ => mk_node 0 3000) tt) [mk_cell 64 16 200; mk_cell 80 16 300] (dev_state true)).
    + reflexivity.
    + reflexivity.
    + exists [mk_cell 112 16 3000]. cbn [map c_value length]. splits; [reflexivity|now split|repeat constructor|reflexivity| |lia].
      apply Forall_singleton. intros E. vm_compute in E. discriminate.
    + reflexivity.
    + now split.
    + repeat constructor.
    + cbn. lia.
    + discriminate.
    + cbn [map c_value]. apply Forall_cons; split; [|apply Forall_singleton]; (split; [discriminate|split; [discriminate|split; [reflexivity|]]]);
        exists 1%nat; (split; [apply dev_array; auto|lia]).
  - intros [r s'] (Hst & [(-> & pre & nd & post & E & Hs & Hf & Hn)|(_ & Hf)]).
    + split; [reflexivity|]. destruct Hst as [_ _ _ _ _ Ho]. rewrite (Ho 97) by lia. split; [|reflexivity]. rewrite Hn. cbn in E.
      destruct pre as [|x [|y pre]]; cbn in E; [injection E as <- _; contradiction|now injection E as _ <- _|].
      injection E as _ <- E. apply Forall_cons in Hf as [_ Hf]. apply Forall_cons in Hf as [Hf _]. contradiction.
    + exfalso. apply Forall_cons in Hf as [_ Hf]. apply Forall_cons in Hf as [Hf _]. now apply Hf.
Defined.

(** A driver that is unregistered is still counted, so that asking for the last driver by
    its number gives the one before. *)
Theorem unregister_keeps_count :
  ('(r, s) ← device_driver_unregister 3 (chars "/drv/ide.drv") (dev_state false);
   '(d, _) ← device_driver_get_driver 3 1 s;
   Ret (r, device_driver_get_driver_count s, nodeCount (driverList s), d)) = Ret (0, 2, 1, 200).
Proof. vm_compute. reflexivity. Qed.

(** A number that is too large gives the last device. *)
Theorem get_device_last : ('(d, _) ← device_get_device 3 5 (dev_state true); Ret d) = Ret 97.
Proof. vm_compute. reflexivity. Qed.

(** A new driver gets the first device it serves and no other. *)
Theorem attach_stops_after_first :
  ('(r, s) ← device_attach_to_driver 3 1 (fun _ => mk_ops None None None None None) (fun _ l => Ret l) (fun _ _ s => Ret (true, s)) 0 0 300 (dev_state true);
   Ret (r, dv_node (dm_devs s 96), dv_node (dm_devs s 97))) = Ret (true, 300, 0).
Proof. vm_compute. reflexivity. Qed.
