(* ===== verification/Pci.v ===== *)
(** * The PCI bus ([kernel/hw/pci/pci.c], [kernel/sys/dal/dev/pcidev.c])

    Configuration space through the ports CF8 and CFC, and the scan that gives every
    function on the bus to the device manager.  [cfg] is the bus: the word it answers with
    for a value of the address port. *)

From S2P Require Import Prelude DeviceIds Interfaces MemMap Pmm MemUtil Kheap ListDs Path Vnode Initrd Bytes Module Elf Device.
#[local] Open Scope Z_scope.

Record pci_location_t : Type := mk_loc { bus : Z; dev : Z; func : Z }.

Record pci_config_header_t : Type := mk_hdr {
  vendorID : Z; deviceID : Z; command : Z; status : Z; revisionID : Z; progIF : Z; subclass : Z; pci_class : Z;
  cacheLineSize : Z; latencyTimer : Z; headerType : Z; BIST : Z
}.

(** ** Configuration space *)

(** The value of the address port. *)
Definition config_address (location : pci_location_t) (offset : Z) : Z :=
  u32 (Z.lor (Z.lor (Z.lor (Z.lor (Z.shiftl (bus location) 16) (Z.shiftl (dev location) 11)) (Z.shiftl (func location) 8))
         (Z.land offset 0xFC)) 0x80000000).

Definition pci_config_read_word (cfg : Z -> Z) (location : pci_location_t) (offset : Z) : Z :=
  u16 (Z.land (Z.shiftr (cfg (config_address location offset)) (Z.land offset 2 * 8)) 0xFFFF).

(** The bus after the write of a word. *)
Definition pci_config_write_word (cfg : Z -> Z) (location : pci_location_t) (offset data : Z) : Z -> Z :=
  upd cfg (config_address location offset) (Z.shiftr data (Z.land offset 2 * 8)).

Definition pci_config_read_address (cfg : Z -> Z) (location : pci_location_t) (offset : Z) : Z :=
  Z.lor (pci_config_read_word cfg location offset)
    (Z.land (u32 (Z.shiftl (pci_config_read_word cfg location (u8 (offset + 2))) 16)) 0xFFFF0000).

(** ** Kinds of devices *)

(** The type and the name of an ordinary device. *)
Definition classify_device (c sub : Z) : Z * string :=
  match assoc c pci_classes with
  | None => (DEVICE_TYPE_UNDEFINED, "Unknown PCI Device")
  | Some b =>
      match assoc sub (b_subclasses b) with
      | None => (b_type b, b_default b)
      | Some (t, name) => (match t with Some t => t | None => b_type b end, name)
      end
  end.

(** ** The scan *)

Definition PCI_HEADER_DEVICE : Z := 0.
Definition PCI_HEADER_PCI_TO_PCI : Z := 1.
Definition PCI_HEADER_PCI_TO_CARDBUS : Z := 2.

Definition lo (w : Z) : Z := Z.land w 0xFF.
Definition hi (w : Z) : Z := Z.land (Z.shiftr w 8) 0xFF.

Definition read_header (rd : Z -> Z) : pci_config_header_t :=
  mk_hdr (rd 0x0) (rd 0x2) (rd 0x4) (rd 0x6) (lo (rd 0x8)) (hi (rd 0x8)) (lo (rd 0xA)) (hi (rd 0xA))
    (lo (rd 0xC)) (hi (rd 0xC)) (lo (rd 0xE)) (hi (rd 0xE)).

(** The structures given to drivers, field by field: offset, size and value. *)
Definition fields : Type := list (Z * nat * Z).
Definition put_fields (a : Z) (l : fields) (m : mem) : mem :=
  fold_left (fun m '(o, w, v) => store w (a + o) v m) l m.

Definition location_fields (l : pci_location_t) : fields := [(0, 1%nat, bus l); (1, 1%nat, dev l); (2, 1%nat, func l)].
Definition header_fields (h : pci_config_header_t) : fields :=
  [(4, 2%nat, vendorID h); (6, 2%nat, deviceID h); (8, 2%nat, command h); (10, 2%nat, status h); (12, 1%nat, revisionID h);
   (13, 1%nat, progIF h); (14, 1%nat, subclass h); (15, 1%nat, pci_class h); (16, 1%nat, cacheLineSize h);
   (17, 1%nat, latencyTimer h); (18, 1%nat, headerType h); (19, 1%nat, BIST h)].

(** [pci_config_device_t], from the words and addresses read. *)
Definition CONFIG_DEVICE_SIZE : Z := 64.
Definition device_fields (rw ra : Z -> Z) : fields :=
  [(20, 4%nat, ra 0x10); (24, 4%nat, ra 0x14); (28, 4%nat, ra 0x18); (32, 4%nat, ra 0x1C); (36, 4%nat, ra 0x20); (40, 4%nat, ra 0x24);
   (44, 4%nat, ra 0x28); (48, 2%nat, rw 0x2C); (50, 2%nat, rw 0x2E); (52, 4%nat, ra 0x30); (56, 1%nat, rw 0x34);
   (57, 1%nat, lo (rw 0x3C)); (58, 1%nat, hi (rw 0x3C)); (59, 1%nat, lo (rw 0x3E)); (60, 1%nat, hi (rw 0x3E))].

(** [pci_config_pci_to_pci_t]. *)
Definition CONFIG_BRIDGE_SIZE : Z := 68.
Definition bridge_fields (rw ra : Z -> Z) : fields :=
  [(20, 4%nat, ra 0x10); (24, 4%nat, ra 0x14); (28, 1%nat, lo (rw 0x18)); (29, 1%nat, hi (rw 0x18)); (30, 1%nat, lo (rw 0x1A));
   (31, 1%nat, hi (rw 0x1A)); (32, 1%nat, lo (rw 0x1C)); (33, 1%nat, hi (rw 0x1C)); (34, 2%nat, rw 0x1E); (36, 2%nat, rw 0x20);
   (38, 2%nat, rw 0x22); (40, 2%nat, rw 0x24); (42, 2%nat, rw 0x26); (44, 4%nat, ra 0x28); (48, 4%nat, ra 0x2C);
   (52, 2%nat, rw 0x30); (54, 2%nat, rw 0x32); (56, 1%nat, lo (rw 0x34)); (60, 4%nat, ra 0x38);
   (64, 1%nat, lo (rw 0x3C)); (65, 1%nat, hi (rw 0x3C)); (66, 2%nat, rw 0x3E)].

Definition CONFIG_CARDBUS_SIZE : Z := 20.

(** [sizeof(device_t)], and the bytes of the identifier. *)
Definition DEVICE_T_SIZE : Z := 48.
Definition DEVICE_CREATE_ID_PCI (vid did cls scls progif : Z) : list Z :=
  [DEVICE_ID_CLASS_PCI; progif; 0; 0; 0; 0] ++ flat_map (fun v => [v mod 256; v / 256]) [vid; did; cls; scls] ++ repeat 0 34.

Section Scan.
Context {X H : Type} `{KH : KernelHeap H}.
Variable (fuel sfuel : nat).
Variable ops : Z -> vnode_operations_t (fal X H).
Variable call : Z -> loader X H -> outcome (loader X H).
Abbreviation M := (devman X H).
Variable invoke : Z -> Z -> M -> outcome (bool * M).
Variable (metadata_str driver_metadata_str : Z).
Variable cfg : Z -> Z.
Implicit Types (s : M).

(** The data of a device: a zeroed area with the fields. *)
Definition add_data (device type size : Z) (fs : fields) s : outcome M :=
  '(a, s) ← dm_alloc size s;
  let s := put_dmmem (put_fields a fs (memset a 0 size (dm_mem s))) s in
  let s := upd_dev device (fun d => mk_device (dv_bus d) type a (dv_driverData d) (dv_idList d) (dv_node d)) s in
  device_add fuel sfuel ops call invoke metadata_str driver_metadata_str device s.

Definition detect_function (i j k : Z) s : outcome M :=
  let location := mk_loc (u8 i) (u8 j) (u8 k) in
  let rw := pci_config_read_word cfg location in
  let ra := pci_config_read_address cfg location in
  if (rw 0x0 =? 0xFFFF) && (rw 0x2 =? 0xFFFF) then Ret s
  else
    let hdr := read_header rw in
    '(device, s) ← dm_alloc DEVICE_T_SIZE s;
    let s := upd_dev device (fun _ => mk_device DEVICE_BUS_PCI 0 0 0 None 0) s in
    s ← device_id_initialise device s;
    s ← device_id_add device (DEVICE_CREATE_ID_PCI (vendorID hdr) (deviceID hdr) (pci_class hdr) (subclass hdr) (progIF hdr)) s;
    let t := Z.land (headerType hdr) 0x7F in
    if t =? PCI_HEADER_DEVICE then
      add_data device (classify_device (pci_class hdr) (subclass hdr)).1 CONFIG_DEVICE_SIZE
        (location_fields location ++ header_fields hdr ++ device_fields rw ra) s
    else if t =? PCI_HEADER_PCI_TO_PCI then
      add_data device DEVICE_TYPE_SYSTEM_DEVICE CONFIG_BRIDGE_SIZE
        (location_fields location ++ header_fields hdr ++ bridge_fields rw ra) s
    else if t =? PCI_HEADER_PCI_TO_CARDBUS then add_data device DEVICE_TYPE_SYSTEM_DEVICE CONFIG_CARDBUS_SIZE [] s
    else Ret s.

Definition pcidev_detect s : outcome M :=
  for_up 256 0 (fun i s => for_up 32 0 (fun j s => for_up 8 0 (fun k s => detect_function i j k s) s) s) s.
End Scan.

(** ** Configuration space is read as it is *)

(** Where a register of a function is. *)
Definition place (l : pci_location_t) (offset : Z) : Z :=
  2 ^ 31 + bus l * 2 ^ 16 + dev l * 2 ^ 11 + func l * 2 ^ 8 + 4 * (offset / 4).

Definition wf_location (l : pci_location_t) : Prop := 0 <= bus l < 256 /\ 0 <= dev l < 32 /\ 0 <= func l < 8.

Lemma offset_bits offset : 0 <= offset < 256 -> Z.land offset 0xFC = 4 * (offset / 4) /\ Z.land offset 2 = offset mod 4 / 2 * 2.
Proof.
  intros Ho. assert (Forall (fun o => Z.land o 0xFC = 4 * (o / 4) /\ Z.land o 2 = o mod 4 / 2 * 2) (map Z.of_nat (List.seq 0 256))) as HF
    by (apply (bool_decide_unpack _); vm_compute; exact I).
  rewrite Forall_forall in HF. apply HF, list_elem_of_In, in_map_iff. exists (Z.to_nat offset). split; [lia|]. apply in_seq. lia.
Qed.

Lemma config_address_place l offset : wf_location l -> 0 <= offset < 256 -> config_address l offset = place l offset.
Proof.
  intros (Hb & Hd & Hf) Ho. unfold config_address, place. rewrite (proj1 (offset_bits offset Ho)). set (o := 4 * (offset / 4)).
  assert (0 <= o < 256) as Hoo by (unfold o; dm).
  rewrite (Z.lor_comm _ 0x80000000). change 0x80000000 with (Z.shiftl 1 31).
  rewrite <- !Z.lor_assoc, (lor_disjoint (func l) o 8) by (cbn; lia).
  rewrite (lor_disjoint (dev l) _ 11) by (change (2 ^ 8) with 256; change (2 ^ 11) with 2048; lia).
  rewrite (lor_disjoint (bus l) _ 16) by (change (2 ^ 8) with 256; change (2 ^ 11) with 2048; change (2 ^ 16) with 65536; lia).
  change (2 ^ 8) with 256. change (2 ^ 11) with 2048. change (2 ^ 16) with 65536.
  rewrite (lor_disjoint 1 _ 31) by (change (2 ^ 31) with 2147483648; lia).
  change (2 ^ 31) with 2147483648. rewrite wrap_small by (pow2_consts; lia). lia.
Qed.

Section Read.
Variable (cfg : Z -> Z) (l : pci_location_t) (space : mem).
(** The registers of the function are the bytes of [space], four at a time. *)
Hypothesis (Hl : wf_location l) (Hb : forall i, 0 <= space i < 256).
Hypothesis Hcfg : forall r, 0 <= r < 64 -> cfg (place l (4 * r)) = load32 (4 * r) space.

Lemma read_word_spec offset : 0 <= offset < 256 -> offset mod 2 = 0 -> pci_config_read_word cfg l offset = load16 offset space.
Proof.
  intros Ho Hev. unfold pci_config_read_word. rewrite config_address_place by assumption.
  assert (place l offset = place l (4 * (offset / 4))) as ->
    by (assert (offset / 4 = 4 * (offset / 4) / 4) as E by dm; unfold place; now rewrite <- E).
  rewrite Hcfg, (proj2 (offset_bits offset Ho)) by dm.
  set (q := 4 * (offset / 4)). pose proof (Hb q) as B0. pose proof (Hb (q + 1)) as B1. pose proof (Hb (q + 2)) as B2. pose proof (Hb (q + 3)) as B3.
  change 0xFFFF with (Z.ones 16). rewrite Z.land_ones by lia. unfold u16, wrap. rewrite Zmod_mod. change (2 ^ 16) with 65536.
  assert (offset mod 4 / 2 * 2 * 8 = 8 * (offset - q) /\ (offset = q \/ offset = q + 2)) as [-> [E|E]] by (unfold q; dm); rewrite E; clear E;
    cbn [load]; replace (q + 1 + 1) with (q + 2) by lia; replace (q + 2 + 1) with (q + 3) by lia.
  - replace (8 * (q - q)) with 0 by lia. rewrite Z.shiftr_0_r. dm.
  - replace (8 * (q + 2 - q)) with 16 by lia. rewrite Z.shiftr_div_pow2 by lia. change (2 ^ 16) with 65536. dm.
Qed.

Lemma read_address_spec offset : 0 <= offset < 256 -> offset mod 4 = 0 -> pci_config_read_address cfg l offset = load32 offset space.
Proof.
  intros Ho H4. unfold pci_config_read_address. rewrite (wrap_small 8 (offset + 2)) by (pow2_consts; dm).
  rewrite !read_word_spec by dm.
  pose proof (Hb offset) as B0. pose proof (Hb (offset + 1)) as B1. pose proof (Hb (offset + 2)) as B2. pose proof (Hb (offset + 3)) as B3.
  assert (load16 (offset + 2) space = space (offset + 2) + 256 * space (offset + 3)) as E.
  { cbn [load]. replace (offset + 2 + 1) with (offset + 3) by lia. lia. }
  rewrite E. set (h := space (offset + 2) + 256 * space (offset + 3)). assert (0 <= h < 65536) by (unfold h; lia).
  rewrite (wrap_small 32 (Z.shiftl h 16)) by (rewrite Z.shiftl_mul_pow2 by lia; change (2 ^ 16) with 65536; pow2_consts; lia).
  assert (Z.land (Z.shiftl h 16) 0xFFFF0000 = Z.shiftl h 16) as ->.
  { change 0xFFFF0000 with (Z.shiftl (Z.ones 16) 16). rewrite <- Z.shiftl_land, Z.land_ones, Z.mod_small by lia. reflexivity. }
  assert (0 <= load16 offset space < 65536) by (cbn [load]; lia).
  rewrite Z.lor_comm, lor_disjoint by (change (2 ^ 16) with 65536; lia). unfold h. cbn [load].
  replace (offset + 1 + 1) with (offset + 2) by lia. replace (offset + 2 + 1) with (offset + 3) by lia. change (2 ^ 16) with 65536. lia.
Qed.
End Read.

(** Reading configuration space gives the bytes of the function's registers: a word at
    every even offset, and a double word at every offset that is a multiple of four. *)
Theorem pci_config_read_correct cfg l space :
  wf_location l -> (forall i, 0 <= space i < 256) -> (forall r, 0 <= r < 64 -> cfg (place l (4 * r)) = load32 (4 * r) space) ->
  (forall offset, 0 <= offset < 256 -> offset mod 2 = 0 -> pci_config_read_word cfg l offset = load16 offset space) /\
  (forall offset, 0 <= offset < 256 -> offset mod 4 = 0 -> pci_config_read_address cfg l offset = load32 offset space).
Proof. intros Hl Hb Hc. split; intros offset; [now apply read_word_spec|now apply read_address_spec]. Qed.

Lemma pci_config_read_correct_witness :
  let space := bytes_at 0 [0x86; 0x80; 0x22; 0x29] in
  pci_config_read_word (fun a => load32 (a - place (mk_loc 0 31 2) 0) space) (mk_loc 0 31 2) 2 = 0x2922.
Proof.
  intros space. refine (proj1 (pci_config_read_correct _ (mk_loc 0 31 2) space _ _ _) 2 _ _).
  - repeat split; cbn; lia.
  - intros i. unfold space, bytes_at. destruct (_ && _); [|lia].
    destruct (Z.to_nat (i - 0)) as [|[|[|[|n]]]]; cbn; try lia. destruct n; lia.
  - intros r Hr. f_equal. unfold place. rewrite (Z.mul_comm 4 r), Z.div_mul by lia. change (0 / 4) with 0. lia.
  - lia.
  - reflexivity.
Defined.

(** A word written to the upper half of a register is shifted the wrong way: the half is
    cleared, whatever is written.  A word written to the lower half clears the upper one. *)
Theorem pci_write_upper_lost cfg l offset data :
  wf_location l -> 0 <= offset < 254 -> offset mod 4 = 0 -> 0 <= data < 65536 ->
  pci_config_read_word (pci_config_write_word cfg l (offset + 2) data) l (offset + 2) = 0 /\
  pci_config_read_word (pci_config_write_word cfg l offset data) l (offset + 2) = 0.
Proof.
  intros Hl Ho H4 Hd.
  assert (config_address l (offset + 2) = config_address l offset) as E.
  { rewrite !config_address_place by (auto; lia). unfold place. do 2 f_equal. dm. }
  unfold pci_config_read_word, pci_config_write_word. rewrite E, !upd_eq.
  rewrite (proj2 (offset_bits (offset + 2) ltac:(lia))), (proj2 (offset_bits offset ltac:(lia))).
  replace ((offset + 2) mod 4 / 2 * 2 * 8) with 16 by dm. replace (offset mod 4 / 2 * 2 * 8) with 0 by dm.
  assert (Z.shiftr data 16 = 0) as D by (rewrite Z.shiftr_div_pow2 by lia; change (2 ^ 16) with 65536; dm).
  rewrite D, Z.shiftr_0_r, D. split; reflexivity.
Qed.
