(* ===== verification/Devfs.v ===== *)
(** * The device file system ([kernel/sys/dal/dev/devfs/devfs.c])

    A directory with one entry, the terminal.  The operations of the terminal's vnodes are
    named by their address, as those of all file systems are. *)

From S2P Require Import Prelude Interfaces MemMap Pmm MemUtil Kheap Path Vnode Initrd Bytes FatFs.
#[local] Open Scope Z_scope.

Definition V_CHR : Z := 4.
Definition DT_CHR : Z := 2.
Definition TTY : list Z := chars "tty0".

Section Devfs.
Context {X H : Type} `{KH : KernelHeap H}.
Variable (fuel : nat) (ops : Z -> vnode_operations_t (fal X H)) (devfsVnodeOps termVnodeOps : Z).
Implicit Types (s : fal X H).

(** [vfs_mount] is called with the mount point; [start_devfs] and [autoreg] are its
    arguments for a system partition, which devfs is not on. *)
Definition devfs_init (start_devfs autoreg : fal X H -> outcome (Z * fal X H)) (mount : list Z) s : outcome (Z * fal X H) :=
  '(devfs, h) ← kh_malloc VFS_SIZE (f_heap s);
  let s := upd_vfs devfs (fun _ => mk_vfs 0 0 0 0 false false 0) (set_heap h s) in
  '(root, s) ← vnode_new devfs devfsVnodeOps s;
  let s := upd_vfs devfs (fun v => mk_vfs (vfs_fid v) (vfs_mountFlags v) (vfs_vnodeCovered v) root
                                     (vfs_system v) (vfs_lock v) (vfs_next v)) s in
  let s := upd_vnode root (fun v => mk_vnode (v_filename v) (v_mode v) 0 V_DIR 0 (v_refCount v) (v_lock v)
             (v_vfsMountedHere v) (v_vfs v) (v_vnodeops v) 0 (v_next v) (v_prev v)) s in
  vfs_mount ops fuel start_devfs autoreg devfs mount 0 s.

Definition devfs_lookup (self : Z) (name : list Z) s : outcome (Z * fal X H) :=
  if (self =? 0) || negb (v_type (f_vnodes s self) =? V_DIR) then Ret (0, set_errno ENOTDIR s)
  else
    let v := f_vnodes s self in
    let fullname := v_filename v ++ name in
    if Z.of_nat (length fullname) >? 255 then Fault
    else
      listEntry ← vnode_list_search_by_filename fuel (v_vfs v) fullname s;
      if negb (listEntry =? 0) then Ret (listEntry, s)
      else if bool_decide (v_filename v = []) && bool_decide (look_for name = TTY) then
        '(vnode, s) ← vnode_new (v_vfs v) termVnodeOps s;
        Ret (vnode, upd_vnode vnode (fun w => mk_vnode (v_filename w) (v_mode w) (v_flags w) V_CHR 0 (v_refCount w) (v_lock w)
                      (v_vfsMountedHere w) (v_vfs w) (v_vnodeops w) (v_fsData w) (v_next w) (v_prev w)) s)
      else Ret (0, s).

(** The size of the caller's buffer is not looked at. *)
Definition devfs_readdir (self count buf offset : Z) s : outcome (Z * fal X H) :=
  if negb (offset =? 0) then Ret (0, s)
  else
    let m := put_dirent buf 0 0 (19 + 5) DT_CHR (f_mem s) in
    Ret (24, set_mem (write_bytes (TTY ++ [0]) (buf + 19) m) s).

Definition devfs_ops : vnode_operations_t (fal X H) := mk_ops None None None (Some devfs_lookup) (Some devfs_readdir).
End Devfs.

(** In the root of the file system the terminal is found as a character device, with the
    terminal's operations; every other name gives NULL, and [kerrno] is not set. *)
Theorem devfs_lookup_correct {X H} `{KHL : KernelHeapLaws H} fuel termVnodeOps self name (s : fal X H) areas :
  self <> 0 -> v_type (f_vnodes s self) = V_DIR -> v_filename (f_vnodes s self) = [] -> (length name < 256)%nat ->
  vnode_list_search_by_filename fuel (v_vfs (f_vnodes s self)) name s = Ret 0 ->
  kh_ok (f_heap s) -> kh_live (f_heap s) areas ->
  Safe (devfs_lookup fuel termVnodeOps self name s) (fun '(v, s') =>
    if bool_decide (look_for name = TTY) then
      0 < v /\ v_type (f_vnodes s' v) = V_CHR /\ v_vnodeops (f_vnodes s' v) = termVnodeOps /\
      v_vfs (f_vnodes s' v) = v_vfs (f_vnodes s self) /\ forall w, w <> v -> f_vnodes s' w = f_vnodes s w
    else v = 0 /\ s' = s).
Proof.
  intros Hs Ht Hn Hl Hf Hok Hlive. unfold devfs_lookup. rewrite (proj2 (Z.eqb_neq _ _) Hs), Ht, Z.eqb_refl. cbn [orb negb].
  rewrite Hn. cbn [app]. destruct (Z.gtb_spec (Z.of_nat (length name)) 255); [lia|]. rewrite Hf. cbn [mbind outcome_bind Z.eqb negb].
  rewrite bool_decide_true by reflexivity. cbn [andb].
  destruct (bool_decide (look_for name = TTY)); [|cbn; auto]. unfold vnode_new.
  pose proof (kh_malloc_spec VNODE_SIZE (f_heap s) areas ltac:(unfold VNODE_SIZE; lia) Hok Hlive) as HM.
  destruct (kh_malloc VNODE_SIZE (f_heap s)) as [[a h]|?| | |]; try contradiction; cbn [mbind outcome_bind Safe]; [|exact I].
  destruct HM as (n & Ha & _). cbn. rewrite !upd_eq. cbn. splits; auto. intros w Hw. now rewrite !upd_ne.
Qed.

(** A caller with no room for an entry gets one nevertheless. *)
Theorem devfs_readdir_ignores_count {X H} (s : fal X H) buf :
  Returns (devfs_readdir 1 0 buf 0 s) (fun '(n, s') => n = 24 /\ f_mem s' (buf + 19) = 116).
Proof. eexists. split; [reflexivity|]. split; [reflexivity|]. cbn. repeat rewrite upd_ne by lia. apply upd_eq. Qed.
