(* ===== verification/Rtc.v ===== *)
(** * The real-time clock ([modules/rtc/rtc.c])

    The driver sets the kernel's clock from the registers of the CMOS chip at the end of
    each update.  The chip is its address latch and its 128 registers; the top bit of the
    address switches the NMI and selects nothing. *)

From S2P Require Import Prelude Time.
#[local] Open Scope Z_scope.

Definition RTC_SECONDS : Z := 0x00.
Definition RTC_MINUTES : Z := 0x02.
Definition RTC_HOURS : Z := 0x04.
Definition RTC_WEEKDAY : Z := 0x06.
Definition RTC_DAY_OF_MONTH : Z := 0x07.
Definition RTC_MONTH : Z := 0x08.
Definition RTC_YEAR : Z := 0x09.
Definition RTC_CENTURY : Z := 0x32.
Definition RTC_STATUS_B : Z := 0x0B.
Definition RTC_STATUS_C : Z := 0x0C.
Definition RTC_STATUS_D : Z := 0x0D.
Definition RTC_POST_ERROR : Z := 0x0E.
Definition RTC_HOUR_FORMAT : Z := 2.
Definition RTC_BINARY : Z := 4.
Definition RTC_UPDATE_ENDED_INT : Z := 16.
Definition RTC_ALARM_INT : Z := 32.
Definition RTC_PERIODIC_INT : Z := 64.

Record rtc_t : Type := mk_rtc {
  r_seconds : Z; r_minutes : Z; r_hours : Z; r_weekday : Z; r_dayOfMonth : Z; r_month : Z; r_year : Z; r_century : Z
}.

(** The driver's globals, the chip, and the kernel's clock. *)
Record rtc_state : Type := mk_rs {
  rtc : rtc_t;
  hourMode : bool;
  binary : bool;
  rtcLock : spinlock_t;
  cmos_address : Z;
  cmos : Z -> Z;
  kernelTime : timespec64_t
}.
Implicit Types (s : rtc_state).

Definition put_rtc (r : rtc_t) s : rtc_state := mk_rs r (hourMode s) (binary s) (rtcLock s) (cmos_address s) (cmos s) (kernelTime s).
Definition put_rlock (l : spinlock_t) s : rtc_state := mk_rs (rtc s) (hourMode s) (binary s) l (cmos_address s) (cmos s) (kernelTime s).
Definition put_modes (h b : bool) s : rtc_state := mk_rs (rtc s) h b (rtcLock s) (cmos_address s) (cmos s) (kernelTime s).
Definition put_time (t : timespec64_t) s : rtc_state := mk_rs (rtc s) (hourMode s) (binary s) (rtcLock s) (cmos_address s) (cmos s) t.

(** The two ports. *)
Definition out_address (a : Z) s : rtc_state :=
  mk_rs (rtc s) (hourMode s) (binary s) (rtcLock s) (Z.land a 0x7F) (cmos s) (kernelTime s).
Definition out_data (v : Z) s : rtc_state :=
  mk_rs (rtc s) (hourMode s) (binary s) (rtcLock s) (cmos_address s) (upd (cmos s) (cmos_address s) v) (kernelTime s).

Definition rtc_read_register (reg : Z) s : outcome (Z * rtc_state) :=
  l ← acquireLock (rtcLock s);
  let s := out_address (Z.lor reg 0x80) (put_rlock l s) in
  let s := put_rlock (releaseLock (rtcLock s)) s in
  Ret (cmos s (cmos_address s), s).

Definition rtc_write_register (reg data : Z) s : outcome rtc_state :=
  l ← acquireLock (rtcLock s);
  let s := out_data data (out_address (Z.lor reg 0x80) (put_rlock l s)) in
  Ret (put_rlock (releaseLock (rtcLock s)) s).

Definition rtc_bcd_to_bin (bcd : Z) : Z :=
  u8 (Z.shiftr (Z.land bcd 0xF0) 1 + Z.shiftr (Z.land bcd 0xF0) 3 + Z.land bcd 0x0F).

Definition from_bcd (r : rtc_t) : rtc_t :=
  mk_rtc (rtc_bcd_to_bin (r_seconds r)) (rtc_bcd_to_bin (r_minutes r)) (rtc_bcd_to_bin (r_hours r)) (rtc_bcd_to_bin (r_weekday r))
    (rtc_bcd_to_bin (r_dayOfMonth r)) (rtc_bcd_to_bin (r_month r)) (rtc_bcd_to_bin (r_year r)) (rtc_bcd_to_bin (r_century r)).

Definition from_12h (r : rtc_t) : rtc_t :=
  if Z.land (r_hours r) 0x80 =? 0 then r
  else mk_rtc (r_seconds r) (r_minutes r) ((Z.land (r_hours r) 0x7F + 12) mod 24) (r_weekday r) (r_dayOfMonth r) (r_month r) (r_year r) (r_century r).

Definition assemble (r : rtc_t) : systime_t :=
  mk_systime (r_seconds r) (r_minutes r) (r_hours r) (r_dayOfMonth r) (r_month r) (r_century r * 100 + r_year r).

(** [century] is the field of that name of the FADT. *)
Definition rtc_handler (century : Z) s : outcome rtc_state :=
  '(c, s) ← rtc_read_register RTC_STATUS_C s;
  if Z.land c (Z.lor 16 128) =? 0 then Ret s
  else
    '(sc, s) ← rtc_read_register RTC_SECONDS s;
    '(mi, s) ← rtc_read_register RTC_MINUTES s;
    '(ho, s) ← rtc_read_register RTC_HOURS s;
    '(wd, s) ← rtc_read_register RTC_WEEKDAY s;
    '(dm, s) ← rtc_read_register RTC_DAY_OF_MONTH s;
    '(mo, s) ← rtc_read_register RTC_MONTH s;
    '(ye, s) ← rtc_read_register RTC_YEAR s;
    '(ce, s) ← (if century =? 0 then Ret (19, s) else rtc_read_register RTC_CENTURY s);
    l ← acquireLock (rtcLock s);
    let s := put_rlock l s in
    let r := mk_rtc sc mi ho wd dm mo ye ce in
    let r := if binary s then r else from_bcd r in
    let r := if hourMode s then r else from_12h r in
    let s := put_rlock (releaseLock (rtcLock s)) (put_rtc r s) in
    Ret (put_time (time_set64 (time_conv_to_unix64 (assemble (rtc s))) (kernelTime s)) s).

(** The device is an ACPI system device; [boot_arch] is [iapc_boot_arch] of the FADT, when
    there is one. *)
Definition probe (system_acpi : bool) (boot_arch : option Z) s : outcome (bool * rtc_state) :=
  if negb system_acpi then Ret (false, s)
  else if match boot_arch with Some a => negb (Z.land a 32 =? 0) | None => false end then Ret (false, s)
  else
    '(d, s) ← rtc_read_register RTC_STATUS_D s;
    if negb (Z.land d 128 =? 0) then Ret (true, s)
    else
      '(e, s) ← rtc_read_register RTC_POST_ERROR s;
      Ret ((Z.land e 4 =? 0) && (Z.land e 32 =? 0) && (Z.land e 64 =? 0) && (Z.land e 128 =? 0), s).

(** [add_handler] registers the interrupt. *)
Definition attach (add_handler : rtc_state -> outcome rtc_state) (system_acpi : bool) (boot_arch : option Z) s : outcome (bool * rtc_state) :=
  '(ok, s) ← probe system_acpi boot_arch s;
  if negb ok then Ret (false, s)
  else
    '(b, s) ← rtc_read_register RTC_STATUS_B s;
    let s := put_modes (if Z.land b RTC_HOUR_FORMAT =? 0 then hourMode s else true) (if Z.land b RTC_BINARY =? 0 then binary s else true) s in
    let b := Z.land (Z.lor b RTC_UPDATE_ENDED_INT) (Z.lnot (Z.lor RTC_ALARM_INT RTC_PERIODIC_INT)) in
    s ← rtc_write_register RTC_STATUS_B b s;
    s ← add_handler s;
    '(_, s) ← rtc_read_register RTC_STATUS_C s;
    Ret (true, s).

(** ** Setting the clock *)

(** How the chip stores a number below 100. *)
Definition stored (bin : bool) (v : Z) : Z := if bin then v else 16 * (v / 10) + v mod 10.

Lemma bcd_roundtrip v : 0 <= v < 100 -> rtc_bcd_to_bin (stored false v) = v.
Proof.
  intros Hv. assert (Forall (fun v => rtc_bcd_to_bin (stored false v) = v) (map Z.of_nat (List.seq 0 100))) as HF
    by (apply (bool_decide_unpack _); vm_compute; exact I).
  rewrite Forall_forall in HF. apply HF, list_elem_of_In, in_map_iff. exists (Z.to_nat v). split; [lia|]. apply in_seq. lia.
Qed.

(** The registers hold a date, in the form the driver has seen at the start. *)
Record shows s (t : systime_t) (weekday : Z) : Prop := {
  sh_seconds : 0 <= seconds t < 60 /\ cmos s RTC_SECONDS = stored (binary s) (seconds t);
  sh_minutes : 0 <= minutes t < 60 /\ cmos s RTC_MINUTES = stored (binary s) (minutes t);
  sh_hours : 0 <= hours t < 24 /\ cmos s RTC_HOURS = stored (binary s) (hours t);
  sh_weekday : 0 <= weekday < 8 /\ cmos s RTC_WEEKDAY = stored (binary s) weekday;
  sh_day : 0 <= dayOfMonth t < 32 /\ cmos s RTC_DAY_OF_MONTH = stored (binary s) (dayOfMonth t);
  sh_month : 0 <= month t < 13 /\ cmos s RTC_MONTH = stored (binary s) (month t);
  sh_year : 0 <= year t < 10000 /\ cmos s RTC_YEAR = stored (binary s) (year t mod 100) /\
            cmos s RTC_CENTURY = stored (binary s) (year t / 100)
}.

Lemma rtc_read_spec reg s : rtcLock s = false ->
  rtc_read_register reg s = Ret (cmos s (Z.land (Z.lor reg 0x80) 0x7F), out_address (Z.lor reg 0x80) s).
Proof. intros E. unfold rtc_read_register. rewrite E. cbn. destruct s; cbn in *; now subst. Qed.

(** The interrupt at the end of an update sets the kernel's clock to the date in the
    registers, in binary and in BCD form, when the chip counts 24 hours and has a register
    for the century. *)
Theorem rtc_handler_correct century s t weekday :
  rtcLock s = false -> century <> 0 -> hourMode s = true -> Z.land (cmos s RTC_STATUS_C) (Z.lor 16 128) <> 0 -> shows s t weekday ->
  Returns (rtc_handler century s) (fun s' => kernelTime s' = time_conv_to_unix64 t /\ rtcLock s' = false).
Proof.
  intros El Hc Eh Hs [[R1 E1] [R2 E2] [R3 E3] [R4 E4] [R5 E5] [R6 E6] (R7 & E7 & E8)].
  unfold rtc_handler. rewrite rtc_read_spec by exact El. cbn [mbind outcome_bind].
  change (Z.land (Z.lor RTC_STATUS_C 0x80) 0x7F) with RTC_STATUS_C. rewrite (proj2 (Z.eqb_neq _ _) Hs).
  rewrite !rtc_read_spec by exact El. cbn [mbind outcome_bind]. rewrite (proj2 (Z.eqb_neq _ _) Hc).
  repeat (rewrite rtc_read_spec by exact El; cbn [mbind outcome_bind]).
  cbn [rtcLock out_address]. rewrite El. cbn [acquireLock mbind outcome_bind]. apply Returns_ret. split; [|reflexivity].
  cbn [kernelTime put_time time_set64 rtc put_rlock put_rtc hourMode binary out_address cmos]. rewrite Eh.
  change (Z.land (Z.lor RTC_SECONDS 128) 127) with RTC_SECONDS. change (Z.land (Z.lor RTC_MINUTES 128) 127) with RTC_MINUTES.
  change (Z.land (Z.lor RTC_HOURS 128) 127) with RTC_HOURS. change (Z.land (Z.lor RTC_WEEKDAY 128) 127) with RTC_WEEKDAY.
  change (Z.land (Z.lor RTC_DAY_OF_MONTH 128) 127) with RTC_DAY_OF_MONTH. change (Z.land (Z.lor RTC_MONTH 128) 127) with RTC_MONTH.
  change (Z.land (Z.lor RTC_YEAR 128) 127) with RTC_YEAR. change (Z.land (Z.lor RTC_CENTURY 128) 127) with RTC_CENTURY.
  rewrite E1, E2, E3, E4, E5, E6, E7, E8. unfold time_set64. f_equal. destruct t as [sc mi ho dm mo ye]. cbn in *.
  destruct (binary s); unfold from_bcd, assemble; cbn [r_seconds r_minutes r_hours r_weekday r_dayOfMonth r_month r_year r_century].
  - cbn [stored]. f_equal. dm.
  - rewrite !bcd_roundtrip by (lia || dm). f_equal. dm.
Qed.

(** Registers with a date, as BCD. *)
Definition rtc_demo (hours : Z) (h24 : bool) : rtc_state :=
  mk_rs (mk_rtc 0 0 0 0 0 0 0 0) h24 false false 0
    (fun r => if r =? RTC_STATUS_C then 0x90 else if r =? RTC_SECONDS then 0x56 else if r =? RTC_MINUTES then 0x34
              else if r =? RTC_HOURS then hours else if r =? RTC_WEEKDAY then 5 else if r =? RTC_DAY_OF_MONTH then 0x29
              else if r =? RTC_MONTH then 2 else if r =? RTC_YEAR then 0x24 else if r =? RTC_CENTURY then 0x20 else 0)
    (mk_timespec64 0 0).

Lemma rtc_handler_correct_witness :
  Returns (rtc_handler 0x32 (rtc_demo 0x12 true)) (fun s' =>
    kernelTime s' = time_conv_to_unix64 (mk_systime 56 34 12 29 2 2024) /\ sec64 (kernelTime s') = 1709210096).
Proof.
  destruct (rtc_handler_correct 0x32 (rtc_demo 0x12 true) (mk_systime 56 34 12 29 2 2024) 5 eq_refl ltac:(lia) eq_refl) as (s' & E & Hk & _).
  - vm_compute. discriminate.
  - split; vm_compute; repeat split; discriminate || reflexivity.
  - exists s'. split; [exact E|]. split; [exact Hk|]. rewrite Hk. vm_compute. reflexivity.
Defined.

(** On a chip that counts 12 hours in BCD, the bit for the afternoon is destroyed by the
    conversion before it is looked at: 11 in the evening becomes 91 hours. *)
Theorem rtc_evening_hours : Returns (rtc_handler 0x32 (rtc_demo 0x91 false)) (fun s' => r_hours (rtc s') = 91).
Proof. eexists. split; vm_compute; reflexivity. Qed.

(** Without a register for the century, 19 is taken, and converted from BCD to 13. *)
Theorem rtc_century_default : Returns (rtc_handler 0 (rtc_demo 0x12 true)) (fun s' => r_century (rtc s') = 13).
Proof. eexists. split; vm_compute; reflexivity. Qed.
