(* ===== verification/Keyboard.v ===== *)
(** * The keyboard ([modules/i8042/i8042kb.c])

    The interrupt handler of the keyboard turns the scan codes of the controller into keys
    for [input_send_key].  The bytes it reads from the controller are arguments here; I8042
    has the reading. *)

From S2P Require Import Prelude MemUtil Input.
#[local] Open Scope Z_scope.

Definition i8042_STATUS_READRDY : Z := 1.
Definition LEFT_SHIFT : Z := 0x2A.
Definition LEFT_CTRL : Z := 0x1D.
Definition RIGHT_SHIFT : Z := 0x36.
Definition CAPSLOCK : Z := 0x3A.

Definition ESC : Z := 27.

Definition keymap : list Z :=
  [0; ESC] ++ chars "1234567890-=" ++ [8; 0] ++ chars "qwertyuiop[]" ++ [10; 0] ++ chars "asdfghjkl;'`" ++ [0] ++
  chars "\zxcvbnm,./" ++ [0] ++ chars "*" ++ [0] ++ chars " ".

Definition keymapUppercase : list Z :=
  [0; ESC] ++ chars "!@#$%^&*()_+" ++ [8; 0] ++ chars "QWERTYUIOP{}" ++ [10; 0] ++ chars "ASDFGHJKL:" ++ [34] ++ chars "~" ++ [0] ++
  chars "|ZXCVBNM<>?" ++ [0] ++ chars "*" ++ [0] ++ chars " ".

(** The keys of which both the press and the release are passed on. *)
Definition special_code (scancode : Z) : option kb_input_t :=
  if scancode =? LEFT_SHIFT then Some (mk_key INPUT_LEFT_SHIFT true true)
  else if scancode =? LEFT_SHIFT + 0x80 then Some (mk_key INPUT_LEFT_SHIFT false true)
  else if scancode =? RIGHT_SHIFT then Some (mk_key INPUT_RIGHT_SHIFT true true)
  else if scancode =? RIGHT_SHIFT + 0x80 then Some (mk_key INPUT_RIGHT_SHIFT false true)
  else if scancode =? LEFT_CTRL then Some (mk_key INPUT_LEFT_CTRL true true)
  else if scancode =? LEFT_CTRL + 0x80 then Some (mk_key INPUT_LEFT_CTRL false true)
  else if scancode =? CAPSLOCK then Some (mk_key INPUT_CAPSLOCK true true)
  else if scancode =? CAPSLOCK + 0x80 then Some (mk_key INPUT_CAPSLOCK false true)
  else None.

Definition shifted (k : kb_state_t) : bool := lShift k || rShift k || capsLock k.

(** The entry of a key map; an index behind its end is a fault. *)
Definition map_entry (up : bool) (scancode : Z) : outcome Z :=
  match nth_error (if up then keymapUppercase else keymap) (Z.to_nat scancode) with
  | Some c => Ret c
  | None => Fault
  end.

(** [status] and [scancode] are the bytes read; the comparison is done on [int], the
    subtraction stored in a byte. *)
Definition keyboard_handler (status scancode : Z) (s : input_state) : outcome input_state :=
  if Z.land status i8042_STATUS_READRDY =? 0 then Ret s
  else
    match special_code scancode with
    | Some k => Ret (input_send_key k s)
    | None =>
        if scancode <=? 58 then
          c ← map_entry (shifted (keyboardState s)) scancode; Ret (input_send_key (mk_key c true false) s)
        else if scancode - 0x80 <=? 58 then
          c ← map_entry (shifted (keyboardState s)) (u8 (scancode - 0x80)); Ret (input_send_key (mk_key c false false) s)
        else Ret s
    end.

(** ** What is typed is what is read *)

(** A key: its scan code when pressed, and when released. *)
Definition plain (code : Z) : Prop := 0 < code < 58 /\ special_code code = None.

Definition letter (k : kb_state_t) (code : Z) : Z := nth (Z.to_nat code) (if shifted k then keymapUppercase else keymap) 0.

Lemma map_entry_letter k code : 0 <= code < 58 -> map_entry (shifted k) code = Ret (letter k code).
Proof.
  intros Hc. unfold map_entry, letter.
  assert (length (if shifted k then keymapUppercase else keymap) = 58%nat) as L by (destruct (shifted k); reflexivity).
  destruct (nth_error _ _) as [c|] eqn:E.
  - f_equal. symmetry. now apply nth_error_nth.
  - apply nth_error_None in E. lia.
Qed.

Lemma special_release code : plain code -> special_code (code + 0x80) = None.
Proof.
  intros [Hc Hs]. destruct (special_code (code + 0x80)) as [k|] eqn:E; [exfalso|reflexivity].
  assert (code = 42 \/ code = 54 \/ code = 29) as [-> |[-> | ->]]; try discriminate Hs.
  unfold special_code, LEFT_SHIFT, RIGHT_SHIFT, LEFT_CTRL, CAPSLOCK in E.
  repeat match type of E with context [?a =? ?b] => destruct (Z.eqb_spec a b); try lia end. discriminate.
Qed.

(** Keys pressed and let go, one after the other. *)
Fixpoint type_keys (codes : list Z) (s : input_state) : outcome input_state :=
  match codes with
  | [] => Ret s
  | c :: r => s ← keyboard_handler i8042_STATUS_READRDY c s; s ← keyboard_handler i8042_STATUS_READRDY (c + 0x80) s; type_keys r s
  end.

Lemma handler_plain code s : plain code ->
  keyboard_handler i8042_STATUS_READRDY code s = Ret (input_send_key (mk_key (letter (keyboardState s) code) true false) s) /\
  keyboard_handler i8042_STATUS_READRDY (code + 0x80) s = Ret s.
Proof.
  intros Hp. pose proof Hp as [Hc Hs]. unfold keyboard_handler. change (Z.land i8042_STATUS_READRDY i8042_STATUS_READRDY =? 0) with false. cbv iota.
  rewrite Hs, (special_release code Hp), (proj2 (Z.leb_le code 58)), (proj2 (Z.leb_gt (code + 0x80) 58)) by lia. split.
  - rewrite map_entry_letter by lia. reflexivity.
  - replace (code + 0x80 - 0x80) with code by lia. rewrite (proj2 (Z.leb_le code 58)), (wrap_small 8 code), map_entry_letter by (pow2_consts; lia). reflexivity.
Qed.

(** Typing appends the characters of the keys, in order, to what waits to be read: those of
    the upper case map while a shift key is held or caps lock is on, those of the lower
    case map otherwise.  The modifier keys change this state and nothing else. *)
Theorem typing_correct codes : forall s q,
  queue s q -> Forall plain codes -> (length q + length codes < 32)%nat ->
  Returns (type_keys codes s) (fun s' =>
    queue s' (q ++ map (letter (keyboardState s)) codes) /\ keyboardState s' = keyboardState s).
Proof.
  induction codes as [|c codes IH]; intros s q HQ Hp Hl; cbn [type_keys length map] in *.
  - apply Returns_ret. now rewrite app_nil_r.
  - apply Forall_cons in Hp as [Hc Hp]. destruct (handler_plain c s Hc) as [-> _]. cbn [mbind outcome_bind].
    set (s1 := input_send_key _ s). destruct (handler_plain c s1 Hc) as [_ ->]. cbn [mbind outcome_bind].
    pose proof (send_key_queue s q (mk_key (letter (keyboardState s) c) true false) HQ eq_refl eq_refl) as HQ1. cbn [key] in HQ1. fold s1 in HQ1.
    destruct (Nat.eqb_spec (length q) 31); [lia|].
    eapply Returns_mono; [apply (IH s1 _ HQ1 Hp); rewrite length_app; cbn; lia|]. intros s' [H1 H2].
    split; [|exact H2]. rewrite <- app_assoc in H1. exact H1.
Qed.

Lemma typing_correct_witness :
  Returns (type_keys [0x23; 0x17] (input_init (mk_input (mk_kb false false false false false false false) (fun _ => mk_rb 0 0) 0 0 0)))
    (fun s' => queue s' (chars "hi")).
Proof.
  eapply Returns_mono; [apply (typing_correct [0x23; 0x17] _ [])|].
  - apply input_init_queue.
  - repeat constructor; cbn; lia.
  - cbn. lia.
  - intros s' [HQ _]. exact HQ.
Defined.

(** With a shift key held the upper case map is used until it is let go. *)
Lemma shift_held s : 
  Returns (keyboard_handler i8042_STATUS_READRDY LEFT_SHIFT s) (fun s1 => shifted (keyboardState s1) = true /\
    Returns (keyboard_handler i8042_STATUS_READRDY (LEFT_SHIFT + 0x80) s1) (fun s2 =>
      lShift (keyboardState s2) = false /\ rShift (keyboardState s2) = rShift (keyboardState s) /\
      capsLock (keyboardState s2) = capsLock (keyboardState s))).
Proof. eexists. split; [reflexivity|]. split; [reflexivity|]. eexists. split; [reflexivity|]. repeat split. Qed.

(** The codes from 59 on are those of the function keys and the number pad: 128 is
    subtracted also from them, and the key map is read far behind its end. *)
Theorem function_key_faults code s : 59 <= code < 128 -> keyboard_handler i8042_STATUS_READRDY code s = Fault.
Proof.
  intros Hc. unfold keyboard_handler. change (Z.land i8042_STATUS_READRDY i8042_STATUS_READRDY =? 0) with false. cbv iota.
  assert (special_code code = None) as ->.
  { unfold special_code, LEFT_SHIFT, RIGHT_SHIFT, LEFT_CTRL, CAPSLOCK.
    repeat match goal with |- context [?a =? ?b] => destruct (Z.eqb_spec a b); try lia end. reflexivity. }
  rewrite (proj2 (Z.leb_gt code 58)), (proj2 (Z.leb_le (code - 0x80) 58)) by lia.
  replace (u8 (code - 0x80)) with (code + 128) by (unfold u8, wrap; change (2 ^ 8) with 256; dm).
  unfold map_entry. rewrite (proj2 (nth_error_None _ _)); [reflexivity|]. destruct (shifted (keyboardState s)); cbn; lia.
Qed.
