(* ===== verification/I8042.v ===== *)
(** * The keyboard controller ([modules/i8042/i8042.c], [i8042_kb_init])

    The conversation with the controller over its two ports, and its set-up when the device
    is attached.  [W] is the machine behind the ports; the driver works on a state of the
    interrupt handlers with [W] in it.  What the controller does is a class of laws after
    its documentation, with an executable instance.  The messages of [klog] on the error
    paths, with what they write to the debug port and the serial port, are left out. *)

From S2P Require Import Prelude DeviceIds Interfaces MemMap Pmm MemUtil Kheap ListDs Bytes Sched Ports Irq Input Keyboard.
#[local] Open Scope Z_scope.

Definition i8042_DATA : Z := 0x60.
Definition i8042_COMMAND : Z := 0x64.
Definition i8042_STATUS_WRITERDY : Z := Z.shiftl 1 1.
Definition i8042_CONFIG_PORT1_IEN : Z := 1.
Definition i8042_CONFIG_PORT2_IEN : Z := Z.shiftl 1 1.
Definition i8042_CONFIG_PORT1_CLK : Z := Z.shiftl 1 4.
Definition i8042_CONFIG_PORT2_CLK : Z := Z.shiftl 1 5.
Definition i8042_CONFIG_TRANSLATION : Z := Z.shiftl 1 6.
Definition i8042_COMMAND_GET_CONFIG : Z := 0x20.
Definition i8042_COMMAND_SET_CONFIG : Z := 0x60.
Definition i8042_COMMAND_DISABLE_PORT2 : Z := 0xA7.
Definition i8042_COMMAND_ENABLE_PORT2 : Z := 0xA8.
Definition i8042_COMMAND_TEST_PORT2 : Z := 0xA9.
Definition i8042_COMMAND_SELFTEST : Z := 0xAA.
Definition i8042_COMMAND_TEST_PORT1 : Z := 0xAB.
Definition i8042_COMMAND_DISABLE_PORT1 : Z := 0xAD.
Definition i8042_COMMAND_ENABLE_PORT1 : Z := 0xAE.

Section Driver.
Context {W : Type} `{IO : PortIO W}.
Variable ksleep : Z -> W -> W.
Implicit Types (w : W).

(** The status is looked at up to [n] times, [ms] apart. *)
Fixpoint poll (n : nat) (ms : Z) (ready : Z -> bool) w : bool * W :=
  match n with
  | O => (false, w)
  | S n' =>
      let '(st, w) := arch_inb i8042_COMMAND w in
      if ready st then (true, w) else poll n' ms ready (ksleep ms w)
  end.

Definition i8042_write (port data : Z) w : W :=
  let '(ok, w) := poll 5 1 (fun st => Z.land st i8042_STATUS_WRITERDY =? 0) w in
  if ok then arch_outb port data w else w.

Definition i8042_read (port : Z) w : Z * W :=
  let '(ok, w) := poll 5 10 (fun st => negb (Z.land st i8042_STATUS_READRDY =? 0)) w in
  if ok then arch_inb port w else (0, w).

(** A command that is answered. *)
Definition i8042_ask (command : Z) w : Z * W := i8042_read i8042_DATA (i8042_write i8042_COMMAND command w).

Definition set_config (configByte : Z) w : W :=
  i8042_write i8042_DATA configByte (i8042_write i8042_COMMAND i8042_COMMAND_SET_CONFIG w).

(** [attach] up to the self-test: the configuration byte with interrupts and translation
    switched off, whether there is a second channel, and the answer to the test. *)
Definition i8042_begin w : Z * bool * Z * W :=
  let '(_, w) := arch_inb i8042_DATA w in
  let w := i8042_write i8042_COMMAND i8042_COMMAND_DISABLE_PORT1 w in
  let w := i8042_write i8042_COMMAND i8042_COMMAND_DISABLE_PORT2 w in
  let '(_, w) := arch_inb i8042_DATA w in
  let '(configByte, w) := i8042_ask i8042_COMMAND_GET_CONFIG w in
  let dualChannel := negb (Z.land configByte i8042_CONFIG_PORT2_CLK =? 0) in
  let configByte := Z.land configByte (Z.lnot (Z.lor (Z.lor i8042_CONFIG_PORT1_IEN i8042_CONFIG_PORT2_IEN) i8042_CONFIG_TRANSLATION)) in
  let w := set_config configByte w in
  let '(res, w) := i8042_ask i8042_COMMAND_SELFTEST w in
  (configByte, dualChannel, res, w).

(** The rest, once the test has passed; the tests of the ports only print a message. *)
Definition i8042_finish (configByte : Z) (dualChannel : bool) w : W :=
  let '(_, w) := i8042_ask i8042_COMMAND_TEST_PORT1 w in
  let w := if dualChannel then snd (i8042_ask i8042_COMMAND_TEST_PORT2 w) else w in
  let w := i8042_write i8042_COMMAND i8042_COMMAND_ENABLE_PORT1 w in
  let w := if dualChannel then i8042_write i8042_COMMAND i8042_COMMAND_ENABLE_PORT2 w else w in
  let configByte := Z.lor configByte (Z.lor i8042_CONFIG_PORT1_IEN i8042_CONFIG_TRANSLATION) in
  let configByte := if dualChannel then Z.lor configByte i8042_CONFIG_PORT2_IEN else configByte in
  set_config configByte w.

(** Scan code set 2 for the keyboard. *)
Definition select_scancodes w : W :=
  let w := i8042_write i8042_DATA 0xF0 w in
  let '(_, w) := i8042_read i8042_DATA w in
  let w := i8042_write i8042_DATA 2 w in
  snd (i8042_read i8042_DATA w).

(** [keyboard_handler] with its reads: the scan code is read only when there is one. *)
Definition keyboard_irq (w : W) (s : input_state) : outcome (W * input_state) :=
  let '(status, w) := i8042_read i8042_COMMAND w in
  if Z.land status i8042_STATUS_READRDY =? 0 then Ret (w, s)
  else
    let '(scancode, w) := i8042_read i8042_DATA w in
    s ← keyboard_handler status scancode s; Ret (w, s).

Context {H : Type} `{KH : KernelHeap H}.
(** The address of [keyboard_handler]. *)
Variable handler : Z.
Implicit Types (s : irq_state H W).

Definition i8042_kb_init s : outcome (irq_state H W) :=
  '(_, s) ← irq_add_handler 1 handler IRQ_SHARED (set_world (select_scancodes (i_world s)) s);
  Ret (set_world (snd (arch_inb i8042_DATA (i_world s))) s).

Definition i8042_kb_fini (fuel : nat) s : outcome (irq_state H W) := irq_remove_handler fuel 1 handler s.

Definition probe (type bus : Z) : bool := (type =? DEVICE_TYPE_INPUT_CONTROLLER) && (bus =? DEVICE_BUS_NONE).

Definition attach (type bus : Z) s : outcome (bool * irq_state H W) :=
  if negb (probe type bus) then Ret (false, s)
  else
    let '(configByte, dualChannel, res, w) := i8042_begin (i_world s) in
    let s := set_world w s in
    if negb (res =? 0x55) then Ret (false, s)
    else
      s ← i8042_kb_init (set_world (i8042_finish configByte dualChannel (i_world s)) s);
      Ret (true, s).

Definition fini (fuel : nat) s : outcome (irq_state H W) := i8042_kb_fini fuel s.
Definition remove (fuel : nat) s : outcome (bool * irq_state H W) := s ← i8042_kb_fini fuel s; Ret (true, s).
End Driver.

(** ** The controller *)

(** Its configuration byte, the byte that waits to be read, whether the next data byte is
    a configuration, whether there is a second port; and the keyboard: its scan code set,
    and whether the next byte it gets selects one. *)
Record kbc : Type := mk_kbc { cfg : Z; outbuf : option Z; want : bool; second : bool; scanset : Z; kwant : bool }.

Definition answer (b : Z) (k : kbc) : kbc := mk_kbc (cfg k) (Some b) (want k) (second k) (scanset k) (kwant k).
Definition with_cfg (c : Z) (k : kbc) : kbc := mk_kbc c (outbuf k) (want k) (second k) (scanset k) (kwant k).
Definition taken (k : kbc) : kbc := mk_kbc (cfg k) None (want k) (second k) (scanset k) (kwant k).

(** A byte for the command port. *)
Definition on_command (c : Z) (k : kbc) : kbc :=
  if c =? i8042_COMMAND_GET_CONFIG then answer (cfg k) k
  else if c =? i8042_COMMAND_SET_CONFIG then mk_kbc (cfg k) (outbuf k) true (second k) (scanset k) (kwant k)
  else if c =? i8042_COMMAND_SELFTEST then answer 0x55 k
  else if c =? i8042_COMMAND_TEST_PORT1 then answer 0 k
  else if c =? i8042_COMMAND_DISABLE_PORT1 then with_cfg (Z.lor (cfg k) i8042_CONFIG_PORT1_CLK) k
  else if c =? i8042_COMMAND_ENABLE_PORT1 then with_cfg (Z.land (cfg k) (Z.lnot i8042_CONFIG_PORT1_CLK)) k
  else if negb (second k) then k
  else if c =? i8042_COMMAND_TEST_PORT2 then answer 0 k
  else if c =? i8042_COMMAND_DISABLE_PORT2 then with_cfg (Z.lor (cfg k) i8042_CONFIG_PORT2_CLK) k
  else if c =? i8042_COMMAND_ENABLE_PORT2 then with_cfg (Z.land (cfg k) (Z.lnot i8042_CONFIG_PORT2_CLK)) k
  else k.

(** A byte for the data port: a configuration, or for the keyboard, which acknowledges it;
    sending to the keyboard switches its clock on. *)
Definition on_data (b : Z) (k : kbc) : kbc :=
  if want k then mk_kbc b (outbuf k) false (second k) (scanset k) (kwant k)
  else
    let c := Z.land (cfg k) (Z.lnot i8042_CONFIG_PORT1_CLK) in
    if kwant k then mk_kbc c (Some 0xFA) false (second k) b false
    else mk_kbc c (Some 0xFA) false (second k) (scanset k) (b =? 0xF0).

(** What a machine with such a controller promises: its status says whether a byte waits,
    and it is ready for the next byte. *)
Class Controller (W : Type) `{IO : PortIO W} := {
  kbc_of : W -> kbc;
  kbc_status : forall w, kbc_of (snd (arch_inb i8042_COMMAND w)) = kbc_of w /\
    Z.land (fst (arch_inb i8042_COMMAND w)) i8042_STATUS_WRITERDY = 0 /\
    Z.land (fst (arch_inb i8042_COMMAND w)) i8042_STATUS_READRDY = match outbuf (kbc_of w) with Some _ => 1 | None => 0 end;
  kbc_read : forall w, kbc_of (snd (arch_inb i8042_DATA w)) = taken (kbc_of w) /\
    (forall b, outbuf (kbc_of w) = Some b -> fst (arch_inb i8042_DATA w) = b);
  kbc_command : forall c w, kbc_of (arch_outb i8042_COMMAND c w) = on_command c (kbc_of w);
  kbc_data : forall b w, kbc_of (arch_outb i8042_DATA b w) = on_data b (kbc_of w)
}.

(** The controller alone is such a machine. *)
#[global] Instance kbc_ports : PortIO kbc := {
  arch_inb p k :=
    if p =? i8042_COMMAND then (match outbuf k with Some _ => 1 | None => 0 end, k)
    else if p =? i8042_DATA then (default 0 (outbuf k), taken k)
    else (0xFF, k);
  arch_outb p v k := if p =? i8042_COMMAND then on_command v k else if p =? i8042_DATA then on_data v k else k;
  arch_inw p k := (0xFFFF, k);
  arch_outw p v k := k
}.

#[global] Instance kbc_controller : Controller kbc.
Proof.
  refine {| kbc_of := fun k => k |}; intros; cbn; try reflexivity.
  - destruct (outbuf w); auto.
  - split; [reflexivity|]. now intros b ->.
Defined.

(** ** The conversation *)

Section Talk.
Context {W : Type} `{IO : PortIO W} `{CT : !Controller W}.
Variable ksleep : Z -> W -> W.
Implicit Types (w : W).

Lemma i8042_write_spec port data w :
  exists w1, kbc_of w1 = kbc_of w /\ i8042_write ksleep port data w = arch_outb port data w1.
Proof.
  unfold i8042_write. cbn [poll]. pose proof (kbc_status w) as (E1 & E2 & _).
  destruct (arch_inb i8042_COMMAND w) as [st w1]. cbn [fst snd] in *. rewrite E2. exists w1. auto.
Qed.

Lemma write_command c w : kbc_of (i8042_write ksleep i8042_COMMAND c w) = on_command c (kbc_of w).
Proof. destruct (i8042_write_spec i8042_COMMAND c w) as (w1 & <- & ->). apply kbc_command. Qed.

Lemma write_data b w : kbc_of (i8042_write ksleep i8042_DATA b w) = on_data b (kbc_of w).
Proof. destruct (i8042_write_spec i8042_DATA b w) as (w1 & <- & ->). apply kbc_data. Qed.

Lemma read_spec port w b : outbuf (kbc_of w) = Some b ->
  exists w1, kbc_of w1 = kbc_of w /\ i8042_read ksleep port w = arch_inb port w1.
Proof.
  intros Eb. unfold i8042_read. cbn [poll]. pose proof (kbc_status w) as (E1 & _ & E2).
  destruct (arch_inb i8042_COMMAND w) as [st w1]. cbn [fst snd] in *. rewrite E2, Eb. exists w1. auto.
Qed.

Lemma read_data w b : outbuf (kbc_of w) = Some b ->
  fst (i8042_read ksleep i8042_DATA w) = b /\ kbc_of (snd (i8042_read ksleep i8042_DATA w)) = taken (kbc_of w).
Proof.
  intros Eb. destruct (read_spec i8042_DATA w b Eb) as (w1 & E1 & ->). destruct (kbc_read w1) as [E2 E3].
  rewrite E2, E1. split; [|reflexivity]. apply E3. now rewrite E1.
Qed.

(** A command the controller answers with [b]. *)
Lemma ask_spec c b w : outbuf (on_command c (kbc_of w)) = Some b ->
  fst (i8042_ask ksleep c w) = b /\ kbc_of (snd (i8042_ask ksleep c w)) = taken (on_command c (kbc_of w)).
Proof. intros E. unfold i8042_ask. rewrite <- write_command in *. now apply read_data. Qed.

Lemma set_config_spec c w : kbc_of (set_config ksleep c w) = on_data c (on_command i8042_COMMAND_SET_CONFIG (kbc_of w)).
Proof. unfold set_config. now rewrite write_data, write_command. Qed.
End Talk.

(** ** Attaching *)

(** The controller as the driver may find it: any configuration, no half-given command;
    without a second port the bit of its clock is clear. *)
Record at_rest (k : kbc) : Prop := {
  ar_cfg : 0 <= cfg k < 256;
  ar_want : want k = false;
  ar_kwant : kwant k = false;
  ar_single : second k = false -> Z.land (cfg k) i8042_CONFIG_PORT2_CLK = 0
}.

(** The configuration while the controller is set up. *)
Definition quiet_cfg (k : kbc) : Z :=
  let c := Z.lor (cfg k) i8042_CONFIG_PORT1_CLK in
  Z.land (if second k then Z.lor c i8042_CONFIG_PORT2_CLK else c)
    (Z.lnot (Z.lor (Z.lor i8042_CONFIG_PORT1_IEN i8042_CONFIG_PORT2_IEN) i8042_CONFIG_TRANSLATION)).

(** The configuration that is written at the end. *)
Definition final_cfg (k : kbc) : Z :=
  let c := Z.lor (quiet_cfg k) (Z.lor i8042_CONFIG_PORT1_IEN i8042_CONFIG_TRANSLATION) in
  if second k then Z.lor c i8042_CONFIG_PORT2_IEN else c.

Lemma dual_bit k : at_rest k ->
  negb (Z.land (if second k then Z.lor (Z.lor (cfg k) i8042_CONFIG_PORT1_CLK) i8042_CONFIG_PORT2_CLK
                else Z.lor (cfg k) i8042_CONFIG_PORT1_CLK) i8042_CONFIG_PORT2_CLK =? 0) = second k.
Proof.
  intros [Hc _ _ Hs]. destruct (second k).
  - apply (all_bytes (fun c => negb (Z.land (Z.lor (Z.lor c i8042_CONFIG_PORT1_CLK) i8042_CONFIG_PORT2_CLK) i8042_CONFIG_PORT2_CLK =? 0))); [vm_compute; reflexivity|exact Hc].
  - rewrite Z.land_lor_distr_l, (Hs eq_refl). reflexivity.
Qed.

Section Attach.
Context {W : Type} `{IO : PortIO W} `{CT : !Controller W}.
Variable ksleep : Z -> W -> W.
Implicit Types (w : W).

Lemma begin_spec w : at_rest (kbc_of w) -> exists w',
  i8042_begin ksleep w = (quiet_cfg (kbc_of w), second (kbc_of w), 0x55, w') /\
  kbc_of w' = mk_kbc (quiet_cfg (kbc_of w)) None false (second (kbc_of w)) (scanset (kbc_of w)) false.
Proof.
  intros Hr. pose proof (dual_bit _ Hr) as Hdual. destruct Hr as [_ Hw Hk _]. unfold i8042_begin, quiet_cfg.
  destruct (kbc_read w) as [E0 _]. destruct (arch_inb i8042_DATA w) as [d0 w0]. cbn [snd] in E0.
  set (w1 := i8042_write ksleep i8042_COMMAND i8042_COMMAND_DISABLE_PORT2 _).
  assert (kbc_of w1 = on_command i8042_COMMAND_DISABLE_PORT2 (on_command i8042_COMMAND_DISABLE_PORT1 (taken (kbc_of w)))) as E1
    by (unfold w1; now rewrite !write_command, E0).
  destruct (kbc_read w1) as [E2 _]. destruct (arch_inb i8042_DATA w1) as [d2 w2]. cbn [snd] in E2.
  destruct (ask_spec ksleep i8042_COMMAND_GET_CONFIG (cfg (kbc_of w2)) w2 eq_refl) as [A1 A2].
  destruct (i8042_ask ksleep i8042_COMMAND_GET_CONFIG w2) as [c w3]. cbn [fst snd] in A1, A2. subst c.
  rewrite E2, E1 in *. set (c := cfg (taken _)) in *.
  assert (c = if second (kbc_of w) then Z.lor (Z.lor (cfg (kbc_of w)) i8042_CONFIG_PORT1_CLK) i8042_CONFIG_PORT2_CLK
              else Z.lor (cfg (kbc_of w)) i8042_CONFIG_PORT1_CLK) as Ec.
  { unfold c, on_command. cbn. now destruct (second (kbc_of w)). }
  rewrite <- Ec in Hdual. rewrite Hdual, <- Ec. set (q := Z.land c _).
  pose proof (set_config_spec ksleep q w3) as A3. set (w4 := set_config ksleep q w3) in *.
  destruct (ask_spec ksleep i8042_COMMAND_SELFTEST 0x55 w4 eq_refl) as [A4 A5].
  destruct (i8042_ask ksleep i8042_COMMAND_SELFTEST w4) as [r w5]. cbn [fst snd] in A4, A5. subst r.
  exists w5. split; [reflexivity|]. rewrite A5, A3, A2. clearbody q. clear - Hk.
  destruct (kbc_of w) as [c0 o wa sc n kw]. cbn [kwant] in Hk. subst kw. destruct sc; vm_compute; reflexivity.
Qed.

Lemma i8042_finish_spec q d n w : kbc_of w = mk_kbc q None false d n false ->
  let c := Z.lor q (Z.lor i8042_CONFIG_PORT1_IEN i8042_CONFIG_TRANSLATION) in
  kbc_of (i8042_finish ksleep q d w) = mk_kbc (if d then Z.lor c i8042_CONFIG_PORT2_IEN else c) None false d n false.
Proof.
  intros E c. unfold i8042_finish.
  destruct (ask_spec ksleep i8042_COMMAND_TEST_PORT1 0 w eq_refl) as [_ A1].
  destruct (i8042_ask ksleep i8042_COMMAND_TEST_PORT1 w) as [r w1]. cbn [snd] in A1. rewrite E in A1.
  destruct d.
  - destruct (ask_spec ksleep i8042_COMMAND_TEST_PORT2 0 w1) as [_ A2]; [now rewrite A1|].
    rewrite set_config_spec, !write_command, A2, A1. vm_compute. reflexivity.
  - rewrite set_config_spec, !write_command, A1. vm_compute. reflexivity.
Qed.

Lemma scancodes_spec c d n w : kbc_of w = mk_kbc c None false d n false ->
  kbc_of (select_scancodes ksleep w) = mk_kbc (Z.land (Z.land c (Z.lnot i8042_CONFIG_PORT1_CLK)) (Z.lnot i8042_CONFIG_PORT1_CLK)) None false d 2 false.
Proof.
  intros E. unfold select_scancodes. set (w1 := i8042_write ksleep i8042_DATA 0xF0 w).
  assert (kbc_of w1 = on_data 0xF0 (kbc_of w)) as E1 by apply write_data. rewrite E in E1. cbn in E1.
  destruct (read_data ksleep w1 0xFA) as [_ A1]; [now rewrite E1|].
  destruct (i8042_read ksleep i8042_DATA w1) as [b w2]. cbn [snd] in A1.
  set (w3 := i8042_write ksleep i8042_DATA 2 w2).
  assert (kbc_of w3 = on_data 2 (kbc_of w2)) as E3 by apply write_data. rewrite A1, E1 in E3. cbn in E3.
  destruct (read_data ksleep w3 0xFA) as [_ A2]; [now rewrite E3|]. rewrite A2, E3. reflexivity.
Qed.
End Attach.

(** The bits of the configuration after the keyboard has been addressed. *)
Definition bits_ok (c0 : Z) (d : bool) (c : Z) : bool :=
  Z.testbit c 0 && Z.testbit c 6 && negb (Z.testbit c 4) && Bool.eqb (Z.testbit c 1) d &&
  (negb d || Z.testbit c 5) && Bool.eqb (Z.testbit c 2) (Z.testbit c0 2) && Bool.eqb (Z.testbit c 3) (Z.testbit c0 3) &&
  Bool.eqb (Z.testbit c 7) (Z.testbit c0 7).

Lemma final_bits k : at_rest k ->
  bits_ok (cfg k) (second k)
    (Z.land (Z.land (final_cfg k) (Z.lnot i8042_CONFIG_PORT1_CLK)) (Z.lnot i8042_CONFIG_PORT1_CLK)) = true.
Proof.
  intros [Hc _ _ _]. destruct k as [c o wa d n kw]. cbn [cfg second] in *. destruct d.
  - apply (all_bytes (fun c => bits_ok c true (Z.land (Z.land (final_cfg (mk_kbc c o wa true n kw)) _) _))); [vm_compute; reflexivity|exact Hc].
  - apply (all_bytes (fun c => bits_ok c false (Z.land (Z.land (final_cfg (mk_kbc c o wa false n kw)) _) _))); [vm_compute; reflexivity|exact Hc].
Qed.

(** Attaching a working keyboard controller, in whatever configuration it is found,
    returns true: the keyboard sends scan code set 2 and the controller translates it, the
    interrupt and the clock of the first port are on, the interrupt of the second port is on
    exactly when there is one, the remaining bits of the configuration are as they were, no
    byte waits in the controller, and the handler of the keyboard is the last one of
    interrupt 1, behind those registered before.  The clock of a second port stays off. *)
Theorem i8042_attach_correct {W H : Type} `{IO : PortIO W} `{CT : !Controller W} `{KH : KernelHeap H} `{KHL : !KernelHeapLaws H}
    ksleep handler (s : irq_state H W) cells R :
  at_rest (kbc_of (i_world s)) -> handlers_of s 1 cells R -> Z.of_nat (length cells) < 2 ^ 64 - 1 ->
  refused s 1 IRQ_SHARED cells = false ->
  Safe (attach ksleep handler DEVICE_TYPE_INPUT_CONTROLLER DEVICE_BUS_NONE s) (fun '(ok, s') => ok = true /\
    let k0 := kbc_of (i_world s) in let k := kbc_of (i_world s') in
    scanset k = 2 /\ bits_ok (cfg k0) (second k0) (cfg k) = true /\
    outbuf k = None /\ want k = false /\ second k = second k0 /\
    exists c R', irq_handlers s' (c_value c) = handler /\ registered s' 1 (cells ++ [c]) R' /\
      forall d, d ∈ cells -> irq_handlers s' (c_value d) = irq_handlers s (c_value d)).
Proof.
  intros Hr Hh Hlen Hf. destruct (begin_spec ksleep (i_world s) Hr) as (w & Eb & Ew).
  pose proof (final_bits _ Hr) as HB. unfold attach, i8042_kb_init. rewrite Eb.
  cbn [negb probe Z.eqb Pos.eqb andb i_world set_world DEVICE_TYPE_INPUT_CONTROLLER DEVICE_BUS_NONE].
  set (w2 := select_scancodes ksleep _).
  assert (kbc_of w2 = mk_kbc (Z.land (Z.land (final_cfg (kbc_of (i_world s))) (Z.lnot i8042_CONFIG_PORT1_CLK)) (Z.lnot i8042_CONFIG_PORT1_CLK))
                        None false (second (kbc_of (i_world s))) 2 false) as E2.
  { unfold w2. eapply scancodes_spec. rewrite (i8042_finish_spec ksleep _ _ _ w Ew). reflexivity. }
  eapply Safe_bind; [|intros s' Hs'; exact Hs'].
  eapply Safe_bind; [apply (irq_add_handler_spec 1 handler IRQ_SHARED (set_world w2 s) cells R)|].
  - exact Hh.
  - exact Hlen.
  - intros [r s'] [(E3 & _ & E4) HR]. change (refused (set_world w2 s) 1 IRQ_SHARED cells) with (refused s 1 IRQ_SHARED cells) in HR.
    rewrite Hf in HR. destruct HR as (_ & _ & c & R' & Ec & HR). cbn [i_world set_world] in E3 |- *.
    destruct (kbc_read (i_world s')) as [E5 _]. cbn [Safe i_world set_world]. rewrite E5, E3, E2.
    splits; auto. exists c, R'. splits; auto.
Qed.

(** ** A bus without a controller *)

Section Absent.
Context {W A : Type} `{IO : PortIO W}.
Variables (ksleep : Z -> W -> W) (f : W -> A).
Hypothesis Hff : forall p w, fst (arch_inb p w) = 0xFF.
Hypothesis Hin : forall p w, f (snd (arch_inb p w)) = f w.
Hypothesis Hsl : forall ms w, f (ksleep ms w) = f w.
Implicit Types (w : W).

Lemma poll_absent n ms w : exists w', poll ksleep n ms (fun st => Z.land st i8042_STATUS_WRITERDY =? 0) w = (false, w') /\ f w' = f w.
Proof.
  revert w. induction n as [|n IH]; intros w; cbn [poll]; [now exists w|].
  pose proof (Hff i8042_COMMAND w) as E. pose proof (Hin i8042_COMMAND w) as E'. destruct (arch_inb i8042_COMMAND w) as [st w1].
  cbn [fst snd] in *. subst st. destruct (IH (ksleep ms w1)) as (w' & E1 & E2). exists w'. split; [exact E1|]. now rewrite E2, Hsl.
Qed.

Lemma write_absent port data w : f (i8042_write ksleep port data w) = f w.
Proof. unfold i8042_write. destruct (poll_absent 5 1 w) as (w' & -> & E). exact E. Qed.

Lemma read_absent port w : fst (i8042_read ksleep port w) = 0xFF /\ f (snd (i8042_read ksleep port w)) = f w.
Proof.
  unfold i8042_read. cbn [poll]. pose proof (Hff i8042_COMMAND w) as E. pose proof (Hin i8042_COMMAND w) as E'.
  destruct (arch_inb i8042_COMMAND w) as [st w1]. cbn [fst snd] in *. subst st. split; [apply Hff|]. rewrite <- E'. apply Hin.
Qed.

Lemma begin_absent w : exists c d w', i8042_begin ksleep w = (c, d, 0xFF, w') /\ f w' = f w.
Proof.
  unfold i8042_begin, i8042_ask, set_config. pose proof (Hin i8042_DATA w) as E0. destruct (arch_inb i8042_DATA w) as [x0 w0].
  set (w1 := i8042_write ksleep i8042_COMMAND i8042_COMMAND_DISABLE_PORT2 _).
  assert (f w1 = f w0) as E1 by (unfold w1; now rewrite !write_absent).
  pose proof (Hin i8042_DATA w1) as E2. destruct (arch_inb i8042_DATA w1) as [x2 w2].
  set (w3 := i8042_write ksleep i8042_COMMAND i8042_COMMAND_GET_CONFIG w2).
  destruct (read_absent i8042_DATA w3) as [_ E4]. destruct (i8042_read ksleep i8042_DATA w3) as [c w4].
  set (w5 := i8042_write ksleep i8042_COMMAND i8042_COMMAND_SELFTEST _).
  destruct (read_absent i8042_DATA w5) as [E6 E7]. destruct (i8042_read ksleep i8042_DATA w5) as [r w6]. cbn [fst snd] in *. subst r.
  do 3 eexists. split; [reflexivity|]. rewrite E7. unfold w5. rewrite !write_absent, E4. unfold w3. now rewrite write_absent, E2, E1.
Qed.
End Absent.

(** C29: Where no controller answers (every port reads as 0xFF), attaching ends and returns
    false, no handler is registered, and no port is written: whatever reading and sleeping
    keep ([f], for instance the record of writes) is kept. *)
Theorem i8042_attach_absent {W H A : Type} `{IO : PortIO W} `{KH : KernelHeap H} ksleep (f : W -> A) handler type bus (s : irq_state H W) :
  (forall p w, fst (arch_inb p w) = 0xFF) -> (forall p w, f (snd (arch_inb p w)) = f w) -> (forall ms w, f (ksleep ms w) = f w) ->
  exists w, attach ksleep handler type bus s = Ret (false, set_world w s) /\ f w = f (i_world s).
Proof.
  intros H1 H2 H3. unfold attach. destruct (negb (probe type bus)).
  - exists (i_world s). split; [now destruct s|reflexivity].
  - destruct (begin_absent ksleep f H1 H2 H3 (i_world s)) as (c & d & w & -> & E). exists w. auto.
Qed.

(** An interrupt of the keyboard takes the byte that waits out of the controller and
    passes it on as a scan code; with nothing to read it ends after a few polls. *)
Theorem keyboard_irq_takes {W : Type} `{IO : PortIO W} `{CT : !Controller W} ksleep (w : W) (s : input_state) :
  (forall ms w, kbc_of (ksleep ms w) = kbc_of w) ->
  exists w', kbc_of w' = taken (kbc_of w) /\
    keyboard_irq ksleep w s =
      match outbuf (kbc_of w) with
      | Some scancode => s ← keyboard_handler i8042_STATUS_READRDY scancode s; Ret (w', s)
      | None => Ret (w', s)
      end.
Proof.
  intros Hsl. unfold keyboard_irq. destruct (outbuf (kbc_of w)) as [b|] eqn:Eb.
  - destruct (read_spec ksleep i8042_COMMAND w b Eb) as (w1 & E1 & ->). destruct (kbc_status w1) as (E2 & _ & E3).
    destruct (arch_inb i8042_COMMAND w1) as [st w2]. cbn [fst snd] in E2, E3. rewrite E1, Eb in E3. rewrite E3.
    destruct (read_data ksleep w2 b) as [E4 E5]; [now rewrite E2, E1|].
    destruct (i8042_read ksleep i8042_DATA w2) as [d w3]. cbn [fst snd] in E4, E5. subst d. exists w3. rewrite E5, E2, E1.
    split; [reflexivity|]. cbn [Z.eqb]. unfold keyboard_handler. now rewrite E3.
  - assert (forall n w0, kbc_of w0 = kbc_of w -> exists w', kbc_of w' = kbc_of w /\
        poll ksleep n 10 (fun st => negb (Z.land st i8042_STATUS_READRDY =? 0)) w0 = (false, w')) as HP.
    { induction n as [|n IH]; intros w0 E0; cbn [poll]; [now exists w0|]. destruct (kbc_status w0) as (E2 & _ & E3).
      destruct (arch_inb i8042_COMMAND w0) as [st w2]. cbn [fst snd] in E2, E3. rewrite E0, Eb in E3. rewrite E3. apply IH. now rewrite Hsl, E2. }
    destruct (HP 5%nat w eq_refl) as (w' & E1 & E2). exists w'. unfold i8042_read. rewrite E2. split; [|reflexivity].
    rewrite E1. unfold taken. destruct (kbc_of w). cbn in *. now subst.
Qed.

(** ** Examples *)

#[local] Instance demo_heap : KernelHeap (kheap_state pmm_state) := kheap_heap HHDM.
#[local] Instance demo_heap_laws : KernelHeapLaws (kheap_state pmm_state) := kheap_heap_laws HHDM.

Definition kbc_demo : irq_state (kheap_state pmm_state) kbc :=
  mk_irq (fun _ => None) (fun _ => 0) (fun _ => 0) (heap list_demo) (mk_kbc 0x47 (Some 0x1C) false true 1 false) 0.

Lemma i8042_attach_correct_witness :
  Safe (attach (fun _ k => k) 77 DEVICE_TYPE_INPUT_CONTROLLER DEVICE_BUS_NONE kbc_demo) (fun '(ok, s') => ok = true /\
    scanset (i_world s') = 2 /\ exists c R', irq_handlers s' (c_value c) = 77 /\ registered s' 1 [c] R').
Proof.
  eapply Safe_mono; [apply (i8042_attach_correct (fun _ k => k) 77 kbc_demo [] [])|].
  - split; cbn; first [reflexivity | discriminate | lia].
  - split; [|constructor]. cbn [irqHandlerLists kbc_demo]. split; [reflexivity|].
    destruct list_demo_rep as (_ & cells & (_ & _ & _ & _ & _ & _ & Hok & Hl) & E). destruct cells; [|discriminate]. auto.
  - cbn. lia.
  - reflexivity.
  - intros [ok s'] (-> & E1 & _ & _ & _ & _ & c & R' & E2 & HR & _). splits; auto. now exists c, R'.
Defined.

(** Nothing but reading 0xFF; the state is the list of writes. *)
#[local] Instance no_device : PortIO (list (Z * Z)) := {
  arch_inb _ t := (0xFF, t);
  arch_outb p v t := t ++ [(p, v)];
  arch_inw _ t := (0xFFFF, t);
  arch_outw p v t := t ++ [(p, v)]
}.

Lemma i8042_attach_absent_witness :
  exists w, attach (W := list (Z * Z)) (fun _ t => t) 77 DEVICE_TYPE_INPUT_CONTROLLER DEVICE_BUS_NONE
      (mk_irq (fun _ => None) (fun _ => 0) (fun _ => 0) (heap list_demo) [] 0) =
    Ret (false, mk_irq (fun _ => None) (fun _ => 0) (fun _ => 0) (heap list_demo) w 0) /\ w = [].
Proof.
  apply (i8042_attach_absent (fun _ t => t) (fun t : list (Z * Z) => t) 77 DEVICE_TYPE_INPUT_CONTROLLER DEVICE_BUS_NONE
           (mk_irq (fun _ => None) (fun _ => 0) (fun _ => 0) (heap list_demo) [] 0)); reflexivity.
Defined.
