(* ===== verification/Pit.v ===== *)
(** * The interval timer ([modules/pit/pit.c])

    Programming channel 0 of the timer and registering the handler of its interrupt; the
    tick itself ([timer_tick]) is in Irq.  What the chip does with the bytes it is given is
    a class of laws, with an executable instance. *)

From S2P Require Import Prelude DeviceIds Interfaces MemMap Pmm MemUtil Kheap ListDs Sched Ports Irq.
#[local] Open Scope Z_scope.

Definition PIT_CHANNEL_0 : Z := 0x40.
Definition PIT_MODE_OR_COMMAND : Z := 0x43.
Definition PIT_BASE_FREQUENCY : Z := 1193182.

Section Driver.
Context {W : Type} `{IO : PortIO W}.
Implicit Types (w : W).

Definition arch_io_wait w : W := arch_outb 0x80 0 w.

(** [div] is a 16-bit number. *)
Definition pit_set_divisor (div : Z) w : W :=
  let w := arch_outb PIT_CHANNEL_0 (Z.land div 0xff) w in
  let w := arch_io_wait w in
  let w := arch_outb PIT_CHANNEL_0 (Z.land (Z.shiftr div 8) 0xff) w in
  arch_io_wait w.

(** Both divisions trap on zero; the second computes the frequency for the log. *)
Definition pit_set_frequency (freq : Z) w : outcome W :=
  if freq =? 0 then Fault
  else
    let div := PIT_BASE_FREQUENCY / freq in
    let w := pit_set_divisor (u16 div) w in
    if div =? 0 then Fault else Ret w.

Context {H : Type} `{KH : KernelHeap H}.
(** The address of [pit_handler]. *)
Variable handler : Z.
Implicit Types (s : irq_state H W).

Definition probe (type bus : Z) : bool := (type =? DEVICE_TYPE_SYSTEM_DEVICE) && (bus =? DEVICE_BUS_NONE).

Definition attach (type bus : Z) s : outcome (bool * irq_state H W) :=
  if negb (probe type bus) then Ret (false, s)
  else
    w ← pit_set_frequency 1000 (arch_outb PIT_MODE_OR_COMMAND 52 (i_world s));
    '(_, s) ← irq_add_handler 0 handler 0 (set_world w s);
    Ret (true, s).

Definition fini (fuel : nat) s : outcome (irq_state H W) := irq_remove_handler fuel 0 handler s.
Definition remove (fuel : nat) s : outcome (bool * irq_state H W) := s ← irq_remove_handler fuel 0 handler s; Ret (true, s).
End Driver.

(** ** The chip *)

(** Channel 0: its mode, whether it is given both bytes of the count, the low byte when the
    high one is still to come, and the count (0 stands for 65536). *)
Record channel0 : Type := mk_ch0 { c_mode : Z; c_lohi : bool; c_low : option Z; c_reload : Z }.

(** A control word for channel 0 with binary counting. *)
Definition on_control (v : Z) (c : channel0) : channel0 :=
  if negb (Z.shiftr v 6 =? 0) then c
  else mk_ch0 (Z.land (Z.shiftr v 1) 7) (Z.land (Z.shiftr v 4) 3 =? 3) None (c_reload c).

Definition on_count (v : Z) (c : channel0) : channel0 :=
  if negb (c_lohi c) then c
  else
    match c_low c with
    | None => mk_ch0 (c_mode c) (c_lohi c) (Some v) (c_reload c)
    | Some low => mk_ch0 (c_mode c) (c_lohi c) None (low + 256 * v)
    end.

Class Timer (W : Type) `{IO : PortIO W} := {
  ch0 : W -> channel0;
  ch0_control : forall v w, ch0 (arch_outb PIT_MODE_OR_COMMAND v w) = on_control v (ch0 w);
  ch0_count : forall v w, ch0 (arch_outb PIT_CHANNEL_0 v w) = on_count v (ch0 w);
  ch0_other : forall v w, ch0 (arch_outb 0x80 v w) = ch0 w
}.

#[global] Instance ch0_ports : PortIO channel0 := {
  arch_inb _ c := (0xFF, c);
  arch_outb p v c := if p =? PIT_MODE_OR_COMMAND then on_control v c else if p =? PIT_CHANNEL_0 then on_count v c else c;
  arch_inw _ c := (0xFFFF, c);
  arch_outw _ _ c := c
}.

#[global] Instance ch0_timer : Timer channel0.
Proof. now refine {| ch0 := fun c => c |}. Defined.

(** Base clock cycles from one interrupt to the next, for a count the mode of the channel
    allows: in mode 2 a count of 1, which only a frequency above half of the base clock gives,
    is not one of them, and what the chip then does is not modelled. *)
Definition period (c : channel0) : Z := if c_reload c =? 0 then 65536 else c_reload c.

(** ** The rate *)

Section Rate.
Context {W : Type} `{IO : PortIO W} `{TM : !Timer W}.
Implicit Types (w : W).

(** The divisor arrives byte by byte. *)
Lemma set_divisor_spec div w : 0 <= div < 2 ^ 16 -> c_lohi (ch0 w) = true -> c_low (ch0 w) = None ->
  ch0 (pit_set_divisor div w) = mk_ch0 (c_mode (ch0 w)) true None div.
Proof.
  intros Hd Hh Hl. unfold pit_set_divisor, arch_io_wait. rewrite ch0_other, ch0_count, ch0_other, ch0_count.
  unfold on_count. rewrite Hh, Hl. cbn. f_equal. change 255 with (Z.ones 8). rewrite !Z.land_ones, Z.shiftr_div_pow2 by lia.
  pow2_consts. dm.
Qed.

(** The divisor for a frequency that the 16 bits can reach. *)
Lemma divisor_bounds freq : 19 <= freq <= PIT_BASE_FREQUENCY ->
  let div := PIT_BASE_FREQUENCY / freq in 0 < div < 2 ^ 16 /\ 0 <= PIT_BASE_FREQUENCY - freq * div < freq.
Proof.
  intros Hf div. unfold PIT_BASE_FREQUENCY in *. pose proof (Z.div_mod 1193182 freq ltac:(lia)) as E. fold div in E.
  pose proof (Z.mod_pos_bound 1193182 freq ltac:(lia)). pow2_consts. nia.
Qed.

Lemma set_frequency_spec freq w : 19 <= freq <= PIT_BASE_FREQUENCY -> c_lohi (ch0 w) = true -> c_low (ch0 w) = None ->
  Returns (pit_set_frequency freq w) (fun w' => ch0 w' = mk_ch0 (c_mode (ch0 w)) true None (PIT_BASE_FREQUENCY / freq)).
Proof.
  intros Hf Hh Hl. destruct (divisor_bounds freq Hf) as [Hd _]. unfold pit_set_frequency.
  rewrite (proj2 (Z.eqb_neq freq 0)), (proj2 (Z.eqb_neq (PIT_BASE_FREQUENCY / freq) 0)) by lia. apply Returns_ret.
  rewrite wrap_small by lia. apply set_divisor_spec; auto. lia.
Qed.
End Rate.

(** C30: Setting a frequency between 19 Hz and the base clock gives the timer a period that
    is exact to one cycle of the base clock: the interrupts come at the rate asked for or
    faster, and a period longer by one cycle would make them slower. *)
Theorem pit_rate_bounds {W : Type} `{IO : PortIO W} `{TM : !Timer W} freq (w : W) :
  19 <= freq <= PIT_BASE_FREQUENCY -> c_lohi (ch0 w) = true -> c_low (ch0 w) = None ->
  Returns (pit_set_frequency freq w) (fun w' =>
    freq * period (ch0 w') <= PIT_BASE_FREQUENCY < freq * (period (ch0 w') + 1)).
Proof.
  intros Hf Hh Hl. destruct (divisor_bounds freq Hf) as [Hd Hb].
  eapply Returns_mono; [now apply set_frequency_spec|]. intros w' ->. unfold period. cbn [c_reload].
  rewrite (proj2 (Z.eqb_neq (PIT_BASE_FREQUENCY / freq) 0)) by lia. lia.
Qed.

Lemma pit_rate_bounds_witness :
  Returns (pit_set_frequency 50 (mk_ch0 2 true None 0)) (fun w' =>
    50 * period (ch0 w') <= PIT_BASE_FREQUENCY < 50 * (period (ch0 w') + 1)).
Proof. apply (pit_rate_bounds 50 (mk_ch0 2 true None 0)); [unfold PIT_BASE_FREQUENCY; lia|reflexivity|reflexivity]. Defined.

(** Below 19 Hz the divisor is cut to 16 bits, and above the base clock it is zero. *)
Theorem pit_frequency_range {W : Type} `{IO : PortIO W} `{TM : !Timer W} (w : W) :
  c_lohi (ch0 w) = true -> c_low (ch0 w) = None ->
  Returns (pit_set_frequency 18 w) (fun w' => period (ch0 w') = 751) /\ pit_set_frequency (PIT_BASE_FREQUENCY + 1) w = Fault.
Proof.
  intros Hh Hl. split; [|reflexivity]. unfold pit_set_frequency. cbn [Z.eqb]. change (PIT_BASE_FREQUENCY / 18 =? 0) with false.
  apply Returns_ret. change (u16 (PIT_BASE_FREQUENCY / 18)) with 751. rewrite (set_divisor_spec 751 w); [reflexivity|pow2_consts; lia|exact Hh|exact Hl].
Qed.

(** Attaching the timer sets it to mode 2 with a period of 1193 cycles, so that a million
    ticks, a thousand seconds by the clock of the kernel, last between 999.8 and 1000
    seconds, and registers the handler of interrupt 0, unless there is one already. *)
Theorem pit_attach_correct {W H : Type} `{IO : PortIO W} `{TM : !Timer W} `{KH : KernelHeap H} `{KHL : !KernelHeapLaws H}
    handler (s : irq_state H W) cells R :
  handlers_of s 0 cells R -> Z.of_nat (length cells) < 2 ^ 64 - 1 -> refused s 0 0 cells = false ->
  Safe (attach handler DEVICE_TYPE_SYSTEM_DEVICE DEVICE_BUS_NONE s) (fun '(ok, s') => ok = true /\
    c_mode (ch0 (i_world s')) = 2 /\
    999800 * PIT_BASE_FREQUENCY < 1000000 * 1000 * period (ch0 (i_world s')) <= 1000000 * PIT_BASE_FREQUENCY /\
    exists c R', irq_handlers s' (c_value c) = handler /\ registered s' 0 (cells ++ [c]) R').
Proof.
  intros Hh Hlen Hf. unfold attach. cbn [negb probe Z.eqb Pos.eqb andb DEVICE_TYPE_SYSTEM_DEVICE DEVICE_BUS_NONE].
  pose proof (ch0_control 52 (i_world s)) as Ec. set (w1 := arch_outb PIT_MODE_OR_COMMAND 52 (i_world s)) in *.
  destruct (set_frequency_spec 1000 w1) as (w2 & E2 & Ew); [unfold PIT_BASE_FREQUENCY; lia|now rewrite Ec|now rewrite Ec|].
  rewrite E2. cbn [mbind outcome_bind].
  eapply Safe_bind; [apply (irq_add_handler_spec 0 handler 0 (set_world w2 s) cells R Hh Hlen)|].
  intros [r s'] [(E3 & _) HR]. change (refused (set_world w2 s) 0 0 cells) with (refused s 0 0 cells) in HR.
  rewrite Hf in HR. destruct HR as (_ & _ & c & R' & Ecs & HR). cbn [i_world set_world] in E3. cbn [Safe].
  rewrite E3, Ew, Ec. splits; [reflexivity|reflexivity|reflexivity|vm_compute; discriminate|]. now exists c, R'.
Qed.
