(* ===== verification/Serial.v ===== *)
(** * The serial port ([kernel/hw/serial/serial.c])

    Setting up and testing the port, and sending bytes.  The port is reached through the
    class of Ports; what it does is a class of laws after the 16550, with an executable
    instance.  Log messages, which go to the terminal, are left out. *)

From S2P Require Import Prelude MemUtil Ports.
#[local] Open Scope Z_scope.

Definition COM_PORT : Z := 0x3F8.
Definition COM_DATA : Z := COM_PORT.
Definition COM_INT : Z := COM_PORT + 1.
Definition COM_DIVISOR_LSB : Z := COM_PORT.
Definition COM_DIVISOR_MSB : Z := COM_PORT + 1.
Definition COM_FIFO_CTRL : Z := COM_PORT + 2.
Definition COM_LINE_CONTROL : Z := COM_PORT + 3.
Definition COM_MODEM_CTRL : Z := COM_PORT + 4.
Definition COM_LINE_STATUS : Z := COM_PORT + 5.

Record serial_state (W : Type) : Type := mk_serial {
  serialPresent : bool;
  enableSerialLogs : bool;
  serialLock : spinlock_t;
  s_world : W
}.
Arguments mk_serial {W}.
Arguments serialPresent {W}.
Arguments enableSerialLogs {W}.
Arguments serialLock {W}.
Arguments s_world {W}.

Section Driver.
Context {W : Type} `{IO : PortIO W}.
Implicit Types (s : serial_state W) (w : W).

Definition serial_enable_logs s : serial_state W := mk_serial (serialPresent s) true (serialLock s) (s_world s).
Definition serial_disable_logs s : serial_state W := mk_serial (serialPresent s) false (serialLock s) (s_world s).

(** [while((arch_inb(COM_LINE_STATUS) & 0x20) == 0);] *)
Fixpoint wait_empty (fuel : nat) w : outcome W :=
  match fuel with
  | O => OutOfFuel
  | S f => let '(st, w) := arch_inb COM_LINE_STATUS w in if Z.land st 0x20 =? 0 then wait_empty f w else Ret w
  end.

Definition serial_write (fuel : nat) (data : Z) s : outcome (serial_state W) :=
  if negb (serialPresent s) || negb (enableSerialLogs s) then Ret s
  else
    l ← acquireLock (serialLock s);
    w ← wait_empty fuel (s_world s);
    Ret (mk_serial (serialPresent s) (enableSerialLogs s) (releaseLock l) (arch_outb COM_DATA (u8 data) w)).

(** The string is given as its characters. *)
Fixpoint log_loop (fuel : nat) (str : list Z) s : outcome (serial_state W) :=
  match str with
  | [] => Ret s
  | c :: str' => s ← serial_write fuel c s; log_loop fuel str' s
  end.

Definition serial_log (fuel : nat) (str : list Z) s : outcome (serial_state W) :=
  if negb (serialPresent s) || negb (enableSerialLogs s) then Ret s else log_loop fuel str s.

Definition uart_init w : W :=
  let w := arch_outb COM_INT 0x00 w in
  let w := arch_outb COM_LINE_CONTROL 0x80 w in
  let w := arch_outb COM_DIVISOR_LSB 0x0C w in
  let w := arch_outb COM_DIVISOR_MSB 0x00 w in
  let w := arch_outb COM_LINE_CONTROL 0x03 w in
  let w := arch_outb COM_FIFO_CTRL 0xC7 w in
  let w := arch_outb COM_MODEM_CTRL 0x0B w in
  arch_outb COM_MODEM_CTRL 0x1E w.

(** One of the three tests: a byte is sent and has to come back. *)
Definition loop_test (b : Z) w : bool * W :=
  let '(r, w) := arch_inb COM_DATA (arch_outb COM_DATA b w) in (r =? b, w).

Definition serial_banner : list Z := chars "Serial initialised for logging." ++ [10; 13].

Definition serial_absent s w : Z * serial_state W := (1, mk_serial false (enableSerialLogs s) (serialLock s) w).

Definition serial_init (fuel : nat) s : outcome (Z * serial_state W) :=
  let w := uart_init (s_world s) in
  let '(ok, w) := loop_test 0xAE w in
  if negb ok then Ret (serial_absent s w)
  else
    let '(ok, w) := loop_test 0x56 w in
    if negb ok then Ret (serial_absent s w)
    else
      let '(ok, w) := loop_test 0xA3 w in
      if negb ok then Ret (serial_absent s w)
      else
        let w := arch_outb COM_MODEM_CTRL 0x0F w in
        let s := serial_enable_logs (mk_serial true (enableSerialLogs s) (serialLock s) w) in
        s ← serial_log fuel serial_banner s;
        Ret (0, s).
End Driver.

(** ** The chip *)

(** The registers, the byte that has come in, and what has gone out on the line. *)
Record uart : Type := mk_uart { ier : Z; divisor : Z; lcr : Z; fcr : Z; mcr : Z; rx : option Z; sent : list Z }.

Definition dlab (u : uart) : bool := Z.testbit (lcr u) 7.
Definition loopback (u : uart) : bool := Z.testbit (mcr u) 4.

(** A byte written to one of its ports. *)
Definition uart_out (p v : Z) (u : uart) : uart :=
  if p =? COM_DATA then
    if dlab u then mk_uart (ier u) (256 * (divisor u / 256) + v) (lcr u) (fcr u) (mcr u) (rx u) (sent u)
    else if loopback u then mk_uart (ier u) (divisor u) (lcr u) (fcr u) (mcr u) (Some v) (sent u)
    else mk_uart (ier u) (divisor u) (lcr u) (fcr u) (mcr u) (rx u) (sent u ++ [v])
  else if p =? COM_INT then
    if dlab u then mk_uart (ier u) (256 * v + divisor u mod 256) (lcr u) (fcr u) (mcr u) (rx u) (sent u)
    else mk_uart v (divisor u) (lcr u) (fcr u) (mcr u) (rx u) (sent u)
  else if p =? COM_FIFO_CTRL then mk_uart (ier u) (divisor u) (lcr u) v (mcr u) None (sent u)
  else if p =? COM_LINE_CONTROL then mk_uart (ier u) (divisor u) v (fcr u) (mcr u) (rx u) (sent u)
  else if p =? COM_MODEM_CTRL then mk_uart (ier u) (divisor u) (lcr u) (fcr u) v (rx u) (sent u)
  else u.

(** [busy w] is how often the status still reads as busy; a byte takes at most [limit]. *)
Class Uart (W : Type) `{IO : PortIO W} := {
  uart_of : W -> uart;
  busy : W -> nat;
  limit : nat;
  uart_write : forall p v w, COM_PORT <= p < COM_PORT + 8 ->
    uart_of (arch_outb p v w) = uart_out p v (uart_of w) /\ (busy (arch_outb p v w) <= limit)%nat;
  uart_read : forall w b, dlab (uart_of w) = false -> rx (uart_of w) = Some b ->
    fst (arch_inb COM_DATA w) = b /\
    uart_of (snd (arch_inb COM_DATA w)) =
      mk_uart (ier (uart_of w)) (divisor (uart_of w)) (lcr (uart_of w)) (fcr (uart_of w)) (mcr (uart_of w)) None (sent (uart_of w)) /\
    (busy (snd (arch_inb COM_DATA w)) <= busy w)%nat;
  uart_status : forall w, uart_of (snd (arch_inb COM_LINE_STATUS w)) = uart_of w /\
    (Z.land (fst (arch_inb COM_LINE_STATUS w)) 0x20 = 0 <-> busy w <> O) /\
    (busy (snd (arch_inb COM_LINE_STATUS w)) = busy w - 1)%nat
}.

(** A port that is busy for two looks after every access. *)
#[global] Instance uart_ports : PortIO (uart * nat) := {
  arch_inb p '(u, n) :=
    if p =? COM_LINE_STATUS then (match n with O => 0x60 | S _ => 0 end, (u, (n - 1)%nat))
    else if p =? COM_DATA then (default 0 (rx u), (mk_uart (ier u) (divisor u) (lcr u) (fcr u) (mcr u) None (sent u), n))
    else (0, (u, n));
  arch_outb p v '(u, _) := (uart_out p v u, 2%nat);
  arch_inw _ c := (0xFFFF, c);
  arch_outw _ _ c := c
}.

#[global] Instance uart_uart : Uart (uart * nat).
Proof.
  refine {| uart_of := fst; busy := snd; limit := 2 |}.
  - intros p v [u n] _. auto.
  - intros [u n] b _ E. cbn in *. now rewrite E.
  - intros [u [|n]]; cbn; splits; auto; (split; [first [discriminate|easy]|easy]).
Defined.

(** ** Sending *)

Section Send.
Context {W : Type} `{IO : PortIO W} `{UA : !Uart W}.
Implicit Types (s : serial_state W) (w : W).

Definition with_sent (l : list Z) (u : uart) : uart := mk_uart (ier u) (divisor u) (lcr u) (fcr u) (mcr u) (rx u) (sent u ++ l).

(** The port sends: it is there, switched on, its divisor latch closed, not looped back. *)
Record sending s : Prop := {
  se_present : serialPresent s = true;
  se_enabled : enableSerialLogs s = true;
  se_lock : serialLock s = false;
  se_dlab : dlab (uart_of (s_world s)) = false;
  se_loop : loopback (uart_of (s_world s)) = false;
  se_busy : (busy (s_world s) <= limit)%nat
}.

Lemma wait_empty_spec fuel : forall w, (busy w < fuel)%nat ->
  Returns (wait_empty fuel w) (fun w' => uart_of w' = uart_of w).
Proof.
  induction fuel as [|f IH]; intros w Hb; [lia|]. cbn [wait_empty]. destruct (uart_status w) as (E1 & E2 & E3).
  destruct (arch_inb COM_LINE_STATUS w) as [st w1]. cbn [fst snd] in *.
  destruct (Z.eqb_spec (Z.land st 32) 0) as [E|E]; [|now apply Returns_ret].
  apply E2 in E. rewrite <- E1. apply IH. lia.
Qed.

Lemma serial_write_spec fuel data s : sending s -> (limit < fuel)%nat ->
  Returns (serial_write fuel data s) (fun s' => sending s' /\ uart_of (s_world s') = with_sent [u8 data] (uart_of (s_world s))).
Proof.
  intros [H1 H2 H3 H4 H5 H6] Hf. unfold serial_write. rewrite H1, H2, H3. cbn [negb orb acquireLock mbind outcome_bind].
  eapply Returns_bind; [apply (wait_empty_spec fuel (s_world s)); lia|]. intros w' Ew. apply Returns_ret.
  destruct (uart_write COM_DATA (u8 data) w') as [Eu Eb]; [unfold COM_DATA; lia|].
  rewrite Ew in Eu. unfold uart_out in Eu. rewrite H4, H5 in Eu. cbn [Z.eqb] in Eu. rewrite Z.eqb_refl in Eu.
  split; [|exact Eu]. split; cbn [serialPresent enableSerialLogs serialLock s_world]; auto; rewrite Eu; auto.
Qed.

Lemma log_loop_spec fuel str : forall s, sending s -> (limit < fuel)%nat ->
  Returns (log_loop fuel str s) (fun s' => sending s' /\ uart_of (s_world s') = with_sent (map u8 str) (uart_of (s_world s))).
Proof.
  induction str as [|c str IH]; intros s Hs Hf; cbn [log_loop map].
  - apply Returns_ret. split; [exact Hs|]. unfold with_sent. rewrite app_nil_r. now destruct (uart_of (s_world s)).
  - eapply Returns_bind; [now apply serial_write_spec|]. intros s1 [Hs1 E1].
    eapply Returns_mono; [now apply IH|]. intros s2 [Hs2 E2]. split; [exact Hs2|]. rewrite E2, E1. unfold with_sent. cbn. now rewrite <- app_assoc.
Qed.

(** A write to one of the registers of the set-up. *)
Lemma uart_of_out p v w : COM_PORT <= p < COM_PORT + 8 -> uart_of (arch_outb p v w) = uart_out p v (uart_of w).
Proof. intros H. apply (uart_write p v w H). Qed.

Lemma uart_init_spec w : dlab (uart_of w) = false -> uart_of (uart_init w) = mk_uart 0 12 0x03 0xC7 0x1E None (sent (uart_of w)).
Proof.
  intros Ed. unfold uart_init.
  rewrite !uart_of_out by (unfold COM_MODEM_CTRL, COM_FIFO_CTRL, COM_LINE_CONTROL, COM_DIVISOR_MSB, COM_DIVISOR_LSB, COM_INT; lia).
  destruct (uart_of w) as [i d l f m r t]. assert (uart_out COM_INT 0 (mk_uart i d l f m r t) = mk_uart 0 d l f m r t) as ->
    by (unfold uart_out; now rewrite Ed).
  transitivity (mk_uart 0 (256 * 0 + (256 * (d / 256) + 12) mod 256) 0x03 0xC7 0x1E None t); [vm_compute; reflexivity|].
  cbn [sent]. f_equal. dm.
Qed.

Lemma loop_test_spec b w u : uart_of w = u -> dlab u = false -> loopback u = true -> rx u = None ->
  exists w', loop_test b w = (true, w') /\ uart_of w' = u /\ (busy w' <= limit)%nat.
Proof.
  intros E Hd Hl Hr. unfold loop_test. destruct (uart_write COM_DATA b w) as [E1 B1]; [unfold COM_DATA; lia|].
  rewrite E in E1. unfold uart_out in E1. rewrite Z.eqb_refl, Hd, Hl in E1. set (w1 := arch_outb COM_DATA b w) in *.
  destruct (uart_read w1 b) as (R1 & R2 & R3); [now rewrite E1|now rewrite E1|].
  destruct (arch_inb COM_DATA w1) as [r w2]. cbn [fst snd] in *. subst r. rewrite Z.eqb_refl. exists w2. split; [reflexivity|].
  rewrite R2, E1. cbn. split; [|lia]. destruct u. cbn in *. now subst.
Qed.
End Send.

(** A working port passes the test and is set to 9600 baud (divisor 12), 8 data bits
    and no parity, interrupts off, and out of loop-back mode; nothing of the test reaches the
    line, the first bytes on it are the message, and the port stays ready to send. *)
Theorem serial_init_correct {W : Type} `{IO : PortIO W} `{UA : !Uart W} fuel (s : serial_state W) :
  dlab (uart_of (s_world s)) = false -> serialLock s = false -> (limit < fuel)%nat ->
  Returns (serial_init fuel s) (fun '(r, s') => r = 0 /\ sending s' /\
    uart_of (s_world s') = mk_uart 0 12 0x03 0xC7 0x0F None (sent (uart_of (s_world s)) ++ serial_banner)).
Proof.
  intros Hd Hl Hf. unfold serial_init. pose proof (uart_init_spec (s_world s) Hd) as E0.
  set (u := mk_uart 0 12 0x03 0xC7 0x1E None (sent (uart_of (s_world s)))) in E0.
  destruct (loop_test_spec 0xAE _ u E0 eq_refl eq_refl eq_refl) as (w1 & -> & E1 & _). cbn [negb].
  destruct (loop_test_spec 0x56 _ u E1 eq_refl eq_refl eq_refl) as (w2 & -> & E2 & _). cbn [negb].
  destruct (loop_test_spec 0xA3 _ u E2 eq_refl eq_refl eq_refl) as (w3 & -> & E3 & _). cbn [negb].
  destruct (uart_write COM_MODEM_CTRL 0x0F w3) as [E4 B4]; [unfold COM_MODEM_CTRL; lia|]. rewrite E3 in E4.
  set (w4 := arch_outb COM_MODEM_CTRL 0x0F w3) in *. unfold serial_log. cbn [serial_enable_logs serialPresent enableSerialLogs negb orb].
  eapply Returns_bind; [apply log_loop_spec; [|exact Hf]|].
  - split; cbn [serialPresent enableSerialLogs serialLock s_world serial_enable_logs]; auto; now rewrite E4.
  - intros s' [Hs' Es']. apply Returns_ret. splits; auto. rewrite Es'. cbn [serial_enable_logs s_world]. rewrite E4. reflexivity.
Qed.

Definition uart_demo : serial_state (uart * nat) := mk_serial false false false (mk_uart 0 0 0 0 0 None [], 0%nat).

Lemma serial_init_correct_witness :
  Returns (serial_init 3 uart_demo) (fun '(r, s') => r = 0 /\ sending s' /\
    uart_of (s_world s') = mk_uart 0 12 0x03 0xC7 0x0F None serial_banner).
Proof.
  eapply Returns_mono; [apply (serial_init_correct 3 uart_demo); [reflexivity|reflexivity|cbn; lia]|].
  intros [r s'] (-> & Hs & E). auto.
Defined.

(** Text that is logged goes out on the line byte by byte, in order, the port staying ready:
    the wait for an empty register ends. *)
Theorem serial_log_correct {W : Type} `{IO : PortIO W} `{UA : !Uart W} fuel str (s : serial_state W) :
  sending s -> (limit < fuel)%nat ->
  Returns (serial_log fuel str s) (fun s' => sending s' /\ uart_of (s_world s') = with_sent (map u8 str) (uart_of (s_world s))).
Proof.
  intros Hs Hf. unfold serial_log. rewrite (se_present _ Hs), (se_enabled _ Hs). now apply log_loop_spec.
Qed.

(** Without a port, or with one that reads as zero, 1 is returned and nothing is ever sent
    afterwards; the wait is never entered. *)
Theorem serial_init_absent {W : Type} `{IO : PortIO W} fuel (s : serial_state W) :
  (forall w, fst (arch_inb COM_DATA w) = 0xFF \/ fst (arch_inb COM_DATA w) = 0) ->
  exists s', serial_init fuel s = Ret (1, s') /\ serialPresent s' = false /\
    forall data str, serial_write fuel data s' = Ret s' /\ serial_log fuel str s' = Ret s'.
Proof.
  intros Hff. unfold serial_init, loop_test. specialize (Hff (arch_outb COM_DATA 0xAE (uart_init (s_world s)))).
  destruct (arch_inb COM_DATA _) as [r w]. cbn [fst] in Hff.
  eexists. destruct Hff as [-> | ->]; (split; [reflexivity|split; [reflexivity|]]); intros; split; reflexivity.
Qed.
