(* ===== verification/Power.v ===== *)
(** * Power management and the check for the system volume
      ([kernel/sys/power.c], [kernel/sys/dal/checksysfs.c])

    The functions that shut the machine down are pointers that start-up sets, first to
    two functions of the file that wait for the user, then to those of uACPI.  Before
    one of them is called the modules are unloaded.  Log messages are left out. *)

From S2P Require Import Prelude Interfaces MemMap Pmm MemUtil Kheap ListDs Path Vnode Bytes Module Term Kprintf.
#[local] Open Scope Z_scope.

(** [power_t]; a NULL pointer is [None]. *)
Record power_t : Type := mk_power { shutdown : option Z; reboot : option Z; suspend : option Z }.

Record power_state (X H : Type) : Type := mk_pw { power : power_t; pw_loader : loader X H; pw_ks : kstdio }.
Arguments mk_pw {X H}.
Arguments power {X H}.
Arguments pw_loader {X H}.
Arguments pw_ks {X H}.

Section Code.
Context {X H : Type} `{KH : KernelHeap H}.
Implicit Types (s : power_state X H) (l : loader X H).

(** The addresses of the two default functions; [call] runs a function of a module and
    [uacpi] one of uACPI. *)
Variables (shutdown_default reboot_default : Z).
Variable call : Z -> loader X H -> outcome (loader X H).
Variable uacpi : Z -> power_state X H -> outcome (Z * power_state X H).

Definition power_set_shutdown (func : Z) s : power_state X H :=
  mk_pw (mk_power (Some func) (reboot (power s)) (suspend (power s))) (pw_loader s) (pw_ks s).
Definition power_set_reboot (func : Z) s : power_state X H :=
  mk_pw (mk_power (shutdown (power s)) (Some func) (suspend (power s))) (pw_loader s) (pw_ks s).
Definition power_set_suspend (func : Z) s : power_state X H :=
  mk_pw (mk_power (shutdown (power s)) (reboot (power s)) (Some func)) (pw_loader s) (pw_ks s).

Definition power_init s : power_state X H :=
  mk_pw (mk_power (Some shutdown_default) (Some reboot_default) (suspend (power s))) (pw_loader s) (pw_ks s).

(** A message, and the machine stops with interrupts off. *)
Definition _power_shutdown_default : outcome (Z * power_state X H) := Panic "You may now power off your computer.".
Definition _power_reboot_default : outcome (Z * power_state X H) := Panic "You may now *manually* restart your computer ;)".

Definition call_power (func : Z) s : outcome (Z * power_state X H) :=
  if func =? shutdown_default then _power_shutdown_default
  else if func =? reboot_default then _power_reboot_default
  else uacpi func s.

(** What both functions do before the machine goes down. *)
Definition unload (fuel : nat) s : outcome (power_state X H) :=
  t ← term_clear (ks_term (pw_ks s));
  let k := kernel_screen_output_enable (set_ks_term t (pw_ks s)) in
  l ← module_shutdown fuel call (pw_loader s);
  Ret (mk_pw (power s) l k).

Definition power_shutdown (fuel : nat) s : outcome (Z * power_state X H) :=
  match shutdown (power s) with
  | None => Ret (-1, s)
  | Some func => s ← unload fuel s; call_power func s
  end.

Definition power_reboot (fuel : nat) s : outcome (Z * power_state X H) :=
  match reboot (power s) with
  | None => Ret (-1, s)
  | Some func => s ← unload fuel s; call_power func s
  end.

Definition power_suspend s : outcome (Z * power_state X H) :=
  match suspend (power s) with
  | None => Ret (-1, s)
  | Some func => call_power func s
  end.

(** [checksysfs_check]: a file system without a drive is no system file system. *)
Definition checksysfs_check (fuel : nat) (f : fal X H) : outcome bool :=
  sysfs ← vfs_get_by_fid fuel 0 f;
  if sysfs =? 0 then Ret false else Ret (vfs_system (f_vfss f sysfs)).

(** ** The modules are finished in the order they were loaded *)

Fixpoint run_all (fs : list Z) l : outcome (loader X H) :=
  match fs with
  | [] => Ret l
  | f :: fs => l ← call f l; run_all fs l
  end.

Definition fini_of l (c : cell) : Z := mod_fini (s_mem l) (me_metadata (k_mods l (c_value c))).

(** What a module's [fini] leaves alone: the list of modules and their functions. *)
Definition same_modules l l' : Prop :=
  moduleList l' = moduleList l /\ moduleListLock l' = moduleListLock l /\ forall c, fini_of l' c = fini_of l c.

Lemma fini_loop_spec (cells : list cell) :
  (forall f l l', call f l = Ret l' -> same_modules l l') ->
  forall fuel l, (length cells < fuel)%nat -> chain (nodes (moduleList l)) cells 0 -> Forall (fun c => c_addr c <> 0) cells ->
  fini_loop fuel call (first_cell 0 cells) l = run_all (map (fini_of l) cells) l.
Proof.
  intros Hc. induction cells as [|c cells IH]; intros [|f] l Hf Hch Ha; cbn [length] in Hf; try lia; [reflexivity|].
  destruct Hch as [En Hch]. apply Forall_cons in Ha as [Ha0 Ha]. cbn [fini_loop first_cell map run_all].
  rewrite (proj2 (Z.eqb_neq _ _) Ha0), En. cbn [n_value n_next]. fold (fini_of l c).
  destruct (call (fini_of l c) l) as [l'|msg| | |] eqn:E; cbn [mbind outcome_bind]; try reflexivity.
  destruct (Hc _ _ _ E) as (S1 & S2 & S3). rewrite S1, En. cbn [n_next]. rewrite IH; auto; [|lia|now rewrite S1].
  f_equal. apply map_ext. intros d. apply S3.
Qed.

End Code.

(** Shutting down finishes every loaded module, in the order of the list, and then calls
    the function that was set last, with the screen on; without one it returns -1 and
    does nothing. *)
Theorem power_shutdown_order {X H} `{KH : KernelHeap H} sd rd call uacpi fuel (s : power_state X H) cells t l func :
  shutdown (power s) = Some func ->
  moduleListLock (pw_loader s) = false -> head (moduleList (pw_loader s)) = first_cell 0 cells ->
  chain (nodes (moduleList (pw_loader s))) cells 0 -> Forall (fun c => c_addr c <> 0) cells -> (length cells < fuel)%nat ->
  (forall f l l', call f l = Ret l' -> same_modules l l') ->
  term_clear (ks_term (pw_ks s)) = Ret t ->
  run_all call (map (fini_of (pw_loader s)) cells) (set_modLock true (pw_loader s)) = Ret l ->
  power_shutdown sd rd call uacpi fuel s =
    call_power sd rd uacpi func
      (mk_pw (power s) (set_modLock false l) (kernel_screen_output_enable (set_ks_term t (pw_ks s)))).
Proof.
  intros Hs L Hh Hch Ha Hf Hc Ht Hr. unfold power_shutdown. rewrite Hs. unfold unload. rewrite Ht. cbn [mbind outcome_bind].
  unfold module_shutdown. rewrite L. cbn [acquireLock mbind outcome_bind].
  change (head (moduleList (set_modLock true (pw_loader s)))) with (head (moduleList (pw_loader s))). rewrite Hh.
  rewrite (fini_loop_spec call cells Hc fuel (set_modLock true (pw_loader s)) Hf Hch Ha).
  change (map (fini_of (set_modLock true (pw_loader s))) cells) with (map (fini_of (pw_loader s)) cells).
  now rewrite Hr.
Qed.

(** Once the loader has found a module to be loaded already, the machine can be neither
    shut down nor restarted: the search keeps the lock of the list that unloading
    takes. *)
Theorem power_shutdown_stuck {X H} `{KH : KernelHeap H} sd rd call uacpi f sf name fuel (s : power_state X H) l t func :
  module_list_search f sf name (pw_loader s) = Ret (true, l) ->
  term_clear (ks_term (pw_ks s)) = Ret t -> shutdown (power s) = Some func ->
  power_shutdown sd rd call uacpi fuel (mk_pw (power s) l (pw_ks s)) = Deadlock.
Proof.
  intros E Ht Hs. unfold power_shutdown. cbn [power]. rewrite Hs. unfold unload. cbn [pw_ks pw_loader]. rewrite Ht.
  cbn [mbind outcome_bind]. unfold module_shutdown.
  assert (moduleListLock l = true) as ->; [|reflexivity].
  unfold module_list_search in E. apply bind_Ret in E as (k & Ek & E). apply bind_Ret in E as (e & _ & E).
  destruct (negb (e =? 0)); [|discriminate]. injection E as <-. unfold acquireLock in Ek.
  destruct (moduleListLock (pw_loader s)); [discriminate|]. now injection Ek as <-.
Qed.

(** The list of mounted file systems from [i] on. *)
Inductive vfs_chain {X H} (f : fal X H) : Z -> list Z -> Prop :=
| vc_nil : vfs_chain f 0 []
| vc_cons i l : i <> 0 -> vfs_chain f (vfs_next (f_vfss f i)) l -> vfs_chain f i (i :: l).

(** [checksysfs_check] holds exactly when the first file system with number 0 of the list
    is on the system partition. *)
Theorem checksysfs_correct {X H} (f : fal X H) l fuel : vfs_chain f (rootVFS f) l -> (length l < fuel)%nat ->
  checksysfs_check fuel f =
    Ret (match List.find (fun i => vfs_fid (f_vfss f i) =? 0) l with Some i => vfs_system (f_vfss f i) | None => false end).
Proof.
  intros Hl Hf. unfold checksysfs_check, vfs_get_by_fid.
  assert (by_fid_loop fuel (rootVFS f) 0 f = Ret (match List.find (fun i => vfs_fid (f_vfss f i) =? 0) l with Some i => i | None => 0 end)) as ->.
  { clear -Hl Hf. revert fuel Hf. induction Hl as [|i l Hi Hl IH]; intros [|n] Hf; cbn [length] in Hf; try lia; [reflexivity|].
    cbn [by_fid_loop List.find]. rewrite (proj2 (Z.eqb_neq _ _) Hi). destruct (vfs_fid (f_vfss f i) =? 0); [reflexivity|]. apply IH. lia. }
  cbn [mbind outcome_bind]. destruct (List.find _ l) as [i|] eqn:E; [|reflexivity].
  assert (i <> 0) as Hi; [|now rewrite (proj2 (Z.eqb_neq _ _) Hi)].
  apply List.find_some in E as [Hin _]. clear -Hl Hin. induction Hl as [|j l Hj Hl IH]; [destruct Hin|]. destruct Hin as [<-|Hin]; auto.
Qed.
