(* ===== verification/Readline.v ===== *)
(** * Reading a line ([kernel/klibc/kstdio/kreadline.c])

    [kreadline] waits for keys in [keyBuffer], which the keyboard interrupt sets, shows them
    and edits a line.  [keys] are the values that the loop sees one after the other; a key
    is taken to stay in the variable while it is worked on.  The log message of a line that
    is too long is left out. *)

From S2P Require Import Prelude Interfaces MemMap Pmm MemUtil Kheap ListDs Bytes Term Kprintf.
#[local] Open Scope Z_scope.

Definition LINE_SIZE : Z := 256.

Record readline_state (H : Type) : Type := mk_rl {
  rl_ks : kstdio;
  rl_mem : mem;
  rl_heap : H;
  kreadlineLock : spinlock_t;
  kerrno : Z
}.
Arguments mk_rl {H}.
Arguments rl_ks {H}.
Arguments rl_mem {H}.
Arguments rl_heap {H}.
Arguments kreadlineLock {H}.
Arguments kerrno {H}.

Section Code.
Variables (font : Z -> Z) (sfuel : nat).

(** The loop: the position reached, the error, and the keys that are left. *)
Fixpoint read_keys (keys : list Z) (line i backspaces err : Z) (m : mem) (k : kstdio)
    : outcome (Z * Z * mem * kstdio * list Z) :=
  match keys with
  | [] => OutOfFuel
  | c :: keys =>
      if c =? 0 then read_keys keys line i backspaces err m k
      else if (c =? ch_backspace) && negb (backspaces =? 0) then
        '(_, k) ← kputchar font c k; read_keys keys line (u64 (i - 1)) (u64 (backspaces - 1)) err m k
      else if c =? ch_backspace then read_keys keys line i backspaces err m k
      else
        '(chr, k) ← kputchar font c k;
        if escape (ks_term k) || (chr =? 0) then
          if c =? ch_newline then Ret (i, err, m, k, keys) else read_keys keys line i backspaces err m k
        else
          let m := upd m (line + i) (u8 c) in
          let i := u64 (i + 1) in
          let backspaces := u64 (backspaces + 1) in
          if i >? 255 then
            '(_, k) ← kprintf font m sfuel [ch_newline] [] k;
            Ret (i, EOVERFLOW, upd m line 0, k, keys)
          else if c =? ch_newline then Ret (i, err, m, k, keys)
          else read_keys keys line i backspaces err m k
  end.

Context {H : Type} `{KH : KernelHeap H}.

Definition kreadline (prompt : option (list Z)) (keys : list Z) (s : readline_state H) : outcome (Z * list Z * readline_state H) :=
  k ← match prompt with
      | Some p => '(_, k) ← kprintf font (rl_mem s) sfuel p [] (rl_ks s); Ret k
      | None => Ret (rl_ks s)
      end;
  '(line, h) ← kh_malloc LINE_SIZE (rl_heap s);
  l ← acquireLock (kreadlineLock s);
  '(i, err, m, k, keys) ← read_keys keys line 0 0 0 (rl_mem s) k;
  let m := upd m (u64 (line + (i - 1))) 0 in
  Ret (line, keys, mk_rl k m h (releaseLock l) err).
End Code.

(** ** The terminal between two keys *)

(** The terminal shows characters: it is not inside of an escape sequence, and no lock is
    held. *)
Record calm (s : term_context_t) : Prop := {
  ca_enabled : enabled s = true;
  ca_escape : escape s = false;
  ca_lock : t_lock s = false;
  ca_fblock : t_fbLock s = false;
  ca_bpp : fb_bpp (t_fb s) / 8 <> 0
}.

(** What drawing leaves alone. *)
Definition undrawn (s s' : term_context_t) : Prop :=
  enabled s' = enabled s /\ escape s' = escape s /\ t_lock s' = t_lock s /\ t_fbLock s' = t_fbLock s /\ t_fb s' = t_fb s.

Definition drawable (s : term_context_t) : Prop := t_fbLock s = false /\ fb_bpp (t_fb s) / 8 <> 0.

#[global] Instance undrawn_preorder : PreOrder undrawn.
Proof. split; [intros s; unfold undrawn; auto|]. unfold undrawn. intros a b c H1 H2. intuition congruence. Qed.

Lemma undrawn_drawable s s' : undrawn s s' -> drawable s -> drawable s'.
Proof. intros (_ & _ & _ & E1 & E2). unfold drawable. now rewrite E1, E2. Qed.

Lemma fb_pixel_undrawn x y c s : drawable s -> Returns (fb_pixel x y c s) (undrawn s).
Proof.
  intros [Hl Hb]. unfold fb_pixel, line_pixels. destruct (_ || _); [now apply Returns_ret|].
  rewrite Hl, (proj2 (Z.eqb_neq _ 0) Hb). cbn. apply Returns_ret. unfold undrawn. cbn. auto.
Qed.

Lemma term_char_undrawn font c s : drawable s -> Returns (term_char font c s) (undrawn s).
Proof.
  intros Hd. unfold term_char. apply (for_up_Returns (fun _ => undrawn s)); [reflexivity|]. intros i s1 _ H1.
  apply (for_up_Returns (fun _ => undrawn s)); [exact H1|]. intros j s2 _ H2.
  pose proof (undrawn_drawable _ _ H2 Hd) as D2.
  eapply Returns_bind; [apply (fb_pixel_undrawn _ _ _ s2 D2)|]. intros s3 H3.
  assert (undrawn s s3) as H3' by (etransitivity; eassumption).
  destruct (glyph_bit _ _ _ _); [|now apply Returns_ret].
  eapply Returns_mono; [apply fb_pixel_undrawn, (undrawn_drawable _ _ H3' Hd)|]. intros s4 H4. etransitivity; eassumption.
Qed.

Lemma cursor_undrawn x y s : undrawn s (cursor_set x y s).
Proof. unfold undrawn. auto. Qed.

Lemma newline_undrawn s : undrawn s (cursor_newline s).
Proof. unfold cursor_newline. destruct (_ >? _); unfold undrawn; auto. Qed.

Lemma advance_undrawn s : undrawn s (cursor_advance s).
Proof. unfold cursor_advance. destruct (_ >=? _); [destruct (_ >? _)|]; unfold undrawn; auto. Qed.

Lemma then_char font c s s1 : undrawn s s1 -> drawable s -> Returns (term_char font c s1) (undrawn s).
Proof.
  intros H1 Hd. eapply Returns_mono; [apply term_char_undrawn, (undrawn_drawable _ _ H1 Hd)|].
  intros s2 H2. etransitivity; eassumption.
Qed.

Lemma backspace_undrawn font s : drawable s -> Returns (cursor_backspace font s) (undrawn s).
Proof.
  intros Hd. unfold cursor_backspace. destruct (_ >=? _); [now apply then_char; [apply cursor_undrawn|]|].
  eapply Returns_bind; [apply (then_char font 32 s); [apply cursor_undrawn|exact Hd]|]. intros s1 H1.
  apply Returns_ret. etransitivity; [exact H1|apply cursor_undrawn].
Qed.

(** A character other than NUL and escape is shown and returned. *)
Lemma putchar_calm font c s : calm s -> c <> 0 -> c <> ch_escape ->
  Returns (term_putchar font c s) (fun '(r, s') => r = c /\ calm s').
Proof.
  intros [He Hx Hl Hf Hb] H0 H1. unfold term_putchar.
  rewrite (proj2 (Z.eqb_neq c 0)), (proj2 (Z.eqb_neq c ch_escape)), He, Hl by assumption. cbn [negb acquireLock mbind outcome_bind].
  set (s1 := emit_char c (set_tlock true s)).
  assert (enabled s1 = true /\ escape s1 = false /\ t_fbLock s1 = false /\ t_fb s1 = t_fb s) as (E1 & E2 & E3 & E4)
    by (unfold s1, emit_char; destruct (c =? ch_newline); auto).
  assert (drawable s1) as Hd by (split; [exact E3|now rewrite E4]). rewrite E2.
  eapply Returns_bind with (P := fun s2 => enabled s2 = true /\ escape s2 = false /\ t_fbLock s2 = false /\ t_fb s2 = t_fb s).
  - eapply Returns_mono with (P := fun s2 => undrawn s1 s2 \/ undrawn (unlock_term s1) s2).
    2: { intros s2 [(F1 & F2 & _ & F3 & F4)|(F1 & F2 & _ & F3 & F4)]; cbn in *; splits; congruence. }
    destruct (c =? ch_newline); [|destruct (c =? ch_return); [|destruct (c =? ch_backspace)]].
    + unfold do_newline. eapply Returns_bind; [apply (then_char font 0 s1 s1); [reflexivity|exact Hd]|]. intros s2 H2.
      eapply Returns_mono; [apply (then_char font CURSOR_GLYPH s1); [|exact Hd]|auto].
      etransitivity; [exact H2|]. etransitivity; [apply newline_undrawn|apply cursor_undrawn].
    + unfold do_return. eapply Returns_mono; [apply (then_char font CURSOR_GLYPH s1); [apply cursor_undrawn|exact Hd]|auto].
    + eapply Returns_bind; [apply (then_char font 0 s1 s1); [reflexivity|exact Hd]|]. intros s2 (G1 & G2 & G3 & G4 & G5).
      assert (undrawn (unlock_term s1) (unlock_term s2)) as H2 by (unfold undrawn; cbn; auto).
      assert (drawable (unlock_term s2)) as D2 by (split; cbn; [congruence|now rewrite G5, E4]).
      eapply Returns_bind; [apply (backspace_undrawn font _ D2)|]. intros s3 H3.
      eapply Returns_mono; [apply (then_char font CURSOR_GLYPH (unlock_term s2) s3 H3 D2)|]. intros s4 H4. right. etransitivity; eassumption.
    + unfold do_print. eapply Returns_bind; [apply (then_char font c s1 s1); [reflexivity|exact Hd]|]. intros s2 H2.
      eapply Returns_mono; [apply (then_char font CURSOR_GLYPH s1); [|exact Hd]|auto].
      etransitivity; [exact H2|apply advance_undrawn].
  - intros s2 (F1 & F2 & F3 & F4). apply Returns_ret. split; [reflexivity|]. split; cbn; auto. now rewrite F4.
Qed.

(** The same for the kernel's output, on the screen or not. *)
Record calm_ks (k : kstdio) : Prop := { ck_term : calm (ks_term k); ck_vlock : kvprintfLock k = false; ck_plock : kprintfLock k = false }.

Lemma kputchar_term font c k : calm (ks_term k) -> c <> 0 -> c <> ch_escape ->
  Returns (kputchar font c k) (fun '(r, k') => r = c /\ calm (ks_term k') /\
    kvprintfLock k' = kvprintfLock k /\ kprintfLock k' = kprintfLock k).
Proof.
  intros Hc H0 H1. unfold kputchar.
  eapply Returns_bind with (P := fun '(r, t) => r = c /\ calm t).
  - destruct (kernelScreenOut k); [now apply putchar_calm|]. destruct Hc as [He Hx Hl Hf Hb]. unfold term_putchar_dbg. rewrite Hl. cbn.
    apply Returns_ret. split; [reflexivity|]. unfold emit_char. destruct (c =? ch_newline); now split.
  - intros [r t] [-> Ht]. apply Returns_ret. auto.
Qed.

Lemma kputchar_calm font c k : calm_ks k -> c <> 0 -> c <> ch_escape ->
  Returns (kputchar font c k) (fun '(r, k') => r = c /\ calm_ks k').
Proof.
  intros [Hc L1 L2] H0 H1. eapply Returns_mono; [now apply kputchar_term|]. intros [r k'] (-> & Hc' & E1 & E2).
  split; [reflexivity|]. split; congruence.
Qed.

(** Text without conversions. *)
Definition plain_text (l : list Z) : Prop := Forall (fun c => c <> 0 /\ c <> ch_escape /\ c <> 37) l.

Lemma kprintf_calm font m sfuel l k : calm_ks k -> plain_text l ->
  Returns (kprintf font m sfuel l [] k) (fun '(_, k') => calm_ks k').
Proof.
  intros [Hc L1 L2] Hl. unfold kprintf, kvprintf. rewrite L2. cbn [acquireLock mbind outcome_bind kvprintfLock set_plock]. rewrite L1.
  cbn [acquireLock mbind outcome_bind].
  assert (forall n k1, calm (ks_term k1) -> Returns (kvprintf_loop font m sfuel l [] n k1) (fun '(_, k2) => calm (ks_term k2))) as HL.
  { clear - Hl. induction Hl as [|c l (H1 & H2 & H3) _ IH]; intros n k1 Hk; cbn [kvprintf_loop]; [now apply Returns_ret|].
    rewrite (proj2 (Z.eqb_neq c 37) H3).
    eapply Returns_bind; [now apply kputchar_term|]. intros [r k2] (_ & Hk2 & _). now apply IH. }
  destruct (HL 0 (set_vlock true (set_plock true k)) Hc) as ([n k2] & E & Hk2).
  rewrite E. cbn. apply Returns_ret. now split.
Qed.

(** ** The line editor *)

(** What the keys mean: text is appended, a backspace takes the last character away, a new
    line ends the line; there is room for [room] characters, the new line included. *)
Inductive edited : Type := Line (text : list Z) | TooLong.

Fixpoint edit (room : nat) (keys buf : list Z) : option (edited * list Z) :=
  match keys with
  | [] => None
  | c :: r =>
      if c =? 0 then edit room r buf
      else if c =? ch_backspace then edit room r (removelast buf)
      else if Nat.eqb (length buf) room then Some (TooLong, r)
      else if c =? ch_newline then Some (Line buf, r)
      else edit room r (buf ++ [c])
  end.

(** The characters [buf] are in memory from [line] on. *)
Definition holds (m : mem) (line : Z) (buf : list Z) : Prop :=
  forall j c, buf !! j = Some c -> m (line + Z.of_nat j) = u8 c.

(** Only the line has changed. *)
Definition line_only (line : Z) (m m' : mem) : Prop := forall a, ~ (line <= a < line + LINE_SIZE) -> m' a = m a.

Lemma holds_removelast m line buf : holds m line buf -> holds m line (removelast buf).
Proof.
  intros H j c E. apply H. destruct (decide (buf = [])) as [->|N]; [discriminate|].
  rewrite (app_removelast_last 0 N). now apply lookup_app_l_Some.
Qed.

Lemma holds_snoc m line buf c : holds m line buf -> holds (upd m (line + Z.of_nat (length buf)) (u8 c)) line (buf ++ [c]).
Proof.
  intros H j d E. apply lookup_app_Some in E as [E|[Hj E]].
  - rewrite upd_ne; [now apply H|]. apply lookup_lt_Some in E. lia.
  - assert (j = length buf) as -> by (destruct (j - length buf)%nat eqn:D; [lia|now destruct n]).
    rewrite Nat.sub_diag in E. injection E as ->. now rewrite upd_eq.
Qed.

Lemma line_only_upd line m m' i v : line_only line m m' -> 0 <= i < LINE_SIZE -> line_only line m (upd m' (line + i) v).
Proof. intros H Hi a Ha. rewrite upd_ne by lia. now apply H. Qed.

Lemma length_removelast {A} (l : list A) : length (removelast l) = (length l - 1)%nat.
Proof.
  destruct (decide (l = [])) as [->|N]; [reflexivity|]. destruct l as [|x l] using rev_ind; [easy|].
  rewrite removelast_last, length_app. cbn. lia.
Qed.

(** How the loop ends. *)
Definition read_result (line err : Z) (m : mem) (rest : list Z) (res : edited) (r : Z * Z * mem * kstdio * list Z) : Prop :=
  let '(i, err', m', k', rest') := r in
  rest' = rest /\ calm_ks k' /\ line_only line m m' /\
  match res with
  | Line text => i = Z.of_nat (length text) + 1 /\ err' = err /\ holds m' line text /\ (length text < 255)%nat
  | TooLong => i = 256 /\ err' = EOVERFLOW /\ m' line = 0
  end.

Lemma read_keys_spec font sfuel line err m0 rest res keys : forall buf m k,
  calm_ks k -> Forall (fun c => c <> ch_escape) keys -> (length buf <= 255)%nat ->
  holds m line buf -> line_only line m0 m -> edit 255 keys buf = Some (res, rest) ->
  let n := Z.of_nat (length buf) in
  Returns (read_keys font sfuel keys line n n err m k) (read_result line err m0 rest res).
Proof.
  induction keys as [|c keys IH]; intros buf m k Hk Hesc Hlen Hb Hm; cbn [edit read_keys]; intros He; [discriminate|].
  apply Forall_cons in Hesc as [Hc Hesc]. destruct (Z.eqb_spec c 0) as [->|H0]; [now apply IH|].
  destruct (Z.eqb_spec c ch_backspace) as [->|H8]; cbn [andb].
  - destruct buf as [|b0 buf0]; [now apply IH|]. cbn [length]. rewrite (proj2 (Z.eqb_neq (Z.of_nat (S (length buf0))) 0)) by lia. cbn [negb].
    eapply Returns_bind; [now apply kputchar_calm|]. intros [r k'] [_ Hk']. rewrite wrap_small by (cbn [length] in Hlen; pow2_consts; lia).
    pose proof (length_removelast (b0 :: buf0)) as EL. replace (Z.of_nat (S (length buf0)) - 1) with (Z.of_nat (length (removelast (b0 :: buf0)))) by (rewrite EL; cbn [length]; lia).
    apply IH; auto; [lia|now apply holds_removelast].
  - eapply Returns_bind; [now apply kputchar_calm|]. intros [r k'] [-> Hk']. pose proof (ca_escape _ (ck_term _ Hk')) as ->.
    rewrite (proj2 (Z.eqb_neq c 0) H0). cbn [orb]. rewrite wrap_small by (pow2_consts; lia).
    pose proof (holds_snoc m line buf c Hb) as Hb'.
    assert (line_only line m0 (upd m (line + Z.of_nat (length buf)) (u8 c))) as Hm' by (apply line_only_upd; [exact Hm|unfold LINE_SIZE; lia]).
    destruct (Nat.eqb_spec (length buf) 255) as [E255|N255].
    + injection He as <- <-. rewrite E255. change (Z.of_nat 255 + 1 >? 255) with true. cbv iota.
      eapply Returns_bind; [apply kprintf_calm; [exact Hk'|]|].
      { repeat constructor; discriminate. }
      intros [? k2] Hk2. apply Returns_ret. cbn. splits; auto; [|now rewrite upd_eq]. intros a Ha. rewrite upd_ne by (unfold LINE_SIZE in Ha; lia).
      rewrite E255 in Hm'. now apply Hm'.
    + rewrite Z.gtb_ltb, (proj2 (Z.ltb_ge 255 (Z.of_nat (length buf) + 1))) by lia. destruct (Z.eqb_spec c ch_newline) as [->|H10].
      * injection He as <- <-. apply Returns_ret. cbn. splits; auto; [|lia].
        intros j d E. apply Hb'. now apply lookup_app_l_Some.
      * replace (Z.of_nat (length buf) + 1) with (Z.of_nat (length (buf ++ [c]))) by (rewrite length_app; cbn; lia).
        apply IH; auto. rewrite length_app. cbn. lia.
Qed.

(** C31: [kreadline] is the line editor: whatever text and backspaces are typed (the escape key
    apart, which [kreadline_writes_before] is about), it returns with the edited line in its buffer, as a C string, when the new line comes, or with an
    empty string and [EOVERFLOW] when there is no room; it uses no more keys than that, writes
    nothing outside of its 256 bytes, and leaves the locks free.  The only other outcome is
    the panic of the allocator. *)
Theorem kreadline_correct {H : Type} `{KH : KernelHeap H} `{KHL : !KernelHeapLaws H} font sfuel prompt keys live res rest (s : readline_state H) :
  calm_ks (rl_ks s) -> kreadlineLock s = false -> kh_ok (rl_heap s) -> kh_live (rl_heap s) live ->
  plain_text (default [] prompt) -> Forall (fun c => c <> ch_escape) keys -> edit 255 keys [] = Some (res, rest) ->
  Safe (kreadline font sfuel prompt keys s) (fun '(line, rest', s') =>
    rest' = rest /\ calm_ks (rl_ks s') /\ kreadlineLock s' = false /\ line_only line (rl_mem s) (rl_mem s') /\
    (exists n, LINE_SIZE <= n /\ kh_live (rl_heap s') ((line, n) :: live)) /\
    match res with
    | Line text => kerrno s' = 0 /\ holds (rl_mem s') line (text ++ [0])
    | TooLong => kerrno s' = EOVERFLOW /\ rl_mem s' line = 0
    end).
Proof.
  intros Hk Hl Hok Hlive Hp Hesc He. unfold kreadline.
  assert (Returns (match prompt with Some p => '(_, k) ← kprintf font (rl_mem s) sfuel p [] (rl_ks s); Ret k | None => Ret (rl_ks s) end) calm_ks)
    as (k1 & -> & Hk1).
  { destruct prompt as [p|]; [|now apply Returns_ret]. eapply Returns_bind; [now apply kprintf_calm|]. intros [? k1] Hk1. now apply Returns_ret. }
  cbn [mbind outcome_bind]. pose proof (kh_malloc_spec LINE_SIZE (rl_heap s) live ltac:(split; [easy|reflexivity]) Hok Hlive) as HM.
  destruct (kh_malloc LINE_SIZE (rl_heap s)) as [[line h]| | | |]; try contradiction; cbn [mbind outcome_bind Safe]; [|exact I].
  destruct HM as (n & Hpos & _ & Hn & Hend & _ & Hlive' & _). rewrite Hl. cbn [acquireLock mbind outcome_bind].
  destruct (read_keys_spec font sfuel line 0 (rl_mem s) rest res keys [] (rl_mem s) k1 Hk1 Hesc ltac:(cbn; lia) ltac:(intros ? ? E; discriminate E) ltac:(intros ? ?; reflexivity) He)
    as ([[[[i err] m] k] rest'] & E & (-> & Hk' & Hm & HR)).
  cbv zeta in E. change (Z.of_nat (length [])) with 0 in E. rewrite E. cbn [mbind outcome_bind Safe rl_ks kreadlineLock rl_mem rl_heap kerrno releaseLock].
  assert (1 <= i <= 256) as Hi by (destruct res; lia). unfold LINE_SIZE in Hn.
  rewrite wrap_small by (pow2_consts; lia). splits; auto.
  - apply line_only_upd; [exact Hm|unfold LINE_SIZE; lia].
  - exists n. auto.
  - destruct res as [text|]; [destruct HR as (-> & -> & Hb & Ht)|destruct HR as (-> & -> & Hz)].
    + split; [reflexivity|]. replace (Z.of_nat (length text) + 1 - 1) with (Z.of_nat (length text)) by lia.
      change 0 with (u8 0) at 1. now apply holds_snoc.
    + split; [reflexivity|]. rewrite upd_ne by lia. exact Hz.
Qed.

#[local] Instance demo_heap : KernelHeap (kheap_state pmm_state) := kheap_heap HHDM.
#[local] Instance demo_heap_laws : KernelHeapLaws (kheap_state pmm_state) := kheap_heap_laws HHDM.

Definition rl_demo : readline_state (kheap_state pmm_state) :=
  mk_rl (mk_kstdio term_demo true false false false) (fun _ => 7) (heap list_demo) false 0.

Lemma list_demo_heap : kh_ok (heap list_demo) /\ kh_live (heap list_demo) [].
Proof.
  destruct list_demo_rep as (_ & cells & (_ & _ & _ & _ & _ & _ & Hok & Hl) & E). destruct cells; [|discriminate]. auto.
Qed.

Lemma kreadline_correct_witness :
  Safe (kreadline (fun i => i) 1 (Some (chars ">")) (chars "vet" ++ [8] ++ chars "r" ++ [10; 65]) rl_demo) (fun '(line, rest, s') =>
    rest = [65] /\ holds (rl_mem s') line (chars "ver" ++ [0])).
Proof.
  eapply Safe_mono; [apply (kreadline_correct (fun i => i) 1 (Some (chars ">")) (chars "vet" ++ [8] ++ chars "r" ++ [10; 65]) [] (Line (chars "ver")) [65] rl_demo)|].
  - split; [split|..]; try reflexivity; discriminate.
  - reflexivity.
  - apply list_demo_heap.
  - apply list_demo_heap.
  - repeat constructor; discriminate.
  - repeat constructor; discriminate.
  - reflexivity.
  - intros [[line rest] s'] (-> & _ & _ & _ & _ & _ & E). auto.
Defined.

(** The escape key is not text: the terminal takes the next key as part of a sequence.
    When that is the new line, the line ends with nothing stored and the end of the string
    is written in front of the buffer. *)
Theorem kreadline_writes_before {H : Type} `{KH : KernelHeap H} `{KHL : !KernelHeapLaws H} font sfuel live (s : readline_state H) :
  calm_ks (rl_ks s) -> kernelScreenOut (rl_ks s) = true -> escapeOffset (ks_term (rl_ks s)) = 0 ->
  kreadlineLock s = false -> kh_ok (rl_heap s) -> kh_live (rl_heap s) live ->
  Safe (kreadline font sfuel None [ch_escape; ch_newline] s) (fun '(line, _, s') =>
    rl_mem s' (line - 1) = 0 /\ rl_mem s' line = rl_mem s line).
Proof.
  intros [[He Hx Hl Hf Hb] _ _] Hs Ho Hrl Hok Hlive. unfold kreadline. cbn [mbind outcome_bind].
  pose proof (kh_malloc_spec LINE_SIZE (rl_heap s) live ltac:(split; [easy|reflexivity]) Hok Hlive) as HM.
  destruct (kh_malloc LINE_SIZE (rl_heap s)) as [[line h]| | | |]; try contradiction; cbn [mbind outcome_bind Safe]; [|exact I].
  destruct HM as (n & Hpos & _ & Hn & Hend & _). rewrite Hrl. cbn [acquireLock mbind outcome_bind].
  destruct (rl_ks s) as [t so v p g]. cbn [ks_term kernelScreenOut] in *. subst so. cbn [read_keys]. cbn -[kputchar u64 Z.add].
  assert (exists t1, term_putchar font ch_escape t = Ret (ch_escape, t1) /\ escape t1 = true /\ enabled t1 = true /\ t_lock t1 = false /\ escapeOffset t1 = 0)
    as (t1 & E1 & X1 & N1 & L1 & O1).
  { unfold term_putchar. rewrite He, Hl. cbn. rewrite Hx. cbn. eexists. split; [reflexivity|]. cbn. auto. }
  assert (exists t2, term_putchar font ch_newline t1 = Ret (0, t2)) as (t2 & E2).
  { unfold term_putchar. rewrite N1, L1. cbn. rewrite X1. unfold term_handle_esc. cbn. rewrite O1. cbn. eauto. }
  unfold kputchar. cbn [kernelScreenOut ks_term]. rewrite E1. cbn -[u64 Z.add term_putchar]. rewrite X1. cbn -[u64 Z.add term_putchar]. rewrite E2.
  cbn -[u64 Z.add]. rewrite orb_true_r. cbn -[u64 Z.add]. rewrite wrap_small by (unfold LINE_SIZE in Hn; pow2_consts; lia).
  split; [|rewrite upd_ne by lia; reflexivity]. replace (line - 1) with (line + (0 - 1)) by lia. apply upd_eq.
Qed.
