(* ===== verification/Kcon.v ===== *)
(** * The kernel console ([kernel/consoledemo/kcon.c])

    A table of commands in a [ListDs] list, each entry a structure of the heap with the
    command's name and a function; the console reads lines and runs the command of that
    name.  The devices, file systems and drives that commands list are given as Rocq
    lists in the order in which the kernel's own lists are walked; names are strings in
    byte memory. *)

From S2P Require Import Prelude DeviceIds Interfaces MemMap Pmm MemUtil Kheap ListDs Bytes Bcache Time Term Kprintf Readline.
#[local] Open Scope Z_scope.

(** [sizeof(kcon_command_t)]: the name in 16 bytes, then the function. *)
Definition COMMAND_SIZE : Z := 24.
Definition KERNEL_VER : string := "v0.02-alpha-snapshot".
Definition DRIVE_TYPE_OPTICAL : Z := 2.

(** The functions of the file, as values of the pointer in a command. *)
Inductive command : Type :=
| console_help | console_clear | console_ver | console_mm | console_timedate | console_dev
| console_cpu | console_fs | console_drives | console_user | console_shutdown | console_reboot.

Record statfs_t : Type := mk_statfs { files : Z; totalBlocks : Z; freeBlocks : Z; bsize : Z }.

(** What the commands show of the rest of the kernel: a device is its name, its type and
    the path of its driver, a file system its number, its name and what [vfs_statfs]
    returns, where there is one. *)
Record listed_device : Type := mk_ldev { ld_name : Z; ld_type : Z; ld_path : option Z }.
Record listed_fs : Type := mk_lfs { lf_fid : Z; lf_name : Z; lf_statfs : option statfs_t }.
Record listed_drive : Type := mk_ldrv { ldr_id : Z; ldr_name : Z; ldr_type : Z; ldr_parts : list partition_t }.

Record kernel_view : Type := mk_view {
  kv_pmm : pmm_state;
  kv_kheapSize : Z;
  kv_time : timespec64_t;
  kv_devices : list listed_device;
  kv_fs : list listed_fs;
  kv_drives : list listed_drive
}.

Record kcon (H : Type) : Type := mk_kcon {
  kc_rl : readline_state H;
  commandList : list_t H;
  kc_fn : Z -> command;
  exit : bool
}.
Arguments mk_kcon {H}.
Arguments kc_rl {H}.
Arguments commandList {H}.
Arguments kc_fn {H}.
Arguments exit {H}.

Definition newline : list Z := [10].

Definition help_text : list Z :=
  chars "commands:" ++ newline ++ newline ++
  chars "help       - show this text" ++ newline ++
  chars "clear      - clear screen" ++ newline ++
  chars "ver        - show kernel version" ++ newline ++
  chars "mm         - show memory and mm info" ++ newline ++
  chars "timedate   - show RTC Time and Date" ++ newline ++
  chars "dev        - list all devices" ++ newline ++
  chars "cpu        - show all detected processors" ++ newline ++
  chars "fs         - list mounted filesystems" ++ newline ++
  chars "drives     - list all drives" ++ newline ++
  chars "user       - enter userspace" ++ newline ++
  chars "shutdown   - shutdown the system" ++ newline ++
  chars "reboot     - perform a reboot" ++ newline.

Section Code.
Variables (font : Z -> Z) (sfuel : nat).

(** *** The commands: what they print

    [print fmt args] is [kprintf]. *)
Section Commands.
Variable K : Type.
Variable print : list Z -> list Z -> K -> outcome K.

Definition mib (n : Z) : Z := n / 1024 / 1024.

Definition show_mm (v : kernel_view) (k : K) : outcome K :=
  print (chars "%dMiB/%dMiB used" ++ newline ++ chars "kheap size: %dMiB" ++ newline)
    [mib (u64 (pmm_get_used_pages_count (kv_pmm v) * PAGE_SIZE));
     mib (u64 (pmm_get_usable_pages_count (kv_pmm v) * PAGE_SIZE)); mib (kv_kheapSize v)] k.

Definition two_digits (n : Z) (k : K) : outcome K :=
  if n <? 10 then print (chars "0") [] k else Ret k.

Definition show_timedate (v : kernel_view) (k : K) : outcome K :=
  let unixtime := time_get64 (kv_time v) in
  let time := time_conv_to_systime64 unixtime in
  k ← print (chars "UNIX Time: %u" ++ newline ++ newline) [sec64 unixtime] k;
  k ← print (chars "%d/%d/%u" ++ newline) [month time; dayOfMonth time; year time] k;
  k ← print (chars "%d:") [hours time] k;
  k ← two_digits (minutes time) k;
  k ← print (chars "%d:") [minutes time] k;
  k ← two_digits (seconds time) k;
  print (chars "%d" ++ newline) [seconds time] k.

Fixpoint show_devices (l : list listed_device) (k : K) : outcome K :=
  match l with
  | [] => Ret k
  | d :: l =>
      k ← print (chars "Device: %s" ++ newline ++ chars "Driver: ") [ld_name d] k;
      k ← match ld_path d with
          | None => print (chars "No Device Driver Loaded" ++ newline ++ newline) [] k
          | Some p => print (chars "%s" ++ newline ++ newline) [p] k
          end;
      show_devices l k
  end.

Fixpoint show_cpus (l : list listed_device) (k : K) : outcome K :=
  match l with
  | [] => Ret k
  | d :: l =>
      k ← (if ld_type d =? DEVICE_TYPE_PROCESSOR then print (chars "%s" ++ newline) [ld_name d] k else Ret k);
      show_cpus l k
  end.

Definition fs_fmt : list Z :=
  chars "FID=%d: %s - %u Files. Total blocks %u (%u MiB), Free blocks %u (%u MiB), block size: %d" ++ newline.

Fixpoint show_fs (l : list listed_fs) (k : K) : outcome K :=
  match l with
  | [] => Ret k
  | f :: l =>
      k ← match lf_statfs f with
          | None => Ret k
          | Some st => print fs_fmt [lf_fid f; lf_name f; files st; totalBlocks st; mib (u64 (totalBlocks st * bsize st));
                         freeBlocks st; mib (u64 (freeBlocks st * bsize st)); bsize st] k
          end;
      show_fs l k
  end.

Definition part_fmt : list Z :=
  chars "   Partition %d: Start LBA: 0x%x, End LBA: 0x%x, Size: %dKiB (%d Bytes)" ++ newline.

Fixpoint show_parts (j : Z) (l : list partition_t) (k : K) : outcome K :=
  match l with
  | [] => Ret k
  | p :: l => k ← print part_fmt [j; startLBA p; endLBA p; part_size p / 1024; part_size p] k; show_parts (j + 1) l k
  end.

(** An optical or an unpartitioned drive ends the function. *)
Fixpoint show_drives (l : list listed_drive) (k : K) : outcome K :=
  match l with
  | [] => Ret k
  | d :: l =>
      k ← print (chars "driveID %d: %s" ++ newline) [ldr_id d; ldr_name d] k;
      if ldr_type d =? DRIVE_TYPE_OPTICAL then print (chars "   (Optical Media does not support Partitions)" ++ newline) [] k
      else match ldr_parts d with
           | [] => print (chars "   (Drive not Partitioned)" ++ newline) [] k
           | ps => k ← show_parts 0 ps k; show_drives l k
           end
  end.
End Commands.

(** *** The console *)

Context {H : Type} `{KH : KernelHeap H}.
(** [power_shutdown] and [power_reboot]; the rest of the kernel. *)
Variable power : command -> kcon H -> outcome (kcon H).
Variable view : kernel_view.
Implicit Types (s : kcon H).

Definition put_rl (r : readline_state H) s : kcon H := mk_kcon r (commandList s) (kc_fn s) (exit s).
Definition put_kks (k : kstdio) s : kcon H :=
  let r := kc_rl s in put_rl (mk_rl k (rl_mem r) (rl_heap r) (kreadlineLock r) (kerrno r)) s.

Definition print_at (m : mem) (fmt args : list Z) (k : kstdio) : outcome kstdio :=
  '(_, k) ← kprintf font m sfuel fmt args k; Ret k.

(** A command that only prints. *)
Definition printing (f : (list Z -> list Z -> kstdio -> outcome kstdio) -> kstdio -> outcome kstdio) s : outcome (kcon H) :=
  k ← f (print_at (rl_mem (kc_rl s))) (rl_ks (kc_rl s)); Ret (put_kks k s).

Definition clear_screen s : outcome (kcon H) :=
  t ← term_clear (ks_term (rl_ks (kc_rl s))); Ret (put_kks (set_ks_term t (rl_ks (kc_rl s))) s).

Definition run_command (c : command) s : outcome (kcon H) :=
  match c with
  | console_help => printing (fun print => print help_text []) s
  | console_clear => clear_screen s
  | console_ver => printing (fun print => print (chars KERNEL_VER ++ newline) []) s
  | console_mm => printing (fun print => show_mm _ print view) s
  | console_timedate => printing (fun print => show_timedate _ print view) s
  | console_dev => printing (fun print => show_devices _ print (kv_devices view)) s
  | console_cpu => printing (fun print => show_cpus _ print (kv_devices view)) s
  | console_fs => printing (fun print => show_fs _ print (kv_fs view)) s
  | console_drives => printing (fun print => show_drives _ print (kv_drives view)) s
  | console_user => s ← clear_screen s; Ret (mk_kcon (kc_rl s) (commandList s) (kc_fn s) true)
  | console_shutdown => power console_shutdown s
  | console_reboot => power console_reboot s
  end.

(** [cmd] is the string a caller passes. *)
Definition kcon_add_command (cmd : list Z) (function : command) s : outcome (kcon H) :=
  let r := kc_rl s in
  '(a, h) ← kh_malloc COMMAND_SIZE (rl_heap r);
  let m := write_bytes cmd a (rl_mem r) in
  let m := upd m (a + Z.of_nat (length cmd)) 0 in
  '(l, h) ← run_list (list_insert a) (commandList s) h;
  Ret (mk_kcon (mk_rl (rl_ks r) m h (kreadlineLock r) (kerrno r)) l (upd (kc_fn s) a function) (exit s)).

Fixpoint add_commands (cs : list (list Z * command)) s : outcome (kcon H) :=
  match cs with
  | [] => Ret s
  | (cmd, f) :: cs => s ← kcon_add_command cmd f s; add_commands cs s
  end.

Definition kcon_commands : list (list Z * command) :=
  [(chars "help", console_help); (chars "clear", console_clear); (chars "ver", console_ver); (chars "mm", console_mm);
   (chars "timedate", console_timedate); (chars "dev", console_dev); (chars "cpu", console_cpu); (chars "fs", console_fs);
   (chars "drives", console_drives); (chars "user", console_user); (chars "shutdown", console_shutdown);
   (chars "reboot", console_reboot)].

(** The [foreach] over the table. *)
Fixpoint find_command (fuel : nat) (item cmd : Z) s : outcome (option command) :=
  match fuel with
  | O => OutOfFuel
  | S f =>
      if item =? 0 then Ret None
      else
        let n := nodes (commandList s) item in
        c ← strcmp sfuel (n_value n) cmd (rl_mem (kc_rl s));
        if c =? 0 then Ret (Some (kc_fn s (n_value n))) else find_command f (n_next n) cmd s
  end.

(** One line; the keys that are left. *)
Definition console_line (lfuel : nat) (keys : list Z) s : outcome (list Z * kcon H) :=
  '(cmd, keys, r) ← kreadline font sfuel (Some (chars ">")) keys (kc_rl s);
  let s := put_rl r s in
  if rl_mem r cmd =? 0 then Ret (keys, s)
  else
    c ← find_command lfuel (head (commandList s)) cmd s;
    match c with
    | Some c => s ← run_command c s; Ret (keys, s)
    | None => s ← printing (fun print => print (chars "Unknown command: %s" ++ newline) [cmd]) s; Ret (keys, s)
    end.

Fixpoint kcon_loop (fuel lfuel : nat) (keys : list Z) s : outcome (list Z * kcon H) :=
  match fuel with
  | O => OutOfFuel
  | S f =>
      if exit s then Ret (keys, s)
      else '(keys, s) ← console_line lfuel keys s; kcon_loop f lfuel keys s
  end.

Definition init_table s : outcome (kcon H) :=
  let r := kc_rl s in
  '(_, l) ← list_create (nodes (commandList s)) (rl_heap r);
  add_commands kcon_commands (mk_kcon (mk_rl (rl_ks r) (rl_mem r) (heap l) (kreadlineLock r) (kerrno r)) l (kc_fn s) (exit s)).

Definition init_kcon (fuel lfuel : nat) (keys : list Z) s : outcome (list Z * kcon H) :=
  s ← clear_screen s;
  s ← init_table s;
  s ← printing (fun print => print (chars "GarnOS Kernel Console Demo" ++ newline) []) s;
  kcon_loop fuel lfuel keys s.
End Code.

(** ** The table of commands *)

Section Table.
Context {H : Type} `{KH : KernelHeap H} `{KHL : !KernelHeapLaws H}.
Implicit Types (s : kcon H) (R : list (Z * Z)) (e : list Z * command).

(** An entry at [v]: the name and the function, in a live area of the heap. *)
Definition entry_at s R (v : Z) e : Prop :=
  cstr (rl_mem (kc_rl s)) v (fst e) /\ kc_fn s v = snd e /\ (length (fst e) <= 15)%nat /\
  exists n, COMMAND_SIZE <= n /\ (v, n) ∈ R.

(** The table has these entries, in this order. *)
Definition table s (es : list (list Z * command)) R : Prop :=
  l_lock (commandList s) = false /\
  exists cs, list_shape (set_list_heap (rl_heap (kc_rl s)) (commandList s)) cs R /\
    Forall2 (fun c e => entry_at s R (c_value c) e) cs es.

Definition short_name (cmd : list Z) : Prop := (length cmd <= 15)%nat /\ Forall (fun c => 0 < c < 256) cmd.

Lemma name_written cmd a (m : mem) : short_name cmd -> cstr (upd (write_bytes cmd a m) (a + Z.of_nat (length cmd)) 0) a cmd.
Proof.
  intros [_ Hc]. apply cstr_intro; [|apply upd_eq]. intros j Hj. rewrite upd_ne by lia.
  rewrite <- (Z2Nat.id j) at 1 by lia. rewrite write_bytes_at by lia. split; [reflexivity|].
  rewrite Forall_forall in Hc. apply Hc. apply list_elem_of_In, nth_In. lia.
Qed.

(** An entry survives the next registration. *)
Lemma entry_kept s s' R R' a n v e cmd : entry_at s R v e -> (length cmd <= 15)%nat -> COMMAND_SIZE <= n ->
  rl_mem (kc_rl s') = upd (write_bytes cmd a (rl_mem (kc_rl s))) (a + Z.of_nat (length cmd)) 0 ->
  (forall x, x <> a -> kc_fn s' x = kc_fn s x) -> Forall (apart (a, n)) R -> R ⊆ R' -> entry_at s' R' v e.
Proof.
  unfold entry_at, COMMAND_SIZE. intros (E1 & E2 & E3 & k & Ek & Ein) Hl Hn Hm Hf Hap Hsub. rewrite Forall_forall in Hap.
  pose proof (Hap _ Ein) as HA. unfold apart in HA. cbn [fst snd] in HA. splits; auto.
  - rewrite Hm. revert E1. apply cstr_frame. intros j Hj. rewrite upd_ne by lia. apply write_bytes_outside. lia.
  - rewrite Hf; [exact E2|lia].
  - exists k. split; [exact Ek|]. now apply Hsub.
Qed.

Lemma kcon_add_command_spec cmd f s es R : table s es R -> short_name cmd -> Z.of_nat (length es) < 2 ^ 32 ->
  Safe (kcon_add_command cmd f s) (fun s' => exists R', table s' (es ++ [(cmd, f)]) R').
Proof.
  intros (Lk & cs & Hs & Hes) Hc Hlen. unfold kcon_add_command.
  pose proof Hs as (H1 & H2 & H3 & H4 & H5 & H6 & H7 & H8). cbn [heap set_list_heap] in H7, H8.
  pose proof (kh_malloc_spec COMMAND_SIZE _ _ ltac:(split; [easy|reflexivity]) H7 H8) as HM.
  destruct (kh_malloc COMMAND_SIZE (rl_heap (kc_rl s))) as [[a h]| | | |]; try contradiction; cbn [mbind outcome_bind Safe]; [|exact I].
  destruct HM as (n & A1 & _ & A3 & A4 & A5 & A6 & A7). unfold run_list.
  assert (list_shape (set_list_heap h (commandList s)) cs ((a, n) :: R)) as Hs1.
  { unfold list_shape. splits; auto. cbn [heap set_list_heap]. eapply kh_live_perm; [exact A6|]. now rewrite Permutation_middle. }
  pose proof (Forall2_length _ _ _ Hes) as Hlcs.
  pose proof (list_insert_shape (set_list_heap h (commandList s)) cs _ a Lk Hs1 ltac:(change (2 ^ 32) with 4294967296 in Hlen; pow2_consts; lia)) as HI.
  destruct (list_insert a (set_list_heap h (commandList s))) as [l| | | |]; try contradiction; cbn [mbind outcome_bind Safe]; [|exact I].
  destruct HI as (Lk' & c & Ec & Hs'). exists ((a, n) :: R). split; [exact Lk'|]. exists (cs ++ [c]). split.
  - cbn [commandList kc_rl rl_heap]. destruct l. exact Hs'.
  - apply Forall2_app.
    + eapply Forall2_impl; [exact Hes|]. intros c' e He. apply (entry_kept s _ R _ a n _ _ cmd He).
      * apply Hc.
      * exact A3.
      * reflexivity.
      * intros x Hx. cbn [kc_fn]. now apply upd_ne.
      * apply Forall_app in A7. apply A7.
      * set_solver.
    + constructor; [|constructor]. unfold entry_at. cbn [kc_rl rl_mem kc_fn fst snd]. rewrite Ec. splits.
      * now apply name_written.
      * apply upd_eq.
      * apply Hc.
      * exists n. split; [exact A3|set_solver].
Qed.

(** The command of a name. *)
Definition command_named (nm : list Z) (es : list (list Z * command)) : option command :=
  option_map snd (List.find (fun e => bool_decide (fst e = nm)) es).

Lemma find_command_spec sfuel line nm s R : forall es cs fuel,
  chain (nodes (commandList s)) cs 0 -> Forall (fun c => 0 < c_addr c /\ 0 < c_size c) cs ->
  Forall2 (fun c e => entry_at s R (c_value c) e) cs es -> cstr (rl_mem (kc_rl s)) line nm ->
  (15 < sfuel)%nat -> (length es < fuel)%nat ->
  find_command sfuel fuel (first_cell 0 cs) line s = Ret (command_named nm es).
Proof.
  intros es cs. revert es. induction cs as [|c cs IH]; intros es [|f] Hch Hp H2 Hl Hsf Hf; cbn [length] in Hf; try lia.
  - apply Forall2_nil_inv_l in H2 as ->. reflexivity.
  - apply Forall2_cons_inv_l in H2 as (e & es' & He & H2 & ->). cbn [length] in Hf. apply Forall_cons in Hp as [[Hp0 _] Hp].
    destruct Hch as [En Hch]. cbn [find_command first_cell].
    rewrite (proj2 (Z.eqb_neq (c_addr c) 0)), En by lia. cbn [n_value n_next].
    destruct He as (E1 & E2 & E3 & _). destruct (strcmp_spec _ (fst e) nm sfuel _ line E1 Hl ltac:(lia)) as (r & -> & Hr).
    cbn [mbind outcome_bind]. unfold command_named. cbn [List.find]. destruct (Z.eqb_spec r 0) as [E|E].
    + rewrite bool_decide_true by now apply Hr. cbn [option_map]. now rewrite E2.
    + rewrite bool_decide_false by (intros E'; now apply E, Hr). apply (IH es' f); auto. lia.
Qed.
End Table.

(** Building the table of the console: every command of the file is found under its name,
    and no other name is. *)
Theorem kcon_table_correct {H : Type} `{KH : KernelHeap H} `{KHL : !KernelHeapLaws H} sfuel (s : kcon H) R :
  kh_ok (rl_heap (kc_rl s)) -> kh_live (rl_heap (kc_rl s)) R -> (15 < sfuel)%nat ->
  Safe (init_table s) (fun s' => (exists R', table s' kcon_commands R') /\
    forall line nm, cstr (rl_mem (kc_rl s')) line nm ->
      find_command sfuel 13 (head (commandList s')) line s' = Ret (command_named nm kcon_commands)).
Proof.
  intros Hok Hlive Hsf.
  assert (forall cs es s0 R0, table s0 es R0 -> Forall (fun e => short_name (fst e)) cs -> Z.of_nat (length es + length cs) < 2 ^ 32 ->
    Safe (add_commands cs s0) (fun s' => exists R', table s' (es ++ cs) R')) as HA.
  { induction cs as [|[cmd f] cs IH]; intros es s0 R0 Ht Hn Hlen; cbn [add_commands].
    - exists R0. now rewrite app_nil_r.
    - apply Forall_cons in Hn as [Hn0 Hn]. cbn [length] in Hlen. change (2 ^ 32) with 4294967296 in *.
      eapply Safe_bind; [apply (kcon_add_command_spec cmd f s0 es R0 Ht Hn0); change (2 ^ 32) with 4294967296; lia|].
      intros s1 (R1 & H1). replace (es ++ (cmd, f) :: cs) with ((es ++ [(cmd, f)]) ++ cs) by now rewrite <- app_assoc.
      apply (IH _ _ R1 H1 Hn). rewrite length_app. cbn [length]. lia. }
  unfold init_table, list_create.
  pose proof (kh_malloc_spec LIST_SIZE _ _ ltac:(split; [easy|reflexivity]) Hok Hlive) as HM.
  destruct (kh_malloc LIST_SIZE (rl_heap (kc_rl s))) as [[a h]| | | |]; try contradiction; cbn [mbind outcome_bind Safe]; [|exact I].
  destruct HM as (n & _ & _ & _ & _ & A5 & A6 & _).
  eapply Safe_mono; [apply (HA kcon_commands [] _ ((a, n) :: R))|].
  - split; [reflexivity|]. exists []. split; [|constructor]. unfold list_shape. splits; try reflexivity; try constructor; assumption.
  - apply List.Forall_forall. intros e He. unfold short_name. cbn in He. intuition (subst; cbn; repeat constructor).
  - reflexivity.
  - intros s' (R' & Ht). cbn [app] in Ht. split; [now exists R'|]. intros line nm Hl.
    destruct Ht as (_ & cs & (K1 & _ & _ & K4 & _ & K6 & _) & K9). cbn [head set_list_heap nodes] in K1, K4. rewrite K1.
    apply (find_command_spec sfuel line nm s' R' kcon_commands); auto.
Qed.

(** Listing the drives stops at the first drive without partitions: the drives after it are
    not shown. *)
Theorem show_drives_stops {K} (print : list Z -> list Z -> K -> outcome K) d l l' k :
  ldr_parts d = [] -> show_drives K print (d :: l) k = show_drives K print (d :: l') k.
Proof.
  intros Hp. cbn [show_drives]. rewrite Hp. destruct (print _ _ k) as [k'| | | |]; try reflexivity.
Qed.
