(* ===== verification/Programs.v ===== *)
(** * The programs of the system ([src/programs])

    The shell: reading a command, splitting it into words, finding the program; [ls], [echo],
    [fib] and [gname].  Texts are lists of characters; what the system calls deliver (the
    keys typed, the entries of a directory) is an argument, what a program prints is the
    result.  The functions of the C library they use are those of the standard. *)

From S2P Require Import Prelude MemUtil Bytes Term Readline.
#[local] Open Scope Z_scope.

Definition MAX_PATH : Z := 4096.
Definition MAX_CMD : Z := 4096.
Definition MAX_ARGS : Z := 256.

(** ** The shell *)

(** The loop of [get_command] on the characters that [read] delivers, 0 where there is
    none yet; [p] is an index of the array [cmd]. *)
Fixpoint get_keys (keys : list Z) (p backspaces : Z) (cmd : mem) : outcome (Z * mem * list Z) :=
  match keys with
  | [] => OutOfFuel
  | chr :: keys =>
      if chr =? 0 then get_keys keys p backspaces cmd
      else if chr =? ch_backspace then
        if negb (backspaces =? 0) then get_keys keys (p - 1) (backspaces - 1) cmd else get_keys keys p backspaces cmd
      else if (p <? 0) || (MAX_CMD <=? p) then Fault
      else
        let cmd := upd cmd p (u8 chr) in
        if p + 1 >? 4096 then Ret (p + 1, cmd, keys)
        else if chr =? ch_newline then Ret (p + 1, cmd, keys)
        else get_keys keys (p + 1) (backspaces + 1) cmd
  end.

(** [typed] is what was typed before and is thrown away. *)
Definition get_command (typed keys : list Z) (cmd : mem) : outcome (mem * list Z) :=
  '(p, cmd, rest) ← get_keys keys 0 0 cmd;
  Ret (upd cmd (p - 1) 0, rest).

(** [strtok] with a blank: the words of a text. *)
Fixpoint words (l cur : list Z) : list (list Z) :=
  match l with
  | [] => if decide (cur = []) then [] else [cur]
  | c :: r => if c =? 32 then (if decide (cur = []) then words r [] else cur :: words r []) else words r (cur ++ [c])
  end.

Definition starts (pre l : list Z) : bool := bool_decide (take (length pre) l = pre).

(** The path of a program: as it is when it begins with a slash or a dot and a slash, in
    [/bin/], with the ending [.elf], otherwise.  It is built in an area of [MAX_PATH]. *)
Definition program_path (tok : list Z) : outcome (list Z) :=
  if starts (chars "/") tok || starts (chars "./") tok then Ret tok
  else
    let prog := chars "/bin/" ++ tok in
    let prog := if bool_decide (drop (length prog - 4) prog = chars ".elf") then prog else prog ++ chars ".elf" in
    if MAX_PATH <? Z.of_nat (length prog) + 1 then Fault else Ret prog.

(** [run_program]: the path and the arguments for [execve].  The array of arguments has room
    for [MAX_ARGS] and the NULL behind them. *)
Definition run_program (cmd : list Z) : outcome (option (list Z * list (list Z))) :=
  match words cmd [] with
  | [] => Ret None
  | tok :: args =>
      prog ← program_path tok;
      if MAX_ARGS <=? Z.of_nat (length args) then Fault else Ret (Some (prog, prog :: args))
  end.

(** What the shell does with a command. *)
Inductive action : Type := Nothing | StatusOk | ChangeDir (path : list Z) | Run (prog : list Z) (argv : list (list Z)).

Definition shell_command (cmd : list Z) : outcome action :=
  if bool_decide (cmd = []) then Ret StatusOk
  else if starts (chars "cd ") cmd || bool_decide (cmd = chars "cd") then
    if (length cmd <=? 3)%nat then Ret Nothing else Ret (ChangeDir (drop 3 cmd))
  else
    r ← run_program cmd;
    match r with None => Ret Nothing | Some (prog, argv) => Ret (Run prog argv) end.

(** ** ls *)

Definition DT_DIR : Z := 4.
Definition DT_REG : Z := 8.
Definition DT_CHR : Z := 2.
Definition DT_BLK : Z := 6.

(** The text from the last dot on, if there is one ([strrchr]). *)
Fixpoint strrchr (c : Z) (l : list Z) : option (list Z) :=
  match l with
  | [] => None
  | x :: r => match strrchr c r with Some t => Some t | None => if x =? c then Some l else None end
  end.

Definition get_ext (filename : list Z) : list Z :=
  match strrchr 46 filename with
  | None => []
  | Some ext => if bool_decide (ext = filename) then [] else tail ext
  end.

Definition colour (rgb : string) (name : list Z) : list Z :=
  [27] ++ chars ("[38;2;" ++ rgb ++ "m") ++ name ++ [27] ++ chars "[38;2;255;255;255m" ++ [10].

Definition is_program (name : list Z) : bool :=
  bool_decide (get_ext name = chars "elf") || bool_decide (get_ext name = chars "sys") || bool_decide (get_ext name = chars "bin").

Definition ls_entry (e : list Z * Z) : list Z :=
  let '(d_name, d_type) := e in
  if d_type =? DT_REG then
    if is_program d_name then colour "0;255;0" d_name else d_name ++ [10]
  else if d_type =? DT_DIR then colour "0;0;255" d_name
  else if (d_type =? DT_CHR) || (d_type =? DT_BLK) then colour "100;100;255" d_name
  else d_name ++ chars " (UNKNOWN TYPE)" ++ [10].

(** [opendir] gives the entries of a directory, or fails with the text of an error. *)
Definition ls (dir : list Z -> list (list Z * Z) + list Z) (path : list Z) : list Z * Z :=
  match dir path with
  | inr err => (chars "ls: cant access '" ++ path ++ chars "': " ++ err ++ [10], -1)
  | inl entries =>
      (flat_map ls_entry (filter (fun e : list Z * Z => e.1 <> chars ".." /\ e.1 <> chars ".") entries), 0)
  end.

(** For more than one directory, each is tried first and gets a heading. *)
Fixpoint ls_args (dir : list Z -> list (list Z * Z) + list Z) (args : list (list Z)) (ret : Z) : list Z * Z :=
  match args with
  | [] => ([], ret)
  | a :: r =>
      match dir a with
      | inr err =>
          let '(out, ret) := ls_args dir r (-1) in
          (chars "ls: cant access '" ++ a ++ chars "': " ++ err ++ [10] ++ out, ret)
      | inl _ =>
          let '(l, retls) := ls dir a in
          let '(out, ret) := ls_args dir r (if negb (retls =? 0) then retls else ret) in
          (a ++ chars ":" ++ [10] ++ l ++ [10] ++ out, ret)
      end
  end.

Definition ls_main (dir : list Z -> list (list Z * Z) + list Z) (args : list (list Z)) : list Z * Z :=
  match args with
  | [] => ls dir (chars ".")
  | [a] => ls dir a
  | _ => ls_args dir args 0
  end.

(** ** echo *)

Definition echo_main (args : list (list Z)) : list Z := flat_map (fun a => a ++ [32]) args ++ [10].

(** ** fib *)

(** [fib[i]] for [i] from 2 up to [n], at the width of [long long]. *)
Fixpoint fib_loop (k : nat) (fib : list Z) : list Z :=
  match k with
  | O => fib
  | S k' => let i := length fib in fib_loop k' (fib ++ [i64 (nth (i - 1) fib 0 + nth (i - 2) fib 0)])
  end.

Inductive fib_output : Type := FibError | FibText (s : string) | FibNumbers (l : list Z).

(** [n] is [atoi(argv[1])]. *)
Definition fib_main (argc n : Z) : fib_output :=
  if argc =? 1 then FibError
  else if argc >=? 3 then FibError
  else if (n >? 93) || (n <=? 0) then FibError
  else if n =? 1 then FibText "1"
  else if n =? 2 then FibText "1 1"
  else FibNumbers (fib_loop (Z.to_nat (n - 2)) [0; 1]).

(** ** gname *)

Record utsname : Type := mk_uts { sysname : string; nodename : string; release : string; version : string; machine : string }.

(** What each option prints, without the new line. *)
Definition gname_option (name : utsname) (opt : ascii) : option string :=
  match opt with
  | "s"%char => Some (sysname name)
  | "n"%char => Some (nodename name)
  | "r"%char => Some (version name)
  | "v"%char => Some (release name)
  | "m"%char | "p"%char | "i"%char => Some (machine name)
  | "o"%char => Some "GarnOS"%string
  | "a"%char => Some (sysname name ++ " " ++ nodename name ++ " " ++ version name ++ " " ++ release name ++ " " ++ machine name ++ " GarnOS")%string
  | _ => None
  end.

Definition gname_main (name : utsname) (opts : list ascii) : list string :=
  match opts with
  | [] => [sysname name]
  | _ => omap (gname_option name) opts
  end.

(** ** Reading a command *)

Lemma get_keys_spec rest res keys : forall buf cmd, (length buf <= 4096)%nat -> holds cmd 0 buf -> edit 4096 keys buf = Some (res, rest) ->
  let n := Z.of_nat (length buf) in
  match res with
  | Line text => Returns (get_keys keys n n cmd) (fun '(p, cmd', rest') =>
      rest' = rest /\ p = Z.of_nat (length text) + 1 /\ holds cmd' 0 text /\ (length text < 4096)%nat)
  | TooLong => get_keys keys n n cmd = Fault
  end.
Proof.
  induction keys as [|c keys IH]; intros buf cmd Hl Hb; cbn [edit get_keys]; intros He; [discriminate|]. cbv zeta.
  destruct (c =? 0); [now apply IH|]. destruct (c =? ch_backspace).
  - destruct buf as [|b buf]; [now apply IH|]. cbn [length]. rewrite (proj2 (Z.eqb_neq (Z.of_nat (S (length buf))) 0)) by lia. cbn [negb].
    pose proof (length_removelast (b :: buf)) as EL. replace (Z.of_nat (S (length buf)) - 1) with (Z.of_nat (length (removelast (b :: buf)))) by (rewrite EL; cbn [length]; lia).
    apply IH; auto; [rewrite EL; lia|now apply holds_removelast].
  - rewrite (proj2 (Z.ltb_ge (Z.of_nat (length buf)) 0)) by lia. cbn [orb].
    destruct (Nat.eqb_spec (length buf) 4096) as [E|N].
    + injection He as <- <-. rewrite E. reflexivity.
    + unfold MAX_CMD. rewrite (proj2 (Z.leb_gt 4096 (Z.of_nat (length buf)))) by lia.
      rewrite Z.gtb_ltb, (proj2 (Z.ltb_ge 4096 (Z.of_nat (length buf) + 1))) by lia.
      pose proof (holds_snoc cmd 0 buf c Hb) as Hb'. rewrite Z.add_0_l in Hb'. destruct (c =? ch_newline).
      * injection He as <- <-. apply Returns_ret. splits; auto; [|lia]. intros j d Ej. apply Hb'. now apply lookup_app_l_Some.
      * replace (Z.of_nat (length buf) + 1) with (Z.of_nat (length (buf ++ [c]))) by (rewrite length_app; cbn; lia).
        apply IH; auto. rewrite length_app. cbn. lia.
Qed.

(** [get_command] is the line editor of the kernel with more room: the command is in the
    array as a C string.  A line with no room for its end is written over the end of the
    array. *)
Theorem get_command_correct typed keys cmd res rest : edit 4096 keys [] = Some (res, rest) ->
  match res with
  | Line text => Returns (get_command typed keys cmd) (fun '(cmd', rest') => rest' = rest /\ holds cmd' 0 (text ++ [0]))
  | TooLong => get_command typed keys cmd = Fault
  end.
Proof.
  intros He. unfold get_command. pose proof (get_keys_spec rest res keys [] cmd ltac:(cbn; lia) ltac:(intros ? ? E; discriminate E) He) as H.
  cbv zeta in H. change (Z.of_nat (length [])) with 0 in H. destruct res as [text|]; [|now rewrite H].
  destruct H as ([[p cmd'] rest'] & -> & -> & -> & Hb & Hl). cbn [mbind outcome_bind]. apply Returns_ret. split; [reflexivity|].
  replace (Z.of_nat (length text) + 1 - 1) with (0 + Z.of_nat (length text)) by lia. change 0 with (u8 0) at 2. now apply holds_snoc.
Qed.

(** ** Words *)

Definition is_word (w : list Z) : Prop := w <> [] /\ 32 ∉ w.

Fixpoint join (ws : list (list Z)) : list Z :=
  match ws with
  | [] => []
  | [w] => w
  | w :: r => w ++ [32] ++ join r
  end.

Lemma words_take w : forall cur r, 32 ∉ w -> words (w ++ r) cur = words r (cur ++ w).
Proof.
  induction w as [|c w IH]; intros cur r Hw; cbn [app words]; [now rewrite app_nil_r|].
  apply not_elem_of_cons in Hw as [Hc Hw]. rewrite (proj2 (Z.eqb_neq c 32)) by auto. rewrite IH by exact Hw. now rewrite <- app_assoc.
Qed.

Lemma words_join ws : Forall is_word ws -> words (join ws) [] = ws.
Proof.
  induction ws as [|w ws IH]; intros H; [reflexivity|]. apply Forall_cons in H as [[Hn Hs] H]. cbn [join].
  destruct ws as [|w2 ws].
  - rewrite <- (app_nil_r w) at 1. rewrite words_take by exact Hs. cbn. now rewrite decide_False by exact Hn.
  - rewrite words_take by exact Hs. cbn [app words]. change (32 =? 32) with true. cbv iota. rewrite decide_False by exact Hn. now rewrite (IH H).
Qed.

(** Extra blanks do not matter. *)
Lemma words_blank r : words (32 :: r) [] = words r [].
Proof. reflexivity. Qed.

(** A command line, words with blanks between them, runs the program its first word
    names, with the words as its arguments: the word itself when it is a path, and the file of
    that name in [/bin], with the ending [.elf] put to it once, when it is not.  The bounds of
    the path and of the array of arguments are respected for these lines. *)
Theorem shell_runs_program tok args : is_word tok -> Forall is_word args -> tok <> chars "cd" ->
  (length tok < 4086)%nat -> Z.of_nat (length args) < MAX_ARGS ->
  let prog := if starts (chars "/") tok || starts (chars "./") tok then tok
              else if bool_decide (drop (length (chars "/bin/" ++ tok) - 4) (chars "/bin/" ++ tok) = chars ".elf") then chars "/bin/" ++ tok
              else chars "/bin/" ++ tok ++ chars ".elf" in
  shell_command (join (tok :: args)) = Ret (Run prog (prog :: args)).
Proof.
  intros Ht Ha Hcd Hl Hn prog. pose proof (words_join (tok :: args) (Forall_cons_2 _ _ _ Ht Ha)) as HW.
  assert (program_path tok = Ret prog) as HP.
  { unfold program_path, prog. destruct (starts _ tok || starts _ tok); [reflexivity|].
    rewrite app_assoc. destruct (bool_decide _); rewrite (proj2 (Z.ltb_ge MAX_PATH _)); try reflexivity; unfold MAX_PATH; rewrite ?length_app;
      change (length (chars "/bin/")) with 5%nat; change (length (chars ".elf")) with 4%nat; lia. }
  unfold shell_command, run_program. rewrite HW, HP. cbn [mbind outcome_bind].
  rewrite (proj2 (Z.leb_gt MAX_ARGS (Z.of_nat (length args)))) by exact Hn.
  assert (join (tok :: args) <> []) as N1. { destruct Ht as [Hne _]. cbn [join]. destruct args; [exact Hne|]. destruct tok; [contradiction|discriminate]. }
  rewrite bool_decide_false by exact N1.
  assert (starts (chars "cd ") (join (tok :: args)) || bool_decide (join (tok :: args) = chars "cd") = false) as ->; [|reflexivity].
  apply orb_false_intro; [apply bool_decide_false|apply bool_decide_false]; intros E.
  - assert (exists r, join (tok :: args) = chars "cd " ++ r) as [r Er].
    { exists (drop 3 (join (tok :: args))). rewrite <- E at 1. symmetry. apply take_drop. }
    rewrite Er in HW. cbn in HW. injection HW as HW _. now symmetry in HW.
  - rewrite E in HW. cbn in HW. injection HW as HW _. now symmetry in HW.
Qed.

Lemma shell_runs_program_witness :
  shell_command (chars "ls /bin /dev") = Ret (Run (chars "/bin/ls.elf") [chars "/bin/ls.elf"; chars "/bin"; chars "/dev"]).
Proof.
  assert (forall w, is_word w <-> (bool_decide (w <> []) && negb (bool_decide (32 ∈ w))) = true) as HI.
  { intros w. unfold is_word. rewrite andb_true_iff, negb_true_iff, bool_decide_eq_true, bool_decide_eq_false. reflexivity. }
  exact (shell_runs_program (chars "ls") [chars "/bin"; chars "/dev"] ltac:(apply HI; reflexivity)
    ltac:(repeat constructor; apply HI; reflexivity) ltac:(discriminate) ltac:(cbn; lia) ltac:(cbn; unfold MAX_ARGS; lia)).
Defined.

(** A line of 257 words is one too many for the array. *)
Theorem shell_too_many_words : run_program (join (repeat (chars "a") 257)) = Fault.
Proof. vm_compute. reflexivity. Qed.

(** ** Fibonacci numbers *)

(** Two neighbours of the sequence 0, 1, 1, 2, 3, ... *)
Fixpoint Fib2 (n : nat) : Z * Z := match n with O => (0, 1) | S n' => let '(a, b) := Fib2 n' in (b, a + b) end.
Definition Fib (n : nat) : Z := fst (Fib2 n).

Lemma Fib_step n : Fib (S (S n)) = Fib (S n) + Fib n.
Proof. unfold Fib. cbn. destruct (Fib2 n). cbn. lia. Qed.

Lemma Fib_bound n : (n <= 92)%nat -> 0 <= Fib n < 2 ^ 63.
Proof.
  intros Hn. pose proof (all_below 93 (fun i => (0 <=? Fib (Z.to_nat i)) && (Fib (Z.to_nat i) <? 2 ^ 63)) ltac:(vm_compute; reflexivity) (Z.of_nat n) ltac:(lia)) as H.
  cbv beta in H. rewrite Nat2Z.id in H. apply andb_prop in H as [H1 H2]. lia.
Qed.

Definition fibs (n : nat) : list Z := map Fib (seq 0 n).

Lemma fib_loop_spec k : forall n, (2 <= n)%nat -> (n + k <= 93)%nat -> fib_loop k (fibs n) = fibs (n + k).
Proof.
  induction k as [|k IH]; intros n H2 Hn; cbn [fib_loop]; [now rewrite Nat.add_0_r|].
  assert (length (fibs n) = n) as EL by (unfold fibs; now rewrite length_map, length_seq). rewrite EL.
  assert (forall j, (j < n)%nat -> nth j (fibs n) 0 = Fib j) as HN.
  { intros j Hj. unfold fibs. rewrite (nth_indep _ 0 (Fib 0)) by (rewrite length_map, length_seq; lia). rewrite map_nth, seq_nth by lia. reflexivity. }
  rewrite !HN by lia. assert (Fib (n - 1) + Fib (n - 2) = Fib n) as ->.
  { destruct n as [|[|n]]; [lia..|]. rewrite Fib_step. f_equal; f_equal; lia. }
  pose proof (Fib_bound n ltac:(lia)) as HB. rewrite swrap_small by (change (64 - 1) with 63; lia).
  replace (fibs n ++ [Fib n]) with (fibs (S n)) by (unfold fibs; now rewrite seq_S, map_app).
  rewrite IH by lia. f_equal. lia.
Qed.

(** [fib] prints the first [n] numbers of the sequence, exactly: none of the sums goes
    over the range of [long long] for the [n] it accepts, up to 93; other numbers are
    refused. *)
Theorem fib_exact n : 3 <= n ->
  fib_main 2 n = if n <=? 93 then FibNumbers (fibs (Z.to_nat n)) else FibError.
Proof.
  intros Hn. unfold fib_main. change (2 =? 1) with false. change (2 >=? 3) with false. cbv iota.
  rewrite (proj2 (Z.leb_gt n 0)), (proj2 (Z.eqb_neq n 1)), (proj2 (Z.eqb_neq n 2)), orb_false_r by lia.
  destruct (Z.leb_spec n 93) as [H|H].
  - rewrite Z.gtb_ltb, (proj2 (Z.ltb_ge 93 n)) by lia. f_equal. change [0; 1] with (fibs 2). rewrite fib_loop_spec by lia. f_equal. lia.
  - rewrite Z.gtb_ltb, (proj2 (Z.ltb_lt 93 n)) by lia. reflexivity.
Qed.

Lemma fib_exact_witness : fib_main 2 8 = FibNumbers (fibs 8) /\ fibs 8 = [0; 1; 1; 2; 3; 5; 8; 13].
Proof. split; [apply (fib_exact 8); lia|reflexivity]. Defined.

(** One more number would not fit. *)
Theorem fib_limit : 2 ^ 63 <= Fib 93.
Proof. vm_compute. discriminate. Qed.

(** ** Endings *)

Lemma strrchr_none c l : c ∉ l -> strrchr c l = None.
Proof.
  induction l as [|x l IH]; intros H; cbn [strrchr]; [reflexivity|]. apply not_elem_of_cons in H as [Hx H].
  rewrite IH by exact H. now rewrite (proj2 (Z.eqb_neq x c)) by auto.
Qed.

Lemma strrchr_last c a b : c ∉ b -> strrchr c (a ++ c :: b) = Some (c :: b).
Proof.
  intros Hb. induction a as [|x a IH]; cbn [app strrchr]; [now rewrite strrchr_none, Z.eqb_refl by exact Hb|now rewrite IH].
Qed.

(** The ending of a name is what stands behind its last dot, and nothing when the name has
    no dot or begins with its only one. *)
Theorem get_ext_correct base ext : 46 ∉ ext -> get_ext ext = [] /\ get_ext (base ++ 46 :: ext) = if decide (base = []) then [] else ext.
Proof.
  intros He. unfold get_ext. rewrite strrchr_none, strrchr_last by exact He. split; [reflexivity|].
  destruct (decide (base = [])) as [->|N].
  - now rewrite bool_decide_true by reflexivity.
  - rewrite bool_decide_false; [reflexivity|]. intros E. apply (f_equal length) in E. rewrite length_app in E. destruct base; [contradiction|cbn in E; lia].
Qed.
