(* ===== verification/Cpu.v ===== *)
(** * Setting up a processor ([kernel/arch/x86_64]: gdt, idt, interrupts, fpu, msr, init,
      compat, name)

    The descriptor tables are bytes in memory, written field by field as the packed
    structures of the code; what the processor makes of them (a segment, a gate, the kernel
    stack of the TSS) is stated with its own decoding.  [gdt_load], [tss_flush] and the inline
    assembly set registers of the processor that runs them. *)

From S2P Require Import Prelude MemUtil Bytes.
#[local] Open Scope Z_scope.

Definition MAX_CPUS : Z := 256.

(** Sizes of the packed structures. *)
Definition GDT_SIZE : Z := 56.
Definition TSS_SIZE : Z := 104.
Definition GDTR_SIZE : Z := 10.
Definition IDT_ENTRY_SIZE : Z := 16.

Definition INT_GATE : Z := 0x8E.
Definition INT_USER_GATE : Z := 0xEE.

(** ** Descriptors *)

(** [limit1] and [flags] are the halves of the seventh byte. *)
Definition set_limit1 (entry v : Z) (m : mem) : mem := store8 (entry + 6) (Z.lor (Z.land (load8 (entry + 6) m) 0xF0) (Z.land v 0xF)) m.
Definition set_flags (entry v : Z) (m : mem) : mem :=
  store8 (entry + 6) (Z.lor (Z.land (load8 (entry + 6) m) 0x0F) (Z.shiftl (Z.land v 0xF) 4)) m.

Definition gdt_set_entry (entry access flags : Z) (m : mem) : mem :=
  let m := store8 (entry + 5) access m in
  let m := store16 (entry + 2) 0 m in
  let m := store8 (entry + 4) 0 m in
  let m := store8 (entry + 7) 0 m in
  let m := set_flags entry flags m in
  let m := store16 entry 0 m in
  set_limit1 entry 0 m.

Definition gdt_set_system_entry (entry access flags base limit : Z) (m : mem) : mem :=
  let m := store8 (entry + 5) access m in
  let m := store16 (entry + 2) (Z.land base 0xFFFF) m in
  let m := store8 (entry + 4) (Z.land (Z.shiftr base 16) 0xFF) m in
  let m := store8 (entry + 7) (Z.land (Z.shiftr base 24) 0xFF) m in
  let m := store32 (entry + 8) (Z.land (Z.shiftr base 32) 0xFFFFFFFF) m in
  let m := set_flags entry flags m in
  let m := store16 entry (Z.land limit 0xFFFF) m in
  set_limit1 entry (Z.land (Z.shiftr limit 16) 0xF) m.

(** A gate of the interrupt table. *)
Definition set_gate (entry isr PDPLGateType : Z) (m : mem) : mem :=
  let m := store16 entry (Z.land isr 0xFFFF) m in
  let m := store16 (entry + 6) (Z.land (Z.shiftr isr 16) 0xFFFF) m in
  let m := store32 (entry + 8) (Z.land (Z.shiftr isr 32) 0xFFFFFFFF) m in
  let m := store8 (entry + 4) 0 m in
  let m := store8 (entry + 5) PDPLGateType m in
  let m := store32 (entry + 12) 0 m in
  store16 (entry + 2) 0x08 m.

(** ** Processors *)

(** A descriptor as the processor reads it. *)
Record segment : Type := mk_seg { sg_base : Z; sg_limit : Z; sg_access : Z; sg_flags : Z }.

Definition segment_at (m : mem) (a : Z) : segment :=
  mk_seg (load16 (a + 2) m + 2 ^ 16 * load8 (a + 4) m + 2 ^ 24 * load8 (a + 7) m)
    (load16 a m + 2 ^ 16 * (load8 (a + 6) m mod 16)) (load8 (a + 5) m) (load8 (a + 6) m / 16).

(** A system descriptor has the upper half of its base behind. *)
Definition system_at (m : mem) (a : Z) : segment :=
  let g := segment_at m a in mk_seg (sg_base g + 2 ^ 32 * load32 (a + 8) m) (sg_limit g) (sg_access g) (sg_flags g).

(** The segment registers. *)
Record selectors : Type := mk_sel { s_cs : Z; s_ss : Z; s_ds : Z; s_es : Z; s_fs : Z; s_gs : Z }.

(** A table register is its limit and its base. *)
Record regs : Type := mk_regs {
  r_gdtr : Z * Z; r_sel : selectors; r_tr : Z;
  r_idtr : option (Z * Z); r_if : bool;
  r_cr0 : Z; r_cr4 : Z; r_msr : Z -> Z
}.
Definition r_cs (r : regs) : Z := s_cs (r_sel r).
Definition r_ss (r : regs) : Z := s_ss (r_sel r).

Definition IA32_FS_BASE : Z := 0xC0000100.
Definition IA32_GS_BASE : Z := 0xC0000101.

Record machine : Type := mk_machine { k_mem : mem; k_cpu : Z -> regs; interruptsInitialised : bool }.

Section Code.
(** The addresses of the variables [gdt], [tss], [gdtr], [idt] and [idtr], and of the entry
    points of the interrupts. *)
Variables (gdt_a tss_a gdtr_a idt_a idtr_a : Z) (isr irq : Z -> Z).
Implicit Types (s : machine).

Definition gdt_of (cpu : Z) : Z := gdt_a + GDT_SIZE * cpu.
Definition tss_of (cpu : Z) : Z := tss_a + TSS_SIZE * cpu.
Definition gdtr_of (cpu : Z) : Z := gdtr_a + GDTR_SIZE * cpu.

Definition set_kmem (m : mem) s : machine := mk_machine m (k_cpu s) (interruptsInitialised s).
Definition set_regs (cpu : Z) (r : regs) s : machine := mk_machine (k_mem s) (upd (k_cpu s) cpu r) (interruptsInitialised s).

(** The processor marks a descriptor it loads: the accessed bit of a segment, the busy bit
    of a task state segment. *)
Definition mark (entry bit : Z) (m : mem) : mem := store8 (entry + 5) (Z.lor (load8 (entry + 5) m) bit) m.

(** [lgdt], the data segments, and a far return to the code segment.  Loading FS and GS also
    loads their bases. *)
Definition gdt_load (cpu a : Z) s : machine :=
  let m := k_mem s in
  let base := load64 (a + 2) m in
  let r := k_cpu s cpu in
  let msr := upd (upd (r_msr r) IA32_FS_BASE (sg_base (segment_at m (base + 0x10)))) IA32_GS_BASE (sg_base (segment_at m (base + 0x10))) in
  set_regs cpu (mk_regs (load16 a m, base) (mk_sel 0x08 0x10 0x10 0x10 0x10 0x10) (r_tr r) (r_idtr r) (r_if r) (r_cr0 r) (r_cr4 r) msr)
    (set_kmem (mark (base + 0x08) 1 (mark (base + 0x10) 1 m)) s).

(** [ltr] *)
Definition tss_flush (cpu : Z) s : machine :=
  let r := k_cpu s cpu in
  set_regs cpu (mk_regs (r_gdtr r) (r_sel r) 0x28 (r_idtr r) (r_if r) (r_cr0 r) (r_cr4 r) (r_msr r))
    (set_kmem (mark (snd (r_gdtr r) + 0x28) 2 (k_mem s)) s).

Definition tss_set_rsp (cpu rsp : Z) s : machine := set_kmem (store64 (tss_of cpu + 4) rsp (k_mem s)) s.
Definition arch_set_kernel_stack (cpu stack : Z) s : machine := tss_set_rsp cpu stack s.

Definition gdt_tables (cpu : Z) (m : mem) : mem :=
  let g := gdt_of cpu in
  let m := gdt_set_entry g 0 0 m in
  let m := gdt_set_entry (g + 8) 0x9A 0xA m in
  let m := gdt_set_entry (g + 16) 0x92 0xC m in
  let m := gdt_set_entry (g + 24) 0xFA 0xA m in
  let m := gdt_set_entry (g + 32) 0xF2 0xC m in
  let m := gdt_set_system_entry (g + 40) 0xE9 0x0 (tss_of cpu) TSS_SIZE m in
  let m := store64 (gdtr_of cpu + 2) g m in
  store16 (gdtr_of cpu) (GDT_SIZE - 1) m.

Definition gdt_init (cpu : Z) s : machine :=
  let s := set_kmem (gdt_tables cpu (k_mem s)) s in
  tss_flush cpu (gdt_load cpu (gdtr_of cpu) s).

Definition idt_set_entry (entry f PDPLGateType : Z) (m : mem) : mem := set_gate (idt_a + IDT_ENTRY_SIZE * entry) f PDPLGateType m.

(** [lidt] loads what was stored in [idtr]. *)
Definition idt_init (cpu : Z) s : machine :=
  let m := store64 (idtr_a + 2) idt_a (k_mem s) in
  let m := store16 idtr_a (IDT_ENTRY_SIZE * 256 - 1) m in
  let s := set_kmem m s in
  let r := k_cpu s cpu in
  set_regs cpu (mk_regs (r_gdtr r) (r_sel r) (r_tr r) (Some (load16 idtr_a m, load64 (idtr_a + 2) m)) (r_if r) (r_cr0 r) (r_cr4 r) (r_msr r)) s.

(** Gates one after the other, from [entry] on. *)
Fixpoint gates (n : nat) (entry : Z) (f : Z -> Z) (m : mem) : mem :=
  match n with
  | O => m
  | S n' => gates n' (entry + 1) f (idt_set_entry entry (f entry) INT_GATE m)
  end.

Definition exceptions_init (m : mem) : mem := gates 32 0 isr m.

Definition irq_init (m : mem) : mem :=
  let m := gates 24 32 (fun v => irq (v - 32)) m in
  let m := idt_set_entry 254 (irq 223) INT_GATE m in
  idt_set_entry 255 (irq 224) INT_GATE m.

Definition arch_syscall_init (m : mem) : mem := idt_set_entry 0x80 (isr 128) INT_USER_GATE m.

Definition set_if (cpu : Z) (b : bool) s : machine :=
  let r := k_cpu s cpu in
  set_regs cpu (mk_regs (r_gdtr r) (r_sel r) (r_tr r) (r_idtr r) b (r_cr0 r) (r_cr4 r) (r_msr r)) s.
Definition arch_disable_interrupts (cpu : Z) s : machine := set_if cpu false s.
Definition arch_enable_interrupts (cpu : Z) s : machine := set_if cpu true s.

Definition interrupts_init (cpu : Z) s : machine :=
  let s := idt_init cpu s in
  let s := set_kmem (exceptions_init (k_mem s)) s in
  let s := set_kmem (irq_init (k_mem s)) s in
  set_if cpu true s.

(** EM and TS are cleared, NE and MP set; OSFXSR and OSXMMEXCPT are set. *)
Definition fpu_init (cpu : Z) s : machine :=
  let r := k_cpu s cpu in
  let cr0 := Z.land (r_cr0 r) (Z.lnot (Z.shiftl 1 2)) in
  let cr0 := Z.land cr0 (Z.lnot (Z.shiftl 1 3)) in
  let cr0 := Z.lor cr0 (Z.shiftl 1 5) in
  let cr0 := Z.lor cr0 (Z.shiftl 1 1) in
  let cr4 := Z.lor (r_cr4 r) (Z.shiftl 3 9) in
  set_regs cpu (mk_regs (r_gdtr r) (r_sel r) (r_tr r) (r_idtr r) (r_if r) cr0 cr4 (r_msr r)) s.

(** The interrupt table is set up by the first processor that comes here. *)
Definition arch_init_early (cpu : Z) s : machine :=
  let s := gdt_init cpu s in
  let s := if interruptsInitialised s then s
           else let s := interrupts_init cpu s in mk_machine (k_mem s) (k_cpu s) true in
  fpu_init cpu s.

(** ** Model specific registers *)

(** [rdmsr] and [wrmsr] move the halves through EDX and EAX. *)
Definition rdmsr (cpu msr : Z) s : Z :=
  let v := r_msr (k_cpu s cpu) msr in
  let rax := v mod 2 ^ 32 in
  let rdx := v / 2 ^ 32 in
  Z.lor (u64 (Z.shiftl rdx 32)) rax.

Definition wrmsr (cpu msr data : Z) s : machine :=
  let rax := Z.land data 0xFFFFFFFF in
  let rdx := Z.shiftr data 32 in
  let r := k_cpu s cpu in
  set_regs cpu (mk_regs (r_gdtr r) (r_sel r) (r_tr r) (r_idtr r) (r_if r) (r_cr0 r) (r_cr4 r) (upd (r_msr r) msr (rdx * 2 ^ 32 + rax))) s.
End Code.

(** ** Features *)

Definition CPUID_FEAT_EDX_FPU : Z := Z.shiftl 1 0.
Definition CPUID_FEAT_EDX_MSR : Z := Z.shiftl 1 5.
Definition CPUID_FEAT_EDX_APIC : Z := Z.shiftl 1 9.
Definition CPUID_FEAT_EDX_FXSR : Z := Z.shiftl 1 24.
Definition CPUID_FEAT_EDX_SSE : Z := Z.shiftl 1 25.
Definition CPUID_FEAT_EDX_SSE2 : Z := Z.shiftl 1 26.

Definition require_feature (edx bit : Z) (msg : string) : outcome unit := if Z.land edx bit =? 0 then Panic msg else Ret tt.

(** [edx] is what CPUID leaf 1 reports; a missing FPU is only logged. *)
Definition arch_compat_checks (edx : Z) : outcome unit :=
  _ ← require_feature edx CPUID_FEAT_EDX_APIC "Unsupported CPU! (APIC Not Supported)";
  _ ← require_feature edx CPUID_FEAT_EDX_MSR "Unsupported CPU! (MSR Not Supported)";
  _ ← require_feature edx CPUID_FEAT_EDX_FXSR "Unsupported CPU! (FXSR Not Supported)";
  _ ← require_feature edx CPUID_FEAT_EDX_SSE "Unsupported CPU! (SSE Not Supported)";
  require_feature edx CPUID_FEAT_EDX_SSE2 "Unsupported CPU! (SSE2 Not Supported)".

(** ** The name of the processor *)

(** The loop from [i] down to 1 that clears blanks at the end. *)
Fixpoint trim (i : nat) (name : list Z) : list Z :=
  match i with
  | O => name
  | S i' =>
      if (nth i name 0 =? 32) || (nth i name 0 =? 0) then trim i' (<[i := 0]> name) else name
  end.

(** The four bytes of a register. *)
Definition reg_bytes (r : Z) : list Z := [r mod 256; r / 256 mod 256; r / 65536 mod 256; r / 16777216 mod 256].

(** [cpuid] gives the four registers of a leaf; the 49 bytes at [str] are written when
    the processor has a name. *)
Definition arch_get_cpu_model_name (cpuid : Z -> list Z) (str : Z) (m : mem) : mem :=
  if nth 0 (cpuid 0x80000000) 0 <? 0x80000004 then m
  else
    let regs := cpuid 0x80000002 ++ cpuid 0x80000003 ++ cpuid 0x80000004 in
    let name := take 48 (concat (map reg_bytes regs)) in
    write_bytes (trim 47 (name ++ [0])) str m.

(** ** What the processor reads *)

Record gate : Type := mk_gate { gt_offset : Z; gt_selector : Z; gt_ist : Z; gt_type : Z }.

Definition gate_at (m : mem) (a : Z) : gate :=
  mk_gate (load16 a m + 2 ^ 16 * load16 (a + 6) m + 2 ^ 32 * load32 (a + 8) m) (load16 (a + 2) m) (load8 (a + 4) m) (load8 (a + 5) m).

(** Only bytes from [a] up to [a + n] have changed; the bytes there are the same. *)
Definition changes_only (a n : Z) (m m' : mem) : Prop := forall x, ~ (a <= x < a + n) -> m' x = m x.
Definition same_on (a n : Z) (m m' : mem) : Prop := forall x, a <= x < a + n -> m' x = m x.

Lemma same_outside b k a n m m' : changes_only a n m m' -> b + k <= a \/ a + n <= b -> same_on b k m m'.
Proof. intros H Hd x Hx. apply H. lia. Qed.

Lemma load_same k b a n m m' : same_on a n m m' -> a <= b -> b + Z.of_nat k <= a + n -> load k b m' = load k b m.
Proof. intros H H1 H2. apply load_ext. intros j Hj. apply H. lia. Qed.

Lemma segment_same b m m' : same_on b 8 m m' -> segment_at m' b = segment_at m b.
Proof. intros H. unfold segment_at. now rewrite !(load_same _ _ _ _ _ _ H) by (cbn; lia). Qed.

Lemma system_same b m m' : same_on b 16 m m' -> system_at m' b = system_at m b.
Proof.
  intros H. unfold system_at. rewrite (segment_same b m m') by (intros x Hx; apply H; lia).
  now rewrite (load_same _ _ _ _ _ _ H) by (cbn; lia).
Qed.

Lemma gate_same b m m' : same_on b 16 m m' -> gate_at m' b = gate_at m b.
Proof. intros H. unfold gate_at. now rewrite !(load_same _ _ _ _ _ _ H) by (cbn; lia). Qed.

Lemma segment_unchanged b a n m m' : changes_only a n m m' -> b + 8 <= a \/ a + n <= b -> segment_at m' b = segment_at m b.
Proof. intros H Hd. now apply segment_same, (same_outside b 8 a n). Qed.

Lemma system_unchanged b a n m m' : changes_only a n m m' -> b + 16 <= a \/ a + n <= b -> system_at m' b = system_at m b.
Proof. intros H Hd. now apply system_same, (same_outside b 16 a n). Qed.

Lemma gate_unchanged b a n m m' : changes_only a n m m' -> b + 16 <= a \/ a + n <= b -> gate_at m' b = gate_at m b.
Proof. intros H Hd. now apply gate_same, (same_outside b 16 a n). Qed.

(** The two halves of a byte. *)
Lemma nibbles x f l : 0 <= f < 16 -> 0 <= l < 16 ->
  let b := Z.lor (Z.land (Z.lor (Z.land x 15) (Z.shiftl (Z.land f 15) 4) mod 256) 240) (Z.land l 15) mod 256 in
  b mod 16 = l /\ b / 16 = f.
Proof.
  intros Hf Hl. assert (0 <= Z.land x 15 < 16) as Hy by (change 15 with (Z.ones 4); rewrite Z.land_ones by lia; apply Z.mod_pos_bound; lia).
  set (y := Z.land x 15) in *. clearbody y.
  set (P := fun y f l => let b := Z.lor (Z.land (Z.lor y (Z.shiftl (Z.land f 15) 4) mod 256) 240) (Z.land l 15) mod 256 in (b mod 16 =? l) && (b / 16 =? f)).
  assert (forallb (fun y => forallb (fun f => forallb (P y f) (map Z.of_nat (seq 0 16))) (map Z.of_nat (seq 0 16))) (map Z.of_nat (seq 0 16)) = true) as HP
    by (vm_compute; reflexivity).
  pose proof (all_below 16 _ HP y Hy) as H1. pose proof (all_below 16 _ H1 f Hf) as H2. pose proof (all_below 16 _ H2 l Hl) as H3.
  unfold P in H3. apply andb_prop in H3 as [E1 E2]. split; now apply Z.eqb_eq.
Qed.

Lemma mod_small8 v : 0 <= v < 256 -> v mod 2 ^ (8 * Z.of_nat 1) = v.
Proof. intros H. apply Z.mod_small. exact H. Qed.

Lemma gdt_set_entry_spec a access flags m : 0 <= access < 256 -> 0 <= flags < 16 ->
  segment_at (gdt_set_entry a access flags m) a = mk_seg 0 0 access flags /\ changes_only a 8 m (gdt_set_entry a access flags m).
Proof.
  intros Ha Hf. split.
  - unfold segment_at, gdt_set_entry, set_limit1, set_flags. autorewrite with words. rewrite (mod_small8 access Ha).
    destruct (nibbles (load8 (a + 6) m) flags 0 Hf ltac:(lia)) as [E1 E2]. change (2 ^ (8 * Z.of_nat 1)) with 256.
    match goal with |- context [load8 (a + 6) ?x] => replace (load8 (a + 6) x) with (load8 (a + 6) m) by now autorewrite with words end.
    rewrite E1, E2. reflexivity.
  - intros x Hx. unfold gdt_set_entry, set_limit1, set_flags. now rewrite !store_other by (cbn; lia).
Qed.

(** A word in pieces. *)
Lemma land_mod x n : 0 <= n -> Z.land x (2 ^ n - 1) = x mod 2 ^ n.
Proof. intros Hn. rewrite <- Z.land_ones by lia. now rewrite Z.ones_equiv. Qed.

Lemma piece x k n : 0 <= k -> 0 <= n -> Z.land (Z.shiftr x k) (2 ^ n - 1) mod 2 ^ n = x / 2 ^ k mod 2 ^ n.
Proof. intros Hk Hn. rewrite land_mod, Z.mod_mod, Z.shiftr_div_pow2 by (try apply Z.pow_nonzero; lia). reflexivity. Qed.

Lemma low_piece x n : 0 <= n -> Z.land x (2 ^ n - 1) mod 2 ^ n = x mod 2 ^ n.
Proof. intros Hn. rewrite land_mod, Z.mod_mod by (try apply Z.pow_nonzero; lia). reflexivity. Qed.

Lemma gdt_set_system_entry_spec a access flags base limit m :
  0 <= access < 256 -> 0 <= flags < 16 -> 0 <= base < 2 ^ 64 -> 0 <= limit < 2 ^ 20 ->
  let m' := gdt_set_system_entry a access flags base limit m in
  system_at m' a = mk_seg base limit access flags /\ changes_only a 12 m m'.
Proof.
  intros Ha Hf Hb Hl. split.
  - unfold system_at, segment_at, gdt_set_system_entry, set_limit1, set_flags. cbn [sg_base sg_limit sg_access sg_flags].
    autorewrite with words. rewrite (mod_small8 access Ha).
    match goal with |- context [Z.land (load8 (a + 6) ?x) 15] => replace (load8 (a + 6) x) with (load8 (a + 6) m) by now autorewrite with words end.
    change (2 ^ (8 * Z.of_nat 1)) with (2 ^ 8). change (2 ^ (8 * Z.of_nat 2)) with (2 ^ 16). change (2 ^ (8 * Z.of_nat 4)) with (2 ^ 32).
    assert (Z.land (Z.shiftr limit 16) 15 = limit / 2 ^ 16) as EL.
    { change 15 with (2 ^ 4 - 1). rewrite land_mod, Z.shiftr_div_pow2, Z.mod_small by (pow2_consts; change (2 ^ 4) with 16; change (2 ^ 20) with 1048576 in Hl; dm || lia). reflexivity. }
    rewrite EL. destruct (nibbles (load8 (a + 6) m) flags (limit / 2 ^ 16) Hf) as [E1 E2].
    { pow2_consts. change (2 ^ 20) with 1048576 in Hl. dm. }
    change (2 ^ 8) with 256 in *. rewrite E1, E2. change 65535 with (2 ^ 16 - 1). change 255 with (2 ^ 8 - 1). change 4294967295 with (2 ^ 32 - 1).
    change 256 with (2 ^ 8). rewrite !piece, !low_piece by lia. f_equal.
    + pow2_consts. change (2 ^ 24) with 16777216. dm.
    + pow2_consts. dm.
  - intros x Hx. unfold gdt_set_system_entry, set_limit1, set_flags. now rewrite !store_other by (cbn; lia).
Qed.

Lemma set_gate_spec a f t m : 0 <= f < 2 ^ 64 -> 0 <= t < 256 ->
  gate_at (set_gate a f t m) a = mk_gate f 0x08 0 t /\ changes_only a 16 m (set_gate a f t m).
Proof.
  intros Hf Ht. split.
  - unfold gate_at, set_gate. autorewrite with words. rewrite (mod_small8 t Ht).
    change (2 ^ (8 * Z.of_nat 1)) with (2 ^ 8). change (2 ^ (8 * Z.of_nat 2)) with (2 ^ 16). change (2 ^ (8 * Z.of_nat 4)) with (2 ^ 32).
    change 65535 with (2 ^ 16 - 1). change 4294967295 with (2 ^ 32 - 1). rewrite !piece, !low_piece by lia. f_equal. pow2_consts. dm.
  - intros x Hx. unfold set_gate. now rewrite !store_other by (cbn; lia).
Qed.

(** ** The tables of a processor *)

(** Two arrays do not overlap. *)
Definition disjoint (a n b k : Z) : Prop := a + n <= b \/ b + k <= a.

(** The variables of the kernel lie in memory one beside the other. *)
Record placed (gdt_a tss_a gdtr_a : Z) : Prop := {
  pl_gdt : 0 <= gdt_a /\ gdt_a + GDT_SIZE * MAX_CPUS <= 2 ^ 64;
  pl_tss : 0 <= tss_a /\ tss_a + TSS_SIZE * MAX_CPUS <= 2 ^ 64;
  pl_gt : disjoint gdt_a (GDT_SIZE * MAX_CPUS) tss_a (TSS_SIZE * MAX_CPUS);
  pl_gr : disjoint gdt_a (GDT_SIZE * MAX_CPUS) gdtr_a (GDTR_SIZE * MAX_CPUS);
  pl_tr : disjoint tss_a (TSS_SIZE * MAX_CPUS) gdtr_a (GDTR_SIZE * MAX_CPUS)
}.

(** The segments of the table at [g], with the TSS at [t]; [kc], [kd] and [ts] are the bits the
    processor has set in the descriptors of the kernel's code and data and of the TSS. *)
Record segments (m : mem) (g t kc kd ts : Z) : Prop := {
  sg_kcode : segment_at m (g + 8) = mk_seg 0 0 (0x9A + kc) 0xA;
  sg_kdata : segment_at m (g + 16) = mk_seg 0 0 (0x92 + kd) 0xC;
  sg_ucode : segment_at m (g + 24) = mk_seg 0 0 0xFA 0xA;
  sg_udata : segment_at m (g + 32) = mk_seg 0 0 0xF2 0xC;
  sg_tss : system_at m (g + 40) = mk_seg t TSS_SIZE (0xE9 + ts) 0
}.

Lemma segments_same g t kc kd ts m m' : same_on g GDT_SIZE m m' -> segments m g t kc kd ts -> segments m' g t kc kd ts.
Proof.
  unfold GDT_SIZE. intros H [H1 H2 H3 H4 H5].
  split; [rewrite (segment_same _ m m') by (intros x Hx; apply H; lia); assumption ..|rewrite (system_same _ m m') by (intros x Hx; apply H; lia); assumption].
Qed.

Lemma segments_unchanged g t kc kd ts a n m m' : changes_only a n m m' -> g + GDT_SIZE <= a \/ a + n <= g -> segments m g t kc kd ts -> segments m' g t kc kd ts.
Proof. intros H Hd. apply segments_same. now apply (same_outside g GDT_SIZE a n). Qed.

Lemma mark_changes a bit m : changes_only (a + 5) 1 m (mark a bit m).
Proof. intros x Hx. apply store_other. cbn. lia. Qed.

(** Marking a descriptor changes its access byte only. *)
Lemma mark_segment a bit m : segment_at (mark a bit m) a =
  let g := segment_at m a in mk_seg (sg_base g) (sg_limit g) (Z.lor (sg_access g) bit mod 256) (sg_flags g).
Proof. unfold mark, segment_at. cbn [sg_base sg_limit sg_access sg_flags]. now autorewrite with words. Qed.

Lemma mark_system a bit m : system_at (mark a bit m) a =
  let g := system_at m a in mk_seg (sg_base g) (sg_limit g) (Z.lor (sg_access g) bit mod 256) (sg_flags g).
Proof.
  unfold system_at. rewrite mark_segment. cbn [sg_base sg_limit sg_access sg_flags]. unfold mark. now autorewrite with words.
Qed.

(** What the processor marks while it loads the table. *)
Lemma segments_marked g t m : segments m g t 0 0 0 -> segments (mark (g + 0x28) 2 (mark (g + 0x08) 1 (mark (g + 0x10) 1 m))) g t 1 1 2.
Proof.
  intros [H1 H2 H3 H4 H5]. set (m1 := mark (g + 16) 1 m). set (m2 := mark (g + 8) 1 m1). set (m3 := mark (g + 40) 2 m2).
  pose proof (mark_changes (g + 16) 1 m) as C1. pose proof (mark_changes (g + 8) 1 m1) as C2. pose proof (mark_changes (g + 40) 2 m2) as C3. fold m1 in C1. fold m2 in C2. fold m3 in C3.
  assert (segment_at m1 (g + 8) = segment_at m (g + 8)) as E1 by (apply (segment_unchanged _ _ _ _ _ C1); lia).
  assert (system_at m2 (g + 40) = system_at m (g + 40)) as E2 by (rewrite (system_unchanged _ _ _ _ _ C2), (system_unchanged _ _ _ _ _ C1) by lia; reflexivity).
  split.
  - rewrite (segment_unchanged _ _ _ _ _ C3) by lia. unfold m2. rewrite mark_segment, E1, H1. reflexivity.
  - rewrite (segment_unchanged _ _ _ _ _ C3), (segment_unchanged _ _ _ _ _ C2) by lia. unfold m1. rewrite mark_segment, H2. reflexivity.
  - rewrite (segment_unchanged _ _ _ _ _ C3), (segment_unchanged _ _ _ _ _ C2), (segment_unchanged _ _ _ _ _ C1) by lia. exact H3.
  - rewrite (segment_unchanged _ _ _ _ _ C3), (segment_unchanged _ _ _ _ _ C2), (segment_unchanged _ _ _ _ _ C1) by lia. exact H4.
  - unfold m3. rewrite mark_system, E2, H5. reflexivity.
Qed.

Lemma store_changes n a v m : changes_only a (Z.of_nat n) m (store n a v m).
Proof. intros x Hx. now apply store_other. Qed.

Section Tables.
Variables (gdt_a tss_a gdtr_a : Z).
Hypothesis PL : placed gdt_a tss_a gdtr_a.

Lemma gdt_tables_spec cpu m : 0 <= cpu < MAX_CPUS ->
  let m' := gdt_tables gdt_a tss_a gdtr_a cpu m in
  segments m' (gdt_of gdt_a cpu) (tss_of tss_a cpu) 0 0 0 /\
  load16 (gdtr_of gdtr_a cpu) m' = GDT_SIZE - 1 /\ load64 (gdtr_of gdtr_a cpu + 2) m' = gdt_of gdt_a cpu /\
  (forall x, ~ (gdt_of gdt_a cpu <= x < gdt_of gdt_a cpu + GDT_SIZE) ->
             ~ (gdtr_of gdtr_a cpu <= x < gdtr_of gdtr_a cpu + GDTR_SIZE) -> m' x = m x).
Proof.
  intros Hc. destruct PL as [P1 P2 P3 P4 P5]. unfold disjoint, MAX_CPUS, GDT_SIZE, TSS_SIZE, GDTR_SIZE in *. cbv zeta. unfold gdt_tables. change TSS_SIZE with 104.
  assert (0 <= tss_of tss_a cpu < 2 ^ 64) as Ht by (unfold tss_of, TSS_SIZE; lia).
  assert (0 <= gdt_of gdt_a cpu < 2 ^ 64) as Hg' by (unfold gdt_of, GDT_SIZE; lia).
  set (g := gdt_of gdt_a cpu) in *. set (r := gdtr_of gdtr_a cpu). set (t := tss_of tss_a cpu) in *.
  assert (r + 10 <= g \/ g + 56 <= r) as Hgr by (unfold r, g, gdtr_of, gdt_of, GDTR_SIZE, GDT_SIZE; lia).
  set (m0 := gdt_set_entry g 0 0 m). set (m1 := gdt_set_entry (g + 8) 0x9A 0xA m0). set (m2 := gdt_set_entry (g + 16) 0x92 0xC m1).
  set (m3 := gdt_set_entry (g + 24) 0xFA 0xA m2). set (m4 := gdt_set_entry (g + 32) 0xF2 0xC m3).
  set (m5 := gdt_set_system_entry (g + 40) 0xE9 0 t 104 m4).
  destruct (gdt_set_entry_spec g 0 0 m) as [_ C0]; [lia..|]. fold m0 in C0.
  destruct (gdt_set_entry_spec (g + 8) 0x9A 0xA m0) as [E1 C1]; [lia..|]. fold m1 in E1, C1.
  destruct (gdt_set_entry_spec (g + 16) 0x92 0xC m1) as [E2 C2]; [lia..|]. fold m2 in E2, C2.
  destruct (gdt_set_entry_spec (g + 24) 0xFA 0xA m2) as [E3 C3]; [lia..|]. fold m3 in E3, C3.
  destruct (gdt_set_entry_spec (g + 32) 0xF2 0xC m3) as [E4 C4]; [lia..|]. fold m4 in E4, C4.
  destruct (gdt_set_system_entry_spec (g + 40) 0xE9 0 t 104 m4) as [E5 C5]; [lia|lia|lia|change (2 ^ 20) with 1048576; lia|]. fold m5 in E5, C5.
  assert (segments m5 g t 0 0 0) as H5.
  { split.
    - rewrite (segment_unchanged _ _ _ _ _ C5), (segment_unchanged _ _ _ _ _ C4), (segment_unchanged _ _ _ _ _ C3), (segment_unchanged _ _ _ _ _ C2) by lia. exact E1.
    - rewrite (segment_unchanged _ _ _ _ _ C5), (segment_unchanged _ _ _ _ _ C4), (segment_unchanged _ _ _ _ _ C3) by lia. exact E2.
    - rewrite (segment_unchanged _ _ _ _ _ C5), (segment_unchanged _ _ _ _ _ C4) by lia. exact E3.
    - rewrite (segment_unchanged _ _ _ _ _ C5) by lia. exact E4.
    - exact E5. }
  splits.
  - eapply segments_unchanged; [apply store_changes|unfold GDT_SIZE; lia|]. eapply segments_unchanged; [apply store_changes|unfold GDT_SIZE; lia|exact H5].
  - rewrite load_store. reflexivity.
  - rewrite load_store_other, load_store, Z.mod_small by (cbn; pow2_consts; lia). reflexivity.
  - intros x H1 H2. rewrite (store_other 2), (store_other 8) by (cbn; lia).
    rewrite (C5 x), (C4 x), (C3 x), (C2 x), (C1 x) by lia. apply C0. lia.
Qed.

(** [gdt_init] on one processor: its registers and its table. *)
Definition loaded (s : machine) (cpu : Z) : Prop :=
  let r := k_cpu s cpu in
  r_gdtr r = (GDT_SIZE - 1, gdt_of gdt_a cpu) /\ r_sel r = mk_sel 0x08 0x10 0x10 0x10 0x10 0x10 /\ r_tr r = 0x28 /\
  segments (k_mem s) (gdt_of gdt_a cpu) (tss_of tss_a cpu) 1 1 2.

Lemma gdt_init_spec cpu s : 0 <= cpu < MAX_CPUS ->
  let s' := gdt_init gdt_a tss_a gdtr_a cpu s in
  loaded s' cpu /\
  (forall x, ~ (gdt_of gdt_a cpu <= x < gdt_of gdt_a cpu + GDT_SIZE) ->
             ~ (gdtr_of gdtr_a cpu <= x < gdtr_of gdtr_a cpu + GDTR_SIZE) -> k_mem s' x = k_mem s x) /\
  forall other, other <> cpu -> k_cpu s' other = k_cpu s other.
Proof.
  intros Hc. destruct (gdt_tables_spec cpu (k_mem s) Hc) as (HS & E1 & E2 & HF).
  cbv zeta. unfold gdt_init, tss_flush, gdt_load. cbn [k_mem k_cpu set_kmem set_regs]. rewrite E1, E2.
  set (m := gdt_tables gdt_a tss_a gdtr_a cpu (k_mem s)) in *. clearbody m. unfold loaded. cbn [k_mem k_cpu set_kmem set_regs]. rewrite !upd_eq. cbn [r_gdtr r_sel r_tr fst snd].
  splits; [reflexivity..|exact (segments_marked _ _ _ HS)| |intros other Hne; now rewrite !upd_ne].
  intros x Hx Hy. unfold GDT_SIZE in Hx. rewrite (mark_changes _ _ _ x), (mark_changes _ _ _ x), (mark_changes _ _ _ x) by lia. apply HF; [exact Hx|exact Hy].
Qed.

(** A call on some processor, and any sequence of them. *)
Inductive cpu_call : Type := Init (cpu : Z) | Stack (cpu rsp : Z).
Definition cpu_of (c : cpu_call) : Z := match c with Init cpu => cpu | Stack cpu _ => cpu end.
Definition do_call (c : cpu_call) (s : machine) : machine :=
  match c with
  | Init cpu => gdt_init gdt_a tss_a gdtr_a cpu s
  | Stack cpu rsp => arch_set_kernel_stack tss_a cpu rsp s
  end.
Definition do_calls (l : list cpu_call) (s : machine) : machine := fold_left (fun s c => do_call c s) l s.

(** The stack last set for a processor. *)
Fixpoint last_stack (cpu : Z) (l : list cpu_call) (v : option Z) : option Z :=
  match l with
  | [] => v
  | Stack c rsp :: l' => last_stack cpu l' (if c =? cpu then Some rsp else v)
  | Init _ :: l' => last_stack cpu l' v
  end.

(** What is known of a processor: whether it has loaded its table, and its stack. *)
Definition known (s : machine) (cpu : Z) (init : bool) (stack : option Z) : Prop :=
  (init = true -> loaded s cpu) /\ forall rsp, stack = Some rsp -> load64 (tss_of tss_a cpu + 4) (k_mem s) = rsp.

Definition good_call (c : cpu_call) : Prop := 0 <= cpu_of c < MAX_CPUS /\ match c with Stack _ rsp => 0 <= rsp < 2 ^ 64 | _ => True end.

(** The variables of two processors, and the tables and stacks of one, are apart. *)
Lemma variables_apart cpu other : 0 <= cpu < MAX_CPUS -> 0 <= other < MAX_CPUS ->
  disjoint (gdt_of gdt_a other) GDT_SIZE (tss_of tss_a cpu) TSS_SIZE /\ disjoint (gdt_of gdt_a other) GDT_SIZE (gdtr_of gdtr_a cpu) GDTR_SIZE /\
  disjoint (tss_of tss_a other) TSS_SIZE (gdtr_of gdtr_a cpu) GDTR_SIZE /\
  (other <> cpu -> disjoint (gdt_of gdt_a other) GDT_SIZE (gdt_of gdt_a cpu) GDT_SIZE /\ disjoint (tss_of tss_a other) TSS_SIZE (tss_of tss_a cpu) TSS_SIZE).
Proof.
  intros Hc Ho. destruct PL as [P1 P2 P3 P4 P5]. unfold disjoint, MAX_CPUS, gdt_of, tss_of, gdtr_of, GDT_SIZE, TSS_SIZE, GDTR_SIZE in *. splits; [lia..|intros; lia].
Qed.

Lemma init_known other cpu init stack s : 0 <= other < MAX_CPUS -> 0 <= cpu < MAX_CPUS -> known s cpu init stack ->
  known (gdt_init gdt_a tss_a gdtr_a other s) cpu (init || (other =? cpu)) stack.
Proof.
  intros Ho Hc [K1 K2]. destruct (gdt_init_spec other s Ho) as (HL & HF & HR). destruct (variables_apart other cpu Ho Hc) as (A1 & A2 & A3 & A4).
  destruct (variables_apart cpu other Hc Ho) as (B1 & _). unfold disjoint, TSS_SIZE in *. split.
  - intros Hi. destruct (Z.eqb_spec other cpu) as [->|N]; [exact HL|]. rewrite orb_false_r in Hi. destruct (K1 Hi) as (L1 & L2 & L3 & L4).
    destruct (A4 ltac:(auto)) as [A5 _]. unfold loaded. rewrite HR by auto. splits; auto. eapply segments_same; [|exact L4]. intros x Hx. apply HF; lia.
  - intros rsp E. rewrite <- (K2 rsp E). apply load_ext. intros k Hk. cbn in Hk. apply HF; unfold GDT_SIZE, GDTR_SIZE in *; lia.
Qed.

Lemma stack_known other cpu init stack rsp0 s : 0 <= other < MAX_CPUS -> 0 <= cpu < MAX_CPUS -> 0 <= rsp0 < 2 ^ 64 -> known s cpu init stack ->
  known (arch_set_kernel_stack tss_a other rsp0 s) cpu init (if other =? cpu then Some rsp0 else stack).
Proof.
  intros Ho Hc Hr [K1 K2]. destruct (variables_apart other cpu Ho Hc) as (A1 & A2 & A3 & A4). unfold disjoint, TSS_SIZE in *. split.
  - intros Hi. destruct (K1 Hi) as (L1 & L2 & L3 & L4). unfold loaded. splits; auto. eapply segments_unchanged; [apply store_changes|cbn; lia|exact L4].
  - unfold arch_set_kernel_stack, tss_set_rsp. cbn [k_mem set_kmem]. destruct (Z.eqb_spec other cpu) as [->|N]; intros rsp E.
    + injection E as <-. rewrite load_store. now apply Z.mod_small.
    + rewrite <- (K2 rsp E). destruct (A4 ltac:(auto)) as [_ A6]. apply load_store_other. cbn. lia.
Qed.

Lemma calls_known l : forall s cpu init stack, Forall good_call l -> 0 <= cpu < MAX_CPUS -> known s cpu init stack ->
  known (do_calls l s) cpu (init || existsb (fun c => match c with Init x => x =? cpu | _ => false end) l) (last_stack cpu l stack).
Proof.
  induction l as [|[other|other rsp0] l IH]; intros s cpu init stack Hl Hc HK; cbn [do_calls fold_left existsb last_stack];
    [now rewrite orb_false_r|..]; apply Forall_cons in Hl as [[Ho Hr] Hl]; cbn in Ho, Hr.
  - rewrite orb_assoc. apply IH; auto. now apply init_known.
  - cbn [orb]. apply IH; auto. now apply stack_known.
Qed.

(** The registers and the stack of a processor, as it finds them through its tables: the
    code, stack and data segments of the kernel, marked as accessed, those for user programs,
    and the stack for its kernel in a task state segment marked as busy. *)
Definition runs_with (m : mem) (r : regs) (rsp : Z) : Prop :=
  let base := snd (r_gdtr r) in
  fst (r_gdtr r) = 55 /\ r_sel r = mk_sel 8 16 16 16 16 16 /\ r_tr r = 40 /\
  segment_at m (base + r_cs r) = mk_seg 0 0 0x9B 0xA /\ segment_at m (base + r_ss r) = mk_seg 0 0 0x93 0xC /\
  segment_at m (base + 24) = mk_seg 0 0 0xFA 0xA /\ segment_at m (base + 32) = mk_seg 0 0 0xF2 0xC /\
  sg_access (system_at m (base + r_tr r)) = 0xEB /\ load64 (sg_base (system_at m (base + r_tr r)) + 4) m = rsp.

Lemma known_runs s cpu rsp : known s cpu true (Some rsp) -> runs_with (k_mem s) (k_cpu s cpu) rsp.
Proof.
  intros [K1 K2]. destruct (K1 eq_refl) as (L1 & L2 & L3 & [S1 S2 S3 S4 S5]). unfold runs_with, r_cs, r_ss. rewrite L1, L2, L3. cbn [fst snd s_cs s_ss].
  rewrite S1, S2, S3, S4, S5. cbn [sg_access sg_base]. splits; auto.
Qed.
End Tables.

(** C19: after any sequence of calls of [gdt_init] and [arch_set_kernel_stack] on any
    processors, in any order and any number of times, every processor for which both have
    been called finds, through the table register, the selectors and the descriptors it has
    been given, the code, data and stack segments of the kernel, those of user programs, and
    in its own TSS the kernel stack last set for it. *)
Theorem gdt_all_cpus gdt_a tss_a gdtr_a l s cpu rsp :
  placed gdt_a tss_a gdtr_a -> Forall good_call l -> Init cpu ∈ l -> last_stack cpu l None = Some rsp ->
  let s' := do_calls gdt_a tss_a gdtr_a l s in runs_with (k_mem s') (k_cpu s' cpu) rsp.
Proof.
  intros PL Hl Hi Hs. pose proof (proj1 (Forall_forall _ _) Hl _ Hi) as [Hc _]. cbn in Hc.
  assert (known gdt_a tss_a s cpu false None) as K0 by (split; discriminate).
  pose proof (calls_known gdt_a tss_a gdtr_a PL l s cpu false None Hl Hc K0) as K. rewrite Hs in K. cbn [orb] in K.
  rewrite (proj2 (existsb_exists _ l)) in K; [now apply (known_runs gdt_a tss_a)|].
  exists (Init cpu). split; [now apply list_elem_of_In|apply Z.eqb_refl].
Qed.

Lemma gdt_all_cpus_witness :
  let s' := do_calls 0x10000 0x20000 0x30000 [Init 0; Init 3; Stack 0 0x7000; Stack 3 0x8000; Stack 0 0x9000]
              (mk_machine (fun _ => 0) (fun _ => mk_regs (0, 0) (mk_sel 0 0 0 0 0 0) 0 None false 0 0 (fun _ => 0)) false) in
  runs_with (k_mem s') (k_cpu s' 0) 0x9000.
Proof.
  apply (gdt_all_cpus 0x10000 0x20000 0x30000 [Init 0; Init 3; Stack 0 0x7000; Stack 3 0x8000; Stack 0 0x9000]
           (mk_machine (fun _ => 0) (fun _ => mk_regs (0, 0) (mk_sel 0 0 0 0 0 0) 0 None false 0 0 (fun _ => 0)) false) 0 0x9000).
  - split; unfold disjoint, GDT_SIZE, TSS_SIZE, GDTR_SIZE, MAX_CPUS; pow2_consts; lia.
  - repeat constructor; cbn; unfold MAX_CPUS; pow2_consts; lia.
  - apply elem_of_cons. now left.
  - reflexivity.
Defined.

(** ** The interrupt table *)

Section Idt.
Variables (idt_a idtr_a : Z) (isr irq : Z -> Z).
Hypothesis Hisr : forall v, 0 <= isr v < 2 ^ 64.
Hypothesis Hirq : forall v, 0 <= irq v < 2 ^ 64.

Definition gate_of (m : mem) (v : Z) : gate := gate_at m (idt_a + IDT_ENTRY_SIZE * v).

Lemma idt_set_entry_spec v f t m : 0 <= f < 2 ^ 64 -> 0 <= t < 256 ->
  gate_of (idt_set_entry idt_a v f t m) v = mk_gate f 0x08 0 t /\
  (forall u, u <> v -> gate_of (idt_set_entry idt_a v f t m) u = gate_of m u) /\
  changes_only (idt_a + IDT_ENTRY_SIZE * v) IDT_ENTRY_SIZE m (idt_set_entry idt_a v f t m).
Proof.
  intros Hf Ht. unfold gate_of, idt_set_entry, IDT_ENTRY_SIZE. destruct (set_gate_spec (idt_a + 16 * v) f t m Hf Ht) as [E C]. splits; auto.
  intros u Hu. apply (gate_unchanged _ _ _ _ _ C). lia.
Qed.

Lemma gates_spec (g : Z -> Z) n : forall v m, (forall u, 0 <= g u < 2 ^ 64) ->
  (forall u, v <= u < v + Z.of_nat n -> gate_of (gates idt_a n v g m) u = mk_gate (g u) 0x08 0 INT_GATE) /\
  (forall u, ~ (v <= u < v + Z.of_nat n) -> gate_of (gates idt_a n v g m) u = gate_of m u).
Proof.
  induction n as [|n IH]; intros v m Hg; cbn [gates]; [split; [lia|auto]|].
  destruct (idt_set_entry_spec v (g v) INT_GATE m (Hg v) ltac:(unfold INT_GATE; lia)) as (E1 & E2 & _).
  destruct (IH (v + 1) (idt_set_entry idt_a v (g v) INT_GATE m) Hg) as [I1 I2]. split; intros u Hu.
  - destruct (decide (u = v)) as [->|N]; [rewrite I2 by lia; exact E1|apply I1; lia].
  - rewrite I2 by lia. apply E2. lia.
Qed.

(** The vectors and their entry points. *)
Definition vector_gate (v : Z) : option gate :=
  if v <? 32 then Some (mk_gate (isr v) 0x08 0 INT_GATE)
  else if v <? 56 then Some (mk_gate (irq (v - 32)) 0x08 0 INT_GATE)
  else if v =? 0x80 then Some (mk_gate (isr 128) 0x08 0 INT_USER_GATE)
  else if v =? 254 then Some (mk_gate (irq 223) 0x08 0 INT_GATE)
  else if v =? 255 then Some (mk_gate (irq 224) 0x08 0 INT_GATE)
  else None.

Lemma idt_spec m v : 0 <= v < 256 ->
  gate_of (arch_syscall_init idt_a isr (irq_init idt_a irq (exceptions_init idt_a isr m))) v = default (gate_of m v) (vector_gate v).
Proof.
  intros Hv. unfold arch_syscall_init, irq_init, exceptions_init, vector_gate.
  set (m1 := gates idt_a 32 0 isr m). destruct (gates_spec isr 32 0 m Hisr) as [A1 A2]. fold m1 in A1, A2.
  set (m2 := gates idt_a 24 32 _ m1). destruct (gates_spec (fun v => irq (v - 32)) 24 32 m1 (fun u => Hirq (u - 32))) as [B1 B2]. fold m2 in B1, B2.
  destruct (idt_set_entry_spec 254 (irq 223) INT_GATE m2 (Hirq _) ltac:(unfold INT_GATE; lia)) as (C1 & C2 & _). set (m3 := idt_set_entry _ 254 _ _ m2) in *.
  destruct (idt_set_entry_spec 255 (irq 224) INT_GATE m3 (Hirq _) ltac:(unfold INT_GATE; lia)) as (D1 & D2 & _). set (m4 := idt_set_entry _ 255 _ _ m3) in *.
  destruct (idt_set_entry_spec 0x80 (isr 128) INT_USER_GATE m4 (Hisr _) ltac:(unfold INT_USER_GATE; lia)) as (E1 & E2 & _).
  change (Z.of_nat 32) with 32 in *. change (Z.of_nat 24) with 24 in *.
  destruct (Z.ltb_spec v 32); [rewrite E2, D2, C2, B2, A1 by lia; reflexivity|].
  destruct (Z.ltb_spec v 56); [rewrite E2, D2, C2, B1 by lia; reflexivity|].
  destruct (Z.eqb_spec v 128) as [->|]; [rewrite E1; reflexivity|].
  destruct (Z.eqb_spec v 254) as [->|]; [rewrite E2, D2, C1 by lia; reflexivity|].
  destruct (Z.eqb_spec v 255) as [->|]; [rewrite E2, D1 by lia; reflexivity|].
  rewrite E2, D2, C2, B2, A2 by lia. reflexivity.
Qed.
End Idt.

(** Setting up interrupts and system calls gives every exception, every interrupt line,
    the two of the local controller and the system call its own entry point; only the gate of
    the system call may be used by programs, and the other vectors keep their gates.  The
    processor that does it gets the table, of 256 gates. *)
Theorem interrupts_init_correct idt_a idtr_a isr irq cpu s v :
  (forall v, 0 <= isr v < 2 ^ 64) -> (forall v, 0 <= irq v < 2 ^ 64) -> 0 <= idt_a < 2 ^ 64 ->
  disjoint idt_a (IDT_ENTRY_SIZE * 256) idtr_a GDTR_SIZE -> 0 <= v < 256 ->
  let s' := interrupts_init idt_a idtr_a isr irq cpu s in
  r_idtr (k_cpu s' cpu) = Some (4095, idt_a) /\ r_if (k_cpu s' cpu) = true /\
  gate_of idt_a (arch_syscall_init idt_a isr (k_mem s')) v = default (gate_of idt_a (k_mem s) v) (vector_gate isr irq v).
Proof.
  intros H1 H2 Ha Hd Hv. unfold interrupts_init, idt_init, set_if. cbn [k_mem k_cpu set_kmem set_regs]. rewrite !upd_eq. cbn [r_idtr r_if].
  splits; [|reflexivity|].
  - rewrite load_store, load_store_other, load_store by (cbn; lia). change (2 ^ (8 * Z.of_nat 8)) with (2 ^ 64). now rewrite (Z.mod_small idt_a).
  - rewrite idt_spec by auto. unfold disjoint, IDT_ENTRY_SIZE, GDTR_SIZE in *. f_equal. unfold gate_of, IDT_ENTRY_SIZE.
    rewrite !(gate_unchanged _ _ _ _ _ (store_changes _ _ _ _)) by (cbn; lia). reflexivity.
Qed.

(** ** The other registers *)

(** A model specific register reads back as written. *)
Theorem msr_roundtrip cpu msr data s : 0 <= data < 2 ^ 64 -> rdmsr cpu msr (wrmsr cpu msr data s) = data.
Proof.
  intros Hd. unfold rdmsr, wrmsr. cbn [k_cpu set_regs]. rewrite upd_eq. cbn [r_msr]. rewrite upd_eq.
  change 0xFFFFFFFF with (2 ^ 32 - 1). rewrite land_mod, Z.shiftr_div_pow2 by lia.
  assert ((data / 2 ^ 32 * 2 ^ 32 + data mod 2 ^ 32) = data) as -> by (pow2_consts; dm).
  assert (0 <= data / 2 ^ 32 < 2 ^ 32 /\ 0 <= data mod 2 ^ 32 < 2 ^ 32) as [B1 B2] by (pow2_consts; dm).
  rewrite Z.shiftl_mul_pow2, wrap_small by (pow2_consts; lia). rewrite <- Z.shiftl_mul_pow2 by lia. rewrite lor_disjoint by lia. pow2_consts. dm.
Qed.

(** Which bits [fpu_init] sets and clears; all others stay. *)
Theorem fpu_init_bits cpu s n : 0 <= n ->
  let r := k_cpu (fpu_init cpu s) cpu in
  Z.testbit (r_cr0 r) n = (if decide (n = 1 \/ n = 5) then true else if decide (n = 2 \/ n = 3) then false else Z.testbit (r_cr0 (k_cpu s cpu)) n) /\
  Z.testbit (r_cr4 r) n = (if decide (n = 9 \/ n = 10) then true else Z.testbit (r_cr4 (k_cpu s cpu)) n).
Proof.
  intros Hn. unfold fpu_init. cbn [k_cpu set_regs]. rewrite upd_eq. cbn [r_cr0 r_cr4].
  rewrite !Z.lor_spec, !Z.land_spec, !Z.lnot_spec by lia.
  assert (forall k, 0 <= k -> Z.testbit (Z.shiftl 1 k) n = bool_decide (n = k)) as HB.
  { intros k Hk. rewrite Z.shiftl_1_l. case_bool_decide as E; [subst; now apply Z.pow2_bits_true|now apply Z.pow2_bits_false]. }
  rewrite !HB by lia. assert (Z.testbit (Z.shiftl 3 9) n = bool_decide (n = 9) || bool_decide (n = 10)) as ->.
  { change (Z.shiftl 3 9) with (Z.lor (Z.shiftl 1 9) (Z.shiftl 1 10)). now rewrite Z.lor_spec, !HB by lia. }
  repeat case_bool_decide; repeat destruct (decide _); try lia; cbn; rewrite ?orb_false_r, ?orb_true_r, ?andb_true_r, ?andb_false_r; auto.
Qed.

(** Only the processor that is set up first loads the interrupt table: those after it keep
    whatever the register held. *)
Theorem second_cpu_without_idt gdt_a tss_a gdtr_a idt_a idtr_a isr irq cpu s : interruptsInitialised s = true ->
  r_idtr (k_cpu (arch_init_early gdt_a tss_a gdtr_a idt_a idtr_a isr irq cpu s) cpu) = r_idtr (k_cpu s cpu).
Proof.
  intros H. unfold arch_init_early, gdt_init, tss_flush, gdt_load, fpu_init. cbn [interruptsInitialised set_regs set_kmem]. rewrite H.
  cbn [k_cpu set_regs set_kmem]. now rewrite !upd_eq.
Qed.

(** A processor passes the checks exactly when it has all features the kernel needs. *)
Theorem compat_checks_correct edx :
  arch_compat_checks edx = Ret tt <->
  (Z.testbit edx 9 && Z.testbit edx 5 && Z.testbit edx 24 && Z.testbit edx 25 && Z.testbit edx 26) = true.
Proof.
  assert (forall k, 0 <= k -> (Z.land edx (Z.shiftl 1 k) =? 0) = negb (Z.testbit edx k)) as HB.
  { intros k Hk. rewrite Z.shiftl_1_l. destruct (Z.eqb_spec (Z.land edx (2 ^ k)) 0) as [E|E].
    - assert (Z.testbit (Z.land edx (2 ^ k)) k = false) as F by (rewrite E; apply Z.bits_0).
      rewrite Z.land_spec, Z.pow2_bits_true, andb_true_r in F by lia. now rewrite F.
    - destruct (Z.testbit edx k) eqn:Eb; [reflexivity|]. destruct E. apply Z.bits_inj'. intros j Hj. rewrite Z.land_spec, Z.bits_0.
      destruct (Z.eq_dec j k) as [->|N]; [now rewrite Eb|rewrite Z.pow2_bits_false by lia; apply andb_false_r]. }
  unfold arch_compat_checks, require_feature, CPUID_FEAT_EDX_APIC, CPUID_FEAT_EDX_MSR, CPUID_FEAT_EDX_FXSR, CPUID_FEAT_EDX_SSE, CPUID_FEAT_EDX_SSE2.
  rewrite !HB by lia. destruct (Z.testbit edx 9), (Z.testbit edx 5), (Z.testbit edx 24), (Z.testbit edx 25), (Z.testbit edx 26); cbn; intuition discriminate.
Qed.

(** Trimming clears the blanks at the end and nothing else: the first character and
    everything up to the last one that is not blank stay. *)
Lemma trim_spec i : forall name, (i < length name)%nat -> exists k, (k <= i)%nat /\
  (k = O \/ (nth k name 0 <> 32 /\ nth k name 0 <> 0)) /\
  (forall j, (k < j <= i)%nat -> nth j name 0 = 32 \/ nth j name 0 = 0) /\
  length (trim i name) = length name /\
  (forall j, nth j (trim i name) 0 = if decide (k < j <= i)%nat then 0 else nth j name 0).
Proof.
  induction i as [|i IH]; intros name Hl; cbn [trim].
  - exists O. splits; auto; [lia|]. intros j. now destruct (decide _); [lia|].
  - destruct ((nth (S i) name 0 =? 32) || (nth (S i) name 0 =? 0)) eqn:E.
    + destruct (IH (<[S i := 0]> name)) as (k & Hk & K1 & K2 & K3 & K4); [rewrite length_insert; lia|].
      assert (forall j, j <> S i -> nth j (<[S i := 0]> name) 0 = nth j name 0) as HN.
      { intros j Hj. rewrite !nth_lookup. now rewrite list_lookup_insert_ne by lia. }
      exists k. splits; [lia| | |now rewrite K3, length_insert|].
      * rewrite HN in K1 by lia. exact K1.
      * intros j Hj. destruct (decide (j = S i)) as [->|N]; [apply orb_prop in E as [E|E]; apply Z.eqb_eq in E; auto|]. rewrite <- HN by lia. apply K2. lia.
      * intros j. rewrite K4. destruct (decide (j = S i)) as [->|N].
        -- destruct (decide (k < S i <= i)%nat); [lia|]. destruct (decide (k < S i <= S i)%nat); [|lia]. rewrite nth_lookup, list_lookup_insert_eq by lia. reflexivity.
        -- rewrite HN by exact N. destruct (decide (k < j <= i)%nat), (decide (k < j <= S i)%nat); auto; lia.
    + exists (S i). apply orb_false_elim in E as [E1 E2]. apply Z.eqb_neq in E1, E2. splits; auto; [lia|]. intros j. now destruct (decide _); [lia|].
Qed.
