(* ===== verification/Smp.v ===== *)
(** * Starting the processors ([kernel/cpu/smp/smp.c])

    The boot processor lets the others go and waits until all of them have reported.  The
    processors run at the same time: a state is what they share and where each of them is,
    and a step is one of them going on.  The increment of the counter is a load and a store,
    as the processor does it; setting up a processor ([arch_init_full], Cpu) and adding its
    device, which takes the lock of the device list, are one step each. *)

From S2P Require Import Prelude.
From stdpp Require Import relations.
#[local] Open Scope Z_scope.

(** Where a started processor is: parked by the boot loader, in [smp_cpu_entry], with its
    device added, with the lock, with the counter loaded, with it stored, halted. *)
Inductive ap_pc : Type := Parked | Entered | Registered | Holding | Loaded (v : Z) | Stored | Halted.

(** The boot processor: before its own report, having let go the first [i], waiting, done. *)
Inductive bsp_pc : Type := Boot | Starting (i : nat) | Waiting | Done.

(** [aps] are the processors 1, 2, ...; the boot processor is number 0.  [devices] are the
    processors with a device, in the order they were added. *)
Record smp : Type := mk_smp {
  CPUInitCount : Z;
  InitCountLock : spinlock_t;
  aps : list ap_pc;
  bsp : bsp_pc;
  devices : list nat
}.
Implicit Types (s t : smp).

Definition cpu_count s : nat := S (length (aps s)).

Definition let_go s (j : nat) : bool :=
  match bsp s with Boot => false | Starting i => Nat.ltb (S j) i | _ => true end.

Definition move (j : nat) (p : ap_pc) s : smp := mk_smp (CPUInitCount s) (InitCountLock s) (<[j := p]> (aps s)) (bsp s) (devices s).
Definition move_bsp (p : bsp_pc) s : smp := mk_smp (CPUInitCount s) (InitCountLock s) (aps s) p (devices s).
Definition set_count (v : Z) s : smp := mk_smp v (InitCountLock s) (aps s) (bsp s) (devices s).
Definition set_lock (l : spinlock_t) s : smp := mk_smp (CPUInitCount s) l (aps s) (bsp s) (devices s).
Definition add_device (k : nat) s : smp := mk_smp (CPUInitCount s) (InitCountLock s) (aps s) (bsp s) (devices s ++ [k]).

Inductive smp_step : smp -> smp -> Prop :=
| bsp_report s : bsp s = Boot ->
    smp_step s (move_bsp (Starting 0) (set_count (u64 (CPUInitCount s + 1)) (add_device 0 s)))
| bsp_start s i : bsp s = Starting i -> (i < cpu_count s)%nat -> smp_step s (move_bsp (Starting (S i)) s)
| bsp_wait s : bsp s = Starting (cpu_count s) -> smp_step s (move_bsp Waiting s)
| bsp_done s : bsp s = Waiting -> CPUInitCount s = Z.of_nat (cpu_count s) -> smp_step s (move_bsp Done s)
| ap_enter s j : aps s !! j = Some Parked -> let_go s j = true -> smp_step s (move j Entered s)
| ap_register s j : aps s !! j = Some Entered -> smp_step s (move j Registered (add_device (S j) s))
| ap_lock s j : aps s !! j = Some Registered -> InitCountLock s = false -> smp_step s (move j Holding (set_lock true s))
| ap_load s j : aps s !! j = Some Holding -> smp_step s (move j (Loaded (CPUInitCount s)) s)
| ap_store s j v : aps s !! j = Some (Loaded v) -> smp_step s (move j Stored (set_count (u64 (v + 1)) s))
| ap_unlock s j : aps s !! j = Some Stored -> smp_step s (move j Halted (set_lock (releaseLock true) s)).

(** [smp_init] with [n] processors besides the boot processor. *)
Definition smp_start (n : nat) : smp := mk_smp 0 false (repeat Parked n) Boot [].

(** ** Counting *)

Section Sum.
Context {A : Type} (f : A -> nat).

Fixpoint total (l : list A) : nat := match l with [] => O | x :: l' => (f x + total l')%nat end.

Lemma sum_insert l : forall j p q, l !! j = Some p -> (total (<[j := q]> l) + f p = total l + f q)%nat.
Proof.
  induction l as [|x l IH]; intros [|j] p q E; simpl in *; try discriminate; [injection E as ->; lia|]. specialize (IH j p q E). lia.
Qed.

Lemma sum_zero l : total l = O -> Forall (fun x => f x = O) l.
Proof. induction l as [|x l IH]; cbn; intros E; constructor; [lia|apply IH; lia]. Qed.

Lemma sum_two l : forall i j p q, l !! i = Some p -> l !! j = Some q -> i <> j -> (f p + f q <= total l)%nat.
Proof.
  assert (forall l j p, l !! j = Some p -> (f p <= total l)%nat) as H1.
  { induction l0 as [|x l0 IH]; intros [|j] p E; simpl in *; try discriminate; [injection E as ->; lia|]. specialize (IH j p E). lia. }
  induction l as [|x l IH]; intros [|i] [|j] p q E1 E2 N; simpl in *; try discriminate; try lia.
  - injection E1 as ->. specialize (H1 l j q E2). lia.
  - injection E2 as ->. specialize (H1 l i p E1). lia.
  - specialize (IH i j p q E1 E2 ltac:(lia)). lia.
Qed.

Lemma sum_full l k : (forall x, f x <= k)%nat -> total l = (k * length l)%nat -> Forall (fun x => f x = k) l.
Proof.
  intros Hk. assert (forall l, (total l <= k * length l)%nat) as HB.
  { induction l0 as [|x l0 IH]; cbn; [lia|]. specialize (Hk x). nia. }
  induction l as [|x l IH]; cbn; intros E; constructor; specialize (HB l); specialize (Hk x); [nia|apply IH; nia].
Qed.
End Sum.

Definition inside (p : ap_pc) : nat := match p with Holding | Loaded _ | Stored => 1 | _ => 0 end.
Definition reported (p : ap_pc) : nat := match p with Stored | Halted => 1 | _ => 0 end.
Definition has_device (p : ap_pc) : bool := match p with Parked | Entered => false | _ => true end.

(** ** The invariant *)

#[global] Instance bsp_pc_dec : EqDecision bsp_pc.
Proof. solve_decision. Defined.
#[global] Instance ap_pc_dec : EqDecision ap_pc.
Proof. solve_decision. Defined.

Record smp_ok (n : nat) s : Prop := {
  ok_len : length (aps s) = n;
  ok_lock : total inside (aps s) = if InitCountLock s then 1%nat else 0%nat;
  ok_count : CPUInitCount s = Z.of_nat ((if decide (bsp s = Boot) then 0 else 1) + total reported (aps s));
  ok_loaded : forall j v, aps s !! j = Some (Loaded v) -> v = CPUInitCount s;
  ok_boot : bsp s = Boot -> aps s = repeat Parked n;
  ok_done : bsp s = Done -> CPUInitCount s = Z.of_nat (S n);
  ok_start : forall i, bsp s = Starting i -> (i <= S n)%nat;
  ok_nodup : NoDup (devices s);
  ok_devices : forall k, k ∈ devices s <->
    (k = 0%nat /\ bsp s <> Boot) \/ exists j p, k = S j /\ aps s !! j = Some p /\ has_device p = true
}.


Lemma smp_total_bound {A} (f : A -> nat) l : (forall x, f x <= 1)%nat -> (total f l <= length l)%nat.
Proof. intros Hf. induction l as [|x l IH]; simpl; [lia|]. specialize (Hf x). lia. Qed.

Lemma inside_bound p : (inside p <= 1)%nat.
Proof. destruct p; simpl; lia. Qed.
Lemma reported_bound p : (reported p <= 1)%nat.
Proof. destruct p; simpl; lia. Qed.

(** One of the started processors goes on from [p] to [q]. *)
Lemma ap_move_ok n s j p q c (l : spinlock_t) :
  smp_ok n s -> aps s !! j = Some p -> bsp s <> Boot ->
  (inside q + (if InitCountLock s then 1 else 0) = (if l then 1 else 0) + inside p)%nat ->
  c + Z.of_nat (reported p) = CPUInitCount s + Z.of_nat (reported q) -> (reported p <= reported q)%nat ->
  (forall v, q = Loaded v -> v = c) -> (c = CPUInitCount s \/ inside p = 1%nat) -> (has_device p = true -> has_device q = true) ->
  smp_ok n (mk_smp c l (<[j := q]> (aps s)) (bsp s) (if has_device q && negb (has_device p) then devices s ++ [S j] else devices s)).
Proof.
  intros [H1 H2 H3 H4 H5 H6 H7 H8 H9] Ej Hb Hl Hc Hm Hq Hx Hd.
  pose proof (sum_insert inside (aps s) j p q Ej) as SI. pose proof (sum_insert reported (aps s) j p q Ej) as SR.
  pose proof (smp_total_bound reported (<[j := q]> (aps s)) reported_bound) as TB. rewrite length_insert, H1 in TB.
  pose proof (lookup_lt_Some _ _ _ Ej) as Hj. rewrite decide_False in H3 by exact Hb.
  split; cbn [CPUInitCount InitCountLock aps bsp devices].
  - now rewrite length_insert.
  - lia.
  - rewrite decide_False by exact Hb. lia.
  - intros k v Ek. destruct (decide (k = j)) as [->|N].
    + rewrite list_lookup_insert_eq in Ek by exact Hj. injection Ek as ->. now apply Hq.
    + rewrite list_lookup_insert_ne in Ek by auto. destruct Hx as [->|Hx]; [now apply H4 in Ek|].
      pose proof (sum_two inside (aps s) k j _ _ Ek Ej N) as ST. simpl in ST. destruct (InitCountLock s); lia.
  - intros E. contradiction.
  - intros E. specialize (H6 E). lia.
  - exact H7.
  - destruct (has_device q && negb (has_device p)) eqn:E; [|exact H8]. apply andb_prop in E as [_ E]. apply negb_true_iff in E.
    apply NoDup_app. splits; [exact H8| |apply NoDup_singleton]. intros k Hk Hk'. apply list_elem_of_singleton in Hk' as ->.
    apply H9 in Hk as [[? _]|(j' & p' & Ek & Ep & Hp)]; [discriminate|]. injection Ek as <-. congruence.
  - intros k. assert ((exists i r, k = S i /\ <[j := q]> (aps s) !! i = Some r /\ has_device r = true) <->
      (exists i r, k = S i /\ aps s !! i = Some r /\ has_device r = true) \/ (k = S j /\ has_device q = true)) as HI.
    { split.
      - intros (i & r & -> & Er & Hr). destruct (decide (i = j)) as [->|N].
        + rewrite list_lookup_insert_eq in Er by exact Hj. injection Er as <-. auto.
        + rewrite list_lookup_insert_ne in Er by auto. left. eauto.
      - intros [(i & r & -> & Er & Hr)|[-> Hr]].
        + destruct (decide (i = j)) as [->|N]; [exists j, q|exists i, r; now rewrite list_lookup_insert_ne by auto].
          rewrite list_lookup_insert_eq by exact Hj. splits; auto. apply Hd. congruence.
        + exists j, q. now rewrite list_lookup_insert_eq by exact Hj. }
    rewrite HI. destruct (has_device q) eqn:Eq, (has_device p) eqn:Ep; cbn [andb negb].
    + rewrite H9. split; [tauto|]. intros [?|[?|[-> _]]]; auto. right. exists j, p. auto.
    + rewrite elem_of_app, list_elem_of_singleton, H9. tauto.
    + exfalso. specialize (Hd eq_refl). discriminate.
    + rewrite H9. intuition discriminate.
Qed.

Lemma repeat_parked n j p : repeat Parked n !! j = Some p -> p = Parked.
Proof. intros E. apply list_elem_of_lookup_2, list_elem_of_In, repeat_spec in E. exact E. Qed.

(** A started processor has been let go. *)
Lemma ap_started n s j p : smp_ok n s -> aps s !! j = Some p -> p <> Parked \/ let_go s j = true -> bsp s <> Boot.
Proof.
  intros H Ej Hp E. rewrite (ok_boot _ _ H E) in Ej. apply repeat_parked in Ej. destruct Hp as [Hp|Hp]; [contradiction|].
  unfold let_go in Hp. now rewrite E in Hp.
Qed.

(** The boot processor goes on without a report. *)
Lemma bsp_move_ok n s b : smp_ok n s -> bsp s <> Boot -> b <> Boot ->
  (b = Done -> CPUInitCount s = Z.of_nat (S n)) -> (forall i, b = Starting i -> (i <= S n)%nat) -> smp_ok n (move_bsp b s).
Proof.
  intros [H1 H2 H3 H4 H5 H6 H7 H8 H9] Hb Hb' HD HS. rewrite decide_False in H3 by exact Hb.
  split; cbn [CPUInitCount InitCountLock aps bsp devices move_bsp]; auto; [now rewrite decide_False by exact Hb'|intros E; contradiction|].
  intros k. rewrite H9. tauto.
Qed.

Lemma smp_step_ok n s t : Z.of_nat n < 2 ^ 64 - 2 -> smp_ok n s -> smp_step s t -> smp_ok n t.
Proof.
  intros Hn H Hst. pose proof H as [H1 H2 H3 H4 H5 H6 H7 H8 H9]. destruct Hst as [s E|s i E Hi|s E|s E Ec|s j Ej Hg|s j Ej|s j Ej Hl|s j Ej|s j v Ej|s j Ej].
  - specialize (H5 E). rewrite decide_True in H3 by exact E.
    assert (total inside (aps s) = 0%nat /\ total reported (aps s) = 0%nat) as [T1 T2] by (rewrite H5; clear; induction n; simpl; auto).
    rewrite T2 in H3. rewrite H3. split; cbn [CPUInitCount InitCountLock aps bsp devices move_bsp set_count add_device]; auto; try discriminate.
    + rewrite T2, decide_False by discriminate. rewrite wrap_small by (pow2_consts; lia). lia.
    + intros j v Ej. rewrite H5 in Ej. apply repeat_parked in Ej. discriminate.
    + intros i [= <-]. lia.
    + apply NoDup_app. splits; [exact H8| |apply NoDup_singleton]. intros k Hk Hk'. apply list_elem_of_singleton in Hk' as ->.
      apply H9 in Hk as [[_ ?]|(j & p & Ek & _)]; [contradiction|discriminate].
    + intros k. rewrite elem_of_app, list_elem_of_singleton, H9, E. split.
      * intros [[[_ ?]|?]| ->]; [contradiction|now right|left; split; [reflexivity|discriminate]].
      * intros [[-> _]|?]; auto.
  - apply bsp_move_ok; auto; rewrite ?E; try discriminate. intros k [= <-]. unfold cpu_count in Hi. lia.
  - apply bsp_move_ok; auto; rewrite ?E; discriminate.
  - apply bsp_move_ok; auto; rewrite ?E; try discriminate. intros _. rewrite Ec. unfold cpu_count. now rewrite H1.
  - apply (ap_move_ok n s j Parked Entered (CPUInitCount s) (InitCountLock s) H Ej); simpl; try discriminate; auto; try lia.
    apply (ap_started n s j Parked H Ej). auto.
  - apply (ap_move_ok n s j Entered Registered (CPUInitCount s) (InitCountLock s) H Ej); simpl; try discriminate; auto; try lia.
    apply (ap_started n s j Entered H Ej). left. discriminate.
  - apply (ap_move_ok n s j Registered Holding (CPUInitCount s) true H Ej); simpl; try discriminate; auto; try lia.
    + apply (ap_started n s j Registered H Ej). left. discriminate.
    + now rewrite Hl.
  - apply (ap_move_ok n s j Holding (Loaded (CPUInitCount s)) (CPUInitCount s) (InitCountLock s) H Ej); simpl; auto; try lia.
    + apply (ap_started n s j Holding H Ej). left. discriminate.
    + now intros v [= ->].
  - rewrite (H4 j v Ej). assert (bsp s <> Boot) as Hb by (apply (ap_started n s j _ H Ej); left; discriminate).
    pose proof (smp_total_bound reported (aps s) reported_bound) as TB. rewrite H1 in TB. rewrite decide_False in H3 by exact Hb.
    rewrite wrap_small by (pow2_consts; lia).
    apply (ap_move_ok n s j (Loaded v) Stored (CPUInitCount s + 1) (InitCountLock s) H Ej); simpl; try discriminate; auto; try lia.
  - assert (InitCountLock s = true) as Hl.
    { pose proof (sum_insert inside (aps s) j Stored Halted Ej) as SI. simpl in SI. destruct (InitCountLock s); [reflexivity|lia]. }
    apply (ap_move_ok n s j Stored Halted (CPUInitCount s) false H Ej); simpl; try discriminate; auto; try lia.
    + apply (ap_started n s j Stored H Ej). left. discriminate.
    + now rewrite Hl.
Qed.

Lemma smp_start_ok n : smp_ok n (smp_start n).
Proof.
  split; cbn [CPUInitCount InitCountLock aps bsp devices smp_start]; auto; try discriminate.
  - apply repeat_length.
  - clear. induction n; simpl; auto.
  - rewrite decide_True by reflexivity. clear. induction n; simpl; auto.
  - intros j v E. apply repeat_parked in E. discriminate.
  - apply NoDup_nil. exact I.
  - intros k. split; [now intros E%not_elem_of_nil|]. intros [[_ E]|(j & p & _ & E & Hp)]; [contradiction|].
    apply repeat_parked in E. now subst.
Qed.

Lemma smp_reachable_ok n s : Z.of_nat n < 2 ^ 64 - 2 -> rtc smp_step (smp_start n) s -> smp_ok n s.
Proof.
  intros Hn Hr. remember (smp_start n) as s0 eqn:E0. assert (smp_ok n s0) as H by (subst; apply smp_start_ok). clear E0.
  induction Hr as [|x y z Hxy _ IH]; [exact H|]. apply IH. eapply smp_step_ok; eassumption.
Qed.

(** C17: Whatever the order in which the processors run, the boot processor leaves
    [smp_init] only when every other processor has added its device and stored the counter:
    no report is lost, the counter is the number of processors and each has exactly one
    device.  At most one processor has then still to release the lock, and the lock is free
    exactly when all of them have done so and stopped. *)
Theorem smp_init_waits_for_all n s : Z.of_nat n < 2 ^ 64 - 2 -> rtc smp_step (smp_start n) s -> bsp s = Done ->
  CPUInitCount s = Z.of_nat (S n) /\ Forall (fun p => p = Stored \/ p = Halted) (aps s) /\
  (forall i j, aps s !! i = Some Stored -> aps s !! j = Some Stored -> i = j) /\
  (InitCountLock s = false <-> Forall (fun p => p = Halted) (aps s)) /\
  NoDup (devices s) /\ (forall k, k ∈ devices s <-> (k <= n)%nat).
Proof.
  intros Hn Hr Hd. destruct (smp_reachable_ok n s Hn Hr) as [H1 H2 H3 H4 H5 H6 H7 H8 H9]. specialize (H6 Hd).
  rewrite decide_False in H3 by (rewrite Hd; discriminate). assert (total reported (aps s) = 1 * length (aps s))%nat as HT by lia.
  pose proof (sum_full reported (aps s) 1 reported_bound HT) as HF.
  assert (Forall (fun p => p = Stored \/ p = Halted) (aps s)) as HF'.
  { eapply Forall_impl; [exact HF|]. intros []; simpl; intros; try discriminate; auto. }
  splits; auto; [| |intros k; rewrite H9, Hd; split].
  - intros i j Ei Ej. destruct (decide (i = j)) as [|N]; [assumption|]. pose proof (sum_two inside (aps s) i j _ _ Ei Ej N) as ST.
    simpl in ST. destruct (InitCountLock s); lia.
  - split; intros HL.
    + rewrite HL in H2. apply sum_zero in H2. rewrite Forall_forall in *. intros p Hp. specialize (H2 p Hp). destruct (HF' p Hp) as [-> | ->]; [discriminate|reflexivity].
    + destruct (InitCountLock s); [|reflexivity]. enough (total inside (aps s) = 0)%nat by lia. clear -HL.
      induction HL as [|p l -> _ IH]; [reflexivity|exact IH].
  - intros [[-> _]|(j & p & -> & Ej & _)]; [lia|]. apply lookup_lt_Some in Ej. lia.
  - intros Hk. destruct k as [|j]; [left; split; [reflexivity|discriminate]|right].
    destruct (lookup_lt_is_Some_2 (aps s) j ltac:(lia)) as [p Ej]. exists j, p. splits; auto.
    rewrite Forall_forall in HF'. destruct (HF' p (list_elem_of_lookup_2 _ _ _ Ej)) as [-> | ->]; reflexivity.
Qed.

(** ** It ends *)

(** Steps a processor has still to make. *)
Definition to_go (p : ap_pc) : nat :=
  match p with Parked => 6 | Entered => 5 | Registered => 4 | Holding => 3 | Loaded _ => 2 | Stored => 1 | Halted => 0 end.
Definition bsp_to_go (n : nat) (p : bsp_pc) : nat :=
  match p with Boot => n + 5 | Starting i => n + 4 - i | Waiting => 1 | Done => 0 end.
Definition smp_measure s : nat := (bsp_to_go (length (aps s)) (bsp s) + total to_go (aps s))%nat.

Lemma smp_step_decreases n s t : smp_ok n s -> smp_step s t -> (smp_measure t < smp_measure s)%nat.
Proof.
  intros H Hst. unfold smp_measure.
  destruct Hst as [s E|s i E Hi|s E|s E Ec|s j Ej Hg|s j Ej|s j Ej Hl|s j Ej|s j v Ej|s j Ej];
    cbn [aps bsp move move_bsp set_count set_lock add_device]; rewrite ?length_insert, ?E; unfold cpu_count in *; simpl; try lia;
    match goal with |- context [<[j := ?q]> (aps s)] => pose proof (sum_insert to_go (aps s) j _ q Ej) as SI end; simpl in SI; lia.
Qed.

(** A processor that has been let go can go on when the lock is free, or when it has it. *)
Lemma ap_can_move s j p : aps s !! j = Some p -> p <> Halted -> let_go s j = true -> InitCountLock s = false \/ inside p = 1%nat ->
  exists t, smp_step s t.
Proof.
  intros Ej Hp Hg Hl. destruct p.
  - eexists. now apply (ap_enter s j).
  - eexists. now apply (ap_register s j).
  - destruct Hl as [Hl|Hl]; [eexists; now apply (ap_lock s j)|discriminate].
  - eexists. now apply (ap_load s j).
  - eexists. eapply ap_store. exact Ej.
  - eexists. now apply (ap_unlock s j).
  - contradiction.
Qed.

(** With the lock taken, somebody has it. *)
Lemma holder l : total inside l = 1%nat -> exists j p, l !! j = Some p /\ inside p = 1%nat.
Proof.
  induction l as [|p l IH]; simpl; intros E; [discriminate|]. destruct (Nat.eq_dec (inside p) 1%nat) as [Ep|N].
  - exists O, p. auto.
  - pose proof (inside_bound p). destruct IH as (j & q & Ej & Eq); [lia|]. exists (S j), q. auto.
Qed.

Lemma not_all_halted l : ~ Forall (fun p => p = Halted) l -> exists j p, l !! j = Some p /\ p <> Halted.
Proof.
  induction l as [|p l IH]; intros H; [destruct H; constructor|]. destruct (decide (p = Halted)) as [->|N].
  - destruct IH as (j & q & Ej & Eq); [intros HF; apply H; now constructor|]. exists (S j), q. auto.
  - exists O, p. auto.
Qed.

(** Until everybody is finished, somebody can go on. *)
Lemma smp_progress n s : smp_ok n s -> (exists t, smp_step s t) \/ (bsp s = Done /\ Forall (fun p => p = Halted) (aps s)).
Proof.
  intros H. pose proof H as [H1 H2 H3 H4 H5 H6 H7 H8 H9].
  destruct (InitCountLock s) eqn:Hl.
  { left. destruct (holder (aps s) H2) as (j & p & Ej & Ep).
    assert (exists t, smp_step s t) as [t Ht]; [|now exists t].
    destruct p; try discriminate; eexists; [now apply (ap_load s j)|eapply ap_store; exact Ej|now apply (ap_unlock s j)]. }
  destruct (bsp s) as [|i| |] eqn:Eb.
  - left. eexists. now apply bsp_report.
  - left. specialize (H7 i eq_refl). destruct (decide (i = S n)) as [->|N]; eexists; [apply bsp_wait|apply (bsp_start s i); [exact Eb|]]; unfold cpu_count; rewrite H1; [exact Eb|lia].
  - left. destruct (decide (Forall (fun p => p = Halted) (aps s))) as [HF|HF].
    + eexists. apply bsp_done; [exact Eb|]. rewrite H3, decide_False by discriminate. unfold cpu_count. f_equal. rewrite Nat.add_1_l. f_equal.
      clear - HF. induction HF as [|p l -> _ IH]; simpl; [reflexivity|]. now rewrite IH.
    + apply not_all_halted in HF as (j & p & Ej & Ep). apply (ap_can_move s j p); auto. unfold let_go. now rewrite Eb.
  - destruct (decide (Forall (fun p => p = Halted) (aps s))) as [HF|HF]; [now right|left].
    apply not_all_halted in HF as (j & p & Ej & Ep). apply (ap_can_move s j p); auto. unfold let_go. now rewrite Eb.
Qed.

(** C18: Starting the processors ends, however they are interleaved: no run has more than
    [7 * n + 5] steps, and a run that cannot go on has the boot processor out of its waiting
    loop and all others halted; there is no deadlock on the lock of the counter. *)
Theorem smp_init_terminates n s k : Z.of_nat n < 2 ^ 64 - 2 -> nsteps smp_step k (smp_start n) s ->
  (k <= 7 * n + 5)%nat /\ ((forall t, ~ smp_step s t) -> bsp s = Done /\ Forall (fun p => p = Halted) (aps s)).
Proof.
  intros Hn Hr. assert (forall s0, smp_ok n s0 -> nsteps smp_step k s0 s -> smp_ok n s /\ (k + smp_measure s <= smp_measure s0)%nat) as HM.
  { clear Hr. intros s0 H0 Hr. revert H0. induction Hr as [s0|k s0 s1 s2 Hst _ IH]; intros H0; [split; [exact H0|lia]|].
    pose proof (smp_step_decreases n s0 s1 H0 Hst). destruct (IH (smp_step_ok n s0 s1 Hn H0 Hst)). split; [assumption|lia]. }
  destruct (HM (smp_start n) (smp_start_ok n) Hr) as [Hok Hk]. split.
  - assert (smp_measure (smp_start n) = 7 * n + 5)%nat as E.
    { unfold smp_measure. cbn [aps bsp smp_start bsp_to_go]. rewrite repeat_length.
      assert (total to_go (repeat Parked n) = 6 * n)%nat as -> by (clear; induction n as [|n IH]; [reflexivity|cbn [repeat total to_go]; lia]). lia. }
    lia.
  - intros Hstuck. destruct (smp_progress n s Hok) as [[t Ht]|Hd]; [now apply Hstuck in Ht|exact Hd].
Qed.

(** Two processors. *)
Definition smp_end : smp := mk_smp 2 false [Halted] Done [0%nat; 1%nat].

Lemma smp_demo : nsteps smp_step 11 (smp_start 1) smp_end.
Proof.
  eapply nsteps_l; [apply bsp_report; reflexivity|]. eapply nsteps_l; [eapply bsp_start; [reflexivity|vm_compute; repeat constructor]|].
  eapply nsteps_l; [eapply bsp_start; [reflexivity|vm_compute; repeat constructor]|].
  eapply nsteps_l; [apply (ap_enter _ 0); reflexivity|]. eapply nsteps_l; [apply (ap_register _ 0); reflexivity|].
  eapply nsteps_l; [apply bsp_wait; reflexivity|]. eapply nsteps_l; [apply (ap_lock _ 0); reflexivity|].
  eapply nsteps_l; [apply (ap_load _ 0); reflexivity|]. eapply nsteps_l; [eapply (ap_store _ 0); reflexivity|].
  eapply nsteps_l; [apply (ap_unlock _ 0); reflexivity|].
  eapply nsteps_l; [apply bsp_done; reflexivity|]. apply nsteps_O.
Qed.

Lemma smp_init_waits_for_all_witness :
  CPUInitCount smp_end = 2 /\ Forall (fun p => p = Stored \/ p = Halted) (aps smp_end) /\
  (forall i j, aps smp_end !! i = Some Stored -> aps smp_end !! j = Some Stored -> i = j) /\
  (InitCountLock smp_end = false <-> Forall (fun p => p = Halted) (aps smp_end)) /\
  NoDup (devices smp_end) /\ (forall k, k ∈ devices smp_end <-> (k <= 1)%nat).
Proof.
  apply (smp_init_waits_for_all 1 smp_end); [pow2_consts; lia| |reflexivity].
  apply rtc_nsteps. exists 11%nat. exact smp_demo.
Defined.

Lemma smp_init_terminates_witness :
  (11 <= 12)%nat /\ ((forall t, ~ smp_step smp_end t) -> bsp smp_end = Done /\ Forall (fun p => p = Halted) (aps smp_end)).
Proof. apply (smp_init_terminates 1 smp_end 11); [pow2_consts; lia|exact smp_demo]. Defined.
