(* ===== verification/AcpiOs.v ===== *)
(** * What the kernel does for uACPI ([kernel/acpi/uacpi-hooks.c], [acpi-init.c])

    uACPI calls back into the kernel for memory, ports, locks, events and interrupts; each
    function works here on the part of the kernel it uses.  A handle of a lock or an event is
    the address of a 64-bit word.  [ksleep] is what happens to memory while the caller
    sleeps.  uACPI itself is third-party code: its functions are arguments of [acpi_init]. *)

From S2P Require Import Prelude Interfaces MemMap Pmm MemUtil Kheap Paging Vmm ListDs Bytes Ports Sched Irq Kprintf Device Pci.
#[local] Open Scope Z_scope.

Definition UACPI_STATUS_OK : Z := 0.
Definition UACPI_LOG_ERROR : Z := 0.
Definition UACPI_LOG_WARN : Z := 1.
Definition UACPI_LOG_INFO : Z := 2.
Definition UACPI_LOG_TRACE : Z := 3.
Definition UACPI_LOG_DEBUG : Z := 4.
Definition UACPI_FIRMWARE_REQUEST_TYPE_BREAKPOINT : Z := 0.
Definition UACPI_FIRMWARE_REQUEST_TYPE_FATAL : Z := 1.
Definition NO_TIMEOUT : Z := 0xFFFF.
Definition SPINLOCK_SIZE : Z := 8.

(** Ports of 32 bits. *)
Class PortIO32 (W : Type) := { arch_inl : Z -> W -> Z * W; arch_outl : Z -> Z -> W -> W }.

(** ** Memory and ports *)

Section Access.
Variable hhdmOffset : Z.

(** [None]: the variable is not written. *)
Definition uacpi_kernel_raw_memory_read (address byte_width : Z) (m : mem) : Z * option Z :=
  let a := u64 (address + hhdmOffset) in
  (UACPI_STATUS_OK,
   if byte_width =? 1 then Some (load8 a m)
   else if byte_width =? 2 then Some (load16 a m)
   else if byte_width =? 4 then Some (load32 a m)
   else if byte_width =? 8 then Some (load64 a m)
   else None).

(** Eight bytes are written before the width is looked at. *)
Definition uacpi_kernel_raw_memory_write (address byte_width in_value : Z) (m : mem) : Z * mem :=
  let a := u64 (address + hhdmOffset) in
  let m := store64 a in_value m in
  (UACPI_STATUS_OK,
   if byte_width =? 1 then store8 a (u8 in_value) m
   else if byte_width =? 2 then store16 a (u16 in_value) m
   else if byte_width =? 4 then store32 a (u32 in_value) m
   else if byte_width =? 8 then store64 a in_value m
   else m).

Context {W : Type} `{IO : PortIO W} `{IO32 : PortIO32 W}.

Definition uacpi_kernel_raw_io_read (address byte_width : Z) (w : W) : Z * option Z * W :=
  if byte_width =? 1 then let '(v, w) := arch_inb (u16 address) w in (UACPI_STATUS_OK, Some v, w)
  else if byte_width =? 2 then let '(v, w) := arch_inw (u16 address) w in (UACPI_STATUS_OK, Some v, w)
  else if byte_width =? 4 then let '(v, w) := arch_inl (u16 address) w in (UACPI_STATUS_OK, Some v, w)
  else (UACPI_STATUS_OK, None, w).

Definition uacpi_kernel_raw_io_write (address byte_width in_value : Z) (w : W) : Z * W :=
  (UACPI_STATUS_OK,
   if byte_width =? 1 then arch_outb (u16 address) (u8 in_value) w
   else if byte_width =? 2 then arch_outw (u16 address) (u16 in_value) w
   else if byte_width =? 4 then arch_outl (u16 address) (u32 in_value) w
   else w).

(** The handle is not written, and not used. *)
Definition uacpi_kernel_io_map (base len : Z) : Z * option Z := (UACPI_STATUS_OK, None).
Definition uacpi_kernel_io_read (port offset byte_width : Z) (w : W) : Z * option Z * W := uacpi_kernel_raw_io_read offset byte_width w.
Definition uacpi_kernel_io_write (port offset byte_width value : Z) (w : W) : Z * W := uacpi_kernel_raw_io_write offset byte_width value w.
Definition uacpi_kernel_io_unmap (handle : Z) (w : W) : W := w.

Context {P : Type} `{PA : PageAllocator P}.

Definition MAP_FLAGS : Z := Z.lor (Z.lor VMM_CACHE_DISABLE VMM_RW) VMM_PRESENT.

Definition uacpi_kernel_map (fuel : nat) (addr len : Z) (s : vmm_state P) : outcome (Z * vmm_state P) :=
  s ← vmm_map_range fuel (vmm_get_kernel_pt s) addr (u64 (addr + hhdmOffset)) len MAP_FLAGS s;
  Ret (u64 (addr + hhdmOffset), s).

Definition uacpi_kernel_unmap (fuel : nat) (addr len : Z) (s : vmm_state P) : outcome (vmm_state P) :=
  vmm_unmap_range fuel (vmm_get_kernel_pt s) addr len s.
End Access.

(** ** The heap *)

Section Heap.
Context {H : Type} `{KH : KernelHeap H}.

Definition uacpi_kernel_alloc (size : Z) (h : H) : outcome (Z * H) := kh_malloc size h.

Definition uacpi_kernel_calloc (count size : Z) (m : mem) (h : H) : outcome (Z * mem * H) :=
  '(addr, h) ← kh_malloc (u64 (count * size)) h;
  Ret (addr, memset addr 0 (u64 (count * size)) m, h).

Definition uacpi_kernel_free (a : Z) (h : H) : outcome H := if a =? 0 then Ret h else kh_free a h.

(** Locks, mutexes and events are words of zero. *)
Definition uacpi_kernel_create_spinlock (m : mem) (h : H) : outcome (Z * mem * H) := uacpi_kernel_calloc 1 SPINLOCK_SIZE m h.
Definition uacpi_kernel_free_spinlock (a : Z) (h : H) : outcome H := uacpi_kernel_free a h.
Definition uacpi_kernel_create_mutex (m : mem) (h : H) : outcome (Z * mem * H) := uacpi_kernel_create_spinlock m h.
Definition uacpi_kernel_free_mutex (a : Z) (h : H) : outcome H := uacpi_kernel_free_spinlock a h.
Definition uacpi_kernel_create_event (m : mem) (h : H) : outcome (Z * mem * H) := uacpi_kernel_create_spinlock m h.
Definition uacpi_kernel_free_event (a : Z) (h : H) : outcome H := uacpi_kernel_free_spinlock a h.
End Heap.

(** ** Configuration space *)

(** The offset becomes a byte when it is passed on. *)
Definition uacpi_kernel_pci_read (cfg : Z -> Z) (location : pci_location_t) (offset byte_width : Z) : Z * option Z :=
  (UACPI_STATUS_OK,
   if byte_width =? 1 then Some (Z.land (pci_config_read_word cfg location (u8 offset)) 0xFF)
   else if byte_width =? 2 then Some (pci_config_read_word cfg location (u8 offset))
   else if byte_width =? 4 then Some (pci_config_read_address cfg location (u8 offset))
   else None).

Definition uacpi_kernel_pci_write (cfg : Z -> Z) (location : pci_location_t) (offset byte_width value : Z) : Z * (Z -> Z) :=
  (UACPI_STATUS_OK,
   if byte_width =? 1 then
     let pciWord := pci_config_read_word cfg location (u8 offset) in
     pci_config_write_word cfg location (u8 offset) (u16 (Z.lor (Z.land pciWord 0xFF00) (Z.land value 0xFF)))
   else if byte_width =? 2 then pci_config_write_word cfg location (u8 offset) (u16 value)
   else if byte_width =? 4 then
     let cfg := pci_config_write_word cfg location (u8 offset) (u16 (Z.land value 0xFFFF)) in
     pci_config_write_word cfg location (u8 (offset + 2)) (u16 (Z.land (Z.shiftr value 16) 0xFFFF))
   else cfg).

(** ** Time, work and requests *)

Definition uacpi_kernel_get_ticks (ticksSinceOSBoot : Z) : Z := u64 (timer_get_ticks ticksSinceOSBoot * 10000).

(** Any stall lasts a tick. *)
Definition uacpi_kernel_stall (usec ticks : Z) (seen : list Z) : outcome nat := ksleep 1 ticks seen.
Definition uacpi_kernel_sleep (msec ticks : Z) (seen : list Z) : outcome nat := ksleep msec ticks seen.

(** Work is done at once. *)
Definition uacpi_kernel_schedule_work {S} (workHandler : Z -> S -> outcome S) (ctx : Z) (s : S) : outcome (Z * S) :=
  s ← workHandler ctx s; Ret (UACPI_STATUS_OK, s).
Definition uacpi_kernel_wait_for_work_completion : Z := UACPI_STATUS_OK.
Definition uacpi_kernel_get_thread_id : Z := 0.

Definition uacpi_kernel_handle_firmware_request (type : Z) : outcome Z :=
  if type =? UACPI_FIRMWARE_REQUEST_TYPE_BREAKPOINT then Ret UACPI_STATUS_OK
  else if type =? UACPI_FIRMWARE_REQUEST_TYPE_FATAL then Panic "Fatal firmware request!"
  else Panic "Unhandled firmware request!".

(** The level of the log message. *)
Definition uacpi_kernel_log (loglevel : Z) : Z :=
  if (loglevel =? UACPI_LOG_INFO) || (loglevel =? UACPI_LOG_DEBUG) || (loglevel =? UACPI_LOG_TRACE) then KLOG_INFO
  else if loglevel =? UACPI_LOG_ERROR then KLOG_FAILED
  else if loglevel =? UACPI_LOG_WARN then KLOG_WARNING
  else loglevel.

Section Interrupts.
Context {H W : Type} `{KH : KernelHeap H}.

(** The context is not kept: the handler gets the frame of the interrupt. *)
Definition uacpi_kernel_install_interrupt_handler (irq handler ctx : Z) (s : irq_state H W) : outcome (Z * Z * irq_state H W) :=
  '(_, s) ← irq_add_handler (u8 irq) handler 0 s; Ret (UACPI_STATUS_OK, irq, s).

Definition uacpi_kernel_uninstall_interrupt_handler (fuel : nat) (handler irq_handle : Z) (s : irq_state H W) : outcome (Z * irq_state H W) :=
  s ← irq_remove_handler fuel (u8 irq_handle) handler s; Ret (UACPI_STATUS_OK, s).
End Interrupts.

(** ** Locks and events *)

(** The lock is bit 0 of a word ([spinlock.asm]). *)
Definition acquire_at (a : Z) (m : mem) : outcome mem :=
  if Z.testbit (load64 a m) 0 then Deadlock else Ret (store64 a (Z.lor (load64 a m) 1) m).
Definition release_at (a : Z) (m : mem) : mem := store64 a (Z.land (load64 a m) (Z.lnot 1)) m.

Definition uacpi_kernel_spinlock_lock (spinlock : Z) (m : mem) : outcome (Z * mem) := m ← acquire_at spinlock m; Ret (0, m).
Definition uacpi_kernel_spinlock_unlock (spinlock flags : Z) (m : mem) : mem := release_at spinlock m.
Definition uacpi_kernel_release_mutex (mutex : Z) (m : mem) : mem := release_at mutex m.

Section Waiting.
Variable ksleep : mem -> mem.

Fixpoint mutex_loop (timeout : nat) (counter : Z) (m : mem) : outcome (bool * mem) :=
  match timeout with
  | O => Ret (false, m)
  | S t => if load64 counter m =? 0 then m ← acquire_at counter m; Ret (true, m) else mutex_loop t counter (ksleep m)
  end.

Definition uacpi_kernel_acquire_mutex (counter timeout : Z) (m : mem) : outcome (bool * mem) :=
  if timeout =? NO_TIMEOUT then m ← acquire_at counter m; Ret (true, m) else mutex_loop (Z.to_nat timeout) counter m.

(** [*event++] moves the pointer, not the counter. *)
Definition uacpi_kernel_signal_event (event : Z) (s : mem * spinlock_t) : outcome (mem * spinlock_t) :=
  let '(m, eventLock) := s in
  l ← acquireLock eventLock; Ret (m, releaseLock l).

Definition uacpi_kernel_reset_event (event : Z) (s : mem * spinlock_t) : outcome (mem * spinlock_t) :=
  let '(m, eventLock) := s in
  l ← acquireLock eventLock; Ret (store64 event 0 m, releaseLock l).

Fixpoint event_loop (timeout : nat) (counter : Z) (m : mem) : bool * mem :=
  match timeout with
  | O => (false, m)
  | S t => if load64 counter m >? 0 then (true, m) else event_loop t counter (ksleep m)
  end.

(** The lock of the events is held while waiting, so that nobody can signal: without a
    time-out an event at zero is waited for forever. *)
Definition uacpi_kernel_wait_for_event (counter timeout : Z) (s : mem * spinlock_t) : outcome (bool * (mem * spinlock_t)) :=
  let '(m, eventLock) := s in
  l ← acquireLock eventLock;
  if timeout =? NO_TIMEOUT then
    if load64 counter m =? 0 then Deadlock else Ret (true, (m, releaseLock l))
  else
    let '(ok, m) := event_loop (Z.to_nat timeout) counter m in Ret (ok, (m, releaseLock l)).
End Waiting.

(** ** Starting uACPI *)

(** The steps of [acpi_init]: each is a call of uACPI, whose status is 0 when it succeeds,
    and the message of the panic when it does not; at the end its functions for restarting and
    switching off are set. *)
Fixpoint acpi_steps {A} (steps : list ((A -> Z * A) * string)) (s : A) : outcome A :=
  match steps with
  | [] => Ret s
  | (f, msg) :: r => let '(ret, s) := f s in if ret =? UACPI_STATUS_OK then acpi_steps r s else Panic msg
  end.

Definition acpi_init {A} (uacpi_initialize : Z -> A -> Z * A)
    (uacpi_namespace_load uacpi_namespace_initialize uacpi_finalize_gpe_initialization : A -> Z * A)
    (power_set_reboot power_set_shutdown : A -> A) (rsdp hhdm : Z) (s : A) : outcome A :=
  s ← acpi_steps [(uacpi_initialize (u64 (rsdp - hhdm)), "uacpi_initialize error"); (uacpi_namespace_load, "uacpi_namespace_load error");
                  (uacpi_namespace_initialize, "uacpi_namespace_initialize error"); (uacpi_finalize_gpe_initialization, "uACPI GPE initialization error")]%string s;
  Ret (power_set_shutdown (power_set_reboot s)).

(** ** Memory *)

(** The widths there are. *)
Definition width (w : Z) : Prop := w = 1 \/ w = 2 \/ w = 4 \/ w = 8.

(** What is written to memory is read back, cut to the width. *)
Theorem acpi_memory_roundtrip hhdm address w v m : width w ->
  uacpi_kernel_raw_memory_read hhdm address w (snd (uacpi_kernel_raw_memory_write hhdm address w v m)) = (UACPI_STATUS_OK, Some (v mod 2 ^ (8 * w))).
Proof.
  intros [-> |[-> |[-> | ->]]]; unfold uacpi_kernel_raw_memory_read, uacpi_kernel_raw_memory_write; cbn [snd Z.eqb Pos.eqb];
    rewrite load_store; cbn [Z.of_nat Pos.of_succ_nat Pos.succ]; f_equal; f_equal; unfold wrap; now rewrite ?Z.mod_mod.
Qed.

(** But a narrow write also clears the bytes behind it. *)
Theorem acpi_memory_write_clobbers hhdm address v m k : 0 <= v < 256 -> 1 <= k < 8 ->
  let a := u64 (address + hhdm) in snd (uacpi_kernel_raw_memory_write hhdm address 1 v m) (a + k) = 0.
Proof.
  intros Hv Hk a. unfold uacpi_kernel_raw_memory_write. cbn [snd Z.eqb Pos.eqb]. fold a. rewrite store_other by (cbn; lia).
  rewrite store_byte by (cbn; lia). rewrite Z.div_small; [reflexivity|]. split; [lia|].
  assert (256 ^ 1 <= 256 ^ k) by (apply Z.pow_le_mono_r; lia). lia.
Qed.

(** Allocated objects are fresh and zero. *)
Theorem acpi_calloc_zeroed {H : Type} `{KH : KernelHeap H} `{KHL : !KernelHeapLaws H} count size m (h : H) live :
  0 <= count * size < 2 ^ 40 -> kh_ok h -> kh_live h live ->
  Safe (uacpi_kernel_calloc count size m h) (fun '(a, m', h') => exists n,
    0 < a /\ count * size <= n /\ kh_ok h' /\ kh_live h' ((a, n) :: live) /\ Forall (apart (a, n)) live /\
    (forall x, a <= x < a + count * size -> m' x = 0) /\ (forall x, ~ (a <= x < a + count * size) -> m' x = m x)).
Proof.
  intros Hs Hok Hl. unfold uacpi_kernel_calloc. rewrite wrap_small by (change (2 ^ 40) with 1099511627776 in Hs; pow2_consts; lia).
  pose proof (kh_malloc_spec (count * size) h live Hs Hok Hl) as HM.
  destruct (kh_malloc (count * size) h) as [[a h']| | | |]; try contradiction; cbn [mbind outcome_bind Safe]; [|exact I].
  destruct HM as (n & Hp & _ & Hn & _ & Hok' & Hl' & Hap). exists n. destruct (memset_spec a 0 (count * size) m ltac:(lia)) as [S1 S2]. splits; auto.
  intros x Hx. replace x with (a + (x - a)) by lia. rewrite S1 by lia. reflexivity.
Qed.

(** ** Mutual exclusion *)

Lemma load64_store a v m : 0 <= v < 2 ^ 64 -> load64 a (store64 a v m) = v.
Proof. intros H. rewrite load_store. now apply Z.mod_small. Qed.

(** A mutex is held by one caller at a time: a free one is taken, with any time-out but
    zero; one that is held and not released is refused when the time is up, and left as it
    is; released, it is free again. *)
Theorem acpi_mutex_exclusive ksleep counter timeout m :
  0 < timeout <= NO_TIMEOUT -> load64 counter m = 0 -> (forall m, load64 counter (ksleep m) = load64 counter m) ->
  exists m1, uacpi_kernel_acquire_mutex ksleep counter timeout m = Ret (true, m1) /\ load64 counter m1 = 1 /\
    (forall t, 0 <= t < NO_TIMEOUT -> Returns (uacpi_kernel_acquire_mutex ksleep counter t m1) (fun '(ok, m2) => ok = false /\ load64 counter m2 = 1)) /\
    load64 counter (uacpi_kernel_release_mutex counter m1) = 0.
Proof.
  intros Ht Hm Hs. assert (acquire_at counter m = Ret (store64 counter 1 m)) as EA by (unfold acquire_at; now rewrite Hm).
  exists (store64 counter 1 m). assert (load64 counter (store64 counter 1 m) = 1) as E1 by (apply load64_store; pow2_consts; lia).
  splits.
  - unfold uacpi_kernel_acquire_mutex. destruct (timeout =? NO_TIMEOUT); [now rewrite EA|].
    destruct (Z.to_nat timeout) as [|n] eqn:En; [lia|]. cbn [mutex_loop]. now rewrite Hm, EA.
  - exact E1.
  - intros t Hlt. unfold uacpi_kernel_acquire_mutex. rewrite (proj2 (Z.eqb_neq t NO_TIMEOUT)) by lia.
    generalize (store64 counter 1 m) E1. induction (Z.to_nat t) as [|n IH]; intros m1 Em; cbn [mutex_loop]; [now apply Returns_ret|].
    rewrite Em. apply IH. now rewrite Hs.
  - unfold uacpi_kernel_release_mutex, release_at. rewrite E1. apply load64_store. vm_compute. split; [discriminate|reflexivity].
Qed.

Lemma acpi_mutex_exclusive_witness :
  exists m1, uacpi_kernel_acquire_mutex (fun m => m) 4096 5 (fun _ => 0) = Ret (true, m1) /\ load64 4096 m1 = 1 /\
    (forall t, 0 <= t < NO_TIMEOUT -> Returns (uacpi_kernel_acquire_mutex (fun m => m) 4096 t m1) (fun '(ok, m2) => ok = false /\ load64 4096 m2 = 1)) /\
    load64 4096 (uacpi_kernel_release_mutex 4096 m1) = 0.
Proof. apply (acpi_mutex_exclusive (fun m => m) 4096 5 (fun _ => 0)); [unfold NO_TIMEOUT; lia|reflexivity|reflexivity]. Defined.

(** With a time-out of zero a free mutex is refused. *)
Theorem acpi_mutex_no_try ksleep counter m : uacpi_kernel_acquire_mutex ksleep counter 0 m = Ret (false, m).
Proof. reflexivity. Qed.

(** ** Events that are lost *)

Fixpoint signals (n : nat) (event : Z) (s : mem * spinlock_t) : outcome (mem * spinlock_t) :=
  match n with
  | O => Ret s
  | S n' => s ← uacpi_kernel_signal_event event s; signals n' event s
  end.

(** However often an event is signalled, nobody who waits for it is told. *)
Theorem acpi_event_lost ksleep event timeout n m : 0 <= timeout <= NO_TIMEOUT ->
  (forall m, load64 event (ksleep m) = load64 event m) -> load64 event m = 0 ->
  exists m', signals n event (m, false) = Ret (m, false) /\
    uacpi_kernel_wait_for_event ksleep event timeout (m, false) = if timeout =? NO_TIMEOUT then Deadlock else Ret (false, (m', false)).
Proof.
  intros Ht Hs Hm. assert (forall k m, load64 event m = 0 -> exists m', event_loop ksleep k event m = (false, m')) as HL.
  { induction k as [|k IH]; intros m0 E; cbn [event_loop]; [eauto|]. rewrite E. cbn. apply IH. now rewrite Hs. }
  destruct (HL (Z.to_nat timeout) m Hm) as [m' E]. exists m'. split.
  - induction n as [|n IH]; [reflexivity|exact IH].
  - unfold uacpi_kernel_wait_for_event. cbn [acquireLock mbind outcome_bind]. rewrite Hm, E. now destruct (timeout =? NO_TIMEOUT).
Qed.

(** ** Ranges and bytes *)

(** A range of up to a page is mapped as one page, also where it crosses into the next. *)
Theorem acpi_map_one_page {P : Type} `{PA : PageAllocator P} hhdm fuel addr len (s : vmm_state P) : 0 < len <= PAGE_SIZE ->
  uacpi_kernel_map hhdm (S (S fuel)) addr len s =
    s ← vmm_map (kernelPT s) addr (u64 (addr + hhdm)) MAP_FLAGS s; Ret (u64 (addr + hhdm), s).
Proof.
  intros Hl. unfold uacpi_kernel_map, vmm_map_range, vmm_get_kernel_pt. cbn [vmm_map_range_loop].
  rewrite (proj2 (Z.ltb_lt 0 len)) by lia. destruct (vmm_map _ _ _ _ s); try reflexivity. cbn [mbind outcome_bind vmm_map_range_loop].
  change (u64 (0 + PAGE_SIZE)) with PAGE_SIZE. now rewrite (proj2 (Z.ltb_ge PAGE_SIZE len)) by lia.
Qed.

(** A byte at an odd offset of configuration space reads as the one before it. *)
Theorem acpi_pci_odd_byte cfg location k : 0 <= k < 128 ->
  uacpi_kernel_pci_read cfg location (2 * k + 1) 1 = uacpi_kernel_pci_read cfg location (2 * k) 1.
Proof.
  intros Hk. unfold uacpi_kernel_pci_read. cbn [Z.eqb Pos.eqb]. f_equal. f_equal. f_equal. rewrite !wrap_small by (pow2_consts; lia).
  unfold pci_config_read_word, config_address.
  assert (Z.land (2 * k + 1) 2 = Z.land (2 * k) 2 /\ Z.land (2 * k + 1) 252 = Z.land (2 * k) 252) as [-> ->]; [|reflexivity].
  pose proof (all_below 128 (fun k => (Z.land (2 * k + 1) 2 =? Z.land (2 * k) 2) && (Z.land (2 * k + 1) 252 =? Z.land (2 * k) 252))
    ltac:(vm_compute; reflexivity) k Hk) as HB. cbv beta in HB. apply andb_prop in HB as [E1 E2]. split; now apply Z.eqb_eq.
Qed.
