(* ===== verification/AcpiDev.v ===== *)
(** * Devices that ACPI knows of ([kernel/sys/dal/dev/acpidev.c], [devdetect.c])

    The keyboard controller, which is looked for in a table and with its self-test, the
    timer, and the devices of the ACPI name space, all given to the device manager.  The
    table and the nodes of the name space are what uACPI reports, and are arguments. *)

From S2P Require Import Prelude DeviceIds Interfaces MemMap Pmm MemUtil Kheap ListDs Path Vnode Initrd Bytes Ports Module Elf Device Pci.
#[local] Open Scope Z_scope.

Definition DEVICE_ID_TIMER_PIT : Z := 0.

(** Identifiers, byte by byte. *)
Definition DEVICE_CREATE_ID_PS2 : list Z := DEVICE_ID_CLASS_PS2 :: repeat 0 47.
Definition DEVICE_CREATE_ID_TIMER (timer : Z) : list Z := [DEVICE_ID_CLASS_TIMER; timer] ++ repeat 0 46.
Definition word_bytes (v : Z) : list Z := map (fun i => v / 256 ^ Z.of_nat i mod 256) (seq 0 8).
Definition DEVICE_CREATE_ID_ACPI (id : Z) : list Z := (DEVICE_ID_CLASS_ACPI :: repeat 0 31) ++ word_bytes id ++ repeat 0 8.

(** ** Looking for the keyboard controller *)

Section Find.
Context {W : Type} `{IO : PortIO W}.
Implicit Types (w : W).

(** [while(timeout--) if(arch_inb(0x64) & 1) break;], with the value [timeout] has in the
    end: when the loop runs out it has gone below zero. *)
Fixpoint wait_output (timeout : nat) w : Z * W :=
  match timeout with
  | O => (2 ^ 64 - 1, w)
  | S t => let '(st, w) := arch_inb 0x64 w in if negb (Z.land st 1 =? 0) then (Z.of_nat t, w) else wait_output t w
  end.

(** Whether the device is added.  [boot_arch] is [iapc_boot_arch] when there is a FADT.  An
    answer other than 0x55 is followed by the code for a controller that was found. *)
Definition i8042_found (timeout : nat) (boot_arch : option Z) w : bool * W :=
  if match boot_arch with Some b => negb (Z.land b (Z.shiftl 1 1) =? 0) | None => false end then (true, w)
  else
    let '(_, w) := arch_inb 0x60 w in
    let w := arch_outb 0x64 0xAA w in
    let '(t, w) := wait_output timeout w in
    if t =? 0 then (false, w)
    else
      let '(res, w) := arch_inb 0x60 w in
      if res =? 0x55 then (true, w) else (true, w).
End Find.

(** ** Adding devices *)

(** What uACPI reports of a node: an error, or whether it is a device, the identifier it has
    and the compatible ones (strings), and the address of the record. *)
Record node_info : Type := mk_info { ni_device : bool; ni_hid : option Z; ni_cids : list Z; ni_address : Z }.

Section Detect.
Context {W X H : Type} `{IO : PortIO W} `{KH : KernelHeap H}.
Variable (fuel sfuel : nat).
Variable ops : Z -> vnode_operations_t (fal X H).
Variable call : Z -> loader X H -> outcome (loader X H).
Abbreviation M := (devman X H).
Variable invoke : Z -> Z -> M -> outcome (bool * M).
Variable (metadata_str driver_metadata_str : Z).
Implicit Types (s : M).

(** A new device with an empty list of identifiers. *)
Definition new_device (bus type data : Z) s : outcome (Z * M) :=
  '(device, s) ← dm_alloc DEVICE_T_SIZE s;
  let s := upd_dev device (fun _ => mk_device bus type data 0 None 0) s in
  s ← device_id_initialise device s;
  Ret (device, s).

(** A copy of the string, and an identifier with it. *)
Definition add_acpi_id (device str : Z) s : outcome M :=
  n ← strlen sfuel str (dm_mem s);
  '(copy, s) ← dm_alloc (u64 (n + 1)) s;
  let s := put_dmmem (memcpy copy str (n + 1) (dm_mem s)) s in
  device_id_add device (DEVICE_CREATE_ID_ACPI copy) s.

Fixpoint add_acpi_ids (device : Z) (strs : list Z) s : outcome M :=
  match strs with
  | [] => Ret s
  | str :: r => s ← add_acpi_id device str s; add_acpi_ids device r s
  end.

(** For each node; iteration always goes on. *)
Definition acpi_init_device (info : option node_info) s : outcome M :=
  match info with
  | None => Ret s
  | Some i =>
      if negb (ni_device i) then Ret s
      else
        '(device, s) ← new_device DEVICE_BUS_ACPI DEVICE_TYPE_SYSTEM_DEVICE (ni_address i) s;
        s ← match ni_hid i with Some str => add_acpi_id device str s | None => Ret s end;
        s ← add_acpi_ids device (ni_cids i) s;
        device_add fuel sfuel ops call invoke metadata_str driver_metadata_str device s
  end.

Fixpoint for_nodes (nodes : list (option node_info)) s : outcome M :=
  match nodes with
  | [] => Ret s
  | i :: r => s ← acpi_init_device i s; for_nodes r s
  end.

(** A device with one identifier. *)
Definition add_simple (type : Z) (id : list Z) s : outcome M :=
  '(device, s) ← new_device DEVICE_BUS_NONE type 0 s;
  s ← device_id_add device id s;
  device_add fuel sfuel ops call invoke metadata_str driver_metadata_str device s.

Definition acpidev_detect (boot_arch : option Z) (nodes : list (option node_info)) (w : W) s : outcome (W * M) :=
  let '(found, w) := i8042_found (Z.to_nat 100000) boot_arch w in
  s ← (if found then add_simple DEVICE_TYPE_INPUT_CONTROLLER DEVICE_CREATE_ID_PS2 s else Ret s);
  s ← add_simple DEVICE_TYPE_SYSTEM_DEVICE (DEVICE_CREATE_ID_TIMER DEVICE_ID_TIMER_PIT) s;
  s ← for_nodes nodes s;
  Ret (w, s).

(** [devdetect.c]. *)
Definition devdetect (cfg : Z -> Z) (boot_arch : option Z) (nodes : list (option node_info)) (w : W) s : outcome (W * M) :=
  '(w, s) ← acpidev_detect boot_arch nodes w s;
  s ← pcidev_detect fuel sfuel ops call invoke metadata_str driver_metadata_str cfg s;
  Ret (w, s).
End Detect.

(** ** Identifiers *)

(** Reading the bytes back. *)
Lemma load_write_bytes n : forall l a m k, (k + n <= length l)%nat ->
  load n (a + Z.of_nat k) (write_bytes l a m) = load n 0 (fun x => nth (k + Z.to_nat x) l 0).
Proof.
  intros l a m k Hk. apply load_shift. intros j Hj. replace (a + Z.of_nat k + j) with (a + Z.of_nat (k + Z.to_nat j)) by lia.
  rewrite write_bytes_at by lia. f_equal; lia.
Qed.

(** The identifiers that are created are those the device manager matches: the class, the
    kind of timer, and the address of the name of an ACPI device. *)
Theorem acpi_ids_read_back a m name : 0 <= name < 2 ^ 64 ->
  id_class (write_bytes DEVICE_CREATE_ID_PS2 a m) a = DEVICE_ID_CLASS_PS2 /\
  id_class (write_bytes (DEVICE_CREATE_ID_TIMER DEVICE_ID_TIMER_PIT) a m) a = DEVICE_ID_CLASS_TIMER /\
  id_value8 (write_bytes (DEVICE_CREATE_ID_TIMER DEVICE_ID_TIMER_PIT) a m) a 0 = DEVICE_ID_TIMER_PIT /\
  id_class (write_bytes (DEVICE_CREATE_ID_ACPI name) a m) a = DEVICE_ID_CLASS_ACPI /\
  id_string (write_bytes (DEVICE_CREATE_ID_ACPI name) a m) a 0 = name.
Proof.
  intros Hn. unfold id_class, id_value8, id_string.
  assert (forall l, (1 <= length l)%nat -> write_bytes l a m a = nth 0 l 0) as H0.
  { intros l Hl. rewrite <- (Z.add_0_r a) at 2. exact (write_bytes_at l a m 0 Hl). }
  splits; [apply H0; cbn; lia|apply H0; cbn; lia| |apply H0; cbn; lia|].
  - rewrite Z.add_0_r. exact (write_bytes_at (DEVICE_CREATE_ID_TIMER DEVICE_ID_TIMER_PIT) a m 1 ltac:(cbn; lia)).
  - replace (a + 32 + 8 * 0) with (a + Z.of_nat 32) by lia. rewrite load_write_bytes by (cbn; lia).
    rewrite (load_ext 8 0 (store64 0 name (fun _ => 0))), load_store; [now apply Z.mod_small|]. intros k Hk. rewrite store_byte by lia.
    assert (k = 0 \/ k = 1 \/ k = 2 \/ k = 3 \/ k = 4 \/ k = 5 \/ k = 6 \/ k = 7) as HK by lia.
    destruct HK as [-> |[-> |[-> |[-> |[-> |[-> |[-> | ->]]]]]]]; reflexivity.
Qed.

(** ** A controller is nearly always found *)

Section Absent.
Context {W : Type} `{IO : PortIO W}.

(** With nothing at its ports the device is added all the same: neither running out of time
    nor a wrong answer to the self-test leads to the end of the search. *)
Theorem i8042_found_without_answer timeout boot_arch (w : W) : (0 < timeout)%nat ->
  (forall p w, Z.land (fst (arch_inb p w)) 1 = 0) -> fst (i8042_found timeout boot_arch w) = true.
Proof.
  intros Ht Hz. unfold i8042_found. destruct (match boot_arch with Some _ => _ | None => _ end); [reflexivity|].
  destruct (arch_inb 0x60 w) as [x w1].
  assert (forall n w, fst (wait_output n w) = 2 ^ 64 - 1) as HW.
  { induction n as [|n IH]; intros w0; cbn [wait_output]; [reflexivity|]. pose proof (Hz 0x64 w0) as E. destruct (arch_inb 0x64 w0) as [st w2].
    cbn [fst] in E. rewrite E. apply IH. }
  specialize (HW timeout (arch_outb 0x64 0xAA w1)). destruct (wait_output timeout _) as [t w3]. cbn [fst] in HW. subst t.
  destruct (arch_inb 0x60 w3) as [res w4]. now destruct (res =? 0x55).
Qed.
End Absent.
