(* ===== verification/UacpiLib.v ===== *)
(** * The C library of uACPI ([kernel/acpi/uacpi/stdlib.c])

    uACPI brings its own memory and string functions, with loops that move pointers, and
    counts bits with those of the compiler, or by hand. *)

From S2P Require Import Prelude MemUtil.
#[local] Open Scope Z_scope.

(** [while (count--) *cd++ = *cs++]. *)
Fixpoint copy_forward (count : nat) (cd cs : Z) (m : mem) : mem :=
  match count with O => m | S n => copy_forward n (cd + 1) (cs + 1) (upd m cd (m cs)) end.
(** [while (count--) *--cd = *--cs]. *)
Fixpoint copy_backward (count : nat) (cd cs : Z) (m : mem) : mem :=
  match count with O => m | S n => copy_backward n (cd - 1) (cs - 1) (upd m (cd - 1) (m (cs - 1))) end.
Fixpoint fill_forward (count : nat) (cdest fill : Z) (m : mem) : mem :=
  match count with O => m | S n => fill_forward n (cdest + 1) fill (upd m cdest fill) end.

Definition uacpi_memcpy (dest src count : Z) (m : mem) : mem := copy_forward (Z.to_nat count) dest src m.
Definition uacpi_memmove (dest src count : Z) (m : mem) : mem :=
  if src <? dest then copy_backward (Z.to_nat count) (dest + count) (src + count) m else copy_forward (Z.to_nat count) dest src m.
Definition uacpi_memset (dest ch count : Z) (m : mem) : mem := fill_forward (Z.to_nat count) dest (u8 ch) m.

Fixpoint memcmp_from (n : nat) (i lhs rhs : Z) (m : mem) : Z :=
  match n with
  | O => 0
  | S n' => if negb (m (lhs + i) =? m (rhs + i)) then m (lhs + i) - m (rhs + i) else memcmp_from n' (i + 1) lhs rhs m
  end.
Definition uacpi_memcmp (lhs rhs count : Z) (m : mem) : Z := memcmp_from (Z.to_nat count) 0 lhs rhs m.

Fixpoint uacpi_strlen (fuel : nat) (str : Z) (m : mem) : outcome Z :=
  match fuel with
  | O => OutOfFuel
  | S f => if m str =? 0 then Ret 0 else n ← uacpi_strlen f (str + 1) m; Ret (u64 (n + 1))
  end.

Fixpoint uacpi_strnlen (max : nat) (str : Z) (m : mem) : Z :=
  match max with O => 0 | S n => if m str =? 0 then 0 else 1 + uacpi_strnlen n (str + 1) m end.

Fixpoint uacpi_strcmp (fuel : nat) (lhs rhs : Z) (m : mem) : outcome Z :=
  match fuel with
  | O => OutOfFuel
  | S f =>
      if negb (m lhs =? 0) && negb (m rhs =? 0) then
        if negb (m lhs =? m rhs) then Ret (m lhs - m rhs) else uacpi_strcmp f (lhs + 1) (rhs + 1) m
      else Ret (m lhs - m rhs)
  end.

(** [__builtin_ffsll] and [64 - __builtin_clzll]: the one-based index of the lowest and of the
    highest bit that is set. *)
Fixpoint lowest_bit (p : positive) : Z := match p with xO q => 1 + lowest_bit q | _ => 1 end.
Definition uacpi_bit_scan_forward (value : Z) : Z := match value with Zpos p => lowest_bit p | _ => 0 end.
Definition uacpi_bit_scan_backward (value : Z) : Z := if value =? 0 then 0 else Z.log2 value + 1.

(** The shift is inside of the test of the lowest bit. *)
Fixpoint popcount_loop (fuel : nat) (popcnt value : Z) : outcome Z :=
  if value =? 0 then Ret popcnt
  else match fuel with
  | O => OutOfFuel
  | S f => if Z.testbit value 0 then popcount_loop f (u8 (popcnt + 1)) (Z.shiftr value 1) else popcount_loop f popcnt value
  end.

(** The count is not returned: the caller gets whatever [junk] is in the register. *)
Definition uacpi_popcount (fuel : nat) (junk value : Z) : outcome Z := _ ← popcount_loop fuel 0 value; Ret junk.

(** ** Memory *)

Lemma copy_forward_spec n : forall cd cs m, cd <= cs \/ cs + Z.of_nat n <= cd ->
  (forall k, 0 <= k < Z.of_nat n -> copy_forward n cd cs m (cd + k) = m (cs + k)) /\
  forall x, ~ (cd <= x < cd + Z.of_nat n) -> copy_forward n cd cs m x = m x.
Proof.
  induction n as [|n IH]; intros cd cs m Ho; cbn [copy_forward]; [split; [lia|reflexivity]|]. destruct (IH (cd + 1) (cs + 1) (upd m cd (m cs)) ltac:(lia)) as [I1 I2]. split.
  - intros k Hk. destruct (Z.eq_dec k 0) as [->|Nk]; [rewrite !Z.add_0_r, I2 by lia; apply upd_eq|].
    replace (cd + k) with (cd + 1 + (k - 1)) by lia. rewrite I1 by lia. rewrite upd_ne by lia. f_equal. lia.
  - intros x Hx. rewrite I2, upd_ne by lia. reflexivity.
Qed.

Lemma copy_backward_spec n : forall cd cs m, cs < cd ->
  (forall k, 0 < k <= Z.of_nat n -> copy_backward n cd cs m (cd - k) = m (cs - k)) /\
  forall x, ~ (cd - Z.of_nat n <= x < cd) -> copy_backward n cd cs m x = m x.
Proof.
  induction n as [|n IH]; intros cd cs m Ho; cbn [copy_backward]; [split; [lia|reflexivity]|]. destruct (IH (cd - 1) (cs - 1) (upd m (cd - 1) (m (cs - 1))) ltac:(lia)) as [I1 I2]. split.
  - intros k Hk. destruct (Z.eq_dec k 1) as [->|Nk]; [rewrite I2 by lia; apply upd_eq|].
    replace (cd - k) with (cd - 1 - (k - 1)) by lia. rewrite I1 by lia. rewrite upd_ne by lia. f_equal. lia.
  - intros x Hx. rewrite I2, upd_ne by lia. reflexivity.
Qed.

(** Areas that overlap in either direction are moved as a whole. *)
Theorem uacpi_memmove_correct dest src n m : 0 <= n -> copied dest src n m (uacpi_memmove dest src n m).
Proof.
  intros Hn. unfold uacpi_memmove, copied. destruct (Z.ltb_spec src dest) as [Hl|Hg].
  - destruct (copy_backward_spec (Z.to_nat n) (dest + n) (src + n) m ltac:(lia)) as [I1 I2]. split.
    + intros k Hk. replace (dest + k) with (dest + n - (n - k)) by lia. rewrite I1 by lia. f_equal. lia.
    + intros x Hx. apply I2. lia.
  - destruct (copy_forward_spec (Z.to_nat n) dest src m ltac:(lia)) as [I1 I2]. split; [intros k Hk; apply I1; lia|intros x Hx; apply I2; lia].
Qed.

(** ** Strings *)

Lemma uacpi_strlen_spec m l : forall fuel a, cstr m a l -> (length l < fuel)%nat -> Z.of_nat (length l) < 2 ^ 64 -> uacpi_strlen fuel a m = Ret (Z.of_nat (length l)).
Proof.
  induction l as [|c l IH]; intros [|f] a Hc Hf Hb; cbn [length] in *; try lia; cbn [uacpi_strlen cstr] in *; [now rewrite Hc|].
  destruct Hc as (E & Hr & Hc). rewrite E, (proj2 (Z.eqb_neq c 0)) by lia. rewrite (IH f (a + 1) Hc) by lia. cbn [mbind outcome_bind].
  rewrite wrap_small by lia. f_equal. lia.
Qed.

(** Two strings compare as equal exactly when they are. *)
Theorem uacpi_strcmp_zero m l1 : forall l2 fuel a b, cstr m a l1 -> cstr m b l2 -> (length l1 < fuel)%nat ->
  Returns (uacpi_strcmp fuel a b m) (fun r => r = 0 <-> l1 = l2).
Proof.
  induction l1 as [|c l1 IH]; intros l2 [|f] a b H1 H2 Hf; cbn [length] in *; try lia; cbn [uacpi_strcmp cstr] in *.
  - rewrite H1. cbn [Z.eqb negb andb]. apply Returns_ret. destruct l2 as [|d l2]; cbn [cstr] in H2; [rewrite H2; tauto|]. destruct H2 as (-> & Hd & _). split; [lia|discriminate].
  - destruct H1 as (E1 & R1 & H1). rewrite E1, (proj2 (Z.eqb_neq c 0)) by lia. destruct l2 as [|d l2]; cbn [cstr] in H2.
    + rewrite H2. cbn [Z.eqb negb andb]. apply Returns_ret. split; [lia|discriminate].
    + destruct H2 as (E2 & R2 & H2). rewrite E2, (proj2 (Z.eqb_neq d 0)) by lia. cbn [negb andb]. destruct (Z.eqb_spec c d) as [->|Hne]; cbn [negb].
      * eapply Returns_mono; [apply (IH l2 f); auto; lia|]. intros r Hr. rewrite Hr. split; [now intros ->|now intros [= ->]].
      * apply Returns_ret. split; [lia|congruence].
Qed.

(** ** Bits *)

Theorem bit_scan_forward_spec value : 0 < value ->
  Z.testbit value (uacpi_bit_scan_forward value - 1) = true /\ forall i, 0 <= i < uacpi_bit_scan_forward value - 1 -> Z.testbit value i = false.
Proof.
  destruct value as [|p|p]; try lia. intros _. cbn [uacpi_bit_scan_forward]. assert (forall p, 1 <= lowest_bit p) as Hp by (induction p0; cbn [lowest_bit]; lia).
  induction p as [p IH|p [I1 I2]|]; cbn [lowest_bit]; try (split; [reflexivity|cbn; lia]).
  pose proof (Hp p). rewrite Pos2Z.inj_xO. split.
  - replace (1 + lowest_bit p - 1) with (Z.succ (lowest_bit p - 1)) by lia. now rewrite Z.double_bits_succ.
  - intros i Hi. destruct (Z.eq_dec i 0) as [->|Ni]; [apply Z.testbit_even_0|]. replace i with (Z.succ (i - 1)) by lia. rewrite Z.double_bits_succ. apply I2. lia.
Qed.

Theorem bit_scan_backward_spec value : 0 < value ->
  Z.testbit value (uacpi_bit_scan_backward value - 1) = true /\ forall i, uacpi_bit_scan_backward value <= i -> Z.testbit value i = false.
Proof.
  intros Hv. unfold uacpi_bit_scan_backward. rewrite (proj2 (Z.eqb_neq value 0)) by lia. replace (Z.log2 value + 1 - 1) with (Z.log2 value) by lia.
  split; [now apply Z.bit_log2|]. intros i Hi. apply Z.bits_above_log2; lia.
Qed.

(** ** Counting bits *)

Lemma popcount_even fuel popcnt value : value <> 0 -> Z.testbit value 0 = false -> popcount_loop fuel popcnt value = OutOfFuel.
Proof.
  intros Hv Hb. induction fuel as [|f IH]; cbn [popcount_loop]; rewrite (proj2 (Z.eqb_neq value 0)) by exact Hv; [reflexivity|]. now rewrite Hb.
Qed.

(** The loop comes to an end only for the values whose bits are all ones from the lowest on;
    for every other value it never ends.  [uacpi_popcount] is asked for the number of
    interrupts in the mask of a resource: a device on any interrupt but 0 hangs. *)
Theorem popcount_hangs junk value k : 0 < value -> Z.testbit value k = true -> forall j, 0 <= j < k -> Z.testbit value j = false ->
  forall fuel, uacpi_popcount fuel junk value = OutOfFuel.
Proof.
  intros Hv Hk j Hj Hb fuel. unfold uacpi_popcount. assert (popcount_loop fuel 0 value = OutOfFuel) as ->; [|reflexivity]. generalize 0 as c.
  revert value k j Hv Hk Hj Hb. induction fuel as [|f IH]; intros value k j Hv Hk Hj Hb c; cbn [popcount_loop]; rewrite (proj2 (Z.eqb_neq value 0)) by lia; [reflexivity|].
  destruct (Z.testbit value 0) eqn:E0; [|apply popcount_even; [lia|exact E0]].
  assert (j <> 0) as Nj by (intros ->; congruence).
  assert (Z.testbit (Z.shiftr value 1) (k - 1) = true) as Hk' by (rewrite Z.shiftr_spec by lia; now replace (k - 1 + 1) with k by lia).
  apply (IH (Z.shiftr value 1) (k - 1) (j - 1)); [|exact Hk'|lia|rewrite Z.shiftr_spec by lia; now replace (j - 1 + 1) with j by lia].
  assert (0 <= Z.shiftr value 1) as H0 by (apply Z.shiftr_nonneg; lia). destruct (Z.eq_dec (Z.shiftr value 1) 0) as [E|]; [|lia]. rewrite E, Z.testbit_0_l in Hk'. discriminate.
Qed.

(** When it ends, the number of bits is lost. *)
Theorem popcount_ones junk (n : nat) : uacpi_popcount (S n) junk (Z.ones (Z.of_nat n)) = Ret junk.
Proof.
  unfold uacpi_popcount. assert (forall n c, exists r, popcount_loop (S n) c (Z.ones (Z.of_nat n)) = Ret r) as H; [|destruct (H n 0) as [r ->]; reflexivity].
  clear n. induction n as [|n IH]; intros c; [now exists c|]. remember (S n) as k eqn:Ek. cbn [popcount_loop].
  assert (Z.ones (Z.of_nat k) = 1 + 2 * Z.ones (Z.of_nat n)) as E by (rewrite !Z.ones_equiv, Ek, Nat2Z.inj_succ, Z.pow_succ_r by lia; lia).
  assert (0 <= Z.ones (Z.of_nat n)) by (rewrite Z.ones_equiv; pose proof (Z.pow_pos_nonneg 2 (Z.of_nat n)); lia). rewrite (proj2 (Z.eqb_neq _ 0)) by lia. rewrite Z.ones_spec_low by lia. rewrite Z.shiftr_div_pow2 by lia. change (2 ^ 1) with 2.
  replace (Z.ones (Z.of_nat k) / 2) with (Z.ones (Z.of_nat n)) by dm. apply IH.
Qed.
