(* ===== verification/UacpiShare.v ===== *)
(** * Reference counts of uACPI ([kernel/acpi/uacpi/shareable.c])

    The count of a shared object; a count of zero is a mistake of the caller and turns the
    object into one that is never freed. *)

From S2P Require Import Prelude.
#[local] Open Scope Z_scope.

Definition BUGGED_REFCOUNT : Z := 0xFFFFFFFF.

Definition uacpi_shareable_init : Z := 1.

Definition uacpi_bugged_shareable (count : Z) : bool * Z :=
  let count := if count =? 0 then BUGGED_REFCOUNT else count in (count =? BUGGED_REFCOUNT, count).

Definition uacpi_make_shareable_bugged (count : Z) : Z := BUGGED_REFCOUNT.

(** The result is the count before. *)
Definition uacpi_shareable_ref (count : Z) : Z * Z :=
  let '(bugged, count) := uacpi_bugged_shareable count in
  if bugged : bool then (BUGGED_REFCOUNT, count) else (count, u32 (count + 1)).

Definition uacpi_shareable_unref (count : Z) : Z * Z :=
  let '(bugged, count) := uacpi_bugged_shareable count in
  if bugged : bool then (BUGGED_REFCOUNT, count) else (count, u32 (count - 1)).

Definition uacpi_shareable_refcount (count : Z) : Z := count.

(** Whether the object is freed, and the count; the object is not NULL. *)
Definition uacpi_shareable_unref_and_delete_if_last (count : Z) : bool * Z :=
  let '(bugged, count) := uacpi_bugged_shareable count in
  if bugged : bool then (false, count)
  else let '(before, count) := uacpi_shareable_unref count in (before =? 1, count).

(** ** Any use of an object *)

Inductive use : Type := Ref | Drop.

(** The number of times an object is freed in a sequence of uses. *)
Fixpoint frees (uses : list use) (count : Z) : Z :=
  match uses with
  | [] => 0
  | Ref :: uses => frees uses (uacpi_shareable_ref count).2
  | Drop :: uses => let '(freed, count) := uacpi_shareable_unref_and_delete_if_last count in (if freed : bool then 1 else 0) + frees uses count
  end.

Lemma frees_bugged uses : forall count, count = 0 \/ count = BUGGED_REFCOUNT -> frees uses count = 0.
Proof.
  induction uses as [|[] uses IH]; intros count Hc; cbn [frees]; [reflexivity|..];
    (destruct Hc as [->| ->]; cbn; apply IH; now right).
Qed.

(** Who drops a reference without having one. *)
Fixpoint last_drop (uses : list use) (refs : Z) : bool :=
  match uses with
  | [] => false
  | Ref :: uses => last_drop uses (refs + 1)
  | Drop :: uses => (refs =? 1) || last_drop uses (refs - 1)
  end.

(** However it is used, an object is freed at most once, and it is freed exactly when as
    many references are dropped as there ever were. *)
Theorem shareable_freed_once uses count : 0 < count -> count + Z.of_nat (length uses) < BUGGED_REFCOUNT ->
  frees uses count = if last_drop uses count then 1 else 0.
Proof.
  unfold BUGGED_REFCOUNT. revert count. induction uses as [|[] uses IH]; intros count Hc Hl; cbn [frees last_drop length] in *; [reflexivity|..].
  - unfold uacpi_shareable_ref, uacpi_bugged_shareable. rewrite (proj2 (Z.eqb_neq count 0)) by lia. unfold BUGGED_REFCOUNT.
    rewrite (proj2 (Z.eqb_neq count 4294967295)) by lia. cbn [snd]. rewrite wrap_small by (pow2_consts; lia). apply IH; lia.
  - unfold uacpi_shareable_unref_and_delete_if_last, uacpi_shareable_unref, uacpi_bugged_shareable. rewrite (proj2 (Z.eqb_neq count 0)) by lia.
    unfold BUGGED_REFCOUNT. rewrite !(proj2 (Z.eqb_neq count 4294967295)), (proj2 (Z.eqb_neq count 0)) by lia.
    rewrite (proj2 (Z.eqb_neq count 4294967295)), wrap_small by (pow2_consts; lia). destruct (Z.eqb_spec count 1) as [->|Hne]; cbn [orb].
    + now rewrite frees_bugged by now left.
    + apply IH; lia.
Qed.
