(* ===== verification/UacpiIo.v ===== *)
(** * Fields of bits in uACPI ([kernel/acpi/uacpi/io.c])

    AML names fields by the index of their first bit and their length in bits.  The library
    copies them with [bit_copy], one byte at a time with shifts and masks at the width of C.
    Here the routine is followed on byte memory and shown to be the copy of single bits. *)

From S2P Require Import Prelude MemUtil Bytes.
#[local] Open Scope Z_scope.

Definition UACPI_ALIGN_UP (x val : Z) : Z := Z.land (u64 (x + (val - 1))) (Z.lnot (val - 1)).
Definition uacpi_round_up_bits_to_bytes (bit_length : Z) : Z := UACPI_ALIGN_UP bit_length 8 / 8.

Definition cut_misaligned_tail (data offset bit_length : Z) (m : mem) : mem :=
  let remainder := Z.land bit_length 7 in
  if remainder =? 0 then m else upd m (data + offset) (u8 (Z.land (m (data + offset)) (Z.shiftl 1 remainder - 1))).

Record bit_span : Type := mk_span { span_data : Z; span_index : Z; span_length : Z }.

(** The bits taken from the source in one round, what is left of the count, and the
    pointer. *)
Definition next_bits (src_ptr src_shift src_count : Z) (m : mem) : Z * Z * Z :=
  if src_count =? 0 then (0, src_count, src_ptr)
  else
    let bits := u8 (Z.shiftr (m src_ptr) src_shift) in
    let bits := if negb (src_shift =? 0) && (src_count >? 8 - src_shift)
                then u8 (Z.lor bits (Z.shiftl (m (src_ptr + 1)) (8 - src_shift))) else bits in
    if src_count <? 8 then (u8 (Z.land bits (Z.shiftl 1 src_count - 1)), 0, src_ptr)
    else (bits, u64 (src_count - 8), src_ptr + 1).

(** Storing them under a mask, in one byte or two. *)
Definition put_bits (bits dst_ptr dst_shift dst_count : Z) (m : mem) : mem :=
  let dst_mask := u16 (Z.shiftl (if dst_count <? 8 then Z.shiftl 1 dst_count - 1 else 0xFF) dst_shift) in
  let m := upd m dst_ptr (u8 (Z.lor (Z.land (m dst_ptr) (Z.lnot dst_mask)) (Z.land (Z.shiftl bits dst_shift) dst_mask))) in
  if negb (dst_shift =? 0) && (dst_count >? 8 - dst_shift) then
    let dst_mask := Z.shiftr dst_mask 8 in
    let m := upd m (dst_ptr + 1) (u8 (Z.land (m (dst_ptr + 1)) (Z.lnot dst_mask))) in
    upd m (dst_ptr + 1) (u8 (Z.lor (m (dst_ptr + 1)) (Z.land (Z.shiftr bits (8 - dst_shift)) dst_mask)))
  else m.

Fixpoint bit_copy_loop (fuel : nat) (dst_ptr dst_shift dst_count src_ptr src_shift src_count : Z) (m : mem) : outcome mem :=
  if dst_count =? 0 then Ret m
  else match fuel with
  | O => OutOfFuel
  | S f =>
      let '(bits, src_count, src_ptr) := next_bits src_ptr src_shift src_count m in
      let m := put_bits bits dst_ptr dst_shift dst_count m in
      bit_copy_loop f (dst_ptr + 1) dst_shift (if dst_count >? 8 then dst_count - 8 else 0) src_ptr src_shift src_count m
  end.

(** A round for each byte that is begun. *)
Definition bit_copy (dst src : bit_span) (m : mem) : outcome mem :=
  bit_copy_loop (Z.to_nat ((span_length dst + 7) / 8))
    (span_data dst + span_index dst / 8) (Z.land (span_index dst) 7) (span_length dst)
    (span_data src + span_index src / 8) (Z.land (span_index src) 7) (span_length src) m.

(** [uacpi_memcpy_zerout]: what the source does not have is zero. *)
Definition uacpi_memcpy_zerout (dst src dst_size src_size : Z) (m : mem) : mem :=
  let bytes_to_copy := Z.min src_size dst_size in
  let m := if bytes_to_copy =? 0 then m else memcpy dst src bytes_to_copy m in
  if dst_size >? bytes_to_copy then memset (dst + bytes_to_copy) 0 (dst_size - bytes_to_copy) m else m.

(** ** Buffer fields *)

(** [data] is [backing->data]. *)
Record uacpi_buffer_field : Type := mk_field { bf_data : Z; bit_index : Z; bit_length : Z }.

Definition do_misaligned_buffer_read (field : uacpi_buffer_field) (dst : Z) (m : mem) : outcome mem :=
  bit_copy (mk_span dst 0 (uacpi_round_up_bits_to_bytes (bit_length field) * 8))
    (mk_span (bf_data field) (bit_index field) (bit_length field)) m.

Definition uacpi_read_buffer_field (field : uacpi_buffer_field) (dst : Z) (m : mem) : outcome mem :=
  if Z.land (bit_index field) 7 =? 0 then
    let count := uacpi_round_up_bits_to_bytes (bit_length field) in
    Ret (cut_misaligned_tail dst (count - 1) (bit_length field) (memcpy dst (bf_data field + bit_index field / 8) count m))
  else do_misaligned_buffer_read field dst m.

Definition do_write_misaligned_buffer_field (field : uacpi_buffer_field) (src size : Z) (m : mem) : outcome mem :=
  bit_copy (mk_span (bf_data field) (bit_index field) (bit_length field)) (mk_span src 0 (size * 8)) m.

Definition uacpi_write_buffer_field (field : uacpi_buffer_field) (src size : Z) (m : mem) : outcome mem :=
  if Z.land (bit_index field) 7 =? 0 then
    let dst := bf_data field + bit_index field / 8 in
    let count := uacpi_round_up_bits_to_bytes (bit_length field) in
    let last_byte := m (dst + (count - 1)) in
    let tail_shift := Z.land (bit_length field) 7 in
    let m := uacpi_memcpy_zerout dst src count size m in
    if tail_shift =? 0 then Ret m
    else
      let last_shift := 8 - tail_shift in
      let m := upd m (dst + (count - 1)) (u8 (Z.shiftl (m (dst + (count - 1))) last_shift)) in
      let m := upd m (dst + (count - 1)) (Z.shiftr (m (dst + (count - 1))) last_shift) in
      Ret (upd m (dst + (count - 1)) (u8 (Z.lor (m (dst + (count - 1))) (Z.shiftl (Z.shiftr last_byte tail_shift) tail_shift))))
  else do_write_misaligned_buffer_field field src size m.

(** ** Bits *)

Definition byte_mem (m : mem) : Prop := forall a, 0 <= m a < 256.

(** Bit [i] of the memory from [a] on. *)
Definition mem_bit (m : mem) (a i : Z) : bool := Z.testbit (m (a + i / 8)) (i mod 8).

Lemma testbit_wrap w x i : 0 <= w -> 0 <= i -> Z.testbit (wrap w x) i = (i <? w) && Z.testbit x i.
Proof.
  intros Hw Hi. unfold wrap. destruct (Z.ltb_spec i w); [now rewrite Z.mod_pow2_bits_low|now rewrite Z.mod_pow2_bits_high by lia].
Qed.

Lemma testbit_mask c i : 0 <= c -> 0 <= i -> Z.testbit (Z.shiftl 1 c - 1) i = (i <? c).
Proof.
  intros Hc Hi. rewrite Z.shiftl_1_l. replace (2 ^ c - 1) with (Z.ones c) by (rewrite Z.ones_equiv; lia).
  now rewrite Z.testbit_ones_nonneg.
Qed.

Lemma testbit_byte x i : 0 <= x < 256 -> 8 <= i -> Z.testbit x i = false.
Proof. intros Hx Hi. apply (testbit_high 8); [exact Hx|lia]. Qed.

Lemma byte_ext x y : 0 <= x < 256 -> 0 <= y < 256 -> (forall p, 0 <= p < 8 -> Z.testbit x p = Z.testbit y p) -> x = y.
Proof.
  intros Hx Hy H. apply Z.bits_inj'. intros p Hp. destruct (Z.lt_ge_cases p 8); [now apply H|]. now rewrite !testbit_byte.
Qed.

Lemma byte_wrap x : 0 <= u8 x < 256.
Proof. unfold wrap. change (2 ^ 8) with 256. apply Z.mod_pos_bound. lia. Qed.

Lemma byte_upd m a v : byte_mem m -> 0 <= v < 256 -> byte_mem (upd m a v).
Proof. intros Hm Hv x. unfold upd. destruct (x =? a); auto. Qed.

(** The two bytes that a bit behind a shift can be in. *)
Lemma split_index s j : 0 <= s < 8 -> 0 <= j < 8 ->
  (s + j < 8 -> (s + j) / 8 = 0 /\ (s + j) mod 8 = s + j) /\ (8 <= s + j -> (s + j) / 8 = 1 /\ (s + j) mod 8 = s + j - 8).
Proof. intros Hs Hj. split; intros H; split; Z.to_euclidean_division_equations; lia. Qed.

Lemma next_bits_spec p s c m : byte_mem m -> 0 <= s < 8 -> 0 <= c < 2 ^ 64 ->
  let '(bits, c', p') := next_bits p s c m in
  0 <= bits < 256 /\ (forall j, 0 <= j < 8 -> Z.testbit bits j = (j <? c) && mem_bit m p (s + j)) /\
  c' = Z.max 0 (c - 8) /\ (8 < c -> p' = p + 1).
Proof.
  intros Hm Hs Hc. unfold next_bits. destruct (Z.eqb_spec c 0) as [->|Hc0].
  { splits; try lia. intros j Hj. rewrite Z.testbit_0_l. now rewrite (proj2 (Z.ltb_ge _ _)) by lia. }
  set (b0 := u8 (Z.shiftr (m p) s)). set (b1 := if _ && _ then _ else b0).
  assert (0 <= b1 < 256) as B1 by (unfold b1; destruct (_ && _); apply byte_wrap).
  assert (forall j, 0 <= j < 8 -> j < c -> Z.testbit b1 j = mem_bit m p (s + j)) as Hb.
  { intros j Hj Hjc. unfold mem_bit. destruct (split_index s j Hs Hj) as [L R].
    assert (Z.testbit b0 j = Z.testbit (m p) (j + s)) as E0
      by (unfold b0; rewrite testbit_wrap, Z.shiftr_spec, (proj2 (Z.ltb_lt j 8)) by lia; reflexivity).
    destruct (Z.lt_ge_cases (s + j) 8) as [H|H].
    - destruct (L H) as [-> ->]. rewrite Z.add_0_r, (Z.add_comm s j), <- E0. unfold b1. destruct (_ && _); [|reflexivity].
      rewrite testbit_wrap, Z.lor_spec, (Z.shiftl_spec_low (m (p + 1))), (proj2 (Z.ltb_lt j 8)) by lia. cbn [andb]. apply orb_false_r.
    - destruct (R H) as [-> ->]. unfold b1. rewrite (proj2 (Z.eqb_neq s 0)), (proj2 (Z.gtb_lt c (8 - s))) by lia. cbn [negb andb].
      rewrite testbit_wrap, Z.lor_spec, Z.shiftl_spec, E0, (testbit_byte (m p)), (proj2 (Z.ltb_lt j 8)) by (auto; lia).
      cbn [andb orb]. f_equal. lia. }
  destruct (Z.ltb_spec c 8) as [H|H].
  - split; [apply byte_wrap|]. split; [|split; lia]. intros j Hj. rewrite testbit_wrap, Z.land_spec, testbit_mask, (proj2 (Z.ltb_lt j 8)) by lia. cbn [andb].
    rewrite andb_comm. destruct (Z.ltb_spec j c); [|reflexivity]. now rewrite Hb.
  - rewrite wrap_small by lia. split; [exact B1|]. split; [|split; lia]. intros j Hj. rewrite (proj2 (Z.ltb_lt j c)) by lia. now rewrite Hb by lia.
Qed.

Lemma put_bits_spec bits d s c m : byte_mem m -> 0 <= bits < 256 -> 0 <= s < 8 -> 0 < c ->
  byte_mem (put_bits bits d s c m) /\
  forall a p, 0 <= p < 8 -> let i := 8 * (a - d) + p - s in
    Z.testbit (put_bits bits d s c m a) p = if (0 <=? i) && (i <? Z.min 8 c) then Z.testbit bits i else Z.testbit (m a) p.
Proof.
  intros Hm Hb Hs Hc. unfold put_bits. set (mask := u16 _).
  assert (forall q, 0 <= q -> Z.testbit mask q = (q <? 16) && (s <=? q) && (q - s <? Z.min 8 c)) as Hmask.
  { intros q Hq. unfold mask. rewrite testbit_wrap, Z.shiftl_spec by lia. rewrite <- andb_assoc. f_equal.
    destruct (Z.leb_spec s q); [|rewrite Z.testbit_neg_r by lia; reflexivity]. cbn [andb].
    destruct (Z.ltb_spec c 8); [rewrite testbit_mask by lia; f_equal; lia|].
    change 255 with (Z.shiftl 1 8 - 1). rewrite testbit_mask by lia. f_equal. lia. }
  set (v0 := u8 (Z.lor _ _)). set (two := negb (s =? 0) && (c >? 8 - s)).
  assert (forall p, 0 <= p < 8 -> Z.testbit v0 p = if (0 <=? p - s) && (p - s <? Z.min 8 c) then Z.testbit bits (p - s) else Z.testbit (m d) p) as Hv0.
  { intros p Hp. unfold v0. rewrite testbit_wrap, Z.lor_spec, !Z.land_spec, Z.lnot_spec, Z.shiftl_spec, Hmask by lia.
    rewrite !(proj2 (Z.ltb_lt p _)) by lia. cbn [andb]. replace (s <=? p) with (0 <=? p - s) by (zcmp; lia || reflexivity).
    set (t := (0 <=? p - s) && (p - s <? Z.min 8 c)). destruct t, (Z.testbit (m d) p), (Z.testbit bits (p - s)); reflexivity. }
  set (m1 := upd m d v0).
  assert (m1 (d + 1) = m (d + 1)) as E1 by (unfold m1; apply upd_ne; lia).
  rewrite upd_eq, E1. set (v1 := u8 (Z.lor _ _)).
  assert (two = true -> forall p, 0 <= p < 8 -> Z.testbit v1 p = if p + 8 - s <? Z.min 8 c then Z.testbit bits (p + 8 - s) else Z.testbit (m (d + 1)) p) as Hv1.
  { intros Ht p Hp. unfold v1. rewrite testbit_wrap, Z.lor_spec, testbit_wrap, !Z.land_spec, Z.lnot_spec, !Z.shiftr_spec, !Hmask by lia.
    rewrite !(proj2 (Z.ltb_lt p _)), (proj2 (Z.ltb_lt (p + 8) 16)), (proj2 (Z.leb_le s (p + 8))) by lia. cbn [andb].
    replace (p + (8 - s)) with (p + 8 - s) by lia.
    destruct (p + 8 - s <? Z.min 8 c), (Z.testbit (m (d + 1)) p), (Z.testbit bits (p + 8 - s)); reflexivity. }
  assert (byte_mem m1) as Hm1 by (apply byte_upd; [exact Hm|apply byte_wrap]).
  split; [destruct two; repeat (apply byte_upd; [|apply byte_wrap]); assumption|].
  intros a p Hp. set (i := 8 * (a - d) + p - s).
  destruct (Z.eq_dec a d) as [->|Ha].
  { replace i with (p - s) by (unfold i; lia). rewrite <- Hv0 by exact Hp. destruct two; [rewrite !upd_ne by lia|]; unfold m1; now rewrite upd_eq. }
  destruct (Z.eq_dec a (d + 1)) as [->|Ha1].
  { replace i with (p + 8 - s) by (unfold i; lia). rewrite (proj2 (Z.leb_le 0 _)) by lia. cbn [andb]. destruct two eqn:Et.
    - rewrite upd_eq. now apply Hv1.
    - rewrite E1. destruct (Z.ltb_spec (p + 8 - s) (Z.min 8 c)); [|reflexivity]. exfalso. unfold two in Et.
      rewrite (proj2 (Z.eqb_neq s 0)), (proj2 (Z.gtb_lt c _)) in Et by lia. discriminate. }
  assert ((0 <=? i) && (i <? Z.min 8 c) = false) as -> by (unfold i; apply andb_false_iff; zcmp; lia || auto).
  destruct two; [rewrite !upd_ne by lia|]; unfold m1; now rewrite upd_ne.
Qed.

Lemma mem_bit_shift m p i : mem_bit m (p + 1) (i - 8) = mem_bit m p i.
Proof.
  unfold mem_bit. replace ((i - 8) / 8) with (i / 8 - 1) by (Z.to_euclidean_division_equations; lia).
  replace ((i - 8) mod 8) with (i mod 8) by (Z.to_euclidean_division_equations; lia). do 2 f_equal. lia.
Qed.

(** The loop copies bit by bit, with zeros behind the end of the source, and changes no
    other bit; neither span is read after it was written. *)
Lemma bit_copy_loop_spec fuel : forall d s c p t e m, byte_mem m -> 0 <= s < 8 -> 0 <= t < 8 -> 0 <= c <= 8 * Z.of_nat fuel -> 0 <= e < 2 ^ 64 ->
  (forall i j, 0 <= i < e -> 0 <= j < c -> p + (t + i) / 8 <> d + (s + j) / 8) ->
  Returns (bit_copy_loop fuel d s c p t e m) (fun m' => byte_mem m' /\ forall a q, 0 <= q < 8 -> let i := 8 * (a - d) + q - s in
    Z.testbit (m' a) q = if (0 <=? i) && (i <? c) then (i <? e) && mem_bit m p (t + i) else Z.testbit (m a) q).
Proof.
  induction fuel as [|f IH]; intros d s c p t e m Hm Hs Ht Hc He Hd; cbn [bit_copy_loop].
  { replace c with 0 by lia. apply Returns_ret. split; [exact Hm|]. intros a q Hq. cbn zeta. set (i := 8 * (a - d) + q - s).
    destruct (Z.leb_spec 0 i), (Z.ltb_spec i 0); try lia; reflexivity. }
  destruct (Z.eqb_spec c 0) as [->|Hc0].
  { apply Returns_ret. split; [exact Hm|]. intros a q Hq. cbn zeta. set (i := 8 * (a - d) + q - s). destruct (Z.leb_spec 0 i), (Z.ltb_spec i 0); try lia; reflexivity. }
  pose proof (next_bits_spec p t e m Hm Ht He) as HN. destruct (next_bits p t e m) as [[bits e'] p']. destruct HN as (B1 & B2 & -> & B3).
  destruct (put_bits_spec bits d s c m Hm B1 Hs ltac:(lia)) as [M1 M2]. set (m1 := put_bits bits d s c m) in *.
  replace (if c >? 8 then c - 8 else 0) with (Z.max 0 (c - 8)) by (rewrite Z.gtb_ltb; destruct (Z.ltb_spec 8 c); lia).
  eapply Returns_mono; [apply (IH (d + 1) s (Z.max 0 (c - 8)) p' t (Z.max 0 (e - 8)) m1 M1 Hs Ht); try lia|].
  - intros i j Hi Hj. rewrite B3 by lia. specialize (Hd (i + 8) (j + 8) ltac:(lia) ltac:(lia)).
    replace ((t + (i + 8)) / 8) with ((t + i) / 8 + 1) in Hd by (Z.to_euclidean_division_equations; lia).
    replace ((s + (j + 8)) / 8) with ((s + j) / 8 + 1) in Hd by (Z.to_euclidean_division_equations; lia). lia.
  - intros m' [M3 M4]. split; [exact M3|]. intros a q Hq. cbn zeta. set (i := 8 * (a - d) + q - s). specialize (M4 a q Hq). cbn zeta in M4.
    replace (8 * (a - (d + 1)) + q - s) with (i - 8) in M4 by (unfold i; lia). rewrite M4. clear M4.
    specialize (M2 a q Hq) as M2a. cbn zeta in M2a. fold i in M2a.
    destruct (Z.leb_spec 0 (i - 8)), (Z.ltb_spec (i - 8) (Z.max 0 (c - 8))); cbn [andb].
    + clear M2a. rewrite (proj2 (Z.leb_le 0 i)), (proj2 (Z.ltb_lt i c)) by lia. cbn [andb].
      destruct (Z.ltb_spec i e); [|now rewrite (proj2 (Z.ltb_ge _ _)) by lia]. rewrite (proj2 (Z.ltb_lt _ _)) by lia. cbn [andb].
      rewrite B3 by lia. replace (t + (i - 8)) with (t + i - 8) by lia. rewrite mem_bit_shift. unfold mem_bit.
      rewrite M2 by (apply Z.mod_pos_bound; lia). cbn zeta.
      destruct (_ && _) eqn:Ej; [|reflexivity]. exfalso. apply andb_true_iff in Ej as [J1 J2].
      refine (Hd i (8 * (p + (t + i) / 8 - d) + (t + i) mod 8 - s) _ _ _); [lia|lia|].
      replace (s + (8 * (p + (t + i) / 8 - d) + (t + i) mod 8 - s)) with ((t + i) mod 8 + (p + (t + i) / 8 - d) * 8) by lia.
      rewrite Z.div_add, (Z.div_small (_ mod 8)) by (try apply Z.mod_pos_bound; lia). lia.
    + rewrite M2a. destruct (Z.leb_spec 0 i), (Z.ltb_spec i (Z.min 8 c)), (Z.ltb_spec i c); try lia; reflexivity.
    + rewrite M2a. destruct (Z.leb_spec 0 i), (Z.ltb_spec i (Z.min 8 c)), (Z.ltb_spec i c); cbn [andb]; try lia; try reflexivity. apply B2. lia.
    + rewrite M2a. destruct (Z.leb_spec 0 i), (Z.ltb_spec i (Z.min 8 c)), (Z.ltb_spec i c); cbn [andb]; try lia; reflexivity.
Qed.

Lemma land7 x : Z.land x 7 = x mod 8.
Proof. change 7 with (Z.ones 3). now rewrite Z.land_ones by lia. Qed.

Lemma round_up_spec len : 0 <= len < 2 ^ 32 -> uacpi_round_up_bits_to_bytes len = (len + 7) / 8.
Proof.
  intros Hl. unfold uacpi_round_up_bits_to_bytes, UACPI_ALIGN_UP. rewrite wrap_small by (pow2_consts; lia). change (8 - 1) with (Z.ones 3).
  rewrite <- Z.ldiff_land, Z.ldiff_ones_r, Z.shiftl_mul_pow2, Z.shiftr_div_pow2 by lia. change (2 ^ 3) with 8. now rewrite Z.div_mul.
Qed.

Lemma mem_bit_index m a i k : mem_bit m (a + i / 8) (i mod 8 + k) = mem_bit m a (i + k).
Proof.
  unfold mem_bit. replace ((i + k) mod 8) with ((i mod 8 + k) mod 8) by (Z.to_euclidean_division_equations; lia).
  do 2 f_equal. Z.to_euclidean_division_equations. lia.
Qed.

(** Every bit of the memory is bit [i mod 8] of the byte at [i / 8]. *)
Lemma bit_address a d q : 0 <= q < 8 -> let i := 8 * (a - d) + q in a = d + i / 8 /\ q = i mod 8.
Proof. intros Hq i. unfold i. split; Z.to_euclidean_division_equations; lia. Qed.

(** [field_bits m' m d index len f]: the [len] bits from bit [index] of [d] on are those of
    [f], all other bits of the memory are as they were. *)
Definition field_bits (m' m : mem) (d index len : Z) (f : Z -> bool) : Prop :=
  byte_mem m' /\ forall i, mem_bit m' d i = if (index <=? i) && (i <? index + len) then f (i - index) else mem_bit m d i.

(** No bit of one span shares a byte with one of the other. *)
Definition apart (a i n b j k : Z) : Prop :=
  forall x y, 0 <= x < n -> 0 <= y < k -> a + (i + x) / 8 <> b + (j + y) / 8.

Lemma bit_copy_spec dst src m :
  let d := span_data dst in let di := span_index dst in let dl := span_length dst in
  let s := span_data src in let si := span_index src in let sl := span_length src in
  byte_mem m -> 0 <= dl -> 0 <= sl < 2 ^ 64 -> apart s si sl d di dl ->
  Returns (bit_copy dst src m) (fun m' => field_bits m' m d di dl (fun i => (i <? sl) && mem_bit m s (si + i))).
Proof.
  intros d di dl s si sl Hm Hdl Hsl Hd. unfold bit_copy. fold d di dl s si sl. rewrite !land7.
  eapply Returns_mono; [apply bit_copy_loop_spec; auto; try (apply Z.mod_pos_bound; lia)|].
  - split; [lia|]. Z.to_euclidean_division_equations. lia.
  - intros i j Hi Hj. specialize (Hd i j Hi Hj).
    replace (s + si / 8 + (si mod 8 + i) / 8) with (s + (si + i) / 8) by (Z.to_euclidean_division_equations; lia).
    replace (d + di / 8 + (di mod 8 + j) / 8) with (d + (di + j) / 8) by (Z.to_euclidean_division_equations; lia). exact Hd.
  - intros m' [M1 M2]. split; [exact M1|]. intros i. unfold mem_bit at 1. rewrite M2 by (apply Z.mod_pos_bound; lia). cbn zeta.
    replace (8 * (d + i / 8 - (d + di / 8)) + i mod 8 - di mod 8) with (i - di) by (Z.to_euclidean_division_equations; lia).
    rewrite mem_bit_index. replace (0 <=? i - di) with (di <=? i) by (zcmp; lia || reflexivity).
    replace (i - di <? dl) with (i <? di + dl) by (zcmp; lia || reflexivity). reflexivity.
Qed.

(** ** Whole bytes *)

(** A byte in place of another. *)
Lemma upd_bits m d k v i : mem_bit (upd m (d + k) v) d i = if i / 8 =? k then Z.testbit v (i mod 8) else mem_bit m d i.
Proof.
  unfold mem_bit, upd. destruct (Z.eqb_spec (i / 8) k), (Z.eqb_spec (d + i / 8) (d + k)); try lia; reflexivity.
Qed.

Lemma memcpy_bits d s n m : byte_mem m -> 0 <= n -> d <= s \/ s + n <= d ->
  byte_mem (memcpy d s n m) /\
  forall i, mem_bit (memcpy d s n m) d i = if (0 <=? i) && (i <? 8 * n) then mem_bit m s i else mem_bit m d i.
Proof.
  intros Hm Hn Ho. destruct (memcpy_spec d s n m Hn Ho) as [C1 C2]. split.
  - intros a. destruct (decide (d <= a < d + n)) as [H|H]; [|rewrite C2 by exact H; apply Hm].
    replace a with (d + (a - d)) by lia. rewrite C1 by lia. apply Hm.
  - intros i. unfold mem_bit. destruct (Z.leb_spec 0 i), (Z.ltb_spec i (8 * n)); cbn [andb];
      [rewrite C1; [reflexivity|]|rewrite C2; [reflexivity|]..]; Z.to_euclidean_division_equations; lia.
Qed.

Lemma memset_bits d k n m : byte_mem m -> 0 <= n -> 0 <= k ->
  byte_mem (memset (d + k) 0 n m) /\
  forall i, mem_bit (memset (d + k) 0 n m) d i = if (8 * k <=? i) && (i <? 8 * (k + n)) then false else mem_bit m d i.
Proof.
  intros Hm Hn Hk. destruct (memset_spec (d + k) 0 n m Hn) as [C1 C2]. split.
  - intros a. destruct (decide (d + k <= a < d + k + n)) as [H|H]; [|rewrite C2 by exact H; apply Hm].
    replace a with (d + k + (a - (d + k))) by lia. rewrite C1 by lia. apply byte_wrap.
  - intros i. unfold mem_bit. destruct (Z.leb_spec (8 * k) i), (Z.ltb_spec i (8 * (k + n))); cbn [andb].
    + replace (d + i / 8) with (d + k + (i / 8 - k)) by lia. rewrite C1 by (Z.to_euclidean_division_equations; lia).
      change (u8 0) with 0. apply Z.testbit_0_l.
    + rewrite C2; [reflexivity|]. Z.to_euclidean_division_equations. lia.
    + rewrite C2; [reflexivity|]. Z.to_euclidean_division_equations. lia.
    + lia.
Qed.

Lemma zerout_bits d s n size m : byte_mem m -> 0 <= n -> 0 <= size -> d <= s \/ s + Z.min size n <= d ->
  byte_mem (uacpi_memcpy_zerout d s n size m) /\
  forall i, mem_bit (uacpi_memcpy_zerout d s n size m) d i =
    if (0 <=? i) && (i <? 8 * n) then (i <? 8 * size) && mem_bit m s i else mem_bit m d i.
Proof.
  intros Hm Hn Hs Ho. unfold uacpi_memcpy_zerout. set (b := Z.min size n).
  assert ((if b =? 0 then m else memcpy d s b m) = memcpy d s b m) as -> by (destruct (Z.eqb_spec b 0) as [->|]; reflexivity).
  destruct (memcpy_bits d s b m Hm ltac:(lia) Ho) as [C1 C2]. rewrite Z.gtb_ltb. destruct (Z.ltb_spec b n) as [H|H].
  - destruct (memset_bits d b (n - b) (memcpy d s b m) C1 ltac:(lia) ltac:(lia)) as [S1 S2]. split; [exact S1|]. intros i. rewrite S2, C2.
    destruct (Z.leb_spec (8 * b) i), (Z.ltb_spec i (8 * (b + (n - b)))), (Z.leb_spec 0 i), (Z.ltb_spec i (8 * b)), (Z.ltb_spec i (8 * n)),
      (Z.ltb_spec i (8 * size)); cbn [andb]; try lia; reflexivity.
  - split; [exact C1|]. intros i. rewrite C2.
    destruct (Z.leb_spec 0 i), (Z.ltb_spec i (8 * b)), (Z.ltb_spec i (8 * n)), (Z.ltb_spec i (8 * size)); cbn [andb]; try lia; reflexivity.
Qed.

(** ** Fields *)

(** Aligned spans that share no byte: the second does not begin inside the first. *)
Lemma apart_order a i n b j k c : apart a i n b j k -> i mod 8 = 0 -> 0 < k -> 8 * (c - 1) < n ->
  b + j / 8 <= a + i / 8 \/ a + i / 8 + c <= b + j / 8.
Proof.
  intros H Hi Hk Hc. destruct (Z.le_gt_cases (b + j / 8) (a + i / 8)) as [|Hab]; [now left|]. right.
  destruct (Z.le_gt_cases (a + i / 8 + c) (b + j / 8)) as [|Hb]; [assumption|]. exfalso.
  refine (H (8 * (b + j / 8 - (a + i / 8))) 0 _ _ _); try lia. rewrite Z.add_0_r. pose proof (Z.div_mod i 8 ltac:(lia)).
  replace (i + 8 * (b + j / 8 - (a + i / 8))) with ((b + j / 8 - a) * 8) by lia. rewrite Z.div_mul by lia. lia.
Qed.

Lemma field_length len : 0 < len < 2 ^ 32 -> let count := (len + 7) / 8 in
  (1 <= count /\ 8 * (count - 1) < len <= 8 * count) /\ (len mod 8 = 0 -> len = 8 * count) /\ (len mod 8 <> 0 -> len = 8 * (count - 1) + len mod 8).
Proof. intros Hl count. unfold count. split; [|split]; Z.to_euclidean_division_equations; lia. Qed.

(** Reading: the bits of the field, with zeros up to the end of the last byte. *)
Lemma read_field_spec field dst m : let len := bit_length field in
  byte_mem m -> 0 <= bit_index field -> 0 < len < 2 ^ 32 ->
  apart (bf_data field) (bit_index field) len dst 0 (8 * ((len + 7) / 8)) ->
  Returns (uacpi_read_buffer_field field dst m) (fun m' =>
    field_bits m' m dst 0 (8 * ((len + 7) / 8)) (fun i => (i <? len) && mem_bit m (bf_data field) (bit_index field + i))).
Proof.
  intros len Hm Hi Hl Ha. destruct (field_length len Hl) as (L1 & L2 & L3). set (count := (len + 7) / 8) in *.
  unfold uacpi_read_buffer_field, do_misaligned_buffer_read. fold len. rewrite round_up_spec by lia. fold count. rewrite land7.
  destruct (Z.eqb_spec (bit_index field mod 8) 0) as [E|E].
  2:{ eapply Returns_mono; [apply bit_copy_spec; cbn [span_data span_index span_length]; auto; try lia; now rewrite (Z.mul_comm count)|].
      cbn [span_data span_index span_length]. intros m' H. now rewrite (Z.mul_comm count) in H. }
  pose proof (apart_order _ _ _ _ _ _ count Ha E ltac:(lia) ltac:(lia)) as Ho. change (0 / 8) with 0 in Ho. rewrite Z.add_0_r in Ho.
  apply Returns_ret. destruct (memcpy_bits dst (bf_data field + bit_index field / 8) count m Hm ltac:(lia) Ho) as [C1 C2].
  set (m1 := memcpy _ _ _ _) in *.
  assert (forall i, mem_bit m (bf_data field + bit_index field / 8) i = mem_bit m (bf_data field) (bit_index field + i)) as Es
    by (intros i; rewrite <- (mem_bit_index m (bf_data field) (bit_index field) i), E; reflexivity).
  unfold cut_misaligned_tail. rewrite land7. destruct (Z.eqb_spec (len mod 8) 0) as [E8|E8].
  - split; [exact C1|]. intros i. rewrite C2, Es, Z.sub_0_r, Z.add_0_l. rewrite (L2 E8).
    destruct (Z.leb_spec 0 i), (Z.ltb_spec i (8 * count)); cbn [andb]; reflexivity.
  - split; [apply byte_upd; [exact C1|apply byte_wrap]|]. intros i. rewrite upd_bits, Z.sub_0_r, Z.add_0_l. pose proof (L3 E8) as L.
    assert (0 <= len mod 8 < 8) as Hr by (apply Z.mod_pos_bound; lia).
    assert (0 <= i mod 8 < 8) as Hq by (apply Z.mod_pos_bound; lia). pose proof (Z.div_mod i 8 ltac:(lia)) as Ed.
    destruct (Z.eqb_spec (i / 8) (count - 1)) as [Ec|Ec].
    + rewrite testbit_wrap, Z.land_spec, testbit_mask by lia. rewrite <- Ec. change (Z.testbit (m1 (dst + i / 8)) (i mod 8)) with (mem_bit m1 dst i).
      rewrite C2, Es, (proj2 (Z.ltb_lt (i mod 8) 8)), (proj2 (Z.leb_le 0 i)), (proj2 (Z.ltb_lt i _)) by lia. cbn [andb]. rewrite andb_comm. f_equal.
      destruct (Z.ltb_spec (i mod 8) (len mod 8)), (Z.ltb_spec i len); lia || reflexivity.
    + rewrite C2, Es. destruct (Z.leb_spec 0 i), (Z.ltb_spec i (8 * count)); cbn [andb]; try reflexivity.
      now rewrite (proj2 (Z.ltb_lt i len)) by lia.
Qed.

(** Writing: the bits of the source, with zeros behind its end, and no other bit. *)
Lemma write_field_spec field src size m : let len := bit_length field in
  byte_mem m -> 0 <= bit_index field -> 0 < len < 2 ^ 32 -> 0 <= size < 2 ^ 61 ->
  apart src 0 (8 * size) (bf_data field) (bit_index field) len ->
  Returns (uacpi_write_buffer_field field src size m) (fun m' =>
    field_bits m' m (bf_data field) (bit_index field) len (fun i => (i <? 8 * size) && mem_bit m src i)).
Proof.
  intros len Hm Hi Hl Hs Ha. destruct (field_length len Hl) as (L1 & L2 & L3). set (count := (len + 7) / 8) in *.
  unfold uacpi_write_buffer_field, do_write_misaligned_buffer_field. fold len. rewrite round_up_spec by lia. fold count. rewrite !land7.
  destruct (Z.eqb_spec (bit_index field mod 8) 0) as [E|E].
  2:{ eapply Returns_mono; [apply bit_copy_spec; cbn [span_data span_index span_length]; auto; try lia; now rewrite (Z.mul_comm size)|].
      cbn [span_data span_index span_length]. intros m' H. now rewrite (Z.mul_comm size) in H. }
  set (d := bf_data field + bit_index field / 8). pose proof (apart_order _ _ _ _ _ _ (Z.min size count) Ha eq_refl ltac:(lia) ltac:(lia)) as Ho.
  change (0 / 8) with 0 in Ho. rewrite Z.add_0_r in Ho. fold d in Ho.
  destruct (zerout_bits d src count size m Hm ltac:(lia) ltac:(lia) Ho) as [C1 C2]. set (m1 := uacpi_memcpy_zerout d src count size m) in *.
  set (f := fun i => (i <? 8 * size) && mem_bit m src i).
  assert (forall m', field_bits m' m d 0 len f -> field_bits m' m (bf_data field) (bit_index field) len f) as Hidx.
  { intros m' [B F]. split; [exact B|]. intros i. pose proof (F (i - bit_index field)) as Fi.
    assert (forall q, mem_bit q d (i - bit_index field) = mem_bit q (bf_data field) i) as Eb.
    { intros q. pose proof (mem_bit_index q (bf_data field) (bit_index field) (i - bit_index field)) as H. rewrite E in H.
      fold d in H. rewrite Z.add_0_l in H. rewrite H. f_equal. lia. }
    rewrite !Eb, Z.sub_0_r in Fi. rewrite Fi.
    destruct (Z.leb_spec 0 (i - bit_index field)), (Z.leb_spec (bit_index field) i), (Z.ltb_spec (i - bit_index field) (0 + len)),
      (Z.ltb_spec i (bit_index field + len)); try lia; reflexivity. }
  destruct (Z.eqb_spec (len mod 8) 0) as [E8|E8]; apply Returns_ret, Hidx.
  - split; [exact C1|]. intros i. rewrite C2, Z.sub_0_r, Z.add_0_l, (L2 E8). reflexivity.
  - pose proof (L3 E8) as L. assert (0 <= len mod 8 < 8) as Hr by (apply Z.mod_pos_bound; lia).
    rewrite !upd_eq. set (v := u8 (Z.lor _ _)).
    split; [apply byte_upd; [|apply byte_wrap]; apply byte_upd; [apply byte_upd; [exact C1|apply byte_wrap]|]|].
    + rewrite Z.shiftr_div_pow2 by lia. pose proof (byte_wrap (Z.shiftl (m1 (d + (count - 1))) (8 - len mod 8))).
      assert (0 < 2 ^ (8 - len mod 8)) by (apply Z.pow_pos_nonneg; lia). split; [apply Z.div_pos; lia|]. apply Z.div_lt_upper_bound; nia.
    + intros i. rewrite !upd_bits, Z.sub_0_r, Z.add_0_l. pose proof (Z.div_mod i 8 ltac:(lia)) as Ed.
      assert (0 <= i mod 8 < 8) as Hq by (apply Z.mod_pos_bound; lia). destruct (Z.eqb_spec (i / 8) (count - 1)) as [Ec|Ec].
      * rewrite (proj2 (Z.leb_le 0 i)) by lia. cbn [andb]. unfold v. rewrite testbit_wrap, Z.lor_spec, Z.shiftr_spec, testbit_wrap, Z.shiftl_spec by lia.
        replace (i mod 8 + (8 - len mod 8) - (8 - len mod 8)) with (i mod 8) by lia. rewrite <- Ec, (proj2 (Z.ltb_lt (i mod 8) 8)) by lia.
        change (Z.testbit (m1 (d + i / 8)) (i mod 8)) with (mem_bit m1 d i). rewrite C2, (proj2 (Z.leb_le 0 i)), (proj2 (Z.ltb_lt i (8 * count))) by lia.
        cbn [andb]. fold (f i). destruct (Z.lt_ge_cases (i mod 8) (len mod 8)) as [Hlt|Hge].
        -- rewrite (proj2 (Z.ltb_lt i len)), (proj2 (Z.ltb_lt _ 8)), Z.shiftl_spec_low by lia. cbn [andb]. apply orb_false_r.
        -- rewrite (proj2 (Z.ltb_ge i len)), (proj2 (Z.ltb_ge _ 8)), Z.shiftl_spec, Z.shiftr_spec by lia. cbn [andb orb].
           unfold mem_bit. f_equal. lia.
      * rewrite C2. destruct (Z.leb_spec 0 i), (Z.ltb_spec i (8 * count)), (Z.ltb_spec i len); cbn [andb]; try lia; reflexivity.
Qed.

(** C33: what is written to a buffer field is what is read from it, for every index and
    length in bits, aligned or not: the field takes the bits of the source, with zeros
    behind its end, no other bit of the buffer changes, and a read gives these bits with
    zeros up to a whole byte. *)
Theorem buffer_field_roundtrip field src size dst m :
  let data := bf_data field in let index := bit_index field in let len := bit_length field in
  let count := (len + 7) / 8 in
  byte_mem m -> 0 <= index -> 0 < len < 2 ^ 32 -> 0 <= size < 2 ^ 61 ->
  apart src 0 (8 * size) data index len -> apart data index len dst 0 (8 * count) ->
  Returns (m1 ← uacpi_write_buffer_field field src size m; m2 ← uacpi_read_buffer_field field dst m1; Ret (m1, m2)) (fun '(m1, m2) =>
    (forall i, mem_bit m1 data i = if (index <=? i) && (i <? index + len) then (i - index <? 8 * size) && mem_bit m src (i - index)
                                   else mem_bit m data i) /\
    (forall i, mem_bit m2 dst i = if (0 <=? i) && (i <? 8 * count) then (i <? len) && (i <? 8 * size) && mem_bit m src i
                                  else mem_bit m1 dst i)).
Proof.
  intros data index len count Hm Hi Hl Hs Ha Hb. eapply Returns_bind; [exact (write_field_spec field src size m Hm Hi Hl Hs Ha)|].
  intros m1 [M1 F1]. eapply Returns_bind; [exact (read_field_spec field dst m1 M1 Hi Hl Hb)|]. intros m2 [_ F2]. apply Returns_ret.
  fold data index len in F1, F2. fold count in F2. split; [exact F1|]. intros i. rewrite F2, F1, Z.sub_0_r, Z.add_0_l.
  destruct (Z.leb_spec 0 i), (Z.ltb_spec i (8 * count)), (Z.ltb_spec i len); cbn [andb]; try reflexivity.
  rewrite (proj2 (Z.leb_le index _)), (proj2 (Z.ltb_lt _ (index + len))) by lia. cbn [andb]. now replace (index + i - index) with i by lia.
Qed.

(** Thirteen bits from bit 5 of a buffer of ones. *)
Definition field_demo : mem := fun a => if a =? 200 then 0xA5 else if a =? 201 then 0x13 else if (100 <=? a) && (a <? 108) then 255 else 0.

Lemma buffer_field_roundtrip_witness :
  Returns (m1 ← uacpi_write_buffer_field (mk_field 100 5 13) 200 2 field_demo; m2 ← uacpi_read_buffer_field (mk_field 100 5 13) 300 m1; Ret (m1, m2))
    (fun '(m1, m2) => mem_bit m1 100 4 = true /\ mem_bit m1 100 5 = true /\ mem_bit m1 100 6 = false /\ mem_bit m1 100 18 = true /\
      map (mem_bit m2 300) (map Z.of_nat (List.seq 0 16)) =
        [true; false; true; false; false; true; false; true; true; true; false; false; true; false; false; false]).
Proof.
  eapply Returns_mono.
  - apply (buffer_field_roundtrip (mk_field 100 5 13) 200 2 300 field_demo); cbn [bf_data bit_index bit_length]; try lia.
    + intros a. unfold field_demo. zcmp; cbn [andb]; lia.
    + intros x y Hx Hy. Z.to_euclidean_division_equations. lia.
    + change ((13 + 7) / 8) with 2. intros x y Hx Hy. Z.to_euclidean_division_equations. lia.
  - cbn [bf_data bit_index bit_length]. intros [m1 m2] [F1 F2]. splits; try (rewrite F1; vm_compute; reflexivity).
    cbn [map List.seq]. rewrite !F2. vm_compute. reflexivity.
Defined.
