(* ===== verification/UacpiMutex.v ===== *)
(** * Mutexes and the global lock of uACPI ([kernel/acpi/uacpi/mutex.c])

    The global lock is a word in a table of the firmware, taken and released by both sides
    with an atomic compare-and-exchange.  First the functions of the library, over the
    kernel's own mutexes and events ([AcpiOs]); then the protocol on the word as steps of
    two parties in any order. *)

From S2P Require Import Prelude DeviceIds Interfaces MemMap Pmm MemUtil Kheap ListDs Path Vnode Initrd Bytes Ports Module Elf Device Pci AcpiOs.
#[local] Open Scope Z_scope.

Definition GLOBAL_LOCK_PENDING : Z := Z.shiftl 1 0.
Definition GLOBAL_LOCK_OWNED_BIT : Z := 1.
Definition GLOBAL_LOCK_OWNED : Z := Z.shiftl 1 GLOBAL_LOCK_OWNED_BIT.
Definition GLOBAL_LOCK_MASK : Z := 3.

(** The words written by the two compare-and-exchange loops, from the value read. *)
Definition was_owned (value : Z) : bool := negb (Z.shiftr (Z.land value GLOBAL_LOCK_OWNED) GLOBAL_LOCK_OWNED_BIT =? 0).
Definition acquired_word (value : Z) : Z :=
  let new_value := Z.lor (Z.land value (Z.lnot GLOBAL_LOCK_MASK)) GLOBAL_LOCK_OWNED in
  if was_owned value then Z.lor new_value GLOBAL_LOCK_PENDING else new_value.
Definition released_word (value : Z) : Z := Z.land value (Z.lnot GLOBAL_LOCK_MASK).
Definition was_pending (value : Z) : bool := negb (Z.land value GLOBAL_LOCK_PENDING =? 0).

(** The part of [g_uacpi_rt_ctx] in use; [gl_rls] counts the writes to the register that
    tells the firmware of a release. *)
Record rt_ctx : Type := mk_rt {
  rt_mem : mem;
  rt_eventLock : spinlock_t;
  has_global_lock : bool;
  global_lock_acquired : bool;
  global_lock_pending : bool;
  global_lock_seq_num : Z;
  gl_rls : Z
}.

Definition set_rt_mem (m : mem) (c : rt_ctx) : rt_ctx :=
  mk_rt m (rt_eventLock c) (has_global_lock c) (global_lock_acquired c) (global_lock_pending c) (global_lock_seq_num c) (gl_rls c).
Definition set_rt_event (e : mem * spinlock_t) (c : rt_ctx) : rt_ctx :=
  mk_rt e.1 e.2 (has_global_lock c) (global_lock_acquired c) (global_lock_pending c) (global_lock_seq_num c) (gl_rls c).
Definition set_rt_pending (b : bool) (c : rt_ctx) : rt_ctx :=
  mk_rt (rt_mem c) (rt_eventLock c) (has_global_lock c) (global_lock_acquired c) b (global_lock_seq_num c) (gl_rls c).
Definition set_rt_owner (b : bool) (seq : Z) (c : rt_ctx) : rt_ctx :=
  mk_rt (rt_mem c) (rt_eventLock c) (has_global_lock c) b (global_lock_pending c) seq (gl_rls c).
Definition write_gbl_rls (c : rt_ctx) : rt_ctx :=
  mk_rt (rt_mem c) (rt_eventLock c) (has_global_lock c) (global_lock_acquired c) (global_lock_pending c) (global_lock_seq_num c) (gl_rls c + 1).

Definition UACPI_STATUS_INVALID_ARGUMENT : Z := 7.
Definition UACPI_STATUS_INIT_LEVEL_MISMATCH : Z := 12.
Definition UACPI_STATUS_HARDWARE_TIMEOUT : Z := 17.
Definition UACPI_STATUS_TIMEOUT : Z := 18.

Section Mutex.
Variable ksleep : mem -> mem.

(** The addresses of the word, of the kernel's mutex and lock, and of the event. *)
Variables (global_lock global_lock_mutex global_lock_spinlock global_lock_event : Z).

(** Nobody else changes the word between the read and the exchange. *)
Definition try_acquire_global_lock_from_firmware (m : mem) : bool * mem :=
  let value := load32 global_lock m in (negb (was_owned value), store32 global_lock (acquired_word value) m).

Definition do_release_global_lock_to_firmware (m : mem) : bool * mem :=
  let value := load32 global_lock m in (was_pending value, store32 global_lock (released_word value) m).

Fixpoint acquire_attempts (left : nat) (c : rt_ctx) : outcome (bool * rt_ctx) :=
  match left with
  | O => Ret (false, c)
  | S n =>
      let '(success, m) := try_acquire_global_lock_from_firmware (rt_mem c) in
      let c := set_rt_mem m c in
      if success then Ret (true, c)
      else match n with
      | O => Ret (false, c)
      | S _ =>
          let c := set_rt_pending true c in
          let c := set_rt_mem (uacpi_kernel_spinlock_unlock global_lock_spinlock 0 (rt_mem c)) c in
          '(_, e) ← uacpi_kernel_wait_for_event ksleep global_lock_event NO_TIMEOUT (rt_mem c, rt_eventLock c);
          let c := set_rt_event e c in
          '(_, m) ← uacpi_kernel_spinlock_lock global_lock_spinlock (rt_mem c);
          acquire_attempts n (set_rt_mem m c)
      end
  end.

Definition uacpi_acquire_global_lock_from_firmware (c : rt_ctx) : outcome (Z * rt_ctx) :=
  if negb (has_global_lock c) then Ret (UACPI_STATUS_OK, c)
  else
    '(_, m) ← uacpi_kernel_spinlock_lock global_lock_spinlock (rt_mem c);
    '(success, c) ← acquire_attempts (Z.to_nat 0xFFFF) (set_rt_mem m c);
    let c := set_rt_pending false c in
    let c := set_rt_mem (uacpi_kernel_spinlock_unlock global_lock_spinlock 0 (rt_mem c)) c in
    Ret (if success : bool then UACPI_STATUS_OK else UACPI_STATUS_HARDWARE_TIMEOUT, c).

Definition uacpi_release_global_lock_to_firmware (c : rt_ctx) : rt_ctx :=
  if negb (has_global_lock c) then c
  else
    let '(pending, m) := do_release_global_lock_to_firmware (rt_mem c) in
    let c := set_rt_mem m c in
    if pending : bool then write_gbl_rls c else c.

(** [loaded] tells whether the tables are loaded; the sequence number is stored at
    [out_seq]. *)
Definition uacpi_acquire_global_lock (loaded : bool) (timeout out_seq : Z) (c : rt_ctx) : outcome (Z * rt_ctx) :=
  if negb loaded then Ret (UACPI_STATUS_INIT_LEVEL_MISMATCH, c)
  else if out_seq =? 0 then Ret (UACPI_STATUS_INVALID_ARGUMENT, c)
  else
  '(did_acquire, m) ← uacpi_kernel_acquire_mutex ksleep global_lock_mutex timeout (rt_mem c);
  let c := set_rt_mem m c in
  if negb did_acquire then Ret (UACPI_STATUS_TIMEOUT, c)
  else
    '(ret, c) ← uacpi_acquire_global_lock_from_firmware c;
    if negb (ret =? UACPI_STATUS_OK) then
      Ret (ret, set_rt_mem (uacpi_kernel_release_mutex global_lock_mutex (rt_mem c)) c)
    else
      let seq := if global_lock_seq_num c =? 0xFFFFFFFF then 0 else global_lock_seq_num c in
      Ret (UACPI_STATUS_OK, set_rt_owner true (u32 (seq + 1)) (set_rt_mem (store32 out_seq seq (rt_mem c)) c)).

Definition uacpi_release_global_lock (loaded : bool) (seq : Z) (c : rt_ctx) : Z * rt_ctx :=
  if negb loaded then (UACPI_STATUS_INIT_LEVEL_MISMATCH, c)
  else if negb (global_lock_acquired c) || negb (seq =? global_lock_seq_num c) then (UACPI_STATUS_INVALID_ARGUMENT, c)
  else
    let c := set_rt_owner false (global_lock_seq_num c) c in
    let c := uacpi_release_global_lock_to_firmware c in
    (UACPI_STATUS_OK, set_rt_mem (uacpi_kernel_release_mutex global_lock_mutex (rt_mem c)) c).

(** ** Mutexes of AML *)

Record uacpi_mutex : Type := mk_mutex { handle : Z; owner : Z; depth : Z }.

(** The thread is the value of [uacpi_kernel_get_thread_id]. *)
Definition uacpi_this_thread_owns_aml_mutex (this : Z) (x : uacpi_mutex) : bool := owner x =? this.

Definition uacpi_acquire_aml_mutex (this timeout : Z) (x : uacpi_mutex) (c : rt_ctx) : outcome (bool * uacpi_mutex * rt_ctx) :=
  if owner x =? this then
    if depth x =? 0xFFFF then Ret (false, x, c) else Ret (true, mk_mutex (handle x) (owner x) (u16 (depth x + 1)), c)
  else
    '(did_acquire, m) ← uacpi_kernel_acquire_mutex ksleep (handle x) timeout (rt_mem c);
    let c := set_rt_mem m c in
    if negb did_acquire then Ret (false, x, c)
    else
      '(ret, c) ← (if handle x =? global_lock_mutex then uacpi_acquire_global_lock_from_firmware c else Ret (UACPI_STATUS_OK, c));
      if negb (ret =? UACPI_STATUS_OK) then Ret (false, x, set_rt_mem (uacpi_kernel_release_mutex (handle x) (rt_mem c)) c)
      else Ret (true, mk_mutex (handle x) this 1, c).

Definition uacpi_release_aml_mutex (none : Z) (x : uacpi_mutex) (c : rt_ctx) : uacpi_mutex * rt_ctx :=
  let x' := mk_mutex (handle x) (owner x) (u16 (depth x - 1)) in
  if depth x >? 1 then (x', c)
  else
    let c := if handle x =? global_lock_mutex then uacpi_release_global_lock_to_firmware c else c in
    (mk_mutex (handle x) none (depth x'), set_rt_mem (uacpi_kernel_release_mutex (handle x) (rt_mem c)) c).
End Mutex.

(** ** The protocol on the word *)

(** What a party is doing: it has read the word in the loop that acquires or releases the
    lock, it has the lock, or it waits to be told of a release. *)
Inductive party : Type :=
| Idle
| Trying (value : Z)
| Holding
| Leaving (value : Z)
| Waiting.

(** [false] is the system, [true] the firmware, which is taken to run the loops the ACPI
    specification prescribes to both. *)
Record global : Type := mk_global { gl_word : Z; gl_party : bool -> party; gl_note : bool -> bool }.

Definition set_at {A} (f : bool -> A) (p : bool) (v : A) : bool -> A := fun q => if Bool.eqb q p then v else f q.

(** The exchange compares the whole word; it may also fail without a reason, and every
    failure reads the word again.  A wait can end without the notification, and after the
    last attempt a party gives up. *)
Inductive gl_step : global -> global -> Prop :=
| gl_read g p : gl_party g p = Idle -> gl_step g (mk_global (gl_word g) (set_at (gl_party g) p (Trying (gl_word g))) (gl_note g))
| gl_wake g p : gl_party g p = Waiting -> gl_note g p = true ->
    gl_step g (mk_global (gl_word g) (set_at (gl_party g) p (Trying (gl_word g))) (set_at (gl_note g) p false))
| gl_acquire g p v : gl_party g p = Trying v -> gl_word g = v ->
    gl_step g (mk_global (acquired_word v) (set_at (gl_party g) p (if was_owned v then Waiting else Holding)) (gl_note g))
| gl_retry g p v : gl_party g p = Trying v -> gl_step g (mk_global (gl_word g) (set_at (gl_party g) p (Trying (gl_word g))) (gl_note g))
| gl_timeout g p : gl_party g p = Waiting -> gl_step g (mk_global (gl_word g) (set_at (gl_party g) p (Trying (gl_word g))) (gl_note g))
| gl_give_up g p : gl_party g p = Waiting -> gl_step g (mk_global (gl_word g) (set_at (gl_party g) p Idle) (gl_note g))
| gl_leave g p : gl_party g p = Holding -> gl_step g (mk_global (gl_word g) (set_at (gl_party g) p (Leaving (gl_word g))) (gl_note g))
| gl_release g p v : gl_party g p = Leaving v -> gl_word g = v ->
    gl_step g (mk_global (released_word v) (set_at (gl_party g) p Idle)
                 (if was_pending v then set_at (gl_note g) (negb p) true else gl_note g))
| gl_again g p v : gl_party g p = Leaving v -> gl_step g (mk_global (gl_word g) (set_at (gl_party g) p (Leaving (gl_word g))) (gl_note g)).

Definition holds (x : party) : bool := match x with Holding | Leaving _ => true | _ => false end.

(** The bits of the word. *)
Lemma word_bits v : was_owned v = Z.testbit v 1 /\ was_pending v = Z.testbit v 0.
Proof.
  unfold was_owned, was_pending, GLOBAL_LOCK_OWNED, GLOBAL_LOCK_OWNED_BIT, GLOBAL_LOCK_PENDING. split.
  - destruct (Z.eqb_spec (Z.shiftr (Z.land v (Z.shiftl 1 1)) 1) 0) as [E|E]; cbn [negb].
    + apply (f_equal (fun x => Z.testbit x 0)) in E. rewrite Z.shiftr_spec, Z.land_spec, Z.testbit_0_l in E by lia.
      change (Z.testbit (Z.shiftl 1 1) (0 + 1)) with true in E. now rewrite andb_true_r in E.
    + symmetry. destruct (Z.testbit v 1) eqn:Ev; [reflexivity|]. exfalso. apply E. apply Z.bits_inj'. intros n Hn.
      rewrite Z.shiftr_spec, Z.land_spec, Z.shiftl_1_l, Z.pow2_bits_eqb, Z.testbit_0_l by lia.
      destruct (Z.eqb_spec 1 (n + 1)) as [En|En]; [rewrite <- En, Ev; reflexivity|apply andb_false_r].
  - destruct (Z.eqb_spec (Z.land v (Z.shiftl 1 0)) 0) as [E|E]; cbn [negb].
    + apply (f_equal (fun x => Z.testbit x 0)) in E. rewrite Z.land_spec, Z.testbit_0_l in E.
      change (Z.testbit (Z.shiftl 1 0) 0) with true in E. now rewrite andb_true_r in E.
    + symmetry. destruct (Z.testbit v 0) eqn:Ev; [reflexivity|]. exfalso. apply E. apply Z.bits_inj'. intros n Hn.
      rewrite Z.land_spec, Z.shiftl_1_l, Z.pow2_bits_eqb, Z.testbit_0_l by lia.
      destruct (Z.eqb_spec 0 n) as [<-|En]; [now rewrite Ev|apply andb_false_r].
Qed.

Lemma acquired_bits v : Z.testbit (acquired_word v) 1 = true /\ Z.testbit (acquired_word v) 0 = Z.testbit v 1 /\
  forall n, 2 <= n -> Z.testbit (acquired_word v) n = Z.testbit v n.
Proof.
  unfold acquired_word. rewrite (proj1 (word_bits v)). unfold GLOBAL_LOCK_OWNED, GLOBAL_LOCK_OWNED_BIT, GLOBAL_LOCK_PENDING, GLOBAL_LOCK_MASK.
  splits; [destruct (Z.testbit v 1); rewrite ?Z.lor_spec; cbn; now rewrite ?orb_true_r| |].
  - destruct (Z.testbit v 1); rewrite !Z.lor_spec, ?Z.land_spec, ?Z.lnot_spec by lia; cbn; now rewrite ?andb_false_r, ?orb_true_r.
  - intros n Hn. assert (forall k, 0 <= k < 2 -> Z.testbit (Z.shiftl 1 k) n = false) as Hk
      by (intros k H; rewrite Z.shiftl_1_l, Z.pow2_bits_eqb by lia; destruct (Z.eqb_spec k n); [lia|reflexivity]).
    assert (Z.testbit 3 n = false) as H3 by (apply (testbit_high 2); lia).
    destruct (Z.testbit v 1); rewrite !Z.lor_spec, Z.land_spec, Z.lnot_spec, H3, !Hk by lia; now rewrite !orb_false_r, andb_true_r.
Qed.

Lemma released_bits v : Z.testbit (released_word v) 1 = false /\ Z.testbit (released_word v) 0 = false /\
  forall n, 2 <= n -> Z.testbit (released_word v) n = Z.testbit v n.
Proof.
  unfold released_word, GLOBAL_LOCK_MASK. splits; try (rewrite Z.land_spec; apply andb_false_r). intros n Hn.
  rewrite Z.land_spec, Z.lnot_spec, (testbit_high 2 3 n) by lia. apply andb_true_r.
Qed.

(** In every reachable state the owned bit is set exactly when one party has the lock, and
    a party that waits has been told, or the other one has the lock and will see the
    pending bit. *)
Record gl_inv (w0 : Z) (g : global) : Prop := {
  gi_one : forall p, holds (gl_party g p) = true -> holds (gl_party g (negb p)) = false;
  gi_owned : forall p, Z.testbit (gl_word g) 1 = holds (gl_party g p) || holds (gl_party g (negb p));
  gi_wait : forall p, gl_party g p = Waiting ->
    gl_note g p = true \/ (Z.testbit (gl_word g) 0 = true /\ holds (gl_party g (negb p)) = true);
  gi_rest : forall n, 2 <= n -> Z.testbit (gl_word g) n = Z.testbit w0 n
}.

Lemma set_at_eq {A} (f : bool -> A) p v : set_at f p v p = v.
Proof. unfold set_at. now rewrite eqb_reflx. Qed.
Lemma set_at_other {A} (f : bool -> A) p v : set_at f p v (negb p) = f (negb p).
Proof. unfold set_at. now destruct p. Qed.

(** The two parties of a step. *)
Lemma each_party (P : bool -> Prop) p : P p -> P (negb p) -> forall q, P q.
Proof. intros H1 H2 q. destruct p, q; assumption. Qed.

Ltac each_party p := let q := fresh "q" in intros q; pattern q; apply (each_party _ p); clear q; cbv beta.

(** A step that leaves the word and who has the lock. *)
Lemma gl_inv_move w0 g p x note : gl_inv w0 g -> holds x = holds (gl_party g p) -> x <> Waiting -> note (negb p) = gl_note g (negb p) ->
  gl_inv w0 (mk_global (gl_word g) (set_at (gl_party g) p x) note).
Proof.
  intros [I1 I2 I3 I4] Hx Hw Hn. split; cbn [gl_word gl_party gl_note]; [| | |exact I4]; each_party p;
    rewrite ?negb_involutive, ?set_at_eq, ?set_at_other, ?Hx, ?Hn; auto; try congruence.
  - intros H. specialize (I1 (negb p) H). now rewrite negb_involutive in I1.
  - specialize (I2 (negb p)). now rewrite negb_involutive in I2.
  - intros H. specialize (I3 (negb p) H). now rewrite negb_involutive in I3.
Qed.

Lemma gl_step_inv w0 g g' : gl_step g g' -> gl_inv w0 g -> gl_inv w0 g'.
Proof.
  intros Hs HI. destruct Hs as [g p E|g p E N|g p v E W|g p v E|g p E|g p E|g p E|g p v E W|g p v E];
    try (apply gl_inv_move; [exact HI|now rewrite E|discriminate|]; reflexivity).
  - apply gl_inv_move; [exact HI|now rewrite E|discriminate|apply set_at_other].
  - destruct HI as [I1 I2 I3 I4]. destruct (acquired_bits v) as (A1 & A2 & A3). rewrite (proj1 (word_bits v)).
    pose proof (I2 p) as Io. rewrite W, E in Io. cbn [holds orb] in Io.
    split; cbn [gl_word gl_party gl_note]; [| | |intros n Hn; rewrite A3, <- W by exact Hn; now apply I4]; each_party p;
      rewrite ?negb_involutive, ?set_at_eq, ?set_at_other, ?A1, ?A2, ?Io; destruct (holds (gl_party g (negb p))) eqn:Eh; cbn [holds]; auto; try discriminate.
    + intros H. destruct (I3 (negb p) H) as [?|[_ H']]; [now left|]. rewrite negb_involutive, E in H'. discriminate.
    + intros H. destruct (I3 (negb p) H) as [?|[_ H']]; [now left|]. rewrite negb_involutive, E in H'. discriminate.
  - destruct HI as [I1 I2 I3 I4]. destruct (released_bits v) as (A1 & A2 & A3). rewrite (proj2 (word_bits v)).
    pose proof (I1 p) as Io. rewrite E in Io. specialize (Io eq_refl).
    split; cbn [gl_word gl_party gl_note]; [| | |intros n Hn; rewrite A3, <- W by exact Hn; now apply I4]; each_party p;
      rewrite ?negb_involutive, ?set_at_eq, ?set_at_other, ?A1, ?Io; cbn [holds orb]; auto; try discriminate; try congruence.
    intros H. left. destruct (I3 (negb p) H) as [Hn|[Hp _]]; rewrite <- W.
    + destruct (Z.testbit (gl_word g) 0); [apply set_at_eq|exact Hn].
    + rewrite Hp. apply set_at_eq.
Qed.

(** C34: the global lock shared with the firmware: however the two parties' loops are
    interleaved, and however often their exchanges fail, at most one of them has the lock,
    a party that waits has already been told of the release or will be by the one that
    has it, and the bits of the word outside of the lock never change. *)
Theorem global_lock_safe w0 g :
  Z.testbit w0 1 = false -> rtc gl_step (mk_global w0 (fun _ => Idle) (fun _ => false)) g ->
  ~ (holds (gl_party g false) = true /\ holds (gl_party g true) = true) /\
  (forall p, gl_party g p = Waiting -> gl_note g p = true \/
     (was_pending (gl_word g) = true /\ holds (gl_party g (negb p)) = true)) /\
  released_word (gl_word g) = released_word w0.
Proof.
  intros H0 Hr. assert (gl_inv w0 g) as [I1 I2 I3 I4].
  { assert (gl_inv w0 (mk_global w0 (fun _ => Idle) (fun _ => false))) as Hi by (split; cbn; auto; discriminate).
    induction Hr as [|g1 g2 g3 Hs _ IH]; [exact Hi|]. apply IH. exact (gl_step_inv w0 _ _ Hs Hi). }
  split; [intros [H1 H2]; specialize (I1 false H1); cbn in I1; congruence|]. split.
  - intros p Hp. rewrite (proj2 (word_bits (gl_word g))). exact (I3 p Hp).
  - apply Z.bits_inj'. intros n Hn. destruct (released_bits (gl_word g)) as (A1 & A2 & A3), (released_bits w0) as (B1 & B2 & B3).
    destruct (Z.eq_dec n 0) as [->|]; [congruence|]. destruct (Z.eq_dec n 1) as [->|]; [congruence|]. rewrite A3, B3 by lia. apply I4. lia.
Qed.

(** The firmware takes the lock, the system finds it taken. *)
Lemma global_lock_safe_witness :
  let g := mk_global 0x13 (fun p => if p then Holding else Waiting) (fun _ => false) in
  ~ (holds (gl_party g false) = true /\ holds (gl_party g true) = true) /\ was_pending (gl_word g) = true.
Proof.
  intros g.
  assert (rtc gl_step (mk_global 0x10 (fun _ => Idle) (fun _ => false))
    (mk_global 0x13 (set_at (set_at (set_at (set_at (fun _ => Idle) true (Trying 0x10)) true Holding) false (Trying 0x12)) false Waiting) (fun _ => false))) as Hr.
  { eapply rtc_l; [apply (gl_read _ true); reflexivity|]. eapply rtc_l; [apply (gl_acquire _ true 0x10); reflexivity|].
    eapply rtc_l; [apply (gl_read _ false); reflexivity|]. eapply rtc_l; [apply (gl_acquire _ false 0x12); reflexivity|]. apply rtc_refl. }
  destruct (global_lock_safe 0x10 _ eq_refl Hr) as (H1 & H2 & _). split; [exact H1|].
  destruct (H2 false eq_refl) as [H|[H _]]; [discriminate|exact H].
Defined.

(** ** Recursive mutexes *)

(** A thread that has a mutex takes it again and gives it back without touching the lock
    below it; at the largest depth a further attempt fails. *)
Theorem aml_mutex_recursive ksleep gl glm gls gle none this timeout x c :
  owner x = this -> 1 <= depth x < 2 ^ 16 ->
  (depth x < 0xFFFF -> exists x', uacpi_acquire_aml_mutex ksleep gl glm gls gle this timeout x c = Ret (true, x', c) /\
     uacpi_this_thread_owns_aml_mutex this x' = true /\ uacpi_release_aml_mutex gl glm none x' c = (x, c)) /\
  (depth x = 0xFFFF -> uacpi_acquire_aml_mutex ksleep gl glm gls gle this timeout x c = Ret (false, x, c)).
Proof.
  intros Ho Hd. unfold uacpi_acquire_aml_mutex. rewrite Ho, Z.eqb_refl. split.
  - intros Hl. rewrite (proj2 (Z.eqb_neq _ _)) by lia. eexists. split; [reflexivity|]. split; [apply Z.eqb_refl|].
    unfold uacpi_release_aml_mutex. cbn [depth handle owner]. rewrite wrap_small by (pow2_consts; lia).
    rewrite (proj2 (Z.gtb_lt (depth x + 1) 1)) by lia. replace (depth x + 1 - 1) with (depth x) by lia.
    rewrite wrap_small by (pow2_consts; lia). now destruct x as [h o d]; cbn in Ho |- *; rewrite Ho.
  - intros ->. reflexivity.
Qed.

(** ** Where it goes wrong *)

Lemma acquire_attempts_seq ksleep gl gls gle n : forall c b c',
  acquire_attempts ksleep gl gls gle n c = Ret (b, c') -> global_lock_seq_num c' = global_lock_seq_num c.
Proof.
  induction n as [|n IH]; intros c b c' E; cbn [acquire_attempts] in E; [now injection E as <- <-|].
  destruct (try_acquire_global_lock_from_firmware gl (rt_mem c)) as [[] m]; [now injection E as <- <-|].
  destruct n as [|n]; [now injection E as <- <-|]. apply bind_Ret in E as ([b1 e] & _ & E). apply bind_Ret in E as ([f m1] & _ & E).
  exact (IH _ _ _ E).
Qed.

Lemma acquire_from_firmware_seq ksleep gl gls gle c r c' :
  uacpi_acquire_global_lock_from_firmware ksleep gl gls gle c = Ret (r, c') -> global_lock_seq_num c' = global_lock_seq_num c.
Proof.
  unfold uacpi_acquire_global_lock_from_firmware. destruct (negb (has_global_lock c)); [now intros [= <- <-]|]. intros E.
  apply bind_Ret in E as ([f m] & _ & E). apply bind_Ret in E as ([b c1] & E1 & E). injection E as <- <-.
  exact (acquire_attempts_seq _ _ _ _ _ _ _ _ E1).
Qed.

(** The number given to the caller is the one before the counter moves on, but the release
    compares it with the counter: the lock that was taken is never released. *)
Theorem global_lock_never_released ksleep gl glm gls gle loaded timeout out c c' :
  0 <= global_lock_seq_num c < 2 ^ 32 ->
  uacpi_acquire_global_lock ksleep gl glm gls gle loaded timeout out c = Ret (UACPI_STATUS_OK, c') ->
  uacpi_release_global_lock gl glm loaded (load32 out (rt_mem c')) c' = (UACPI_STATUS_INVALID_ARGUMENT, c').
Proof.
  intros Hs E. unfold uacpi_acquire_global_lock in E. destruct loaded; [|discriminate E]. cbn [negb] in E.
  destruct (out =? 0); [discriminate E|]. apply bind_Ret in E as ([got m] & _ & E). destruct got; cbn [negb] in E; [|discriminate E].
  apply bind_Ret in E as ([ret c1] & E1 & E). pose proof (acquire_from_firmware_seq _ _ _ _ _ _ _ E1) as Es. cbn [global_lock_seq_num set_rt_mem] in Es.
  destruct (Z.eqb_spec ret UACPI_STATUS_OK) as [->|Hne]; cbn [negb] in E; [|injection E as Er _; congruence].
  rewrite Es in E. set (seq := if global_lock_seq_num c =? 0xFFFFFFFF then 0 else global_lock_seq_num c) in E.
  assert (0 <= seq < 2 ^ 32 - 1) as Hseq by (unfold seq; destruct (Z.eqb_spec (global_lock_seq_num c) 0xFFFFFFFF); pow2_consts; lia).
  match type of E with Ret (_, ?x) = Ret (_, ?y) => assert (y = x) as -> by congruence end. unfold uacpi_release_global_lock. cbn [negb global_lock_acquired set_rt_owner rt_mem set_rt_mem global_lock_seq_num orb].
  rewrite load_store. change (8 * Z.of_nat 4) with 32. rewrite Z.mod_small by lia. rewrite wrap_small by (pow2_consts; lia).
  rewrite (proj2 (Z.eqb_neq seq (seq + 1))) by lia. reflexivity.
Qed.

(** When the firmware has the lock the system waits for its release; the kernel holds the
    lock of its events while it waits, and its events are never counted up: the wait does
    not end. *)
Theorem global_lock_wait_hangs ksleep gl gls gle c :
  let m := store64 gls (Z.lor (load64 gls (rt_mem c)) 1) (rt_mem c) in
  has_global_lock c = true -> Z.testbit (load64 gls (rt_mem c)) 0 = false -> was_owned (load32 gl m) = true -> rt_eventLock c = false ->
  load64 gle (uacpi_kernel_spinlock_unlock gls 0 (store32 gl (acquired_word (load32 gl m)) m)) = 0 ->
  uacpi_acquire_global_lock_from_firmware ksleep gl gls gle c = Deadlock.
Proof.
  intros m Hg Hl Ho He Hz. unfold uacpi_acquire_global_lock_from_firmware. rewrite Hg. cbn [negb].
  unfold uacpi_kernel_spinlock_lock at 1, acquire_at. rewrite Hl. cbn [mbind outcome_bind]. fold m.
  replace (Z.to_nat 0xFFFF) with (S (S (Z.to_nat 0xFFFD))) by lia. generalize (Z.to_nat 0xFFFD). intros n.
  assert (acquire_attempts ksleep gl gls gle (S (S n)) (set_rt_mem m c) = Deadlock) as ->; [|reflexivity].
  remember (S n) as k. cbn [acquire_attempts]. unfold try_acquire_global_lock_from_firmware. cbn [rt_mem set_rt_mem]. rewrite Ho. cbn [negb].
  rewrite Heqk. cbn iota. cbn [rt_mem set_rt_mem set_rt_pending rt_eventLock]. unfold uacpi_kernel_wait_for_event at 1. rewrite He.
  cbn [acquireLock mbind outcome_bind]. rewrite Z.eqb_refl, Hz. reflexivity.
Qed.
