(* ===== verification/UacpiStr.v ===== *)
(** * Characters, numbers and formatted output of uACPI ([kernel/acpi/uacpi/stdlib.c], [utilities.c])

    The table of character classes, the identifiers of EISA, numbers read from strings, and
    [uacpi_vsnprintf] with the log on top of it.  A string with a number of characters is the
    list of them, a format the list of its characters without the NUL; the variable arguments
    are 64-bit words and the strings among them are read from memory, which holds the buffer
    as well. *)

From S2P Require Import Prelude Interfaces MemUtil Bytes Ports AcpiOs UacpiMutex.
#[local] Open Scope Z_scope.

(** ** Character classes *)

Definition CHAR_TYPE_CONTROL : Z := Z.shiftl 1 0.
Definition CHAR_TYPE_SPACE : Z := Z.shiftl 1 1.
Definition CHAR_TYPE_BLANK : Z := Z.shiftl 1 2.
Definition CHAR_TYPE_PUNCTUATION : Z := Z.shiftl 1 3.
Definition CHAR_TYPE_LOWER : Z := Z.shiftl 1 4.
Definition CHAR_TYPE_UPPER : Z := Z.shiftl 1 5.
Definition CHAR_TYPE_DIGIT : Z := Z.shiftl 1 6.
Definition CHAR_TYPE_HEX_DIGIT : Z := Z.shiftl 1 7.
Definition CHAR_TYPE_ALPHA : Z := Z.lor CHAR_TYPE_LOWER CHAR_TYPE_UPPER.
Definition CHAR_TYPE_ALHEX : Z := Z.lor CHAR_TYPE_ALPHA CHAR_TYPE_HEX_DIGIT.
Definition CHAR_TYPE_ALNUM : Z := Z.lor CHAR_TYPE_ALPHA CHAR_TYPE_DIGIT.

(** The entries after the last one are 0. *)
Definition ascii_map : list Z :=
  repeat CHAR_TYPE_CONTROL 9 ++ [Z.lor (Z.lor CHAR_TYPE_CONTROL CHAR_TYPE_SPACE) CHAR_TYPE_BLANK] ++
  repeat (Z.lor CHAR_TYPE_CONTROL CHAR_TYPE_SPACE) 4 ++ repeat CHAR_TYPE_CONTROL 18 ++ [Z.lor CHAR_TYPE_SPACE CHAR_TYPE_BLANK] ++
  repeat CHAR_TYPE_PUNCTUATION 15 ++ repeat (Z.lor CHAR_TYPE_DIGIT CHAR_TYPE_HEX_DIGIT) 10 ++ repeat CHAR_TYPE_PUNCTUATION 7 ++
  repeat (Z.lor CHAR_TYPE_UPPER CHAR_TYPE_HEX_DIGIT) 6 ++ repeat CHAR_TYPE_UPPER 20 ++ repeat CHAR_TYPE_PUNCTUATION 6 ++
  repeat (Z.lor CHAR_TYPE_LOWER CHAR_TYPE_HEX_DIGIT) 6 ++ repeat CHAR_TYPE_LOWER 20 ++ repeat CHAR_TYPE_PUNCTUATION 4 ++ [CHAR_TYPE_CONTROL] ++ repeat 0 128.

Definition char_class (c : Z) : Z := nth (Z.to_nat (u8 c)) ascii_map 0.

Definition is_valid_name_byte (c : Z) : bool := if c =? 0x5F then true else negb (Z.land (char_class c) (Z.lor CHAR_TYPE_DIGIT CHAR_TYPE_UPPER) =? 0).
Definition uacpi_is_valid_nameseg (nameseg : list Z) : bool :=
  is_valid_name_byte (nth 0 nameseg 0) && is_valid_name_byte (nth 1 nameseg 0) && is_valid_name_byte (nth 2 nameseg 0) && is_valid_name_byte (nth 3 nameseg 0).

Definition is_char (c type : Z) : bool := Z.land (char_class c) type =? type.
Definition to_lower (c : Z) : Z := if is_char c CHAR_TYPE_UPPER then c + (97 - 65) else c.

(** ** Identifiers of EISA *)

Definition hex_to_ascii : list Z := chars "0123456789ABCDEF".

(** The bytes of the word in the other order. *)
Definition swapped (id : Z) : Z :=
  let byte i := Z.land (Z.shiftr id (8 * i)) 255 in
  Z.lor (byte 3) (Z.lor (Z.shiftl (byte 2) 8) (Z.lor (Z.shiftl (byte 1) 16) (Z.shiftl (byte 0) 24))).

Definition uacpi_eisa_id_to_string (id : Z) : list Z :=
  let dword := swapped id in
  let letter shift := 0x40 + Z.land (Z.shiftr dword shift) 0x1F in
  let digit shift := nth (Z.to_nat (Z.land (Z.shiftr dword shift) 0x0F)) hex_to_ascii 0 in
  [letter 26; letter 21; letter 16; digit 12; digit 8; digit 4; digit 0; 0].

(** ** Numbers in strings *)

Definition UACPI_BASE_AUTO : Z := 0.
Definition UACPI_BASE_OCT : Z := 8.
Definition UACPI_BASE_DEC : Z := 10.
Definition UACPI_BASE_HEX : Z := 16.

(** [None] stands for false. *)
Definition peek_one (str : list Z) : option Z := match str with [] => None | c :: _ => Some c end.
Definition consume_one (str : list Z) : option (Z * list Z) := match str with [] => None | c :: str' => Some (c, str') end.
Definition consume_if (str : list Z) (type : Z) : option (list Z) :=
  match peek_one str with Some c => if is_char c type then Some (List.tl str) else None | None => None end.
Definition consume_if_equals (str : list Z) (c : Z) : option (list Z) :=
  match peek_one str with Some c1 => if to_lower c1 =? c then Some (List.tl str) else None | None => None end.

Fixpoint skip_spaces (str : list Z) : list Z :=
  match str with [] => [] | c :: str' => if is_char c CHAR_TYPE_SPACE then skip_spaces str' else str end.

(** The value of a character in a base, if it has one there. *)
Definition next_digit (base c : Z) : option Z :=
  let cl := Z.land (char_class c) (Z.lor CHAR_TYPE_DIGIT CHAR_TYPE_ALHEX) in
  if cl =? Z.lor CHAR_TYPE_DIGIT CHAR_TYPE_HEX_DIGIT then
    if (base =? UACPI_BASE_OCT) && (c - 48 >? 7) then None else Some (c - 48)
  else if (cl =? Z.lor CHAR_TYPE_LOWER CHAR_TYPE_HEX_DIGIT) || (cl =? Z.lor CHAR_TYPE_UPPER CHAR_TYPE_HEX_DIGIT) then
    if negb (base =? UACPI_BASE_HEX) then None else Some (10 + (to_lower c - 97))
  else None.

(** The value, the last character looked at and what is left of the string at [out]. *)
Fixpoint digits_loop (base : Z) (str : list Z) (value c : Z) : Z * Z * list Z :=
  match str with
  | [] => (value, c, [])
  | c :: str' =>
      match next_digit base c with
      | None => (value, c, str')
      | Some d =>
          let next := u64 (value * base + d) in
          if negb (next / base =? value) then (0xFFFFFFFFFFFFFFFF, c, str') else digits_loop base str' next c
      end
  end.

Definition detect_base (str : list Z) (base : Z) : list Z * Z :=
  if base =? UACPI_BASE_AUTO then
    match consume_if_equals str 48 with
    | Some str => match consume_if_equals str 120 with Some str => (str, UACPI_BASE_HEX) | None => (str, UACPI_BASE_OCT) end
    | None => (str, UACPI_BASE_DEC)
    end
  else (str, base).

(** The result and the value stored. *)
Definition uacpi_string_to_integer (str : list Z) (base : Z) : Z * Z :=
  let str := skip_spaces str in
  let '(negative, str) := match consume_if_equals str 45 with Some str => (true, str) | None =>
    (false, match consume_if_equals str 43 with Some str => str | None => str end) end in
  let '(str, base) := detect_base str base in
  let '(value, c, str) := digits_loop base str 0 0 in
  (if (Z.of_nat (length str) =? 0) || (c =? 0) then UACPI_STATUS_OK else UACPI_STATUS_INVALID_ARGUMENT, if negative then u64 (- value) else value).

(** ** The output of a format *)

Record fmt_buf_state : Type := mk_fb { fb_buffer : Z; fb_capacity : Z; fb_written : Z; fb_mem : mem }.

Record fmt_spec : Type := mk_fmt {
  is_signed : bool; prepend : bool; uppercase : bool; left_justify : bool; alternate_form : bool;
  pad_char : Z; prepend_char : Z; min_width : Z; precision : Z; fm_base : Z
}.

Definition write_one (c : Z) (fb : fmt_buf_state) : fmt_buf_state :=
  mk_fb (fb_buffer fb) (fb_capacity fb) (u64 (fb_written fb + 1))
    (if fb_written fb <? fb_capacity fb then upd (fb_mem fb) (fb_buffer fb + fb_written fb) c else fb_mem fb).

Definition write_many (str : list Z) (fb : fmt_buf_state) : fmt_buf_state :=
  let count := Z.of_nat (length str) in
  mk_fb (fb_buffer fb) (fb_capacity fb) (u64 (fb_written fb + count))
    (if fb_written fb <? fb_capacity fb
     then write_bytes (take (Z.to_nat (Z.min count (fb_capacity fb - fb_written fb))) str) (fb_buffer fb + fb_written fb) (fb_mem fb)
     else fb_mem fb).

Definition hex_char (upper : bool) (value : Z) : Z := nth (Z.to_nat value) (if upper then chars "0123456789ABCDEF" else chars "0123456789abcdef") 0.

Fixpoint write_times (n : nat) (c : Z) (fb : fmt_buf_state) : fmt_buf_state := match n with O => fb | S n' => write_times n' c (write_one c fb) end.
Definition write_padding (fm : fmt_spec) (repr_size : Z) (fb : fmt_buf_state) : fmt_buf_state :=
  if min_width fm <=? repr_size then fb
  else write_times (Z.to_nat (min_width fm - repr_size)) (if left_justify fm then 32 else pad_char fm) fb.

Definition REPR_BUFFER_SIZE : Z := 32.

Definition repr_char (fm : fmt_spec) (remainder : Z) : Z :=
  if fm_base fm =? 16 then hex_char (uppercase fm) remainder
  else if (fm_base fm =? 8) || (fm_base fm =? 10) then remainder + 48 else 63.

(** [repr_buffer] from [index] on.  A 64-bit value has at most 22 digits in base 8. *)
Fixpoint repr_digits (fuel : nat) (fm : fmt_spec) (value : Z) (repr : list Z) : list Z :=
  match fuel with
  | O => repr
  | S f => if value =? 0 then repr else repr_digits f fm (value / fm_base fm) (repr_char fm (value mod fm_base fm) :: repr)
  end.

Definition repr_of (fm : fmt_spec) (value : Z) : list Z :=
  let repr := repr_digits 22 fm value [] in
  let repr := match repr with [] => [48] | _ => repr end in
  if alternate_form fm then
    if fm_base fm =? 16 then 48 :: (if uppercase fm then 88 else 120) :: repr
    else if fm_base fm =? 8 then 48 :: repr else repr
  else repr.

Definition is_negative (fm : fmt_spec) (value : Z) : bool := is_signed fm && (i64 value <? 0).

Definition write_integer (fm : fmt_spec) (value : Z) (fb : fmt_buf_state) : fmt_buf_state :=
  let negative := is_negative fm value in
  let value := if negative then u64 (- i64 value) else value in
  let fb := if prepend fm || negative then write_one (if negative then 45 else prepend_char fm) fb else fb in
  let repr := repr_of fm value in
  let repr_size := Z.of_nat (length repr) in
  if left_justify fm then write_padding fm repr_size (write_many repr fb) else write_many repr (write_padding fm repr_size fb).

(** ** Reading the format *)

(** A count of 0 would be taken for [2 ^ 64]; every token has a character. *)
Fixpoint string_has_at_least (str : list Z) (characters : Z) : bool :=
  match str with
  | [] => false
  | _ :: str' => let characters := u64 (characters - 1) in if characters =? 0 then true else string_has_at_least str' characters
  end.

Fixpoint consume_digits (str : list Z) : list Z * list Z :=
  match str with
  | [] => ([], [])
  | c :: str' => if (c <? 48) || (c >? 57) then ([], str) else let '(d, r) := consume_digits str' in (c :: d, r)
  end.

Inductive parse_number_mode : Type := PARSE_NUMBER_MODE_MAYBE | PARSE_NUMBER_MODE_MUST.

(** [value] is what is there before. *)
Definition parse_number (fmt : list Z) (mode : parse_number_mode) (value : Z) : option (list Z * Z) :=
  let '(digits, fmt) := consume_digits fmt in
  match digits with
  | [] => match mode with PARSE_NUMBER_MODE_MUST => None | PARSE_NUMBER_MODE_MAYBE => Some (fmt, value) end
  | _ => let '(ret, v) := uacpi_string_to_integer digits UACPI_BASE_DEC in if ret =? UACPI_STATUS_OK then Some (fmt, v) else None
  end.

Definition consume (str token : list Z) : option (list Z) :=
  if negb (string_has_at_least str (Z.of_nat (length token))) then None
  else if bool_decide (take (length token) str = token) then Some (drop (length token) str) else None.

Definition is_one_of (c : Z) (l : list Z) : bool := existsb (Z.eqb c) l.

Definition consume_one_of (str l : list Z) : option (Z * list Z) :=
  match str with [] => None | c :: str' => if is_one_of c l then Some (c, str') else None end.

Definition base_from_specifier (specifier : Z) : Z := if (specifier =? 120) || (specifier =? 88) then 16 else if specifier =? 111 then 8 else 10.
Definition is_uppercase_specifier (specifier : Z) : bool := specifier =? 88.

(** The characters before the next conversion, and the format from it on. *)
Fixpoint find_next_conversion (fmt : list Z) : list Z * list Z :=
  match fmt with
  | [] => ([], [])
  | c :: fmt' => if c =? 37 then ([], fmt) else let '(l, r) := find_next_conversion fmt' in (c :: l, r)
  end.

Definition initial_spec : fmt_spec := mk_fmt false false false false false 32 0 0 0xFFFFFFFFFFFFFFFF 10.

Definition apply_flag (flag : Z) (fm : fmt_spec) : fmt_spec :=
  if (flag =? 43) || (flag =? 32) then
    mk_fmt (is_signed fm) true (uppercase fm) (left_justify fm) (alternate_form fm) (pad_char fm) flag (min_width fm) (precision fm) (fm_base fm)
  else if flag =? 45 then mk_fmt (is_signed fm) (prepend fm) (uppercase fm) true (alternate_form fm) (pad_char fm) (prepend_char fm) (min_width fm) (precision fm) (fm_base fm)
  else if flag =? 48 then mk_fmt (is_signed fm) (prepend fm) (uppercase fm) (left_justify fm) (alternate_form fm) 48 (prepend_char fm) (min_width fm) (precision fm) (fm_base fm)
  else mk_fmt (is_signed fm) (prepend fm) (uppercase fm) (left_justify fm) true (pad_char fm) (prepend_char fm) (min_width fm) (precision fm) (fm_base fm).

Fixpoint read_flags (fmt : list Z) (fm : fmt_spec) : list Z * fmt_spec :=
  match fmt with
  | [] => (fmt, fm)
  | c :: fmt' => if is_one_of c (chars "+- 0#") then read_flags fmt' (apply_flag c fm) else (fmt, fm)
  end.

Definition set_min_width (v : Z) (fm : fmt_spec) : fmt_spec :=
  mk_fmt (is_signed fm) (prepend fm) (uppercase fm) (left_justify fm) (alternate_form fm) (pad_char fm) (prepend_char fm) v (precision fm) (fm_base fm).
Definition set_precision (v : Z) (fm : fmt_spec) : fmt_spec :=
  mk_fmt (is_signed fm) (prepend fm) (uppercase fm) (left_justify fm) (alternate_form fm) (pad_char fm) (prepend_char fm) (min_width fm) v (fm_base fm).
Definition set_signed (fm : fmt_spec) : fmt_spec :=
  mk_fmt true (prepend fm) (uppercase fm) (left_justify fm) (alternate_form fm) (pad_char fm) (prepend_char fm) (min_width fm) (precision fm) (fm_base fm).
Definition set_base (b : Z) (up : bool) (fm : fmt_spec) : fmt_spec :=
  mk_fmt (is_signed fm) (prepend fm) up (left_justify fm) (alternate_form fm) (pad_char fm) (prepend_char fm) (min_width fm) (precision fm) b.

(** Code that can return -1 from [uacpi_vsnprintf]. *)
Abbreviation failing A := (outcome (option A)).
Definition fbind {A B} (m : failing A) (f : A -> failing B) : failing B := o ← m; match o with Some a => f a | None => Ret None end.

Definition va_arg (args : list Z) : failing (Z * list Z) := match args with [] => Fault | v :: args => Ret (Some (v, args)) end.

(** The minimal width and the precision; [int]s are converted to [uacpi_u64]. *)
Definition read_width (fmt args : list Z) (fm : fmt_spec) : failing (list Z * list Z * fmt_spec) :=
  match consume fmt (chars "*") with
  | Some fmt => fbind (va_arg args) (fun '(v, args) => Ret (Some (fmt, args, set_min_width (u64 (i32 v)) fm)))
  | None => match parse_number fmt PARSE_NUMBER_MODE_MAYBE (min_width fm) with Some (fmt, v) => Ret (Some (fmt, args, set_min_width v fm)) | None => Ret None end
  end.
Definition read_precision (fmt args : list Z) (fm : fmt_spec) : failing (list Z * list Z * fmt_spec) :=
  match consume fmt (chars ".") with
  | Some fmt =>
      match consume fmt (chars "*") with
      | Some fmt => fbind (va_arg args) (fun '(v, args) => Ret (Some (fmt, args, set_precision (u64 (i32 v)) fm)))
      | None => match parse_number fmt PARSE_NUMBER_MODE_MUST (precision fm) with Some (fmt, v) => Ret (Some (fmt, args, set_precision v fm)) | None => Ret None end
      end
  | None => Ret (Some (fmt, args, fm))
  end.

Inductive conversion : Type := Conv_char (c : Z) | Conv_string (string precision : Z) | Conv_int (fm : fmt_spec) (value : Z).

Definition consume_either (str t1 t2 : list Z) : option (list Z) := match consume str t1 with Some r => Some r | None => consume str t2 end.

(** [d] and [i], and [o], [x], [X] and [u], after a length. *)
Definition read_int (signed unsigned : Z -> Z) (fmt args : list Z) (fm : fmt_spec) : failing (conversion * list Z * list Z) :=
  match consume_either fmt (chars "d") (chars "i") with
  | Some fmt => fbind (va_arg args) (fun '(v, args) => Ret (Some (Conv_int (set_signed fm) (signed v), fmt, args)))
  | None =>
      match consume_one_of fmt (chars "oxXu") with
      | Some (flag, fmt) => fbind (va_arg args) (fun '(v, args) => Ret (Some (Conv_int (set_base (base_from_specifier flag) (is_uppercase_specifier flag) fm) (unsigned v), fmt, args)))
      | None => Ret None
      end
  end.

Definition UACPI_POINTER_SIZE : Z := 8.

Definition read_conversion (fmt args : list Z) (fm : fmt_spec) : failing (conversion * list Z * list Z) :=
  match consume fmt (chars "c") with Some fmt => fbind (va_arg args) (fun '(v, args) => Ret (Some (Conv_char (u8 v), fmt, args))) | None =>
  match consume fmt (chars "s") with Some fmt => fbind (va_arg args) (fun '(v, args) => Ret (Some (Conv_string v (precision fm), fmt, args))) | None =>
  match consume fmt (chars "p") with
  | Some fmt => fbind (va_arg args) (fun '(v, args) =>
      Ret (Some (Conv_int (mk_fmt (is_signed fm) (prepend fm) (uppercase fm) (left_justify fm) (alternate_form fm) 48 (prepend_char fm) (UACPI_POINTER_SIZE * 2) (precision fm) 16) v, fmt, args)))
  | None =>
  match consume fmt (chars "hh") with Some fmt => read_int (fun v => u64 (i8 v)) (fun v => u8 v) fmt args fm | None =>
  match consume fmt (chars "h") with Some fmt => read_int (fun v => u64 (swrap 16 v)) (fun v => u16 v) fmt args fm | None =>
  match consume_either fmt (chars "ll") (chars "z") with Some fmt => read_int (fun v => v) (fun v => v) fmt args fm | None =>
  match consume_either fmt (chars "l") (chars "z") with Some fmt => read_int (fun v => v) (fun v => v) fmt args fm | None =>
  read_int (fun v => u64 (i32 v)) (fun v => u32 v) fmt args fm
  end end end end end end end.

(** From the character after the percent sign. *)
Definition parse_spec (fmt args : list Z) : failing (conversion * list Z * list Z) :=
  let '(fmt, fm) := read_flags fmt initial_spec in
  fbind (read_width fmt args fm) (fun '(fmt, args, fm) =>
  fbind (read_precision fmt args fm) (fun '(fmt, args, fm) => read_conversion fmt args fm)).

(** [string] is read while the buffer is written. *)
Fixpoint write_string (fuel : nat) (string precision i : Z) (fb : fmt_buf_state) : outcome fmt_buf_state :=
  match fuel with
  | O => OutOfFuel
  | S f =>
      if (i <? precision) && negb (fb_mem fb (string + i) =? 0) then write_string f string precision (i + 1) (write_one (fb_mem fb (string + i)) fb)
      else Ret fb
  end.

Definition do_conversion (sfuel : nat) (c : conversion) (fb : fmt_buf_state) : outcome fmt_buf_state :=
  match c with
  | Conv_char c => Ret (write_one c fb)
  | Conv_string string precision => write_string sfuel string precision 0 fb
  | Conv_int fm value => Ret (write_integer fm value fb)
  end.

(** Whether the end of the format is reached, and the output. *)
Fixpoint vsnprintf_loop (fuel sfuel : nat) (fmt args : list Z) (fb : fmt_buf_state) : outcome (bool * fmt_buf_state) :=
  match fuel with
  | O => OutOfFuel
  | S f =>
      match fmt with
      | [] => Ret (true, fb)
      | _ =>
          let '(literal, rest) := find_next_conversion fmt in
          let fb := match literal with [] => fb | _ => write_many literal fb end in
          match rest with
          | [] => Ret (true, fb)
          | _ :: rest' =>
              match consume rest (chars "%%") with
              | Some rest => vsnprintf_loop f sfuel rest args (write_one 37 fb)
              | None =>
                  r ← parse_spec rest' args;
                  match r with
                  | None => Ret (false, fb)
                  | Some (c, fmt, args) => fb ← do_conversion sfuel c fb; vsnprintf_loop f sfuel fmt args fb
                  end
              end
          end
      end
  end.

(** The result and the memory. *)
Definition uacpi_vsnprintf (sfuel : nat) (buffer capacity : Z) (fmt args : list Z) (m : mem) : outcome (Z * mem) :=
  '(ok, fb) ← vsnprintf_loop (S (length fmt)) sfuel fmt args (mk_fb buffer capacity 0 m);
  if negb ok then Ret (-1, fb_mem fb)
  else
    let m := if negb (fb_capacity fb =? 0) then upd (fb_mem fb) (fb_buffer fb + Z.min (fb_written fb) (fb_capacity fb - 1)) 0 else fb_mem fb in
    Ret (i32 (fb_written fb), m).

Definition uacpi_snprintf (sfuel : nat) (buffer capacity : Z) (fmt args : list Z) (m : mem) : outcome (Z * mem) := uacpi_vsnprintf sfuel buffer capacity fmt args m.

(** ** The log *)

Definition UACPI_PLAIN_LOG_BUFFER_SIZE : Z := 128.

(** [buf] is the address of the buffer; [None] when nothing is logged. *)
Definition uacpi_log (sfuel : nat) (buf lvl : Z) (str args : list Z) (m : mem) : outcome (option Z * mem) :=
  '(ret, m) ← uacpi_vsnprintf sfuel buf UACPI_PLAIN_LOG_BUFFER_SIZE str args m;
  if ret <? 0 then Ret (None, m)
  else
    let m := if ret >=? UACPI_PLAIN_LOG_BUFFER_SIZE
             then upd (upd (upd (upd m (buf + (UACPI_PLAIN_LOG_BUFFER_SIZE - 5)) 46) (buf + (UACPI_PLAIN_LOG_BUFFER_SIZE - 4)) 46)
                        (buf + (UACPI_PLAIN_LOG_BUFFER_SIZE - 3)) 46) (buf + (UACPI_PLAIN_LOG_BUFFER_SIZE - 2)) 10 else m in
    Ret (Some (uacpi_kernel_log lvl), m).

(** ** What a format prints *)

Definition padding (fm : fmt_spec) (n : Z) : list Z := repeat (if left_justify fm then 32 else pad_char fm) (Z.to_nat (min_width fm - n)).

Definition int_chars (fm : fmt_spec) (value : Z) : list Z :=
  let negative := is_negative fm value in
  let repr := repr_of fm (if negative then u64 (- i64 value) else value) in
  let pad := padding fm (Z.of_nat (length repr)) in
  (if prepend fm || negative then [if negative then 45 else prepend_char fm] else []) ++ (if left_justify fm then repr ++ pad else pad ++ repr).

(** The characters of a string up to the precision. *)
Definition string_is (m : mem) (p prec : Z) (l : list Z) : Prop :=
  Z.of_nat (length l) <= prec /\ (forall k, (k < length l)%nat -> m (p + Z.of_nat k) = nth k l 0 /\ nth k l 0 <> 0) /\
  (Z.of_nat (length l) = prec \/ m (p + Z.of_nat (length l)) = 0).

(** The characters of a conversion, and the memory it reads. *)
Inductive printed (sfuel : nat) (m : mem) : conversion -> list Z -> list (Z * Z) -> Prop :=
| printed_char c : printed sfuel m (Conv_char c) [c] []
| printed_string p prec l : string_is m p prec l -> (length l < sfuel)%nat -> printed sfuel m (Conv_string p prec) l [(p, Z.of_nat (length l) + 1)]
| printed_int fm value : printed sfuel m (Conv_int fm value) (int_chars fm value) [].

(** The characters of a format, whether all of it is understood, and the memory read. *)
Inductive formats (sfuel : nat) (m : mem) : list Z -> list Z -> bool -> list Z -> list (Z * Z) -> Prop :=
| formats_end fmt args lit : find_next_conversion fmt = (lit, []) -> formats sfuel m fmt args true lit []
| formats_percent fmt args lit rest fmt' ok l areas : find_next_conversion fmt = (lit, rest) -> consume rest (chars "%%") = Some fmt' ->
    formats sfuel m fmt' args ok l areas -> formats sfuel m fmt args ok (lit ++ 37 :: l) areas
| formats_bad fmt args lit c rest : find_next_conversion fmt = (lit, c :: rest) -> consume (c :: rest) (chars "%%") = None ->
    parse_spec rest args = Ret None -> formats sfuel m fmt args false lit []
| formats_conversion fmt args lit c rest cv fmt' args' l1 ar1 ok l areas : find_next_conversion fmt = (lit, c :: rest) -> consume (c :: rest) (chars "%%") = None ->
    parse_spec rest args = Ret (Some (cv, fmt', args')) -> printed sfuel m cv l1 ar1 -> formats sfuel m fmt' args' ok l areas ->
    formats sfuel m fmt args ok (lit ++ l1 ++ l) (ar1 ++ areas).

(** The state after [out] has been written. *)
Definition emitted (m : mem) (buffer capacity : Z) (out : list Z) (fb : fmt_buf_state) : Prop :=
  fb = mk_fb buffer capacity (Z.of_nat (length out)) (write_bytes (take (Z.to_nat capacity) out) buffer m).

Section Emit.
Variables (m : mem) (buffer capacity : Z).
Abbreviation emits := (emitted m buffer capacity).

Lemma write_many_emits l out fb : Z.of_nat (length (out ++ l)) < 2 ^ 64 -> emits out fb -> emits (out ++ l) (write_many l fb).
Proof.
  intros Hlen ->. rewrite length_app in Hlen. unfold emitted, write_many. cbn [fb_buffer fb_capacity fb_written fb_mem]. rewrite length_app.
  f_equal; [rewrite wrap_small by lia; lia|]. destruct (Z.ltb_spec (Z.of_nat (length out)) capacity).
  - rewrite (take_ge out) by lia. rewrite take_app_ge by lia. rewrite write_bytes_app. f_equal.
    destruct (Z.min_spec (Z.of_nat (length l)) (capacity - Z.of_nat (length out))) as [[? ->]|[? ->]]; [rewrite !take_ge by lia; reflexivity|]. f_equal. lia.
  - rewrite take_app_le by lia. reflexivity.
Qed.

Lemma write_one_emits c out fb : Z.of_nat (length (out ++ [c])) < 2 ^ 64 -> emits out fb -> emits (out ++ [c]) (write_one c fb).
Proof.
  intros Hlen Hfb. pose proof (write_many_emits [c] out fb Hlen Hfb) as E. replace (write_one c fb) with (write_many [c] fb); [exact E|].
  unfold write_one, write_many. cbn [length]. f_equal. destruct (Z.ltb_spec (fb_written fb) (fb_capacity fb)); [|reflexivity].
  rewrite Z.min_l by lia. reflexivity.
Qed.

Lemma write_times_emits n : forall c out fb, Z.of_nat (length (out ++ repeat c n)) < 2 ^ 64 -> emits out fb -> emits (out ++ repeat c n) (write_times n c fb).
Proof.
  induction n as [|n IH]; intros c out fb Hlen Hfb; cbn [repeat write_times] in *; [now rewrite app_nil_r|].
  change (out ++ c :: repeat c n) with (out ++ [c] ++ repeat c n) in *. rewrite app_assoc in *. apply IH; [exact Hlen|]. apply write_one_emits; [|exact Hfb].
  rewrite length_app in Hlen. lia.
Qed.

Lemma write_padding_emits fm n out fb : Z.of_nat (length (out ++ padding fm n)) < 2 ^ 64 -> emits out fb -> emits (out ++ padding fm n) (write_padding fm n fb).
Proof.
  intros Hlen Hfb. unfold write_padding, padding in *. destruct (Z.leb_spec (min_width fm) n).
  - replace (Z.to_nat (min_width fm - n)) with 0%nat by lia. cbn [repeat]. now rewrite app_nil_r.
  - now apply write_times_emits.
Qed.

Lemma write_integer_emits fm value out fb : Z.of_nat (length (out ++ int_chars fm value)) < 2 ^ 64 -> emits out fb ->
  emits (out ++ int_chars fm value) (write_integer fm value fb).
Proof.
  intros Hlen Hfb. unfold write_integer, int_chars in *. set (neg := is_negative fm value) in *. set (repr := repr_of fm _) in *.
  set (pre := if prepend fm || neg then _ else _) in *. rewrite app_assoc in Hlen |- *.
  assert (emits (out ++ pre) (if prepend fm || neg then write_one (if neg then 45 else prepend_char fm) fb else fb)) as Hpre.
  { unfold pre in *. rewrite !length_app in Hlen. destruct (prepend fm || neg); [|now rewrite app_nil_r]. apply write_one_emits; [rewrite length_app; lia|exact Hfb]. }
  destruct (left_justify fm); rewrite !app_assoc in *.
  - apply write_padding_emits; [exact Hlen|]. apply write_many_emits; [|exact Hpre]. rewrite length_app in Hlen. lia.
  - apply write_many_emits; [exact Hlen|]. apply write_padding_emits; [|exact Hpre]. rewrite length_app in Hlen. lia.
Qed.

Lemma emits_outside out fb x : emits out fb -> ~ (buffer <= x < buffer + capacity) -> fb_mem fb x = m x.
Proof. intros -> Hx. cbn [fb_mem]. apply write_bytes_outside. rewrite length_take. lia. Qed.

(** Reading outside of the buffer reads the memory there was. *)
Lemma write_string_emits p prec l : forall fuel done out fb, string_is m p prec (done ++ l) ->
  (forall k, 0 <= k <= Z.of_nat (length (done ++ l)) -> ~ (buffer <= p + k < buffer + capacity)) ->
  (length l < fuel)%nat -> Z.of_nat (length (out ++ l)) < 2 ^ 64 -> emits out fb ->
  exists fb', write_string fuel p prec (Z.of_nat (length done)) fb = Ret fb' /\ emits (out ++ l) fb'.
Proof.
  induction l as [|c l IH]; intros [|f] done out fb Hs Ha Hf Hlen Hfb; cbn [length] in Hf; try lia; cbn [write_string]; destruct Hs as (S1 & S2 & S3).
  - rewrite app_nil_r in *. exists fb. split; [|exact Hfb]. rewrite (emits_outside out fb) by (auto; apply Ha; lia).
    destruct S3 as [S3 | ->]; [|now rewrite Z.eqb_refl, andb_false_r]. now rewrite (proj2 (Z.ltb_ge _ _)) by lia.
  - rewrite length_app in *. cbn [length] in *. rewrite (emits_outside out fb) by (auto; apply Ha; lia).
    destruct (S2 (length done) ltac:(lia)) as [E1 E2]. rewrite app_nth2, Nat.sub_diag in E1, E2 by lia. cbn [nth] in E1, E2. rewrite E1.
    rewrite (proj2 (Z.ltb_lt _ _)), (proj2 (Z.eqb_neq c 0)) by (assumption || lia). cbn [negb andb].
    replace (Z.of_nat (length done) + 1) with (Z.of_nat (length (done ++ [c]))) by (rewrite length_app; cbn; lia).
    replace (out ++ c :: l) with ((out ++ [c]) ++ l) by now rewrite <- app_assoc. apply IH.
    + rewrite <- app_assoc. unfold string_is. rewrite length_app. now splits.
    + intros k Hk. apply Ha. rewrite <- app_assoc, length_app in Hk. exact Hk.
    + lia.
    + rewrite !length_app. cbn [length]. lia.
    + apply write_one_emits; [rewrite length_app; cbn [length]; lia|exact Hfb].
Qed.
End Emit.

(** ** The format gets shorter *)

Lemma consume_shorter str token r : consume str token = Some r -> str = token ++ r.
Proof.
  unfold consume. destruct (negb _); [discriminate|]. case_bool_decide as E; [|discriminate]. intros [= <-]. rewrite <- E at 1. symmetry. apply take_drop.
Qed.

Lemma consume_either_shorter str t1 t2 r : consume_either str t1 t2 = Some r -> (length r <= length str)%nat.
Proof.
  unfold consume_either. destruct (consume str t1) eqn:E; [intros [= <-]|intros E2; clear E; rename E2 into E]; apply consume_shorter in E as ->; rewrite length_app; lia.
Qed.

Lemma find_next_split fmt : forall lit rest, find_next_conversion fmt = (lit, rest) -> fmt = lit ++ rest.
Proof.
  induction fmt as [|c fmt IH]; intros lit rest; cbn [find_next_conversion]; [intros [= <- <-]; reflexivity|]. destruct (c =? 37); [intros [= <- <-]; reflexivity|].
  destruct (find_next_conversion fmt) as [l r] eqn:E. intros [= <- <-]. cbn [app]. f_equal. now apply IH.
Qed.

Lemma consume_digits_shorter str : forall d r, consume_digits str = (d, r) -> (length r <= length str)%nat.
Proof.
  induction str as [|c str IH]; intros d r; cbn [consume_digits]; [intros [= <- <-]; auto|]. destruct (_ || _); [intros [= <- <-]; auto|].
  destruct (consume_digits str) as [d' r'] eqn:E. intros [= <- <-]. specialize (IH _ _ eq_refl). cbn [length]. lia.
Qed.

Lemma parse_number_shorter fmt mode v fmt' v' : parse_number fmt mode v = Some (fmt', v') -> (length fmt' <= length fmt)%nat.
Proof.
  unfold parse_number. destruct (consume_digits fmt) as [d r] eqn:E. apply consume_digits_shorter in E. destruct d as [|c d].
  - destruct mode; [intros [= <- <-]; exact E|discriminate].
  - destruct (uacpi_string_to_integer _ _) as [ret x]. destruct (ret =? _); [intros [= <- <-]; exact E|discriminate].
Qed.

Lemma read_flags_shorter fmt : forall fm fmt' fm', read_flags fmt fm = (fmt', fm') -> (length fmt' <= length fmt)%nat.
Proof.
  induction fmt as [|c fmt IH]; intros fm fmt' fm'; cbn [read_flags]; [intros [= <- <-]; auto|]. destruct (is_one_of _ _); [|intros [= <- <-]; auto].
  intros E. specialize (IH _ _ _ E). cbn [length]. lia.
Qed.

Lemma fbind_some {A B} (x : failing A) (f : A -> failing B) b : fbind x f = Ret (Some b) -> exists a, x = Ret (Some a) /\ f a = Ret (Some b).
Proof. unfold fbind. destruct x as [[a|]| | | |]; cbn [mbind outcome_bind]; try discriminate. intros E. now exists a. Qed.

(** Takes what was read apart. *)
Ltac read_inv :=
  repeat match goal with
  | H : fbind (va_arg ?args) _ = Ret (Some _) |- _ => apply fbind_some in H as ([? ?] & ? & H)
  | H : Ret (Some _) = Ret (Some _) |- _ => injection H as; subst
  | H : Ret None = Ret (Some _) |- _ => discriminate H
  | H : match consume ?f ?t with _ => _ end = _ |- _ => let E := fresh "E" in destruct (consume f t) eqn:E; [apply consume_shorter in E; apply (f_equal (@length Z)) in E; rewrite length_app in E|clear E]
  | H : match consume_either ?f ?t ?t' with _ => _ end = _ |- _ => let E := fresh "E" in destruct (consume_either f t t') eqn:E; [apply consume_either_shorter in E|clear E]
  | H : match parse_number ?f ?md ?v with _ => _ end = _ |- _ => let E := fresh "E" in destruct (parse_number f md v) as [[? ?]|] eqn:E; [apply parse_number_shorter in E|clear E]
  end.

Lemma read_width_shorter fmt args fm fmt' args' fm' : read_width fmt args fm = Ret (Some (fmt', args', fm')) -> (length fmt' <= length fmt)%nat.
Proof. unfold read_width. intros E0. read_inv; lia. Qed.

Lemma read_precision_shorter fmt args fm fmt' args' fm' : read_precision fmt args fm = Ret (Some (fmt', args', fm')) -> (length fmt' <= length fmt)%nat.
Proof. unfold read_precision. intros E0. read_inv; lia. Qed.

Lemma read_int_shorter sg us fmt args fm c fmt' args' : read_int sg us fmt args fm = Ret (Some (c, fmt', args')) -> (length fmt' <= length fmt)%nat.
Proof.
  unfold read_int. intros E0. read_inv; try lia. unfold consume_one_of in E0. destruct fmt as [|x fmt]; [discriminate|]. destruct (is_one_of _ _); [|discriminate].
  read_inv. cbn [length]. lia.
Qed.

Lemma read_conversion_shorter fmt args fm c fmt' args' : read_conversion fmt args fm = Ret (Some (c, fmt', args')) -> (length fmt' <= length fmt)%nat.
Proof. unfold read_conversion. intros E0. read_inv; try lia; apply read_int_shorter in E0; lia. Qed.

Lemma parse_spec_shorter fmt args c fmt' args' : parse_spec fmt args = Ret (Some (c, fmt', args')) -> (length fmt' <= length fmt)%nat.
Proof.
  unfold parse_spec. destruct (read_flags fmt initial_spec) as [f1 fm] eqn:E1. apply read_flags_shorter in E1. intros E0. apply fbind_some in E0 as ([[f2 a2] fm2] & E2 & E0).
  apply read_width_shorter in E2. apply fbind_some in E0 as ([[f3 a3] fm3] & E3 & E0). apply read_precision_shorter in E3. apply read_conversion_shorter in E0. lia.
Qed.

(** ** The output is what the format prints *)

Lemma literal_emits m buffer capacity lit out fb : 0 <= capacity -> Z.of_nat (length (out ++ lit)) < 2 ^ 64 -> emitted m buffer capacity out fb ->
  emitted m buffer capacity (out ++ lit) (match lit with [] => fb | _ => write_many lit fb end).
Proof. intros Hc Hlen Hfb. destruct lit as [|c lit]; [now rewrite app_nil_r|]. now apply write_many_emits. Qed.

Lemma conversion_emits sfuel m buffer capacity c l areas out fb : 0 <= capacity -> printed sfuel m c l areas -> Forall (apart (buffer, capacity)) areas ->
  Z.of_nat (length (out ++ l)) < 2 ^ 64 -> emitted m buffer capacity out fb -> exists fb', do_conversion sfuel c fb = Ret fb' /\ emitted m buffer capacity (out ++ l) fb'.
Proof.
  intros Hc Hp Ha Hlen Hfb. destruct Hp as [c|p prec l Hs Hf|fm value]; cbn [do_conversion].
  - eexists. split; [reflexivity|]. now apply write_one_emits.
  - apply Forall_cons in Ha as [Ha _]. unfold apart in Ha. cbn in Ha. apply (write_string_emits m buffer capacity p prec l sfuel []); auto. intros k Hk. cbn [app] in Hk. lia.
  - eexists. split; [reflexivity|]. now apply write_integer_emits.
Qed.

Lemma vsnprintf_loop_spec sfuel m buffer capacity fmt args ok l areas : 0 <= capacity -> formats sfuel m fmt args ok l areas -> forall fuel out fb,
  (length fmt < fuel)%nat -> Forall (apart (buffer, capacity)) areas -> Z.of_nat (length (out ++ l)) < 2 ^ 64 -> emitted m buffer capacity out fb ->
  exists fb', vsnprintf_loop fuel sfuel fmt args fb = Ret (ok, fb') /\ emitted m buffer capacity (out ++ l) fb'.
Proof.
  intros Hc HF. induction HF as [fmt args lit E|fmt args lit rest fmt' ok l areas E1 E2 HF IH|fmt args lit c rest E1 E2 E3|fmt args lit c rest cv fmt' args' l1 ar1 ok l areas E1 E2 E3 Hp HF IH];
    intros [|f] out fb Hf Ha Hlen Hfb; try lia; cbn [vsnprintf_loop].
  - destruct fmt as [|c0 fmt]; [cbn in E; injection E as <-; exists fb; now rewrite app_nil_r|]. rewrite E. eexists. split; [reflexivity|]. now apply literal_emits.
  - pose proof (find_next_split _ _ _ E1) as Ef. pose proof (consume_shorter _ _ _ E2) as Er. assert (length fmt' < f)%nat as Hf' by (subst; rewrite !length_app in Hf; cbn in Hf; lia).
    destruct fmt as [|c0 fmt]; [destruct lit; [subst rest; discriminate Ef|discriminate Ef]|]. rewrite E1. destruct rest as [|r0 rest]; [discriminate Er|]. rewrite E2.
    change (lit ++ 37 :: l) with (lit ++ [37] ++ l) in *. rewrite !app_assoc in *. apply IH; auto. apply write_one_emits; auto; [rewrite length_app in Hlen; lia|].
    apply literal_emits; auto. rewrite !length_app in *. lia.
  - destruct fmt as [|c0 fmt]; [discriminate E1|]. rewrite E1, E2, E3. cbn [mbind outcome_bind]. eexists. split; [reflexivity|]. now apply literal_emits.
  - pose proof (find_next_split _ _ _ E1) as Ef. pose proof (parse_spec_shorter _ _ _ _ _ E3) as Hs. assert (length fmt' < f)%nat as Hf' by (subst; rewrite !length_app in Hf; cbn in Hf; lia).
    destruct fmt as [|c0 fmt]; [discriminate E1|]. rewrite E1, E2, E3. cbn [mbind outcome_bind]. apply Forall_app in Ha as [Ha1 Ha2]. rewrite !app_assoc in *.
    assert (Z.of_nat (length (out ++ lit)) < 2 ^ 64) as L1 by (rewrite !length_app in *; lia).
    destruct (conversion_emits sfuel m buffer capacity cv l1 ar1 (out ++ lit) _ Hc Hp Ha1 ltac:(rewrite !length_app in *; lia) (literal_emits _ _ _ lit out fb Hc L1 Hfb)) as (fb1 & -> & H1).
    cbn [mbind outcome_bind]. now apply IH.
Qed.

Lemma vsnprintf_spec sfuel buffer capacity fmt args ok out areas m :
  0 <= capacity -> formats sfuel m fmt args ok out areas -> Forall (apart (buffer, capacity)) areas -> Z.of_nat (length out) < 2 ^ 31 ->
  exists m', uacpi_vsnprintf sfuel buffer capacity fmt args m = Ret (if ok then Z.of_nat (length out) else -1, m') /\
    forall x, m' x = write_bytes (if ok && (0 <? capacity) then take (Z.to_nat (capacity - 1)) out ++ [0] else take (Z.to_nat capacity) out) buffer m x.
Proof.
  intros Hc HF Ha Hlen. unfold uacpi_vsnprintf.
  destruct (vsnprintf_loop_spec sfuel m buffer capacity fmt args ok out areas Hc HF (S (length fmt)) [] (mk_fb buffer capacity 0 m) ltac:(lia) Ha ltac:(cbn [app]; lia) ltac:(unfold emitted; now rewrite take_nil)) as (fb & -> & ->).
  cbn [app mbind outcome_bind negb]. destruct ok; cbn [negb andb fb_mem fb_written fb_capacity fb_buffer]; [|now eexists].
  eexists. split; [rewrite swrap_small by lia; reflexivity|]. intros x. destruct (Z.ltb_spec 0 capacity) as [Hp|Hp].
  - rewrite (proj2 (Z.eqb_neq capacity 0)) by lia. cbn [negb]. rewrite write_bytes_app, length_take. cbn [write_bytes].
    replace (Z.of_nat (Init.Nat.min (Z.to_nat (capacity - 1)) (length out))) with (Z.min (Z.of_nat (length out)) (capacity - 1)) by lia.
    unfold upd. destruct (Z.eqb_spec x (buffer + Z.min (Z.of_nat (length out)) (capacity - 1))) as [|Hx]; [reflexivity|]. destruct (Z.lt_ge_cases (Z.of_nat (length out)) capacity).
    + rewrite !take_ge by lia. reflexivity.
    + replace (Z.to_nat capacity) with (S (Z.to_nat (capacity - 1))) by lia. destruct (lookup_lt_is_Some_2 out (Z.to_nat (capacity - 1)) ltac:(lia)) as [c Ec].
      rewrite (take_S_r _ _ _ Ec), write_bytes_app, length_take. cbn [write_bytes]. rewrite upd_ne; [reflexivity|lia].
  - replace capacity with 0 by lia. reflexivity.
Qed.

(** C39: [uacpi_vsnprintf] prints what the format says, within the buffer.  For every format and
    arguments whose characters are [out], with strings outside of the buffer: it returns the
    number of characters there would be with an unlimited buffer; the buffer holds as many of
    them as fit and a terminating NUL, and no other byte of memory changes.  For a format it
    does not understand it returns -1, with what came before in the buffer. *)
Theorem vsnprintf_correct sfuel buffer capacity fmt args ok out areas m :
  0 <= capacity -> formats sfuel m fmt args ok out areas -> Forall (apart (buffer, capacity)) areas -> Z.of_nat (length out) < 2 ^ 31 ->
  exists m', uacpi_vsnprintf sfuel buffer capacity fmt args m = Ret (if ok then Z.of_nat (length out) else -1, m') /\
    forall x, m' x = write_bytes (if ok && (0 <? capacity) then take (Z.to_nat (capacity - 1)) out ++ [0] else take (Z.to_nat capacity) out) buffer m x.
Proof. apply vsnprintf_spec. Qed.

(** ** Numbers are read back *)

Definition number_base (b : Z) : Prop := b = 8 \/ b = 10 \/ b = 16.

Lemma below_sixteen d : 0 <= d < 16 -> In d (map Z.of_nat (seq 0 16)).
Proof. intros Hd. apply in_map_iff. exists (Z.to_nat d). split; [lia|]. apply in_seq. lia. Qed.

(** What the reader makes of a digit that was printed. *)
Record digit_char (b c d : Z) : Prop := {
  dc_next : next_digit b c = Some d;
  dc_space : is_char c CHAR_TYPE_SPACE = false;
  dc_minus : (to_lower c =? 45) = false;
  dc_plus : (to_lower c =? 43) = false;
  dc_zero : (to_lower c =? 48) = (d =? 0);
  dc_x : (to_lower c =? 120) = false
}.

Definition digit_checks (b c d : Z) : bool :=
  bool_decide (next_digit b c = Some d) && negb (is_char c CHAR_TYPE_SPACE) && negb (to_lower c =? 45) && negb (to_lower c =? 43) &&
  Bool.eqb (to_lower c =? 48) (d =? 0) && negb (to_lower c =? 120).

Lemma digit_checks_ok b c d : digit_checks b c d = true -> digit_char b c d.
Proof.
  unfold digit_checks. rewrite !andb_true_iff, !negb_true_iff, bool_decide_eq_true, Bool.eqb_true_iff. intros [[[[[? ?] ?] ?] ?] ?]. now split.
Qed.

Lemma repr_char_digit fm d : number_base (fm_base fm) -> 0 <= d < fm_base fm -> digit_char (fm_base fm) (repr_char fm d) d.
Proof.
  intros Hb Hd. apply digit_checks_ok.
  assert (forallb (fun b => forallb (fun up => forallb (fun d => negb (d <? b) || digit_checks b (if b =? 16 then hex_char up d else d + 48) d) (map Z.of_nat (seq 0 16))) [true; false]) [8; 10; 16] = true) as Hall
    by (vm_compute; reflexivity).
  rewrite forallb_forall in Hall. specialize (Hall (fm_base fm)). rewrite forallb_forall in Hall. specialize (Hall ltac:(cbn; unfold number_base in Hb; intuition) (uppercase fm) ltac:(destruct (uppercase fm); cbn; tauto)).
  rewrite forallb_forall in Hall. specialize (Hall d (below_sixteen d ltac:(unfold number_base in Hb; lia))). rewrite (proj2 (Z.ltb_lt d _)) in Hall by lia. cbn [negb orb] in Hall.
  unfold repr_char. destruct Hb as [Hb|[Hb|Hb]]; rewrite Hb in *; exact Hall.
Qed.

Lemma digits_loop_repr fm : number_base (fm_base fm) -> forall fuel v acc c, 0 <= v < fm_base fm ^ Z.of_nat fuel -> v < 2 ^ 64 ->
  exists c', digits_loop (fm_base fm) (repr_digits fuel fm v acc) 0 c = digits_loop (fm_base fm) acc v c'.
Proof.
  intros Hb. assert (1 < fm_base fm) as Hb1 by (unfold number_base in Hb; lia). induction fuel as [|f IH]; intros v acc c Hv H64; cbn [repr_digits].
  - exists c. replace v with 0 by (cbn in Hv; lia). reflexivity.
  - destruct (Z.eqb_spec v 0) as [-> | Hne]; [now exists c|]. rewrite Nat2Z.inj_succ, Z.pow_succ_r in Hv by lia.
    pose proof (Z.div_mod v (fm_base fm) ltac:(lia)) as Ed. pose proof (Z.mod_pos_bound v (fm_base fm) ltac:(lia)) as Em.
    assert (0 <= v / fm_base fm < fm_base fm ^ Z.of_nat f) as Hq by (split; [apply Z.div_pos; lia|apply Z.div_lt_upper_bound; lia]).
    destruct (IH (v / fm_base fm) (repr_char fm (v mod fm_base fm) :: acc) c Hq ltac:(apply Z.div_lt_upper_bound; nia)) as (c' & ->).
    cbn [digits_loop]. rewrite (dc_next _ _ _ (repr_char_digit fm _ Hb Em)). replace (v / fm_base fm * fm_base fm + v mod fm_base fm) with v by lia.
    rewrite wrap_small, Z.eqb_refl by lia. cbn [negb]. eauto.
Qed.

Lemma repr_digits_head fm : number_base (fm_base fm) -> forall fuel v acc, 0 < v < fm_base fm ^ Z.of_nat fuel ->
  exists d l, repr_digits fuel fm v acc = repr_char fm d :: l /\ 0 < d < fm_base fm.
Proof.
  intros Hb. assert (1 < fm_base fm) as Hb1 by (unfold number_base in Hb; lia). induction fuel as [|f IH]; intros v acc Hv; [cbn in Hv; lia|]. cbn [repr_digits].
  rewrite (proj2 (Z.eqb_neq v 0)) by lia. rewrite Nat2Z.inj_succ, Z.pow_succ_r in Hv by lia.
  pose proof (Z.div_mod v (fm_base fm) ltac:(lia)) as Ed. pose proof (Z.mod_pos_bound v (fm_base fm) ltac:(lia)) as Em.
  destruct (Z.eq_dec (v / fm_base fm) 0) as [E|E].
  - rewrite E. exists (v mod fm_base fm), acc. split; [destruct f; reflexivity|lia].
  - apply IH. pose proof (Z.div_pos v (fm_base fm) ltac:(lia) ltac:(lia)). split; [lia|apply Z.div_lt_upper_bound; lia].
Qed.

(** The characters without a prefix. *)
Definition plain_repr (fm : fmt_spec) (v : Z) : list Z := match repr_digits 22 fm v [] with [] => [48] | l => l end.

Lemma plain_repr_read fm v c : number_base (fm_base fm) -> 0 <= v < 2 ^ 64 ->
  (exists c', digits_loop (fm_base fm) (plain_repr fm v) 0 c = (v, c', [])) /\ exists ch d l, plain_repr fm v = ch :: l /\ digit_char (fm_base fm) ch d /\ (d = 0 -> v = 0).
Proof.
  intros Hb Hv. assert (v < fm_base fm ^ Z.of_nat 22) as Hf by (destruct Hb as [-> |[-> | ->]]; lia). unfold plain_repr. destruct (Z.eq_dec v 0) as [-> |Hne].
  - change (repr_digits 22 fm 0 []) with (@nil Z). assert (digit_char (fm_base fm) 48 0) as D.
    { replace 48 with (repr_char fm 0); [apply repr_char_digit; [exact Hb|unfold number_base in Hb; lia]|]. unfold repr_char, hex_char. destruct Hb as [-> |[-> | ->]]; [reflexivity..|]. now destruct (uppercase fm). }
    split; [|now exists 48, 0, []]. exists 48. cbn [digits_loop]. rewrite (dc_next _ _ _ D). cbn [Z.mul Z.add]. rewrite wrap_small by lia. now destruct Hb as [-> |[-> | ->]].
  - destruct (repr_digits_head fm Hb 22 v [] ltac:(lia)) as (d & l & E & Hd). destruct (digits_loop_repr fm Hb 22 v [] c ltac:(lia) ltac:(lia)) as (c' & E2). rewrite E in *. split; [exists c'; exact E2|].
    exists (repr_char fm d), d, l. splits; [reflexivity|apply repr_char_digit; [exact Hb|lia]|lia].
Qed.

(** What is in front of the digits. *)
Lemma string_to_integer_plain str base ch d l b : str = ch :: l -> digit_char b ch d ->
  uacpi_string_to_integer str base = let '(str, base) := detect_base str base in let '(value, c, str) := digits_loop base str 0 0 in
    (if (Z.of_nat (length str) =? 0) || (c =? 0) then UACPI_STATUS_OK else UACPI_STATUS_INVALID_ARGUMENT, value).
Proof.
  intros -> [_ D1 D2 D3 _ _]. unfold uacpi_string_to_integer. cbn [skip_spaces]. rewrite D1. unfold consume_if_equals at 1 2. cbn [peek_one]. rewrite D2, D3.
  destruct (detect_base _ _) as [s b']. now destruct (digits_loop _ _ _ _) as [[v c] r].
Qed.

(** Numbers that are printed are read back: for every 64-bit value, in base 8, 10 or 16 and
    in either case, [uacpi_string_to_integer] gets the value from the characters
    [write_integer] prints, and with the prefix of the alternate form it finds the base by
    itself. *)
Theorem number_roundtrip fm v : number_base (fm_base fm) -> 0 <= v < 2 ^ 64 ->
  uacpi_string_to_integer (repr_of fm v) (if alternate_form fm then UACPI_BASE_AUTO else fm_base fm) = (UACPI_STATUS_OK, v).
Proof.
  intros Hb Hv. assert (repr_of fm v = if alternate_form fm then (if fm_base fm =? 16 then [48; if uppercase fm then 88 else 120] else if fm_base fm =? 8 then [48] else []) ++ plain_repr fm v else plain_repr fm v) as ->.
  { unfold repr_of, plain_repr. destruct (alternate_form fm); [|now destruct (repr_digits 22 fm v [])]. destruct (fm_base fm =? 16), (fm_base fm =? 8); now destruct (repr_digits 22 fm v []). }
  assert (digit_char 10 48 0) as D0 by (now apply digit_checks_ok). destruct (plain_repr_read fm v 0 Hb Hv) as ((c' & E) & ch & d & l & Ep & Hd & Hz). destruct (alternate_form fm) eqn:Ea.
  - destruct Hb as [Hb|[Hb|Hb]]; rewrite Hb in *; cbn [Z.eqb Pos.eqb app].
    + rewrite (string_to_integer_plain _ _ 48 0 (plain_repr fm v) 10 eq_refl D0). unfold detect_base. cbn [Z.eqb UACPI_BASE_AUTO]. change (consume_if_equals (48 :: plain_repr fm v) 48) with (Some (plain_repr fm v)).
      cbn iota. rewrite Ep at 1. unfold consume_if_equals. cbn [peek_one]. rewrite (dc_x _ _ _ Hd). unfold UACPI_BASE_OCT. now rewrite E.
    + rewrite (string_to_integer_plain _ _ ch d l 10 Ep Hd). unfold detect_base. cbn [Z.eqb UACPI_BASE_AUTO]. rewrite Ep at 1. unfold consume_if_equals at 1. cbn [peek_one]. rewrite (dc_zero _ _ _ Hd). destruct (Z.eqb_spec d 0) as [Hd0|Hd0].
      * specialize (Hz Hd0). subst v. unfold plain_repr in Ep. change (repr_digits 22 fm 0 []) with (@nil Z) in Ep. injection Ep as <- <-. reflexivity.
      * unfold UACPI_BASE_DEC. now rewrite E.
    + rewrite (string_to_integer_plain _ _ 48 0 ((if uppercase fm then 88 else 120) :: plain_repr fm v) 10 eq_refl D0). unfold detect_base. cbn [Z.eqb UACPI_BASE_AUTO].
      replace (consume_if_equals (48 :: (if uppercase fm then 88 else 120) :: plain_repr fm v) 48) with (Some ((if uppercase fm then 88 else 120) :: plain_repr fm v)) by reflexivity.
      cbn iota. replace (consume_if_equals ((if uppercase fm then 88 else 120) :: plain_repr fm v) 120) with (Some (plain_repr fm v)) by (now destruct (uppercase fm)).
      cbn iota. unfold UACPI_BASE_HEX. now rewrite E.
  - rewrite (string_to_integer_plain _ _ ch d l _ Ep Hd). unfold detect_base. replace (fm_base fm =? UACPI_BASE_AUTO) with false by (destruct Hb as [-> |[-> | ->]]; reflexivity). now rewrite E.
Qed.

(** ** Log messages *)

Definition LOG_CUT : list Z := [46; 46; 46; 10].

Lemma write_bytes_same l : forall a m1 m2 x, m1 x = m2 x -> write_bytes l a m1 x = write_bytes l a m2 x.
Proof. induction l as [|c l IH]; intros a m1 m2 x E; cbn [write_bytes]; [exact E|]. apply IH. unfold upd. destruct (x =? a); auto. Qed.

(** A message is logged as it is printed; one that does not fit its buffer ends in three dots
    and a new line. *)
Theorem log_correct sfuel buf lvl str args out areas m : formats sfuel m str args true out areas -> Forall (apart (buf, UACPI_PLAIN_LOG_BUFFER_SIZE)) areas -> Z.of_nat (length out) < 2 ^ 31 ->
  exists m', uacpi_log sfuel buf lvl str args m = Ret (Some (uacpi_kernel_log lvl), m') /\
    forall x, m' x = write_bytes (if Z.of_nat (length out) <? UACPI_PLAIN_LOG_BUFFER_SIZE then out ++ [0] else take 123 out ++ LOG_CUT ++ [0]) buf m x.
Proof.
  intros HF Ha Hlen. unfold uacpi_log.
  destruct (vsnprintf_spec sfuel buf UACPI_PLAIN_LOG_BUFFER_SIZE str args true out areas m ltac:(unfold UACPI_PLAIN_LOG_BUFFER_SIZE; lia) HF Ha Hlen) as (m1 & -> & E1). cbn [mbind outcome_bind].
  rewrite (proj2 (Z.ltb_ge (Z.of_nat (length out)) 0)) by lia. change (Z.to_nat (UACPI_PLAIN_LOG_BUFFER_SIZE - 1)) with 127%nat in E1. cbn [andb Z.ltb Z.compare UACPI_PLAIN_LOG_BUFFER_SIZE] in E1.
  eexists. split; [reflexivity|]. intros x. unfold UACPI_PLAIN_LOG_BUFFER_SIZE in *. rewrite Z.geb_leb, Z.leb_antisym. destruct (Z.ltb_spec (Z.of_nat (length out)) 128) as [Hl|Hl]; cbn [negb].
  - rewrite E1, take_ge by lia. reflexivity.
  - rewrite <- (take_drop 123 (take 127 out)), take_take, <- app_assoc, (write_bytes_app (take 123 out)) in E1. rewrite write_bytes_app. change (Init.Nat.min 123 127) with 123%nat in E1.
    rewrite length_take in *. replace (Init.Nat.min 123 (length out)) with 123%nat in * by lia.
    assert (exists a b c d, drop 123 (take 127 out) = [a; b; c; d]) as (a & b & c & d & Ed).
    { assert (length (drop 123 (take 127 out)) = 4)%nat as L by (rewrite length_drop, length_take; lia). destruct (drop 123 (take 127 out)) as [|a [|b [|c [|d [|e r]]]]]; cbn in L; try lia. now exists a, b, c, d. }
    rewrite Ed in E1. cbn [app write_bytes LOG_CUT] in *. unfold upd in *. rewrite E1. repeat (destruct (Z.eqb_spec x _); [try reflexivity; lia|]). 
    repeat match goal with |- context [x =? ?k] => destruct (Z.eqb_spec x k); try lia end; reflexivity.
Qed.

(** ** Identifiers *)

(** The word an identifier is coded as: three letters of five bits and a number of 16, high
    bytes first. *)
Definition eisa_id (l1 l2 l3 product : Z) : Z :=
  let v := ((l1 - 64) * 2 ^ 10 + (l2 - 64) * 2 ^ 5 + (l3 - 64)) * 2 ^ 16 + product in
  v / 2 ^ 24 + v / 2 ^ 16 mod 256 * 2 ^ 8 + v / 2 ^ 8 mod 256 * 2 ^ 16 + v mod 256 * 2 ^ 24.

Lemma swapped_bytes b0 b1 b2 b3 : 0 <= b0 < 256 -> 0 <= b1 < 256 -> 0 <= b2 < 256 -> 0 <= b3 < 256 ->
  swapped (b0 + b1 * 2 ^ 8 + b2 * 2 ^ 16 + b3 * 2 ^ 24) = b3 + b2 * 2 ^ 8 + b1 * 2 ^ 16 + b0 * 2 ^ 24.
Proof.
  intros H0 H1 H2 H3. unfold swapped. change 255 with (Z.ones 8). rewrite !Z.land_ones, !Z.shiftr_div_pow2 by lia. change (2 ^ (8 * 3)) with (2 ^ 24). change (2 ^ (8 * 2)) with (2 ^ 16).
  change (2 ^ (8 * 1)) with (2 ^ 8). change (2 ^ (8 * 0)) with 1. rewrite Z.div_1_r.
  replace (_ / 2 ^ 24 mod 2 ^ 8) with b3 by dm. replace (_ / 2 ^ 16 mod 2 ^ 8) with b2 by dm. replace (_ / 2 ^ 8 mod 2 ^ 8) with b1 by dm. replace (_ mod 2 ^ 8) with b0 by dm.
  rewrite (Z.lor_comm (Z.shiftl b1 16)), (lor_disjoint b0 (Z.shiftl b1 16) 24) by (rewrite ?Z.shiftl_mul_pow2 by lia; lia).
  replace (b0 * 2 ^ 24 + Z.shiftl b1 16) with (Z.shiftl (b0 * 2 ^ 8 + b1) 16) by (rewrite !Z.shiftl_mul_pow2 by lia; lia).
  rewrite (Z.lor_comm (Z.shiftl b2 8)), (lor_disjoint _ (Z.shiftl b2 8) 16) by (rewrite ?Z.shiftl_mul_pow2 by lia; lia).
  replace ((b0 * 2 ^ 8 + b1) * 2 ^ 16 + Z.shiftl b2 8) with (Z.shiftl ((b0 * 2 ^ 8 + b1) * 2 ^ 8 + b2) 8) by (rewrite !Z.shiftl_mul_pow2 by lia; lia).
  rewrite (Z.lor_comm b3), (lor_disjoint _ b3 8) by lia. lia.
Qed.

Lemma hex_to_ascii_nth d : 0 <= d < 16 -> nth (Z.to_nat d) hex_to_ascii 0 = hex_char true d.
Proof. reflexivity. Qed.

(** The three letters and the four digits of an identifier are read from its word. *)
Theorem eisa_id_to_string_correct l1 l2 l3 product : 64 <= l1 < 96 -> 64 <= l2 < 96 -> 64 <= l3 < 96 -> 0 <= product < 2 ^ 16 ->
  uacpi_eisa_id_to_string (eisa_id l1 l2 l3 product) =
    [l1; l2; l3] ++ map (fun i => hex_char true (product / 16 ^ i mod 16)) [3; 2; 1; 0] ++ [0].
Proof.
  intros H1 H2 H3 Hp. unfold uacpi_eisa_id_to_string, eisa_id. set (v := (_ + product)). assert (v = ((l1 - 64) * 2 ^ 10 + (l2 - 64) * 2 ^ 5 + (l3 - 64)) * 2 ^ 16 + product) as Ev by reflexivity.
  assert (0 <= v < 2 ^ 31) as Hv by lia. rewrite (swapped_bytes (v / 2 ^ 24) (v / 2 ^ 16 mod 256) (v / 2 ^ 8 mod 256) (v mod 256)) by dm.
  replace (v mod 256 + v / 2 ^ 8 mod 256 * 2 ^ 8 + v / 2 ^ 16 mod 256 * 2 ^ 16 + v / 2 ^ 24 * 2 ^ 24) with v by dm.
  change 0x1F with (Z.ones 5). change 0x0F with (Z.ones 4). rewrite !Z.land_ones, !Z.shiftr_div_pow2 by lia. cbn [app map]. clearbody v.
  f_equal; [dm|]. f_equal; [dm|]. f_equal; [dm|]. rewrite !hex_to_ascii_nth by dm. change (16 ^ 3) with (2 ^ 12). change (16 ^ 2) with (2 ^ 8). change (16 ^ 1) with (2 ^ 4).
  replace (v / 2 ^ 12 mod 2 ^ 4) with (product / 2 ^ 12 mod 16) by dm. replace (v / 2 ^ 8 mod 2 ^ 4) with (product / 2 ^ 8 mod 16) by dm.
  replace (v / 2 ^ 4 mod 2 ^ 4) with (product / 2 ^ 4 mod 16) by dm. replace (v / 2 ^ 0 mod 2 ^ 4) with (product / 16 ^ 0 mod 16) by (change (2 ^ 0) with 1; change (16 ^ 0) with 1; dm). reflexivity.
Qed.

(** ** What differs from the C library *)

(** A character that is not a digit is accepted when it is the last one. *)
Theorem last_junk_accepted : uacpi_string_to_integer (chars "12x") UACPI_BASE_DEC = (UACPI_STATUS_OK, 12) /\
  uacpi_string_to_integer (chars "12xy") UACPI_BASE_DEC = (UACPI_STATUS_INVALID_ARGUMENT, 12).
Proof. split; vm_compute; reflexivity. Qed.

(** A sign is printed in front of the padding and is not part of the width. *)
Theorem sign_outside_width v : 0 < v < 10 -> forall fm, parse_spec (chars "04d") [u64 (- v)] = Ret (Some (Conv_int fm (u64 (- v)), [], [])) ->
  int_chars fm (u64 (- v)) = [45; 48; 48; 48; v + 48].
Proof.
  intros Hv fm E. assert (In v (map Z.of_nat (seq 0 16))) as Hin by (apply below_sixteen; lia). cbn [map seq] in Hin.
  repeat destruct Hin as [<- | Hin]; try contradiction; try (cbn in Hv; lia); vm_compute in E; injection E as <-; vm_compute; reflexivity.
Qed.

(** ** Concrete runs *)

Definition print_demo : mem := bytes_at 4096 (chars "acpi" ++ [0]).

Lemma demo_formats : formats 10 print_demo (chars "%s: 0x%04X%%") [4096; 0x2F] true (chars "acpi: 0x002F%") [(4096, 5)].
Proof.
  change (chars "acpi: 0x002F%") with ([] ++ chars "acpi" ++ chars ": 0x" ++ chars "002F" ++ [] ++ 37 :: []). change [(4096, 5)] with ([(4096, 5)] ++ [] ++ @nil (Z * Z)).
  eapply formats_conversion; [reflexivity|reflexivity|vm_compute; reflexivity|apply (printed_string _ _ 4096 _ (chars "acpi"))|].
  - unfold string_is. splits; [vm_compute; discriminate| |right; reflexivity]. intros k Hk. cbn [length chars map String.list_ascii_of_string] in Hk.
    do 4 (destruct k as [|k]; [split; [reflexivity|vm_compute; discriminate]|]). lia.
  - cbn. lia.
  - change (chars ": 0x" ++ chars "002F" ++ [] ++ [37]) with (chars ": 0x" ++ chars "002F" ++ ([] ++ 37 :: [])).
    eapply formats_conversion; [reflexivity|reflexivity|vm_compute; reflexivity|apply printed_int|]. eapply formats_percent; [reflexivity|reflexivity|]. apply formats_end. reflexivity.
Qed.

Lemma vsnprintf_correct_witness : exists m', uacpi_vsnprintf 10 8192 8 (chars "%s: 0x%04X%%") [4096; 0x2F] print_demo = Ret (13, m') /\
  forall x, m' x = write_bytes (chars "acpi: 0" ++ [0]) 8192 print_demo x.
Proof.
  apply (vsnprintf_correct 10 8192 8 (chars "%s: 0x%04X%%") [4096; 0x2F] true (chars "acpi: 0x002F%") [(4096, 5)] print_demo); [lia|exact demo_formats| |reflexivity].
  constructor; [right; cbn; lia|constructor].
Defined.

Lemma number_roundtrip_witness : repr_of (mk_fmt false false true false true 32 0 0 0 16) 0xBEEF = chars "0XBEEF" /\
  uacpi_string_to_integer (repr_of (mk_fmt false false true false true 32 0 0 0 16) 0xBEEF) UACPI_BASE_AUTO = (UACPI_STATUS_OK, 0xBEEF).
Proof.
  split; [vm_compute; reflexivity|]. apply (number_roundtrip (mk_fmt false false true false true 32 0 0 0 16) 0xBEEF); [right; right; reflexivity|lia].
Defined.
