(* ===== verification/UacpiNs.v ===== *)
(** * The name space of uACPI ([kernel/acpi/uacpi/namespace.c])

    The tree of named objects: every node has a name of four characters, its parent, its
    first child and the next peer.  Nodes are addresses; strings are in byte memory, as the
    code walks them with a cursor and the number of bytes left.  What an object is made of is
    not looked at here, beyond the values given to the predefined ones. *)

From S2P Require Import Prelude Links Interfaces MemMap Pmm MemUtil Kheap ListDs Path Vnode Initrd Bytes Ports Module Elf Device Pci AcpiOs UacpiLib UacpiShare.
#[local] Open Scope Z_scope.

Definition UACPI_NAMESPACE_NODE_FLAG_ALIAS : Z := Z.shiftl 1 0.
Definition UACPI_NAMESPACE_NODE_FLAG_DANGLING : Z := Z.shiftl 1 1.
Definition UACPI_STATUS_NAMESPACE_NODE_DANGLING : Z := 13.

Definition UACPI_PREDEFINED_NAMESPACE_ROOT : Z := 0.
Definition UACPI_PREDEFINED_NAMESPACE_GPE : Z := 1.
Definition UACPI_PREDEFINED_NAMESPACE_PR : Z := 2.
Definition UACPI_PREDEFINED_NAMESPACE_SB : Z := 3.
Definition UACPI_PREDEFINED_NAMESPACE_SI : Z := 4.
Definition UACPI_PREDEFINED_NAMESPACE_TZ : Z := 5.
Definition UACPI_PREDEFINED_NAMESPACE_GL : Z := 6.
Definition UACPI_PREDEFINED_NAMESPACE_OS : Z := 7.
Definition UACPI_PREDEFINED_NAMESPACE_OSI : Z := 8.
Definition UACPI_PREDEFINED_NAMESPACE_REV : Z := 9.
Definition UACPI_PREDEFINED_NAMESPACE_MAX : Z := UACPI_PREDEFINED_NAMESPACE_REV.

Definition UACPI_REV_VALUE : Z := 2.
Definition UACPI_OS_VALUE : string := "Microsoft Windows NT".

(** The objects given to the predefined nodes, an operation region, and any other. *)
Inductive uacpi_object : Type :=
| Obj_uninitialized
| Obj_string (text : list Z)
| Obj_integer (v : Z)
| Obj_mutex (handle : Z)
| Obj_osi_method (args : Z)
| Obj_operation_region
| Obj_other.

(** [sizeof(uacpi_namespace_node)] and of a name. *)
Definition NODE_SIZE : Z := 48.
Definition NAME_SIZE : Z := 4.

Record uacpi_namespace_node : Type := mk_node {
  nd_shareable : Z;
  nd_name : list Z;
  nd_flags : Z;
  nd_object : option uacpi_object;
  nd_parent : Z;
  nd_child : Z;
  nd_next : Z
}.

Definition set_parent (v : Z) (n : uacpi_namespace_node) := mk_node (nd_shareable n) (nd_name n) (nd_flags n) (nd_object n) v (nd_child n) (nd_next n).
Definition set_child (v : Z) (n : uacpi_namespace_node) := mk_node (nd_shareable n) (nd_name n) (nd_flags n) (nd_object n) (nd_parent n) v (nd_next n).
Definition set_next (v : Z) (n : uacpi_namespace_node) := mk_node (nd_shareable n) (nd_name n) (nd_flags n) (nd_object n) (nd_parent n) (nd_child n) v.
Definition set_object (v : option uacpi_object) (n : uacpi_namespace_node) := mk_node (nd_shareable n) (nd_name n) (nd_flags n) v (nd_parent n) (nd_child n) (nd_next n).
Definition set_flags (v : Z) (n : uacpi_namespace_node) := mk_node (nd_shareable n) (nd_name n) v (nd_object n) (nd_parent n) (nd_child n) (nd_next n).
Definition set_shareable (v : Z) (n : uacpi_namespace_node) := mk_node v (nd_name n) (nd_flags n) (nd_object n) (nd_parent n) (nd_child n) (nd_next n).

(** A tree of nodes: an address and the trees below it. *)
Inductive ntree : Type := NT (a : Z) (l : list ntree).

Definition rt (t : ntree) : Z := let 'NT a _ := t in a.

Lemma ntree_ind' (P : ntree -> Prop) : (forall a l, Forall P l -> P (NT a l)) -> forall t, P t.
Proof.
  intros HP. fix IH 1. intros [a l]. apply HP. induction l as [|t l IHl]; constructor; [apply IH|exact IHl].
Qed.

Fixpoint tree_size (t : ntree) : nat :=
  let 'NT a l := t in S ((fix sizes l := match l with [] => O | t :: l' => (tree_size t + sizes l')%nat end) l).
Fixpoint forest_size (l : list ntree) : nat := match l with [] => O | t :: l' => (tree_size t + forest_size l')%nat end.

Lemma tree_size_eq a l : tree_size (NT a l) = S (forest_size l).
Proof. cbn [tree_size]. f_equal. Qed.
Lemma tree_size_pos t : (1 <= tree_size t)%nat.
Proof. destruct t. cbn [tree_size]. lia. Qed.

(** The nodes of a tree are linked as it says. *)
Fixpoint tree_ok (nodes : Z -> uacpi_namespace_node) (t : ntree) : Prop :=
  let 'NT a l := t in
  nd_child (nodes a) = first_v 0 (map rt l) /\ slinked (fun a => nd_next (nodes a)) (map rt l) 0 /\
  Forall (fun t => nd_parent (nodes (rt t)) = a /\ rt t <> 0) l /\
  (fix oks l := match l with [] => True | t :: l' => tree_ok nodes t /\ oks l' end) l.

Lemma tree_ok_eq nodes a l : tree_ok nodes (NT a l) <->
  nd_child (nodes a) = first_v 0 (map rt l) /\ slinked (fun a => nd_next (nodes a)) (map rt l) 0 /\
  Forall (fun t => nd_parent (nodes (rt t)) = a /\ rt t <> 0) l /\ Forall (tree_ok nodes) l.
Proof.
  cbn [tree_ok]. assert ((fix oks l := match l with [] => True | t :: l' => tree_ok nodes t /\ oks l' end) l <-> Forall (tree_ok nodes) l) as ->; [|reflexivity].
  induction l as [|t l IH]; [split; constructor|]. rewrite Forall_cons, IH. reflexivity.
Qed.

(** The tree has the children that [kids] gives. *)
Inductive agrees (kids : Z -> list Z) : ntree -> Prop :=
| agrees_node a l : kids a = map rt l -> Forall (agrees kids) l -> agrees kids (NT a l).

Section Namespace.
Context {H : Type} `{KH : KernelHeap H}.

Record ns_state : Type := mk_ns {
  ns_nodes : Z -> uacpi_namespace_node;
  ns_mem : mem;
  ns_heap : H;
  global_lock_mutex : Z;
  no_osi : bool
}.

Definition set_nodes (n : Z -> uacpi_namespace_node) (s : ns_state) : ns_state := mk_ns n (ns_mem s) (ns_heap s) (global_lock_mutex s) (no_osi s).
Definition set_memory (m : mem) (h : H) (s : ns_state) : ns_state := mk_ns (ns_nodes s) m h (global_lock_mutex s) (no_osi s).
Definition set_gl (v : Z) (s : ns_state) : ns_state := mk_ns (ns_nodes s) (ns_mem s) (ns_heap s) v (no_osi s).

(** A store to a field of the node at [a]. *)
Definition node_upd (a : Z) (f : uacpi_namespace_node -> uacpi_namespace_node) (s : ns_state) : ns_state :=
  set_nodes (upd (ns_nodes s) a (f (ns_nodes s a))) s.

(** The address of the array of predefined nodes. *)
Variable predefined_namespaces : Z.

Definition predefined (ns : Z) : Z := predefined_namespaces + ns * NODE_SIZE.
Definition uacpi_namespace_root : Z := predefined UACPI_PREDEFINED_NAMESPACE_ROOT.

Definition uacpi_namespace_get_predefined (ns : Z) : Z := if ns >? UACPI_PREDEFINED_NAMESPACE_MAX then 0 else predefined ns.

Definition uacpi_namespace_node_is_dangling (node : Z) (s : ns_state) : bool :=
  negb (Z.land (nd_flags (ns_nodes s node)) UACPI_NAMESPACE_NODE_FLAG_DANGLING =? 0).

(** ** Installing and removing nodes *)

Definition uacpi_namespace_node_alloc (name : list Z) (s : ns_state) : outcome (Z * ns_state) :=
  '(ret, m, h) ← uacpi_kernel_calloc 1 NODE_SIZE (ns_mem s) (ns_heap s);
  let s := set_memory m h s in
  Ret (ret, set_nodes (upd (ns_nodes s) ret (mk_node uacpi_shareable_init name 0 None 0 0 0)) s).

(** The last node of a list of peers. *)
Fixpoint last_peer (fuel : nat) (prev : Z) (s : ns_state) : outcome Z :=
  match fuel with
  | O => OutOfFuel
  | S f => if nd_next (ns_nodes s prev) =? 0 then Ret prev else last_peer f (nd_next (ns_nodes s prev)) s
  end.

Definition uacpi_node_install (fuel : nat) (parent node : Z) (s : ns_state) : outcome (Z * ns_state) :=
  let parent := if parent =? 0 then uacpi_namespace_root else parent in
  if uacpi_namespace_node_is_dangling node s then Ret (UACPI_STATUS_NAMESPACE_NODE_DANGLING, s)
  else
    s ← (if nd_child (ns_nodes s parent) =? 0 then Ret (node_upd parent (set_child node) s)
         else prev ← last_peer fuel (nd_child (ns_nodes s parent)) s; Ret (node_upd prev (set_next node) s));
    Ret (UACPI_STATUS_OK, node_upd node (set_parent parent) s).

Definition free_namespace_node (node : Z) (s : ns_state) : outcome ns_state :=
  let s := node_upd node (set_object None) s in
  h ← uacpi_kernel_free node (ns_heap s);
  Ret (set_memory (ns_mem s) h s).

Definition uacpi_namespace_node_unref (node : Z) (s : ns_state) : outcome ns_state :=
  let '(last, count) := uacpi_shareable_unref_and_delete_if_last (nd_shareable (ns_nodes s node)) in
  let s := node_upd node (set_shareable count) s in
  if last : bool then free_namespace_node node s else Ret s.

(** The peer before [node]; 0 when there is none. *)
Fixpoint peer_before (fuel : nat) (node prev : Z) (s : ns_state) : outcome Z :=
  match fuel with
  | O => OutOfFuel
  | S f =>
      if prev =? 0 then Ret 0
      else if nd_next (ns_nodes s prev) =? node then Ret prev
      else peer_before f node (nd_next (ns_nodes s prev)) s
  end.

(** What [opregion.c] does for an operation region that goes away. *)
Variable uacpi_opregion_uninstall_handler : Z -> ns_state -> ns_state.

Definition drop_object (node : Z) (s : ns_state) : ns_state :=
  match nd_object (ns_nodes s node) with
  | None => s
  | Some o =>
      let s := match o with Obj_operation_region => uacpi_opregion_uninstall_handler node s | _ => s end in
      node_upd node (set_object None) s
  end.

Definition uacpi_node_uninstall (fuel : nat) (node : Z) (s : ns_state) : outcome ns_state :=
  if uacpi_namespace_node_is_dangling node s then Ret s
  else
    let s := drop_object node s in
    let parent := nd_parent (ns_nodes s node) in
    let prev := if parent =? 0 then 0 else nd_child (ns_nodes s parent) in
    let finish s :=
      let s := node_upd node (fun n => set_flags (Z.lor (nd_flags n) UACPI_NAMESPACE_NODE_FLAG_DANGLING) n) s in
      uacpi_namespace_node_unref node s in
    if prev =? node then finish (node_upd parent (set_child (nd_next (ns_nodes s node))) s)
    else
      prev ← peer_before fuel node prev s;
      if prev =? 0 then Ret s
      else finish (node_upd prev (set_next (nd_next (ns_nodes s node))) s).

(** ** Looking up names *)

(** [name.id] is the name as a word: the comparison is that of the four characters. *)
Fixpoint find_peer (fuel : nat) (node : Z) (name : list Z) (s : ns_state) : outcome Z :=
  match fuel with
  | O => OutOfFuel
  | S f =>
      if node =? 0 then Ret 0
      else if bool_decide (nd_name (ns_nodes s node) = name) then Ret node
      else find_peer f (nd_next (ns_nodes s node)) name s
  end.

Definition uacpi_namespace_node_find_sub_node (fuel : nat) (parent : Z) (name : list Z) (s : ns_state) : outcome Z :=
  let parent := if parent =? 0 then uacpi_namespace_root else parent in
  find_peer fuel (nd_child (ns_nodes s parent)) name s.

Definition DOT_CHAR : Z := 46.
Definition BACKSLASH : Z := 92.
Definition CARET : Z := 94.
Definition UNDERSCORE : Z := 95.

(** The characters of one name; the cursor and the bytes left after it. *)
Fixpoint segment_chars (n : nat) (cursor bytes_left : Z) (m : mem) : list Z * Z * Z :=
  match n with
  | O => ([], cursor, bytes_left)
  | S n' =>
      if (bytes_left <? 1) || (m cursor =? DOT_CHAR) then
        let '(text, cursor, bytes_left) := segment_chars n' cursor bytes_left m in (UNDERSCORE :: text, cursor, bytes_left)
      else
        let '(text, cursor', bytes_left') := segment_chars n' (cursor + 1) (u64 (bytes_left - 1)) m in (m cursor :: text, cursor', bytes_left')
  end.

Definition segment_to_name (cursor bytes_left : Z) (m : mem) : list Z * Z * Z := segment_chars 4 cursor bytes_left m.

(** The result of the characters in front of the names. *)
Inductive prefix_result : Type :=
| Whole_path (node : Z)
| Invalid_path
| Names_from (node cursor bytes_left : Z) (single_nameseg : bool).

Fixpoint path_prefix (fuel : nat) (cur_node cursor bytes_left prev_char : Z) (single_nameseg : bool) (s : ns_state) : outcome prefix_result :=
  match fuel with
  | O => OutOfFuel
  | S f =>
      if bytes_left =? 0 then Ret (Whole_path cur_node)
      else
        let c := ns_mem s cursor in
        if c =? BACKSLASH then
          if prev_char =? CARET then Ret Invalid_path
          else Ret (Names_from uacpi_namespace_root (cursor + 1) (u64 (bytes_left - 1)) false)
        else if c =? CARET then
          if cur_node =? uacpi_namespace_root then Ret Invalid_path
          else path_prefix f (nd_parent (ns_nodes s cur_node)) (cursor + 1) (u64 (bytes_left - 1)) c false s
        else Ret (Names_from cur_node cursor bytes_left single_nameseg)
  end.

(** The search in the scopes above. *)
Fixpoint search_above (fuel : nat) (parent : Z) (name : list Z) (s : ns_state) : outcome Z :=
  match fuel with
  | O => OutOfFuel
  | S f =>
      if parent =? 0 then Ret 0
      else
        cur_node ← uacpi_namespace_node_find_sub_node fuel parent name s;
        if negb (cur_node =? 0) then Ret cur_node else search_above f (nd_parent (ns_nodes s parent)) name s
  end.

Fixpoint path_names (fuel : nat) (above : bool) (parent cur_node cursor bytes_left : Z) (single_nameseg : bool) (s : ns_state) : outcome Z :=
  match fuel with
  | O => OutOfFuel
  | S f =>
      if bytes_left =? 0 then Ret cur_node
      else
        let '(cursor, bytes_left) := if ns_mem s cursor =? DOT_CHAR then (cursor + 1, u64 (bytes_left - 1)) else (cursor, bytes_left) in
        let '(nameseg, cursor, bytes_left) := segment_to_name cursor bytes_left (ns_mem s) in
        let single_nameseg := if negb (bytes_left =? 0) && single_nameseg then false else single_nameseg in
        cur_node ← uacpi_namespace_node_find_sub_node fuel cur_node nameseg s;
        if cur_node =? 0 then
          if negb above || negb single_nameseg then Ret 0
          else if parent =? 0 then Fault
          else search_above fuel (nd_parent (ns_nodes s parent)) nameseg s
        else path_names f above parent cur_node cursor bytes_left single_nameseg s
  end.

Definition uacpi_namespace_node_do_find (fuel : nat) (parent path : Z) (above : bool) (s : ns_state) : outcome Z :=
  let cur_node := if parent =? 0 then uacpi_namespace_root else parent in
  bytes_left ← uacpi_strlen fuel path (ns_mem s);
  r ← path_prefix fuel cur_node path bytes_left 0 true s;
  match r with
  | Whole_path node => Ret node
  | Invalid_path => Ret 0
  | Names_from cur_node cursor bytes_left single => path_names fuel above parent cur_node cursor bytes_left single s
  end.

Definition uacpi_namespace_node_find (fuel : nat) (parent path : Z) (s : ns_state) : outcome Z :=
  uacpi_namespace_node_do_find fuel parent path false s.
Definition uacpi_namespace_node_resolve_from_aml_namepath (fuel : nat) (scope path : Z) (s : ns_state) : outcome Z :=
  uacpi_namespace_node_do_find fuel scope path true s.

Definition uacpi_namespace_node_get_object (node : Z) (s : ns_state) : option uacpi_object :=
  if node =? 0 then None else nd_object (ns_nodes s node).
Definition uacpi_namespace_node_name (node : Z) (s : ns_state) : list Z := nd_name (ns_nodes s node).

(** ** Walking the tree *)

Inductive uacpi_ns_iteration_decision : Type := DECISION_CONTINUE | DECISION_NEXT_PEER | DECISION_BREAK.

(** The callback works on a state of its own. *)
Fixpoint for_each_loop {U} (fuel : nat) (callback : Z -> U -> uacpi_ns_iteration_decision * U) (walking_up : bool) (depth node : Z) (u : U) (s : ns_state) : outcome U :=
  match fuel with
  | O => OutOfFuel
  | S f =>
      if depth =? 0 then Ret u
      else if walking_up then
        if negb (nd_next (ns_nodes s node) =? 0) then for_each_loop f callback false depth (nd_next (ns_nodes s node)) u s
        else for_each_loop f callback true (u32 (depth - 1)) (nd_parent (ns_nodes s node)) u s
      else
        let '(d, u) := callback node u in
        match d with
        | DECISION_CONTINUE =>
            if negb (nd_child (ns_nodes s node) =? 0) then for_each_loop f callback false (u32 (depth + 1)) (nd_child (ns_nodes s node)) u s
            else for_each_loop f callback true depth node u s
        | DECISION_NEXT_PEER => for_each_loop f callback true depth node u s
        | DECISION_BREAK => Ret u
        end
  end.

Definition uacpi_namespace_for_each_node_depth_first {U} (fuel : nat) (node : Z) (callback : Z -> U -> uacpi_ns_iteration_decision * U) (u : U) (s : ns_state) : outcome U :=
  if node =? 0 then Ret u else for_each_loop fuel callback false 1 node u s.

Fixpoint uacpi_namespace_node_depth (fuel : nat) (node : Z) (s : ns_state) : outcome Z :=
  match fuel with
  | O => OutOfFuel
  | S f =>
      if nd_parent (ns_nodes s node) =? 0 then Ret 0
      else d ← uacpi_namespace_node_depth f (nd_parent (ns_nodes s node)) s; Ret (u64 (d + 1))
  end.

(** The names are put in from the end. *)
Fixpoint put_names (fuel : nat) (path offset node : Z) (s : ns_state) : outcome mem :=
  match fuel with
  | O => OutOfFuel
  | S f =>
      if node =? uacpi_namespace_root then Ret (ns_mem s)
      else
        let offset := u64 (offset - NAME_SIZE) in
        let m := write_bytes (nd_name (ns_nodes s node)) (path + offset) (ns_mem s) in
        let node := nd_parent (ns_nodes s node) in
        let '(offset, m) := if negb (node =? uacpi_namespace_root) then (u64 (offset - 1), upd m (path + u64 (offset - 1)) DOT_CHAR) else (offset, m) in
        put_names f path offset node (set_memory m (ns_heap s) s)
  end.

Definition uacpi_namespace_node_generate_absolute_path (fuel : nat) (node : Z) (s : ns_state) : outcome (Z * ns_state) :=
  d ← uacpi_namespace_node_depth fuel node s;
  let depth := u64 (d + 1) in
  let bytes_needed := u64 (1 + (depth - 1) * NAME_SIZE) in
  let bytes_needed := u64 (bytes_needed + (if depth >? 2 then depth - 2 else 0)) in
  let bytes_needed := u64 (bytes_needed + 1) in
  '(path, h) ← uacpi_kernel_alloc bytes_needed (ns_heap s);
  if path =? 0 then Ret (0, set_memory (ns_mem s) h s)
  else
    let m := upd (ns_mem s) path BACKSLASH in
    let offset := u64 (bytes_needed - 1) in
    let m := upd m (path + offset) 0 in
    m ← put_names fuel path offset node (set_memory m h s);
    Ret (path, set_memory m h s).

Definition uacpi_free_absolute_path (path : Z) (s : ns_state) : outcome ns_state :=
  h ← uacpi_kernel_free path (ns_heap s); Ret (set_memory (ns_mem s) h s).

(** ** The predefined nodes *)

Definition predefined_name (ns : Z) : list Z :=
  match ns with
  | 0 => [BACKSLASH; 0; 0; 0]
  | 1 => chars "_GPE" | 2 => chars "_PR_" | 3 => chars "_SB_" | 4 => chars "_SI_" | 5 => chars "_TZ_"
  | 6 => chars "_GL_" | 7 => chars "_OS_" | 8 => chars "_OSI" | _ => chars "_REV"
  end.

(** [mutex] is the handle of the mutex made for the global lock.  The kernel's allocator
    does not return NULL. *)
Definition make_object_for_predefined (mutex ns : Z) (s : ns_state) : uacpi_object * ns_state :=
  if ns =? UACPI_PREDEFINED_NAMESPACE_ROOT then (Obj_uninitialized, s)
  else if ns =? UACPI_PREDEFINED_NAMESPACE_OS then (Obj_string (chars UACPI_OS_VALUE ++ [0]), s)
  else if ns =? UACPI_PREDEFINED_NAMESPACE_REV then (Obj_integer UACPI_REV_VALUE, s)
  else if ns =? UACPI_PREDEFINED_NAMESPACE_GL then (Obj_mutex mutex, set_gl mutex s)
  else if ns =? UACPI_PREDEFINED_NAMESPACE_OSI then (Obj_osi_method 1, s)
  else (Obj_uninitialized, s).

Definition init_predefined_node (mutex ns : Z) (s : ns_state) : outcome ns_state :=
  let node := predefined ns in
  let s := node_upd node (set_shareable uacpi_shareable_init) s in
  let '(obj, s) := make_object_for_predefined mutex ns s in
  Ret (node_upd node (set_object (Some obj)) s).

Definition install_predefined (fuel : nat) (ns : Z) (s : ns_state) : outcome ns_state :=
  if (ns =? UACPI_PREDEFINED_NAMESPACE_OSI) && no_osi s then Ret s
  else '(_, s) ← uacpi_node_install fuel uacpi_namespace_root (predefined ns) s; Ret s.

Definition uacpi_namespace_initialize_predefined (fuel : nat) (mutex : Z) (s : ns_state) : outcome (Z * ns_state) :=
  s ← for_up 10 0 (init_predefined_node mutex) s;
  s ← for_up 9 UACPI_PREDEFINED_NAMESPACE_GPE (install_predefined fuel) s;
  Ret (UACPI_STATUS_OK, s).

(** ** The tree *)

(** [kids] gives the children of every node.  The nodes passed on the way from one node down
    to another. *)
Inductive walk (kids : Z -> list Z) : Z -> list Z -> Z -> Prop :=
| walk_here a : walk kids a [] a
| walk_down a c l b : c ∈ kids a -> walk kids c l b -> walk kids a (c :: l) b.

(** The names the interpreter makes: four characters, none of them a dot or the end of a
    string. *)
Definition name_ok (name : list Z) : Prop := length name = 4%nat /\ Forall (fun c => 0 < c < 256 /\ c <> DOT_CHAR) name.

(** The children of [p] are linked in order and know their parent, and their names are
    distinct. *)
Record ns_at (nodes : Z -> uacpi_namespace_node) (kids : Z -> list Z) (p : Z) : Prop := {
  na_child : nd_child (nodes p) = first_v 0 (kids p);
  na_links : slinked (fun a => nd_next (nodes a)) (kids p) 0;
  na_chain : pchain (kids p);
  na_parent : forall c, c ∈ kids p -> nd_parent (nodes c) = p /\ name_ok (nd_name (nodes c));
  na_names : NoDup (map (fun c => nd_name (nodes c)) (kids p))
}.

Record ns_ok (nodes : Z -> uacpi_namespace_node) (kids : Z -> list Z) : Prop := {
  no_root : uacpi_namespace_root <> 0 /\ nd_parent (nodes uacpi_namespace_root) = 0 /\ nd_next (nodes uacpi_namespace_root) = 0;
  no_node : forall l p, walk kids uacpi_namespace_root l p -> ns_at nodes kids p
}.

Lemma walk_nil kids a b : walk kids a [] b -> b = a.
Proof. inversion 1; congruence. Qed.

Lemma walk_snoc kids a l p c : walk kids a l p -> c ∈ kids p -> walk kids a (l ++ [c]) c.
Proof. induction 1 as [a|a d l b Hd Hw IH]; intros Hc; cbn [app]; [eapply walk_down; [exact Hc|constructor]|eapply walk_down; eauto]. Qed.

Lemma walk_snoc_inv kids l c : forall a b, walk kids a (l ++ [c]) b -> b = c /\ exists p, walk kids a l p /\ c ∈ kids p.
Proof.
  induction l as [|d l IH]; intros a b Hw; cbn [app] in Hw; inversion Hw as [|a0 c0 l0 b0 Hc Hw']; subst.
  - inversion Hw'; subst. split; [reflexivity|]. exists a. split; [constructor|exact Hc].
  - destruct (IH _ _ Hw') as (-> & p & Hp & Hin). split; [reflexivity|]. exists p. split; [eapply walk_down; eauto|exact Hin].
Qed.

(** Every node but the root has a parent in the tree. *)
Lemma walk_parent nodes kids l c b : ns_ok nodes kids -> walk kids uacpi_namespace_root (l ++ [c]) b ->
  b = c /\ b <> 0 /\ b <> uacpi_namespace_root /\ name_ok (nd_name (nodes b)) /\ walk kids uacpi_namespace_root l (nd_parent (nodes b)) /\ b ∈ kids (nd_parent (nodes b)).
Proof.
  intros HO Hw. destruct (walk_snoc_inv _ _ _ _ _ Hw) as (-> & p & Hp & Hin). pose proof (no_node _ _ HO _ _ Hp) as A.
  destruct (na_parent _ _ _ A c Hin) as [E N]. destruct (no_root _ _ HO) as (Hr & Hrp & _).
  assert (p <> 0) as Hp0.
  { destruct l as [|l x _] using rev_ind; [now inversion Hp; subst|].
    destruct (walk_snoc_inv _ _ _ _ _ Hp) as (-> & q & Hq & Hx). exact (pchain_in _ _ (na_chain _ _ _ (no_node _ _ HO _ _ Hq)) Hx). }
  splits; [reflexivity|exact (pchain_in _ _ (na_chain _ _ _ A) Hin)| |exact N|now rewrite E|now rewrite E]. intros ->. congruence.
Qed.

(** A node and its parents determine each other. *)
Lemma kids_disjoint nodes kids l1 l2 p q c : ns_ok nodes kids -> walk kids uacpi_namespace_root l1 p -> walk kids uacpi_namespace_root l2 q ->
  c ∈ kids p -> c ∈ kids q -> p = q.
Proof.
  intros HO Hp Hq Hc Hc'. destruct (na_parent _ _ _ (no_node _ _ HO _ _ Hp) c Hc) as [E _].
  destruct (na_parent _ _ _ (no_node _ _ HO _ _ Hq) c Hc') as [E' _]. congruence.
Qed.

(** ** Finding a name *)

(** The first of the nodes with this name. *)
Fixpoint named (nodes : Z -> uacpi_namespace_node) (l : list Z) (name : list Z) : Z :=
  match l with
  | [] => 0
  | a :: l' => if bool_decide (nd_name (nodes a) = name) then a else named nodes l' name
  end.

Lemma find_peer_spec l : forall fuel name s, pchain l -> slinked (fun a => nd_next (ns_nodes s a)) l 0 -> (length l < fuel)%nat ->
  find_peer fuel (first_v 0 l) name s = Ret (named (ns_nodes s) l name).
Proof.
  induction l as [|a l IH]; intros [|f] name s Hc Hl Hf; cbn [length] in Hf; try lia; cbn [find_peer first_v named slinked] in *; [reflexivity|].
  rewrite (proj2 (Z.eqb_neq a 0)) by (apply (pchain_in _ _ Hc), elem_of_cons; now left).
  destruct (bool_decide (nd_name (ns_nodes s a) = name)); [reflexivity|]. destruct Hl as [-> Hl]. apply IH; [|exact Hl|lia].
  exact (proj1 (proj2 (proj2 (pchain_middle [] a l Hc)))).
Qed.

Lemma named_unique nodes l c : NoDup (map (fun a => nd_name (nodes a)) l) -> c ∈ l -> named nodes l (nd_name (nodes c)) = c.
Proof.
  induction l as [|a l IH]; cbn [map named]; intros Hn Hc; [now apply elem_of_nil in Hc|]. apply NoDup_cons in Hn as [Ha Hn].
  apply elem_of_cons in Hc as [->|Hc]; [now rewrite bool_decide_true|]. rewrite bool_decide_false; [now apply IH|].
  intros E. apply Ha. rewrite E. now apply (list_elem_of_fmap_2 (fun a => nd_name (nodes a))).
Qed.

Lemma named_none nodes l name : ~ (exists c, c ∈ l /\ nd_name (nodes c) = name) -> named nodes l name = 0.
Proof.
  induction l as [|a l IH]; cbn [named]; intros Hn; [reflexivity|]. rewrite bool_decide_false.
  - apply IH. intros (c & Hc & E). apply Hn. exists c. split; [apply elem_of_cons; now right|exact E].
  - intros E. apply Hn. exists a. split; [apply elem_of_cons; now left|exact E].
Qed.

(** A child is found by its name, and only children are found. *)
Lemma find_sub_node_spec fuel p name s kids : p <> 0 -> ns_at (ns_nodes s) kids p -> (length (kids p) < fuel)%nat ->
  uacpi_namespace_node_find_sub_node fuel p name s = Ret (named (ns_nodes s) (kids p) name).
Proof.
  intros Hp [Ac Al Ach _ _] Hf. unfold uacpi_namespace_node_find_sub_node. rewrite (proj2 (Z.eqb_neq p 0)) by exact Hp.
  rewrite Ac. now apply find_peer_spec.
Qed.

(** ** Path names *)

(** The names of the nodes passed, with a dot in front of each, and in between. *)
Definition dotted (nodes : Z -> uacpi_namespace_node) (l : list Z) : list Z := concat (map (fun c => DOT_CHAR :: nd_name (nodes c)) l).
Definition joined (nodes : Z -> uacpi_namespace_node) (l : list Z) : list Z := List.tl (dotted nodes l).
Definition absolute_path (nodes : Z -> uacpi_namespace_node) (l : list Z) : list Z := BACKSLASH :: joined nodes l.

Lemma cstr_app m l1 : forall l2 a, cstr m a (l1 ++ l2) -> cstr m (a + Z.of_nat (length l1)) l2.
Proof.
  induction l1 as [|c l1 IH]; intros l2 a Hc; cbn [app length cstr] in *; [now rewrite Z.add_0_r|].
  destruct Hc as (_ & _ & Hc). replace (a + Z.of_nat (S (length l1))) with (a + 1 + Z.of_nat (length l1)) by lia. now apply IH.
Qed.

Lemma segment_to_name_spec m cursor name rest : name_ok name -> cstr m cursor (name ++ rest) -> Z.of_nat (length rest) + 4 < 2 ^ 64 ->
  segment_to_name cursor (Z.of_nat (length (name ++ rest))) m = (name, cursor + 4, Z.of_nat (length rest)).
Proof.
  intros [Hl Hn] Hc Hb. destruct name as [|c1 [|c2 [|c3 [|c4 [|]]]]]; try discriminate Hl. cbn [app cstr length] in *.
  destruct Hc as (E1 & _ & E2 & _ & E3 & _ & E4 & _). apply Forall_cons in Hn as [[_ N1] Hn]. apply Forall_cons in Hn as [[_ N2] Hn].
  apply Forall_cons in Hn as [[_ N3] Hn]. apply Forall_cons in Hn as [[_ N4] _]. unfold segment_to_name. cbn [segment_chars].
  assert (forall k, 1 <= k <= 4 -> u64 (Z.of_nat (length rest) + k - 1) = Z.of_nat (length rest) + (k - 1)) as Hw by (intros k Hk; rewrite wrap_small; lia).
  assert (forall k, 1 <= k -> (Z.of_nat (length rest) + k <? 1) = false) as Hlt by (intros k Hk; apply Z.ltb_ge; lia).
  replace (Z.of_nat (S (S (S (S (length rest)))))) with (Z.of_nat (length rest) + 4) by lia.
  rewrite (Hw 4) by lia. rewrite (Hw (4 - 1)) by lia. rewrite (Hw (4 - 1 - 1)) by lia. rewrite (Hw (4 - 1 - 1 - 1)) by lia.
  rewrite !Hlt by lia. rewrite E1, E2, E3, E4. rewrite !(proj2 (Z.eqb_neq _ _)) by assumption. cbn [orb].
  f_equal; [f_equal|]; lia.
Qed.

Lemma dotted_length kids nodes l : forall a b, walk kids a l b -> (forall l' q, walk kids a l' q -> ns_at nodes kids q) ->
  length (dotted nodes l) = (5 * length l)%nat.
Proof.
  induction l as [|c l IH]; intros a b Hw HA; [reflexivity|]. inversion Hw as [|a0 c0 l0 b0 Hin Hw']; subst.
  unfold dotted. cbn [map concat length app]. rewrite length_app, (proj1 (proj2 (na_parent _ _ _ (HA [] a (walk_here _ _)) c Hin))).
  fold (dotted nodes l). rewrite (IH c b Hw'); [lia|]. intros l' q Hq. apply (HA (c :: l')). eapply walk_down; eauto.
Qed.

(** Following names that are separated by dots, from a node to one below it. *)
Lemma path_names_spec kids nodes n l : forall fuel parent a b cursor bytes single s,
  (forall l p, walk kids a l p -> p <> 0 /\ ns_at nodes kids p /\ (length (kids p) < n)%nat) -> walk kids a l b -> ns_nodes s = nodes ->
  cstr (ns_mem s) cursor bytes -> bytes = dotted nodes l \/ bytes = joined nodes l -> 5 * Z.of_nat (length l) < 2 ^ 63 -> (n + length l < fuel)%nat ->
  path_names fuel false parent a cursor (Z.of_nat (length bytes)) single s = Ret b.
Proof.
  induction l as [|c l IH]; intros [|f] parent a b cursor bytes single s HA Hw En Hc Hb Hl Hf; try lia; inversion Hw as [|a0 c0 l0 b0 Hin Hw']; subst.
  - assert (bytes = []) as -> by (now destruct Hb). reflexivity.
  - destruct (HA [] a (walk_here _ _)) as (Ha & At & Hn). destruct (na_parent _ _ _ At c Hin) as [_ Hok]. cbn [length] in *. cbn [path_names].
    assert (forall l p, walk kids c l p -> p <> 0 /\ ns_at (ns_nodes s) kids p /\ (length (kids p) < n)%nat) as HA'
      by (intros l' p Hp; apply (HA (c :: l')); eapply walk_down; eauto).
    destruct (HA' [] c (walk_here _ _)) as (Hc0 & _). set (name := nd_name (ns_nodes s c)) in *. pose proof (proj1 Hok) as Hlen.
    pose proof (dotted_length kids (ns_nodes s) l c b Hw' (fun l' q Hq => proj1 (proj2 (HA' l' q Hq)))) as Hd.
    assert (exists cur0, cstr (ns_mem s) cur0 (name ++ dotted (ns_nodes s) l) /\
      (if ns_mem s cursor =? DOT_CHAR then (cursor + 1, u64 (Z.of_nat (length bytes) - 1)) else (cursor, Z.of_nat (length bytes))) =
      (cur0, Z.of_nat (length (name ++ dotted (ns_nodes s) l))) /\ Z.of_nat (length bytes) <> 0) as (cur0 & Hc1 & E & Hnz).
    { destruct Hb as [-> | ->]; unfold joined, dotted in Hc |- *; cbn [map concat List.tl app] in Hc |- *; fold name in Hc |- *; fold (dotted (ns_nodes s) l) in Hc |- *.
      - cbn [cstr] in Hc. destruct Hc as (E & _ & Hc). exists (cursor + 1). rewrite E, Z.eqb_refl. splits; [exact Hc| |cbn [length]; lia].
        f_equal. cbn [length]. rewrite wrap_small by (rewrite length_app, Hd, Hlen; lia). lia.
      - exists cursor. splits; [exact Hc| |rewrite length_app, Hlen; lia]. destruct Hok as [Hl4 HF]. destruct name as [|c1 name']; [discriminate|].
        cbn [app cstr] in Hc. destruct Hc as (E & _). apply Forall_cons in HF as [[_ N1] _]. now rewrite E, (proj2 (Z.eqb_neq c1 DOT_CHAR)). }
    rewrite (proj2 (Z.eqb_neq _ 0)) by exact Hnz. rewrite E.
    rewrite (segment_to_name_spec _ _ name) by (auto; rewrite ?Hd; lia).
    rewrite (find_sub_node_spec _ _ _ s kids Ha At) by lia. cbn [mbind outcome_bind].
    assert (named (ns_nodes s) (kids a) name = c) as -> by exact (named_unique (ns_nodes s) (kids a) c (na_names _ _ _ At) Hin).
    rewrite (proj2 (Z.eqb_neq c 0)) by exact Hc0.
    apply IH; [exact HA'|exact Hw'|reflexivity| |now left|lia|lia].
    replace (cur0 + 4) with (cur0 + Z.of_nat (length name)) by lia. now apply cstr_app.
Qed.

(** ** The path of a node *)

(** The nodes at most [n] wide and deep. *)
Lemma node_depth_spec kids s l : forall b fuel, ns_ok (ns_nodes s) kids -> walk kids uacpi_namespace_root l b ->
  (length l < fuel)%nat -> Z.of_nat (length l) < 2 ^ 63 -> uacpi_namespace_node_depth fuel b s = Ret (Z.of_nat (length l)).
Proof.
  induction l as [|c l IH] using rev_ind; intros b [|f] HO Hw Hf Hb; rewrite ?length_app in *; cbn [length] in *; try lia; cbn [uacpi_namespace_node_depth].
  - inversion Hw; subst. now rewrite (proj1 (proj2 (no_root _ _ HO))).
  - destruct (walk_parent _ _ _ _ _ HO Hw) as (-> & _ & _ & _ & Hp & _). rewrite (proj2 (Z.eqb_neq _ 0)).
    + rewrite (IH _ f HO Hp) by lia. cbn [mbind outcome_bind]. rewrite wrap_small by lia. f_equal. lia.
    + destruct l as [|x l _] using rev_ind; [rewrite (walk_nil _ _ _ Hp); exact (proj1 (no_root _ _ HO))|].
      now destruct (walk_parent _ _ _ _ _ HO Hp) as (_ & N & _).
Qed.

(** Where the names end: behind the backslash, four characters for each and a dot between. *)
Definition path_end (k : nat) : Z := match k with O => 1 | _ => 5 * Z.of_nat k end.

Lemma joined_snoc nodes l c : joined nodes (l ++ [c]) = match l with [] => nd_name (nodes c) | _ => joined nodes l ++ DOT_CHAR :: nd_name (nodes c) end.
Proof.
  unfold joined, dotted. rewrite map_app, concat_app. cbn [map concat app]. rewrite app_nil_r. now destruct l.
Qed.

Lemma joined_length kids nodes l b : ns_ok nodes kids -> walk kids uacpi_namespace_root l b -> 1 + Z.of_nat (length (joined nodes l)) = path_end (length l).
Proof.
  intros HO Hw. unfold joined. pose proof (dotted_length kids nodes l _ b Hw (no_node _ _ HO)) as Hd.
  destruct l as [|c l]; [reflexivity|]. cbn [length path_end]. destruct (dotted nodes (c :: l)) as [|d r]; cbn [length List.tl] in *; lia.
Qed.

(** [put_names] fills in the names below the root, and nothing else. *)
Lemma put_names_spec kids nodes path l : forall b fuel s, ns_ok nodes kids -> walk kids uacpi_namespace_root l b -> ns_nodes s = nodes ->
  (length l < fuel)%nat -> 5 * Z.of_nat (length l) < 2 ^ 63 ->
  Returns (put_names fuel path (path_end (length l)) b s) (fun m =>
    (forall j, (j < length (joined nodes l))%nat -> m (path + 1 + Z.of_nat j) = nth j (joined nodes l) 0) /\
    forall x, ~ (path + 1 <= x < path + path_end (length l)) -> m x = ns_mem s x).
Proof.
  induction l as [|c l IH] using rev_ind; intros b [|f] s HO Hw En Hf Hb; rewrite ?length_app in *; cbn [length] in *; try lia; cbn [put_names].
  - inversion Hw; subst. rewrite Z.eqb_refl. apply Returns_ret. split; [cbn; lia|reflexivity].
  - pose proof (joined_length _ _ _ _ HO Hw) as Hj. rewrite length_app in Hj. cbn [length] in Hj.
    destruct (walk_parent _ _ _ _ _ HO Hw) as (-> & _ & Nr & [Hn4 _] & Hp & _). subst nodes.
    rewrite (proj2 (Z.eqb_neq c _)) by exact Nr. set (p := nd_parent (ns_nodes s c)) in *. set (name := nd_name (ns_nodes s c)) in *.
    rewrite joined_snoc in *. fold name in Hj |- *. replace (length l + 1)%nat with (S (length l)) in * by lia. unfold path_end, NAME_SIZE in Hj |- *.
    rewrite !(wrap_small 64 (5 * _ - 4)) by lia.
    destruct l as [|x l _] using rev_ind.
    + rewrite (walk_nil _ _ _ Hp), Z.eqb_refl. cbn [negb length] in *. destruct f as [|f]; [lia|].
      cbn [put_names]. rewrite Z.eqb_refl. apply Returns_ret. cbn [ns_mem set_memory]. split.
      * intros j Hjl. replace (path + 1 + Z.of_nat j) with (path + (5 * Z.of_nat 1 - 4) + Z.of_nat j) by lia. now apply write_bytes_at.
      * intros y Hy. apply write_bytes_outside. rewrite Hn4. lia.
    + destruct (walk_parent _ _ _ _ _ HO Hp) as (Ex & _ & Npr & _). rewrite (proj2 (Z.eqb_neq p _)) by exact Npr. cbn [negb].
      rewrite length_app in *. cbn [length] in *. replace (length l + 1)%nat with (S (length l)) in * by lia.
      rewrite wrap_small by lia. set (m := upd _ _ DOT_CHAR).
      pose proof (IH p f (set_memory m (ns_heap s) s) HO Hp eq_refl ltac:(lia) ltac:(lia)) as HR. unfold path_end in HR.
      replace (5 * Z.of_nat (S (S (length l))) - 4 - 1) with (5 * Z.of_nat (S (length l))) by lia.
      eapply Returns_mono; [exact HR|]. intros m' [R1 R2]. cbn [ns_mem set_memory] in R2.
      pose proof (joined_length _ _ _ _ HO Hp) as Hjl. rewrite length_app in Hjl. cbn [length] in Hjl. replace (length l + 1)%nat with (S (length l)) in Hjl by lia.
      unfold path_end in Hjl. assert (match l ++ [x] with [] => name | _ :: _ => joined (ns_nodes s) (l ++ [x]) ++ DOT_CHAR :: name end =
        joined (ns_nodes s) (l ++ [x]) ++ DOT_CHAR :: name) as Ej by (now destruct l). rewrite Ej. clear Ej. split.
      * intros j Hj2. rewrite length_app in Hj2. cbn [length] in Hj2.
        destruct (Nat.lt_ge_cases j (length (joined (ns_nodes s) (l ++ [x])))) as [Hlt|Hge]; [rewrite app_nth1 by exact Hlt; now apply R1|].
        rewrite app_nth2 by exact Hge. rewrite R2 by lia. destruct (j - length (joined (ns_nodes s) (l ++ [x])))%nat as [|k] eqn:Ek; cbn [nth].
        -- unfold m. replace (path + 1 + Z.of_nat j) with (path + (5 * Z.of_nat (S (S (length l))) - 4 - 1)) by lia. apply upd_eq.
        -- unfold m. rewrite upd_ne by lia. replace (path + 1 + Z.of_nat j) with (path + (5 * Z.of_nat (S (S (length l))) - 4) + Z.of_nat k) by lia.
           apply write_bytes_at. lia.
      * intros y Hy. rewrite R2 by lia. unfold m. rewrite upd_ne by lia. apply write_bytes_outside. rewrite Hn4. lia.
Qed.

(** The string that was made is the path of the node. *)
Lemma generated_string kids nodes l b path m0 m :
  ns_ok nodes kids -> walk kids uacpi_namespace_root l b -> m0 path = BACKSLASH -> m0 (path + path_end (length l)) = 0 ->
  (forall j, (j < length (joined nodes l))%nat -> m (path + 1 + Z.of_nat j) = nth j (joined nodes l) 0) ->
  (forall x, ~ (path + 1 <= x < path + path_end (length l)) -> m x = m0 x) -> cstr m path (absolute_path nodes l).
Proof.
  intros HO Hw H1 H2 R1 R2. pose proof (joined_length _ _ _ _ HO Hw) as Hj. unfold absolute_path. cbn [cstr]. split; [rewrite R2 by lia; exact H1|].
  split; [unfold BACKSLASH; lia|]. apply cstr_intro; [|replace (path + 1 + _) with (path + path_end (length l)) by lia; rewrite R2 by lia; exact H2].
  intros j Hjr. rewrite <- (Z2Nat.id j) at 1 by lia. split; [apply R1; lia|].
  assert (Forall (fun c => 0 < c < 256) (dotted nodes l)) as HF.
  { clear - HO Hw. assert (forall l' p, walk kids uacpi_namespace_root l' p -> ns_at nodes kids p) as HA by exact (no_node _ _ HO). clear HO. revert Hw HA.
    generalize uacpi_namespace_root. induction l as [|c l IH]; intros a Hw HA; [constructor|]. inversion Hw as [|a0 c0 l0 b0 Hin Hw']; subst.
    unfold dotted. cbn [map concat]. apply Forall_app. split.
    - constructor; [unfold DOT_CHAR; lia|]. eapply Forall_impl; [exact (proj2 (proj2 (na_parent _ _ _ (HA [] a (walk_here _ _)) c Hin)))|]. now intros x [Hx _].
    - apply (IH c Hw'). intros l' q Hq. apply (HA (c :: l')). eapply walk_down; eauto. }
  assert (Forall (fun c => 0 < c < 256) (joined nodes l)) as HF' by (unfold joined; destruct (dotted nodes l); [constructor|now apply Forall_cons in HF as [_ HF]]).
  rewrite Forall_forall in HF'. apply HF'. apply list_elem_of_In, nth_In. lia.
Qed.

Lemma path_bytes k : Z.of_nat k < 2 ^ 32 ->
  let depth := u64 (Z.of_nat k + 1) in
  u64 (u64 (u64 (1 + (depth - 1) * NAME_SIZE) + (if depth >? 2 then depth - 2 else 0)) + 1) = path_end k + 1.
Proof.
  intros Hk depth. unfold depth, NAME_SIZE, path_end. rewrite (wrap_small 64 (Z.of_nat k + 1)) by lia.
  rewrite (wrap_small 64 (1 + _)) by lia. destruct (Z.gtb_spec (Z.of_nat k + 1) 2) as [Hgt|Hle].
  - rewrite (wrap_small 64 (_ + (_ - 2))), wrap_small by lia. destruct k as [|[|k]]; lia.
  - rewrite (wrap_small 64 (_ + 0)), wrap_small by lia. destruct k as [|[|k]]; lia.
Qed.

(** A lookup of the absolute path, wherever it starts. *)
Lemma find_absolute kids n l b fuel parent path s : ns_ok (ns_nodes s) kids -> walk kids uacpi_namespace_root l b ->
  (forall l p, walk kids uacpi_namespace_root l p -> (length (kids p) < n)%nat) -> Z.of_nat (length l) < 2 ^ 32 -> (n + 5 * length l + 2 < fuel)%nat ->
  cstr (ns_mem s) path (absolute_path (ns_nodes s) l) -> uacpi_namespace_node_find fuel parent path s = Ret b.
Proof.
  intros HO Hw Hn Hl Hf Hc. unfold uacpi_namespace_node_find, uacpi_namespace_node_do_find. pose proof (joined_length _ _ _ _ HO Hw) as Hj.
  assert (Z.of_nat (length (joined (ns_nodes s) l)) <= 5 * Z.of_nat (length l)) as Hle by (unfold path_end in Hj; destruct (length l); lia).
  rewrite (uacpi_strlen_spec _ _ fuel path Hc) by (unfold absolute_path; cbn [length]; lia). cbn [mbind outcome_bind]. unfold absolute_path in *. cbn [length cstr] in *.
  destruct Hc as (E & _ & Hc). destruct fuel as [|f]; [lia|]. remember (S f) as fuel. assert (fuel = S f) as Ef by assumption. rewrite Ef at 1. cbn [path_prefix].
  rewrite (proj2 (Z.eqb_neq _ 0)) by lia. rewrite E. cbn [Z.eqb Pos.eqb BACKSLASH CARET mbind outcome_bind].
  rewrite wrap_small by lia. replace (Z.of_nat (S _) - 1) with (Z.of_nat (length (joined (ns_nodes s) l))) by lia.
  eapply (path_names_spec kids (ns_nodes s) n l); [|exact Hw|reflexivity|exact Hc|now right|lia|lia].
  intros l' p Hp. splits; [|exact (no_node _ _ HO _ _ Hp)|exact (Hn _ _ Hp)].
  destruct l' as [|x l' _] using rev_ind; [rewrite (walk_nil _ _ _ Hp); exact (proj1 (no_root _ _ HO))|now destruct (walk_parent _ _ _ _ _ HO Hp) as (_ & N & _)].
Qed.

(** C35: path names of the name space round trip: the absolute path generated for a node is a
    terminated string in a fresh area, the names on the way to the node separated by dots,
    and looking it up, from anywhere, ends and finds that node. *)
Theorem ns_path_roundtrip `{KHL : !KernelHeapLaws H} kids n l b fuel s live :
  ns_ok (ns_nodes s) kids -> walk kids uacpi_namespace_root l b ->
  (forall l p, walk kids uacpi_namespace_root l p -> (length (kids p) < n)%nat) ->
  Z.of_nat (length l) < 2 ^ 32 -> (n + 5 * length l + 2 < fuel)%nat -> kh_ok (ns_heap s) -> kh_live (ns_heap s) live ->
  Safe (uacpi_namespace_node_generate_absolute_path fuel b s) (fun '(path, s') =>
    cstr (ns_mem s') path (absolute_path (ns_nodes s) l) /\
    (forall parent, uacpi_namespace_node_find fuel parent path s' = Ret b) /\
    ns_nodes s' = ns_nodes s /\
    exists size, 0 < path /\ kh_ok (ns_heap s') /\ kh_live (ns_heap s') ((path, size) :: live) /\ Forall (apart (path, size)) live /\
      forall x, ~ (path <= x < path + size) -> ns_mem s' x = ns_mem s x).
Proof.
  intros HO Hw Hn Hl Hf Hok Hlive. unfold uacpi_namespace_node_generate_absolute_path.
  rewrite (node_depth_spec _ _ _ _ _ HO Hw) by lia. cbn [mbind outcome_bind]. rewrite path_bytes by exact Hl. unfold uacpi_kernel_alloc.
  assert (1 <= path_end (length l) <= 5 * Z.of_nat (length l) + 1) as He by (unfold path_end; destruct (length l); lia).
  pose proof (kh_malloc_spec (path_end (length l) + 1) (ns_heap s) live ltac:(change (2 ^ 40) with (256 * 2 ^ 32); lia) Hok Hlive) as HM.
  destruct (kh_malloc _ (ns_heap s)) as [[path h]| | | |]; try contradiction; cbn [mbind outcome_bind]; [|exact I].
  destruct HM as (size & Hp0 & _ & Hsz & _ & Hok' & Hlive' & Hap). rewrite (proj2 (Z.eqb_neq path 0)) by lia.
  rewrite wrap_small by lia. replace (path_end (length l) + 1 - 1) with (path_end (length l)) by lia. set (m0 := upd _ (path + _) 0).
  destruct (put_names_spec kids (ns_nodes s) path l b fuel (set_memory m0 h s) HO Hw eq_refl ltac:(lia) ltac:(lia)) as (m & -> & R1 & R2).
  cbn [mbind outcome_bind Safe ns_mem set_memory ns_nodes ns_heap] in *.
  assert (cstr m path (absolute_path (ns_nodes s) l)) as Hstr.
  { apply (generated_string kids (ns_nodes s) l b path m0 m HO Hw); [unfold m0; rewrite upd_ne by lia; apply upd_eq|apply upd_eq|exact R1|exact R2]. }
  splits; [exact Hstr|intros parent; now apply (find_absolute kids n l)|reflexivity|]. exists size. splits; auto.
  intros x Hx. rewrite R2 by lia. unfold m0. now rewrite !upd_ne by lia.
Qed.

(** ** The walk over the tree *)

Section Visits.
Context {U : Type} (callback : Z -> U -> uacpi_ns_iteration_decision * U).

(** What the walk is meant to do, by recursion on the tree; [true] when it was cut short. *)
Fixpoint visit (t : ntree) (u : U) : bool * U :=
  let 'NT a l := t in
  let '(d, u) := callback a u in
  match d with
  | DECISION_BREAK => (true, u)
  | DECISION_NEXT_PEER => (false, u)
  | DECISION_CONTINUE =>
      (fix visits l u := match l with
       | [] => (false, u)
       | t :: l' => let '(stop, u) := visit t u in if stop : bool then (true, u) else visits l' u
       end) l u
  end.

Fixpoint visits (l : list ntree) (u : U) : bool * U :=
  match l with
  | [] => (false, u)
  | t :: l' => let '(stop, u) := visit t u in if stop : bool then (true, u) else visits l' u
  end.

Lemma visit_eq a l u : visit (NT a l) u =
  let '(d, u) := callback a u in
  match d with DECISION_BREAK => (true, u) | DECISION_NEXT_PEER => (false, u) | DECISION_CONTINUE => visits l u end.
Proof.
  cbn [visit]. now destruct (callback a u) as [[] u'].
Qed.

(** The loop does one tree, and comes back to its root on the way up. *)
Definition walks (s : ns_state) (t : ntree) : Prop := forall depth u, 1 <= depth -> depth + Z.of_nat (tree_size t) < 2 ^ 32 ->
  exists k, (k <= 2 * tree_size t - 1)%nat /\ forall f, for_each_loop (k + f) callback false depth (rt t) u s =
    let '(stop, u) := visit t u in if stop : bool then Ret u else for_each_loop f callback true depth (rt t) u s.

(** Peers one after the other, then up to their parent. *)
Lemma walk_peers s p l : forall t, Forall (walks s) (t :: l) -> Forall (fun t => nd_parent (ns_nodes s (rt t)) = p /\ rt t <> 0) (t :: l) ->
  slinked (fun a => nd_next (ns_nodes s a)) (map rt (t :: l)) 0 ->
  forall depth u, 1 <= depth -> depth + Z.of_nat (forest_size (t :: l)) < 2 ^ 32 ->
  exists k, (k <= 2 * forest_size (t :: l))%nat /\ forall f, for_each_loop (k + f) callback false depth (rt t) u s =
    let '(stop, u) := visits (t :: l) u in if stop : bool then Ret u else for_each_loop f callback true (depth - 1) p u s.
Proof.
  induction l as [|t2 l IH]; intros t HW HP HL depth u Hd Hb; apply Forall_cons in HW as [W HW]; apply Forall_cons in HP as [[P _] HP];
    cbn [map slinked first_v forest_size visits] in *; pose proof (tree_size_pos t) as Hpos; destruct (W depth u Hd ltac:(lia)) as (k & Hk & E); destruct HL as [L HL].
  - exists (k + 1)%nat. split; [lia|]. intros f. replace (k + 1 + f)%nat with (k + S f)%nat by lia. rewrite E.
    destruct (visit t u) as [[] u']; [reflexivity|]. cbn [for_each_loop]. rewrite (proj2 (Z.eqb_neq depth 0)) by lia. rewrite L, P. cbn [negb Z.eqb].
    now rewrite wrap_small by lia.
  - destruct (visit t u) as [stop u'] eqn:Ev. destruct (IH t2 HW HP HL depth u' Hd ltac:(cbn [forest_size]; lia)) as (k2 & Hk2 & E2). cbn [forest_size visits] in *.
    exists (k + 1 + k2)%nat. split; [lia|]. intros f. replace (k + 1 + k2 + f)%nat with (k + S (k2 + f))%nat by lia. rewrite E.
    destruct stop; [reflexivity|]. cbn [for_each_loop]. rewrite (proj2 (Z.eqb_neq depth 0)) by lia. rewrite L.
    rewrite (proj2 (Z.eqb_neq (rt t2) 0)) by (apply Forall_cons in HP as [[_ N] _]; exact N). cbn [negb]. exact (E2 f).
Qed.

Lemma tree_walks s t : tree_ok (ns_nodes s) t -> walks s t.
Proof.
  induction t as [a l IH] using ntree_ind'. intros HT depth u Hd Hb. apply tree_ok_eq in HT as (Hc & Hl & HF & HO). cbn [rt] in *. rewrite visit_eq.
  rewrite tree_size_eq in *. destruct (callback a u) as [[] u'] eqn:Ecb.
  - destruct l as [|t l].
    + exists 1%nat. split; [lia|]. intros f. cbn [Nat.add for_each_loop]. rewrite (proj2 (Z.eqb_neq depth 0)) by lia. rewrite Ecb, Hc. reflexivity.
    + assert (Forall (walks s) (t :: l)) as HW by (rewrite Forall_forall in IH, HO |- *; auto).
      cbn [map first_v] in Hc. assert (rt t <> 0) as Ht by (apply Forall_cons in HF as [[_ N] _]; exact N).
      destruct (walk_peers s a l t HW HF Hl (depth + 1) u' ltac:(lia) ltac:(lia)) as (k & Hk & E). exists (S k). split; [lia|].
      intros f. cbn [Nat.add for_each_loop]. rewrite (proj2 (Z.eqb_neq depth 0)) by lia. rewrite Ecb, Hc, (proj2 (Z.eqb_neq (rt t) 0)) by exact Ht. cbn [negb].
      rewrite wrap_small by lia. rewrite E. destruct (visits (t :: l) u') as [[] u2]; [reflexivity|]. f_equal. lia.
  - exists 1%nat. split; [lia|]. intros f. cbn [Nat.add for_each_loop]. rewrite (proj2 (Z.eqb_neq depth 0)) by lia. now rewrite Ecb.
  - exists 1%nat. split; [lia|]. intros f. cbn [Nat.add for_each_loop]. rewrite (proj2 (Z.eqb_neq depth 0)) by lia. now rewrite Ecb.
Qed.
End Visits.

(** In a well-formed name space a tree of its children is linked. *)
Lemma agrees_ok nodes kids : ns_ok nodes kids -> forall t l, walk kids uacpi_namespace_root l (rt t) -> agrees kids t -> tree_ok nodes t.
Proof.
  intros HO. induction t as [a ts IH] using ntree_ind'. intros l Hw Ha. inversion Ha as [a0 l0 E HA]; subst. cbn [rt] in Hw.
  pose proof (no_node _ _ HO _ _ Hw) as [Ac Al Ach Ap _]. rewrite E in *. apply tree_ok_eq. splits; auto; rewrite Forall_forall in *.
  - intros t Ht. assert (rt t ∈ map rt ts) as Hin by now apply list_elem_of_fmap_2. split; [exact (proj1 (Ap _ Hin))|exact (pchain_in _ _ Ach Hin)].
  - intros t Ht. apply (IH t Ht (l ++ [rt t])); [|now apply HA]. apply (walk_snoc _ _ _ a); [exact Hw|]. rewrite E. now apply list_elem_of_fmap_2.
Qed.

(** C36: the walk over the name space, which keeps no stack but the links of the nodes, ends
    and does what recursion over the tree does: every node before those below it, peers in
    order, nothing below a node whose callback asks for the next peer, and nothing after a
    break.  Started at the first child of a node it does the same for its children. *)
Theorem for_each_visits {U} (callback : Z -> U -> uacpi_ns_iteration_decision * U) kids t l fuel u s :
  ns_ok (ns_nodes s) kids -> walk kids uacpi_namespace_root l (rt t) -> agrees kids t -> Z.of_nat (tree_size t) < 2 ^ 32 - 1 -> (2 * tree_size t < fuel)%nat ->
  (rt t = uacpi_namespace_root -> uacpi_namespace_for_each_node_depth_first fuel (rt t) callback u s = Ret (visit callback t u).2) /\
  let 'NT a ts := t in uacpi_namespace_for_each_node_depth_first fuel (nd_child (ns_nodes s a)) callback u s = Ret (visits callback ts u).2.
Proof.
  intros HO Hw Ha Hb Hf. pose proof (agrees_ok _ _ HO t l Hw Ha) as HT. unfold uacpi_namespace_for_each_node_depth_first. split.
  - intros Er. destruct (no_root _ _ HO) as (Hr & Hp & Hn). rewrite (proj2 (Z.eqb_neq (rt t) 0)) by congruence.
    destruct (walk_peers callback s 0 [] t (Forall_cons_2 _ _ _ (tree_walks callback s t HT) (Forall_nil_2 _))
      ltac:(constructor; [split; congruence|constructor]) ltac:(cbn; rewrite Er; auto) 1 u ltac:(lia) ltac:(cbn [forest_size]; lia)) as (k & Hk & E).
    cbn [forest_size visits] in *. replace fuel with (k + (S (fuel - k - 1)))%nat by lia. rewrite E. destruct (visit callback t u) as [[] u']; reflexivity.
  - destruct t as [a ts]. apply tree_ok_eq in HT as (Hc & Hl & HF & HO'). rewrite tree_size_eq in *. rewrite Hc. destruct ts as [|t ts]; [reflexivity|].
    cbn [map first_v] in *. rewrite (proj2 (Z.eqb_neq (rt t) 0)) by (apply Forall_cons in HF as [[_ N] _]; exact N).
    destruct (walk_peers callback s a ts t) with (depth := 1) (u := u) as (k & Hk & E); [|exact HF|exact Hl|lia|lia|].
    + rewrite Forall_forall in *. intros x Hx. apply tree_walks. auto.
    + replace fuel with (k + (S (fuel - k - 1)))%nat by lia. rewrite E. destruct (visits callback (t :: ts) u) as [[] u']; reflexivity.
Qed.

(** ** Installing and removing *)

Definition with_kids (kids : Z -> list Z) (p : Z) (l : list Z) : Z -> list Z := fun x => if x =? p then l else kids x.

(** What a node needs depends only on itself and its children. *)
Lemma ns_at_frame nodes nodes' kids kids' p : ns_at nodes kids p -> kids' p = kids p -> nd_child (nodes' p) = nd_child (nodes p) ->
  (forall c, c ∈ kids p -> nd_next (nodes' c) = nd_next (nodes c) /\ nd_parent (nodes' c) = nd_parent (nodes c) /\ nd_name (nodes' c) = nd_name (nodes c)) ->
  ns_at nodes' kids' p.
Proof.
  intros [Ac Al Ach Ap An] Ek Ec Hf. split; rewrite ?Ek, ?Ec; auto.
  - apply (slinked_frame (fun a => nd_next (nodes a))); [|exact Al]. intros c Hc. exact (proj1 (Hf c Hc)).
  - intros c Hc. destruct (Hf c Hc) as (_ & -> & ->). exact (Ap c Hc).
  - erewrite map_ext_in; [exact An|]. intros c Hc%list_elem_of_In. exact (proj2 (proj2 (Hf c Hc))).
Qed.

Lemma last_peer_spec l : forall a fuel s, pchain (a :: l) -> slinked (fun a => nd_next (ns_nodes s a)) (a :: l) 0 -> (length (a :: l) <= fuel)%nat ->
  last_peer fuel a s = Ret (last_v a l).
Proof.
  induction l as [|b l IH]; intros a [|f] s Hc Hl Hf; cbn [length] in Hf; try lia; cbn [last_peer slinked first_v last_v] in *; destruct Hl as [E Hl]; rewrite E.
  - reflexivity.
  - pose proof (proj1 (proj2 (proj2 (pchain_middle [] a (b :: l) Hc)))) as Hc'.
    rewrite (proj2 (Z.eqb_neq b 0)) by (apply (pchain_in _ _ Hc'), elem_of_cons; now left). apply IH; [exact Hc'|exact Hl|cbn [length]; lia].
Qed.

(** The nodes of the tree after a node was put behind the children of [p]. *)
Lemma walk_installed kids p n : (forall l, ~ walk kids uacpi_namespace_root l n) -> forall l a,
  walk (with_kids (with_kids kids n []) p (kids p ++ [n])) uacpi_namespace_root l a -> p <> n ->
  (a <> n /\ walk kids uacpi_namespace_root l a) \/ a = n.
Proof.
  intros Hn l. induction l as [|c l IH] using rev_ind; intros a Hw Hpn.
  - rewrite (walk_nil _ _ _ Hw). left. split; [intros E; apply (Hn []); rewrite <- E; constructor|constructor].
  - destruct (walk_snoc_inv _ _ _ _ _ Hw) as (-> & q & Hq & Hin). destruct (IH q Hq Hpn) as [[Nq Hwq]| ->]; unfold with_kids in Hin.
    + destruct (Z.eqb_spec q p) as [->|Nqp].
      * apply elem_of_app in Hin as [Hin|Hin%list_elem_of_singleton]; [|now right]. left.
        pose proof (walk_snoc _ _ _ _ _ Hwq Hin) as Hc. split; [intros ->; exact (Hn _ Hc)|exact Hc].
      * rewrite (proj2 (Z.eqb_neq q n)) in Hin by exact Nq. left. pose proof (walk_snoc _ _ _ _ _ Hwq Hin) as Hc. split; [intros ->; exact (Hn _ Hc)|exact Hc].
    + rewrite (proj2 (Z.eqb_neq n p)) in Hin by congruence. rewrite Z.eqb_refl in Hin. now apply elem_of_nil in Hin.
Qed.

Lemma walk_nonzero nodes kids l p : ns_ok nodes kids -> walk kids uacpi_namespace_root l p -> p <> 0.
Proof.
  intros HO Hp. destruct l as [|x l _] using rev_ind; [rewrite (walk_nil _ _ _ Hp); exact (proj1 (no_root _ _ HO))|].
  now destruct (walk_parent _ _ _ _ _ HO Hp) as (_ & N & _).
Qed.

(** The fields of nodes after stores. *)
Ltac node_fields := unfold node_upd, set_nodes, upd; cbn; repeat match goal with |- context [?x =? ?y] => destruct (Z.eqb_spec x y); subst; cbn end; try congruence; auto.

Definition is_nil (l : list Z) : bool := match l with [] => true | _ => false end.

(** The links after [n] was put behind the children [l] of [p]. *)
Record appended (nodes nodes' : Z -> uacpi_namespace_node) (l : list Z) (p n : Z) : Prop := {
  ap_name : forall a, nd_name (nodes' a) = nd_name (nodes a);
  ap_flags : forall a, nd_flags (nodes' a) = nd_flags (nodes a);
  ap_parent : forall a, nd_parent (nodes' a) = if a =? n then p else nd_parent (nodes a);
  ap_next : forall a, nd_next (nodes' a) = if negb (is_nil l) && (a =? last_v p l) then n else nd_next (nodes a);
  ap_child : forall a, nd_child (nodes' a) = if is_nil l && (a =? p) then n else nd_child (nodes a)
}.

Lemma install_appended kids p n fuel s : p <> 0 -> ns_at (ns_nodes s) kids p -> uacpi_namespace_node_is_dangling n s = false -> (length (kids p) <= fuel)%nat ->
  Returns (uacpi_node_install fuel p n s) (fun '(ret, s') => ret = UACPI_STATUS_OK /\ ns_mem s' = ns_mem s /\ ns_heap s' = ns_heap s /\ no_osi s' = no_osi s /\
    appended (ns_nodes s) (ns_nodes s') (kids p) p n).
Proof.
  intros Hp0 [Ac Al Ach _ _] Hd Hf. unfold uacpi_node_install. rewrite (proj2 (Z.eqb_neq p 0)), Hd, Ac by exact Hp0.
  destruct (kids p) as [|c r]; cbn [first_v].
  - cbn [Z.eqb mbind outcome_bind]. apply Returns_ret. splits; try reflexivity. split; intros a; cbn [is_nil negb andb last_v]; node_fields.
  - rewrite (proj2 (Z.eqb_neq c 0)) by (apply (pchain_in _ _ Ach), elem_of_cons; now left). rewrite (last_peer_spec r c fuel s Ach Al Hf).
    cbn [mbind outcome_bind]. apply Returns_ret. splits; try reflexivity. split; intros a; cbn [is_nil negb andb last_v]; node_fields.
Qed.

(** The parent gets one child more. *)
Lemma appended_parent nodes nodes' kids p n : ns_at nodes kids p -> appended nodes nodes' (kids p) p n -> n ∉ kids p -> n <> 0 -> p <> n ->
  nd_next (nodes n) = 0 -> name_ok (nd_name (nodes n)) -> (forall c, c ∈ kids p -> nd_name (nodes c) <> nd_name (nodes n)) ->
  ns_at nodes' (with_kids (with_kids kids n []) p (kids p ++ [n])) p.
Proof.
  intros [Ac Al Ach Ap An] [EN _ EP EX EC] Hn Hn0 Hpn Hnn Hno Hnm. unfold with_kids.
  assert (forall c, c ∈ kids p -> c <> n) as Hck by (intros c Hc ->; contradiction). split; rewrite Z.eqb_refl.
  - rewrite EC, Z.eqb_refl, andb_true_r, Ac. now destruct (kids p).
  - apply slinked_app. cbn [first_v slinked]. splits; [| |exact I].
    + apply (slinked_stop (fun a => nd_next (nodes a)) _ (kids p) p 0 n Al (proj1 Ach)). intros c Hc. rewrite EX. destruct (kids p); [now apply elem_of_nil in Hc|].
      cbn [is_nil negb andb]. now destruct (c =? _).
    + rewrite EX. destruct (Z.eqb_spec n (last_v p (kids p))) as [E|]; [|now rewrite andb_false_r]. destruct (kids p) as [|c r]; [exact Hnn|].
      exfalso. apply Hn. rewrite E. cbn [last_v]. apply last_v_in.
  - now apply pchain_snoc.
  - intros c Hc. rewrite EP, EN. apply elem_of_app in Hc as [Hc| ->%list_elem_of_singleton]; [|now rewrite Z.eqb_refl].
    rewrite (proj2 (Z.eqb_neq c n)) by now apply Hck. exact (Ap c Hc).
  - rewrite (map_ext _ _ EN), map_app. cbn [map]. apply NoDup_app. splits; [exact An| |apply NoDup_singleton].
    intros x (c & -> & Hc)%list_elem_of_fmap Hx%list_elem_of_singleton. exact (Hnm c Hc Hx).
Qed.

(** The tree with the new node is well-formed again. *)
Lemma appended_ok nodes nodes' kids l p n : ns_ok nodes kids -> walk kids uacpi_namespace_root l p -> appended nodes nodes' (kids p) p n ->
  (forall l, ~ walk kids uacpi_namespace_root l n) -> n <> 0 -> nd_child (nodes n) = 0 -> nd_next (nodes n) = 0 -> name_ok (nd_name (nodes n)) ->
  (forall c, c ∈ kids p -> nd_name (nodes c) <> nd_name (nodes n)) -> ns_ok nodes' (with_kids (with_kids kids n []) p (kids p ++ [n])).
Proof.
  intros HO Hw HA Hn Hn0 Hnc Hnn Hno Hnm. pose proof HA as [EN _ EP EX EC]. assert (p <> n) as Hpn by (intros ->; exact (Hn _ Hw)).
  assert (forall l q c, walk kids uacpi_namespace_root l q -> c ∈ kids q -> c <> n) as Hck by (intros l' q c Hq Hc ->; exact (Hn _ (walk_snoc _ _ _ _ _ Hq Hc))).
  assert (forall c, is_nil (kids p) = false -> c = last_v p (kids p) -> c ∈ kids p) as Hlast by (intros c Hk ->; destruct (kids p); [discriminate|cbn [last_v]; apply last_v_in]).
  split.
  - destruct (no_root _ _ HO) as (Hr & Hrp & Hrn). assert (uacpi_namespace_root <> n) as Nr by (intros E; apply (Hn []); rewrite <- E; constructor).
    rewrite EP, (proj2 (Z.eqb_neq _ n)), EX by exact Nr. splits; auto. destruct (is_nil (kids p)) eqn:Ek; [exact Hrn|]. cbn [negb andb].
    destruct (Z.eqb_spec uacpi_namespace_root (last_v p (kids p))) as [E|]; [|exact Hrn]. pose proof (Hlast _ eq_refl E) as Hin.
    pose proof (walk_nonzero _ _ _ _ HO Hw). pose proof (proj1 (na_parent _ _ _ (no_node _ _ HO _ _ Hw) _ Hin)). congruence.
  - intros l' q Hq. destruct (walk_installed kids p n Hn l' q Hq Hpn) as [[Nq Hwq]| ->].
    + destruct (Z.eq_dec q p) as [->|Nqp].
      * apply (appended_parent nodes); auto; [exact (no_node _ _ HO _ _ Hw)|]. intros Hin. exact (Hck _ _ _ Hw Hin eq_refl).
      * apply (ns_at_frame nodes nodes' kids); [exact (no_node _ _ HO _ _ Hwq)| | |].
        -- unfold with_kids. now rewrite (proj2 (Z.eqb_neq q p)), (proj2 (Z.eqb_neq q n)).
        -- rewrite EC, (proj2 (Z.eqb_neq q p)) by exact Nqp. now rewrite andb_false_r.
        -- intros c Hc. rewrite EX, EP, EN, (proj2 (Z.eqb_neq c n)) by exact (Hck _ _ _ Hwq Hc). splits; auto.
           destruct (is_nil (kids p)) eqn:Ek; [reflexivity|]. cbn [negb andb]. destruct (Z.eqb_spec c (last_v p (kids p))) as [E|]; [|reflexivity].
           exfalso. apply Nqp. exact (kids_disjoint _ _ _ _ _ _ c HO Hwq Hw Hc (Hlast c eq_refl E)).
    + unfold with_kids. split; rewrite ?(proj2 (Z.eqb_neq n p)), ?Z.eqb_refl by congruence; cbn [first_v slinked map]; try (now repeat constructor).
      * rewrite EC, (proj2 (Z.eqb_neq n p)), andb_false_r by congruence. exact Hnc.
Qed.

(** A new node becomes the last child of its parent; everything else stays where it was. *)
Theorem node_install_ok kids l p n fuel s : ns_ok (ns_nodes s) kids -> walk kids uacpi_namespace_root l p ->
  (forall l, ~ walk kids uacpi_namespace_root l n) -> n <> 0 -> uacpi_namespace_node_is_dangling n s = false ->
  nd_child (ns_nodes s n) = 0 -> nd_next (ns_nodes s n) = 0 -> name_ok (nd_name (ns_nodes s n)) ->
  (forall c, c ∈ kids p -> nd_name (ns_nodes s c) <> nd_name (ns_nodes s n)) -> (length (kids p) <= fuel)%nat ->
  Returns (uacpi_node_install fuel p n s) (fun '(ret, s') => ret = UACPI_STATUS_OK /\
    ns_ok (ns_nodes s') (with_kids (with_kids kids n []) p (kids p ++ [n])) /\
    (forall a, nd_name (ns_nodes s' a) = nd_name (ns_nodes s a)) /\ ns_mem s' = ns_mem s /\ ns_heap s' = ns_heap s).
Proof.
  intros HO Hw Hn Hn0 Hd Hnc Hnn Hno Hnm Hf.
  eapply Returns_mono; [exact (install_appended kids p n fuel s (walk_nonzero _ _ _ _ HO Hw) (no_node _ _ HO _ _ Hw) Hd Hf)|].
  intros [ret s'] (-> & Em & Eh & _ & HA). splits; auto; [|exact (ap_name _ _ _ _ _ HA)]. now apply (appended_ok (ns_nodes s) _ kids l p n).
Qed.

(** The links after [b] was taken out from between [l1] and [l2]. *)
Record removed (nodes nodes' : Z -> uacpi_namespace_node) (l1 : list Z) (p b : Z) : Prop := {
  rm_name : forall a, nd_name (nodes' a) = nd_name (nodes a);
  rm_parent : forall a, nd_parent (nodes' a) = nd_parent (nodes a);
  rm_next : forall a, nd_next (nodes' a) = if negb (is_nil l1) && (a =? last_v p l1) then nd_next (nodes b) else nd_next (nodes a);
  rm_child : forall a, nd_child (nodes' a) = if is_nil l1 && (a =? p) then nd_next (nodes b) else nd_child (nodes a)
}.

Lemma peer_before_spec b l2 l1 : forall a fuel s, pchain (a :: l1 ++ b :: l2) -> slinked (fun a => nd_next (ns_nodes s a)) (a :: l1 ++ b :: l2) 0 ->
  (length l1 < fuel)%nat -> peer_before fuel b a s = Ret (last_v a l1).
Proof.
  induction l1 as [|c l1 IH]; intros a [|f] s Hc Hl Hf; cbn [length app] in *; try lia; cbn [peer_before slinked first_v last_v] in *; destruct Hl as [E Hl]; rewrite E;
    rewrite (proj2 (Z.eqb_neq a 0)) by (apply (pchain_in _ _ Hc), elem_of_cons; now left).
  - now rewrite Z.eqb_refl.
  - pose proof (proj1 (proj2 (proj2 (pchain_middle [] a _ Hc)))) as Hc'.
    assert (c <> b) as Hcb by (intros ->; apply (proj1 (proj2 (proj2 (proj2 (proj2 (pchain_middle (b :: l1) b l2 Hc')))))), elem_of_cons; now left).
    rewrite (proj2 (Z.eqb_neq c b)) by exact Hcb. apply IH; [exact Hc'|exact Hl|lia].
Qed.

Lemma walk_mono (kids kids' : Z -> list Z) a l b : (forall a c, c ∈ kids a -> c ∈ kids' a) -> walk kids a l b -> walk kids' a l b.
Proof. intros Hs. induction 1 as [a|a c l d Hin Hq IH]; [constructor|]. apply (walk_down _ a c); auto. Qed.

(** The tree without the node and what is below it is well-formed. *)
Lemma removed_ok nodes nodes' kids l p b l1 l2 : ns_ok nodes kids -> walk kids uacpi_namespace_root l p -> kids p = l1 ++ b :: l2 ->
  removed nodes nodes' l1 p b -> ns_ok nodes' (with_kids kids p (l1 ++ l2)).
Proof.
  intros HO Hw Ek [EN EP EX EC]. pose proof (no_node _ _ HO _ _ Hw) as [Ac Al Ach Ap An]. rewrite Ek in *.
  assert (forall l' q, walk (with_kids kids p (l1 ++ l2)) uacpi_namespace_root l' q -> walk kids uacpi_namespace_root l' q) as Hsub.
  { intros l' q. apply walk_mono. intros a c Hin. unfold with_kids in Hin. destruct (Z.eqb_spec a p) as [->|]; [|exact Hin]. rewrite Ek.
    apply elem_of_app in Hin. apply elem_of_app. rewrite elem_of_cons. tauto. }
  destruct (pchain_middle l1 b l2 Ach) as (_ & C1 & C2 & C12 & Hb & _).
  assert (forall c, is_nil l1 = false -> c = last_v p l1 -> c ∈ l1 ++ b :: l2) as Hlast
    by (intros c Hk ->; destruct l1; [discriminate|]; cbn [last_v]; apply elem_of_app; left; apply last_v_in).
  split.
  - destruct (no_root _ _ HO) as (Hr & Hrp & Hrn). rewrite EP, EX. splits; auto. destruct (is_nil l1) eqn:E1; [exact Hrn|]. cbn [negb andb].
    destruct (Z.eqb_spec uacpi_namespace_root (last_v p l1)) as [E|]; [|exact Hrn]. pose proof (proj1 (Ap _ (Hlast _ eq_refl E))).
    pose proof (walk_nonzero _ _ _ _ HO Hw). congruence.
  - intros l' q Hq. specialize (Hsub l' q Hq). destruct (Z.eq_dec q p) as [->|Nqp].
    + unfold with_kids. split; rewrite Z.eqb_refl.
      * rewrite EC, Z.eqb_refl, andb_true_r, Ac. apply slinked_app in Al as [_ [Eb _]]. destruct l1; cbn [is_nil app first_v]; [exact Eb|reflexivity].
      * apply (slinked_remove (fun a => nd_next (nodes a)) _ l1 b l2 Al Ach). intros x Hx. rewrite EX. destruct l1 as [|c r]; [reflexivity|]. cbn [is_nil negb andb last_v].
        rewrite (proj2 (Z.eqb_neq (last_v c r) 0)); [reflexivity|]. apply (pchain_in _ _ C1), last_v_in.
      * exact C12.
      * intros c Hc. rewrite EP, EN. apply Ap. apply elem_of_app in Hc. apply elem_of_app. rewrite elem_of_cons. tauto.
      * rewrite (map_ext _ _ EN). rewrite map_app in An |- *. cbn [map] in An. apply NoDup_app in An as (N1 & N12 & N2). apply NoDup_cons in N2 as [_ N2].
        apply NoDup_app. splits; auto. intros x Hx Hx2. apply (N12 x Hx). apply elem_of_cons. now right.
    + apply (ns_at_frame nodes nodes' kids); [exact (no_node _ _ HO _ _ Hsub)| | |].
      * unfold with_kids. now rewrite (proj2 (Z.eqb_neq q p)).
      * rewrite EC, (proj2 (Z.eqb_neq q p)) by exact Nqp. now rewrite andb_false_r.
      * intros c Hc. rewrite EX, EP, EN. splits; auto. destruct (is_nil l1) eqn:E1; [reflexivity|]. cbn [negb andb].
        destruct (Z.eqb_spec c (last_v p l1)) as [E|]; [|reflexivity]. exfalso. apply Nqp. apply (kids_disjoint _ _ _ _ _ _ c HO Hsub Hw Hc). rewrite Ek. exact (Hlast c eq_refl E).
Qed.

Lemma no_self nodes kids l b : ns_ok nodes kids -> walk kids uacpi_namespace_root l b -> nd_parent (nodes b) <> b.
Proof.
  intros HO Hw E. pose proof (walk_nonzero _ _ _ _ HO Hw) as Hb. induction l as [|x l IH] using rev_ind.
  - rewrite (walk_nil _ _ _ Hw) in *. pose proof (proj1 (proj2 (no_root _ _ HO))). congruence.
  - destruct (walk_parent _ _ _ _ _ HO Hw) as (_ & _ & _ & _ & Hp & _). rewrite E in Hp. exact (IH Hp).
Qed.

(** What is left to do once the node is out of the list. *)
Lemma unref_spec b s : 0 < nd_shareable (ns_nodes s b) < BUGGED_REFCOUNT ->
  uacpi_namespace_node_unref b s =
    if nd_shareable (ns_nodes s b) =? 1 then free_namespace_node b (node_upd b (set_shareable 0) s)
    else Ret (node_upd b (set_shareable (nd_shareable (ns_nodes s b) - 1)) s).
Proof.
  unfold uacpi_namespace_node_unref, uacpi_shareable_unref_and_delete_if_last, uacpi_shareable_unref, uacpi_bugged_shareable, BUGGED_REFCOUNT.
  generalize (nd_shareable (ns_nodes s b)). intros n Hn. repeat rewrite ?(proj2 (Z.eqb_neq n 0)), ?(proj2 (Z.eqb_neq n 0xFFFFFFFF)) by lia.
  rewrite wrap_small by (pow2_consts; lia). destruct (Z.eqb_spec n 1) as [->|]; reflexivity.
Qed.

Lemma drop_object_spec b s : nd_object (ns_nodes s b) <> Some Obj_operation_region ->
  ns_heap (drop_object b s) = ns_heap s /\ nd_object (ns_nodes (drop_object b s) b) = None /\
  forall a, nd_name (ns_nodes (drop_object b s) a) = nd_name (ns_nodes s a) /\ nd_parent (ns_nodes (drop_object b s) a) = nd_parent (ns_nodes s a) /\
    nd_next (ns_nodes (drop_object b s) a) = nd_next (ns_nodes s a) /\ nd_child (ns_nodes (drop_object b s) a) = nd_child (ns_nodes s a) /\
    nd_shareable (ns_nodes (drop_object b s) a) = nd_shareable (ns_nodes s a).
Proof.
  intros Hob. unfold drop_object. destruct (nd_object (ns_nodes s b)) as [[]|] eqn:E; try congruence; splits; auto; node_fields; intros a; node_fields; splits; node_fields.
Qed.

(** A node that is out of the list: marked, and one reference less. *)
Lemma detached_spec `{KHL : !KernelHeapLaws H} b s live size :
  let s1 := node_upd b (fun n => set_flags (Z.lor (nd_flags n) UACPI_NAMESPACE_NODE_FLAG_DANGLING) n) s in
  b <> 0 -> 0 < nd_shareable (ns_nodes s b) < BUGGED_REFCOUNT -> nd_object (ns_nodes s b) = None -> kh_ok (ns_heap s) -> kh_live (ns_heap s) ((b, size) :: live) ->
  Returns (uacpi_namespace_node_unref b s1) (fun s' =>
    uacpi_namespace_node_is_dangling b s' = true /\ nd_object (ns_nodes s' b) = None /\ nd_shareable (ns_nodes s' b) = nd_shareable (ns_nodes s b) - 1 /\
    kh_ok (ns_heap s') /\ kh_live (ns_heap s') (if nd_shareable (ns_nodes s b) =? 1 then live else (b, size) :: live) /\
    forall a, nd_name (ns_nodes s' a) = nd_name (ns_nodes s a) /\ nd_parent (ns_nodes s' a) = nd_parent (ns_nodes s a) /\
      nd_next (ns_nodes s' a) = nd_next (ns_nodes s a) /\ nd_child (ns_nodes s' a) = nd_child (ns_nodes s a)).
Proof.
  intros s1 Hb0 Hr Ho Hok Hlive. assert (nd_shareable (ns_nodes s1 b) = nd_shareable (ns_nodes s b)) as Es by (unfold s1; node_fields).
  assert (forall f, negb (Z.land (Z.lor f UACPI_NAMESPACE_NODE_FLAG_DANGLING) UACPI_NAMESPACE_NODE_FLAG_DANGLING =? 0) = true) as Hfl.
  { intros f. apply negb_true_iff, Z.eqb_neq. intros E. apply (f_equal (fun x => Z.testbit x 1)) in E.
    rewrite Z.land_spec, Z.lor_spec, Z.testbit_0_l in E. change (Z.testbit UACPI_NAMESPACE_NODE_FLAG_DANGLING 1) with true in E. now rewrite orb_true_r in E. }
  rewrite unref_spec by (rewrite Es; exact Hr). rewrite Es. destruct (Z.eqb_spec (nd_shareable (ns_nodes s b)) 1) as [E|E].
  - unfold free_namespace_node, uacpi_kernel_free. rewrite (proj2 (Z.eqb_neq b 0)) by exact Hb0. cbn [ns_heap node_upd set_nodes s1].
    destruct (kh_free_spec b size live (ns_heap s) Hok Hlive) as (h & -> & Hok' & Hlive'). cbn [mbind outcome_bind]. apply Returns_ret.
    split; [unfold uacpi_namespace_node_is_dangling, s1, node_upd, set_nodes, set_memory; cbn [ns_nodes]; rewrite !upd_eq; apply Hfl|].
    splits; auto; unfold s1; try (intros a; splits); node_fields; lia.
  - apply Returns_ret. split; [unfold uacpi_namespace_node_is_dangling, s1, node_upd, set_nodes, set_memory; cbn [ns_nodes]; rewrite !upd_eq; apply Hfl|].
    splits; auto; unfold s1; try (intros a; splits); node_fields; lia.
Qed.

(** Removing a node: it is taken out of the list of its parent, with all that is below it,
    loses its object and is marked as removed; its memory is given back when nobody else
    has a reference to it. *)
Theorem node_uninstall_ok `{KHL : !KernelHeapLaws H} kids l p b fuel s live size :
  ns_ok (ns_nodes s) kids -> walk kids uacpi_namespace_root l p -> b ∈ kids p -> uacpi_namespace_node_is_dangling b s = false ->
  nd_object (ns_nodes s b) <> Some Obj_operation_region -> 0 < nd_shareable (ns_nodes s b) < BUGGED_REFCOUNT -> (length (kids p) < fuel)%nat ->
  kh_ok (ns_heap s) -> kh_live (ns_heap s) ((b, size) :: live) ->
  Returns (uacpi_node_uninstall fuel b s) (fun s' => exists l1 l2, kids p = l1 ++ b :: l2 /\ ns_ok (ns_nodes s') (with_kids kids p (l1 ++ l2)) /\
    uacpi_namespace_node_is_dangling b s' = true /\ nd_object (ns_nodes s' b) = None /\ nd_shareable (ns_nodes s' b) = nd_shareable (ns_nodes s b) - 1 /\
    kh_ok (ns_heap s') /\ kh_live (ns_heap s') (if nd_shareable (ns_nodes s b) =? 1 then live else (b, size) :: live)).
Proof.
  intros HO Hw Hin Hd Hob Hr Hf Hok Hlive. pose proof (no_node _ _ HO _ _ Hw) as [Ac Al Ach Ap _].
  destruct (list_elem_of_split _ _ Hin) as (l1 & l2 & Ek). pose proof (walk_nonzero _ _ _ _ HO Hw) as Hp0. pose proof (proj1 (Ap _ Hin)) as Epb.
  rewrite Ek in Ac, Al, Ach, Hf. destruct (pchain_middle l1 b l2 Ach) as (Hb0 & _ & _ & _ & Hb & _).
  assert (p <> b) as Hpb by (intros ->; exact (no_self _ _ _ _ HO Hw Epb)).
  unfold uacpi_node_uninstall. rewrite Hd. destruct (drop_object_spec b s Hob) as (Eh1 & Eo & E1). set (s1 := drop_object b s) in *.
  destruct (E1 b) as (_ & -> & -> & _ & Es). rewrite Epb, (proj2 (Z.eqb_neq p 0)) by exact Hp0. destruct (E1 p) as (_ & _ & _ & -> & _). rewrite Ac.
  assert (forall s2, ns_heap s2 = ns_heap s1 -> nd_object (ns_nodes s2 b) = None -> nd_shareable (ns_nodes s2 b) = nd_shareable (ns_nodes s b) -> removed (ns_nodes s) (ns_nodes s2) l1 p b ->
    Returns (uacpi_namespace_node_unref b (node_upd b (fun n => set_flags (Z.lor (nd_flags n) UACPI_NAMESPACE_NODE_FLAG_DANGLING) n) s2)) (fun s' =>
      exists l1 l2, kids p = l1 ++ b :: l2 /\ ns_ok (ns_nodes s') (with_kids kids p (l1 ++ l2)) /\
      uacpi_namespace_node_is_dangling b s' = true /\ nd_object (ns_nodes s' b) = None /\ nd_shareable (ns_nodes s' b) = nd_shareable (ns_nodes s b) - 1 /\
      kh_ok (ns_heap s') /\ kh_live (ns_heap s') (if nd_shareable (ns_nodes s b) =? 1 then live else (b, size) :: live))) as Hfin.
  { intros s2 E2 O2 S2 R2. eapply Returns_mono; [apply (detached_spec b s2 live size); [exact Hb0|rewrite S2; exact Hr|exact O2|now rewrite E2, Eh1|now rewrite E2, Eh1]|].
    intros s' (D1 & D2 & D3 & D4 & D5 & D6). exists l1, l2. rewrite S2 in D3, D5. splits; auto. apply (removed_ok (ns_nodes s) _ kids l p b l1 l2 HO Hw Ek).
    destruct R2 as [RN RP RX RC]. split; intros a; destruct (D6 a) as (F1 & F2 & F3 & F4); rewrite ?F1, ?F2, ?F3, ?F4; auto. }
  destruct l1 as [|c r].
  - cbn [app first_v]. rewrite Z.eqb_refl. apply Hfin; [reflexivity|..]; [node_fields|rewrite <- Es; node_fields|].
    split; intros a; destruct (E1 a) as (F1 & F2 & F3 & F4 & _); cbn [is_nil negb andb]; rewrite <- ?F1, <- ?F2, <- ?F3, <- ?F4; node_fields.
  - cbn [app first_v]. assert (c <> b) as Hcb by (intros ->; apply Hb, elem_of_cons; now left). rewrite (proj2 (Z.eqb_neq c b)) by exact Hcb.
    rewrite (peer_before_spec b l2 r c fuel s1); [|exact Ach| |rewrite length_app in Hf; cbn [length] in Hf; lia].
    + assert (last_v c r ∈ c :: r) as Hlin by apply last_v_in. assert (last_v c r <> 0) as Hl0 by (apply (pchain_in _ _ Ach), elem_of_app; now left).
      assert (last_v c r <> b) as Hlb by (intros E; apply Hb, elem_of_app; left; now rewrite <- E).
      cbn [mbind outcome_bind]. rewrite (proj2 (Z.eqb_neq _ 0)) by exact Hl0. apply Hfin; [reflexivity|..]; [node_fields|rewrite <- Es; node_fields|].
      split; intros a; destruct (E1 a) as (F1 & F2 & F3 & F4 & _); cbn [is_nil negb andb last_v]; rewrite <- ?F1, <- ?F2, <- ?F3, <- ?F4; node_fields.
    + apply (slinked_frame (fun a => nd_next (ns_nodes s a))); [|exact Al]. intros a _. exact (proj1 (proj2 (proj2 (E1 a)))).
Qed.

(** ** The predefined nodes *)

(** The numbers installed below the root before [i]. *)
Definition installed (osi : bool) (i : Z) : list Z :=
  filter (fun ns => negb ((ns =? UACPI_PREDEFINED_NAMESPACE_OSI) && osi) = true) (map Z.of_nat (seq 1 (Z.to_nat (i - 1)))).
Definition flat_kids (l : list Z) : Z -> list Z := fun x => if x =? uacpi_namespace_root then l else [].

Lemma installed_in osi i ns : ns ∈ installed osi i -> 1 <= ns < i.
Proof. unfold installed. rewrite list_elem_of_filter. intros [_ (k & -> & Hk%elem_of_seq)%list_elem_of_fmap]. lia. Qed.

Lemma installed_step osi i : 1 <= i -> installed osi (i + 1) = installed osi i ++ (if (i =? UACPI_PREDEFINED_NAMESPACE_OSI) && osi then [] else [i]).
Proof.
  intros Hi. unfold installed. replace (Z.to_nat (i + 1 - 1)) with (S (Z.to_nat (i - 1))) by lia. rewrite seq_S, map_app, filter_app. f_equal. cbn [map].
  replace (Z.of_nat (1 + Z.to_nat (i - 1))) with i by lia. rewrite filter_cons, filter_nil. now destruct ((i =? UACPI_PREDEFINED_NAMESPACE_OSI) && osi).
Qed.

Lemma installed_length osi i fuel : (10 <= fuel)%nat -> i <= 9 -> (length (installed osi i) <= fuel)%nat.
Proof. intros Hf Hi. unfold installed. etransitivity; [apply length_filter|]. rewrite length_map, length_seq. lia. Qed.

Lemma predefined_inj i j : predefined i = predefined j -> i = j.
Proof. unfold predefined, NODE_SIZE. lia. Qed.

Lemma flat_walk l k a : walk (flat_kids l) uacpi_namespace_root k a -> uacpi_namespace_root ∉ l -> a = uacpi_namespace_root \/ a ∈ l.
Proof.
  intros Hw Hr. destruct k as [|c k _] using rev_ind; [left; exact (walk_nil _ _ _ Hw)|]. destruct (walk_snoc_inv _ _ _ _ _ Hw) as (-> & p & _ & Hin).
  unfold flat_kids in Hin. destruct (p =? uacpi_namespace_root); [now right|now apply elem_of_nil in Hin].
Qed.

Lemma ns_ok_ext nodes kids kids' : (forall x, kids' x = kids x) -> ns_ok nodes kids -> ns_ok nodes kids'.
Proof.
  intros He [Hr Hn]. split; [exact Hr|]. intros l p Hw. apply (ns_at_frame nodes nodes kids); auto. apply (Hn l). apply (walk_mono kids'); [|exact Hw]. intros a c. now rewrite He.
Qed.

(** The names of the array. *)
Lemma predefined_names i : 1 <= i <= 9 -> name_ok (predefined_name i) /\ forall j, 1 <= j <= 9 -> predefined_name i = predefined_name j -> i = j.
Proof.
  assert (forall j, 1 <= j <= 9 -> j = 1 \/ j = 2 \/ j = 3 \/ j = 4 \/ j = 5 \/ j = 6 \/ j = 7 \/ j = 8 \/ j = 9) as Hc by lia. intros Hi.
  split; [|intros j Hj; destruct (Hc j Hj) as [-> |[-> |[-> |[-> |[-> |[-> |[-> |[-> | ->]]]]]]]]];
    destruct (Hc i Hi) as [-> |[-> |[-> |[-> |[-> |[-> |[-> |[-> | ->]]]]]]]]; try (intros E; reflexivity || discriminate E);
    (split; [reflexivity|]; repeat constructor; unfold DOT_CHAR; cbv; congruence).
Qed.

(** A node of the array that is not yet in the tree. *)
Definition blank (s : ns_state) (i : Z) : Prop :=
  let n := ns_nodes s (predefined i) in nd_name n = predefined_name i /\ nd_flags n = 0 /\ nd_parent n = 0 /\ nd_child n = 0 /\ nd_next n = 0.

Lemma init_nodes mutex s : (forall i, 0 <= i <= 9 -> blank s i) ->
  Returns (for_up 10 0 (init_predefined_node mutex) s) (fun s' => (forall i, 0 <= i <= 9 -> blank s' i) /\ no_osi s' = no_osi s).
Proof.
  intros Hb. eapply Returns_mono; [apply (for_up_Returns (fun _ s' => (forall i, 0 <= i <= 9 -> blank s' i) /\ no_osi s' = no_osi s))|now intros s' Hs]; [auto|].
  intros k s1 _ [H1 H2]. unfold init_predefined_node. destruct (make_object_for_predefined mutex k _) as [obj s2] eqn:E. apply Returns_ret.
  assert (ns_nodes s2 = ns_nodes (node_upd (predefined k) (set_shareable uacpi_shareable_init) s1) /\ no_osi s2 = no_osi s1) as [E1 E2]
    by (unfold make_object_for_predefined in E; repeat match type of E with context [if ?b then _ else _] => destruct b end; injection E as <- <-; split; reflexivity).
  split; [|cbn; congruence]. intros i Hi. specialize (H1 i Hi). unfold blank in *. cbn [ns_nodes node_upd set_nodes]. rewrite E1.
  destruct (Z.eq_dec (predefined i) (predefined k)) as [->%predefined_inj|Hne]; unfold node_upd, set_nodes; cbn [ns_nodes]; [now rewrite !upd_eq|now rewrite !upd_ne by exact Hne].
Qed.

Definition predefined_list (osi : bool) (i : Z) : list Z := map predefined (installed osi i).

Lemma predefined_list_in osi i a : a ∈ predefined_list osi i -> exists j, a = predefined j /\ 1 <= j < i.
Proof. intros (j & -> & Hj)%list_elem_of_fmap. exists j. split; [reflexivity|exact (installed_in _ _ _ Hj)]. Qed.

Lemma root_not_listed osi i : uacpi_namespace_root ∉ predefined_list osi i.
Proof. intros (j & E%predefined_inj & Hj)%predefined_list_in. unfold UACPI_PREDEFINED_NAMESPACE_ROOT in E. lia. Qed.

Definition install_inv (osi : bool) (i : Z) (s : ns_state) : Prop :=
  ns_ok (ns_nodes s) (flat_kids (predefined_list osi i)) /\ no_osi s = osi /\ (forall j, i <= j <= 9 -> blank s j) /\
  forall j, 1 <= j <= 9 -> nd_name (ns_nodes s (predefined j)) = predefined_name j.

Lemma install_predefined_spec osi fuel i s : 0 < predefined_namespaces -> (10 <= fuel)%nat -> 1 <= i <= 9 -> install_inv osi i s ->
  Returns (install_predefined fuel i s) (install_inv osi (i + 1)).
Proof.
  intros Hbase Hf Hi (HO & Eo & Hb & Hn). unfold install_predefined. rewrite Eo. unfold install_inv. unfold predefined_list at 1. rewrite installed_step by lia.
  destruct ((i =? UACPI_PREDEFINED_NAMESPACE_OSI) && osi).
  - apply Returns_ret. rewrite app_nil_r. splits; auto. intros j Hj. apply Hb. lia.
  - destruct (Hb i ltac:(lia)) as (B1 & B2 & B3 & B4 & B5). destruct (predefined_names i Hi) as [N1 N2]. set (n := predefined i) in *.
    set (kids := flat_kids (predefined_list osi i)) in *. pose proof (walk_here kids uacpi_namespace_root) as Hw.
    assert (kids uacpi_namespace_root = predefined_list osi i) as Ek by (unfold kids, flat_kids; now rewrite Z.eqb_refl).
    assert (forall j, i < j <= 9 -> predefined j ∉ predefined_list osi i) as Hout by (intros j Hj (k & E%predefined_inj & Hk)%predefined_list_in; lia).
    assert (forall l, ~ walk kids uacpi_namespace_root l n) as Hfresh.
    { intros l Hl. destruct (flat_walk _ _ _ Hl (root_not_listed osi i)) as [E%predefined_inj|(k & E%predefined_inj & Hk)%predefined_list_in]; unfold UACPI_PREDEFINED_NAMESPACE_ROOT in *; lia. }
    assert (n <> uacpi_namespace_root) as Hnr by (intros E; apply (Hfresh []); rewrite E; constructor).
    assert (n <> 0) as Hn0 by (unfold n, predefined, NODE_SIZE; lia).
    assert (length (kids uacpi_namespace_root) <= fuel)%nat as Hlen by (rewrite Ek; unfold predefined_list; rewrite length_map; exact (installed_length osi i fuel Hf ltac:(lia))).
    assert (uacpi_namespace_node_is_dangling n s = false) as Hd by (unfold uacpi_namespace_node_is_dangling; now rewrite B2).
    destruct (install_appended kids uacpi_namespace_root n fuel s (walk_nonzero _ _ _ _ HO Hw) (no_node _ _ HO _ _ Hw) Hd Hlen) as ([ret s'] & -> & _ & _ & _ & Eo' & HA).
    cbn [mbind outcome_bind]. apply Returns_ret. pose proof HA as [EN EF EP EX EC]. rewrite Ek in *.
    splits; [|congruence| |intros j Hj; rewrite EN; now apply Hn].
    + apply (ns_ok_ext _ (with_kids (with_kids kids n []) uacpi_namespace_root (kids uacpi_namespace_root ++ [n]))).
      * intros x. unfold with_kids, kids, flat_kids, predefined_list. rewrite Z.eqb_refl, map_app. destruct (x =? uacpi_namespace_root); [reflexivity|now destruct (x =? n)].
      * apply (appended_ok (ns_nodes s) _ kids [] _ n HO Hw); auto; rewrite ?B1, ?Ek; auto.
        intros c (j & -> & Hj)%predefined_list_in. rewrite Hn by lia. intros E. specialize (N2 j ltac:(lia) (eq_sym E)). lia.
    + intros j Hj. destruct (Hb j ltac:(lia)) as (C1 & C2 & C3 & C4 & C5). unfold blank. rewrite EN, EF, EP, EX, EC. splits; auto.
      * rewrite (proj2 (Z.eqb_neq _ n)); [exact C3|]. intros E%predefined_inj. lia.
      * rewrite (proj2 (Z.eqb_neq _ uacpi_namespace_root)), andb_false_r; [exact C4|]. intros E%predefined_inj. unfold UACPI_PREDEFINED_NAMESPACE_ROOT in E. lia.
      * destruct (Z.eqb_spec (predefined j) (last_v uacpi_namespace_root (predefined_list osi i))) as [E|]; [|now rewrite andb_false_r].
        destruct (predefined_list osi i) as [|c r] eqn:El; [exact C5|]. exfalso. apply (Hout j ltac:(lia)). rewrite E. cbn [last_v]. apply last_v_in.
Qed.

(** The predefined nodes are set up: the name space is the root with them as its children, in
    order, each with its name and its object, so that [\_SB_] and the others can be found;
    [_OSI] is left out when the user asks for it. *)
Theorem namespace_predefined_ok mutex fuel s : 0 < predefined_namespaces -> (10 <= fuel)%nat -> (forall i, 0 <= i <= 9 -> blank s i) ->
  Returns (uacpi_namespace_initialize_predefined fuel mutex s) (fun '(ret, s') => ret = UACPI_STATUS_OK /\
    ns_ok (ns_nodes s') (flat_kids (predefined_list (no_osi s) 10)) /\ forall j, 1 <= j <= 9 -> nd_name (ns_nodes s' (predefined j)) = predefined_name j).
Proof.
  intros Hbase Hf Hb. unfold uacpi_namespace_initialize_predefined. eapply Returns_bind; [exact (init_nodes mutex s Hb)|]. intros s1 [B1 Eo].
  eapply Returns_bind; [apply (for_up_Returns (install_inv (no_osi s)))|].
  - destruct (B1 0 ltac:(lia)) as (_ & _ & R3 & R4 & R5). unfold install_inv. splits; auto; [|intros j Hj; apply B1; unfold UACPI_PREDEFINED_NAMESPACE_GPE in Hj; lia|intros j Hj; now destruct (B1 j ltac:(lia))].
    split; [splits; [unfold uacpi_namespace_root, predefined, UACPI_PREDEFINED_NAMESPACE_ROOT, NODE_SIZE; lia|exact R3|exact R5]|].
    intros l p Hw. destruct (flat_walk _ _ _ Hw (root_not_listed _ _)) as [->|Hin]; [|now apply elem_of_nil in Hin].
    assert (flat_kids (predefined_list (no_osi s) UACPI_PREDEFINED_NAMESPACE_GPE) uacpi_namespace_root = []) as Ek by (unfold flat_kids; now rewrite Z.eqb_refl).
    split; rewrite Ek; cbn [first_v slinked map]; [exact R4|exact I|split; constructor| |constructor]. intros c Hc. now apply elem_of_nil in Hc.
  - intros k s2 Hk HI. unfold UACPI_PREDEFINED_NAMESPACE_GPE in Hk. apply install_predefined_spec; [exact Hbase|exact Hf|lia|exact HI].
  - intros s2 (HO & _ & _ & HN). apply Returns_ret. splits; auto.
Qed.

(** ** Where it goes wrong *)

(** Without a scope the search starts at the root, but the search above it then follows the
    NULL pointer: a single name that is not found is an access through NULL. *)
Theorem resolve_without_scope_faults kids name path fuel s : ns_ok (ns_nodes s) kids -> name_ok name -> cstr (ns_mem s) path name ->
  hd 0 name <> BACKSLASH -> hd 0 name <> CARET -> (forall c, c ∈ kids uacpi_namespace_root -> nd_name (ns_nodes s c) <> name) ->
  (length (kids uacpi_namespace_root) + 5 < fuel)%nat ->
  uacpi_namespace_node_find fuel 0 path s = Ret 0 /\ uacpi_namespace_node_resolve_from_aml_namepath fuel 0 path s = Fault.
Proof.
  intros HO Hok Hc Hb Hca Hno Hf. pose proof (proj1 Hok) as Hlen. pose proof (no_node _ _ HO _ _ (walk_here kids _)) as At.
  assert (ns_mem s path = hd 0 name) as Ep by (destruct name; [discriminate|]; exact (proj1 Hc)).
  assert (hd 0 name <> DOT_CHAR) as Hdot by (destruct Hok as [_ HF]; destruct name as [|c r]; [discriminate|]; apply Forall_cons in HF as [[_ N] _]; exact N).
  assert (uacpi_namespace_node_find_sub_node fuel uacpi_namespace_root name s = Ret 0) as Ef.
  { rewrite (find_sub_node_spec _ _ _ _ _ (proj1 (no_root _ _ HO)) At) by lia. f_equal. apply named_none. intros (c & Hin & E). exact (Hno c Hin E). }
  pose proof (segment_to_name_spec (ns_mem s) path name [] Hok ltac:(now rewrite app_nil_r) ltac:(cbn [length]; lia)) as Es. rewrite app_nil_r in Es.
  unfold uacpi_namespace_node_find, uacpi_namespace_node_resolve_from_aml_namepath, uacpi_namespace_node_do_find. rewrite (uacpi_strlen_spec _ _ fuel path Hc) by lia.
  cbn [mbind outcome_bind Z.eqb]. destruct fuel as [|f]; [lia|]. cbn [path_prefix path_names].
  rewrite Ep, (proj2 (Z.eqb_neq (hd 0 name) BACKSLASH)), (proj2 (Z.eqb_neq (hd 0 name) CARET)) by assumption. rewrite (proj2 (Z.eqb_neq (Z.of_nat (length name)) 0)) by lia.
  cbn [mbind outcome_bind]. rewrite Ep, (proj2 (Z.eqb_neq (Z.of_nat (length name)) 0)), (proj2 (Z.eqb_neq (hd 0 name) DOT_CHAR)) by (lia || exact Hdot). rewrite Es.
  cbn [length] in Es |- *. rewrite Ef. split; reflexivity.
Qed.
End Namespace.
Arguments ns_state : clear implicits.

(** ** A name space *)

#[local] Instance demo_heap : KernelHeap (kheap_state pmm_state) := kheap_heap HHDM.
#[local] Instance demo_heap_laws : KernelHeapLaws (kheap_state pmm_state) := kheap_heap_laws HHDM.

(** [\_SB_.PCI0.ISA_] and [\_TZ_]. *)
Definition ns_demo_nodes : Z -> uacpi_namespace_node := fun a =>
  if a =? 1000 then mk_node 1 [BACKSLASH; 0; 0; 0] 0 None 0 1144 0
  else if a =? 1144 then mk_node 1 (chars "_SB_") 0 None 1000 5000 1240
  else if a =? 1240 then mk_node 1 (chars "_TZ_") 0 None 1000 0 0
  else if a =? 5000 then mk_node 1 (chars "PCI0") 0 None 1144 6000 0
  else mk_node 1 (chars "ISA_") 0 None 5000 0 0.
Definition ns_demo_kids : Z -> list Z := fun a => if a =? 1000 then [1144; 1240] else if a =? 1144 then [5000] else if a =? 5000 then [6000] else [].
Definition ns_demo : ns_state (kheap_state pmm_state) := mk_ns ns_demo_nodes (fun _ => 0) heap_demo 0 false.

Lemma ns_demo_reach l a : walk ns_demo_kids 1000 l a -> a ∈ [1000; 1144; 1240; 5000; 6000].
Proof.
  intros Hw. destruct l as [|c l _] using rev_ind; [rewrite (walk_nil _ _ _ Hw); now left|]. destruct (walk_snoc_inv _ _ _ _ _ Hw) as (-> & p & _ & Hin).
  unfold ns_demo_kids in Hin. repeat match type of Hin with context [if ?b then _ else _] => destruct b end;
    repeat (apply elem_of_cons in Hin as [->|Hin]; [set_solver|]); now apply elem_of_nil in Hin.
Qed.

Lemma ns_demo_ok : ns_ok 1000 ns_demo_nodes ns_demo_kids.
Proof.
  split; [splits; [discriminate|reflexivity|reflexivity]|]. intros l p Hw. change (uacpi_namespace_root 1000) with 1000 in Hw. apply ns_demo_reach in Hw.
  repeat (apply elem_of_cons in Hw as [->|Hw]; [split;
    [reflexivity|vm_compute; auto|split; [vm_compute; apply (bool_decide_unpack _); vm_compute; exact I|repeat constructor; discriminate]|
     intros c Hc; vm_compute in Hc; repeat (apply elem_of_cons in Hc as [->|Hc]; [split; [reflexivity|split; [reflexivity|repeat constructor; cbv; congruence]]|]); now apply elem_of_nil in Hc|
     vm_compute; apply (bool_decide_unpack _); vm_compute; exact I]|]). now apply elem_of_nil in Hw.
Qed.

Lemma ns_demo_wide l p : walk ns_demo_kids 1000 l p -> (length (ns_demo_kids p) < 3)%nat.
Proof. intros Hw. apply ns_demo_reach in Hw. repeat (apply elem_of_cons in Hw as [->|Hw]; [cbv; lia|]). now apply elem_of_nil in Hw. Qed.

Lemma ns_demo_walk : walk ns_demo_kids 1000 [1144; 5000; 6000] 6000.
Proof. repeat (eapply walk_down; [vm_compute; set_solver|]). constructor. Qed.

Lemma ns_path_roundtrip_witness :
  Safe (uacpi_namespace_node_generate_absolute_path 1000 30 6000 ns_demo) (fun '(path, s') =>
    cstr (ns_mem s') path (chars "\_SB_.PCI0.ISA_") /\ uacpi_namespace_node_find 1000 30 1240 path s' = Ret 6000) /\
  (exists path s', uacpi_namespace_node_generate_absolute_path 1000 30 6000 ns_demo = Ret (path, s')).
Proof.
  split; [|eexists _, _; vm_compute; reflexivity].
  pose proof (ns_path_roundtrip 1000 ns_demo_kids 3 [1144; 5000; 6000] 6000 30 ns_demo [] ns_demo_ok ns_demo_walk ns_demo_wide ltac:(cbn; lia) ltac:(cbn; lia)
    (proj1 heap_demo_live) (proj2 heap_demo_live)) as HR.
  destruct (uacpi_namespace_node_generate_absolute_path 1000 30 6000 ns_demo) as [[path s']| | | |]; try contradiction; [|exact I].
  destruct HR as (H1 & H2 & _). split; [exact H1|apply H2].
Defined.

Definition ns_demo_tree : ntree := NT 1000 [NT 1144 [NT 5000 [NT 6000 []]]; NT 1240 []].

(** Note the node; do not look below the PCI bus. *)
Definition note_node (a : Z) (u : list Z) : uacpi_ns_iteration_decision * list Z := (if a =? 5000 then DECISION_NEXT_PEER else DECISION_CONTINUE, u ++ [a]).

Lemma for_each_visits_witness :
  uacpi_namespace_for_each_node_depth_first 20 1000 note_node [] ns_demo = Ret [1000; 1144; 5000; 1240] /\
  uacpi_namespace_for_each_node_depth_first 20 1144 note_node [] ns_demo = Ret [1144; 5000; 1240].
Proof.
  assert (agrees ns_demo_kids ns_demo_tree) as Ha by (repeat (constructor; [vm_compute; reflexivity|]); repeat constructor).
  destruct (for_each_visits 1000 note_node ns_demo_kids ns_demo_tree [] 20 [] ns_demo ns_demo_ok (walk_here _ _) Ha ltac:(vm_compute; reflexivity) ltac:(vm_compute; lia)) as [H1 H2].
  split; [exact (H1 eq_refl)|exact H2].
Defined.

(** A change of the name space that is checked by evaluation: a node is added below the bus,
    found, removed again and no longer found. *)
Example ns_install_uninstall :
  (r ← uacpi_namespace_node_alloc (chars "FDC0") ns_demo;
   let '(n, s) := r in
   '(_, s) ← uacpi_node_install 1000 9 5000 n s;
   a ← uacpi_namespace_node_find_sub_node 1000 9 5000 (chars "FDC0") s;
   s ← uacpi_node_uninstall (fun _ s => s) 9 n s;
   b ← uacpi_namespace_node_find_sub_node 1000 9 5000 (chars "FDC0") s;
   Ret (a =? n, b, nd_next (ns_nodes s 6000))) = Ret (true, 0, 0).
Proof. vm_compute. reflexivity. Qed.
