(* ===== verification/UacpiReg.v ===== *)
(** * Hardware registers of ACPI ([kernel/acpi/uacpi/registers.c], [io.c])

    Registers are described by generic addresses (memory or ports, in accesses of one
    width); the fixed registers have one or two blocks that are read together and written
    together, and named fields of bits.  The state is the memory and the ports; a variable
    that is read before it is written has the value [junk]. *)

From S2P Require Import Prelude DeviceIds Interfaces MemMap Pmm MemUtil Kheap ListDs Path Vnode Initrd Bytes Ports Module Elf Device Pci AcpiOs UacpiLib UacpiIo UacpiMutex.
#[local] Open Scope Z_scope.

Definition UACPI_STATUS_NOT_FOUND : Z := 6.
Definition UACPI_STATUS_UNIMPLEMENTED : Z := 8.
Definition UACPI_ADDRESS_SPACE_SYSTEM_MEMORY : Z := 0.
Definition UACPI_ADDRESS_SPACE_SYSTEM_IO : Z := 1.

Record acpi_gas : Type := mk_gas {
  address_space_id : Z;
  register_bit_width : Z;
  register_bit_offset : Z;
  access_size : Z;
  address : Z
}.

Definition UACPI_IS_ALIGNED (x val : Z) : bool := Z.land x (val - 1) =? 0.
Definition UACPI_IS_POWER_OF_TWO (x : Z) : bool := UACPI_IS_ALIGNED x x.

(** From 128 bits at most, four rounds lead to a width of a byte, which is always aligned. *)
Fixpoint back_off (n : nat) (addr access_bit_width : Z) : Z :=
  match n with
  | O => access_bit_width
  | S n' => if UACPI_IS_ALIGNED addr (access_bit_width / 8) then access_bit_width else back_off n' addr (access_bit_width / 2)
  end.

Definition gas_get_access_bit_width (gas : acpi_gas) : Z :=
  let access_bit_width :=
    if (register_bit_offset gas =? 0) && UACPI_IS_POWER_OF_TWO (register_bit_width gas) && UACPI_IS_ALIGNED (register_bit_width gas) 8
    then register_bit_width gas
    else if negb (access_size gas =? 0) then u8 (access_size gas * 8)
    else
      let msb := uacpi_bit_scan_backward (u64 (register_bit_offset gas + register_bit_width gas - 1)) in
      let access_bit_width := u8 (Z.shiftl 1 msb) in
      if access_bit_width <=? 8 then 8 else back_off 4 (address gas) access_bit_width in
  Z.min access_bit_width (if address_space_id gas =? UACPI_ADDRESS_SPACE_SYSTEM_IO then 32 else 64).

(** The status and the width of an access. *)
Definition gas_validate (gas : acpi_gas) : Z * Z :=
  if address gas =? 0 then (UACPI_STATUS_NOT_FOUND, 0)
  else if negb (address_space_id gas =? UACPI_ADDRESS_SPACE_SYSTEM_IO) && negb (address_space_id gas =? UACPI_ADDRESS_SPACE_SYSTEM_MEMORY)
  then (UACPI_STATUS_UNIMPLEMENTED, 0)
  else if access_size gas >? 4 then (UACPI_STATUS_UNIMPLEMENTED, 0)
  else
    let access_bit_width := gas_get_access_bit_width gas in
    let total_width := UACPI_ALIGN_UP (register_bit_offset gas + register_bit_width gas) access_bit_width in
    if total_width >? 64 then (UACPI_STATUS_UNIMPLEMENTED, access_bit_width) else (UACPI_STATUS_OK, access_bit_width).

(** ** The fixed registers *)

Definition ACPI_PM1_STS_TMR_STS_IDX : Z := 0.
Definition ACPI_PM1_STS_BM_STS_IDX : Z := 4.
Definition ACPI_PM1_STS_GBL_STS_IDX : Z := 5.
Definition ACPI_PM1_STS_PWRBTN_STS_IDX : Z := 8.
Definition ACPI_PM1_STS_SLPBTN_STS_IDX : Z := 9.
Definition ACPI_PM1_STS_RTC_STS_IDX : Z := 10.
Definition ACPI_PM1_STS_IGN0_IDX : Z := 11.
Definition ACPI_PM1_STS_PCIEXP_WAKE_STS_IDX : Z := 14.
Definition ACPI_PM1_STS_WAKE_STS_IDX : Z := 15.
Definition ACPI_PM1_STS_TMR_STS_MASK : Z := Z.shiftl 1 ACPI_PM1_STS_TMR_STS_IDX.
Definition ACPI_PM1_STS_BM_STS_MASK : Z := Z.shiftl 1 ACPI_PM1_STS_BM_STS_IDX.
Definition ACPI_PM1_STS_GBL_STS_MASK : Z := Z.shiftl 1 ACPI_PM1_STS_GBL_STS_IDX.
Definition ACPI_PM1_STS_PWRBTN_STS_MASK : Z := Z.shiftl 1 ACPI_PM1_STS_PWRBTN_STS_IDX.
Definition ACPI_PM1_STS_SLPBTN_STS_MASK : Z := Z.shiftl 1 ACPI_PM1_STS_SLPBTN_STS_IDX.
Definition ACPI_PM1_STS_RTC_STS_MASK : Z := Z.shiftl 1 ACPI_PM1_STS_RTC_STS_IDX.
Definition ACPI_PM1_STS_IGN0_MASK : Z := Z.shiftl 1 ACPI_PM1_STS_IGN0_IDX.
Definition ACPI_PM1_STS_PCIEXP_WAKE_STS_MASK : Z := Z.shiftl 1 ACPI_PM1_STS_PCIEXP_WAKE_STS_IDX.
Definition ACPI_PM1_STS_WAKE_STS_MASK : Z := Z.shiftl 1 ACPI_PM1_STS_WAKE_STS_IDX.
Definition ACPI_PM1_EN_TMR_EN_IDX : Z := 0.
Definition ACPI_PM1_EN_GBL_EN_IDX : Z := 5.
Definition ACPI_PM1_EN_PWRBTN_EN_IDX : Z := 8.
Definition ACPI_PM1_EN_SLPBTN_EN_IDX : Z := 9.
Definition ACPI_PM1_EN_RTC_EN_IDX : Z := 10.
Definition ACPI_PM1_EN_PCIEXP_WAKE_DIS_IDX : Z := 14.
Definition ACPI_PM1_EN_TMR_EN_MASK : Z := Z.shiftl 1 ACPI_PM1_EN_TMR_EN_IDX.
Definition ACPI_PM1_EN_GBL_EN_MASK : Z := Z.shiftl 1 ACPI_PM1_EN_GBL_EN_IDX.
Definition ACPI_PM1_EN_PWRBTN_EN_MASK : Z := Z.shiftl 1 ACPI_PM1_EN_PWRBTN_EN_IDX.
Definition ACPI_PM1_EN_SLPBTN_EN_MASK : Z := Z.shiftl 1 ACPI_PM1_EN_SLPBTN_EN_IDX.
Definition ACPI_PM1_EN_RTC_EN_MASK : Z := Z.shiftl 1 ACPI_PM1_EN_RTC_EN_IDX.
Definition ACPI_PM1_EN_PCIEXP_WAKE_DIS_MASK : Z := Z.shiftl 1 ACPI_PM1_EN_PCIEXP_WAKE_DIS_IDX.
Definition ACPI_PM1_CNT_SCI_EN_IDX : Z := 0.
Definition ACPI_PM1_CNT_BM_RLD_IDX : Z := 1.
Definition ACPI_PM1_CNT_GBL_RLS_IDX : Z := 2.
Definition ACPI_PM1_CNT_RSVD0_IDX : Z := 3.
Definition ACPI_PM1_CNT_RSVD1_IDX : Z := 4.
Definition ACPI_PM1_CNT_RSVD2_IDX : Z := 5.
Definition ACPI_PM1_CNT_RSVD3_IDX : Z := 6.
Definition ACPI_PM1_CNT_RSVD4_IDX : Z := 7.
Definition ACPI_PM1_CNT_RSVD5_IDX : Z := 8.
Definition ACPI_PM1_CNT_IGN0_IDX : Z := 9.
Definition ACPI_PM1_CNT_SLP_TYP_IDX : Z := 10.
Definition ACPI_PM1_CNT_SLP_EN_IDX : Z := 13.
Definition ACPI_PM1_CNT_RSVD6_IDX : Z := 14.
Definition ACPI_PM1_CNT_RSVD7_IDX : Z := 15.
Definition ACPI_SLP_TYP_MAX : Z := 7.
Definition ACPI_PM1_CNT_SCI_EN_MASK : Z := Z.shiftl 1 ACPI_PM1_CNT_SCI_EN_IDX.
Definition ACPI_PM1_CNT_BM_RLD_MASK : Z := Z.shiftl 1 ACPI_PM1_CNT_BM_RLD_IDX.
Definition ACPI_PM1_CNT_GBL_RLS_MASK : Z := Z.shiftl 1 ACPI_PM1_CNT_GBL_RLS_IDX.
Definition ACPI_PM1_CNT_SLP_TYP_MASK : Z := Z.shiftl ACPI_SLP_TYP_MAX ACPI_PM1_CNT_SLP_TYP_IDX.
Definition ACPI_PM1_CNT_SLP_EN_MASK : Z := Z.shiftl 1 ACPI_PM1_CNT_SLP_EN_IDX.
Definition bits_at (l : list Z) : Z := foldr (fun i acc => Z.lor (Z.shiftl 1 i) acc) 0 l.
Definition ACPI_PM1_CNT_PRESERVE_MASK : Z := bits_at [ACPI_PM1_CNT_RSVD0_IDX; ACPI_PM1_CNT_RSVD1_IDX; ACPI_PM1_CNT_RSVD2_IDX; ACPI_PM1_CNT_RSVD3_IDX;
  ACPI_PM1_CNT_RSVD4_IDX; ACPI_PM1_CNT_RSVD5_IDX; ACPI_PM1_CNT_IGN0_IDX; ACPI_PM1_CNT_RSVD6_IDX; ACPI_PM1_CNT_RSVD7_IDX].
Definition ACPI_PM2_CNT_ARB_DIS_IDX : Z := 0.
Definition ACPI_PM2_CNT_ARB_DIS_MASK : Z := Z.shiftl 1 ACPI_PM2_CNT_ARB_DIS_IDX.
Definition ACPI_PM2_CNT_PRESERVE_MASK : Z := u64 (Z.lnot ACPI_PM2_CNT_ARB_DIS_MASK).
Definition ACPI_SLP_CNT_RSVD0_IDX : Z := 0.
Definition ACPI_SLP_CNT_IGN0_IDX : Z := 1.
Definition ACPI_SLP_CNT_SLP_TYP_IDX : Z := 2.
Definition ACPI_SLP_CNT_SLP_EN_IDX : Z := 5.
Definition ACPI_SLP_CNT_RSVD1_IDX : Z := 6.
Definition ACPI_SLP_CNT_RSVD2_IDX : Z := 7.
Definition ACPI_SLP_CNT_SLP_TYP_MASK : Z := Z.shiftl ACPI_SLP_TYP_MAX ACPI_SLP_CNT_SLP_TYP_IDX.
Definition ACPI_SLP_CNT_SLP_EN_MASK : Z := Z.shiftl 1 ACPI_SLP_CNT_SLP_EN_IDX.
Definition ACPI_SLP_CNT_PRESERVE_MASK : Z := bits_at [ACPI_SLP_CNT_RSVD0_IDX; ACPI_SLP_CNT_IGN0_IDX; ACPI_SLP_CNT_RSVD1_IDX; ACPI_SLP_CNT_RSVD2_IDX].
Definition ACPI_SLP_STS_WAK_STS_IDX : Z := 7.
Definition ACPI_SLP_STS_WAK_STS_MASK : Z := Z.shiftl 1 ACPI_SLP_STS_WAK_STS_IDX.
Definition ACPI_SLP_STS_PRESERVE_MASK : Z := u64 (Z.lnot ACPI_SLP_STS_WAK_STS_MASK).

Definition REGISTER_KIND_GAS : Z := 0.
Definition REGISTER_KIND_IO : Z := 1.
Definition REGISTER_ACCESS_KIND_PRESERVE : Z := 0.
Definition REGISTER_ACCESS_KIND_WRITE_TO_CLEAR : Z := 1.
Definition REGISTER_ACCESS_KIND_NORMAL : Z := 2.

Definition UACPI_REGISTER_PM1_STS : Z := 0.
Definition UACPI_REGISTER_PM1_EN : Z := 1.
Definition UACPI_REGISTER_PM1_CNT : Z := 2.
Definition UACPI_REGISTER_PM_TMR : Z := 3.
Definition UACPI_REGISTER_PM2_CNT : Z := 4.
Definition UACPI_REGISTER_SLP_CNT : Z := 5.
Definition UACPI_REGISTER_SLP_STS : Z := 6.
Definition UACPI_REGISTER_RESET : Z := 7.
Definition UACPI_REGISTER_SMI_CMD : Z := 8.
Definition UACPI_REGISTER_MAX : Z := UACPI_REGISTER_SMI_CMD.
Definition UACPI_REGISTER_FIELD_TMR_STS : Z := 0.
Definition UACPI_REGISTER_FIELD_BM_STS : Z := 1.
Definition UACPI_REGISTER_FIELD_GBL_STS : Z := 2.
Definition UACPI_REGISTER_FIELD_PWRBTN_STS : Z := 3.
Definition UACPI_REGISTER_FIELD_SLPBTN_STS : Z := 4.
Definition UACPI_REGISTER_FIELD_RTC_STS : Z := 5.
Definition UACPI_REGISTER_FIELD_PCIEX_WAKE_STS : Z := 6.
Definition UACPI_REGISTER_FIELD_HWR_WAK_STS : Z := 7.
Definition UACPI_REGISTER_FIELD_WAK_STS : Z := 8.
Definition UACPI_REGISTER_FIELD_TMR_EN : Z := 9.
Definition UACPI_REGISTER_FIELD_GBL_EN : Z := 10.
Definition UACPI_REGISTER_FIELD_PWRBTN_EN : Z := 11.
Definition UACPI_REGISTER_FIELD_SLPBTN_EN : Z := 12.
Definition UACPI_REGISTER_FIELD_RTC_EN : Z := 13.
Definition UACPI_REGISTER_FIELD_PCIEXP_WAKE_DIS : Z := 14.
Definition UACPI_REGISTER_FIELD_SCI_EN : Z := 15.
Definition UACPI_REGISTER_FIELD_BM_RLD : Z := 16.
Definition UACPI_REGISTER_FIELD_GBL_RLS : Z := 17.
Definition UACPI_REGISTER_FIELD_SLP_TYP : Z := 18.
Definition UACPI_REGISTER_FIELD_HWR_SLP_TYP : Z := 19.
Definition UACPI_REGISTER_FIELD_SLP_EN : Z := 20.
Definition UACPI_REGISTER_FIELD_HWR_SLP_EN : Z := 21.
Definition UACPI_REGISTER_FIELD_ARB_DIS : Z := 22.
Definition UACPI_REGISTER_FIELD_MAX : Z := UACPI_REGISTER_FIELD_ARB_DIS.

(** The registers of [g_uacpi_rt_ctx] and its copy of the FADT. *)
Record reg_ctx : Type := mk_regs {
  pm1a_status_blk : acpi_gas;
  pm1b_status_blk : acpi_gas;
  pm1a_enable_blk : acpi_gas;
  pm1b_enable_blk : acpi_gas;
  x_pm1a_cnt_blk : acpi_gas;
  x_pm1b_cnt_blk : acpi_gas;
  x_pm_tmr_blk : acpi_gas;
  x_pm2_cnt_blk : acpi_gas;
  sleep_control_reg : acpi_gas;
  sleep_status_reg : acpi_gas;
  reset_reg : acpi_gas;
  smi_cmd : Z
}.

(** A pointer to a generic address or to a port number. *)
Inductive accessor : Type := Acc_gas (gas : acpi_gas) | Acc_port (port : Z).

Record register_spec : Type := mk_spec {
  spec_kind : Z;
  spec_access_kind : Z;
  spec_access_width : Z;
  accessor0 : accessor;
  accessor1 : option accessor;
  write_only_mask : Z;
  preserve_mask : Z
}.

Definition registers (c : reg_ctx) : list register_spec := [
  mk_spec REGISTER_KIND_GAS REGISTER_ACCESS_KIND_WRITE_TO_CLEAR 0 (Acc_gas (pm1a_status_blk c)) (Some (Acc_gas (pm1b_status_blk c))) 0 ACPI_PM1_STS_IGN0_MASK;
  mk_spec REGISTER_KIND_GAS REGISTER_ACCESS_KIND_PRESERVE 0 (Acc_gas (pm1a_enable_blk c)) (Some (Acc_gas (pm1b_enable_blk c))) 0 0;
  mk_spec REGISTER_KIND_GAS REGISTER_ACCESS_KIND_PRESERVE 0 (Acc_gas (x_pm1a_cnt_blk c)) (Some (Acc_gas (x_pm1b_cnt_blk c)))
    (Z.lor ACPI_PM1_CNT_SLP_EN_MASK ACPI_PM1_CNT_GBL_RLS_MASK) ACPI_PM1_CNT_PRESERVE_MASK;
  mk_spec REGISTER_KIND_GAS REGISTER_ACCESS_KIND_PRESERVE 0 (Acc_gas (x_pm_tmr_blk c)) None 0 0;
  mk_spec REGISTER_KIND_GAS REGISTER_ACCESS_KIND_PRESERVE 0 (Acc_gas (x_pm2_cnt_blk c)) None 0 ACPI_PM2_CNT_PRESERVE_MASK;
  mk_spec REGISTER_KIND_GAS REGISTER_ACCESS_KIND_PRESERVE 0 (Acc_gas (sleep_control_reg c)) None ACPI_SLP_CNT_SLP_EN_MASK ACPI_SLP_CNT_PRESERVE_MASK;
  mk_spec REGISTER_KIND_GAS REGISTER_ACCESS_KIND_WRITE_TO_CLEAR 0 (Acc_gas (sleep_status_reg c)) None 0 ACPI_SLP_STS_PRESERVE_MASK;
  mk_spec REGISTER_KIND_GAS REGISTER_ACCESS_KIND_NORMAL 0 (Acc_gas (reset_reg c)) None 0 0;
  mk_spec REGISTER_KIND_IO REGISTER_ACCESS_KIND_NORMAL 1 (Acc_port (smi_cmd c)) None 0 0].

Definition get_reg (c : reg_ctx) (idx : Z) : option register_spec :=
  if idx >? UACPI_REGISTER_MAX then None else registers c !! Z.to_nat idx.

Record register_field : Type := mk_field { field_reg : Z; field_offset : Z; field_mask : Z }.

Definition fields : list (Z * register_field) := [
  (UACPI_REGISTER_FIELD_TMR_STS, mk_field UACPI_REGISTER_PM1_STS ACPI_PM1_STS_TMR_STS_IDX ACPI_PM1_STS_TMR_STS_MASK);
  (UACPI_REGISTER_FIELD_BM_STS, mk_field UACPI_REGISTER_PM1_STS ACPI_PM1_STS_BM_STS_IDX ACPI_PM1_STS_BM_STS_MASK);
  (UACPI_REGISTER_FIELD_GBL_STS, mk_field UACPI_REGISTER_PM1_STS ACPI_PM1_STS_GBL_STS_IDX ACPI_PM1_STS_GBL_STS_MASK);
  (UACPI_REGISTER_FIELD_PWRBTN_STS, mk_field UACPI_REGISTER_PM1_STS ACPI_PM1_STS_PWRBTN_STS_IDX ACPI_PM1_STS_PWRBTN_STS_MASK);
  (UACPI_REGISTER_FIELD_SLPBTN_STS, mk_field UACPI_REGISTER_PM1_STS ACPI_PM1_STS_SLPBTN_STS_IDX ACPI_PM1_STS_SLPBTN_STS_MASK);
  (UACPI_REGISTER_FIELD_RTC_STS, mk_field UACPI_REGISTER_PM1_STS ACPI_PM1_STS_RTC_STS_IDX ACPI_PM1_STS_RTC_STS_MASK);
  (UACPI_REGISTER_FIELD_HWR_WAK_STS, mk_field UACPI_REGISTER_SLP_STS ACPI_SLP_STS_WAK_STS_IDX ACPI_SLP_STS_WAK_STS_MASK);
  (UACPI_REGISTER_FIELD_WAK_STS, mk_field UACPI_REGISTER_PM1_STS ACPI_PM1_STS_WAKE_STS_IDX ACPI_PM1_STS_WAKE_STS_MASK);
  (UACPI_REGISTER_FIELD_PCIEX_WAKE_STS, mk_field UACPI_REGISTER_PM1_STS ACPI_PM1_STS_PCIEXP_WAKE_STS_IDX ACPI_PM1_STS_PCIEXP_WAKE_STS_MASK);
  (UACPI_REGISTER_FIELD_TMR_EN, mk_field UACPI_REGISTER_PM1_EN ACPI_PM1_EN_TMR_EN_IDX ACPI_PM1_EN_TMR_EN_MASK);
  (UACPI_REGISTER_FIELD_GBL_EN, mk_field UACPI_REGISTER_PM1_EN ACPI_PM1_EN_GBL_EN_IDX ACPI_PM1_EN_GBL_EN_MASK);
  (UACPI_REGISTER_FIELD_PWRBTN_EN, mk_field UACPI_REGISTER_PM1_EN ACPI_PM1_EN_PWRBTN_EN_IDX ACPI_PM1_EN_PWRBTN_EN_MASK);
  (UACPI_REGISTER_FIELD_SLPBTN_EN, mk_field UACPI_REGISTER_PM1_EN ACPI_PM1_EN_SLPBTN_EN_IDX ACPI_PM1_EN_SLPBTN_EN_MASK);
  (UACPI_REGISTER_FIELD_RTC_EN, mk_field UACPI_REGISTER_PM1_EN ACPI_PM1_EN_RTC_EN_IDX ACPI_PM1_EN_RTC_EN_MASK);
  (UACPI_REGISTER_FIELD_PCIEXP_WAKE_DIS, mk_field UACPI_REGISTER_PM1_EN ACPI_PM1_EN_PCIEXP_WAKE_DIS_IDX ACPI_PM1_EN_PCIEXP_WAKE_DIS_MASK);
  (UACPI_REGISTER_FIELD_SCI_EN, mk_field UACPI_REGISTER_PM1_CNT ACPI_PM1_CNT_SCI_EN_IDX ACPI_PM1_CNT_SCI_EN_MASK);
  (UACPI_REGISTER_FIELD_BM_RLD, mk_field UACPI_REGISTER_PM1_CNT ACPI_PM1_CNT_BM_RLD_IDX ACPI_PM1_CNT_BM_RLD_MASK);
  (UACPI_REGISTER_FIELD_GBL_RLS, mk_field UACPI_REGISTER_PM1_CNT ACPI_PM1_CNT_GBL_RLS_IDX ACPI_PM1_CNT_GBL_RLS_MASK);
  (UACPI_REGISTER_FIELD_SLP_TYP, mk_field UACPI_REGISTER_PM1_CNT ACPI_PM1_CNT_SLP_TYP_IDX ACPI_PM1_CNT_SLP_TYP_MASK);
  (UACPI_REGISTER_FIELD_SLP_EN, mk_field UACPI_REGISTER_PM1_CNT ACPI_PM1_CNT_SLP_EN_IDX ACPI_PM1_CNT_SLP_EN_MASK);
  (UACPI_REGISTER_FIELD_HWR_SLP_TYP, mk_field UACPI_REGISTER_SLP_CNT ACPI_SLP_CNT_SLP_TYP_IDX ACPI_SLP_CNT_SLP_TYP_MASK);
  (UACPI_REGISTER_FIELD_HWR_SLP_EN, mk_field UACPI_REGISTER_SLP_CNT ACPI_SLP_CNT_SLP_EN_IDX ACPI_SLP_CNT_SLP_EN_MASK);
  (UACPI_REGISTER_FIELD_ARB_DIS, mk_field UACPI_REGISTER_PM2_CNT ACPI_PM2_CNT_ARB_DIS_IDX ACPI_PM2_CNT_ARB_DIS_MASK)].

Fixpoint find_field (l : list (Z * register_field)) (idx : Z) : option register_field :=
  match l with
  | [] => None
  | (i, f) :: l' => if i =? idx then Some f else find_field l' idx
  end.

Section Registers.
Variable hhdmOffset : Z.
Context {W : Type} `{IO : PortIO W} `{IO32 : PortIO32 W}.

Record hw : Type := mk_hw { hw_mem : mem; hw_ports : W }.

(** [None]: the variable keeps its value. *)
Definition raw_read (gas : acpi_gas) (a byte_width : Z) (h : hw) : Z * option Z * hw :=
  if address_space_id gas =? UACPI_ADDRESS_SPACE_SYSTEM_IO then
    let '(ret, v, w) := uacpi_kernel_raw_io_read a byte_width (hw_ports h) in (ret, v, mk_hw (hw_mem h) w)
  else let '(ret, v) := uacpi_kernel_raw_memory_read hhdmOffset a byte_width (hw_mem h) in (ret, v, h).

Definition raw_write (gas : acpi_gas) (a byte_width v : Z) (h : hw) : Z * hw :=
  if address_space_id gas =? UACPI_ADDRESS_SPACE_SYSTEM_IO then
    let '(ret, w) := uacpi_kernel_raw_io_write a byte_width v (hw_ports h) in (ret, mk_hw (hw_mem h) w)
  else let '(ret, m) := uacpi_kernel_raw_memory_write hhdmOffset a byte_width v (hw_mem h) in (ret, mk_hw m (hw_ports h)).

Definition access_mask (access_bit_width : Z) : Z :=
  let mask := 0xFFFFFFFFFFFFFFFF in
  if access_bit_width / 8 <? 8 then u64 (Z.lnot (Z.shiftl mask access_bit_width)) else mask.

(** The rounds of [uacpi_gas_read]; [out] is the value so far. *)
Fixpoint gas_read_loop (fuel : nat) (gas : acpi_gas) (access_bit_width bit_offset bits_left index data out : Z) (h : hw) : outcome (Z * Z * hw) :=
  if bits_left =? 0 then Ret (UACPI_STATUS_OK, out, h)
  else match fuel with
  | O => OutOfFuel
  | S f =>
      let access_byte_width := access_bit_width / 8 in
      let '(ret, data, bit_offset, h) :=
        if bit_offset >=? access_bit_width then (UACPI_STATUS_OK, 0, u8 (bit_offset - access_bit_width), h)
        else
          let '(ret, v, h) := raw_read gas (u64 (address gas + index * access_byte_width)) access_byte_width h in
          (ret, match v with Some v => v | None => data end, bit_offset, h) in
      if negb (ret =? UACPI_STATUS_OK) then Ret (ret, out, h)
      else
        let out := Z.lor out (u64 (Z.shiftl (Z.land data (access_mask access_bit_width)) (index * access_bit_width))) in
        gas_read_loop f gas access_bit_width bit_offset (u8 (bits_left - Z.min bits_left access_bit_width)) (u8 (index + 1)) data out h
  end.

(** A round for every bit at most; [out] is what the caller's variable has before. *)
Definition uacpi_gas_read (junk : Z) (gas : acpi_gas) (out : Z) (h : hw) : outcome (Z * Z * hw) :=
  let '(ret, access_bit_width) := gas_validate gas in
  if negb (ret =? UACPI_STATUS_OK) then Ret (ret, out, h)
  else
    let bit_offset := register_bit_offset gas in
    let bits_left := u8 (bit_offset + register_bit_width gas) in
    gas_read_loop (Z.to_nat bits_left) gas access_bit_width bit_offset bits_left 0 junk 0 h.

Fixpoint gas_write_loop (fuel : nat) (gas : acpi_gas) (access_bit_width bit_offset bits_left index in_value : Z) (h : hw) : outcome (Z * hw) :=
  if bits_left =? 0 then Ret (UACPI_STATUS_OK, h)
  else match fuel with
  | O => OutOfFuel
  | S f =>
      let access_byte_width := access_bit_width / 8 in
      let data := Z.land (Z.shiftr in_value (index * access_bit_width)) (access_mask access_bit_width) in
      let '(ret, bit_offset, h) :=
        if bit_offset >=? access_bit_width then (UACPI_STATUS_OK, u8 (bit_offset - access_bit_width), h)
        else
          let '(ret, h) := raw_write gas (u64 (address gas + index * access_byte_width)) access_byte_width data h in (ret, bit_offset, h) in
      if negb (ret =? UACPI_STATUS_OK) then Ret (ret, h)
      else gas_write_loop f gas access_bit_width bit_offset (u8 (bits_left - Z.min bits_left access_bit_width)) (u8 (index + 1)) in_value h
  end.

Definition uacpi_gas_write (gas : acpi_gas) (in_value : Z) (h : hw) : outcome (Z * hw) :=
  let '(ret, access_bit_width) := gas_validate gas in
  if negb (ret =? UACPI_STATUS_OK) then Ret (ret, h)
  else
    let bit_offset := register_bit_offset gas in
    let bits_left := u8 (bit_offset + register_bit_width gas) in
    gas_write_loop (Z.to_nat bits_left) gas access_bit_width bit_offset bits_left 0 in_value h.

(** An address of zero means that there is no such register: nothing is read.  The kind of the
    register is the constructor of its accessor. *)
Definition read_one (junk : Z) (reg : accessor) (byte_width out : Z) (h : hw) : outcome (Z * Z * hw) :=
  match reg with
  | Acc_gas gas => if address gas =? 0 then Ret (UACPI_STATUS_OK, out, h) else uacpi_gas_read junk gas out h
  | Acc_port port =>
      let '(ret, v, w) := uacpi_kernel_raw_io_read port byte_width (hw_ports h) in
      Ret (ret, match v with Some v => v | None => out end, mk_hw (hw_mem h) w)
  end.

Definition write_one (reg : accessor) (byte_width in_value : Z) (h : hw) : outcome (Z * hw) :=
  match reg with
  | Acc_gas gas => if address gas =? 0 then Ret (UACPI_STATUS_OK, h) else uacpi_gas_write gas in_value h
  | Acc_port port => let '(ret, w) := uacpi_kernel_raw_io_write port byte_width in_value (hw_ports h) in Ret (ret, mk_hw (hw_mem h) w)
  end.

(** [value0] is not initialised, [value1] is. *)
Definition do_read_register (junk : Z) (reg : register_spec) (out : Z) (h : hw) : outcome (Z * Z * hw) :=
  '(ret, value0, h) ← read_one junk (accessor0 reg) (spec_access_width reg) junk h;
  if negb (ret =? UACPI_STATUS_OK) then Ret (ret, out, h)
  else
    '(ret, value1, h) ← (match accessor1 reg with
                         | Some a => read_one junk a (spec_access_width reg) 0 h
                         | None => Ret (UACPI_STATUS_OK, 0, h)
                         end);
    if negb (ret =? UACPI_STATUS_OK) then Ret (ret, out, h)
    else
      let out := Z.lor value0 value1 in
      Ret (UACPI_STATUS_OK, if negb (write_only_mask reg =? 0) then Z.land out (u64 (Z.lnot (write_only_mask reg))) else out, h).

Definition write_both (reg : register_spec) (in_value0 in_value1 : Z) (h : hw) : outcome (Z * hw) :=
  '(ret, h) ← write_one (accessor0 reg) (spec_access_width reg) in_value0 h;
  if negb (ret =? UACPI_STATUS_OK) then Ret (ret, h)
  else match accessor1 reg with
  | Some a => write_one a (spec_access_width reg) in_value1 h
  | None => Ret (ret, h)
  end.

Definition do_write_register (junk : Z) (reg : register_spec) (in_value : Z) (h : hw) : outcome (Z * hw) :=
  if preserve_mask reg =? 0 then write_both reg in_value in_value h
  else
    let in_value := Z.land in_value (u64 (Z.lnot (preserve_mask reg))) in
    if spec_access_kind reg =? REGISTER_ACCESS_KIND_PRESERVE then
      '(ret, data, h) ← do_read_register junk reg junk h;
      if negb (ret =? UACPI_STATUS_OK) then Ret (ret, h)
      else let in_value := Z.lor in_value (Z.land data (preserve_mask reg)) in write_both reg in_value in_value h
    else write_both reg in_value in_value h.

Definition uacpi_read_register (junk : Z) (c : reg_ctx) (reg_enum out : Z) (h : hw) : outcome (Z * Z * hw) :=
  match get_reg c reg_enum with
  | None => Ret (UACPI_STATUS_INVALID_ARGUMENT, out, h)
  | Some reg => do_read_register junk reg out h
  end.

Definition uacpi_write_register (junk : Z) (c : reg_ctx) (reg_enum in_value : Z) (h : hw) : outcome (Z * hw) :=
  match get_reg c reg_enum with
  | None => Ret (UACPI_STATUS_INVALID_ARGUMENT, h)
  | Some reg => do_write_register junk reg in_value h
  end.

Definition uacpi_write_registers (c : reg_ctx) (reg_enum in_value0 in_value1 : Z) (h : hw) : outcome (Z * hw) :=
  match get_reg c reg_enum with
  | None => Ret (UACPI_STATUS_INVALID_ARGUMENT, h)
  | Some reg => write_both reg in_value0 in_value1 h
  end.

(** The field and its register; [None] for a number that is too large. *)
Definition field_of (c : reg_ctx) (field_enum : Z) : option (register_field * register_spec) :=
  let field_idx := u8 field_enum in
  if field_idx >? UACPI_REGISTER_FIELD_MAX then None
  else match find_field fields field_idx with
  | Some f => match registers c !! Z.to_nat (field_reg f) with Some r => Some (f, r) | None => None end
  | None => None
  end.

Definition uacpi_read_register_field (junk : Z) (c : reg_ctx) (field_enum out : Z) (h : hw) : outcome (Z * Z * hw) :=
  match field_of c field_enum with
  | None => Ret (UACPI_STATUS_INVALID_ARGUMENT, out, h)
  | Some (field, reg) =>
      '(ret, v, h) ← do_read_register junk reg out h;
      if negb (ret =? UACPI_STATUS_OK) then Ret (ret, v, h)
      else Ret (UACPI_STATUS_OK, Z.shiftr (Z.land v (field_mask field)) (field_offset field), h)
  end.

(** [reg->kind] is compared with a kind of access. *)
Definition uacpi_write_register_field (junk : Z) (c : reg_ctx) (field_enum in_value : Z) (h : hw) : outcome (Z * hw) :=
  match field_of c field_enum with
  | None => Ret (UACPI_STATUS_INVALID_ARGUMENT, h)
  | Some (field, reg) =>
      let in_value := Z.land (u64 (Z.shiftl in_value (field_offset field))) (field_mask field) in
      if spec_kind reg =? REGISTER_ACCESS_KIND_WRITE_TO_CLEAR then
        if in_value =? 0 then Ret (UACPI_STATUS_OK, h) else do_write_register junk reg in_value h
      else
        '(ret, data, h) ← do_read_register junk reg junk h;
        if negb (ret =? UACPI_STATUS_OK) then Ret (ret, h)
        else do_write_register junk reg (Z.lor (Z.land data (u64 (Z.lnot (field_mask field)))) in_value) h
  end.

(** A register of the width of one access. *)
Lemma read_loop_once f gas a data h v h' : 0 < a < 256 -> raw_read gas (u64 (address gas + 0 * (a / 8))) (a / 8) h = (UACPI_STATUS_OK, Some v, h') ->
  gas_read_loop (S f) gas a 0 a 0 data 0 h = Ret (UACPI_STATUS_OK, u64 (Z.land v (access_mask a)), h').
Proof.
  intros Ha E. cbn [gas_read_loop]. rewrite (proj2 (Z.eqb_neq a 0)) by lia. destruct (Z.geb_spec 0 a); [lia|]. rewrite E. cbn [negb Z.eqb UACPI_STATUS_OK].
  rewrite Z.min_id, Z.sub_diag, Z.lor_0_l, Z.mul_0_l, Z.shiftl_0_r. now destruct f.
Qed.

Lemma write_loop_once f gas a v h h' : 0 < a < 256 -> raw_write gas (u64 (address gas + 0 * (a / 8))) (a / 8) (Z.land v (access_mask a)) h = (UACPI_STATUS_OK, h') ->
  gas_write_loop (S f) gas a 0 a 0 v h = Ret (UACPI_STATUS_OK, h').
Proof.
  intros Ha E. cbn [gas_write_loop]. rewrite (proj2 (Z.eqb_neq a 0)) by lia. destruct (Z.geb_spec 0 a); [lia|]. rewrite Z.mul_0_l, Z.shiftr_0_r. rewrite Z.mul_0_l in E. rewrite E.
  cbn [negb Z.eqb UACPI_STATUS_OK]. rewrite Z.min_id, Z.sub_diag. now destruct f.
Qed.

(** ** Registers in memory, bit by bit *)

Lemma mem_bit_add m a j k : mem_bit m (a + j) k = mem_bit m a (8 * j + k).
Proof. unfold mem_bit. replace (a + j + k / 8) with (a + (8 * j + k) / 8) by dm. f_equal. dm. Qed.

Lemma testbit_load m n : byte_mem m -> forall a i, 0 <= i -> Z.testbit (load n a m) i = (i <? 8 * Z.of_nat n) && mem_bit m a i.
Proof.
  intros Hm. induction n as [|n IH]; intros a i Hi; [cbn [load]; rewrite Z.testbit_0_l; now rewrite (proj2 (Z.ltb_ge i _)) by lia|]. cbn [load].
  replace (m a + 256 * load n (a + 1) m) with (load n (a + 1) m * 2 ^ 8 + m a) by (change (2 ^ 8) with 256; lia). rewrite <- lor_disjoint by (try exact (Hm a); lia).
  rewrite Z.lor_spec, Z.shiftl_spec by lia. destruct (Z.lt_ge_cases i 8) as [Hl|Hg].
  - rewrite (Z.testbit_neg_r _ (i - 8)) by lia. cbn [orb]. rewrite (proj2 (Z.ltb_lt i _)) by lia. cbn [andb]. unfold mem_bit. rewrite Z.div_small, Z.mod_small by lia. f_equal. f_equal. lia.
  - rewrite IH, (testbit_byte (m a) i (Hm a) Hg), orb_false_r, mem_bit_add by lia. replace (8 * 1 + (i - 8)) with i by lia. f_equal. destruct (Z.ltb_spec (i - 8) (8 * Z.of_nat n)), (Z.ltb_spec i (8 * Z.of_nat (S n))); lia || reflexivity.
Qed.

Lemma store_bits m n a v i : mem_bit (store n a v m) a i = if (0 <=? i) && (i <? 8 * Z.of_nat n) then Z.testbit v i else mem_bit m a i.
Proof.
  unfold mem_bit. destruct (Z.leb_spec 0 i), (Z.ltb_spec i (8 * Z.of_nat n)); cbn [andb]; try (now rewrite store_other by dm).
  rewrite store_byte by dm. change 256 with (2 ^ 8) at 2. rewrite Z.mod_pow2_bits_low by dm. change 256 with (2 ^ 8). rewrite <- Z.pow_mul_r by dm.
  rewrite Z.div_pow2_bits by dm. f_equal. dm.
Qed.

Lemma store_byte_mem n a v m : byte_mem m -> byte_mem (store n a v m).
Proof.
  intros Hm x. destruct (Z.le_gt_cases a x), (Z.lt_ge_cases x (a + Z.of_nat n)); try (rewrite store_other by lia; apply Hm).
  replace x with (a + (x - a)) by lia. rewrite store_byte by lia. apply Z.mod_pos_bound. lia.
Qed.

(** The widths of an access. *)
Definition width_ok (a : Z) : Prop := a = 8 \/ a = 16 \/ a = 32 \/ a = 64.

Lemma mask_bits a i : width_ok a -> 0 <= i -> Z.testbit (access_mask a) i = (i <? a).
Proof.
  intros Ha Hi. destruct (Z.lt_ge_cases i 64) as [Hl|Hg].
  - revert i Hi Hl. assert (forall i, 0 <= i < Z.of_nat 64 -> Bool.eqb (Z.testbit (access_mask a) i) (i <? a) = true) as Hall
      by (destruct Ha as [->|[->|[-> | ->]]]; apply (all_below 64 (fun i => Bool.eqb (Z.testbit _ i) (i <? _))); vm_compute; reflexivity).
    intros i Hi Hl. apply eqb_prop, Hall. cbn; lia.
  - rewrite (testbit_high 64 _ i); [|destruct Ha as [->|[->|[-> | ->]]]; vm_compute; split; discriminate || reflexivity|lia].
    symmetry. apply Z.ltb_ge. destruct Ha as [->|[->|[-> | ->]]]; lia.
Qed.

Lemma width_facts a : width_ok a -> 0 < a <= 64 /\ a = 8 * (a / 8) /\ (a / 8 = 1 \/ a / 8 = 2 \/ a / 8 = 4 \/ a / 8 = 8).
Proof. intros [->|[->|[-> | ->]]]; dm. Qed.

(** The accesses needed for [n] bits. *)
Definition pieces (a n : Z) : Z := (n + a - 1) / a.

Lemma pieces_step a n : 0 < a -> 0 < n -> pieces a (n - Z.min n a) = pieces a n - 1.
Proof.
  intros Ha Hn. unfold pieces. destruct (Z.le_gt_cases n a) as [Hl|Hg].
  - rewrite Z.min_l, Z.sub_diag by lia. rewrite (Z.div_small (0 + a - 1)) by lia. assert ((n + a - 1) / a = 1) as ->; [|reflexivity].
    symmetry. apply (Z.div_unique _ _ _ (n - 1)); lia.
  - rewrite Z.min_r by lia. replace (n - a + a - 1) with (n + a - 1 + (-1) * a) by lia. rewrite Z.div_add by lia. lia.
Qed.

Lemma pieces_range a n : 0 < a -> 0 <= n -> n <= pieces a n * a < n + a.
Proof. intros Ha Hn. unfold pieces. pose proof (Z.div_mod (n + a - 1) a). pose proof (Z.mod_pos_bound (n + a - 1) a). nia. Qed.

Lemma align_up_pieces x a : width_ok a -> 0 <= x < 512 -> UACPI_ALIGN_UP x a = pieces a x * a.
Proof.
  intros Ha Hx. apply Z.eqb_eq. revert x Hx. change 512 with (Z.of_nat 512).
  destruct Ha as [->|[->|[-> | ->]]]; apply (all_below 512 (fun x => UACPI_ALIGN_UP x _ =? pieces _ x * _)); vm_compute; reflexivity.
Qed.

Section Memory.
Variables (gas : acpi_gas) (a : Z).
Let B := address gas + hhdmOffset.
Hypothesis Hspace : address_space_id gas = UACPI_ADDRESS_SPACE_SYSTEM_MEMORY.
Hypothesis Ha : width_ok a.
Hypothesis Haddr : 0 <= address gas /\ 0 <= hhdmOffset /\ B + 64 < 2 ^ 64.

(** One access of the width. *)
Lemma raw_read_bits index h : byte_mem (hw_mem h) -> 0 <= index <= 8 -> exists v,
  raw_read gas (u64 (address gas + index * (a / 8))) (a / 8) h = (UACPI_STATUS_OK, Some v, h) /\
  forall i, 0 <= i -> Z.testbit v i = (i <? a) && mem_bit (hw_mem h) B (index * a + i).
Proof.
  intros Hm Hi. destruct (width_facts a Ha) as (Hw & Ea & Hk). unfold raw_read. rewrite Hspace. cbn [Z.eqb UACPI_ADDRESS_SPACE_SYSTEM_MEMORY UACPI_ADDRESS_SPACE_SYSTEM_IO].
  assert (0 <= index * (a / 8) <= 64) as Hx by nia. unfold B in *. rewrite (wrap_small 64 (address gas + _)) by lia.
  exists (load (Z.to_nat (a / 8)) (u64 (address gas + index * (a / 8) + hhdmOffset)) (hw_mem h)). split.
  - unfold uacpi_kernel_raw_memory_read. destruct Hk as [->|[->|[-> | ->]]]; reflexivity.
  - intros i Hi0. rewrite testbit_load, wrap_small by (auto; lia). rewrite Z2Nat.id, <- Ea by lia. f_equal.
    replace (address gas + index * (a / 8) + hhdmOffset) with (address gas + hhdmOffset + index * (a / 8)) by lia. rewrite mem_bit_add. f_equal. nia.
Qed.

Lemma raw_write_bits index v h : byte_mem (hw_mem h) -> 0 <= index <= 8 -> exists m,
  raw_write gas (u64 (address gas + index * (a / 8))) (a / 8) v h = (UACPI_STATUS_OK, mk_hw m (hw_ports h)) /\ byte_mem m /\
  (forall i, 0 <= i < a -> mem_bit m B (index * a + i) = Z.testbit v i) /\
  forall i, i < index * a \/ index * a + 64 <= i -> mem_bit m B i = mem_bit (hw_mem h) B i.
Proof.
  intros Hm Hi. destruct (width_facts a Ha) as (Hw & Ea & Hk). unfold raw_write. rewrite Hspace. cbn [Z.eqb UACPI_ADDRESS_SPACE_SYSTEM_MEMORY UACPI_ADDRESS_SPACE_SYSTEM_IO].
  assert (0 <= index * (a / 8) <= 64) as Hx by nia. unfold B in *. rewrite (wrap_small 64 (address gas + _)) by lia.
  set (A := u64 (address gas + index * (a / 8) + hhdmOffset)). assert (A = address gas + hhdmOffset + index * (a / 8)) as EA by (unfold A; rewrite wrap_small; lia).
  set (v' := if a =? 64 then v else wrap a v). exists (store (Z.to_nat (a / 8)) A v' (store64 A v (hw_mem h))).
  assert (index * a = 8 * (index * (a / 8))) as Eix by (rewrite Ea at 1; ring).
  assert (forall m i, mem_bit m (address gas + hhdmOffset) i = mem_bit m A (i - index * a)) as Erel by (intros m i; rewrite EA, (mem_bit_add m (address gas + hhdmOffset)); f_equal; lia). splits.
  - unfold uacpi_kernel_raw_memory_write, v'. fold A. clear - Ha. destruct Ha as [->|[->|[-> | ->]]]; reflexivity.
  - now repeat apply store_byte_mem.
  - intros i Hi0. rewrite Erel, store_bits, Z2Nat.id, <- Ea by lia. replace (index * a + i - index * a) with i by lia.
    rewrite (proj2 (Z.leb_le 0 i)), (proj2 (Z.ltb_lt i a)) by lia. cbn [andb]. unfold v'. destruct (a =? 64); [reflexivity|]. rewrite testbit_wrap by lia.
    now rewrite (proj2 (Z.ltb_lt i a)) by lia.
  - intros i Hout. rewrite !Erel, store_bits, Z2Nat.id, <- Ea by lia. rewrite store_bits. change (8 * Z.of_nat 8) with 64.
    destruct (Z.leb_spec 0 (i - index * a)), (Z.ltb_spec (i - index * a) a), (Z.ltb_spec (i - index * a) 64); cbn [andb]; lia || reflexivity.
Qed.

(** The bits read: the accesses before the offset are left out. *)
Definition in_range (index off bl i : Z) : bool := (index * a + off / a * a <=? i) && (i <? index * a + pieces a bl * a).

Lemma in_range_0 index off i : 0 <= off -> in_range index off 0 i = false.
Proof.
  intros Ho. destruct (width_facts a Ha) as (Hw & _). unfold in_range, pieces. rewrite (Z.div_small (0 + a - 1)) by lia. pose proof (Z.div_pos off a).
  destruct (Z.leb_spec (index * a + off / a * a) i); [|reflexivity]. apply Z.ltb_ge. nia.
Qed.

Lemma skip_piece off : a <= off -> (off - a) / a = off / a - 1.
Proof. intros H. destruct (width_facts a Ha) as (Hw & _). replace (off - a) with (off + (-1) * a) by lia. rewrite Z.div_add by lia. lia. Qed.

Lemma gas_read_loop_spec fuel : forall off bl index data out h, byte_mem (hw_mem h) -> 0 <= off < 256 -> 0 <= bl <= Z.of_nat fuel -> bl < 256 -> 0 <= index ->
  index * a + pieces a bl * a <= 64 -> exists out', gas_read_loop fuel gas a off bl index data out h = Ret (UACPI_STATUS_OK, out', h) /\
    forall i, 0 <= i -> Z.testbit out' i = Z.testbit out i || (in_range index off bl i && mem_bit (hw_mem h) B i).
Proof.
  destruct (width_facts a Ha) as (Hw & Ea & _). induction fuel as [|f IH]; intros off bl index data out h Hm Ho Hb Hb2 Hi Ht; cbn [gas_read_loop].
  - assert (bl = 0) as -> by lia. exists out. split; [reflexivity|]. intros i Hi0. rewrite in_range_0 by lia. now rewrite orb_false_r.
  - destruct (Z.eqb_spec bl 0) as [->|Nz]; [exists out; split; [reflexivity|]; intros i Hi0; rewrite in_range_0 by lia; now rewrite orb_false_r|].
    pose proof (pieces_step a bl ltac:(lia) ltac:(lia)) as Hps. pose proof (pieces_range a bl ltac:(lia) ltac:(lia)) as Hpr.
    assert (0 <= index < 8) as Hi8 by nia. rewrite (wrap_small 8 (bl - _)), (wrap_small 8 (index + 1)) by (pow2_consts; lia).
    destruct (Z.geb_spec off a) as [Hge|Hlt].
    + cbn [negb Z.eqb UACPI_STATUS_OK]. rewrite Z.land_0_l, Z.shiftl_0_l. change (u64 0) with 0. rewrite Z.lor_0_r, wrap_small by (pow2_consts; lia).
      destruct (IH (off - a) (bl - Z.min bl a) (index + 1) 0 out h Hm ltac:(lia) ltac:(lia) ltac:(lia) ltac:(lia) ltac:(rewrite Hps; lia)) as (out' & -> & Hout).
      exists out'. split; [reflexivity|]. intros i Hi0. rewrite Hout by lia. unfold in_range. rewrite Hps, (skip_piece off) by lia.
      replace ((index + 1) * a + (off / a - 1) * a) with (index * a + off / a * a) by lia.
      now replace ((index + 1) * a + (pieces a bl - 1) * a) with (index * a + pieces a bl * a) by lia.
    + destruct (raw_read_bits index h Hm ltac:(lia)) as (v & -> & Hv). cbn [negb Z.eqb UACPI_STATUS_OK].
      set (out1 := Z.lor out _).
      destruct (IH off (bl - Z.min bl a) (index + 1) v out1 h Hm Ho ltac:(lia) ltac:(lia) ltac:(lia) ltac:(rewrite Hps; lia)) as (out' & -> & Hout).
      exists out'. split; [reflexivity|]. intros i Hi0. rewrite Hout by lia. unfold out1. rewrite Z.lor_spec, testbit_wrap, Z.shiftl_spec by lia. rewrite <- orb_assoc. f_equal.
      unfold in_range. rewrite Hps, (Z.div_small off a) by lia. replace ((index + 1) * a + 0 * a) with (index * a + a) by lia. replace (index * a + 0 * a) with (index * a) by lia.
      replace ((index + 1) * a + (pieces a bl - 1) * a) with (index * a + pieces a bl * a) by lia.
      destruct (Z.lt_ge_cases i (index * a)) as [Hl|Hg].
      * rewrite (Z.testbit_neg_r _ (i - index * a)), andb_false_r by lia. now rewrite !(proj2 (Z.leb_gt _ i)) by lia.
      * rewrite Z.land_spec, Hv, mask_bits by (auto; lia). replace (index * a + (i - index * a)) with i by lia. rewrite (proj2 (Z.leb_le (index * a) i)) by lia. cbn [andb].
        assert (a <= pieces a bl * a) as Hpa by (pose proof (pieces_range a (bl - Z.min bl a)); nia).
        destruct (Z.ltb_spec (i - index * a) a), (Z.leb_spec (index * a + a) i), (Z.ltb_spec i (index * a + pieces a bl * a)), (Z.ltb_spec i 64); try lia; cbn [andb orb]; rewrite ?andb_true_r, ?orb_false_r, ?andb_false_r; reflexivity.
Qed.

Lemma write_loop_spec fuel : forall off bl index v h, byte_mem (hw_mem h) -> 0 <= off < 256 -> 0 <= bl <= Z.of_nat fuel -> bl < 256 -> 0 <= index ->
  index * a + pieces a bl * a <= 64 -> exists m, gas_write_loop fuel gas a off bl index v h = Ret (UACPI_STATUS_OK, mk_hw m (hw_ports h)) /\ byte_mem m /\
    (forall i, in_range index off bl i = true -> mem_bit m B i = Z.testbit v i) /\
    forall i, i < index * a + off / a * a \/ index * a + pieces a bl * a + 64 <= i -> mem_bit m B i = mem_bit (hw_mem h) B i.
Proof.
  destruct (width_facts a Ha) as (Hw & Ea & _). induction fuel as [|f IH]; intros off bl index v h Hm Ho Hb Hb2 Hi Ht; cbn [gas_write_loop].
  - assert (bl = 0) as -> by lia. exists (hw_mem h). destruct h. splits; auto. intros i. rewrite in_range_0 by lia. discriminate.
  - destruct (Z.eqb_spec bl 0) as [->|Nz]; [exists (hw_mem h); destruct h; splits; auto; intros i; rewrite in_range_0 by lia; discriminate|].
    pose proof (pieces_step a bl ltac:(lia) ltac:(lia)) as Hps. pose proof (pieces_range a bl ltac:(lia) ltac:(lia)) as Hpr.
    assert (0 <= index < 8) as Hi8 by nia. rewrite (wrap_small 8 (bl - _)), (wrap_small 8 (index + 1)) by (pow2_consts; lia).
    destruct (Z.geb_spec off a) as [Hge|Hlt].
    + cbn [negb Z.eqb UACPI_STATUS_OK]. rewrite wrap_small by (pow2_consts; lia).
      destruct (IH (off - a) (bl - Z.min bl a) (index + 1) v h Hm ltac:(lia) ltac:(lia) ltac:(lia) ltac:(lia) ltac:(rewrite Hps; lia)) as (m & -> & Hm' & R1 & R2).
      exists m. unfold in_range in *. rewrite Hps, (skip_piece off) in R1, R2 by lia.
      replace ((index + 1) * a + (off / a - 1) * a) with (index * a + off / a * a) in R1, R2 by lia.
      replace ((index + 1) * a + (pieces a bl - 1) * a) with (index * a + pieces a bl * a) in R1, R2 by lia. splits; auto.
    + set (data := Z.land _ _). destruct (raw_write_bits index data h Hm ltac:(lia)) as (m1 & -> & Hm1 & W1 & W2). cbn [negb Z.eqb UACPI_STATUS_OK].
      destruct (IH off (bl - Z.min bl a) (index + 1) v (mk_hw m1 (hw_ports h)) Hm1 Ho ltac:(lia) ltac:(lia) ltac:(lia) ltac:(rewrite Hps; lia)) as (m & -> & Hm' & R1 & R2).
      exists m. unfold in_range in *. rewrite Hps in R1, R2. rewrite (Z.div_small off a) in * by lia. cbn [hw_mem hw_ports] in *.
      replace ((index + 1) * a + (pieces a bl - 1) * a) with (index * a + pieces a bl * a) in R1, R2 by lia.
      assert (a <= pieces a bl * a) as Hpa by (pose proof (pieces_range a (bl - Z.min bl a)); nia). splits; auto.
      * intros i [Hl Hu]%andb_prop. apply Z.leb_le in Hl. apply Z.ltb_lt in Hu. destruct (Z.lt_ge_cases i (index * a + a)) as [Hlo|Hhi].
        -- rewrite R2 by lia. replace i with (index * a + (i - index * a)) at 1 by lia. rewrite W1 by lia. unfold data. rewrite Z.land_spec, mask_bits, Z.shiftr_spec by (auto; lia).
           rewrite (proj2 (Z.ltb_lt _ a)), andb_true_r by lia. f_equal. lia.
        -- apply R1. apply andb_true_intro. split; [apply Z.leb_le|apply Z.ltb_lt]; lia.
      * intros i Hout. rewrite R2 by lia. apply W2. lia.
Qed.

Hypothesis Hvalid : gas_validate gas = (UACPI_STATUS_OK, a).
Hypothesis Hbytes : 0 <= register_bit_offset gas < 256 /\ 0 <= register_bit_width gas < 256.
Let bits := register_bit_offset gas + register_bit_width gas.

Lemma valid_total : pieces a bits * a <= 64 /\ 0 <= bits <= 64.
Proof.
  unfold gas_validate in Hvalid. destruct (address gas =? 0); [discriminate|]. destruct (_ && _); [discriminate|]. destruct (access_size gas >? 4); [discriminate|].
  destruct (Z.gtb_spec (UACPI_ALIGN_UP (register_bit_offset gas + register_bit_width gas) (gas_get_access_bit_width gas)) 64) as [|Hle]; [discriminate|].
  injection Hvalid as E. rewrite E in Hle. fold bits in Hle. rewrite align_up_pieces in Hle by (auto; unfold bits; lia).
  destruct (width_facts a Ha) as (Hw & _). pose proof (pieces_range a bits ltac:(lia) ltac:(unfold bits; lia)). unfold bits in *. lia.
Qed.

Lemma gas_read_memory junk out h : byte_mem (hw_mem h) -> exists r, uacpi_gas_read junk gas out h = Ret (UACPI_STATUS_OK, r, h) /\
  forall i, 0 <= i -> Z.testbit r i = in_range 0 (register_bit_offset gas) bits i && mem_bit (hw_mem h) B i.
Proof.
  intros Hm. destruct valid_total as [Ht Hb]. unfold uacpi_gas_read. rewrite Hvalid. cbn [negb Z.eqb UACPI_STATUS_OK]. fold bits. rewrite wrap_small by (pow2_consts; lia).
  destruct (gas_read_loop_spec (Z.to_nat bits) (register_bit_offset gas) bits 0 junk 0 h Hm ltac:(lia) ltac:(lia) ltac:(lia) ltac:(lia) ltac:(lia)) as (r & -> & Hr).
  exists r. split; [reflexivity|]. intros i Hi. rewrite Hr, Z.testbit_0_l by lia. reflexivity.
Qed.

Lemma gas_write_memory v h : byte_mem (hw_mem h) -> exists m, uacpi_gas_write gas v h = Ret (UACPI_STATUS_OK, mk_hw m (hw_ports h)) /\ byte_mem m /\
  (forall i, in_range 0 (register_bit_offset gas) bits i = true -> mem_bit m B i = Z.testbit v i) /\
  forall i, i < 0 \/ 128 <= i -> mem_bit m B i = mem_bit (hw_mem h) B i.
Proof.
  intros Hm. destruct valid_total as [Ht Hb]. unfold uacpi_gas_write. rewrite Hvalid. cbn [negb Z.eqb UACPI_STATUS_OK]. fold bits. rewrite wrap_small by (pow2_consts; lia).
  destruct (write_loop_spec (Z.to_nat bits) (register_bit_offset gas) bits 0 v h Hm ltac:(lia) ltac:(lia) ltac:(lia) ltac:(lia) ltac:(lia)) as (m & -> & Hm' & R1 & R2).
  exists m. splits; auto. intros i Hi. apply R2. destruct (width_facts a Ha) as (Hw & _). pose proof (Z.div_pos (register_bit_offset gas) a). nia.
Qed.

(** A register of [memory], whatever its width, its offset and the width of its accesses:
    the accesses end, and what is written is read, in all bits from the access of the
    offset on; nothing outside of the register and the eight bytes behind it changes. *)
Theorem gas_memory_roundtrip v h : byte_mem (hw_mem h) -> exists m, uacpi_gas_write gas v h = Ret (UACPI_STATUS_OK, mk_hw m (hw_ports h)) /\ byte_mem m /\
  (forall junk out, exists r, uacpi_gas_read junk gas out (mk_hw m (hw_ports h)) = Ret (UACPI_STATUS_OK, r, mk_hw m (hw_ports h)) /\
     forall i, 0 <= i -> Z.testbit r i = in_range 0 (register_bit_offset gas) bits i && Z.testbit v i) /\
  forall x, x < B \/ B + 16 <= x -> m x = hw_mem h x.
Proof.
  intros Hm. destruct (gas_write_memory v h Hm) as (m & E & Hm' & R1 & R2). exists m. splits; auto.
  - intros junk out. destruct (gas_read_memory junk out (mk_hw m (hw_ports h)) Hm') as (r & E2 & Hr). exists r. split; [exact E2|]. intros i Hi. rewrite Hr by lia.
    cbn [hw_mem]. destruct (in_range 0 (register_bit_offset gas) bits i) eqn:Er; [|reflexivity]. now rewrite R1.
  - intros x Hx. apply byte_ext; [apply Hm'|apply Hm|]. intros q Hq. destruct (bit_address x B q Hq) as [Ex Eq].
    pose proof (R2 (8 * (x - B) + q) ltac:(lia)) as E2. unfold mem_bit in E2. rewrite <- Ex, <- Eq in E2. exact E2.
Qed.
End Memory.

(** ** Fields of registers *)

(** A register that keeps what is written to it: its two blocks together have a value of [w]
    bits. *)
Record plain_register (w : Z) (reg : register_spec) (inv : hw -> Prop) (value : hw -> Z) : Prop := {
  pr_width : 0 <= w <= 64;
  pr_range : forall h, inv h -> 0 <= value h < 2 ^ w;
  pr_read : forall junk h, inv h -> exists v0 v1, read_one junk (accessor0 reg) (spec_access_width reg) junk h = Ret (UACPI_STATUS_OK, v0, h) /\
    (match accessor1 reg with Some a => read_one junk a (spec_access_width reg) 0 h | None => Ret (UACPI_STATUS_OK, 0, h) end) = Ret (UACPI_STATUS_OK, v1, h) /\
    Z.lor v0 v1 = value h;
  pr_write : forall v h, inv h -> 0 <= v < 2 ^ 64 -> exists h', write_both reg v v h = Ret (UACPI_STATUS_OK, h') /\ inv h' /\ value h' = v mod 2 ^ w
}.

Lemma lnot_bits x i : 0 <= i -> Z.testbit (u64 (Z.lnot x)) i = (i <? 64) && negb (Z.testbit x i).
Proof. intros Hi. rewrite testbit_wrap, Z.lnot_spec by lia. reflexivity. Qed.

Lemma bits_range x : 0 <= x -> (forall i, 64 <= i -> Z.testbit x i = false) -> 0 <= x < 2 ^ 64.
Proof. intros H0 Hb. split; [exact H0|]. apply bits_bound; auto; lia. Qed.

(** Reading such a register: its value without the bits that can only be written. *)
Lemma read_plain w reg inv value junk out h : plain_register w reg inv value -> inv h -> exists d,
  do_read_register junk reg out h = Ret (UACPI_STATUS_OK, d, h) /\ 0 <= d < 2 ^ 64 /\
  forall i, 0 <= i -> Z.testbit d i = Z.testbit (value h) i && negb (Z.testbit (write_only_mask reg) i).
Proof.
  intros HP HI. destruct (pr_read _ _ _ _ HP junk h HI) as (v0 & v1 & E0 & E1 & Ev). pose proof (pr_range _ _ _ _ HP h HI) as Hr. pose proof (pr_width _ _ _ _ HP) as Hw.
  assert (2 ^ w <= 2 ^ 64) as Hp by (apply Z.pow_le_mono_r; lia).
  unfold do_read_register. rewrite E0. cbn [mbind outcome_bind negb Z.eqb UACPI_STATUS_OK]. rewrite E1. cbn [mbind outcome_bind negb Z.eqb UACPI_STATUS_OK]. rewrite Ev.
  eexists. split; [reflexivity|]. destruct (Z.eqb_spec (write_only_mask reg) 0) as [->|]; cbn [negb].
  - split; [lia|]. intros i Hi. now rewrite Z.testbit_0_l, andb_true_r.
  - assert (forall i, 0 <= i -> Z.testbit (Z.land (value h) (u64 (Z.lnot (write_only_mask reg)))) i = Z.testbit (value h) i && negb (Z.testbit (write_only_mask reg) i)) as Hb.
    { intros i Hi. rewrite Z.land_spec, lnot_bits by lia. destruct (Z.ltb_spec i 64); [reflexivity|]. now rewrite (testbit_high 64 (value h) i) by lia. }
    split; [|exact Hb]. apply bits_range; [apply Z.land_nonneg; lia|]. intros i Hi. rewrite Hb by lia. now rewrite (testbit_high 64 (value h) i) by lia.
Qed.

(** What the code relies on in its tables: in registers that are read and written back, the
    field starts at its offset and has no bit that is to be preserved. *)
Definition reg_masks (reg : register_spec) : Z * Z * Z * Z := (spec_kind reg, spec_access_kind reg, write_only_mask reg, preserve_mask reg).
Definition field_checks (f : register_field) (r : Z * Z * Z * Z) : bool :=
  let '(kind, access, _, keep) := r in
  (0 <=? field_offset f) && (field_offset f <=? 15) && (0 <=? field_mask f) && (field_mask f <? 65536) && (Z.land (field_mask f) (Z.ones (field_offset f)) =? 0) &&
  (negb (access =? REGISTER_ACCESS_KIND_PRESERVE) || ((kind =? REGISTER_KIND_GAS) && (0 <=? keep) && (keep <? 2 ^ 64) && (Z.land (field_mask f) keep =? 0))).

Lemma tables_ok c0 : forallb (fun '(_, f) => match map reg_masks (registers c0) !! Z.to_nat (field_reg f) with Some r => field_checks f r | None => false end) fields = true.
Proof. reflexivity. Qed.

Lemma field_of_checks c n f reg : field_of c n = Some (f, reg) -> field_checks f (reg_masks reg) = true.
Proof.
  unfold field_of. destruct (u8 n >? UACPI_REGISTER_FIELD_MAX); [discriminate|]. destruct (find_field fields (u8 n)) as [f'|] eqn:Ef; [|discriminate].
  destruct (registers c !! Z.to_nat (field_reg f')) as [r|] eqn:Er; [|discriminate]. intros [= -> ->].
  assert (exists i, In (i, f) fields) as [i Hi].
  { revert Ef. induction fields as [|[i g] l IH]; cbn [find_field]; [discriminate|]. destruct (i =? u8 n); [intros [= ->]; exists i; now left|].
    intros E. destruct (IH E) as [j Hj]. exists j. now right. }
  pose proof (tables_ok c) as HT. rewrite forallb_forall in HT. specialize (HT _ Hi). cbn beta iota in HT.
  rewrite (list_lookup_fmap reg_masks), Er in HT. exact HT.
Qed.

Lemma land_0_bits x y i : Z.land x y = 0 -> Z.testbit x i = true -> Z.testbit y i = false.
Proof. intros E Hx. apply (f_equal (fun z => Z.testbit z i)) in E. rewrite Z.land_spec, Hx, Z.testbit_0_l in E. exact E. Qed.

(** The bits of the value that is written back. *)
Definition merged (f : register_field) (d v i : Z) : bool := if Z.testbit (field_mask f) i then Z.testbit v (i - field_offset f) else Z.testbit d i.

Lemma merge_bits f d v : 0 <= field_offset f -> 0 <= field_mask f < 2 ^ 64 -> 0 <= d < 2 ^ 64 ->
  let x := Z.lor (Z.land d (u64 (Z.lnot (field_mask f)))) (Z.land (u64 (Z.shiftl v (field_offset f))) (field_mask f)) in
  0 <= x < 2 ^ 64 /\ forall i, 0 <= i -> Z.testbit x i = merged f d v i.
Proof.
  intros Ho Hm Hd x. assert (forall i, 0 <= i -> Z.testbit x i = merged f d v i) as Hb.
  { intros i Hi. unfold x, merged. rewrite Z.lor_spec, !Z.land_spec, lnot_bits, testbit_wrap, Z.shiftl_spec by lia.
    destruct (Z.ltb_spec i 64).
    - destruct (Z.testbit (field_mask f) i); cbn [negb andb orb]; now rewrite ?andb_false_r, ?andb_true_r, ?orb_false_r.
    - rewrite (testbit_high 64 (field_mask f) i), (testbit_high 64 d i) by lia. reflexivity. }
  split; [|exact Hb]. apply bits_range.
  - apply Z.lor_nonneg. split; apply Z.land_nonneg; lia.
  - intros i Hi. rewrite Hb by lia. unfold merged. now rewrite (testbit_high 64 (field_mask f) i), (testbit_high 64 d i) by lia.
Qed.

(** Writing a register that is to be preserved: the bits of its mask come from a second read,
    which gives the same. *)
Lemma write_plain w reg inv value junk x d h : plain_register w reg inv value -> inv h -> spec_access_kind reg = REGISTER_ACCESS_KIND_PRESERVE ->
  0 <= preserve_mask reg < 2 ^ 64 -> 0 <= x < 2 ^ 64 -> (forall junk out, do_read_register junk reg out h = Ret (UACPI_STATUS_OK, d, h)) ->
  (forall i, 0 <= i -> Z.testbit (preserve_mask reg) i = true -> Z.testbit x i = Z.testbit d i) -> do_write_register junk reg x h = write_both reg x x h.
Proof.
  intros HP HI Hk Hm Hx Hd Hb. unfold do_write_register. destruct (preserve_mask reg =? 0) eqn:Ez; [reflexivity|]. rewrite Hk, Z.eqb_refl, Hd.
  cbn [mbind outcome_bind negb Z.eqb UACPI_STATUS_OK].
  assert (Z.lor (Z.land x (u64 (Z.lnot (preserve_mask reg)))) (Z.land d (preserve_mask reg)) = x) as ->; [|reflexivity].
  apply Z.bits_inj'. intros i Hi. rewrite Z.lor_spec, !Z.land_spec, lnot_bits by lia. destruct (Z.testbit (preserve_mask reg) i) eqn:E.
  - rewrite (Hb i Hi E). cbn [negb]. now rewrite !andb_false_r, andb_true_r.
  - cbn [negb]. rewrite andb_true_r, andb_false_r, orb_false_r. destruct (Z.ltb_spec i 64); [now rewrite andb_true_r|]. now rewrite (testbit_high 64 x i) by lia.
Qed.

(** C37: fields of the fixed registers, for a register that keeps what it is given: writing a
    field gives its bits the new value, keeps every other bit, and sends zero to the bits
    that can only be written, so that no command is triggered by the way; reading the field
    gives the value back, or zero where the field itself can only be written. *)
Theorem register_field_roundtrip w c n f reg inv value junk v h :
  field_of c n = Some (f, reg) -> spec_access_kind reg = REGISTER_ACCESS_KIND_PRESERVE -> plain_register w reg inv value -> field_mask f < 2 ^ w -> inv h ->
  exists h', uacpi_write_register_field junk c n v h = Ret (UACPI_STATUS_OK, h') /\ inv h' /\
    (forall i, 0 <= i -> Z.testbit (value h') i =
       if Z.testbit (field_mask f) i then Z.testbit v (i - field_offset f) else Z.testbit (value h) i && negb (Z.testbit (write_only_mask reg) i)) /\
    forall junk out, exists r, uacpi_read_register_field junk c n out h' = Ret (UACPI_STATUS_OK, r, h') /\
      forall i, 0 <= i -> Z.testbit r i = Z.testbit (field_mask f) (i + field_offset f) && Z.testbit v i && negb (Z.testbit (write_only_mask reg) (i + field_offset f)).
Proof.
  intros HF Hk HP Hmw HI. pose proof (field_of_checks _ _ _ _ HF) as HC. unfold field_checks, reg_masks in HC. rewrite Hk in HC. cbn [Z.eqb negb orb REGISTER_ACCESS_KIND_PRESERVE] in HC.
  repeat rewrite andb_true_iff in HC. rewrite !Z.leb_le, !Z.ltb_lt, !Z.eqb_eq in HC. destruct HC as (((((C1 & C2) & C3) & C4) & C5) & ((C6 & C7) & C8) & C9).
  pose proof (pr_width _ _ _ _ HP) as Hw. assert (2 ^ w <= 2 ^ 64) as Hp by (apply Z.pow_le_mono_r; lia).
  destruct (read_plain w reg inv value junk junk h HP HI) as (d & _ & Hd & Hdb).
  assert (forall junk out, do_read_register junk reg out h = Ret (UACPI_STATUS_OK, d, h)) as Ed.
  { intros j o. destruct (read_plain w reg inv value j o h HP HI) as (d' & -> & Hd' & Hdb'). assert (d' = d) as ->; [|reflexivity].
    apply Z.bits_inj'. intros i Hi. now rewrite Hdb, Hdb'. }
  destruct (merge_bits f d v C1 ltac:(lia) Hd) as [Hx Hxb]. set (x := Z.lor _ _) in *.
  destruct (pr_write _ _ _ _ HP x h HI Hx) as (h' & Ew & HI' & Ev).
  assert (forall i, 0 <= i -> Z.testbit (value h') i = merged f d v i) as Hv.
  { intros i Hi. rewrite Ev, <- Hxb by lia. destruct (Z.lt_ge_cases i w) as [Hl|Hg]; [now rewrite Z.mod_pow2_bits_low by lia|].
    rewrite Z.mod_pow2_bits_high, Hxb by lia. unfold merged. rewrite (testbit_high w (field_mask f) i), Hdb by lia.
    now rewrite (testbit_high w (value h) i) by (try exact (pr_range _ _ _ _ HP h HI); lia). }
  exists h'. splits; [|exact HI'|intros i Hi; rewrite Hv by lia; unfold merged; now rewrite Hdb by lia|].
  - unfold uacpi_write_register_field. rewrite HF, C6. cbn [Z.eqb REGISTER_KIND_GAS REGISTER_ACCESS_KIND_WRITE_TO_CLEAR]. rewrite Ed. cbn [mbind outcome_bind negb Z.eqb UACPI_STATUS_OK].
    fold x. rewrite (write_plain w reg inv value junk x d h HP HI Hk ltac:(lia) Hx Ed); [exact Ew|]. intros i Hi Hpm. rewrite Hxb by lia. unfold merged.
    destruct (Z.testbit (field_mask f) i) eqn:E; [|reflexivity]. rewrite (land_0_bits _ _ _ C9 E) in Hpm. discriminate.
  - intros j o. unfold uacpi_read_register_field. rewrite HF. destruct (read_plain w reg inv value j o h' HP HI') as (d' & -> & Hd' & Hdb'). cbn [mbind outcome_bind negb Z.eqb UACPI_STATUS_OK].
    eexists. split; [reflexivity|]. intros i Hi. rewrite Z.shiftr_spec, Z.land_spec, Hdb', Hv by lia. unfold merged. replace (i + field_offset f - field_offset f) with i by lia.
    destruct (Z.testbit (field_mask f) (i + field_offset f)); [now rewrite andb_true_r|now rewrite andb_false_r].
Qed.

(** ** Registers in memory keep what they are given *)

(** A register as the FADT describes them: whole, and of one of the widths of an access. *)
Record mem_gas (w : Z) (g : acpi_gas) : Prop := {
  mg_space : address_space_id g = UACPI_ADDRESS_SPACE_SYSTEM_MEMORY;
  mg_shape : register_bit_offset g = 0 /\ register_bit_width g = w /\ 0 <= access_size g <= 4;
  mg_address : 0 < address g /\ 0 <= hhdmOffset /\ address g + hhdmOffset + 64 < 2 ^ 64
}.

Lemma mem_gas_valid w g : width_ok w -> mem_gas w g -> gas_validate g = (UACPI_STATUS_OK, w).
Proof.
  intros Hw [Hs (Ho & Hwd & Ha) (Hp & _)]. unfold gas_validate, gas_get_access_bit_width. rewrite Hs, Ho, Hwd. rewrite (proj2 (Z.eqb_neq (address g) 0)) by lia.
  destruct (Z.gtb_spec (access_size g) 4); [lia|]. now destruct Hw as [->|[->|[-> | ->]]].
Qed.

Definition gas_value (w : Z) (g : acpi_gas) (h : hw) : Z := load (Z.to_nat (w / 8)) (address g + hhdmOffset) (hw_mem h).

Lemma gas_value_bits w g h i : width_ok w -> byte_mem (hw_mem h) -> 0 <= i -> Z.testbit (gas_value w g h) i = (i <? w) && mem_bit (hw_mem h) (address g + hhdmOffset) i.
Proof. intros Hw Hm Hi. destruct (width_facts w Hw) as (Hr & Ew & _). unfold gas_value. rewrite testbit_load, Z2Nat.id, <- Ew by (auto; lia). reflexivity. Qed.

Lemma whole_range w i : width_ok w -> 0 <= i -> in_range w 0 0 (0 + w) i = (i <? w).
Proof.
  intros Hw Hi. destruct (width_facts w Hw) as (Hr & _). unfold in_range, pieces. rewrite Z.div_0_l by lia. replace ((0 + w + w - 1) / w) with 1 by (apply (Z.div_unique _ _ _ (w - 1)); lia).
  rewrite (proj2 (Z.leb_le _ i)) by lia. replace (0 * w + 1 * w) with w by lia. reflexivity.
Qed.

Lemma mem_gas_read w g junk out h : width_ok w -> mem_gas w g -> byte_mem (hw_mem h) -> read_one junk (Acc_gas g) 0 out h = Ret (UACPI_STATUS_OK, gas_value w g h, h).
Proof.
  intros Hw Hg Hm. pose proof (mem_gas_valid w g Hw Hg) as Hv. destruct Hg as [Hs (Ho & Hwd & Ha) (Hp & Hh & Hb)]. destruct (width_facts w Hw) as (Hr & _). unfold read_one.
  rewrite (proj2 (Z.eqb_neq (address g) 0)) by lia.
  destruct (gas_read_memory g w Hs Hw ltac:(splits; lia) Hv ltac:(rewrite Ho, Hwd; lia) junk out h Hm) as (r & -> & Hrb). repeat f_equal.
  apply Z.bits_inj'. intros i Hi. rewrite Hrb, Ho, Hwd, whole_range, gas_value_bits by (auto; lia). reflexivity.
Qed.

Lemma mem_gas_write w g v h : width_ok w -> mem_gas w g -> byte_mem (hw_mem h) -> exists m, write_one (Acc_gas g) 0 v h = Ret (UACPI_STATUS_OK, mk_hw m (hw_ports h)) /\ byte_mem m /\
  gas_value w g (mk_hw m (hw_ports h)) = v mod 2 ^ w /\ forall x, x < address g + hhdmOffset \/ address g + hhdmOffset + 16 <= x -> m x = hw_mem h x.
Proof.
  intros Hw Hg Hm. pose proof (mem_gas_valid w g Hw Hg) as Hv. pose proof Hg as [Hs (Ho & Hwd & Ha) (Hp & Hh & Hb)]. destruct (width_facts w Hw) as (Hr & _). unfold write_one.
  rewrite (proj2 (Z.eqb_neq (address g) 0)) by lia.
  destruct (gas_memory_roundtrip g w Hs Hw ltac:(splits; lia) Hv ltac:(rewrite Ho, Hwd; lia) v h Hm) as (m & -> & Hm' & R1 & R2). exists m. splits; auto.
  destruct (R1 0 0) as (r & E & Hrb). pose proof (mem_gas_read w g 0 0 (mk_hw m (hw_ports h)) Hw Hg Hm') as E'. unfold read_one in E'.
  rewrite (proj2 (Z.eqb_neq (address g) 0)), E in E' by lia. injection E' as <-. apply Z.bits_inj'. intros i Hi. rewrite Hrb, Ho, Hwd, whole_range by (auto; lia).
  destruct (Z.ltb_spec i w); cbn [andb]; [now rewrite Z.mod_pow2_bits_low by lia|now rewrite Z.mod_pow2_bits_high by lia].
Qed.

(** The second block: missing, or another register in memory. *)
Definition second_ok (w : Z) (g0 : acpi_gas) (a1 : option accessor) : Prop :=
  match a1 with
  | None => True
  | Some (Acc_gas g1) => address g1 = 0 \/ (mem_gas w g1 /\ (address g0 + 16 <= address g1 \/ address g1 + 16 <= address g0))
  | Some (Acc_port _) => False
  end.

Definition blocks_value (w : Z) (g0 : acpi_gas) (a1 : option accessor) (h : hw) : Z :=
  Z.lor (gas_value w g0 h) (match a1 with Some (Acc_gas g1) => if address g1 =? 0 then 0 else gas_value w g1 h | _ => 0 end).

(** The fixed registers of a machine that has them in memory, with one block or two. *)
Theorem memory_register_plain w g0 reg : width_ok w -> mem_gas w g0 -> accessor0 reg = Acc_gas g0 -> spec_access_width reg = 0 -> second_ok w g0 (accessor1 reg) ->
  plain_register w reg (fun h => byte_mem (hw_mem h)) (blocks_value w g0 (accessor1 reg)).
Proof.
  intros Hw Hg E0 Ew Hs. destruct (width_facts w Hw) as (Hr & Ea & _).
  assert (forall g h, byte_mem (hw_mem h) -> 0 <= gas_value w g h < 2 ^ w) as HR.
  { intros g h Hm. unfold gas_value. pose proof (load_range (Z.to_nat (w / 8)) (address g + hhdmOffset) (hw_mem h) ltac:(intros k _; apply Hm)) as HL.
    rewrite Z2Nat.id, <- Ea in HL by lia. exact HL. }
  split; [lia| | |].
  - intros h Hm. unfold blocks_value. assert (0 <= match accessor1 reg with Some (Acc_gas g1) => if address g1 =? 0 then 0 else gas_value w g1 h | _ => 0 end < 2 ^ w) as H1.
    { destruct (accessor1 reg) as [[g1|]|]; try (split; [lia|apply Z.pow_pos_nonneg; lia]). destruct (address g1 =? 0); [split; [lia|apply Z.pow_pos_nonneg; lia]|now apply HR]. }
    pose proof (HR g0 h Hm) as H0. split; [apply Z.lor_nonneg; lia|]. apply bits_bound; [lia|apply Z.lor_nonneg; lia|]. intros i Hi.
    rewrite Z.lor_spec. now rewrite !(testbit_high w _ i) by lia.
  - intros junk h Hm. rewrite E0, Ew. eexists _, _. splits; [exact (mem_gas_read w g0 junk junk h Hw Hg Hm)| |reflexivity].
    destruct (accessor1 reg) as [[g1|]|]; [|contradiction|reflexivity]. cbn [second_ok] in Hs. destruct (Z.eqb_spec (address g1) 0) as [Ez|Nz].
    + unfold read_one. now rewrite Ez.
    + destruct Hs as [|[Hg1 _]]; [contradiction|]. now apply mem_gas_read.
  - intros v h Hm _. unfold write_both. rewrite E0, Ew. destruct (mem_gas_write w g0 v h Hw Hg Hm) as (m & -> & Hm' & V0 & F0). cbn [mbind outcome_bind negb Z.eqb UACPI_STATUS_OK].
    assert (forall x, Z.lor x 0 = x) as L0 by apply Z.lor_0_r. unfold blocks_value.
    destruct (accessor1 reg) as [[g1|]|]; [|contradiction|exists (mk_hw m (hw_ports h)); splits; auto; now rewrite L0]. cbn [second_ok] in Hs. destruct (Z.eqb_spec (address g1) 0) as [Ez|Nz].
    + exists (mk_hw m (hw_ports h)). unfold write_one. rewrite Ez. splits; auto. now rewrite L0.
    + destruct Hs as [|[Hg1 Hd]]; [contradiction|]. destruct (mem_gas_write w g1 v (mk_hw m (hw_ports h)) Hw Hg1 Hm') as (m1 & -> & Hm1 & V1 & F1). eexists. splits; [reflexivity|exact Hm1|].
      cbn [hw_ports hw_mem] in *. rewrite V1, <- V0. assert (gas_value w g0 (mk_hw m1 (hw_ports h)) = gas_value w g0 (mk_hw m (hw_ports h))) as ->; [|now rewrite Z.lor_diag].
      apply load_ext. intros k Hk. apply F1. rewrite Z2Nat.id in Hk by lia. lia.
Qed.
End Registers.

(** ** A machine with its registers in memory *)

#[local] Instance no_ports : PortIO unit := { arch_inb _ w := (0, w); arch_outb _ _ w := w; arch_inw _ w := (0, w); arch_outw _ _ w := w }.
#[local] Instance no_ports32 : PortIO32 unit := { arch_inl _ w := (0, w); arch_outl _ _ w := w }.

Definition no_gas : acpi_gas := mk_gas 0 0 0 0 0.
Definition cnt_gas : acpi_gas := mk_gas UACPI_ADDRESS_SPACE_SYSTEM_MEMORY 16 0 2 0x1000.
Definition reg_demo (sts cnt : acpi_gas) : reg_ctx := mk_regs sts no_gas no_gas no_gas cnt no_gas no_gas no_gas no_gas no_gas no_gas 0.
Definition hw_demo : hw (W := unit) := mk_hw (fun a => if a =? 0x1000 then 0x05 else 0) tt.

(** The type of sleep is set in the control register; the interrupt enable bit is kept. *)
Lemma register_field_roundtrip_witness :
  exists h', uacpi_write_register_field 0 77 (reg_demo no_gas cnt_gas) UACPI_REGISTER_FIELD_SLP_TYP 5 hw_demo = Ret (UACPI_STATUS_OK, h') /\
    Z.testbit (blocks_value 0 16 cnt_gas (Some (Acc_gas no_gas)) h') 0 = true /\
    forall junk out, exists r, uacpi_read_register_field 0 junk (reg_demo no_gas cnt_gas) UACPI_REGISTER_FIELD_SLP_TYP out h' = Ret (UACPI_STATUS_OK, r, h') /\ Z.testbit r 0 = true.
Proof.
  assert (mem_gas 0 16 cnt_gas) as Hg by (split; [reflexivity|splits; cbn; lia|splits; cbn; lia]).
  assert (byte_mem (hw_mem hw_demo)) as Hm by (intros a; cbn; destruct (a =? 4096); lia).
  assert (width_ok 16) as Hw by (right; now left).
  set (reg := mk_spec REGISTER_KIND_GAS REGISTER_ACCESS_KIND_PRESERVE 0 (Acc_gas cnt_gas) (Some (Acc_gas no_gas)) (Z.lor ACPI_PM1_CNT_SLP_EN_MASK ACPI_PM1_CNT_GBL_RLS_MASK) ACPI_PM1_CNT_PRESERVE_MASK).
  pose proof (memory_register_plain 0 16 cnt_gas reg Hw Hg eq_refl eq_refl (or_introl eq_refl)) as HP.
  destruct (register_field_roundtrip 0 16 (reg_demo no_gas cnt_gas) UACPI_REGISTER_FIELD_SLP_TYP
    (mk_field UACPI_REGISTER_PM1_CNT ACPI_PM1_CNT_SLP_TYP_IDX ACPI_PM1_CNT_SLP_TYP_MASK) reg _ _ 77 5 hw_demo eq_refl eq_refl HP ltac:(vm_compute; reflexivity) Hm) as (h' & E & _ & V & R).
  exists h'. splits; [exact E|etransitivity; [exact (V 0 ltac:(lia))|vm_compute; reflexivity]|]. intros junk out. destruct (R junk out) as (r & Er & Hr). exists r. split; [exact Er|]. etransitivity; [exact (Hr 0 ltac:(lia))|vm_compute; reflexivity].
Defined.

(** ** Where it goes wrong *)

(** A status register at a port: a bit is cleared by writing one to it. *)
Section Status.
#[local] Instance status_ports : PortIO Z := { arch_inb _ w := (u8 w, w); arch_outb _ v w := Z.land w (Z.lnot v); arch_inw _ w := (w, w); arch_outw _ v w := Z.land w (Z.lnot v) }.
#[local] Instance status_ports32 : PortIO32 Z := { arch_inl _ w := (w, w); arch_outl _ v w := Z.land w (Z.lnot v) }.

Definition sts_gas (port : Z) : acpi_gas := mk_gas UACPI_ADDRESS_SPACE_SYSTEM_IO 16 0 2 port.

Lemma status_valid port : 0 < port -> gas_validate (sts_gas port) = (UACPI_STATUS_OK, 16).
Proof. intros Hp. unfold gas_validate. cbn [address sts_gas]. rewrite (proj2 (Z.eqb_neq port 0)) by lia. reflexivity. Qed.

Lemma status_read hhdm junk port out m s : 0 < port -> 0 <= s < 2 ^ 16 ->
  read_one hhdm junk (Acc_gas (sts_gas port)) 0 out (mk_hw m s) = Ret (UACPI_STATUS_OK, s, mk_hw m s).
Proof.
  intros Hp Hs. unfold read_one, uacpi_gas_read. rewrite status_valid by lia. cbn [address sts_gas]. rewrite (proj2 (Z.eqb_neq port 0)) by lia. cbn [negb Z.eqb UACPI_STATUS_OK].
  change (Z.to_nat (u8 _)) with (S 15). change (u8 _) with 16. rewrite (read_loop_once hhdm 15 (sts_gas port) 16 junk (mk_hw m s) s (mk_hw m s)); [|lia|reflexivity].
  change (access_mask 16) with (Z.ones 16). rewrite Z.land_ones, Z.mod_small, wrap_small by lia. reflexivity.
Qed.

Lemma status_write hhdm port v m s : 0 < port -> 0 <= v < 2 ^ 16 -> write_one hhdm (Acc_gas (sts_gas port)) 0 v (mk_hw m s) = Ret (UACPI_STATUS_OK, mk_hw m (Z.land s (Z.lnot v))).
Proof.
  intros Hp Hv. unfold write_one, uacpi_gas_write. rewrite status_valid by lia. cbn [address sts_gas]. rewrite (proj2 (Z.eqb_neq port 0)) by lia. cbn [negb Z.eqb UACPI_STATUS_OK].
  change (Z.to_nat (u8 _)) with (S 15). change (u8 _) with 16. apply write_loop_once; [lia|]. change (access_mask 16) with (Z.ones 16). rewrite Z.land_ones, Z.mod_small by lia.
  transitivity (UACPI_STATUS_OK, mk_hw m (Z.land s (Z.lnot (u16 v)))); [reflexivity|now rewrite (wrap_small 16 v) by lia].
Qed.

(** Clearing the status of the power button clears the whole status register: the code asks
    for the kind of the register where it means the kind of its accesses, so that the field
    is read, merged and written back, and every event that is pending is acknowledged. *)
Theorem status_clear_loses_events hhdm junk port m s : 0 < port -> 0 <= s < 2 ^ 16 ->
  uacpi_write_register_field hhdm junk (reg_demo (sts_gas port) no_gas) UACPI_REGISTER_FIELD_PWRBTN_STS 1 (mk_hw m s) =
    Ret (UACPI_STATUS_OK, mk_hw m (Z.land s ACPI_PM1_STS_IGN0_MASK)).
Proof.
  intros Hp Hs. unfold uacpi_write_register_field.
  change (field_of (reg_demo (sts_gas port) no_gas) UACPI_REGISTER_FIELD_PWRBTN_STS) with (Some (mk_field UACPI_REGISTER_PM1_STS ACPI_PM1_STS_PWRBTN_STS_IDX ACPI_PM1_STS_PWRBTN_STS_MASK,
    mk_spec REGISTER_KIND_GAS REGISTER_ACCESS_KIND_WRITE_TO_CLEAR 0 (Acc_gas (sts_gas port)) (Some (Acc_gas no_gas)) 0 ACPI_PM1_STS_IGN0_MASK)). cbn iota zeta.
  set (reg := mk_spec _ _ _ _ _ _ _). change (spec_kind reg =? REGISTER_ACCESS_KIND_WRITE_TO_CLEAR) with false. cbn iota.
  assert (do_read_register hhdm junk reg junk (mk_hw m s) = Ret (UACPI_STATUS_OK, s, mk_hw m s)) as ->.
  { unfold do_read_register. cbn [accessor0 accessor1 spec_access_width reg]. rewrite status_read by assumption. cbn. now rewrite Z.lor_0_r. }
  cbn [mbind outcome_bind negb Z.eqb UACPI_STATUS_OK]. set (d := Z.lor _ _). unfold do_write_register. cbn [preserve_mask spec_access_kind reg].
  change (ACPI_PM1_STS_IGN0_MASK =? 0) with false. change (REGISTER_ACCESS_KIND_WRITE_TO_CLEAR =? REGISTER_ACCESS_KIND_PRESERVE) with false. cbn iota.
  assert (forall i, 0 <= i -> Z.testbit (Z.land d (u64 (Z.lnot ACPI_PM1_STS_IGN0_MASK))) i = (i <? 64) && ((i =? 8) || Z.testbit s i) && negb (i =? 11)) as Hb.
  { intros i Hi. unfold d. rewrite Z.land_spec, Z.lor_spec, Z.land_spec, !lnot_bits by lia. cbn [field_mask].
    change ACPI_PM1_STS_IGN0_MASK with (2 ^ 11). change ACPI_PM1_STS_PWRBTN_STS_MASK with (2 ^ 8). rewrite !Z.pow2_bits_eqb by lia.
    replace (Z.testbit (Z.land (u64 _) (2 ^ 8)) i) with (i =? 8) by (change (Z.land (u64 _) (2 ^ 8)) with (2 ^ 8); rewrite Z.pow2_bits_eqb by lia; apply Z.eqb_sym).
    rewrite !(Z.eqb_sym _ i). destruct (Z.ltb_spec i 64), (Z.eqb_spec i 8), (Z.eqb_spec i 11); try lia; cbn [negb andb orb]; rewrite ?andb_true_r, ?andb_false_r, ?orb_true_r, ?orb_false_r; reflexivity. }
  set (x := Z.land d _) in *. unfold write_both. cbn [accessor0 accessor1 spec_access_width reg].
  assert (0 <= x < 2 ^ 16) as Hx.
  { assert (0 <= x) as H0 by (apply Z.land_nonneg; right; pose proof (wrap_range 64 (Z.lnot ACPI_PM1_STS_IGN0_MASK)); lia). split; [exact H0|]. apply bits_bound; [lia|exact H0|].
    intros i Hi. rewrite Hb by lia. rewrite (testbit_high 16 s i), (proj2 (Z.eqb_neq i 8)) by lia. now rewrite andb_false_r. }
  rewrite status_write by assumption. cbn [mbind outcome_bind negb Z.eqb UACPI_STATUS_OK write_one address no_gas]. do 3 f_equal.
  apply Z.bits_inj'. intros i Hi. rewrite !Z.land_spec, Z.lnot_spec, Hb by lia. change ACPI_PM1_STS_IGN0_MASK with (2 ^ 11). rewrite Z.pow2_bits_eqb, (Z.eqb_sym 11) by lia.
  destruct (Z.ltb_spec i 64); [|now rewrite (testbit_high 16 s i) by lia]. destruct (Z.testbit s i), (Z.eqb_spec i 8), (Z.eqb_spec i 11); try lia; reflexivity.
Qed.
End Status.

(** The size of an access is a code, 3 for four bytes; taken as a number of bytes, it asks the
    kernel for an access of three bytes, which it does not have: what is read is the value
    of a variable that was never set. *)
Theorem gas_dword_access_junk hhdm junk out h : 0 <= junk < 2 ^ 64 ->
  uacpi_gas_read (W := unit) hhdm junk (mk_gas UACPI_ADDRESS_SPACE_SYSTEM_MEMORY 12 0 3 0x2000) out h = Ret (UACPI_STATUS_OK, Z.land junk 0xFFFFFF, h).
Proof.
  intros Hj. transitivity (Ret (UACPI_STATUS_OK, u64 (Z.land junk 0xFFFFFF), h)); [reflexivity|]. rewrite wrap_small; [reflexivity|].
  change 0xFFFFFF with (Z.ones 24). rewrite Z.land_ones by lia. pose proof (Z.mod_pos_bound junk (2 ^ 24)). lia.
Qed.
