(* ===== verification/UacpiSleep.v ===== *)
(** * Sleep states, shutdown and reset ([kernel/acpi/uacpi/sleep.c])

    The machine is put to sleep, and turned off, with the two PM1 control registers, or with
    one register on reduced hardware, after methods of the firmware have been called.  The
    evaluation of methods and the general purpose events are arguments: they get the whole
    state, since the firmware can reach the hardware.  The kernel's stall waits for a tick of
    the timer, which only comes while interrupts are on. *)

From S2P Require Import Prelude Links Interfaces MemMap Pmm MemUtil Kheap ListDs Path Vnode Initrd Bytes Ports Module Elf Irq Device Pci AcpiOs UacpiMutex UacpiNs UacpiReg.
#[local] Open Scope Z_scope.

Definition UACPI_SLEEP_STATE_S0 : Z := 0.
Definition UACPI_SLEEP_STATE_S1 : Z := 1.
Definition UACPI_SLEEP_STATE_S2 : Z := 2.
Definition UACPI_SLEEP_STATE_S3 : Z := 3.
Definition UACPI_SLEEP_STATE_S4 : Z := 4.
Definition UACPI_SLEEP_STATE_S5 : Z := 5.
Definition UACPI_SLEEP_STATE_MAX : Z := UACPI_SLEEP_STATE_S5.
Definition UACPI_SLEEP_TYP_INVALID : Z := 0xFF.
Definition UACPI_STATUS_AML_INCOMPATIBLE_OBJECT_TYPE : Z := 0x0EFF0004.
Definition UACPI_STATUS_AML_BAD_ENCODING : Z := 0x0EFF0005.
Definition UACPI_ADDRESS_SPACE_PCI_CONFIG : Z := 2.
Definition ACPI_PM1_STS_CLEAR : Z := 1.
Definition ACPI_SLP_STS_CLEAR : Z := 1.
Definition ACPI_RESET_REG_SUP : Z := Z.shiftl 1 10.

(** The parts of the FACS that are used. *)
Record acpi_facs : Type := mk_facs { facs_length : Z; firmware_waking_vector : Z; x_firmware_waking_vector : Z; facs_version : Z }.

(** The types of [g_uacpi_rt_ctx]. *)
Record sleep_types : Type := mk_types { last_sleep_typ_a : Z; last_sleep_typ_b : Z; s0_sleep_typ_a : Z; s0_sleep_typ_b : Z }.

(** An element of a package. *)
Inductive pkg_object : Type := Pkg_integer (v : Z) | Pkg_other.

(** [sl_ints]: interrupts are on; [sl_aml] is the state of the interpreter and of the events. *)
Record sleep_state (W A : Type) : Type := mk_sl {
  sl_hw : hw (W := W);
  sl_cfg : Z -> Z;
  sl_ticks : Z;
  sl_ints : bool;
  sl_types : sleep_types;
  sl_facs : option acpi_facs;
  sl_aml : A
}.
Arguments mk_sl {W A}.
Arguments sl_hw {W A}.
Arguments sl_cfg {W A}.
Arguments sl_ticks {W A}.
Arguments sl_ints {W A}.
Arguments sl_types {W A}.
Arguments sl_facs {W A}.
Arguments sl_aml {W A}.

Section Sleep.
Context {W A : Type} `{IO : PortIO W} `{IO32 : PortIO32 W}.
Abbreviation S := (sleep_state W A).
Implicit Types (s : S).

(** [junk] is the value of variables that are not set; [regs], [fadt_flags] and [reset_value]
    are parts of the FADT. *)
Variables (hhdmOffset junk : Z) (regs : reg_ctx) (hardware_reduced : bool) (fadt_flags reset_value : Z).
Variable eval_package : list Z -> S -> outcome (Z * list pkg_object * S).
Variable eval_method : Z -> list Z -> Z -> S -> outcome (Z * S).
Variables disable_all_gpes clear_all_events enable_all_wake_gpes enable_all_runtime_gpes : S -> outcome (Z * S).

Definition set_hw (h : hw) s : S := mk_sl h (sl_cfg s) (sl_ticks s) (sl_ints s) (sl_types s) (sl_facs s) (sl_aml s).
Definition set_cfg (c : Z -> Z) s : S := mk_sl (sl_hw s) c (sl_ticks s) (sl_ints s) (sl_types s) (sl_facs s) (sl_aml s).
Definition set_ticks (t : Z) s : S := mk_sl (sl_hw s) (sl_cfg s) t (sl_ints s) (sl_types s) (sl_facs s) (sl_aml s).
Definition set_ints (b : bool) s : S := mk_sl (sl_hw s) (sl_cfg s) (sl_ticks s) b (sl_types s) (sl_facs s) (sl_aml s).
Definition set_types (t : sleep_types) s : S := mk_sl (sl_hw s) (sl_cfg s) (sl_ticks s) (sl_ints s) t (sl_facs s) (sl_aml s).
Definition set_facs (f : option acpi_facs) s : S := mk_sl (sl_hw s) (sl_cfg s) (sl_ticks s) (sl_ints s) (sl_types s) f (sl_aml s).

(** [if (uacpi_unlikely_error(ret)) return ret;] *)
Definition checked (m : outcome (Z * S)) (f : S -> outcome (Z * S)) : outcome (Z * S) :=
  '(ret, s) ← m; if negb (ret =? UACPI_STATUS_OK) then Ret (ret, s) else f s.

(** Registers. *)
Definition write_register_field (field v : Z) s : outcome (Z * S) := '(ret, h) ← uacpi_write_register_field hhdmOffset junk regs field v (sl_hw s); Ret (ret, set_hw h s).
Definition read_register_field (field out : Z) s : outcome (Z * Z * S) := '(ret, v, h) ← uacpi_read_register_field hhdmOffset junk regs field out (sl_hw s); Ret (ret, v, set_hw h s).
Definition read_register (reg out : Z) s : outcome (Z * Z * S) := '(ret, v, h) ← uacpi_read_register hhdmOffset junk regs reg out (sl_hw s); Ret (ret, v, set_hw h s).
Definition write_register (reg v : Z) s : outcome (Z * S) := '(ret, h) ← uacpi_write_register hhdmOffset junk regs reg v (sl_hw s); Ret (ret, set_hw h s).
Definition write_registers (reg v0 v1 : Z) s : outcome (Z * S) := '(ret, h) ← uacpi_write_registers hhdmOffset regs reg v0 v1 (sl_hw s); Ret (ret, set_hw h s).

(** The tick counter is counted up by the handler of the timer interrupt: it goes up while
    interrupts are on, and stays as it is while they are off, however long it is looked at.
    [uacpi_enter_sleep_state] is documented to be called with interrupts off. *)
Definition stall (fuel : nat) (usec : Z) s : outcome S :=
  if sl_ints s then _ ← uacpi_kernel_stall usec (sl_ticks s) [sl_ticks s; u64 (sl_ticks s + 1)]; Ret (set_ticks (u64 (sl_ticks s + 1)) s)
  else _ ← uacpi_kernel_stall usec (sl_ticks s) (repeat (sl_ticks s) fuel); Ret s.

(** [while (stalled_time < max) { uacpi_kernel_stall(100); stalled_time += 100; }] *)
Definition stall_for (fuel : nat) (max : Z) s : outcome S := for_up (Z.to_nat (max / 100)) 0 (fun _ s => stall fuel 100 s) s.

Definition uacpi_set_waking_vector (addr32 addr64 : Z) s : Z * S :=
  match sl_facs s with
  | None => (UACPI_STATUS_OK, s)
  | Some f =>
      let f := mk_facs (facs_length f) (u32 addr32) (x_firmware_waking_vector f) (facs_version f) in
      let f := if facs_length f <? 32 then f
               else mk_facs (facs_length f) (firmware_waking_vector f) (if facs_version f >=? 1 then addr64 else 0) (facs_version f) in
      (UACPI_STATUS_OK, set_facs (Some f) s)
  end.

(** The value of a control register with a sleep type. *)
Definition with_type (pm1 typ : Z) : Z := Z.lor pm1 (Z.shiftl typ ACPI_PM1_CNT_SLP_TYP_IDX).
Definition without_type (pm1 : Z) : Z := Z.land pm1 (u64 (Z.lnot (Z.lor ACPI_PM1_CNT_SLP_TYP_MASK ACPI_PM1_CNT_SLP_EN_MASK))).

(** The first half of [enter_sleep_state_hw_full]: up to the write that puts the machine to
    sleep, with the two values written. *)
Definition request_sleep (s : S) : outcome (Z * Z * Z * S) :=
  '(ret, s) ← checked (write_register_field UACPI_REGISTER_FIELD_WAK_STS ACPI_PM1_STS_CLEAR s) (fun s =>
              checked (disable_all_gpes s) (fun s => checked (clear_all_events s) (fun s => enable_all_wake_gpes s)));
  if negb (ret =? UACPI_STATUS_OK) then Ret (ret, 0, 0, s)
  else
    '(ret, pm1a, s) ← read_register UACPI_REGISTER_PM1_CNT junk s;
    if negb (ret =? UACPI_STATUS_OK) then Ret (ret, 0, 0, s)
    else
      let pm1 := without_type pm1a in
      let pm1a := with_type pm1 (last_sleep_typ_a (sl_types s)) in
      let pm1b := with_type pm1 (last_sleep_typ_b (sl_types s)) in
      '(ret, s) ← write_registers UACPI_REGISTER_PM1_CNT pm1a pm1b s;
      if negb (ret =? UACPI_STATUS_OK) then Ret (ret, 0, 0, s)
      else
        let pm1a := Z.lor pm1a ACPI_PM1_CNT_SLP_EN_MASK in
        let pm1b := Z.lor pm1b ACPI_PM1_CNT_SLP_EN_MASK in
        '(ret, s) ← write_registers UACPI_REGISTER_PM1_CNT pm1a pm1b s;
        Ret (ret, pm1a, pm1b, s).

(** [do { ... } while (wake_status != 1);] *)
Fixpoint wait_for_wake (fuel : nat) (field wake_status : Z) s : outcome (Z * S) :=
  match fuel with
  | O => OutOfFuel
  | Datatypes.S f =>
      '(ret, wake_status, s) ← read_register_field field wake_status s;
      if negb (ret =? UACPI_STATUS_OK) then Ret (ret, s)
      else if negb (wake_status =? 1) then wait_for_wake f field wake_status s else Ret (UACPI_STATUS_OK, s)
  end.

Definition enter_sleep_state_hw_full (fuel : nat) (state : Z) s : outcome (Z * S) :=
  '(ret, pm1a, pm1b, s) ← request_sleep s;
  if negb (ret =? UACPI_STATUS_OK) then Ret (ret, s)
  else if state >? UACPI_SLEEP_STATE_S3 then
    s ← stall_for fuel (10 * 1000 * 1000) s;
    checked (write_registers UACPI_REGISTER_PM1_CNT pm1a pm1b s) (fun s => Ret (UACPI_STATUS_HARDWARE_TIMEOUT, s))
  else wait_for_wake fuel UACPI_REGISTER_FIELD_WAK_STS junk s.

Definition prepare_for_wake_from_sleep_state_hw_full (state : Z) s : outcome (Z * S) :=
  if s0_sleep_typ_a (sl_types s) =? UACPI_SLEEP_TYP_INVALID then Ret (UACPI_STATUS_OK, s)
  else
    '(ret, pm1a, s) ← read_register UACPI_REGISTER_PM1_CNT junk s;
    if negb (ret =? UACPI_STATUS_OK) then Ret (UACPI_STATUS_OK, s)
    else
      let pm1 := without_type pm1a in
      '(_, s) ← write_registers UACPI_REGISTER_PM1_CNT (with_type pm1 (s0_sleep_typ_a (sl_types s))) (with_type pm1 (s0_sleep_typ_b (sl_types s))) s;
      Ret (UACPI_STATUS_OK, s).

(** ** Methods of the firmware *)

Definition eval_sleep_helper (parent : Z) (path : list Z) (value : Z) s : outcome (Z * S) :=
  '(ret, s) ← eval_method parent path value s;
  Ret (if ret =? UACPI_STATUS_NOT_FOUND then UACPI_STATUS_OK else ret, s).

Definition eval_pts (state : Z) s : outcome (Z * S) := eval_sleep_helper UACPI_PREDEFINED_NAMESPACE_ROOT (chars "_PTS") state s.
Definition eval_wak (state : Z) s : outcome (Z * S) := eval_sleep_helper UACPI_PREDEFINED_NAMESPACE_ROOT (chars "_WAK") state s.
Definition eval_sst (value : Z) s : outcome (Z * S) := eval_sleep_helper UACPI_PREDEFINED_NAMESPACE_SI (chars "_SST") value s.

Definition eval_sst_for_state (state : Z) s : outcome (Z * S) :=
  if state =? UACPI_SLEEP_STATE_S0 then eval_sst 1 s
  else if (state =? UACPI_SLEEP_STATE_S1) || (state =? UACPI_SLEEP_STATE_S2) || (state =? UACPI_SLEEP_STATE_S3) then eval_sst 3 s
  else if state =? UACPI_SLEEP_STATE_S4 then eval_sst 4 s
  else if state =? UACPI_SLEEP_STATE_S5 then eval_sst 0 s
  else Ret (UACPI_STATUS_INVALID_ARGUMENT, s).

(** The result and the two types; [a] and [b] are what is there before.  A package with one
    element that is not an integer leaves them, and the result, as they are. *)
Definition get_slp_type_for_state (state a b : Z) s : outcome (Z * Z * Z * S) :=
  '(ret, objects, s) ← eval_package (chars "_S" ++ [48 + state]) s;
  let invalid ret := (ret, UACPI_SLEEP_TYP_INVALID, UACPI_SLEEP_TYP_INVALID, s) in
  if negb (ret =? UACPI_STATUS_OK) then Ret (invalid ret)
  else match objects with
  | [] => Ret (invalid UACPI_STATUS_AML_INCOMPATIBLE_OBJECT_TYPE)
  | [Pkg_integer v] => Ret (UACPI_STATUS_OK, u8 v, u8 (Z.shiftr v 8), s)
  | [Pkg_other] => Ret (UACPI_STATUS_OK, a, b, s)
  | Pkg_integer v0 :: Pkg_integer v1 :: _ => Ret (UACPI_STATUS_OK, u8 v0, u8 v1, s)
  | _ => Ret (invalid UACPI_STATUS_AML_INCOMPATIBLE_OBJECT_TYPE)
  end.

Definition uacpi_prepare_for_sleep_state (loaded : bool) (state_enum : Z) s : outcome (Z * S) :=
  let state := u8 state_enum in
  if negb loaded then Ret (UACPI_STATUS_INIT_LEVEL_MISMATCH, s)
  else if state >? UACPI_SLEEP_STATE_S5 then Ret (UACPI_STATUS_INVALID_ARGUMENT, s)
  else
    '(ret, a, b, s) ← get_slp_type_for_state state (last_sleep_typ_a (sl_types s)) (last_sleep_typ_b (sl_types s)) s;
    let s := set_types (mk_types a b (s0_sleep_typ_a (sl_types s)) (s0_sleep_typ_b (sl_types s))) s in
    if negb (ret =? UACPI_STATUS_OK) then Ret (ret, s)
    else
      '(_, a, b, s) ← get_slp_type_for_state 0 (s0_sleep_typ_a (sl_types s)) (s0_sleep_typ_b (sl_types s)) s;
      let s := set_types (mk_types (last_sleep_typ_a (sl_types s)) (last_sleep_typ_b (sl_types s)) a b) s in
      checked (eval_pts state s) (fun s => '(_, s) ← eval_sst_for_state state s; Ret (UACPI_STATUS_OK, s)).

Definition forget_type s : S := set_types (mk_types UACPI_SLEEP_TYP_INVALID UACPI_SLEEP_TYP_INVALID (s0_sleep_typ_a (sl_types s)) (s0_sleep_typ_b (sl_types s))) s.

Definition wake_from_sleep_state_hw_full (state : Z) s : outcome (Z * S) :=
  '(_, s) ← eval_sst 2 (forget_type s);
  checked (disable_all_gpes s) (fun s => checked (enable_all_runtime_gpes s) (fun s =>
    '(_, s) ← eval_wak state s;
    '(_, s) ← write_register_field UACPI_REGISTER_FIELD_WAK_STS ACPI_PM1_STS_CLEAR s;
    '(_, s) ← eval_sst 1 s;
    Ret (UACPI_STATUS_OK, s))).

(** ** Reduced hardware *)

Definition make_hw_reduced_sleep_control (slp_typ : Z) : Z :=
  let value := u8 (Z.shiftl slp_typ ACPI_SLP_CNT_SLP_TYP_IDX) in
  let value := Z.land value ACPI_SLP_CNT_SLP_TYP_MASK in
  Z.lor value ACPI_SLP_CNT_SLP_EN_MASK.

Definition enter_sleep_state_hw_reduced (fuel : nat) (state : Z) s : outcome (Z * S) :=
  if (address (sleep_control_reg regs) =? 0) || (address (sleep_status_reg regs) =? 0) then Ret (UACPI_STATUS_NOT_FOUND, s)
  else checked (write_register_field UACPI_REGISTER_FIELD_HWR_WAK_STS ACPI_SLP_STS_CLEAR s) (fun s =>
    checked (write_register UACPI_REGISTER_SLP_CNT (make_hw_reduced_sleep_control (last_sleep_typ_a (sl_types s))) s) (fun s =>
    wait_for_wake fuel UACPI_REGISTER_FIELD_HWR_WAK_STS junk s)).

Definition prepare_for_wake_from_sleep_state_hw_reduced (state : Z) s : outcome (Z * S) :=
  if s0_sleep_typ_a (sl_types s) =? UACPI_SLEEP_TYP_INVALID then Ret (UACPI_STATUS_OK, s)
  else '(_, s) ← write_register UACPI_REGISTER_SLP_CNT (make_hw_reduced_sleep_control (s0_sleep_typ_a (sl_types s))) s; Ret (UACPI_STATUS_OK, s).

Definition wake_from_sleep_state_hw_reduced (state : Z) s : outcome (Z * S) :=
  '(_, s) ← eval_sst 2 (forget_type s);
  '(_, s) ← eval_wak state s;
  '(_, s) ← write_register_field UACPI_REGISTER_FIELD_HWR_WAK_STS ACPI_SLP_STS_CLEAR s;
  '(_, s) ← eval_sst 1 s;
  Ret (UACPI_STATUS_OK, s).

(** ** What the kernel calls *)

Definition uacpi_enter_sleep_state (fuel : nat) (loaded : bool) (state_enum : Z) s : outcome (Z * S) :=
  let state := u8 state_enum in
  if negb loaded then Ret (UACPI_STATUS_INIT_LEVEL_MISMATCH, s)
  else if state >? UACPI_SLEEP_STATE_MAX then Ret (UACPI_STATUS_INVALID_ARGUMENT, s)
  else if (last_sleep_typ_a (sl_types s) >? ACPI_SLP_TYP_MAX) || (last_sleep_typ_b (sl_types s) >? ACPI_SLP_TYP_MAX) then Ret (UACPI_STATUS_AML_BAD_ENCODING, s)
  else if hardware_reduced then enter_sleep_state_hw_reduced fuel state s else enter_sleep_state_hw_full fuel state s.

Definition uacpi_prepare_for_wake_from_sleep_state (loaded : bool) (state_enum : Z) s : outcome (Z * S) :=
  let state := u8 state_enum in
  if negb loaded then Ret (UACPI_STATUS_INIT_LEVEL_MISMATCH, s)
  else if state >? UACPI_SLEEP_STATE_MAX then Ret (UACPI_STATUS_INVALID_ARGUMENT, s)
  else if hardware_reduced then prepare_for_wake_from_sleep_state_hw_reduced state s else prepare_for_wake_from_sleep_state_hw_full state s.

Definition uacpi_wake_from_sleep_state (loaded : bool) (state_enum : Z) s : outcome (Z * S) :=
  let state := u8 state_enum in
  if negb loaded then Ret (UACPI_STATUS_INIT_LEVEL_MISMATCH, s)
  else if state >? UACPI_SLEEP_STATE_MAX then Ret (UACPI_STATUS_INVALID_ARGUMENT, s)
  else if hardware_reduced then wake_from_sleep_state_hw_reduced state s else wake_from_sleep_state_hw_full state s.

Definition uacpi_reboot (fuel : nat) (loaded : bool) s : outcome (Z * S) :=
  let reset := reset_reg regs in
  if negb loaded then Ret (UACPI_STATUS_INIT_LEVEL_MISMATCH, s)
  else if (Z.land fadt_flags ACPI_RESET_REG_SUP =? 0) || (address reset =? 0) then Ret (UACPI_STATUS_NOT_FOUND, s)
  else
    '(ret, s) ← (
      if address_space_id reset =? UACPI_ADDRESS_SPACE_SYSTEM_IO then
        let '(ret, w) := uacpi_kernel_raw_io_write (address reset) 1 reset_value (hw_ports (sl_hw s)) in Ret (ret, set_hw (mk_hw (hw_mem (sl_hw s)) w) s)
      else if address_space_id reset =? UACPI_ADDRESS_SPACE_SYSTEM_MEMORY then write_register UACPI_REGISTER_RESET reset_value s
      else if address_space_id reset =? UACPI_ADDRESS_SPACE_PCI_CONFIG then
        let location := mk_loc 0 (u8 (Z.land (Z.shiftr (address reset) 32) 0xFF)) (u8 (Z.land (Z.shiftr (address reset) 16) 0xFF)) in
        let '(ret, cfg) := uacpi_kernel_pci_write (sl_cfg s) location (Z.land (address reset) 0xFFFF) 1 reset_value in Ret (ret, set_cfg cfg s)
      else Ret (UACPI_STATUS_UNIMPLEMENTED, s));
    if ret =? UACPI_STATUS_OK then s ← stall_for fuel (1000 * 1000) s; Ret (UACPI_STATUS_HARDWARE_TIMEOUT, s) else Ret (ret, s).

(** The errors are only logged, and nothing is returned. *)
Definition uacpi_shutdown (fuel : nat) (loaded : bool) s : outcome S :=
  '(_, s) ← uacpi_prepare_for_sleep_state loaded UACPI_SLEEP_STATE_S5 s;
  let s := set_ints false s in
  '(_, s) ← uacpi_enter_sleep_state fuel loaded UACPI_SLEEP_STATE_S5 s;
  Ret s.

(** ** Putting the machine to sleep *)

(** A control register of 16 bits at a port. *)
Definition port_gas (port : Z) : acpi_gas := mk_gas UACPI_ADDRESS_SPACE_SYSTEM_IO 16 0 2 port.

Lemma port_gas_valid port : 0 < port -> gas_validate (port_gas port) = (UACPI_STATUS_OK, 16).
Proof. intros Hp. unfold gas_validate. cbn [address port_gas]. rewrite (proj2 (Z.eqb_neq port 0)) by lia. reflexivity. Qed.

Lemma port_read port out m w v w' : 0 < port < 2 ^ 16 -> arch_inw port w = (v, w') -> 0 <= v < 2 ^ 16 ->
  read_one hhdmOffset junk (Acc_gas (port_gas port)) 0 out (mk_hw m w) = Ret (UACPI_STATUS_OK, v, mk_hw m w').
Proof.
  intros Hp Ei Hv. unfold read_one, uacpi_gas_read. rewrite port_gas_valid by lia. cbn [address port_gas]. rewrite (proj2 (Z.eqb_neq port 0)) by lia. cbn [negb Z.eqb UACPI_STATUS_OK].
  change (Z.to_nat (u8 _)) with (Datatypes.S 15). change (u8 _) with 16. rewrite (read_loop_once hhdmOffset 15 (port_gas port) 16 junk (mk_hw m w) v (mk_hw m w')); [|lia|].
  - change (access_mask 16) with (Z.ones 16). rewrite Z.land_ones, Z.mod_small, wrap_small by lia. reflexivity.
  - unfold raw_read. cbn [address_space_id port_gas Z.eqb Pos.eqb UACPI_ADDRESS_SPACE_SYSTEM_IO hw_ports hw_mem address]. change (0 * (16 / 8)) with 0. rewrite Z.add_0_r, wrap_small by lia.
    unfold uacpi_kernel_raw_io_read. change (16 / 8 =? 1) with false. change (16 / 8 =? 2) with true. cbn iota. rewrite ?(wrap_small 16) by lia. now rewrite Ei.
Qed.

Lemma port_write port v m w : 0 < port < 2 ^ 16 -> 0 <= v < 2 ^ 16 -> write_one hhdmOffset (Acc_gas (port_gas port)) 0 v (mk_hw m w) = Ret (UACPI_STATUS_OK, mk_hw m (arch_outw port v w)).
Proof.
  intros Hp Hv. unfold write_one, uacpi_gas_write. rewrite port_gas_valid by lia. cbn [address port_gas]. rewrite (proj2 (Z.eqb_neq port 0)) by lia. cbn [negb Z.eqb UACPI_STATUS_OK].
  change (Z.to_nat (u8 _)) with (Datatypes.S 15). change (u8 _) with 16. apply write_loop_once; [lia|]. change (access_mask 16) with (Z.ones 16). rewrite Z.land_ones, Z.mod_small by lia.
  unfold raw_write. cbn [address_space_id port_gas Z.eqb Pos.eqb UACPI_ADDRESS_SPACE_SYSTEM_IO hw_ports hw_mem address]. change (0 * (16 / 8)) with 0. rewrite Z.add_0_r, (wrap_small 64) by lia.
  unfold uacpi_kernel_raw_io_write. change (16 / 8 =? 1) with false. change (16 / 8 =? 2) with true. cbn iota. now rewrite ?(wrap_small 16) by lia.
Qed.

(** What happens before the control registers are written. *)
Definition prepared (s s' : S) : Prop := exists s1 s2 s3, write_register_field UACPI_REGISTER_FIELD_WAK_STS ACPI_PM1_STS_CLEAR s = Ret (UACPI_STATUS_OK, s1) /\
  disable_all_gpes s1 = Ret (UACPI_STATUS_OK, s2) /\ clear_all_events s2 = Ret (UACPI_STATUS_OK, s3) /\ enable_all_wake_gpes s3 = Ret (UACPI_STATUS_OK, s').

(** The value of a control register for a sleep type: the type in its field, the bit that
    starts the sleep clear, and every bit that can be read as it was. *)
Record sleep_value (read typ v : Z) : Prop := {
  sv_range : 0 <= v < 2 ^ 16;
  sv_type : Z.land (Z.shiftr v 10) 7 = typ;
  sv_enable : Z.testbit v 13 = false;
  sv_rest : forall i, 0 <= i < 16 -> i <> 2 -> ~ (10 <= i <= 13) -> Z.testbit v i = Z.testbit read i
}.

Definition readable (v : Z) : Z := Z.land v (u64 (Z.lnot (Z.lor ACPI_PM1_CNT_SLP_EN_MASK ACPI_PM1_CNT_GBL_RLS_MASK))).

Lemma with_type_bits v typ i : 0 <= i -> Z.testbit (with_type (without_type (readable v)) typ) i =
  (i <? 64) && Z.testbit v i && negb ((i =? 2) || ((10 <=? i) && (i <=? 13))) || (10 <=? i) && Z.testbit typ (i - 10).
Proof.
  intros Hi. unfold with_type, without_type, readable. rewrite Z.lor_spec, !Z.land_spec, !lnot_bits, Z.shiftl_spec by lia. change ACPI_PM1_CNT_SLP_TYP_IDX with 10.
  change (Z.lor ACPI_PM1_CNT_SLP_TYP_MASK ACPI_PM1_CNT_SLP_EN_MASK) with 15360. change (Z.lor ACPI_PM1_CNT_SLP_EN_MASK ACPI_PM1_CNT_GBL_RLS_MASK) with 8196.
  assert (forall k, 0 <= k -> Z.testbit 15360 k = (10 <=? k) && (k <=? 13)) as H1.
  { intros k Hk. destruct (Z.lt_ge_cases k 14); [|rewrite (testbit_high 14), (proj2 (Z.leb_gt k 13)), andb_false_r by lia; reflexivity].
    assert (In k (map Z.of_nat (seq 0 14))) as Hin by (apply in_map_iff; exists (Z.to_nat k); split; [lia|apply in_seq; lia]). cbn in Hin. repeat destruct Hin as [<- | Hin]; try contradiction; reflexivity. }
  assert (forall k, 0 <= k -> Z.testbit 8196 k = (k =? 2) || (k =? 13)) as H2.
  { intros k Hk. destruct (Z.lt_ge_cases k 14); [|rewrite (testbit_high 14), (proj2 (Z.eqb_neq k 2)), (proj2 (Z.eqb_neq k 13)) by lia; reflexivity].
    assert (In k (map Z.of_nat (seq 0 14))) as Hin by (apply in_map_iff; exists (Z.to_nat k); split; [lia|apply in_seq; lia]). cbn in Hin. repeat destruct Hin as [<- | Hin]; try contradiction; reflexivity. }
  rewrite H1, H2 by lia. destruct (Z.leb_spec 10 i).
  - cbn [andb]. f_equal. destruct (Z.leb_spec i 13), (Z.eqb_spec i 2), (Z.eqb_spec i 13), (Z.ltb_spec i 64); try lia; cbn [negb orb andb]; rewrite ?andb_true_r, ?andb_false_r; reflexivity.
  - rewrite (Z.testbit_neg_r typ) by lia. rewrite !orb_false_r. cbn [andb]. destruct (Z.eqb_spec i 2), (Z.eqb_spec i 13), (Z.ltb_spec i 64); try lia; cbn [negb orb andb]; rewrite ?andb_true_r, ?andb_false_r; reflexivity.
Qed.

Lemma with_type_ok v typ : 0 <= v < 2 ^ 16 -> 0 <= typ <= 7 -> sleep_value v typ (with_type (without_type (readable v)) typ).
Proof.
  intros Hv Ht. assert (0 <= with_type (without_type (readable v)) typ) as H0.
  { unfold with_type. apply Z.lor_nonneg. split; [apply Z.land_nonneg; left; apply Z.land_nonneg; lia|apply Z.shiftl_nonneg; lia]. }
  assert (forall i, 3 <= i -> Z.testbit typ i = false) as Htb by (intros i Hi; apply (testbit_high 3); lia). split.
  - split; [exact H0|]. apply bits_bound; [lia|exact H0|]. intros i Hi. rewrite with_type_bits, (testbit_high 16 v), Htb by lia. now rewrite !andb_false_r.
  - apply Z.bits_inj'. intros i Hi. change 7 with (Z.ones 3). rewrite Z.land_spec, Z.testbit_ones_nonneg, Z.shiftr_spec, with_type_bits by lia. replace (i + 10 - 10) with i by lia.
    rewrite (proj2 (Z.leb_le 10 (i + 10))) by lia. destruct (Z.ltb_spec i 3).
    + rewrite (proj2 (Z.leb_le (i + 10) 13)) by lia. cbn [andb]. rewrite orb_true_r. cbn [negb]. now rewrite andb_false_r, andb_true_r.
    + rewrite Htb by lia. now rewrite andb_false_r.
  - rewrite with_type_bits, Htb by lia. cbn. now rewrite andb_false_r.
  - intros i Hi H2 H10. rewrite with_type_bits by lia. destruct (Z.leb_spec 10 i).
    + rewrite Htb by lia. destruct (Z.leb_spec i 13); [lia|]. rewrite (proj2 (Z.eqb_neq i 2)), (proj2 (Z.ltb_lt i 64)) by lia. cbn. now rewrite andb_true_r, orb_false_r.
    + rewrite (proj2 (Z.eqb_neq i 2)), (proj2 (Z.ltb_lt i 64)) by lia. cbn. now rewrite andb_true_r, orb_false_r.
Qed.

(** The bit that starts the sleep. *)
Lemma enable_range v : 0 <= v < 2 ^ 16 -> 0 <= Z.lor v ACPI_PM1_CNT_SLP_EN_MASK < 2 ^ 16.
Proof.
  intros Hv. assert (0 <= Z.lor v ACPI_PM1_CNT_SLP_EN_MASK) as H0 by (apply Z.lor_nonneg; split; [lia|unfold ACPI_PM1_CNT_SLP_EN_MASK; now vm_compute]). split; [exact H0|].
  apply bits_bound; [lia|exact H0|]. intros i Hi. rewrite Z.lor_spec, (testbit_high 16 v) by lia. change ACPI_PM1_CNT_SLP_EN_MASK with (2 ^ 13). rewrite Z.pow2_bits_false by lia. reflexivity.
Qed.

Section Ports.
Variables (pa pb : Z).
Hypothesis (Ha : x_pm1a_cnt_blk regs = port_gas pa) (Hb : x_pm1b_cnt_blk regs = port_gas pb) (Hpa : 0 < pa < 2 ^ 16) (Hpb : 0 < pb < 2 ^ 16).

Lemma control_register : get_reg regs UACPI_REGISTER_PM1_CNT = Some (mk_spec REGISTER_KIND_GAS REGISTER_ACCESS_KIND_PRESERVE 0 (Acc_gas (port_gas pa)) (Some (Acc_gas (port_gas pb)))
  (Z.lor ACPI_PM1_CNT_SLP_EN_MASK ACPI_PM1_CNT_GBL_RLS_MASK) ACPI_PM1_CNT_PRESERVE_MASK).
Proof. unfold get_reg, registers. cbn. now rewrite Ha, Hb. Qed.

Lemma control_read s m w va w1 vb w2 : sl_hw s = mk_hw m w -> arch_inw pa w = (va, w1) -> arch_inw pb w1 = (vb, w2) -> 0 <= va < 2 ^ 16 -> 0 <= vb < 2 ^ 16 ->
  read_register UACPI_REGISTER_PM1_CNT junk s = Ret (UACPI_STATUS_OK, readable (Z.lor va vb), set_hw (mk_hw m w2) s).
Proof.
  intros Es E1 E2 H1 H2. unfold read_register, uacpi_read_register. rewrite control_register, Es. unfold do_read_register. cbn [accessor0 accessor1 spec_access_width write_only_mask].
  rewrite (port_read pa junk m w va w1) by assumption. cbn [mbind outcome_bind negb Z.eqb UACPI_STATUS_OK]. rewrite (port_read pb 0 m w1 vb w2) by assumption.
  cbn [mbind outcome_bind negb Z.eqb UACPI_STATUS_OK]. reflexivity.
Qed.

Lemma control_write s m w v0 v1 : sl_hw s = mk_hw m w -> 0 <= v0 < 2 ^ 16 -> 0 <= v1 < 2 ^ 16 ->
  write_registers UACPI_REGISTER_PM1_CNT v0 v1 s = Ret (UACPI_STATUS_OK, set_hw (mk_hw m (arch_outw pb v1 (arch_outw pa v0 w))) s).
Proof.
  intros Es H0 H1. unfold write_registers, uacpi_write_registers. rewrite control_register, Es. unfold write_both. cbn [accessor0 accessor1 spec_access_width].
  rewrite (port_write pa v0 m w) by assumption. cbn [mbind outcome_bind negb Z.eqb UACPI_STATUS_OK]. now rewrite (port_write pb v1) by assumption.
Qed.

Lemma request_sleep_spec s s' m w va w1 vb w2 : prepared s s' -> sl_hw s' = mk_hw m w -> arch_inw pa w = (va, w1) -> arch_inw pb w1 = (vb, w2) -> 0 <= va < 2 ^ 16 -> 0 <= vb < 2 ^ 16 ->
  0 <= last_sleep_typ_a (sl_types s') <= 7 -> 0 <= last_sleep_typ_b (sl_types s') <= 7 -> exists a b,
  sleep_value (Z.lor va vb) (last_sleep_typ_a (sl_types s')) a /\ sleep_value (Z.lor va vb) (last_sleep_typ_b (sl_types s')) b /\
  let a' := Z.lor a ACPI_PM1_CNT_SLP_EN_MASK in let b' := Z.lor b ACPI_PM1_CNT_SLP_EN_MASK in
  request_sleep s = Ret (UACPI_STATUS_OK, a', b', set_hw (mk_hw m (arch_outw pb b' (arch_outw pa a' (arch_outw pb b (arch_outw pa a w2))))) s').
Proof.
  intros (s1 & s2 & s3 & P1 & P2 & P3 & P4) Es E1 E2 H1 H2 Hta Htb.
  assert (0 <= Z.lor va vb < 2 ^ 16) as Hr.
  { assert (0 <= Z.lor va vb) as H0 by (apply Z.lor_nonneg; lia). split; [exact H0|]. apply bits_bound; [lia|exact H0|]. intros i Hi. now rewrite Z.lor_spec, !(testbit_high 16) by lia. }
  exists (with_type (without_type (readable (Z.lor va vb))) (last_sleep_typ_a (sl_types s'))), (with_type (without_type (readable (Z.lor va vb))) (last_sleep_typ_b (sl_types s'))).
  pose proof (with_type_ok _ _ Hr Hta) as Va. pose proof (with_type_ok _ _ Hr Htb) as Vb. splits; [exact Va|exact Vb|]. cbv zeta.
  unfold request_sleep, checked. rewrite P1. cbn [mbind outcome_bind negb Z.eqb UACPI_STATUS_OK]. rewrite P2. cbn [mbind outcome_bind negb Z.eqb UACPI_STATUS_OK]. rewrite P3.
  cbn [mbind outcome_bind negb Z.eqb UACPI_STATUS_OK]. rewrite P4. cbn [mbind outcome_bind negb Z.eqb UACPI_STATUS_OK]. rewrite (control_read s' m w va w1 vb w2) by assumption.
  cbn [mbind outcome_bind negb Z.eqb UACPI_STATUS_OK sl_types set_hw]. set (a := with_type _ (last_sleep_typ_a _)) in *. set (b := with_type _ (last_sleep_typ_b _)) in *.
  rewrite (control_write _ m w2 a b) by (reflexivity || apply Va || apply Vb). cbn [mbind outcome_bind negb Z.eqb UACPI_STATUS_OK].
  rewrite (control_write _ m (arch_outw pb b (arch_outw pa a w2))) by (reflexivity || apply enable_range; apply Va || apply Vb). reflexivity.
Qed.
End Ports.

(** ** Waiting *)

Lemma stall_on fuel usec s : sl_ints s = true -> stall fuel usec s = Ret (set_ticks (u64 (sl_ticks s + 1)) s).
Proof.
  intros Hi. unfold stall. rewrite Hi. unfold uacpi_kernel_stall, ksleep. cbn [ksleep_loop]. destruct (sl_ticks s <? _); [|reflexivity]. now rewrite Z.ltb_irrefl.
Qed.

Lemma for_up_stall_on fuel n : forall i s, sl_ints s = true -> 0 <= sl_ticks s < 2 ^ 64 ->
  for_up n i (fun _ s => stall fuel 100 s) s = Ret (set_ticks (u64 (sl_ticks s + Z.of_nat n)) s).
Proof.
  induction n as [|n IH]; intros i s Hi Ht; cbn [for_up].
  - rewrite Z.add_0_r, wrap_small by lia. now destruct s.
  - rewrite stall_on by exact Hi. cbn [mbind outcome_bind]. rewrite IH; [|exact Hi|apply wrap_range; lia]. unfold set_ticks. cbn [sl_ticks sl_hw sl_cfg sl_ints sl_types sl_facs sl_aml].
    do 2 f_equal. unfold wrap. rewrite Zplus_mod_idemp_l. f_equal. lia.
Qed.

Lemma stall_for_on fuel max s : sl_ints s = true -> 0 <= sl_ticks s < 2 ^ 64 -> 0 <= max -> stall_for fuel max s = Ret (set_ticks (u64 (sl_ticks s + max / 100)) s).
Proof.
  intros Hi Ht Hm. unfold stall_for. rewrite (for_up_stall_on fuel _ 0 s Hi Ht), Z2Nat.id; [reflexivity|]. apply Z.div_pos; lia.
Qed.

Lemma stall_off fuel usec s : sl_ints s = false -> 0 <= sl_ticks s < 2 ^ 64 - 1 -> stall fuel usec s = OutOfFuel.
Proof.
  intros Hi Ht. unfold stall. rewrite Hi. unfold uacpi_kernel_stall, ksleep. rewrite wrap_small by lia.
  assert (forall n, ksleep_loop (sl_ticks s + 1) (repeat (sl_ticks s) n) = OutOfFuel) as E; [|now rewrite E].
  induction n as [|n IH]; cbn [repeat ksleep_loop]; [reflexivity|]. rewrite (proj2 (Z.ltb_lt _ _)), IH by lia. reflexivity.
Qed.

Lemma stall_for_off fuel max s : sl_ints s = false -> 0 <= sl_ticks s < 2 ^ 64 - 1 -> 100 <= max -> stall_for fuel max s = OutOfFuel.
Proof.
  intros Hi Ht Hm. unfold stall_for. assert (0 < max / 100) as Hd by (apply Z.div_str_pos; lia). replace (Z.to_nat (max / 100)) with (Datatypes.S (Z.to_nat (max / 100 - 1))) by lia.
  cbn [for_up]. now rewrite stall_off.
Qed.

(** C40: entering sleep state 4 or 5 with both PM1 control registers at ports: the registers are
    read, then written with the sleep types alone, then with the bit that starts the sleep as
    well, first one register and then the other each time, and every bit that can be read
    keeps its value.  This holds with interrupts off, as sleep.h asks for, and with interrupts
    on.  When the machine is still on after that, the call waits for the timer: with
    interrupts off it never returns, and with interrupts on the last pair is written again
    after 100000 ticks and the call gives up. *)
Theorem enter_sleep_sequence pa pb state s s' m w va w1 vb w2 : x_pm1a_cnt_blk regs = port_gas pa -> x_pm1b_cnt_blk regs = port_gas pb -> 0 < pa < 2 ^ 16 -> 0 < pb < 2 ^ 16 ->
  UACPI_SLEEP_STATE_S3 < state -> prepared s s' -> sl_hw s' = mk_hw m w -> arch_inw pa w = (va, w1) -> arch_inw pb w1 = (vb, w2) -> 0 <= va < 2 ^ 16 -> 0 <= vb < 2 ^ 16 ->
  0 <= last_sleep_typ_a (sl_types s') <= 7 -> 0 <= last_sleep_typ_b (sl_types s') <= 7 -> 0 <= sl_ticks s' < 2 ^ 64 - 1 -> exists a b,
  sleep_value (Z.lor va vb) (last_sleep_typ_a (sl_types s')) a /\ sleep_value (Z.lor va vb) (last_sleep_typ_b (sl_types s')) b /\
  let a' := Z.lor a ACPI_PM1_CNT_SLP_EN_MASK in let b' := Z.lor b ACPI_PM1_CNT_SLP_EN_MASK in
  let go w := arch_outw pb b' (arch_outw pa a' w) in
  let asked := go (arch_outw pb b (arch_outw pa a w2)) in
  request_sleep s = Ret (UACPI_STATUS_OK, a', b', set_hw (mk_hw m asked) s') /\
  forall fuel, enter_sleep_state_hw_full fuel state s =
    if sl_ints s' then Ret (UACPI_STATUS_HARDWARE_TIMEOUT, set_ticks (u64 (sl_ticks s' + 100000)) (set_hw (mk_hw m (go asked)) s')) else OutOfFuel.
Proof.
  intros Ea Eb Hpa Hpb Hs HP Es E1 E2 H1 H2 Hta Htb Ht. destruct (request_sleep_spec pa pb Ea Eb Hpa Hpb s s' m w va w1 vb w2 HP Es E1 E2 H1 H2 Hta Htb) as (a & b & Va & Vb & Er).
  exists a, b. splits; [exact Va|exact Vb|]. cbv zeta in Er |- *. split; [exact Er|]. intros fuel. unfold enter_sleep_state_hw_full. rewrite Er. cbn [mbind outcome_bind negb Z.eqb UACPI_STATUS_OK].
  rewrite Z.gtb_ltb, (proj2 (Z.ltb_lt _ _)) by exact Hs. destruct (sl_ints s') eqn:Hi.
  - assert (0 <= sl_ticks s' < 2 ^ 64) as Ht' by lia. rewrite stall_for_on by (exact Hi || exact Ht' || lia). cbn [mbind outcome_bind]. unfold checked.
    rewrite (control_write pa pb Ea Eb Hpa Hpb _ m (arch_outw pb (Z.lor b ACPI_PM1_CNT_SLP_EN_MASK) (arch_outw pa (Z.lor a ACPI_PM1_CNT_SLP_EN_MASK) (arch_outw pb b (arch_outw pa a w2))))
      (Z.lor a ACPI_PM1_CNT_SLP_EN_MASK) (Z.lor b ACPI_PM1_CNT_SLP_EN_MASK)) by (reflexivity || apply enable_range; apply Va || apply Vb). reflexivity.
  - now rewrite stall_for_off by (exact Hi || exact Ht || lia).
Qed.

(** The kernel turns interrupts off before it enters the state: the machine is asked to turn
    itself off, and when it does not do so the wait never ends. *)
Theorem shutdown_hangs fuel s s1 s' pm1a pm1b : uacpi_prepare_for_sleep_state true UACPI_SLEEP_STATE_S5 s = Ret (UACPI_STATUS_OK, s1) -> hardware_reduced = false ->
  last_sleep_typ_a (sl_types s1) <= 7 -> last_sleep_typ_b (sl_types s1) <= 7 -> request_sleep (set_ints false s1) = Ret (UACPI_STATUS_OK, pm1a, pm1b, s') ->
  sl_ints s' = false -> 0 <= sl_ticks s' < 2 ^ 64 - 1 -> uacpi_shutdown fuel true s = OutOfFuel.
Proof.
  intros E1 Er Ha Hb E2 Hi Ht. unfold uacpi_shutdown. rewrite E1. cbn [mbind outcome_bind]. unfold uacpi_enter_sleep_state. cbn [negb sl_types set_ints]. change (u8 UACPI_SLEEP_STATE_S5) with 5.
  change (5 >? UACPI_SLEEP_STATE_MAX) with false. cbn iota. rewrite !Z.gtb_ltb, !(proj2 (Z.ltb_ge ACPI_SLP_TYP_MAX _)) by (unfold ACPI_SLP_TYP_MAX; lia). cbn [orb]. rewrite Er.
  unfold enter_sleep_state_hw_full. rewrite E2. cbn [mbind outcome_bind negb Z.eqb UACPI_STATUS_OK]. change (5 >? UACPI_SLEEP_STATE_S3) with true. cbn iota. now rewrite stall_for_off by (exact Hi || exact Ht || lia).
Qed.

(** A package whose only element is not an integer is no error: the sleep types of an earlier
    call are used. *)
Theorem bad_sleep_package_accepted state a b s s1 : eval_package (chars "_S" ++ [48 + state]) s = Ret (UACPI_STATUS_OK, [Pkg_other], s1) ->
  get_slp_type_for_state state a b s = Ret (UACPI_STATUS_OK, a, b, s1).
Proof. intros E. unfold get_slp_type_for_state. now rewrite E. Qed.

(** A reset register at a port gets the reset value, and the call gives up after the wait. *)
Theorem reboot_writes_port fuel s m w : Z.land fadt_flags ACPI_RESET_REG_SUP <> 0 -> 0 < address (reset_reg regs) < 2 ^ 16 -> address_space_id (reset_reg regs) = UACPI_ADDRESS_SPACE_SYSTEM_IO ->
  0 <= reset_value < 256 -> sl_hw s = mk_hw m w -> sl_ints s = true -> 0 <= sl_ticks s < 2 ^ 64 ->
  uacpi_reboot fuel true s = Ret (UACPI_STATUS_HARDWARE_TIMEOUT, set_ticks (u64 (sl_ticks s + 10000)) (set_hw (mk_hw m (arch_outb (address (reset_reg regs)) reset_value w)) s)).
Proof.
  intros Hf Ha Hid Hv Es Hi Ht. unfold uacpi_reboot. cbn [negb]. rewrite (proj2 (Z.eqb_neq _ 0)), (proj2 (Z.eqb_neq (address _) 0)), Hid by (assumption || lia). cbn [orb]. rewrite Z.eqb_refl, Es.
  unfold uacpi_kernel_raw_io_write. cbn [Z.eqb Pos.eqb]. rewrite (wrap_small 16), (wrap_small 8) by lia. cbn [mbind outcome_bind hw_mem hw_ports Z.eqb UACPI_STATUS_OK].
  now rewrite stall_for_on by (exact Hi || exact Ht || lia).
Qed.

(** The waking vectors: the wide one only where the table has it. *)
Theorem waking_vector_set addr32 addr64 s f : sl_facs s = Some f -> let '(ret, s') := uacpi_set_waking_vector addr32 addr64 s in
  ret = UACPI_STATUS_OK /\ exists f', sl_facs s' = Some f' /\ firmware_waking_vector f' = u32 addr32 /\
    x_firmware_waking_vector f' = (if facs_length f <? 32 then x_firmware_waking_vector f else if 1 <=? facs_version f then addr64 else 0).
Proof.
  intros Ef. unfold uacpi_set_waking_vector. rewrite Ef. cbn [facs_length]. split; [reflexivity|]. eexists. split; [reflexivity|]. destruct (facs_length f <? 32); [now split|]. cbn. now rewrite Z.geb_leb.
Qed.
End Sleep.

(** ** A machine with two registers *)

Section Demo.
(** Every write is kept, the last one first. *)
#[local] Instance log_ports : PortIO (list (Z * Z)) := { arch_inb _ w := (0, w); arch_outb p v w := (p, v) :: w; arch_inw p w := ((if p =? 0x604 then 1 else 0), w); arch_outw p v w := (p, v) :: w }.
#[local] Instance log_ports32 : PortIO32 (list (Z * Z)) := { arch_inl _ w := (0, w); arch_outl p v w := (p, v) :: w }.

Definition sleep_regs : reg_ctx := mk_regs no_gas no_gas no_gas no_gas (port_gas 0x604) (port_gas 0x704) no_gas no_gas no_gas no_gas no_gas 0.
Definition sleep_demo (ints : bool) : sleep_state (list (Z * Z)) unit := mk_sl (mk_hw (fun _ => 0) []) (fun _ => 0) 7 ints (mk_types 5 6 0 0) None tt.
Definition no_event (s : sleep_state (list (Z * Z)) unit) : outcome (Z * sleep_state (list (Z * Z)) unit) := Ret (UACPI_STATUS_OK, s).

(** With interrupts off: the four writes, and then the wait. *)
Lemma enter_sleep_sequence_witness : exists a b a' b',
  sleep_value (Z.lor 1 0) 5 a /\ sleep_value (Z.lor 1 0) 6 b /\ a' = Z.lor a ACPI_PM1_CNT_SLP_EN_MASK /\ b' = Z.lor b ACPI_PM1_CNT_SLP_EN_MASK /\
  request_sleep 0 0 sleep_regs no_event no_event no_event (sleep_demo false) =
    Ret (UACPI_STATUS_OK, a', b', set_hw (mk_hw (fun _ => 0) [(0x704, b'); (0x604, a'); (0x704, b); (0x604, a)]) (sleep_demo false)) /\
  forall fuel, enter_sleep_state_hw_full 0 0 sleep_regs no_event no_event no_event fuel 5 (sleep_demo false) = OutOfFuel.
Proof.
  destruct (enter_sleep_sequence 0 0 sleep_regs no_event no_event no_event 0x604 0x704 5 (sleep_demo false) (sleep_demo false) (fun _ => 0) [] 1 [] 0 []) as (a & b & Va & Vb & Er & Ee);
    try reflexivity; try (cbn; lia).
  - exists (sleep_demo false), (sleep_demo false), (sleep_demo false). now splits.
  - exists a, b, (Z.lor a ACPI_PM1_CNT_SLP_EN_MASK), (Z.lor b ACPI_PM1_CNT_SLP_EN_MASK). splits; auto.
Defined.
End Demo.
