(* ===== verification/UacpiOsi.v ===== *)
(** * The interfaces of [_OSI] ([kernel/acpi/uacpi/osi.c])

    The firmware asks the operating system which interfaces it supports.  They are in a linked
    list: an array of known ones, which can be disabled, and in front of it those added later,
    which can be removed.  Names are C strings, compared with [uacpi_strcmp]; the mutex of the
    list is taken without a time-out, as a lock. *)

From S2P Require Import Prelude Links Interfaces MemMap Pmm MemUtil Kheap ListDs Path Vnode Initrd Bytes Ports Module Elf Device Pci AcpiOs UacpiMutex UacpiReg.
#[local] Open Scope Z_scope.

Definition UACPI_STATUS_ALREADY_EXISTS : Z := 9.
Definition UACPI_INTERFACE_KIND_VENDOR : Z := Z.shiftl 1 0.
Definition UACPI_INTERFACE_KIND_FEATURE : Z := Z.shiftl 1 1.
Definition UACPI_INTERFACE_KIND_ALL : Z := Z.lor UACPI_INTERFACE_KIND_VENDOR UACPI_INTERFACE_KIND_FEATURE.
Definition UACPI_INTERFACE_ACTION_DISABLE : Z := 0.
Definition UACPI_INTERFACE_ACTION_ENABLE : Z := 1.

(** [ri_string] is the address of the name. *)
Record registered_interface : Type := mk_interface {
  ri_name : list Z;
  ri_string : Z;
  ri_weight : Z;
  ri_kind : Z;
  ri_host_type : Z;
  ri_disabled : bool;
  ri_dynamic : bool;
  ri_next : Z
}.

Definition INTERFACE_SIZE : Z := 24.

Definition set_disabled (b : bool) (r : registered_interface) : registered_interface :=
  mk_interface (ri_name r) (ri_string r) (ri_weight r) (ri_kind r) (ri_host_type r) b (ri_dynamic r) (ri_next r).
Definition set_ri_next (v : Z) (r : registered_interface) : registered_interface :=
  mk_interface (ri_name r) (ri_string r) (ri_weight r) (ri_kind r) (ri_host_type r) (ri_disabled r) (ri_dynamic r) v.

(** The elements of the array before they are linked; the strings are constants. *)
Definition WINDOWS (name : string) (weight : Z) : registered_interface :=
  mk_interface (chars ("Windows " ++ name)) 0 weight UACPI_INTERFACE_KIND_VENDOR 0 false false 0.
Definition HOST_FEATURE (name : string) (type : Z) : registered_interface :=
  mk_interface (chars name) 0 0 UACPI_INTERFACE_KIND_FEATURE type true false 0.

Definition predefined_table : list registered_interface := [
  WINDOWS "2000" 1; WINDOWS "2001" 2; WINDOWS "2001 SP1" 3; WINDOWS "2001.1" 4; WINDOWS "2001 SP2" 5; WINDOWS "2001.1 SP1" 6;
  WINDOWS "2006" 7; WINDOWS "2006.1" 8; WINDOWS "2006 SP1" 9; WINDOWS "2006 SP2" 10; WINDOWS "2009" 11; WINDOWS "2012" 12;
  WINDOWS "2013" 13; WINDOWS "2015" 14; WINDOWS "2016" 15; WINDOWS "2017" 16; WINDOWS "2017.2" 17; WINDOWS "2018" 18;
  WINDOWS "2018.2" 19; WINDOWS "2019" 20; WINDOWS "2020" 21; WINDOWS "2021" 22; WINDOWS "2022" 23;
  HOST_FEATURE "Module Device" 1; HOST_FEATURE "Processor Device" 2; HOST_FEATURE "3.0 Thermal Model" 3;
  HOST_FEATURE "3.0 _SCP Extensions" 4; HOST_FEATURE "Processor Aggregator Device" 5;
  mk_interface (chars "Extended Address Space Descriptor") 0 0 0 0 false false 0].

Section Osi.
Context {H : Type} `{KH : KernelHeap H}.

Record osi_state : Type := mk_osi {
  os_list : Z -> registered_interface;
  registered_interfaces : Z;
  interface_handler : option (list Z -> bool -> bool);
  latest_queried_interface : Z;
  interface_mutex : spinlock_t;
  os_heap : H
}.

Definition set_list (l : Z -> registered_interface) (s : osi_state) : osi_state :=
  mk_osi l (registered_interfaces s) (interface_handler s) (latest_queried_interface s) (interface_mutex s) (os_heap s).
Definition set_first (a : Z) (s : osi_state) : osi_state := mk_osi (os_list s) a (interface_handler s) (latest_queried_interface s) (interface_mutex s) (os_heap s).
Definition set_handler (f : option (list Z -> bool -> bool)) (s : osi_state) : osi_state :=
  mk_osi (os_list s) (registered_interfaces s) f (latest_queried_interface s) (interface_mutex s) (os_heap s).
Definition set_latest (v : Z) (s : osi_state) : osi_state := mk_osi (os_list s) (registered_interfaces s) (interface_handler s) v (interface_mutex s) (os_heap s).
Definition set_mutex (l : spinlock_t) (s : osi_state) : osi_state :=
  mk_osi (os_list s) (registered_interfaces s) (interface_handler s) (latest_queried_interface s) l (os_heap s).
Definition set_os_heap (h : H) (s : osi_state) : osi_state :=
  mk_osi (os_list s) (registered_interfaces s) (interface_handler s) (latest_queried_interface s) (interface_mutex s) h.

Definition lock_interfaces (s : osi_state) : outcome osi_state := l ← acquireLock (interface_mutex s); Ret (set_mutex l s).
Definition unlock_interfaces (s : osi_state) : osi_state := set_mutex (releaseLock (interface_mutex s)) s.

(** [base] is the address of the array. *)
Definition element (base i : Z) : Z := base + i * INTERFACE_SIZE.

Definition link_element (base i : Z) (s : osi_state) : outcome osi_state :=
  Ret (set_list (upd (os_list s) (element base i) (set_ri_next (element base (i + 1)) (os_list s (element base i)))) s).

Definition uacpi_initialize_interfaces (base : Z) (s : osi_state) : outcome (Z * osi_state) :=
  let s := set_first (element base 0) s in
  '(_, h) ← uacpi_kernel_alloc SPINLOCK_SIZE (os_heap s);
  let s := set_mutex false (set_os_heap h s) in
  s ← for_up (length predefined_table - 1) 0 (link_element base) s;
  Ret (UACPI_STATUS_OK, s).

Definition uacpi_latest_queried_vendor_interface (s : osi_state) : Z := latest_queried_interface s.

(** The first element with a property. *)
Fixpoint find_from (fuel : nat) (test : registered_interface -> bool) (a : Z) (s : osi_state) : outcome Z :=
  match fuel with
  | O => OutOfFuel
  | S f => if a =? 0 then Ret 0 else if test (os_list s a) then Ret a else find_from f test (ri_next (os_list s a)) s
  end.

Definition find_interface_unlocked (fuel : nat) (name : list Z) (s : osi_state) : outcome Z :=
  find_from fuel (fun r => bool_decide (ri_name r = name)) (registered_interfaces s) s.
Definition find_host_interface_unlocked (fuel : nat) (type : Z) (s : osi_state) : outcome Z :=
  find_from fuel (fun r => ri_host_type r =? type) (registered_interfaces s) s.

Definition uacpi_install_interface (fuel : nat) (loaded : bool) (name : list Z) (kind : Z) (s : osi_state) : outcome (Z * osi_state) :=
  if negb loaded then Ret (UACPI_STATUS_INIT_LEVEL_MISMATCH, s)
  else
    s ← lock_interfaces s;
    a ← find_interface_unlocked fuel name s;
    if negb (a =? 0) then
      if ri_disabled (os_list s a) then Ret (UACPI_STATUS_OK, unlock_interfaces (set_list (upd (os_list s) a (set_disabled false (os_list s a))) s))
      else Ret (UACPI_STATUS_ALREADY_EXISTS, unlock_interfaces s)
    else
      '(a, h) ← uacpi_kernel_alloc INTERFACE_SIZE (os_heap s);
      '(str, h) ← uacpi_kernel_alloc (Z.of_nat (length name) + 1) h;
      let s := set_os_heap h s in
      let r := mk_interface name str 0 kind 0 false true (registered_interfaces s) in
      Ret (UACPI_STATUS_OK, unlock_interfaces (set_first a (set_list (upd (os_list s) a r) s))).

(** The loop of [uacpi_uninstall_interface]: the element and the one before it, which is
    itself for the first. *)
Fixpoint find_with_previous (fuel : nat) (name : list Z) (cur prev : Z) (s : osi_state) : outcome (Z * Z) :=
  match fuel with
  | O => OutOfFuel
  | S f =>
      if cur =? 0 then Ret (0, prev)
      else if bool_decide (ri_name (os_list s cur) = name) then Ret (cur, prev)
      else find_with_previous f name (ri_next (os_list s cur)) cur s
  end.

Definition uacpi_uninstall_interface (fuel : nat) (loaded : bool) (name : list Z) (s : osi_state) : outcome (Z * osi_state) :=
  if negb loaded then Ret (UACPI_STATUS_INIT_LEVEL_MISMATCH, s)
  else
    s ← lock_interfaces s;
    '(cur, prev) ← find_with_previous fuel name (registered_interfaces s) (registered_interfaces s) s;
    if cur =? 0 then Ret (UACPI_STATUS_NOT_FOUND, unlock_interfaces s)
    else if ri_dynamic (os_list s cur) then
      let next := ri_next (os_list s cur) in
      let s := if prev =? cur then set_first next s else set_list (upd (os_list s) prev (set_ri_next next (os_list s prev))) s in
      let s := unlock_interfaces s in
      h ← uacpi_kernel_free (ri_string (os_list s cur)) (os_heap s);
      h ← uacpi_kernel_free cur h;
      Ret (UACPI_STATUS_OK, set_os_heap h s)
    else if negb (ri_disabled (os_list s cur)) then
      Ret (UACPI_STATUS_OK, unlock_interfaces (set_list (upd (os_list s) cur (set_disabled true (os_list s cur))) s))
    else Ret (UACPI_STATUS_NOT_FOUND, unlock_interfaces s).

Definition configure_host_interface (fuel : nat) (loaded : bool) (type : Z) (enabled : bool) (s : osi_state) : outcome (Z * osi_state) :=
  if negb loaded then Ret (UACPI_STATUS_INIT_LEVEL_MISMATCH, s)
  else
    s ← lock_interfaces s;
    a ← find_host_interface_unlocked fuel type s;
    if a =? 0 then Ret (UACPI_STATUS_NOT_FOUND, unlock_interfaces s)
    else Ret (UACPI_STATUS_OK, unlock_interfaces (set_list (upd (os_list s) a (set_disabled (negb enabled) (os_list s a))) s)).

Definition uacpi_enable_host_interface (fuel : nat) (loaded : bool) (type : Z) (s : osi_state) : outcome (Z * osi_state) := configure_host_interface fuel loaded type true s.
Definition uacpi_disable_host_interface (fuel : nat) (loaded : bool) (type : Z) (s : osi_state) : outcome (Z * osi_state) := configure_host_interface fuel loaded type false s.

Definition uacpi_set_interface_query_handler (loaded : bool) (handler : option (list Z -> bool -> bool)) (s : osi_state) : outcome (Z * osi_state) :=
  if negb loaded then Ret (UACPI_STATUS_INIT_LEVEL_MISMATCH, s)
  else
    s ← lock_interfaces s;
    match interface_handler s, handler with
    | Some _, Some _ => Ret (UACPI_STATUS_ALREADY_EXISTS, unlock_interfaces s)
    | _, _ => Ret (UACPI_STATUS_OK, unlock_interfaces (set_handler handler s))
    end.

Fixpoint configure_from (fuel : nat) (action kind a : Z) (s : osi_state) : outcome osi_state :=
  match fuel with
  | O => OutOfFuel
  | S f =>
      if a =? 0 then Ret s
      else
        let s := if negb (Z.land kind (ri_kind (os_list s a)) =? 0)
                 then set_list (upd (os_list s) a (set_disabled (action =? UACPI_INTERFACE_ACTION_DISABLE) (os_list s a))) s else s in
        configure_from f action kind (ri_next (os_list s a)) s
  end.

Definition uacpi_bulk_configure_interfaces (fuel : nat) (loaded : bool) (action kind : Z) (s : osi_state) : outcome (Z * osi_state) :=
  if negb loaded then Ret (UACPI_STATUS_INIT_LEVEL_MISMATCH, s)
  else
    s ← lock_interfaces s;
    s ← configure_from fuel action kind (registered_interfaces s) s;
    Ret (UACPI_STATUS_OK, unlock_interfaces s).

Definition uacpi_handle_osi (fuel : nat) (name : list Z) (s : osi_state) : outcome (bool * osi_state) :=
  s ← lock_interfaces s;
  a ← find_interface_unlocked fuel name s;
  if a =? 0 then Ret (false, unlock_interfaces s)
  else
    let r := os_list s a in
    let s := if ri_weight r >? latest_queried_interface s then set_latest (ri_weight r) s else s in
    let is_supported := negb (ri_disabled r) in
    Ret (match interface_handler s with Some f => f name is_supported | None => is_supported end, unlock_interfaces s).

(** ** The list and the set of names *)

(** The areas of the heap that an element owns. *)
Definition owns (r : registered_interface) (a : Z) (areas : list (Z * Z)) : Prop :=
  if ri_dynamic r then exists n1 n2, INTERFACE_SIZE <= n1 /\ areas = [(a, n1); (ri_string r, n2)] /\ ri_string r <> 0 else areas = [].

(** [statics] are the elements of the array; [rest] are the live areas of the heap that do
    not belong to elements of the list: exactly these and the areas of the elements are live. *)
Record osi_ok (statics : list Z) (rest : list (Z * Z)) (s : osi_state) (l : list Z) : Prop := {
  oo_first : registered_interfaces s = first_v 0 l;
  oo_links : slinked (fun a => ri_next (os_list s a)) l 0;
  oo_chain : pchain l;
  oo_names : NoDup (map (fun a => ri_name (os_list s a)) l);
  oo_mutex : interface_mutex s = false;
  oo_static : forall a, a ∈ l -> ri_dynamic (os_list s a) = false -> a ∈ statics;
  oo_heap : kh_ok (os_heap s) /\ exists areas, Forall2 (fun a ar => owns (os_list s a) a ar) l areas /\ kh_live (os_heap s) (concat areas ++ rest)
}.

(** The array is not in the memory of the heap. *)
Definition outside_heap (statics : list Z) : Prop := forall h a h', kh_ok h -> kh_malloc INTERFACE_SIZE h = Ret (a, h') -> a ∉ statics.

(** The names that are supported. *)
Definition enabled (s : osi_state) (l : list Z) (name : list Z) : bool :=
  existsb (fun a => bool_decide (ri_name (os_list s a) = name) && negb (ri_disabled (os_list s a))) l.

Lemma find_from_spec test l : forall fuel s, pchain l -> slinked (fun a => ri_next (os_list s a)) l 0 -> (length l < fuel)%nat ->
  find_from fuel test (first_v 0 l) s = Ret (match List.find (fun a => test (os_list s a)) l with Some a => a | None => 0 end).
Proof.
  induction l as [|a l IH]; intros [|f] s Hc Hl Hf; cbn [length] in Hf; try lia; cbn [find_from first_v List.find slinked] in *; [reflexivity|].
  rewrite (proj2 (Z.eqb_neq a 0)) by (apply (pchain_in _ _ Hc), elem_of_cons; now left). destruct (test (os_list s a)); [reflexivity|].
  destruct Hl as [-> Hl]. apply IH; [|exact Hl|lia]. exact (proj1 (proj2 (proj2 (pchain_middle [] a l Hc)))).
Qed.

(** The element with a name, if there is one. *)
Inductive lookup_result (s : osi_state) (l : list Z) (name : list Z) : Z -> Prop :=
| lookup_some l1 a l2 : l = l1 ++ a :: l2 -> a <> 0 -> ri_name (os_list s a) = name -> (forall b, b ∈ l1 ++ l2 -> ri_name (os_list s b) <> name) -> lookup_result s l name a
| lookup_none : (forall b, b ∈ l -> ri_name (os_list s b) <> name) -> lookup_result s l name 0.

Lemma others_differ {A} (f : Z -> A) l1 a l2 b : NoDup (map f (l1 ++ a :: l2)) -> b ∈ l1 ++ l2 -> f b <> f a.
Proof.
  rewrite map_app. cbn [map]. intros (N1 & N12 & N2)%NoDup_app Hb E. apply NoDup_cons in N2 as [Na N2]. apply elem_of_app in Hb as [Hb|Hb].
  - apply (N12 (f b)); [now apply list_elem_of_fmap_2|]. rewrite E. apply elem_of_cons. now left.
  - apply Na. rewrite <- E. now apply list_elem_of_fmap_2.
Qed.

Lemma find_interface_spec statics rest fuel name s l : osi_ok statics rest s l -> (length l < fuel)%nat ->
  Returns (find_interface_unlocked fuel name s) (lookup_result s l name).
Proof.
  intros [O1 O2 O3 O4 _ _ _] Hf. unfold find_interface_unlocked. rewrite O1, find_from_spec by assumption. apply Returns_ret.
  destruct (List.find _ l) as [a|] eqn:E.
  - apply find_some in E as [Hin%list_elem_of_In Hn%bool_decide_eq_true_1]. destruct (list_elem_of_split _ _ Hin) as (l1 & l2 & ->).
    apply (lookup_some _ _ _ l1 a l2); auto; [exact (pchain_in _ _ O3 Hin)|]. intros b Hb. rewrite <- Hn. exact (others_differ (fun a => ri_name (os_list s a)) l1 a l2 b O4 Hb).
  - apply lookup_none. intros b Hb Hn. apply list_elem_of_In in Hb. pose proof (find_none _ _ E b Hb) as N. cbn in N. rewrite bool_decide_eq_false in N. contradiction.
Qed.

(** The set, in terms of the element found. *)
Lemma enabled_found s l1 a l2 n : (forall b, b ∈ l1 ++ l2 -> ri_name (os_list s b) <> ri_name (os_list s a)) ->
  enabled s (l1 ++ a :: l2) n = if bool_decide (n = ri_name (os_list s a)) then negb (ri_disabled (os_list s a)) else enabled s (l1 ++ l2) n.
Proof.
  intros Hn. unfold enabled. rewrite !existsb_app. cbn [existsb]. destruct (bool_decide_reflect (n = ri_name (os_list s a))) as [->|Hne].
  - rewrite bool_decide_true by reflexivity. cbn [andb]. assert (forall l, (forall b, b ∈ l -> b ∈ l1 ++ l2) ->
      existsb (fun b => bool_decide (ri_name (os_list s b) = ri_name (os_list s a)) && negb (ri_disabled (os_list s b))) l = false) as Hno.
    { intros l Hl. destruct (existsb _ l) eqn:E; [|reflexivity]. apply existsb_exists in E as (b & Hb%list_elem_of_In & [Hb2%bool_decide_eq_true_1 _]%andb_prop). exfalso. exact (Hn b (Hl b Hb) Hb2). }
    rewrite !Hno by (intros b Hb; apply elem_of_app; tauto). now rewrite orb_false_r.
  - rewrite bool_decide_false by congruence. reflexivity.
Qed.

Lemma enabled_none s l n : (forall b, b ∈ l -> ri_name (os_list s b) <> n) -> enabled s l n = false.
Proof.
  intros Hn. unfold enabled. destruct (existsb _ l) eqn:E; [|reflexivity]. apply existsb_exists in E as (b & Hb%list_elem_of_In & [Hb2%bool_decide_eq_true_1 _]%andb_prop). exfalso. exact (Hn b Hb Hb2).
Qed.

Lemma enabled_ext s s' l n : (forall b, b ∈ l -> ri_name (os_list s' b) = ri_name (os_list s b) /\ ri_disabled (os_list s' b) = ri_disabled (os_list s b)) -> enabled s' l n = enabled s l n.
Proof.
  unfold enabled. induction l as [|b l IH]; intros Hf; [reflexivity|]. cbn [existsb]. destruct (Hf b) as [-> ->]; [apply elem_of_cons; now left|]. f_equal.
  apply IH. intros c Hc. apply Hf. apply elem_of_cons. now right.
Qed.

Lemma find_from_mutex test b s fuel : forall a, find_from fuel test a (set_mutex b s) = find_from fuel test a s.
Proof. induction fuel as [|f IH]; intros a; cbn [find_from]; [reflexivity|]. cbn [os_list set_mutex]. now rewrite IH. Qed.

Lemma find_with_previous_mutex name b s fuel : forall cur prev, find_with_previous fuel name cur prev (set_mutex b s) = find_with_previous fuel name cur prev s.
Proof. induction fuel as [|f IH]; intros cur prev; cbn [find_with_previous]; [reflexivity|]. cbn [os_list set_mutex]. now rewrite IH. Qed.

Lemma owns_frame (f g : Z -> registered_interface) l areas : (forall a, a ∈ l -> ri_dynamic (g a) = ri_dynamic (f a) /\ ri_string (g a) = ri_string (f a)) ->
  Forall2 (fun a ar => owns (f a) a ar) l areas -> Forall2 (fun a ar => owns (g a) a ar) l areas.
Proof.
  intros Hf HF. induction HF as [|a ar l areas Ho HF IH]; constructor.
  - unfold owns in *. destruct (Hf a ltac:(apply elem_of_cons; now left)) as [-> ->]. exact Ho.
  - apply IH. intros b Hb. apply Hf. apply elem_of_cons. now right.
Qed.

(** A change that leaves the list, the names and what is owned. *)
Lemma osi_ok_frame statics rest s s' l : osi_ok statics rest s l -> registered_interfaces s' = registered_interfaces s -> os_heap s' = os_heap s -> interface_mutex s' = false ->
  (forall a, a ∈ l -> ri_name (os_list s' a) = ri_name (os_list s a) /\ ri_next (os_list s' a) = ri_next (os_list s a) /\
     ri_dynamic (os_list s' a) = ri_dynamic (os_list s a) /\ ri_string (os_list s' a) = ri_string (os_list s a)) -> osi_ok statics rest s' l.
Proof.
  intros [O1 O2 O3 O4 O5 O6 (O7 & areas & O8 & O9)] Ef Eh Em Hf. split; rewrite ?Ef, ?Eh; auto.
  - apply (slinked_frame (fun a => ri_next (os_list s a))); [|exact O2]. intros a Ha. exact (proj1 (proj2 (Hf a Ha))).
  - erewrite map_ext_in; [exact O4|]. intros a Ha%list_elem_of_In. exact (proj1 (Hf a Ha)).
  - intros a Ha. destruct (Hf a Ha) as (_ & _ & -> & _). now apply O6.
  - split; [exact O7|]. exists areas. split; [|exact O9]. apply (owns_frame (os_list s)); [|exact O8]. intros a Ha. exact (proj2 (proj2 (Hf a Ha))).
Qed.

(** Setting the flag of the element with a name. *)
Lemma flag_spec statics rest s l1 a l2 b : let l := l1 ++ a :: l2 in let s' := unlock_interfaces (set_list (upd (os_list s) a (set_disabled b (os_list s a))) (set_mutex true s)) in
  osi_ok statics rest s l -> (forall c, c ∈ l1 ++ l2 -> ri_name (os_list s c) <> ri_name (os_list s a)) ->
  osi_ok statics rest s' l /\ forall n, enabled s' l n = if bool_decide (n = ri_name (os_list s a)) then negb b else enabled s l n.
Proof.
  intros l s' HO Hn. assert (forall c, ri_name (os_list s' c) = ri_name (os_list s c)) as EN by (intros c; cbn; unfold upd; destruct (Z.eqb_spec c a) as [->|]; reflexivity). split.
  - apply (osi_ok_frame statics rest s); auto. intros c _. cbn. unfold upd. destruct (Z.eqb_spec c a) as [->|]; now splits.
  - intros n. unfold l. rewrite enabled_found by (intros c Hc; rewrite !EN; now apply Hn). rewrite EN. cbn [os_list s' unlock_interfaces set_mutex set_list]. rewrite upd_eq. cbn [ri_disabled set_disabled].
    destruct (bool_decide_reflect (n = ri_name (os_list s a))) as [|Hne]; [reflexivity|]. rewrite (enabled_found s l1 a l2 n Hn), bool_decide_false by exact Hne.
    apply enabled_ext. intros c Hc. assert (c <> a) as Hca by (intros ->; exact (Hn a Hc eq_refl)). cbn. now rewrite upd_ne.
Qed.

Lemma unlock_spec statics rest s l : osi_ok statics rest s l -> osi_ok statics rest (unlock_interfaces (set_mutex true s)) l /\ forall n, enabled (unlock_interfaces (set_mutex true s)) l n = enabled s l n.
Proof. intros HO. split; [apply (osi_ok_frame statics rest s); auto; intros a _; now splits|]. intros n. reflexivity. Qed.

(** A new element in front of the list. *)
Lemma install_new `{KHL : !KernelHeapLaws H} statics rest name kind s l : osi_ok statics rest s l -> Z.of_nat (length name) < 2 ^ 32 ->
  outside_heap statics -> (forall b, b ∈ l -> ri_name (os_list s b) <> name) ->
  Safe ('(a, h) ← uacpi_kernel_alloc INTERFACE_SIZE (os_heap (set_mutex true s));
        '(str, h) ← uacpi_kernel_alloc (Z.of_nat (length name) + 1) h;
        let s := set_os_heap h (set_mutex true s) in
        let r := mk_interface name str 0 kind 0 false true (registered_interfaces s) in
        Ret (UACPI_STATUS_OK, unlock_interfaces (set_first a (set_list (upd (os_list s) a r) s))))
    (fun '(ret, s') => exists l', osi_ok statics rest s' l' /\ (length l' <= S (length l))%nat /\
      (forall n, enabled s' l' n = bool_decide (n = name) || enabled s l n) /\ ret = UACPI_STATUS_OK /\ interface_handler s' = interface_handler s).
Proof.
  intros [O1 O2 O3 O4 O5 O6 (O7 & areas & O8 & O9)] Hlen Hst Hn. unfold uacpi_kernel_alloc. cbn [os_heap set_mutex].
  pose proof (kh_malloc_spec INTERFACE_SIZE (os_heap s) _ ltac:(unfold INTERFACE_SIZE; lia) O7 O9) as M1. 
  destruct (kh_malloc INTERFACE_SIZE (os_heap s)) as [[a h1]| | | |] eqn:Em; try contradiction; cbn [mbind outcome_bind Safe]; [|exact I].
  destruct M1 as (n1 & A1 & _ & A2 & _ & A3 & A4 & A5). pose proof (Hst _ _ _ O7 Em) as Hst1.
  pose proof (kh_malloc_spec (Z.of_nat (length name) + 1) h1 _ ltac:(change (2 ^ 40) with (256 * 2 ^ 32); lia) A3 A4) as M2.
  destruct (kh_malloc _ h1) as [[str h2]| | | |]; try contradiction; cbn [mbind outcome_bind Safe]; [|exact I]. destruct M2 as (n2 & B1 & _ & B2 & _ & B3 & B4 & _).
  assert (a ∉ l) as Hfresh.
  { intros Hin. destruct (ri_dynamic (os_list s a)) eqn:Ed; [|exact (Hst1 (O6 a Hin Ed))]. apply list_elem_of_lookup in Hin as [i Hi].
    destruct (Forall2_lookup_l _ _ _ _ _ O8 Hi) as (ar & Har & Ho). unfold owns in Ho. rewrite Ed in Ho. destruct Ho as (m1 & m2 & Hm & -> & _).
    rewrite Forall_forall in A5. assert ((a, m1) ∈ concat areas ++ rest) as Hin2.
    { apply elem_of_app. left. apply list_elem_of_In, in_concat. exists [(a, m1); (ri_string (os_list s a), m2)]. split; [|now left]. apply list_elem_of_In. exact (list_elem_of_lookup_2 _ _ _ Har). }
    specialize (A5 _ Hin2). unfold apart in A5. cbn in A5. unfold INTERFACE_SIZE in *. lia. }
  assert (forall b, b ∈ l -> b <> a) as Hba by (intros b Hb ->; contradiction). cbn [registered_interfaces set_os_heap set_mutex].
  exists (a :: l). splits; [|cbn [length]; lia| |reflexivity|reflexivity].
  - split; cbn [os_list registered_interfaces interface_mutex os_heap unlock_interfaces set_mutex set_first set_list set_os_heap releaseLock first_v slinked map].
    + reflexivity.
    + split; [rewrite upd_eq; exact O1|]. apply (slinked_frame (fun b => ri_next (os_list s b))); [|exact O2]. intros b Hb. now rewrite upd_ne by now apply Hba.
    + destruct O3 as [N1 N2]. split; [now apply NoDup_cons|apply Forall_cons; split; [lia|exact N2]].
    + apply NoDup_cons. rewrite upd_eq. cbn [ri_name]. erewrite (map_ext_in _ (fun b => ri_name (os_list s b))) by (intros b Hb%list_elem_of_In; now rewrite upd_ne by now apply Hba).
      split; [|exact O4]. intros (b & E & Hb)%list_elem_of_fmap. exact (Hn b Hb (eq_sym E)).
    + reflexivity.
    + intros b [->|Hb]%elem_of_cons; [rewrite upd_eq; discriminate|]. rewrite upd_ne by now apply Hba. now apply O6.
    + split; [exact B3|]. exists ([(a, n1); (str, n2)] :: areas). split.
      * constructor; [unfold owns; rewrite upd_eq; cbn; exists n1, n2; splits; auto; lia|]. apply (owns_frame (os_list s)); [|exact O8]. intros b Hb. now rewrite upd_ne by now apply Hba.
      * cbn [concat app]. eapply kh_live_perm; [exact B4|]. apply Permutation_swap.
  - intros n. unfold enabled. cbn [existsb os_list unlock_interfaces set_mutex set_first set_list set_os_heap]. rewrite upd_eq. cbn [ri_name ri_disabled negb]. rewrite andb_true_r. f_equal.
    + apply bool_decide_ext. split; congruence.
    + apply (enabled_ext s (set_list (upd (os_list s) a (mk_interface name str 0 kind 0 false true (registered_interfaces s))) s) l n). intros b Hb. cbn. now rewrite upd_ne by now apply Hba.
Qed.

(** Adding a name. *)
Lemma install_spec `{KHL : !KernelHeapLaws H} statics rest fuel name kind s l : osi_ok statics rest s l -> (length l < fuel)%nat -> Z.of_nat (length name) < 2 ^ 32 ->
  outside_heap statics ->
  Safe (uacpi_install_interface fuel true name kind s) (fun '(ret, s') => exists l', osi_ok statics rest s' l' /\ (length l' <= S (length l))%nat /\
    (forall n, enabled s' l' n = bool_decide (n = name) || enabled s l n) /\ ret = (if enabled s l name then UACPI_STATUS_ALREADY_EXISTS else UACPI_STATUS_OK) /\
    interface_handler s' = interface_handler s).
Proof.
  intros HO Hf Hlen Hst. unfold uacpi_install_interface, lock_interfaces. cbn [negb]. rewrite (oo_mutex _ _ _ _ HO). cbn [acquireLock mbind outcome_bind].
  unfold find_interface_unlocked at 1. rewrite find_from_mutex. cbn [registered_interfaces set_mutex].
  destruct (find_interface_spec statics rest fuel name s l HO Hf) as (a & E & HL). unfold find_interface_unlocked in E. rewrite E. cbn [mbind outcome_bind].
  destruct HL as [l1 a l2 -> Ha <- Hn|Hn].
  - rewrite (proj2 (Z.eqb_neq a 0)) by exact Ha. cbn [negb os_list set_mutex]. rewrite (enabled_found s l1 a l2 _ Hn), bool_decide_true by reflexivity.
    destruct (ri_disabled (os_list s a)) eqn:Ed; cbn [Safe negb].
    + destruct (flag_spec statics rest s l1 a l2 false HO Hn) as [F1 F2]. exists (l1 ++ a :: l2). splits; [exact F1|lia| |reflexivity|reflexivity]. intros n. rewrite F2. now destruct (bool_decide (n = _)).
    + destruct (unlock_spec _ _ _ _ HO) as [F1 F2]. exists (l1 ++ a :: l2). splits; [exact F1|lia| |reflexivity|reflexivity]. intros n. rewrite F2, (enabled_found s l1 a l2 n Hn).
      destruct (bool_decide (n = _)); [now rewrite Ed|reflexivity].
  - cbn [negb Z.eqb]. rewrite (enabled_none s l name Hn). exact (install_new statics rest name kind s l HO Hlen Hst Hn).
Qed.

Lemma find_with_previous_some s name a l2 l1 : forall fuel prev, pchain (l1 ++ a :: l2) -> slinked (fun a => ri_next (os_list s a)) (l1 ++ a :: l2) 0 ->
  ri_name (os_list s a) = name -> (forall b, b ∈ l1 -> ri_name (os_list s b) <> name) -> (length l1 < fuel)%nat ->
  find_with_previous fuel name (first_v 0 (l1 ++ a :: l2)) prev s = Ret (a, last_v prev l1).
Proof.
  induction l1 as [|b l1 IH]; intros [|f] prev Hc Hl Hn Ho Hf; cbn [length app] in *; try lia; cbn [find_with_previous first_v last_v slinked] in *;
    rewrite (proj2 (Z.eqb_neq _ 0)) by (apply (pchain_in _ _ Hc), elem_of_cons; now left).
  - now rewrite bool_decide_true.
  - rewrite bool_decide_false by (apply Ho, elem_of_cons; now left). destruct Hl as [-> Hl]. apply IH; auto; [exact (proj1 (proj2 (proj2 (pchain_middle [] b _ Hc))))| |lia].
    intros c Hc'. apply Ho. apply elem_of_cons. now right.
Qed.

Lemma find_with_previous_none s name l : forall fuel prev, pchain l -> slinked (fun a => ri_next (os_list s a)) l 0 -> (forall b, b ∈ l -> ri_name (os_list s b) <> name) ->
  (length l < fuel)%nat -> exists q, find_with_previous fuel name (first_v 0 l) prev s = Ret (0, q).
Proof.
  induction l as [|b l IH]; intros [|f] prev Hc Hl Ho Hf; cbn [length] in *; try lia; cbn [find_with_previous first_v slinked] in *; [eauto|].
  rewrite (proj2 (Z.eqb_neq _ 0)) by (apply (pchain_in _ _ Hc), elem_of_cons; now left). rewrite bool_decide_false by (apply Ho, elem_of_cons; now left).
  destruct Hl as [-> Hl]. apply IH; auto; [exact (proj1 (proj2 (proj2 (pchain_middle [] b _ Hc))))| |lia]. intros c Hc'. apply Ho. apply elem_of_cons. now right.
Qed.

Lemma free_areas `{KHL : !KernelHeapLaws H} h ar1 a n1 str n2 ar2 rest : a <> 0 -> str <> 0 -> kh_ok h -> kh_live h (concat (ar1 ++ [(a, n1); (str, n2)] :: ar2) ++ rest) ->
  exists h1, uacpi_kernel_free str h = Ret h1 /\ exists h2, uacpi_kernel_free a h1 = Ret h2 /\ kh_ok h2 /\ kh_live h2 (concat (ar1 ++ ar2) ++ rest).
Proof.
  intros Ha Hs Hok HL. unfold uacpi_kernel_free. rewrite (proj2 (Z.eqb_neq str 0)), (proj2 (Z.eqb_neq a 0)) by assumption. rewrite concat_app in HL. cbn [concat app] in HL.
  destruct (kh_free_spec str n2 ((a, n1) :: concat (ar1 ++ ar2) ++ rest) h Hok) as (h1 & -> & K1 & L1).
  { eapply kh_live_perm; [exact HL|]. rewrite concat_app, <- !app_assoc. cbn [app].
    etransitivity; [symmetry; apply Permutation_middle|]. etransitivity; [apply Permutation_skip; symmetry; apply Permutation_middle|]. apply Permutation_swap. }
  exists h1. split; [reflexivity|]. destruct (kh_free_spec a n1 (concat (ar1 ++ ar2) ++ rest) h1 K1 L1) as (h2 & E & K2 & L2). now exists h2.
Qed.

(** An element is taken out of the list and its two areas are given back. *)
Lemma remove_dynamic `{KHL : !KernelHeapLaws H} statics rest s l1 a l2 prev : osi_ok statics rest s (l1 ++ a :: l2) -> ri_dynamic (os_list s a) = true ->
  prev = last_v a l1 -> (forall b, b ∈ l1 ++ l2 -> ri_name (os_list s b) <> ri_name (os_list s a)) ->
  let s1 := if prev =? a then set_first (ri_next (os_list s a)) (set_mutex true s)
            else set_list (upd (os_list s) prev (set_ri_next (ri_next (os_list s a)) (os_list s prev))) (set_mutex true s) in
  let s2 := unlock_interfaces s1 in
  Returns (h ← uacpi_kernel_free (ri_string (os_list s2 a)) (os_heap s2); h ← uacpi_kernel_free a h; Ret (UACPI_STATUS_OK, set_os_heap h s2))
    (fun '(ret, s') => ret = UACPI_STATUS_OK /\ osi_ok statics rest s' (l1 ++ l2) /\
       (forall n, enabled s' (l1 ++ l2) n = negb (bool_decide (n = ri_name (os_list s a))) && enabled s (l1 ++ a :: l2) n) /\ interface_handler s' = interface_handler s).
Proof.
  intros [O1 O2 O3 O4 O5 O6 (O7 & areas & O8 & O9)] Hd Ep Hn s1 s2.
  apply Forall2_app_inv_l in O8 as (ar1 & ar2' & F1 & F2 & ->). apply Forall2_cons_inv_l in F2 as (ar & ar2 & Ho & F2 & ->).
  unfold owns in Ho. rewrite Hd in Ho. destruct Ho as (n1 & n2 & _ & -> & Hs0). destruct (pchain_middle l1 a l2 O3) as (Ha0 & C1 & C2 & C12 & Hal & _).
  assert (prev <> a -> l1 <> []) as Hl1 by (intros Hp ->; contradiction).
  assert (prev = a -> l1 = []) as Hl1'.
  { intros E. destruct l1 as [|c r]; [reflexivity|]. exfalso. apply Hal. rewrite <- E, Ep. cbn [last_v]. apply elem_of_app. left. apply last_v_in. }
  assert (forall x, os_list s2 x = if negb (prev =? a) && (x =? prev) then set_ri_next (ri_next (os_list s a)) (os_list s prev) else os_list s x) as El
    by (intros x; unfold s2, s1; destruct (prev =? a); reflexivity).
  assert (os_list s2 a = os_list s a) as Ea.
  { rewrite El. destruct (Z.eqb_spec a prev) as [<-|]; [now rewrite Z.eqb_refl|now rewrite andb_false_r]. }
  assert (os_heap s2 = os_heap s /\ interface_mutex s2 = false /\ interface_handler s2 = interface_handler s) as (Eh & Em & Ehd) by (unfold s2, s1; destruct (prev =? a); now splits).
  assert (forall x, ri_name (os_list s2 x) = ri_name (os_list s x) /\ ri_disabled (os_list s2 x) = ri_disabled (os_list s x) /\ ri_dynamic (os_list s2 x) = ri_dynamic (os_list s x) /\ ri_string (os_list s2 x) = ri_string (os_list s x)) as Ef.
  { intros x. rewrite El. destruct (negb (prev =? a) && (x =? prev)) eqn:E; [|now splits]. apply andb_prop in E as [_ E%Z.eqb_eq]. subst x. now splits. }
  rewrite Ea, Eh.
  destruct (free_areas (os_heap s) ar1 a n1 (ri_string (os_list s a)) n2 ar2 rest Ha0 Hs0 O7 O9) as (h1 & -> & h2 & E2 & K2 & L2). cbn [mbind outcome_bind]. rewrite E2.
  cbn [mbind outcome_bind]. apply Returns_ret.
  splits; [reflexivity| | |exact Ehd].
  - split; cbn [os_list registered_interfaces interface_mutex os_heap set_os_heap].
    + rewrite (first_v_remove l1 a l2 O3), <- O1. unfold s2, s1. apply slinked_app in O2 as [_ [En _]].
      destruct (Z.eqb_spec prev a) as [E|E]; cbn [registered_interfaces unlock_interfaces set_mutex set_first set_list].
      * rewrite (Hl1' E) in *. cbn [app first_v] in O1. now rewrite O1, Z.eqb_refl.
      * destruct l1 as [|c r]; [now destruct (Hl1 E)|]. cbn [app first_v] in O1. rewrite O1, (proj2 (Z.eqb_neq c a)); [reflexivity|]. intros ->. apply Hal. apply elem_of_cons. now left.
    + apply (slinked_remove (fun b => ri_next (os_list s b)) _ l1 a l2 O2 O3). intros x Hx. rewrite El. destruct l1 as [|c r].
      * rewrite Ep. cbn [last_v]. now rewrite Z.eqb_refl.
      * assert (last_v 0 (c :: r) = prev) as -> by (rewrite Ep; reflexivity). rewrite (proj2 (Z.eqb_neq prev 0)) by (rewrite Ep; cbn [last_v]; apply (pchain_in _ _ C1), last_v_in).
        rewrite (proj2 (Z.eqb_neq prev a)) by (intros E; now specialize (Hl1' E)). cbn [negb andb]. destruct (Z.eqb_spec x prev) as [->|]; reflexivity.
    + exact C12.
    + erewrite map_ext by (intros b; exact (proj1 (Ef b))). rewrite map_app in O4 |- *. cbn [map] in O4. apply NoDup_app in O4 as (N1 & N12 & N2). apply NoDup_cons in N2 as [_ N2].
      apply NoDup_app. splits; auto. intros x Hx Hx2. apply (N12 x Hx). apply elem_of_cons. now right.
    + exact Em.
    + intros b Hb Hdb. destruct (Ef b) as (_ & _ & Eb & _). rewrite Eb in Hdb. apply O6; [|exact Hdb]. apply elem_of_app in Hb. apply elem_of_app. rewrite elem_of_cons. tauto.
    + split; [exact K2|]. exists (ar1 ++ ar2). split; [|exact L2]. apply (owns_frame (os_list s)); [intros b _; exact (proj2 (proj2 (Ef b)))|]. now apply Forall2_app.
  - intros n. rewrite (enabled_found s l1 a l2 n Hn). cbn [enabled]. destruct (bool_decide_reflect (n = ri_name (os_list s a))) as [->|Hne]; cbn [negb andb].
    + apply enabled_none. intros b Hb. cbn [os_list set_os_heap]. rewrite (proj1 (Ef b)). now apply Hn.
    + apply (enabled_ext s s2). intros b _. destruct (Ef b) as (G1 & G2 & _). auto.
Qed.

(** Removing a name. *)
Lemma uninstall_spec `{KHL : !KernelHeapLaws H} statics rest fuel name s l : osi_ok statics rest s l -> (length l < fuel)%nat ->
  Returns (uacpi_uninstall_interface fuel true name s) (fun '(ret, s') => exists l', osi_ok statics rest s' l' /\ (length l' <= length l)%nat /\
    (forall n, enabled s' l' n = negb (bool_decide (n = name)) && enabled s l n) /\ (enabled s l name = true -> ret = UACPI_STATUS_OK) /\
    interface_handler s' = interface_handler s).
Proof.
  intros HO Hf. unfold uacpi_uninstall_interface, lock_interfaces. cbn [negb]. rewrite (oo_mutex _ _ _ _ HO). cbn [acquireLock mbind outcome_bind].
  rewrite find_with_previous_mutex. cbn [registered_interfaces set_mutex].
  destruct (find_interface_spec statics rest fuel name s l HO Hf) as (x & _ & HL). destruct HL as [l1 a l2 -> Ha <- Hn|Hn]; pose proof HO as [O1 O2 O3 _ _ _ _]; rewrite O1.
  - rewrite (find_with_previous_some s _ a l2 l1 fuel (first_v 0 (l1 ++ a :: l2)) O3 O2 eq_refl); [|intros b Hb; apply Hn, elem_of_app; now left|rewrite length_app in Hf; cbn [length] in Hf; lia].
    cbn [mbind outcome_bind os_list set_mutex]. rewrite (proj2 (Z.eqb_neq a 0)) by exact Ha. pose proof (enabled_found s l1 a l2 (ri_name (os_list s a)) Hn) as Ee. rewrite bool_decide_true in Ee by reflexivity.
    destruct (ri_dynamic (os_list s a)) eqn:Ed; [|destruct (ri_disabled (os_list s a)) eqn:Edis; cbn [negb]].
    + eapply Returns_mono; [apply (remove_dynamic statics rest s l1 a l2 _ HO Ed); [destruct l1; reflexivity|exact Hn]|]. intros [ret s'] (-> & R1 & R2 & R3).
      exists (l1 ++ l2). splits; auto. rewrite !length_app. cbn [length]. lia.
    + apply Returns_ret. destruct (unlock_spec _ _ _ _ HO) as [F1 F2]. exists (l1 ++ a :: l2). splits; [exact F1|lia| |intros E; rewrite E in Ee; discriminate|reflexivity].
      intros n. rewrite F2, (enabled_found s l1 a l2 n Hn), Edis. now destruct (bool_decide (n = _)).
    + apply Returns_ret. destruct (flag_spec statics rest s l1 a l2 true HO Hn) as [F1 F2]. exists (l1 ++ a :: l2). splits; [exact F1|lia| |reflexivity|reflexivity].
      intros n. rewrite F2. now destruct (bool_decide (n = _)).
  - destruct (find_with_previous_none s name l fuel (first_v 0 l) O3 O2 Hn Hf) as [q ->]. cbn [mbind outcome_bind Z.eqb]. apply Returns_ret. destruct (unlock_spec _ _ _ _ HO) as [F1 F2].
    pose proof (enabled_none s l name Hn) as En. exists l. splits; [exact F1|lia| |congruence|reflexivity]. intros n. rewrite F2. destruct (bool_decide_reflect (n = name)) as [->|]; [exact En|reflexivity].
Qed.

(** A query, with the handler if there is one. *)
Lemma query_spec statics rest fuel name s l : osi_ok statics rest s l -> (length l < fuel)%nat ->
  Returns (uacpi_handle_osi fuel name s) (fun '(b, s') => osi_ok statics rest s' l /\ (forall n, enabled s' l n = enabled s l n) /\ interface_handler s' = interface_handler s /\
    b = match interface_handler s with
        | Some f => bool_decide (name ∈ map (fun a => ri_name (os_list s a)) l) && f name (enabled s l name)
        | None => enabled s l name
        end).
Proof.
  intros HO Hf. unfold uacpi_handle_osi, lock_interfaces. rewrite (oo_mutex _ _ _ _ HO). cbn [acquireLock mbind outcome_bind].
  unfold find_interface_unlocked at 1. rewrite find_from_mutex. cbn [registered_interfaces set_mutex].
  destruct (find_interface_spec statics rest fuel name s l HO Hf) as (a & E & HL). unfold find_interface_unlocked in E. rewrite E. cbn [mbind outcome_bind].
  destruct HL as [l1 a l2 -> Ha <- Hn|Hn].
  - rewrite (proj2 (Z.eqb_neq a 0)) by exact Ha. apply Returns_ret. rewrite (enabled_found s l1 a l2 _ Hn), (bool_decide_true (ri_name (os_list s a) = _)) by reflexivity. splits.
    + apply (osi_ok_frame statics rest s); auto; destruct (_ >? _); auto; intros b _; now splits.
    + intros n. cbn [os_list set_mutex latest_queried_interface]. now destruct (_ >? _).
    + now destruct (_ >? _).
    + assert (forall (b : bool) x, interface_handler (if b then set_latest x (set_mutex true s) else set_mutex true s) = interface_handler s) as -> by now intros []. destruct (interface_handler s); [|reflexivity].
      rewrite bool_decide_true; [reflexivity|]. rewrite map_app. apply elem_of_app. right. apply elem_of_cons. now left.
  - apply Returns_ret. destruct (unlock_spec _ _ _ _ HO) as [F1 F2]. splits; auto. rewrite (enabled_none s l name Hn). destruct (interface_handler s); [|reflexivity].
    rewrite bool_decide_false; [reflexivity|]. intros (c & -> & Hc)%list_elem_of_fmap. exact (Hn c Hc eq_refl).
Qed.

(** ** Any sequence of calls *)

Inductive osi_call : Type := Install (name : list Z) (kind : Z) | Uninstall (name : list Z) | Query (name : list Z).

(** The answers to the queries. *)
Fixpoint run_calls (fuel : nat) (calls : list osi_call) (s : osi_state) : outcome (list bool * osi_state) :=
  match calls with
  | [] => Ret ([], s)
  | Install name kind :: r => '(_, s) ← uacpi_install_interface fuel true name kind s; run_calls fuel r s
  | Uninstall name :: r => '(_, s) ← uacpi_uninstall_interface fuel true name s; run_calls fuel r s
  | Query name :: r => '(b, s) ← uacpi_handle_osi fuel name s; '(bs, s) ← run_calls fuel r s; Ret (b :: bs, s)
  end.

(** What is promised: a set of names. *)
Fixpoint set_calls (calls : list osi_call) (supported : list Z -> bool) : list bool :=
  match calls with
  | [] => []
  | Install name _ :: r => set_calls r (fun n => bool_decide (n = name) || supported n)
  | Uninstall name :: r => set_calls r (fun n => negb (bool_decide (n = name)) && supported n)
  | Query name :: r => supported name :: set_calls r supported
  end.

Lemma set_calls_ext calls : forall f g, (forall n, f n = g n) -> set_calls calls f = set_calls calls g.
Proof.
  induction calls as [|[name kind|name|name] calls IH]; intros f g E; cbn [set_calls]; [reflexivity|..]; [apply IH; intros n; now rewrite E..|]. rewrite E. f_equal. now apply IH.
Qed.

Definition short_name (c : osi_call) : Prop := match c with Install name _ => Z.of_nat (length name) < 2 ^ 32 | _ => True end.

(** From any list that is linked as it should be. *)
Lemma run_calls_spec `{KHL : !KernelHeapLaws H} statics rest calls : forall fuel s l,
  outside_heap statics -> osi_ok statics rest s l -> interface_handler s = None -> Forall short_name calls ->
  (length l + length calls < fuel)%nat ->
  Safe (run_calls fuel calls s) (fun '(answers, s') => answers = set_calls calls (enabled s l) /\ exists l', osi_ok statics rest s' l').
Proof.
  induction calls as [|c calls IH]; intros fuel s l Hst HO Hh Hc Hf; cbn [run_calls set_calls length] in *; [split; eauto|]. apply Forall_cons in Hc as [Hc Hcs].
  destruct c as [name kind|name|name]; cbn [short_name] in Hc.
  - eapply Safe_bind; [exact (install_spec statics rest fuel name kind s l HO ltac:(lia) Hc Hst)|]. intros [ret s1] (l1 & O1 & L1 & E1 & _ & H1). rewrite Hh in H1.
    rewrite (set_calls_ext calls _ (enabled s1 l1)) by (intros n; now rewrite E1). apply IH; auto. lia.
  - destruct (uninstall_spec statics rest fuel name s l HO ltac:(lia)) as ([ret s1] & -> & l1 & O1 & L1 & E1 & _ & H1). cbn [mbind outcome_bind]. rewrite Hh in H1.
    rewrite (set_calls_ext calls _ (enabled s1 l1)) by (intros n; now rewrite E1). apply IH; auto. lia.
  - destruct (query_spec statics rest fuel name s l HO ltac:(lia)) as ([b s1] & -> & O1 & E1 & H1 & Eb). cbn [mbind outcome_bind]. rewrite Hh in H1, Eb. subst b.
    eapply Safe_bind; [apply (IH fuel s1 l); auto; lia|]. intros [bs s2] [-> HO2]. cbn [Safe]. split; [|exact HO2]. f_equal. now apply set_calls_ext.
Qed.

(** ** The known interfaces *)

Definition array_of (base : Z) : list Z := map (element base) (seqZ 0 (Z.of_nat (length predefined_table))).

(** The array as the compiler lays it out. *)
Definition array_holds (base : Z) (s : osi_state) : Prop :=
  forall i r, predefined_table !! i = Some r -> os_list s (element base (Z.of_nat i)) = r.

(** The names that are supported from the start. *)
Definition known_name (name : list Z) : bool := existsb (fun r => bool_decide (ri_name r = name) && negb (ri_disabled r)) predefined_table.

Lemma element_inj base j k : element base j = element base k -> j = k.
Proof. unfold element, INTERFACE_SIZE. lia. Qed.

Lemma link_elements base n : forall s i, exists s', for_up n i (link_element base) s = Ret s' /\ s' = set_list (os_list s') s /\
  forall j, os_list s' (element base j) = if (i <=? j) && (j <? i + Z.of_nat n) then set_ri_next (element base (j + 1)) (os_list s (element base j)) else os_list s (element base j).
Proof.
  induction n as [|n IH]; intros s i; cbn [for_up].
  - exists s. splits; [reflexivity|now destruct s|]. intros j. destruct (Z.leb_spec i j), (Z.ltb_spec j (i + Z.of_nat 0)); cbn [andb]; lia || reflexivity.
  - cbn [mbind outcome_bind link_element]. match goal with |- context [for_up n _ _ ?x] => set (s1 := x) end. destruct (IH s1 (i + 1)) as (s' & -> & E1 & E2).
    exists s'. splits; [reflexivity|rewrite E1; reflexivity|]. intros j. rewrite E2. unfold s1. cbn [os_list set_list]. unfold upd.
    replace (i + 1 + Z.of_nat n) with (i + Z.of_nat (S n)) by lia. destruct (Z.eq_dec j i) as [-> | Hne].
    + rewrite Z.eqb_refl. destruct (Z.leb_spec (i + 1) i), (Z.leb_spec i i), (Z.ltb_spec i (i + Z.of_nat (S n))); cbn [andb]; lia || reflexivity.
    + rewrite (proj2 (Z.eqb_neq _ _)) by (intros E%element_inj; contradiction). destruct (Z.leb_spec (i + 1) j), (Z.leb_spec i j); lia || reflexivity.
Qed.

Lemma linked_safe base n s : Safe (for_up n 0 (link_element base) s) (fun s' => s' = set_list (os_list s') s /\
  forall j, os_list s' (element base j) = if (0 <=? j) && (j <? 0 + Z.of_nat n) then set_ri_next (element base (j + 1)) (os_list s (element base j)) else os_list s (element base j)).
Proof. destruct (link_elements base n s 0) as (s' & -> & E). exact E. Qed.

(** A field that linking leaves, over the array. *)
Lemma array_field {A} (f : registered_interface -> A) base s s' : array_holds base s ->
  (forall j, f (os_list s' (element base j)) = f (os_list s (element base j))) -> map (fun a => f (os_list s' a)) (array_of base) = map f predefined_table.
Proof.
  intros Ha Hf. unfold array_of. rewrite map_map. erewrite map_ext by (intros j; apply Hf). apply list_eq. intros i.
  change (((fun j => f (os_list s (element base j))) <$> seqZ 0 (Z.of_nat (length predefined_table))) !! i = (f <$> predefined_table) !! i).
  rewrite !list_lookup_fmap. destruct (predefined_table !! i) as [r|] eqn:E; cbn [fmap option_fmap option_map].
  - rewrite lookup_seqZ_lt by (apply lookup_lt_Some in E; lia). cbn [fmap option_fmap option_map]. do 2 f_equal. exact (Ha i r E).
  - rewrite lookup_seqZ_ge by (apply lookup_ge_None in E; lia). reflexivity.
Qed.

Lemma array_linked base s : 0 < base ->
  (forall j, 0 <= j < Z.of_nat (length predefined_table) -> ri_next (os_list s (element base j)) = if j <? 28 then element base (j + 1) else 0) ->
  slinked (fun a => ri_next (os_list s a)) (array_of base) 0.
Proof.
  intros Hb Hn. assert (forall n i, 0 <= i -> i + Z.of_nat n = 29 -> slinked (fun a => ri_next (os_list s a)) (map (element base) (seqZ i (Z.of_nat n))) 0) as Hg; [|exact (Hg 29%nat 0 ltac:(lia) eq_refl)].
  induction n as [|n IH]; intros i Hi Hs; [exact I|]. rewrite seqZ_cons by lia. replace (Z.pred (Z.of_nat (S n))) with (Z.of_nat n) by lia.
  cbn [map slinked]. split; [|apply IH; lia]. change (Z.of_nat (length predefined_table)) with 29 in Hn. rewrite Hn by lia. destruct (Z.ltb_spec i 28).
  - rewrite seqZ_cons by lia. cbn [map first_v]. f_equal; lia.
  - replace n with 0%nat by lia. reflexivity.
Qed.

Lemma array_chain base : 0 < base -> pchain (array_of base).
Proof.
  intros Hb. split.
  - apply NoDup_fmap_2_strong; [intros x y _ _; apply element_inj|apply NoDup_seqZ].
  - unfold array_of. rewrite Forall_map. apply Forall_forall. intros j Hj%elem_of_seqZ. unfold element, INTERFACE_SIZE. lia.
Qed.

Lemma existsb_pairs {A} nm (f : A -> registered_interface) l :
  existsb (fun a => bool_decide (ri_name (f a) = nm) && negb (ri_disabled (f a))) l =
  existsb (fun p => bool_decide (p.1 = nm) && negb p.2) (map (fun a => (ri_name (f a), ri_disabled (f a))) l).
Proof. induction l as [|a l IH]; cbn [existsb map fst snd]; [reflexivity|now rewrite IH]. Qed.

Lemma table_names : NoDup (map ri_name predefined_table).
Proof. apply (bool_decide_unpack _). vm_compute. exact I. Qed.

(** The calls that follow initialisation find the array linked. *)
Lemma initialize_interfaces_ok `{KHL : !KernelHeapLaws H} base s live : 0 < base -> array_holds base s -> kh_ok (os_heap s) -> kh_live (os_heap s) live ->
  Safe (uacpi_initialize_interfaces base s) (fun '(ret, s') => ret = UACPI_STATUS_OK /\ (exists a n, osi_ok (array_of base) ((a, n) :: live) s' (array_of base)) /\
    (forall n, enabled s' (array_of base) n = known_name n) /\ interface_handler s' = interface_handler s).
Proof.
  intros Hb Ha Hok HL. unfold uacpi_initialize_interfaces.
  eapply (Safe_bind (uacpi_kernel_alloc _ _) _ (fun '(a, h) => kh_ok h /\ exists n, kh_live h ((a, n) :: live))).
  { pose proof (kh_malloc_spec SPINLOCK_SIZE (os_heap s) live ltac:(unfold SPINLOCK_SIZE; lia) Hok HL) as M. unfold uacpi_kernel_alloc. cbn [os_heap set_first].
    destruct (kh_malloc _ _) as [[a h]| | | |]; try contradiction; [|exact I]. destruct M as (n & _ & _ & _ & _ & K1 & L1 & _). split; [exact K1|]. now exists n. }
  intros [a h] (K1 & n & L1). cbv beta iota zeta. set (s1 := set_mutex false (set_os_heap h (set_first (element base 0) s))).
  eapply Safe_bind; [exact (linked_safe base (length predefined_table - 1) s1)|]. intros s' [Es El]. cbn [Safe].
  change (0 + Z.of_nat (length predefined_table - 1)) with 28 in El.
  assert (forall A (f : registered_interface -> A), (forall v r, f (set_ri_next v r) = f r) -> map (fun a => f (os_list s' a)) (array_of base) = map f predefined_table) as Hfield.
  { intros A f Hf. apply (array_field f base s1); [exact Ha|]. intros j. rewrite El. destruct (_ && _); [apply Hf|reflexivity]. }
  pose proof (Hfield _ ri_name ltac:(reflexivity)) as HN. splits; [reflexivity| | |rewrite Es; reflexivity].
  - exists a, n. split.
    + rewrite Es. reflexivity.
    + apply array_linked; [lia|]. intros j Hj. rewrite El. destruct (Z.leb_spec 0 j), (Z.ltb_spec j 28); try lia; cbn [andb]; [reflexivity|].
      assert (j = 28) as -> by (cbn in Hj; lia). change (ri_next (os_list s (element base (Z.of_nat 28))) = 0). rewrite (Ha 28%nat _ eq_refl). reflexivity.
    + apply array_chain. lia.
    + rewrite HN. exact table_names.
    + rewrite Es. reflexivity.
    + auto.
    + rewrite Es. cbn [os_heap set_list s1 set_mutex set_os_heap]. split; [exact K1|]. exists (replicate (length (array_of base)) []). split.
      * apply Forall2_same_length_lookup_2; [now rewrite length_replicate|]. intros i x y Hx [-> _]%lookup_replicate. unfold owns. cbn [os_list set_list].
        pose proof (Hfield _ ri_dynamic ltac:(reflexivity)) as HD. assert (Forall (fun b => b = false) (map ri_dynamic predefined_table)) as HF by (repeat constructor).
        rewrite <- HD in HF. rewrite Forall_map, Forall_forall in HF. rewrite (HF x); [reflexivity|]. exact (list_elem_of_lookup_2 _ _ _ Hx).
      * replace (concat _) with (@nil (Z * Z)) by (now induction (length (array_of base))). exact L1.
  - intros nm. unfold enabled. rewrite (existsb_pairs nm (os_list s')), (Hfield _ (fun r => (ri_name r, ri_disabled r)) ltac:(reflexivity)). symmetry. apply (existsb_pairs nm (fun r => r)).
Qed.

(** C38: the interfaces of [_OSI] refine a set of names.  From the array as it is compiled,
    [uacpi_initialize_interfaces] and then any sequence of installations, removals and queries
    return; the answers are those of a set of names that starts with the names of the array
    that are not disabled (the Windows versions and the extended address space descriptor),
    whether a name is in the array or was added on the heap; the list stays linked, every call
    ends with the mutex free, and the live areas of the heap are those that were live before,
    the mutex and two for each added element that is still in the list: what is removed is
    given back. *)
Theorem osi_refines_set `{KHL : !KernelHeapLaws H} base live calls fuel s :
  0 < base -> array_holds base s -> outside_heap (array_of base) -> kh_ok (os_heap s) -> kh_live (os_heap s) live -> interface_handler s = None ->
  Forall short_name calls -> (29 + length calls < fuel)%nat ->
  Safe ('(_, s) ← uacpi_initialize_interfaces base s; run_calls fuel calls s)
    (fun '(answers, s') => answers = set_calls calls known_name /\ exists l' a n, osi_ok (array_of base) ((a, n) :: live) s' l').
Proof.
  intros Hb Ha Hst Hok HL Hh Hc Hf. eapply Safe_bind; [exact (initialize_interfaces_ok base s live Hb Ha Hok HL)|]. intros [ret s1] (_ & (a & k & O1) & E1 & H1).
  rewrite (set_calls_ext calls known_name (enabled s1 (array_of base))) by (intros n; now rewrite E1).
  rewrite Hh in H1. eapply Safe_mono; [apply (run_calls_spec (array_of base) ((a, k) :: live)); eauto|].
  intros [answers s'] (-> & l' & O'). eauto.
Qed.

(** The query handler is not asked about a name that is not in the list. *)
Theorem handler_not_called statics rest fuel name s l f : osi_ok statics rest s l -> (length l < fuel)%nat -> interface_handler s = Some f ->
  name ∉ map (fun a => ri_name (os_list s a)) l -> Returns (uacpi_handle_osi fuel name s) (fun '(b, _) => b = false).
Proof.
  intros HO Hf Hh Hn. eapply Returns_mono; [exact (query_spec statics rest fuel name s l HO Hf)|]. intros [b s'] (_ & _ & _ & ->). rewrite Hh, bool_decide_false by exact Hn. reflexivity.
Qed.
End Osi.
Arguments osi_state : clear implicits.

(** ** A concrete run *)

#[local] Instance demo_heap : KernelHeap (kheap_state pmm_state) := kheap_heap HHDM.
#[local] Instance demo_heap_laws : KernelHeapLaws (kheap_state pmm_state) := kheap_heap_laws HHDM.

(** The heap is above the direct map. *)
Lemma demo_outside statics : (forall a, a ∈ statics -> a < HHDM) -> outside_heap statics.
Proof.
  intros Hs h a h' [l Hl] E Hin. specialize (Hs a Hin). cbn [kh_malloc demo_heap kheap_heap] in E.
  pose proof (kmalloc_cases HHDM 0 (heap_fuel h) INTERFACE_SIZE h l ltac:(unfold INTERFACE_SIZE; lia) Hl (heap_fuel_enough HHDM h l (proj1 Hl))) as M.
  rewrite E in M. destruct M as (l' & [(_ & _ & _ & _ & _ & HF & _) _] & b & -> & _ & _ & Hb & _). rewrite Forall_forall in HF. destruct (HF b Hb) as [Hb1 _]. unfold HDR in Hs. lia.
Qed.

Definition osi_demo : osi_state (kheap_state pmm_state) :=
  mk_osi (fun a => nth (Z.to_nat ((a - 4096) / INTERFACE_SIZE)) predefined_table (WINDOWS "" 0)) 0 None 0 false heap_demo.

Definition demo_calls : list osi_call := [Query (chars "Windows 2009"); Install (chars "Linux") 1; Query (chars "Linux"); Uninstall (chars "Windows 2009"); Uninstall (chars "Linux");
  Query (chars "Windows 2009"); Query (chars "Linux"); Query (chars "Module Device")].

Lemma osi_refines_set_witness :
  set_calls demo_calls known_name = [true; true; false; false; false] /\
  Safe ('(_, s) ← uacpi_initialize_interfaces 4096 osi_demo; run_calls 40 demo_calls s)
    (fun '(answers, s') => answers = set_calls demo_calls known_name /\ exists l' a n, osi_ok (array_of 4096) [(a, n)] s' l').
Proof.
  split; [vm_compute; reflexivity|]. apply (osi_refines_set 4096 [] demo_calls 40 osi_demo); [lia| | |apply heap_demo_live|apply heap_demo_live|reflexivity| |cbn; lia].
  - intros i r Hi. cbn [os_list osi_demo]. replace ((element 4096 (Z.of_nat i) - 4096) / INTERFACE_SIZE) with (Z.of_nat i) by (unfold element, INTERFACE_SIZE; dm).
    rewrite Nat2Z.id. exact (nth_lookup_Some _ _ _ _ Hi).
  - apply demo_outside. intros a (j & -> & Hj%elem_of_seqZ)%list_elem_of_fmap. cbn in Hj. unfold element, INTERFACE_SIZE, HHDM. lia.
  - repeat constructor.
Defined.
