(* ===== verification/IoApic.v ===== *)
(** * The I/O APICs ([kernel/arch/x86_64/interrupts/ioapic/ioapic.c])

    The table of controllers, their redirection registers, and the programming of the
    registers from the MADT.  A controller is its registers by number; the selector is
    always written before the window is used, and is left out.  Writes to the ports of the
    old controllers and the pages that are mapped are recorded in the order they happen. *)

From S2P Require Import Prelude MemUtil Bytes.
#[local] Open Scope Z_scope.

Definition IOAPICVER : Z := 0x01.
Definition IOREDTBL (n : Z) : Z := 0x10 + 2 * n.
Definition PIC1_COMMAND : Z := 0x20.
Definition PIC1_DATA : Z := 0x21.
Definition PIC2_COMMAND : Z := 0xA0.
Definition PIC2_DATA : Z := 0xA1.
Definition ICW1_ICW4 : Z := 1.
Definition ICW1_INIT : Z := 0x10.
Definition ICW4_8086 : Z := 1.
Definition MADT_SIZE : Z := 44.

(** [ioapic_redirection_entry_t]: the fields of its 64 bits. *)
Definition set_bits (pos width v bits : Z) : Z :=
  Z.lor (Z.land bits (Z.lnot (Z.shiftl (Z.ones width) pos))) (Z.shiftl (Z.land v (Z.ones width)) pos).
Definition set_vector : Z -> Z -> Z := set_bits 0 8.
Definition set_delvMode : Z -> Z -> Z := set_bits 8 3.
Definition set_destMode : Z -> Z -> Z := set_bits 11 1.
Definition set_pinPolarity : Z -> Z -> Z := set_bits 13 1.
Definition set_triggerMode : Z -> Z -> Z := set_bits 15 1.
Definition set_mask : Z -> Z -> Z := set_bits 16 1.
Definition set_destination : Z -> Z -> Z := set_bits 56 8.

Record ioapic_state : Type := mk_io {
  ioapicCount : Z;
  ioapicIDs : Z -> Z;
  ioapicAddresses : Z -> Z;
  ioapicGSIs : Z -> Z;
  ioapicLock : spinlock_t;
  fallback : bool;
  chips : Z -> Z -> Z;
  port_writes : list (Z * Z);
  pages_mapped : list Z
}.
Implicit Types (s : ioapic_state).

Definition set_chips (c : Z -> Z -> Z) s : ioapic_state :=
  mk_io (ioapicCount s) (ioapicIDs s) (ioapicAddresses s) (ioapicGSIs s) (ioapicLock s) (fallback s) c (port_writes s) (pages_mapped s).
Definition set_iolock (l : spinlock_t) s : ioapic_state :=
  mk_io (ioapicCount s) (ioapicIDs s) (ioapicAddresses s) (ioapicGSIs s) l (fallback s) (chips s) (port_writes s) (pages_mapped s).
Definition set_fallback (b : bool) s : ioapic_state :=
  mk_io (ioapicCount s) (ioapicIDs s) (ioapicAddresses s) (ioapicGSIs s) (ioapicLock s) b (chips s) (port_writes s) (pages_mapped s).
Definition outb (port v : Z) s : ioapic_state :=
  mk_io (ioapicCount s) (ioapicIDs s) (ioapicAddresses s) (ioapicGSIs s) (ioapicLock s) (fallback s) (chips s) (port_writes s ++ [(port, v)]) (pages_mapped s).

(** The register number is a byte here, and a word when reading. *)
Definition ioapic_write_reg (address reg data : Z) s : outcome ioapic_state :=
  if fallback s then Ret s
  else
    l ← acquireLock (ioapicLock s);
    let s := set_chips (upd (chips s) address (upd (chips s address) (u8 reg) (u32 data))) (set_iolock l s) in
    Ret (set_iolock (releaseLock (ioapicLock s)) s).

Definition ioapic_read_reg (address reg : Z) s : outcome (Z * ioapic_state) :=
  if fallback s then Ret (0, s)
  else
    l ← acquireLock (ioapicLock s);
    let s := set_iolock (releaseLock l) (set_iolock l s) in
    Ret (chips s address reg, s).

(** The controller of an interrupt; the arrays have 256 elements. *)
Fixpoint find_ioapic (n : nat) (ioapic entry : Z) s : outcome (Z * ioapic_state) :=
  match n with
  | O => Fault
  | S n' =>
      '(v, s) ← ioapic_read_reg (ioapicAddresses s ioapic) IOAPICVER s;
      if u32 (ioapicGSIs s ioapic + Z.shiftr v 16) <? entry then find_ioapic n' (ioapic + 1) entry s else Ret (ioapic, s)
  end.

Definition ioapic_redirect (bits entry : Z) s : outcome ioapic_state :=
  if fallback s then Ret s
  else
    '(ioapic, s) ← find_ioapic 256 0 entry s;
    s ← ioapic_write_reg (ioapicAddresses s ioapic) (u32 (IOREDTBL entry)) (Z.land bits 0xFFFFFFFF) s;
    ioapic_write_reg (ioapicAddresses s ioapic) (u32 (IOREDTBL entry + 1)) (Z.shiftr (Z.land bits 0xFFFFFFFF00000000) 32) s.

Definition ioapic_get_redirection (entry : Z) s : outcome (Z * ioapic_state) :=
  if fallback s then Ret (0, s)
  else
    '(ioapic, s) ← find_ioapic 256 0 entry s;
    '(lo, s) ← ioapic_read_reg (ioapicAddresses s ioapic) (u32 (IOREDTBL entry)) s;
    '(hi, s) ← ioapic_read_reg (ioapicAddresses s ioapic) (u32 (IOREDTBL entry + 1)) s;
    Ret (Z.lor lo (Z.shiftl hi 32), s).

(** ** The MADT *)

Definition ent_type (m : mem) (a : Z) : Z := m a.
Definition ent_length (m : mem) (a : Z) : Z := m (a + 1).
Definition io_id (m : mem) (a : Z) : Z := m (a + 2).
Definition io_address (m : mem) (a : Z) : Z := load32 (a + 4) m.
Definition io_gsi_base (m : mem) (a : Z) : Z := load32 (a + 8) m.
Definition ov_source (m : mem) (a : Z) : Z := m (a + 3).
Definition ov_gsi (m : mem) (a : Z) : Z := load32 (a + 4) m.
Definition ov_flags (m : mem) (a : Z) : Z := load16 (a + 8) m.
Definition nmi_flags (m : mem) (a : Z) : Z := load16 (a + 2) m.
Definition nmi_gsi (m : mem) (a : Z) : Z := load32 (a + 4) m.

(** The entries of one type, in the order of the table. *)
Fixpoint for_entries (n : nat) (i hdr size type : Z) (m : mem) (body : Z -> ioapic_state -> outcome ioapic_state) s : outcome ioapic_state :=
  match n with
  | O => OutOfFuel
  | S n' =>
      if negb (i <? size) then Ret s
      else
        s ← (if ent_type m hdr =? type then body hdr s else Ret s);
        for_entries n' (u64 (i + ent_length m hdr)) (u64 (hdr + ent_length m hdr)) size type m body s
  end.

(** The number of pins of the newest controller. *)
Definition pins s : outcome (Z * ioapic_state) :=
  '(v, s) ← ioapic_read_reg (ioapicAddresses s (ioapicCount s - 1)) IOAPICVER s;
  Ret (Z.land (Z.shiftr v 16) 0xFF + 1, s).

(** Every pin gets the vector of its number. *)
Fixpoint program_pins (n : nat) (j gsi_base red : Z) s : outcome ioapic_state :=
  match n with
  | O => OutOfFuel
  | S n' =>
      '(p, s) ← pins s;
      if negb (j <? p) then Ret s
      else
        let red := set_vector (32 + gsi_base + j) red in
        s ← ioapic_redirect red (u32 (gsi_base + j)) s;
        program_pins n' (j + 1) gsi_base red s
  end.

Definition polarity_trigger (flags red : Z) : Z :=
  let polarity := Z.land flags 3 in
  let red := if polarity =? 1 then set_pinPolarity 0 red else if polarity =? 3 then set_pinPolarity 1 red else red in
  let triggerMode := Z.land (Z.shiftr flags 2) 3 in
  if triggerMode =? 1 then set_triggerMode 0 red else if triggerMode =? 3 then set_triggerMode 1 red else red.

(** [red] is what the variable held before, with the fields set at the start. *)
Definition add_ioapic (hhdm : Z) (m : mem) (red hdr : Z) s : outcome ioapic_state :=
  let c := ioapicCount s in
  let s := mk_io (u8 (c + 1)) (upd (ioapicIDs s) c (io_id m hdr)) (upd (ioapicAddresses s) c (u64 (io_address m hdr + hhdm)))
             (upd (ioapicGSIs s) c (io_gsi_base m hdr)) (ioapicLock s) (fallback s) (chips s) (port_writes s)
             (pages_mapped s ++ [io_address m hdr]) in
  '(_, s) ← pins s;
  program_pins 258 0 (io_gsi_base m hdr) red s.

Definition add_override (m : mem) (hdr : Z) s : outcome ioapic_state :=
  ioapic_redirect (polarity_trigger (ov_flags m hdr) (set_vector (32 + ov_source m hdr) 0)) (ov_gsi m hdr) s.

Definition add_nmi (m : mem) (hdr : Z) s : outcome ioapic_state :=
  '(red, s) ← ioapic_get_redirection (nmi_gsi m hdr) s;
  ioapic_redirect (set_delvMode 4 (polarity_trigger (nmi_flags m hdr) red)) (nmi_gsi m hdr) s.

(** The old controllers are moved to the vectors from 32 on and switched off; [m1] and
    [m2] are their masks. *)
Definition remap_pic (m1 m2 : Z) s : ioapic_state :=
  fold_left (fun s '(p, v) => outb p v s)
    [(0x20, 0x20); (0xA0, 0x20); (PIC1_COMMAND, Z.lor ICW1_INIT ICW1_ICW4); (PIC2_COMMAND, Z.lor ICW1_INIT ICW1_ICW4);
     (PIC1_DATA, 0x20); (PIC2_DATA, 0x28); (PIC1_DATA, 4); (PIC2_DATA, 2); (PIC1_DATA, ICW4_8086); (PIC2_DATA, ICW4_8086);
     (PIC1_DATA, m1); (PIC2_DATA, m2); (PIC1_DATA, 0xFF); (PIC2_DATA, 0xFF)] s.

(** [length] and [flags] are fields of the MADT, [entries] the address of its entries;
    [red] is what the uninitialised variable holds. *)
Definition ioapic_init (fuel : nat) (hhdm m1 m2 length flags entries red : Z) (m : mem) s : outcome ioapic_state :=
  let s := remap_pic m1 m2 s in
  let red := set_destination 0 (set_mask 0 (set_triggerMode 0 (set_pinPolarity 0 (set_destMode 0 (set_delvMode 0 red))))) in
  let size := u64 (length - MADT_SIZE) in
  s ← for_entries fuel 0 entries size 1 m (add_ioapic hhdm m red) s;
  if ioapicCount s =? 0 then
    if Z.land flags 1 =? 0 then Panic "I/O APICs not found and PICs not installed."
    else Ret (set_fallback true (outb PIC2_DATA 0 (outb PIC1_DATA 0 s)))
  else
    s ← for_entries fuel 0 entries size 2 m (add_override m) s;
    for_entries fuel 0 entries size 3 m (add_nmi m) s.

(** ** Redirections *)

(** The first controller, with [n + 1] pins, serves the interrupts from 0 on. *)
Record first_chip s (n : Z) : Prop := {
  fc_lock : ioapicLock s = false;
  fc_use : fallback s = false;
  fc_base : ioapicGSIs s 0 = 0;
  fc_pins : 0 <= n < 120 /\ chips s (ioapicAddresses s 0) IOAPICVER = n * 65536 + 0x20
}.

Definition redirection s (entry : Z) : Z :=
  let r := chips s (ioapicAddresses s 0) in Z.lor (r (IOREDTBL entry)) (Z.shiftl (r (IOREDTBL entry + 1)) 32).

Lemma ioapic_write_reg_spec a reg data s : ioapicLock s = false -> fallback s = false -> 0 <= reg < 256 -> 0 <= data < 2 ^ 32 ->
  ioapic_write_reg a reg data s = Ret (set_chips (upd (chips s) a (upd (chips s a) reg data)) s).
Proof.
  intros El Ef Hr Hd. unfold ioapic_write_reg. rewrite Ef, El. cbn [acquireLock mbind outcome_bind].
  rewrite (wrap_small 8 reg), (wrap_small 32 data) by (pow2_consts; lia). destruct s; cbn in *; now subst.
Qed.

Lemma read_reg_spec a reg s : ioapicLock s = false -> fallback s = false -> ioapic_read_reg a reg s = Ret (chips s a reg, s).
Proof. intros El Ef. unfold ioapic_read_reg. rewrite Ef, El. destruct s; cbn in *; now subst. Qed.

Lemma find_first s n entry : first_chip s n -> 0 <= entry <= n -> find_ioapic 256 0 entry s = Ret (0, s).
Proof.
  intros [El Ef Eb [Hn Ev]] He. cbn [find_ioapic]. rewrite read_reg_spec by assumption. cbn [mbind outcome_bind]. rewrite Ev, Eb.
  assert (Z.shiftr (n * 65536 + 32) 16 = n) as -> by (rewrite Z.shiftr_div_pow2 by lia; change (2 ^ 16) with 65536; dm).
  rewrite wrap_small by (pow2_consts; lia). now rewrite (proj2 (Z.ltb_ge _ _)) by lia.
Qed.

Lemma redirect_spec s n bits entry : first_chip s n -> 0 <= entry <= n -> 0 <= bits < 2 ^ 64 ->
  Returns (ioapic_redirect bits entry s) (fun s' =>
    first_chip s' n /\ redirection s' entry = bits /\ (forall e, 0 <= e <= n -> e <> entry -> redirection s' e = redirection s e) /\
    ioapicAddresses s' = ioapicAddresses s /\ ioapicCount s' = ioapicCount s /\ (forall a, a <> ioapicAddresses s 0 -> chips s' a = chips s a)).
Proof.
  intros Hc He Hb. pose proof Hc as [El Ef Eb [Hn Ev]]. unfold ioapic_redirect. rewrite Ef, (find_first s n entry Hc He). cbn [mbind outcome_bind].
  unfold IOREDTBL. set (a := ioapicAddresses s 0) in *.
  rewrite !(wrap_small 32) by (pow2_consts; lia).
  assert (Z.land bits 0xFFFFFFFF = bits mod 2 ^ 32) as -> by (change 0xFFFFFFFF with (Z.ones 32); apply Z.land_ones; lia).
  assert (Z.shiftr (Z.land bits 0xFFFFFFFF00000000) 32 = bits / 2 ^ 32) as ->.
  { rewrite Z.shiftr_land. change (Z.shiftr 0xFFFFFFFF00000000 32) with (Z.ones 32). rewrite Z.shiftr_div_pow2, Z.land_ones by lia.
    apply Z.mod_small. split; [apply Z.div_pos; lia|]. apply Z.div_lt_upper_bound; lia. }
  rewrite ioapic_write_reg_spec; [|assumption|assumption|lia|apply Z.mod_pos_bound; lia]. cbn [mbind outcome_bind].
  rewrite ioapic_write_reg_spec; [|assumption|assumption|lia|split; [apply Z.div_pos; lia|apply Z.div_lt_upper_bound; lia]].
  apply Returns_ret. cbn [chips set_chips ioapicAddresses ioapicCount]. fold a.
  assert (forall r, upd (upd (chips s) a (upd (chips s a) (16 + 2 * entry) (bits mod 2 ^ 32))) a
      (upd (upd (chips s) a (upd (chips s a) (16 + 2 * entry) (bits mod 2 ^ 32)) a) (16 + 2 * entry + 1) (bits / 2 ^ 32)) a r =
    if r =? 16 + 2 * entry + 1 then bits / 2 ^ 32 else if r =? 16 + 2 * entry then bits mod 2 ^ 32 else chips s a r) as Er.
  { intros r. rewrite !upd_eq. unfold upd. destruct (Z.eqb_spec r (16 + 2 * entry + 1)), (Z.eqb_spec r (16 + 2 * entry)); auto. }
  splits; auto.
  - split; auto. split; [exact Hn|]. fold a. cbn [chips set_chips ioapicAddresses]. fold a. rewrite Er, <- Ev. unfold IOAPICVER.
    destruct (Z.eqb_spec 1 (16 + 2 * entry + 1)), (Z.eqb_spec 1 (16 + 2 * entry)); try lia; reflexivity.
  - unfold redirection, IOREDTBL. cbn [chips set_chips ioapicAddresses]. fold a. rewrite !Er, !Z.eqb_refl.
    destruct (Z.eqb_spec (16 + 2 * entry) (16 + 2 * entry + 1)); [lia|].
    rewrite Z.lor_comm, lor_disjoint by (try apply Z.mod_pos_bound; lia). pose proof (Z.div_mod bits (2 ^ 32)). lia.
  - intros e He2 Hne. unfold redirection, IOREDTBL. cbn [chips set_chips ioapicAddresses]. fold a. rewrite !Er.
    repeat match goal with |- context [?x =? ?y] => destruct (Z.eqb_spec x y); [lia|] end. reflexivity.
  - intros b Hne. now rewrite !upd_ne.
Qed.

Lemma set_vector_value v red : set_vector v red = red / 256 * 256 + v mod 256.
Proof.
  unfold set_vector, set_bits. rewrite Z.shiftl_0_r, Z.shiftl_0_r.
  rewrite <- Z.ldiff_land, Z.ldiff_ones_r, Z.land_ones by lia.
  rewrite lor_disjoint by (try apply Z.mod_pos_bound; lia). rewrite Z.shiftr_div_pow2 by lia. reflexivity.
Qed.

Lemma set_vector_again v w red : set_vector v (set_vector w red) = set_vector v red.
Proof. rewrite !set_vector_value. f_equal. dm. Qed.

Lemma set_vector_range v red : 0 <= red < 2 ^ 64 -> 0 <= set_vector v red < 2 ^ 64.
Proof. intros H. rewrite set_vector_value. pow2_consts. dm. Qed.

Lemma pins_spec s n : first_chip s n -> ioapicCount s = 1 -> pins s = Ret (n + 1, s).
Proof.
  intros [El Ef _ [Hn Ev]] H1. unfold pins. rewrite H1, read_reg_spec by assumption. cbn [mbind outcome_bind Z.sub Z.pos_sub].
  change (1 - 1) with 0. rewrite Ev, Z.shiftr_div_pow2 by lia. change 0xFF with (Z.ones 8). rewrite Z.land_ones by lia.
  change (2 ^ 16) with 65536. change (2 ^ 8) with 256. do 2 f_equal. dm.
Qed.

Lemma program_pins_spec n red0 : forall k red s j,
  first_chip s n -> ioapicCount s = 1 -> 0 <= red < 2 ^ 64 -> (forall v, set_vector v red = set_vector v red0) ->
  0 <= j <= n + 1 -> n + 1 - j < Z.of_nat k -> (forall i, 0 <= i < j -> redirection s i = set_vector (32 + i) red0) ->
  Returns (program_pins k j 0 red s) (fun s' => first_chip s' n /\ forall i, 0 <= i <= n -> redirection s' i = set_vector (32 + i) red0).
Proof.
  induction k as [|k IH]; intros red s j Hc H1 Hr Hv Hj Hk Hd; [lia|]. cbn [program_pins].
  rewrite (pins_spec s n Hc H1). cbn [mbind outcome_bind]. destruct (Z.ltb_spec j (n + 1)) as [Hlt|Hge]; cbn [negb].
  - pose proof (fc_pins s n Hc) as [Hn _]. rewrite Z.add_0_r, Z.add_0_l, (wrap_small 32 j) by (pow2_consts; lia).
    eapply Returns_bind; [apply (redirect_spec s n (set_vector (32 + j) red) j Hc ltac:(lia) (set_vector_range _ _ Hr))|].
    intros s1 (Hc1 & R1 & R2 & _ & R4 & _). apply IH; auto; try lia.
    + now apply set_vector_range.
    + intros v. now rewrite set_vector_again.
    + intros i Hi. destruct (Z.eq_dec i j) as [->|Hne]; [now rewrite R1, Hv|]. rewrite R2 by lia. apply Hd. lia.
  - apply Returns_ret. split; [exact Hc|]. intros i Hi. apply Hd. lia.
Qed.

(** Programming the pins of the first controller, which serves the interrupts from 0 on,
    gives pin [j] the vector [32 + j] and leaves the other fields as set; what is written
    for a pin is what is read back, and no other pin changes. *)
Theorem ioapic_pins_programmed s n red :
  first_chip s n -> ioapicCount s = 1 -> 0 <= red < 2 ^ 64 ->
  Returns (program_pins 258 0 0 red s) (fun s' => first_chip s' n /\
    forall j, 0 <= j <= n -> Returns (ioapic_get_redirection j s') (fun '(r, s'') => r = set_vector (32 + j) red /\ s'' = s')).
Proof.
  intros Hc H1 Hr. pose proof (fc_pins s n Hc) as [Hn _].
  eapply Returns_mono; [apply (program_pins_spec n red 258 red s 0 Hc H1 Hr); auto; lia|].
  intros s' (Hc' & Hp). split; [exact Hc'|]. intros j Hj. specialize (Hp j Hj). pose proof Hc' as [El Ef _ _].
  unfold ioapic_get_redirection. rewrite Ef, (find_first s' n j Hc' Hj). cbn [mbind outcome_bind]. unfold IOREDTBL.
  rewrite !(wrap_small 32) by (pow2_consts; lia). rewrite read_reg_spec by assumption. cbn [mbind outcome_bind].
  rewrite read_reg_spec by assumption. cbn [mbind outcome_bind]. apply Returns_ret. split; [exact Hp|reflexivity].
Qed.

(** A controller with 24 pins at address 4096, and a second one behind it. *)
Definition ioapic_demo : ioapic_state :=
  mk_io 1 (fun _ => 0) (fun i => 4096 * (i + 1)) (fun i => 24 * i) false false (fun _ r => if r =? IOAPICVER then 23 * 65536 + 0x20 else 0) [] [].

Lemma ioapic_pins_programmed_witness :
  Returns (program_pins 258 0 0 0x10000 ioapic_demo) (fun s' => Returns (ioapic_get_redirection 9 s') (fun '(r, _) => r = 0x10029)).
Proof.
  eapply Returns_mono; [apply (ioapic_pins_programmed ioapic_demo 23 0x10000)|].
  - split; try reflexivity. split; [lia|reflexivity].
  - reflexivity.
  - lia.
  - intros s' (_ & Hp). eapply Returns_mono; [apply (Hp 9); lia|]. intros [r s''] (-> & _). vm_compute. reflexivity.
Defined.

(** The registers of a later controller are addressed with the number of the interrupt, not
    with the number of the pin: its first pin gets the register of pin 24. *)
Theorem ioapic_second_wrong_register :
  Returns (ioapic_redirect 0x38 24 ioapic_demo) (fun s' => chips s' 8192 (IOREDTBL 0) = 0 /\ chips s' 8192 (IOREDTBL 24) = 0x38).
Proof. eexists. split; [vm_compute; reflexivity|]. vm_compute. auto. Qed.
