(* ===== verification/Apic.v ===== *)
(** * The local interrupt controller ([kernel/arch/x86_64/interrupts/apic])

    Finding the controller of a processor in the MADT, programming its inputs for
    non-maskable interrupts, switching it on, the end of an interrupt and its errors.  Its
    registers are a function of their offsets; pages that are mapped and port writes are
    recorded in order. *)

From S2P Require Import Prelude Interfaces MemMap Pmm MemUtil Kheap ListDs Sched Irq Bytes IoApic.
#[local] Open Scope Z_scope.

Definition APIC_ID : Z := 0x20.
Definition APIC_TPR : Z := 0x80.
Definition APIC_EOI : Z := 0xB0.
Definition APIC_SPURIOUS_INT_VECT : Z := 0xF0.
Definition APIC_ERROR_STATUS : Z := 0x280.
Definition APIC_LVT_LINT0 : Z := 0x350.
Definition APIC_LVT_LINT1 : Z := 0x360.
Definition APIC_LVT_ERROR : Z := 0x370.

Definition ACPI_MADT_ENTRY_TYPE_LAPIC : Z := 0.
Definition ACPI_MADT_ENTRY_TYPE_LAPIC_NMI : Z := 4.
Definition ACPI_MADT_ENTRY_TYPE_LAPIC_ADDRESS_OVERRIDE : Z := 5.

Definition apicErrorStrings : list string := [
  "Send Checksum Error"; "Receive Checksum Error"; "Send Accept Error"; "Receive Accept Error";
  "Redirectable IPI"; "Send Illegal Vector"; "Received Illegal Vector"; "Illegal Register Address"]%string.

Record lapic : Type := mk_lapic {
  LAPICAddress : Z;
  apicLock : spinlock_t;
  l_regs : Z -> Z;
  l_ports : list (Z * Z);
  l_pages : list (Z * Z)
}.
Implicit Types (a : lapic).

Definition apic_read_register (reg : Z) a : Z := l_regs a reg.

Definition apic_write_register (reg data : Z) a : outcome lapic :=
  l ← acquireLock (apicLock a);
  Ret (mk_lapic (LAPICAddress a) (releaseLock l) (upd (l_regs a) reg (u32 data)) (l_ports a) (l_pages a)).

(** The first error that is set stops the system. *)
Fixpoint first_error (n : nat) (i esr : Z) : outcome unit :=
  match n with
  | O => Ret tt
  | S n' =>
      if negb (Z.land esr (Z.shiftl 1 i) =? 0) then Panic (nth (Z.to_nat i) apicErrorStrings ""%string) else first_error n' (i + 1) esr
  end.

Definition apic_error_handler a : outcome lapic := _ ← first_error 8 0 (apic_read_register APIC_ERROR_STATUS a); Ret a.

Definition apic_outb (port v : Z) a : lapic := mk_lapic (LAPICAddress a) (apicLock a) (l_regs a) (l_ports a ++ [(port, v)]) (l_pages a).

Definition apic_eoi a : outcome lapic :=
  a ← apic_write_register APIC_EOI 0 a;
  Ret (apic_outb 0xA0 0x20 (apic_outb 0x20 0x20 a)).

(** ** The MADT *)

Definition lapic_uid (m : mem) (e : Z) : Z := load8 (e + 2) m.
Definition lapic_id (m : mem) (e : Z) : Z := load8 (e + 3) m.
Definition lapic_nmi_uid (m : mem) (e : Z) : Z := load8 (e + 2) m.
Definition lapic_nmi_flags (m : mem) (e : Z) : Z := load16 (e + 3) m.
Definition lapic_nmi_lint (m : mem) (e : Z) : Z := load8 (e + 5) m.
Definition override_address (m : mem) (e : Z) : Z := load64 (e + 4) m.

(** The entries of one type, in the order of the table. *)
Fixpoint madt_entries {S} (n : nat) (i hdr size type : Z) (m : mem) (body : Z -> S -> outcome S) (s : S) : outcome S :=
  match n with
  | O => OutOfFuel
  | Datatypes.S n' =>
      if negb (i <? size) then Ret s
      else
        s ← (if ent_type m hdr =? type then body hdr s else Ret s);
        madt_entries n' (u64 (i + ent_length m hdr)) (u64 (hdr + ent_length m hdr)) size type m body s
  end.

(** The input is set to the vector 2 in the delivery mode for NMIs. *)
Definition nmi_data (flags : Z) : Z :=
  let data := Z.lor 2 (Z.shiftl 4 8) in
  let polarity := Z.land flags 3 in
  let data := if polarity =? 1 then Z.land data (Z.lnot (Z.shiftl 1 13)) else if polarity =? 3 then Z.lor data (Z.shiftl 1 13) else data in
  let triggerMode := Z.land (Z.shiftr flags 2) 3 in
  if triggerMode =? 1 then Z.land data (Z.lnot (Z.shiftl 1 15)) else if triggerMode =? 3 then Z.lor data (Z.shiftl 1 15) else data.

(** An NMI entry, for the processor [uid]; 0xFF stands for all. *)
Definition set_nmi (m : mem) (uid e : Z) a : outcome lapic :=
  if (lapic_nmi_uid m e =? uid) || (lapic_nmi_uid m e =? 0xFF) then
    let data := nmi_data (lapic_nmi_flags m e) in
    if lapic_nmi_lint m e =? 0 then apic_write_register APIC_LVT_LINT0 data a
    else if lapic_nmi_lint m e =? 1 then apic_write_register APIC_LVT_LINT1 data a
    else Ret a
  else Ret a.

Section Init.
Variables (fuel : nat) (hhdm : Z) (m : mem).
(** Fields of the MADT: its length, the address of the controllers, and of its entries. *)
Variables (length address entries : Z).

Definition madt_size : Z := u64 (length - MADT_SIZE).

(** The address is looked for by the first processor. *)
Definition find_lapic a : outcome lapic :=
  if negb (LAPICAddress a =? 0) then Ret a
  else
    addr ← madt_entries fuel 0 entries madt_size ACPI_MADT_ENTRY_TYPE_LAPIC_ADDRESS_OVERRIDE m (fun e _ => Ret (override_address m e)) address;
    Ret (mk_lapic (u64 (addr + hhdm)) (apicLock a) (l_regs a) (l_ports a) (l_pages a ++ [(addr, u64 (addr + hhdm))])).

(** The record of a processor, which is this one when the numbers agree. *)
Definition set_nmis (lapicID rec : Z) a : outcome lapic :=
  if lapic_id m rec =? lapicID then
    madt_entries fuel 0 entries madt_size ACPI_MADT_ENTRY_TYPE_LAPIC_NMI m (set_nmi m (lapic_uid m rec)) a
  else Ret a.

Definition apic_set_up a : outcome lapic :=
  a ← find_lapic a;
  let lapicID := Z.shiftr (apic_read_register APIC_ID a) 24 in
  a ← madt_entries fuel 0 entries madt_size ACPI_MADT_ENTRY_TYPE_LAPIC m (set_nmis lapicID) a;
  apic_write_register APIC_SPURIOUS_INT_VECT (Z.lor 255 0x100) a.

Context {H : Type} `{KH : KernelHeap H}.

(** [handler] is the address of [apic_error_handler]. *)
Definition apic_init (handler : Z) (s : irq_state H lapic) : outcome (irq_state H lapic) :=
  a ← apic_set_up (i_world s);
  '(_, s) ← irq_add_handler 223 handler IRQ_SHARED (set_world a s);
  a ← apic_write_register APIC_LVT_ERROR 254 (i_world s);
  a ← apic_write_register APIC_TPR 0 a;
  Ret (set_world a s).
End Init.

(** ** Walking the table *)

(** From offset [i] on, the entries of a table of [size] bytes are at the addresses [l],
    anywhere in the 64-bit address space. *)
Inductive walk (m : mem) (size : Z) : Z -> Z -> list Z -> Prop :=
| walk_end i hdr : size <= i -> walk m size i hdr []
| walk_entry i hdr l : i < size -> 0 < ent_length m hdr < 256 -> 0 <= i < 2 ^ 63 -> 0 <= hdr < 2 ^ 64 - ent_length m hdr ->
    walk m size (i + ent_length m hdr) (hdr + ent_length m hdr) l -> walk m size i hdr (hdr :: l).

Fixpoint each {S} (l : list Z) (body : Z -> S -> outcome S) (s : S) : outcome S :=
  match l with
  | [] => Ret s
  | e :: r => s ← body e s; each r body s
  end.

(** The loop ends, and does the body for the entries of the type, in order. *)
Lemma madt_entries_spec {S} m size type (body : Z -> S -> outcome S) i hdr l : walk m size i hdr l ->
  forall fuel s, (Datatypes.length l < fuel)%nat ->
  madt_entries fuel i hdr size type m body s = each (filter (fun e => ent_type m e = type) l) body s.
Proof.
  induction 1 as [i hdr Hi|i hdr l Hi Hn Hb Hh Hw IH]; intros [|f] s Hf; cbn [Datatypes.length] in Hf; try lia; cbn [madt_entries].
  - now rewrite (proj2 (Z.ltb_ge i size)) by lia.
  - rewrite (proj2 (Z.ltb_lt i size)) by lia. cbn [negb]. rewrite !wrap_small by (pow2_consts; lia).
    destruct (Z.eqb_spec (ent_type m hdr) type) as [E|E].
    + rewrite filter_cons_True by exact E. cbn [each]. destruct (body hdr s); try reflexivity. cbn [mbind outcome_bind]. apply IH. lia.
    + rewrite filter_cons_False by exact E. cbn [mbind outcome_bind]. apply IH. lia.
Qed.

(** ** What the controller is set to *)

(** The value of an input after the NMI entries [l], for processor [uid]. *)
Fixpoint lint_value (m : mem) (uid lint : Z) (l : list Z) (v : Z) : Z :=
  match l with
  | [] => v
  | e :: r =>
      lint_value m uid lint r
        (if ((lapic_nmi_uid m e =? uid) || (lapic_nmi_uid m e =? 0xFF)) && (lapic_nmi_lint m e =? lint) then nmi_data (lapic_nmi_flags m e) else v)
  end.

(** Everything but the registers [rs] is as before. *)
Definition regs_only (rs : list Z) a a' : Prop :=
  LAPICAddress a' = LAPICAddress a /\ apicLock a' = apicLock a /\ l_ports a' = l_ports a /\ l_pages a' = l_pages a /\
  forall r, r ∉ rs -> l_regs a' r = l_regs a r.

Lemma nmi_data_small flags : 0 <= nmi_data flags < 2 ^ 32.
Proof.
  unfold nmi_data. repeat match goal with |- context [if ?b then _ else _] => destruct b end; vm_compute; split; (discriminate || reflexivity).
Qed.

Lemma apic_write_spec reg data a : apicLock a = false -> 0 <= data < 2 ^ 32 ->
  Returns (apic_write_register reg data a) (fun a' => l_regs a' reg = data /\ regs_only [reg] a a').
Proof.
  intros Hl Hd. unfold apic_write_register. rewrite Hl. cbn. apply Returns_ret. cbn. rewrite upd_eq, wrap_small by exact Hd.
  split; [reflexivity|]. unfold regs_only. cbn. splits; auto. intros r Hr. apply upd_ne. set_solver.
Qed.

Lemma set_nmis_spec m uid l : forall a, apicLock a = false ->
  Returns (each l (set_nmi m uid) a) (fun a' => regs_only [APIC_LVT_LINT0; APIC_LVT_LINT1] a a' /\
    l_regs a' APIC_LVT_LINT0 = lint_value m uid 0 l (l_regs a APIC_LVT_LINT0) /\
    l_regs a' APIC_LVT_LINT1 = lint_value m uid 1 l (l_regs a APIC_LVT_LINT1)).
Proof.
  induction l as [|e l IH]; intros a Hl; cbn [each lint_value].
  - apply Returns_ret. unfold regs_only. auto 10.
  - assert (Returns (set_nmi m uid e a) (fun a1 => regs_only [APIC_LVT_LINT0; APIC_LVT_LINT1] a a1 /\
      (forall k r, (k = 0 /\ r = APIC_LVT_LINT0) \/ (k = 1 /\ r = APIC_LVT_LINT1) ->
        l_regs a1 r = if ((lapic_nmi_uid m e =? uid) || (lapic_nmi_uid m e =? 0xFF)) && (lapic_nmi_lint m e =? k)
                      then nmi_data (lapic_nmi_flags m e) else l_regs a r))) as HS.
    { unfold set_nmi. destruct ((lapic_nmi_uid m e =? uid) || (lapic_nmi_uid m e =? 255)); cbn [andb].
      2: { apply Returns_ret. split; [unfold regs_only; auto 10|auto]. }
      pose proof (nmi_data_small (lapic_nmi_flags m e)) as Hd.
      destruct (Z.eqb_spec (lapic_nmi_lint m e) 0) as [E0|E0]; [|destruct (Z.eqb_spec (lapic_nmi_lint m e) 1) as [E1|E1]].
      - eapply Returns_mono; [now apply apic_write_spec|]. intros a1 (R & P1 & P2 & P3 & P4 & P5). split; [unfold regs_only; splits; auto; intros r Hr; apply P5; set_solver|].
        intros k r [[-> ->]|[-> ->]]; rewrite ?E0; cbn; [exact R|apply P5; vm_compute; set_solver].
      - eapply Returns_mono; [now apply apic_write_spec|]. intros a1 (R & P1 & P2 & P3 & P4 & P5). split; [unfold regs_only; splits; auto; intros r Hr; apply P5; set_solver|].
        intros k r [[-> ->]|[-> ->]]; rewrite ?E1; cbn; [apply P5; vm_compute; set_solver|exact R].
      - apply Returns_ret. split; [unfold regs_only; auto 10|]. intros k r [[-> ->]|[-> ->]]; [now rewrite (proj2 (Z.eqb_neq _ _) E0)|now rewrite (proj2 (Z.eqb_neq _ _) E1)]. }
    eapply Returns_bind; [exact HS|]. intros a1 [(P1 & P2 & P3 & P4 & P5) HR].
    eapply Returns_mono; [apply IH; congruence|]. intros a2 ((Q1 & Q2 & Q3 & Q4 & Q5) & E0 & E1).
    rewrite E0, E1, (HR 0 APIC_LVT_LINT0), (HR 1 APIC_LVT_LINT1) by auto. split; [|auto].
    unfold regs_only. splits; try congruence. intros r Hr. now rewrite Q5, P5 by exact Hr.
Qed.

Lemma each_filter {S} (P : Z -> bool) (f : Z -> S -> outcome S) l : forall s,
  each l (fun e s => if P e then f e s else Ret s) s = each (filter (fun e => P e = true) l) f s.
Proof.
  induction l as [|e l IH]; intros s; cbn [each]; [reflexivity|]. destruct (P e) eqn:E.
  - rewrite filter_cons_True by exact E. cbn [each]. destruct (f e s); try reflexivity. cbn [mbind outcome_bind]. apply IH.
  - rewrite filter_cons_False by now rewrite E. cbn [mbind outcome_bind]. apply IH.
Qed.

Lemma each_last (f : Z -> Z) l : forall v, each l (fun e _ => Ret (f e)) v = Ret (List.last (map f l) v).
Proof.
  induction l as [|e l IH]; intros v; cbn [each mbind outcome_bind map List.last]; [reflexivity|]. rewrite IH. destruct l; [reflexivity|].
  cbn [map]. f_equal. clear. generalize (f z). induction l as [|x l IH]; intros y; cbn; [reflexivity|apply IH].
Qed.

Section Spec.
Variables (fuel : nat) (hhdm : Z) (m : mem) (length address entries : Z) (l : list Z).
Hypothesis Hw : walk m (madt_size length) 0 entries l.
Hypothesis Hf : (Datatypes.length l < fuel)%nat.

Definition of_type (type : Z) : list Z := filter (fun e => ent_type m e = type) l.

(** Where the controllers are: the last override, or the address in the header. *)
Definition lapic_at : Z := List.last (map (override_address m) (of_type ACPI_MADT_ENTRY_TYPE_LAPIC_ADDRESS_OVERRIDE)) address.

Lemma find_lapic_spec a : Returns (find_lapic fuel hhdm m length address entries a) (fun a' =>
  l_regs a' = l_regs a /\ apicLock a' = apicLock a /\ l_ports a' = l_ports a /\
  LAPICAddress a' = if LAPICAddress a =? 0 then u64 (lapic_at + hhdm) else LAPICAddress a).
Proof.
  unfold find_lapic. destruct (LAPICAddress a =? 0) eqn:E; cbn [negb]; [|apply Returns_ret; auto].
  rewrite (madt_entries_spec m _ _ _ _ _ l Hw) by exact Hf. rewrite each_last. cbn [mbind outcome_bind]. apply Returns_ret. auto.
Qed.

(** The record of this processor. *)
Definition my_record (id : Z) : list Z := filter (fun e => (lapic_id m e =? id) = true) (of_type ACPI_MADT_ENTRY_TYPE_LAPIC).

Lemma apic_set_up_spec a rec : apicLock a = false -> my_record (Z.shiftr (l_regs a APIC_ID) 24) = [rec] ->
  Returns (apic_set_up fuel hhdm m length address entries a) (fun a' => apicLock a' = false /\
    LAPICAddress a' = (if LAPICAddress a =? 0 then u64 (lapic_at + hhdm) else LAPICAddress a) /\
    l_regs a' APIC_LVT_LINT0 = lint_value m (lapic_uid m rec) 0 (of_type ACPI_MADT_ENTRY_TYPE_LAPIC_NMI) (l_regs a APIC_LVT_LINT0) /\
    l_regs a' APIC_LVT_LINT1 = lint_value m (lapic_uid m rec) 1 (of_type ACPI_MADT_ENTRY_TYPE_LAPIC_NMI) (l_regs a APIC_LVT_LINT1) /\
    l_regs a' APIC_SPURIOUS_INT_VECT = 0x1FF /\ l_ports a' = l_ports a /\
    forall r, r ∉ [APIC_LVT_LINT0; APIC_LVT_LINT1; APIC_SPURIOUS_INT_VECT] -> l_regs a' r = l_regs a r).
Proof.
  intros Hl Hr. unfold apic_set_up. eapply Returns_bind; [apply find_lapic_spec|]. intros a1 (E1 & L1 & O1 & A1). unfold apic_read_register.
  rewrite (madt_entries_spec m _ _ _ _ _ l Hw) by exact Hf. rewrite E1. unfold set_nmis.
  rewrite (each_filter (fun e => lapic_id m e =? Z.shiftr (l_regs a APIC_ID) 24)). fold (of_type ACPI_MADT_ENTRY_TYPE_LAPIC).
  fold (my_record (Z.shiftr (l_regs a APIC_ID) 24)). rewrite Hr. cbn [each].
  rewrite (madt_entries_spec m _ _ _ _ _ l Hw) by exact Hf.
  destruct (set_nmis_spec m (lapic_uid m rec) (of_type ACPI_MADT_ENTRY_TYPE_LAPIC_NMI) a1) as (a2 & E2 & (P1 & P2 & P3 & P4 & P5) & R0 & R1); [congruence|].
  unfold of_type in E2. rewrite E2. cbn [mbind outcome_bind].
  eapply Returns_mono; [apply apic_write_spec; [congruence|vm_compute; split; [discriminate|reflexivity]]|].
  intros a3 (R & Q1 & Q2 & Q3 & Q4 & Q5). rewrite !Q5 by (vm_compute; set_solver). rewrite R0, R1, E1, Q1, P1. splits; auto; try congruence.
  intros r Hne. rewrite Q5, P5, E1 by set_solver. reflexivity.
Qed.
End Spec.

(** C32: Setting up the local controller of a processor: the walk over the MADT ends, the
    controller is at the address of the last override or else of the header, its two inputs
    are set as the NMI entries for this processor and for all say, the last one for an input
    counting, it is switched on with the spurious vector 255, its errors come on vector 254,
    nothing is masked, no other register and no port is written, and the handler of errors is
    registered. *)
Theorem apic_init_correct {H : Type} `{KH : KernelHeap H} `{KHL : !KernelHeapLaws H} fuel hhdm m length address entries l rec handler
    (s : irq_state H lapic) cells R :
  walk m (madt_size length) 0 entries l -> (Datatypes.length l < fuel)%nat ->
  apicLock (i_world s) = false -> my_record m l (Z.shiftr (l_regs (i_world s) APIC_ID) 24) = [rec] ->
  handlers_of s 223 cells R -> Z.of_nat (Datatypes.length cells) < 2 ^ 64 - 1 -> refused s 223 IRQ_SHARED cells = false ->
  Safe (apic_init fuel hhdm m length address entries handler s) (fun s' =>
    let a := i_world s in let a' := i_world s' in
    apicLock a' = false /\ LAPICAddress a' = (if LAPICAddress a =? 0 then u64 (lapic_at m address l + hhdm) else LAPICAddress a) /\
    l_regs a' APIC_LVT_LINT0 = lint_value m (lapic_uid m rec) 0 (of_type m l ACPI_MADT_ENTRY_TYPE_LAPIC_NMI) (l_regs a APIC_LVT_LINT0) /\
    l_regs a' APIC_LVT_LINT1 = lint_value m (lapic_uid m rec) 1 (of_type m l ACPI_MADT_ENTRY_TYPE_LAPIC_NMI) (l_regs a APIC_LVT_LINT1) /\
    l_regs a' APIC_SPURIOUS_INT_VECT = 0x1FF /\ l_regs a' APIC_LVT_ERROR = 254 /\ l_regs a' APIC_TPR = 0 /\
    (forall r, r ∉ [APIC_LVT_LINT0; APIC_LVT_LINT1; APIC_SPURIOUS_INT_VECT; APIC_LVT_ERROR; APIC_TPR] -> l_regs a' r = l_regs a r) /\ l_ports a' = l_ports a /\
    exists c R', irq_handlers s' (c_value c) = handler /\ registered s' 223 (cells ++ [c]) R').
Proof.
  intros Hw Hf Hl Hr Hh Hn Hrf. unfold apic_init.
  destruct (apic_set_up_spec fuel hhdm m length address entries l Hw Hf (i_world s) rec Hl Hr) as (a1 & -> & L1 & A1 & I0 & I1 & S1 & O1 & F1). cbn [mbind outcome_bind].
  eapply Safe_bind; [apply (irq_add_handler_spec 223 handler IRQ_SHARED (set_world a1 s) cells R Hh Hn)|].
  intros [r s1] [(W1 & _) HR]. change (refused (set_world a1 s) 223 IRQ_SHARED cells) with (refused s 223 IRQ_SHARED cells) in HR. rewrite Hrf in HR.
  destruct HR as (_ & _ & c & R' & Ec & Hreg). cbn [i_world set_world] in W1. rewrite W1.
  destruct (apic_write_spec APIC_LVT_ERROR 254 a1 L1 ltac:(pow2_consts; lia)) as (a2 & -> & R2 & P1 & P2 & P3 & P4 & P5). cbn [mbind outcome_bind].
  destruct (apic_write_spec APIC_TPR 0 a2 ltac:(congruence) ltac:(pow2_consts; lia)) as (a3 & -> & R3 & Q1 & Q2 & Q3 & Q4 & Q5). cbn [mbind outcome_bind Safe].
  cbn [i_world set_world]. rewrite !Q5 by (vm_compute; set_solver). rewrite !P5 by (vm_compute; set_solver).
  splits; auto; try congruence; [|now exists c, R'].
  intros r0 Hne. rewrite Q5, P5, F1 by set_solver. reflexivity.
Qed.

(** One processor, whose second input is the NMI. *)
#[local] Instance demo_heap : KernelHeap (kheap_state pmm_state) := kheap_heap HHDM.
#[local] Instance demo_heap_laws : KernelHeapLaws (kheap_state pmm_state) := kheap_heap_laws HHDM.

(** The table is in the direct map. *)
Definition madt_at : Z := 0xFFFF800000001000.
Definition madt_demo : mem := bytes_at madt_at [0; 8; 7; 3; 1; 0; 0; 0; 4; 6; 0xFF; 0xF; 0; 1].

Definition apic_demo : irq_state (kheap_state pmm_state) lapic :=
  mk_irq (fun _ => None) (fun _ => 0) (fun _ => 0) (heap list_demo) (mk_lapic 0 false (upd (fun _ => 0x10000) APIC_ID (Z.shiftl 3 24)) [] []) 0.

Lemma apic_init_correct_witness :
  Safe (apic_init 3 0x1000000 madt_demo 58 0xFEE00000 madt_at 77 apic_demo) (fun s' =>
    LAPICAddress (i_world s') = 0xFFE00000 /\ l_regs (i_world s') APIC_LVT_LINT0 = 0x10000 /\ l_regs (i_world s') APIC_LVT_LINT1 = 0xA402).
Proof.
  eapply Safe_mono; [apply (apic_init_correct 3 0x1000000 madt_demo 58 0xFEE00000 madt_at [madt_at; madt_at + 8] madt_at 77 apic_demo [] [])|].
  - change (madt_size 58) with 14. apply walk_entry; [lia|vm_compute; split; reflexivity|pow2_consts; lia|vm_compute; split; [discriminate|reflexivity]|].
    change (0 + ent_length madt_demo madt_at) with 8. change (madt_at + ent_length madt_demo madt_at) with (madt_at + 8).
    apply walk_entry; [lia|vm_compute; split; reflexivity|pow2_consts; lia|vm_compute; split; [discriminate|reflexivity]|]. apply walk_end. vm_compute. discriminate.
  - cbn. lia.
  - reflexivity.
  - reflexivity.
  - split; [|constructor]. split; [reflexivity|].
    destruct list_demo_rep as (_ & cells & (_ & _ & _ & _ & _ & _ & Hok & Hl) & E). destruct cells; [|discriminate]. auto.
  - cbn. lia.
  - reflexivity.
  - intros s' (_ & E1 & E2 & E3 & _). rewrite E1, E2, E3. splits; reflexivity.
Defined.
