(* ===== verification/Syscall.v ===== *)
(** * Entry into the kernel: system calls and exceptions ([kernel/sys/syscall.c],
    [kernel/arch/x86_64/interrupts/syscall.c], [kernel/sys/uname.c],
    [kernel/arch/x86_64/interrupts/exceptions.c])

    The table of system calls and its dispatch, composed from the calls of the other
    components.  A call works on the memory the calling process sees: its own below
    [VMM_USER_END], the kernel's above. *)

From S2P Require Import Prelude Links Interfaces MemMap Pmm MemUtil Kheap Paging Vmm ListDs Path Vnode Initrd Bytes Module Elf ExecStack Sched Process Bcache.
#[local] Open Scope Z_scope.

Definition SYSCALL_MAX : Z := 255.

(** The functions the tables point to. *)
Inductive sysfun : Type :=
| SysRead | SysWrite | SysOpen | SysClose | SysWaitpid | SysMmap | SysMunmap | SysFork | SysExecve
| SysExit | SysUname | SysGetdents | SysGetcwd | SysChdir | SysSync | SysSetTsp.

#[global] Instance sysfun_eq_dec : EqDecision sysfun.
Proof. solve_decision. Defined.

(** A table of function pointers; [None] is NULL. *)
Abbreviation table := (Z -> option sysfun).
Record tables : Type := mk_tables { syscallTable : table; gsysSyscallTable : table }.

Definition register (num : Z) (addr : sysfun) (t : table) : outcome table :=
  if (num <? 0) || (num >=? SYSCALL_MAX) then Fault else Ret (upd t num (Some addr)).

Definition syscall_register (num : Z) (addr : sysfun) (t : tables) : outcome tables :=
  s ← register num addr (syscallTable t); Ret (mk_tables s (gsysSyscallTable t)).
Definition gsys_syscall_register (num : Z) (addr : sysfun) (t : tables) : outcome tables :=
  g ← register num addr (gsysSyscallTable t); Ret (mk_tables (syscallTable t) g).

Definition syscall_init (t : tables) : outcome tables :=
  t ← syscall_register 0 SysRead t;
  t ← syscall_register 1 SysWrite t;
  t ← syscall_register 2 SysOpen t;
  t ← syscall_register 3 SysClose t;
  t ← syscall_register 7 SysWaitpid t;
  t ← syscall_register 9 SysMmap t;
  t ← syscall_register 11 SysMunmap t;
  t ← syscall_register 57 SysFork t;
  t ← syscall_register 59 SysExecve t;
  t ← syscall_register 60 SysExit t;
  t ← syscall_register 63 SysUname t;
  t ← syscall_register 78 SysGetdents t;
  t ← syscall_register 79 SysGetcwd t;
  t ← syscall_register 80 SysChdir t;
  t ← syscall_register 162 SysSync t;
  gsys_syscall_register (0x80000000 - 0x80000000) SysSetTsp t.

(** ** Registers *)

Definition arch_syscall_number (regs : stack_frame_t) : Z := i32 (rax regs).
Definition arch_syscall_return (regs : stack_frame_t) (value : Z) : stack_frame_t := w_rax (u64 value) regs.
Definition arch_syscall_arg0 (regs : stack_frame_t) : Z := i64 (rdi regs).
Definition arch_syscall_arg1 (regs : stack_frame_t) : Z := i64 (rsi regs).
Definition arch_syscall_arg2 (regs : stack_frame_t) : Z := i64 (rdx regs).
Definition arch_syscall_arg3 (regs : stack_frame_t) : Z := i64 (r10 regs).
Definition arch_syscall_arg4 (regs : stack_frame_t) : Z := i64 (r8 regs).
Definition arch_syscall_arg5 (regs : stack_frame_t) : Z := i64 (r9 regs).

(** ** uname *)

Definition UNAME_SYS_NAME : list Z := chars "Garn".
Definition UNAME_DEFAULT_NODE_NAME : list Z := chars "Host".
Definition UNAME_MACHINE_X86_64 : list Z := chars "x86_64".
Definition KERNEL_VER : list Z := chars "v0.02-alpha-snapshot".

(** Offset of a field of [utsname_t], each of 65 characters. *)
Definition uts_field (i : Z) : Z := 65 * i.

Section Uname.
Context {X H : Type} `{KH : KernelHeap H}.
Variable fuel : nat.
Variable ops : Z -> vnode_operations_t (fal X H).
Implicit Types (s : fal X H).

Definition put_field (buf i : Z) (str : list Z) s : fal X H :=
  set_mem (write_bytes (str ++ [0]) (buf + uts_field i) (f_mem s)) s.

(** The version is the content of a file; its last character is overwritten with the
    terminator, also when nothing could be read. *)
Definition uname_version (buf : Z) s : outcome (fal X H) :=
  '(file, s) ← vnode_open ops fuel (Some (chars "0:/release")) O_RDONLY 0 s;
  if file =? 0 then Ret (put_field buf 3 (chars "unknown") s)
  else
    '(n, s) ← vnode_read ops file 64 (buf + uts_field 3) 0 s;
    let status := i32 n in
    let s := if status <? 0 then put_field buf 3 (chars "unknown") s else s in
    let s := set_mem (upd (f_mem s) (buf + uts_field 3 + (status - 1)) 0) s in
    '(_, s) ← vnode_close ops file s;
    Ret s.

Definition sys_uname (buf : Z) s : outcome (Z * fal X H) :=
  if buf =? 0 then Ret (- EINVAL, s)
  else
    let s := put_field buf 0 UNAME_SYS_NAME s in
    let s := put_field buf 1 UNAME_DEFAULT_NODE_NAME s in
    let s := put_field buf 2 KERNEL_VER s in
    s ← uname_version buf s;
    let s := put_field buf 4 UNAME_MACHINE_X86_64 s in
    Ret (0, put_field buf 5 UNAME_DEFAULT_NODE_NAME s).
End Uname.

(** ** Dispatch *)

Definition w_files (p : files_t) (pr : process_t) : process_t :=
  mk_process (p_name pr) (p_pid pr) (p_exitStatus pr) (p_status pr) (p_pt pr) (fdTable p) (fdMax p) (cwd p)
    (p_mainThread pr) (p_parent pr) (p_next pr).
Definition files_of (pr : process_t) : files_t := mk_files (p_fdTable pr) (p_fdMax pr) (p_cwd pr).

Section Syscall.
Context {X H P D : Type} `{KH : KernelHeap H} `{PA : PageAllocator P} `{HS : HasStorage X D}.
(** The bounds of the loops, what the boot loader reports, the file systems, and what
    other threads do while [waitpid] polls. *)
Variable (fuel vfuel : nat) (hhdm virt_base : Z).
Variable ops : Z -> vnode_operations_t (fal X H).
Variable others : kernel X H P -> kernel X H P.
Implicit Types (k : kernel X H P).

(** Memory [m] seen by a process, split again. *)
Definition put_seen (pt : Z) (m : mem) k : kernel X H P :=
  let k := put_user pt (fun a => if a <? VMM_USER_END then m a else user (kn_exec k) pt a) k in
  put_kmem (fun a => if a <? VMM_USER_END then kmem k a else m a) k.

(** A call of the file layer by the current process. *)
Definition call_files (op : files_t -> fal X H -> outcome (Z * files_t * fal X H)) k : outcome (Z * kernel X H P) :=
  let cur := currentProcess (kn_sched k) in
  let pt := p_pt (proc k cur) in
  let m0 := kmem k in
  '(r, p, f) ← op (files_of (proc k cur)) (set_mem (seen pt k) (kfal k));
  let k := put_seen pt (f_mem f) (put_kfal (set_mem m0 f) k) in
  Ret (r, upd_proc cur (w_files p) k).

(** Calls that leave the tables of the process alone. *)
Definition call_file (op : files_t -> fal X H -> outcome (Z * fal X H)) k : outcome (Z * kernel X H P) :=
  call_files (fun p s => '(r, s) ← op p s; Ret (r, p, s)) k.

Definition call_vm (op : Z -> vmm_state P -> outcome (Z * vmm_state P)) k : outcome (Z * kernel X H P) :=
  '(r, vm) ← op (p_pt (proc k (currentProcess (kn_sched k)))) (kvm k); Ret (r, put_kvm vm k).

Definition call_storage (op : storage D -> outcome (Z * storage D)) k : outcome (Z * kernel X H P) :=
  let f := kfal k in
  '(r, st) ← op (storage_of (f_x f));
  Ret (r, put_kfal (mk_fal (f_vnodes f) (f_vfss f) (vnodeListHead f) (vnodeListTail f) (rootVFS f) (lastVFS f)
                      (f_nextfid f) (kerrno f) (f_mem f) (f_heap f) (f_tables f) (put_storage st (f_x f))) k).

(** A call that returns a number to the handler, or one that does not come back. *)
Definition back (r : outcome (Z * kernel X H P)) : outcome (option Z * kernel X H P) :=
  '(v, k) ← r; Ret (Some v, k).

Definition syscall (f : sysfun) (arg0 arg1 arg2 arg3 arg4 arg5 : Z) k : outcome (option Z * kernel X H P) :=
  match f with
  | SysRead => back (call_file (fun p => sys_read ops p (i32 arg0) (u64 arg1) (u64 arg2)) k)
  | SysWrite => back (call_file (fun p => sys_write ops p (i32 arg0) (u64 arg1) (u64 arg2)) k)
  | SysOpen => back (call_files (fun p => sys_open ops fuel fuel p (u64 arg0) (i32 arg1) (i32 arg2)) k)
  | SysClose => back (call_file (fun p => sys_close p (i32 arg0)) k)
  | SysWaitpid => back (sys_waitpid fuel fuel others (i32 arg0) (u64 arg1) k)
  | SysMmap => back (call_vm (fun pt => sys_mmap vfuel pt (u64 arg0) (u64 arg1) (i32 arg2) (i32 arg3)) k)
  | SysMunmap => back (call_vm (fun pt => sys_munmap pt (u64 arg0) (u64 arg1)) k)
  | SysFork => back (sys_fork fuel k)
  | SysExecve =>
      '(r, k) ← sys_execve fuel vfuel hhdm virt_base ops (u64 arg0) (u64 arg1) (u64 arg2) k;
      Ret (match r with Failed e => Some e | Entered _ _ => None end, k)
  | SysExit => k ← sys_exit fuel (i32 arg0) k; Ret (None, k)
  | SysUname => back (call_file (fun _ => sys_uname fuel ops (u64 arg0)) k)
  | SysGetdents => back (call_file (fun p => sys_getdents ops p (i32 arg0) (u64 arg1) (u32 arg2)) k)
  | SysGetcwd => back (call_file (fun p => sys_getcwd fuel p (u64 arg0) (u64 arg1)) k)
  | SysChdir => back (call_files (fun p => sys_chdir ops fuel p (u64 arg0)) k)
  | SysSync => back (call_storage (sys_sync fuel) k)
  | SysSetTsp => let '(r, s) := sys_set_tsp (u64 arg0) (kn_sched k) in Ret (Some r, put_sched s k)
  end.

(** The function a call number selects. *)
Definition lookup_syscall (t : tables) (n : Z) : outcome (option sysfun) :=
  if u32 n <? 0x80000000 then if n >=? SYSCALL_MAX then Fault else Ret (syscallTable t n)
  else
    let i := u32 (u32 n - 0x80000000) in
    if i >=? SYSCALL_MAX then Fault else Ret (gsysSyscallTable t i).

(** The frame to go on with, or [None] when the call does not come back.  The functions
    are called as functions returning [int].  [result0] is what the variable [result]
    holds when it has not been assigned. *)
Definition syscall_handler (t : tables) (result0 : Z) (regs : stack_frame_t) k
    : outcome (option stack_frame_t * kernel X H P) :=
  let callerThread := sched_get_current_thread (kn_sched k) in
  let k := upd_kthread callerThread (w_regs regs) k in
  f ← lookup_syscall t (arch_syscall_number regs);
  match f with
  | None => Ret (Some (arch_syscall_return (arch_syscall_return regs (- ENOSYS)) result0), k)
  | Some f =>
      '(r, k) ← syscall f (arch_syscall_arg0 regs) (arch_syscall_arg1 regs) (arch_syscall_arg2 regs)
                  (arch_syscall_arg3 regs) (arch_syscall_arg4 regs) (arch_syscall_arg5 regs) k;
      Ret (option_map (fun v => arch_syscall_return regs (i32 v)) r, k)
  end.

(** ** Exceptions *)

Definition exceptionMessages : list string := [
  "Divide Error"; "Debug"; "NMI Triggered"; "Breakpoint Reached"; "Overflow"; "Bound Range Exceeded";
  "Invalid Opcode"; "Device Not Available"; "Double Fault"; "Coprocessor Segment Overrun"; "Invalid TSS";
  "Segment Not Present"; "Stack Segment Fault"; "General Protection Fault"; "Page Fault"; "(Reserved)";
  "x87 Floating-Point Fault"; "Alignment Check"; "Machine Check"; "SIMD Floating-Point Fault";
  "Virtualisation Fault"; "Control Protection Fault"; "(Reserved)"; "(Reserved)"; "(Reserved)"; "(Reserved)";
  "(Reserved)"; "(Reserved)"; "Hypervisor Injection"; "VMM Communication"; "Security Fault"; "(Reserved)" ]%string.

(** An exception in user mode ends the process; one in the kernel is a panic. *)
Definition exception_handler (regs : stack_frame_t) k : outcome (kernel X H P) :=
  match nth_error exceptionMessages (Z.to_nat (intn regs)) with
  | None => Fault
  | Some msg =>
      if negb (Z.land (ds regs) 3 =? 0)
      then process_terminate_exception fuel (sched_get_current_process (kn_sched k)) k
      else Panic msg
  end.
End Syscall.

(** ** Reading a file *)

(** The numbers after [syscall_init]. *)
Lemma syscall_init_table t t' : syscall_init t = Ret t' ->
  syscallTable t' 0 = Some SysRead /\ syscallTable t' 1 = Some SysWrite /\ syscallTable t' 9 = Some SysMmap.
Proof. intros E. cbn in E. injection E as <-. splits; reflexivity. Qed.

Lemma int_arg x : 0 <= x < 2 ^ 31 -> i32 (i64 x) = x.
Proof. intros Hx. pow2_consts. wrap_lia. Qed.
Lemma long_arg x : 0 <= x < 2 ^ 63 -> u64 (i64 x) = x.
Proof. intros Hx. pow2_consts. wrap_lia. Qed.

Lemma good_fd_open {X H} p fd e (s : fal X H) :
  0 <= fd <= fdMax p -> fd < 2 ^ 31 -> fd_get (fdTable p) fd s = Ret e -> fd_file e <> 0 -> good_fd p fd s = Ret (Some e).
Proof.
  intros Hfd Hb Eg Hf. unfold good_fd. rewrite (wrap_small 64 fd) by (pow2_consts; lia).
  destruct (Z.gtb_spec fd (fdMax p)); [lia|]. rewrite Eg. cbn [mbind outcome_bind].
  now rewrite (proj2 (Z.eqb_neq _ 0) Hf).
Qed.

Section Read.
Context {X H P D : Type} `{KH : KernelHeap H} `{PA : PageAllocator P} `{HS : HasStorage X D}.
Variable ops : Z -> vnode_operations_t (fal X H).
Implicit Types (k : kernel X H P) (s : fal X H).

(** A vnode that is ready to be read by a function of its file system. *)
Definition readable (read : Z -> Z -> Z -> Z -> fal X H -> outcome (Z * fal X H)) s (v : Z) : Prop :=
  v_lock (f_vnodes s v) = false /\ v_type (f_vnodes s v) <> V_DIR /\
  v_vnodeops (f_vnodes s v) <> 0 /\ vn_read (ops (v_vnodeops (f_vnodes s v))) = Some read.

(** The state in which the file system is called: the vnode is locked. *)
Definition entered (v : Z) s : fal X H := upd_vnode v (w_vlock true) (set_errno 0 s).

Lemma entered_vnode v s : f_vnodes (entered v s) v = w_vlock true (f_vnodes s v).
Proof. unfold entered. cbn. now rewrite upd_eq. Qed.

Lemma vnode_read_readable read v size buf offset s (Q : Z * fal X H -> Prop) : readable read s v ->
  Returns (read v size buf offset (entered v s)) Q ->
  Returns (vnode_read ops v size buf offset s) (fun '(r, s') => exists s1, Q (r, s1) /\ s' = unlock_vnode v s1).
Proof.
  intros (L & T & O & R) HR. unfold vnode_read, lock_vnode, acquireLock.
  change (f_vnodes (set_errno 0 s)) with (f_vnodes s). rewrite L. cbn [mbind outcome_bind]. fold (entered v s).
  assert (table_of ops v (entered v s) ≫= vn_read = Some read) as ->.
  { unfold table_of. rewrite entered_vnode. cbn [v_vnodeops w_vlock]. rewrite (proj2 (Z.eqb_neq _ 0) O). exact R. }
  rewrite entered_vnode at 1. cbn [v_type w_vlock]. rewrite (proj2 (Z.eqb_neq _ V_DIR) T).
  eapply Returns_bind; [exact HR|]. intros [r s'] Hq. apply Returns_ret. now exists s'.
Qed.

(** What [call_file] leaves of the memory and the file layer. *)
Lemma call_file_spec (op : files_t -> fal X H -> outcome (Z * fal X H)) k (Q : Z -> fal X H -> Prop) :
  let cur := currentProcess (kn_sched k) in
  let pt := p_pt (proc k cur) in
  Returns (op (files_of (proc k cur)) (set_mem (seen pt k) (kfal k))) (fun '(r, f) => Q r f) ->
  Returns (call_file op k) (fun '(r, k') => exists f, Q r f /\
    (forall a, user (kn_exec k') pt a = if a <? VMM_USER_END then f_mem f a else user (kn_exec k) pt a) /\
    (forall a, kmem k' a = if a <? VMM_USER_END then kmem k a else f_mem f a) /\
    kfal k' = set_mem (kmem k') f /\ kvm k' = kvm k /\ threads (kn_sched k') = threads (kn_sched k) /\
    forall p, proc k' p = proc k p).
Proof.
  intros cur pt Hop. unfold call_file, call_files. fold cur. fold pt. eapply Returns_bind.
  - eapply Returns_bind; [exact Hop|]. intros [r f] HQ. apply Returns_ret.
    exact (conj HQ eq_refl : (fun '(r, p, f) => Q r f /\ p = files_of (proc k cur)) (r, files_of (proc k cur), f)).
  - intros [[r p] f] [HQ ->]. apply Returns_ret. exists f. splits; auto.
    + intros a. unfold put_seen. cbn. now rewrite upd_eq.
    + intros q. rewrite upd_proc_read. destruct (Z.eqb_spec q cur) as [->|]; [|reflexivity].
      change (w_files (files_of (proc k cur)) (proc k cur) = proc k cur). now destruct (proc k cur).
Qed.

(** A read of the file layer that touches the user's buffer alone is what the system call
    does, and the descriptor moves on by its result. *)
Lemma syscall_read_vnode fuel vfuel hhdm virt_base others t0 t result0 regs k e res s1 :
  let pr := proc k (currentProcess (kn_sched k)) in
  let fd := rdi regs in let buf := rsi regs in let count := rdx regs in
  syscall_init t0 = Ret t -> arch_syscall_number regs = 0 ->
  0 <= fd <= p_fdMax pr -> fd < 2 ^ 31 -> fd_get (p_fdTable pr) fd (kfal k) = Ret e ->
  fd_file e <> 0 -> has (fd_flags e) O_WRONLY && negb (has (fd_flags e) O_RDWR) = false ->
  0 <= fd_offset e -> fd_offset e + res < 2 ^ 64 ->
  0 <= buf < 2 ^ 63 -> 0 <= count < 2 ^ 63 -> 0 <= res < 2 ^ 31 -> buf + res <= VMM_USER_END ->
  vnode_read ops (fd_file e) count buf (fd_offset e) (set_mem (seen (p_pt pr) k) (kfal k)) = Ret (res, s1) ->
  f_tables s1 = f_tables (kfal k) -> (forall a, ~ (buf <= a < buf + res) -> f_mem s1 a = seen (p_pt pr) k a) ->
  Returns (syscall_handler fuel vfuel hhdm virt_base ops others t result0 regs k) (fun '(r, k') =>
    r = Some (w_rax res regs) /\
    (forall j, 0 <= j < res -> user (kn_exec k') (p_pt pr) (buf + j) = f_mem s1 (buf + j)) /\
    (forall a, ~ (buf <= a < buf + res) -> user (kn_exec k') (p_pt pr) a = user (kn_exec k) (p_pt pr) a) /\
    (forall a, kmem k' a = kmem k a) /\
    fd_get (p_fdTable pr) fd (kfal k') = Ret (mk_fd (fd_file e) (fd_offset e + res) (fd_flags e)) /\
    (forall j, j <> fd -> fd_get (p_fdTable pr) j (kfal k') = fd_get (p_fdTable pr) j (kfal k)) /\
    t_regs (thread k' (currentThread (kn_sched k))) = regs /\
    kfal k' = set_mem (kmem k') (set_tables (f_tables (kfal k')) s1)).
Proof.
  intros pr fd buf count Ht Hn Hfd Hfd31 Hget Hfile Hflags Hoff Hmove Hbuf Hcount Hres Hend Er Tab Same.
  assert (forall a, seen (p_pt pr) k a = if a <? VMM_USER_END then user (kn_exec k) (p_pt pr) a else kmem k a) as Em by reflexivity.
  unfold syscall_handler, sched_get_current_thread. set (k1 := upd_kthread _ _ k). rewrite Hn.
  replace (lookup_syscall t 0) with (Ret (Some SysRead)) by (apply syscall_init_table in Ht as (<- & _); reflexivity).
  cbn [mbind outcome_bind syscall]. unfold back, arch_syscall_arg0, arch_syscall_arg1, arch_syscall_arg2.
  rewrite (int_arg (rdi regs)), (long_arg (rsi regs)), (long_arg (rdx regs)) by (fold fd buf count; lia). fold fd buf count.
  pose proof (call_file_spec (fun p => sys_read ops p fd buf count) k1 (fun r f => r = res /\ exists tb, f = set_tables tb s1 /\
      fd_get (p_fdTable pr) fd f = Ret (mk_fd (fd_file e) (fd_offset e + res) (fd_flags e)) /\
      forall j, j <> fd -> fd_get (p_fdTable pr) j f = fd_get (p_fdTable pr) j (kfal k))) as HC.
  destruct HC as ([r k'] & Ec & Hk0).
  - eapply Returns_mono; [eapply (sys_read_moves_offset ops (files_of pr) fd buf count _ e res s1)|]; eauto.
    + now apply good_fd_open.
    + pow2_consts. lia.
    + lia.
    + intros [r f] (-> & Ef & G1 & G2). split; [reflexivity|]. exists (f_tables f). splits; [exact Ef| |exact G2].
      change (p_fdTable pr) with (fdTable (files_of pr)). rewrite G1, wrap_small by lia. reflexivity.
  - rewrite Ec. cbn [mbind outcome_bind option_map]. apply Returns_ret.
    destruct Hk0 as (f & (-> & tb & -> & G1 & G2) & Hu & Hk & Hf & _ & Hth & _).
    cbn [f_mem set_tables] in Hu, Hk. fold pr in Hu. splits.
    + unfold arch_syscall_return. rewrite (swrap_small 32), wrap_small by (pow2_consts; lia). reflexivity.
    + intros j Hj. rewrite Hu, (proj2 (Z.ltb_lt _ _)) by lia. reflexivity.
    + intros a Ha. rewrite Hu. destruct (Z.ltb_spec a VMM_USER_END); [|reflexivity].
      rewrite Same, Em, (proj2 (Z.ltb_lt _ _)) by lia. reflexivity.
    + intros a. rewrite Hk. destruct (Z.ltb_spec a VMM_USER_END); [reflexivity|].
      rewrite Same, Em, (proj2 (Z.ltb_ge _ _)) by lia. reflexivity.
    + rewrite Hf. exact G1.
    + intros j Hj. rewrite Hf. exact (G2 j Hj).
    + unfold thread. rewrite Hth. unfold k1, upd_kthread. cbn. now rewrite upd_eq.
    + rewrite Hf at 1. f_equal. rewrite Hf. reflexivity.
Qed.
End Read.

(** A vnode of the ram disk that is ready to be read. *)
Definition open_file {H} (ops : Z -> vnode_operations_t (fal initrd_state H)) s (v : Z) : Prop :=
  readable ops initrd_read s v /\ v_fsData (f_vnodes s v) <> 0 /\ 0 <= v_size (f_vnodes s v) < 2 ^ 64.

Lemma vnode_read_ramdisk {H} (ops : Z -> vnode_operations_t (fal initrd_state H)) v size buf offset s :
  open_file ops s v ->
  let x := f_vnodes s v in
  let start := startOffset (f_x s) (v_fsData x) in
  0 <= size -> 0 <= offset -> buf + size <= start \/ start + v_size x <= buf ->
  let n := Z.min size (Z.max 0 (v_size x - offset)) in
  Returns (vnode_read ops v size buf offset s) (fun '(r, s') =>
    r = n /\ f_tables s' = f_tables s /\
    (forall j, 0 <= j < n -> f_mem s' (buf + j) = f_mem s (start + offset + j)) /\
    (forall a, ~ (buf <= a < buf + n) -> f_mem s' a = f_mem s a)).
Proof.
  intros (R & D0 & Sz) x start Hs Ho Hd n. eapply Returns_mono.
  - eapply (vnode_read_readable ops initrd_read v size buf offset s); [exact R|].
    apply (initrd_read_spec v size buf offset (entered v s)); rewrite ?entered_vnode; auto.
  - rewrite entered_vnode. intros [r s'] (s1 & (R1 & R2 & R3 & R4) & ->). splits; auto. rewrite R4. reflexivity.
Qed.

(** A [read] system call on an open file of the ram disk stores in the memory of the
    caller exactly the bytes of the file from the offset of the descriptor on, as many as
    asked for and there are, advances the offset by their number and returns it; nothing
    else in the memory of the caller or of the kernel, no other descriptor and no other
    register changes. *)
Theorem syscall_read_file {H P D} `{KH : KernelHeap H} `{PA : PageAllocator P} `{HS : HasStorage initrd_state D}
    fuel vfuel hhdm virt_base ops others t0 t result0 regs (k : kernel initrd_state H P) e :
  let pr := proc k (currentProcess (kn_sched k)) in
  let mine := user (kn_exec k) (p_pt pr) in
  let fd := rdi regs in let buf := rsi regs in let count := rdx regs in
  let v := f_vnodes (kfal k) (fd_file e) in
  let start := startOffset (f_x (kfal k)) (v_fsData v) in
  let n := Z.min count (Z.max 0 (v_size v - fd_offset e)) in
  syscall_init t0 = Ret t -> arch_syscall_number regs = 0 ->
  0 <= fd <= p_fdMax pr -> fd < 2 ^ 31 -> fd_get (p_fdTable pr) fd (kfal k) = Ret e ->
  fd_file e <> 0 -> has (fd_flags e) O_WRONLY && negb (has (fd_flags e) O_RDWR) = false -> 0 <= fd_offset e < 2 ^ 64 ->
  open_file ops (kfal k) (fd_file e) -> VMM_USER_END <= start ->
  0 <= buf -> 0 <= count < 2 ^ 31 -> buf + count <= VMM_USER_END ->
  Returns (syscall_handler fuel vfuel hhdm virt_base ops others t result0 regs k) (fun '(r, k') =>
    r = Some (w_rax n regs) /\
    (forall j, 0 <= j < n -> user (kn_exec k') (p_pt pr) (buf + j) = kmem k (start + fd_offset e + j)) /\
    (forall a, ~ (buf <= a < buf + n) -> user (kn_exec k') (p_pt pr) a = mine a) /\
    (forall a, kmem k' a = kmem k a) /\
    fd_get (p_fdTable pr) fd (kfal k') = Ret (mk_fd (fd_file e) (fd_offset e + n) (fd_flags e)) /\
    (forall j, j <> fd -> fd_get (p_fdTable pr) j (kfal k') = fd_get (p_fdTable pr) j (kfal k)) /\
    t_regs (thread k' (currentThread (kn_sched k))) = regs).
Proof.
  intros pr mine fd buf count v start n Ht Hn Hfd Hfd31 Hget Hfile Hflags Hoff Hopen Hstart Hbuf Hcount Hend.
  pose proof Hopen as (_ & _ & Hsize). fold v in Hsize. unfold VMM_USER_END in Hend, Hstart.
  set (s0 := set_mem (seen (p_pt pr) k) (kfal k)).
  destruct (vnode_read_ramdisk ops (fd_file e) count buf (fd_offset e) s0 Hopen ltac:(lia) ltac:(lia)
    ltac:(left; change (buf + count <= start); lia)) as ([res s1] & Er & R1 & Tab & Bytes & Same).
  change (f_vnodes s0) with (f_vnodes (kfal k)) in *. fold v in R1, Bytes, Same. fold n in R1, Bytes, Same.
  change (startOffset (f_x s0) (v_fsData v)) with start in Bytes. subst res.
  eapply Returns_mono; [apply (syscall_read_vnode ops fuel vfuel hhdm virt_base others t0 t result0 regs k e n s1); auto; fold buf count;
    unfold VMM_USER_END; pow2_consts; lia|].
  intros [r k'] (R1 & R2 & R3 & R4 & R5 & R6 & R7 & _). splits; auto. intros j Hj.
  rewrite R2, Bytes by lia. change (f_mem s0) with (seen (p_pt pr) k). unfold seen.
  rewrite (proj2 (Z.ltb_ge _ _)) by (unfold VMM_USER_END; lia). reflexivity.
Qed.

(** The file [bin/sh] of the ram disk, open as descriptor 3 of process 70 at offset 1. *)
#[local] Instance demo_heap : KernelHeap (kheap_state pmm_state) := kheap_heap HHDM.

(** No drives: the calls of the file system do not reach the block cache. *)
#[local] Instance no_drives : HasStorage initrd_state unit :=
  {| storage_of _ := storage_demo; put_storage _ x := x |}.

Definition read_fal : fal initrd_state (kheap_state pmm_state) :=
  mk_fal (fun _ => mk_vnode (chars "bin/sh") 0 0 V_REG 5 1 false 0 7 50 64 0 0) (fun _ => mk_vfs 0 0 0 0 false false 0)
    0 0 7 7 1 0 (bytes_at VMM_USER_END (chars "hello")) heap_demo
    {[900 := [empty_fd; empty_fd; empty_fd; mk_fd 100 1 O_RDONLY]]} (mk_initrd 0 (fun _ => VMM_USER_END)).

Definition read_kernel : kernel initrd_state (kheap_state pmm_state) pmm_state :=
  mk_kernel (mk_exec read_fal vm_demo (fun _ _ => 0))
    (mk_sched (fun _ => mk_thread 0 frame0 0 [] 0 0 70) (fun _ => mk_process 0 1 0 0 4096 900 3 0 60 0 0) None 0 60 70
       (mk_cpu [] 0 0 0)) 70 70 70 2.

Definition read_frame : stack_frame_t :=
  mk_frame 0 0 0 0 0 0 0 0 0 3 8192 0 0 100 0 0 0 0 0 0 0 0 0.

Lemma syscall_read_file_witness : exists t, syscall_init (mk_tables (fun _ => None) (fun _ => None)) = Ret t /\
  Returns (syscall_handler 1 1 0 0 (fun _ => initrd_ops 1 50 50) id t 77 read_frame read_kernel) (fun '(r, k') =>
    r = Some (w_rax 4 read_frame) /\ map (user (kn_exec k') 4096) [8191; 8192; 8193; 8194; 8195; 8196] = 0 :: chars "ello" ++ [0] /\
    fd_get 900 3 (kfal k') = Ret (mk_fd 100 5 O_RDONLY)).
Proof.
  destruct (syscall_init (mk_tables (fun _ => None) (fun _ => None))) as [t|?| | |] eqn:Et; try discriminate Et.
  exists t. split; [reflexivity|]. eapply Returns_mono.
  - apply (syscall_read_file 1 1 0 0 (fun _ => initrd_ops 1 50 50) id (mk_tables (fun _ => None) (fun _ => None)) t 77
             read_frame read_kernel (mk_fd 100 1 O_RDONLY)).
    1: exact Et.
    3: reflexivity.
    3: vm_compute; reflexivity.
    3: discriminate.
    3: reflexivity.
    4: unfold open_file, readable; cbn; splits; (reflexivity || discriminate || lia).
    all: repeat match goal with |- _ /\ _ => split end; vm_compute; (reflexivity || discriminate).
  - intros [r k'] (R1 & R2 & R3 & _ & R5 & _). splits; [exact R1| |exact R5].
    assert (forall a, ~ (8192 <= a < 8196) -> user (kn_exec k') 4096 a = 0) as N by (intros a; exact (R3 a)).
    assert (forall j, 0 <= j < 4 -> user (kn_exec k') 4096 (8192 + j) = bytes_at VMM_USER_END (chars "hello") (VMM_USER_END + 1 + j)) as B
      by (intros j; exact (R2 j)).
    cbn [map]. rewrite (N 8191), (N 8196) by lia. pose proof (B 0 ltac:(lia)) as B0. pose proof (B 1 ltac:(lia)) as B1.
    pose proof (B 2 ltac:(lia)) as B2. pose proof (B 3 ltac:(lia)) as B3. change (8192 + 0) with 8192 in B0.
    change (8192 + 1) with 8193 in B1. change (8192 + 2) with 8194 in B2. change (8192 + 3) with 8195 in B3.
    rewrite B0, B1, B2, B3. reflexivity.
Defined.

(** An unknown call number below 255 does not return [-ENOSYS] but what the variable
    happened to hold. *)
Theorem unknown_syscall_garbage {X H P D} `{KH : KernelHeap H} `{PA : PageAllocator P} `{HS : HasStorage X D}
    fuel vfuel hhdm virt_base ops others t0 t result0 regs (k : kernel X H P) :
  syscall_init t0 = Ret t -> syscallTable t0 = (fun _ => None) -> arch_syscall_number regs = 5 ->
  Returns (syscall_handler fuel vfuel hhdm virt_base ops others t result0 regs k) (fun '(r, _) =>
    r = Some (w_rax (u64 result0) regs)).
Proof.
  intros Ht E0 En. unfold syscall_handler. rewrite En.
  replace (lookup_syscall t 5) with (Ret (A := option sysfun) None); [now apply Returns_ret|].
  cbn in Ht. injection Ht as <-. cbn. now rewrite E0.
Qed.

(** The handler calls every function as one returning [int]: an address from 2 GiB on
    that [mmap] has mapped is not the address the process gets. *)
Theorem mmap_address_truncated {X H P D} `{KH : KernelHeap H} `{PA : PageAllocator P} `{HS : HasStorage X D}
    fuel vfuel hhdm virt_base ops others t0 t result0 regs (k k' : kernel X H P) a :
  syscall_init t0 = Ret t -> arch_syscall_number regs = 9 ->
  (syscall fuel vfuel hhdm virt_base ops others SysMmap (arch_syscall_arg0 regs) (arch_syscall_arg1 regs)
     (arch_syscall_arg2 regs) (arch_syscall_arg3 regs) (arch_syscall_arg4 regs) (arch_syscall_arg5 regs)
     (upd_kthread (currentThread (kn_sched k)) (w_regs regs) k) = Ret (Some a, k')) ->
  2 ^ 31 <= a < VMM_USER_END ->
  Returns (syscall_handler fuel vfuel hhdm virt_base ops others t result0 regs k) (fun '(r, _) =>
    match r with Some f => rax f <> a | None => False end).
Proof.
  intros Ht En Hs Ha. unfold syscall_handler. rewrite En.
  replace (lookup_syscall t 9) with (Ret (Some SysMmap)) by (apply syscall_init_table in Ht as (_ & _ & <-); reflexivity).
  cbn [mbind outcome_bind]. unfold sched_get_current_thread. rewrite Hs. cbn [mbind outcome_bind option_map]. apply Returns_ret. cbn. unfold VMM_USER_END in Ha.
  wrap_lia.
Qed.
