(* ===== verification/DiskRead.v ===== *)
(** * A system call down to the disk

    The components put together: the system call handler ([Syscall]), the descriptor
    tables and vnodes ([Vnode]), the FAT driver ([FatFs]), the block cache and the drives
    ([Bcache]) and the AHCI driver ([Ahci]) on a port that keeps the promises of
    [AhciPort].  No code of its own is modelled here. *)

From S2P Require Import Prelude Links Interfaces MemMap Pmm MemUtil Kheap Paging Vmm ListDs Path Vnode Initrd Bytes Module Elf ExecStack Sched Process Bcache Gpt Ports Ide Ahci Fat FatFs Syscall.
#[local] Open Scope Z_scope.

Section DiskRead.
Context {W : Type} {HB : Hba W} (d : ahci_drive_t) {CH : AhciPort W (ah_port d)}.
Context {H P : Type} `{KH : KernelHeap H} `{PA : PageAllocator P}.
Variable hfuel : nat.
Variables (vfs start : Z) (md : fat_metadata_t) (secs : Z) (med : Z -> list Z).
Implicit Types (s : fal (fat_state W) H) (k : kernel (fat_state W) H P).

(** A FAT32 file system mounted from a partition of a SATA disk of [secs] sectors [med]:
    the drive reads through the AHCI driver, whose port is ready, and the block cache of
    [n] buffers is idle. *)
Record sata_fat (n : nat) s : Prop := {
  sf_type : fm_type (mount_of s vfs) = FILESYS_TYPE_FAT32;
  sf_meta : fm_context (mount_of s vfs) = md;
  sf_start : partition_start s vfs = Ret start;
  sf_driver : d_read (drives (disk s) (fm_drive (mount_of s vfs))) = Some (ahci_d_read hfuel d);
  sf_slots : 1 <= maxCommands d;
  sf_lba : Z.land (capabilities (ah_idSpace d)) (Z.shiftl 1 9) <> 0;
  sf_size : secs <= 2 ^ 48;
  sf_port : ahci_serving hfuel hpages secs med (hview (dev (disk s)));
  sf_sectors : forall x, 0 <= x < secs -> sector (med x);
  sf_idle : exists l, idle (disk s) l /\ length l = n
}.

(** The interfaces meet: what the AHCI driver promises is what the FAT driver needs. *)
Lemma sata_fat_mounted n s : sata_fat n s -> mounted vfs start md secs med s n.
Proof. intros []. split; auto. now apply (ahci_serves d hfuel). Qed.

(** A file of [size] bytes whose clusters are [cs]. *)
Record fat_file (size : Z) (cs : list Z) : Prop := {
  ff_sector : bytesPerSector (bpb md) = 512;
  ff_cluster : 1 <= sectorsPerCluster (bpb md) < 256;
  ff_chain : chain med (start + firstFATSector md) cs;
  ff_drive : Forall (on_drive secs start md) cs;
  ff_size : 0 <= size < 2 ^ 32;
  ff_short : Z.of_nat (length cs) * (sectorsPerCluster (bpb md) * 512) < 2 ^ 62
}.

Variable ops : Z -> vnode_operations_t (fal (fat_state W) H).
Variables (ffuel : nat) (stack : list Z).

Lemma vnode_read_fat v size buf offset s cs n : let x := f_vnodes s v in
  let spc := sectorsPerCluster (bpb md) in
  readable ops (fat_read ffuel stack) s v -> v_vfs x = vfs -> mounted vfs start md secs med s n -> fat_file (v_size x) cs ->
  firstCluster (f_x s) (v_fsData x) = first_v 0 cs -> (n < ffuel)%nat -> (length cs < ffuel)%nat ->
  0 <= size <= v_size x -> 0 <= offset < v_size x -> offset + size <= Z.of_nat (length cs) * (spc * 512) ->
  Returns (vnode_read ops v size buf offset s) (fun '(r, s') => size <= r <= size + 1 + spc /\
    (forall j, 0 <= j < size -> f_mem s' (buf + j) = file_byte med start md cs (offset + j)) /\
    (forall a, ~ (buf <= a < buf + r) -> f_mem s' a = f_mem s a) /\
    mounted vfs start md secs med s' n /\ f_tables s' = f_tables s /\ (forall q, f_vnodes s' q = f_vnodes s q) /\
    firstCluster (f_x s') = firstCluster (f_x s)).
Proof.
  intros x spc R Ev [Ht Hmd Hst Hsv Hi] [F1 F2 F3 F4 F5 F6] Hfc Hn Hcs Hs Ho Hc. pose proof R as (L & _). eapply Returns_mono.
  - eapply (vnode_read_readable ops _ v size buf offset s); [exact R|].
    apply (fat_read_spec ffuel stack v size buf offset (entered v s) start md secs med cs n); rewrite ?entered_vnode; auto; try tauto.
    change (mounted (v_vfs x) start md secs med (entered v s) n). rewrite Ev. now split.
  - rewrite entered_vnode. intros [r s'] (s1 & (R1 & R2 & R3 & M & m & st & ->) & ->).
    cbn [v_vfs w_vlock] in M. fold x in M. rewrite Ev in M. destruct M.
    splits; auto; try lia; [now split|]. intros q. cbn. unfold upd. destruct (Z.eqb_spec q v) as [->|]; [|reflexivity].
    rewrite Z.eqb_refl. unfold x in L. destruct (f_vnodes s v). cbn in L. subst. reflexivity.
Qed.
End DiskRead.

(** C12: a [read] system call on a file of a FAT32 file system on a SATA disk goes through
    the descriptor, the vnode, the chain of clusters, the block cache and the commands of
    the controller, terminates, and stores in the buffer of the caller the bytes of the
    file that are on the disk.  The number it returns is at least the number asked for and
    more by at most a sector count and one; the offset advances by it, and as many bytes from
    the start of the buffer on may be changed: those behind the bytes asked for overrun the
    buffer with values the theorem does not give.  The addresses that can be written are
    mapped in the caller's address space, so that no store faults.  The memory of the caller
    outside of them, the memory of the kernel, the other descriptors and the vnodes are as
    before, and the file system can be read again. *)
Theorem syscall_read_sata_file {W} {HB : Hba W} d {CH : AhciPort W (ah_port d)} {H P} `{KH : KernelHeap H} `{PA : PageAllocator P}
    hfuel ffuel stack fuel vfuel hhdm virt_base ops others t0 t result0 regs (k : kernel (fat_state W) H P) e start md secs med cs n :
  let pr := proc k (currentProcess (kn_sched k)) in
  let fd := rdi regs in let buf := rsi regs in let count := rdx regs in
  let v := f_vnodes (kfal k) (fd_file e) in
  let spc := sectorsPerCluster (bpb md) in
  syscall_init t0 = Ret t -> arch_syscall_number regs = 0 ->
  0 <= fd <= p_fdMax pr -> fd < 2 ^ 31 -> fd_get (p_fdTable pr) fd (kfal k) = Ret e ->
  fd_file e <> 0 -> has (fd_flags e) O_WRONLY && negb (has (fd_flags e) O_RDWR) = false ->
  readable ops (fat_read ffuel stack) (kfal k) (fd_file e) -> sata_fat d hfuel (v_vfs v) start md secs med n (kfal k) ->
  fat_file start md secs med (v_size v) cs -> firstCluster (f_x (kfal k)) (v_fsData v) = first_v 0 cs ->
  (n < ffuel)%nat -> (length cs < ffuel)%nat ->
  0 <= fd_offset e < v_size v -> 0 <= count <= v_size v -> fd_offset e + count <= Z.of_nat (length cs) * (spc * 512) ->
  0 <= buf -> count + 1 + spc < 2 ^ 31 -> buf + count + 1 + spc <= VMM_USER_END ->
  (forall a, buf <= a < buf + count + 1 + spc -> vxlate (x_vm (kn_exec k)) (p_pt pr) a <> None) ->
  Returns (syscall_handler fuel vfuel hhdm virt_base ops others t result0 regs k) (fun '(r, k') => exists res,
    r = Some (w_rax res regs) /\ count <= res <= count + 1 + spc /\
    (forall j, 0 <= j < count -> user (kn_exec k') (p_pt pr) (buf + j) = file_byte med start md cs (fd_offset e + j)) /\
    (forall a, ~ (buf <= a < buf + res) -> user (kn_exec k') (p_pt pr) a = user (kn_exec k) (p_pt pr) a) /\
    (forall a, kmem k' a = kmem k a) /\
    fd_get (p_fdTable pr) fd (kfal k') = Ret (mk_fd (fd_file e) (fd_offset e + res) (fd_flags e)) /\
    (forall j, j <> fd -> fd_get (p_fdTable pr) j (kfal k') = fd_get (p_fdTable pr) j (kfal k)) /\
    (forall q, f_vnodes (kfal k') q = f_vnodes (kfal k) q) /\ mounted (v_vfs v) start md secs med (kfal k') n).
Proof.
  intros pr fd buf count v spc Ht Hn Hfd Hfd31 Hget Hfile Hflags Hr Hsf Hff Hfc Hnf Hcs Ho Hc Hcap Hbuf Hsmall Hend _.
  pose proof (ff_cluster _ _ _ _ _ _ Hff) as Hspc. pose proof (ff_size _ _ _ _ _ _ Hff) as Hsize. fold spc in Hspc. unfold VMM_USER_END in Hend.
  set (s0 := set_mem (seen (p_pt pr) k) (kfal k)).
  assert (mounted (v_vfs v) start md secs med s0 n) as Hm by (destruct (sata_fat_mounted _ _ _ _ _ _ _ _ _ Hsf); now split).
  destruct (vnode_read_fat (v_vfs v) start md secs med ops ffuel stack (fd_file e) count buf (fd_offset e) s0 cs n Hr eq_refl Hm Hff Hfc
    Hnf Hcs Hc Ho Hcap) as ([res s1] & Er & R1 & R2 & R3 & R4 & R5 & R6 & R7). fold spc in R1.
  eapply Returns_mono; [apply (syscall_read_vnode ops fuel vfuel hhdm virt_base others t0 t result0 regs k e res s1); auto;
    fold buf count; unfold VMM_USER_END; pow2_consts; lia|].
  intros [r k'] (S1 & S2 & S3 & S4 & S5 & S6 & S7 & S8). exists res. splits; auto; try lia.
  - intros j Hj. rewrite S2 by lia. now apply R2.
  - intros q. rewrite S8. exact (R6 q).
  - rewrite S8. destruct R4. now split.
Qed.

(** The file of 1500 bytes of [FatFs], now on a SATA disk of 100 sectors and open as
    descriptor 3 of process 70 at offset 1020. *)
#[local] Existing Instance demo_hba.
#[local] Existing Instance demo_port.
#[local] Instance demo_heap : KernelHeap (kheap_state pmm_state) := kheap_heap HHDM.

Definition sata_storage : storage hport :=
  mk_stor 1 2 (bc_buf fat_demo_storage) false
    (fun _ => mk_drive false 1 0 (Some (ahci_d_read 3 demo_ahci)) None 1 [mk_part 0 99 0 false 0 true] false 0)
    (demo_port_of 100 fat_demo_blk 0) 0.

Definition sata_fal : fal (fat_state hport) (kheap_state pmm_state) :=
  mk_fal (fun _ => mk_vnode (chars "a.txt") 0 0 V_REG 1500 0 false 0 7 50 64 0 0) (fun _ => mk_vfs 0 0 0 0 false false 0)
    0 0 7 7 1 0 (fun _ => 0) heap_demo {[900 := [empty_fd; empty_fd; empty_fd; mk_fd 100 1020 O_RDONLY]]}
    (mk_fat sata_storage (fun _ => mk_mount 5 0 [] FILESYS_TYPE_FAT32 fat_demo_md) (fun _ => 2) lfn_start).

Definition sata_kernel : kernel (fat_state hport) (kheap_state pmm_state) pmm_state :=
  mk_kernel (mk_exec sata_fal vm_mapped (fun _ _ => 0)) (kn_sched read_kernel) 70 70 70 2.

Definition sata_frame : stack_frame_t := mk_frame 0 0 0 0 0 0 0 0 0 3 4198400 0 0 10 0 0 0 0 0 0 0 0 0.

Lemma fat_demo_sector x : 0 <= x < 100 -> sector (fat_demo_blk x).
Proof.
  intros Hx. unfold fat_demo_blk. destruct (x =? 1).
  - split; [reflexivity|]. apply (bool_decide_unpack _). vm_compute. exact I.
  - split; [apply List.repeat_length|]. apply Forall_forall. intros y Hy%list_elem_of_In%List.repeat_spec. subst y. red. lia.
Qed.

Lemma sata_demo_mounted : sata_fat demo_ahci 3 7 0 fat_demo_md 100 fat_demo_blk 2 sata_fal.
Proof.
  split.
  1-4: reflexivity.
  1-3: vm_compute; discriminate.
  - split; [apply demo_port_ready|apply demo_port_room|reflexivity|reflexivity].
  - exact fat_demo_sector.
  - exists [1; 2]. split; [|reflexivity]. split; [|split; [cbn; lia|repeat constructor]]. split; try reflexivity.
    + vm_compute. repeat split.
    + split; [apply (bool_decide_unpack _); vm_compute; exact I|repeat constructor; discriminate].
    + intros b Hb. cbn. now destruct (b =? 1).
Qed.

Lemma sata_demo_file : fat_file 0 fat_demo_md 100 fat_demo_blk 1500 [2; 3].
Proof.
  split.
  4: repeat constructor; try (intros j Hj; assert (j = 0 \/ j = 1) as [->| ->] by (cbn in Hj; lia)); vm_compute; reflexivity.
  all: vm_compute; repeat split; congruence.
Qed.

Lemma syscall_read_sata_file_witness : exists t, syscall_init (mk_tables (fun _ => None) (fun _ => None)) = Ret t /\
  Returns (syscall_handler 1 1 0 0 (fun _ => fat_ops 3 50 []) id t 77 sata_frame sata_kernel) (fun '(r, k') => exists res,
    r = Some (w_rax res sata_frame) /\ 10 <= res <= 13 /\
    user (kn_exec k') 4096 (4198400 + 3) = 3 /\ user (kn_exec k') 4096 (4198400 + 4) = 4).
Proof.
  destruct (syscall_init (mk_tables (fun _ => None) (fun _ => None))) as [t|?| | |] eqn:Et; try discriminate Et.
  exists t. split; [reflexivity|]. eapply Returns_mono.
  - apply (syscall_read_sata_file demo_ahci (CH := demo_port) 3 3 [] 1 1 0 0 (fun _ => fat_ops 3 50 []) id
             (mk_tables (fun _ => None) (fun _ => None)) t 77 sata_frame sata_kernel (mk_fd 100 1020 O_RDONLY) 0 fat_demo_md 100
             fat_demo_blk [2; 3] 2).
    all: lazymatch goal with |- forall a : Z, _ -> vxlate _ _ _ <> None => intros a Ha; cbn in Ha; rewrite (xlate_same_page 4096 vm_mapped 4198400 a);
      [vm_compute; discriminate|lia|lia|unfold vpage; change (2 ^ 36) with 68719476736; dm] | _ => idtac end.
    8: unfold readable; cbn; splits; (reflexivity || discriminate).
    8: exact sata_demo_mounted.
    8: exact sata_demo_file.
    all: try exact Et; try reflexivity; try (vm_compute; reflexivity); try discriminate; try (cbn; lia); vm_compute; repeat split; congruence.
  - intros [r k'] (res & R1 & R2 & R3 & _). exists res. splits; [exact R1| | | |]; try exact (proj1 R2); try exact (proj2 R2).
    + refine (eq_trans (R3 3 _) _); [cbn; lia|vm_compute; reflexivity].
    + refine (eq_trans (R3 4 _) _); [cbn; lia|vm_compute; reflexivity].
Defined.
